(* ===== verification/_CoqProject ===== *)
-Q . S2P
Prelude.v
Bitset.v
Memory.v
Heap.v
HeapIndex.v
HeapBlocks.v
HeapOps.v
HeapAlloc.v
HeapFree.v
HeapSpec.v
Kernel.v
Paging.v
Sched.v
Timer.v
Objects.v
Segments.v
Unmap.v
Spaces.v
Tasking.v
System.v
Keeps.v
Creation.v
Exit.v
Requests.v
Syscalls.v
Life.v
LifeSpawn.v
LifeExit.v
LifeSpec.v
Strings.v
Elf.v
Entry.v
Start.v
Kmem.v
KHeap.v
KFree.v
Boot.v
Console.v
Panic.v
Desc.v
Kmain.v
UShm.v
Mutex.v
User.v
Server.v
Calls.v
Manager.v
TestModule.v
