(* ===== verification/Prelude.v ===== *)
(** * Grapes: a verification development for the kernel and its user library

    Grapes is a micro-kernel for i586 with a C library for user processes.
    Paths below are relative to [src/src].

    ** The program

    The kernel ([kernel/]) has threads and processes ([task/]), objects
    that processes call each other through ([ipc/]), and address spaces
    made of segments ([mem/]).  A system call or an interrupt enters in
    [task/idt.c]; the scheduler ([task/sched.c]) chooses who runs next; a
    page fault is answered by the segment that covers the address
    ([mem/paging.c], [mem/seg.c], [ipc/shm.c]); physical frames come from
    a bitset ([lib/bitset.c]) and structures from the kernel heap
    ([mem/heap.c], [mem/mem.c]).  [linker/elf.c] loads programs.

    The library ([library/]) runs in each process: the stubs of the system
    calls ([gc/syscall.c]), a heap ([gc/mem.c]), an allocator of
    shared-memory addresses ([gc/shm.c]), servers that answer the requests
    sent to an object ([gc/server.c]) and the functions that send them
    ([gm/]).  [modules/manager] is the process that names services.

    ** How the model is made

    A C function on a state [S] is a function [M S A = S -> res (A * S)]:
    it answers a value and the new state, or a [fault] -- a null or
    dangling access, an access outside the memory, a failed [ASSERT].
    Words are [Z] with the wrap-around written out ([w32], [w16], [w8]).
    Two kinds of memory are used.  Where the code computes with addresses
    (heaps, strings) the memory is a function from addresses to bytes
    ([Memory]).  Where it follows pointers to structures (the kernel, the
    servers) each structure type has a store indexed by address
    ([Kernel.kstore], [User]), and freeing removes the structure, so a use
    after it is a fault.

    - [Prelude]: words, the monad, its weakest precondition [wp], loops
      with fuel, linked lists in a store ([linked]), tactics and hints.
    - [Bitset]: [kernel/lib/bitset.c], [frame_alloc] and [frame_free].
    - [Memory]: byte memory, little-endian words.
    - [Heap], [HeapIndex], [HeapBlocks], [HeapOps], [HeapAlloc],
      [HeapFree], [HeapSpec]: [kernel/mem/heap.c] and
      [library/gc/mem.c], one algorithm over a class [HeapBacking] with
      three instances: a set of pages and the user's segment in [Heap], the
      kernel's page tables in [KHeap].  [Heap] has the code; [HeapIndex] and
      [HeapBlocks] the abstraction (a sorted list of holes, a tiling of the
      area by blocks) and the invariant; [HeapAlloc] states the laws of a
      backing and proves allocation from them, [HeapFree] freeing, and
      [HeapSpec] has the contracts.
    - [Kernel]: the structures and globals of the kernel.
    - [Paging], [Segments], [Elf]: [kernel/mem/paging.c],
      [kernel/mem/seg.c], [kernel/ipc/shm.c], [kernel/linker/elf.c].
      [Unmap] proves the unmapping of segments on them, and [Spaces] what
      a page fault does to all address spaces together.
    - [Sched], [Timer], [Tasking]: [kernel/task/sched.c], [timer.c],
      [task.c] and the handlers of [idt.c].  A switch of context is the
      saving of a thread's registers and the choice of [current_thread].
      [System] makes these functions the events of a transition system;
      [Keeps] goes through their code for what they leave alone.
    - [Creation], [Exit]: [thread_new] and [thread_delete] proved right.
      [Life], [LifeSpawn], [LifeExit], [LifeSpec]: the events of [System]
      with the creation and the end of threads and with page faults, as one
      transition system, its invariant, and that every action keeps it.
    - [Entry], [Start]: the first run of a thread ([thread_run], with the
      faults of its stack), and the end of [kmain], which brings the state
      to the invariant of [System].
    - [Objects], [Requests]: [kernel/ipc/object.c], [request.c],
      [kernel/lib/mutex.c].  A function that blocks answers the
      continuation [kcont] from which [resume] takes it up, so the
      interleaving of the two ends of a call is explicit.
    - [Syscalls]: [kernel/task/syscall.c], the handler, and the stubs of
      [library/gc/syscall.c].
    - [Kmem], [KHeap]: [kernel/mem/mem.c].  [Kmem] has the pages kept in
      advance, and how filling that cache comes back to itself through the
      page tables; [KHeap] puts the heap on these pages ([kmalloc], [kfree],
      [kheap_init]) and proves the laws of a backing for them; [KFree] is
      about what [kfree] gives back.
    - [Boot]: [paging_init] and [paging_cleanup] of [kernel/mem/paging.c],
      and the placing of the modules of [kernel/core/kmain.c].
    - [Kmain]: the whole of [kmain], on a state that has those of [Desc],
      [KHeap] and [Start] in it.
    - [Desc]: [kernel/mem/gdt.c], the interrupt table of [idt.c], what
      [timer_init] sends to the timer.
    - [Panic]: the reports of [kernel/core/sys.c] and of the exception
      handlers.
    - [Console], [Strings]: [kernel/core/monitor.c],
      [library/std/stdio.c], [library/std/string.c],
      [kernel/lib/stdlib.c].
    - [Mutex]: [library/std/mutex.c], used by any number of threads whose
      steps interleave.
    - [UShm], [User], [Server], [Calls], [Manager], [TestModule]: the user
      library, the manager and [modules/test].  They call the kernel through the class [User.UserSys];
      [UserSysLaws] is what its clients rely on, and [User.script] a
      kernel that has messages to deliver.

    ** What is shown

    - Allocators: frames, both heaps and the shared-memory area give out
      fresh, disjoint pieces, choose the piece the code means to choose
      (lowest frame, smallest hole), keep their invariant and leave what
      others hold alone; freeing undoes allocation and merges neighbours.
    - Memory set-up: the modules are placed below the early allocations,
      the kernel is mapped where it is linked and the low addresses are
      unmapped; the page cache gives out pages no one holds, whatever
      tables filling it again needs.  The kernel heap is made on frames of
      its own and grows by as many as it needs, with the page tables and
      cache pages that takes, while the pages of others, their mappings and
      the rest of the kernel stay as they are; freeing its end gives the
      pages and their frames back.
    - Scheduling: queues are FIFO, the most urgent level is served first,
      a preempted thread is queued with its context, a blocked one is not;
      sleepers are kept in order and woken when due; an interrupt wakes all
      who wait for it.  In every state that any sequence of these events
      reaches, the next event runs to its end and no thread is lost.
    - Lives of threads: with creation, exit, exceptions and page faults as
      further actions, in any order, the next action still runs to its end;
      a process has exactly its threads in its list; a thread's stacks are
      its own, disjoint from those of others, in frames that no other page
      of a user half shows; the frames of its user stack are free when it is
      gone.  The memory that structures are made in may hold anything; only
      the end of a kernel or driver thread, whose [userStack_seg] the code
      never sets, is an action only where that memory was clear, and
      exceptions are those whose name the code has.
    - Mutexes: interleaved threads exclude each other and none is locked
      out for ever; their sections have the effect of some order.
    - Start: from the state the boot loader leaves, [kmain] runs to its
      task switch.  Each of its steps leaves what the next one needs; the
      processor's tables, the page tables, the heap and the page cache are
      right; the boot modules are loaded, each with one thread that waits
      for its first turn; the idle thread runs first, and from there on the
      system keeps its invariant.  A new thread's first run enters user mode
      at its entry point, on a stack of its own.  The bitset of frames has
      room for the first quarter of memory only, and its other words are the
      kernel's directory: the theorems suppose that what is taken lies in
      that quarter, and that memory not yet written is zero.
    - Memory: a fault inside a segment maps a fresh frame at that page with
      the rights of the segment, a fault elsewhere changes nothing;
      unmapping frees these frames and no other, those of a shared segment
      when it was mapped last; an executable is loaded byte by byte through such faults.
    - Communication: a descriptor reads back to its object; creating and
      closing are inverse; a blocking request with integer parameters runs
      through both processes, delivers them and the answer and frees
      everything; a message is delivered once.  At the level of the library
      a request that [srv_handle] takes from another process is a run of its
      handler on the decoded parameters, answered once with what the handler
      returned; [c_open] sends one request with a copy of its string.
    - Interface: every stub of the library reaches the kernel function of
      its name.  Method codes mean the same to all who decode them.
    - Text and strings: printed numerals are the numbers, the cursor stays
      on the screen, the string functions meet their usual description --
      or what they do instead, where they do not.
    Theorems without a claim number record further behaviour; several of
    them show a defect of the code by an execution.

    ** Fuel and bounds

    A loop that follows a list or a [while] condition is run with fuel
    that covers every run on a well-formed state: the size of the store a
    list lives in, the number of pages of a 32-bit range, the number of
    words of an array.  The theorems about such a loop say that it returns
    [Ok], so the fuel is enough; running out of it is the fault [NoFuel].
    Loops whose bound is a C constant run that many times.

    ** Accesses that fault

    Reads and writes through pointers of the caller are checked: in
    [Requests] an address that no segment of the current space covers is a
    fault; in [Server] a word of the shared-memory area outside the blocks
    in use is one; in [Bitset] a word behind those there is room for; in
    [Tasking] the name of an exception behind the end of the table.

    ** Not modelled

    - The processor: port input and output, control registers and the
      assembly files ([loader_.asm], [idt_.asm], [task_.asm]); what they
      do to saved registers is in the records of [Kernel] and [Tasking].
    - [outb], [inb] and [inw] beyond the log of [Desc].  In the kernel's
      code [PANIC] is a [fault]; what the screen then says is in [Panic].
    - Outside [Kmem], [KHeap] and [Boot], [kmalloc] of a structure is a
      fresh address of its store and a page table takes its frame when it
      is made; neither fails, as the code assumes.  So [kmain] hands over
      from a heap with bytes to stores when it starts the tasks.  In the
      code making a table takes a page of the cache and may fill it again,
      and [kfree] may give pages of the kernel back; [Kmem], [KHeap] and
      [KFree] have that, and the theorems above them speak of the user
      halves of the spaces, which it does not touch.
    - In [KHeap], what a function call evaluates first: the arguments of
      [page_map] are evaluated from the left.
    - The end of a process as an action of [Life]: [process_delete] reads
      a thread it has freed ([Tasking] shows it), so it has no good run.
    - The processor's accessed and dirty bits, and the time a call takes. *)

From Stdlib Require Export ZArith Lia.
From stdpp Require Export prelude gmap list sorting fin_maps.

#[global] Open Scope Z_scope.

Create HintDb grapes.

(** ** Machine words

    The code is compiled for i586: [uint32_t], [size_t] and pointers are
    32-bit, [int] is a 32-bit two's complement.  A word is a [Z] and every
    operation that can wrap says so with [w32]. *)

Abbreviation W32 := 4294967296.
Abbreviation ptr := Z (only parsing).
Abbreviation NULL := 0 (only parsing).

Definition w32 (x : Z) : Z := x mod W32.
Definition w16 (x : Z) : Z := x mod 65536.
Definition w8 (x : Z) : Z := x mod 256.
Definition s32 (x : Z) : Z := if x <? 2147483648 then x else x - W32.

Definition u32 (x : Z) : Prop := 0 <= x < W32.

(** [x & 0xFFFFF000] and [x & 0xFFF]. *)
Definition page_mask (x : Z) : Z := Z.land x 0xFFFFF000.
Definition page_off (x : Z) : Z := Z.land x 0xFFF.

(** [a[i]] of an array of words. *)
Definition nthz (l : list Z) (i : nat) : Z := default 0 (l !! i).

(** ** Faults and the state monad

    A C function that runs on a state of type [S] is a function
    [S -> res (A * S)].  [Fault] is an execution the C program does not
    survive: a null or dangling dereference, an access outside mapped
    memory, [PANIC]/[ASSERT], or (for loops written with fuel) a loop that
    is still running when the fuel is spent. *)

Inductive fault : Type :=
| NullDeref
| Dangling (p : ptr)
| BadAccess (a : Z)
| Panic
| NoFuel.

Inductive res (A : Type) : Type :=
| Ok (a : A)
| Fault (f : fault).
Arguments Ok {A} a.
Arguments Fault {A} f.

Definition M (S A : Type) : Type := S -> res (A * S).

#[export] Instance M_ret S : MRet (M S) := fun A a s => Ok (a, s).
#[export] Instance M_bind S : MBind (M S) := fun A B f m s =>
  match m s with
  | Ok (a, s') => f a s'
  | Fault e => Fault e
  end.

Definition fail {S A} (f : fault) : M S A := fun _ => Fault f.
Definition gets {S A} (f : S -> A) : M S A := fun s => Ok (f s, s).
Definition modify {S} (f : S -> S) : M S unit := fun s => Ok (tt, f s).

(** An operation on a component of the state, run on the whole state. *)
Definition zoom {S T A} (get : S -> T) (put : T -> S -> S) (m : M T A) : M S A := fun s =>
  match m (get s) with
  | Ok (a, t) => Ok (a, put t s)
  | Fault f => Fault f
  end.

(** [if (c) m;] *)
Definition when {S} (c : bool) (m : M S unit) : M S unit :=
  if c then m else mret tt.

(** [while]/[for] loops: the body answers [inl] to go round again and
    [inr] to leave the loop with a result. *)
Fixpoint loop {S X R} (fuel : nat) (body : X -> M S (X + R)) (x : X) : M S R :=
  match fuel with
  | O => fail NoFuel
  | S n => r ← body x; match r with inl x' => loop n body x' | inr y => mret y end
  end.

(** Total correctness: [m] does not fault on [s] and ends in [Q]. *)
Definition wp {S A} (m : M S A) (s : S) (Q : A -> S -> Prop) : Prop :=
  match m s with
  | Ok (a, s') => Q a s'
  | Fault _ => False
  end.

(** ** Typed stores of C objects

    The structures the kernel allocates with [kmalloc] live in one store
    per structure type, indexed by their address.  [Store S A] says that
    the state [S] has a store of [A]s. *)

Class Store (S A : Type) := {
  st_get : S -> gmap Z A;
  st_put : gmap Z A -> S -> S;
  st_get_put m s : st_get (st_put m s) = m;
  st_put_put m m' s : st_put m (st_put m' s) = st_put m s;
  st_put_get s : st_put (st_get s) s = s
}.

(** The address a fresh object gets: above every live one. *)
Definition fresh_ptr {A} (m : gmap Z A) : ptr :=
  1 + map_fold (fun k _ acc => Z.max k acc) 0 m.

Section store_ops.
Context {S A : Type} `{Store S A}.

(** [*p], faulting on a null or dangling pointer. *)
Definition load (p : ptr) : M S A := fun s =>
  if p =? 0 then Fault NullDeref
  else match st_get s !! p with
       | Some a => Ok (a, s)
       | None => Fault (Dangling p)
       end.

(** [p->... = ...] *)
Definition update (p : ptr) (f : A -> A) : M S unit := fun s =>
  if p =? 0 then Fault NullDeref
  else match st_get s !! p with
       | Some a => Ok (tt, st_put (<[p := f a]> (st_get s)) s)
       | None => Fault (Dangling p)
       end.

(** [kmalloc(sizeof(A))] followed by the initialisation to [a]. *)
Definition new (a : A) : M S ptr := fun s =>
  let p := fresh_ptr (st_get s) in
  Ok (p, st_put (<[p := a]> (st_get s)) s).

(** [kfree(p)]: [kfree(0)] does nothing. *)
Definition free (p : ptr) : M S unit := fun s =>
  Ok (tt, st_put (delete p (st_get s)) s).

End store_ops.

(** ** Singly linked lists

    The sources link threads, processes, descriptors, segment mappings,
    sleepers, servers and methods by a field of the structure itself. *)

Class Linked (A : Type) := {
  nxt : A -> ptr;
  set_nxt : ptr -> A -> A;
  nxt_set p a : nxt (set_nxt p a) = p
}.

(** [lseg m p l q]: following the links from [p] visits exactly the
    addresses [l] and arrives at [q]. *)
Fixpoint lseg {A} `{Linked A} (m : gmap Z A) (p : ptr) (l : list Z) (q : ptr) : Prop :=
  match l with
  | [] => p = q
  | x :: l' => p = x /\ x <> 0 /\ exists a, m !! x = Some a /\ lseg m (nxt a) l' q
  end.

(** [linked m p l]: a null-terminated list. *)
Definition linked {A} `{Linked A} (m : gmap Z A) (p : ptr) (l : list Z) : Prop :=
  lseg m p l 0.

(** [while (it != 0) { if (P(it)) break; it = it->next; }] and the value of
    [it] after the loop. *)
Definition walk {S A} `{Store S A} `{Linked A} (P : ptr -> A -> bool) (head : ptr) : M S ptr :=
  fun s =>
  loop (1 + Datatypes.S (size (st_get s)))
    (fun it => if it =? 0 then mret (inr 0)
               else a ← load it;
                    if P it a then mret (inr it) else mret (inl (nxt a))) head s.

(** The first address of [l] whose object satisfies [P], [0] if none. *)
Fixpoint first_ptr {A} (P : ptr -> A -> bool) (m : gmap Z A) (l : list Z) : ptr :=
  match l with
  | [] => 0
  | x :: l' => match m !! x with
               | Some a => if P x a then x else first_ptr P m l'
               | None => first_ptr P m l'
               end
  end.

(** ** Lemmas on words *)

Lemma w32_small x : u32 x -> w32 x = x.
Proof. intros ?; apply Z.mod_small; assumption. Qed.

Lemma w32_range x : u32 (w32 x).
Proof. apply Z.mod_pos_bound; lia. Qed.

Lemma page_off_mod x : page_off x = x mod 4096.
Proof. unfold page_off. change 0xFFF with (Z.ones 12). rewrite Z.land_ones by lia. reflexivity. Qed.

Lemma testbit_page_ones i : 0 <= i ->
  Z.testbit 0xFFFFF000 i = (12 <=? i) && (i <? 32).
Proof.
  intros Hi. change 0xFFFFF000 with (Z.shiftl (Z.ones 20) 12).
  rewrite Z.shiftl_spec by lia.
  destruct (Z.leb_spec 12 i); simpl.
  - rewrite Z.testbit_ones_nonneg by lia. destruct (Z.ltb_spec (i - 12) 20), (Z.ltb_spec i 32); lia.
  - apply Z.testbit_neg_r; lia.
Qed.

Lemma page_mask_sub x : u32 x -> page_mask x = x - x mod 4096.
Proof.
  intros Hx. unfold page_mask, u32 in *.
  assert (Hlo : Z.land x 0xFFFFF000 = Z.land (Z.shiftl (Z.shiftr x 12) 12) (Z.ones 32)).
  { apply Z.bits_inj'; intros i Hi.
    rewrite !Z.land_spec, Z.shiftl_spec, testbit_page_ones, Z.testbit_ones_nonneg by lia.
    destruct (Z.leb_spec 12 i); simpl.
    - rewrite Z.shiftr_spec by lia. replace (i - 12 + 12) with i by lia. reflexivity.
    - rewrite Z.testbit_neg_r with (n := i - 12) by lia. rewrite andb_false_r. reflexivity. }
  rewrite Hlo, Z.land_ones, Z.shiftl_mul_pow2, Z.shiftr_div_pow2 by lia.
  change (2 ^ 12) with 4096. change (2 ^ 32) with W32.
  rewrite Z.mod_small; [|pose proof (Z.mod_pos_bound x 4096); pose proof (Z.div_mod x 4096); lia].
  pose proof (Z.div_mod x 4096). lia.
Qed.

Lemma page_mask_align x : u32 x -> page_mask x mod 4096 = 0.
Proof.
  intros Hx. rewrite page_mask_sub by done.
  rewrite Zminus_mod_idemp_r, Z.sub_diag. reflexivity.
Qed.

(** A bit field above another one. *)
Lemma lor_shiftl_add lo x n : 0 <= n -> 0 <= lo < 2 ^ n -> Z.lor lo (Z.shiftl x n) = lo + x * 2 ^ n.
Proof.
  intros Hn Hlo. assert (H0 : Z.land lo (Z.shiftl x n) = 0).
  { apply Z.bits_inj'. intros i Hi. rewrite Z.land_spec, Z.bits_0, Z.shiftl_spec by done.
    destruct (Z.lt_ge_cases i n); [rewrite (Z.testbit_neg_r x) by lia; apply andb_false_r|].
    rewrite <- (Z.mod_small lo (2 ^ n)), Z.mod_pow2_bits_high by lia. done. }
  rewrite <- Z.shiftl_mul_pow2, <- Z.add_lor_land by done. rewrite H0. lia.
Qed.

(** ** Lemmas on the monad *)

Lemma bind_Ok {S A B} (m : M S A) (k : A -> M S B) s a s' :
  m s = Ok (a, s') -> (m ≫= k) s = k a s'.
Proof. intros E. unfold mbind, M_bind. rewrite E. reflexivity. Qed.

Lemma bind_Fault {S A B} (m : M S A) (k : A -> M S B) s f :
  m s = Fault f -> (m ≫= k) s = Fault f.
Proof. intros E. unfold mbind, M_bind. rewrite E. reflexivity. Qed.

Lemma run_bind {S A B} (m : M S A) (k : A -> M S B) s r :
  wp m s (fun a s' => k a s' = r) -> (m ≫= k) s = r.
Proof. unfold wp, mbind, M_bind. by destruct (m s) as [[a s']|]. Qed.

Lemma bind_inv {S A B} (m : M S A) (k : A -> M S B) s r :
  (m ≫= k) s = Ok r -> exists a s', m s = Ok (a, s') /\ k a s' = Ok r.
Proof.
  unfold mbind, M_bind. destruct (m s) as [[a s']|f]; intros E; [eauto | discriminate].
Qed.

Lemma wp_ret {S A} (a : A) (s : S) Q : Q a s -> wp (mret a) s Q.
Proof. exact id. Qed.

Lemma wp_bind {S A B} (m : M S A) (k : A -> M S B) s Q :
  wp m s (fun a s' => wp (k a) s' Q) -> wp (m ≫= k) s Q.
Proof. unfold wp, mbind, M_bind. destruct (m s) as [[a s']|f]; exact id. Qed.

Lemma wp_mono {S A} (m : M S A) s (Q Q' : A -> S -> Prop) :
  wp m s Q -> (forall a s', Q a s' -> Q' a s') -> wp m s Q'.
Proof. unfold wp. destruct (m s) as [[a s']|f]; [eauto | done]. Qed.

Lemma wp_Ok {S A} (m : M S A) s Q :
  wp m s Q <-> exists a s', m s = Ok (a, s') /\ Q a s'.
Proof.
  unfold wp. destruct (m s) as [[a s']|f]; split.
  - eauto.
  - intros (? & ? & [= <- <-] & ?). done.
  - done.
  - intros (? & ? & ? & ?). discriminate.
Qed.

Lemma wp_eq {S A} (m : M S A) s a s' (Q : A -> S -> Prop) :
  m s = Ok (a, s') -> Q a s' -> wp m s Q.
Proof. unfold wp. intros ->. exact id. Qed.

Lemma wp_run {S} (m : M S unit) s (Q : S -> Prop) :
  wp m s (fun _ s' => Q s') -> exists s', m s = Ok (tt, s') /\ Q s'.
Proof. intros ([] & s' & E & HQ)%wp_Ok. eauto. Qed.

Lemma wp_val {S A} (m : M S A) s a (Q : S -> Prop) :
  wp m s (fun r s' => r = a /\ Q s') -> exists s', m s = Ok (a, s') /\ Q s'.
Proof. intros (r & s' & E & -> & HQ)%wp_Ok. eauto. Qed.

Lemma wp_eq_Ok {S A} (m : M S A) s r : wp m s (fun a s' => (a, s') = r) -> m s = Ok r.
Proof. unfold wp. destruct (m s) as [[a s']|]; [by intros -> | done]. Qed.

Lemma wp_gets {S A} (f : S -> A) s Q : Q (f s) s -> wp (gets f) s Q.
Proof. exact id. Qed.

Lemma wp_modify {S} (f : S -> S) s (Q : unit -> S -> Prop) : Q tt (f s) -> wp (modify f) s Q.
Proof. exact id. Qed.

Lemma wp_when {S} c (m : M S unit) s Q :
  (c = true -> wp m s Q) -> (c = false -> Q tt s) -> wp (when c m) s Q.
Proof. intros H1 H2. destruct c; [by apply H1 | by apply wp_ret, H2]. Qed.

Lemma loop_S {S X R} n (body : X -> M S (X + R)) x :
  loop (Datatypes.S n) body x =
  (r ← body x; match r with inl x' => loop n body x' | inr y => mret y end).
Proof. reflexivity. Qed.

(** Loops by a decreasing measure and an invariant. *)
Lemma wp_loop {S X R} (body : X -> M S (X + R)) (I : X -> S -> Prop)
    (mu : X -> nat) (Q : R -> S -> Prop) :
  (forall x s, I x s -> wp (body x) s (fun r s' =>
     match r with inl x' => I x' s' /\ (mu x' < mu x)%nat | inr y => Q y s' end)) ->
  forall n x s, I x s -> (mu x < n)%nat -> wp (loop n body x) s Q.
Proof.
  intros Hb n; induction n as [|n IH]; intros x s HI Hn; [lia|].
  rewrite loop_S. apply wp_bind. eapply wp_mono; [apply Hb, HI|].
  intros [x'|y] s'; simpl.
  - intros [HI' Hlt]. apply IH; [done | lia].
  - intros HQ. apply wp_ret, HQ.
Qed.

(** More fuel never changes a loop that finished. *)
Lemma loop_mono {S X R} (body : X -> M S (X + R)) n : forall n' x s r,
  (n <= n')%nat -> loop n body x s = Ok r -> loop n' body x s = Ok r.
Proof.
  induction n as [|n IH]; intros n' x s r Hle E; [discriminate|].
  destruct n' as [|n']; [lia|]. rewrite loop_S in *.
  apply bind_inv in E as (y & s' & E1 & E2). rewrite (bind_Ok _ _ _ _ _ E1).
  destruct y; [eapply IH; [lia | exact E2] | exact E2].
Qed.

(** ** Lemmas on stores *)

Lemma map_fold_max_ge {A} (m : gmap Z A) k a :
  m !! k = Some a -> k <= map_fold (fun k _ acc => Z.max k acc) 0 m.
Proof.
  revert k a. apply (map_fold_weak_ind (fun acc m => forall k a, m !! k = Some a -> k <= acc)).
  - intros k a. rewrite lookup_empty. discriminate.
  - intros j x m' r _ IH k a. rewrite lookup_insert. case_decide; intros E.
    + lia.
    + specialize (IH _ _ E). lia.
Qed.

Lemma map_fold_max_nonneg {A} (m : gmap Z A) :
  0 <= map_fold (fun k _ acc => Z.max k acc) 0 m.
Proof.
  apply (map_fold_weak_ind (fun acc m => 0 <= acc)); [lia|]. intros; lia.
Qed.

Lemma fresh_ptr_pos {A} (m : gmap Z A) : 0 < fresh_ptr m.
Proof. unfold fresh_ptr. pose proof (map_fold_max_nonneg m). lia. Qed.

Lemma fresh_ptr_None {A} (m : gmap Z A) : m !! fresh_ptr m = None.
Proof.
  destruct (m !! fresh_ptr m) eqn:E; [|done].
  apply map_fold_max_ge in E. unfold fresh_ptr in E. lia.
Qed.

Lemma fresh_ptr_ne {A} (m : gmap Z A) p a : m !! p = Some a -> p <> fresh_ptr m.
Proof. intros E ->. rewrite fresh_ptr_None in E. discriminate. Qed.

Section store_lemmas.
Context {S A : Type} `{Store S A}.

Lemma load_Ok p a s : p <> 0 -> st_get s !! p = Some a -> load p s = Ok (a, s).
Proof.
  intros Hp E. unfold load. destruct (Z.eqb_spec p 0); [done|]. rewrite E. reflexivity.
Qed.

Lemma load_inv p a s s' : load p s = Ok (a, s') -> st_get s !! p = Some a /\ s' = s.
Proof.
  unfold load. destruct (p =? 0); [done|]. destruct (st_get s !! p); [|done]. by intros [= -> ->].
Qed.

Lemma update_Ok p f a s : p <> 0 -> st_get s !! p = Some a ->
  update p f s = Ok (tt, st_put (<[p := f a]> (st_get s)) s).
Proof.
  intros Hp E. unfold update. destruct (Z.eqb_spec p 0); [done|]. rewrite E. reflexivity.
Qed.

Lemma load_null s : load 0 s = Fault NullDeref.
Proof. reflexivity. Qed.

Lemma wp_load p a s (Q : A -> S -> Prop) :
  p <> 0 -> st_get s !! p = Some a -> Q a s -> wp (load p) s Q.
Proof. intros Hp E HQ. eapply wp_eq; [by apply load_Ok | done]. Qed.

Lemma wp_update p f a s (Q : unit -> S -> Prop) :
  p <> 0 -> st_get s !! p = Some a ->
  Q tt (st_put (<[p := f a]> (st_get s)) s) -> wp (update p f) s Q.
Proof. intros Hp E HQ. eapply wp_eq; [by apply update_Ok | done]. Qed.

Lemma wp_new a s (Q : Z -> S -> Prop) :
  Q (fresh_ptr (st_get s)) (st_put (<[fresh_ptr (st_get s) := a]> (st_get s)) s) -> wp (new a) s Q.
Proof. exact id. Qed.

Lemma wp_free p s (Q : unit -> S -> Prop) :
  Q tt (st_put (delete p (st_get s)) s) -> wp (free (A := A) p) s Q.
Proof. exact id. Qed.

End store_lemmas.

(** ** Lemmas on linked lists *)

Section linked_lemmas.
Context {A : Type} `{Linked A}.
Implicit Types (m : gmap Z A) (l : list Z).

Lemma lseg_app m p l1 l2 q :
  lseg m p (l1 ++ l2) q <-> exists r, lseg m p l1 r /\ lseg m r l2 q.
Proof.
  revert p; induction l1 as [|x l1 IH]; intros p; simpl.
  - split; [eauto | by intros (r & -> & ?)].
  - split.
    + intros (-> & Hx & a & Ea & (r & ? & ?)%IH). eauto 10.
    + intros (r & (-> & Hx & a & Ea & ?) & ?). split; [done|]. split; [done|].
      exists a. split; [done|]. apply IH. eauto.
Qed.

Lemma lseg_frame m p l q x a : x ∉ l -> lseg m p l q -> lseg (<[x := a]> m) p l q.
Proof.
  revert p; induction l as [|y l IH]; intros p Hx; simpl; [done|].
  apply not_elem_of_cons in Hx as [Hxy Hx].
  intros (-> & Hy & b & Eb & Hl). split; [done|]. split; [done|].
  exists b. rewrite lookup_insert_ne by done. eauto.
Qed.

Lemma lseg_delete m p l q x : x ∉ l -> lseg m p l q -> lseg (delete x m) p l q.
Proof.
  revert p; induction l as [|y l IH]; intros p Hx; simpl; [done|].
  apply not_elem_of_cons in Hx as [Hxy Hx].
  intros (-> & Hy & b & Eb & Hl). split; [done|]. split; [done|].
  exists b. rewrite lookup_delete_ne by done. eauto.
Qed.

(** Overwriting an object without touching its link changes no list. *)
Lemma lseg_insert_same m p l q x a a' :
  m !! x = Some a -> nxt a' = nxt a -> lseg m p l q -> lseg (<[x := a']> m) p l q.
Proof.
  intros Ea En. revert p; induction l as [|y l IH]; intros p; simpl; [done|].
  intros (-> & Hy & b & Eb & Hl). split; [done|]. split; [done|].
  destruct (decide (x = y)) as [->|Hxy].
  - exists a'. rewrite lookup_insert_eq. split; [done|].
    rewrite En. simplify_eq. auto.
  - exists b. rewrite lookup_insert_ne by done. auto.
Qed.

(** Two maps that agree on the objects of [l] have the same list. *)
Lemma lseg_agree m m' p l q :
  (forall x, x ∈ l -> m' !! x = m !! x) -> lseg m p l q -> lseg m' p l q.
Proof.
  revert p; induction l as [|y l IH]; intros p Hag; simpl; [done|].
  intros (-> & Hy & b & Eb & Hl). split; [done|]. split; [done|].
  exists b. rewrite Hag by set_solver. split; [done|]. apply IH; [set_solver | done].
Qed.

(** Only the links matter. *)
Lemma lseg_nexts m m' p l q :
  (forall x, x ∈ l -> nxt <$> m' !! x = nxt <$> m !! x) -> lseg m p l q -> lseg m' p l q.
Proof.
  revert p; induction l as [|y l IH]; intros p Hag; simpl; [done|].
  intros (-> & Hy & b & Eb & Hl). split; [done|]. split; [done|].
  pose proof (Hag y ltac:(set_solver)) as Ey. rewrite Eb in Ey. destruct (m' !! y) as [b'|]; [|done].
  injection Ey as Ey. exists b'. split; [done|]. rewrite Ey. apply IH; [set_solver | done].
Qed.

Lemma linked_det m p l l' : linked m p l -> linked m p l' -> l = l'.
Proof.
  unfold linked. revert p l'; induction l as [|x l IH]; intros p [|y l']; simpl; try done.
  - intros -> (? & ? & _). congruence.
  - intros (-> & ? & _) ?. congruence.
  - intros (-> & Hx & a & Ea & Hl) (? & _ & b & Eb & Hl'). simplify_eq.
    f_equal. eauto.
Qed.

Lemma linked_NoDup m p l : linked m p l -> NoDup l.
Proof.
  revert p; induction l as [|x l IH]; intros p Hl; [constructor|].
  pose proof Hl as (-> & Hx & a & Ea & Hl'). constructor; [|by eapply IH].
  intros (l1 & l2 & ->)%list_elem_of_split.
  apply lseg_app in Hl' as (r & _ & H2). pose proof H2 as (-> & _).
  pose proof (linked_det _ _ _ _ Hl H2) as E.
  apply (f_equal length) in E. simpl in E. rewrite length_app in E. simpl in E. lia.
Qed.

Lemma lseg_in_dom m p l q x : lseg m p l q -> x ∈ l -> x <> 0 /\ is_Some (m !! x).
Proof.
  revert p; induction l as [|y l IH]; intros p; simpl; [intros _ ?; set_solver|].
  intros (-> & Hy & b & Eb & Hl) [->|Hin]%elem_of_cons; [by eauto | by eapply IH].
Qed.

Lemma linked_length m p l : linked m p l -> (length l <= size m)%nat.
Proof.
  intros Hl. pose proof (linked_NoDup _ _ _ Hl) as Hnd.
  rewrite <- (size_list_to_set (C := gset Z) l) by done.
  rewrite <- (size_dom (D := gset Z) m). apply subseteq_size.
  intros x Hx%elem_of_list_to_set. apply elem_of_dom. by eapply lseg_in_dom.
Qed.

Lemma linked_nil m p : linked m p [] <-> p = 0.
Proof. done. Qed.

Lemma linked_head m p l : linked m p l -> p <> 0 -> exists l', l = p :: l'.
Proof. destruct l as [|x l]; [done|]. intros (-> & ?) ?. eauto. Qed.

Lemma linked_cons_inv m p l :
  linked m p l -> p <> 0 ->
  exists a l', l = p :: l' /\ m !! p = Some a /\ linked m (nxt a) l'.
Proof.
  destruct l as [|x l]; [done|]. intros (-> & Hx & a & Ea & Hl) _. eauto 10.
Qed.

Lemma first_ptr_in P m l : first_ptr P m l = 0 \/ first_ptr P m l ∈ l.
Proof.
  induction l as [|x l IH]; simpl; [by left|].
  destruct (m !! x) as [a|]; [destruct (P x a)|]; destruct IH; set_solver.
Qed.

Lemma first_ptr_spec P m l :
  (forall x, x ∈ l -> x <> 0) ->
  first_ptr P m l <> 0 <-> exists x a, x ∈ l /\ m !! x = Some a /\ P x a = true.
Proof.
  intros Hnz. induction l as [|x l IH]; simpl.
  - split; [done|]. intros (x & a & Hx & _). set_solver.
  - destruct (m !! x) as [a|] eqn:Ea; [destruct (P x a) eqn:EP|].
    + split; [|intros; apply Hnz; set_solver]. intros _. exists x, a. set_solver.
    + rewrite IH by set_solver. split.
      * intros (y & b & ? & ? & ?). exists y, b. set_solver.
      * intros (y & b & [->|?]%elem_of_cons & ? & ?); [congruence|eauto].
    + rewrite IH by set_solver. split.
      * intros (y & b & ? & ? & ?). exists y, b. set_solver.
      * intros (y & b & [->|?]%elem_of_cons & ? & ?); [congruence|eauto].
Qed.

Lemma first_ptr_none P m l : (forall x a, x ∈ l -> m !! x = Some a -> P x a = false) ->
  first_ptr P m l = 0.
Proof.
  induction l as [|x l IH]; simpl; intros HP; [done|].
  destruct (m !! x) as [a|] eqn:Ea; [rewrite (HP x a) by (done || set_solver)|];
    apply IH; intros y b Hy; apply HP; set_solver.
Qed.

Lemma first_ptr_split P m l1 x l2 a :
  (forall y b, y ∈ l1 -> m !! y = Some b -> P y b = false) -> m !! x = Some a -> P x a = true ->
  first_ptr P m (l1 ++ x :: l2) = x.
Proof.
  intros HP Ea Hx. induction l1 as [|y l1 IH]; simpl; [by rewrite Ea, Hx|].
  destruct (m !! y) as [b|] eqn:Eb; [rewrite (HP y b) by (done || set_solver)|];
    apply IH; intros z c Hz; apply HP; set_solver.
Qed.

(** Appending [t] after the last node [z]. *)
Lemma lseg_snoc m p l z b b' t a : lseg m p (l ++ [z]) 0 -> m !! z = Some b -> nxt b' = t ->
  t <> 0 -> t ∉ l ++ [z] -> m !! t = Some a -> nxt a = 0 ->
  lseg (<[z := b']> m) p (l ++ [z; t]) 0.
Proof.
  intros Hl Eb Enb Ht Hnt Ea Ena. pose proof (linked_NoDup _ _ _ Hl) as Hnd.
  apply lseg_app in Hl as (r & H1 & -> & Hz & c & Ec & _). apply lseg_app. exists z.
  apply NoDup_app in Hnd as (_ & Hd & _). split.
  - apply lseg_frame; [|done]. intros Hin. apply (Hd z Hin). set_solver.
  - split; [done|]. split; [done|]. exists b'. rewrite lookup_insert_eq. split; [done|].
    split; [done|]. split; [done|]. exists a. rewrite lookup_insert_ne by set_solver. done.
Qed.

(** Inserting [y] after [z]. *)
Lemma lseg_insert_after m p l1 z l2 a a' y b : linked m p (l1 ++ z :: l2) -> m !! z = Some a ->
  nxt a' = y -> y <> 0 -> y ∉ l1 ++ z :: l2 -> nxt b = nxt a ->
  linked (<[z := a']> (<[y := b]> m)) p (l1 ++ z :: y :: l2).
Proof.
  intros Hl Ea Ea' Hy Hny Eb. pose proof (linked_NoDup _ _ _ Hl) as Hnd.
  apply lseg_app in Hl as (r & H1 & -> & Hz & c & Ec & Hl2). simplify_eq.
  apply NoDup_app in Hnd as (_ & Hd & [Hnz _]%NoDup_cons).
  apply lseg_app. exists z. split.
  - apply lseg_frame; [intros Hin; apply (Hd z Hin); set_solver|].
    apply lseg_frame; [set_solver | done].
  - split; [done|]. split; [done|]. exists a'. rewrite lookup_insert_eq. split; [done|].
    split; [done|]. split; [done|]. exists b.
    rewrite lookup_insert_ne by set_solver. rewrite lookup_insert_eq. split; [done|]. rewrite Eb.
    apply lseg_frame; [done|]. apply lseg_frame; [set_solver | done].
Qed.

(** A new first node. *)
Lemma linked_push m p l y b : linked m p l -> y <> 0 -> y ∉ l -> nxt b = p ->
  linked (<[y := b]> m) y (y :: l).
Proof.
  intros Hl Hy Hny Eb. split; [done|]. split; [done|]. exists b. rewrite lookup_insert_eq.
  split; [done|]. rewrite Eb. by apply lseg_frame.
Qed.

(** A node that is not in the store is in no list. *)
Lemma linked_fresh m p l y : linked m p l -> m !! y = None -> y ∉ l.
Proof. intros Hl Ey Hin. destruct (lseg_in_dom _ _ _ _ _ Hl Hin) as (_ & a & Ea). congruence. Qed.

(** Taking [x] out after its predecessor [z]: the search for [z], and the
    list that is left. *)
Lemma linked_at m p l1 x l2 : linked m p (l1 ++ x :: l2) ->
  x <> 0 /\ exists a, m !! x = Some a /\ lseg m p l1 x /\ linked m (nxt a) l2.
Proof.
  intros (r & H1 & -> & Hx & a & Ea & H2)%lseg_app. split; [done|]. by exists a.
Qed.

Lemma lseg_next m p l1 z x : lseg m p (l1 ++ [z]) x -> exists b, m !! z = Some b /\ nxt b = x.
Proof. intros (r & _ & -> & _ & b & Eb & En)%lseg_app. by exists b. Qed.

Lemma find_predecessor m p l1 z x l2 : linked m p (l1 ++ z :: x :: l2) ->
  first_ptr (fun _ a => nxt a =? x) m (l1 ++ z :: x :: l2) = z.
Proof.
  intros Hl. pose proof (linked_NoDup _ _ _ Hl) as Hnd.
  destruct (linked_at _ _ _ _ _ Hl) as (_ & b & Eb & H1 & H2).
  apply (first_ptr_split _ _ _ _ _ b); [|done|].
  - intros y c (i & Hi)%list_elem_of_lookup Ec. apply Z.eqb_neq. intros Ex.
    apply take_drop_middle in Hi. rewrite <- Hi in Hl, Hnd.
    rewrite <- app_assoc in Hl, Hnd. destruct (linked_at _ _ _ _ _ Hl) as (_ & c' & Ec' & _ & Hl').
    replace c' with c in * by congruence. rewrite Ex in Hl'.
    destruct (drop (S i) l1) as [|w l'] eqn:Ed; cbn [app] in Hl'.
    + destruct Hl' as (-> & _). rewrite NoDup_app in Hnd. destruct Hnd as (_ & _ & Hnd).
      cbn in Hnd. apply NoDup_cons in Hnd as [_ [Hn _]%NoDup_cons]. set_solver.
    + destruct Hl' as (-> & _). apply NoDup_app in Hnd as (_ & _ & [_ [Hn _]%NoDup_cons]%NoDup_cons).
      set_solver.
  - apply Z.eqb_eq. by destruct H2 as (-> & _).
Qed.

Lemma find_last m p l z : linked m p (l ++ [z]) -> first_ptr (fun _ a => nxt a =? 0) m (l ++ [z]) = z.
Proof.
  intros Hl. destruct (linked_at _ _ _ _ _ Hl) as (_ & b & Eb & _ & H2). apply linked_nil in H2.
  apply (first_ptr_split _ _ _ _ _ b); [|done | by rewrite H2].
  intros y c (l1 & l2 & ->)%list_elem_of_split Ec. rewrite <- app_assoc in Hl. cbn [app] in Hl.
  destruct (linked_at _ _ _ _ _ Hl) as (_ & c' & Ec' & _ & Hl'). replace c' with c in Hl' by congruence.
  apply Z.eqb_neq. destruct l2; destruct Hl' as (-> & ? & _); done.
Qed.

Lemma linked_unlink m p l1 z x l2 b a b' : linked m p (l1 ++ z :: x :: l2) ->
  m !! z = Some b -> m !! x = Some a -> nxt b' = nxt a -> linked (delete x (<[z := b']> m)) p (l1 ++ z :: l2).
Proof.
  intros Hl Eb Ea En. pose proof (linked_NoDup _ _ _ Hl) as Hnd.
  destruct (linked_at _ _ _ _ _ Hl) as (Hz & b0 & Eb0 & H1 & (Ex & Hx & a0 & Ea0 & H2)).
  replace b0 with b in * by congruence. replace a0 with a in * by congruence.
  apply NoDup_app in Hnd as (_ & Hd & [Hnz [Hnx _]%NoDup_cons]%NoDup_cons).
  assert (Hzx : z <> x) by (intros ->; apply Hnz; set_solver).
  apply lseg_app. exists z. split.
  - apply lseg_delete; [intros Hi; apply (Hd x Hi); set_solver|].
    apply lseg_frame; [intros Hi; apply (Hd z Hi); set_solver | done].
  - split; [done|]. split; [done|]. exists b'. rewrite lookup_delete_ne, lookup_insert_eq by done.
    split; [done|]. rewrite En. apply lseg_delete; [done|]. apply lseg_frame; [set_solver | done].
Qed.

End linked_lemmas.

(** The loop that walks a list ends at the first match, for every list the
    store holds: the fuel is enough. *)
Lemma walk_spec {S A} `{Store S A} `{Linked A} P p l (s : S) :
  linked (st_get s) p l -> walk P p s = Ok (first_ptr P (st_get s) l, s).
Proof.
  intros Hl. unfold walk.
  pose proof (linked_length _ _ _ Hl) as Hlen.
  revert Hlen. generalize (size (st_get s)) as n.
  revert p Hl. induction l as [|x l IH]; intros p Hl n Hlen.
  - apply linked_nil in Hl as ->. reflexivity.
  - destruct Hl as (-> & Hx & a & Ea & Hl). simpl in Hlen. destruct n as [|n]; [lia|].
    cbn [Nat.add]. rewrite loop_S. unfold mbind at 1, M_bind at 1.
    destruct (Z.eqb_spec x 0); [done|].
    rewrite (bind_Ok _ _ _ _ _ (load_Ok _ _ _ Hx Ea)). simpl. rewrite Ea.
    destruct (P x a); [reflexivity|]. apply (IH _ Hl n). lia.
Qed.

#[export] Hint Resolve w32_range fresh_ptr_pos fresh_ptr_None : grapes.

(** Symbolic execution of straight-line code: [wp_step] consumes one monadic
    operation, leaving the side conditions that [done] cannot prove. *)
Ltac wp_step :=
  lazymatch goal with
  | |- wp (mret _) _ _ => apply wp_ret
  | |- wp (_ ≫= _) _ _ => apply wp_bind
  | |- wp (gets _) _ _ => apply wp_gets
  | |- wp (modify _) _ _ => apply wp_modify
  | |- wp (load _) _ _ => eapply wp_load; [try done | try done |]
  | |- wp (update _ _) _ _ => eapply wp_update; [try done | try done |]
  end.
Ltac wp_steps := repeat (wp_step; cbn beta).
