(* ===== verification/Bitset.v ===== *)
(** * Bitsets and the physical frame allocator

    [src/kernel/lib/bitset.c], and [frame_alloc]/[frame_free] of
    [src/kernel/mem/paging.c], which keep the allocated physical frames in
    a bitset.  The array [bits] is a list of 32-bit words; an index outside
    it is a [BadAccess].  The abstract state of the allocator is the set of
    allocated frame numbers. *)

From S2P Require Import Prelude.

Record bitset := Bitset { bits : list Z; bsize : Z }.

Definition INDEX_FROM_BIT (a : Z) : Z := a / (8 * 4).
Definition OFFSET_FROM_BIT (a : Z) : Z := a mod (8 * 4).

(** [t->bits[idx]] as a value and as a place. *)
Definition word_get (idx : Z) : M bitset Z := fun t =>
  match bits t !! Z.to_nat idx with
  | Some w => Ok (w, t)
  | None => Fault (BadAccess idx)
  end.

Definition word_put (idx w : Z) : M bitset unit := fun t =>
  match bits t !! Z.to_nat idx with
  | Some _ => Ok (tt, Bitset (<[Z.to_nat idx := w]> (bits t)) (bsize t))
  | None => Fault (BadAccess idx)
  end.

Definition bitset_set (num : Z) : M bitset unit :=
  let idx := INDEX_FROM_BIT num in
  let off := OFFSET_FROM_BIT num in
  w ← word_get idx;
  word_put idx (Z.lor w (Z.shiftl 0x1 off)).

Definition bitset_clear (num : Z) : M bitset unit :=
  let idx := INDEX_FROM_BIT num in
  let off := OFFSET_FROM_BIT num in
  w ← word_get idx;
  word_put idx (Z.land w (w32 (Z.lnot (Z.shiftl 0x1 off)))).

Definition bitset_test (num : Z) : M bitset Z :=
  let idx := INDEX_FROM_BIT num in
  let off := OFFSET_FROM_BIT num in
  w ← word_get idx;
  mret (Z.land w (Z.shiftl 0x1 off)).

(** The inner loop of [bitset_firstFree], [n] values of [j] left. *)
Fixpoint first_zero_bit (w j : Z) (n : nat) : option Z :=
  match n with
  | O => None
  | S n' => let toTest := Z.shiftl 0x1 j in
            if Z.land w toTest =? 0 then Some j else first_zero_bit w (j + 1) n'
  end.

(** The outer loop, [n] values of [i] left. *)
Fixpoint first_free_from (i : Z) (n : nat) : M bitset Z :=
  match n with
  | O => mret 0xFFFFFFFF
  | S n' =>
      w ← word_get i;
      if w =? 0xFFFFFFFF then first_free_from (i + 1) n'
      else match first_zero_bit w 0 32 with
           | Some j => mret (w32 (i * 4 * 8 + j))
           | None => first_free_from (i + 1) n'
           end
  end.

Definition bitset_firstFree : M bitset Z :=
  sz ← gets bsize;
  first_free_from 0 (Z.to_nat (INDEX_FROM_BIT sz)).

Definition frame_alloc : M bitset Z :=
  free ← bitset_firstFree;
  bitset_set free;;
  mret free.

Definition frame_free (id : Z) : M bitset unit := bitset_clear id.

(** [n] successive calls of [frame_alloc], as the loops of [paging_init],
    [heap_create] and [heap_expand] make. *)
Fixpoint frame_allocs (n : nat) : M bitset (list Z) :=
  match n with
  | O => mret []
  | S n' => f ← frame_alloc; fs ← frame_allocs n'; mret (f :: fs)
  end.

(** ** Specification *)

(** Bit [num] of the set. *)
Definition bit_at (t : bitset) (num : Z) : bool :=
  match bits t !! Z.to_nat (INDEX_FROM_BIT num) with
  | Some w => Z.testbit w (OFFSET_FROM_BIT num)
  | None => false
  end.

(** The array may have fewer words than the [size / 32] that [size] calls
    for. *)
Record wf_bitset (t : bitset) : Prop := {
  wf_size : u32 (bsize t);
  wf_len : Z.of_nat (length (bits t)) <= 134217728;
  wf_words : Forall u32 (bits t)
}.

(** The words that the search can look at. *)
Definition capacity (t : bitset) : Z := Z.min (INDEX_FROM_BIT (bsize t)) (Z.of_nat (length (bits t))).

(** The frames the allocator can hand out. *)
Definition managed (t : bitset) (n : Z) : Prop := 0 <= n < 32 * capacity t.

(** [num] is a bit of the array. *)
Definition in_array (t : bitset) (num : Z) : Prop :=
  0 <= num < 32 * Z.of_nat (length (bits t)).

(** At least [n] managed frames are free. *)
Definition free_count (t : bitset) (n : nat) : Prop :=
  exists fs : list Z, NoDup fs /\ length fs = n /\
    forall k, k ∈ fs -> managed t k /\ bit_at t k = false.

(** ** Words and bits *)

Lemma testbit_one_shift off i : 0 <= off -> 0 <= i ->
  Z.testbit (Z.shiftl 1 off) i = (i =? off).
Proof.
  intros. rewrite Z.shiftl_1_l, Z.pow2_bits_eqb by lia.
  destruct (Z.eqb_spec off i), (Z.eqb_spec i off); congruence.
Qed.

Lemma testbit_lnot32 off i : 0 <= off -> 0 <= i ->
  Z.testbit (w32 (Z.lnot (Z.shiftl 1 off))) i = (i <? 32) && negb (i =? off).
Proof.
  intros. unfold w32. change W32 with (2 ^ 32).
  destruct (Z.ltb_spec i 32); simpl.
  - rewrite Z.mod_pow2_bits_low, Z.lnot_spec, testbit_one_shift by lia. reflexivity.
  - rewrite Z.mod_pow2_bits_high by lia. reflexivity.
Qed.

Lemma land_shift_zero w j : 0 <= j -> (Z.land w (Z.shiftl 1 j) =? 0) = negb (Z.testbit w j).
Proof.
  intros Hj. destruct (Z.testbit w j) eqn:E; simpl.
  - apply Z.eqb_neq. intros H0. apply (f_equal (fun z => Z.testbit z j)) in H0.
    rewrite Z.land_spec, testbit_one_shift, E, Z.eqb_refl, Z.bits_0 in H0 by lia. discriminate.
  - apply Z.eqb_eq, Z.bits_inj'. intros i Hi.
    rewrite Z.land_spec, testbit_one_shift, Z.bits_0 by lia.
    destruct (Z.eqb_spec i j); subst; rewrite ?E, ?andb_false_r; reflexivity.
Qed.

Lemma u32_testbit_high w i : u32 w -> 32 <= i -> Z.testbit w i = false.
Proof.
  intros Hw Hi. rewrite <- (w32_small w Hw). unfold w32. change W32 with (2 ^ 32).
  apply Z.mod_pow2_bits_high. lia.
Qed.

Lemma u32_of_testbit w : 0 <= w -> (forall i, 32 <= i -> Z.testbit w i = false) -> u32 w.
Proof.
  intros Hw Hb. split; [done|]. destruct (Z.eq_dec w 0) as [->|Hnz]; [lia|].
  change W32 with (2 ^ 32). apply Z.log2_lt_pow2; [lia|].
  destruct (Z.lt_ge_cases (Z.log2 w) 32) as [|Hge]; [done|].
  pose proof (Z.bit_log2 w ltac:(lia)) as E. rewrite Hb in E by done. discriminate.
Qed.

Lemma all_ones_bits w : u32 w -> (forall j, 0 <= j < 32 -> Z.testbit w j = true) -> w = 0xFFFFFFFF.
Proof.
  intros Hw Hb. apply Z.bits_inj'. intros i Hi. change 0xFFFFFFFF with (Z.ones 32).
  rewrite Z.testbit_ones_nonneg by lia. destruct (Z.ltb_spec i 32).
  - apply Hb. lia.
  - by apply u32_testbit_high.
Qed.

(** ** Index arithmetic *)

Lemma index_bounds num n : 0 <= num < 32 * n -> 0 <= INDEX_FROM_BIT num < n.
Proof.
  unfold INDEX_FROM_BIT. intros H. split; [apply Z.div_pos; lia|].
  apply Z.div_lt_upper_bound; lia.
Qed.

Lemma offset_bounds num : 0 <= OFFSET_FROM_BIT num < 32.
Proof. apply Z.mod_pos_bound. reflexivity. Qed.

Lemma index_offset num : num = 32 * INDEX_FROM_BIT num + OFFSET_FROM_BIT num.
Proof. apply (Z.div_mod num 32). lia. Qed.

Lemma in_array_word t num : in_array t num ->
  exists w, bits t !! Z.to_nat (INDEX_FROM_BIT num) = Some w.
Proof.
  intros Hn%index_bounds. apply lookup_lt_is_Some. lia.
Qed.

Lemma managed_in_array t n : wf_bitset t -> managed t n -> in_array t n.
Proof. intros _ Hm. unfold managed, capacity, in_array in *. lia. Qed.

Lemma capacity_same t t' : bsize t' = bsize t -> length (bits t') = length (bits t) -> capacity t' = capacity t.
Proof. unfold capacity. by intros -> ->. Qed.

(** ** Set, clear and test *)

Lemma bit_at_update t num w b :
  wf_bitset t -> in_array t num -> u32 w ->
  (forall i, 0 <= i < 32 -> Z.testbit w i =
     if i =? OFFSET_FROM_BIT num then b
     else match bits t !! Z.to_nat (INDEX_FROM_BIT num) with
          | Some w0 => Z.testbit w0 i | None => false end) ->
  let t' := Bitset (<[Z.to_nat (INDEX_FROM_BIT num) := w]> (bits t)) (bsize t) in
  wf_bitset t' /\
  forall k, 0 <= k -> bit_at t' k = if k =? num then b else bit_at t k.
Proof.
  intros [Hs Hl Hw] Hn Hu Hbits t'. destruct (in_array_word _ _ Hn) as [w0 E0].
  rewrite E0 in Hbits. split.
  - split; simpl; [done | by rewrite length_insert |].
    apply Forall_insert; done.
  - intros k Hk. unfold bit_at, t'; simpl.
    destruct (Z.eqb_spec k num) as [->|Hne].
    + rewrite list_lookup_insert_eq by (by eapply lookup_lt_Some).
      rewrite Hbits by apply offset_bounds. rewrite Z.eqb_refl. reflexivity.
    + pose proof (index_offset k). pose proof (index_offset num).
      pose proof (offset_bounds k). pose proof (offset_bounds num).
      assert (0 <= INDEX_FROM_BIT k) by (apply Z.div_pos; lia).
      destruct (Z.eq_dec (INDEX_FROM_BIT k) (INDEX_FROM_BIT num)) as [Ei|Ei].
      * rewrite Ei, list_lookup_insert_eq by (by eapply lookup_lt_Some).
        rewrite E0, Hbits by done.
        destruct (Z.eqb_spec (OFFSET_FROM_BIT k) (OFFSET_FROM_BIT num)); [lia | done].
      * pose proof (index_bounds _ _ Hn). rewrite list_lookup_insert_ne by lia. reflexivity.
Qed.

Lemma word_get_Ok t num : in_array t num ->
  exists w, bits t !! Z.to_nat (INDEX_FROM_BIT num) = Some w /\
            word_get (INDEX_FROM_BIT num) t = Ok (w, t).
Proof.
  intros Hn. destruct (in_array_word _ _ Hn) as [w E]. exists w. split; [done|].
  unfold word_get. rewrite E. reflexivity.
Qed.

Lemma word_put_Ok t num w w' : bits t !! Z.to_nat (INDEX_FROM_BIT num) = Some w ->
  word_put (INDEX_FROM_BIT num) w' t =
  Ok (tt, Bitset (<[Z.to_nat (INDEX_FROM_BIT num) := w']> (bits t)) (bsize t)).
Proof. intros E. unfold word_put. rewrite E. reflexivity. Qed.

Lemma word_u32 t i w : wf_bitset t -> bits t !! i = Some w -> u32 w.
Proof. intros [_ _ Hw] E. rewrite Forall_lookup in Hw. eauto. Qed.

Lemma bitset_set_spec t num : wf_bitset t -> in_array t num ->
  exists t', bitset_set num t = Ok (tt, t') /\ wf_bitset t' /\ bsize t' = bsize t /\
             length (bits t') = length (bits t) /\
             forall k, 0 <= k -> bit_at t' k = if k =? num then true else bit_at t k.
Proof.
  intros Hwf Hn. destruct (word_get_Ok _ _ Hn) as (w & E & Eg).
  pose proof (word_u32 _ _ _ Hwf E) as Hw. pose proof (offset_bounds num).
  destruct (bit_at_update t num (Z.lor w (Z.shiftl 1 (OFFSET_FROM_BIT num))) true)
    as [Hwf' Hb]; [done | done | | |].
  - apply u32_of_testbit.
    + apply Z.lor_nonneg. unfold u32 in Hw. split; [lia | apply Z.shiftl_nonneg; lia].
    + intros i Hi. rewrite Z.lor_spec, testbit_one_shift, u32_testbit_high by (done || lia).
      apply Z.eqb_neq. lia.
  - intros i Hi. rewrite E, Z.lor_spec, testbit_one_shift by lia.
    destruct (i =? _); [apply orb_true_r | apply orb_false_r].
  - eexists. split; [unfold bitset_set; rewrite (bind_Ok _ _ _ _ _ Eg);
      by apply (word_put_Ok _ _ _ _ E)|].
    simpl. rewrite length_insert. auto.
Qed.

Lemma bitset_clear_spec t num : wf_bitset t -> in_array t num ->
  exists t', bitset_clear num t = Ok (tt, t') /\ wf_bitset t' /\ bsize t' = bsize t /\
             length (bits t') = length (bits t) /\
             forall k, 0 <= k -> bit_at t' k = if k =? num then false else bit_at t k.
Proof.
  intros Hwf Hn. destruct (word_get_Ok _ _ Hn) as (w & E & Eg).
  pose proof (word_u32 _ _ _ Hwf E) as Hw. pose proof (offset_bounds num).
  destruct (bit_at_update t num
    (Z.land w (w32 (Z.lnot (Z.shiftl 1 (OFFSET_FROM_BIT num))))) false)
    as [Hwf' Hb]; [done | done | | |].
  - apply u32_of_testbit.
    + apply Z.land_nonneg. unfold u32 in Hw. lia.
    + intros i Hi. rewrite Z.land_spec, u32_testbit_high by done. reflexivity.
  - intros i Hi. rewrite E, Z.land_spec, testbit_lnot32 by lia.
    destruct (Z.ltb_spec i 32); [|lia].
    destruct (i =? _); [apply andb_false_r | apply andb_true_r].
  - eexists. split; [unfold bitset_clear; rewrite (bind_Ok _ _ _ _ _ Eg);
      by apply (word_put_Ok _ _ _ _ E)|].
    simpl. rewrite length_insert. auto.
Qed.

(** [bitset_test] answers a nonzero word exactly on the members. *)
Lemma bitset_test_spec t num : wf_bitset t -> in_array t num ->
  exists v, bitset_test num t = Ok (v, t) /\ (v <> 0 <-> bit_at t num = true).
Proof.
  intros Hwf Hn. destruct (word_get_Ok _ _ Hn) as (w & E & Eg).
  pose proof (offset_bounds num).
  exists (Z.land w (Z.shiftl 1 (OFFSET_FROM_BIT num))). split.
  - unfold bitset_test. rewrite (bind_Ok _ _ _ _ _ Eg). reflexivity.
  - unfold bit_at. rewrite E.
    pose proof (land_shift_zero w (OFFSET_FROM_BIT num) ltac:(lia)) as L.
    destruct (Z.testbit w _); simpl in L.
    + apply Z.eqb_neq in L. tauto.
    + apply Z.eqb_eq in L. rewrite L. split; [done | discriminate].
Qed.

(** ** The search for a free bit *)

Lemma first_zero_bit_Some w n : forall j k,
  0 <= j -> first_zero_bit w j n = Some k ->
  j <= k < j + Z.of_nat n /\ Z.testbit w k = false /\
  forall i, j <= i < k -> Z.testbit w i = true.
Proof.
  induction n as [|n IH]; intros j k Hj; cbn [first_zero_bit]; [discriminate|].
  rewrite land_shift_zero by done. destruct (Z.testbit w j) eqn:E; simpl.
  - intros (Hk & Hb & Hall)%IH; [|lia]. split; [lia|]. split; [done|].
    intros i Hi. destruct (Z.eq_dec i j) as [->|]; [done|]. apply Hall. lia.
  - intros [= ->]. split; [lia|]. split; [done|]. intros; lia.
Qed.

Lemma first_zero_bit_None w n : forall j,
  0 <= j -> first_zero_bit w j n = None ->
  forall i, j <= i < j + Z.of_nat n -> Z.testbit w i = true.
Proof.
  induction n as [|n IH]; intros j Hj; cbn [first_zero_bit]; [intros; lia|].
  rewrite land_shift_zero by done. destruct (Z.testbit w j) eqn:E; simpl; [|discriminate].
  intros Hn i Hi. destruct (Z.eq_dec i j) as [->|]; [done|].
  apply (IH (j + 1)); [lia | done | lia].
Qed.

Lemma bit_at_word t i j w : bits t !! Z.to_nat i = Some w -> 0 <= i -> 0 <= j < 32 ->
  bit_at t (i * 32 + j) = Z.testbit w j.
Proof.
  intros E Hi Hj. unfold bit_at, INDEX_FROM_BIT, OFFSET_FROM_BIT.
  change (8 * 4) with 32.
  rewrite Z.div_add_l, Z.div_small, Z.add_0_r by lia.
  rewrite Z.add_comm, Z.mod_add, Z.mod_small by lia. rewrite E. reflexivity.
Qed.

(** With no free frame left, the search runs through the array, and beyond
    it when [size] says so. *)
Definition search_end (t : bitset) : res (Z * bitset) :=
  if INDEX_FROM_BIT (bsize t) <=? Z.of_nat (length (bits t)) then Ok (0xFFFFFFFF, t)
  else Fault (BadAccess (Z.of_nat (length (bits t)))).

Lemma first_free_from_spec t n : forall i,
  wf_bitset t -> 0 <= i <= Z.of_nat (length (bits t)) -> i + Z.of_nat n = INDEX_FROM_BIT (bsize t) ->
  (forall k, 0 <= k < 32 * i -> bit_at t k = true) ->
  (exists r, first_free_from i n t = Ok (r, t) /\
     managed t r /\ bit_at t r = false /\ forall k, 0 <= k < r -> bit_at t k = true) \/
  (first_free_from i n t = search_end t /\ forall k, managed t k -> bit_at t k = true).
Proof.
  induction n as [|n IH]; intros i Hwf Hi Hn Hall; cbn [first_free_from].
  - right. unfold search_end. rewrite (proj2 (Z.leb_le _ _)) by lia. split; [done|].
    intros k Hk. apply Hall. unfold managed, capacity in Hk. lia.
  - pose proof (wf_len _ Hwf) as Hlen. pose proof (wf_size _ Hwf) as Hsz.
    destruct (decide (i = Z.of_nat (length (bits t)))) as [->|Hne].
    { right. unfold search_end. rewrite (proj2 (Z.leb_gt _ _)) by lia. split.
      - apply bind_Fault. unfold word_get. by rewrite lookup_ge_None_2 by lia.
      - intros k Hk. apply Hall. unfold managed, capacity in Hk. lia. }
    destruct (lookup_lt_is_Some_2 (bits t) (Z.to_nat i)) as [w E]; [lia|].
    assert (Eg : word_get i t = Ok (w, t)) by (unfold word_get; rewrite E; done).
    rewrite (bind_Ok _ _ _ _ _ Eg). pose proof (word_u32 _ _ _ Hwf E) as Hw.
    assert (Hfull : (forall j, 0 <= j < 32 -> Z.testbit w j = true) ->
                    forall k, 0 <= k < 32 * (i + 1) -> bit_at t k = true).
    { intros Hones k Hk. destruct (Z.lt_ge_cases k (32 * i)); [apply Hall; lia|].
      replace k with (i * 32 + (k - 32 * i)) by lia.
      rewrite (bit_at_word _ _ _ w) by (done || lia). apply Hones. lia. }
    destruct (Z.eqb_spec w 0xFFFFFFFF) as [->|Hw1].
    + apply IH; [done | lia | lia |]. apply Hfull. intros j Hj.
      change 0xFFFFFFFF with (Z.ones 32). rewrite Z.testbit_ones_nonneg by lia. lia.
    + destruct (first_zero_bit w 0 32) as [j|] eqn:Ej.
      * apply first_zero_bit_Some in Ej as (Hj & Hb & Hb'); [|lia].
        assert (Hb32 : 0 <= i * 4 * 8 + j < 32 * capacity t) by (unfold capacity; lia).
        assert (INDEX_FROM_BIT (bsize t) < 134217728).
        { unfold INDEX_FROM_BIT. unfold u32 in Hsz. apply Z.div_lt_upper_bound; lia. }
        rewrite (w32_small (i * 4 * 8 + j)) by (unfold u32, capacity in *; lia).
        left. eexists. split; [done|]. replace (i * 4 * 8 + j) with (i * 32 + j) in * by lia.
        split; [done|]. split; [by rewrite (bit_at_word _ _ _ w) by (done || lia)|].
        intros k Hk. destruct (Z.lt_ge_cases k (32 * i)); [apply Hall; lia|].
        replace k with (i * 32 + (k - 32 * i)) by lia.
        rewrite (bit_at_word _ _ _ w) by (done || lia). apply Hb'. lia.
      * exfalso. apply Hw1, all_ones_bits; [done|]. intros j Hj.
        apply (first_zero_bit_None w 32 0); [lia | done | lia].
Qed.

Lemma bitset_firstFree_spec t : wf_bitset t ->
  (exists r, bitset_firstFree t = Ok (r, t) /\
     managed t r /\ bit_at t r = false /\ forall k, 0 <= k < r -> bit_at t k = true) \/
  (bitset_firstFree t = search_end t /\ forall k, managed t k -> bit_at t k = true).
Proof.
  intros Hwf. unfold bitset_firstFree. change (gets bsize t) with (Ok (bsize t, t)).
  pose proof (wf_size _ Hwf) as Hs. unfold u32 in Hs.
  assert (0 <= INDEX_FROM_BIT (bsize t)) by (apply Z.div_pos; lia).
  apply (first_free_from_spec t _ 0); [done | lia | lia | intros; lia].
Qed.

(** ** Properties *)

Lemma frame_alloc_ok t :
  wf_bitset t -> (exists k, managed t k /\ bit_at t k = false) ->
  exists r t', frame_alloc t = Ok (r, t') /\ managed t r /\ bit_at t r = false /\
    (forall k, 0 <= k < r -> bit_at t k = true) /\
    wf_bitset t' /\ bsize t' = bsize t /\ length (bits t') = length (bits t) /\
    forall k, 0 <= k -> bit_at t' k = if k =? r then true else bit_at t k.
Proof.
  intros Hwf (k0 & Hk0 & Hb0).
  destruct (bitset_firstFree_spec _ Hwf) as [(r & E & Hm & Hb & Hlow)|(_ & Hfull)].
  - destruct (bitset_set_spec t r Hwf) as (t' & Es & Hwf' & Hsz & Hlen & Hbits);
      [by apply managed_in_array|].
    exists r, t'. split; [|by auto 10].
    unfold frame_alloc. rewrite (bind_Ok _ _ _ _ _ E), (bind_Ok _ _ _ _ _ Es). reflexivity.
  - rewrite Hfull in Hb0 by done. discriminate.
Qed.

(** C40. [frame_alloc] is a correct allocator of physical frames: while a
    managed frame is free it returns the lowest free one, marks exactly
    that frame as used and leaves the bitset well formed. *)
Theorem frame_alloc_lowest_free t :
  wf_bitset t -> (exists k, managed t k /\ bit_at t k = false) ->
  exists r t', frame_alloc t = Ok (r, t') /\ managed t r /\ bit_at t r = false /\
    (forall k, 0 <= k < r -> bit_at t k = true) /\
    wf_bitset t' /\ bsize t' = bsize t /\
    forall k, 0 <= k -> bit_at t' k = if k =? r then true else bit_at t k.
Proof.
  intros Hwf He. destruct (frame_alloc_ok t Hwf He) as (r & t' & ?). exists r, t'. tauto.
Qed.

Lemma free_count_le t n n' : (n' <= n)%nat -> free_count t n -> free_count t n'.
Proof.
  intros Hle (fs & Hnd & Hlen & Hfs). exists (take n' fs). split; [eapply sublist_NoDup; [exact Hnd | apply sublist_take]|].
  split; [rewrite length_take; lia|]. intros k Hk. apply Hfs. apply elem_of_take in Hk as (i & Hi & _). by eapply list_elem_of_lookup_2.
Qed.

Lemma free_count_step t t' r n :
  free_count t (S n) -> capacity t' = capacity t ->
  (forall k, 0 <= k -> bit_at t' k = if k =? r then true else bit_at t k) ->
  free_count t' n.
Proof.
  intros (fs & Hnd & Hlen & Hfs) Hsz Hb.
  assert (Hkeep : forall k, k ∈ fs -> k <> r -> managed t' k /\ bit_at t' k = false).
  { intros k [Hm Hf]%Hfs Hne. unfold managed in *. rewrite Hsz. split; [done|].
    rewrite Hb by lia. destruct (Z.eqb_spec k r); done. }
  destruct (decide (r ∈ fs)) as [(l1 & l2 & ->)%list_elem_of_split|Hin].
  - apply NoDup_app in Hnd as (Hnd1 & Hdis & [Hr Hnd2]%NoDup_cons).
    exists (l1 ++ l2). split.
    + apply NoDup_app. split; [done|]. split; [|done]. set_solver.
    + rewrite length_app in *. simpl in Hlen. split; [lia|].
      intros k Hk. apply Hkeep; set_solver.
  - destruct fs as [|f fs]; [done|]. exists fs. apply NoDup_cons in Hnd as [? ?].
    simpl in Hlen. split; [done|]. split; [lia|]. intros k Hk. apply Hkeep; set_solver.
Qed.

Lemma frame_allocs_ok n : forall t,
  wf_bitset t -> free_count t n ->
  exists fs t', frame_allocs n t = Ok (fs, t') /\ NoDup fs /\ length fs = n /\
    wf_bitset t' /\ capacity t' = capacity t /\
    (forall k, k ∈ fs -> managed t k /\ bit_at t k = false) /\
    forall k, 0 <= k -> bit_at t' k = bool_decide (k ∈ fs) || bit_at t k.
Proof.
  induction n as [|n IH]; intros t Hwf Hfree.
  { exists [], t. cbn [frame_allocs]. split; [done|]. split; [constructor|].
    do 4 (split; [set_solver|]). intros k _. rewrite bool_decide_false by set_solver. done. }
  destruct (frame_alloc_ok t Hwf) as (r & t1 & E & Hm & Hb & _ & Hwf1 & Hsz & Hlen1 & Hb1).
  { destruct Hfree as ([|f fs] & _ & Hlen & Hfs); [done|]. exists f. apply Hfs. set_solver. }
  pose proof (capacity_same _ _ Hsz Hlen1) as Hsz1.
  destruct (IH t1 Hwf1) as (fs & t2 & E2 & Hnd & Hlen & Hwf2 & Hsz2 & Hfs & Hb2).
  { by eapply free_count_step. }
  exists (r :: fs), t2.
  split; [cbn [frame_allocs]; rewrite (bind_Ok _ _ _ _ _ E), (bind_Ok _ _ _ _ _ E2); done|].
  assert (Hr : r ∉ fs).
  { intros [Hm' Hb']%Hfs. unfold managed in Hm'. rewrite Hb1, Z.eqb_refl in Hb' by lia. done. }
  split; [by constructor|]. split; [simpl; congruence|]. split; [done|]. split; [congruence|].
  split.
  - intros k [->|Hk]%elem_of_cons; [done|]. assert (k <> r) by (intros ->; done).
    apply Hfs in Hk as [Hm' Hb']. unfold managed in *. rewrite Hsz1 in Hm'. split; [done|].
    rewrite Hb1 in Hb' by lia. destruct (Z.eqb_spec k r); done.
  - intros k Hk. rewrite Hb2, Hb1 by done. destruct (Z.eqb_spec k r) as [->|Hne].
    + rewrite orb_true_r, bool_decide_true by set_solver. done.
    + f_equal. apply bool_decide_ext. set_solver.
Qed.

(** Successive frame allocations never alias: with [n] free frames, [n]
    calls return [n] pairwise distinct managed frames, none of which was in
    use, and exactly these become used. *)
Theorem frame_allocs_distinct n t :
  wf_bitset t -> free_count t n ->
  exists fs t', frame_allocs n t = Ok (fs, t') /\ NoDup fs /\ length fs = n /\
    wf_bitset t' /\
    (forall k, k ∈ fs -> managed t k /\ bit_at t k = false) /\
    forall k, 0 <= k -> bit_at t' k = bool_decide (k ∈ fs) || bit_at t k.
Proof.
  intros Hwf Hf. destruct (frame_allocs_ok n t Hwf Hf) as (fs & t' & ?). exists fs, t'. tauto.
Qed.

(** A frame that was allocated and then freed is free again and no other
    frame changed: [frame_free] undoes [frame_alloc], bit for bit. *)
Theorem frame_alloc_free_inverse t r t1 :
  wf_bitset t -> (exists k, managed t k /\ bit_at t k = false) ->
  frame_alloc t = Ok (r, t1) ->
  exists t2, frame_free r t1 = Ok (tt, t2) /\ wf_bitset t2 /\
    forall k, 0 <= k -> bit_at t2 k = bit_at t k.
Proof.
  intros Hwf He E.
  destruct (frame_alloc_ok t Hwf He) as (r' & t' & E' & Hm & Hb & _ & Hwf' & Hsz & Hlen & Hb').
  rewrite E in E'. injection E' as <- <-.
  destruct (bitset_clear_spec t1 r Hwf') as (t2 & E2 & Hwf2 & _ & _ & Hb2).
  { apply managed_in_array; [done|]. unfold managed in *. by rewrite (capacity_same _ _ Hsz Hlen). }
  exists t2. split; [exact E2|]. split; [done|]. intros k Hk.
  rewrite Hb2, Hb' by done. destruct (Z.eqb_spec k r) as [->|]; done.
Qed.

(** Exhaustion is not reported.  With every managed frame in use, the
    search goes on beyond an array that is too short for [size]; or
    [bitset_firstFree] answers 0xFFFFFFFF and [frame_alloc] uses it as a
    frame number, setting a bit of word 0x7FFFFFF of the array.  The bitset
    of a machine with 4 GiB of memory has 32768 words at most, so the access
    is out of bounds. *)
Theorem frame_alloc_exhausted_faults t :
  wf_bitset t -> Z.of_nat (length (bits t)) <= 0x7FFFFFF ->
  (forall k, managed t k -> bit_at t k = true) ->
  frame_alloc t = Fault (BadAccess (if INDEX_FROM_BIT (bsize t) <=? Z.of_nat (length (bits t)) then 0x7FFFFFF
                                    else Z.of_nat (length (bits t)))).
Proof.
  intros Hwf Hlen Hfull.
  destruct (bitset_firstFree_spec _ Hwf) as [(r & E & Hm & Hb & Hlow)|(E & _)].
  - rewrite Hfull in Hb by done. discriminate.
  - unfold frame_alloc. unfold search_end in E. destruct (_ <=? _); [|by apply bind_Fault].
    rewrite (bind_Ok _ _ _ _ _ E). apply bind_Fault.
    unfold bitset_set. change (INDEX_FROM_BIT 0xFFFFFFFF) with 0x7FFFFFF.
    apply bind_Fault. unfold word_get.
    rewrite (lookup_ge_None_2 (bits t)) by lia. reflexivity.
Qed.

(** ** Witnesses *)

(** 64 frames, the first two in use. *)
Definition sample_bitset : bitset := Bitset [3; 0] 64.

Lemma sample_bitset_wf : wf_bitset sample_bitset.
Proof.
  split; cbn [bsize bits sample_bitset]; [unfold u32; lia | vm_compute; discriminate |].
  repeat constructor; vm_compute; discriminate.
Qed.

Lemma frame_alloc_lowest_free_witness :
  exists r t', frame_alloc sample_bitset = Ok (r, t') /\ managed sample_bitset r /\
    bit_at sample_bitset r = false /\
    (forall k, 0 <= k < r -> bit_at sample_bitset k = true) /\
    wf_bitset t' /\ bsize t' = bsize sample_bitset /\
    forall k, 0 <= k -> bit_at t' k = if k =? r then true else bit_at sample_bitset k.
Proof.
  apply (frame_alloc_lowest_free sample_bitset sample_bitset_wf).
  exists 2. split; [vm_compute; split; [discriminate | reflexivity] | reflexivity].
Defined.

Lemma frame_allocs_distinct_witness :
  exists fs t', frame_allocs 3 sample_bitset = Ok (fs, t') /\ NoDup fs /\ length fs = 3%nat /\
    wf_bitset t' /\
    (forall k, k ∈ fs -> managed sample_bitset k /\ bit_at sample_bitset k = false) /\
    forall k, 0 <= k -> bit_at t' k = bool_decide (k ∈ fs) || bit_at sample_bitset k.
Proof.
  apply (frame_allocs_distinct 3 sample_bitset sample_bitset_wf).
  exists [5; 6; 40]. split; [apply (bool_decide_unpack _); vm_compute; exact I|].
  split; [reflexivity|]. intros k Hk.
  repeat (apply elem_of_cons in Hk as [->|Hk];
    [split; [vm_compute; split; [discriminate | reflexivity] | reflexivity]|]).
  apply not_elem_of_nil in Hk. destruct Hk.
Defined.

Lemma frame_alloc_free_inverse_witness :
  exists t2, frame_free 2 (Bitset [7; 0] 64) = Ok (tt, t2) /\ wf_bitset t2 /\
    forall k, 0 <= k -> bit_at t2 k = bit_at sample_bitset k.
Proof.
  apply (frame_alloc_free_inverse sample_bitset 2 _ sample_bitset_wf).
  - exists 2. split; [vm_compute; split; [discriminate | reflexivity] | reflexivity].
  - vm_compute. reflexivity.
Defined.

Lemma frame_alloc_exhausted_faults_witness :
  frame_alloc (Bitset [0xFFFFFFFF] 32) = Fault (BadAccess 0x7FFFFFF).
Proof.
  apply frame_alloc_exhausted_faults.
  - split; cbn [bsize bits]; [unfold u32; lia | vm_compute; discriminate |].
    repeat constructor; vm_compute; discriminate.
  - vm_compute. discriminate.
  - intros k [Hk0 Hk]. change (32 * capacity _) with 32 in Hk.
    replace k with (0 * 32 + k) by lia. rewrite (bit_at_word _ _ _ 0xFFFFFFFF) by (done || lia).
    change 0xFFFFFFFF with (Z.ones 32). rewrite Z.testbit_ones_nonneg by lia. lia.
Defined.
