(* ===== verification/Memory.v ===== *)
(** * Byte memory

    A flat 32-bit address space of bytes with little-endian 32-bit words,
    used by the heap allocators (whose headers, footers and index live in
    the memory they manage) and by the string functions. *)

From S2P Require Import Prelude.

(** The byte at each address; only its value modulo 256 is meaningful. *)
Definition mem : Type := Z -> Z.

Definition rd8 (m : mem) (a : Z) : Z := m a mod 256.
Definition wr8 (m : mem) (a v : Z) : mem := fun x => if x =? a then v mod 256 else m x.

Definition rd32 (m : mem) (a : Z) : Z :=
  rd8 m a + 256 * rd8 m (a + 1) + 65536 * rd8 m (a + 2) + 16777216 * rd8 m (a + 3).

Definition wr32 (m : mem) (a v : Z) : mem :=
  wr8 (wr8 (wr8 (wr8 m a v) (a + 1) (v / 256)) (a + 2) (v / 65536)) (a + 3) (v / 16777216).

(** [m'] has the bytes of [m] on [[lo, hi)]. *)
Definition agree (m m' : mem) (lo hi : Z) : Prop := forall x, lo <= x < hi -> m' x = m x.

(** The contents of [f] on [[lo, hi)], of [m] elsewhere: memory that was
    just mapped shows whatever its frames hold. *)
Definition splice (m f : mem) (lo hi : Z) : mem :=
  fun x => if (lo <=? x) && (x <? hi) then f x else m x.

Lemma rd32_range m a : u32 (rd32 m a).
Proof.
  unfold rd32, rd8, u32.
  pose proof (Z.mod_pos_bound (m a) 256). pose proof (Z.mod_pos_bound (m (a + 1)) 256).
  pose proof (Z.mod_pos_bound (m (a + 2)) 256). pose proof (Z.mod_pos_bound (m (a + 3)) 256). lia.
Qed.

Lemma wr8_eq m a v : rd8 (wr8 m a v) a = v mod 256.
Proof. unfold rd8, wr8. rewrite Z.eqb_refl. apply Z.mod_mod. lia. Qed.

Lemma wr8_ne m a v x : x <> a -> wr8 m a v x = m x.
Proof. intros Hne. unfold wr8. destruct (Z.eqb_spec x a); done. Qed.

Lemma wr32_ne m a v x : x < a \/ a + 4 <= x -> wr32 m a v x = m x.
Proof. intros Hne. unfold wr32. rewrite !wr8_ne by lia. reflexivity. Qed.

Lemma rd8_ne m a v x : x <> a -> rd8 (wr8 m a v) x = rd8 m x.
Proof. intros Hne. unfold rd8. by rewrite wr8_ne. Qed.

Lemma rd32_wr32_eq m a v : u32 v -> rd32 (wr32 m a v) a = v.
Proof.
  intros Hv. unfold u32 in Hv. unfold rd32, wr32.
  rewrite wr8_eq, (rd8_ne _ (a + 3) _ a), (rd8_ne _ (a + 3) _ (a + 1)),
    (rd8_ne _ (a + 3) _ (a + 2)) by lia.
  rewrite wr8_eq, (rd8_ne _ (a + 2) _ a), (rd8_ne _ (a + 2) _ (a + 1)) by lia.
  rewrite wr8_eq, (rd8_ne _ (a + 1) _ a) by lia. rewrite wr8_eq.
  Z.div_mod_to_equations. lia.
Qed.

Lemma rd32_ext m m' a : (forall x, a <= x < a + 4 -> m' x = m x) -> rd32 m' a = rd32 m a.
Proof. intros E. unfold rd32, rd8. rewrite !E by lia. reflexivity. Qed.

Lemma rd32_wr32_ne m a v b : b + 4 <= a \/ a + 4 <= b -> rd32 (wr32 m a v) b = rd32 m b.
Proof. intros Hd. apply rd32_ext. intros x Hx. apply wr32_ne. lia. Qed.

Lemma agree_rd32 m m' lo hi a : agree m m' lo hi -> lo <= a -> a + 4 <= hi -> rd32 m' a = rd32 m a.
Proof. intros Hag ? ?. apply rd32_ext. intros x Hx. apply Hag. lia. Qed.

Lemma agree_refl m lo hi : agree m m lo hi.
Proof. intros x _. reflexivity. Qed.

Lemma agree_trans m1 m2 m3 lo hi : agree m1 m2 lo hi -> agree m2 m3 lo hi -> agree m1 m3 lo hi.
Proof. intros H1 H2 x Hx. rewrite H2, H1; done. Qed.

Lemma agree_sub m m' lo hi lo' hi' : agree m m' lo hi -> lo <= lo' -> hi' <= hi -> agree m m' lo' hi'.
Proof. intros Hag ? ? x Hx. apply Hag. lia. Qed.

Lemma agree_wr32 m a v lo hi : a + 4 <= lo \/ hi <= a -> agree m (wr32 m a v) lo hi.
Proof. intros Hd x Hx. apply wr32_ne. lia. Qed.

Lemma agree_wr32_r m m' a v lo hi :
  agree m m' lo hi -> a + 4 <= lo \/ hi <= a -> agree m (wr32 m' a v) lo hi.
Proof. intros H1 Hd. eapply agree_trans; [exact H1 | by apply agree_wr32]. Qed.

Lemma agree_splice m f lo hi lo' hi' : hi' <= lo \/ hi <= lo' -> agree m (splice m f lo hi) lo' hi'.
Proof.
  intros Hd x Hx. unfold splice.
  destruct (Z.leb_spec lo x), (Z.ltb_spec x hi); simpl; [lia | done..].
Qed.

#[export] Hint Resolve rd32_range agree_refl : grapes.
