(* ===== verification/Heap.v ===== *)
(** * The heap allocator

    [src/kernel/mem/heap.c] and the heap of [src/library/gc/mem.c].  The two
    files carry the same algorithm; they differ in where the memory comes
    from (kernel pages mapped one by one, or a segment set by a system
    call).  The algorithm is written once, against the class
    [HeapBacking].  [UserBacking] is the instance for a process;
    [KernelBacking] keeps only the set of pages the kernel has mapped, and
    [KHeap.PagedBacking] maps them in the kernel's page tables.

    Everything the allocator stores is in the byte memory [hm]: the array
    of holes ([idx], 4 bytes per entry), and in each block a 12-byte header
    (magic, is_hole, size) and an 8-byte footer (magic, header). *)

From S2P Require Import Prelude Memory.

Definition HEAP_MAGIC : Z := 0xBAD0BEEF.
Definition HEAP_MIN_SIZE : Z := 0x4000.
Definition sizeof_header : Z := 12.
Definition sizeof_footer : Z := 8.

(** [struct heap]; [idx] is the address of the hole array. *)
Record heap := Heap {
  idx : Z;
  idxused : Z;
  start_addr : Z;
  end_addr : Z;
  max_end : Z
}.

(** What the heap needs from the memory below it.  [grow i old new] makes
    [[old, new)] usable, for a heap whose index starts at [i]; a nonzero
    answer is a failure.  [filled] is what freshly usable memory contains.
    Shrinking has a part before the last hole is cut, which may refuse, and
    a part after it, whose answer is what is left in [heap->end_addr]. *)
Class HeapBacking (B : Type) := {
  accessible : B -> Z -> bool;
  filled : B -> mem;
  grow : Z -> Z -> Z -> M B Z;
  shrink_pre : Z -> Z -> Z -> M B Z;
  shrink_post : Z -> Z -> M B Z
}.

Record hstate (B : Type) := HState { hp : heap; hm : mem; bk : B }.
Arguments HState {B}. Arguments hp {B}. Arguments hm {B}. Arguments bk {B}.

Definition set_hp {B} (h : heap) (s : hstate B) : hstate B := HState h (hm s) (bk s).
Definition set_hm {B} (m : mem) (s : hstate B) : hstate B := HState (hp s) m (bk s).
Definition set_bk {B} (b : B) (s : hstate B) : hstate B := HState (hp s) (hm s) b.
Definition set_idxused (n : Z) (h : heap) : heap :=
  Heap (idx h) n (start_addr h) (end_addr h) (max_end h).
Definition set_end_addr (e : Z) (h : heap) : heap :=
  Heap (idx h) (idxused h) (start_addr h) e (max_end h).

Section heap.
Context {B : Type} `{HeapBacking B}.

(** 32-bit loads and stores through a pointer. *)
Definition usable4 (b : B) (a : Z) : bool :=
  accessible b a && accessible b (a + 1) && accessible b (a + 2) && accessible b (a + 3).

Definition ld (a : Z) : M (hstate B) Z := fun s =>
  if usable4 (bk s) a then Ok (rd32 (hm s) a, s) else Fault (BadAccess a).

Definition st (a v : Z) : M (hstate B) unit := fun s =>
  if usable4 (bk s) a then Ok (tt, set_hm (wr32 (hm s) a v) s) else Fault (BadAccess a).

(** Fields of [struct heap_header] and [struct heap_footer]. *)
Definition off_is_hole : Z := 4.
Definition off_size : Z := 8.
Definition off_header : Z := 4.

Definition get_magic (p : Z) := ld p.
Definition set_magic (p v : Z) := st p v.
Definition get_is_hole (p : Z) := ld (w32 (p + off_is_hole)).
Definition set_is_hole (p v : Z) := st (w32 (p + off_is_hole)) v.
Definition get_size (p : Z) := ld (w32 (p + off_size)).
Definition set_size (p v : Z) := st (w32 (p + off_size)) v.
Definition get_header (f : Z) := ld (w32 (f + off_header)).
Definition set_header (f v : Z) := st (w32 (f + off_header)) v.

(** [heap->idx[i]] *)
Definition idx_slot (h : heap) (i : Z) : Z := w32 (idx h + 4 * i).
Definition get_idx (i : Z) : M (hstate B) Z := h ← gets hp; ld (idx_slot h i).
Definition put_idx (i v : Z) : M (hstate B) unit := h ← gets hp; st (idx_slot h i) v.

(** The first loop of [heapIdx_insert]: [n] entries left from [it] on.
    [None] is the early return on finding [e] itself. *)
Fixpoint insert_scan (e : Z) (it : Z) (n : nat) : M (hstate B) (option Z) :=
  match n with
  | O => mret (Some it)
  | S n' =>
      p ← get_idx it; ps ← get_size p; es ← get_size e;
      if ps <? es then
        (if p =? e then mret None else insert_scan e (it + 1) n')
      else mret (Some it)
  end.

(** The shifting loop: [heap->idx[k] = heap->idx[k - 1]], [n] moves left. *)
Fixpoint shift_up (k : Z) (n : nat) : M (hstate B) unit :=
  match n with
  | O => mret tt
  | S n' => v ← get_idx (k - 1); put_idx k v;; shift_up (k - 1) n'
  end.

Definition heapIdx_insert (e : Z) : M (hstate B) unit :=
  h ← gets hp;
  if start_addr h <=? w32 (idxused h + 4 + idx h) then mret tt
  else
    r ← insert_scan e 0 (Z.to_nat (idxused h));
    match r with
    | None => mret tt
    | Some iterator =>
        if iterator =? idxused h then
          put_idx (idxused h) e;;
          modify (fun s => set_hp (set_idxused (w32 (idxused h + 1)) (hp s)) s)
        else
          let pos := iterator in
          shift_up (idxused h) (Z.to_nat (idxused h - pos));;
          modify (fun s => set_hp (set_idxused (w32 (idxused h + 1)) (hp s)) s);;
          put_idx pos e
    end.

(** The search loop of [heapIdx_remove]: the position of [e], or the end. *)
Fixpoint remove_scan (e : Z) (it : Z) (n : nat) : M (hstate B) Z :=
  match n with
  | O => mret it
  | S n' => p ← get_idx it; if p =? e then mret it else remove_scan e (it + 1) n'
  end.

(** [heap->idx[k] = heap->idx[k + 1]], [n] moves left. *)
Fixpoint shift_down (k : Z) (n : nat) : M (hstate B) unit :=
  match n with
  | O => mret tt
  | S n' => v ← get_idx (k + 1); put_idx k v;; shift_down (k + 1) n'
  end.

Definition heapIdx_remove (e : Z) : M (hstate B) unit :=
  h ← gets hp;
  iterator ← remove_scan e 0 (Z.to_nat (idxused h));
  if iterator =? idxused h then mret tt
  else
    modify (fun s => set_hp (set_idxused (w32 (idxused h - 1)) (hp s)) s);;
    shift_down iterator (Z.to_nat (idxused h - 1 - iterator)).

(** Getting memory from below: on success the new range shows [filled]. *)
Definition grow_heap (i old new : Z) : M (hstate B) Z :=
  r ← zoom bk set_bk (grow i old new);
  if r =? 0 then
    modify (fun s => set_hm (splice (hm s) (filled (bk s)) old new) s);; mret 0
  else mret r.

(** [if (x & 0x0FFF) x = (x & 0xFFFFF000) + 0x1000;] *)
Definition round_page (x : Z) : Z :=
  if page_off x =? 0 then x else w32 (page_mask x + 0x1000).

(** [heap_create]: 0 on success (the kernel version returns nothing). *)
Definition heap_create (start idxsize datasize maxdatasize : Z) : M (hstate B) Z :=
  let start := round_page start in
  s0 ← gets id;
  modify (set_hp (Heap (idx (hp s0)) (idxused (hp s0)) (w32 (start + idxsize))
                    (w32 (start + idxsize + datasize)) (w32 (start + idxsize + maxdatasize))));;
  h ← gets hp;
  err ← grow_heap start start (end_addr h);
  if negb (err =? 0) then mret (-1)
  else
    modify (set_hp (Heap start 0 (start_addr h) (end_addr h) (max_end h)));;
    let hole := start_addr h in
    set_size hole (w32 (end_addr h - start_addr h));;
    set_magic hole HEAP_MAGIC;;
    set_is_hole hole 1;;
    let hole_footer := w32 (end_addr h - sizeof_footer) in
    set_header hole_footer hole;;
    set_magic hole_footer HEAP_MAGIC;;
    heapIdx_insert hole;;
    mret 0.

(** The two ways [heap_expand] uses the new memory: the last hole becomes
    longer, or a new hole is made after the last block. *)
Definition lengthen_last (last_header quantity newEnd : Z) : M (hstate B) unit :=
  heapIdx_remove last_header;;
  sz ← get_size last_header;
  set_size last_header (w32 (sz + quantity));;
  let last_footer := w32 (newEnd - sizeof_footer) in
  set_magic last_footer HEAP_MAGIC;;
  set_header last_footer last_header;;
  heapIdx_insert last_header.

Definition append_hole (last_header quantity newEnd : Z) : M (hstate B) unit :=
  let last_footer := w32 (newEnd - sizeof_footer) in
  set_is_hole last_header 1;;
  set_magic last_header HEAP_MAGIC;;
  set_size last_header quantity;;
  set_magic last_footer HEAP_MAGIC;;
  set_header last_footer last_header;;
  heapIdx_insert last_header.

(** [heap_expand]: 1 when the heap grew, 0 when it could not. *)
Definition heap_expand (quantity : Z) : M (hstate B) Z :=
  let quantity := round_page quantity in
  h ← gets hp;
  if max_end h <? w32 (end_addr h + quantity) then mret 0
  else
    let newEnd := w32 (end_addr h + quantity) in
    err ← grow_heap (idx h) (end_addr h) newEnd;
    if negb (err =? 0) then mret 0
    else
      let last_footer := w32 (end_addr h - sizeof_footer) in
      last_header ← get_header last_footer;
      is_hole ← get_is_hole last_header;
      (if negb (is_hole =? 0) then lengthen_last last_header quantity newEnd
       else append_hole (end_addr h) quantity newEnd);;
      modify (fun s => set_hp (set_end_addr newEnd (hp s)) s);;
      mret 1.

(** The loop of [heap_contract] that finds how much can be given back;
    [n] rounds at most. *)
Fixpoint contract_quantity (h : heap) (size quantity : Z) (n : nat) : Z :=
  match n with
  | O => quantity
  | S n' =>
      if (HEAP_MIN_SIZE <? w32 (w32 (end_addr h - start_addr h) - quantity))
         && (0x1000 <? w32 (size - quantity))
      then contract_quantity h size (w32 (quantity + 0x1000)) n'
      else quantity
  end.

(** Its part that cuts the last hole by [q] bytes. *)
Definition cut_last (last_header last_footer q : Z) : M (hstate B) unit :=
  heapIdx_remove last_header;;
  sz ← get_size last_header;
  set_size last_header (w32 (sz - q));;
  let last_footer := w32 (last_footer - q) in
  set_magic last_footer HEAP_MAGIC;;
  set_header last_footer last_header;;
  heapIdx_insert last_header.

Definition heap_contract : M (hstate B) unit :=
  h ← gets hp;
  let last_footer := w32 (end_addr h - sizeof_footer) in
  last_header ← get_header last_footer;
  is_hole ← get_is_hole last_header;
  if is_hole =? 0 then mret tt
  else
    size ← get_size last_header;
    let quantity := contract_quantity h size 0 (Z.to_nat (size / 0x1000 + 1)) in
    if quantity =? 0 then mret tt
    else
      let newEnd := w32 (end_addr h - quantity) in
      err ← zoom bk set_bk (shrink_pre (idx h) newEnd (end_addr h));
      if negb (err =? 0) then mret tt
      else
        cut_last last_header last_footer quantity;;
        e ← zoom bk set_bk (shrink_post newEnd (end_addr h));
        modify (fun s => set_hp (set_end_addr e (hp s)) s).

(** The first loop of [heap_alloc]: the first entry whose hole is large
    enough, or the end; [n] entries left. *)
Fixpoint find_hole (newsize : Z) (it : Z) (n : nat) : M (hstate B) Z :=
  match n with
  | O => mret it
  | S n' => p ← get_idx it; ps ← get_size p;
            if newsize <=? ps then mret it else find_hole newsize (it + 1) n'
  end.

(** [heap_alloc] after a hole was found: take it, and cut it in two when
    what is left is worth a hole. *)
Definition alloc_at (newsize iterator : Z) : M (hstate B) Z :=
  loc ← get_idx iterator;
  lsz ← get_size loc;
  let footer := w32 (w32 (loc + lsz) - sizeof_footer) in
  set_is_hole loc 0;;
  heapIdx_remove loc;;
  lsz ← get_size loc;
  when (w32 (newsize + sizeof_header + sizeof_footer) <? lsz)
    (set_size loc newsize;;
     let newfooter := w32 (w32 (loc + newsize) - sizeof_footer) in
     set_header newfooter loc;;
     set_magic newfooter HEAP_MAGIC;;
     let nextloc := w32 (loc + newsize) in
     set_is_hole nextloc 1;;
     set_magic nextloc HEAP_MAGIC;;
     set_size nextloc (w32 (footer - nextloc + sizeof_footer));;
     set_header footer nextloc;;
     set_magic footer HEAP_MAGIC;;
     heapIdx_insert nextloc);;
  mret (w32 (loc + sizeof_header)).

Fixpoint heap_alloc_fuel (fuel : nat) (sz : Z) : M (hstate B) Z :=
  match fuel with
  | O => fail NoFuel
  | S fuel' =>
      let newsize := w32 (sz + sizeof_header + sizeof_footer) in
      h ← gets hp;
      iterator ← find_hole newsize 0 (Z.to_nat (idxused h));
      if iterator =? idxused h then
        r ← heap_expand (w32 (page_mask sz + 0x1000));
        if r =? 0 then mret 0 else heap_alloc_fuel fuel' sz
      else alloc_at newsize iterator
  end.

(** [heap_alloc]; the fuel is the number of pages the heap can still grow
    by, plus the last round. *)
Definition heap_alloc (sz : Z) : M (hstate B) Z := fun s =>
  heap_alloc_fuel (2 + Z.to_nat ((max_end (hp s) - end_addr (hp s)) / 0x1000)) sz s.

(** [heap_free] after the checks: merge left, merge right, become a hole.
    Answers the header and the footer of the resulting hole. *)
Definition unify_left (header footer : Z) : M (hstate B) Z :=
  let prev_footer := w32 (header - sizeof_footer) in
  pm ← get_magic prev_footer;
  if pm =? HEAP_MAGIC then
    ph ← get_header prev_footer;
    ih ← get_is_hole ph;
    if negb (ih =? 0) then
      heapIdx_remove ph;;
      set_header footer ph;;
      set_size ph (w32 (footer - ph + sizeof_footer));;
      mret ph
    else mret header
  else mret header.

Definition unify_right (header footer : Z) : M (hstate B) Z :=
  let next_header := w32 (footer + sizeof_footer) in
  nm ← get_magic next_header;
  if nm =? HEAP_MAGIC then
    ih ← get_is_hole next_header;
    if negb (ih =? 0) then
      heapIdx_remove next_header;;
      nsz ← get_size next_header;
      let footer := w32 (footer + nsz) in
      set_header footer header;;
      set_size header (w32 (footer - header + sizeof_footer));;
      mret footer
    else mret footer
  else mret footer.

Definition free_block (header footer : Z) : M (hstate B) (Z * Z) :=
  header ← unify_left header footer;
  footer ← unify_right header footer;
  set_is_hole header 1;;
  heapIdx_insert header;;
  mret (header, footer).

Definition heap_free (p : Z) : M (hstate B) unit :=
  if p =? 0 then mret tt
  else
    h ← gets hp;
    if (p <? start_addr h) || (end_addr h <? p) then mret tt
    else
      let header := w32 (p - sizeof_header) in
      hsz ← get_size header;
      let footer := w32 (w32 (header + hsz) - sizeof_footer) in
      hmagic ← get_magic header;
      (* the C [||] does not read the footer when the header is not one *)
      bad ← (if negb (hmagic =? HEAP_MAGIC) then mret true
             else fmagic ← get_magic footer; mret (negb (fmagic =? HEAP_MAGIC)));
      if (bad : bool) then mret tt
      else
        hf ← free_block header footer;
        let '(header, footer) := hf in
        h ← gets hp;
        if footer =? w32 (end_addr h - sizeof_footer) then
          sz ← get_size header;
          when ((0x2000 <=? sz) && (HEAP_MIN_SIZE <? w32 (end_addr h - start_addr h)))
            heap_contract
        else mret tt.

End heap.

(** ** The kernel's backing store

    [heap.c] maps the pages of the kernel heap with
    [page_map(pagedir_getPage(kernel_pagedir, i, 1), frame_alloc(), 0, 0)]
    and gives them back with [page_unmapFree].  The state is the set of
    mapped kernel pages; [kp_fill] is what the frames handed out contain. *)
Record kpages := KPages { kp_mapped : gset Z; kp_fill : nat -> mem; kp_count : nat }.

(** [for (i = old; i < new; i += 0x1000) page_map(...)], [n] pages left. *)
Fixpoint map_pages (i new : Z) (n : nat) (mapped : gset Z) : gset Z :=
  match n with
  | O => mapped
  | S n' => if i <? new then map_pages (w32 (i + 0x1000)) new n' ({[ i / 0x1000 ]} ∪ mapped)
            else mapped
  end.

(** [for (end -= 0x1000; end >= newEnd; end -= 0x1000) page_unmapFree(...)]:
    the final [end] and the pages still mapped. *)
Fixpoint unmap_pages (e newEnd : Z) (n : nat) (mapped : gset Z) : Z * gset Z :=
  match n with
  | O => (e, mapped)
  | S n' => if newEnd <=? e
            then unmap_pages (w32 (e - 0x1000)) newEnd n' (mapped ∖ {[ e / 0x1000 ]})
            else (e, mapped)
  end.

Definition kgrow (i old new : Z) : M kpages Z := fun b =>
  Ok (0, KPages (map_pages old new (Z.to_nat (1 + (new - old) / 0x1000)) (kp_mapped b))
           (kp_fill b) (S (kp_count b))).

Definition kshrink_post (newEnd old : Z) : M kpages Z := fun b =>
  let '(e, mapped) := unmap_pages (w32 (old - 0x1000)) newEnd
                        (Z.to_nat (1 + (old - newEnd) / 0x1000)) (kp_mapped b) in
  Ok (e, KPages mapped (kp_fill b) (kp_count b)).

#[export] Instance KernelBacking : HeapBacking kpages := {
  accessible b a := bool_decide (a / 0x1000 ∈ kp_mapped b);
  filled b := kp_fill b (kp_count b);
  grow := kgrow;
  shrink_pre _ _ _ := mret 0;
  shrink_post := kshrink_post
}.

(** ** The user library's backing store

    [mem.c] asks for the segment [[start, end)] with the system call
    [proc_setheap] ([process_setheapseg] in [src/kernel/task/task.c]), which
    refuses addresses from 0xE0000000 on.  The kernel hands out the pages
    of the segment on demand. *)
Record usegment := USegment { us_seg : option (Z * Z); us_fill : nat -> mem; us_count : nat }.

Definition setheapseg (start e prev_end : Z) : M usegment Z := fun b =>
  if (0xE0000000 <=? start) || (0xE0000000 <=? e) then Ok (-1, b)
  else Ok (0, USegment (Some (start, e)) (us_fill b) (S (us_count b))).

#[export] Instance UserBacking : HeapBacking usegment := {
  accessible b a := match us_seg b with
                    | Some (lo, hi) => (lo <=? a) && (a <? hi)
                    | None => false end;
  filled b := us_fill b (us_count b);
  grow i old new := setheapseg i new old;
  shrink_pre i newEnd old := setheapseg i newEnd old;
  shrink_post newEnd old := mret newEnd
}.

(** ** The user library's copy of the allocator

    [mem.c] repeats the code of [heap.c] line by line over the segment. *)

Definition gc_heapIdx_insert : Z -> M (hstate usegment) unit := heapIdx_insert.
Definition gc_heapIdx_remove : Z -> M (hstate usegment) unit := heapIdx_remove.
Definition gc_heap_create : Z -> Z -> Z -> Z -> M (hstate usegment) Z := heap_create.
Definition gc_heap_expand : Z -> M (hstate usegment) Z := heap_expand.
Definition gc_heap_contract : M (hstate usegment) unit := heap_contract.
Definition gc_heap_alloc : Z -> M (hstate usegment) Z := heap_alloc.
Definition gc_heap_free : Z -> M (hstate usegment) unit := heap_free.

(** ** The entry points of the user library ([malloc] and [free]) *)

Record ulib := ULib { ul_heap : hstate usegment; heap_ok : bool }.

Definition lift_heap {A} (m : M (hstate usegment) A) : M ulib A :=
  zoom ul_heap (fun h u => ULib h (heap_ok u)) m.

Definition malloc (size : Z) : M ulib Z :=
  u ← gets id;
  if heap_ok u then lift_heap (gc_heap_alloc size)
  else
    err ← lift_heap (gc_heap_create 0x20000000 0x00010000 0x00100000 0x4F000000);
    if negb (err =? 0) then mret 0
    else modify (fun u => ULib (ul_heap u) true);; lift_heap (gc_heap_alloc size).

Definition ufree (p : Z) : M ulib unit :=
  u ← gets id;
  let h := hp (ul_heap u) in
  if negb (heap_ok u) || (p <? start_addr h) || (end_addr h <? p) then mret tt
  else lift_heap (gc_heap_free p).
