(* ===== verification/HeapIndex.v ===== *)
(** * The hole index of the heap

    What [heapIdx_insert] and [heapIdx_remove] do to the array of holes, in
    terms of the list of (address, size) pairs the array stands for: the
    two loops over the byte memory implement insertion into and removal
    from a list kept in order of size, and write nowhere else. *)

From S2P Require Import Prelude Memory Heap.

(** Every byte of [[lo, hi)] can be accessed. *)
Definition acc {B} `{HeapBacking B} (b : B) (lo hi : Z) : Prop :=
  forall x, lo <= x < hi -> accessible b x = true.

(** Insertion before the first entry that is not smaller. *)
Fixpoint ins (e : Z * Z) (l : list (Z * Z)) : list (Z * Z) :=
  match l with
  | [] => [e]
  | y :: l' => if snd y <? snd e then y :: ins e l' else e :: y :: l'
  end.

(** Removal of the first entry for address [e]. *)
Fixpoint rem (e : Z) (l : list (Z * Z)) : list (Z * Z) :=
  match l with
  | [] => []
  | y :: l' => if fst y =? e then l' else y :: rem e l'
  end.

(** The array of [h] in memory [m] stands for [ix]. *)
Definition idx_at (m : mem) (base : Z) (ix : list (Z * Z)) : Prop :=
  forall i p sz, ix !! i = Some (p, sz) -> rd32 m (base + 4 * Z.of_nat i) = p.

(** The recorded sizes are the ones in the headers, and the headers lie in
    [[lo, hi)]. *)
Definition sizes_at (m : mem) (lo hi : Z) (ix : list (Z * Z)) : Prop :=
  forall p sz, (p, sz) ∈ ix -> lo <= p /\ p + 12 <= hi /\ rd32 m (p + 8) = sz.

(** ** Lists of holes *)

Lemma ins_split e l : exists l1 l2, l = l1 ++ l2 /\ ins e l = l1 ++ e :: l2 /\
  (forall y, y ∈ l1 -> snd y < snd e) /\ (forall y l', l2 = y :: l' -> snd e <= snd y).
Proof.
  induction l as [|y l (l1 & l2 & -> & E & H1 & H2)]; simpl.
  - exists [], []. set_solver.
  - destruct (Z.ltb_spec (snd y) (snd e)).
    + exists (y :: l1), l2. rewrite E. split; [done|]. split; [done|]. split; [|done].
      intros z [->|Hz]%elem_of_cons; auto.
    + exists [], (y :: l1 ++ l2). split; [done|]. split; [done|]. split; [set_solver|].
      intros z l' [= <- _]. done.
Qed.

Lemma ins_perm e l : ins e l ≡ₚ e :: l.
Proof.
  destruct (ins_split e l) as (l1 & l2 & -> & -> & _). symmetry. apply Permutation_middle.
Qed.

Lemma ins_length e l : length (ins e l) = S (length l).
Proof. rewrite (Permutation_length (ins_perm e l)). reflexivity. Qed.

Abbreviation sorted_sz := (StronglySorted (fun a b : Z * Z => snd a <= snd b)).

Lemma ins_sorted e l : sorted_sz l -> sorted_sz (ins e l).
Proof.
  induction 1 as [|y l Hl IH Hy]; simpl; [repeat constructor|].
  destruct (Z.ltb_spec (snd y) (snd e)).
  - constructor; [done|]. rewrite ins_perm. constructor; [lia | done].
  - constructor; [by constructor|]. constructor; [done|].
    eapply Forall_impl; [exact Hy|]. simpl. intros; lia.
Qed.

Lemma rem_split e l : e ∈ l.*1 -> exists l1 sz l2, l = l1 ++ (e, sz) :: l2 /\ rem e l = l1 ++ l2 /\
  e ∉ l1.*1.
Proof.
  induction l as [|[p sz] l IH]; simpl; [set_solver|].
  destruct (Z.eqb_spec p e) as [->|Hne].
  - exists [], sz, l. set_solver.
  - intros [?|Hin]%elem_of_cons; [done|]. destruct (IH Hin) as (l1 & s' & l2 & -> & -> & Hn).
    exists ((p, sz) :: l1), s', l2. split; [done|]. split; [done|]. simpl. set_solver.
Qed.

Lemma rem_sorted e l : sorted_sz l -> sorted_sz (rem e l).
Proof.
  induction 1 as [|y l Hl IH Hy]; simpl; [constructor|].
  destruct (fst y =? e); [done|]. constructor; [done|].
  rewrite Forall_forall in *. intros z Hz. apply Hy. clear -Hz.
  induction l as [|w l IH]; simpl in *; [done|]. destruct (fst w =? e); set_solver.
Qed.

Lemma rem_perm e sz l : NoDup l.*1 -> (e, sz) ∈ l -> l ≡ₚ (e, sz) :: rem e l.
Proof.
  intros Hnd Hin. destruct (rem_split e l) as (l1 & s' & l2 & -> & -> & Hn).
  { apply list_elem_of_fmap. by exists (e, sz). }
  assert (s' = sz) as ->.
  { rewrite fmap_app, fmap_cons in Hnd. simpl in Hnd.
    apply NoDup_app in Hnd as (_ & _ & [Hn2 _]%NoDup_cons).
    apply elem_of_app in Hin as [Hin|[[= ->]|Hin]%elem_of_cons]; [|done|].
    - exfalso. apply Hn. apply list_elem_of_fmap. by exists (e, sz).
    - exfalso. apply Hn2. apply list_elem_of_fmap. by exists (e, sz). }
  symmetry. apply Permutation_middle.
Qed.

(** ** Loads and stores *)

Section index.
Context {B : Type} `{HeapBacking B}.
Implicit Types (h : heap) (m : mem) (b : B) (ix : list (Z * Z)).

Lemma acc_sub b lo hi lo' hi' : acc b lo hi -> lo <= lo' -> hi' <= hi -> acc b lo' hi'.
Proof. intros Ha ? ? x Hx. apply Ha. lia. Qed.

Lemma usable4_acc b a lo hi : acc b lo hi -> lo <= a -> a + 4 <= hi -> usable4 b a = true.
Proof. intros Ha ? ?. unfold usable4. rewrite !Ha by lia. reflexivity. Qed.

Lemma ld_ok h m b a lo hi : acc b lo hi -> lo <= a -> a + 4 <= hi ->
  ld a (HState h m b) = Ok (rd32 m a, HState h m b).
Proof. intros Ha ? ?. unfold ld; cbn [bk hm]. by rewrite (usable4_acc b a lo hi). Qed.

Lemma st_ok h m b a v lo hi : acc b lo hi -> lo <= a -> a + 4 <= hi ->
  st a v (HState h m b) = Ok (tt, HState h (wr32 m a v) b).
Proof. intros Ha ? ?. unfold st; cbn [bk hm]. by rewrite (usable4_acc b a lo hi). Qed.

Lemma get_idx_ok h m b i hi : acc b (idx h) hi -> 0 <= idx h -> hi < W32 -> 0 <= i ->
  idx h + 4 * i + 4 <= hi ->
  get_idx i (HState h m b) = Ok (rd32 m (idx h + 4 * i), HState h m b).
Proof.
  intros Ha ? ? ? ?. unfold get_idx. rewrite (bind_Ok _ _ _ h (HState h m b)) by done.
  unfold idx_slot. rewrite w32_small by (unfold u32; lia). eapply ld_ok; [exact Ha | lia | lia].
Qed.

Lemma put_idx_ok h m b i v hi : acc b (idx h) hi -> 0 <= idx h -> hi < W32 -> 0 <= i ->
  idx h + 4 * i + 4 <= hi ->
  put_idx i v (HState h m b) = Ok (tt, HState h (wr32 m (idx h + 4 * i) v) b).
Proof.
  intros Ha ? ? ? ?. unfold put_idx. rewrite (bind_Ok _ _ _ h (HState h m b)) by done.
  unfold idx_slot. rewrite w32_small by (unfold u32; lia). eapply st_ok; [exact Ha | lia | lia].
Qed.

Lemma get_size_ok h m b p lo hi : acc b lo hi -> 0 <= lo <= p -> hi < W32 -> p + 12 <= hi ->
  get_size p (HState h m b) = Ok (rd32 m (p + 8), HState h m b).
Proof.
  intros Ha ? ? ?. unfold get_size, off_size. rewrite w32_small by (unfold u32; lia).
  eapply ld_ok; [exact Ha | lia | lia].
Qed.

(** ** The loops *)

Lemma shift_up_ok h b hi n : forall k m,
  acc b (idx h) hi -> 0 <= idx h -> hi < W32 -> Z.of_nat n <= k -> idx h + 4 * k + 4 <= hi ->
  exists m', shift_up k n (HState h m b) = Ok (tt, HState h m' b) /\
    (forall j, k - Z.of_nat n < j <= k -> rd32 m' (idx h + 4 * j) = rd32 m (idx h + 4 * (j - 1))) /\
    (forall x, x < idx h + 4 * (k - Z.of_nat n + 1) \/ idx h + 4 * k + 4 <= x -> m' x = m x).
Proof.
  induction n as [|n IH]; intros k m Ha Hi Hhi Hn Hk; cbn [shift_up].
  - exists m. split; [done|]. split; [intros; lia | done].
  - rewrite (bind_Ok _ _ _ _ _ (get_idx_ok h m b (k - 1) hi Ha Hi Hhi ltac:(lia) ltac:(lia))).
    rewrite (bind_Ok _ _ _ _ _ (put_idx_ok h m b k _ hi Ha Hi Hhi ltac:(lia) ltac:(lia))).
    destruct (IH (k - 1) (wr32 m (idx h + 4 * k) (rd32 m (idx h + 4 * (k - 1)))) Ha Hi Hhi)
      as (m' & E & Hj & Hx); [lia | lia |].
    exists m'. split; [exact E|]. split.
    + intros j Hjk. destruct (Z.eq_dec j k) as [->|].
      * rewrite (rd32_ext _ m' (idx h + 4 * k)) by (intros y Hy; apply Hx; lia).
        apply rd32_wr32_eq, rd32_range.
      * rewrite Hj by lia. apply rd32_wr32_ne. lia.
    + intros x Hx'. rewrite Hx by lia. apply wr32_ne. lia.
Qed.

Lemma shift_down_ok h b hi n : forall k m,
  acc b (idx h) hi -> 0 <= idx h -> hi < W32 -> 0 <= k -> idx h + 4 * (k + Z.of_nat n) + 4 <= hi ->
  exists m', shift_down k n (HState h m b) = Ok (tt, HState h m' b) /\
    (forall j, k <= j < k + Z.of_nat n -> rd32 m' (idx h + 4 * j) = rd32 m (idx h + 4 * (j + 1))) /\
    (forall x, x < idx h + 4 * k \/ idx h + 4 * (k + Z.of_nat n) <= x -> m' x = m x).
Proof.
  induction n as [|n IH]; intros k m Ha Hi Hhi Hk Hn; cbn [shift_down].
  - exists m. split; [done|]. split; [intros; lia | done].
  - rewrite (bind_Ok _ _ _ _ _ (get_idx_ok h m b (k + 1) hi Ha Hi Hhi ltac:(lia) ltac:(lia))).
    rewrite (bind_Ok _ _ _ _ _ (put_idx_ok h m b k _ hi Ha Hi Hhi ltac:(lia) ltac:(lia))).
    destruct (IH (k + 1) (wr32 m (idx h + 4 * k) (rd32 m (idx h + 4 * (k + 1)))) Ha Hi Hhi)
      as (m' & E & Hj & Hx); [lia | lia |].
    exists m'. split; [exact E|]. split.
    + intros j Hjk. destruct (Z.eq_dec j k) as [->|].
      * rewrite (rd32_ext _ m' (idx h + 4 * k)) by (intros y Hy; apply Hx; lia).
        apply rd32_wr32_eq, rd32_range.
      * rewrite Hj by lia. apply rd32_wr32_ne. lia.
    + intros x Hx'. rewrite Hx by lia. apply wr32_ne. lia.
Qed.

Lemma idx_at_tail m base y ix : idx_at m base (y :: ix) -> idx_at m (base + 4) ix.
Proof.
  intros Hix i p sz E. specialize (Hix (S i) p sz E). rewrite <- Hix. f_equal. lia.
Qed.

Lemma insert_scan_ok h m b hi e es ix : forall it,
  acc b (idx h) hi -> 0 <= idx h -> hi < W32 -> 0 <= it ->
  idx h + 4 * (it + Z.of_nat (length ix)) <= hi ->
  idx_at m (idx h + 4 * it) ix -> sizes_at m (idx h) hi ((e, es) :: ix) -> e ∉ ix.*1 ->
  exists l1 l2, ix = l1 ++ l2 /\ ins (e, es) ix = l1 ++ (e, es) :: l2 /\
    insert_scan e it (length ix) (HState h m b)
    = Ok (Some (it + Z.of_nat (length l1)), HState h m b).
Proof.
  induction ix as [|[p sz] ix IH]; intros it Ha Hi Hhi Hit Hlen Hix Hsz Hne; simpl.
  - exists [], []. split; [done|]. split; [done|]. simpl. rewrite Z.add_0_r. done.
  - cbn [length] in Hlen.
    pose proof (Hix 0%nat p sz eq_refl) as Ep. rewrite Z.add_0_r in Ep.
    destruct (Hsz p sz) as (Hp1 & Hp2 & Esz); [set_solver|].
    destruct (Hsz e es) as (He1 & He2 & Ees); [set_solver|].
    rewrite (bind_Ok _ _ _ _ _ (get_idx_ok h m b it hi Ha Hi Hhi ltac:(lia) ltac:(lia))), Ep.
    rewrite (bind_Ok _ _ _ _ _ (get_size_ok h m b p _ hi Ha ltac:(lia) Hhi ltac:(lia))), Esz.
    rewrite (bind_Ok _ _ _ _ _ (get_size_ok h m b e _ hi Ha ltac:(lia) Hhi ltac:(lia))), Ees.
    destruct (Z.ltb_spec sz es).
    + destruct (Z.eqb_spec p e) as [->|Hpe]; [set_solver|].
      destruct (IH (it + 1)) as (l1 & l2 & -> & -> & E); try done; try lia.
      * apply idx_at_tail in Hix. intros i q s Ei. rewrite <- (Hix i q s Ei). f_equal. lia.
      * intros q s [[= -> ->]|Hin]%elem_of_cons; apply Hsz; set_solver.
      * set_solver.
      * exists ((p, sz) :: l1), l2. split; [done|]. split; [done|].
        rewrite E. do 3 f_equal. simpl. lia.
    + exists [], ((p, sz) :: ix). split; [done|]. split; [done|]. simpl. rewrite Z.add_0_r. done.
Qed.

Lemma remove_scan_ok h m b hi e ix : forall it,
  acc b (idx h) hi -> 0 <= idx h -> hi < W32 -> 0 <= it ->
  idx h + 4 * (it + Z.of_nat (length ix)) <= hi ->
  idx_at m (idx h + 4 * it) ix ->
  exists k, remove_scan e it (length ix) (HState h m b) = Ok (it + Z.of_nat k, HState h m b) /\
    ((k = length ix /\ e ∉ ix.*1) \/
     exists l1 sz l2, ix = l1 ++ (e, sz) :: l2 /\ rem e ix = l1 ++ l2 /\ k = length l1).
Proof.
  induction ix as [|[p sz] ix IH]; intros it Ha Hi Hhi Hit Hlen Hix; simpl.
  - exists 0%nat. rewrite Z.add_0_r. split; [done|]. left. set_solver.
  - cbn [length] in Hlen.
    pose proof (Hix 0%nat p sz eq_refl) as Ep. rewrite Z.add_0_r in Ep.
    rewrite (bind_Ok _ _ _ _ _ (get_idx_ok h m b it hi Ha Hi Hhi ltac:(lia) ltac:(lia))), Ep.
    destruct (Z.eqb_spec p e) as [->|Hpe].
    + exists 0%nat. rewrite Z.add_0_r. split; [done|]. right. exists [], sz, ix. done.
    + destruct (IH (it + 1)) as (k & E & Hk); try done; try lia.
      { apply idx_at_tail in Hix. intros i q s Ei. rewrite <- (Hix i q s Ei). f_equal. lia. }
      exists (S k). rewrite E. split; [do 2 f_equal; lia|].
      destruct Hk as [[-> Hn]|(l1 & s' & l2 & -> & -> & ->)]; [left; set_solver|].
      right. exists ((p, sz) :: l1), s', l2. done.
Qed.

(** ** Insertion and removal *)

Lemma heapIdx_insert_ok h m b hi e es ix :
  acc b (idx h) hi -> 0 <= idx h -> hi < W32 ->
  idxused h = Z.of_nat (length ix) ->
  idx h + 4 * (idxused h + 2) <= start_addr h <= hi ->
  idx_at m (idx h) ix -> sizes_at m (start_addr h) hi ((e, es) :: ix) -> e ∉ ix.*1 ->
  exists m', heapIdx_insert e (HState h m b)
             = Ok (tt, HState (set_idxused (idxused h + 1) h) m' b) /\
    idx_at m' (idx h) (ins (e, es) ix) /\
    (forall x, x < idx h \/ idx h + 4 * (idxused h + 1) <= x -> m' x = m x).
Proof.
  intros Ha Hi Hhi Hlen Hroom Hix Hsz Hne.
  assert (Hsz0 : sizes_at m (idx h) hi ((e, es) :: ix)).
  { intros p sz Hin. destruct (Hsz p sz Hin) as (? & ? & ?). split; [lia | done]. }
  destruct (insert_scan_ok h m b hi e es ix 0 Ha Hi Hhi ltac:(lia) ltac:(lia))
    as (l1 & l2 & Hsplit & Hins & E); [by rewrite Z.mul_0_r, Z.add_0_r | done | done |].
  assert (He : u32 e) by (destruct (Hsz e es) as (? & ? & ?); [set_solver | unfold u32; lia]).
  unfold heapIdx_insert. rewrite (bind_Ok _ _ _ h (HState h m b)) by done.
  rewrite (w32_small (idxused h + 4 + idx h)) by (unfold u32; lia).
  destruct (Z.leb_spec (start_addr h) (idxused h + 4 + idx h)); [lia|].
  rewrite Hlen, Nat2Z.id, (bind_Ok _ _ _ _ _ E), <- Hlen.
  rewrite (w32_small (idxused h + 1)) by (unfold u32; lia).
  assert (Hlook : forall i p sz, ins (e, es) ix !! i = Some (p, sz) ->
    (i < length l1)%nat /\ ix !! i = Some (p, sz) \/
    i = length l1 /\ p = e \/
    (length l1 < i <= length ix)%nat /\ ix !! (i - 1)%nat = Some (p, sz)).
  { intros i p sz. rewrite Hins. intros [Ei|[Hle Ei]]%lookup_app_Some.
    - left. pose proof (lookup_lt_Some _ _ _ Ei). rewrite Hsplit, lookup_app_l; done.
    - destruct (i - length l1)%nat as [|j] eqn:Ej; simpl in Ei; [right; left; split; [lia | congruence]|].
      right. right. pose proof (lookup_lt_Some _ _ _ Ei).
      rewrite Hsplit, length_app, lookup_app_r by lia.
      split; [lia|]. replace (i - 1 - length l1)%nat with j by lia. done. }
  destruct (Z.eqb_spec (0 + Z.of_nat (length l1)) (idxused h)) as [Eend|Nend].
  - rewrite (bind_Ok _ _ _ _ _ (put_idx_ok h m b (idxused h) e hi Ha Hi Hhi ltac:(lia) ltac:(lia))).
    exists (wr32 m (idx h + 4 * idxused h) e). split; [reflexivity|]. split.
    + intros i p sz [[Hil Ei]|[[-> ->]|[? ?]]]%Hlook; [| |lia].
      * rewrite rd32_wr32_ne by lia. by apply (Hix i p sz).
      * replace (Z.of_nat (length l1)) with (idxused h) by lia. by apply rd32_wr32_eq.
    + intros x Hx. apply wr32_ne. lia.
  - assert (Hll : Z.of_nat (length l1) < idxused h).
    { assert (length ix = length l1 + length l2)%nat by (rewrite Hsplit; apply length_app). lia. }
    destruct (shift_up_ok h b hi (Z.to_nat (idxused h - (0 + Z.of_nat (length l1)))) (idxused h) m
                Ha Hi Hhi ltac:(lia) ltac:(lia)) as (m' & Es & Hmove & Hkeep).
    rewrite (bind_Ok _ _ _ _ _ Es). unfold modify at 1, mbind at 1, M_bind at 1. cbn [hp set_hp hm bk].
    rewrite (put_idx_ok (set_idxused (idxused h + 1) h) m' b _ e hi) by (done || cbn; lia).
    exists (wr32 m' (idx h + 4 * (0 + Z.of_nat (length l1))) e). split; [reflexivity|]. split.
    + intros i p sz [[Hil Ei]|[[-> ->]|[Hil Ei]]]%Hlook.
      * rewrite rd32_wr32_ne by lia. rewrite <- (Hix i p sz Ei). apply rd32_ext. intros; apply Hkeep. lia.
      * by apply rd32_wr32_eq.
      * rewrite rd32_wr32_ne by lia. rewrite Hmove by lia. rewrite <- (Hix _ p sz Ei). f_equal. lia.
    + intros x Hx. rewrite wr32_ne by lia. apply Hkeep. lia.
Qed.

Lemma heapIdx_remove_ok h m b hi e sz ix :
  acc b (idx h) hi -> 0 <= idx h -> hi < W32 ->
  idxused h = Z.of_nat (length ix) -> idx h + 4 * idxused h <= start_addr h <= hi ->
  idx_at m (idx h) ix -> (e, sz) ∈ ix ->
  exists m', heapIdx_remove e (HState h m b)
             = Ok (tt, HState (set_idxused (idxused h - 1) h) m' b) /\
    idx_at m' (idx h) (rem e ix) /\ length (rem e ix) = Nat.pred (length ix) /\
    (forall x, x < idx h \/ idx h + 4 * (idxused h - 1) <= x -> m' x = m x).
Proof.
  intros Ha Hi Hhi Hlen Hroom Hix Hin.
  destruct (remove_scan_ok h m b hi e ix 0 Ha Hi Hhi ltac:(lia) ltac:(lia)) as (k & E & Hk);
    [by rewrite Z.mul_0_r, Z.add_0_r|].
  destruct Hk as [[_ Hn]|(l1 & s' & l2 & Hsplit & Hrem & ->)].
  { exfalso. apply Hn, list_elem_of_fmap. by exists (e, sz). }
  assert (Hl : length ix = S (length l1 + length l2)) by (rewrite Hsplit, length_app; simpl; lia).
  unfold heapIdx_remove. rewrite (bind_Ok _ _ _ h (HState h m b)) by done.
  rewrite Hlen, Nat2Z.id, (bind_Ok _ _ _ _ _ E), <- Hlen.
  destruct (Z.eqb_spec (0 + Z.of_nat (length l1)) (idxused h)); [lia|].
  unfold modify at 1, mbind at 1, M_bind at 1. cbn [hp set_hp hm bk].
  rewrite (w32_small (idxused h - 1)) by (unfold u32; lia).
  destruct (shift_down_ok (set_idxused (idxused h - 1) h) b hi (length l2)
              (0 + Z.of_nat (length l1)) m) as (m' & Es & Hmove & Hkeep); cbn; try (done || lia).
  replace (Z.to_nat (idxused h - 1 - (0 + Z.of_nat (length l1)))) with (length l2) by lia.
  cbn in Hmove, Hkeep, Es. exists m'. split; [exact Es|]. rewrite Hrem, length_app. split; [|split; [lia|]].
  - intros i p s [Ei|[Hle Ei]]%lookup_app_Some.
    + pose proof (lookup_lt_Some _ _ _ Ei).
      rewrite <- (Hix i p s) by (rewrite Hsplit, lookup_app_l; done).
      apply rd32_ext. intros x Hx. apply Hkeep. lia.
    + pose proof (lookup_lt_Some _ _ _ Ei). rewrite Hmove by lia.
      rewrite <- (Hix (S i) p s); [f_equal; lia|]. rewrite Hsplit, lookup_app_r by lia.
      replace (S i - length l1)%nat with (S (i - length l1)) by lia. done.
  - intros x Hx. apply Hkeep. lia.
Qed.

End index.
