(* ===== verification/HeapBlocks.v ===== *)
(** * Blocks of the heap and the heap invariant

    The data area of a heap is tiled by blocks, each a hole or in use, with
    its header and footer in the byte memory.  [heap_wf] is the invariant
    of the allocator: the tiling, the hole index (a permutation of the
    holes, in order of size), no two adjacent holes, and every byte of the
    heap accessible. *)

From S2P Require Import Prelude Memory Heap HeapIndex.

Record blk := Blk { bsz : Z; bhole : bool }.

#[export] Instance blk_eq_dec : EqDecision blk.
Proof. solve_decision. Defined.

(** Header and footer of a block of [sz] bytes at [a], hole flag apart. *)
Record mid (m : mem) (a sz : Z) : Prop := {
  mid_magic : rd32 m a = HEAP_MAGIC;
  mid_size : rd32 m (a + 8) = sz;
  mid_fmagic : rd32 m (a + sz - 8) = HEAP_MAGIC;
  mid_fheader : rd32 m (a + sz - 4) = a;
  mid_min : 20 <= sz
}.

Definition block_at (m : mem) (a : Z) (x : blk) : Prop :=
  mid m a (bsz x) /\ rd32 m (a + 4) = (if bhole x then 1 else 0).

Fixpoint tot (bs : list blk) : Z :=
  match bs with [] => 0 | x :: bs' => bsz x + tot bs' end.

(** [bs] tiles memory from [a] on. *)
Fixpoint blocks (m : mem) (a : Z) (bs : list blk) : Prop :=
  match bs with
  | [] => True
  | x :: bs' => block_at m a x /\ blocks m (a + bsz x) bs'
  end.

(** Addresses and sizes of the holes and of the blocks in use. *)
Fixpoint sel (hole : bool) (a : Z) (bs : list blk) : list (Z * Z) :=
  match bs with
  | [] => []
  | x :: bs' => if Bool.eqb (bhole x) hole then (a, bsz x) :: sel hole (a + bsz x) bs'
                else sel hole (a + bsz x) bs'
  end.
Abbreviation holes := (sel true).
Abbreviation used := (sel false).

Fixpoint no_adj (bs : list blk) : Prop :=
  match bs with
  | [] => True
  | x :: bs' => (bhole x = true -> match bs' with [] => True | y :: _ => bhole y = false end)
                /\ no_adj bs'
  end.

Definition last_hole (bs : list blk) : bool :=
  match last bs with Some x => bhole x | None => false end.
Definition first_hole (bs : list blk) : bool :=
  match bs with x :: _ => bhole x | [] => false end.

Section wf.
Context {B : Type} `{HeapBacking B}.

(** The part of the invariant that holds at every moment of an operation:
    the index stands for [ix], and everything is accessible. *)
Record heap_frame (h : heap) (m : mem) (b : B) (ix : list (Z * Z)) : Prop := {
  wf_idx0 : 4096 <= idx h;
  wf_room : idx h + 4 * idxused h + 8 <= start_addr h;
  wf_len : idxused h = Z.of_nat (length ix);
  wf_start : start_addr h <= end_addr h;
  wf_max : end_addr h <= max_end h < W32;
  wf_align : end_addr h mod 4096 = 0;
  wf_acc : acc b (idx h) (end_addr h);
  wf_at : idx_at m (idx h) ix;
  wf_sorted : sorted_sz ix;
  wf_guard : rd32 m (start_addr h - 8) <> HEAP_MAGIC
}.

Record heap_wf (h : heap) (m : mem) (b : B) (bs : list blk) (ix : list (Z * Z)) : Prop := {
  wf_frame : heap_frame h m b ix;
  wf_end : end_addr h = start_addr h + tot bs;
  wf_blocks : blocks m (start_addr h) bs;
  wf_holes : ix ≡ₚ holes (start_addr h) bs;
  wf_noadj : no_adj bs;
  wf_ne : bs <> []
}.

(** While a block is being freed: the blocks before it, its size, the
    blocks after it; its hole flag is not constrained and it is not in the
    index. *)
Record heap_mid (h : heap) (m : mem) (b : B) (bs1 : list blk) (sz : Z) (bs2 : list blk)
    (ix : list (Z * Z)) : Prop := {
  hm_frame : heap_frame h m b ix;
  hm_end : end_addr h = start_addr h + tot bs1 + sz + tot bs2;
  hm_blocks1 : blocks m (start_addr h) bs1;
  hm_mid : mid m (start_addr h + tot bs1) sz;
  hm_blocks2 : blocks m (start_addr h + tot bs1 + sz) bs2;
  hm_holes : ix ≡ₚ holes (start_addr h) bs1 ++ holes (start_addr h + tot bs1 + sz) bs2;
  hm_noadj1 : no_adj bs1;
  hm_noadj2 : no_adj bs2
}.

End wf.

(** The blocks in use in [u] have the same bytes in [m] and [m']. *)
Definition same_used (u : list (Z * Z)) (m m' : mem) : Prop :=
  forall a sz, (a, sz) ∈ u -> agree m m' a (a + sz).

(** ** Tilings *)

Lemma tot_app bs1 bs2 : tot (bs1 ++ bs2) = tot bs1 + tot bs2.
Proof. induction bs1 as [|x bs1 IH]; simpl; lia. Qed.

Lemma blocks_app m a bs1 bs2 :
  blocks m a (bs1 ++ bs2) <-> blocks m a bs1 /\ blocks m (a + tot bs1) bs2.
Proof.
  revert a; induction bs1 as [|x bs1 IH]; intros a; simpl.
  - rewrite Z.add_0_r. tauto.
  - rewrite IH, Z.add_assoc. tauto.
Qed.

Lemma sel_app hole a bs1 bs2 :
  sel hole a (bs1 ++ bs2) = sel hole a bs1 ++ sel hole (a + tot bs1) bs2.
Proof.
  revert a; induction bs1 as [|x bs1 IH]; intros a; simpl.
  - by rewrite Z.add_0_r.
  - rewrite IH, Z.add_assoc. destruct (Bool.eqb _ _); reflexivity.
Qed.

Lemma blocks_tot m a bs : blocks m a bs -> 20 * Z.of_nat (length bs) <= tot bs.
Proof.
  revert a; induction bs as [|x bs IH]; intros a; simpl; [lia|].
  intros [[Hm _] Hb]. apply IH in Hb. destruct Hm. lia.
Qed.

Lemma blocks_tot_nonneg m a bs : blocks m a bs -> 0 <= tot bs.
Proof. intros Hb%blocks_tot. lia. Qed.

Lemma mid_agree m m' a sz : agree m m' a (a + sz) -> mid m a sz -> mid m' a sz.
Proof.
  intros Hag [H1 H2 H3 H4 H5]. split; [..|done]; rewrite (agree_rd32 m m' a (a + sz)) by (done || lia); done.
Qed.

Lemma block_at_agree m m' a x : agree m m' a (a + bsz x) -> block_at m a x -> block_at m' a x.
Proof.
  intros Hag [Hm Hf]. split; [by eapply mid_agree|]. destruct Hm.
  rewrite (agree_rd32 m m' a (a + bsz x)) by (done || lia). done.
Qed.

Lemma blocks_agree m m' a bs : agree m m' a (a + tot bs) -> blocks m a bs -> blocks m' a bs.
Proof.
  revert a; induction bs as [|x bs IH]; intros a Hag; simpl in *; [done|].
  intros [Hx Hb]. pose proof (blocks_tot_nonneg _ _ _ Hb). split.
  - eapply block_at_agree; [|exact Hx]. eapply agree_sub; [exact Hag | lia | lia].
  - apply IH; [|done]. eapply agree_sub; [exact Hag | |]; [destruct Hx as [[] _]|]; lia.
Qed.

(** ** Selections *)

Lemma sel_in hole a bs p sz : (p, sz) ∈ sel hole a bs ->
  exists bs1 bs2, bs = bs1 ++ Blk sz hole :: bs2 /\ p = a + tot bs1.
Proof.
  revert a; induction bs as [|[s f] bs IH]; intros a; simpl; [set_solver|].
  assert (Hrec : (p, sz) ∈ sel hole (a + s) bs -> exists bs1 bs2,
    Blk s f :: bs = bs1 ++ Blk sz hole :: bs2 /\ p = a + tot bs1).
  { intros (bs1 & bs2 & -> & ->)%IH. exists (Blk s f :: bs1), bs2. split; [done|]. simpl. lia. }
  destruct (Bool.eqb f hole) eqn:E; [|exact Hrec].
  intros [[= -> ->]|Hin]%elem_of_cons; [|by apply Hrec].
  apply eqb_prop in E as ->. exists [], bs. split; [done|]. simpl. lia.
Qed.

Lemma sel_in_iff hole a bs p sz : (p, sz) ∈ sel hole a bs <->
  exists bs1 bs2, bs = bs1 ++ Blk sz hole :: bs2 /\ p = a + tot bs1.
Proof.
  split; [apply sel_in|]. intros (bs1 & bs2 & -> & ->). rewrite sel_app. simpl.
  rewrite eqb_reflx. set_solver.
Qed.

Lemma sel_bounds m hole a bs p sz : blocks m a bs -> (p, sz) ∈ sel hole a bs ->
  a <= p /\ p + sz <= a + tot bs /\ 20 <= sz /\ block_at m p (Blk sz hole).
Proof.
  intros Hb (bs1 & bs2 & -> & ->)%sel_in.
  apply blocks_app in Hb as [Hb1 [Hx Hb2]]. pose proof (blocks_tot_nonneg _ _ _ Hb1).
  pose proof (blocks_tot_nonneg _ _ _ Hb2). rewrite tot_app. simpl in *.
  pose proof Hx as [[] _]. simpl in *. split; [lia|]. split; [lia|]. done.
Qed.

Lemma sel_NoDup m hole a bs : blocks m a bs -> NoDup (sel hole a bs).*1.
Proof.
  revert a; induction bs as [|[s f] bs IH]; intros a; simpl; [constructor|].
  intros [Hx Hb]. specialize (IH _ Hb). destruct (Bool.eqb f hole); [|done].
  simpl. constructor; [|done]. intros ([p sz] & Ep & Hin)%list_elem_of_fmap. simpl in Ep. subst p.
  apply (sel_bounds m) in Hin as (? & _); [|done]. destruct Hx as [[] _]. simpl in *. lia.
Qed.

(** Blocks in use and holes are pairwise apart. *)
Lemma sel_disjoint m a bs hl hl' p sz q sz' : blocks m a bs ->
  (p, sz) ∈ sel hl a bs -> (q, sz') ∈ sel hl' a bs ->
  (p, sz, hl) = (q, sz', hl') \/ p + sz <= q \/ q + sz' <= p.
Proof.
  revert a; induction bs as [|[s f] bs IH]; intros a; simpl; [set_solver|].
  intros [Hx Hb] Hp Hq. destruct Hx as [[] _]. simpl in *.
  assert (Hbnd : forall hl0 r s0, (r, s0) ∈ sel hl0 (a + s) bs -> a + s <= r).
  { intros hl0 r s0 Hr. by apply (sel_bounds m) in Hr as (? & _). }
  destruct (Bool.eqb f hl) eqn:E1, (Bool.eqb f hl') eqn:E2;
    [apply eqb_prop in E1, E2; subst hl hl'; apply elem_of_cons in Hp as [[= -> ->]|Hp],
       Hq as [[= -> ->]|Hq]
    |apply elem_of_cons in Hp as [[= -> ->]|Hp]
    |apply elem_of_cons in Hq as [[= -> ->]|Hq]|];
    try (left; reflexivity); try (eapply IH; eassumption);
    try (apply Hbnd in Hp); try (apply Hbnd in Hq); right; lia.
Qed.

(** ** Adjacency *)

Lemma no_adj_app bs1 bs2 : no_adj (bs1 ++ bs2) <->
  no_adj bs1 /\ no_adj bs2 /\ (last_hole bs1 = true -> first_hole bs2 = false).
Proof.
  induction bs1 as [|x bs1 IH]; simpl.
  - unfold last_hole; simpl. split; [intros; split; [done|]; split; [done|discriminate] | tauto].
  - rewrite IH. destruct bs1 as [|y bs1].
    + unfold last_hole, first_hole; simpl. destruct bs2; tauto.
    + change (last_hole (x :: y :: bs1)) with (last_hole (y :: bs1)). simpl. tauto.
Qed.

Lemma last_hole_app bs x : last_hole (bs ++ [x]) = bhole x.
Proof. unfold last_hole. rewrite last_snoc. reflexivity. Qed.

Lemma last_hole_app_ne bs bs' : bs' <> [] -> last_hole (bs ++ bs') = last_hole bs'.
Proof.
  intros Hne. destruct (exists_last Hne) as (l & x & ->).
  by rewrite app_assoc, !last_hole_app.
Qed.

Lemma last_split (bs : list blk) : bs <> [] -> exists bs1 x, bs = bs1 ++ [x].
Proof. intros Hne. destruct (exists_last Hne) as (l & x & ->). eauto. Qed.

(** ** Permutation and order of the index *)

Lemma holes_sizes_at m lo a bs ix : blocks m a bs -> lo <= a ->
  (forall x, x ∈ ix -> x ∈ holes a bs) -> sizes_at m lo (a + tot bs) ix.
Proof.
  intros Hb Hlo Hsub p sz Hin%Hsub. apply (sel_bounds m) in Hin as (? & ? & ? & [[] _]); [|done].
  simpl in *. split; [lia|]. split; [lia | done].
Qed.

Lemma sizes_at_sub m lo hi lo' hi' ix : sizes_at m lo hi ix -> lo' <= lo -> hi <= hi' ->
  sizes_at m lo' hi' ix.
Proof. intros Hs ? ? p sz Hin. destruct (Hs p sz Hin) as (? & ? & ?). split; [lia|]. split; [lia | done]. Qed.

Lemma sizes_at_agree m m' lo hi ix : agree m m' lo hi -> sizes_at m lo hi ix -> sizes_at m' lo hi ix.
Proof.
  intros Hag Hs p sz Hin. destruct (Hs p sz Hin) as (? & ? & ?). split; [done|]. split; [done|].
  rewrite (agree_rd32 m m' lo hi) by (done || lia). done.
Qed.

Lemma idx_at_agree m m' base ix :
  agree m m' base (base + 4 * Z.of_nat (length ix)) -> idx_at m base ix -> idx_at m' base ix.
Proof.
  intros Hag Hix i p sz Ei. rewrite <- (Hix i p sz Ei). pose proof (lookup_lt_Some _ _ _ Ei).
  apply (agree_rd32 _ _ _ _ _ Hag); lia.
Qed.

Lemma rem_perm_cons e sz l l' : NoDup l.*1 -> l ≡ₚ (e, sz) :: l' -> rem e l ≡ₚ l'.
Proof.
  intros Hnd Hp. pose proof (rem_perm e sz l Hnd) as Hr.
  apply (Permutation_cons_inv (a := (e, sz))). rewrite <- Hr, Hp; [done|]. rewrite Hp. set_solver.
Qed.

(** Nothing outside the index is touched: what [heapIdx_insert] and
    [heapIdx_remove] guarantee, in the form the blocks need. *)
Lemma agree_above m m' lo hi : (forall x, x < lo \/ hi <= x -> m' x = m x) ->
  forall a e, hi <= a -> agree m m' a e.
Proof. intros Hx a e Ha x ?. apply Hx. lia. Qed.

Lemma rd32_above m m' lo hi a : (forall x, x < lo \/ hi <= x -> m' x = m x) -> hi <= a ->
  rd32 m' a = rd32 m a.
Proof. intros Hx Ha. apply rd32_ext. intros y Hy. apply Hx. lia. Qed.
