(* ===== verification/HeapOps.v ===== *)
(** * The heap operations on blocks

    Each operation of [Heap], run on a heap that satisfies the invariant,
    as a transformation of the list of blocks. *)

From S2P Require Import Prelude Memory Heap HeapIndex HeapBlocks.

(** The blocks after taking a hole of [lsz] bytes for [newsize] bytes. *)
Definition cut (newsize lsz : Z) : list blk :=
  if newsize + 20 <? lsz then [Blk newsize false; Blk (lsz - newsize) true]
  else [Blk lsz false].

(** The last part of [heap_alloc]'s effect on the index. *)
Definition cut_index (newsize loc lsz : Z) (ix : list (Z * Z)) : list (Z * Z) :=
  if newsize + 20 <? lsz then ins (loc + newsize, lsz - newsize) (rem loc ix) else rem loc ix.

(** What merging with the neighbours leaves before and after the block. *)
Definition left_rest (bs1 : list blk) : list blk := if last_hole bs1 then removelast bs1 else bs1.
Definition right_rest (bs2 : list blk) : list blk := if first_hole bs2 then tl bs2 else bs2.

(** ** Words read back from written memory *)

Lemma rd32_wr32_same m a v c : a = c -> u32 v -> rd32 (wr32 m a v) c = v.
Proof. intros <-. apply rd32_wr32_eq. Qed.

Lemma u32_magic : u32 HEAP_MAGIC.
Proof. unfold u32, HEAP_MAGIC; lia. Qed.

(** [rd32] of a chain of [wr32]: one write at a time. *)
Ltac rdw :=
  repeat match goal with
  | |- context [rd32 (wr32 ?m ?a ?v) ?c] =>
      first [ rewrite (rd32_wr32_ne m a v c) by lia
            | rewrite (rd32_wr32_same m a v c) by
                (lia || apply u32_magic || (unfold u32 in *; lia)) ]
  end.

(** [w32] of values that do not wrap. *)
Ltac w32s :=
  repeat match goal with
  | |- context [w32 ?x] => rewrite (w32_small x) by (unfold u32 in *; lia)
  end.

(** Agreement through a chain of writes outside the range. *)
Ltac agw := repeat (apply agree_wr32_r; [|lia]).

Section loads.
Context {B : Type} `{HeapBacking B}.
Implicit Types (h : heap) (m : mem) (b : B) (ix : list (Z * Z)).

Lemma wp_ld h m b a lo hi Q : acc b lo hi -> lo <= a -> a + 4 <= hi ->
  Q (rd32 m a) (HState h m b) -> wp (ld a) (HState h m b) Q.
Proof. intros Ha ? ? HQ. eapply wp_eq; [eapply ld_ok; [exact Ha | lia | lia] | exact HQ]. Qed.

Lemma wp_st h m b a v lo hi Q : acc b lo hi -> lo <= a -> a + 4 <= hi ->
  Q tt (HState h (wr32 m a v) b) -> wp (st a v) (HState h m b) Q.
Proof. intros Ha ? ? HQ. eapply wp_eq; [eapply st_ok; [exact Ha | lia | lia] | exact HQ]. Qed.

End loads.

(** Executes one load, store or pure step of a heap operation. *)
Ltac hstep :=
  first
  [ wp_step
  | match goal with
    | Ha : acc ?b ?lo ?hi |- wp (ld ?a) (HState ?h ?m ?b) ?Q =>
        apply (wp_ld h m b a lo hi Q Ha); [lia | lia |]
    | Ha : acc ?b ?lo ?hi |- wp (st ?a ?v) (HState ?h ?m ?b) ?Q =>
        apply (wp_st h m b a v lo hi Q Ha); [lia | lia |]
    end
  | progress unfold get_magic, set_magic, get_is_hole, set_is_hole, get_size, set_size,
      get_header, set_header, off_is_hole, off_size, off_header, sizeof_header, sizeof_footer
  | progress w32s ].
Ltac hsteps := repeat (hstep; cbn beta; cbn [hp hm bk]).

Section ops.
Context {B : Type} `{HeapBacking B}.
Implicit Types (h : heap) (m : mem) (b : B) (ix : list (Z * Z)).

Lemma frame_write h m m' b ix : heap_frame h m b ix ->
  (forall x, x < start_addr h -> m' x = m x) -> heap_frame h m' b ix.
Proof.
  intros F Hx. destruct F. split; try done.
  - eapply idx_at_agree; [|exact wf_at]. intros x ?. apply Hx. lia.
  - rewrite (rd32_ext m m') by (intros; apply Hx; lia). done.
Qed.

(** A heap whose memory is accessible up to [hi], beyond [end_addr]: an
    entry may lie in the new part. *)
Lemma frame_insert_hi h m b ix hi e es : heap_frame h m b ix ->
  acc b (idx h) hi -> end_addr h <= hi < W32 ->
  idx h + 4 * (idxused h + 1) + 8 <= start_addr h ->
  sizes_at m (start_addr h) hi ((e, es) :: ix) -> e ∉ ix.*1 ->
  exists m', heapIdx_insert e (HState h m b)
             = Ok (tt, HState (set_idxused (idxused h + 1) h) m' b) /\
    heap_frame (set_idxused (idxused h + 1) h) m' b (ins (e, es) ix) /\
    (forall x, start_addr h - 8 <= x -> m' x = m x).
Proof.
  intros [] Ha Hhi Hr Hs Hne.
  destruct (heapIdx_insert_ok h m b hi e es ix) as (m' & E & Hix & Hx);
    try done; try lia.
  exists m'. split; [exact E|]. split; [|intros x ?; apply Hx; lia].
  split; cbn [idx idxused start_addr end_addr max_end set_idxused]; try done; try lia.
  - rewrite ins_length. lia.
  - by apply ins_sorted.
  - rewrite (rd32_ext m m') by (intros; apply Hx; lia). done.
Qed.

Lemma frame_insert h m b ix e es : heap_frame h m b ix ->
  idx h + 4 * (idxused h + 1) + 8 <= start_addr h ->
  sizes_at m (start_addr h) (end_addr h) ((e, es) :: ix) -> e ∉ ix.*1 ->
  exists m', heapIdx_insert e (HState h m b)
             = Ok (tt, HState (set_idxused (idxused h + 1) h) m' b) /\
    heap_frame (set_idxused (idxused h + 1) h) m' b (ins (e, es) ix) /\
    (forall x, start_addr h - 8 <= x -> m' x = m x).
Proof.
  intros F. pose proof F as []. apply (frame_insert_hi h m b ix (end_addr h)); done || lia.
Qed.

Lemma frame_remove h m b ix e sz : heap_frame h m b ix -> (e, sz) ∈ ix ->
  exists m', heapIdx_remove e (HState h m b)
             = Ok (tt, HState (set_idxused (idxused h - 1) h) m' b) /\
    heap_frame (set_idxused (idxused h - 1) h) m' b (rem e ix) /\
    (forall x, start_addr h - 8 <= x -> m' x = m x).
Proof.
  intros [] Hin. assert (length ix <> 0%nat) by (destruct ix; [set_solver | done]).
  destruct (heapIdx_remove_ok h m b (end_addr h) e sz ix) as (m' & E & Hix & Hl & Hx);
    try done; try lia.
  exists m'. split; [exact E|]. split; [|intros x ?; apply Hx; lia].
  split; cbn [idx idxused start_addr end_addr max_end set_idxused]; try done; try lia.
  - by apply rem_sorted.
  - rewrite (rd32_ext m m') by (intros; apply Hx; lia). done.
Qed.

(** ** Taking a hole *)

Lemma holes_in_split h m b bs ix loc lsz : heap_wf h m b bs ix -> (loc, lsz) ∈ ix ->
  exists bs1 bs2, bs = bs1 ++ Blk lsz true :: bs2 /\ loc = start_addr h + tot bs1 /\
    blocks m (start_addr h) bs1 /\ block_at m loc (Blk lsz true) /\ blocks m (loc + lsz) bs2 /\
    0 <= tot bs1 /\ 0 <= tot bs2 /\ 20 <= lsz /\
    end_addr h = loc + lsz + tot bs2 /\ NoDup ix.*1 /\
    rem loc ix ≡ₚ holes (start_addr h) bs1 ++ holes (loc + lsz) bs2.
Proof.
  intros W Hin. destruct W as [F Wend Wb Wh Wn We].
  assert (Hnd : NoDup ix.*1) by (rewrite Wh; by eapply sel_NoDup).
  assert (Hin' : (loc, lsz) ∈ holes (start_addr h) bs) by (by rewrite <- Wh).
  apply sel_in in Hin' as (bs1 & bs2 & -> & ->). exists bs1, bs2.
  apply blocks_app in Wb as [Hb1 [Hx Hb2]]. cbn [bsz] in *.
  pose proof (blocks_tot_nonneg _ _ _ Hb1). pose proof (blocks_tot_nonneg _ _ _ Hb2).
  pose proof Hx as [[] _]. cbn [bsz] in *. rewrite tot_app in Wend. cbn [tot bsz] in Wend.
  repeat (split; [done || lia|]). apply (rem_perm_cons _ lsz); [done|].
  rewrite Wh, sel_app. cbn [sel bhole bsz Bool.eqb]. symmetry. apply Permutation_middle.
Qed.

Lemma heap_frame_sub h m b ix :
  heap_frame h m b ix -> acc b (idx h) (end_addr h) /\ 4096 <= idx h /\
  idx h + 4 * idxused h + 8 <= start_addr h <= end_addr h /\ end_addr h < W32 /\ 0 <= idxused h.
Proof. intros []. split; [done|]. lia. Qed.

Lemma set_idxused_twice h n k : set_idxused n (set_idxused k h) = set_idxused n h.
Proof. reflexivity. Qed.

Lemma set_idxused_id h : set_idxused (idxused h) h = h.
Proof. destruct h; reflexivity. Qed.

(** Removing a hole from the index and putting one back leaves the counter
    as it was. *)
Lemma frame_reinsert h m b ix e es : heap_frame (set_idxused (idxused h - 1) h) m b ix ->
  idx h + 4 * idxused h + 8 <= start_addr h ->
  sizes_at m (start_addr h) (end_addr h) ((e, es) :: ix) -> e ∉ ix.*1 ->
  exists m', heapIdx_insert e (HState (set_idxused (idxused h - 1) h) m b)
             = Ok (tt, HState h m' b) /\
    heap_frame h m' b (ins (e, es) ix) /\ (forall x, start_addr h - 8 <= x -> m' x = m x).
Proof.
  intros F Hr Hs Hne.
  destruct (frame_insert _ m b ix e es F) as (m' & E & F' & Hx); cbn; [lia | done | done |].
  cbn in E, F', Hx. rewrite Z.sub_add, set_idxused_twice, set_idxused_id in E, F'. eauto.
Qed.

(** Replacing the blocks between [bs1] and [bs2]: what has to be checked is
    the new blocks, the index and the adjacency; the rest of the heap is
    unchanged because nothing was written there. *)
Lemma heap_wf_replace h h' m m' b bs1 lsz new bs2 ix' :
  blocks m (start_addr h) bs1 -> blocks m (start_addr h + tot bs1 + lsz) bs2 ->
  start_addr h' = start_addr h ->
  end_addr h' = start_addr h + tot bs1 + tot new + tot bs2 ->
  tot new = lsz ->
  (forall x, start_addr h <= x -> x < start_addr h + tot bs1 \/ start_addr h + tot bs1 + lsz <= x ->
     m' x = m x) ->
  heap_frame h' m' b ix' ->
  blocks m' (start_addr h + tot bs1) new ->
  ix' ≡ₚ holes (start_addr h) bs1 ++ holes (start_addr h + tot bs1) new
        ++ holes (start_addr h + tot bs1 + lsz) bs2 ->
  no_adj (bs1 ++ new ++ bs2) -> new <> [] ->
  heap_wf h' m' b (bs1 ++ new ++ bs2) ix'.
Proof.
  intros Hb1 Hb2 Est Een <- Hx F Hn Hp Hadj Hne.
  pose proof (blocks_tot_nonneg _ _ _ Hb1). pose proof (blocks_tot_nonneg _ _ _ Hn).
  split; rewrite ?Est.
  - exact F.
  - rewrite !tot_app. lia.
  - apply blocks_app. split; [eapply blocks_agree; [|exact Hb1]; intros x ?; apply Hx; lia|].
    apply blocks_app. split; [exact Hn|].
    eapply blocks_agree; [|exact Hb2]. intros x ?. apply Hx; lia.
  - rewrite Hp, !sel_app. done.
  - exact Hadj.
  - destruct bs1, new; done.
Qed.

Lemma no_adj_cut bs1 lsz newsize bs2 :
  no_adj (bs1 ++ Blk lsz true :: bs2) -> no_adj (bs1 ++ cut newsize lsz ++ bs2).
Proof.
  rewrite !no_adj_app. intros (H1 & [H2 H3] & H4). split; [done|].
  split; [|intros E; by specialize (H4 E)].
  assert (Hf : first_hole bs2 = false) by (specialize (H2 eq_refl); by destruct bs2).
  unfold cut. destruct (newsize + 20 <? lsz); cbn [no_adj bhole]; tauto || by auto.
Qed.

(** The memory of the allocator is apart from the holes other than [loc]. *)
Lemma rem_sizes_at h m m' b bs ix loc lsz :
  heap_wf h m b bs ix -> (loc, lsz) ∈ ix ->
  (forall x, start_addr h <= x -> x < loc \/ loc + lsz <= x -> m' x = m x) ->
  sizes_at m' (start_addr h) (end_addr h) (rem loc ix) /\
  (forall e, loc <= e < loc + lsz -> e ∉ (rem loc ix).*1).
Proof.
  intros W Hin Hx.
  destruct (holes_in_split _ _ _ _ _ _ _ W Hin)
    as (bs1 & bs2 & -> & Eloc & Hb1 & _ & Hb2 & Ht1 & Ht2 & Hl & Hend & _ & Hrem).
  assert (Hout : forall p sz, (p, sz) ∈ rem loc ix ->
    start_addr h <= p /\ p + sz <= end_addr h /\ (p + sz <= loc \/ loc + lsz <= p) /\
    12 <= sz /\ rd32 m (p + 8) = sz).
  { intros p sz Hp. rewrite Hrem in Hp.
    apply elem_of_app in Hp as [Hp|Hp]; apply (sel_bounds m) in Hp as (? & ? & ? & [[_ Esz _ _ _] _]);
      try done; cbn [bsz] in *; lia. }
  split.
  - intros p sz Hp. destruct (Hout p sz Hp) as (? & ? & ? & ? & <-). split; [lia|]. split; [lia|].
    apply rd32_ext. intros x ?. apply Hx; lia.
  - intros e He ([p sz] & Ep & Hp)%list_elem_of_fmap. simpl in Ep. subst p.
    destruct (Hout e sz Hp) as (? & ? & ? & ? & _). lia.
Qed.

(** The steps [heap_alloc] makes in every case: the hole is unmarked and
    leaves the index. *)
Lemma take_steps h m b bs ix loc lsz : heap_wf h m b bs ix -> (loc, lsz) ∈ ix ->
  exists m2, heapIdx_remove loc (HState h (wr32 m (loc + 4) 0) b)
             = Ok (tt, HState (set_idxused (idxused h - 1) h) m2 b) /\
    heap_frame (set_idxused (idxused h - 1) h) m2 b (rem loc ix) /\
    (forall x, start_addr h <= x -> m2 x = wr32 m (loc + 4) 0 x) /\
    mid m2 loc lsz /\ rd32 m2 (loc + 4) = 0 /\ mid m loc lsz.
Proof.
  intros W Hin.
  destruct (holes_in_split _ _ _ _ _ _ _ W Hin)
    as (bs1 & bs2 & -> & Eloc & Hb1 & Hx & Hb2 & Ht1 & Ht2 & Hl & Hend & _ & _).
  pose proof (wf_frame _ _ _ _ _ W) as F.
  destruct (heap_frame_sub _ _ _ _ F) as (_ & _ & Hroom & _ & _).
  assert (F1 : heap_frame h (wr32 m (loc + 4) 0) b ix).
  { eapply frame_write; [exact F|]. intros x ?. apply wr32_ne. lia. }
  destruct (frame_remove _ _ _ _ _ _ F1 Hin) as (m2 & E2 & F2 & K2).
  assert (R2 : forall a, start_addr h <= a -> rd32 m2 a = rd32 (wr32 m (loc + 4) 0) a).
  { intros a ?. apply rd32_ext. intros; apply K2; lia. }
  destruct Hx as [Hm _]. cbn [bsz] in Hm. pose proof Hm as [].
  exists m2. split; [exact E2|]. split; [exact F2|]. split; [intros; apply K2; lia|].
  split; [split; [..|done]; rewrite R2 by lia; rdw; done|]. split; [|done].
  rewrite R2 by lia. rdw. done.
Qed.

(** [heap_alloc] on the hole [(loc, lsz)] when it is cut. *)
Lemma alloc_at_cut h m b bs ix newsize i loc lsz :
  heap_wf h m b bs ix -> ix !! i = Some (loc, lsz) -> 20 <= newsize -> newsize + 20 < lsz ->
  exists m',
    alloc_at newsize (Z.of_nat i) (HState h m b) = Ok (loc + 12, HState h m' b) /\
    heap_frame h m' b (ins (loc + newsize, lsz - newsize) (rem loc ix)) /\
    blocks m' loc [Blk newsize false; Blk (lsz - newsize) true] /\
    (forall x, start_addr h <= x -> x < loc \/ loc + lsz <= x -> m' x = m x).
Proof.
  intros W Ei Hns Hcut. pose proof (list_elem_of_lookup_2 _ _ _ Ei) as Hin.
  destruct (holes_in_split _ _ _ _ _ _ _ W Hin)
    as (bs1 & bs2 & -> & Eloc & Hb1 & _ & Hb2 & Ht1 & Ht2 & Hl & Hend & _ & _).
  pose proof (wf_frame _ _ _ _ _ W) as F.
  destruct (heap_frame_sub _ _ _ _ F) as (Ha & Hi0 & Hroom & Hmax & Hu0).
  pose proof (lookup_lt_Some _ _ _ Ei) as Hilt. pose proof (wf_len _ _ _ _ F) as Hlen.
  destruct (take_steps _ _ _ _ _ _ _ W Hin) as (m2 & E2 & F2 & K2 & M2 & M2h & [_ Hx2 _ _ _]).
  pose proof M2 as [? R2 ? ? ?].
  set (m3 := wr32 (wr32 (wr32 (wr32 (wr32 (wr32 (wr32 (wr32 m2 (loc + 8) newsize)
      (loc + newsize - 8 + 4) loc) (loc + newsize - 8) HEAP_MAGIC) (loc + newsize + 4) 1)
      (loc + newsize) HEAP_MAGIC) (loc + newsize + 8) (lsz - newsize))
      (loc + lsz - 8 + 4) (loc + newsize)) (loc + lsz - 8) HEAP_MAGIC).
  assert (X3 : forall x, x < loc + 8 \/ loc + lsz <= x -> m3 x = m2 x).
  { intros x ?. unfold m3. rewrite !wr32_ne by lia. reflexivity. }
  assert (X3' : forall x, start_addr h <= x -> x < loc \/ loc + lsz <= x -> m3 x = m x).
  { intros x ? ?. rewrite X3, K2 by lia. apply wr32_ne. lia. }
  assert (F3 : heap_frame (set_idxused (idxused h - 1) h) m3 b (rem loc ix)).
  { eapply frame_write; [exact F2|]. cbn. intros x ?. apply X3. lia. }
  destruct (rem_sizes_at _ _ m3 _ _ _ _ _ W Hin X3') as [S3 N3].
  destruct (frame_reinsert h m3 b _ (loc + newsize) (lsz - newsize) F3) as (m4 & E4 & F4 & K4).
  { lia. }
  { intros p sz [[= -> ->]|Hp]%elem_of_cons; [|by apply S3].
    split; [lia|]. split; [lia|]. unfold m3. rdw. lia. }
  { apply N3. lia. }
  assert (R4 : forall a, start_addr h <= a -> rd32 m4 a = rd32 m3 a).
  { intros a ?. apply rd32_ext. intros; apply K4; lia. }
  exists m4. split; [|split; [exact F4|split]].
  - cut (wp (alloc_at newsize (Z.of_nat i)) (HState h m b)
           (fun r s' => r = loc + 12 /\ s' = HState h m4 b)).
    { intros (a & s' & E & -> & ->)%wp_Ok. done. }
    unfold alloc_at. hsteps.
    eapply wp_eq; [apply (get_idx_ok h m b (Z.of_nat i) (end_addr h)); done || lia|].
    rewrite (wf_at _ _ _ _ F _ _ _ Ei). hsteps. rewrite Hx2. hsteps.
    eapply wp_eq; [exact E2|]. hsteps. rewrite R2. hsteps.
    apply wp_when; [intros _|intros C; apply Z.ltb_ge in C; lia].
    hsteps. replace (loc + lsz - 8 - (loc + newsize) + 8) with (lsz - newsize) by lia. hsteps.
    fold m3. eapply wp_eq; [exact E4|]. hsteps. split; [lia | done].
  - cbn [blocks bsz]. split; [|split; [|done]]; (split; [split|]); cbn [bsz bhole];
      rewrite ?R4 by lia; unfold m3; rdw; done || lia.
  - intros x ? ?. rewrite K4 by lia. by apply X3'.
Qed.

(** [heap_alloc] on the hole [(loc, lsz)] when it is taken whole. *)
Lemma alloc_at_whole h m b bs ix newsize i loc lsz :
  heap_wf h m b bs ix -> ix !! i = Some (loc, lsz) -> 20 <= newsize <= lsz -> lsz <= newsize + 20 ->
  exists m',
    alloc_at newsize (Z.of_nat i) (HState h m b)
    = Ok (loc + 12, HState (set_idxused (idxused h - 1) h) m' b) /\
    heap_frame (set_idxused (idxused h - 1) h) m' b (rem loc ix) /\
    blocks m' loc [Blk lsz false] /\
    (forall x, start_addr h <= x -> x < loc \/ loc + lsz <= x -> m' x = m x).
Proof.
  intros W Ei Hns Hcut. pose proof (list_elem_of_lookup_2 _ _ _ Ei) as Hin.
  destruct (holes_in_split _ _ _ _ _ _ _ W Hin)
    as (bs1 & bs2 & -> & Eloc & Hb1 & _ & Hb2 & Ht1 & Ht2 & Hl & Hend & _ & _).
  pose proof (wf_frame _ _ _ _ _ W) as F.
  destruct (heap_frame_sub _ _ _ _ F) as (Ha & Hi0 & Hroom & Hmax & Hu0).
  pose proof (lookup_lt_Some _ _ _ Ei) as Hilt. pose proof (wf_len _ _ _ _ F) as Hlen.
  destruct (take_steps _ _ _ _ _ _ _ W Hin) as (m2 & E2 & F2 & K2 & M2 & M2h & [_ Hx2 _ _ _]).
  pose proof M2 as [? R2 ? ? ?].
  exists m2. split; [|split; [exact F2|split]].
  - cut (wp (alloc_at newsize (Z.of_nat i)) (HState h m b)
           (fun r s' => r = loc + 12 /\ s' = HState (set_idxused (idxused h - 1) h) m2 b)).
    { intros (a & s' & E & -> & ->)%wp_Ok. done. }
    unfold alloc_at. hsteps.
    eapply wp_eq; [apply (get_idx_ok h m b (Z.of_nat i) (end_addr h)); done || lia|].
    rewrite (wf_at _ _ _ _ F _ _ _ Ei). hsteps. rewrite Hx2. hsteps.
    eapply wp_eq; [exact E2|]. hsteps. rewrite R2. hsteps.
    apply wp_when; [intros C; apply Z.ltb_lt in C; lia|intros _].
    hsteps. split; [lia | done].
  - cbn [blocks bsz]. split; [|done]. split; [done|]. cbn [bhole]. exact M2h.
  - intros x ? ?. rewrite K2 by lia. apply wr32_ne. lia.
Qed.

Lemma alloc_at_ok h m b bs ix newsize i loc lsz :
  heap_wf h m b bs ix -> ix !! i = Some (loc, lsz) -> 20 <= newsize <= lsz ->
  exists bs1 bs2 n m',
    alloc_at newsize (Z.of_nat i) (HState h m b) = Ok (loc + 12, HState (set_idxused n h) m' b) /\
    bs = bs1 ++ Blk lsz true :: bs2 /\ loc = start_addr h + tot bs1 /\
    heap_wf (set_idxused n h) m' b (bs1 ++ cut newsize lsz ++ bs2) (cut_index newsize loc lsz ix) /\
    (forall x, start_addr h <= x -> x < loc \/ loc + lsz <= x -> m' x = m x).
Proof.
  intros W Ei Hns. pose proof (list_elem_of_lookup_2 _ _ _ Ei) as Hin.
  destruct (holes_in_split _ _ _ _ _ _ _ W Hin)
    as (bs1 & bs2 & -> & Eloc & Hb1 & _ & Hb2 & Ht1 & Ht2 & Hl & Hend & _ & Hrem).
  pose proof (no_adj_cut _ _ newsize _ (wf_noadj _ _ _ _ _ W)) as Hadj.
  exists bs1, bs2. unfold cut_index.
  destruct (Z.ltb_spec (newsize + 20) lsz) as [Hcut|Hcut].
  - destruct (alloc_at_cut _ _ _ _ _ _ _ _ _ W Ei (proj1 Hns) Hcut) as (m' & E & F & Hn & Hx).
    exists (idxused h), m'. rewrite set_idxused_id. split; [exact E|]. do 2 (split; [done|]).
    split; [|exact Hx]. subst loc.
    eapply (heap_wf_replace h h m m' b bs1 lsz); try done.
    + unfold cut. destruct (Z.ltb_spec (newsize + 20) lsz); cbn [tot bsz]; lia.
    + unfold cut. destruct (Z.ltb_spec (newsize + 20) lsz); cbn [tot bsz]; lia.
    + unfold cut. destruct (Z.ltb_spec (newsize + 20) lsz); [done | lia].
    + rewrite ins_perm, Hrem. unfold cut. destruct (Z.ltb_spec (newsize + 20) lsz); [|lia].
      cbn [sel bhole bsz Bool.eqb app]. apply Permutation_middle.
    + unfold cut. by destruct (newsize + 20 <? lsz).
  - destruct (alloc_at_whole _ _ _ _ _ _ _ _ _ W Ei Hns Hcut) as (m' & E & F & Hn & Hx).
    exists (idxused h - 1), m'. split; [exact E|]. do 2 (split; [done|]).
    split; [|exact Hx]. subst loc.
    eapply (heap_wf_replace h _ m m' b bs1 lsz); try done.
    + unfold cut. destruct (Z.ltb_spec (newsize + 20) lsz); cbn [tot bsz set_idxused end_addr]; lia.
    + unfold cut. destruct (Z.ltb_spec (newsize + 20) lsz); cbn [tot bsz]; lia.
    + unfold cut. destruct (Z.ltb_spec (newsize + 20) lsz); [lia | done].
    + rewrite Hrem. unfold cut. destruct (Z.ltb_spec (newsize + 20) lsz); [lia|]. done.
    + unfold cut. by destruct (newsize + 20 <? lsz).
Qed.

End ops.
