(* ===== verification/HeapAlloc.v ===== *)
(** * Allocation

    [find_hole], [heap_expand] and [heap_alloc] on heaps that satisfy the
    invariant, for every backing store that obeys [BackingLaws]. *)

From S2P Require Import Prelude Memory Heap HeapIndex HeapBlocks HeapOps.

(** What the memory below the heap promises.  [backed b i e lim]: the bytes
    of [[i, e)] are there, and growing does not fault up to [lim].  Growing
    gives the new range or fails without taking anything away, shrinking
    keeps the part that stays. *)
Class BackingLaws (B : Type) `{HeapBacking B} := {
  backed : B -> Z -> Z -> Z -> Prop;
  backed_acc b i e lim : backed b i e lim -> acc b i e;
  grow_law i old new lim b :
    0 < i -> i mod 4096 = 0 -> i <= old <= new -> new <= lim -> new < W32 ->
    old mod 4096 = 0 -> new mod 4096 = 0 -> backed b i old lim ->
    exists r b', grow i old new b = Ok (r, b') /\
      (r <> 0 -> backed b' i old lim) /\ (r = 0 -> backed b' i new lim);
  shrink_pre_law i new old lim b :
    0 < i -> i <= new <= old -> old < W32 -> backed b i old lim ->
    exists r b', shrink_pre i new old b = Ok (r, b') /\ acc b' i new /\ (r <> 0 -> backed b' i old lim);
  shrink_post_law i new old lim b b1 :
    0 < i -> i <= new -> new < old -> old < W32 -> old mod 4096 = 0 -> new mod 4096 = 0 ->
    backed b i old lim -> shrink_pre i new old b = Ok (0, b1) ->
    exists e b', shrink_post new old b1 = Ok (e, b') /\ backed b' i new lim
}.

(** ** The kernel's pages *)

Lemma map_pages_mono n : forall i new mapped p, p ∈ mapped -> p ∈ map_pages i new n mapped.
Proof.
  induction n as [|n IH]; intros i new mapped p Hp; cbn [map_pages]; [done|].
  destruct (i <? new); [|done]. apply IH. set_solver.
Qed.

Lemma map_pages_covers n : forall i new mapped x,
  0 <= i -> i mod 4096 = 0 -> new < W32 -> new mod 4096 = 0 ->
  new <= i + 4096 * Z.of_nat n -> i <= x < new ->
  x / 4096 ∈ map_pages i new n mapped.
Proof.
  induction n as [|n IH]; intros i new mapped x Hi Hai Hn Han Hle Hx; cbn [map_pages]; [lia|].
  destruct (Z.ltb_spec i new); [|lia].
  assert (i + 4096 <= new).
  { pose proof (Z.div_mod i 4096). pose proof (Z.div_mod new 4096). lia. }
  rewrite (w32_small (i + 0x1000)) by (unfold u32; lia).
  destruct (Z.lt_ge_cases x (i + 4096)).
  - apply map_pages_mono. apply elem_of_union_l, elem_of_singleton.
    pose proof (Z.div_mod i 4096). symmetry. apply (Z.div_unique x 4096 _ (x - i)); lia.
  - apply IH; try lia. rewrite <- Z.add_mod_idemp_r, Z.mod_same, Z.add_0_r by lia. done.
Qed.

Lemma unmap_pages_keeps n : forall e newEnd mapped x,
  0 <= newEnd -> newEnd mod 4096 = 0 -> e mod 4096 = 0 -> u32 e -> x < newEnd ->
  x / 4096 ∈ mapped -> x / 4096 ∈ (unmap_pages e newEnd n mapped).2.
Proof.
  induction n as [|n IH]; intros e newEnd mapped x Hn Han Hae He Hx Hin; cbn [unmap_pages]; [done|].
  destruct (Z.leb_spec newEnd e); [|done].
  apply IH; try done.
  - unfold w32. rewrite Z.mod_mod_divide by (by exists 1048576).
    rewrite Zminus_mod, Hae. reflexivity.
  - apply w32_range.
  - apply elem_of_difference. split; [done|]. rewrite elem_of_singleton. intros E.
    pose proof (Z.div_mod x 4096). pose proof (Z.mod_pos_bound x 4096).
    pose proof (Z.div_mod e 4096). pose proof (Z.div_mod newEnd 4096). lia.
Qed.

#[export] Instance KernelLaws : BackingLaws kpages.
Proof.
  refine {| backed := fun b i e _ => acc b i e |}.
  - done.
  - intros i old new lim b Hi Hai Hle _ Hn Hao Han Ha. eexists 0, _. split; [reflexivity|].
    assert (Hold : forall x, i <= x < old -> x / 4096 ∈
      map_pages old new (Z.to_nat (1 + (new - old) / 0x1000)) (kp_mapped b)).
    { intros x Hx. apply map_pages_mono. by apply (bool_decide_unpack _), Is_true_true, Ha. }
    split; [done | intros _ x Hx].
    + apply bool_decide_true. destruct (Z.lt_ge_cases x old); [apply Hold; lia|].
      apply map_pages_covers; try done; try lia.
      rewrite Z2Nat.id by (pose proof (Z.div_pos (new - old) 0x1000); lia).
      pose proof (Z.div_mod (new - old) 0x1000). pose proof (Z.mod_pos_bound (new - old) 0x1000). lia.
  - intros i new old lim b Hi Hle Ho Ha. eexists 0, b. split; [reflexivity|].
    split; [by eapply acc_sub; [exact Ha | lia | lia] | done].
  - intros i new old lim b b1 Hi Hle Hlt Ho Hao Han Ha [= <-]. unfold shrink_post; cbn. unfold kshrink_post.
    destruct (unmap_pages _ _ _ _) as [e mapped] eqn:E. eexists e, _. split; [reflexivity|].
    intros x Hx. apply bool_decide_true. cbn [kp_mapped].
    replace mapped with (unmap_pages (w32 (old - 0x1000)) new
      (Z.to_nat (1 + (old - new) / 0x1000)) (kp_mapped b)).2 by (by rewrite E).
    apply unmap_pages_keeps; try done; try lia.
    + rewrite w32_small by (unfold u32; pose proof (Z.div_mod old 4096); pose proof (Z.div_mod new 4096); lia).
      rewrite Zminus_mod, Hao. reflexivity.
    + apply w32_range.
    + apply (bool_decide_unpack _), Is_true_true, Ha. lia.
Defined.

(** ** The user's segment *)

#[export] Instance UserLaws : BackingLaws usegment.
Proof.
  refine {| backed := fun b i e _ => acc b i e |}.
  - done.
  - intros i old new lim b Hi Hai Hle _ Hn _ _ Ha. unfold grow; cbn. unfold setheapseg.
    destruct ((0xE0000000 <=? i) || (0xE0000000 <=? new)).
    + exists (-1), b. split; [done|]. split; [done | discriminate].
    + eexists 0, _. split; [reflexivity|]. split; [done|]. intros _ x Hx; cbn; lia.
  - intros i new old lim b Hi Hle Ho Ha. unfold shrink_pre; cbn. unfold setheapseg.
    destruct ((0xE0000000 <=? i) || (0xE0000000 <=? new)).
    + exists (-1), b. split; [done|]. split; [by eapply acc_sub; [exact Ha | lia | lia] | done].
    + eexists 0, _. split; [reflexivity|]. split; [|done]. intros x Hx; cbn. lia.
  - intros i new old lim b b1 Hi Hle Hlt Ho _ _ Ha. unfold shrink_pre, shrink_post; cbn. unfold setheapseg.
    destruct ((0xE0000000 <=? i) || (0xE0000000 <=? new)); [discriminate|]. intros [= <-].
    eexists new, _. split; [done|]. intros x Hx. cbn. lia.
Defined.

(** ** Specification of an allocation *)

(** The first entry of the index that is large enough. *)
Fixpoint first_fit (newsize : Z) (ix : list (Z * Z)) : nat :=
  match ix with
  | [] => 0%nat
  | y :: ix' => if newsize <=? snd y then 0%nat else S (first_fit newsize ix')
  end.

(** The hole index has a free entry, or the heap ends with a hole, which
    expanding only lengthens. *)
Definition room_to_grow (h : heap) (bs : list blk) : Prop :=
  last_hole bs = true \/ idx h + 4 * (idxused h + 1) + 8 <= start_addr h.

(** The hole at the end of the heap. *)
Definition tail_hole (bs : list blk) : Z :=
  match last bs with Some (Blk l true) => l | _ => 0 end.

(** What one expansion asks for, and that as many as an allocation of [sz]
    bytes needs stay below [lim]; the heap itself stops at [max_end]. *)
Definition quantum (sz : Z) : Z := w32 (page_mask sz + 0x1000).
Definition can_expand (sz : Z) (h : heap) (bs : list blk) (lim : Z) : Prop :=
  max_end h <= lim \/
  exists n : nat, sz + 20 <= tail_hole bs + Z.of_nat n * quantum sz /\ end_addr h + Z.of_nat n * quantum sz <= lim.

(** The limits of the heap that no operation moves. *)
Definition same_limits (h h' : heap) : Prop :=
  idx h' = idx h /\ start_addr h' = start_addr h /\ max_end h' = max_end h.

(** ** Lemmas *)

Lemma first_fit_spec newsize ix :
  (first_fit newsize ix = length ix /\ (forall y, y ∈ ix -> snd y < newsize)) \/
  (exists y, ix !! first_fit newsize ix = Some y /\ newsize <= snd y /\
     forall z, z ∈ take (first_fit newsize ix) ix -> snd z < newsize).
Proof.
  induction ix as [|y ix IH]; simpl; [left; set_solver|].
  destruct (Z.leb_spec newsize (snd y)).
  - right. exists y. split; [done|]. split; [done|]. set_solver.
  - destruct IH as [[-> IH]|(z & Ez & Hz & IH)].
    + left. split; [done|]. intros z [->|?]%elem_of_cons; auto.
    + right. exists z. split; [done|]. split; [done|]. simpl.
      intros w [->|?]%elem_of_cons; auto.
Qed.

(** In an index in order of size the first fit is a best fit. *)
Lemma first_fit_best newsize ix p sz : sorted_sz ix ->
  ix !! first_fit newsize ix = Some (p, sz) ->
  forall q sz', (q, sz') ∈ ix -> newsize <= sz' -> sz <= sz'.
Proof.
  induction 1 as [|y ix Hs IH Hall]; simpl; [done|].
  destruct (Z.leb_spec newsize (snd y)); simpl.
  - intros [= ->] q sz' [[= -> ->]|Hq]%elem_of_cons Hle; [lia|].
    rewrite Forall_forall in Hall. by apply (Hall _ Hq).
  - intros E q sz' [<-|Hq]%elem_of_cons Hle; [simpl in *; lia|]. by eapply IH.
Qed.

Lemma round_page_aligned q : q mod 4096 = 0 -> round_page q = q.
Proof. intros E. unfold round_page. rewrite page_off_mod, E. reflexivity. Qed.

Lemma round_page_mod q : u32 q -> round_page q mod 4096 = 0.
Proof.
  intros Hq. unfold round_page. destruct (Z.eqb_spec (page_off q) 0) as [E|E].
  - by rewrite page_off_mod in E.
  - unfold w32. rewrite Z.mod_mod_divide by (by exists 1048576).
    rewrite Z.add_mod, page_mask_align by done. reflexivity.
Qed.

Lemma same_limits_trans h1 h2 h3 : same_limits h1 h2 -> same_limits h2 h3 -> same_limits h1 h3.
Proof. unfold same_limits. intros (? & ? & ?) (? & ? & ?). split; [|split]; congruence. Qed.

Section alloc.
Context {B : Type} `{BackingLaws B}.
Implicit Types (h : heap) (m : mem) (b : B) (ix : list (Z * Z)).

Lemma frame_set_end h m b ix e : heap_frame h m b ix ->
  acc b (idx h) e -> start_addr h <= e <= max_end h -> e mod 4096 = 0 ->
  heap_frame (set_end_addr e h) m b ix.
Proof. intros [] Ha He Hal. split; cbn; try done; lia. Qed.

Lemma frame_bk h m b b' ix : heap_frame h m b ix -> acc b' (idx h) (end_addr h) ->
  heap_frame h m b' ix.
Proof. intros [] Ha. by split. Qed.

Lemma same_used_outside h m m' b bs1 l bs2 ix :
  heap_wf h m b (bs1 ++ Blk l true :: bs2) ix ->
  (forall x, start_addr h <= x -> x < start_addr h + tot bs1 \/ start_addr h + tot bs1 + l <= x ->
     x < end_addr h -> m' x = m x) ->
  same_used (used (start_addr h) (bs1 ++ Blk l true :: bs2)) m m'.
Proof.
  intros [F Wend Wb Wh Wn We] Hx a sz Hin x Hr.
  assert (Hh : (start_addr h + tot bs1, l) ∈ holes (start_addr h) (bs1 ++ Blk l true :: bs2)).
  { apply sel_in_iff. eauto. }
  pose proof (sel_bounds _ _ _ _ _ _ Wb Hin) as (? & ? & ? & _).
  destruct (sel_disjoint _ _ _ _ _ _ _ _ _ Wb Hin Hh) as [?|Hd]; [done|].
  apply Hx; lia.
Qed.

Lemma find_hole_ok h b hi newsize ix m : forall it,
  acc b (idx h) hi -> 0 <= idx h -> hi < W32 -> 0 <= it ->
  idx h + 4 * (it + Z.of_nat (length ix)) <= hi ->
  idx_at m (idx h + 4 * it) ix -> sizes_at m (idx h) hi ix ->
  find_hole newsize it (length ix) (HState h m b)
  = Ok (it + Z.of_nat (first_fit newsize ix), HState h m b).
Proof.
  induction ix as [|[p sz] ix IH]; intros it Ha Hi Hhi Hit Hlen Hix Hs; simpl.
  - by rewrite Z.add_0_r.
  - cbn [length] in Hlen.
    pose proof (Hix 0%nat p sz eq_refl) as Ep. rewrite Z.add_0_r in Ep.
    destruct (Hs p sz) as (Hp1 & Hp2 & Esz); [set_solver|].
    rewrite (bind_Ok _ _ _ _ _ (get_idx_ok h m b it hi Ha Hi Hhi ltac:(lia) ltac:(lia))), Ep.
    rewrite (bind_Ok _ _ _ _ _ (get_size_ok h m b p _ hi Ha ltac:(lia) Hhi ltac:(lia))), Esz.
    destruct (newsize <=? sz); [by rewrite Z.add_0_r|].
    rewrite IH; try done; try lia.
    + do 2 f_equal. lia.
    + apply idx_at_tail in Hix. intros i q s Ei. rewrite <- (Hix i q s Ei). f_equal. lia.
    + intros q s Hq. apply Hs. set_solver.
Qed.

Lemma wf_sizes_at h m b bs ix : heap_wf h m b bs ix ->
  sizes_at m (start_addr h) (end_addr h) ix.
Proof.
  intros [F Wend Wb Wh Wn We]. rewrite Wend. apply (holes_sizes_at m _ _ bs); [done | lia|].
  intros x Hx. by rewrite <- Wh.
Qed.

(** ** Expansion *)

(** The memory was grown to [newEnd] and the last block is a hole. *)
Lemma lengthen_last_ok h m b bs1 l ix q :
  heap_wf h m b (bs1 ++ [Blk l true]) ix -> 0 < q -> end_addr h + q < W32 ->
  acc b (idx h) (end_addr h + q) ->
  exists m' ix',
    lengthen_last (start_addr h + tot bs1) q (end_addr h + q) (HState h m b)
    = Ok (tt, HState h m' b) /\
    heap_frame h m' b ix' /\
    blocks m' (start_addr h + tot bs1) [Blk (l + q) true] /\
    ix' ≡ₚ holes (start_addr h) bs1 ++ [(start_addr h + tot bs1, l + q)] /\
    (forall x, start_addr h <= x -> x < start_addr h + tot bs1 \/ end_addr h + q <= x -> m' x = m x).
Proof.
  intros W Hq Hmax Ha. set (p := start_addr h + tot bs1).
  assert (Hin : (p, l) ∈ ix).
  { rewrite (wf_holes _ _ _ _ _ W), sel_app. set_solver. }
  pose proof (wf_frame _ _ _ _ _ W) as F. pose proof F as [].
  pose proof (wf_blocks _ _ _ _ _ W) as (Hb1 & [[X1 X2 X3 X4 X5] X6] & _)%blocks_app.
  pose proof (blocks_tot_nonneg _ _ _ Hb1). pose proof (wf_end _ _ _ _ _ W) as Hend.
  rewrite tot_app in Hend. cbn [tot bsz bhole] in *. fold p in X1, X2, X3, X4, X6.
  destruct (frame_remove _ _ _ _ _ _ F Hin) as (m2 & E2 & F2 & K2).
  assert (R2 : forall a, start_addr h <= a -> rd32 m2 a = rd32 m a).
  { intros a ?. apply rd32_ext. intros; apply K2; lia. }
  set (m3 := wr32 (wr32 (wr32 m2 (p + 8) (l + q)) (end_addr h + q - 8) HEAP_MAGIC)
               (end_addr h + q - 8 + 4) p).
  assert (X3o : forall x, x < p + 8 \/ (p + 12 <= x /\ x < end_addr h + q - 8) \/ end_addr h + q <= x ->
                 m3 x = m2 x).
  { intros x ?. unfold m3. rewrite !wr32_ne by lia. reflexivity. }
  assert (F3 : heap_frame (set_idxused (idxused h - 1) h) m3 b (rem p ix)).
  { eapply frame_write; [exact F2|]. cbn. intros x ?. apply X3o. lia. }
  destruct (rem_sizes_at _ _ m2 _ _ _ _ _ W Hin) as [S2 N2]; [intros; apply K2; lia|].
  destruct (frame_insert_hi _ m3 b (rem p ix) (end_addr h + q) p (l + q) F3) as (m4 & E4 & F4 & K4);
    cbn [idx idxused start_addr end_addr set_idxused] in *; try done; try lia.
  { intros r s [[= -> ->]|Hr]%elem_of_cons.
    - split; [lia|]. split; [lia|]. unfold m3. rdw. lia.
    - destruct (S2 r s Hr) as (? & ? & <-). split; [lia|]. split; [lia|].
      assert (r + 12 <= p).
      { pose proof (wf_holes _ _ _ _ _ W) as Hp. rewrite sel_app in Hp. cbn in Hp.
        assert (Hrm : rem p ix ≡ₚ holes (start_addr h) bs1).
        { apply (rem_perm_cons p l).
          - rewrite (wf_holes _ _ _ _ _ W). eapply sel_NoDup, (wf_blocks _ _ _ _ _ W).
          - rewrite Hp. fold p. symmetry. apply Permutation_cons_append. }
        rewrite Hrm in Hr. apply (sel_bounds m) in Hr as (? & ? & ? & _); [lia | done]. }
      apply rd32_ext. intros x ?. apply X3o. lia. }
  { apply N2. lia. }
  rewrite Z.sub_add, set_idxused_twice, set_idxused_id in E4, F4.
  assert (R4 : forall a, start_addr h <= a -> rd32 m4 a = rd32 m3 a).
  { intros a ?. apply rd32_ext. intros; apply K4; lia. }
  exists m4, (ins (p, l + q) (rem p ix)). split; [|split; [exact F4|split; [|split]]].
  - cut (wp (lengthen_last p q (end_addr h + q)) (HState h m b)
           (fun _ s' => s' = HState h m4 b)).
    { intros ([] & s' & E & ->)%wp_Ok. done. }
    unfold lengthen_last. hsteps. eapply wp_eq; [exact E2|]. hsteps.
    rewrite R2, X2 by lia. hsteps. fold m3. eapply wp_eq; [exact E4|]. done.
  - cbn [blocks bsz]. split; [|done]. split; [split|]; cbn [bsz bhole]; rewrite ?R4 by lia;
      unfold m3; rdw; rewrite ?R2 by lia; done || lia.
  - rewrite ins_perm. pose proof (wf_holes _ _ _ _ _ W) as Hp. rewrite sel_app in Hp. cbn in Hp.
    fold p in Hp. rewrite (rem_perm_cons p l ix (holes (start_addr h) bs1)).
    + apply Permutation_cons_append.
    + rewrite (wf_holes _ _ _ _ _ W). eapply sel_NoDup, (wf_blocks _ _ _ _ _ W).
    + rewrite Hp. symmetry. apply Permutation_cons_append.
  - intros x ? ?. rewrite K4, X3o, K2 by lia. reflexivity.
Qed.

(** The memory was grown and the last block is in use: a hole is added. *)
Lemma append_hole_ok h m b bs ix q :
  heap_wf h m b bs ix -> 20 <= q -> end_addr h + q < W32 ->
  acc b (idx h) (end_addr h + q) -> idx h + 4 * (idxused h + 1) + 8 <= start_addr h ->
  exists m' ix',
    append_hole (end_addr h) q (end_addr h + q) (HState h m b)
    = Ok (tt, HState (set_idxused (idxused h + 1) h) m' b) /\
    heap_frame (set_idxused (idxused h + 1) h) m' b ix' /\
    blocks m' (end_addr h) [Blk q true] /\
    ix' ≡ₚ holes (start_addr h) bs ++ [(end_addr h, q)] /\
    (forall x, start_addr h <= x -> x < end_addr h \/ end_addr h + q <= x -> m' x = m x).
Proof.
  intros W Hq Hmax Ha Hroom. pose proof (wf_sizes_at _ _ _ _ _ W) as Hs.
  pose proof (wf_frame _ _ _ _ _ W) as F. pose proof F as []. set (e := end_addr h) in *.
  set (m1 := wr32 (wr32 (wr32 (wr32 (wr32 m (e + 4) 1) e HEAP_MAGIC) (e + 8) q)
               (e + q - 8) HEAP_MAGIC) (e + q - 8 + 4) e).
  assert (X1 : forall x, x < e \/ e + q <= x -> m1 x = m x).
  { intros x ?. unfold m1. rewrite !wr32_ne by lia. reflexivity. }
  assert (F1 : heap_frame h m1 b ix).
  { eapply frame_write; [exact F|]. intros x ?. apply X1. lia. }
  destruct (frame_insert_hi _ m1 b ix (e + q) e q F1) as (m2 & E2 & F2 & K2); try done; try lia.
  { intros r s [[= -> ->]|Hr]%elem_of_cons.
    - split; [lia|]. split; [lia|]. unfold m1. rdw. lia.
    - destruct (Hs r s Hr) as (? & ? & <-). split; [lia|]. split; [lia|].
      apply rd32_ext. intros x ?. apply X1. lia. }
  { intros ([r s] & Er & Hr)%list_elem_of_fmap. simpl in Er. destruct (Hs r s Hr) as (? & ? & _). lia. }
  assert (R2 : forall a, start_addr h <= a -> rd32 m2 a = rd32 m1 a).
  { intros a ?. apply rd32_ext. intros; apply K2; lia. }
  exists m2, (ins (e, q) ix). split; [|split; [exact F2|split; [|split]]].
  - cut (wp (append_hole e q (e + q)) (HState h m b)
           (fun _ s' => s' = HState (set_idxused (idxused h + 1) h) m2 b)).
    { intros ([] & s' & E & ->)%wp_Ok. done. }
    unfold append_hole. hsteps. fold m1. eapply wp_eq; [exact E2|]. done.
  - cbn [blocks bsz]. split; [|done]. split; [split|]; cbn [bsz bhole]; rewrite ?R2 by lia;
      unfold m1; rdw; done || lia.
  - rewrite ins_perm, (wf_holes _ _ _ _ _ W). apply Permutation_cons_append.
  - intros x ? ?. rewrite K2, X1 by lia. reflexivity.
Qed.

(** What a successful [heap_expand] by [q] bytes leaves. *)
Record expanded (h : heap) (m : mem) (bs : list blk) (q : Z) (h' : heap) (m' : mem) (b' : B)
    (bs' : list blk) (ix' : list (Z * Z)) : Prop := {
  ex_wf : heap_wf h' m' b' bs' ix';
  ex_end : end_addr h' = end_addr h + q;
  ex_limits : same_limits h h';
  ex_last : last_hole bs' = true;
  ex_tail : tail_hole bs + q <= tail_hole bs';
  ex_used : used (start_addr h) bs' = used (start_addr h) bs;
  ex_same : same_used (used (start_addr h) bs) m m'
}.

Lemma used_same_outside h m m' b bs ix : heap_wf h m b bs ix ->
  (forall x, start_addr h <= x < end_addr h -> m' x = m x) ->
  same_used (used (start_addr h) bs) m m'.
Proof.
  intros [F Wend Wb Wh Wn We] Hx a sz Hin x Hr.
  pose proof (sel_bounds _ _ _ _ _ _ Wb Hin) as (? & ? & _). apply Hx. lia.
Qed.

Lemma heap_wf_splice h m b b' f bs ix hi : heap_wf h m b bs ix -> acc b' (idx h) (end_addr h) ->
  heap_wf h (splice m f (end_addr h) hi) b' bs ix.
Proof.
  intros [F Wend Wb Wh Wn We] Ha. pose proof F as [].
  assert (X : forall x, x < end_addr h -> splice m f (end_addr h) hi x = m x).
  { intros x ?. apply (agree_splice m f (end_addr h) hi x (x + 1)); lia. }
  split; try done.
  - apply frame_bk with b; [|done]. eapply frame_write; [exact F|]. intros; apply X; lia.
  - eapply blocks_agree; [|exact Wb]. intros x ?. apply X. lia.
Qed.

(** Growing the backing store, as [heap_expand] does. *)
Lemma grow_heap_ok h m b bs ix newEnd lim : heap_wf h m b bs ix -> idx h mod 4096 = 0 ->
  end_addr h <= newEnd < W32 -> newEnd mod 4096 = 0 -> newEnd <= lim -> backed b (idx h) (end_addr h) lim ->
  exists r b', acc b' (idx h) (end_addr h) /\
    ((r <> 0 /\ backed b' (idx h) (end_addr h) lim /\
      grow_heap (idx h) (end_addr h) newEnd (HState h m b) = Ok (r, HState h m b')) \/
     (r = 0 /\ backed b' (idx h) newEnd lim /\
      grow_heap (idx h) (end_addr h) newEnd (HState h m b)
      = Ok (0, HState h (splice m (filled b') (end_addr h) newEnd) b'))).
Proof.
  intros W Hai Hn Han Hlim Hbk. pose proof (wf_frame _ _ _ _ _ W) as [].
  destruct (grow_law (idx h) (end_addr h) newEnd lim b) as (r & b' & E & Hf & Hr); try done; try lia.
  exists r, b'. unfold grow_heap, zoom, mbind, M_bind. cbn [bk]. rewrite E.
  destruct (Z.eqb_spec r 0) as [->|Hne].
  - split; [|right; auto]. eapply acc_sub; [by eapply backed_acc, Hr | lia | lia].
  - split; [by eapply backed_acc, Hf | left; auto].
Qed.

Lemma heap_expand_grown h m b bs ix q :
  heap_wf h m b bs ix -> 4096 <= q -> q mod 4096 = 0 -> end_addr h + q <= max_end h ->
  acc b (idx h) (end_addr h + q) -> room_to_grow h bs ->
  exists h1 m' bs' ix' last_header is_hole,
    get_header (end_addr h - 8) (HState h m b) = Ok (last_header, HState h m b) /\
    get_is_hole last_header (HState h m b) = Ok (is_hole, HState h m b) /\
    (if negb (is_hole =? 0) then lengthen_last last_header q (end_addr h + q)
     else append_hole (end_addr h) q (end_addr h + q)) (HState h m b) = Ok (tt, HState h1 m' b) /\
    expanded h m bs q (set_end_addr (end_addr h + q) h1) m' b bs' ix'.
Proof.
  intros W Hq Haq Hmax Ha Hroom.
  destruct (last_split bs (wf_ne _ _ _ _ _ W)) as (bs0 & [l f] & ->).
  pose proof (wf_frame _ _ _ _ _ W) as F. pose proof F as [].
  pose proof (wf_blocks _ _ _ _ _ W) as (Hb1 & [[X1 X2 X3 X4 X5] X6] & _)%blocks_app.
  pose proof (wf_end _ _ _ _ _ W) as Hend. rewrite tot_app in Hend. cbn [tot bsz bhole] in *.
  pose proof (blocks_tot_nonneg _ _ _ Hb1). set (p := start_addr h + tot bs0) in *.
  assert (Eh : rd32 m (end_addr h - 8 + 4) = p) by (rewrite <- X4; f_equal; lia).
  assert (Hal : (end_addr h + q) mod 4096 = 0) by (rewrite Z.add_mod, wf_align, Haq by lia; done).
  assert (Hexec : get_header (end_addr h - 8) (HState h m b) = Ok (p, HState h m b) /\
                  get_is_hole p (HState h m b) = Ok ((if f then 1 else 0), HState h m b)).
  { unfold get_header, get_is_hole, off_header, off_is_hole. w32s.
    split; (etransitivity; [eapply ld_ok; [exact Ha | lia | lia]|]); [by rewrite Eh | by rewrite X6]. }
  destruct Hexec as [E1 E2].
  destruct f.
  - destruct (lengthen_last_ok h m b bs0 l ix q W) as (m' & ix' & E & F' & Hb & Hp & Hx); try done; try lia.
    exists h, m', (bs0 ++ [Blk (l + q) true]), ix', p, 1.
    split; [done|]. split; [done|]. split; [exact E|]. split.
    + apply (heap_wf_replace h _ m m' b bs0 (l + q) [Blk (l + q) true] []); cbn; try done; try lia.
      * intros x ? ?. apply Hx; lia.
      * by apply frame_set_end; [..|lia|].
      * pose proof (wf_noadj _ _ _ _ _ W) as Hadj. rewrite !no_adj_app in *. done.
    + done.
    + done.
    + apply last_hole_app.
    + unfold tail_hole. rewrite !last_snoc. lia.
    + rewrite !sel_app. done.
    + apply (same_used_outside _ _ _ _ _ _ _ _ W). intros x ? ? ?. apply Hx; lia.
  - destruct Hroom as [Hl|Hroom]; [rewrite last_hole_app in Hl; discriminate|].
    destruct (append_hole_ok h m b _ ix q W) as (m' & ix' & E & F' & Hb & Hp & Hx); try done; try lia.
    exists (set_idxused (idxused h + 1) h), m', ((bs0 ++ [Blk l false]) ++ [Blk q true]), ix', p, 0.
    split; [done|]. split; [done|]. split; [exact E|]. split.
    + apply (heap_wf_replace h _ m m' b (bs0 ++ [Blk l false]) q [Blk q true] []);
        rewrite ?tot_app; cbn; try done; try lia.
      * apply (wf_blocks _ _ _ _ _ W).
      * intros x ? ?. apply Hx; lia.
      * by apply frame_set_end; cbn; [..|lia|].
      * replace (start_addr h + (tot bs0 + (l + 0))) with (end_addr h) by lia. done.
      * rewrite Hp. replace (start_addr h + (tot bs0 + (l + 0))) with (end_addr h) by lia. done.
      * pose proof (wf_noadj _ _ _ _ _ W) as Hadj. rewrite !no_adj_app in *.
        rewrite last_hole_app. split; [done|]. split; [|done]. done.
    + done.
    + done.
    + apply last_hole_app.
    + unfold tail_hole. rewrite !last_snoc. lia.
    + rewrite !sel_app. cbn. by rewrite app_nil_r.
    + apply (used_same_outside _ _ _ _ _ _ W). intros x ?. apply Hx; lia.
Qed.

Lemma heap_expand_ok h m b bs ix q lim :
  heap_wf h m b bs ix -> idx h mod 4096 = 0 -> 4096 <= q -> q mod 4096 = 0 ->
  end_addr h + q < W32 -> room_to_grow h bs ->
  backed b (idx h) (end_addr h) lim -> max_end h <= lim \/ end_addr h + q <= lim ->
  (exists b', heap_expand q (HState h m b) = Ok (0, HState h m b') /\ heap_wf h m b' bs ix /\
     backed b' (idx h) (end_addr h) lim) \/
  (exists h' m' b' bs' ix', heap_expand q (HState h m b) = Ok (1, HState h' m' b') /\
     expanded h m bs q h' m' b' bs' ix' /\ backed b' (idx h') (end_addr h') lim).
Proof.
  intros W Hai Hq Haq Hmax Hroom Hbk Hlim. pose proof (wf_frame _ _ _ _ _ W) as F. pose proof F as [].
  unfold heap_expand. rewrite round_page_aligned by done.
  rewrite (bind_Ok _ _ _ h (HState h m b)) by done. w32s.
  destruct (Z.ltb_spec (max_end h) (end_addr h + q)); [left; exists b; done|].
  assert (Hal : (end_addr h + q) mod 4096 = 0) by (rewrite Z.add_mod, wf_align, Haq by lia; done).
  destruct (grow_heap_ok h m b bs ix (end_addr h + q) lim W Hai ltac:(lia) Hal ltac:(lia) Hbk)
    as (r & b' & Ha & [(Hne & Hb' & E)|(-> & Hb' & E)]); rewrite (bind_Ok _ _ _ _ _ E).
  - left. exists b'. destruct (Z.eqb_spec r 0); [done|]. split; [done|]. split; [|done].
    by destruct W; split.
  - right. cbn [Z.eqb negb].
    pose proof (heap_wf_splice _ _ _ b' (filled b') _ _ (end_addr h + q) W Ha) as W1.
    destruct (heap_expand_grown _ _ _ _ _ q W1 Hq Haq ltac:(lia) (backed_acc _ _ _ _ Hb') Hroom)
      as (h1 & m' & bs' & ix' & lh & isl & E1 & E2 & E3 & X).
    exists (set_end_addr (end_addr h + q) h1), m', b', bs', ix'. split.
    + rewrite (w32_small (end_addr h - sizeof_footer)) by (unfold u32, sizeof_footer; lia).
      rewrite (bind_Ok _ _ _ _ _ E1), (bind_Ok _ _ _ _ _ E2), (bind_Ok _ _ _ _ _ E3). done.
    + destruct X as [X1 X2 X3 X4 X7 X5 X6]. split; [|by rewrite (proj1 X3), X2].
      split; try done. intros a sz Hin. eapply agree_trans; [|by apply X6].
      pose proof (sel_bounds _ _ _ _ _ _ (wf_blocks _ _ _ _ _ W) Hin) as (? & ? & _).
      pose proof (wf_end _ _ _ _ _ W). apply agree_splice. lia.
Qed.

(** ** Allocation *)

(** The result of an allocation of [sz] bytes in a heap whose blocks in
    use are [u]: a fresh block, or 0 with no hole large enough. *)
Record allocated (sz : Z) (h : heap) (m : mem) (u : list (Z * Z)) (r : Z)
    (h' : heap) (m' : mem) (b' : B) (bs' : list blk) (ix' : list (Z * Z)) : Prop := {
  al_wf : heap_wf h' m' b' bs' ix';
  al_limits : same_limits h h';
  al_same : same_used u m m';
  al_result :
    (r = 0 /\ used (start_addr h) bs' = u /\ forall p sz', (p, sz') ∈ ix' -> sz' < sz + 20) \/
    (r <> 0 /\ exists sz', used (start_addr h) bs' ≡ₚ (r - 12, sz') :: u /\
                         sz + 20 <= sz' <= sz + 40)
}.

Lemma cut_used newsize lsz a : 20 <= newsize <= lsz ->
  exists sz', used a (cut newsize lsz) = [(a, sz')] /\ newsize <= sz' <= newsize + 20.
Proof.
  intros Hn. unfold cut. destruct (Z.ltb_spec (newsize + 20) lsz); cbn.
  - exists newsize. split; [done | lia].
  - exists lsz. split; [done | lia].
Qed.

Lemma cut_tot newsize lsz : tot (cut newsize lsz) = lsz.
Proof. unfold cut. destruct (newsize + 20 <? lsz); cbn; lia. Qed.

(** One round: the hole that was found is used. *)
Lemma alloc_round h m b bs ix sz i loc lsz :
  heap_wf h m b bs ix -> ix !! i = Some (loc, lsz) -> 0 <= sz -> sz + 20 <= lsz ->
  exists n m' bs' ix',
    alloc_at (sz + 20) (Z.of_nat i) (HState h m b) = Ok (loc + 12, HState (set_idxused n h) m' b) /\
    allocated sz h m (used (start_addr h) bs) (loc + 12) (set_idxused n h) m' b bs' ix'.
Proof.
  intros W Ei Hsz Hl.
  destruct (alloc_at_ok _ _ _ _ _ (sz + 20) _ _ _ W Ei ltac:(lia))
    as (bs1 & bs2 & n & m' & E & -> & Eloc & W' & Hx).
  eexists _, _, _, _. split; [exact E|]. split; [exact W' | done | |].
  - subst loc. apply (same_used_outside _ _ _ _ _ _ _ _ W). intros; apply Hx; lia.
  - right. pose proof (wf_frame _ _ _ _ _ W) as [].
    pose proof (wf_blocks _ _ _ _ _ W) as (Hb1 & _)%blocks_app.
    pose proof (blocks_tot_nonneg _ _ _ Hb1). split; [lia|].
    destruct (cut_used (sz + 20) lsz loc ltac:(lia)) as (sz' & Eu & Hb).
    exists sz'. split; [|lia]. rewrite !sel_app, <- Eloc, Eu, cut_tot. cbn.
    replace (loc + 12 - 12) with loc by lia. symmetry. apply Permutation_middle.
Qed.

Lemma alloc_quantity sz : 0 <= sz -> sz + 4096 < W32 ->
  let q := w32 (page_mask sz + 0x1000) in
  4096 <= q <= sz + 4096 /\ q mod 4096 = 0.
Proof.
  intros H1 H2 q. assert (Hu : u32 sz) by (unfold u32; lia).
  pose proof (page_mask_sub sz Hu). pose proof (Z.mod_pos_bound sz 4096).
  pose proof (page_mask_align sz Hu) as Hal. pose proof (Z.mod_le sz 4096).
  subst q. rewrite w32_small by (unfold u32; lia). split; [lia|].
  rewrite Z.add_mod, Hal by lia. reflexivity.
Qed.

Lemma div_page_step d q : 4096 <= q -> 0 <= d - q ->
  (Z.to_nat ((d - q) / 0x1000) + 1 <= Z.to_nat (d / 0x1000))%nat.
Proof. intros. Z.div_mod_to_equations. lia. Qed.

(** One round of [heap_alloc] on a well-formed heap. *)
Lemma heap_alloc_fuel_step fuel sz h m b bs ix :
  heap_wf h m b bs ix -> 0 <= sz -> sz + 20 < W32 ->
  heap_alloc_fuel (S fuel) sz (HState h m b)
  = (if Z.of_nat (first_fit (sz + 20) ix) =? Z.of_nat (length ix)
     then r ← heap_expand (w32 (page_mask sz + 0x1000));
          if r =? 0 then mret 0 else heap_alloc_fuel fuel sz
     else alloc_at (sz + 20) (Z.of_nat (first_fit (sz + 20) ix))) (HState h m b).
Proof.
  intros W Hsz Hb. pose proof (wf_frame _ _ _ _ _ W) as [].
  pose proof (wf_sizes_at _ _ _ _ _ W) as Hs.
  cbn [heap_alloc_fuel]. rewrite (bind_Ok _ _ _ h (HState h m b)) by done.
  replace (w32 (sz + sizeof_header + sizeof_footer)) with (sz + 20)
    by (unfold sizeof_header, sizeof_footer; rewrite w32_small; unfold u32; lia).
  rewrite wf_len, Nat2Z.id.
  rewrite (bind_Ok _ _ _ _ _ (find_hole_ok h b (end_addr h) (sz + 20) ix m 0
    wf_acc ltac:(lia) ltac:(lia) ltac:(lia) ltac:(lia)
    ltac:(by rewrite Z.mul_0_r, Z.add_0_r) ltac:(eapply sizes_at_sub; [exact Hs | lia | lia]))).
  by rewrite Z.add_0_l.
Qed.

(** The hole at the end is in the index. *)
Lemma tail_in h m b bs ix : heap_wf h m b bs ix -> 0 < tail_hole bs -> exists p, (p, tail_hole bs) ∈ ix.
Proof.
  intros W. destruct (last_split bs (wf_ne _ _ _ _ _ W)) as (bs0 & [l f] & ->).
  unfold tail_hole. rewrite last_snoc. destruct f; [|lia]. intros _.
  exists (start_addr h + tot bs0). rewrite (wf_holes _ _ _ _ _ W), sel_app. set_solver.
Qed.

(** When no hole is large enough, an expansion is among those paid for. *)
Lemma can_expand_step h m b bs ix sz lim : heap_wf h m b bs ix -> 0 <= sz ->
  (forall y, y ∈ ix -> snd y < sz + 20) -> can_expand sz h bs lim ->
  max_end h <= lim \/ end_addr h + quantum sz <= lim /\
    forall h' bs', end_addr h' = end_addr h + quantum sz -> tail_hole bs + quantum sz <= tail_hole bs' ->
      can_expand sz h' bs' lim.
Proof.
  intros W Hsz Hnone [?|(n & Hn & Hl)]; [by left | right]. destruct n as [|n].
  { destruct (tail_in _ _ _ _ _ W) as (p & Hp); [lia|]. specialize (Hnone _ Hp). cbn in Hnone. lia. }
  rewrite Nat2Z.inj_succ, Z.mul_succ_l in *. assert (0 <= quantum sz) by (unfold quantum; pose proof (w32_range (page_mask sz + 0x1000)) as []; lia).
  split; [nia|]. intros h' bs' E1 E2. right. exists n. lia.
Qed.

Lemma heap_alloc_fuel_ok sz lim fuel : forall h m b bs ix,
  heap_wf h m b bs ix -> idx h mod 4096 = 0 -> 0 <= sz -> max_end h + sz + 4096 < W32 ->
  room_to_grow h bs -> backed b (idx h) (end_addr h) lim -> can_expand sz h bs lim ->
  (Z.to_nat ((max_end h - end_addr h) / 0x1000) + 1 < fuel)%nat ->
  exists r h' m' b' bs' ix',
    heap_alloc_fuel fuel sz (HState h m b) = Ok (r, HState h' m' b') /\
    allocated sz h m (used (start_addr h) bs) r h' m' b' bs' ix' /\ backed b' (idx h') (end_addr h') lim.
Proof.
  induction fuel as [|fuel IH]; intros h m b bs ix W Hai Hsz Hmax Hroom Hbk Hcan Hfuel; [lia|].
  pose proof (wf_frame _ _ _ _ _ W) as F. pose proof F as [].
  rewrite (heap_alloc_fuel_step _ _ _ _ _ _ _ W) by lia.
  destruct (first_fit_spec (sz + 20) ix) as [[Eend Hnone]|([loc lsz] & Ei & Hfit & _)].
  - rewrite Eend, Z.eqb_refl.
    destruct (alloc_quantity sz Hsz ltac:(lia)) as [Hq Haq].
    pose proof (can_expand_step _ _ _ _ _ _ _ W Hsz Hnone Hcan) as Hstep. fold (quantum sz) in *.
    destruct (heap_expand_ok h m b bs ix (quantum sz) lim W Hai (proj1 Hq) Haq ltac:(lia) Hroom Hbk ltac:(tauto))
      as [(b' & E & W' & Hb')|(h1 & m1 & b1 & bs1 & ix1 & E & [X1 X2 X3 X4 X7 X5 X6] & Hb1)];
      rewrite (bind_Ok _ _ _ _ _ E); cbn [Z.eqb].
    + exists 0, h, m, b', bs, ix. split; [done|]. split; [|done]. split; try done.
      left. split; [done|]. split; [done|]. intros p s Hp. by apply (Hnone (p, s)).
    + destruct X3 as (L1 & L2 & L3). pose proof (wf_frame _ _ _ _ _ X1) as [].
      destruct (IH h1 m1 b1 bs1 ix1 X1) as (r & h2 & m2 & b2 & bs2 & ix2 & E2 & [Y1 Y2 Y3 Y4] & Hb2);
        rewrite ?L1, ?L3; try done; [by left | by rewrite <- L1 | | |].
      { destruct Hstep as [?|[_ Hstep]]; [left; lia | by apply Hstep]. }
      { rewrite X2 in *. pose proof (div_page_step (max_end h - end_addr h) _ (proj1 Hq) ltac:(lia)).
        replace (max_end h - (end_addr h + quantum sz))
          with (max_end h - end_addr h - quantum sz) by lia. lia. }
      rewrite L2 in *. rewrite X5 in *. exists r, h2, m2, b2, bs2, ix2. split; [exact E2|]. split; [|done].
      split; [done | by eapply same_limits_trans | | done].
      intros a s Hin. eapply agree_trans; [by apply X6 | by apply Y3].
  - pose proof (lookup_lt_Some _ _ _ Ei).
    destruct (Z.eqb_spec (Z.of_nat (first_fit (sz + 20) ix)) (Z.of_nat (length ix))); [lia|].
    destruct (alloc_round _ _ _ _ _ _ _ _ _ W Ei Hsz Hfit) as (n2 & m' & bs' & ix' & E & A).
    by exists (loc + 12), (set_idxused n2 h), m', b, bs', ix'.
Qed.

Lemma heap_alloc_ok h m b bs ix sz lim :
  heap_wf h m b bs ix -> idx h mod 4096 = 0 -> 0 <= sz -> max_end h + sz + 4096 < W32 ->
  room_to_grow h bs -> backed b (idx h) (end_addr h) lim -> can_expand sz h bs lim ->
  exists r h' m' b' bs' ix',
    heap_alloc sz (HState h m b) = Ok (r, HState h' m' b') /\
    allocated sz h m (used (start_addr h) bs) r h' m' b' bs' ix' /\ backed b' (idx h') (end_addr h') lim.
Proof. intros. unfold heap_alloc. eapply heap_alloc_fuel_ok; try done. cbn [hp]. lia. Qed.

(** ** Creation *)

(** The single hole [heap_create] makes, once the memory is there. *)
Lemma first_hole_ok h m b size : start_addr h + size = end_addr h -> 20 <= size ->
  heap_frame h m b [] -> idx h + 12 <= start_addr h ->
  let m1 := wr32 (wr32 (wr32 (wr32 (wr32 m (start_addr h + 8) size) (start_addr h) HEAP_MAGIC)
              (start_addr h + 4) 1) (end_addr h - 8 + 4) (start_addr h))
              (end_addr h - 8) HEAP_MAGIC in
  exists m2, heapIdx_insert (start_addr h) (HState h m1 b)
             = Ok (tt, HState (set_idxused 1 h) m2 b) /\
    heap_wf (set_idxused 1 h) m2 b [Blk size true] [(start_addr h, size)].
Proof.
  intros Hend Hsz F Hroom m1. pose proof F as []. cbn [length] in *.
  assert (F1 : heap_frame h m1 b []).
  { eapply frame_write; [exact F|]. intros x ?. unfold m1. rewrite !wr32_ne by lia. done. }
  destruct (frame_insert _ m1 b [] (start_addr h) size F1) as (m2 & E & F2 & K2).
  { lia. }
  { intros p s [[= -> ->]|Hp]%elem_of_cons; [|set_solver].
    split; [lia|]. split; [lia|]. unfold m1. rdw. lia. }
  { set_solver. }
  rewrite wf_len in E, F2. exists m2. split; [exact E|].
  assert (R2 : forall a, start_addr h <= a -> rd32 m2 a = rd32 m1 a).
  { intros a ?. apply rd32_ext. intros; apply K2; lia. }
  split; cbn [start_addr end_addr set_idxused tot bsz]; try done; try lia.
  cbn [blocks bsz]. split; [|done]. split; [split|]; cbn [bsz bhole]; rewrite ?R2 by lia;
    unfold m1; rdw; done || lia.
Qed.

Lemma wp_grow_heap h m b i old new r b' Q : grow i old new b = Ok (r, b') ->
  Q r (if r =? 0 then HState h (splice m (filled b') old new) b' else HState h m b') ->
  wp (grow_heap i old new) (HState h m b) Q.
Proof.
  intros E HQ. unfold grow_heap, wp, zoom, mbind, M_bind. cbn [bk]. rewrite E.
  destruct (Z.eqb_spec r 0) as [->|]; exact HQ.
Qed.

Lemma heap_create_ok hs start idxsize datasize maxdatasize lim :
  4096 <= start -> start mod 4096 = 0 -> 12 <= idxsize -> 20 <= datasize <= maxdatasize ->
  start + idxsize + maxdatasize < W32 -> (start + idxsize + datasize) mod 4096 = 0 ->
  backed (bk hs) start start lim -> start + idxsize + datasize <= lim ->
  (forall b', grow start start (start + idxsize + datasize) (bk hs) = Ok (0, b') ->
     rd32 (filled b') (start + idxsize - 8) <> HEAP_MAGIC) ->
  exists r hs', heap_create start idxsize datasize maxdatasize hs = Ok (r, hs') /\
    (r = 0 \/ (r = -1 /\ exists e b', e <> 0 /\
       grow start start (start + idxsize + datasize) (bk hs) = Ok (e, b'))) /\
    (r = 0 ->
       idx (hp hs') = start /\ start_addr (hp hs') = start + idxsize /\
       max_end (hp hs') = start + idxsize + maxdatasize /\ backed (bk hs') start (start + idxsize + datasize) lim /\
       heap_wf (hp hs') (hm hs') (bk hs') [Blk datasize true] [(start + idxsize, datasize)]).
Proof.
  intros H1 H2 H3 H4 H5 H6 Hbk Hlim H7. destruct hs as [h m b].
  set (e := start + idxsize + datasize).
  destruct (grow_law start start e lim b) as (r & b' & E & _ & Hb); try done; try lia.
  apply wp_Ok. unfold heap_create. rewrite round_page_aligned by done.
  hsteps. cbn [id hp set_hp hm bk idx idxused end_addr]. w32s. fold e.
  apply (wp_grow_heap _ _ _ _ _ _ _ _ _ E).
  destruct (Z.eqb_spec r 0) as [->|Hne]; cbn [Z.eqb negb].
  - specialize (Hb eq_refl). pose proof (backed_acc _ _ _ _ Hb) as Ha. hsteps. cbn [start_addr end_addr max_end].
    set (m0 := splice m (filled b') start e).
    set (h2 := Heap start 0 (start + idxsize) e (start + idxsize + maxdatasize)).
    assert (F : heap_frame h2 m0 b' []).
    { split; cbn; try done; try lia; [constructor|].
      rewrite (rd32_ext (filled b') m0); [by apply H7|].
      intros x ?. unfold m0, splice. destruct (Z.leb_spec start x), (Z.ltb_spec x e); done || lia. }
    destruct (first_hole_ok h2 m0 b' datasize) as (m2 & E2 & W); cbn; try done; try lia.
    replace (e - (start + idxsize)) with datasize by lia.
    unfold set_hp; cbn [hm bk]; fold h2. hsteps.
    eapply wp_eq; [exact E2|]. hsteps. split; [by left|]. done.
  - hsteps. split; [|done]. right. split; [done|]. by exists r, b'.
Qed.

End alloc.
