(* ===== verification/HeapFree.v ===== *)
(** * Freeing

    [unify_left], [unify_right] and [heap_free] on heaps that satisfy the
    invariant: the freed block is merged with the holes around it. *)

From S2P Require Import Prelude Memory Heap HeapIndex HeapBlocks HeapOps HeapAlloc.

(** What [heap_free] may look at beyond the last block: nothing, unless the
    freed block is the last one. *)
Definition right_ok {B} `{HeapBacking B} (h : heap) (m : mem) (b : B) (bs2 : list blk) : Prop :=
  bs2 <> [] \/ (acc b (idx h) (end_addr h + 4) /\ end_addr h + 4 < W32 /\
                rd32 m (end_addr h) <> HEAP_MAGIC).

(** The size of the hole after merging. *)
Definition merged (bs1 : list blk) (sz : Z) (bs2 : list blk) : Z :=
  tot bs1 - tot (left_rest bs1) + sz + (tot bs2 - tot (right_rest bs2)).

(** ** Lemmas on the neighbours *)

Lemma left_rest_last bs1 : no_adj bs1 -> last_hole (left_rest bs1) = false /\ no_adj (left_rest bs1).
Proof.
  intros Hn. unfold left_rest. destruct (last_hole bs1) eqn:E; [|done].
  destruct bs1 as [|x bs _] using rev_ind; [done|]. rewrite removelast_last.
  rewrite last_hole_app in E. apply no_adj_app in Hn as (H1 & _ & H2). cbn in H2. split; [|done].
  destruct (last_hole bs); [|done]. specialize (H2 eq_refl). congruence.
Qed.

Lemma right_rest_first bs2 : no_adj bs2 -> first_hole (right_rest bs2) = false /\ no_adj (right_rest bs2).
Proof.
  intros Hn. unfold right_rest. destruct (first_hole bs2) eqn:E; [|done].
  destruct bs2 as [|x bs2]; [done|]. cbn in *. destruct Hn as [H1 H2]. split; [|done].
  specialize (H1 E). by destruct bs2.
Qed.

Lemma left_rest_used a bs1 : used a (left_rest bs1) = used a bs1.
Proof.
  unfold left_rest. destruct (last_hole bs1) eqn:E; [|done].
  destruct bs1 as [|[s f] bs _] using rev_ind; [done|]. rewrite removelast_last.
  rewrite last_hole_app in E. cbn in E. subst f. rewrite sel_app. cbn. by rewrite app_nil_r.
Qed.

Lemma right_rest_used a bs2 : used (a + tot bs2 - tot (right_rest bs2)) (right_rest bs2) = used a bs2.
Proof.
  unfold right_rest. destruct (first_hole bs2) eqn:E.
  - destruct bs2 as [|[s f] bs2]; [done|]. cbn in E. subst f. cbn. f_equal. lia.
  - f_equal. lia.
Qed.

Lemma right_rest_tot m a bs2 : blocks m a bs2 -> tot (right_rest bs2) <= tot bs2.
Proof.
  intros Hb. unfold right_rest. destruct (first_hole bs2); [|lia].
  destruct bs2 as [|x bs2]; cbn; [lia|]. destruct Hb as [[[] _] _]. lia.
Qed.

Section free.
Context {B : Type} `{HeapBacking B}.
Implicit Types (h : heap) (m : mem) (b : B) (ix : list (Z * Z)).

Lemma mid_NoDup h m b bs1 sz bs2 ix : heap_mid h m b bs1 sz bs2 ix -> NoDup ix.*1.
Proof.
  intros [F Hend Hb1 Hm Hb2 Hh Hn1 Hn2]. rewrite Hh, fmap_app. apply NoDup_app.
  split; [by eapply sel_NoDup|]. split; [|by eapply sel_NoDup].
  intros p ([q s] & -> & Hq)%list_elem_of_fmap ([q' s'] & E & Hq')%list_elem_of_fmap.
  simpl in E. subst q'. destruct Hm.
  apply (sel_bounds m) in Hq as (? & ? & ? & _); [|done].
  apply (sel_bounds m) in Hq' as (? & ? & ? & _); [|done]. lia.
Qed.

(** Nothing to the left to merge with. *)
Lemma unify_left_none h m b bs1 sz bs2 ix footer : heap_mid h m b bs1 sz bs2 ix ->
  last_hole bs1 = false ->
  unify_left (start_addr h + tot bs1) footer (HState h m b)
  = Ok (start_addr h + tot bs1, HState h m b).
Proof.
  intros [F Hend Hb1 Hm Hb2 Hh Hn1 Hn2] Hl. pose proof F as []. pose proof Hm as [].
  pose proof (blocks_tot_nonneg _ _ _ Hb1). pose proof (blocks_tot_nonneg _ _ _ Hb2).
  cut (wp (unify_left (start_addr h + tot bs1) footer) (HState h m b)
         (fun r s' => r = start_addr h + tot bs1 /\ s' = HState h m b)).
  { intros (a & s' & E & -> & ->)%wp_Ok. done. }
  unfold unify_left. hsteps.
  destruct bs1 as [|[l f] bs0 _] using rev_ind.
  - cbn [tot]. rewrite Z.add_0_r. destruct (Z.eqb_spec (rd32 m (start_addr h - 8)) HEAP_MAGIC);
      [done|]. hsteps. split; lia || done.
  - rewrite last_hole_app in Hl. cbn in Hl. subst f.
    apply blocks_app in Hb1 as [Hb0 [[[X1 X2 X3 X4 X5] X6] _]]. rewrite tot_app in *.
    cbn [tot bsz bhole] in *. pose proof (blocks_tot_nonneg _ _ _ Hb0).
    replace (start_addr h + (tot bs0 + (l + 0)) - 8) with (start_addr h + tot bs0 + l - 8) by lia.
    rewrite X3, Z.eqb_refl. hsteps.
    replace (start_addr h + tot bs0 + l - 8 + 4) with (start_addr h + tot bs0 + l - 4) by lia.
    rewrite X4. hsteps. rewrite X6. cbn [Z.eqb negb]. hsteps. done.
Qed.

(** The block before is a hole: the two become one block. *)
Lemma unify_left_merge h m b bs0 l sz bs2 ix :
  heap_mid h m b (bs0 ++ [Blk l true]) sz bs2 ix ->
  let p := start_addr h + tot bs0 in
  exists m' ix',
    unify_left (p + l) (p + l + sz - 8) (HState h m b)
    = Ok (p, HState (set_idxused (idxused h - 1) h) m' b) /\
    heap_mid (set_idxused (idxused h - 1) h) m' b bs0 (l + sz) bs2 ix' /\
    (forall x, start_addr h <= x -> x < p \/ p + l + sz <= x -> m' x = m x).
Proof.
  intros W p. pose proof (mid_NoDup _ _ _ _ _ _ _ W) as Hnd.
  destruct W as [F Hend Hb1 Hm Hb2 Hh Hn1 Hn2]. pose proof F as []. pose proof Hm as [M1 M2 M3 M4 M5].
  apply blocks_app in Hb1 as [Hb0 [[[X1 X2 X3 X4 X5] X6] _]].
  rewrite tot_app in *. cbn [tot bsz bhole] in *. rewrite Z.add_0_r in *.
  replace (start_addr h + (tot bs0 + l)) with (p + l) in * by (unfold p; lia). fold p in X1, X2, X3, X4, X6.
  pose proof (blocks_tot_nonneg _ _ _ Hb0). pose proof (blocks_tot_nonneg _ _ _ Hb2).
  rewrite sel_app in Hh. cbn [sel bhole bsz Bool.eqb app] in Hh. fold p in Hh.
  assert (Hp : ix ≡ₚ (p, l) :: holes (start_addr h) bs0 ++ holes (p + l + sz) bs2).
  { rewrite Hh, <- app_assoc. symmetry. apply Permutation_middle. }
  destruct (frame_remove h m b ix p l F) as (m2 & E2 & F2 & K2); [rewrite Hp; set_solver|].
  assert (R2 : forall a, start_addr h <= a -> rd32 m2 a = rd32 m a).
  { intros a ?. apply rd32_ext. intros; apply K2; lia. }
  set (m3 := wr32 (wr32 m2 (p + l + sz - 8 + 4) p) (p + 8) (l + sz)).
  assert (Xo : forall x, start_addr h <= x -> x < p \/ p + l + sz <= x -> m3 x = m x).
  { intros x ? ?. unfold m3. rewrite !wr32_ne by lia. apply K2. lia. }
  exists m3, (rem p ix). split; [|split; [|exact Xo]].
  - cut (wp (unify_left (p + l) (p + l + sz - 8)) (HState h m b)
           (fun r s' => r = p /\ s' = HState (set_idxused (idxused h - 1) h) m3 b)).
    { intros (a & s' & E & -> & ->)%wp_Ok. done. }
    unfold unify_left. hsteps. rewrite X3, Z.eqb_refl. hsteps.
    replace (p + l - 8 + 4) with (p + l - 4) by lia. rewrite X4. hsteps.
    rewrite X6. cbn [Z.eqb negb]. hsteps. eapply wp_eq; [exact E2|]. hsteps.
    replace (p + l + sz - 8 - p + 8) with (l + sz) by lia. hsteps. done.
  - split; cbn [start_addr end_addr set_idxused]; fold p; rewrite ?Z.add_assoc; try done; try lia.
    + eapply frame_write; [exact F2|]. cbn. intros x ?. unfold m3. rewrite !wr32_ne by lia. done.
    + eapply blocks_agree; [|exact Hb0]. intros x ?. apply Xo; lia.
    + split; unfold m3; rdw; rewrite ?R2 by lia; try lia; try done.
      rewrite <- M3. f_equal. lia.
    + eapply blocks_agree; [|exact Hb2]. intros x ?. apply Xo; lia.
    + by apply (rem_perm_cons p l).
    + by apply no_adj_app in Hn1 as [? _].
Qed.

Lemma unify_left_ok h m b bs1 sz bs2 ix : heap_mid h m b bs1 sz bs2 ix ->
  let header := start_addr h + tot bs1 in
  exists n m' ix',
    unify_left header (header + sz - 8) (HState h m b)
    = Ok (start_addr h + tot (left_rest bs1), HState (set_idxused n h) m' b) /\
    heap_mid (set_idxused n h) m' b (left_rest bs1) (tot bs1 - tot (left_rest bs1) + sz) bs2 ix' /\
    n <= idxused h /\
    (forall x, start_addr h <= x ->
       x < start_addr h + tot (left_rest bs1) \/ header + sz <= x -> m' x = m x).
Proof.
  intros W header. destruct (last_hole bs1) eqn:El.
  - destruct bs1 as [|[l f] bs0 _] using rev_ind; [done|].
    rewrite last_hole_app in El. cbn in El. subst f.
    assert (El : left_rest (bs0 ++ [Blk l true]) = bs0).
    { unfold left_rest. rewrite last_hole_app. cbn. apply removelast_last. }
    destruct (unify_left_merge _ _ _ _ _ _ _ _ W) as (m' & ix' & E & W' & Hx).
    exists (idxused h - 1), m', ix'. rewrite El.
    unfold header. rewrite tot_app. cbn [tot bsz]. rewrite Z.add_0_r.
    replace (tot bs0 + l - tot bs0 + sz) with (l + sz) by lia.
    rewrite Z.add_assoc. split; [exact E|]. split; [done|]. split; [lia | exact Hx].
  - assert (El' : left_rest bs1 = bs1) by (unfold left_rest; by rewrite El).
    exists (idxused h), m, ix. rewrite El', set_idxused_id, Z.sub_diag, Z.add_0_l.
    split; [by eapply unify_left_none|]. split; [done|]. split; [lia | done].
Qed.

(** Nothing to the right to merge with. *)
Lemma unify_right_none h m b bs1 sz bs2 ix : heap_mid h m b bs1 sz bs2 ix ->
  first_hole bs2 = false -> right_ok h m b bs2 ->
  let header := start_addr h + tot bs1 in
  unify_right header (header + sz - 8) (HState h m b) = Ok (header + sz - 8, HState h m b).
Proof.
  intros [F Hend Hb1 Hm Hb2 Hh Hn1 Hn2] Hf Hok header. pose proof F as []. pose proof Hm as [].
  pose proof (blocks_tot_nonneg _ _ _ Hb1). pose proof (blocks_tot_nonneg _ _ _ Hb2).
  cut (wp (unify_right header (header + sz - 8)) (HState h m b)
         (fun r s' => r = header + sz - 8 /\ s' = HState h m b)).
  { intros (a & s' & E & -> & ->)%wp_Ok. done. }
  unfold unify_right, header. wp_step.
  destruct bs2 as [|[l f] bs2].
  - destruct Hok as [?|(Ha & Hw & Hmg)]; [done|]. cbn [tot] in *. clear wf_acc. hsteps.
    replace (start_addr h + tot bs1 + sz - 8 + 8) with (end_addr h) by lia. hsteps.
    destruct (Z.eqb_spec (rd32 m (end_addr h)) HEAP_MAGIC); [done|]. hsteps. done.
  - cbn in Hf. subst f. destruct Hb2 as [[[X1 X2 X3 X4 X5] X6] Hb2]. cbn [tot bsz bhole] in *.
    pose proof (blocks_tot_nonneg _ _ _ Hb2). hsteps.
    replace (start_addr h + tot bs1 + sz - 8 + 8) with (start_addr h + tot bs1 + sz) by lia. hsteps.
    rewrite X1, Z.eqb_refl. hsteps. rewrite X6. cbn [Z.eqb negb]. hsteps. done.
Qed.

(** The block after is a hole: the two become one block. *)
Lemma unify_right_merge h m b bs1 sz l bs2 ix :
  heap_mid h m b bs1 sz (Blk l true :: bs2) ix ->
  let header := start_addr h + tot bs1 in
  exists m' ix',
    unify_right header (header + sz - 8) (HState h m b)
    = Ok (header + sz + l - 8, HState (set_idxused (idxused h - 1) h) m' b) /\
    heap_mid (set_idxused (idxused h - 1) h) m' b bs1 (sz + l) bs2 ix' /\
    (forall x, start_addr h <= x -> x < header \/ header + sz + l <= x -> m' x = m x).
Proof.
  intros W header. pose proof (mid_NoDup _ _ _ _ _ _ _ W) as Hnd.
  destruct W as [F Hend Hb1 Hm Hb2 Hh Hn1 Hn2]. pose proof F as []. pose proof Hm as [M1 M2 M3 M4 M5].
  fold header in M1, M2, M3, M4, Hb2, Hh.
  destruct Hb2 as [[[X1 X2 X3 X4 X5] X6] Hb2]. cbn [tot bsz bhole sel Bool.eqb] in *.
  pose proof (blocks_tot_nonneg _ _ _ Hb1). pose proof (blocks_tot_nonneg _ _ _ Hb2).
  assert (Hp : ix ≡ₚ (header + sz, l) :: holes (start_addr h) bs1 ++ holes (header + sz + l) bs2).
  { rewrite Hh. symmetry. apply Permutation_middle. }
  assert (Hle : start_addr h <= header) by (unfold header; lia).
  destruct (frame_remove h m b ix (header + sz) l F) as (m2 & E2 & F2 & K2); [rewrite Hp; set_solver|].
  assert (R2 : forall a, start_addr h <= a -> rd32 m2 a = rd32 m a).
  { intros a ?. apply rd32_ext. intros; apply K2; lia. }
  set (m3 := wr32 (wr32 m2 (header + sz - 8 + l + 4) header) (header + 8) (sz + l)).
  assert (Xo : forall x, start_addr h <= x -> x < header \/ header + sz + l <= x -> m3 x = m x).
  { intros x ? ?. unfold m3. rewrite !wr32_ne by lia. apply K2. lia. }
  assert (Hend' : end_addr h = header + sz + l + tot bs2) by (unfold header; lia).
  exists m3, (rem (header + sz) ix). split; [|split; [|exact Xo]].
  - cut (wp (unify_right header (header + sz - 8)) (HState h m b)
           (fun r s' => r = header + sz - 8 + l /\ s' = HState (set_idxused (idxused h - 1) h) m3 b)).
    { intros (a & s' & E & -> & ->)%wp_Ok. rewrite E. do 2 f_equal. lia. }
    unfold unify_right. hsteps. replace (header + sz - 8 + 8) with (header + sz) by lia. hsteps.
    rewrite X1, Z.eqb_refl. hsteps. rewrite X6. cbn [Z.eqb negb]. hsteps.
    eapply wp_eq; [exact E2|]. hsteps. rewrite R2, X2 by lia. hsteps.
    replace (header + sz - 8 + l - header + 8) with (sz + l) by lia. hsteps. done.
  - split; cbn [start_addr end_addr set_idxused]; fold header; rewrite ?Z.add_assoc; try done; try lia.
    + eapply frame_write; [exact F2|]. cbn. intros x ?. unfold m3. rewrite !wr32_ne by lia. done.
    + eapply blocks_agree; [|exact Hb1]. intros x ?. apply Xo; unfold header; lia.
    + split; unfold m3; rdw; rewrite ?R2 by lia; try lia; try done.
      rewrite <- X3. f_equal. lia.
    + eapply blocks_agree; [|exact Hb2]. intros x ?. apply Xo; lia.
    + by apply (rem_perm_cons (header + sz) l).
    + by destruct Hn2.
Qed.

Lemma unify_right_ok h m b bs1 sz bs2 ix : heap_mid h m b bs1 sz bs2 ix -> right_ok h m b bs2 ->
  let header := start_addr h + tot bs1 in
  let sz' := sz + (tot bs2 - tot (right_rest bs2)) in
  exists n m' ix',
    unify_right header (header + sz - 8) (HState h m b)
    = Ok (header + sz' - 8, HState (set_idxused n h) m' b) /\
    heap_mid (set_idxused n h) m' b bs1 sz' (right_rest bs2) ix' /\ n <= idxused h /\
    (forall x, start_addr h <= x -> x < header \/ header + sz' <= x -> m' x = m x).
Proof.
  intros W Hok header sz'. destruct (first_hole bs2) eqn:Ef.
  - destruct bs2 as [|[l f] bs2]; [done|]. cbn in Ef. subst f.
    destruct (unify_right_merge _ _ _ _ _ _ _ _ W) as (m' & ix' & E & W' & Hx).
    exists (idxused h - 1), m', ix'. unfold sz', right_rest. cbn [first_hole bhole tl tot bsz].
    replace (l + tot bs2 - tot bs2) with l by lia. rewrite Z.add_assoc.
    split; [exact E|]. split; [done|]. split; [lia | exact Hx].
  - exists (idxused h), m, ix. unfold sz', right_rest. rewrite Ef, set_idxused_id.
    replace (sz + (tot bs2 - tot bs2)) with sz by lia.
    split; [by eapply unify_right_none|]. split; [done|]. split; [lia | done].
Qed.

(** A block in use, ready to be freed, splits the heap in three. *)
Lemma wf_to_mid h m b bs1 sz bs2 ix : heap_wf h m b (bs1 ++ Blk sz false :: bs2) ix ->
  heap_mid h m b bs1 sz bs2 ix.
Proof.
  intros [F Wend Wb Wh Wn We]. apply blocks_app in Wb as [Hb1 [[Hm _] Hb2]].
  apply no_adj_app in Wn as (Hn1 & [_ Hn2] & _). rewrite tot_app in Wend. cbn in Wend, Hm, Hb2.
  rewrite sel_app in Wh. cbn in Wh. split; try done. lia.
Qed.

Lemma merged_eq bs1 sz bs2 :
  tot bs1 - tot (left_rest bs1) + sz + (tot bs2 - tot (right_rest bs2)) = merged bs1 sz bs2.
Proof. reflexivity. Qed.

(** The merged block becomes a hole of the index. *)
Lemma mark_hole_ok h m b bs1 sz bs2 ix : heap_mid h m b bs1 sz bs2 ix ->
  last_hole bs1 = false -> first_hole bs2 = false ->
  idx h + 4 * (idxused h + 1) + 8 <= start_addr h ->
  let p := start_addr h + tot bs1 in
  exists m', (set_is_hole p 1;; heapIdx_insert p) (HState h m b)
             = Ok (tt, HState (set_idxused (idxused h + 1) h) m' b) /\
    heap_wf (set_idxused (idxused h + 1) h) m' b (bs1 ++ Blk sz true :: bs2) (ins (p, sz) ix) /\
    (forall x, start_addr h <= x -> x < p \/ p + sz <= x -> m' x = m x).
Proof.
  intros [F Hend Hb1 Hm Hb2 Hh Ha1 Ha2] Hl Hf Hroom p. pose proof F as []. fold p in Hm, Hb2, Hh.
  pose proof (blocks_tot_nonneg _ _ _ Hb1). pose proof (blocks_tot_nonneg _ _ _ Hb2). pose proof Hm as [].
  assert (Hp : start_addr h <= p /\ end_addr h = p + sz + tot bs2) by (unfold p; lia).
  set (m3 := wr32 m (p + 4) 1).
  assert (X3 : forall x, x < p + 4 \/ p + 8 <= x -> m3 x = m x) by (intros; apply wr32_ne; lia).
  assert (F3 : heap_frame h m3 b ix) by (eapply frame_write; [exact F|]; intros; apply X3; lia).
  assert (Hix : forall q s, (q, s) ∈ ix -> start_addr h <= q /\ q + 12 <= end_addr h /\
    (q + 12 <= p \/ p + sz <= q) /\ rd32 m (q + 8) = s).
  { intros q s Hq. rewrite Hh in Hq. apply elem_of_app in Hq as [Hq|Hq];
      apply (sel_bounds m) in Hq as (? & ? & ? & [[_ Es _ _ _] _]); try done;
      cbn [bsz] in *; unfold p in *; lia. }
  destruct (frame_insert _ m3 b ix p sz F3 Hroom) as (m4 & E4 & F4 & K4).
  { intros q s [[= -> ->]|Hq]%elem_of_cons.
    - split; [lia|]. split; [lia|]. unfold m3. rdw. done.
    - destruct (Hix q s Hq) as (? & ? & ? & <-). split; [lia|]. split; [lia|].
      apply rd32_ext. intros x ?. apply X3. lia. }
  { intros ([q s] & Eq & Hq)%list_elem_of_fmap. simpl in Eq. subst q.
    destruct (Hix p s Hq) as (? & ? & ? & ?). lia. }
  assert (Xo : forall x, start_addr h <= x -> x < p + 4 \/ p + 8 <= x -> m4 x = m x).
  { intros x ? ?. rewrite K4 by lia. by apply X3. }
  exists m4. split; [|split; [|intros x ? ?; apply Xo; lia]].
  - unfold set_is_hole, off_is_hole. rewrite w32_small by (unfold u32; lia).
    rewrite (bind_Ok _ _ _ tt (HState h m3 b)); [exact E4|]. eapply st_ok; [exact wf_acc | lia | lia].
  - apply (heap_wf_replace h _ m m4 b bs1 sz [Blk sz true] bs2);
      cbn [start_addr end_addr set_idxused tot bsz app]; fold p; try done; try lia.
    + intros x ? ?. apply Xo; lia.
    + cbn [blocks bsz]. split; [|done]. split.
      * cbn [bsz]. split; try done; rewrite (rd32_ext m m4); try done; intros x ?; apply Xo; lia.
      * cbn [bhole]. rewrite (rd32_ext m3 m4) by (intros; apply K4; lia). unfold m3. by rdw.
    + rewrite ins_perm, Hh. cbn [sel bhole bsz Bool.eqb app]. apply Permutation_middle.
    + apply no_adj_app. split; [done|]. rewrite Hl. split; [|done].
      cbn. split; [|done]. intros _. by destruct bs2.
Qed.

Lemma free_block_ok h m b bs1 sz bs2 ix :
  heap_wf h m b (bs1 ++ Blk sz false :: bs2) ix -> right_ok h m b bs2 ->
  idx h + 4 * (idxused h + 1) + 8 <= start_addr h ->
  let header := start_addr h + tot bs1 in
  let header' := start_addr h + tot (left_rest bs1) in
  let sz' := merged bs1 sz bs2 in
  exists n m' ix',
    free_block header (header + sz - 8) (HState h m b)
    = Ok ((header', header' + sz' - 8), HState (set_idxused n h) m' b) /\
    heap_wf (set_idxused n h) m' b (left_rest bs1 ++ Blk sz' true :: right_rest bs2) ix' /\
    (forall x, start_addr h <= x -> x < header' \/ header' + sz' <= x -> m' x = m x).
Proof.
  intros W Hok Hroom header header' sz'. pose proof (wf_to_mid _ _ _ _ _ _ _ W) as W0.
  destruct (unify_left_ok _ _ _ _ _ _ _ W0) as (n1 & m1 & ix1 & E1 & W1 & Hn1 & X1).
  pose proof (blocks_tot_nonneg _ _ _ (hm_blocks2 _ _ _ _ _ _ _ W0)).
  pose proof (right_rest_tot _ _ _ (hm_blocks2 _ _ _ _ _ _ _ W0)).
  assert (Hok1 : right_ok (set_idxused n1 h) m1 b bs2).
  { destruct Hok as [?|(? & ? & Hmg)]; [by left | right]. cbn. split; [done|]. split; [done|].
    rewrite (rd32_ext m m1); [done|]. intros x ?. apply X1; pose proof (hm_end _ _ _ _ _ _ _ W0);
      pose proof (wf_start _ _ _ _ (wf_frame _ _ _ _ _ W)); lia. }
  destruct (unify_right_ok _ _ _ _ _ _ _ W1 Hok1) as (n2 & m2 & ix2 & E2 & W2 & Hn2 & X2).
  rewrite merged_eq in E2, W2, X2.
  replace (start_addr (set_idxused n1 h) + tot (left_rest bs1) + (tot bs1 - tot (left_rest bs1) + sz) - 8)
    with (header + sz - 8) in E2 by (unfold header; cbn; lia).
  cbn [start_addr set_idxused idxused] in *. rewrite set_idxused_twice in E2, W2.
  destruct (left_rest_last bs1) as [Hl _]; [by destruct W0|].
  destruct (right_rest_first bs2) as [Hf _]; [by destruct W0|].
  destruct (mark_hole_ok _ _ _ _ _ _ _ W2 Hl Hf) as (m3 & E3 & W3 & X3); [cbn; lia|].
  cbn [start_addr set_idxused idxused] in *. rewrite set_idxused_twice in E3, W3.
  exists (n2 + 1), m3, (ins (header', sz') ix2). split; [|split; [exact W3|]].
  - unfold free_block. rewrite (bind_Ok _ _ _ _ _ E1), (bind_Ok _ _ _ _ _ E2).
    apply bind_inv in E3 as ([] & s1 & E3 & E4). rewrite (bind_Ok _ _ _ _ _ E3), (bind_Ok _ _ _ _ _ E4).
    reflexivity.
  - intros x ? ?. rewrite X3, X2 by (unfold header', sz' in *; lia).
    apply X1; unfold header', header, sz', merged in *; lia.
Qed.

(** ** Giving memory back *)

Lemma contract_quantity_ok h l n : forall q,
  u32 (end_addr h - start_addr h) -> u32 l -> l <= end_addr h - start_addr h ->
  0 <= q -> q mod 4096 = 0 -> q < l -> l < q + 4096 * Z.of_nat n ->
  let r := contract_quantity h l q n in
  q <= r < l /\ r mod 4096 = 0 /\
  (l - r <= 0x1000 \/ end_addr h - start_addr h - r <= HEAP_MIN_SIZE).
Proof.
  unfold u32. induction n as [|n IH]; intros q He Hl Hle Hq Haq Hlt Hn; cbn [contract_quantity]; [lia|].
  unfold HEAP_MIN_SIZE in *. rewrite (w32_small (end_addr h - start_addr h)) by done.
  rewrite (w32_small (end_addr h - start_addr h - q)), (w32_small (l - q)) by (unfold u32; lia).
  destruct (Z.ltb_spec 0x4000 (end_addr h - start_addr h - q)); cbn [andb]; [|lia].
  destruct (Z.ltb_spec 0x1000 (l - q)); [|lia].
  rewrite w32_small by (unfold u32; lia).
  destruct (IH (q + 0x1000)) as (? & ? & ?); try done; try lia.
  rewrite Z.add_mod, Haq by lia. reflexivity.
Qed.

End free.

Section contract.
Context {B : Type} `{BackingLaws B}.
Implicit Types (h : heap) (m : mem) (b : B) (ix : list (Z * Z)).

(** The index operations on a heap that is only accessible up to [E], below
    the [end_addr] still recorded. *)
Lemma frame_remove_lo h m b ix e sz E : heap_frame (set_end_addr E h) m b ix -> (e, sz) ∈ ix ->
  exists m', heapIdx_remove e (HState h m b)
             = Ok (tt, HState (set_idxused (idxused h - 1) h) m' b) /\
    heap_frame (set_end_addr E (set_idxused (idxused h - 1) h)) m' b (rem e ix) /\
    (forall x, start_addr h - 8 <= x -> m' x = m x).
Proof.
  intros F Hin. destruct (frame_remove _ _ _ _ _ _ F Hin) as (m' & Ex & F' & K).
  destruct F. cbn [idx idxused start_addr end_addr max_end set_end_addr] in *.
  assert (length ix <> 0%nat) by (destruct ix; [set_solver | done]).
  destruct (heapIdx_remove_ok h m b E e sz ix) as (m2 & Ex2 & Hix & Hl & Hx); try done; try lia.
  exists m2. split; [exact Ex2|]. split; [|intros x ?; apply Hx; lia].
  split; cbn; try done; try lia.
  - by apply rem_sorted.
  - rewrite (rd32_ext m m2) by (intros; apply Hx; lia). done.
Qed.

Lemma frame_insert_lo h m b ix e es E : heap_frame (set_end_addr E h) m b ix ->
  idx h + 4 * (idxused h + 1) + 8 <= start_addr h ->
  sizes_at m (start_addr h) E ((e, es) :: ix) -> e ∉ ix.*1 ->
  exists m', heapIdx_insert e (HState h m b)
             = Ok (tt, HState (set_idxused (idxused h + 1) h) m' b) /\
    heap_frame (set_end_addr E (set_idxused (idxused h + 1) h)) m' b (ins (e, es) ix) /\
    (forall x, start_addr h - 8 <= x -> m' x = m x).
Proof.
  intros [] Hr Hs Hne. cbn [idx idxused start_addr end_addr max_end set_end_addr] in *.
  destruct (heapIdx_insert_ok h m b E e es ix) as (m' & Ex & Hix & Hx); try done; try lia.
  exists m'. split; [exact Ex|]. split; [|intros x ?; apply Hx; lia].
  split; cbn; try done; try lia.
  - rewrite ins_length. lia.
  - by apply ins_sorted.
  - rewrite (rd32_ext m m') by (intros; apply Hx; lia). done.
Qed.

(** The last hole is cut by [q] bytes; the backing store has shrunk. *)
Lemma cut_last_ok h m b b1 bs0 l ix q :
  heap_wf h m b (bs0 ++ [Blk l true]) ix -> 0 < q -> q mod 4096 = 0 -> 20 <= l - q ->
  acc b1 (idx h) (end_addr h - q) ->
  let p := start_addr h + tot bs0 in
  exists m' ix', cut_last p (end_addr h - 8) q (HState h m b1) = Ok (tt, HState h m' b1) /\
    heap_wf (set_end_addr (end_addr h - q) h) m' b1 (bs0 ++ [Blk (l - q) true]) ix' /\
    (forall x, start_addr h <= x < p -> m' x = m x).
Proof.
  intros W Hq Haq Hl Ha p.
  assert (Hin : (p, l) ∈ ix) by (rewrite (wf_holes _ _ _ _ _ W), sel_app; set_solver).
  pose proof (wf_frame _ _ _ _ _ W) as F. pose proof F as [].
  pose proof (wf_blocks _ _ _ _ _ W) as (Hb1 & [[X1 X2 X3 X4 X5] X6] & _)%blocks_app.
  pose proof (blocks_tot_nonneg _ _ _ Hb1). pose proof (wf_end _ _ _ _ _ W) as Hend.
  rewrite tot_app in Hend. cbn [tot bsz bhole] in *. fold p in X1, X2, X3, X4, X6.
  set (E := end_addr h - q). assert (HE : E = p + (l - q)) by (unfold E, p; lia).
  assert (Hp : start_addr h <= p) by (unfold p; lia).
  assert (F0 : heap_frame (set_end_addr E h) m b1 ix).
  { split; cbn; try done; try lia. unfold E. rewrite Zminus_mod, wf_align, Haq. done. }
  destruct (frame_remove_lo _ _ _ _ _ _ _ F0 Hin) as (m2 & E2 & F2 & K2).
  assert (R2 : forall a, start_addr h <= a -> rd32 m2 a = rd32 m a).
  { intros a ?. apply rd32_ext. intros; apply K2; lia. }
  set (m3 := wr32 (wr32 (wr32 m2 (p + 8) (l - q)) (end_addr h - 8 - q) HEAP_MAGIC)
               (end_addr h - 8 - q + 4) p).
  assert (X3o : forall x, x < p + 8 \/ E <= x -> m3 x = m2 x).
  { intros x ?. unfold m3. rewrite !wr32_ne by lia. reflexivity. }
  assert (F3 : heap_frame (set_end_addr E (set_idxused (idxused h - 1) h)) m3 b1 (rem p ix)).
  { eapply frame_write; [exact F2|]. cbn. intros x ?. apply X3o. lia. }
  assert (Hrm : rem p ix ≡ₚ holes (start_addr h) bs0).
  { apply (rem_perm_cons p l).
    - rewrite (wf_holes _ _ _ _ _ W). eapply sel_NoDup, (wf_blocks _ _ _ _ _ W).
    - rewrite (wf_holes _ _ _ _ _ W), sel_app. cbn. fold p. symmetry. apply Permutation_cons_append. }
  assert (Hix : forall r s, (r, s) ∈ rem p ix -> start_addr h <= r /\ r + 12 <= p /\ rd32 m (r + 8) = s).
  { intros r s Hr. rewrite Hrm in Hr. apply (sel_bounds m) in Hr as (? & ? & ? & [[_ Es _ _ _] _]);
      [cbn [bsz] in *; lia | done]. }
  destruct (frame_insert_lo _ m3 b1 (rem p ix) p (l - q) E F3) as (m4 & E4 & F4 & K4);
    cbn [idx idxused start_addr set_idxused] in *; [lia | | |].
  { intros r s [[= -> ->]|Hr]%elem_of_cons.
    - split; [lia|]. split; [lia|]. unfold m3. rdw. lia.
    - destruct (Hix r s Hr) as (? & ? & <-). split; [lia|]. split; [lia|].
      apply rd32_ext. intros x ?. rewrite X3o, K2 by lia. done. }
  { intros ([r s] & Er & Hr)%list_elem_of_fmap. simpl in Er. subst r.
    destruct (Hix p s Hr) as (? & ? & ?). lia. }
  rewrite Z.sub_add, set_idxused_twice, set_idxused_id in E4, F4.
  assert (Xo : forall x, start_addr h <= x -> x < p \/ E <= x -> m4 x = m x).
  { intros x ? ?. rewrite K4, X3o, K2 by lia. done. }
  assert (R4 : forall a, start_addr h <= a -> rd32 m4 a = rd32 m3 a).
  { intros a ?. apply rd32_ext. intros; apply K4; lia. }
  exists m4, (ins (p, l - q) (rem p ix)). split; [|split; [|intros x ?; apply Xo; lia]].
  - cut (wp (cut_last p (end_addr h - 8) q) (HState h m b1) (fun _ s' => s' = HState h m4 b1)).
    { intros ([] & s' & Ex & ->)%wp_Ok. done. }
    unfold cut_last. hsteps. eapply wp_eq; [exact E2|]. hsteps. rewrite R2, X2 by lia. hsteps.
    fold m3. eapply wp_eq; [exact E4|]. done.
  - apply (heap_wf_replace h _ m m4 b1 bs0 (l - q) [Blk (l - q) true] []);
      cbn [start_addr end_addr set_end_addr tot bsz app blocks]; fold p E; try done; try lia.
    + intros x ? ?. apply Xo; lia.
    + split; [|done]. split; [split|]; cbn [bsz bhole]; rewrite ?R4 by lia;
        unfold m3; rdw; rewrite ?R2 by lia; done || lia.
    + rewrite ins_perm, Hrm. apply Permutation_cons_append.
    + pose proof (wf_noadj _ _ _ _ _ W) as Hadj. rewrite !no_adj_app in *. done.
Qed.

(** [heap_contract]: nothing changes, or the last hole loses [q] bytes; what
    is left in [end_addr] is what the backing store answered. *)
Lemma heap_contract_ok h m b bs0 l ix lim :
  heap_wf h m b (bs0 ++ [Blk l true]) ix -> backed b (idx h) (end_addr h) lim ->
  let q := contract_quantity h l 0 (Z.to_nat (l / 0x1000 + 1)) in
  q = 0 \/ 20 <= l - q ->
  wp heap_contract (HState h m b) (fun _ st => exists h' m' b', st = HState h' m' b' /\
    ((h' = h /\ m' = m /\ heap_wf h m b' (bs0 ++ [Blk l true]) ix /\
      (q = 0 /\ b' = b \/ exists r, shrink_pre (idx h) (end_addr h - q) (end_addr h) b = Ok (r, b') /\ r <> 0) /\
      backed b' (idx h) (end_addr h) lim) \/
     (exists b1 e ix', q <> 0 /\ q mod 4096 = 0 /\ 0 < q < l /\ backed b' (idx h) (end_addr h - q) lim /\
        shrink_pre (idx h) (end_addr h - q) (end_addr h) b = Ok (0, b1) /\
        shrink_post (end_addr h - q) (end_addr h) b1 = Ok (e, b') /\ h' = set_end_addr e h /\
        heap_wf (set_end_addr (end_addr h - q) h) m' b' (bs0 ++ [Blk (l - q) true]) ix' /\
        (forall x, start_addr h <= x < start_addr h + tot bs0 -> m' x = m x)))).
Proof.
  intros W Hbk q Hq. pose proof (wf_frame _ _ _ _ _ W) as F. pose proof F as [].
  pose proof (wf_blocks _ _ _ _ _ W) as (Hb1 & [[X1 X2 X3 X4 X5] X6] & _)%blocks_app.
  pose proof (blocks_tot_nonneg _ _ _ Hb1). pose proof (wf_end _ _ _ _ _ W) as Hend.
  rewrite tot_app in Hend. cbn [tot bsz bhole] in *. set (p := start_addr h + tot bs0) in *.
  destruct (contract_quantity_ok h l (Z.to_nat (l / 0x1000 + 1)) 0) as (Hqb & Haq & _);
    try (unfold u32; lia); try done.
  { pose proof (Z.div_mod l 0x1000). pose proof (Z.mod_pos_bound l 0x1000).
    pose proof (Z.div_pos l 0x1000). lia. }
  fold q in Hqb, Haq. assert (Hep : end_addr h - 8 = p + l - 8 /\ p + l = end_addr h) by (unfold p; lia).
  unfold heap_contract. hsteps.
  replace (end_addr h - 8 + 4) with (p + l - 4) by lia. rewrite X4. hsteps. rewrite X6. cbn [Z.eqb].
  hsteps. rewrite X2. fold q. destruct (Z.eqb_spec q 0) as [Eq|Hne].
  - hsteps. exists h, m, b. split; [done|]. left. repeat (split; [done|]). split; [by left | done].
  - hsteps. destruct (shrink_pre_law (idx h) (end_addr h - q) (end_addr h) lim b)
      as (r & b1 & E1 & Ha1 & Hr); try done; try lia.
    eapply wp_eq; [unfold zoom; cbn [bk]; rewrite E1; reflexivity|]. cbn [set_bk hp hm].
    destruct (Z.eqb_spec r 0) as [->|Hrne]; cbn [negb].
    + destruct (cut_last_ok h m b b1 bs0 l ix q W) as (m' & ix' & E2 & W2 & Xo); try done; try lia.
      destruct (shrink_post_law (idx h) (end_addr h - q) (end_addr h) lim b b1) as (e & b2 & E3 & Ha2);
        try done; try lia; [rewrite Zminus_mod, wf_align, Haq; done|].
      hsteps. eapply wp_eq; [exact E2|]. hsteps.
      eapply wp_eq; [unfold zoom; cbn [bk]; rewrite E3; reflexivity|]. cbn [set_bk hp hm]. hsteps.
      exists (set_end_addr e h), m', b2. split; [done|]. right. exists b1, e, ix'. repeat (split; [done || lia|]). split; [|exact Xo].
      destruct W2 as [F2 Y1 Y2 Y3 Y4 Y5]. split; try done. apply frame_bk with b1; [done|]. by eapply backed_acc.
    + hsteps. exists h, m, b1. split; [done|]. left. split; [done|]. split; [done|].
      split; [|split; [right; by exists r | by apply Hr]].
      destruct W as [F0 Y1 Y2 Y3 Y4 Y5]. split; try done. apply frame_bk with b; [done|]. by eapply backed_acc, Hr.
Qed.

End contract.

(** ** [heap_free] as a whole *)

(** What a call that frees [(p, sz)] leaves. *)
Record freed {B} `{HeapBacking B} (p sz : Z) (h : heap) (m : mem) (u : list (Z * Z))
    (h' : heap) (m' : mem) (b' : B) (bs' : list blk) (ix' : list (Z * Z)) : Prop := {
  fr_wf : heap_wf h' m' b' bs' ix';
  fr_limits : same_limits h h';
  fr_used : u ≡ₚ (p, sz) :: used (start_addr h) bs';
  fr_same : same_used (used (start_addr h) bs') m m'
}.

(** The hole is at the end of the heap and large enough for [heap_contract]
    to be called. *)
Definition contracts (h : heap) (bs1 : list blk) (sz : Z) (bs2 : list blk) : bool :=
  match right_rest bs2 with
  | [] => (0x2000 <=? merged bs1 sz bs2) && (HEAP_MIN_SIZE <? end_addr h - start_addr h)
  | _ => false
  end.

Section whole.
Context {B : Type} `{BackingLaws B}.
Implicit Types (h : heap) (m : mem) (b : B) (ix : list (Z * Z)).

Lemma merge_used a bs1 sz bs2 :
  used a (left_rest bs1 ++ Blk (merged bs1 sz bs2) true :: right_rest bs2)
  = used a bs1 ++ used (a + tot bs1 + sz) bs2.
Proof.
  rewrite sel_app, left_rest_used. cbn [sel bhole bsz Bool.eqb]. f_equal.
  rewrite <- (right_rest_used (a + tot bs1 + sz) bs2). f_equal. unfold merged. lia.
Qed.

Lemma merge_tot bs1 sz bs2 :
  tot (left_rest bs1 ++ Blk (merged bs1 sz bs2) true :: right_rest bs2) = tot bs1 + sz + tot bs2.
Proof. rewrite tot_app. cbn [tot bsz]. unfold merged. lia. Qed.

Lemma blocks_nil m a bs : blocks m a bs -> tot bs <= 0 -> bs = [].
Proof. intros Hb%blocks_tot ?. destruct bs; [done|]. cbn [length] in Hb. lia. Qed.

(** Bytes outside the merged block are kept, so the blocks in use are. *)
Lemma same_used_beside m m' a bs1 l bs2 lo hi :
  blocks m' a (bs1 ++ Blk l true :: bs2) -> lo = a + tot bs1 -> hi = lo + l ->
  (forall x, a <= x < a + tot (bs1 ++ Blk l true :: bs2) -> x < lo \/ hi <= x -> m' x = m x) ->
  same_used (used a (bs1 ++ Blk l true :: bs2)) m m'.
Proof.
  intros Hb -> -> Hx q s Hin x Hr.
  pose proof (sel_bounds _ _ _ _ _ _ Hb Hin) as (? & ? & _).
  assert (Hh : (a + tot bs1, l) ∈ holes a (bs1 ++ Blk l true :: bs2)).
  { rewrite sel_app. cbn. set_solver. }
  destruct (sel_disjoint _ _ _ _ _ _ _ _ _ Hb Hin Hh) as [?|?]; [congruence|]. apply Hx; lia.
Qed.

(** The checks of [heap_free] let a live block pass. *)
Lemma heap_free_reaches h m b bs1 sz bs2 ix : heap_wf h m b (bs1 ++ Blk sz false :: bs2) ix ->
  let p := start_addr h + tot bs1 in
  exists k, heap_free (p + 12) (HState h m b) = (free_block p (p + sz - 8) ≫= k) (HState h m b).
Proof.
  intros W p. pose proof (wf_to_mid _ _ _ _ _ _ _ W) as [F Hend Hb1 [M1 M2 M3 M4 M5] Hb2 Hh Hn1 Hn2].
  pose proof F as []. pose proof (blocks_tot_nonneg _ _ _ Hb1). pose proof (blocks_tot_nonneg _ _ _ Hb2).
  fold p in M1, M2, M3, M4, Hb2.
  assert (L : forall a, start_addr h <= a -> a + 4 <= end_addr h -> ld a (HState h m b) = Ok (rd32 m a, HState h m b)).
  { intros a ? ?. by apply (ld_ok _ _ _ _ (idx h) (end_addr h)); [|lia|]. }
  eexists. unfold heap_free. rewrite (proj2 (Z.eqb_neq (p + 12) 0)) by lia.
  rewrite (bind_Ok _ _ _ _ _ eq_refl). cbn [hp].
  rewrite (proj2 (Z.ltb_ge (p + 12) (start_addr h))), (proj2 (Z.ltb_ge (end_addr h) (p + 12))) by lia. cbn [orb].
  unfold get_size, get_magic, off_size, sizeof_header, sizeof_footer.
  rewrite (w32_small (p + 12 - 12)) by (unfold u32; lia). replace (p + 12 - 12) with p by lia.
  rewrite (w32_small (p + 8)) by (unfold u32; lia). rewrite (bind_Ok _ _ _ _ _ (L (p + 8) ltac:(lia) ltac:(lia))), M2.
  rewrite (bind_Ok _ _ _ _ _ (L p ltac:(lia) ltac:(lia))), M1, Z.eqb_refl. cbn [negb].
  rewrite (w32_small (p + sz)), (w32_small (p + sz - 8)) by (unfold u32; lia).
  rewrite (bind_Ok _ _ _ false (HState h m b)); [reflexivity|].
  by rewrite (bind_Ok _ _ _ _ _ (L (p + sz - 8) ltac:(lia) ltac:(lia))), M3, Z.eqb_refl.
Qed.

(** The last block has no block after it, but [heap_free] looks for one. *)
Lemma heap_free_last_faults h m b bs1 sz ix : heap_wf h m b (bs1 ++ [Blk sz false]) ix ->
  usable4 b (end_addr h) = false ->
  heap_free (start_addr h + tot bs1 + 12) (HState h m b) = Fault (BadAccess (end_addr h)).
Proof.
  intros W Hno. destruct (heap_free_reaches _ _ _ _ _ _ _ W) as [k ->]. pose proof (wf_to_mid _ _ _ _ _ _ _ W) as W0.
  destruct (unify_left_ok _ _ _ _ _ _ _ W0) as (n & m' & ix' & E & _ & _ & _).
  pose proof (hm_end _ _ _ _ _ _ _ W0) as He. pose proof (wf_frame _ _ _ _ _ W) as []. cbn [tot] in He.
  unfold free_block. apply bind_Fault. rewrite (bind_Ok _ _ _ _ _ E). apply bind_Fault.
  unfold unify_right, get_magic, sizeof_footer. apply bind_Fault.
  rewrite w32_small by (unfold u32; lia).
  replace (start_addr h + tot bs1 + sz - 8 + 8) with (end_addr h) by lia.
  unfold ld. cbn [bk]. by rewrite Hno.
Qed.

(** [heap_free] up to the decision to contract. *)
Lemma heap_free_merges h m b bs1 sz bs2 ix :
  heap_wf h m b (bs1 ++ Blk sz false :: bs2) ix -> right_ok h m b bs2 ->
  idx h + 4 * (idxused h + 1) + 8 <= start_addr h ->
  let p := start_addr h + tot bs1 in
  let bs' := left_rest bs1 ++ Blk (merged bs1 sz bs2) true :: right_rest bs2 in
  exists n m' ix',
    (forall Q, wp (if contracts h bs1 sz bs2 then heap_contract else mret tt)
                 (HState (set_idxused n h) m' b) Q ->
               wp (heap_free (p + 12)) (HState h m b) Q) /\
    freed p sz h m (used (start_addr h) (bs1 ++ Blk sz false :: bs2)) (set_idxused n h) m' b bs' ix'.
Proof.
  intros W Hok Hroom p bs'.
  destruct (free_block_ok _ _ _ _ _ _ _ W Hok Hroom) as (n & m' & ix' & E & W' & Hx).
  pose proof (wf_to_mid _ _ _ _ _ _ _ W) as [F Hend Hb1 [M1 M2 M3 M4 M5] Hb2 Hh Hn1 Hn2].
  pose proof F as []. pose proof (blocks_tot_nonneg _ _ _ Hb1). pose proof (blocks_tot_nonneg _ _ _ Hb2).
  fold p in E, M1, M2, M3, M4, Hb2. exists n, m', ix'. split.
  - intros Q HQ. unfold heap_free. rewrite (proj2 (Z.eqb_neq (p + 12) 0)) by lia. hsteps.
    rewrite (proj2 (Z.ltb_ge (p + 12) (start_addr h))), (proj2 (Z.ltb_ge (end_addr h) (p + 12))) by lia.
    cbn [orb]. hsteps. replace (p + 12 - 12) with p by lia. rewrite M2. hsteps.
    rewrite M1, Z.eqb_refl. cbn [negb]. hsteps. rewrite M3, Z.eqb_refl. cbn [negb].
    hsteps. eapply wp_eq; [exact E|]. pose proof (wf_blocks _ _ _ _ _ W') as Hb'.
    apply blocks_app in Hb' as (Hb4 & [[_ X2 _ _ X5] _] & Hb3). cbn [bsz] in X2, X5, Hb3.
    pose proof (blocks_tot_nonneg _ _ _ Hb3). pose proof (blocks_tot_nonneg _ _ _ Hb4).
    pose proof (wf_end _ _ _ _ _ W') as Hend'.
    rewrite tot_app in Hend'. cbn [end_addr start_addr set_idxused tot bsz] in *.
    hsteps. cbn [end_addr start_addr set_idxused]. hsteps.
    unfold contracts in HQ. destruct (Z.eqb_spec
      (start_addr h + tot (left_rest bs1) + merged bs1 sz bs2 - 8) (end_addr h - 8)) as [Ee|Ee].
    + rewrite (blocks_nil _ _ _ Hb3) in HQ by lia. hsteps. rewrite X2. exact HQ.
    + destruct (right_rest bs2); [cbn in *; lia|]. exact HQ.
  - split; [exact W' | by split | |].
    + rewrite sel_app. cbn [sel bhole bsz Bool.eqb]. subst bs'. rewrite merge_used. fold p.
      symmetry. apply Permutation_middle.
    + eapply same_used_beside; [apply (wf_blocks _ _ _ _ _ W') | done | done |].
      cbn [start_addr set_idxused]. intros x ?. apply Hx. lia.
Qed.
End whole.
