(* ===== verification/HeapSpec.v ===== *)
(** * What the heap promises

    The contracts of [heap_create], [heap_alloc], [heap_free] and of the
    user library's [malloc], stated without the index: a set of live blocks
    whose bytes only their owners change.  The last theorems are about the
    places where the code falls short of that contract. *)

From S2P Require Import Prelude Memory Heap HeapIndex HeapBlocks HeapOps HeapAlloc HeapFree.

(** The heap of state [s] is well formed and [u] are its live blocks, as
    (header address, size) pairs. *)
Definition heap_live {B} `{HeapBacking B} (s : hstate B) (u : list (Z * Z)) : Prop :=
  exists bs ix, heap_wf (hp s) (hm s) (bk s) bs ix /\ used (start_addr (hp s)) bs = u.

(** The index can take one more hole. *)
Definition index_room (h : heap) : Prop := idx h + 4 * (idxused h + 1) + 8 <= start_addr h.

(** The payload [[r, r + sz)] of a fresh block: inside the heap, and apart
    from every live block. *)
Definition fresh_block {B} `{HeapBacking B} (s : hstate B) (u : list (Z * Z)) (r sz : Z) : Prop :=
  start_addr (hp s) + 12 <= r /\ r + sz + 8 <= end_addr (hp s) /\
  (forall x, r <= x < r + sz -> accessible (bk s) x = true) /\
  (forall a s', (a, s') ∈ u -> r + sz + 8 <= a \/ a + s' <= r - 12).

(** Memory can be had up to [lim], and the two expansions an allocation of
    [sz] bytes may need stay below it. *)
Definition growable {B} `{BackingLaws B} (s : hstate B) (sz lim : Z) : Prop :=
  backed (bk s) (idx (hp s)) (end_addr (hp s)) lim /\
  (max_end (hp s) <= lim \/ end_addr (hp s) + 2 * quantum sz <= lim).

(** ** A sample heap, for the examples: two live blocks and a hole *)

Definition sample_heap : heap := Heap 8192 1 10240 12288 65536.

Definition sample_writes : list (Z * Z) :=
  [ (8192, 10540);
    (10240, HEAP_MAGIC); (10248, 100); (10332, HEAP_MAGIC); (10336, 10240);
    (10340, HEAP_MAGIC); (10348, 200); (10532, HEAP_MAGIC); (10536, 10340);
    (10540, HEAP_MAGIC); (10544, 1); (10548, 1748); (12280, HEAP_MAGIC); (12284, 10540) ].

Definition sample_mem : mem := foldr (fun '(a, v) m => wr32 m a v) (fun _ => 0) sample_writes.

Definition sample_blocks : list blk := [Blk 100 false; Blk 200 false; Blk 1748 true].
Definition sample_ix : list (Z * Z) := [(10540, 1748)].

Definition sample_kpages : kpages := KPages {[ 2; 3 ]} (fun _ _ => 0) 0.
Definition sample_usegment : usegment := USegment (Some (8192, 12288)) (fun _ _ => 0) 0.

(** A heap that ends with a live block of three pages, before it a hole. *)
Definition tall_heap : heap := Heap 8192 1 12288 45056 65536.
Definition tall_writes : list (Z * Z) :=
  [ (8192, 12288);
    (12288, HEAP_MAGIC); (12292, 1); (12296, 16384); (28664, HEAP_MAGIC); (28668, 12288);
    (28672, HEAP_MAGIC); (28680, 16384); (45048, HEAP_MAGIC); (45052, 28672) ].
Definition tall_mem : mem := foldr (fun '(a, v) m => wr32 m a v) (fun _ => 0) tall_writes.
Definition tall_blocks : list blk := [Blk 16384 true; Blk 16384 false].
Definition tall_ix : list (Z * Z) := [(12288, 16384)].
(** The segment and the pages go one page beyond the heap. *)
Definition tall_usegment : usegment := USegment (Some (8192, 49152)) (fun _ _ => 0) 0.
Definition tall_kpages : kpages := KPages {[ 2; 3; 4; 5; 6; 7; 8; 9; 10; 11 ]} (fun _ _ => 0) 0.

(** ** Lemmas *)

(** Checks the invariant of a concrete heap with one hole. *)
Ltac concrete_heap Ha :=
  split;
  [ split; [by vm_compute | by vm_compute | reflexivity | by vm_compute | by split; vm_compute
           | reflexivity | exact Ha | | by repeat constructor | by vm_compute];
    intros [|i] p sz; [intros [= <- <-]; reflexivity | done]
  | reflexivity
  | repeat split; by vm_compute
  | reflexivity
  | repeat split; discriminate
  | discriminate ].

Lemma sample_wf {B} `{HeapBacking B} (b : B) : acc b 8192 12288 ->
  heap_wf sample_heap sample_mem b sample_blocks sample_ix.
Proof. intros Ha. concrete_heap Ha. Qed.

Lemma tall_wf {B} `{HeapBacking B} (b : B) : acc b 8192 45056 ->
  heap_wf tall_heap tall_mem b tall_blocks tall_ix.
Proof. intros Ha. concrete_heap Ha. Qed.

Lemma sample_acc_k : acc sample_kpages 8192 12288.
Proof.
  intros x Hx. apply bool_decide_true. cbn [kp_mapped sample_kpages].
  assert (x / 0x1000 = 2) as -> by (symmetry; apply (Z.div_unique x 4096 2 (x - 8192)); lia).
  set_solver.
Qed.

Lemma sample_acc_u : acc sample_usegment 8192 12288.
Proof. intros x Hx. cbn. lia. Qed.

Lemma tall_acc_k : acc tall_kpages 8192 49152.
Proof.
  intros x Hx. apply bool_decide_true. cbn [kp_mapped tall_kpages].
  assert (2 <= x / 0x1000 < 12) by (Z.div_mod_to_equations; lia).
  assert (x / 0x1000 ∈ [2; 3; 4; 5; 6; 7; 8; 9; 10; 11]) as Hin; [|set_solver].
  rewrite !elem_of_cons, elem_of_nil. lia.
Qed.

Lemma tall_acc_u : acc tall_usegment 8192 49152.
Proof. intros x Hx. cbn. lia. Qed.

Lemma live_fresh {B} `{HeapBacking B} (s : hstate B) u r sz sz' bs ix :
  heap_wf (hp s) (hm s) (bk s) bs ix -> used (start_addr (hp s)) bs ≡ₚ (r - 12, sz') :: u ->
  sz + 20 <= sz' -> fresh_block s u r sz.
Proof.
  intros W Hu Hsz. pose proof (wf_blocks _ _ _ _ _ W) as Hb.
  assert (Hin : (r - 12, sz') ∈ used (start_addr (hp s)) bs) by (rewrite Hu; set_solver).
  pose proof (sel_bounds _ _ _ _ _ _ Hb Hin) as (? & ? & _).
  pose proof (wf_end _ _ _ _ _ W). pose proof (wf_frame _ _ _ _ _ W) as [].
  split; [lia|]. split; [lia|]. split; [intros x ?; apply wf_acc; lia|].
  intros a s' Ha.
  assert (Hin' : (a, s') ∈ used (start_addr (hp s)) bs) by (rewrite Hu; set_solver).
  destruct (sel_disjoint _ _ _ _ _ _ _ _ _ Hb Hin Hin') as [[= <- <-]|?]; [|lia].
  pose proof (sel_NoDup _ false _ _ Hb) as Hnd. rewrite Hu in Hnd. cbn in Hnd.
  apply NoDup_cons in Hnd as [Hn _]. destruct Hn. by apply (list_elem_of_fmap_2 fst) in Ha.
Qed.

Lemma two_expansions h m {B} `{HeapBacking B} (b : B) bs ix sz lim : heap_wf h m b bs ix -> 0 <= sz -> sz + 4096 < W32 ->
  max_end h <= lim \/ end_addr h + 2 * quantum sz <= lim -> can_expand sz h bs lim.
Proof.
  intros W H1 H2 [Hl|Hl]; [by left | right]. exists 2%nat.
  destruct (alloc_quantity sz H1 H2) as [Hq _]. fold (quantum sz) in Hq.
  assert (0 <= tail_hole bs /\ sz + 1 <= quantum sz).
  { split.
    - destruct (last_split bs (wf_ne _ _ _ _ _ W)) as (bs0 & [l f] & ->). unfold tail_hole. rewrite last_snoc.
      destruct f; [|lia]. pose proof (wf_blocks _ _ _ _ _ W) as (_ & [[? ? ? ? ?] _] & _)%blocks_app. cbn [bsz] in *. lia.
    - unfold quantum. pose proof (page_mask_sub sz ltac:(unfold u32; lia)). pose proof (Z.mod_pos_bound sz 4096).
      pose proof (Z.mod_le sz 4096). rewrite w32_small by (unfold u32; lia). lia. }
  lia.
Qed.

Lemma alloc_live {B} `{BackingLaws B} (s : hstate B) bs ix sz lim :
  heap_wf (hp s) (hm s) (bk s) bs ix -> idx (hp s) mod 4096 = 0 -> 0 <= sz ->
  max_end (hp s) + sz + 4096 < W32 -> room_to_grow (hp s) bs -> growable s sz lim ->
  let u := used (start_addr (hp s)) bs in
  exists r s', heap_alloc sz s = Ok (r, s') /\ same_limits (hp s) (hp s') /\
    same_used u (hm s) (hm s') /\ backed (bk s') (idx (hp s')) (end_addr (hp s')) lim /\
    ((r = 0 /\ heap_live s' u) \/
     (r <> 0 /\ fresh_block s' u r sz /\
      exists sz' u', sz + 20 <= sz' <= sz + 40 /\ heap_live s' u' /\ u' ≡ₚ (r - 12, sz') :: u)).
Proof.
  intros W Hal Hsz Hmax Hroom [Hbk Hlim] u. destruct s as [h m b]; cbn [hp hm bk] in *.
  pose proof (wf_frame _ _ _ _ _ W) as [].
  destruct (heap_alloc_ok h m b bs ix sz lim) as (r & h' & m' & b' & bs' & ix' & E & [X1 X2 X3 X4] & Hb'); auto.
  { apply (two_expansions h m b bs ix); try done; lia. }
  pose proof X2 as (_ & L2 & _).
  exists r, (HState h' m' b'). split; [done|]. split; [done|]. split; [done|]. split; [done|].
  destruct X4 as [(-> & Hu & _)|(Hr & sz' & Hu & Hb)].
  - left. split; [done|]. exists bs', ix'. cbn. by rewrite L2.
  - right. split; [done|]. split.
    + eapply live_fresh; [exact X1 | cbn; by rewrite L2 | lia].
    + exists sz', (used (start_addr h) bs'). split; [done|]. split; [|done].
      exists bs', ix'. cbn. by rewrite L2.
Qed.

(** ** Giving memory back *)

(** What [heap_contract] gives back when the last hole has [l] bytes. *)
Definition giveback (h : heap) (l : Z) : Z := contract_quantity h l 0 (Z.to_nat (l / 0x1000 + 1)).

Lemma contract_quantity_idxused n h l k : forall q,
  contract_quantity (set_idxused n h) l q k = contract_quantity h l q k.
Proof. induction k as [|k IH]; intros q; cbn; [done|]. by rewrite IH. Qed.

Lemma contracts_right h bs1 sz bs2 : contracts h bs1 sz bs2 = true -> right_rest bs2 = [].
Proof. unfold contracts. by destruct (right_rest bs2). Qed.

(** Freeing the end of the heap, up to what the backing store answers. *)
Lemma free_contracts {B} `{BackingLaws B} h m (b : B) bs1 sz bs2 ix lim :
  heap_wf h m b (bs1 ++ Blk sz false :: bs2) ix -> right_ok h m b bs2 -> index_room h ->
  backed b (idx h) (end_addr h) lim -> contracts h bs1 sz bs2 = true ->
  let l := merged bs1 sz bs2 in
  let q := giveback h l in
  let u := used (start_addr h) bs1 in
  q = 0 \/ 20 <= l - q ->
  exists s' k, heap_free (start_addr h + tot bs1 + 12) (HState h m b) = Ok (tt, s') /\
    (k = 0 \/ k = q) /\
    (exists ix', heap_wf (set_end_addr (end_addr h - k) (hp s')) (hm s') (bk s')
       (left_rest bs1 ++ [Blk (l - k) true]) ix') /\
    same_limits h (hp s') /\ same_used u m (hm s') /\
    ((k = 0 /\ end_addr (hp s') = end_addr h /\
      (q = 0 /\ bk s' = b \/ exists r, shrink_pre (idx h) (end_addr h - q) (end_addr h) b = Ok (r, bk s') /\ r <> 0)) \/
     (0 < k /\ exists b1, shrink_pre (idx h) (end_addr h - k) (end_addr h) b = Ok (0, b1) /\
        shrink_post (end_addr h - k) (end_addr h) b1 = Ok (end_addr (hp s'), bk s'))) /\
    backed (bk s') (idx h) (end_addr h - k) lim.
Proof.
  intros W Hok Hroom Hbk Hc l q u Hq. pose proof (contracts_right _ _ _ _ Hc) as Er.
  destruct (heap_free_merges _ _ _ _ _ _ _ W Hok Hroom) as (n & m' & ix' & HE & [X1 X2 X3 X4]).
  rewrite Hc in HE. rewrite Er in X1, X3, X4. fold l in X1, X3, X4.
  assert (Eq : contract_quantity (set_idxused n h) l 0 (Z.to_nat (l / 0x1000 + 1)) = q)
    by apply contract_quantity_idxused.
  pose proof (heap_contract_ok _ _ _ _ _ _ lim X1 Hbk) as HC. cbv zeta in HC. rewrite Eq in HC.
  destruct (proj1 (wp_Ok _ _ _) (HE _ (HC Hq))) as ([] & s' & E & h' & m2 & b' & -> & Hres).
  assert (Hu : used (start_addr h) (left_rest bs1 ++ [Blk l true]) = u).
  { rewrite sel_app. cbn. rewrite app_nil_r. apply left_rest_used. }
  cbn [start_addr end_addr set_idxused] in *. rewrite Hu in X4.
  destruct Hres as [(-> & -> & W2 & Hno & Hb')|(b1 & e & ix2 & Hne & _ & Hq2 & Hb' & E1 & E2 & -> & W2 & Hx)].
  - exists (HState (set_idxused n h) m' b'), 0. split; [done|]. split; [by left|]. cbn [hp hm bk].
    rewrite !Z.sub_0_r. split; [by exists ix'; destruct h|]. split; [by repeat split|]. split; [done|]. split; [by left | done].
  - eexists _, q. split; [exact E|]. split; [by right|]. cbn [hp hm bk]. split; [by exists ix2|].
    split; [by repeat split|]. split; [|split; [right; split; [lia|]; by exists b1 | done]].
    intros a s Hin. eapply agree_trans; [by apply X4|]. intros x Hr. apply Hx.
    rewrite <- Hu, sel_app in Hin. cbn in Hin. rewrite app_nil_r in Hin.
    pose proof (wf_blocks _ _ _ _ _ W2) as (Hb & _)%blocks_app. cbn [start_addr set_end_addr set_idxused] in *.
    pose proof (sel_bounds _ _ _ _ _ _ Hb Hin) as (? & ? & _). lia.
Qed.

(** The freed block is the last one. *)
Definition last_block (bs2 : list blk) : Prop := bs2 = [].
#[global] Instance last_block_dec bs2 : Decision (last_block bs2).
Proof. unfold last_block. destruct bs2; [by left | by right]. Defined.



(** [for (end -= 0x1000; end >= newEnd; end -= 0x1000)] stops one page
    below [newEnd]. *)
Lemma unmap_pages_end n : forall e newEnd mapped,
  4096 <= newEnd -> newEnd mod 4096 = 0 -> e mod 4096 = 0 -> e < W32 ->
  newEnd <= e + 4096 -> e < newEnd + 4096 * Z.of_nat n ->
  (unmap_pages e newEnd n mapped).1 = newEnd - 4096.
Proof.
  induction n as [|n IH]; intros e newEnd mapped H1 H2 H3 H4 H5 H6; cbn [unmap_pages].
  - cbn. pose proof (Z.div_mod e 4096). pose proof (Z.div_mod newEnd 4096). lia.
  - pose proof (Z.div_mod e 4096). pose proof (Z.div_mod newEnd 4096).
    destruct (Z.leb_spec newEnd e); cbn; [|lia].
    rewrite w32_small by (unfold u32; lia). apply IH; try lia.
    rewrite Zminus_mod, H3. reflexivity.
Qed.

(** ** Theorems *)

(** [heap_create] either fails with -1 or leaves a well-formed heap with
    no live block, at the limits it was asked for. *)
Theorem heap_create_correct {B} `{BackingLaws B} hs start idxsize datasize maxdatasize lim :
  4096 <= start -> start mod 4096 = 0 -> 16 <= idxsize -> 20 <= datasize <= maxdatasize ->
  start + idxsize + maxdatasize < W32 -> (start + idxsize + datasize) mod 4096 = 0 ->
  backed (bk hs) start start lim -> start + idxsize + datasize <= lim ->
  (forall b', grow start start (start + idxsize + datasize) (bk hs) = Ok (0, b') ->
     rd32 (filled b') (start + idxsize - 8) <> HEAP_MAGIC) ->
  exists r hs', heap_create start idxsize datasize maxdatasize hs = Ok (r, hs') /\
    (r = -1 \/
     (r = 0 /\ heap_live hs' [] /\ index_room (hp hs') /\ idx (hp hs') = start /\
      start_addr (hp hs') = start + idxsize /\ end_addr (hp hs') = start + idxsize + datasize /\
      max_end (hp hs') = start + idxsize + maxdatasize /\
      backed (bk hs') (idx (hp hs')) (end_addr (hp hs')) lim)).
Proof.
  intros H1 H2 H3 H4 H5 H6 Hbk Hlim H7.
  destruct (heap_create_ok hs start idxsize datasize maxdatasize lim) as (r & hs' & E & Hr & Hwf);
    try done; try lia.
  exists r, hs'. split; [done|]. destruct Hr as [->|[? _]]; [right | by left].
  destruct (Hwf eq_refl) as (Ei & Es & Em & Hb & W). pose proof (wf_end _ _ _ _ _ W) as Hend.
  pose proof (wf_frame _ _ _ _ _ W) as []. cbn [tot bsz length] in *. unfold index_room.
  assert (Ee : end_addr (hp hs') = start + idxsize + datasize) by lia.
  split; [done|]. split; [by eexists _, _|]. rewrite Ei, Ee. repeat split; (lia || done).
Qed.

Lemma heap_create_correct_witness :
  exists r hs', heap_create 0x100000 0x1000 0x8000 0x08000000
                  (HState (Heap 0 0 0 0 0) (fun _ => 0) (KPages ∅ (fun _ _ => 0) 0)) = Ok (r, hs') /\
    (r = -1 \/
     (r = 0 /\ heap_live hs' [] /\ index_room (hp hs') /\ idx (hp hs') = 0x100000 /\
      start_addr (hp hs') = 0x101000 /\ end_addr (hp hs') = 0x109000 /\
      max_end (hp hs') = 0x8101000 /\ backed (bk hs') (idx (hp hs')) (end_addr (hp hs')) 0x8101000)).
Proof.
  apply (heap_create_correct (HState (Heap 0 0 0 0 0) (fun _ => 0) (KPages ∅ (fun _ _ => 0) 0))
           0x100000 0x1000 0x8000 0x08000000 0x8101000); try lia; try reflexivity.
  - intros x ?. lia.
  - intros b' [= <-]. vm_compute. discriminate.
Defined.

(** C1. [heap_alloc], on a well-formed heap: it never faults and never runs
    out of rounds.  It answers 0, the live blocks being as before, or a
    fresh block: accessible, large enough, apart from every live block.  The
    bytes of live blocks do not change.  [lim] is an address up to which the
    memory below the heap can grow. *)
Theorem heap_alloc_correct {B} `{BackingLaws B} (s : hstate B) u sz lim :
  heap_live s u -> idx (hp s) mod 4096 = 0 -> 0 <= sz -> max_end (hp s) + sz + 4096 < W32 ->
  index_room (hp s) -> growable s sz lim ->
  exists r s', heap_alloc sz s = Ok (r, s') /\ same_limits (hp s) (hp s') /\
    same_used u (hm s) (hm s') /\ backed (bk s') (idx (hp s')) (end_addr (hp s')) lim /\
    ((r = 0 /\ heap_live s' u) \/
     (r <> 0 /\ fresh_block s' u r sz /\
      exists sz' u', sz + 20 <= sz' <= sz + 40 /\ heap_live s' u' /\ u' ≡ₚ (r - 12, sz') :: u)).
Proof.
  intros (bs & ix & W & <-) Hal Hsz Hmax Hroom Hg. eapply alloc_live; try done. by right.
Qed.

Lemma heap_alloc_correct_witness :
  let s := HState sample_heap sample_mem sample_kpages in
  let u := [(10240, 100); (10340, 200)] in
  exists r s', heap_alloc 64 s = Ok (r, s') /\ same_limits (hp s) (hp s') /\
    same_used u (hm s) (hm s') /\ backed (bk s') (idx (hp s')) (end_addr (hp s')) 65536 /\
    ((r = 0 /\ heap_live s' u) \/
     (r <> 0 /\ fresh_block s' u r 64 /\
      exists sz' u', 64 + 20 <= sz' <= 64 + 40 /\ heap_live s' u' /\ u' ≡ₚ (r - 12, sz') :: u)).
Proof.
  apply (heap_alloc_correct (HState sample_heap sample_mem sample_kpages)
           [(10240, 100); (10340, 200)] 64 65536);
    [|reflexivity | lia | reflexivity | by vm_compute | split; [apply sample_acc_k | left; cbn; lia]].
  exists sample_blocks, sample_ix. split; [apply sample_wf, sample_acc_k | reflexivity].
Defined.

(** Best fit: while some hole is large enough, [heap_alloc] takes the
    smallest such hole and does not ask for more memory. *)
Theorem heap_alloc_best_fit {B} `{BackingLaws B} h m (b : B) bs ix sz q l :
  heap_wf h m b bs ix -> 0 <= sz -> sz + 20 < W32 -> (q, l) ∈ ix -> sz + 20 <= l ->
  exists p sp n m', (p, sp) ∈ ix /\ sz + 20 <= sp /\
    (forall p' sp', (p', sp') ∈ ix -> sz + 20 <= sp' -> sp <= sp') /\
    heap_alloc sz (HState h m b) = Ok (p + 12, HState (set_idxused n h) m' b).
Proof.
  intros W Hsz Hmax Hin Hl. unfold heap_alloc. cbn [plus].
  rewrite (heap_alloc_fuel_step _ _ _ _ _ _ _ W) by lia.
  pose proof (wf_sorted _ _ _ _ (wf_frame _ _ _ _ _ W)) as Hs.
  destruct (first_fit_spec (sz + 20) ix) as [[_ Hnone]|([p sp] & Ei & Hfit & _)].
  { specialize (Hnone _ Hin). cbn in Hnone. lia. }
  pose proof (lookup_lt_Some _ _ _ Ei).
  rewrite (proj2 (Z.eqb_neq _ _)) by lia.
  destruct (alloc_at_ok _ _ _ _ _ (sz + 20) _ _ _ W Ei) as (? & ? & n & m' & E & _); [cbn in *; lia|].
  exists p, sp, n, m'. split; [by eapply list_elem_of_lookup_2|]. split; [done|]. split; [|done].
  intros p' sp' Hin' Hl'. by eapply (first_fit_best (sz + 20)).
Qed.

Lemma heap_alloc_best_fit_witness :
  exists p sp n m', (p, sp) ∈ sample_ix /\ 64 + 20 <= sp /\
    (forall p' sp', (p', sp') ∈ sample_ix -> 64 + 20 <= sp' -> sp <= sp') /\
    heap_alloc 64 (HState sample_heap sample_mem sample_kpages)
    = Ok (p + 12, HState (set_idxused n sample_heap) m' sample_kpages).
Proof.
  apply (heap_alloc_best_fit sample_heap sample_mem sample_kpages sample_blocks sample_ix 64 10540 1748);
    try lia; [apply sample_wf, sample_acc_k | apply list_elem_of_here].
Defined.



(** In the user library, freeing the end of the heap gives back [giveback]
    bytes of it (or nothing, when the kernel refuses), and the heap that is
    left is well formed with the same live blocks. *)
Theorem user_free_shrinks h m (b : usegment) bs1 sz bs2 ix :
  heap_wf h m b (bs1 ++ Blk sz false :: bs2) ix -> right_ok h m b bs2 -> index_room h ->
  contracts h bs1 sz bs2 = true ->
  let l := merged bs1 sz bs2 in
  let u := used (start_addr h) bs1 in
  giveback h l = 0 \/ 20 <= l - giveback h l ->
  exists s' k, heap_free (start_addr h + tot bs1 + 12) (HState h m b) = Ok (tt, s') /\
    (k = 0 \/ k = giveback h l) /\ end_addr (hp s') = end_addr h - k /\
    heap_live s' u /\ same_used u m (hm s').
Proof.
  intros W Hok Hroom Hc l u Hq.
  assert (Hbk : backed b (idx h) (end_addr h) 0) by exact (wf_acc _ _ _ _ (wf_frame _ _ _ _ _ W)).
  destruct (free_contracts _ _ _ _ _ _ _ _ W Hok Hroom Hbk Hc Hq)
    as (s' & k & E & Hk & (ix' & W') & (_ & Es & _) & Hs & He & _).
  exists s', k. split; [done|]. split; [done|].
  assert (Ee : end_addr (hp s') = end_addr h - k).
  { destruct He as [(-> & -> & _)|(_ & b1 & _ & [= <- _])]; lia. }
  split; [done|]. split; [|done]. rewrite <- Ee in W'.
  replace (set_end_addr (end_addr (hp s')) (hp s')) with (hp s') in W' by (by destruct (hp s')).
  eexists _, ix'. split; [exact W'|]. rewrite Es, sel_app. cbn. rewrite app_nil_r.
  apply left_rest_used.
Qed.

Lemma user_free_shrinks_witness :
  exists s' k, heap_free 28684 (HState tall_heap tall_mem tall_usegment) = Ok (tt, s') /\
    (k = 0 \/ k = 16384) /\ end_addr (hp s') = 45056 - k /\
    heap_live s' [] /\ same_used [] tall_mem (hm s').
Proof.
  apply (user_free_shrinks tall_heap tall_mem tall_usegment [Blk 16384 true] 16384 [] tall_ix).
  - apply tall_wf. intros x Hx. apply tall_acc_u. lia.
  - right. split; [intros x Hx; apply tall_acc_u; cbn in *; lia|]. split; [reflexivity|].
    by vm_compute.
  - by vm_compute.
  - reflexivity.
  - right. by vm_compute.
Defined.

(** The kernel's [heap_contract] uses [heap->end_addr] as the counter of
    the loop that unmaps the pages: when the heap shrinks to [newEnd], it
    leaves [end_addr = newEnd - 0x1000], so the last hole reaches one page
    beyond the recorded end of the heap. *)
Theorem kernel_contract_loses_page h m (b : kpages) bs1 sz bs2 ix :
  heap_wf h m b (bs1 ++ Blk sz false :: bs2) ix -> right_ok h m b bs2 -> index_room h ->
  contracts h bs1 sz bs2 = true ->
  let l := merged bs1 sz bs2 in
  giveback h l <> 0 -> 20 <= l - giveback h l ->
  exists s', heap_free (start_addr h + tot bs1 + 12) (HState h m b) = Ok (tt, s') /\
    end_addr (hp s') + 0x1000 = end_addr h - giveback h l /\
    exists ix', heap_wf (set_end_addr (end_addr (hp s') + 0x1000) (hp s')) (hm s') (bk s')
      (left_rest bs1 ++ [Blk (l - giveback h l) true]) ix'.
Proof.
  intros W Hok Hroom Hc l Hne Hq.
  assert (Hbk : backed b (idx h) (end_addr h) 0) by exact (wf_acc _ _ _ _ (wf_frame _ _ _ _ _ W)).
  destruct (free_contracts _ _ _ _ _ _ _ _ W Hok Hroom Hbk Hc (or_intror Hq))
    as (s' & k & E & Hk & (ix' & W') & _ & Hs & He & _).
  destruct He as [(_ & _ & [[? _]|(r & [= <- _] & ?)])|(Hk0 & b1 & _ & E1)]; [done..|].
  destruct Hk as [->| ->]; [done|]. exists s'. split; [done|].
  assert (Ee : end_addr (hp s') + 0x1000 = end_addr h - giveback h l).
  { pose proof (wf_frame _ _ _ _ _ W') as []. pose proof (wf_frame _ _ _ _ _ W) as [].
    subst l. set (g := giveback h (merged bs1 sz bs2)) in *. cbn [idx start_addr end_addr max_end set_end_addr] in *.
    cbn [shrink_post KernelBacking] in E1. unfold kshrink_post in E1. rewrite w32_small in E1 by (unfold u32; lia).
    pose proof (unmap_pages_end (Z.to_nat (1 + (end_addr h - (end_addr h - g)) / 0x1000))
      (end_addr h - 0x1000) (end_addr h - g) (kp_mapped b1)) as He.
    destruct (unmap_pages _ _ _ _) as [e mp]. injection E1 as <- _. cbn in He.
    rewrite He; try lia.
    - rewrite Zminus_mod, wf_align0. reflexivity.
    - clear - Hk0. Z.div_mod_to_equations. lia. }
  split; [done|]. exists ix'. by rewrite Ee.
Qed.

Lemma kernel_contract_loses_page_witness :
  exists s', heap_free 28684 (HState tall_heap tall_mem tall_kpages) = Ok (tt, s') /\
    end_addr (hp s') + 0x1000 = 28672 /\
    exists ix', heap_wf (set_end_addr (end_addr (hp s') + 0x1000) (hp s')) (hm s') (bk s')
      [Blk 16384 true] ix'.
Proof.
  apply (kernel_contract_loses_page tall_heap tall_mem tall_kpages [Blk 16384 true] 16384 [] tall_ix).
  - apply tall_wf. intros x Hx. apply tall_acc_k. lia.
  - right. split; [intros x Hx; apply tall_acc_k; cbn in *; lia|]. split; [reflexivity|].
    by vm_compute.
  - by vm_compute.
  - reflexivity.
  - by vm_compute.
  - by vm_compute.
Defined.

(** The first [malloc] of a process creates the heap and allocates from
    it; it never faults, and what it answers is 0 or a block of the new
    heap, which is then the only live one. *)
Theorem malloc_first_use (u : ulib) sz :
  heap_ok u = false -> 0 <= sz -> 0x6F010000 + sz + 4096 < W32 ->
  (forall n, rd32 (us_fill (bk (ul_heap u)) n) (0x20010000 - 8) <> HEAP_MAGIC) ->
  exists r u', malloc sz u = Ok (r, u') /\ heap_ok u' = true /\
    start_addr (hp (ul_heap u')) = 0x20010000 /\ max_end (hp (ul_heap u')) = 0x6F010000 /\
    ((r = 0 /\ heap_live (ul_heap u') []) \/
     (r <> 0 /\ fresh_block (ul_heap u') [] r sz /\
      exists sz', sz + 20 <= sz' <= sz + 40 /\ heap_live (ul_heap u') [(r - 12, sz')])).
Proof.
  intros Hno Hsz Hmax Hfill. destruct u as [hs ok]. cbn in Hno, Hfill. subst ok.
  destruct (heap_create_ok hs 0x20000000 0x00010000 0x00100000 0x4F000000 0x6F010000)
    as (e & hs' & E & He & Hwf); try lia; try reflexivity.
  { intros x ?. lia. }
  { intros b' [= <-]. apply Hfill. }
  destruct He as [->|(_ & e' & b' & Hne & [= <- _])]; [|done].
  destruct (Hwf eq_refl) as (Ei & Es & Em & _ & W). pose proof (wf_len _ _ _ _ (wf_frame _ _ _ _ _ W)) as Hl.
  destruct (alloc_live hs' _ _ sz 0x6F010000 W) as (r & s' & Ea & (L1 & L2 & L3) & _ & _ & Hr).
  { by rewrite Ei. } { done. } { by rewrite Em. } { right. cbn in Hl. lia. }
  { split; [apply (wf_acc _ _ _ _ (wf_frame _ _ _ _ _ W)) | left; lia]. }
  exists r, (ULib s' true). split.
  { unfold malloc, lift_heap, gc_heap_create, gc_heap_alloc, zoom, modify, gets, mbind, M_bind. cbn [heap_ok id ul_heap].
    rewrite E. cbn [Z.eqb negb ul_heap heap_ok]. by rewrite Ea. }
  cbn [heap_ok ul_heap]. split; [done|]. rewrite L2, L3, Es, Em. split; [done|]. split; [done|].
  destruct Hr as [[-> Hr]|(Hr & Hf & sz' & u' & Hb & Hlive & Hu)]; [by left|].
  right. split; [done|]. split; [done|]. exists sz'. split; [done|].
  apply Permutation_singleton_r in Hu. by subst u'.
Qed.

Lemma malloc_first_use_witness :
  let u := ULib (HState (Heap 0 0 0 0 0) (fun _ => 0) (USegment None (fun _ _ => 0) 0)) false in
  exists r u', malloc 100 u = Ok (r, u') /\ heap_ok u' = true /\
    start_addr (hp (ul_heap u')) = 0x20010000 /\ max_end (hp (ul_heap u')) = 0x6F010000 /\
    ((r = 0 /\ heap_live (ul_heap u') []) \/
     (r <> 0 /\ fresh_block (ul_heap u') [] r 100 /\
      exists sz', 100 + 20 <= sz' <= 100 + 40 /\ heap_live (ul_heap u') [(r - 12, sz')])).
Proof.
  apply (malloc_first_use (ULib (HState (Heap 0 0 0 0 0) (fun _ => 0) (USegment None (fun _ _ => 0) 0)) false) 100);
    [reflexivity | lia | reflexivity |]. intros n. by vm_compute.
Defined.
