(* ===== verification/Kernel.v ===== *)
(** * The kernel's data

    The structures of [src/kernel]: threads, processes, objects and their
    descriptors, requests, segments and their mappings, page directories
    and tables, sleeping threads.  Each structure type has its store,
    indexed by address; [kstate] holds the stores and the kernel's global
    variables.

    [k_junk] is what [kmalloc] leaves in a field that nobody initialises:
    the heap does not clear what it hands out. *)

From S2P Require Import Prelude Memory Bitset.

(** ** Structures *)

(** [struct page] without the accessed and dirty bits, which only the
    processor writes. *)
Record page := Page { pg_present : Z; pg_rw : Z; pg_user : Z; pg_frame : Z }.

(** [struct page_table]; an absent entry is a zero one.  [pt_frame] is the
    physical frame behind the table. *)
Record page_table := PageTable { pages : gmap Z page; pt_frame : Z }.

(** [struct page_directory]; absent entries of the two arrays are zero. *)
Record page_directory := PageDirectory {
  tables : gmap Z ptr;
  tablesPhysical : gmap Z Z;
  physicalAddr : Z;
  mappedSegs : ptr
}.

Record simpleseg := SimpleSeg { ss_writable : Z; ss_start : Z; ss_len : Z }.
Record shmseg := ShmSeg { sh_len : Z; sh_frames : list Z; sh_owner : ptr }.

(** [seg_data] and the four function pointers of [struct segment] always go
    together: the constructor stands for both. *)
Inductive seg_kind :=
| simple_kind (ss : simpleseg)
| shm_kind (ss : shmseg).

Record segment := Segment { seg_data : seg_kind; mappings : Z }.

Record segment_map := SegmentMap {
  sm_seg : ptr; sm_pagedir : ptr; sm_start : Z; sm_len : Z; sm_next : ptr
}.

Record thread := Thread {
  t_process : ptr; t_esp : Z; t_ebp : Z; t_eip : Z; t_state : Z;
  kernelStack_addr : ptr; kernelStack_size : Z; userStack_seg : ptr;
  t_next : ptr; queue_next : ptr
}.

Record process := Process {
  pid : Z; uid : Z; privilege : Z; thread_count : Z; parent : ptr; p_pagedir : ptr;
  stacksBottom : Z; objects : ptr; next_objdesc : Z; heapseg : ptr;
  p_next : ptr; threads : ptr
}.

Record object := Object {
  owner : ptr; descriptors : Z; busyMutex : Z; o_request : ptr; wakeupOnRq : ptr
}.

Record obj_descriptor := ObjDescriptor { d_obj : ptr; d_id : Z; d_next : ptr }.

(** [struct request]; [rq_answer] is the 64-bit union, whose member [n] is
    its low word. *)
Record request := Request {
  rq_obj : ptr; requester : ptr; rq_func : Z; rq_params : list Z; obj_close : list Z;
  rq_shmsize : list Z; shm_sndr : list ptr; shm_rcv : list ptr;
  acknowledged : Z; rq_answer : Z; rq_errcode : Z; rq_pid : Z
}.

Record sleeping_thread := SleepingThread { wakeup_time : Z; sl_thread : ptr; sl_next : ptr }.
Record irq_waiter := IrqWaiter { iw_thread : ptr; iw_next : ptr }.

(** A kernel stack: the words pushed from its top down. *)
Record kstack := KStack { ks_words : list Z }.

(** ** Constants *)

Definition TS_RUNNING : Z := 0.
Definition TS_WAKEWAIT : Z := 2.

Definition PL_UNKNOWN : Z := 4.
Definition PL_USER : Z := 3.
Definition PL_SERVICE : Z := 2.
Definition PL_DRIVER : Z := 1.
Definition PL_KERNEL : Z := 0.

Definition EX_TH_NORMAL : Z := 0x10000.
Definition EX_TH_EXCEPTION : Z := 0x10001.
Definition EX_PR_EXCEPTION : Z := 0x10002.
Definition USER_STACK_SIZE : Z := 0x8000.
Definition KSTACKSIZE : Z := 0x8000.

Definition MUTEX_LOCKED : Z := 1.
Definition MUTEX_UNLOCKED : Z := 0.

Definition RS_PENDING : Z := 0.
Definition RS_PROCESSED : Z := 1.
Definition RS_FINISHED : Z := 2.
Definition RS_INTERRUPTED : Z := 3.

Definition PT_VOID : Z := 0.
Definition PT_OBJDESC : Z := 1.
Definition PT_LONG : Z := 2.
Definition PT_LONGLONG : Z := 3.
Definition PT_SHM : Z := 3.

(** ** State *)

(** The objects that [kmalloc] gave out. *)
Record kstores := KStores {
  k_threads : gmap Z thread;
  k_processes : gmap Z process;
  k_objects : gmap Z object;
  k_descs : gmap Z obj_descriptor;
  k_requests : gmap Z request;
  k_segments : gmap Z segment;
  k_maps : gmap Z segment_map;
  k_pagedirs : gmap Z page_directory;
  k_tables : gmap Z page_table;
  k_sleepers : gmap Z sleeping_thread;
  k_waiters : gmap Z irq_waiter;
  k_stacks : gmap Z kstack
}.

(** The global variables of the kernel.  [queue] and [last] are the arrays
    of [sched.c]; [umem] is what a page directory shows of user memory;
    [esp0] is the kernel stack of the task state segment;
    [thread_run_addr] is the address of [thread_run], fixed by the linker. *)
Record kglobals := KGlobals {
  processes : ptr;
  kernel_process : ptr;
  current_thread : ptr;
  idle_thread : ptr;
  manager_object : ptr;
  nextpid : Z;
  queue : gmap Z ptr;
  last : gmap Z ptr;
  tick : Z;
  frequency : Z;
  uptime : Z;
  sleeping_threads : ptr;
  irq_wakeup : gmap Z ptr;
  kernel_pagedir : ptr;
  current_pagedir : ptr;
  frames : bitset;
  esp0 : Z;
  umem : gmap Z mem;
  k_junk : Z;
  thread_run_addr : Z;
  if_locks : Z
}.

Record kstate := KState { k_st : kstores; k_g : kglobals }.

(** ** Field updates *)

Definition set_tables (x : gmap Z ptr) (d : page_directory) : page_directory :=
  PageDirectory x (tablesPhysical d) (physicalAddr d) (mappedSegs d).
Definition set_tablesPhysical (x : gmap Z Z) (d : page_directory) : page_directory :=
  PageDirectory (tables d) x (physicalAddr d) (mappedSegs d).
Definition set_mappedSegs (x : ptr) (d : page_directory) : page_directory :=
  PageDirectory (tables d) (tablesPhysical d) (physicalAddr d) x.

Definition set_seg_data (x : seg_kind) (g : segment) : segment :=
  Segment x (mappings g).
Definition set_mappings (x : Z) (g : segment) : segment :=
  Segment (seg_data g) x.

Definition set_sm_seg (x : ptr) (m : segment_map) : segment_map :=
  SegmentMap x (sm_pagedir m) (sm_start m) (sm_len m) (sm_next m).
Definition set_sm_pagedir (x : ptr) (m : segment_map) : segment_map :=
  SegmentMap (sm_seg m) x (sm_start m) (sm_len m) (sm_next m).
Definition set_sm_len (x : Z) (m : segment_map) : segment_map :=
  SegmentMap (sm_seg m) (sm_pagedir m) (sm_start m) x (sm_next m).
Definition set_sm_next (x : ptr) (m : segment_map) : segment_map :=
  SegmentMap (sm_seg m) (sm_pagedir m) (sm_start m) (sm_len m) x.

Definition set_t_esp (x : Z) (t : thread) : thread :=
  Thread (t_process t) x (t_ebp t) (t_eip t) (t_state t) (kernelStack_addr t)
    (kernelStack_size t) (userStack_seg t) (t_next t) (queue_next t).
Definition set_t_ebp (x : Z) (t : thread) : thread :=
  Thread (t_process t) (t_esp t) x (t_eip t) (t_state t) (kernelStack_addr t)
    (kernelStack_size t) (userStack_seg t) (t_next t) (queue_next t).
Definition set_t_eip (x : Z) (t : thread) : thread :=
  Thread (t_process t) (t_esp t) (t_ebp t) x (t_state t) (kernelStack_addr t)
    (kernelStack_size t) (userStack_seg t) (t_next t) (queue_next t).
Definition set_t_state (x : Z) (t : thread) : thread :=
  Thread (t_process t) (t_esp t) (t_ebp t) (t_eip t) x (kernelStack_addr t) (kernelStack_size t)
    (userStack_seg t) (t_next t) (queue_next t).
Definition set_userStack_seg (x : ptr) (t : thread) : thread :=
  Thread (t_process t) (t_esp t) (t_ebp t) (t_eip t) (t_state t) (kernelStack_addr t)
    (kernelStack_size t) x (t_next t) (queue_next t).
Definition set_t_next (x : ptr) (t : thread) : thread :=
  Thread (t_process t) (t_esp t) (t_ebp t) (t_eip t) (t_state t) (kernelStack_addr t)
    (kernelStack_size t) (userStack_seg t) x (queue_next t).
Definition set_queue_next (x : ptr) (t : thread) : thread :=
  Thread (t_process t) (t_esp t) (t_ebp t) (t_eip t) (t_state t) (kernelStack_addr t)
    (kernelStack_size t) (userStack_seg t) (t_next t) x.

Definition set_thread_count (x : Z) (p : process) : process :=
  Process (pid p) (uid p) (privilege p) x (parent p) (p_pagedir p) (stacksBottom p) (objects p)
    (next_objdesc p) (heapseg p) (p_next p) (threads p).
Definition set_stacksBottom (x : Z) (p : process) : process :=
  Process (pid p) (uid p) (privilege p) (thread_count p) (parent p) (p_pagedir p) x (objects p)
    (next_objdesc p) (heapseg p) (p_next p) (threads p).
Definition set_objects (x : ptr) (p : process) : process :=
  Process (pid p) (uid p) (privilege p) (thread_count p) (parent p) (p_pagedir p)
    (stacksBottom p) x (next_objdesc p) (heapseg p) (p_next p) (threads p).
Definition set_next_objdesc (x : Z) (p : process) : process :=
  Process (pid p) (uid p) (privilege p) (thread_count p) (parent p) (p_pagedir p)
    (stacksBottom p) (objects p) x (heapseg p) (p_next p) (threads p).
Definition set_heapseg (x : ptr) (p : process) : process :=
  Process (pid p) (uid p) (privilege p) (thread_count p) (parent p) (p_pagedir p)
    (stacksBottom p) (objects p) (next_objdesc p) x (p_next p) (threads p).
Definition set_p_next (x : ptr) (p : process) : process :=
  Process (pid p) (uid p) (privilege p) (thread_count p) (parent p) (p_pagedir p)
    (stacksBottom p) (objects p) (next_objdesc p) (heapseg p) x (threads p).
Definition set_threads (x : ptr) (p : process) : process :=
  Process (pid p) (uid p) (privilege p) (thread_count p) (parent p) (p_pagedir p)
    (stacksBottom p) (objects p) (next_objdesc p) (heapseg p) (p_next p) x.

Definition set_owner (x : ptr) (b : object) : object :=
  Object x (descriptors b) (busyMutex b) (o_request b) (wakeupOnRq b).
Definition set_descriptors (x : Z) (b : object) : object :=
  Object (owner b) x (busyMutex b) (o_request b) (wakeupOnRq b).
Definition set_busyMutex (x : Z) (b : object) : object :=
  Object (owner b) (descriptors b) x (o_request b) (wakeupOnRq b).
Definition set_o_request (x : ptr) (b : object) : object :=
  Object (owner b) (descriptors b) (busyMutex b) x (wakeupOnRq b).
Definition set_wakeupOnRq (x : ptr) (b : object) : object :=
  Object (owner b) (descriptors b) (busyMutex b) (o_request b) x.

Definition set_d_next (x : ptr) (d : obj_descriptor) : obj_descriptor :=
  ObjDescriptor (d_obj d) (d_id d) x.

Definition set_rq_params (x : list Z) (r : request) : request :=
  Request (rq_obj r) (requester r) (rq_func r) x (obj_close r) (rq_shmsize r) (shm_sndr r)
    (shm_rcv r) (acknowledged r) (rq_answer r) (rq_errcode r) (rq_pid r).
Definition set_obj_close (x : list Z) (r : request) : request :=
  Request (rq_obj r) (requester r) (rq_func r) (rq_params r) x (rq_shmsize r) (shm_sndr r)
    (shm_rcv r) (acknowledged r) (rq_answer r) (rq_errcode r) (rq_pid r).
Definition set_rq_shmsize (x : list Z) (r : request) : request :=
  Request (rq_obj r) (requester r) (rq_func r) (rq_params r) (obj_close r) x (shm_sndr r)
    (shm_rcv r) (acknowledged r) (rq_answer r) (rq_errcode r) (rq_pid r).
Definition set_shm_sndr (x : list ptr) (r : request) : request :=
  Request (rq_obj r) (requester r) (rq_func r) (rq_params r) (obj_close r) (rq_shmsize r) x
    (shm_rcv r) (acknowledged r) (rq_answer r) (rq_errcode r) (rq_pid r).
Definition set_shm_rcv (x : list ptr) (r : request) : request :=
  Request (rq_obj r) (requester r) (rq_func r) (rq_params r) (obj_close r) (rq_shmsize r)
    (shm_sndr r) x (acknowledged r) (rq_answer r) (rq_errcode r) (rq_pid r).
Definition set_acknowledged (x : Z) (r : request) : request :=
  Request (rq_obj r) (requester r) (rq_func r) (rq_params r) (obj_close r) (rq_shmsize r)
    (shm_sndr r) (shm_rcv r) x (rq_answer r) (rq_errcode r) (rq_pid r).
Definition set_rq_answer (x : Z) (r : request) : request :=
  Request (rq_obj r) (requester r) (rq_func r) (rq_params r) (obj_close r) (rq_shmsize r)
    (shm_sndr r) (shm_rcv r) (acknowledged r) x (rq_errcode r) (rq_pid r).
Definition set_rq_errcode (x : Z) (r : request) : request :=
  Request (rq_obj r) (requester r) (rq_func r) (rq_params r) (obj_close r) (rq_shmsize r)
    (shm_sndr r) (shm_rcv r) (acknowledged r) (rq_answer r) x (rq_pid r).

Definition set_sl_next (x : ptr) (w : sleeping_thread) : sleeping_thread :=
  SleepingThread (wakeup_time w) (sl_thread w) x.

Definition set_iw_next (x : ptr) (w : irq_waiter) : irq_waiter :=
  IrqWaiter (iw_thread w) x.

Definition set_k_threads (x : gmap Z thread) (s : kstores) : kstores :=
  KStores x (k_processes s) (k_objects s) (k_descs s) (k_requests s) (k_segments s) (k_maps s)
    (k_pagedirs s) (k_tables s) (k_sleepers s) (k_waiters s) (k_stacks s).
Definition set_k_processes (x : gmap Z process) (s : kstores) : kstores :=
  KStores (k_threads s) x (k_objects s) (k_descs s) (k_requests s) (k_segments s) (k_maps s)
    (k_pagedirs s) (k_tables s) (k_sleepers s) (k_waiters s) (k_stacks s).
Definition set_k_objects (x : gmap Z object) (s : kstores) : kstores :=
  KStores (k_threads s) (k_processes s) x (k_descs s) (k_requests s) (k_segments s) (k_maps s)
    (k_pagedirs s) (k_tables s) (k_sleepers s) (k_waiters s) (k_stacks s).
Definition set_k_descs (x : gmap Z obj_descriptor) (s : kstores) : kstores :=
  KStores (k_threads s) (k_processes s) (k_objects s) x (k_requests s) (k_segments s) (k_maps s)
    (k_pagedirs s) (k_tables s) (k_sleepers s) (k_waiters s) (k_stacks s).
Definition set_k_requests (x : gmap Z request) (s : kstores) : kstores :=
  KStores (k_threads s) (k_processes s) (k_objects s) (k_descs s) x (k_segments s) (k_maps s)
    (k_pagedirs s) (k_tables s) (k_sleepers s) (k_waiters s) (k_stacks s).
Definition set_k_segments (x : gmap Z segment) (s : kstores) : kstores :=
  KStores (k_threads s) (k_processes s) (k_objects s) (k_descs s) (k_requests s) x (k_maps s)
    (k_pagedirs s) (k_tables s) (k_sleepers s) (k_waiters s) (k_stacks s).
Definition set_k_maps (x : gmap Z segment_map) (s : kstores) : kstores :=
  KStores (k_threads s) (k_processes s) (k_objects s) (k_descs s) (k_requests s) (k_segments s)
    x (k_pagedirs s) (k_tables s) (k_sleepers s) (k_waiters s) (k_stacks s).
Definition set_k_pagedirs (x : gmap Z page_directory) (s : kstores) : kstores :=
  KStores (k_threads s) (k_processes s) (k_objects s) (k_descs s) (k_requests s) (k_segments s)
    (k_maps s) x (k_tables s) (k_sleepers s) (k_waiters s) (k_stacks s).
Definition set_k_tables (x : gmap Z page_table) (s : kstores) : kstores :=
  KStores (k_threads s) (k_processes s) (k_objects s) (k_descs s) (k_requests s) (k_segments s)
    (k_maps s) (k_pagedirs s) x (k_sleepers s) (k_waiters s) (k_stacks s).
Definition set_k_sleepers (x : gmap Z sleeping_thread) (s : kstores) : kstores :=
  KStores (k_threads s) (k_processes s) (k_objects s) (k_descs s) (k_requests s) (k_segments s)
    (k_maps s) (k_pagedirs s) (k_tables s) x (k_waiters s) (k_stacks s).
Definition set_k_waiters (x : gmap Z irq_waiter) (s : kstores) : kstores :=
  KStores (k_threads s) (k_processes s) (k_objects s) (k_descs s) (k_requests s) (k_segments s)
    (k_maps s) (k_pagedirs s) (k_tables s) (k_sleepers s) x (k_stacks s).
Definition set_k_stacks (x : gmap Z kstack) (s : kstores) : kstores :=
  KStores (k_threads s) (k_processes s) (k_objects s) (k_descs s) (k_requests s) (k_segments s)
    (k_maps s) (k_pagedirs s) (k_tables s) (k_sleepers s) (k_waiters s) x.

Definition set_processes (x : ptr) (g : kglobals) : kglobals :=
  KGlobals x (kernel_process g) (current_thread g) (idle_thread g) (manager_object g)
    (nextpid g) (queue g) (last g) (tick g) (frequency g) (uptime g) (sleeping_threads g)
    (irq_wakeup g) (kernel_pagedir g) (current_pagedir g) (frames g) (esp0 g) (umem g)
    (k_junk g) (thread_run_addr g) (if_locks g).
Definition set_kernel_process (x : ptr) (g : kglobals) : kglobals :=
  KGlobals (processes g) x (current_thread g) (idle_thread g) (manager_object g) (nextpid g)
    (queue g) (last g) (tick g) (frequency g) (uptime g) (sleeping_threads g) (irq_wakeup g)
    (kernel_pagedir g) (current_pagedir g) (frames g) (esp0 g) (umem g) (k_junk g)
    (thread_run_addr g) (if_locks g).
Definition set_current_thread (x : ptr) (g : kglobals) : kglobals :=
  KGlobals (processes g) (kernel_process g) x (idle_thread g) (manager_object g) (nextpid g)
    (queue g) (last g) (tick g) (frequency g) (uptime g) (sleeping_threads g) (irq_wakeup g)
    (kernel_pagedir g) (current_pagedir g) (frames g) (esp0 g) (umem g) (k_junk g)
    (thread_run_addr g) (if_locks g).
Definition set_idle_thread (x : ptr) (g : kglobals) : kglobals :=
  KGlobals (processes g) (kernel_process g) (current_thread g) x (manager_object g) (nextpid g)
    (queue g) (last g) (tick g) (frequency g) (uptime g) (sleeping_threads g) (irq_wakeup g)
    (kernel_pagedir g) (current_pagedir g) (frames g) (esp0 g) (umem g) (k_junk g)
    (thread_run_addr g) (if_locks g).
Definition set_manager_object (x : ptr) (g : kglobals) : kglobals :=
  KGlobals (processes g) (kernel_process g) (current_thread g) (idle_thread g) x (nextpid g)
    (queue g) (last g) (tick g) (frequency g) (uptime g) (sleeping_threads g) (irq_wakeup g)
    (kernel_pagedir g) (current_pagedir g) (frames g) (esp0 g) (umem g) (k_junk g)
    (thread_run_addr g) (if_locks g).
Definition set_nextpid (x : Z) (g : kglobals) : kglobals :=
  KGlobals (processes g) (kernel_process g) (current_thread g) (idle_thread g)
    (manager_object g) x (queue g) (last g) (tick g) (frequency g) (uptime g)
    (sleeping_threads g) (irq_wakeup g) (kernel_pagedir g) (current_pagedir g) (frames g)
    (esp0 g) (umem g) (k_junk g) (thread_run_addr g) (if_locks g).
Definition set_queue (x : gmap Z ptr) (g : kglobals) : kglobals :=
  KGlobals (processes g) (kernel_process g) (current_thread g) (idle_thread g)
    (manager_object g) (nextpid g) x (last g) (tick g) (frequency g) (uptime g)
    (sleeping_threads g) (irq_wakeup g) (kernel_pagedir g) (current_pagedir g) (frames g)
    (esp0 g) (umem g) (k_junk g) (thread_run_addr g) (if_locks g).
Definition set_last (x : gmap Z ptr) (g : kglobals) : kglobals :=
  KGlobals (processes g) (kernel_process g) (current_thread g) (idle_thread g)
    (manager_object g) (nextpid g) (queue g) x (tick g) (frequency g) (uptime g)
    (sleeping_threads g) (irq_wakeup g) (kernel_pagedir g) (current_pagedir g) (frames g)
    (esp0 g) (umem g) (k_junk g) (thread_run_addr g) (if_locks g).
Definition set_tick (x : Z) (g : kglobals) : kglobals :=
  KGlobals (processes g) (kernel_process g) (current_thread g) (idle_thread g)
    (manager_object g) (nextpid g) (queue g) (last g) x (frequency g) (uptime g)
    (sleeping_threads g) (irq_wakeup g) (kernel_pagedir g) (current_pagedir g) (frames g)
    (esp0 g) (umem g) (k_junk g) (thread_run_addr g) (if_locks g).
Definition set_frequency (x : Z) (g : kglobals) : kglobals :=
  KGlobals (processes g) (kernel_process g) (current_thread g) (idle_thread g)
    (manager_object g) (nextpid g) (queue g) (last g) (tick g) x (uptime g) (sleeping_threads g)
    (irq_wakeup g) (kernel_pagedir g) (current_pagedir g) (frames g) (esp0 g) (umem g)
    (k_junk g) (thread_run_addr g) (if_locks g).
Definition set_uptime (x : Z) (g : kglobals) : kglobals :=
  KGlobals (processes g) (kernel_process g) (current_thread g) (idle_thread g)
    (manager_object g) (nextpid g) (queue g) (last g) (tick g) (frequency g) x
    (sleeping_threads g) (irq_wakeup g) (kernel_pagedir g) (current_pagedir g) (frames g)
    (esp0 g) (umem g) (k_junk g) (thread_run_addr g) (if_locks g).
Definition set_sleeping_threads (x : ptr) (g : kglobals) : kglobals :=
  KGlobals (processes g) (kernel_process g) (current_thread g) (idle_thread g)
    (manager_object g) (nextpid g) (queue g) (last g) (tick g) (frequency g) (uptime g) x
    (irq_wakeup g) (kernel_pagedir g) (current_pagedir g) (frames g) (esp0 g) (umem g)
    (k_junk g) (thread_run_addr g) (if_locks g).
Definition set_irq_wakeup (x : gmap Z ptr) (g : kglobals) : kglobals :=
  KGlobals (processes g) (kernel_process g) (current_thread g) (idle_thread g)
    (manager_object g) (nextpid g) (queue g) (last g) (tick g) (frequency g) (uptime g)
    (sleeping_threads g) x (kernel_pagedir g) (current_pagedir g) (frames g) (esp0 g) (umem g)
    (k_junk g) (thread_run_addr g) (if_locks g).
Definition set_kernel_pagedir (x : ptr) (g : kglobals) : kglobals :=
  KGlobals (processes g) (kernel_process g) (current_thread g) (idle_thread g)
    (manager_object g) (nextpid g) (queue g) (last g) (tick g) (frequency g) (uptime g)
    (sleeping_threads g) (irq_wakeup g) x (current_pagedir g) (frames g) (esp0 g) (umem g)
    (k_junk g) (thread_run_addr g) (if_locks g).
Definition set_current_pagedir (x : ptr) (g : kglobals) : kglobals :=
  KGlobals (processes g) (kernel_process g) (current_thread g) (idle_thread g)
    (manager_object g) (nextpid g) (queue g) (last g) (tick g) (frequency g) (uptime g)
    (sleeping_threads g) (irq_wakeup g) (kernel_pagedir g) x (frames g) (esp0 g) (umem g)
    (k_junk g) (thread_run_addr g) (if_locks g).
Definition set_frames (x : bitset) (g : kglobals) : kglobals :=
  KGlobals (processes g) (kernel_process g) (current_thread g) (idle_thread g)
    (manager_object g) (nextpid g) (queue g) (last g) (tick g) (frequency g) (uptime g)
    (sleeping_threads g) (irq_wakeup g) (kernel_pagedir g) (current_pagedir g) x (esp0 g)
    (umem g) (k_junk g) (thread_run_addr g) (if_locks g).
Definition set_esp0 (x : Z) (g : kglobals) : kglobals :=
  KGlobals (processes g) (kernel_process g) (current_thread g) (idle_thread g)
    (manager_object g) (nextpid g) (queue g) (last g) (tick g) (frequency g) (uptime g)
    (sleeping_threads g) (irq_wakeup g) (kernel_pagedir g) (current_pagedir g) (frames g) x
    (umem g) (k_junk g) (thread_run_addr g) (if_locks g).
Definition set_umem (x : gmap Z mem) (g : kglobals) : kglobals :=
  KGlobals (processes g) (kernel_process g) (current_thread g) (idle_thread g)
    (manager_object g) (nextpid g) (queue g) (last g) (tick g) (frequency g) (uptime g)
    (sleeping_threads g) (irq_wakeup g) (kernel_pagedir g) (current_pagedir g) (frames g)
    (esp0 g) x (k_junk g) (thread_run_addr g) (if_locks g).
Definition set_if_locks (x : Z) (g : kglobals) : kglobals :=
  KGlobals (processes g) (kernel_process g) (current_thread g) (idle_thread g)
    (manager_object g) (nextpid g) (queue g) (last g) (tick g) (frequency g) (uptime g)
    (sleeping_threads g) (irq_wakeup g) (kernel_pagedir g) (current_pagedir g) (frames g)
    (esp0 g) (umem g) (k_junk g) (thread_run_addr g) x.

(** [variable = value;] *)
Definition setg (f : kglobals -> kglobals) : M kstate unit :=
  modify (fun s => KState (k_st s) (f (k_g s))).
Definition getg {A} (f : kglobals -> A) : M kstate A := gets (fun s => f (k_g s)).
Definition set_st (x : kstores) (s : kstate) : kstate := KState x (k_g s).

(** ** Stores and links *)

#[export] Instance Store_thread : Store kstate thread.
Proof.
  refine {| st_get s := k_threads (k_st s); st_put m s := set_st (set_k_threads m (k_st s)) s |};
    by intros; repeat match goal with s : kstate |- _ => destruct s as [[] ?] end.
Defined.

#[export] Instance Store_process : Store kstate process.
Proof.
  refine {| st_get s := k_processes (k_st s); st_put m s := set_st (set_k_processes m (k_st s)) s |};
    by intros; repeat match goal with s : kstate |- _ => destruct s as [[] ?] end.
Defined.

#[export] Instance Store_object : Store kstate object.
Proof.
  refine {| st_get s := k_objects (k_st s); st_put m s := set_st (set_k_objects m (k_st s)) s |};
    by intros; repeat match goal with s : kstate |- _ => destruct s as [[] ?] end.
Defined.

#[export] Instance Store_obj_descriptor : Store kstate obj_descriptor.
Proof.
  refine {| st_get s := k_descs (k_st s); st_put m s := set_st (set_k_descs m (k_st s)) s |};
    by intros; repeat match goal with s : kstate |- _ => destruct s as [[] ?] end.
Defined.

#[export] Instance Store_request : Store kstate request.
Proof.
  refine {| st_get s := k_requests (k_st s); st_put m s := set_st (set_k_requests m (k_st s)) s |};
    by intros; repeat match goal with s : kstate |- _ => destruct s as [[] ?] end.
Defined.

#[export] Instance Store_segment : Store kstate segment.
Proof.
  refine {| st_get s := k_segments (k_st s); st_put m s := set_st (set_k_segments m (k_st s)) s |};
    by intros; repeat match goal with s : kstate |- _ => destruct s as [[] ?] end.
Defined.

#[export] Instance Store_segment_map : Store kstate segment_map.
Proof.
  refine {| st_get s := k_maps (k_st s); st_put m s := set_st (set_k_maps m (k_st s)) s |};
    by intros; repeat match goal with s : kstate |- _ => destruct s as [[] ?] end.
Defined.

#[export] Instance Store_page_directory : Store kstate page_directory.
Proof.
  refine {| st_get s := k_pagedirs (k_st s); st_put m s := set_st (set_k_pagedirs m (k_st s)) s |};
    by intros; repeat match goal with s : kstate |- _ => destruct s as [[] ?] end.
Defined.

#[export] Instance Store_page_table : Store kstate page_table.
Proof.
  refine {| st_get s := k_tables (k_st s); st_put m s := set_st (set_k_tables m (k_st s)) s |};
    by intros; repeat match goal with s : kstate |- _ => destruct s as [[] ?] end.
Defined.

#[export] Instance Store_sleeping_thread : Store kstate sleeping_thread.
Proof.
  refine {| st_get s := k_sleepers (k_st s); st_put m s := set_st (set_k_sleepers m (k_st s)) s |};
    by intros; repeat match goal with s : kstate |- _ => destruct s as [[] ?] end.
Defined.

#[export] Instance Store_irq_waiter : Store kstate irq_waiter.
Proof.
  refine {| st_get s := k_waiters (k_st s); st_put m s := set_st (set_k_waiters m (k_st s)) s |};
    by intros; repeat match goal with s : kstate |- _ => destruct s as [[] ?] end.
Defined.

#[export] Instance Store_kstack : Store kstate kstack.
Proof.
  refine {| st_get s := k_stacks (k_st s); st_put m s := set_st (set_k_stacks m (k_st s)) s |};
    by intros; repeat match goal with s : kstate |- _ => destruct s as [[] ?] end.
Defined.

#[export] Instance Linked_thread : Linked thread := {
  nxt := t_next; set_nxt := set_t_next; nxt_set _ _ := eq_refl
}.

#[export] Instance Linked_process : Linked process := {
  nxt := p_next; set_nxt := set_p_next; nxt_set _ _ := eq_refl
}.

#[export] Instance Linked_obj_descriptor : Linked obj_descriptor := {
  nxt := d_next; set_nxt := set_d_next; nxt_set _ _ := eq_refl
}.

#[export] Instance Linked_segment_map : Linked segment_map := {
  nxt := sm_next; set_nxt := set_sm_next; nxt_set _ _ := eq_refl
}.

#[export] Instance Linked_sleeping_thread : Linked sleeping_thread := {
  nxt := sl_next; set_nxt := set_sl_next; nxt_set _ _ := eq_refl
}.

#[export] Instance Linked_irq_waiter : Linked irq_waiter := {
  nxt := iw_next; set_nxt := set_iw_next; nxt_set _ _ := eq_refl
}.

(** The allocated table entry a page pointer stands for: table and index;
    [None] is the null pointer. *)
Abbreviation page_ptr := (option (ptr * Z)).

Definition zero_page : page := Page 0 0 0 0.
Definition table_page (t : page_table) (i : Z) : page := default zero_page (pages t !! i).

(** [for (i = from; i < to; i += 0x1000)] over addresses. *)
Fixpoint for_pages (n : nat) (i to : Z) (body : Z -> M kstate unit) : M kstate unit :=
  match n with
  | O => if i <? to then fail NoFuel else mret tt
  | Datatypes.S n' => if i <? to then body i;; for_pages n' (w32 (i + 0x1000)) to body else mret tt
  end.

(** Rounds enough for [len] bytes. *)
Definition page_rounds (len : Z) : nat := Z.to_nat (1 + len / 0x1000).

(** The state before anything is set up, with [n] words of free frames. *)
Definition boot_state (n : nat) (run : Z) : kstate :=
  KState (KStores ∅ ∅ ∅ ∅ ∅ ∅ ∅ ∅ ∅ ∅ ∅ ∅)
    (KGlobals 0 0 0 0 0 1 ∅ ∅ 0 0 0 0 ∅ 0 0 (Bitset (replicate n 0) (32 * Z.of_nat n)) 0 ∅ 0 run 1).

(** ** Reasoning about the stores *)

Lemma wp_getg {A} (f : kglobals -> A) s Q : Q (f (k_g s)) s -> wp (getg f) s Q.
Proof. exact id. Qed.

Lemma wp_setg (f : kglobals -> kglobals) s Q : Q tt (KState (k_st s) (f (k_g s))) -> wp (setg f) s Q.
Proof. exact id. Qed.

(** Reads of stores and globals in a state built by updates. *)
Ltac ksimp :=
  cbn [k_st k_g set_st st_get st_put
       Store_thread Store_process Store_object Store_obj_descriptor Store_request Store_segment
       Store_segment_map Store_page_directory Store_page_table Store_sleeping_thread
       Store_irq_waiter Store_kstack
       k_threads k_processes k_objects k_descs k_requests k_segments k_maps k_pagedirs k_tables
       k_sleepers k_waiters k_stacks
       set_k_threads set_k_processes set_k_objects set_k_descs set_k_requests set_k_segments
       set_k_maps set_k_pagedirs set_k_tables set_k_sleepers set_k_waiters set_k_stacks].

(** Looking an object up in an updated store. *)
Ltac klookup :=
  ksimp;
  repeat first
    [ eassumption
    | reflexivity
    | rewrite lookup_insert_eq
    | rewrite lookup_insert_ne by (done || congruence || lia)
    | rewrite lookup_delete_ne by (done || congruence || lia) ].

Ltac knonzero := first [ assumption | done | congruence | lia ].

(** One step; loads and updates only when their object is known. *)
Ltac kstep :=
  lazymatch goal with
  | |- wp (load _) _ _ => eapply wp_load; [solve [knonzero] | solve [klookup] |]
  | |- wp (update _ _) _ _ => eapply wp_update; [solve [knonzero] | solve [klookup] |]
  | |- wp (new _) _ _ => apply wp_new
  | |- wp (free _) _ _ => apply wp_free
  | |- wp (getg _) _ _ => apply wp_getg
  | |- wp (setg _) _ _ => apply wp_setg
  | |- _ => wp_step
  end;
  cbn beta.
Ltac ksteps := repeat (kstep; ksimp).

(** Running a function one operation at a time, in an equation about its
    result. *)
Ltac krun :=
  repeat (apply run_bind; kstep; ksteps; ksimp;
          lazymatch goal with |- wp _ _ _ => fail | |- _ => idtac end).
