(* ===== verification/Paging.v ===== *)
(** * Page directories

    [src/kernel/mem/paging.c] (its initialisation is in [Boot]): looking a page up
    (and making its table), mapping and unmapping it, switching and creating
    directories; [tasking_updateKernelPagetable] of [src/kernel/task/task.c],
    which keeps the kernel half of every directory the same.

    Here [kmalloc_page] takes its frame when it is called; the pages that
    [src/kernel/mem/mem.c] keeps in advance are in [Kmem]. *)

From S2P Require Import Prelude Memory Bitset Kernel.

Definition lift_frames {A} (m : M bitset A) : M kstate A :=
  zoom (fun s => frames (k_g s)) (fun b s => KState (k_st s) (set_frames b (k_g s))) m.

(** A zeroed page for a table, and its physical address. *)
Definition kmalloc_page : M kstate (ptr * Z) :=
  f ← lift_frames frame_alloc;
  p ← new (PageTable ∅ f);
  mret (p, w32 (f * 0x1000)).

(** [kfree_page] of a table. *)
Definition kfree_page (p : ptr) : M kstate unit :=
  if p =? 0 then mret tt
  else t ← load (A := page_table) p;
       when (negb (pt_frame t =? 0)) (lift_frames (frame_free (pt_frame t)));;
       free (A := page_table) p.

Definition set_table (i : Z) (t : ptr) (phys : Z) (d : page_directory) : page_directory :=
  set_tables (<[i := t]> (tables d)) (set_tablesPhysical (<[i := phys]> (tablesPhysical d)) d).

Definition dir_table (d : page_directory) (i : Z) : ptr := default 0 (tables d !! i).
Definition dir_phys (d : page_directory) (i : Z) : Z := default 0 (tablesPhysical d !! i).

(** One process of the loop of [tasking_updateKernelPagetable]. *)
Definition update_pagetable (idx : Z) (table : ptr) (phys : Z) (it : ptr) : M kstate (ptr + unit) :=
  if it =? 0 then mret (inr tt)
  else
    p ← load it;
    update (p_pagedir p) (set_table idx table phys);;
    mret (inl (p_next p)).

Definition tasking_updateKernelPagetable (idx : Z) (table : ptr) (phys : Z) : M kstate unit :=
  if idx <? 896 then mret tt
  else
    head ← getg processes;
    n ← gets (fun s => size (k_processes (k_st s)));
    loop (2 + n) (update_pagetable idx table phys) head.

Definition pagedir_getPage (pd address : ptr) (make : bool) : M kstate page_ptr :=
  let address := address / 0x1000 in
  let table_idx := address / 1024 in
  d ← load pd;
  if negb (dir_table d table_idx =? 0) then mret (Some (dir_table d table_idx, address mod 1024))
  else if make then
    tp ← kmalloc_page;
    let '(t, phys) := tp in
    update pd (set_table table_idx t phys);;
    when (896 <=? table_idx) (tasking_updateKernelPagetable table_idx t phys);;
    update t (fun t => PageTable ∅ (pt_frame t));;
    update pd (fun d => set_tablesPhysical
                 (<[table_idx := Z.lor (dir_phys d table_idx) 0x07]> (tablesPhysical d)) d);;
    mret (Some (t, address mod 1024))
  else mret None.

Definition get_page (p : ptr * Z) : M kstate page :=
  t ← load p.1; mret (table_page t p.2).
Definition put_page (p : ptr * Z) (g : page) : M kstate unit :=
  update p.1 (fun t => PageTable (<[p.2 := g]> (pages t)) (pt_frame t)).

(** The frame field has 20 bits. *)
Definition page_map (p : page_ptr) (frame user rw : Z) : M kstate unit :=
  match p with
  | None => mret tt
  | Some p =>
      g ← get_page p;
      when ((pg_frame g =? 0) && (pg_present g =? 0))
        (put_page p (Page 1 (if rw =? 0 then 0 else 1) (if user =? 0 then 0 else 1)
                       (frame mod 0x100000)))
  end.

Definition page_unmap (p : page_ptr) : M kstate unit :=
  match p with
  | None => mret tt
  | Some p => g ← get_page p; put_page p (Page 0 (pg_rw g) (pg_user g) 0)
  end.

Definition page_unmapFree (p : page_ptr) : M kstate unit :=
  match p with
  | None => mret tt
  | Some p =>
      g ← get_page p;
      when (negb (pg_frame g =? 0)) (lift_frames (frame_free (pg_frame g)));;
      put_page p (Page 0 (pg_rw g) (pg_user g) 0)
  end.

Definition pagedir_switch (pd : ptr) : M kstate unit :=
  setg (set_current_pagedir pd);;
  d ← load (A := page_directory) pd;
  mret tt.

(** Entries 896 to 1023 are the kernel's. *)
Definition kernel_half {A} (m : gmap Z A) : gmap Z A := filter (fun '(i, _) => 896 <= i < 1024) m.

Definition pagedir_new : M kstate ptr :=
  f ← lift_frames frame_alloc;
  kd ← getg kernel_pagedir;
  pd ← new (PageDirectory ∅ ∅ (w32 (f * 0x1000)) 0);
  k ← load kd;
  update pd (fun d => set_tables (kernel_half (tables k))
                        (set_tablesPhysical (kernel_half (tablesPhysical k)) d));;
  mret pd.

(** ** Lemmas *)

Lemma wp_lift_frames {A} (m : M bitset A) a b s (Q : A -> kstate -> Prop) :
  m (frames (k_g s)) = Ok (a, b) -> Q a (KState (k_st s) (set_frames b (k_g s))) ->
  wp (lift_frames m) s Q.
Proof. intros E HQ. unfold lift_frames, zoom, wp. by rewrite E. Qed.

(** The table and the index of the page of [address]. *)
Definition table_of (address : Z) : Z := address / 0x1000 / 1024.
Definition index_of (address : Z) : Z := address / 0x1000 mod 1024.

Lemma table_of_mask a : u32 a -> table_of (page_mask a) = table_of a.
Proof. intros Ha. unfold table_of. rewrite page_mask_sub by done. Z.div_mod_to_equations. lia. Qed.

Lemma index_of_mask a : u32 a -> index_of (page_mask a) = index_of a.
Proof. intros Ha. unfold index_of. rewrite page_mask_sub by done. f_equal. Z.div_mod_to_equations. lia. Qed.

Lemma wp_getPage_present pd a make d t s (Q : page_ptr -> kstate -> Prop) :
  pd <> 0 -> k_pagedirs (k_st s) !! pd = Some d -> dir_table d (table_of a) = t -> t <> 0 ->
  Q (Some (t, index_of a)) s -> wp (pagedir_getPage pd a make) s Q.
Proof.
  intros Hpd Ed <- Ht HQ. unfold pagedir_getPage. ksteps. fold (table_of a).
  rewrite (proj2 (Z.eqb_neq _ _) Ht). cbn [negb]. by ksteps.
Qed.

Lemma wp_getPage_absent pd a d s (Q : page_ptr -> kstate -> Prop) :
  pd <> 0 -> k_pagedirs (k_st s) !! pd = Some d -> dir_table d (table_of a) = 0 ->
  Q None s -> wp (pagedir_getPage pd a false) s Q.
Proof.
  intros Hpd Ed Et HQ. unfold pagedir_getPage. ksteps. fold (table_of a). rewrite Et.
  cbn [Z.eqb negb]. by ksteps.
Qed.

(** The directory entry made by [pagedir_getPage]. *)
Definition with_table (i t phys : Z) (d : page_directory) : page_directory :=
  set_tablesPhysical (<[i := Z.lor phys 0x07]> (tablesPhysical (set_table i t phys d))) (set_table i t phys d).

Lemma with_table_tab i t phys d j : dir_table (with_table i t phys d) j = if decide (j = i) then t else dir_table d j.
Proof.
  unfold dir_table; cbn. destruct (decide (j = i)) as [->|]; [by rewrite lookup_insert_eq | by rewrite lookup_insert_ne].
Qed.

Lemma with_table_phys i t phys d j :
  Z.odd (dir_phys (with_table i t phys d) j) = if decide (j = i) then true else Z.odd (dir_phys d j).
Proof.
  unfold dir_phys; cbn. destruct (decide (j = i)) as [->|].
  - rewrite lookup_insert_eq. cbn [default from_option id]. by rewrite <- Z.bit0_odd, Z.lor_spec, orb_true_r.
  - by rewrite !lookup_insert_ne by done.
Qed.

(** A new table for [a], empty, in frame [f]. *)
Definition with_new_table (pd a : Z) (d : page_directory) (f : Z) (b : bitset) (s : kstate) : kstate :=
  let t := fresh_ptr (k_tables (k_st s)) in
  KState
    (set_k_pagedirs (<[pd := with_table (table_of a) t (w32 (f * 0x1000)) d]> (k_pagedirs (k_st s)))
      (set_k_tables (<[t := PageTable ∅ f]> (k_tables (k_st s))) (k_st s)))
    (set_frames b (k_g s)).

Lemma wp_getPage_makes pd a d f b s (Q : page_ptr -> kstate -> Prop) :
  pd <> 0 -> k_pagedirs (k_st s) !! pd = Some d -> dir_table d (table_of a) = 0 -> table_of a < 896 ->
  frame_alloc (frames (k_g s)) = Ok (f, b) ->
  Q (Some (fresh_ptr (k_tables (k_st s)), index_of a)) (with_new_table pd a d f b s) ->
  wp (pagedir_getPage pd a true) s Q.
Proof.
  intros Hpd Ed Et Hi Ef HQ. assert (Htn : fresh_ptr (k_tables (k_st s)) <> 0) by (pose proof (fresh_ptr_pos (k_tables (k_st s))); lia).
  assert (E896 : (896 <=? table_of a) = false) by (apply Z.leb_gt; lia).
  unfold pagedir_getPage. ksteps. fold (table_of a). rewrite Et. cbn [Z.eqb negb].
  ksteps. unfold kmalloc_page. ksteps. eapply wp_lift_frames; [exact Ef|]. ksteps. rewrite E896.
  unfold when. ksteps. rewrite !insert_insert_eq.
  assert (dir_phys (set_table (table_of a) (fresh_ptr (k_tables (k_st s))) (w32 (f * 0x1000)) d) (table_of a) = w32 (f * 0x1000))
    as -> by (unfold dir_phys; cbn; by rewrite lookup_insert_eq).
  exact HQ.
Qed.

(** Writing page [i] of table [t]. *)
Definition with_page (t i : Z) (tb : page_table) (g : page) (s : kstate) : kstate :=
  set_st (set_k_tables (<[t := PageTable (<[i := g]> (pages tb)) (pt_frame tb)]> (k_tables (k_st s))) (k_st s)) s.

Lemma wp_page_map t i tb f u w s (Q : unit -> kstate -> Prop) :
  t <> 0 -> k_tables (k_st s) !! t = Some tb ->
  pg_frame (table_page tb i) = 0 -> pg_present (table_page tb i) = 0 ->
  Q tt (with_page t i tb (Page 1 (if w =? 0 then 0 else 1) (if u =? 0 then 0 else 1) (f mod 0x100000)) s) ->
  wp (page_map (Some (t, i)) f u w) s Q.
Proof.
  intros Ht Et Ef Ep HQ. unfold page_map, get_page, put_page. cbn [fst snd]. ksteps. rewrite Ef, Ep.
  cbn [Z.eqb andb]. unfold when. by ksteps.
Qed.

(** Directory [q] of [ds] has table [t], at [phys], as entry [idx]. *)
Definition has_table (ds : gmap Z page_directory) (idx t phys : Z) (q : ptr) : Prop :=
  exists d, ds !! q = Some d /\ dir_table d idx = t /\ dir_phys d idx = phys.

Lemma has_table_set ds idx t phys q d :
  has_table (<[q := set_table idx t phys d]> ds) idx t phys q.
Proof.
  eexists. rewrite lookup_insert_eq. split; [done|].
  unfold dir_table, dir_phys; cbn. by rewrite !lookup_insert_eq.
Qed.

Lemma has_table_insert ds idx t phys q q' d :
  has_table ds idx t phys q -> has_table (<[q' := set_table idx t phys d]> ds) idx t phys q.
Proof.
  intros H. destruct (decide (q = q')) as [->|Hne]; [apply has_table_set|].
  destruct H as (d' & Ed & ?). exists d'. by rewrite lookup_insert_ne by done.
Qed.

(** The loop over the processes: every directory of the list gets the
    entry, other directories are left alone. *)
Lemma update_loop_ok idx t phys l : forall p n s,
  linked (k_processes (k_st s)) p l -> (length l < n)%nat ->
  (forall x pr, x ∈ l -> k_processes (k_st s) !! x = Some pr ->
     p_pagedir pr <> 0 /\ is_Some (k_pagedirs (k_st s) !! p_pagedir pr)) ->
  exists ds, loop n (update_pagetable idx t phys) p s
             = Ok (tt, set_st (set_k_pagedirs ds (k_st s)) s) /\
    (forall x pr, x ∈ l -> k_processes (k_st s) !! x = Some pr -> has_table ds idx t phys (p_pagedir pr)) /\
    (forall q, has_table (k_pagedirs (k_st s)) idx t phys q -> has_table ds idx t phys q) /\
    (forall q, (forall x pr, x ∈ l -> k_processes (k_st s) !! x = Some pr -> p_pagedir pr <> q) ->
       ds !! q = k_pagedirs (k_st s) !! q).
Proof.
  induction l as [|x l IH]; intros p n s Hl Hn Hpd; (destruct n as [|n]; [simpl in Hn; lia|]);
    rewrite loop_S.
  - apply linked_nil in Hl as ->. exists (k_pagedirs (k_st s)). split; [by destruct s as [[] ?]|].
    split; [set_solver|]. by split.
  - destruct Hl as (-> & Hx & pr & Epr & Hl). cbn [nxt Linked_process] in Hl.
    destruct (Hpd x pr) as (Hnz & d & Ed); [set_solver | done |].
    set (s1 := set_st (set_k_pagedirs (<[p_pagedir pr := set_table idx t phys d]> (k_pagedirs (k_st s))) (k_st s)) s).
    destruct (IH (p_next pr) n s1 Hl) as (ds & E & H1 & H2 & H3); [simpl in Hn; lia | |].
    { intros y pr' Hy Ey. destruct (Hpd y pr') as (? & Hs); [set_solver | done |]. split; [done|].
      unfold s1; ksimp. destruct (decide (p_pagedir pr = p_pagedir pr')) as [Eq|];
        [rewrite Eq, lookup_insert_eq | rewrite lookup_insert_ne by done]; eauto. }
    exists ds. split; [|split; [|split]].
    + rewrite (bind_Ok _ _ s (inl (p_next pr)) s1); [exact E|]. apply wp_eq_Ok. unfold update_pagetable.
      rewrite (proj2 (Z.eqb_neq _ _) Hx). by ksteps.
    + intros y pr' [->|Hy]%elem_of_cons Ey; [|by apply H1 with y].
      assert (pr' = pr) as -> by congruence. apply H2. unfold s1; ksimp. apply has_table_set.
    + intros q Hq. apply H2. unfold s1; ksimp. by apply has_table_insert.
    + intros q Hq. rewrite H3 by (intros y pr' Hy; apply Hq; set_solver). unfold s1; ksimp.
      apply lookup_insert_ne. apply (Hq x pr); [set_solver | done].
Qed.

(** ** A sample: one process (directory 11), kernel directory 10, tables
    present for addresses from 0x400000 to 0x7FFFFF *)

Definition sample_paging : kstate :=
  let s := boot_state 4 0 in
  KState
    (set_k_pagedirs {[ 10 := PageDirectory ∅ ∅ 0 0; 11 := PageDirectory {[ 1 := 20 ]} {[ 1 := 0x5007 ]} 0 0 ]}
      (set_k_tables {[ 20 := PageTable ∅ 5 ]}
        (set_k_processes {[ 1 := Process 1 0 3 0 0 11 0 0 0 0 0 0 ]} (k_st s))))
    (set_processes 1 (set_kernel_pagedir 10 (set_current_pagedir 11 (set_frames (Bitset [0x7F; 0] 64) (k_g s))))).

(** ** Theorems *)

(** When a new table is made in the kernel half, every process gets it
    (same table, same physical address), but [tasking_updateKernelPagetable]
    is called before the flags are set: the entry of the process has not the
    present bit, which only the directory that asked gets. *)
Theorem kernel_table_not_present pd d a f b l s :
  pd <> 0 -> k_pagedirs (k_st s) !! pd = Some d -> u32 a -> 0xE0000000 <= a ->
  dir_table d (table_of a) = 0 -> frame_alloc (frames (k_g s)) = Ok (f, b) ->
  linked (k_processes (k_st s)) (processes (k_g s)) l ->
  (forall x pr, x ∈ l -> k_processes (k_st s) !! x = Some pr ->
     p_pagedir pr <> 0 /\ p_pagedir pr <> pd /\ is_Some (k_pagedirs (k_st s) !! p_pagedir pr)) ->
  let t := fresh_ptr (k_tables (k_st s)) in
  exists s', pagedir_getPage pd a true s = Ok (Some (t, index_of a), s') /\
    (exists d', k_pagedirs (k_st s') !! pd = Some d' /\ dir_table d' (table_of a) = t /\
       Z.testbit (dir_phys d' (table_of a)) 0 = true) /\
    (forall x pr, x ∈ l -> k_processes (k_st s) !! x = Some pr ->
       exists d', k_pagedirs (k_st s') !! p_pagedir pr = Some d' /\ dir_table d' (table_of a) = t /\
         Z.testbit (dir_phys d' (table_of a)) 0 = false).
Proof.
  intros Hpd Ed Ha Hk Ht0 Ef Hl Hps t. assert (Htn : t <> 0) by (pose proof (fresh_ptr_pos (k_tables (k_st s))); unfold t; lia).
  assert (Hi : 896 <= table_of a) by (unfold table_of, u32 in *; Z.div_mod_to_equations; lia).
  set (phys := w32 (f * 0x1000)).
  set (d1 := set_table (table_of a) t phys d).
  set (s1 := KState (set_k_pagedirs (<[pd := d1]> (k_pagedirs (k_st s)))
               (set_k_tables (<[t := PageTable ∅ f]> (k_tables (k_st s))) (k_st s))) (set_frames b (k_g s))).
  destruct (update_loop_ok (table_of a) t phys l (processes (k_g s)) (2 + size (k_processes (k_st s1))) s1)
    as (ds & E & H1 & _ & H3); [done | | |].
  { pose proof (linked_length _ _ _ Hl). cbn. lia. }
  { intros x pr Hx Ex. destruct (Hps x pr Hx Ex) as (? & Hne & Hs). split; [done|]. cbn.
    by rewrite lookup_insert_ne. }
  assert (Ed1 : ds !! pd = Some d1).
  { rewrite H3; [apply lookup_insert_eq|]. intros x pr Hx Ex. by apply (Hps x pr). }
  set (d2 := set_tablesPhysical (<[table_of a := Z.lor phys 0x07]> (tablesPhysical d1)) d1).
  set (s2 := KState (set_k_pagedirs (<[pd := d2]> ds) (k_st s1)) (k_g s1)).
  exists s2. split; [|split].
  - apply wp_eq_Ok. unfold pagedir_getPage. ksteps. fold (table_of a). rewrite Ht0. cbn [Z.eqb negb].
    ksteps. unfold kmalloc_page. ksteps. eapply wp_lift_frames; [exact Ef|]. ksteps. fold phys t.
    rewrite (proj2 (Z.leb_le _ _) Hi). unfold when, tasking_updateKernelPagetable. ksteps.
    rewrite (proj2 (Z.ltb_ge _ _) Hi). ksteps. eapply wp_eq; [exact E|]. unfold s1. ksteps.
    unfold s2, s1; ksimp. rewrite insert_insert_eq.
    assert (dir_phys d1 (table_of a) = phys) as -> by (unfold dir_phys, d1; cbn; by rewrite lookup_insert_eq).
    reflexivity.
  - exists d2. cbn. rewrite lookup_insert_eq. split; [done|]. unfold dir_table, dir_phys; cbn.
    rewrite !lookup_insert_eq. split; [done|].
    change (Z.testbit (Z.lor phys 7) 0 = true). by rewrite Z.lor_spec, orb_true_r.
  - intros x pr Hx Ex. destruct (H1 x pr Hx Ex) as (d' & E' & Et & Ep). destruct (Hps x pr Hx Ex) as (_ & Hne & _).
    exists d'. cbn. rewrite lookup_insert_ne by done. split; [done|]. split; [done|]. rewrite Ep.
    change (Z.odd phys = false). unfold phys, w32.
    replace (f * 0x1000 mod W32) with (2 * (f * 2048 - 2147483648 * (f * 0x1000 / W32)))
      by (pose proof (Z.div_mod (f * 0x1000) W32); lia).
    by rewrite Z.odd_mul.
Qed.

Lemma kernel_table_not_present_witness :
  exists s', pagedir_getPage 10 0xE0000000 true sample_paging = Ok (Some (21, 0), s') /\
    (exists d', k_pagedirs (k_st s') !! 10 = Some d' /\ dir_table d' 896 = 21 /\
       Z.testbit (dir_phys d' 896) 0 = true) /\
    (forall x pr, x ∈ [1] -> k_processes (k_st sample_paging) !! x = Some pr ->
       exists d', k_pagedirs (k_st s') !! p_pagedir pr = Some d' /\ dir_table d' 896 = 21 /\
         Z.testbit (dir_phys d' 896) 0 = false).
Proof.
  apply (kernel_table_not_present 10 (PageDirectory ∅ ∅ 0 0) 0xE0000000 7 (Bitset [0xFF; 0] 64) [1] sample_paging);
    try reflexivity; try done; try lia.
  - repeat (eexists || split || done).
  - intros x pr ->%list_elem_of_singleton [= <-]. cbn. split; [done|]. split; [done|]. by eexists.
Defined.
