(* ===== verification/Sched.v ===== *)
(** * The scheduler's queues

    [src/kernel/task/sched.c], and waking threads up
    ([src/kernel/task/task.c]).  Four queues, one per privilege level, each
    a list threaded through [queue_next]; the theorems say that they behave
    like four FIFO lists, and that the lowest-numbered non-empty one is
    served first. *)

From S2P Require Import Prelude Memory Bitset Kernel.

Definition PRIORITIES : nat := 4.

Definition q_head (g : kglobals) (qid : Z) : ptr := default 0 (queue g !! qid).
Definition q_last (g : kglobals) (qid : Z) : ptr := default 0 (last g !! qid).
Definition set_q_head (qid : Z) (t : ptr) (g : kglobals) : kglobals := set_queue (<[qid := t]> (queue g)) g.
Definition set_q_last (qid : Z) (t : ptr) (g : kglobals) : kglobals := set_last (<[qid := t]> (last g)) g.

(** [queue] and [last] have four entries. *)
Definition in_queues (qid : Z) : M kstate unit :=
  if (0 <=? qid) && (qid <? Z.of_nat PRIORITIES) then mret tt else fail (BadAccess qid).

Definition sched_enqueueIn (t : ptr) (qid : Z) : M kstate unit :=
  update t (set_queue_next 0);;
  in_queues qid;;
  h ← getg (fun g => q_head g qid);
  if h =? 0 then setg (set_q_last qid t);; setg (set_q_head qid t)
  else
    l ← getg (fun g => q_last g qid);
    update l (set_queue_next t);;
    setg (set_q_last qid t).

Definition sched_dequeueFrom (qid : Z) : M kstate ptr :=
  in_queues qid;;
  it ← getg (fun g => q_head g qid);
  if it =? 0 then mret 0
  else
    t ← load (A := thread) it;
    l ← getg (fun g => q_last g qid);
    (* ASSERT *)
    if negb (((queue_next t =? 0) && (it =? l)) || negb (it =? l)) then fail Panic
    else
      setg (set_q_head qid (queue_next t));;
      (if queue_next t =? 0 then setg (set_q_last qid 0) else mret tt);;
      mret it.

(** [PRIORITY(t)] *)
Definition priority (t : ptr) : M kstate Z :=
  th ← load t; p ← load (t_process th); mret (privilege p).

Definition sched_enqueue (t : ptr) : M kstate unit :=
  idle ← getg idle_thread;
  if t =? idle then mret tt
  else q ← priority t; sched_enqueueIn t q.

(** The loop of [sched_dequeue], from queue [i] on. *)
Fixpoint dequeue_from (i : Z) (n : nat) : M kstate ptr :=
  match n with
  | O => mret 0
  | Datatypes.S n' =>
      it ← sched_dequeueFrom i;
      if negb (it =? 0) then mret it else dequeue_from (i + 1) n'
  end.

Definition sched_dequeue : M kstate ptr :=
  it ← dequeue_from 0 PRIORITIES;
  if it =? 0 then getg idle_thread else mret it.

(** [thread_wakeUp] of [task.c]. *)
Definition thread_wakeUp (t : ptr) : M kstate unit :=
  th ← load t;
  when (t_state th =? TS_WAKEWAIT) (update t (set_t_state TS_RUNNING);; sched_enqueue t).

(** ** Specification: four lists *)

(** The queues are linked through [queue_next], not through the list of the
    process' threads. *)
Definition queue_link : Linked thread := {|
  nxt := queue_next; set_nxt := set_queue_next; nxt_set _ _ := eq_refl
|}.

Definition qlinked (ts : gmap Z thread) (p : ptr) (l : list Z) : Prop := @linked thread queue_link ts p l.

Definition is_priority (q : Z) : Prop := 0 <= q < 4.

(** The queues of [s] hold the lists [qs]; a thread is in one at most. *)
Record queues_ok (s : kstate) (qs : Z -> list Z) : Prop := {
  qo_linked q : is_priority q -> qlinked (k_threads (k_st s)) (q_head (k_g s) q) (qs q);
  qo_last q : is_priority q -> qs q <> [] -> list.last (qs q) = Some (q_last (k_g s) q);
  qo_disjoint q q' x : is_priority q -> is_priority q' -> q <> q' -> x ∈ qs q -> x ∉ qs q'
}.

Definition upd (qs : Z -> list Z) (q : Z) (l : list Z) : Z -> list Z := fun i => if i =? q then l else qs i.

(** [ts'] is [ts] but for queue links (and [f] for the thread [t]). *)
Definition same_threads (ts ts' : gmap Z thread) : Prop :=
  forall x, set_queue_next 0 <$> ts' !! x = set_queue_next 0 <$> ts !! x.

(** ** Lemmas *)

Lemma same_threads_refl ts : same_threads ts ts.
Proof. intros x. reflexivity. Qed.

Lemma same_threads_trans ts ts' ts'' : same_threads ts ts' -> same_threads ts' ts'' -> same_threads ts ts''.
Proof. intros H1 H2 x. by rewrite H2. Qed.

Lemma same_threads_insert ts x t v : ts !! x = Some t -> same_threads ts (<[x := set_queue_next v t]> ts).
Proof.
  intros E y. destruct (decide (x = y)) as [->|Hne]; [|by rewrite lookup_insert_ne].
  rewrite lookup_insert_eq, E. reflexivity.
Qed.

Lemma same_threads_some ts ts' x t : same_threads ts ts' -> ts !! x = Some t ->
  exists v, ts' !! x = Some (set_queue_next v t).
Proof.
  intros Hs E. specialize (Hs x). rewrite E in Hs. destruct (ts' !! x) as [t'|]; [|done].
  exists (queue_next t'). injection Hs as Hs. destruct t, t'. unfold set_queue_next in *; cbn in *. congruence.
Qed.

Lemma upd_eq qs q l : upd qs q l q = l.
Proof. unfold upd. by rewrite Z.eqb_refl. Qed.

Lemma upd_ne qs q l i : i <> q -> upd qs q l i = qs i.
Proof. intros Hne. unfold upd. by destruct (Z.eqb_spec i q). Qed.

Lemma q_head_set q t g i : q_head (set_q_head q t g) i = if i =? q then t else q_head g i.
Proof.
  unfold q_head, set_q_head. cbn. destruct (Z.eqb_spec i q) as [->|Hne].
  - by rewrite lookup_insert_eq.
  - by rewrite lookup_insert_ne by congruence.
Qed.

Lemma q_last_set q t g i : q_last (set_q_last q t g) i = if i =? q then t else q_last g i.
Proof.
  unfold q_last, set_q_last. cbn. destruct (Z.eqb_spec i q) as [->|Hne].
  - by rewrite lookup_insert_eq.
  - by rewrite lookup_insert_ne by congruence.
Qed.

Lemma q_last_set_head q t g i : q_last (set_q_head q t g) i = q_last g i.
Proof. reflexivity. Qed.

Lemma q_head_set_last q t g i : q_head (set_q_last q t g) i = q_head g i.
Proof. reflexivity. Qed.

Lemma wp_in_queues q s Q : is_priority q -> Q tt s -> wp (in_queues q) s Q.
Proof.
  intros [? ?] HQ. unfold in_queues. change (Z.of_nat PRIORITIES) with 4.
  rewrite (proj2 (Z.leb_le _ _)), (proj2 (Z.ltb_lt _ _)) by lia.
  exact HQ.
Qed.

(** What an enqueue leaves: the thread is the last of its queue, and only
    queue links and the two arrays changed. *)
Record enqueued (t q : Z) (qs : Z -> list Z) (s s' : kstate) : Prop := {
  eq_queues : queues_ok s' (upd qs q (qs q ++ [t]));
  eq_threads : same_threads (k_threads (k_st s)) (k_threads (k_st s'));
  eq_stores : k_st s' = set_k_threads (k_threads (k_st s')) (k_st s);
  eq_globals : k_g s' = set_queue (queue (k_g s')) (set_last (last (k_g s')) (k_g s))
}.

Lemma queues_same_links s s' qs q : queues_ok s qs -> is_priority q ->
  k_g s' = k_g s ->
  (forall x, x ∈ qs q -> k_threads (k_st s') !! x = k_threads (k_st s) !! x) ->
  qlinked (k_threads (k_st s')) (q_head (k_g s') q) (qs q).
Proof. intros W Hq -> Hx. eapply lseg_agree; [exact Hx | by apply W]. Qed.

Lemma enqueue_empty t th q qs s : queues_ok s qs -> is_priority q ->
  k_threads (k_st s) !! t = Some th -> t <> 0 -> (forall i, is_priority i -> t ∉ qs i) -> qs q = [] ->
  enqueued t q qs s
    (KState (set_k_threads (<[t := set_queue_next 0 th]> (k_threads (k_st s))) (k_st s))
       (set_q_head q t (set_q_last q t (k_g s)))).
Proof.
  intros W Hq Et Ht Hnt Eq. split.
  - split.
    + intros i Hi. cbn [k_st k_g k_threads set_k_threads]. rewrite q_head_set, q_head_set_last. unfold upd.
      destruct (Z.eqb_spec i q) as [->|Hne].
      * rewrite Eq. split; [done|]. split; [done|]. eexists. by rewrite lookup_insert_eq.
      * apply (lseg_frame (H := queue_link)); [by apply Hnt|]. by apply W.
    + intros i Hi. cbn [k_g]. rewrite q_last_set_head, q_last_set. unfold upd.
      destruct (Z.eqb_spec i q) as [->|Hne]; [by rewrite Eq | by apply W].
    + intros i j x Hi Hj Hij. unfold upd. destruct (Z.eqb_spec i q) as [->|], (Z.eqb_spec j q) as [->|];
        try done; try by apply W.
      * rewrite Eq. intros ->%list_elem_of_singleton. by apply Hnt.
      * rewrite Eq. intros Hx Et'%list_elem_of_singleton. subst x. exact (Hnt i Hi Hx).
  - cbn. by apply same_threads_insert.
  - done.
  - by destruct (k_g s).
Qed.

Lemma enqueue_last t th z zh q l qs s : queues_ok s qs -> is_priority q ->
  k_threads (k_st s) !! t = Some th -> t <> 0 -> (forall i, is_priority i -> t ∉ qs i) ->
  qs q = l ++ [z] -> k_threads (k_st s) !! z = Some zh ->
  enqueued t q qs s
    (KState (set_k_threads (<[z := set_queue_next t zh]>
                              (<[t := set_queue_next 0 th]> (k_threads (k_st s)))) (k_st s))
       (set_q_last q t (k_g s))).
Proof.
  intros W Hq Et Ht Hnt Eq Ez.
  assert (Hzt : z <> t). { intros ->. apply (Hnt q Hq). rewrite Eq. set_solver. }
  assert (Hz : z ∈ qs q) by (rewrite Eq; set_solver).
  split.
  - split.
    + intros i Hi. cbn [k_st k_g k_threads set_k_threads]. rewrite q_head_set_last. unfold upd.
      destruct (Z.eqb_spec i q) as [->|Hne].
      * rewrite Eq, <- app_assoc. apply (lseg_snoc (H := queue_link) _ _ _ _ zh _ t (set_queue_next 0 th)).
        -- rewrite <- Eq. apply (lseg_frame (H := queue_link)); [by apply Hnt | by apply W].
        -- by rewrite lookup_insert_ne by done.
        -- done.
        -- done.
        -- rewrite <- Eq. by apply Hnt.
        -- apply lookup_insert_eq.
        -- done.
      * apply (lseg_frame (H := queue_link)); [intros Hzi; by apply (qo_disjoint _ _ W i q z) in Hzi|].
        apply (lseg_frame (H := queue_link)); [by apply Hnt | by apply W].
    + intros i Hi. cbn [k_g]. rewrite q_last_set. unfold upd.
      destruct (Z.eqb_spec i q) as [->|Hne]; [by rewrite last_snoc | by apply W].
    + intros i j x Hi Hj Hij. unfold upd.
      destruct (Z.eqb_spec i q) as [->|], (Z.eqb_spec j q) as [->|]; try done; try by apply W.
      * intros [?| ->%list_elem_of_singleton]%elem_of_app; [by apply (qo_disjoint _ _ W q j) | by apply Hnt].
      * intros Hx [?|Et'%list_elem_of_singleton]%elem_of_app.
        -- by apply (qo_disjoint _ _ W i q x) in Hx.
        -- subst x. exact (Hnt i Hi Hx).
  - cbn. eapply (same_threads_trans _ (<[t := set_queue_next 0 th]> (k_threads (k_st s))));
      [by apply same_threads_insert|].
    apply same_threads_insert. by rewrite lookup_insert_ne.
  - done.
  - by destruct (k_g s).
Qed.

Lemma sched_enqueueIn_ok t th q qs s : queues_ok s qs -> is_priority q ->
  k_threads (k_st s) !! t = Some th -> t <> 0 -> (forall i, is_priority i -> t ∉ qs i) ->
  exists s', sched_enqueueIn t q s = Ok (tt, s') /\ enqueued t q qs s s'.
Proof.
  intros W Hq Et Ht Hnt.
  apply wp_run.
  unfold sched_enqueueIn. ksteps. apply wp_in_queues; [done|]. ksteps.
  pose proof (qo_linked _ _ W q Hq) as Hl.
  destruct (qs q) as [|z l _] eqn:Eq using rev_ind.
  - apply (linked_nil (H := queue_link)) in Hl. rewrite Hl. cbn [Z.eqb]. ksteps.
    by apply enqueue_empty with (th := th).
  - assert (Hh : q_head (k_g s) q <> 0).
    { intros E0. unfold qlinked in Hl. rewrite E0 in Hl. destruct l; cbn in Hl; destruct Hl as (<- & ? & _); done. }
    rewrite (proj2 (Z.eqb_neq _ _) Hh). ksteps.
    assert (Hla : q_last (k_g s) q = z).
    { pose proof (qo_last _ _ W q Hq) as HL. rewrite Eq, last_snoc in HL.
      specialize (HL ltac:(by destruct l)). congruence. }
    rewrite Hla.
    destruct (lseg_in_dom (H := queue_link) _ _ _ _ z Hl) as (Hz & zh & Ez); [set_solver|].
    assert (z <> t). { intros ->. apply (Hnt q Hq). rewrite Eq. set_solver. }
    ksteps.
    by apply enqueue_last with (th := th) (l := l).
Qed.

(** What a dequeue of [t] from [q] leaves. *)
Record dequeued (q : Z) (qs : Z -> list Z) (l : list Z) (s s' : kstate) : Prop := {
  dq_queues : queues_ok s' (upd qs q l);
  dq_stores : k_st s' = k_st s;
  dq_globals : k_g s' = set_queue (queue (k_g s')) (set_last (last (k_g s')) (k_g s))
}.

Lemma sched_dequeueFrom_empty q qs s : queues_ok s qs -> is_priority q -> qs q = [] ->
  sched_dequeueFrom q s = Ok (0, s).
Proof.
  intros W Hq Eq. pose proof (qo_linked _ _ W q Hq) as Hl. rewrite Eq in Hl.
  apply (linked_nil (H := queue_link)) in Hl.
  cut (wp (sched_dequeueFrom q) s (fun r s' => r = 0 /\ s' = s)).
  { intros (? & ? & E & -> & ->)%wp_Ok. done. }
  unfold sched_dequeueFrom. ksteps. apply wp_in_queues; [done|]. ksteps. rewrite Hl. cbn [Z.eqb].
  by ksteps.
Qed.

Lemma dequeued_queues t q qs l s g' : queues_ok s qs -> is_priority q -> qs q = t :: l ->
  (forall i, q_head g' i = if i =? q then q_head g' q else q_head (k_g s) i) ->
  (forall i, q_last g' i = if i =? q then q_last g' q else q_last (k_g s) i) ->
  qlinked (k_threads (k_st s)) (q_head g' q) l ->
  (l <> [] -> q_last g' q = q_last (k_g s) q) ->
  queues_ok (KState (k_st s) g') (upd qs q l).
Proof.
  intros W Hq Eq Hh Hla Hl Hll. split; ksimp.
  - intros i Hi. rewrite Hh. unfold upd. destruct (Z.eqb_spec i q); [done | by apply W].
  - intros i Hi. rewrite Hla. unfold upd. destruct (Z.eqb_spec i q) as [->|]; [|by apply W].
    intros Hne. rewrite Hll by done. rewrite <- (qo_last _ _ W q Hq) by (by rewrite Eq).
    rewrite Eq. by destruct l.
  - intros i j x Hi Hj Hij. unfold upd.
    destruct (Z.eqb_spec i q) as [->|], (Z.eqb_spec j q) as [->|]; try done; try by apply W.
    + intros Hx. apply (qo_disjoint _ _ W q j); try done. rewrite Eq. set_solver.
    + intros Hx Hx'. apply (qo_disjoint _ _ W i q x); try done. rewrite Eq. set_solver.
Qed.

Lemma sched_dequeueFrom_ok t q l qs s : queues_ok s qs -> is_priority q -> qs q = t :: l ->
  exists s', sched_dequeueFrom q s = Ok (t, s') /\ t <> 0 /\ dequeued q qs l s s'.
Proof.
  intros W Hq Eq. pose proof (qo_linked _ _ W q Hq) as Hl. rewrite Eq in Hl.
  pose proof (linked_NoDup (H := queue_link) _ _ _ Hl) as Hnd.
  destruct Hl as (Hh & Ht & th & Et & Hl). cbn [nxt queue_link] in Hl.
  pose proof (qo_last _ _ W q Hq) as Hla. rewrite Eq in Hla. specialize (Hla ltac:(done)).
  apply wp_val. unfold sched_dequeueFrom. ksteps. apply wp_in_queues; [done|]. ksteps. rewrite Hh.
  rewrite (proj2 (Z.eqb_neq t 0) Ht). ksteps.
  destruct l as [|u l].
  - injection Hla as Hla. rewrite <- Hla. apply (linked_nil (H := queue_link)) in Hl.
    rewrite Hl, !Z.eqb_refl. cbn [Z.eqb andb orb negb]. ksteps. split; [done|]. split; [done|]. split; [|done|].
    + apply (dequeued_queues t); try done.
      * intros i. rewrite !q_head_set_last, !q_head_set, Z.eqb_refl. done.
      * intros i. rewrite !q_last_set, !q_last_set_head, Z.eqb_refl. done.
      * rewrite q_head_set_last, q_head_set, Z.eqb_refl. done.
    + by destruct (k_g s).
  - assert (Hne : queue_next th <> 0) by (destruct Hl as (-> & ? & _); done).
    assert (Htl : t <> q_last (k_g s) q).
    { intros E. apply NoDup_cons in Hnd as [Hn _]. apply Hn. rewrite E.
      apply last_Some_elem_of. by rewrite <- Hla. }
    rewrite (proj2 (Z.eqb_neq _ _) Hne), (proj2 (Z.eqb_neq _ _) Htl). cbn [andb orb negb]. ksteps.
    split; [done|]. split; [done|]. split; [|done|].
    + apply (dequeued_queues t); try done.
      * intros i. rewrite !q_head_set, Z.eqb_refl. done.
      * intros i. rewrite !q_last_set_head. destruct (Z.eqb_spec i q) as [->|]; done.
      * rewrite q_head_set, Z.eqb_refl. done.
    + by destruct (k_g s).
Qed.

(** The first non-empty queue from [i] on. *)
Lemma dequeue_from_ok qs s n : forall i, queues_ok s qs -> 0 <= i -> i + Z.of_nat n = 4 ->
  (forall j, 0 <= j < i -> qs j = []) ->
  ((forall j, is_priority j -> qs j = []) /\ dequeue_from i n s = Ok (0, s)) \/
  (exists q t l s', is_priority q /\ qs q = t :: l /\ (forall j, 0 <= j < q -> qs j = []) /\
     dequeue_from i n s = Ok (t, s') /\ t <> 0 /\ dequeued q qs l s s').
Proof.
  induction n as [|n IH]; intros i W Hi Hn He; cbn [dequeue_from].
  - left. split; [|done]. intros j ?. apply He. unfold is_priority in *. lia.
  - assert (Hq : is_priority i) by (unfold is_priority; lia).
    destruct (qs i) as [|t l] eqn:Eq.
    + rewrite (bind_Ok _ _ _ _ _ (sched_dequeueFrom_empty _ _ _ W Hq Eq)). cbn [Z.eqb negb].
      apply IH; try done; try lia. intros j Hj. destruct (Z.eq_dec j i) as [->|]; [done|].
      apply He. lia.
    + right. destruct (sched_dequeueFrom_ok _ _ _ _ _ W Hq Eq) as (s' & E & Ht & D).
      exists i, t, l, s'. split; [done|]. split; [done|]. split; [done|]. split; [|done].
      rewrite (bind_Ok _ _ _ _ _ E). rewrite (proj2 (Z.eqb_neq _ _) Ht). done.
Qed.

Lemma sched_enqueue_ok t th p q qs s :
  queues_ok s qs -> k_threads (k_st s) !! t = Some th -> t <> 0 ->
  (forall i, is_priority i -> t ∉ qs i) -> t_process th <> 0 ->
  k_processes (k_st s) !! t_process th = Some p -> privilege p = q -> is_priority q ->
  t <> idle_thread (k_g s) ->
  exists s', sched_enqueue t s = Ok (tt, s') /\ enqueued t q qs s s'.
Proof.
  intros W Et Ht Hnt Hp Ep <- Hq Hi.
  destruct (sched_enqueueIn_ok t th (privilege p) qs s W Hq Et Ht Hnt) as (s' & E & En).
  apply wp_run. unfold sched_enqueue, priority. ksteps. rewrite (proj2 (Z.eqb_neq _ _) Hi). ksteps.
  by eapply wp_eq.
Qed.

Lemma queues_ok_empty s : (forall q, is_priority q -> q_head (k_g s) q = 0) -> queues_ok s (fun _ => []).
Proof.
  intros Hq. split; [intros q Hpq; by apply (linked_nil (H := queue_link)), Hq | done |].
  intros q q' x _ _ _ Hx. by apply elem_of_nil in Hx.
Qed.

(** Writing a field that is not the queue link changes no queue. *)
Lemma queues_ok_write t th th' qs s : queues_ok s qs -> k_threads (k_st s) !! t = Some th ->
  queue_next th' = queue_next th ->
  queues_ok (set_st (set_k_threads (<[t := th']> (k_threads (k_st s))) (k_st s)) s) qs.
Proof.
  intros [W1 W2 W3] Et En. split; ksimp; try done.
  intros q Hq. eapply (lseg_insert_same (H := queue_link)); [exact Et | exact En | by apply W1].
Qed.

Lemma thread_wakeUp_running t th s : k_threads (k_st s) !! t = Some th -> t <> 0 ->
  t_state th <> TS_WAKEWAIT -> thread_wakeUp t s = Ok (tt, s).
Proof.
  intros Et Ht Hw. cut (wp (thread_wakeUp t) s (fun _ s' => s' = s)).
  { intros ([] & s' & E & ->)%wp_Ok. done. }
  unfold thread_wakeUp. ksteps. by rewrite (proj2 (Z.eqb_neq _ _) Hw).
Qed.

Lemma thread_wakeUp_waiting t th p qs s :
  queues_ok s qs -> k_threads (k_st s) !! t = Some th -> t <> 0 ->
  (forall i, is_priority i -> t ∉ qs i) -> t_process th <> 0 ->
  k_processes (k_st s) !! t_process th = Some p -> is_priority (privilege p) ->
  t <> idle_thread (k_g s) -> t_state th = TS_WAKEWAIT ->
  exists s', thread_wakeUp t s = Ok (tt, s') /\
    queues_ok s' (upd qs (privilege p) (qs (privilege p) ++ [t])) /\
    (exists th', k_threads (k_st s') !! t = Some th' /\ t_state th' = TS_RUNNING) /\
    same_threads (<[t := set_t_state TS_RUNNING th]> (k_threads (k_st s))) (k_threads (k_st s')) /\
    k_st s' = set_k_threads (k_threads (k_st s')) (k_st s) /\
    k_g s' = set_queue (queue (k_g s')) (set_last (last (k_g s')) (k_g s)).
Proof.
  intros W Et Ht Hnt Hp Ep Hq Hi Hw.
  set (s1 := set_st (set_k_threads (<[t := set_t_state TS_RUNNING th]> (k_threads (k_st s))) (k_st s)) s).
  destruct (sched_enqueue_ok t (set_t_state TS_RUNNING th) p (privilege p) qs s1)
    as (s' & E & [X1 X2 X3 X4]); try done.
  { by apply queues_ok_write with th. }
  { apply lookup_insert_eq. }
  apply wp_run. unfold thread_wakeUp. ksteps. rewrite Hw, Z.eqb_refl. unfold when. ksteps.
  eapply wp_eq; [exact E|]. split; [exact X1|]. split; [|by split].
  destruct (same_threads_some _ _ t (set_t_state TS_RUNNING th) X2) as (v & Ev).
  { apply lookup_insert_eq. } by eexists.
Qed.

(** ** A sample: two threads of a service (queue 2), one of a driver (1) *)

Definition sample_thread (p next : ptr) (st : Z) : thread := Thread p 0 0 0 st 0 0 0 0 next.
Definition sample_process (priv : Z) : process := Process 1 0 priv 1 0 0 0 0 0 0 0 0.

Definition sample_sched : kstate :=
  let s := boot_state 1 0 in
  KState
    (set_k_processes {[ 1 := sample_process 2; 2 := sample_process 1 ]}
      (set_k_threads {[ 10 := sample_thread 1 20 0; 20 := sample_thread 1 0 0;
                        30 := sample_thread 2 0 0; 40 := sample_thread 1 0 2 ]} (k_st s)))
    (set_queue {[ 1 := 30; 2 := 10 ]} (set_last {[ 1 := 30; 2 := 20 ]} (k_g s))).

Definition sample_queues (q : Z) : list Z :=
  if q =? 1 then [30] else if q =? 2 then [10; 20] else [].

Lemma sample_queues_ok : queues_ok sample_sched sample_queues.
Proof.
  assert (Hc : forall q, is_priority q -> q = 0 \/ q = 1 \/ q = 2 \/ q = 3)
    by (unfold is_priority; lia).
  split.
  - intros q [->|[->|[->| ->]]]%Hc; cbn; repeat (eexists || split || done).
  - intros q [->|[->|[->| ->]]]%Hc Hne; done.
  - intros q q' x [->|[->|[->| ->]]]%Hc [->|[->|[->| ->]]]%Hc; cbn; set_solver.
Qed.

(** ** Theorems *)

(** C16. [sched_enqueue] appends the thread to the queue of its privilege
    level and leaves the other queues alone. *)
Theorem sched_enqueue_fifo t th p q qs s :
  queues_ok s qs -> k_threads (k_st s) !! t = Some th -> t <> 0 ->
  (forall i, is_priority i -> t ∉ qs i) -> t_process th <> 0 ->
  k_processes (k_st s) !! t_process th = Some p -> privilege p = q -> is_priority q ->
  t <> idle_thread (k_g s) ->
  exists s', sched_enqueue t s = Ok (tt, s') /\ queues_ok s' (upd qs q (qs q ++ [t])) /\
    same_threads (k_threads (k_st s)) (k_threads (k_st s')).
Proof.
  intros W Et Ht Hnt Hp Ep Eq Hq Hi.
  destruct (sched_enqueue_ok t th p q qs s W Et Ht Hnt Hp Ep Eq Hq Hi) as (s' & E & [X1 X2 _ _]).
  eauto.
Qed.

Lemma sched_enqueue_fifo_witness :
  exists s', sched_enqueue 40 sample_sched = Ok (tt, s') /\
    queues_ok s' (upd sample_queues 2 [10; 20; 40]) /\
    same_threads (k_threads (k_st sample_sched)) (k_threads (k_st s')).
Proof.
  apply (sched_enqueue_fifo 40 (sample_thread 1 0 2) (sample_process 2) 2 sample_queues sample_sched);
    try reflexivity; try (cbn; lia); try (unfold is_priority; lia).
  - apply sample_queues_ok.
  - intros i _. unfold sample_queues. destruct (i =? 1); [set_solver|]. destruct (i =? 2); set_solver.
Defined.

(** C15. [sched_dequeue] serves the lowest-numbered non-empty queue, first
    come first served; the idle thread runs only when all are empty. *)
Theorem sched_dequeue_priority qs s :
  queues_ok s qs ->
  exists t s', sched_dequeue s = Ok (t, s') /\ k_st s' = k_st s /\
    (((forall q, is_priority q -> qs q = []) /\ t = idle_thread (k_g s) /\ s' = s) \/
     (exists q l, is_priority q /\ qs q = t :: l /\ (forall j, 0 <= j < q -> qs j = []) /\
        queues_ok s' (upd qs q l))).
Proof.
  intros W. unfold sched_dequeue.
  destruct (dequeue_from_ok qs s PRIORITIES 0 W) as [[He E]|(q & t & l & s' & Hq & Eq & He & E & Ht & [D1 D2 D3])];
    try done; try (intros; lia); rewrite (bind_Ok _ _ _ _ _ E).
  - exists (idle_thread (k_g s)), s. split; [done|]. split; [done|]. by left.
  - exists t, s'. rewrite (proj2 (Z.eqb_neq _ _) Ht). split; [done|]. split; [done|].
    right. by exists q, l.
Qed.

Lemma sched_dequeue_priority_witness :
  exists t s', sched_dequeue sample_sched = Ok (t, s') /\ k_st s' = k_st sample_sched /\
    (((forall q, is_priority q -> sample_queues q = []) /\ t = 0 /\ s' = sample_sched) \/
     (exists q l, is_priority q /\ sample_queues q = t :: l /\
        (forall j, 0 <= j < q -> sample_queues j = []) /\ queues_ok s' (upd sample_queues q l))).
Proof. apply (sched_dequeue_priority sample_queues sample_sched), sample_queues_ok. Defined.

(** Waking a waiting thread makes it runnable at the end of its queue;
    waking a thread that is not waiting changes nothing. *)
Theorem thread_wakeUp_correct t th p qs s :
  queues_ok s qs -> k_threads (k_st s) !! t = Some th -> t <> 0 ->
  (forall i, is_priority i -> t ∉ qs i) -> t_process th <> 0 ->
  k_processes (k_st s) !! t_process th = Some p -> is_priority (privilege p) ->
  t <> idle_thread (k_g s) ->
  exists s', thread_wakeUp t s = Ok (tt, s') /\
    (t_state th = TS_WAKEWAIT ->
       queues_ok s' (upd qs (privilege p) (qs (privilege p) ++ [t])) /\
       (exists th', k_threads (k_st s') !! t = Some th' /\ t_state th' = TS_RUNNING)) /\
    (t_state th <> TS_WAKEWAIT -> s' = s).
Proof.
  intros W Et Ht Hnt Hp Ep Hq Hi. destruct (decide (t_state th = TS_WAKEWAIT)) as [Hw|Hw].
  - destruct (thread_wakeUp_waiting t th p qs s W Et Ht Hnt Hp Ep Hq Hi Hw) as (s' & E & Hqs & Hth & _).
    exists s'. split; [exact E|]. split; [by split | done].
  - exists s. split; [|done]. apply thread_wakeUp_running with th; done.
Qed.

Lemma thread_wakeUp_correct_witness :
  exists s', thread_wakeUp 40 sample_sched = Ok (tt, s') /\
    (2 = TS_WAKEWAIT ->
       queues_ok s' (upd sample_queues 2 [10; 20; 40]) /\
       (exists th', k_threads (k_st s') !! 40 = Some th' /\ t_state th' = TS_RUNNING)) /\
    (2 <> TS_WAKEWAIT -> s' = sample_sched).
Proof.
  apply (thread_wakeUp_correct 40 (sample_thread 1 0 2) (sample_process 2) sample_queues sample_sched);
    try reflexivity; try (cbn; lia); try (unfold is_priority; cbn; lia).
  - apply sample_queues_ok.
  - intros i _. unfold sample_queues. destruct (i =? 1); [set_solver|]. destruct (i =? 2); set_solver.
Defined.
