(* ===== verification/Timer.v ===== *)
(** * The clock and sleeping threads

    [src/kernel/task/timer.c] (the programming of the PIT apart).  Sleeping
    threads are kept in a list ordered by wake-up time. *)

From S2P Require Import Prelude Memory Bitset Kernel Sched.

Definition timer_uptime : M kstate Z := getg uptime.

(** Milliseconds since the start; 32-bit arithmetic, and a division that
    faults while [frequency] is 0. *)
Definition timer_time : M kstate Z :=
  u ← getg uptime; t ← getg tick; f ← getg frequency;
  if f =? 0 then fail Panic else mret (w32 (w32 (u * 1000) + w32 (t * 1000) / f)).

(** [thread_goInactive] up to the task switch. *)
Definition goInactive_mark : M kstate unit :=
  c ← getg current_thread; update c (set_t_state TS_WAKEWAIT).

(** The search of the place to insert: [tmp] until the next one is not
    earlier than [w]. *)
Definition sleep_place_step (w : Z) (tmp : ptr) : M kstate (ptr + ptr) :=
  a ← load (A := sleeping_thread) tmp;
  if sl_next a =? 0 then mret (inr tmp)
  else
    b ← load (A := sleeping_thread) (sl_next a);
    if w <=? wakeup_time b then mret (inr tmp) else mret (inl (sl_next a)).

Definition sleep_place (w : Z) (head : ptr) : M kstate ptr :=
  n ← gets (fun s => size (k_sleepers (k_st s)));
  loop (1 + n) (sleep_place_step w) head.

(** Inserting the sleeper [sf]. *)
Definition sleep_insert (sf : ptr) (w : Z) : M kstate unit :=
  head ← getg sleeping_threads;
  first ← (if head =? 0 then mret true
           else h ← load (A := sleeping_thread) head; mret (w <=? wakeup_time h));
  if (first : bool) then
    update sf (set_sl_next head);; setg (set_sleeping_threads sf)
  else
    tmp ← sleep_place w head;
    a ← load (A := sleeping_thread) tmp;
    update sf (set_sl_next (sl_next a));;
    update tmp (set_sl_next sf).

(** [thread_sleep] up to the task switch of [thread_goInactive]; [false]
    when there is no current thread. *)
Definition thread_sleep (msecs : Z) : M kstate bool :=
  c ← getg current_thread;
  if c =? 0 then mret false
  else
    j ← getg k_junk;
    now ← timer_time;
    sf ← new (SleepingThread (w32 (now + msecs)) c j);
    sleep_insert sf (w32 (now + msecs));;
    goInactive_mark;;
    mret true.

(** One round of the loop of [timer_wakeUpSleepingThreads]. *)
Definition wake_step (time : Z) : M kstate (unit + unit) :=
  head ← getg sleeping_threads;
  if head =? 0 then mret (inr tt)
  else
    tmp ← load (A := sleeping_thread) head;
    if wakeup_time tmp <=? time then
      thread_wakeUp (sl_thread tmp);;
      tmp ← load (A := sleeping_thread) head;
      setg (set_sleeping_threads (sl_next tmp));;
      free (A := sleeping_thread) head;;
      mret (inl tt)
    else mret (inr tt).

Definition timer_wakeUpSleepingThreads : M kstate unit :=
  time ← timer_time;
  n ← gets (fun s => size (k_sleepers (k_st s)));
  loop (1 + n) (fun _ => wake_step time) tt.

Definition timer_callback : M kstate unit :=
  setg (fun g => set_tick (w32 (tick g + 1)) g);;
  t ← getg tick; f ← getg frequency;
  when (t =? f) (setg (fun g => set_uptime (w32 (uptime g + 1)) g);; setg (set_tick 0));;
  timer_wakeUpSleepingThreads.

(** The divisor [timer_init] gives the PIT, low and high byte. *)
Definition timer_divisor (freq : Z) : Z * Z :=
  let d := 1193180 / freq in (Z.land d 0xFF, w8 (Z.shiftr d 8)).

(** ** Specification *)

(** What the node [x] says: when to wake whom. *)
Definition entry (m : gmap Z sleeping_thread) (x : ptr) : Z * ptr :=
  match m !! x with Some a => (wakeup_time a, sl_thread a) | None => (0, 0) end.

Abbreviation by_time := (StronglySorted (fun a b : Z * ptr => fst a <= fst b)).

(** The sleeping list holds the entries [es], in order of time. *)
Definition sleepers_ok (s : kstate) (es : list (Z * ptr)) : Prop :=
  exists l, linked (k_sleepers (k_st s)) (sleeping_threads (k_g s)) l /\
    es = entry (k_sleepers (k_st s)) <$> l /\ by_time es.

(** Insertion before the first entry that is not earlier. *)
Fixpoint sleep_ins (e : Z * ptr) (es : list (Z * ptr)) : list (Z * ptr) :=
  match es with
  | [] => [e]
  | y :: es' => if fst e <=? fst y then e :: y :: es' else y :: sleep_ins e es'
  end.

(** The entries that are due at [time], and the others. *)
Fixpoint due (time : Z) (es : list (Z * ptr)) : list (Z * ptr) :=
  match es with
  | [] => []
  | y :: es' => if fst y <=? time then y :: due time es' else []
  end.
Fixpoint not_due (time : Z) (es : list (Z * ptr)) : list (Z * ptr) :=
  match es with
  | [] => []
  | y :: es' => if fst y <=? time then not_due time es' else es
  end.

(** ** Lemmas *)

Lemma due_split time es : due time es ++ not_due time es = es.
Proof. induction es as [|y es IH]; simpl; [done|]. destruct (fst y <=? time); simpl; congruence. Qed.

Lemma not_due_later time es : by_time es -> forall e, e ∈ not_due time es -> time < fst e.
Proof.
  induction 1 as [|y es Hs IH Hy]; simpl; [set_solver|].
  destruct (Z.leb_spec (fst y) time); [done|].
  intros e [->|He]%elem_of_cons; [done|]. rewrite Forall_forall in Hy. specialize (Hy e He). lia.
Qed.

Lemma due_all time es : forall e, e ∈ due time es -> fst e <= time.
Proof.
  induction es as [|y es IH]; simpl; [set_solver|].
  destruct (Z.leb_spec (fst y) time); [|set_solver]. intros e [->|He]%elem_of_cons; auto.
Qed.

Lemma sleep_ins_perm e es : sleep_ins e es ≡ₚ e :: es.
Proof.
  induction es as [|y es IH]; simpl; [done|]. destruct (fst e <=? fst y); [done|].
  rewrite IH. constructor.
Qed.

Lemma sleep_ins_sorted e es : by_time es -> by_time (sleep_ins e es).
Proof.
  induction 1 as [|y es Hs IH Hy]; simpl; [repeat constructor|].
  destruct (Z.leb_spec (fst e) (fst y)).
  - constructor; [by constructor|]. constructor; [done|].
    eapply Forall_impl; [exact Hy|]. simpl. lia.
  - constructor; [done|]. rewrite sleep_ins_perm. constructor; [lia | done].
Qed.

Lemma entry_agree m m' (l : list Z) : (forall x, x ∈ l -> entry m' x = entry m x) ->
  entry m' <$> l = entry m <$> l.
Proof.
  induction l as [|x l IH]; simpl; [done|]. intros Hx.
  f_equal; [apply Hx; set_solver | apply IH; intros; apply Hx; set_solver].
Qed.

Lemma entry_insert_ne m x y a : x <> y -> entry (<[x := a]> m) y = entry m y.
Proof. intros Hne. unfold entry. by rewrite lookup_insert_ne. Qed.

Lemma entry_insert_eq m x a : entry (<[x := a]> m) x = (wakeup_time a, sl_thread a).
Proof. unfold entry. by rewrite lookup_insert_eq. Qed.

(** Where [sleep_place] stops, in terms of the entries. *)
Lemma sleep_place_ok w t s l : forall p n, linked (k_sleepers (k_st s)) p l -> p <> 0 ->
  (length l <= n)%nat -> fst (entry (k_sleepers (k_st s)) p) < w ->
  exists l1 z l2, l = l1 ++ z :: l2 /\
    sleep_ins (w, t) (entry (k_sleepers (k_st s)) <$> l)
    = (entry (k_sleepers (k_st s)) <$> l1 ++ [z]) ++ (w, t) :: (entry (k_sleepers (k_st s)) <$> l2) /\
    loop n (sleep_place_step w) p s = Ok (z, s).
Proof.
  induction l as [|x l IH]; intros p n Hl Hp Hn Hw; [done|].
  destruct n as [|n]; [simpl in Hn; lia|]. rewrite loop_S.
  destruct Hl as (-> & Hx & a & Ea & Hl). cbn [nxt Linked_sleeping_thread] in Hl.
  set (m := k_sleepers (k_st s)) in *.
  assert (Hins : sleep_ins (w, t) (entry m <$> x :: l) = entry m x :: sleep_ins (w, t) (entry m <$> l)).
  { cbn. by rewrite (proj2 (Z.leb_gt _ _) Hw). }
  destruct l as [|y l].
  - apply linked_nil in Hl. exists [], x, []. split; [done|]. split; [by rewrite Hins|].
    apply wp_eq_Ok. unfold sleep_place_step. ksteps. rewrite Hl. by ksteps.
  - pose proof Hl as (Ey & Hy & b & Eb & _).
    assert (Hne : sl_next a <> 0) by congruence. rewrite <- Ey in Eb.
    destruct (Z.leb_spec w (wakeup_time b)) as [Hle|Hlt].
    + exists [], x, (y :: l). split; [done|]. split.
      * rewrite Hins. cbn. unfold entry at 2. rewrite <- Ey, Eb. cbn.
        by rewrite (proj2 (Z.leb_le _ _) Hle).
      * apply wp_eq_Ok. unfold sleep_place_step. ksteps. rewrite (proj2 (Z.eqb_neq _ _) Hne). ksteps.
        rewrite (proj2 (Z.leb_le _ _) Hle). by ksteps.
    + destruct (IH (sl_next a) n Hl Hne) as (l1 & z & l2 & E1 & E2 & E3); [simpl in *; lia | |].
      { unfold entry. by rewrite Eb. }
      exists (x :: l1), z, l2. split; [by rewrite E1|]. split; [by rewrite Hins, E2|].
      apply wp_eq_Ok, wp_bind. unfold sleep_place_step at 1. ksteps.
      rewrite (proj2 (Z.eqb_neq _ _) Hne). ksteps.
      rewrite (proj2 (Z.leb_gt _ _) Hlt). ksteps. by eapply wp_eq.
Qed.

Lemma entries_insert_ne m x a (k : list Z) : x ∉ k -> entry (<[x := a]> m) <$> k = entry m <$> k.
Proof. intros Hx. apply entry_agree. intros y Hy. apply entry_insert_ne. set_solver. Qed.

Lemma entries_insert_same m x a a' (k : list Z) : m !! x = Some a -> wakeup_time a' = wakeup_time a ->
  sl_thread a' = sl_thread a -> entry (<[x := a']> m) <$> k = entry m <$> k.
Proof.
  intros Ex Ew Et. apply entry_agree. intros y _. unfold entry.
  destruct (decide (x = y)) as [->|]; [|by rewrite lookup_insert_ne].
  rewrite lookup_insert_eq, Ex. by rewrite Ew, Et.
Qed.

(** The result of an insertion. *)
Record slept (es : list (Z * ptr)) (s s' : kstate) : Prop := {
  sp_sleepers : sleepers_ok s' es;
  sp_stores : k_st s' = set_k_sleepers (k_sleepers (k_st s')) (k_st s);
  sp_globals : k_g s' = set_sleeping_threads (sleeping_threads (k_g s')) (k_g s)
}.

(** In front of every other sleeper. *)
Lemma sleep_front s l sf a :
  linked (k_sleepers (k_st s)) (sleeping_threads (k_g s)) l ->
  let es := entry (k_sleepers (k_st s)) <$> l in
  by_time es -> sf <> 0 -> k_sleepers (k_st s) !! sf = None ->
  sleep_ins (wakeup_time a, sl_thread a) es = (wakeup_time a, sl_thread a) :: es ->
  slept (sleep_ins (wakeup_time a, sl_thread a) es) s
    (KState (set_k_sleepers (<[sf := set_sl_next (sleeping_threads (k_g s)) a]> (k_sleepers (k_st s))) (k_st s))
       (set_sleeping_threads sf (k_g s))).
Proof.
  intros Hl es Hs Hsf Hf Eins. pose proof (linked_fresh _ _ _ _ Hl Hf) as Hnl.
  split; [|done | by destruct (k_g s)]. exists (sf :: l). ksimp. cbn [sleeping_threads set_sleeping_threads].
  split; [by eapply linked_push|]. split; [|by apply sleep_ins_sorted].
  rewrite Eins, fmap_cons, entry_insert_eq, entries_insert_ne by done. done.
Qed.

(** After [z]. *)
Lemma sleep_after s l1 z l2 za sf a :
  linked (k_sleepers (k_st s)) (sleeping_threads (k_g s)) (l1 ++ z :: l2) ->
  let m := k_sleepers (k_st s) in
  let es := entry m <$> l1 ++ z :: l2 in
  by_time es -> sf <> 0 -> m !! sf = None -> m !! z = Some za ->
  sleep_ins (wakeup_time a, sl_thread a) es
  = (entry m <$> l1 ++ [z]) ++ (wakeup_time a, sl_thread a) :: (entry m <$> l2) ->
  slept (sleep_ins (wakeup_time a, sl_thread a) es) s
    (KState (set_k_sleepers (<[z := set_sl_next sf za]> (<[sf := set_sl_next (sl_next za) a]> m)) (k_st s))
       (k_g s)).
Proof.
  intros Hl m es Hs Hsf Hf Ez Eins. pose proof (linked_fresh _ _ _ _ Hl Hf) as Hnl.
  split; [|done | by destruct (k_g s)]. exists (l1 ++ z :: sf :: l2). ksimp.
  split; [by eapply lseg_insert_after|]. split; [|by apply sleep_ins_sorted].
  rewrite Eins. assert (z <> sf) by (intros ->; apply Hnl; set_solver).
  rewrite (entries_insert_same _ z za) by (done || by rewrite lookup_insert_ne).
  rewrite !fmap_app, fmap_cons, !fmap_cons, entry_insert_eq, entry_insert_ne by done.
  rewrite !entries_insert_ne by set_solver. by rewrite <- app_assoc.
Qed.

(** Inserting a fresh node [sf] for [(w, t)]. *)
Lemma sleep_insert_ok s es sf a :
  sleepers_ok s es -> sf <> 0 -> k_sleepers (k_st s) !! sf = None ->
  exists s', sleep_insert sf (wakeup_time a)
      (set_st (set_k_sleepers (<[sf := a]> (k_sleepers (k_st s))) (k_st s)) s) = Ok (tt, s') /\
    slept (sleep_ins (wakeup_time a, sl_thread a) es) s s'.
Proof.
  intros (l & Hl & -> & Hs) Hsf Hf. set (m := k_sleepers (k_st s)) in *.
  set (s0 := set_st (set_k_sleepers (<[sf := a]> m) (k_st s)) s).
  pose proof (linked_fresh _ _ _ _ Hl Hf) as Hnl.
  assert (Hl0 : linked (k_sleepers (k_st s0)) (sleeping_threads (k_g s)) l) by (by apply lseg_frame).
  pose proof (linked_length _ _ _ Hl0) as Hlen. apply wp_run. unfold sleep_insert, s0. ksteps. fold m.
  destruct (Z.eqb_spec (sleeping_threads (k_g s)) 0) as [E0|Hne].
  { ksteps. rewrite insert_insert_eq. destruct l as [|x l]; [|by destruct Hl as (Hx & ? & _); congruence].
    by apply (sleep_front s []). }
  destruct (linked_cons_inv _ _ _ Hl Hne) as (h & l' & -> & Eh & Hl').
  set (p := sleeping_threads (k_g s)) in *. assert (Hps : p <> sf) by (intros ->; congruence).
  assert (Ep : entry m p = (wakeup_time h, sl_thread h)) by (unfold entry; by rewrite Eh).
  ksteps. destruct (Z.leb_spec (wakeup_time a) (wakeup_time h)) as [Hle|Hlt]; ksteps.
  - rewrite insert_insert_eq. apply (sleep_front s (p :: l')); try done.
    cbn [sleep_ins fmap list_fmap fst]. fold m. rewrite Ep. cbn [fst]. by rewrite (proj2 (Z.leb_le _ _) Hle).
  - destruct (sleep_place_ok (wakeup_time a) (sl_thread a) s0 (p :: l') p (1 + size (k_sleepers (k_st s0))))
      as (l1 & z & l2 & E1 & E2 & E3); try done; try lia.
    { cbn. rewrite entry_insert_ne by done. rewrite Ep. exact Hlt. }
    eapply wp_eq; [exact E3|]. cbn [k_sleepers k_st s0 set_st set_k_sleepers] in E2.
    rewrite E1 in *. destruct (lseg_in_dom _ _ _ _ z Hl) as (Hz & za & Ez); [set_solver|].
    rewrite !entries_insert_ne in E2 by set_solver.
    assert (z <> sf) by (intros ->; apply Hnl; set_solver). unfold s0. ksteps.
    rewrite insert_insert_eq. by apply (sleep_after s l1 z l2 za sf a).
Qed.

(** The time [timer_time] answers when it answers. *)
Definition time_of (g : kglobals) : Z := w32 (w32 (uptime g * 1000) + w32 (tick g * 1000) / frequency g).

Lemma wp_timer_time s Q : frequency (k_g s) <> 0 -> Q (time_of (k_g s)) s -> wp timer_time s Q.
Proof. intros Hf HQ. unfold timer_time. ksteps. by rewrite (proj2 (Z.eqb_neq _ _) Hf). Qed.

(** A waiting thread that is in no queue, and whose process has a valid
    privilege level [q]. *)
Record waiting (s : kstate) (qs : Z -> list Z) (t q : Z) : Prop := {
  wt_nonzero : t <> 0;
  wt_idle : t <> idle_thread (k_g s);
  wt_queues i : is_priority i -> t ∉ qs i;
  wt_priority : is_priority q;
  wt_thread : exists th p, k_threads (k_st s) !! t = Some th /\ t_state th = TS_WAKEWAIT /\
    t_process th <> 0 /\ k_processes (k_st s) !! t_process th = Some p /\ privilege p = q
}.

(** Appending a list of (thread, level) pairs to the queues. *)
Definition enqueue_all (qs : Z -> list Z) (ts : list (Z * Z)) : Z -> list Z :=
  foldl (fun qs '(t, q) => upd qs q (qs q ++ [t])) qs ts.

(** What one wake-up leaves: the thread runs, queued; nothing but threads
    and queues changed, and the other waiting threads still wait. *)
Record woken (t q : Z) (qs : Z -> list Z) (s s' : kstate) : Prop := {
  wk_queues : queues_ok s' (upd qs q (qs q ++ [t]));
  wk_running : exists th, k_threads (k_st s') !! t = Some th /\ t_state th = TS_RUNNING;
  wk_others t' q' : t' <> t -> waiting s qs t' q' -> waiting s' (upd qs q (qs q ++ [t])) t' q';
  wk_states t' th : t' <> t -> k_threads (k_st s) !! t' = Some th ->
    exists th', k_threads (k_st s') !! t' = Some th' /\ t_state th' = t_state th;
  wk_stores : k_st s' = set_k_threads (k_threads (k_st s')) (k_st s);
  wk_globals : k_g s' = set_queue (queue (k_g s')) (set_last (last (k_g s')) (k_g s));
  wk_view : exists th, k_threads (k_st s) !! t = Some th /\
    same_threads (<[t := set_t_state TS_RUNNING th]> (k_threads (k_st s))) (k_threads (k_st s'))
}.

Lemma wake_ok t q qs s : queues_ok s qs -> waiting s qs t q ->
  exists s', thread_wakeUp t s = Ok (tt, s') /\ woken t q qs s s'.
Proof.
  intros W [W1 W2 W3 W4 (th & p & Et & Ew & Hp & Ep & <-)].
  destruct (thread_wakeUp_waiting t th p qs s) as (s' & E & X1 & X2 & X3 & X4 & X5); try done.
  exists s'. split; [done|].
  assert (Hsame : forall t' th', t' <> t -> k_threads (k_st s) !! t' = Some th' ->
            exists v, k_threads (k_st s') !! t' = Some (set_queue_next v th')).
  { intros t' th' Hne Et'. apply (same_threads_some _ _ t' th' X3). by rewrite lookup_insert_ne. }
  split; try done.
  - intros t' q' Hne [Y1 Y2 Y3 Y4 (th' & p' & Z1 & Z2 & Z3 & Z4 & Z5)].
    destruct (Hsame t' th' Hne Z1) as (v & Ev). split; try done.
    + by rewrite X5.
    + intros i Hi. unfold upd. destruct (Z.eqb_spec i (privilege p)) as [->|]; [|by apply Y3].
      rewrite not_elem_of_app. split; [by apply Y3 | set_solver].
    + exists (set_queue_next v th'), p'. rewrite Ev. repeat (split; [done|]).
      rewrite X4. done.
  - intros t' th' Hne Et'. destruct (Hsame t' th' Hne Et') as (v & Ev). by exists (set_queue_next v th').
  - by exists th.
Qed.

Lemma wake_step_stop time s es : sleepers_ok s es -> due time es = [] ->
  wake_step time s = Ok (inr tt, s).
Proof.
  intros (l & Hl & -> & Hs) Hd. apply wp_eq_Ok. unfold wake_step. ksteps.
  destruct (Z.eqb_spec (sleeping_threads (k_g s)) 0) as [|Hne]; [by ksteps|].
  destruct (linked_cons_inv _ _ _ Hl Hne) as (h & l' & -> & Eh & _). ksteps.
  cbn [fmap list_fmap due] in Hd. unfold entry in Hd at 1. rewrite Eh in Hd. cbn [fst] in Hd.
  destruct (wakeup_time h <=? time); [done|]. by ksteps.
Qed.

Lemma wake_step_go time s w t es q qs : sleepers_ok s ((w, t) :: es) -> w <= time ->
  queues_ok s qs -> waiting s qs t q ->
  exists s' s1, wake_step time s = Ok (inl tt, s') /\ woken t q qs s s1 /\ sleepers_ok s' es /\
    k_g s' = set_sleeping_threads (sleeping_threads (k_g s')) (k_g s1) /\
    k_st s' = set_k_sleepers (k_sleepers (k_st s')) (k_st s1).
Proof.
  intros (l & Hl & Ees & Hs) Hw Wq Wt.
  destruct (wake_ok t q qs s Wq Wt) as (s1 & E & Wk).
  destruct l as [|x l]; [done|]. pose proof (linked_NoDup _ _ _ Hl) as [Hnx _]%NoDup_cons.
  destruct Hl as (Hx & Hx0 & h & Eh & Hl).
  cbn [fmap list_fmap] in Ees. injection Ees as Ex Ees. unfold entry in Ex. rewrite Eh in Ex. injection Ex as -> ->.
  assert (Es1 : k_sleepers (k_st s1) = k_sleepers (k_st s)) by (by rewrite (wk_stores _ _ _ _ _ Wk)).
  cut (wp (wake_step time) s (fun r s' => r = inl tt /\ s' =
     KState (set_k_sleepers (delete x (k_sleepers (k_st s))) (k_st s1)) (set_sleeping_threads (sl_next h) (k_g s1)))).
  { intros (r & s' & Er & -> & ->)%wp_Ok. eexists _, s1. split; [exact Er|]. split; [done|].
    split; [|split; [by destruct (k_g s1) | by destruct (k_st s1)]].
    exists l. ksimp. cbn [sleeping_threads set_sleeping_threads]. split; [by apply lseg_delete|].
    split; [|by apply StronglySorted_inv in Hs as [? _]].
    rewrite Ees. symmetry. apply entry_agree. intros y Hy. unfold entry.
    rewrite lookup_delete_ne by (intros ->; done). done. }
  unfold wake_step. ksteps. rewrite Hx, (proj2 (Z.eqb_neq _ _) Hx0). ksteps.
  rewrite (proj2 (Z.leb_le _ _) Hw). ksteps. eapply wp_eq; [exact E|].
  rewrite <- Es1 in Eh. ksteps. by rewrite Es1.
Qed.

(** Waiting threads and queues depend on the threads, the processes and
    the scheduler's variables only. *)
Lemma waiting_frame s s' qs t q : waiting s qs t q -> idle_thread (k_g s') = idle_thread (k_g s) ->
  k_threads (k_st s') = k_threads (k_st s) -> k_processes (k_st s') = k_processes (k_st s) ->
  waiting s' qs t q.
Proof. intros [W1 W2 W3 W4 W5] Eg Et Ep. split; try done; [by rewrite Eg | by rewrite Et, Ep]. Qed.

Lemma queues_ok_frame s s' qs : queues_ok s qs -> queue (k_g s') = queue (k_g s) ->
  last (k_g s') = last (k_g s) -> k_threads (k_st s') = k_threads (k_st s) -> queues_ok s' qs.
Proof.
  intros [W1 W2 W3] Eq El Et. unfold q_head, q_last in *.
  split; [intros q Hq; unfold q_head; rewrite Eq, Et; by apply W1 | | done].
  intros q Hq. unfold q_last. rewrite El. by apply W2.
Qed.

(** The loop wakes the due sleepers, in order. *)
Lemma wake_loop_ok time (lvl : Z -> Z) n : forall s es qs,
  sleepers_ok s es -> queues_ok s qs -> NoDup (due time es).*2 ->
  (forall t, t ∈ (due time es).*2 -> waiting s qs t (lvl t)) -> (length (due time es) < n)%nat ->
  exists s', loop n (fun _ => wake_step time) tt s = Ok (tt, s') /\
    sleepers_ok s' (not_due time es) /\
    queues_ok s' (enqueue_all qs ((fun e => (e.2, lvl e.2)) <$> due time es)) /\
    (forall t, t ∈ (due time es).*2 ->
       exists th, k_threads (k_st s') !! t = Some th /\ t_state th = TS_RUNNING) /\
    (forall t th, t ∉ (due time es).*2 -> k_threads (k_st s) !! t = Some th ->
       exists th', k_threads (k_st s') !! t = Some th' /\ t_state th' = t_state th).
Proof.
  induction n as [|n IH]; intros s es qs Ws Wq Hnd Hw Hn; [lia|]. rewrite loop_S.
  destruct (due time es) as [|[w t] d] eqn:Ed.
  - rewrite (bind_Ok _ _ _ _ _ (wake_step_stop _ _ _ Ws Ed)). exists s.
    split; [done|]. split; [|split; [done|split; [set_solver | eauto]]].
    destruct es as [|e es]; [done|]. simpl in Ed |- *. destruct (fst e <=? time); done.
  - destruct es as [|e es]; [done|]. simpl in Ed. destruct (Z.leb_spec (fst e) time) as [Hle|]; [|done].
    injection Ed as -> Ed. cbn [fst] in Hle.
    destruct (wake_step_go time s w t es (lvl t) qs Ws Hle Wq) as (s' & s1 & E & Wk & Ws' & Eg & Est).
    { apply Hw. set_solver. }
    rewrite (bind_Ok _ _ _ _ _ E). cbn [fmap list_fmap snd] in Hnd. apply NoDup_cons in Hnd as [Hnt Hnd].
    destruct (IH s' es (upd qs (lvl t) (qs (lvl t) ++ [t])) Ws') as (s2 & E2 & X1 & X2 & X3 & X4).
    + eapply queues_ok_frame; [apply (wk_queues _ _ _ _ _ Wk) | by rewrite Eg | by rewrite Eg | by rewrite Est].
    + by rewrite Ed.
    + intros t' Ht'. rewrite Ed in Ht'. eapply waiting_frame; [|by rewrite Eg | by rewrite Est | by rewrite Est].
      apply (wk_others _ _ _ _ _ Wk); [intros ->; done|]. apply Hw. set_solver.
    + rewrite Ed. simpl in Hn. lia.
    + exists s2. rewrite Ed in *. split; [done|]. split; [|split; [done|split]].
      * cbn [not_due fst]. by rewrite (proj2 (Z.leb_le _ _) Hle).
      * intros t' [->|Ht']%elem_of_cons; [|by apply X3].
        destruct (wk_running _ _ _ _ _ Wk) as (th & Eth & Sth).
        destruct (X4 t th Hnt) as (th' & ? & ?); [by rewrite Est|]. exists th'. split; [done | congruence].
      * intros t' th Ht' Eth. apply not_elem_of_cons in Ht' as [Hne Ht'].
        destruct (wk_states _ _ _ _ _ Wk t' th Hne Eth) as (th1 & E1 & S1).
        destruct (X4 t' th1 Ht') as (th' & ? & ?); [by rewrite Est|]. exists th'. split; [done | congruence].
Qed.

(** ** A sample: thread 20 runs, 40 sleeps until 5 *)

Definition sample_timer : kstate :=
  let s := sample_sched in
  KState (set_k_sleepers {[ 1 := SleepingThread 5 40 0 ]} (k_st s))
    (set_sleeping_threads 1 (set_tick 6 (set_frequency 1000 (set_current_thread 20 (k_g s))))).

Lemma sample_timer_queues : queues_ok sample_timer sample_queues.
Proof. destruct sample_queues_ok as [W1 W2 W3]. by split. Qed.

Lemma sample_timer_sleepers : sleepers_ok sample_timer [(5, 40)].
Proof.
  exists [1]. split; [|split; [reflexivity | repeat constructor]].
  repeat split; try done. eexists. split; reflexivity.
Qed.

Lemma sample_timer_waiting : waiting sample_timer sample_queues 40 2.
Proof.
  split; try done.
  - intros i _. unfold sample_queues. destruct (i =? 1); [set_solver|]. destruct (i =? 2); set_solver.
  - eexists _, _. repeat (split; [reflexivity || done|]). reflexivity.
Qed.

(** ** Theorems *)

(** C30. [thread_sleep] records the wake-up time of the current thread at its
    place in the list, keeps the list in order of time, and stops the
    thread. *)
Theorem thread_sleep_correct ms s es c th :
  sleepers_ok s es -> current_thread (k_g s) = c -> c <> 0 ->
  k_threads (k_st s) !! c = Some th -> frequency (k_g s) <> 0 ->
  exists s', thread_sleep ms s = Ok (true, s') /\
    sleepers_ok s' (sleep_ins (w32 (time_of (k_g s) + ms), c) es) /\
    k_threads (k_st s') = <[c := set_t_state TS_WAKEWAIT th]> (k_threads (k_st s)).
Proof.
  intros Ws Ec Hc Eth Hf. set (w := w32 (time_of (k_g s) + ms)).
  set (sf := fresh_ptr (k_sleepers (k_st s))).
  destruct (sleep_insert_ok s es sf (SleepingThread w c (k_junk (k_g s))) Ws)
    as (s' & E & [X1 X2 X3]).
  { pose proof (fresh_ptr_pos (k_sleepers (k_st s))). unfold sf. lia. } { apply fresh_ptr_None. }
  apply wp_val. unfold thread_sleep. ksteps. rewrite Ec, (proj2 (Z.eqb_neq _ _) Hc). ksteps.
  apply wp_timer_time; [done|]. ksteps. fold w. fold sf. cbn [wakeup_time] in E. eapply wp_eq; [exact E|].
  assert (Ec' : current_thread (k_g s') = c) by (by rewrite X3).
  assert (Eth' : k_threads (k_st s') !! c = Some th) by (by rewrite X2).
  unfold goInactive_mark. ksteps. rewrite Ec'. ksteps. split; [done|]. split; [done|].
  by rewrite X2.
Qed.

Lemma thread_sleep_correct_witness :
  exists s', thread_sleep 10 sample_timer = Ok (true, s') /\
    sleepers_ok s' [(5, 40); (16, 20)] /\
    k_threads (k_st s') = <[20 := sample_thread 1 0 2]> (k_threads (k_st sample_timer)).
Proof.
  apply (thread_sleep_correct 10 sample_timer [(5, 40)] 20 (sample_thread 1 0 0));
    try reflexivity; try done. apply sample_timer_sleepers.
Defined.

(** C18. The timer wakes exactly the sleepers whose time has come: each of
    them runs again and stands at the end of its queue, in order of time;
    the others sleep on, and their time is still to come. *)
Theorem timer_wakes_due (lvl : Z -> Z) s es qs :
  sleepers_ok s es -> queues_ok s qs -> frequency (k_g s) <> 0 ->
  let now := time_of (k_g s) in
  NoDup (due now es).*2 -> (forall t, t ∈ (due now es).*2 -> waiting s qs t (lvl t)) ->
  exists s', timer_wakeUpSleepingThreads s = Ok (tt, s') /\
    sleepers_ok s' (not_due now es) /\ (forall e, e ∈ not_due now es -> now < fst e) /\
    queues_ok s' (enqueue_all qs ((fun e => (e.2, lvl e.2)) <$> due now es)) /\
    (forall t, t ∈ (due now es).*2 ->
       exists th, k_threads (k_st s') !! t = Some th /\ t_state th = TS_RUNNING) /\
    (forall t th, t ∉ (due now es).*2 -> k_threads (k_st s) !! t = Some th ->
       exists th', k_threads (k_st s') !! t = Some th' /\ t_state th' = t_state th).
Proof.
  intros Ws Wq Hf now Hnd Hw.
  assert (Hlen : (length (due now es) < 1 + size (k_sleepers (k_st s)))%nat).
  { destruct Ws as (l & Hl & -> & _). pose proof (linked_length _ _ _ Hl).
    pose proof (f_equal length (due_split now (entry (k_sleepers (k_st s)) <$> l))) as El.
    rewrite length_app, length_fmap in El. lia. }
  destruct (wake_loop_ok now lvl _ s es qs Ws Wq Hnd Hw Hlen) as (s' & E & X1 & X2 & X3 & X4).
  exists s'. split; [|split; [done|split; [|done]]].
  - apply wp_eq_Ok. unfold timer_wakeUpSleepingThreads. ksteps. apply wp_timer_time; [done|]. ksteps.
    fold now. by eapply wp_eq.
  - destruct Ws as (l & _ & _ & Hs). by apply not_due_later.
Qed.

Lemma timer_wakes_due_witness :
  exists s', timer_wakeUpSleepingThreads sample_timer = Ok (tt, s') /\
    sleepers_ok s' [] /\ (forall e, e ∈ ([] : list (Z * ptr)) -> 6 < fst e) /\
    queues_ok s' (enqueue_all sample_queues [(40, 2)]) /\
    (forall t, t ∈ [40] -> exists th, k_threads (k_st s') !! t = Some th /\ t_state th = TS_RUNNING) /\
    (forall t th, t ∉ [40] -> k_threads (k_st sample_timer) !! t = Some th ->
       exists th', k_threads (k_st s') !! t = Some th' /\ t_state th' = t_state th).
Proof.
  apply (timer_wakes_due (fun _ => 2) sample_timer [(5, 40)] sample_queues).
  - apply sample_timer_sleepers.
  - apply sample_timer_queues.
  - done.
  - apply NoDup_singleton.
  - intros t ->%list_elem_of_singleton. apply sample_timer_waiting.
Defined.
