(* ===== verification/Objects.v ===== *)
(** * Objects and descriptors

    [src/kernel/ipc/object.c]: the descriptors of a process, a list linked
    through [d_next], and the number of descriptors of an object. *)

From S2P Require Import Prelude Memory Bitset Kernel.

Definition obj_new (own : ptr) : M kstate ptr :=
  new (Object own 0 MUTEX_UNLOCKED 0 0).

Definition obj_delete (obj : ptr) : M kstate unit :=
  o ← load (A := object) obj;
  if (0 <? descriptors o) || negb (busyMutex o =? MUTEX_UNLOCKED) || negb (o_request o =? 0)
  then mret tt
  else free (A := object) obj.

(** A search of the descriptor list: the first match, or 0. *)
Definition find_desc (P : obj_descriptor -> bool) (proc : ptr) : M kstate ptr :=
  p ← load (A := process) proc; walk (fun _ d => P d) (objects p).

Definition objdesc_get (proc obj : ptr) : M kstate Z :=
  it ← find_desc (fun d => d_obj d =? obj) proc;
  if it =? 0 then mret (-1) else d ← load (A := obj_descriptor) it; mret (d_id d).

Definition objdesc_read (proc : ptr) (id : Z) : M kstate ptr :=
  it ← find_desc (fun d => d_id d =? id) proc;
  if it =? 0 then mret 0 else d ← load (A := obj_descriptor) it; mret (d_obj d).

(** The id is an [int] read from the unsigned counter. *)
Definition objdesc_add (proc obj : ptr) : M kstate Z :=
  tmp ← objdesc_get proc obj;
  if negb (tmp =? -1) then mret (-1)
  else
    p ← load (A := process) proc;
    ret ← new (ObjDescriptor obj (s32 (next_objdesc p)) (objects p));
    update proc (set_objects ret);;
    update obj (fun o => set_descriptors (descriptors o + 1) o);;
    update proc (fun p => set_next_objdesc (w32 (next_objdesc p + 1)) p);;
    mret (s32 (next_objdesc p)).

(** The loop of [objdesc_rm] over the descriptors after the first: when
    [e->next] is the one, [e->next] is overwritten before it is used. *)
Definition rm_step (id : Z) (e : ptr) : M kstate (ptr + unit) :=
  a ← load (A := obj_descriptor) e;
  if d_next a =? 0 then mret (inr tt)
  else
    b ← load (A := obj_descriptor) (d_next a);
    if d_id b =? id then
      update e (set_d_next (d_next b));;
      a ← load (A := obj_descriptor) e;
      c ← load (A := obj_descriptor) (d_next a);
      update (d_obj c) (fun o => set_descriptors (descriptors o - 1) o);;
      free (A := obj_descriptor) (d_next a);;
      mret (inr tt)
    else mret (inl (d_next a)).

Definition objdesc_rm_rest (id : Z) (head : ptr) : M kstate unit :=
  n ← gets (fun s => size (k_descs (k_st s)));
  loop (1 + n) (rm_step id) head.

Definition objdesc_rm (proc : ptr) (id : Z) : M kstate unit :=
  p ← load (A := process) proc;
  let e := objects p in
  first ← (if e =? 0 then mret false
           else d ← load (A := obj_descriptor) e; mret (d_id d =? id));
  if (first : bool) then
    d ← load (A := obj_descriptor) e;
    update proc (set_objects (d_next d));;
    update (d_obj d) (fun o => set_descriptors (descriptors o - 1) o);;
    free (A := obj_descriptor) e
  else objdesc_rm_rest id e.

Definition obj_createP (p : ptr) : M kstate Z := o ← obj_new p; objdesc_add p o.

Definition obj_closeP (p : ptr) (id : Z) : M kstate unit :=
  obj ← objdesc_read p id;
  if obj =? 0 then mret tt
  else
    objdesc_rm p id;;
    o ← load (A := object) obj;
    if owner o =? p then
      if 0 <? descriptors o then update obj (set_owner 0) else obj_delete obj
    else if (descriptors o =? 0) && (owner o =? 0) then obj_delete obj
    else mret tt.

(** [while (p->objects != 0) obj_closeP(p, p->objects->id);] *)
Definition obj_closeall (p : ptr) : M kstate unit :=
  n ← gets (fun s => size (k_descs (k_st s)));
  loop (1 + n) (fun _ =>
    pr ← load (A := process) p;
    if objects pr =? 0 then mret (inr tt)
    else d ← load (A := obj_descriptor) (objects pr); obj_closeP p (d_id d);; mret (inl tt)) tt.

(** The process of the current thread. *)
Definition current_process : M kstate ptr :=
  c ← getg current_thread; t ← load c; mret (t_process t).

Definition object_create : M kstate Z := p ← current_process; obj_createP p.

Definition object_owned (id : Z) : M kstate Z :=
  p ← current_process;
  obj ← objdesc_read p id;
  if obj =? 0 then mret (-10)
  else o ← load (A := object) obj; mret (if owner o =? p then 1 else 0).

Definition object_close (id : Z) : M kstate unit := p ← current_process; obj_closeP p id.

(** ** Specification: the descriptors of a process as a list of pairs *)

(** Descriptor and object. *)
Definition desc_entry (m : gmap Z obj_descriptor) (x : ptr) : Z * ptr :=
  match m !! x with Some d => (d_id d, d_obj d) | None => (-1, 0) end.

(** Process [p] holds the descriptors [es], the newest first: distinct ids
    below the next one, and one descriptor for an object at most. *)
Record desc_list (s : kstate) (p : ptr) (pr : process) (l : list Z) (es : list (Z * ptr)) : Prop := {
  dl_nonzero : p <> 0;
  dl_process : k_processes (k_st s) !! p = Some pr;
  dl_linked : linked (k_descs (k_st s)) (objects pr) l;
  dl_entries : es = desc_entry (k_descs (k_st s)) <$> l;
  dl_ids : NoDup es.*1;
  dl_objs : NoDup es.*2;
  dl_next : forall i o, (i, o) ∈ es -> 0 <= i < next_objdesc pr;
  dl_int : 0 <= next_objdesc pr < 2147483648
}.

Definition id_of (es : list (Z * ptr)) (obj : ptr) : Z :=
  match List.find (fun e => e.2 =? obj) es with Some e => e.1 | None => -1 end.
Definition obj_of (es : list (Z * ptr)) (id : Z) : ptr :=
  match List.find (fun e => e.1 =? id) es with Some e => e.2 | None => 0 end.

(** ** Lemmas *)

Lemma find_In {A} (P : A -> bool) l :
  match List.find P l with
  | Some a => a ∈ l /\ P a = true
  | None => forall a, a ∈ l -> P a = false
  end.
Proof.
  induction l as [|a l IH]; simpl; [set_solver|]. destruct (P a) eqn:E; [set_solver|].
  destruct (List.find P l); [set_solver|]. intros b [->|Hb]%elem_of_cons; auto.
Qed.

Lemma obj_of_in es id o : NoDup es.*1 -> (id, o) ∈ es -> obj_of es id = o.
Proof.
  intros Hnd Hin. unfold obj_of. pose proof (find_In (fun e => e.1 =? id) es) as Hf.
  destruct (List.find _ es) as [[i o']|].
  - destruct Hf as [Hin' E%Z.eqb_eq]. cbn in *. subst i.
    apply list_elem_of_lookup in Hin as (k & Hk), Hin' as (k' & Hk').
    pose proof (NoDup_lookup es.*1 k k' id Hnd) as Hkk.
    rewrite !list_lookup_fmap, Hk, Hk' in Hkk. rewrite Hkk in Hk by done. congruence.
  - specialize (Hf _ Hin). cbn in Hf. rewrite Z.eqb_refl in Hf. done.
Qed.

Lemma id_of_in es id o : NoDup es.*2 -> (id, o) ∈ es -> id_of es o = id.
Proof.
  intros Hnd Hin. unfold id_of. pose proof (find_In (fun e => e.2 =? o) es) as Hf.
  destruct (List.find _ es) as [[i o']|].
  - destruct Hf as [Hin' E%Z.eqb_eq]. cbn in *. subst o'.
    apply list_elem_of_lookup in Hin as (k & Hk), Hin' as (k' & Hk').
    pose proof (NoDup_lookup es.*2 k k' o Hnd) as Hkk.
    rewrite !list_lookup_fmap, Hk, Hk' in Hkk. rewrite Hkk in Hk by done. congruence.
  - specialize (Hf _ Hin). cbn in Hf. rewrite Z.eqb_refl in Hf. done.
Qed.

(** A walk over the descriptors is a [find] over their entries. *)
Lemma first_desc (P : Z * ptr -> bool) m p l : linked m p l ->
  let f := first_ptr (fun _ d => P (d_id d, d_obj d)) m l in
  match List.find P (desc_entry m <$> l) with
  | Some e => f <> 0 /\ exists d, m !! f = Some d /\ e = (d_id d, d_obj d)
  | None => f = 0
  end.
Proof.
  revert p. induction l as [|x l IH]; intros p; simpl; [done|].
  intros (-> & Hx & d & Ed & Hl).
  assert (desc_entry m x = (d_id d, d_obj d)) as -> by (unfold desc_entry; by rewrite Ed). rewrite Ed.
  destruct (P (d_id d, d_obj d)); [eauto|]. by apply IH with (nxt d).
Qed.

Lemma wp_find_desc (P : Z * ptr -> bool) s p pr l es Q : desc_list s p pr l es ->
  (forall f, match List.find P es with
             | Some e => f <> 0 /\ exists d, k_descs (k_st s) !! f = Some d /\ e = (d_id d, d_obj d)
             | None => f = 0
             end -> Q f s) ->
  wp (find_desc (fun d => P (d_id d, d_obj d)) p) s Q.
Proof.
  intros [W1 W2 W3 -> _ _ _] HQ. unfold find_desc. ksteps.
  eapply wp_eq; [apply (walk_spec _ _ l); exact W3|]. apply HQ, (first_desc P _ _ _ W3).
Qed.

Lemma objdesc_get_ok s p pr l es obj : desc_list s p pr l es ->
  objdesc_get p obj s = Ok (id_of es obj, s).
Proof.
  intros W. apply wp_eq_Ok. unfold objdesc_get, id_of. apply wp_bind.
  apply (wp_find_desc (fun e => e.2 =? obj) s p pr l es); [done|].
  intros f. destruct (List.find _ es) as [e|].
  - intros (Hf & d & Ed & ->). rewrite (proj2 (Z.eqb_neq _ _) Hf). by ksteps.
  - intros ->. cbn [Z.eqb]. by ksteps.
Qed.

Lemma objdesc_read_ok s p pr l es id : desc_list s p pr l es ->
  objdesc_read p id s = Ok (obj_of es id, s).
Proof.
  intros W. apply wp_eq_Ok. unfold objdesc_read, obj_of. apply wp_bind.
  apply (wp_find_desc (fun e => e.1 =? id) s p pr l es); [done|].
  intros f. destruct (List.find _ es) as [e|].
  - intros (Hf & d & Ed & ->). rewrite (proj2 (Z.eqb_neq _ _) Hf). by ksteps.
  - intros ->. cbn [Z.eqb]. by ksteps.
Qed.

Lemma id_of_absent es obj : (forall i, (i, obj) ∉ es) -> id_of es obj = -1.
Proof.
  intros Hno. unfold id_of. pose proof (find_In (fun e => e.2 =? obj) es) as Hf.
  destruct (List.find _ es) as [[i o]|]; [|done]. destruct Hf as [Hin E%Z.eqb_eq]. cbn in *.
  subst o. by apply Hno in Hin.
Qed.

Lemma desc_entries_insert_ne m x d (k : list Z) : x ∉ k ->
  desc_entry (<[x := d]> m) <$> k = desc_entry m <$> k.
Proof.
  intros Hx. apply list_fmap_ext. intros i y Hy. unfold desc_entry.
  rewrite lookup_insert_ne; [done|]. intros ->. apply Hx. by eapply list_elem_of_lookup_2.
Qed.

(** The state and the list after [objdesc_add]. *)
Record desc_added (s : kstate) (p obj : ptr) (o : object) (id : Z) (es : list (Z * ptr)) (s' : kstate) : Prop := {
  da_list : exists pr l, desc_list s' p pr l ((id, obj) :: es);
  da_objects : k_objects (k_st s') = <[obj := set_descriptors (descriptors o + 1) o]> (k_objects (k_st s));
  da_processes q : q <> p -> k_processes (k_st s') !! q = k_processes (k_st s) !! q;
  da_process pr : k_processes (k_st s) !! p = Some pr ->
    exists h, k_processes (k_st s') !! p = Some (set_next_objdesc (id + 1) (set_objects h pr));
  da_pagedirs : k_pagedirs (k_st s') = k_pagedirs (k_st s);
  da_stores : k_st s' = set_k_descs (k_descs (k_st s')) (set_k_objects (k_objects (k_st s'))
    (set_k_processes (k_processes (k_st s')) (k_st s)));
  da_globals : k_g s' = k_g s
}.

Lemma objdesc_add_ok s p pr l es obj o : desc_list s p pr l es -> obj <> 0 ->
  k_objects (k_st s) !! obj = Some o -> (forall i, (i, obj) ∉ es) ->
  next_objdesc pr < 2147483647 ->
  exists s', objdesc_add p obj s = Ok (next_objdesc pr, s') /\
    desc_added s p obj o (next_objdesc pr) es s'.
Proof.
  intros W Hobj Eo Hno Hmax. pose proof (objdesc_get_ok _ _ _ _ _ obj W) as Eg.
  rewrite (id_of_absent _ _ Hno) in Eg. destruct W as [W1 W2 W3 W4 W5 W6 W7 W8].
  set (r := fresh_ptr (k_descs (k_st s))).
  assert (Hr : r <> 0) by (pose proof (fresh_ptr_pos (k_descs (k_st s))); unfold r; lia).
  pose proof (linked_fresh _ _ _ r W3 (fresh_ptr_None _)) as Hnr.
  assert (Es : s32 (next_objdesc pr) = next_objdesc pr)
    by (unfold s32; destruct (Z.ltb_spec (next_objdesc pr) 2147483648); lia).
  apply wp_val. unfold objdesc_add. apply wp_bind. eapply wp_eq; [exact Eg|]. rewrite Z.eqb_refl. cbn [negb]. ksteps.
  fold r. ksteps. split; [done|].
  cbn [next_objdesc set_objects]. rewrite (w32_small (next_objdesc pr + 1)) by (unfold u32; lia). rewrite !insert_insert_eq. split; ksimp; try done.
  - exists (set_next_objdesc (next_objdesc pr + 1) (set_objects r pr)), (r :: l).
    split; ksimp; try done.
    + by rewrite lookup_insert_eq.
    + cbn [objects set_next_objdesc set_objects]. eapply linked_push; done.
    + rewrite Es, fmap_cons. unfold desc_entry at 1. rewrite lookup_insert_eq. cbn [d_id d_obj].
      by rewrite desc_entries_insert_ne, W4.
    + cbn [fmap list_fmap]. constructor; [|done].
      intros ([i o'] & Ei & Hi)%list_elem_of_fmap. cbn in Ei. apply W7 in Hi. lia.
    + cbn [fmap list_fmap]. constructor; [|done].
      intros ([i o'] & Ei & Hi)%list_elem_of_fmap. cbn in Ei. subst o'. by apply Hno in Hi.
    + cbn [next_objdesc set_next_objdesc]. intros i o' [[= -> ->]|Hi]%elem_of_cons; [lia|].
      apply W7 in Hi. lia.
    + cbn [next_objdesc set_next_objdesc]. lia.
  - intros x Hx. by rewrite lookup_insert_ne.
  - intros pr'. rewrite W2. intros [= <-]. rewrite lookup_insert_eq. by eexists.
Qed.

(** Removing the newest descriptor. *)
Lemma objdesc_rm_head_ok s p pr l id obj es o : desc_list s p pr l ((id, obj) :: es) ->
  obj <> 0 -> k_objects (k_st s) !! obj = Some o ->
  exists s' pr' l', objdesc_rm p id s = Ok (tt, s') /\ desc_list s' p pr' l' es /\
    k_objects (k_st s') = <[obj := set_descriptors (descriptors o - 1) o]> (k_objects (k_st s)) /\
    (forall q, q <> p -> k_processes (k_st s') !! q = k_processes (k_st s) !! q) /\
    k_threads (k_st s') = k_threads (k_st s) /\ k_g s' = k_g s.
Proof.
  intros [W1 W2 W3 W4 W5 W6 W7 W8] Hobj Eo. destruct l as [|x l]; [done|].
  pose proof (linked_NoDup _ _ _ W3) as [Hnx _]%NoDup_cons.
  destruct W3 as (Hx & Hx0 & d & Ed & W3). cbn [fmap list_fmap] in *. injection W4 as Eid W4.
  unfold desc_entry in Eid. rewrite Ed in Eid. injection Eid as Eid Edo.
  set (pr' := set_objects (d_next d) pr).
  cut (wp (objdesc_rm p id) s (fun _ s' => s' = KState
    (set_k_descs (delete x (k_descs (k_st s)))
      (set_k_objects (<[obj := set_descriptors (descriptors o - 1) o]> (k_objects (k_st s)))
        (set_k_processes (<[p := pr']> (k_processes (k_st s))) (k_st s)))) (k_g s))).
  { intros ([] & s' & E & ->)%wp_Ok. eexists _, pr', l. split; [exact E|]. ksimp.
    split; [|split; [done|split; [|done]]]; [|intros q Hq; by rewrite lookup_insert_ne].
    split; ksimp; cbn [objects pr' set_objects next_objdesc]; try done.
    - by rewrite lookup_insert_eq.
    - by apply lseg_delete.
    - rewrite W4. apply list_fmap_ext. intros i y Hy. unfold desc_entry.
      rewrite lookup_delete_ne; [done|]. intros ->. apply Hnx. by eapply list_elem_of_lookup_2.
    - by apply NoDup_cons in W5 as [_ ?].
    - by apply NoDup_cons in W6 as [_ ?].
    - intros i o' Hi. apply (W7 i o'). set_solver. }
  unfold objdesc_rm. ksteps. rewrite Hx, (proj2 (Z.eqb_neq _ _) Hx0). ksteps.
  rewrite <- Eid, Z.eqb_refl. ksteps. rewrite <- Edo in *. by ksteps.
Qed.

(** The search of [objdesc_rm] for a descriptor that is not the newest:
    it reaches the one before it. *)
Lemma rm_search id s l1 : forall p n e l2, linked (k_descs (k_st s)) p (l1 ++ e :: l2) ->
  (forall y d, y ∈ tail (l1 ++ [e]) -> k_descs (k_st s) !! y = Some d -> d_id d <> id) ->
  loop (length l1 + n) (rm_step id) p s = loop n (rm_step id) e s.
Proof.
  induction l1 as [|x l1 IH]; intros p n e l2 Hl Hids.
  - by destruct Hl as (-> & _).
  - destruct Hl as (-> & Hx & a & Ea & Hl). cbn [length plus]. rewrite loop_S.
    cbn [nxt Linked_obj_descriptor app tail] in *.
    assert (Hne : d_next a <> 0) by (destruct l1; destruct Hl as (-> & ? & _); done).
    destruct (linked_cons_inv _ _ _ Hl Hne) as (b & l' & El & Eb & _).
    assert (Hb : d_id b <> id).
    { apply (Hids (d_next a)); [|done]. destruct l1; injection El as -> _; set_solver. }
    erewrite bind_Ok; [|apply wp_eq_Ok; unfold rm_step; ksteps].
    2: { rewrite (proj2 (Z.eqb_neq _ _) Hne). ksteps. rewrite (proj2 (Z.eqb_neq _ _) Hb). ksteps. reflexivity. }
    apply (IH _ n e l2 Hl). intros y d Hy. apply Hids. destruct l1; set_solver.
Qed.

Lemma rm_step_last id s e b a d : e <> 0 -> k_descs (k_st s) !! e = Some a -> d_next a = b ->
  b <> 0 -> k_descs (k_st s) !! b = Some d -> d_id d = id -> d_next d = 0 ->
  rm_step id e s = Fault NullDeref.
Proof.
  intros He Ea <- Hb Ed Eid En. unfold rm_step. krun. rewrite (proj2 (Z.eqb_neq _ _) Hb). krun.
  rewrite Eid, Z.eqb_refl. krun. cbn [d_next set_d_next]. by rewrite En.
Qed.

(** ** A sample: process 1 owns object 5 and holds descriptors 1 and 0 *)

Definition sample_objects : kstate :=
  let s := boot_state 1 0 in
  KState
    (set_k_processes {[ 1 := Process 1 0 2 1 0 0 0 20 2 0 0 0; 2 := Process 2 0 2 1 0 0 0 0 0 0 0 0 ]}
      (set_k_objects {[ 5 := Object 1 1 0 0 0; 6 := Object 2 1 0 0 0 ]}
        (set_k_descs {[ 10 := ObjDescriptor 5 0 0; 20 := ObjDescriptor 6 1 10 ]}
          (set_k_threads {[ 3 := Thread 1 0 0 0 0 0 0 0 0 0 ]} (k_st s)))))
    (set_current_thread 3 (k_g s)).

Lemma sample_desc_list :
  desc_list sample_objects 1 (Process 1 0 2 1 0 0 0 20 2 0 0 0) [20; 10] [(1, 6); (0, 5)].
Proof.
  split; try done.
  - repeat (eexists || split || done).
  - by apply (bool_decide_unpack _).
  - by apply (bool_decide_unpack _).
  - cbn. intros i o Hi. rewrite !elem_of_cons, elem_of_nil in Hi.
    destruct Hi as [[= -> ->]|[[= -> ->]|[]]]; lia.
Qed.

(** ** Theorems *)

(** A descriptor added for an object reads back as that object, gets the
    next id, counts in the object, and leaves every other descriptor as it
    was. *)
Theorem objdesc_add_read s p pr l es obj o :
  desc_list s p pr l es -> obj <> 0 -> k_objects (k_st s) !! obj = Some o ->
  (forall i, (i, obj) ∉ es) -> next_objdesc pr < 2147483647 ->
  exists s', objdesc_add p obj s = Ok (next_objdesc pr, s') /\
    objdesc_read p (next_objdesc pr) s' = Ok (obj, s') /\
    objdesc_get p obj s' = Ok (next_objdesc pr, s') /\
    (forall i o', (i, o') ∈ es -> objdesc_read p i s' = Ok (o', s')) /\
    descriptors <$> k_objects (k_st s') !! obj = Some (descriptors o + 1).
Proof.
  intros W Hobj Eo Hno Hmax.
  destruct (objdesc_add_ok _ _ _ _ _ _ _ W Hobj Eo Hno Hmax) as (s' & E & [(pr' & l' & W') Hc _ _ _ _ _]).
  exists s'. split; [done|]. split; [|split; [|split]].
  - rewrite (objdesc_read_ok _ _ _ _ _ _ W'). f_equal. f_equal.
    apply obj_of_in; [by destruct W' | set_solver].
  - rewrite (objdesc_get_ok _ _ _ _ _ _ W'). f_equal. f_equal.
    apply id_of_in; [by destruct W' | set_solver].
  - intros i o' Hi. rewrite (objdesc_read_ok _ _ _ _ _ _ W'). f_equal. f_equal.
    apply obj_of_in; [by destruct W' | set_solver].
  - by rewrite Hc, lookup_insert_eq.
Qed.

Lemma objdesc_add_read_witness :
  exists s', objdesc_add 2 5 sample_objects = Ok (0, s') /\
    objdesc_read 2 0 s' = Ok (5, s') /\ objdesc_get 2 5 s' = Ok (0, s') /\
    (forall i o', (i, o') ∈ ([] : list (Z * ptr)) -> objdesc_read 2 i s' = Ok (o', s')) /\
    descriptors <$> k_objects (k_st s') !! 5 = Some 2.
Proof.
  apply (objdesc_add_read sample_objects 2 (Process 2 0 2 1 0 0 0 0 0 0 0 0) [] [] 5 (Object 1 1 0 0 0));
    [|done | reflexivity | set_solver | cbn; lia].
  split; try done; try constructor; cbn; first [lia | set_solver].
Defined.

(** C26. Creating an object and closing it again: the object is gone, and
    the descriptors and the other objects are as before. *)
Theorem object_create_close s p pr l es :
  desc_list s p pr l es -> next_objdesc pr < 2147483647 -> (forall i, (i, fresh_ptr (k_objects (k_st s))) ∉ es) ->
  exists s1 s2 pr' l', obj_createP p s = Ok (next_objdesc pr, s1) /\
    obj_closeP p (next_objdesc pr) s1 = Ok (tt, s2) /\
    desc_list s2 p pr' l' es /\ k_objects (k_st s2) = k_objects (k_st s) /\ k_g s2 = k_g s.
Proof.
  intros W Hmax Hno. set (o := fresh_ptr (k_objects (k_st s))).
  assert (Ho : o <> 0) by (pose proof (fresh_ptr_pos (k_objects (k_st s))); unfold o; lia).
  set (ob := Object p 0 MUTEX_UNLOCKED 0 0).
  set (s0 := set_st (set_k_objects (<[o := ob]> (k_objects (k_st s))) (k_st s)) s).
  assert (W0 : desc_list s0 p pr l es) by (by destruct W).
  destruct (objdesc_add_ok s0 p pr l es o ob W0 Ho)
    as (s1 & E1 & [(pr1 & l1 & W1) Hc _ _ _ _ Hg]);
    [apply lookup_insert_eq | done | done |].
  assert (Eo1 : k_objects (k_st s1) !! o = Some (Object p 1 MUTEX_UNLOCKED 0 0))
    by (rewrite Hc; apply lookup_insert_eq).
  destruct (objdesc_rm_head_ok _ _ _ _ _ _ _ _ W1 Ho Eo1) as (s2 & pr2 & l2 & E2 & W2 & Eo2 & _ & _ & Hg2).
  assert (Eo3 : k_objects (k_st s2) !! o = Some (Object p 0 MUTEX_UNLOCKED 0 0))
    by (rewrite Eo2; apply lookup_insert_eq).
  exists s1, (set_st (set_k_objects (delete o (k_objects (k_st s2))) (k_st s2)) s2), pr2, l2.
  split; [|split; [|split; [|split]]].
  - unfold obj_createP, obj_new. apply wp_eq_Ok. ksteps. by eapply wp_eq.
  - apply wp_eq_Ok. unfold obj_closeP.
    apply wp_bind. eapply wp_eq; [exact (objdesc_read_ok _ _ _ _ _ (next_objdesc pr) W1)|].
    rewrite (obj_of_in _ _ o (dl_ids _ _ _ _ _ W1)) by set_solver. rewrite (proj2 (Z.eqb_neq _ _) Ho).
    ksteps. eapply wp_eq; [exact E2|]. ksteps. cbn [owner descriptors set_descriptors].
    rewrite Z.eqb_refl. cbn [Z.ltb Z.compare]. unfold obj_delete. ksteps. cbn. ksteps. reflexivity.
  - destruct W2; by split.
  - ksimp. rewrite Eo2, Hc. unfold s0. ksimp. rewrite !insert_insert_eq. apply delete_insert_id, fresh_ptr_None.
  - ksimp. by rewrite Hg2, Hg.
Qed.

Lemma object_create_close_witness :
  exists s1 s2 pr' l', obj_createP 1 sample_objects = Ok (2, s1) /\
    obj_closeP 1 2 s1 = Ok (tt, s2) /\
    desc_list s2 1 pr' l' [(1, 6); (0, 5)] /\
    k_objects (k_st s2) = k_objects (k_st sample_objects) /\ k_g s2 = k_g sample_objects.
Proof.
  apply (object_create_close sample_objects 1 (Process 1 0 2 1 0 0 0 20 2 0 0 0) [20; 10]).
  - apply sample_desc_list.
  - cbn. lia.
  - intros i. replace (fresh_ptr _) with 7 by reflexivity. rewrite !elem_of_cons, elem_of_nil. naive_solver.
Defined.

(** [objdesc_rm] of the oldest descriptor, when it is not the only one:
    the code unlinks it, and then takes the end of the list for it and
    dereferences a null pointer. *)
Theorem objdesc_rm_oldest_faults s p pr l es e id o :
  desc_list s p pr l (es ++ [e; (id, o)]) -> objdesc_rm p id s = Fault NullDeref.
Proof.
  intros [W1 W2 W3 W4 W5 W6 W7 W8].
  symmetry in W4. destruct (fmap_app_inv _ _ _ _ W4) as (l1 & l2 & _ & E2 & ->).
  destruct l2 as [|x [|b [|]]]; try done. injection E2 as Ee Eb.
  destruct (lseg_in_dom _ _ _ _ x W3) as (Hx & a & Ea); [set_solver|].
  destruct (lseg_in_dom _ _ _ _ b W3) as (Hb & d & Ed); [set_solver|].
  unfold desc_entry in Eb. rewrite Ed in Eb. injection Eb as -> ->.
  pose proof W3 as (r & _ & Er & _ & a' & Ea' & Hr & _ & d' & Ed' & Hd)%lseg_app.
  cbn [nxt Linked_obj_descriptor lseg] in Hr, Hd. assert (a' = a) as -> by congruence.
  assert (d' = d) as -> by congruence. clear Ea' Ed'. subst r.
  assert (Hids : forall y c, y ∈ l1 ++ [x] -> k_descs (k_st s) !! y = Some c -> d_id c <> d_id d).
  { intros y c Hy Ec E. rewrite fmap_app in W5. rewrite fmap_app in W4.
    apply NoDup_app in W5 as (_ & Hd1 & Hd2). cbn [fmap list_fmap fst] in Hd1, Hd2.
    apply elem_of_app in Hy as [Hy|Hy%list_elem_of_singleton].
    - apply (Hd1 (d_id d)); [|set_solver]. apply app_inj_2 in W4 as [W4 _]; [|done].
      rewrite <- W4. apply list_elem_of_fmap. exists (desc_entry (k_descs (k_st s)) y).
      split; [unfold desc_entry; by rewrite Ec|]. by apply list_elem_of_fmap_2.
    - subst y. apply NoDup_cons in Hd2 as [Hd2 _]. apply Hd2. rewrite Ee. unfold desc_entry.
      rewrite Ec. cbn [fst]. rewrite E. set_solver. }
  destruct (lseg_in_dom _ _ _ _ (objects pr) W3) as (Hh & h & Eh).
  { destruct l1; destruct W3 as (-> & _); set_solver. }
  unfold objdesc_rm. krun. rewrite (proj2 (Z.eqb_neq _ _) Hh). krun.
  rewrite (proj2 (Z.eqb_neq (d_id h) (d_id d))).
  2: { apply (Hids (objects pr)); [|done]. destruct l1; destruct W3 as (-> & _); set_solver. }
  unfold objdesc_rm_rest. krun. pose proof (linked_length _ _ _ W3) as Hlen. rewrite length_app in Hlen.
  cbn [length] in Hlen.
  replace (1 + size (k_descs (k_st s)))%nat
    with (length l1 + Datatypes.S (size (k_descs (k_st s)) - length l1))%nat by (cbn in *; lia).
  rewrite (rm_search (d_id d) s l1 _ _ x [b] W3).
  - rewrite loop_S. apply bind_Fault. by apply (rm_step_last _ _ _ b a d).
  - intros y c Hy. apply Hids. destruct l1; set_solver.
Qed.

Lemma objdesc_rm_oldest_faults_witness : objdesc_rm 1 0 sample_objects = Fault NullDeref.
Proof.
  apply (objdesc_rm_oldest_faults sample_objects 1 (Process 1 0 2 1 0 0 0 20 2 0 0 0) [20; 10] [] (1, 6) 0 5).
  apply sample_desc_list.
Defined.
