(* ===== verification/Segments.v ===== *)
(** * Segments

    [src/kernel/mem/seg.c], the segments of [src/kernel/ipc/shm.c], and the
    parts of [src/kernel/mem/paging.c] that work on them: [paging_fault]
    and [pagedir_delete].

    A segment calls its operations through four function pointers; the
    pointers are set once, with the kind of the segment, so a call is a
    match on [seg_data]. *)

From S2P Require Import Prelude Memory Bitset Kernel Paging.

(** ** The operations of each kind *)

Definition new_map (start len : Z) : M kstate ptr :=
  j ← getg k_junk; new (SegmentMap j j start len j).

Definition simpleseg_map (ss : simpleseg) : M kstate ptr := new_map (ss_start ss) (ss_len ss).

Definition shmseg_map (ss : shmseg) (offset : Z) : M kstate ptr := new_map offset (sh_len ss).

Definition simpleseg_unmap (m : segment_map) : M kstate unit :=
  for_pages (page_rounds (sm_len m)) (sm_start m) (w32 (sm_start m + sm_len m)) (fun i =>
    p ← pagedir_getPage (sm_pagedir m) i false; page_unmapFree p).

Definition shmseg_unmap (m : segment_map) : M kstate unit :=
  for_pages (page_rounds (sm_len m)) 0 (sm_len m) (fun i =>
    p ← pagedir_getPage (sm_pagedir m) (w32 (sm_start m + i)) false; page_unmap p).

(** [simpleseg_delete] does nothing; [shmseg_delete] frees the frames. *)
Fixpoint free_frames (fs : list Z) : M kstate unit :=
  match fs with
  | [] => mret tt
  | f :: fs' => when (negb (f =? 0)) (lift_frames (frame_free f));; free_frames fs'
  end.

Definition shmseg_delete (ss : shmseg) : M kstate unit := free_frames (sh_frames ss).

Definition simpleseg_handleFault (m : segment_map) (ss : simpleseg) (addr : Z) (write : bool) :
    M kstate Z :=
  if write && (ss_writable ss =? 0) then mret 1
  else
    let addr := page_mask addr in
    p ← pagedir_getPage (sm_pagedir m) addr true;
    match p with
    | None => fail NullDeref
    | Some q =>
        g ← get_page q;
        if negb (pg_frame g =? 0) then mret 1
        else f ← lift_frames frame_alloc; page_map p f 1 (ss_writable ss);; mret 0
    end.

Definition set_sh_frames (fs : list Z) (ss : shmseg) : shmseg := ShmSeg (sh_len ss) fs (sh_owner ss).

(** [if (ss->frames[k] == 0) ss->frames[k] = frame_alloc();] and the value
    of [ss->frames[k]]; the array has [len / 0x1000] entries. *)
Definition shm_frame (seg : ptr) (ss : shmseg) (k : Z) : M kstate Z :=
  match sh_frames ss !! Z.to_nat k with
  | None => fail (BadAccess k)
  | Some f =>
      if f =? 0 then
        f' ← lift_frames frame_alloc;
        update seg (set_seg_data (shm_kind (set_sh_frames (<[Z.to_nat k := f']> (sh_frames ss)) ss)));;
        mret f'
      else mret f
  end.

Definition shmseg_handleFault (m : segment_map) (ss : shmseg) (addr : Z) (write : bool) : M kstate Z :=
  let addr := page_mask addr in
  p ← pagedir_getPage (sm_pagedir m) addr true;
  match p with
  | None => fail NullDeref
  | Some q =>
      g ← get_page q;
      if negb (pg_frame g =? 0) then mret 1
      else
        f ← shm_frame (sm_seg m) ss (w32 (addr - sm_start m) / 0x1000);
        page_map p f 1 1;; mret 0
  end.

(** The calls through the pointers. *)
Definition seg_op_map (g : segment) (offset : Z) : M kstate ptr :=
  match seg_data g with simple_kind ss => simpleseg_map ss | shm_kind ss => shmseg_map ss offset end.
Definition seg_op_unmap (g : segment) (m : segment_map) : M kstate unit :=
  match seg_data g with simple_kind _ => simpleseg_unmap m | shm_kind _ => shmseg_unmap m end.
Definition seg_op_delete (g : segment) : M kstate unit :=
  match seg_data g with simple_kind _ => mret tt | shm_kind ss => shmseg_delete ss end.
Definition seg_op_fault (g : segment) (m : segment_map) (addr : Z) (write : bool) : M kstate Z :=
  match seg_data g with
  | simple_kind ss => simpleseg_handleFault m ss addr write
  | shm_kind ss => shmseg_handleFault m ss addr write
  end.

(** ** Mapping and unmapping *)

Definition simpleseg_make (start len writable : Z) : M kstate ptr :=
  new (Segment (simple_kind (SimpleSeg writable start len)) 0).

Definition shmseg_make (len : Z) (owner : ptr) : M kstate ptr :=
  new (Segment (shm_kind (ShmSeg len (replicate (Z.to_nat (len / 0x1000)) 0) owner)) 0).

Definition seg_map (seg pagedir offset : ptr) : M kstate ptr :=
  g ← load seg;
  sm ← seg_op_map g offset;
  if sm =? 0 then mret 0
  else
    update seg (fun g => set_mappings (mappings g + 1) g);;
    d ← load pagedir;
    update sm (fun m => set_sm_next (mappedSegs d) (set_sm_pagedir pagedir (set_sm_seg seg m)));;
    update pagedir (set_mappedSegs sm);;
    mret sm.

(** Taking [map] out of its directory's list. *)
Definition unlink_map (map : ptr) : M kstate unit :=
  m ← load (A := segment_map) map;
  d ← load (sm_pagedir m);
  if mappedSegs d =? map then update (sm_pagedir m) (set_mappedSegs (sm_next m))
  else
    p ← walk (fun _ a => (sm_next a =? 0) || (sm_next a =? map)) (mappedSegs d);
    a ← load (A := segment_map) p;
    when (sm_next a =? map) (update p (set_sm_next (sm_next m))).

Definition seg_unmap (map : ptr) : M kstate unit :=
  m ← load (A := segment_map) map;
  g ← load (sm_seg m);
  seg_op_unmap g m;;
  unlink_map map;;
  update (sm_seg m) (fun g => set_mappings (mappings g - 1) g);;
  g ← load (sm_seg m);
  when (mappings g =? 0) (seg_op_delete g;; free (A := segment) (sm_seg m));;
  free (A := segment_map) map.

Definition set_len (len : Z) (g : segment) : segment :=
  match seg_data g with
  | simple_kind ss => set_seg_data (simple_kind (SimpleSeg (ss_writable ss) (ss_start ss) len)) g
  | shm_kind _ => g
  end.

Definition round_up (len : Z) : Z :=
  if page_off len =? 0 then len else w32 (page_mask len + 0x1000).

Definition simpleseg_resize (map : ptr) (len : Z) : M kstate Z :=
  if map =? 0 then mret (-1)
  else
    m ← load (A := segment_map) map;
    g ← load (sm_seg m);
    match seg_data g with
    | shm_kind _ => mret (-2)
    | simple_kind ss =>
        let len := round_up len in
        if len <? sm_len m then
          for_pages (page_rounds (sm_len m)) (w32 (sm_start m + len)) (w32 (sm_start m + sm_len m))
            (fun i => p ← pagedir_getPage (sm_pagedir m) i false; page_unmapFree p);;
          update map (set_sm_len len);;
          update (sm_seg m) (set_len len);;
          mret 0
        else if sm_len m <? len then
          update map (set_sm_len len);; update (sm_seg m) (set_len len);; mret 0
        else mret 0
    end.

(** ** Shared memory in an address space *)

Definition is_shm (s : kstate) (m : segment_map) : bool :=
  match k_segments (k_st s) !! sm_seg m with
  | Some g => match seg_data g with shm_kind _ => true | simple_kind _ => false end
  | None => false
  end.

(** [shmseg_getByOff]; every mapping of the list has its segment. *)
Definition shmseg_getByOff (pr : ptr) (offset : Z) : M kstate ptr :=
  p ← load pr;
  d ← load (p_pagedir p);
  s ← gets id;
  walk (fun _ m => (sm_start m =? offset) && is_shm s m) (mappedSegs d).

Definition shm_create (offset len : Z) : M kstate Z :=
  if 0xE0000000 <=? offset then mret (-1)
  else if 0x10000000 <=? len then mret (-1)
  else if 0xE0000000 <=? w32 (offset + len) then mret (-1)
  else
    c ← getg current_thread; t ← load c;
    p ← load (t_process t);
    seg ← shmseg_make len (t_process t);
    _ ← seg_map seg (p_pagedir p) offset;
    mret 0.

Definition shm_delete (offset : Z) : M kstate Z :=
  c ← getg current_thread; t ← load c;
  s ← shmseg_getByOff (t_process t) offset;
  if s =? 0 then mret (-1) else seg_unmap s;; mret 0.

(** ** Page faults and the end of a directory *)

(** The search of [paging_fault]: the first mapping that covers [addr]. *)
Definition covers (addr : Z) (m : segment_map) : bool :=
  (sm_start m <=? addr) && (addr <? w32 (sm_start m + sm_len m)).

(** [paging_fault]: 0 when the fault is handled, 1 when it is not.  [addr]
    is the faulting address (register cr2). *)
Definition paging_fault (addr err_code eip : Z) : M kstate Z :=
  pd ← getg current_pagedir;
  d ← load (A := page_directory) pd;
  seg ← walk (fun _ m => covers addr m) (mappedSegs d);
  if seg =? 0 then mret 1
  else
    m ← load (A := segment_map) seg;
    g ← load (sm_seg m);
    r ← seg_op_fault g m addr (negb (Z.land err_code 0x2 =? 0) && (eip <? 0xE0000000));
    mret (if r =? 0 then 0 else 1).

(** [while (pd->mappedSegs != 0) seg_unmap(pd->mappedSegs);] *)
Definition unmap_all (pd : ptr) : M kstate unit :=
  n ← gets (fun s => size (k_maps (k_st s)));
  loop (1 + n) (fun _ =>
    d ← load (A := page_directory) pd;
    if mappedSegs d =? 0 then mret (inr tt)
    else seg_unmap (mappedSegs d);; mret (inl tt)) tt.

(** [for (i = 0; i < 896; i++) kfree_page(pd->tables[i]);] *)
Fixpoint free_tables (d : page_directory) (i : Z) (n : nat) : M kstate unit :=
  match n with
  | O => mret tt
  | Datatypes.S n' => kfree_page (dir_table d i);; free_tables d (i + 1) n'
  end.

Definition pagedir_delete (pd : ptr) : M kstate unit :=
  unmap_all pd;;
  d ← load (A := page_directory) pd;
  free_tables d 0 896;;
  when (negb (physicalAddr d / 0x1000 =? 0)) (lift_frames (frame_free (physicalAddr d / 0x1000)));;
  free (A := page_directory) pd.

(** ** Lemmas *)

Lemma simple_fault_ok s m ss d t tb a f b write :
  u32 a -> sm_pagedir m <> 0 -> k_pagedirs (k_st s) !! sm_pagedir m = Some d ->
  dir_table d (table_of a) = t -> t <> 0 -> k_tables (k_st s) !! t = Some tb ->
  pg_frame (table_page tb (index_of a)) = 0 -> pg_present (table_page tb (index_of a)) = 0 ->
  (write = true -> ss_writable ss <> 0) -> frame_alloc (frames (k_g s)) = Ok (f, b) ->
  simpleseg_handleFault m ss a write s
  = Ok (0, with_page t (index_of a) tb
             (Page 1 (if ss_writable ss =? 0 then 0 else 1) 1 (f mod 0x100000))
             (KState (k_st s) (set_frames b (k_g s)))).
Proof.
  intros Ha Hpd Ed Et Ht Etb Ef Ep Hw Efr. apply wp_eq_Ok. unfold simpleseg_handleFault.
  replace (write && (ss_writable ss =? 0)) with false.
  2: { destruct write; [|done]. by rewrite (proj2 (Z.eqb_neq _ _)) by (by apply Hw). }
  apply wp_bind. eapply (wp_getPage_present _ _ _ d t); [done | done | by rewrite table_of_mask | done |].
  rewrite index_of_mask by done. unfold get_page. cbn [fst snd]. ksteps. rewrite Ef. cbn [Z.eqb negb].
  ksteps. eapply wp_lift_frames; [exact Efr|]. ksteps. by eapply wp_page_map.
Qed.

(** [paging_fault] finds the first mapping of the directory that covers the
    address. *)
Lemma paging_fault_found a err eip pd d l1 x l2 m g s : current_pagedir (k_g s) = pd -> pd <> 0 ->
  k_pagedirs (k_st s) !! pd = Some d -> linked (k_maps (k_st s)) (mappedSegs d) (l1 ++ x :: l2) ->
  (forall y n, y ∈ l1 -> k_maps (k_st s) !! y = Some n -> covers a n = false) ->
  k_maps (k_st s) !! x = Some m -> covers a m = true ->
  sm_seg m <> 0 -> k_segments (k_st s) !! sm_seg m = Some g ->
  paging_fault a err eip s
  = (r ← seg_op_fault g m a (negb (Z.land err 0x2 =? 0) && (eip <? 0xE0000000));
     mret (if r =? 0 then 0 else 1)) s.
Proof.
  intros Epd Hpd Ed Hl Hno Em Hc Hsg Eg.
  destruct (lseg_in_dom _ _ _ _ x Hl) as (Hx & _); [set_solver|].
  unfold paging_fault. krun. rewrite Epd. krun.
  apply run_bind. eapply wp_eq; [eapply walk_spec; exact Hl|]. ksimp.
  rewrite (first_ptr_split _ (k_maps (k_st s)) l1 x l2 m Hno Em Hc), (proj2 (Z.eqb_neq _ _) Hx).
  by krun.
Qed.

(** ** A sample: process 1 (directory 11) has a writable heap segment *)

Definition sample_map : segment_map := SegmentMap 40 11 0x400000 0x3000 0.
Definition sample_segs : kstate :=
  let s := sample_paging in
  KState
    (set_k_pagedirs {[ 11 := PageDirectory {[ 1 := 20 ]} {[ 1 := 0x5007 ]} 0 30 ]}
      (set_k_maps {[ 30 := sample_map ]}
        (set_k_segments {[ 40 := Segment (simple_kind (SimpleSeg 1 0x400000 0x3000)) 1;
                           41 := Segment (shm_kind (ShmSeg 0x1800 [0] 1)) 0 ]} (k_st s))))
    (k_g s).

(** ** Theorems *)

(** A page fault inside a simple segment, on a page that is not there
    yet: the first mapping that covers the address handles it, the page is
    mapped to the frame just allocated, readable by the user and writable
    as the segment is, and no other page changes. *)
Theorem fault_maps_page a err eip pd d l1 x l2 m g ss t tb f b s :
  current_pagedir (k_g s) = pd -> pd <> 0 -> k_pagedirs (k_st s) !! pd = Some d ->
  linked (k_maps (k_st s)) (mappedSegs d) (l1 ++ x :: l2) ->
  (forall y n, y ∈ l1 -> k_maps (k_st s) !! y = Some n -> covers a n = false) ->
  k_maps (k_st s) !! x = Some m -> covers a m = true -> sm_pagedir m = pd ->
  sm_seg m <> 0 -> k_segments (k_st s) !! sm_seg m = Some g -> seg_data g = simple_kind ss ->
  (ss_writable ss = 0 -> Z.land err 0x2 = 0 \/ 0xE0000000 <= eip) ->
  u32 a -> dir_table d (table_of a) = t -> t <> 0 -> k_tables (k_st s) !! t = Some tb ->
  table_page tb (index_of a) = zero_page -> frame_alloc (frames (k_g s)) = Ok (f, b) ->
  exists s' tb', paging_fault a err eip s = Ok (0, s') /\ frames (k_g s') = b /\
    k_tables (k_st s') = <[t := tb']> (k_tables (k_st s)) /\
    table_page tb' (index_of a) = Page 1 (if ss_writable ss =? 0 then 0 else 1) 1 (f mod 0x100000) /\
    (forall i, i <> index_of a -> table_page tb' i = table_page tb i).
Proof.
  intros Epd Hpd Ed Hl Hno Em Hc Emp Hsg Eg Ek Hw Ha Et Ht Etb Ez Efr.
  rewrite (paging_fault_found a err eip pd d l1 x l2 m g s) by done.
  unfold seg_op_fault. rewrite Ek.
  erewrite bind_Ok; [|eapply (simple_fault_ok s m ss d t tb a f b)]; rewrite ?Emp, ?Ez; try done.
  - cbn [Z.eqb]. eexists _, _. split; [reflexivity|]. split; [done|]. split; [done|].
    unfold table_page; cbn [pages]. rewrite lookup_insert_eq. split; [done|].
    intros i Hi. by rewrite lookup_insert_ne.
  - intros Hwr Hz. destruct (Hw Hz) as [E|E]; [by rewrite E in Hwr|].
    rewrite (proj2 (Z.ltb_ge _ _) E), andb_false_r in Hwr. done.
Qed.

Lemma fault_maps_page_witness :
  exists s' tb', paging_fault 0x401234 2 0x1000 sample_segs = Ok (0, s') /\
    frames (k_g s') = Bitset [0xFF; 0] 64 /\
    k_tables (k_st s') = <[20 := tb']> (k_tables (k_st sample_segs)) /\
    table_page tb' 1 = Page 1 1 1 7 /\
    (forall i, i <> 1 -> table_page tb' i = table_page (PageTable ∅ 5) i).
Proof.
  apply (fault_maps_page 0x401234 2 0x1000 11 (PageDirectory {[ 1 := 20 ]} {[ 1 := 0x5007 ]} 0 30)
    [] 30 [] sample_map (Segment (simple_kind (SimpleSeg 1 0x400000 0x3000)) 1)
    (SimpleSeg 1 0x400000 0x3000) 20 (PageTable ∅ 5) 7 (Bitset [0xFF; 0] 64) sample_segs);
    try reflexivity; try done; try lia.
  - repeat (eexists || split || done).
  - intros y n Hy. by apply elem_of_nil in Hy.
Defined.

(** A fault that no mapping covers, or a user's write to a segment that
    is not writable, is refused, and nothing changes. *)
Theorem fault_refused a err eip pd d l s :
  current_pagedir (k_g s) = pd -> pd <> 0 -> k_pagedirs (k_st s) !! pd = Some d ->
  linked (k_maps (k_st s)) (mappedSegs d) l ->
  (forall y n, y ∈ l -> k_maps (k_st s) !! y = Some n -> covers a n = false) \/
  (exists l1 x l2 m g ss, l = l1 ++ x :: l2 /\
     (forall y n, y ∈ l1 -> k_maps (k_st s) !! y = Some n -> covers a n = false) /\
     k_maps (k_st s) !! x = Some m /\ covers a m = true /\ sm_seg m <> 0 /\
     k_segments (k_st s) !! sm_seg m = Some g /\ seg_data g = simple_kind ss /\
     ss_writable ss = 0 /\ Z.land err 0x2 <> 0 /\ eip < 0xE0000000) ->
  paging_fault a err eip s = Ok (1, s).
Proof.
  intros Epd Hpd Ed Hl [Hno|(l1 & x & l2 & m & g & ss & -> & Hno & Em & Hc & Hsg & Eg & Ek & Ew & He & Hk)].
  - unfold paging_fault. krun. rewrite Epd. krun.
    apply run_bind. eapply wp_eq; [eapply walk_spec; exact Hl|]. ksimp.
    by rewrite (first_ptr_none _ (k_maps (k_st s)) l Hno).
  - rewrite (paging_fault_found a err eip pd d l1 x l2 m g s) by done.
    unfold seg_op_fault. rewrite Ek. unfold simpleseg_handleFault.
    rewrite Ew, (proj2 (Z.eqb_neq _ _) He), (proj2 (Z.ltb_lt _ _) Hk). reflexivity.
Qed.

Lemma fault_refused_witness : paging_fault 0x403000 0 0x1000 sample_segs = Ok (1, sample_segs).
Proof.
  apply (fault_refused 0x403000 0 0x1000 11 (PageDirectory {[ 1 := 20 ]} {[ 1 := 0x5007 ]} 0 30) [30]);
    try reflexivity; try done.
  - repeat (eexists || split || done).
  - left. intros y n ->%list_elem_of_singleton [= <-]. reflexivity.
Defined.

(** A shared segment whose length is no multiple of the page size has no
    frame entry for its last, partial page: a fault there reads beyond the
    array. *)
Theorem shm_partial_page_faults m ss a write d t tb s :
  u32 a -> sm_start m mod 4096 = 0 -> 0 <= sm_start m ->
  sm_start m + sh_len ss / 4096 * 4096 <= a -> a < sm_start m + sh_len ss ->
  length (sh_frames ss) = Z.to_nat (sh_len ss / 4096) -> 0 <= sh_len ss ->
  sm_pagedir m <> 0 -> k_pagedirs (k_st s) !! sm_pagedir m = Some d ->
  dir_table d (table_of a) = t -> t <> 0 -> k_tables (k_st s) !! t = Some tb ->
  pg_frame (table_page tb (index_of a)) = 0 ->
  shmseg_handleFault m ss a write s = Fault (BadAccess (sh_len ss / 4096)).
Proof.
  intros Ha Hal Hst Hlo Hhi Hlen Hpos Hpd Ed Et Ht Etb Ef. unfold shmseg_handleFault.
  apply run_bind. eapply (wp_getPage_present _ _ _ d t); [done | done | by rewrite table_of_mask | done |].
  rewrite index_of_mask by done. unfold get_page; cbn [fst snd]. krun. rewrite Ef. cbn [Z.eqb negb].
  apply bind_Fault. unfold shm_frame.
  assert (w32 (page_mask a - sm_start m) / 0x1000 = sh_len ss / 4096) as ->.
  { rewrite page_mask_sub by done. rewrite w32_small; unfold u32 in *; Z.div_mod_to_equations; lia. }
  by rewrite lookup_ge_None_2 by lia.
Qed.

Lemma shm_partial_page_faults_witness :
  shmseg_handleFault (SegmentMap 41 11 0x400000 0x1800 0) (ShmSeg 0x1800 [0] 1) 0x401004 false sample_segs
  = Fault (BadAccess 1).
Proof.
  apply (shm_partial_page_faults (SegmentMap 41 11 0x400000 0x1800 0) (ShmSeg 0x1800 [0] 1) 0x401004 false
           (PageDirectory {[ 1 := 20 ]} {[ 1 := 0x5007 ]} 0 30) 20 (PageTable ∅ 5) sample_segs);
    try reflexivity; try done.
Defined.
