(* ===== verification/Unmap.v ===== *)
(** * Unmapping

    What [seg_unmap] ([src/kernel/mem/seg.c]) and the unmap functions of the
    two kinds of segment leave: lemmas on the definitions of [Segments], in
    terms of the pages of a directory and of the frames they hold, and the
    round trip of [shm_create] and [shm_delete]
    ([src/kernel/ipc/shm.c]). *)

From S2P Require Import Prelude Memory Bitset Kernel Paging Segments.

(** ** Specification *)

(** The entry of page number [p] in the tables of a directory. *)
Definition page_entry (d : page_directory) (T : gmap Z page_table) (p : Z) : page :=
  match T !! dir_table d (p / 1024) with Some tb => table_page tb (p mod 1024) | None => zero_page end.

(** The tables of the user half of a directory exist and are entries of it
    once; the frames of its pages are frames. *)
Definition user_table (i : Z) : Prop := 0 <= i < 896.
Definition user_page (p : Z) : Prop := 0 <= p < 0xE0000.

Record pages_ok (d : page_directory) (T : gmap Z page_table) (b : bitset) : Prop := {
  po_tables i : user_table i -> dir_table d i <> 0 -> is_Some (T !! dir_table d i);
  po_inj i j : user_table i -> user_table j -> dir_table d i = dir_table d j -> dir_table d i <> 0 -> i = j;
  po_null : T !! 0 = None;
  po_frames p : user_page p -> pg_frame (page_entry d T p) <> 0 -> in_array b (pg_frame (page_entry d T p));
  po_wf : wf_bitset b
}.

(** The pages [P] of the user half were unmapped, and their frames freed if
    [free]. *)
Record unmapped (free : bool) (P : Z -> Prop) (d : page_directory) (T : gmap Z page_table) (b : bitset)
    (T' : gmap Z page_table) (b' : bitset) : Prop := {
  um_page p : user_page p -> P p -> pg_frame (page_entry d T' p) = 0 /\ pg_present (page_entry d T' p) = 0;
  um_other p : user_page p -> ~ P p -> page_entry d T' p = page_entry d T p;
  um_tables t : (forall i, user_table i -> dir_table d i <> t) -> T' !! t = T !! t;
  um_dom t : pt_frame <$> T' !! t = pt_frame <$> T !! t;
  um_wf : wf_bitset b';
  um_size : bsize b' = bsize b /\ length (bits b') = length (bits b);
  um_bits k : 0 <= k -> bit_at b' k = true <-> bit_at b k = true /\
    ~ (free = true /\ k <> 0 /\ exists p, user_page p /\ P p /\ pg_frame (page_entry d T p) = k)
}.

Definition with_mem (T : gmap Z page_table) (b : bitset) (s : kstate) : kstate :=
  KState (set_k_tables T (k_st s)) (set_frames b (k_g s)).

(** The pages of a mapping. *)
Definition map_page (m : segment_map) (p : Z) : Prop := sm_start m <= 0x1000 * p < sm_start m + sm_len m.

(** The mapping [x], [m], of segment [g] in directory [pd], [d], which has the
    mappings [l1], [x], [l2]: it starts on a page and ends in the user half. *)
Record mapped_at (s : kstate) (pd : ptr) (d : page_directory) (l1 : list Z) (x : ptr) (l2 : list Z)
    (m : segment_map) (g : segment) : Prop := {
  ma_dir : pd <> 0 /\ k_pagedirs (k_st s) !! pd = Some d;
  ma_list : linked (k_maps (k_st s)) (mappedSegs d) (l1 ++ x :: l2);
  ma_map : k_maps (k_st s) !! x = Some m /\ sm_pagedir m = pd;
  ma_seg : sm_seg m <> 0 /\ k_segments (k_st s) !! sm_seg m = Some g;
  ma_range : 0 <= sm_start m /\ sm_start m mod 0x1000 = 0 /\ 0 <= sm_len m /\ sm_start m + sm_len m <= 0xE0000000;
  ma_pages : pages_ok d (k_tables (k_st s)) (frames (k_g s))
}.

(** The state once the mapping is gone: [T], [b] the tables and frames, [M]
    the mappings, [h] the first of them. *)
Definition without_map (pd : ptr) (d : page_directory) (m : segment_map) (g : segment) (T : gmap Z page_table)
    (b : bitset) (M : gmap Z segment_map) (h : ptr) (s : kstate) : kstate :=
  KState
    (set_k_pagedirs (<[pd := set_mappedSegs h d]> (k_pagedirs (k_st s)))
      (set_k_tables T
        (set_k_maps M
          (set_k_segments
            (if mappings g =? 1 then delete (sm_seg m) (k_segments (k_st s))
             else <[sm_seg m := set_mappings (mappings g - 1) g]> (k_segments (k_st s))) (k_st s)))))
    (set_frames b (k_g s)).

(** One round of the loops. *)
Definition unmap_one (free : bool) (pd a : Z) : M kstate unit :=
  p ← pagedir_getPage pd a false; if free then page_unmapFree p else page_unmap p.

(** ** Lemmas: pages *)

Section pages.
Context (d : page_directory).

Lemma user_page_table p : user_page p -> user_table (p / 1024).
Proof. unfold user_page, user_table. Z.div_mod_to_equations. lia. Qed.

Lemma page_entry_put T t i tb g p : (forall j, user_table j -> dir_table d j = t -> j = i) -> dir_table d i = t ->
  T !! t = Some tb -> user_page p ->
  forall k, page_entry d (<[t := PageTable (<[k := g]> (pages tb)) (pt_frame tb)]> T) p
    = if decide (p / 1024 = i /\ p mod 1024 = k) then g else page_entry d T p.
Proof.
  intros Hinj Ht Etb Hp k. unfold page_entry. destruct (decide (dir_table d (p / 1024) = t)) as [Et|Hne].
  - pose proof (Hinj _ (user_page_table p Hp) Et) as Ei. rewrite Et, lookup_insert_eq, Etb. unfold table_page; cbn [pages].
    destruct (decide (p mod 1024 = k)) as [->|Hk].
    + rewrite lookup_insert_eq. by rewrite decide_True.
    + rewrite lookup_insert_ne by done. rewrite decide_False; [done|]. by intros [_ ?].
  - rewrite lookup_insert_ne by done. rewrite decide_False; [done|]. intros [E _]. congruence.
Qed.

Lemma pages_ok_unmapped fr P T b T' b' : pages_ok d T b -> (forall p, P p \/ ~ P p) ->
  unmapped fr P d T b T' b' -> pages_ok d T' b'.
Proof.
  intros W HP U. destruct W as [W1 W2 W3 W4 W5]. assert (HT : forall t, T !! t = None <-> T' !! t = None).
  { intros t. rewrite <- (fmap_None pt_frame (T !! t)), <- (fmap_None pt_frame (T' !! t)). by rewrite (um_dom _ _ _ _ _ _ _ U). }
  split; [|done | by apply HT | | apply U].
  - intros i Hu Hi. destruct (W1 i Hu Hi) as (tb & E). destruct (T' !! dir_table d i) eqn:E'; [by eexists|].
    apply HT in E'. congruence.
  - intros p Hu Hf. destruct (HP p) as [Hp|Hp]; [by rewrite (proj1 (um_page _ _ _ _ _ _ _ U p Hu Hp)) in Hf|].
    rewrite (um_other _ _ _ _ _ _ _ U p Hu Hp) in *. specialize (W4 p Hu Hf). unfold in_array in *.
    by rewrite (proj2 (um_size _ _ _ _ _ _ _ U)).
Qed.

Lemma unmapped_none fr T b : wf_bitset b -> unmapped fr (fun _ => False) d T b T b.
Proof. intros Hb. split; try done. intros k _. split; [|by intros [? _]]. intros Hk. split; [done|]. by intros (_ & _ & p & _ & ? & _). Qed.

Lemma unmapped_trans fr P Q T b T1 b1 T2 b2 : (forall p, P p \/ ~ P p) -> (forall p, Q p \/ ~ Q p) ->
  unmapped fr P d T b T1 b1 -> unmapped fr Q d T1 b1 T2 b2 -> unmapped fr (fun p => P p \/ Q p) d T b T2 b2.
Proof.
  intros HP HQ [A1 A2 A3 A4 A5 A6 A7] [B1 B2 B3 B4 B5 B6 B7]. split; [| | | | done | destruct A6, B6; split; congruence |].
  - intros p Hu Hp. destruct (HQ p) as [Hq|Hq]; [by apply B1|]. rewrite B2 by done. apply A1; [done | tauto].
  - intros p Hu Hp. rewrite B2, A2 by tauto. done.
  - intros t Ht. by rewrite B3, A3.
  - intros t. by rewrite B4, A4.
  - intros k Hk. rewrite (B7 k Hk), (A7 k Hk). split.
    + intros [[Hb Hn] Hn']. split; [done|]. intros (Hf & H0 & p & Hu & [Hp|Hp] & E); [apply Hn; eauto 7|].
      destruct (HP p) as [H|H]; [apply Hn; eauto 7|]. apply Hn'. split; [done|]. split; [done|]. exists p. by rewrite A2.
    + intros [Hb Hn]. split; [split; [done|]|].
      * intros (Hf & H0 & p & Hu & Hp & E). apply Hn. split; [done|]. split; [done|]. exists p. split; [done|]. by split; [left|].
      * intros (Hf & H0 & p & Hu & Hp & E). destruct (HP p) as [H|H]; [by rewrite (proj1 (A1 p Hu H)) in E|].
        apply Hn. split; [done|]. split; [done|]. exists p. rewrite A2 in E by done. split; [done|]. by split; [right|].
Qed.

Lemma unmapped_ext fr P Q T b T' b' : (forall p, P p <-> Q p) -> unmapped fr P d T b T' b' -> unmapped fr Q d T b T' b'.
Proof.
  intros HPQ [A1 A2 A3 A4 A5 A6 A7]. split; try done.
  - intros p Hu Hp. by apply A1, HPQ.
  - intros p Hu Hp. apply A2; [done|]. by rewrite HPQ.
  - intros k Hk. rewrite (A7 k Hk). by setoid_rewrite HPQ.
Qed.

(** Whether or not the frame of the page is freed. *)
Lemma maybe_free_ok (fr : bool) f g : wf_bitset (frames g) -> (f <> 0 -> in_array (frames g) f) ->
  exists b, (forall st, (if fr then when (negb (f =? 0)) (lift_frames (frame_free f)) else mret tt) (KState st g)
              = Ok (tt, KState st (set_frames b g))) /\
    wf_bitset b /\ bsize b = bsize (frames g) /\ length (bits b) = length (bits (frames g)) /\
    forall k, 0 <= k -> bit_at b k = true <-> bit_at (frames g) k = true /\ ~ (fr = true /\ k <> 0 /\ f = k).
Proof.
  intros Hwf Hin. destruct (decide (fr = true /\ f <> 0)) as [[-> Hf]|Hn].
  - destruct (bitset_clear_spec _ f Hwf (Hin Hf)) as (b & E & Hb & Hs & Hl & Hk). exists b. split_and!; try done.
    + intros st. rewrite (proj2 (Z.eqb_neq _ _) Hf). cbn [negb when]. apply wp_eq_Ok. by eapply wp_lift_frames.
    + intros k H0. rewrite (Hk k H0). destruct (Z.eqb_spec k f) as [->|Hne]; [|split; [|by intros [? _]]; split; [done | by intros (_ & _ & ->)]].
      split; [done|]. intros [_ H]. by destruct H.
  - exists (frames g). split_and!; try done.
    + intros st. replace (KState st (set_frames _ g)) with (KState st g) by (by destruct g).
      destruct fr; [|done]. destruct (Z.eqb_spec f 0); [done|]. by destruct Hn.
    + intros k Hk. split; [|by intros [? _]]. intros Hb. split; [done|]. intros (-> & Hk0 & E). apply Hn. split; congruence.
Qed.

(** One page. *)
Lemma unmap_one_ok fr pd a s : 0 <= a < 0xE0000000 -> pd <> 0 -> k_pagedirs (k_st s) !! pd = Some d ->
  pages_ok d (k_tables (k_st s)) (frames (k_g s)) ->
  exists T b, unmap_one fr pd a s = Ok (tt, with_mem T b s) /\
    unmapped fr (fun p => p = a / 0x1000) d (k_tables (k_st s)) (frames (k_g s)) T b.
Proof.
  intros Ha Hpd Ed W. set (T := k_tables (k_st s)) in *. set (b := frames (k_g s)) in *.
  assert (Hup : user_page (a / 0x1000)) by (unfold user_page; Z.div_mod_to_equations; lia).
  pose proof (user_page_table _ Hup) as Hut. fold (table_of a) in Hut.
  destruct (decide (dir_table d (table_of a) = 0)) as [H0|Ht].
  - exists T, b. split.
    + apply wp_eq_Ok. unfold unmap_one. apply wp_bind. eapply wp_getPage_absent; [done | exact Ed | done |].
      replace (with_mem T b s) with s by (by destruct s as [[] []]). destruct fr; by apply wp_ret.
    + assert (Ez : page_entry d T (a / 0x1000) = zero_page).
      { unfold page_entry. fold (table_of a). by rewrite H0, (po_null _ _ _ W). }
      split; try done; [intros p _ ->; by rewrite Ez | apply W |]. intros k Hk. split; [|by intros [? _]]. intros Hb. split; [done|].
      intros (_ & Hk0 & p & _ & -> & E). rewrite Ez in E. by apply Hk0.
  - destruct (po_tables _ _ _ W _ Hut Ht) as (tb & Etb). set (t := dir_table d (table_of a)) in *.
    set (g := table_page tb (index_of a)).
    assert (Eg : page_entry d T (a / 0x1000) = g) by (unfold page_entry; fold (table_of a) (index_of a) t; by rewrite Etb).
    set (g' := Page 0 (pg_rw g) (pg_user g) 0).
    set (T' := <[t := PageTable (<[index_of a := g']> (pages tb)) (pt_frame tb)]> T).
    destruct (maybe_free_ok fr (pg_frame g) (k_g s) (po_wf _ _ _ W)) as (b' & Ef & Hwf & Hs & Hl & Hb).
    { intros Hg. rewrite <- Eg in *. by apply (po_frames _ _ _ W). }
    specialize (Ef (k_st s)). replace (KState (k_st s) (k_g s)) with s in Ef by (by destruct s).
    exists T', b'. split.
    + apply wp_eq_Ok. unfold unmap_one. apply wp_bind. eapply (wp_getPage_present _ _ _ d t); [done | exact Ed | done | done |].
      replace (with_mem T' b' s) with (with_page t (index_of a) tb g' (KState (k_st s) (set_frames b' (k_g s)))) by done.
      destruct fr; cbn beta iota.
      * unfold page_unmapFree, get_page. cbn [fst snd]. ksteps. fold g. eapply wp_eq; [exact Ef|].
        unfold put_page; cbn [fst snd]. by ksteps.
      * injection Ef as Ef. unfold page_unmap, get_page. cbn [fst snd]. ksteps. fold g.
        unfold put_page; cbn [fst snd]. ksteps. by rewrite <- Ef.
    + assert (Hput : forall p, user_page p -> page_entry d T' p = if decide (p = a / 0x1000) then g' else page_entry d T p).
      { intros p Hu. unfold T'. rewrite (page_entry_put T t (table_of a) tb).
        - assert (Hiff : p / 1024 = table_of a /\ p mod 1024 = index_of a <-> p = a / 0x1000)
            by (unfold table_of, index_of; split; [intros [? ?]; Z.div_mod_to_equations; lia | by intros ->]).
          do 2 destruct (decide _); tauto.
        - intros j Hj Ej. apply (po_inj _ _ _ W); [done | done | exact Ej |]. by rewrite Ej.
        - done.
        - done.
        - done. }
      split; try done.
      * intros p Hu ->. by rewrite Hput, decide_True.
      * intros p Hu Hp. by rewrite Hput, decide_False.
      * intros t' Ht'. unfold T'. by apply lookup_insert_ne, Ht'.
      * intros t'. unfold T'. destruct (decide (t = t')) as [<-|]; [by rewrite lookup_insert_eq, Etb | by rewrite lookup_insert_ne].
      * intros k Hk. rewrite (Hb k Hk). split; intros [H1 H2]; (split; [done|]); intros (F & K & X); apply H2.
        -- destruct X as (p & _ & -> & E). rewrite Eg in E. done.
        -- split; [done|]. split; [done|]. exists (a / 0x1000). by rewrite Eg.
Qed.

(** The loops: [i] goes by pages up to [to], and the page at [off + i] is
    unmapped. *)
Lemma unmap_loop_ok fr pd off to body : pd <> 0 -> 0 <= off -> off mod 0x1000 = 0 -> off + to <= 0xE0000000 ->
  (forall i s, 0 <= i < to -> body i s = unmap_one fr pd (off + i) s) ->
  forall n i s, 0 <= i -> i mod 0x1000 = 0 -> to <= i + 0x1000 * Z.of_nat n -> k_pagedirs (k_st s) !! pd = Some d ->
  pages_ok d (k_tables (k_st s)) (frames (k_g s)) ->
  exists T b, for_pages n i to body s = Ok (tt, with_mem T b s) /\
    unmapped fr (fun p => off + i <= 0x1000 * p < off + to) d (k_tables (k_st s)) (frames (k_g s)) T b.
Proof.
  intros Hpd Hoff Hal Hto Hbody. induction n as [|n IH]; intros i s Hi Hia Hn Ed W; cbn [for_pages].
  - rewrite (proj2 (Z.ltb_ge _ _)) by lia. exists (k_tables (k_st s)), (frames (k_g s)).
    split; [by destruct s as [[] []]|]. apply (unmapped_ext fr (fun _ => False)); [lia|]. apply unmapped_none, W.
  - destruct (Z.ltb_spec i to) as [Hlt|Hge].
    2: { exists (k_tables (k_st s)), (frames (k_g s)). split; [by destruct s as [[] []]|].
         apply (unmapped_ext fr (fun _ => False)); [lia|]. apply unmapped_none, W. }
    destruct (unmap_one_ok fr pd (off + i) s ltac:(lia) Hpd Ed W) as (T1 & b1 & E1 & U1).
    assert (HP : forall p, p = (off + i) / 0x1000 \/ p <> (off + i) / 0x1000) by (intros p; lia).
    pose proof (pages_ok_unmapped _ _ _ _ _ _ W HP U1) as W1.
    assert (Ei : w32 (i + 0x1000) = i + 0x1000) by (apply w32_small; unfold u32; lia).
    destruct (IH (i + 0x1000) (with_mem T1 b1 s)) as (T2 & b2 & E2 & U2);
      [lia | Z.div_mod_to_equations; lia | lia | done | done |].
    exists T2, b2. split.
    + rewrite (bind_Ok _ _ s tt (with_mem T1 b1 s)), Ei by (by rewrite Hbody by lia). exact E2.
    + eapply unmapped_ext; [|eapply unmapped_trans; [exact HP | | exact U1 | exact U2]]; cbn beta; intros p;
        Z.div_mod_to_equations; lia.
Qed.

(** The unmap functions of both kinds. *)
Lemma simpleseg_unmap_ok m s : sm_pagedir m <> 0 -> k_pagedirs (k_st s) !! sm_pagedir m = Some d ->
  pages_ok d (k_tables (k_st s)) (frames (k_g s)) -> 0 <= sm_start m -> sm_start m mod 0x1000 = 0 -> 0 <= sm_len m ->
  sm_start m + sm_len m <= 0xE0000000 ->
  exists T b, simpleseg_unmap m s = Ok (tt, with_mem T b s) /\
    unmapped true (fun p => sm_start m <= 0x1000 * p < sm_start m + sm_len m) d (k_tables (k_st s)) (frames (k_g s)) T b.
Proof.
  intros Hpd Ed W H0 Ha Hl Hto. unfold simpleseg_unmap. rewrite (w32_small (sm_start m + _)) by (unfold u32; lia).
  apply (unmap_loop_ok true (sm_pagedir m) 0); try done.
  unfold page_rounds. Z.div_mod_to_equations. lia.
Qed.

Lemma shmseg_unmap_ok m s : sm_pagedir m <> 0 -> k_pagedirs (k_st s) !! sm_pagedir m = Some d ->
  pages_ok d (k_tables (k_st s)) (frames (k_g s)) -> 0 <= sm_start m -> sm_start m mod 0x1000 = 0 -> 0 <= sm_len m ->
  sm_start m + sm_len m <= 0xE0000000 ->
  exists T b, shmseg_unmap m s = Ok (tt, with_mem T b s) /\
    unmapped false (fun p => sm_start m <= 0x1000 * p < sm_start m + sm_len m) d (k_tables (k_st s)) (frames (k_g s)) T b.
Proof.
  intros Hpd Ed W H0 Ha Hl Hto. unfold shmseg_unmap.
  destruct (unmap_loop_ok false (sm_pagedir m) (sm_start m) (sm_len m)
    (fun i => p ← pagedir_getPage (sm_pagedir m) (w32 (sm_start m + i)) false; page_unmap p) Hpd H0 Ha) with
    (n := page_rounds (sm_len m)) (i := 0) (s := s) as (T & b & E & U); try done.
  - intros i s' Hi. by rewrite w32_small by (unfold u32; lia).
  - unfold page_rounds. Z.div_mod_to_equations. lia.
  - exists T, b. split; [exact E|]. eapply unmapped_ext; [|exact U]. cbn. intros p. lia.
Qed.

End pages.

(** ** Lemmas: the list of mappings *)

(** The predecessor that the loop of [seg_unmap] stops at. *)
Lemma find_map_predecessor (M : gmap Z segment_map) h l1 z x l2 : linked M h (l1 ++ z :: x :: l2) ->
  first_ptr (fun _ a => (sm_next a =? 0) || (sm_next a =? x)) M (l1 ++ z :: x :: l2) = z.
Proof.
  intros Hl. pose proof (linked_NoDup _ _ _ Hl) as Hnd. destruct (linked_at _ _ _ _ _ Hl) as (_ & b & Eb & _ & H2).
  apply (first_ptr_split _ _ _ _ _ b); [|done | destruct H2 as (E & _); cbn [nxt Linked_segment_map] in E; by rewrite E, Z.eqb_refl, orb_true_r].
  intros y c (la & lb & ->)%list_elem_of_split Ec. rewrite <- app_assoc in Hl, Hnd. cbn [app] in Hl, Hnd.
  destruct (linked_at _ _ _ _ _ Hl) as (_ & c' & Ec' & _ & Hl'). replace c' with c in Hl' by congruence.
  apply NoDup_app in Hnd as (_ & _ & [_ Hnd]%NoDup_cons). apply orb_false_iff. rewrite !Z.eqb_neq.
  destruct lb as [|w lb]; cbn [app] in Hl', Hnd; destruct Hl' as (E & Hw & _); cbn [nxt Linked_segment_map] in E; rewrite E;
    (split; [done|]); intros ->; apply NoDup_cons in Hnd as [Hn _]; set_solver.
Qed.

Definition relinked (l : list Z) (M M' : gmap Z segment_map) : Prop :=
  forall y, set_sm_next 0 <$> M' !! y = set_sm_next 0 <$> M !! y /\ (y ∉ l -> M' !! y = M !! y).

Lemma unlink_map_ok pd d x m l1 l2 s : x <> 0 -> k_maps (k_st s) !! x = Some m -> sm_pagedir m = pd -> pd <> 0 ->
  k_pagedirs (k_st s) !! pd = Some d -> linked (k_maps (k_st s)) (mappedSegs d) (l1 ++ x :: l2) ->
  exists M h, unlink_map x s = Ok (tt, set_st (set_k_pagedirs (<[pd := set_mappedSegs h d]> (k_pagedirs (k_st s)))
      (set_k_maps M (k_st s))) s) /\
    M !! x = Some m /\ linked (delete x M) h (l1 ++ l2) /\ relinked l1 (k_maps (k_st s)) M.
Proof.
  intros Hx Em Epd Hpd Ed Hl. pose proof (linked_NoDup _ _ _ Hl) as Hnd.
  destruct (linked_at _ _ _ _ _ Hl) as (_ & m' & Em' & H1 & H2). replace m' with m in * by congruence.
  destruct l1 as [|z l1 _] using rev_ind.
  - cbn in H1. exists (k_maps (k_st s)), (sm_next m). split; [|split; [done|split; [|done]]].
    + apply wp_eq_Ok. unfold unlink_map. ksteps. rewrite Epd. ksteps. rewrite H1, Z.eqb_refl. ksteps. by destruct s as [[] ?].
    + apply NoDup_cons in Hnd as [Hnx _]. by apply lseg_delete.
  - destruct (lseg_next _ _ _ _ _ H1) as (b & Eb & Enb). rewrite <- app_assoc in Hl, Hnd. cbn [app] in Hl, Hnd.
    destruct (linked_at _ _ _ _ _ Hl) as (Hz & _).
    assert (Hne : z <> x) by (apply NoDup_app in Hnd as (_ & _ & [Hnz _]%NoDup_cons); set_solver).
    assert (Hhd : mappedSegs d <> x).
    { intros E. destruct l1 as [|w l1]; destruct Hl as (E' & _); [congruence|].
      apply NoDup_cons in Hnd as [Hn _]. apply Hn. rewrite <- E', E. set_solver. }
    exists (<[z := set_sm_next (sm_next m) b]> (k_maps (k_st s))), (mappedSegs d). split; [|split; [|split]].
    + apply wp_eq_Ok. unfold unlink_map. ksteps. rewrite Epd. ksteps. rewrite (proj2 (Z.eqb_neq _ _) Hhd). ksteps.
      eapply wp_eq; [by apply walk_spec|]. ksimp. rewrite (find_map_predecessor _ _ _ _ _ _ Hl). ksteps.
      cbn [nxt Linked_segment_map] in Enb. rewrite Enb, Z.eqb_refl. cbn [when]. ksteps.
      rewrite (insert_id (k_pagedirs (k_st s)) pd) by (rewrite Ed; by destruct d). by destruct s as [[] ?].
    + by rewrite lookup_insert_ne.
    + rewrite <- app_assoc. cbn [app]. by eapply linked_unlink.
    + intros y. destruct (decide (y = z)) as [->|Hy]; [rewrite lookup_insert_eq, Eb | by rewrite lookup_insert_ne].
      split; [by destruct b|]. intros Hz'. destruct Hz'. apply elem_of_app. right. by left.
Qed.

(** ** Lemmas: [seg_unmap] *)

(** A segment whose [delete] does nothing: a simple one, or one that is still
    mapped elsewhere. *)
Lemma seg_unmap_eq s pd d l1 x l2 m g T b : mapped_at s pd d l1 x l2 m g ->
  seg_op_unmap g m s = Ok (tt, with_mem T b s) ->
  exists M h, linked (delete x M) h (l1 ++ l2) /\ relinked l1 (k_maps (k_st s)) M /\
    forall b', (mappings g = 1 -> forall st, seg_op_delete (set_mappings 0 g) (KState st (set_frames b (k_g s)))
                   = Ok (tt, KState st (set_frames b' (k_g s)))) ->
      (mappings g <> 1 -> b' = b) ->
      seg_unmap x s = Ok (tt, without_map pd d m g T b' (delete x M) h s).
Proof.
  intros [[Hpd Ed] Hl [Em Epd] [Hsg Eg] _ _] Eu. destruct (lseg_in_dom _ _ _ _ x Hl) as (Hx & _); [set_solver|].
  destruct (unlink_map_ok pd d x m l1 l2 (with_mem T b s) Hx Em Epd Hpd Ed Hl) as (M & h & Ew & EM & Hl' & HR).
  exists M, h. split; [done|]. split; [done|]. intros b' Hdel Hb. apply wp_eq_Ok. unfold seg_unmap. ksteps.
  eapply wp_eq; [exact Eu|]. ksteps. eapply wp_eq; [exact Ew|]. ksteps.
  destruct (Z.eqb_spec (mappings g) 1) as [E1|N1].
  - specialize (Hdel E1). rewrite E1. replace (1 - 1) with 0 by done. cbn [mappings set_mappings Z.eqb when]. ksteps. eapply wp_eq; [apply Hdel|]. ksteps. unfold without_map. rewrite E1. by rewrite delete_insert_eq.
  - rewrite (proj2 (Z.eqb_neq (mappings (set_mappings (mappings g - 1) g)) 0)) by (cbn; lia). cbn [when]. ksteps.
    unfold without_map. rewrite (proj2 (Z.eqb_neq (mappings g) 1)) by done. by rewrite (Hb N1).
Qed.

Lemma map_page_dec m p : map_page m p \/ ~ map_page m p.
Proof. unfold map_page. lia. Qed.

Lemma seg_unmap_simple_ok s pd d l1 x l2 m g ss : mapped_at s pd d l1 x l2 m g -> seg_data g = simple_kind ss ->
  exists T b M h, seg_unmap x s = Ok (tt, without_map pd d m g T b (delete x M) h s) /\
    linked (delete x M) h (l1 ++ l2) /\ relinked l1 (k_maps (k_st s)) M /\
    unmapped true (map_page m) d (k_tables (k_st s)) (frames (k_g s)) T b.
Proof.
  intros W Ek. pose proof W as [[Hpd Ed] _ [_ Epd] _ (H0 & Ha & Hl & Hto) Wp].
  destruct (simpleseg_unmap_ok d m s) as (T & b & Eu & U); rewrite ?Epd; try done.
  destruct (seg_unmap_eq s pd d l1 x l2 m g T b W) as (M & h & Hli & HR & E); [unfold seg_op_unmap; by rewrite Ek|].
  exists T, b, M, h. split; [|done]. apply E; [|done]. intros _ st. unfold seg_op_delete. cbn [seg_data set_mappings]. by rewrite Ek.
Qed.

Lemma free_frames_ok fs : forall g, wf_bitset (frames g) -> (forall f, f ∈ fs -> f <> 0 -> in_array (frames g) f) ->
  exists b, (forall st, free_frames fs (KState st g) = Ok (tt, KState st (set_frames b g))) /\ wf_bitset b /\
    bsize b = bsize (frames g) /\ length (bits b) = length (bits (frames g)) /\
    forall k, 0 <= k -> bit_at b k = true <-> bit_at (frames g) k = true /\ ~ (k <> 0 /\ k ∈ fs).
Proof.
  induction fs as [|f fs IH]; intros g Hwf Hin; cbn [free_frames].
  - exists (frames g). split_and!; try done; [intros st; by destruct g|]. intros k _. set_solver.
  - destruct (maybe_free_ok true f g Hwf) as (b1 & E1 & Hwf1 & Hs1 & Hl1 & Hb1); [intros Hf; apply Hin; set_solver|].
    destruct (IH (set_frames b1 g) Hwf1) as (b & E & Hwf2 & Hs2 & Hl2 & Hb2).
    { intros f' Hf' H0. unfold in_array. cbn. rewrite Hl1. apply Hin; [set_solver | done]. }
    exists b. split_and!; try done; [| cbn in *; congruence.. |].
    + intros st. rewrite (bind_Ok _ _ _ _ _ (E1 st)). apply E.
    + intros k Hk. rewrite (Hb2 k Hk). cbn. rewrite (Hb1 k Hk), elem_of_cons. naive_solver.
Qed.

(** Shared segments: unmapping keeps the frames, the last one frees them. *)
Lemma seg_unmap_shm_ok s pd d l1 x l2 m g ss : mapped_at s pd d l1 x l2 m g -> seg_data g = shm_kind ss ->
  (forall f, f ∈ sh_frames ss -> f <> 0 -> in_array (frames (k_g s)) f) ->
  exists T b M h, seg_unmap x s = Ok (tt, without_map pd d m g T b (delete x M) h s) /\
    linked (delete x M) h (l1 ++ l2) /\ relinked l1 (k_maps (k_st s)) M /\
    (exists b1, unmapped false (map_page m) d (k_tables (k_st s)) (frames (k_g s)) T b1) /\
    forall k, 0 <= k -> bit_at b k = true <->
      bit_at (frames (k_g s)) k = true /\ ~ (mappings g = 1 /\ k <> 0 /\ k ∈ sh_frames ss).
Proof.
  intros W Ek Hin. pose proof W as [[Hpd Ed] _ [_ Epd] _ (H0 & Ha & Hl & Hto) Wp].
  destruct (shmseg_unmap_ok d m s) as (T & b1 & Eu & U); rewrite ?Epd; try done.
  destruct (seg_unmap_eq s pd d l1 x l2 m g T b1 W) as (M & h & Hli & HR & E); [unfold seg_op_unmap; by rewrite Ek|].
  assert (Hb1 : forall k, 0 <= k -> bit_at b1 k = true <-> bit_at (frames (k_g s)) k = true).
  { intros k Hk. rewrite (um_bits _ _ _ _ _ _ _ U k Hk). split; [by intros [? _]|]. intros Hb. split; [done|]. by intros (? & _). }
  destruct (free_frames_ok (sh_frames ss) (set_frames b1 (k_g s)) (um_wf _ _ _ _ _ _ _ U)) as (b2 & Ef & _ & _ & _ & Hb2).
  { intros f Hf Hn. unfold in_array. cbn. rewrite (proj2 (um_size _ _ _ _ _ _ _ U)). by apply Hin. }
  destruct (decide (mappings g = 1)) as [H1|H1]; [exists T, b2, M, h | exists T, b1, M, h].
  - split; [apply E; [|done]|].
    + intros _ st. unfold seg_op_delete. cbn [seg_data set_mappings]. rewrite Ek. apply Ef.
    + split; [done|]. split; [done|]. split; [by exists b1|]. intros k Hk. rewrite (Hb2 k Hk). cbn. rewrite (Hb1 k Hk). tauto.
  - split; [by apply E|]. split; [done|]. split; [done|]. split; [by exists b1|]. intros k Hk. rewrite (Hb1 k Hk). tauto.
Qed.

(** ** A sample: thread 9 of process 1, whose page at 0x401000 is frame 7;
    the mapping 30 is of the segment [g] *)

Definition sample_mapping (g : segment) : kstate :=
  KState
    (set_k_pagedirs {[ 11 := PageDirectory {[ 1 := 20 ]} {[ 1 := 0x5007 ]} 0 30 ]}
      (set_k_tables {[ 20 := PageTable {[ 1 := Page 1 1 1 7 ]} 5 ]}
        (set_k_maps {[ 30 := sample_map ]}
          (set_k_segments {[ 40 := g ]}
            (set_k_threads {[ 9 := Thread 1 0 0 0 0 0 0 0 0 0 ]} (k_st sample_paging))))))
    (set_current_thread 9 (set_frames (Bitset [0xFF; 0] 64) (k_g sample_paging))).
Definition sample_dir : page_directory := PageDirectory {[ 1 := 20 ]} {[ 1 := 0x5007 ]} 0 30.
Definition sample_simple : segment := Segment (simple_kind (SimpleSeg 1 0x400000 0x3000)) 1.
Definition sample_shared : segment := Segment (shm_kind (ShmSeg 0x3000 [0; 7; 0] 1)) 1.

Lemma sample_mapped g : mapped_at (sample_mapping g) 11 sample_dir [] 30 [] sample_map g.
Proof.
  split; try done.
  - by repeat (eexists || split).
  - assert (Hd : forall i, dir_table sample_dir i = if decide (i = 1) then 20 else 0).
    { intros i. unfold dir_table, sample_dir; cbn [tables]. case_decide; [subst; by rewrite lookup_singleton_eq | by rewrite lookup_singleton_ne]. }
    split.
    + intros i _. rewrite Hd. case_decide; [by eexists | done].
    + intros i j _ _. rewrite !Hd. repeat case_decide; congruence.
    + done.
    + intros p _. assert (Hp : page_entry sample_dir (k_tables (k_st (sample_mapping g))) p = zero_page \/
        page_entry sample_dir (k_tables (k_st (sample_mapping g))) p = Page 1 1 1 7).
      { unfold page_entry. rewrite Hd. case_decide; [|by left]. unfold table_page; cbn [pages].
        destruct (decide (p mod 1024 = 1)) as [->|Hne]; [by right|]. left.
        change (default zero_page (({[ 1 := Page 1 1 1 7 ]} : gmap Z page) !! (p mod 1024)) = zero_page).
        by rewrite lookup_singleton_ne by congruence. }
      destruct Hp as [-> | ->]; [done|]. intros _. unfold in_array. cbn. lia.
    + split; cbn; try done. repeat constructor; done.
Qed.

(** ** Theorems *)

(** C34. [seg_unmap] of a simple segment: the mapping leaves the directory's list
    and is freed, its pages are empty and not present and their frames free
    again, every other page and frame is as before; the segment goes with
    its last mapping. *)
Theorem seg_unmap_releases s pd d l1 x l2 m g ss : mapped_at s pd d l1 x l2 m g -> seg_data g = simple_kind ss ->
  exists s' h, seg_unmap x s = Ok (tt, s') /\
    k_pagedirs (k_st s') = <[pd := set_mappedSegs h d]> (k_pagedirs (k_st s)) /\
    linked (k_maps (k_st s')) h (l1 ++ l2) /\ k_maps (k_st s') !! x = None /\
    k_segments (k_st s') !! sm_seg m = (if mappings g =? 1 then None else Some (set_mappings (mappings g - 1) g)) /\
    unmapped true (map_page m) d (k_tables (k_st s)) (frames (k_g s)) (k_tables (k_st s')) (frames (k_g s')).
Proof.
  intros W Ek. destruct (seg_unmap_simple_ok s pd d l1 x l2 m g ss W Ek) as (T & b & M & h & E & Hl & HR & U).
  eexists _, h. split; [exact E|]. unfold without_map; ksimp. split; [done|]. split; [done|].
  split; [apply lookup_delete_eq|]. split; [|done].
  destruct (mappings g =? 1); [apply lookup_delete_eq | apply lookup_insert_eq].
Qed.

(** [shm_delete] of the start of a shared segment of the current process
    unmaps it there, without touching its frames as long as it is mapped
    elsewhere; the last one to unmap it frees them all.  Any other address
    is refused and nothing changes. *)
Theorem shm_delete_releases s c th p d l offset : current_thread (k_g s) = c -> c <> 0 ->
  k_threads (k_st s) !! c = Some th -> t_process th <> 0 -> k_processes (k_st s) !! t_process th = Some p ->
  p_pagedir p <> 0 -> k_pagedirs (k_st s) !! p_pagedir p = Some d -> linked (k_maps (k_st s)) (mappedSegs d) l ->
  let here y m := (sm_start m =? offset) && is_shm s m in
  ((forall y m, y ∈ l -> k_maps (k_st s) !! y = Some m -> here y m = false) -> shm_delete offset s = Ok (-1, s)) /\
  (forall l1 x l2 m g ss, l = l1 ++ x :: l2 -> mapped_at s (p_pagedir p) d l1 x l2 m g -> seg_data g = shm_kind ss ->
     sm_start m = offset -> (forall y n, y ∈ l1 -> k_maps (k_st s) !! y = Some n -> here y n = false) ->
     (forall f, f ∈ sh_frames ss -> f <> 0 -> in_array (frames (k_g s)) f) ->
     exists s' h b, shm_delete offset s = Ok (0, s') /\
       k_pagedirs (k_st s') = <[p_pagedir p := set_mappedSegs h d]> (k_pagedirs (k_st s)) /\
       linked (k_maps (k_st s')) h (l1 ++ l2) /\
       k_segments (k_st s') !! sm_seg m = (if mappings g =? 1 then None else Some (set_mappings (mappings g - 1) g)) /\
       unmapped false (map_page m) d (k_tables (k_st s)) (frames (k_g s)) (k_tables (k_st s')) b /\
       forall k, 0 <= k -> bit_at (frames (k_g s')) k = true <->
         bit_at (frames (k_g s)) k = true /\ ~ (mappings g = 1 /\ k <> 0 /\ k ∈ sh_frames ss)).
Proof.
  intros Ec Hc Eth Hpr Ep Hpd Ed Hl here.
  assert (Hby : shmseg_getByOff (t_process th) offset s = Ok (first_ptr here (k_maps (k_st s)) l, s)).
  { apply wp_eq_Ok. unfold shmseg_getByOff. ksteps. eapply wp_eq; [by apply walk_spec|]. done. }
  split.
  - intros Hno. apply wp_eq_Ok. unfold shm_delete. ksteps. rewrite Ec. ksteps. eapply wp_eq; [exact Hby|].
    rewrite first_ptr_none by done. cbn [Z.eqb]. by ksteps.
  - intros l1 x l2 m g ss -> W Ek Eo Hno Hin.
    destruct (seg_unmap_shm_ok s _ d l1 x l2 m g ss W Ek Hin) as (T & b & M & h & E & Hli & HR & (b1 & U) & Hb).
    pose proof (ma_map _ _ _ _ _ _ _ _ W) as [Em _]. pose proof (ma_seg _ _ _ _ _ _ _ _ W) as [_ Eg].
    exists (without_map (p_pagedir p) d m g T b (delete x M) h s), h, b1. split; [|unfold without_map; ksimp; split; [done|]; split; [done|]; split; [|split; [exact U | exact Hb]]].
    + apply wp_eq_Ok. unfold shm_delete. ksteps. rewrite Ec. ksteps. eapply wp_eq; [exact Hby|].
      rewrite (first_ptr_split _ _ _ _ _ m Hno Em).
      2: { unfold here, is_shm. by rewrite Eo, Z.eqb_refl, Eg, Ek. }
      destruct (lseg_in_dom _ _ _ _ x Hl) as (Hx & _); [set_solver|]. rewrite (proj2 (Z.eqb_neq _ _) Hx). ksteps.
      eapply wp_eq; [exact E|]. by ksteps.
    + destruct (mappings g =? 1); [apply lookup_delete_eq | apply lookup_insert_eq].
Qed.

Lemma seg_unmap_releases_witness : exists s' h, seg_unmap 30 (sample_mapping sample_simple) = Ok (tt, s') /\
  linked (k_maps (k_st s')) h [] /\ k_segments (k_st s') !! 40 = None /\
  pg_present (page_entry sample_dir (k_tables (k_st s')) 0x401) = 0.
Proof.
  destruct (seg_unmap_releases (sample_mapping sample_simple) 11 sample_dir [] 30 [] sample_map sample_simple
    (SimpleSeg 1 0x400000 0x3000)) as (s' & h & E & _ & Hl & _ & Hs & U); [apply sample_mapped | done |].
  exists s', h. split; [exact E|]. split; [exact Hl|]. split; [exact Hs|].
  apply (um_page _ _ _ _ _ _ _ U); [unfold user_page; lia|]. unfold map_page. cbn. lia.
Defined.

Lemma shm_delete_releases_witness :
  shm_delete 0x500000 (sample_mapping sample_shared) = Ok (-1, sample_mapping sample_shared) /\
  exists s', shm_delete 0x400000 (sample_mapping sample_shared) = Ok (0, s') /\
    k_segments (k_st s') !! 40 = None /\ bit_at (frames (k_g s')) 7 <> true /\ bit_at (frames (k_g s')) 6 = true.
Proof.
  assert (Hl : linked (k_maps (k_st (sample_mapping sample_shared))) 30 [30]) by (by repeat (eexists || split)).
  split.
  - apply (shm_delete_releases (sample_mapping sample_shared) 9 (Thread 1 0 0 0 0 0 0 0 0 0) (Process 1 0 3 0 0 11 0 0 0 0 0 0)
      sample_dir [30] 0x500000); try done.
    intros y m ->%list_elem_of_singleton. by intros [= <-].
  - destruct (shm_delete_releases (sample_mapping sample_shared) 9 (Thread 1 0 0 0 0 0 0 0 0 0) (Process 1 0 3 0 0 11 0 0 0 0 0 0)
      sample_dir [30] 0x400000) as [_ H]; try done.
    destruct (H [] 30 [] sample_map sample_shared (ShmSeg 0x3000 [0; 7; 0] 1)) as (s' & h & b & E & _ & _ & Hs & _ & Hb); try done.
    + apply sample_mapped.
    + intros y n Hy. by apply elem_of_nil in Hy.
    + intros f Hf _. cbn in Hf. unfold in_array; cbn. rewrite !elem_of_cons, elem_of_nil in Hf. lia.
    + exists s'. split; [exact E|]. split; [exact Hs|]. split.
      * rewrite (Hb 7 ltac:(lia)). intros [_ Hn]. apply Hn. cbn. set_solver.
      * apply (Hb 6 ltac:(lia)). cbn. split; [reflexivity|]. intros (_ & _ & Hi). set_solver.
Defined.
