(* ===== verification/Spaces.v ===== *)
(** * The address spaces together

    An invariant of all page directories -- their lists of mappings, the
    tables of their user halves, the frames of their pages -- and what a
    page fault of a user thread ([paging_fault] of
    [src/kernel/mem/paging.c], [simpleseg_handleFault] of
    [src/kernel/mem/seg.c]) does to it: whether the table is there or is
    made, one page more is mapped, to a frame that no other page has. *)

From S2P Require Import Prelude Memory Bitset Kernel Paging Segments Unmap.

(** ** Specification *)

(** The entry of page [p] of directory [pd]. *)
Definition entry_of (s : kstate) (pd p : Z) : page :=
  match k_pagedirs (k_st s) !! pd with Some d => page_entry d (k_tables (k_st s)) p | None => zero_page end.

(** The mappings of a directory are in its list; directories do not share
    the tables of their user halves. *)
Record spaces_ok (s : kstate) : Prop := {
  so_maps pd d : k_pagedirs (k_st s) !! pd = Some d -> exists l, linked (k_maps (k_st s)) (mappedSegs d) l /\
    forall x m, x ∈ l -> k_maps (k_st s) !! x = Some m -> sm_pagedir m = pd;
  so_pages pd d : k_pagedirs (k_st s) !! pd = Some d -> pages_ok d (k_tables (k_st s)) (frames (k_g s));
  so_apart pd pd' d d' i j : k_pagedirs (k_st s) !! pd = Some d -> k_pagedirs (k_st s) !! pd' = Some d' -> pd <> pd' ->
    user_table i -> user_table j -> dir_table d i = dir_table d' j -> dir_table d i = 0
}.

(** The frames of the pages are in use; frame numbers fit in an entry, and
    frame 0 is not given out. *)
Record frames_ok (s : kstate) : Prop := {
  fo_size : 32 * Z.of_nat (length (bits (frames (k_g s)))) <= 0x100000;
  fo_zero : bit_at (frames (k_g s)) 0 = true;
  fo_present pd p : user_page p -> pg_frame (entry_of s pd p) = 0 -> pg_present (entry_of s pd p) = 0;
  fo_used pd p : user_page p -> pg_frame (entry_of s pd p) <> 0 -> bit_at (frames (k_g s)) (pg_frame (entry_of s pd p)) = true
}.

(** Only tables, directories and frames changed, and they are well formed. *)
Record respaced (s s' : kstate) : Prop := {
  rs_stores : k_st s' = set_k_pagedirs (k_pagedirs (k_st s')) (set_k_tables (k_tables (k_st s')) (k_st s));
  rs_globals : k_g s' = set_frames (frames (k_g s')) (k_g s);
  rs_dirs x : mappedSegs <$> k_pagedirs (k_st s') !! x = mappedSegs <$> k_pagedirs (k_st s) !! x;
  rs_spaces : spaces_ok s';
  rs_frames : frames_ok s'
}.

(** Page [p] of [pd] was given the frame [f], which was free; every other
    page of every space is as it was. *)
Record page_given (s s' : kstate) (pd p w f : Z) : Prop := {
  pgv_page : entry_of s' pd p = Page 1 w 1 f;
  pgv_free : f <> 0 /\ bit_at (frames (k_g s)) f = false;
  pgv_other pd' q : user_page q -> (pd', q) <> (pd, p) -> entry_of s' pd' q = entry_of s pd' q
}.

(** Page [i] of the table [t] was set to [g] and the frame [f] is in use:
    nothing else of the state changed. *)
Record page_only (s s' : kstate) (t i : Z) (g : page) (f : Z) : Prop := {
  pgo_table : exists tb, k_tables (k_st s) !! t = Some tb /\
    k_st s' = set_k_tables (<[t := PageTable (<[i := g]> (pages tb)) (pt_frame tb)]> (k_tables (k_st s))) (k_st s);
  pgo_globals : k_g s' = set_frames (frames (k_g s')) (k_g s);
  pgo_frames k : 0 <= k -> bit_at (frames (k_g s')) k = if k =? f then true else bit_at (frames (k_g s)) k
}.

(** ** Lemmas *)

Lemma pages_ok_tables d d' T b : (forall i, dir_table d' i = dir_table d i) -> pages_ok d T b -> pages_ok d' T b.
Proof.
  intros E [W1 W2 W3 W4 W5]. assert (Ee : forall q, page_entry d' T q = page_entry d T q) by (intros q; unfold page_entry; by rewrite E).
  split; try done.
  - intros i. rewrite E. apply W1.
  - intros i j. rewrite !E. apply W2.
  - intros q. rewrite Ee. apply W4.
Qed.

(** Unmapping in one directory does not change the pages of another that
    shares no table with it. *)
Lemma entry_other d d0 fr P T b T' b' q : unmapped fr P d T b T' b' -> pages_ok d0 T b ->
  (forall i j, user_table i -> user_table j -> dir_table d0 i = dir_table d j -> dir_table d0 i = 0) ->
  user_page q -> page_entry d0 T' q = page_entry d0 T q.
Proof.
  intros U W Hapart Hq. pose proof (user_page_table _ Hq) as Hi. unfold page_entry.
  assert (T' !! dir_table d0 (q / 1024) = T !! dir_table d0 (q / 1024)) as ->; [|done].
  destruct (decide (dir_table d0 (q / 1024) = 0)) as [->|Hn].
  - pose proof (um_dom _ _ _ _ _ _ _ U 0) as E. rewrite (po_null _ _ _ W) in *. by apply fmap_None in E.
  - apply (um_tables _ _ _ _ _ _ _ U). intros j Hj E. by apply Hn, (Hapart (q / 1024) j).
Qed.

Lemma pages_ok_other d d0 fr P T b T' b' : unmapped fr P d T b T' b' -> pages_ok d0 T b ->
  (forall i j, user_table i -> user_table j -> dir_table d0 i = dir_table d j -> dir_table d0 i = 0) -> pages_ok d0 T' b'.
Proof.
  intros U W Hapart. pose proof (um_dom _ _ _ _ _ _ _ U) as Hd.
  assert (HT : forall t, T !! t = None <-> T' !! t = None).
  { intros t. by rewrite <- (fmap_None pt_frame (T !! t)), <- (fmap_None pt_frame (T' !! t)), Hd. }
  pose proof (fun q => entry_other d d0 fr P T b T' b' q U W Hapart) as He. destruct W as [W1 W2 W3 W4 W5].
  split; [|done | by apply HT | | apply U].
  - intros i Hi Hn. destruct (W1 i Hi Hn) as (tb & E). destruct (T' !! dir_table d0 i) eqn:E'; [by eexists|].
    apply HT in E'. congruence.
  - intros q Hq. rewrite He by done. unfold in_array. rewrite (proj2 (um_size _ _ _ _ _ _ _ U)). by apply W4.
Qed.

(** A free frame. *)
Lemma frame_given s n : frames_ok s -> wf_bitset (frames (k_g s)) -> free_count (frames (k_g s)) (Datatypes.S n) ->
  exists f b, frame_alloc (frames (k_g s)) = Ok (f, b) /\ f <> 0 /\ f mod 0x100000 = f /\ bit_at (frames (k_g s)) f = false /\
    in_array (frames (k_g s)) f /\ wf_bitset b /\ length (bits b) = length (bits (frames (k_g s))) /\ free_count b n /\
    forall k, 0 <= k -> bit_at b k = if k =? f then true else bit_at (frames (k_g s)) k.
Proof.
  intros [F1 F2 _ _] Hwf Hf. destruct (frame_alloc_ok _ Hwf) as (f & b & E & Hm & Hb & _ & Hwf' & Hs & Hl & Hk).
  { destruct Hf as ([|f fs] & _ & Hlen & Hfs); [done|]. exists f. apply Hfs. set_solver. }
  pose proof (managed_in_array _ _ Hwf Hm) as Hin. exists f, b. split; [done|]. split; [intros ->; congruence|].
  assert (0 <= f < 0x100000) by (unfold in_array in Hin; lia).
  split; [by apply Z.mod_small|]. do 4 (split; [done|]). split; [|done].
  eapply free_count_step; [exact Hf | by apply capacity_same | exact Hk].
Qed.

Section spaces.
Context (s : kstate) (Sp : spaces_ok s) (Fr : frames_ok s).
Context (pd : ptr) (d : page_directory) (Ed : k_pagedirs (k_st s) !! pd = Some d).

(** A new, empty table. *)
Lemma with_new_table_ok a f b : 0 <= a < 0xE0000000 -> dir_table d (table_of a) = 0 -> wf_bitset b ->
  length (bits b) = length (bits (frames (k_g s))) -> (forall k, 0 <= k -> bit_at (frames (k_g s)) k = true -> bit_at b k = true) ->
  let s1 := with_new_table pd a d f b s in
  respaced s s1 /\ forall pd' q, user_page q -> entry_of s1 pd' q = entry_of s pd' q.
Proof.
  intros Ha H0 Hwf Hl Hk s1. pose proof (fresh_ptr_pos (k_tables (k_st s))) as Hpos. set (t := fresh_ptr (k_tables (k_st s))) in *.
  assert (Ht0 : t <> 0) by lia.
  assert (Htn : k_tables (k_st s) !! t = None) by apply fresh_ptr_None.
  assert (Hfr : forall x dx i, k_pagedirs (k_st s) !! x = Some dx -> user_table i -> dir_table dx i <> t).
  { intros x dx i Ex Hi E. destruct (po_tables _ _ _ (so_pages _ Sp _ _ Ex) i Hi) as (tb & Etb); [congruence|]. congruence. }
  set (d1 := with_table (table_of a) t (w32 (f * 0x1000)) d).
  assert (Hd1 : forall i, dir_table d1 i = if decide (i = table_of a) then t else dir_table d i) by (intros i; apply with_table_tab).
  assert (Hdirs : forall x dx, k_pagedirs (k_st s1) !! x = Some dx -> (x = pd /\ dx = d1) \/ (x <> pd /\ k_pagedirs (k_st s) !! x = Some dx)).
  { intros x dx. unfold s1, with_new_table; ksimp. destruct (decide (x = pd)) as [->|Hx];
      [rewrite lookup_insert_eq; intros [= <-]; by left | rewrite lookup_insert_ne by done; by right]. }
  assert (Hent : forall pd' q, user_page q -> entry_of s1 pd' q = entry_of s pd' q).
  { intros x q Hq. unfold entry_of, s1, with_new_table; ksimp. fold t d1. pose proof (user_page_table _ Hq) as Hi.
    destruct (decide (x = pd)) as [->|Hx].
    - rewrite lookup_insert_eq, Ed. unfold page_entry. rewrite Hd1. destruct (decide (q / 1024 = table_of a)) as [->|].
      + rewrite lookup_insert_eq, H0, (po_null _ _ _ (so_pages _ Sp _ _ Ed)). unfold table_page; cbn. by rewrite lookup_empty.
      + rewrite lookup_insert_ne; [done|]. intros E. symmetry in E. by eapply Hfr.
    - rewrite lookup_insert_ne by done. destruct (k_pagedirs (k_st s) !! x) as [dx|] eqn:Ex; [|done]. unfold page_entry.
      rewrite lookup_insert_ne; [done|]. intros E. symmetry in E. by eapply Hfr. }
  split; [|exact Hent]. split; [done | by unfold s1, with_new_table | | |].
  - intros x. unfold s1, with_new_table; ksimp. destruct (decide (x = pd)) as [->|Hx]; [by rewrite lookup_insert_eq, Ed | by rewrite lookup_insert_ne].
  - split.
    + intros x dx [(-> & ->)|(Hx & Ex)]%Hdirs; [exact (so_maps _ Sp _ _ Ed) | exact (so_maps _ Sp _ _ Ex)].
    + intros x dx Hx. pose proof (Hent x) as He. unfold entry_of in He. rewrite Hx in He.
      assert (exists d0, k_pagedirs (k_st s) !! x = Some d0 /\ (forall i, user_table i -> dir_table dx i = dir_table d0 i \/ (dir_table dx i = t /\ i = table_of a))) as (d0 & E0 & Hi).
      { apply Hdirs in Hx as [(-> & ->)|(Hx & Ex)]; [exists d | exists dx]; (split; [done|]); intros i _; [|by left].
        rewrite Hd1. case_decide; [by right | by left]. }
      pose proof (so_pages _ Sp _ _ E0) as [W1 W2 W3 W4 W5]. rewrite E0 in He. split.
      * intros i Hu Hn. unfold s1, with_new_table; ksimp. fold t. destruct (Hi i Hu) as [E|(E & _)]; rewrite E in *.
        -- apply lookup_insert_is_Some'. right. by apply W1.
        -- rewrite lookup_insert_eq. by eexists.
      * intros i j Hu Hv Eij Hn. destruct (Hi i Hu) as [E|(E & E')], (Hi j Hv) as [E2|(E2 & E2')]; try congruence.
        -- apply W2; congruence.
        -- exfalso. apply (Hfr x d0 i E0 Hu). congruence.
        -- exfalso. apply (Hfr x d0 j E0 Hv). congruence.
      * unfold s1, with_new_table; ksimp. by rewrite lookup_insert_ne.
      * intros q Hq. rewrite He by done. unfold in_array, s1, with_new_table; ksimp. cbn. rewrite Hl. by apply W4.
      * done.
    + intros x x' dx dx' i j [(-> & ->)|(Hx & Ex)]%Hdirs [(-> & ->)|(Hx' & Ex')]%Hdirs Hne Hi Hj; rewrite ?Hd1; try done.
      * case_decide; [intros E; destruct (Hfr x' dx' j Ex' Hj); congruence | by apply (so_apart _ Sp pd x')].
      * case_decide; [intros E; by destruct (Hfr x dx i Ex Hi) | by apply (so_apart _ Sp x pd)].
      * by apply (so_apart _ Sp x x').
  - destruct Fr as [F1 F2 F3 F4]. split.
    + unfold s1, with_new_table; cbn. by rewrite Hl.
    + by apply Hk.
    + intros x q Hq. rewrite Hent by done. by apply F3.
    + intros x q Hq. rewrite Hent by done. intros Hn. apply Hk; [|by apply F4].
      unfold entry_of in *. destruct (k_pagedirs (k_st s) !! x) as [dx|] eqn:Ex; [|done].
      pose proof (po_frames _ _ _ (so_pages _ Sp _ _ Ex) q Hq Hn) as Hin. unfold in_array in Hin. lia.
Qed.

(** A page gets the frame just allocated. *)
Lemma with_page_ok a t tb w f b : 0 <= a < 0xE0000000 -> dir_table d (table_of a) = t -> t <> 0 ->
  k_tables (k_st s) !! t = Some tb -> pg_frame (entry_of s pd (a / 0x1000)) = 0 ->
  f <> 0 -> bit_at (frames (k_g s)) f = false -> in_array (frames (k_g s)) f -> wf_bitset b ->
  length (bits b) = length (bits (frames (k_g s))) ->
  (forall k, 0 <= k -> bit_at b k = if k =? f then true else bit_at (frames (k_g s)) k) ->
  let s1 := with_page t (index_of a) tb (Page 1 w 1 f) (KState (k_st s) (set_frames b (k_g s))) in
  respaced s s1 /\ page_given s s1 pd (a / 0x1000) w f.
Proof.
  intros Ha Et Ht Etb H0 Hf Hfree Hin Hwf Hl Hk s1.
  assert (Hup : user_page (a / 0x1000)) by (unfold user_page; Z.div_mod_to_equations; lia).
  pose proof (user_page_table _ Hup) as Hut. fold (table_of a) in Hut.
  assert (Hent : forall pd' q, user_page q -> entry_of s1 pd' q = if decide ((pd', q) = (pd, a / 0x1000)) then Page 1 w 1 f else entry_of s pd' q).
  { intros x q Hq. pose proof (user_page_table _ Hq) as Hi. unfold entry_of, s1, with_page; ksimp. destruct (decide (x = pd)) as [->|Hx].
    - rewrite Ed, (page_entry_put d (k_tables (k_st s)) t (table_of a) tb); try done.
      + assert (q / 1024 = table_of a /\ q mod 1024 = index_of a <-> q = a / 0x1000)
          by (unfold table_of, index_of; split; [intros [? ?]; Z.div_mod_to_equations; lia | by intros ->]).
        destruct (decide (q = a / 0x1000)) as [->|Hne]; [by rewrite !decide_True by tauto|].
        by rewrite !decide_False by (tauto || congruence).
      + intros j Hj Ej. apply (po_inj _ _ _ (so_pages _ Sp _ _ Ed)); congruence.
    - rewrite decide_False by congruence. destruct (k_pagedirs (k_st s) !! x) as [dx|] eqn:Ex; [|done]. unfold page_entry.
      rewrite lookup_insert_ne; [done|]. intros E. apply Ht. rewrite E.
      apply (so_apart _ Sp x pd dx d (q / 1024) (table_of a)); congruence. }
  assert (Hused : forall x q, user_page q -> pg_frame (entry_of s x q) <> 0 -> 0 <= pg_frame (entry_of s x q)).
  { intros x q Hq Hn. unfold entry_of in *. destruct (k_pagedirs (k_st s) !! x) as [dx|] eqn:Ex; [|done].
    pose proof (po_frames _ _ _ (so_pages _ Sp _ _ Ex) q Hq Hn) as Hi. unfold in_array in Hi. lia. }
  split; [split; [done | done | done | |]|].
  - split; [apply Sp | | apply Sp]. intros x dx Ex. pose proof (so_pages _ Sp _ _ Ex) as [W1 W2 W3 W4 W5].
    pose proof (Hent x) as He. unfold entry_of in He.
    assert (Ex0 : k_pagedirs (k_st s) !! x = Some dx) by exact Ex. rewrite Ex, Ex0 in He. split; [|done | | | done].
    + intros i Hi Hn. unfold s1, with_page; ksimp. apply lookup_insert_is_Some'. right. by apply W1.
    + unfold s1, with_page; ksimp. by rewrite lookup_insert_ne.
    + intros q Hq. rewrite He by done. unfold in_array, s1, with_page; ksimp. cbn [frames set_frames]. rewrite Hl.
      case_decide; [by intros _ | by apply W4].
  - destruct Fr as [F1 F2 F3 F4]. split.
    + unfold s1, with_page; cbn. by rewrite Hl.
    + unfold s1, with_page; cbn. rewrite Hk by done. by destruct (0 =? f).
    + intros x q Hq. rewrite Hent by done. case_decide; [done | by apply F3].
    + intros x q Hq. rewrite Hent by done. unfold s1, with_page; ksimp. cbn [frames set_frames]. case_decide.
      * cbn [pg_frame]. intros _. rewrite Hk, Z.eqb_refl; [done|]. unfold in_array in Hin. lia.
      * intros Hn. rewrite Hk by by apply Hused. rewrite F4 by done. by destruct (_ =? f).
  - split; [by rewrite Hent, decide_True | done |]. intros x q Hq Hne. by rewrite Hent, decide_False.
Qed.

End spaces.

Lemma respaced_trans s1 s2 s3 : respaced s1 s2 -> respaced s2 s3 -> respaced s1 s3.
Proof.
  intros [A1 A2 A3 _ _] [B1 B2 B3 B4 B5]. split; [| | intros x; by rewrite B3 | done | done].
  - rewrite B1, A1. by destruct (k_st s1).
  - rewrite B2, A2. by destruct (k_g s1).
Qed.

(** A page fault at [a] of the space [pd], which is the current one: the
    first mapping that covers [a] is of a simple segment, and the page has
    no frame.  It takes two frames at most. *)
Record faulting (s : kstate) (pd : ptr) (a err eip : Z) (ss : simpleseg) : Prop := {
  fg_dir : pd <> 0 /\ current_pagedir (k_g s) = pd;
  fg_addr : 0 <= a < 0xE0000000;
  fg_map : exists d l1 x l2 m g, k_pagedirs (k_st s) !! pd = Some d /\ linked (k_maps (k_st s)) (mappedSegs d) (l1 ++ x :: l2) /\
    k_maps (k_st s) !! x = Some m /\ covers a m = true /\ sm_seg m <> 0 /\
    k_segments (k_st s) !! sm_seg m = Some g /\ seg_data g = simple_kind ss /\
    forall y n, y ∈ l1 -> k_maps (k_st s) !! y = Some n -> covers a n = false;
  fg_allowed : ss_writable ss = 0 -> Z.land err 0x2 = 0 \/ 0xE0000000 <= eip;
  fg_page : pg_frame (entry_of s pd (a / 0x1000)) = 0;
  fg_free : free_count (frames (k_g s)) 2
}.

(** The table for a user address: it is there, or it is made. *)
Lemma user_table_ok s (Sp : spaces_ok s) (Fr : frames_ok s) pd a d : pd <> 0 -> k_pagedirs (k_st s) !! pd = Some d ->
  0 <= a < 0xE0000000 -> free_count (frames (k_g s)) 2 ->
  exists s1 t tb d1, (forall Q : page_ptr -> kstate -> Prop, Q (Some (t, index_of a)) s1 -> wp (pagedir_getPage pd (page_mask a) true) s Q) /\
    respaced s s1 /\ (forall pd' q, user_page q -> entry_of s1 pd' q = entry_of s pd' q) /\ free_count (frames (k_g s1)) 1 /\
    k_pagedirs (k_st s1) !! pd = Some d1 /\ dir_table d1 (table_of a) = t /\ t <> 0 /\ k_tables (k_st s1) !! t = Some tb /\
    (forall k, 0 <= k -> bit_at (frames (k_g s)) k = true -> bit_at (frames (k_g s1)) k = true) /\
    (dir_table d (table_of a) <> 0 -> s1 = s).
Proof.
  intros Hpd Ed Ha Hfree. assert (Hu : u32 a) by (unfold u32; lia).
  assert (Hup : user_page (a / 0x1000)) by (unfold user_page; Z.div_mod_to_equations; lia).
  pose proof (user_page_table _ Hup) as Hut. fold (table_of a) in Hut.
  assert (Hwf : wf_bitset (frames (k_g s))) by exact (po_wf _ _ _ (so_pages _ Sp _ _ Ed)).
  destruct (decide (dir_table d (table_of a) = 0)) as [H0|Hn].
  - destruct (frame_given s 1 Fr Hwf Hfree) as (f & b & Ef & Hf0 & _ & Hff & Hfin & Hwfb & Hlb & Hfb & Hkb).
    assert (Hmono : forall k, 0 <= k -> bit_at (frames (k_g s)) k = true -> bit_at b k = true)
      by (intros k Hk E; rewrite Hkb, E by done; by destruct (k =? f)).
    destruct (with_new_table_ok s Sp Fr pd d Ed a f b Ha H0 Hwfb Hlb Hmono) as (R & He).
    exists (with_new_table pd a d f b s), (fresh_ptr (k_tables (k_st s))), (PageTable ∅ f), (with_table (table_of a) (fresh_ptr (k_tables (k_st s))) (w32 (f * 0x1000)) d).
    split.
    { intros Q HQ. eapply wp_getPage_makes; rewrite ?table_of_mask, ?index_of_mask by done; try done; [unfold user_table in Hut; lia|].
      unfold with_new_table in *. by rewrite table_of_mask. }
    split; [done|]. split; [done|]. split; [done|]. unfold with_new_table; ksimp. rewrite !lookup_insert_eq.
    split; [done|]. split; [by rewrite with_table_tab, decide_True|]. split; [pose proof (fresh_ptr_pos (k_tables (k_st s))); lia | done].
  - destruct (po_tables _ _ _ (so_pages _ Sp _ _ Ed) _ Hut Hn) as (tb & Etb).
    exists s, (dir_table d (table_of a)), tb, d. split.
    { intros Q HQ. eapply wp_getPage_present; rewrite ?table_of_mask, ?index_of_mask by done; done. }
    split; [split; try done; by destruct s as [[] []]|]. split; [done|]. split; [by apply (free_count_le _ 2); [lia|]|]. done.
Qed.

Lemma user_fault_ok s pd a err eip ss : spaces_ok s -> frames_ok s -> faulting s pd a err eip ss ->
  exists s' f, paging_fault a err eip s = Ok (0, s') /\ respaced s s' /\
    page_given s s' pd (a / 0x1000) (if ss_writable ss =? 0 then 0 else 1) f /\
    forall d, k_pagedirs (k_st s) !! pd = Some d -> dir_table d (table_of a) <> 0 ->
      page_only s s' (dir_table d (table_of a)) (index_of a) (Page 1 (if ss_writable ss =? 0 then 0 else 1) 1 f) f.
Proof.
  intros Sp Fr [(Hpd & Hcur) Ha (d & l1 & x & l2 & m & g & Ed & Hl & Em & Hc & Hsg & Eg & Ek & Hno) Hw Hpg Hfree].
  set (w := if ss_writable ss =? 0 then 0 else 1).
  assert (Hu : u32 a) by (unfold u32; lia).
  destruct (so_maps _ Sp _ _ Ed) as (l & Hl' & Hm). replace l with (l1 ++ x :: l2) in * by exact (linked_det _ _ _ _ Hl Hl').
  assert (Emp : sm_pagedir m = pd) by (apply (Hm x m); [set_solver | done]).
  assert (Hup : user_page (a / 0x1000)) by (unfold user_page; Z.div_mod_to_equations; lia).
  destruct (user_table_ok s Sp Fr pd a d Hpd Ed Ha Hfree) as (s1 & t & tb & d1 & Hget & R1 & He1 & Hf1 & Ed1 & Et & Ht & Etb & Hmono & Hsame).
  pose proof (rs_spaces _ _ R1) as Sp1. pose proof (rs_frames _ _ R1) as Fr1.
  assert (Hwf1 : wf_bitset (frames (k_g s1))) by exact (po_wf _ _ _ (so_pages _ Sp1 _ _ Ed1)).
  destruct (frame_given s1 0 Fr1 Hwf1 Hf1) as (f & b & Ef & Hf0 & Hfm & Hff & Hfin & Hwfb & Hlb & _ & Hkb).
  assert (Hpg1 : pg_frame (entry_of s1 pd (a / 0x1000)) = 0) by (by rewrite He1).
  destruct (with_page_ok s1 Sp1 Fr1 pd d1 Ed1 a t tb w f b Ha Et Ht Etb Hpg1 Hf0 Hff Hfin Hwfb Hlb Hkb) as (R2 & G2).
  assert (Ep : table_page tb (index_of a) = entry_of s1 pd (a / 0x1000)).
  { unfold entry_of. rewrite Ed1. unfold page_entry. change (a / 0x1000 / 1024) with (table_of a). by rewrite Et, Etb. }
  set (wr := negb (Z.land err 0x2 =? 0) && (eip <? 0xE0000000)).
  assert (Hwr : wr && (ss_writable ss =? 0) = false).
  { unfold wr. destruct (Z.eqb_spec (ss_writable ss) 0) as [H0|]; [|by rewrite andb_false_r].
    destruct (Hw H0) as [->|Hk]; [done|]. by rewrite (proj2 (Z.ltb_ge _ _) Hk), andb_false_r. }
  set (s2 := with_page t (index_of a) tb (Page 1 w 1 f) (KState (k_st s1) (set_frames b (k_g s1)))) in *.
  assert (Hgo : simpleseg_handleFault m ss a wr s = Ok (0, s2)).
  { apply wp_eq_Ok. unfold simpleseg_handleFault. rewrite Hwr, Emp. apply wp_bind, Hget. unfold get_page. cbn [fst snd].
    ksteps. rewrite Ep, Hpg1. cbn [Z.eqb negb]. ksteps. eapply wp_lift_frames; [exact Ef|]. ksteps.
    eapply wp_page_map; [done | exact Etb | by rewrite Ep | |].
    { rewrite Ep. by apply (fo_present _ Fr1). }
    rewrite Hfm. by ksteps. }
  exists s2, f. split; [|split; [by eapply respaced_trans|split]].
  - rewrite (paging_fault_found a err eip pd d l1 x l2 m g s) by done. fold wr. unfold seg_op_fault. rewrite Ek.
    by rewrite (bind_Ok _ _ _ _ _ Hgo).
  - destruct G2 as [P1 [P2 P3] P4]. split; [done | split; [done|] |].
    + destruct (bit_at (frames (k_g s)) f) eqn:Eb; [|done]. rewrite Hmono in P3; [done | unfold in_array in Hfin; lia | done].
    + intros pd' q Hq Hne. by rewrite P4, He1.
  - intros d0 E0 Hn. replace d0 with d in * by congruence. specialize (Hsame Hn). subst s1.
    replace d1 with d in * by congruence. rewrite Et. split; [by exists tb | done | exact Hkb].
Qed.
