(* ===== verification/Tasking.v ===== *)
(** * Threads and processes

    [src/kernel/task/task.c]: creation and deletion of threads and
    processes, the choice made by [tasking_switch], and what an exception
    does to the current thread. *)

From S2P Require Import Prelude Memory Bitset Kernel Paging Segments Sched Timer Objects.

(** ** Interrupt locks ([src/kernel/core/sys.c]) *)

Definition cli : M kstate unit := setg (fun g => set_if_locks (w32 (if_locks g + 1)) g).
Definition sti : M kstate unit :=
  setg (fun g => if 0 <? if_locks g then set_if_locks (if_locks g - 1) g else g).

(** ** Switching *)

Definition save_context (esp ebp eip : Z) (t : thread) : thread :=
  set_t_esp esp (set_t_ebp ebp (set_t_eip eip t)).

(** [tasking_switch]: the context that is left is saved, the thread goes
    back to its queue if it can run, and the next one becomes current. *)
Definition tasking_switch (esp ebp eip : Z) : M kstate unit :=
  ps ← getg processes;
  if ps =? 0 then fail Panic
  else
    c ← getg current_thread;
    (if c =? 0 then mret tt
     else
       update c (save_context esp ebp eip);;
       t ← load (A := thread) c;
       when (t_state t =? TS_RUNNING) (sched_enqueue c));;
    c ← sched_dequeue;
    setg (set_current_thread c);;
    if c =? 0 then fail Panic
    else
      t ← load (A := thread) c;
      p ← load (A := process) (t_process t);
      pagedir_switch (p_pagedir p);;
      setg (set_esp0 (w32 (kernelStack_addr t + kernelStack_size t))).

Definition thread_goInactive (esp ebp eip : Z) : M kstate unit :=
  goInactive_mark;; tasking_switch esp ebp eip.

Definition proc_priv : M kstate Z :=
  c ← getg current_thread;
  if c =? 0 then mret PL_UNKNOWN
  else
    t ← load (A := thread) c;
    if t_process t =? 0 then mret PL_UNKNOWN
    else p ← load (A := process) (t_process t); mret (privilege p).

(** ** Creation *)

(** The end of [thread_new]: the thread goes at the end of its process'
    list. *)
Definition append_thread (proc t : ptr) : M kstate unit :=
  p ← load (A := process) proc;
  if threads p =? 0 then update proc (set_threads t)
  else
    i ← walk (A := thread) (fun _ a => t_next a =? 0) (threads p);
    update i (set_t_next t).

Definition user_stack (proc : ptr) : M kstate ptr :=
  update proc (fun p => set_stacksBottom (w32 (stacksBottom p - USER_STACK_SIZE)) p);;
  p ← load (A := process) proc;
  s ← simpleseg_make (stacksBottom p) USER_STACK_SIZE 1;
  seg_map s (p_pagedir p) 0.

Definition set_kstack (a size : Z) (t : thread) : thread :=
  Thread (t_process t) (t_esp t) (t_ebp t) (t_eip t) (t_state t) a size (userStack_seg t)
    (t_next t) (queue_next t).

Definition thread_new (proc entry_point data : Z) : M kstate ptr :=
  j ← getg k_junk;
  t ← new (Thread proc j j j j j j j 0 j);
  update proc (fun p => set_thread_count (w32 (thread_count p + 1)) p);;
  p ← load (A := process) proc;
  when (PL_SERVICE <=? privilege p) (u ← user_stack proc; update t (set_userStack_seg u));;
  k ← new (KStack [data; entry_point; t; 0]);
  update t (set_kstack k KSTACKSIZE);;
  run ← getg thread_run_addr;
  let esp := w32 (k + KSTACKSIZE - 16) in
  update t (save_context esp (w32 (esp + 8)) run);;
  update t (set_t_state TS_RUNNING);;
  sched_enqueue t;;
  append_thread proc t;;
  mret t.

Definition process_new (par uid priv : Z) : M kstate ptr :=
  j ← getg k_junk;
  n ← getg nextpid;
  setg (set_nextpid (w32 (n + 1)));;
  pd ← pagedir_new;
  ps ← getg processes;
  p ← new (Process n uid priv 0 par pd 0xDF000000 0 0 0 ps j);
  o ← obj_new p;
  m ← getg manager_object;
  (if m =? 0 then setg (set_manager_object o) else mret tt);;
  _ ← objdesc_add p o;
  m ← getg manager_object;
  _ ← objdesc_add p m;
  setg (set_processes p);;
  mret p.

Definition tasking_init (task_idle : Z) : M kstate unit :=
  cli;;
  j ← getg k_junk;
  kd ← getg kernel_pagedir;
  kp ← new (Process 0 0 PL_KERNEL 0 j kd j j j j 0 j);
  update kp (fun p => Process (pid p) (uid p) (privilege p) (thread_count p) kp (p_pagedir p)
    (stacksBottom p) (objects p) (next_objdesc p) (heapseg p) (p_next p) (threads p));;
  setg (set_kernel_process kp);;
  setg (set_current_thread 0);;
  t ← thread_new kp task_idle 0;
  setg (set_idle_thread t);;
  update kp (set_threads t);;
  sti.

(** ** Deletion *)

(** Taking [th] out of its process' list. *)
Definition unlink_thread (th : ptr) : M kstate unit :=
  t ← load (A := thread) th;
  p ← load (A := process) (t_process t);
  if threads p =? th then update (t_process t) (set_threads (t_next t))
  else
    it ← walk (A := thread) (fun _ a => t_next a =? th) (threads p);
    if it =? 0 then mret tt else update it (set_t_next (t_next t)).

Definition thread_delete (th : ptr) : M kstate unit :=
  unlink_thread th;;
  c ← getg current_thread;
  (if c =? th then setg (set_current_thread 0) else mret tt);;
  t ← load (A := thread) th;
  update (t_process t) (fun p => set_thread_count (w32 (thread_count p - 1)) p);;
  free (A := kstack) (kernelStack_addr t);;
  (if userStack_seg t =? 0 then mret tt else seg_unmap (userStack_seg t));;
  free (A := thread) th.

(** The loop of [process_delete] over the threads: [it->next] is read from
    the thread that was just freed. *)
Definition delete_threads (pr : ptr) : M kstate unit :=
  p ← load (A := process) pr;
  n ← gets (fun s => size (k_threads (k_st s)));
  loop (1 + n) (fun it =>
    if it =? 0 then mret (inr tt)
    else thread_delete it;; t ← load (A := thread) it; mret (inl (t_next t))) (threads p).

Definition unlink_process (pr : ptr) : M kstate unit :=
  p ← load (A := process) pr;
  ps ← getg processes;
  if ps =? pr then setg (set_processes (p_next p))
  else
    it ← walk (A := process) (fun _ a => p_next a =? pr) ps;
    if it =? 0 then mret tt else update it (set_p_next (p_next p)).

Definition process_delete (pr : ptr) : M kstate unit :=
  delete_threads pr;;
  obj_closeall pr;;
  unlink_process pr;;
  p ← load (A := process) pr;
  pagedir_delete (p_pagedir p);;
  free (A := process) pr.

(** ** Exiting *)

(** [thread_exit2] up to its [tasking_switch]. *)
Definition thread_exit2 (reason : Z) : M kstate unit :=
  th ← getg current_thread;
  (if th =? 0 then mret tt
   else
     t ← load (A := thread) th;
     if t_process t =? 0 then mret tt
     else
       p ← load (A := process) (t_process t);
       if ((reason =? EX_TH_NORMAL) || (reason =? EX_TH_EXCEPTION)) && (1 <? thread_count p)
       then thread_delete th
       else process_delete (t_process t));;
  sti.

Definition thread_exit_stackJmp (reason : Z) : M kstate unit := cli;; thread_exit2 reason.

Definition thread_exit : M kstate unit := thread_exit_stackJmp EX_TH_NORMAL.

Definition process_exit (retval : Z) : M kstate unit :=
  thread_exit_stackJmp
    (if (retval =? EX_TH_NORMAL) || (retval =? EX_TH_EXCEPTION) then EX_PR_EXCEPTION else retval).

(** The names in the table [exception_messages] of
    [tasking_handleException] (the strings are in [Panic]), and the read of
    one of them: beyond the table it is wild. *)
Definition EXCEPTIONS : Z := 19.
Definition read_message (int_no : Z) : M kstate unit :=
  if (0 <=? int_no) && (int_no <? EXCEPTIONS) then mret tt else fail (BadAccess int_no).

(** [tasking_handleException]: 0 when there is no tasking yet; an
    exception of the kernel is a panic. *)
Definition tasking_handleException (int_no eip : Z) : M kstate bool :=
  c ← getg current_thread;
  if c =? 0 then mret false
  else
    read_message int_no;;
    if 0xE0000000 <=? eip then fail Panic
    else thread_exit_stackJmp (if int_no =? 14 then EX_PR_EXCEPTION else EX_TH_EXCEPTION);; mret true.

(** [idt_isrHandler] ([src/kernel/task/idt.c]); [cr2] is the faulting
    address. *)
Definition idt_isrHandler (int_no err_code eip cr2 : Z) : M kstate unit :=
  bad ← (if int_no =? 14 then r ← paging_fault cr2 err_code eip; mret (negb (r =? 0))
         else mret true);
  if (bad : bool) then
    h ← tasking_handleException int_no eip;
    if (h : bool) then mret tt else fail Panic
  else mret tt.

(** ** The heap segment of a process *)

Definition heapseg_make (pr start e : Z) : M kstate Z :=
  p ← load (A := process) pr;
  s ← simpleseg_make start (w32 (e - start)) 1;
  if s =? 0 then mret (-5)
  else
    h ← seg_map s (p_pagedir p) 0;
    update pr (set_heapseg h);;
    mret (if h =? 0 then -1 else 0).

Definition process_setheapseg (start e : Z) : M kstate Z :=
  pr ← current_process;
  if (0xE0000000 <=? start) || (0xE0000000 <=? e) then mret (-1)
  else
    p ← load (A := process) pr;
    if heapseg p =? 0 then heapseg_make pr start e
    else
      h ← load (A := segment_map) (heapseg p);
      if negb (sm_start h =? start) then seg_unmap (heapseg p);; heapseg_make pr start e
      else simpleseg_resize (heapseg p) (w32 (e - start)).

(** ** Interrupts ([src/kernel/task/idt.c]) *)

(** The loop of [idt_irqHandler] that wakes the threads waiting for [irq]. *)
Definition waiter_step (irq : Z) (woke : bool) : M kstate (bool + bool) :=
  w ← getg (fun g => default 0 (irq_wakeup g !! irq));
  if w =? 0 then mret (inr woke)
  else
    tmp ← load (A := irq_waiter) w;
    thread_wakeUp (iw_thread tmp);;
    setg (fun g => set_irq_wakeup (<[irq := iw_next tmp]> (irq_wakeup g)) g);;
    free (A := irq_waiter) w;;
    mret (inl true).

Definition wake_waiters (irq : Z) : M kstate bool :=
  n ← gets (fun s => size (k_waiters (k_st s)));
  loop (1 + n) (waiter_step irq) false.

(** [idt_irqHandler]; the only handler the kernel installs is the timer's,
    for IRQ 0.  The context is the interrupted one. *)
Definition idt_irqHandler (irq esp ebp eip : Z) : M kstate unit :=
  woke ← wake_waiters irq;
  when (irq =? 0) timer_callback;;
  when ((irq =? 0) || woke) (tasking_switch esp ebp eip).

(** [idt_waitIrq] up to the task switch: whether the thread now waits. *)
Definition idt_waitIrq (number : Z) : M kstate bool :=
  if (number <? 16) && (0 <=? number) then
    pl ← proc_priv;
    if pl <=? PL_DRIVER then
      c ← getg current_thread;
      w ← getg (fun g => default 0 (irq_wakeup g !! number));
      tmp ← new (IrqWaiter c w);
      setg (fun g => set_irq_wakeup (<[number := tmp]> (irq_wakeup g)) g);;
      goInactive_mark;;
      mret true
    else mret false
  else mret false.

(** ** Specification of the scheduler's choice *)

(** The most urgent level that has a thread, and its oldest thread; the
    idle thread when there is none. *)
Definition level (qs : Z -> list Z) : Z :=
  match qs 0, qs 1, qs 2 with
  | _ :: _, _, _ => 0
  | _, _ :: _, _ => 1
  | _, _, _ :: _ => 2
  | _, _, _ => 3
  end.
Definition pick (qs : Z -> list Z) (idle : ptr) : ptr := default idle (head (qs (level qs))).
Definition rest (qs : Z -> list Z) : Z -> list Z := upd qs (level qs) (tail (qs (level qs))).

(** A thread whose process and address space exist. *)
Definition schedulable (s : kstate) (t : ptr) : Prop :=
  t <> 0 /\ exists th p d, k_threads (k_st s) !! t = Some th /\ t_process th <> 0 /\
    k_processes (k_st s) !! t_process th = Some p /\ p_pagedir p <> 0 /\
    k_pagedirs (k_st s) !! p_pagedir p = Some d.

(** The address space and the kernel stack of the current thread are the
    ones in use. *)
Definition runs_in (s : kstate) : Prop :=
  exists th p, k_threads (k_st s) !! current_thread (k_g s) = Some th /\
    k_processes (k_st s) !! t_process th = Some p /\ current_pagedir (k_g s) = p_pagedir p /\
    esp0 (k_g s) = w32 (kernelStack_addr th + kernelStack_size th).

(** ** Lemmas *)

Lemma level_first qs q t l : is_priority q -> qs q = t :: l -> (forall j, 0 <= j < q -> qs j = []) ->
  level qs = q.
Proof.
  intros Hq Eq He. unfold level, is_priority in *.
  assert (Hc : q = 0 \/ q = 1 \/ q = 2 \/ q = 3) by lia.
  destruct Hc as [->|[->|[->| ->]]]; rewrite ?(He 0), ?(He 1), ?(He 2) by lia; by rewrite ?Eq.
Qed.

Lemma level_empty qs : (forall j, is_priority j -> qs j = []) -> level qs = 3 /\ qs 3 = [].
Proof. intros He. unfold level, is_priority in *. by rewrite (He 0), (He 1), (He 2), (He 3) by lia. Qed.

Lemma queues_upd_same s qs q : queues_ok s qs -> queues_ok s (upd qs q (qs q)).
Proof.
  intros [W1 W2 W3].
  assert (E : forall i, upd qs q (qs q) i = qs i) by (intros i; unfold upd; by destruct (Z.eqb_spec i q) as [->|]).
  split; intros; rewrite ?E in *; eauto.
Qed.

Lemma sched_dequeue_pick qs s : queues_ok s qs ->
  exists s', sched_dequeue s = Ok (pick qs (idle_thread (k_g s)), s') /\
    queues_ok s' (rest qs) /\ k_st s' = k_st s /\
    k_g s' = set_queue (queue (k_g s')) (set_last (last (k_g s')) (k_g s)).
Proof.
  intros W. unfold sched_dequeue, rest, pick.
  destruct (dequeue_from_ok qs s 4 0 W) as [[He E]|(q & t & l & s' & Hq & Eq & He & E & Ht & D)]; try lia.
  - destruct (level_empty qs He) as [El E3]. rewrite El, E3. exists s.
    rewrite (bind_Ok _ _ _ _ _ E). split; [done|]. split; [|by destruct s as [? []]].
    pose proof (queues_upd_same s qs 3 W) as HW. by rewrite E3 in HW.
  - rewrite (level_first qs q t l) by done. rewrite Eq. exists s'.
    destruct D as [D1 D2 D3]. rewrite (bind_Ok _ _ _ _ _ E). cbn.
    by rewrite (proj2 (Z.eqb_neq _ _) Ht).
Qed.

(** The end of [tasking_switch], from [sched_dequeue] on. *)
Lemma switch_next qs s t : queues_ok s qs -> t = pick qs (idle_thread (k_g s)) -> schedulable s t ->
  exists s', (c ← sched_dequeue;
    setg (set_current_thread c);;
    if c =? 0 then fail Panic
    else
      t ← load (A := thread) c;
      p ← load (A := process) (t_process t);
      pagedir_switch (p_pagedir p);;
      setg (set_esp0 (w32 (kernelStack_addr t + kernelStack_size t)))) s = Ok (tt, s') /\
    k_st s' = k_st s /\ current_thread (k_g s') = t /\ runs_in s' /\ queues_ok s' (rest qs) /\
    idle_thread (k_g s') = idle_thread (k_g s) /\
    exists q l pg e, k_g s' = set_esp0 e (set_current_pagedir pg (set_current_thread t (set_queue q (set_last l (k_g s))))).
Proof.
  intros W -> (Ht & th & p & d & Et & Hp & Ep & Hd & Ed). set (t := pick _ _) in *.
  destruct (sched_dequeue_pick qs s W) as (s1 & E & W1 & Est & Eg). fold t in E.
  apply wp_run, wp_bind. eapply wp_eq; [exact E|]. rewrite <- Est in *. ksteps.
  rewrite (proj2 (Z.eqb_neq _ _) Ht). ksteps. unfold pagedir_switch. ksteps.
  split; [done|]. split; [done|]. split.
  - exists th, p. done.
  - split; [by destruct W1; split|]. split; [by rewrite Eg|].
    eexists _, _, _, _. by rewrite Eg.
Qed.

Lemma schedulable_same s s' t : same_threads (k_threads (k_st s)) (k_threads (k_st s')) ->
  k_processes (k_st s') = k_processes (k_st s) -> k_pagedirs (k_st s') = k_pagedirs (k_st s) ->
  schedulable s t -> schedulable s' t.
Proof.
  intros Hs Ep Ed (Ht & th & p & d & E1 & E2 & E3 & E4 & E5).
  destruct (same_threads_some _ _ _ _ Hs E1) as (v & Ev). split; [done|].
  exists (set_queue_next v th), p, d. by rewrite Ep, Ed.
Qed.

(** What a thread is apart from its saved registers, its state and its
    links. *)
Lemma schedulable_update s t c f : (forall th, t_process (f th) = t_process th) -> schedulable s t ->
  forall th, k_threads (k_st s) !! c = Some th ->
  schedulable (set_st (set_k_threads (<[c := f th]> (k_threads (k_st s))) (k_st s)) s) t.
Proof.
  intros Hf (Ht & th' & p & d & E1 & E2 & E3 & E4 & E5) th Ec. split; [done|]. ksimp.
  destruct (decide (c = t)) as [->|Hne].
  - exists (f th), p, d. rewrite lookup_insert_eq, Hf. by replace th with th' by congruence.
  - exists th', p, d. by rewrite lookup_insert_ne.
Qed.

(** Every thread in a queue, and the idle thread, can be switched to. *)
Definition all_schedulable (s : kstate) (qs : Z -> list Z) : Prop :=
  schedulable s (idle_thread (k_g s)) /\ forall i t, is_priority i -> t ∈ qs i -> schedulable s t.

Lemma pick_schedulable s qs : all_schedulable s qs -> schedulable s (pick qs (idle_thread (k_g s))).
Proof.
  intros [Hi Hq]. unfold pick. destruct (qs (level qs)) as [|t l] eqn:E; [done|]. cbn.
  apply (Hq (level qs)); [|rewrite E; set_solver].
  unfold level, is_priority. destruct (qs 0), (qs 1), (qs 2); lia.
Qed.

(** Whatever else it did, a [thread_delete] that returned freed the thread. *)
Lemma thread_delete_frees th s s' : thread_delete th s = Ok (tt, s') -> k_threads (k_st s') !! th = None.
Proof.
  unfold thread_delete. intros E.
  repeat (apply bind_inv in E as (? & ? & _ & E)). injection E as <-. apply lookup_delete_eq.
Qed.

(** The threads waiting for [irq], last come first. *)
Definition waiter_thread (m : gmap Z irq_waiter) (x : Z) : ptr := default 0 (iw_thread <$> m !! x).
Definition irq_waiters (s : kstate) (irq : Z) (l : list Z) (ts : list ptr) : Prop :=
  linked (k_waiters (k_st s)) (default 0 (irq_wakeup (k_g s) !! irq)) l /\
  ts = waiter_thread (k_waiters (k_st s)) <$> l.

Lemma waiter_step_go irq b s x l t ts q qs : irq_waiters s irq (x :: l) (t :: ts) ->
  queues_ok s qs -> waiting s qs t q ->
  exists s' s1, waiter_step irq b s = Ok (inl true, s') /\ woken t q qs s s1 /\ irq_waiters s' irq l ts /\
    k_g s' = set_irq_wakeup (irq_wakeup (k_g s')) (k_g s1) /\
    k_st s' = set_k_waiters (delete x (k_waiters (k_st s))) (k_st s1) /\
    exists v, irq_wakeup (k_g s') = <[irq := v]> (irq_wakeup (k_g s)).
Proof.
  intros [Hl Ets] Wq Wt. pose proof (linked_NoDup _ _ _ Hl) as [Hnx _]%NoDup_cons.
  destruct Hl as (Hx & Hx0 & h & Eh & Hl). cbn [fmap list_fmap] in Ets. injection Ets as -> ->.
  set (m := k_waiters (k_st s)) in *. set (t := waiter_thread m x) in *.
  assert (Et : iw_thread h = t) by (unfold t, waiter_thread; by rewrite Eh).
  destruct (wake_ok t q qs s Wq Wt) as (s1 & E & Wk).
  assert (Em1 : k_waiters (k_st s1) = m) by (by rewrite (wk_stores _ _ _ _ _ Wk)).
  eexists (KState (set_k_waiters (delete x m) (k_st s1)) (set_irq_wakeup (<[irq := iw_next h]> (irq_wakeup (k_g s1))) (k_g s1))), s1.
  split; [|split; [done|split; [|split; [by destruct (k_g s1) | split; [done|]]]]].
  - apply wp_eq_Ok. unfold waiter_step. ksteps. rewrite Hx, (proj2 (Z.eqb_neq _ _) Hx0). ksteps.
    rewrite Et. eapply wp_eq; [exact E|]. ksteps. by rewrite Em1.
  - split; ksimp; cbn [irq_wakeup set_irq_wakeup].
    + rewrite lookup_insert_eq. by apply lseg_delete.
    + apply list_fmap_ext. intros i y Hy. apply list_elem_of_lookup_2 in Hy.
      unfold waiter_thread. rewrite lookup_delete_ne; [done|]. intros ->. done.
  - eexists. cbn. by rewrite (wk_globals _ _ _ _ _ Wk).
Qed.

Lemma waiters_loop irq (lvl : Z -> Z) n : forall l ts s qs b,
  irq_waiters s irq l ts -> queues_ok s qs -> NoDup ts ->
  (forall t, t ∈ ts -> waiting s qs t (lvl t)) -> (length l < n)%nat ->
  exists s', loop n (waiter_step irq) b s = Ok (b || negb (length l =? 0)%nat, s') /\
    default 0 (irq_wakeup (k_g s') !! irq) = 0 /\
    queues_ok s' (enqueue_all qs ((fun t => (t, lvl t)) <$> ts)) /\
    (forall t, t ∈ ts -> exists th, k_threads (k_st s') !! t = Some th /\ t_state th = TS_RUNNING) /\
    (forall t th, t ∉ ts -> k_threads (k_st s) !! t = Some th ->
       exists th', k_threads (k_st s') !! t = Some th' /\ t_state th' = t_state th).
Proof.
  induction n as [|n IH]; intros l ts s qs b Wi Wq Hnd Hw Hn; [lia|]. rewrite loop_S.
  destruct l as [|x l].
  - destruct Wi as [Hl ->]. apply linked_nil in Hl. exists s. rewrite orb_false_r. split; [|set_solver].
    apply wp_eq_Ok. unfold waiter_step. ksteps. rewrite Hl. by ksteps.
  - destruct ts as [|t ts]; [by destruct Wi|]. apply NoDup_cons in Hnd as [Hnt Hnd].
    destruct (waiter_step_go irq b s x l t ts (lvl t) qs Wi Wq) as (s' & s1 & E & Wk & Wi' & Eg & Est & _).
    { apply Hw. set_solver. }
    rewrite (bind_Ok _ _ _ _ _ E). rewrite orb_true_r.
    destruct (IH l ts s' (upd qs (lvl t) (qs (lvl t) ++ [t])) true Wi') as (s2 & E2 & X1 & X2 & X3 & X4).
    + eapply queues_ok_frame; [apply (wk_queues _ _ _ _ _ Wk) | by rewrite Eg | by rewrite Eg | by rewrite Est].
    + done.
    + intros t' Ht'. eapply waiting_frame; [|by rewrite Eg | by rewrite Est | by rewrite Est].
      apply (wk_others _ _ _ _ _ Wk); [intros ->; done|]. apply Hw. set_solver.
    + simpl in Hn. lia.
    + exists s2. split; [exact E2|]. split; [done|]. split; [done|]. split.
      * intros t' [->|Ht']%elem_of_cons; [|by apply X3].
        destruct (wk_running _ _ _ _ _ Wk) as (th & Eth & Sth).
        destruct (X4 t th Hnt) as (th' & ? & ?); [by rewrite Est|]. exists th'. split; [done | congruence].
      * intros t' th Ht' Eth. apply not_elem_of_cons in Ht' as [Hne Ht'].
        destruct (wk_states _ _ _ _ _ Wk t' th Hne Eth) as (th1 & E1 & S1).
        destruct (X4 t' th1 Ht') as (th' & ? & ?); [by rewrite Est|]. exists th'. split; [done | congruence].
Qed.

(** The process' list without the thread. *)
Lemma unlink_thread_ok s th t pr p l1 l2 : k_threads (k_st s) !! th = Some t -> th <> 0 ->
  t_process t = pr -> pr <> 0 -> k_processes (k_st s) !! pr = Some p ->
  linked (k_threads (k_st s)) (threads p) (l1 ++ th :: l2) ->
  exists s' h, unlink_thread th s = Ok (tt, s') /\ k_g s' = k_g s /\
    k_st s' = set_k_threads (k_threads (k_st s')) (set_k_processes (<[pr := set_threads h p]> (k_processes (k_st s))) (k_st s)) /\
    k_threads (k_st s') !! th = Some t /\ linked (delete th (k_threads (k_st s'))) h (l1 ++ l2) /\
    (forall x, set_t_next 0 <$> k_threads (k_st s') !! x = set_t_next 0 <$> k_threads (k_st s) !! x) /\
    (forall x, x ∉ l1 -> k_threads (k_st s') !! x = k_threads (k_st s) !! x).
Proof.
  intros Et Hth Epr Hpr Ep Hl. pose proof (linked_NoDup _ _ _ Hl) as Hnd.
  destruct (linked_at _ _ _ _ _ Hl) as (_ & t' & Et' & H1 & H2).
  replace t' with t in * by congruence.
  destruct l1 as [|z l1 _] using rev_ind.
  - cbn in H1. exists (set_st (set_k_processes (<[pr := set_threads (t_next t) p]> (k_processes (k_st s))) (k_st s)) s), (t_next t).
    split; [|split; [done|split; [done|split; [done|split; [|done]]]]].
    + apply wp_eq_Ok. unfold unlink_thread. ksteps. rewrite Epr. ksteps. rewrite H1, Z.eqb_refl. by ksteps.
    + cbn in Hnd. apply NoDup_cons in Hnd as [Hnx _]. by apply lseg_delete.
  - destruct (lseg_next _ _ _ _ _ H1) as (b & Eb & Enb). rewrite <- app_assoc in Hl, Hnd. cbn [app] in Hl, Hnd.
    destruct (linked_at _ _ _ _ _ Hl) as (Hz & _).
    assert (Hne : z <> th) by (apply NoDup_app in Hnd as (_ & _ & [Hnz _]%NoDup_cons); set_solver).
    assert (Hhd : threads p <> th).
    { intros E. destruct l1 as [|w l1]; destruct Hl as (E' & _); [congruence|].
      apply NoDup_cons in Hnd as [Hn _]. apply Hn. rewrite <- E', E. set_solver. }
    exists (set_st (set_k_threads (<[z := set_t_next (t_next t) b]> (k_threads (k_st s))) (k_st s)) s), (threads p).
    split; [|split; [done|split; [|split; [|split; [|split]]]]].
    + apply wp_eq_Ok. unfold unlink_thread. ksteps. rewrite Epr. ksteps.
      rewrite (proj2 (Z.eqb_neq _ _) Hhd). ksteps. eapply wp_eq; [by apply walk_spec|].
      pose proof (find_predecessor _ _ _ _ _ _ Hl) as Ef. cbn [nxt Linked_thread] in Ef. ksimp. rewrite Ef.
      rewrite (proj2 (Z.eqb_neq _ _) Hz). by ksteps.
    + cbn. rewrite (insert_id (k_processes (k_st s)) pr) by (rewrite Ep; by destruct p). by destruct (k_st s).
    + cbn. by rewrite lookup_insert_ne.
    + rewrite <- app_assoc. cbn [app k_st set_st k_threads set_k_threads]. by eapply linked_unlink.
    + intros x. ksimp. destruct (decide (x = z)) as [->|]; [rewrite lookup_insert_eq, Eb; by destruct b | by rewrite lookup_insert_ne].
    + intros x Hx. ksimp. rewrite lookup_insert_ne; [done|]. intros ->. apply Hx, elem_of_app. right. by left.
Qed.

(** ** A sample: the threads 10 (current) and 20 (queued) of process 1, the
    idle thread 90 of the kernel's process 3 *)

Definition sample_tasks : kstate :=
  let s := boot_state 1 0 in
  KState
    (set_k_pagedirs {[ 50 := PageDirectory ∅ ∅ 0 0; 51 := PageDirectory ∅ ∅ 0 0 ]}
      (set_k_processes {[ 1 := Process 1 0 2 2 0 50 0 0 0 0 0 10; 3 := Process 0 0 0 1 0 51 0 0 0 0 0 90 ]}
        (set_k_threads {[ 10 := Thread 1 0 0 0 0 1000 0x8000 0 20 0; 20 := Thread 1 0 0 0 0 2000 0x8000 0 0 0;
                          90 := Thread 3 0 0 0 0 3000 0x8000 0 0 0 ]} (k_st s))))
    (set_processes 1 (set_idle_thread 90 (set_current_thread 10
      (set_queue {[ 2 := 20 ]} (set_last {[ 2 := 20 ]} (k_g s)))))).

Definition sample_tasks_queues (q : Z) : list Z := if q =? 2 then [20] else [].

Lemma sample_tasks_ok : queues_ok sample_tasks sample_tasks_queues.
Proof.
  assert (Hc : forall q, is_priority q -> q = 0 \/ q = 1 \/ q = 2 \/ q = 3) by (unfold is_priority; lia).
  split.
  - intros q [->|[->|[->| ->]]]%Hc; cbn; repeat (eexists || split || done).
  - intros q [->|[->|[->| ->]]]%Hc Hne; done.
  - intros q q' x [->|[->|[->| ->]]]%Hc [->|[->|[->| ->]]]%Hc; cbn; set_solver.
Qed.

Lemma sample_schedulable t : t = 10 \/ t = 20 \/ t = 90 -> schedulable sample_tasks t.
Proof. intros [->|[->| ->]]; (split; [done|]); by do 3 eexists. Qed.

Lemma sample_all_schedulable : all_schedulable sample_tasks sample_tasks_queues.
Proof.
  split; [by apply sample_schedulable; auto|]. intros i t _. unfold sample_tasks_queues.
  destruct (i =? 2); [|set_solver]. intros ->%list_elem_of_singleton. apply sample_schedulable. auto.
Qed.

(** ** Theorems *)

(** C17. [tasking_switch] while the current thread can run: the thread goes
    to the end of its level's queue with its context saved, and the oldest
    thread of the most urgent level becomes current, in its process'
    address space and on its own kernel stack. *)
Theorem tasking_switch_preempts s c th p qs esp ebp eip :
  queues_ok s qs -> all_schedulable s qs -> processes (k_g s) <> 0 -> current_thread (k_g s) = c ->
  k_threads (k_st s) !! c = Some th -> t_state th = TS_RUNNING -> schedulable s c ->
  (forall i, is_priority i -> c ∉ qs i) -> k_processes (k_st s) !! t_process th = Some p ->
  is_priority (privilege p) -> c <> idle_thread (k_g s) ->
  let qs1 := upd qs (privilege p) (qs (privilege p) ++ [c]) in
  exists s', tasking_switch esp ebp eip s = Ok (tt, s') /\
    current_thread (k_g s') = pick qs1 (idle_thread (k_g s)) /\ queues_ok s' (rest qs1) /\ runs_in s' /\
    exists v, k_threads (k_st s') !! c = Some (set_queue_next v (save_context esp ebp eip th)).
Proof.
  intros W Ha Hps Ec Et Hst Hc Hnc Ep Hpr Hid qs1.
  destruct Hc as (Hc & th' & p' & d' & E1 & E2 & E3 & E4 & E5).
  replace th' with th in * by congruence. replace p' with p in * by congruence.
  set (sa := set_st (set_k_threads (<[c := save_context esp ebp eip th]> (k_threads (k_st s))) (k_st s)) s).
  assert (Wa : queues_ok sa qs) by (by eapply queues_ok_write).
  destruct (sched_enqueue_ok c (save_context esp ebp eip th) p (privilege p) qs sa) as (sb & Eb & Xb);
    try done; [by apply lookup_insert_eq|].
  destruct Xb as [B1 B2 B3 B4]. fold qs1 in B1.
  assert (Hall : all_schedulable sb qs1).
  { assert (Hs : forall t, schedulable s t -> schedulable sb t).
    { intros t Ht. eapply (schedulable_same sa); [exact B2 | by rewrite B3 | by rewrite B3|].
      by apply (schedulable_update s t c (save_context esp ebp eip)). }
    destruct Ha as [Hi Hq]. split; [rewrite B4; by apply Hs|].
    intros i t Hi' Ht. unfold qs1, upd in Ht. destruct (Z.eqb_spec i (privilege p)) as [->|]; [|by eapply Hs, Hq].
    apply elem_of_app in Ht as [Ht| ->%list_elem_of_singleton]; [by eapply Hs, Hq|].
    apply Hs. split; [done|]. by exists th, p, d'. }
  assert (Hidle : idle_thread (k_g sb) = idle_thread (k_g s)) by (by rewrite B4).
  destruct (switch_next qs1 sb _ B1 eq_refl (pick_schedulable _ _ Hall)) as (s' & E & N1 & N2 & N3 & N4 & _).
  apply wp_run. unfold tasking_switch. ksteps. rewrite (proj2 (Z.eqb_neq _ _) Hps). ksteps.
  rewrite Ec, (proj2 (Z.eqb_neq _ _) Hc). ksteps. unfold when. cbn [t_state save_context set_t_esp set_t_ebp set_t_eip]. rewrite Hst.
  cbn [Z.eqb TS_RUNNING]. eapply wp_eq; [exact Eb|]. eapply wp_eq; [exact E|].
  rewrite N1. rewrite <- Hidle. split; [done|]. split; [done|]. split; [done|].
  apply (same_threads_some (k_threads (k_st sa))); [done | apply lookup_insert_eq].
Qed.

Lemma tasking_switch_preempts_witness :
  exists s', tasking_switch 7 8 9 sample_tasks = Ok (tt, s') /\
    current_thread (k_g s') = 20 /\
    queues_ok s' (rest (upd sample_tasks_queues 2 [20; 10])) /\ runs_in s' /\
    exists v, k_threads (k_st s') !! 10 = Some (set_queue_next v (Thread 1 7 8 9 0 1000 0x8000 0 20 0)).
Proof.
  apply (tasking_switch_preempts sample_tasks 10 (Thread 1 0 0 0 0 1000 0x8000 0 20 0)
    (Process 1 0 2 2 0 50 0 0 0 0 0 10) sample_tasks_queues 7 8 9); try done.
  - apply sample_tasks_ok.
  - apply sample_all_schedulable.
  - apply sample_schedulable. auto.
  - intros i _. unfold sample_tasks_queues. destruct (i =? 2); set_solver.
Defined.

(** [thread_goInactive]: the thread leaves the processor, in no queue,
    waiting to be woken up, with its context saved; the next thread runs. *)
Theorem thread_goInactive_blocks s c th qs esp ebp eip :
  queues_ok s qs -> all_schedulable s qs -> processes (k_g s) <> 0 -> current_thread (k_g s) = c -> c <> 0 ->
  k_threads (k_st s) !! c = Some th ->
  exists s', thread_goInactive esp ebp eip s = Ok (tt, s') /\
    current_thread (k_g s') = pick qs (idle_thread (k_g s)) /\ queues_ok s' (rest qs) /\ runs_in s' /\
    k_threads (k_st s')
    = <[c := save_context esp ebp eip (set_t_state TS_WAKEWAIT th)]> (k_threads (k_st s)).
Proof.
  intros W Ha Hps Ec Hc Et.
  set (f := fun th => save_context esp ebp eip (set_t_state TS_WAKEWAIT th)).
  set (sa := set_st (set_k_threads (<[c := f th]> (k_threads (k_st s))) (k_st s)) s).
  assert (Wa : queues_ok sa qs) by (by eapply queues_ok_write).
  assert (Hall : all_schedulable sa qs).
  { destruct Ha as [Hi Hq]. split; [|intros i t Hp Hin]; apply (schedulable_update s _ c f); eauto. }
  destruct (switch_next qs sa _ Wa eq_refl (pick_schedulable _ _ Hall)) as (s' & E & N1 & N2 & N3 & N4 & _).
  apply wp_run. unfold thread_goInactive, goInactive_mark, tasking_switch. ksteps. rewrite Ec. ksteps.
  rewrite (proj2 (Z.eqb_neq _ _) Hps). ksteps. rewrite Ec, (proj2 (Z.eqb_neq _ _) Hc). ksteps.
  unfold when. cbn [t_state save_context set_t_state set_t_esp set_t_ebp set_t_eip].
  cbn [Z.eqb TS_RUNNING TS_WAKEWAIT]. apply wp_ret. rewrite insert_insert_eq.
  eapply wp_eq; [exact E|]. by rewrite N1.
Qed.

Lemma thread_goInactive_blocks_witness :
  exists s', thread_goInactive 7 8 9 sample_tasks = Ok (tt, s') /\
    current_thread (k_g s') = 20 /\ queues_ok s' (rest sample_tasks_queues) /\ runs_in s' /\
    k_threads (k_st s')
    = <[10 := Thread 1 7 8 9 2 1000 0x8000 0 20 0]> (k_threads (k_st sample_tasks)).
Proof.
  apply (thread_goInactive_blocks sample_tasks 10 (Thread 1 0 0 0 0 1000 0x8000 0 20 0)
    sample_tasks_queues 7 8 9); try done.
  - apply sample_tasks_ok.
  - apply sample_all_schedulable.
Defined.

(** [process_delete] reads [it->next] from a thread that
    [thread_delete] has just freed: deleting a process that still has a
    thread uses memory after it was freed. *)
Theorem process_delete_use_after_free pr p s s' :
  pr <> 0 -> k_processes (k_st s) !! pr = Some p -> threads p <> 0 ->
  thread_delete (threads p) s = Ok (tt, s') ->
  process_delete pr s = Fault (Dangling (threads p)).
Proof.
  intros Hpr Ep Ht E. pose proof (thread_delete_frees _ _ _ E) as Hf.
  unfold process_delete. apply bind_Fault. unfold delete_threads.
  rewrite (bind_Ok _ _ _ p s) by (by apply load_Ok). rewrite (bind_Ok _ _ _ _ s) by reflexivity.
  cbn [loop Nat.add]. apply bind_Fault. rewrite (proj2 (Z.eqb_neq _ _) Ht).
  rewrite (bind_Ok _ _ _ _ _ E). apply bind_Fault. unfold load.
  rewrite (proj2 (Z.eqb_neq _ _) Ht). cbn. by rewrite Hf.
Qed.

Lemma process_delete_use_after_free_witness : process_delete 1 sample_tasks = Fault (Dangling 10).
Proof.
  destruct (thread_delete 10 sample_tasks) as [[[] s']|] eqn:E.
  - by apply (process_delete_use_after_free 1 (Process 1 0 2 2 0 50 0 0 0 0 0 10) sample_tasks s').
  - vm_compute in E. discriminate.
Defined.

(** C25. When an interrupt fires, every thread that waited for it runs again
    and stands at the end of its level's queue, nobody else changes state,
    and the handler knows whether a switch is due. *)
Theorem irq_wakes_waiters irq (lvl : Z -> Z) l ts s qs :
  irq_waiters s irq l ts -> queues_ok s qs -> NoDup ts ->
  (forall t, t ∈ ts -> waiting s qs t (lvl t)) ->
  exists s', wake_waiters irq s = Ok (negb (length l =? 0)%nat, s') /\
    default 0 (irq_wakeup (k_g s') !! irq) = 0 /\
    queues_ok s' (enqueue_all qs ((fun t => (t, lvl t)) <$> ts)) /\
    (forall t, t ∈ ts -> exists th, k_threads (k_st s') !! t = Some th /\ t_state th = TS_RUNNING) /\
    (forall t th, t ∉ ts -> k_threads (k_st s) !! t = Some th ->
       exists th', k_threads (k_st s') !! t = Some th' /\ t_state th' = t_state th).
Proof.
  intros Wi Wq Hnd Hw. destruct (waiters_loop irq lvl (1 + size (k_waiters (k_st s))) l ts s qs false) as (s' & E & X);
    try done; [|by exists s'].
  destruct Wi as [Hl _]. pose proof (linked_length _ _ _ Hl). lia.
Qed.

(** The sample with thread 10 waiting for IRQ 1. *)
Definition sample_irq : kstate :=
  KState
    (set_k_waiters {[ 60 := IrqWaiter 10 0 ]}
      (set_k_threads (<[10 := Thread 1 0 0 0 2 1000 0x8000 0 20 0]> (k_threads (k_st sample_tasks))) (k_st sample_tasks)))
    (set_irq_wakeup {[ 1 := 60 ]} (k_g sample_tasks)).

Lemma irq_wakes_waiters_witness :
  exists s', wake_waiters 1 sample_irq = Ok (true, s') /\
    default 0 (irq_wakeup (k_g s') !! 1) = 0 /\
    queues_ok s' (enqueue_all sample_tasks_queues [(10, 2)]) /\
    (forall t, t ∈ [10] -> exists th, k_threads (k_st s') !! t = Some th /\ t_state th = TS_RUNNING) /\
    (forall t th, t ∉ [10] -> k_threads (k_st sample_irq) !! t = Some th ->
       exists th', k_threads (k_st s') !! t = Some th' /\ t_state th' = t_state th).
Proof.
  apply (irq_wakes_waiters 1 (fun _ => 2) [60] [10] sample_irq sample_tasks_queues).
  - split; [|done]. by repeat (eexists || split).
  - destruct sample_tasks_ok as [W1 W2 W3]. split; [|done..].
    intros q Hq. apply (lseg_insert_same (H := queue_link) _ _ _ _ 10 (Thread 1 0 0 0 0 1000 0x8000 0 20 0)); [done | done | by apply W1].
  - apply NoDup_singleton.
  - intros t ->%list_elem_of_singleton. split; try done.
    + intros i _. unfold sample_tasks_queues. destruct (i =? 2); set_solver.
    + by do 2 eexists.
Defined.

(** What [process_new] leaves: the frame [f] is its directory's, [o] its own
    object, [m] the manager's object, 0 before there is one. *)
Record process_made (s s' : kstate) (p : ptr) (par uid priv f : Z) (b : bitset) (m o : ptr) (d : page_directory)
    (pr : process) : Prop := {
  pm_process : pr = Process (nextpid (k_g s)) uid priv 0 par (fresh_ptr (k_pagedirs (k_st s))) 0xDF000000
    (objects pr) (next_objdesc pr) 0 (processes (k_g s)) (k_junk (k_g s));
  pm_descs : exists l, desc_list s' p pr l (if m =? 0 then [(0, o)] else [(1, m); (0, o)]);
  pm_objects : k_objects (k_st s') = (if m =? 0 then <[o := Object p 1 0 0 0]> (k_objects (k_st s))
    else alter (fun mo => set_descriptors (descriptors mo + 1) mo) m (<[o := Object p 1 0 0 0]> (k_objects (k_st s))));
  pm_processes q : q <> p -> k_processes (k_st s') !! q = k_processes (k_st s) !! q;
  pm_dirs : k_pagedirs (k_st s')
    = <[p_pagedir pr := PageDirectory (kernel_half (tables d)) (kernel_half (tablesPhysical d)) (w32 (f * 0x1000)) 0]>
        (k_pagedirs (k_st s));
  pm_stores : k_st s' = set_k_pagedirs (k_pagedirs (k_st s')) (set_k_descs (k_descs (k_st s')) (set_k_objects (k_objects (k_st s'))
    (set_k_processes (k_processes (k_st s')) (k_st s))));
  pm_globals : k_g s' = set_processes p (set_manager_object (if m =? 0 then o else m)
    (set_frames b (set_nextpid (w32 (nextpid (k_g s) + 1)) (k_g s))))
}.

Lemma process_new_ok par uid priv s f b kd d m :
  frame_alloc (frames (k_g s)) = Ok (f, b) -> kernel_pagedir (k_g s) = kd -> kd <> 0 ->
  k_pagedirs (k_st s) !! kd = Some d -> manager_object (k_g s) = m -> m = 0 \/ is_Some (k_objects (k_st s) !! m) ->
  let p := fresh_ptr (k_processes (k_st s)) in
  exists s' pr, process_new par uid priv s = Ok (p, s') /\
    process_made s s' p par uid priv f b m (fresh_ptr (k_objects (k_st s))) d pr.
Proof.
  intros Ef Ekd Hkd Ed Em Hmo p.
  set (pd := fresh_ptr (k_pagedirs (k_st s))). set (o := fresh_ptr (k_objects (k_st s))).
  pose proof (fresh_ptr_pos (k_processes (k_st s))). pose proof (fresh_ptr_pos (k_objects (k_st s))) as Ho.
  pose proof (fresh_ptr_pos (k_pagedirs (k_st s))). assert (Hpk : kd <> pd) by (by eapply fresh_ptr_ne).
  set (pd0 := PageDirectory (kernel_half (tables d)) (kernel_half (tablesPhysical d)) (w32 (f * 0x1000)) 0).
  set (pr0 := Process (nextpid (k_g s)) uid priv 0 par pd 0xDF000000 0 0 0 (processes (k_g s)) (k_junk (k_g s))).
  set (sa := KState
    (set_k_objects (<[o := Object p 0 0 0 0]> (k_objects (k_st s)))
      (set_k_processes (<[p := pr0]> (k_processes (k_st s)))
        (set_k_pagedirs (<[pd := pd0]> (k_pagedirs (k_st s))) (k_st s))))
    (set_manager_object (if m =? 0 then o else m) (set_frames b (set_nextpid (w32 (nextpid (k_g s) + 1)) (k_g s))))).
  assert (Wa : desc_list sa p pr0 [] []).
  { split; try done; [unfold p; lia | apply lookup_insert_eq | constructor | constructor | set_solver]. }
  destruct (objdesc_add_ok sa p pr0 [] [] o (Object p 0 0 0 0) Wa) as (sb & Eb & Xb);
    [unfold o; lia | apply lookup_insert_eq | set_solver | done |].
  destruct Xb as [(prb & lb & Wb) Bo Bp Bpr Bpd Bst Bg].
  destruct (Bpr pr0) as (h & Epb); [apply lookup_insert_eq|]. change (next_objdesc pr0 + 1) with 1 in Epb.
  assert (prb = set_next_objdesc 1 (set_objects h pr0)) as -> by (pose proof (dl_process _ _ _ _ _ Wb); congruence).
  change (next_objdesc pr0) with 0 in Wb.
  assert (Hrun : forall s' r, objdesc_add p (if m =? 0 then o else m) sb = Ok (r, s') -> k_g s' = k_g sb ->
    process_new par uid priv s = Ok (p, KState (k_st s') (set_processes p (k_g s')))).
  { intros s' r E Eg. apply wp_eq_Ok. unfold process_new, pagedir_new, obj_new. ksteps.
    eapply wp_lift_frames; [exact Ef|]. ksteps.
    cbn [kernel_pagedir set_frames set_nextpid manager_object processes]. rewrite Ekd. fold pd. ksteps.
    cbn [kernel_pagedir set_frames set_nextpid manager_object processes]. fold p o. rewrite Em.
    rewrite insert_insert_eq. apply (wp_eq _ _ tt sa).
    { unfold sa. destruct (m =? 0); [done|]. cbn. rewrite <- Em. by destruct (k_g s). }
    ksteps. eapply wp_eq; [exact Eb|]. ksteps.
    replace (manager_object (k_g sb)) with (if m =? 0 then o else m) by (by rewrite Bg). by eapply wp_eq. }
  destruct (Z.eqb_spec m 0) as [Hm|Hm].
  - exists (KState (k_st sb) (set_processes p (k_g sb))), (set_next_objdesc 1 (set_objects h pr0)).
    assert (Eg : objdesc_add p o sb = Ok (-1, sb)).
    { unfold objdesc_add. rewrite (bind_Ok _ _ _ _ _ (objdesc_get_ok _ _ _ _ _ o Wb)).
      rewrite (id_of_in _ 0 o); [done | repeat constructor; set_solver | by left]. }
    split; [by apply (Hrun sb (-1))|]. split.
    + done.
    + exists lb. rewrite (proj2 (Z.eqb_eq _ _) Hm). by destruct Wb; split.
    + rewrite (proj2 (Z.eqb_eq _ _) Hm). cbn. rewrite Bo. cbn. by rewrite insert_insert_eq.
    + intros q Hq. cbn. rewrite Bp by done. cbn. by rewrite lookup_insert_ne.
    + cbn. rewrite Bpd. done.
    + cbn. by rewrite Bst.
    + cbn. rewrite Bg. cbn. by rewrite (proj2 (Z.eqb_eq _ _) Hm).
  - destruct Hmo as [?|(mo & Emo)]; [done|]. assert (Hmo : m <> o) by (by eapply fresh_ptr_ne).
    destruct (objdesc_add_ok sb p _ lb _ m mo Wb Hm) as (sc & Ec & Xc).
    { rewrite Bo. cbn. by rewrite !lookup_insert_ne. } { set_solver. } { done. }
    destruct Xc as [(prc & lc & Wc) Co Cp Cpr Cpd Cst Cg]. destruct (Cpr _ Epb) as (h' & Epc).
    cbn [next_objdesc set_next_objdesc] in Epc, Wc. change (1 + 1) with 2 in Epc.
    exists (KState (k_st sc) (set_processes p (k_g sc))), prc.
    assert (prc = set_next_objdesc 2 (set_objects h' (set_next_objdesc 1 (set_objects h pr0)))) as ->
      by (pose proof (dl_process _ _ _ _ _ Wc); congruence).
    split; [by eapply Hrun|]. split.
    + done.
    + exists lc. rewrite (proj2 (Z.eqb_neq _ _) Hm). by destruct Wc; split.
    + rewrite (proj2 (Z.eqb_neq _ _) Hm). cbn. rewrite Co, Bo. cbn. rewrite insert_insert_eq. apply map_eq. intros x. rewrite lookup_alter, lookup_insert.
      destruct (decide (m = x)) as [<-|]; [|done]. by rewrite lookup_insert_ne, Emo.
    + intros q Hq. cbn. rewrite Cp, Bp by done. cbn. by rewrite lookup_insert_ne.
    + cbn. rewrite Cpd, Bpd. done.
    + cbn. by rewrite Cst, Bst.
    + cbn. rewrite Cg, Bg. cbn. by rewrite (proj2 (Z.eqb_neq _ _) Hm).
Qed.

(** C32. A new process: a fresh pid, an address space that shares the kernel's
    half, an object of its own under descriptor 0 and the manager's object
    under descriptor 1; it is the first of the list, and the other
    processes are untouched. *)
Theorem process_new_descriptors par uid priv s f b kd d m mo :
  frame_alloc (frames (k_g s)) = Ok (f, b) -> kernel_pagedir (k_g s) = kd -> kd <> 0 ->
  k_pagedirs (k_st s) !! kd = Some d -> manager_object (k_g s) = m -> m <> 0 ->
  k_objects (k_st s) !! m = Some mo ->
  exists s' p pr l o d', process_new par uid priv s = Ok (p, s') /\
    k_processes (k_st s) !! p = None /\ k_objects (k_st s) !! o = None /\
    desc_list s' p pr l [(1, m); (0, o)] /\
    pid pr = nextpid (k_g s) /\ privilege pr = priv /\ parent pr = par /\ p_next pr = processes (k_g s) /\
    processes (k_g s') = p /\ nextpid (k_g s') = w32 (nextpid (k_g s) + 1) /\
    k_objects (k_st s') = <[m := set_descriptors (descriptors mo + 1) mo]>
                            (<[o := Object p 1 0 0 0]> (k_objects (k_st s))) /\
    k_pagedirs (k_st s') !! p_pagedir pr = Some d' /\
    tables d' = kernel_half (tables d) /\ physicalAddr d' = w32 (f * 0x1000) /\
    (forall q, q <> p -> k_processes (k_st s') !! q = k_processes (k_st s) !! q).
Proof.
  intros Ef Ekd Hkd Ed Em Hm Emo.
  destruct (process_new_ok par uid priv s f b kd d m) as (s' & pr & E & [X1 (l & X2) X3 X4 X5 _ X6]); try done;
    [by right; exists mo|].
  rewrite (proj2 (Z.eqb_neq _ _) Hm) in *. set (p := fresh_ptr (k_processes (k_st s))) in *.
  set (o := fresh_ptr (k_objects (k_st s))) in *. assert (Hmo : m <> o) by (by eapply fresh_ptr_ne).
  eexists s', p, pr, l, o, _. split; [exact E|]. split; [apply fresh_ptr_None|]. split; [apply fresh_ptr_None|].
  split; [done|]. do 6 (split; [first [by rewrite X1 | by rewrite X6]|]). split; [|split; [rewrite X5; apply lookup_insert_eq | done]].
  rewrite X3. apply map_eq. intros x. rewrite lookup_alter, !lookup_insert.
  destruct (decide (m = x)) as [<-|]; [|done]. by rewrite decide_False, Emo.
Qed.

(** The sample with a manager (object 7 of process 1). *)
Definition sample_manager : kstate :=
  KState (set_k_objects {[ 7 := Object 1 1 0 0 0 ]} (k_st sample_tasks))
    (set_kernel_pagedir 51 (set_manager_object 7 (k_g sample_tasks))).

Lemma process_new_descriptors_witness :
  exists s' p pr l o d', process_new 1 0 3 sample_manager = Ok (p, s') /\
    k_processes (k_st sample_manager) !! p = None /\ k_objects (k_st sample_manager) !! o = None /\
    desc_list s' p pr l [(1, 7); (0, o)] /\
    pid pr = 1 /\ privilege pr = 3 /\ parent pr = 1 /\ p_next pr = 1 /\
    processes (k_g s') = p /\ nextpid (k_g s') = 2 /\
    k_objects (k_st s') = <[7 := Object 1 2 0 0 0]> (<[o := Object p 1 0 0 0]> (k_objects (k_st sample_manager))) /\
    k_pagedirs (k_st s') !! p_pagedir pr = Some d' /\
    tables d' = kernel_half ∅ /\ physicalAddr d' = 0 /\
    (forall q, q <> p -> k_processes (k_st s') !! q = k_processes (k_st sample_manager) !! q).
Proof.
  by apply (process_new_descriptors 1 0 3 sample_manager 0 (Bitset [1] 32) 51 (PageDirectory ∅ ∅ 0 0) 7 (Object 1 1 0 0 0)).
Defined.

(** A thread that exits while its process has others: it leaves the
    process' list and count, its kernel stack and itself are freed, and no
    thread is current. *)
Theorem thread_exit_removes s th t pr p l1 l2 :
  current_thread (k_g s) = th -> th <> 0 -> k_threads (k_st s) !! th = Some t ->
  t_process t = pr -> pr <> 0 -> k_processes (k_st s) !! pr = Some p ->
  linked (k_threads (k_st s)) (threads p) (l1 ++ th :: l2) -> 1 < thread_count p < W32 ->
  userStack_seg t = 0 -> 0 <= if_locks (k_g s) < 0xFFFFFFFF ->
  exists s' p', thread_exit s = Ok (tt, s') /\
    k_processes (k_st s') !! pr = Some p' /\ linked (k_threads (k_st s')) (threads p') (l1 ++ l2) /\
    thread_count p' = thread_count p - 1 /\ k_threads (k_st s') !! th = None /\
    k_stacks (k_st s') = delete (kernelStack_addr t) (k_stacks (k_st s)) /\
    current_thread (k_g s') = 0 /\ if_locks (k_g s') = if_locks (k_g s).
Proof.
  intros Ec Hth Et Epr Hpr Ep Hl Hn Hu Hif.
  set (sa := KState (k_st s) (set_if_locks (w32 (if_locks (k_g s) + 1)) (k_g s))).
  destruct (unlink_thread_ok sa th t pr p l1 l2) as (sb & h & Eb & Bg & Bst & Bt & Bl & _); try done.
  assert (Epb : k_processes (k_st sb) !! pr = Some (set_threads h p)) by (rewrite Bst; apply lookup_insert_eq).
  assert (Ekb : k_stacks (k_st sb) = k_stacks (k_st s)) by (by rewrite Bst).
  cut (wp thread_exit s (fun _ s' =>
    k_processes (k_st s') !! pr = Some (set_thread_count (w32 (thread_count p - 1)) (set_threads h p)) /\
    k_threads (k_st s') = delete th (k_threads (k_st sb)) /\
    k_stacks (k_st s') = delete (kernelStack_addr t) (k_stacks (k_st s)) /\
    current_thread (k_g s') = 0 /\ if_locks (k_g s') = if_locks (k_g s))).
  { intros ([] & s' & E & X1 & X2 & X3 & X4 & X5)%wp_Ok. exists s'. eexists. split; [done|]. split; [exact X1|].
    rewrite X2. split; [done|]. split; [by apply w32_small; unfold u32; lia|].
    split; [apply lookup_delete_eq | done]. }
  unfold thread_exit, thread_exit_stackJmp, cli, thread_exit2. ksteps. fold sa.
  cbn [current_thread set_if_locks]. rewrite Ec, (proj2 (Z.eqb_neq _ _) Hth). ksteps. rewrite Epr, (proj2 (Z.eqb_neq _ _) Hpr). ksteps.
  rewrite (proj2 (Z.ltb_lt _ _)) by lia. cbn [Z.eqb EX_TH_NORMAL Pos.eqb orb andb].
  unfold thread_delete. apply wp_bind. eapply wp_eq; [exact Eb|]. ksteps.
  replace (current_thread (k_g sb)) with th by (by rewrite Bg). rewrite Z.eqb_refl. ksteps. rewrite Epr. ksteps.
  rewrite Hu. cbn [Z.eqb]. ksteps. unfold sti. ksteps. rewrite Bg, Ekb.
  cbn [if_locks set_current_thread set_if_locks k_g sa]. rewrite (w32_small (if_locks _ + 1)) by (unfold u32; lia).
  rewrite (proj2 (Z.ltb_lt _ _)) by lia. cbn [if_locks current_thread set_current_thread set_if_locks].
  split; [by rewrite lookup_insert_eq|]. do 3 (split; [done|]). lia.
Qed.

Lemma thread_exit_removes_witness :
  exists s' p', thread_exit sample_tasks = Ok (tt, s') /\
    k_processes (k_st s') !! 1 = Some p' /\ linked (k_threads (k_st s')) (threads p') [20] /\
    thread_count p' = 1 /\ k_threads (k_st s') !! 10 = None /\
    k_stacks (k_st s') = delete 1000 (k_stacks (k_st sample_tasks)) /\
    current_thread (k_g s') = 0 /\ if_locks (k_g s') = 1.
Proof.
  apply (thread_exit_removes sample_tasks 10 (Thread 1 0 0 0 0 1000 0x8000 0 20 0) 1
    (Process 1 0 2 2 0 50 0 0 0 0 0 10) [] [20]); try done.
  by repeat (eexists || split).
Defined.
