(* ===== verification/System.v ===== *)
(** * The scheduler as a whole

    What [Sched], [Timer] and [Tasking] prove of one function at a time,
    put together: the events that move threads -- a task switch, an
    interrupt, a thread that sleeps, waits for an interrupt or blocks in a
    request, a blocked thread that is answered -- as the steps of a
    transition system on the kernel's state.  Every event the kernel allows
    runs to its end, and no sequence of them loses a thread. *)

From S2P Require Import Prelude Memory Bitset Kernel Paging Segments Sched Timer Objects Tasking.

(** ** Events *)

(** The registers an event finds: esp, ebp, eip. *)
Definition context : Type := Z * Z * Z.

Inductive event :=
| Switch (c : context)
| Irq (n : Z) (c : context)
| SleepFor (msecs : Z) (c : context)
| WaitIrq (n : Z) (c : context)
| Block (c : context)
| Answer (t : ptr).

Definition switch (c : context) : M kstate unit := let '(esp, ebp, eip) := c in tasking_switch esp ebp eip.

(** Each event is the whole kernel function: [tasking_switch],
    [idt_irqHandler], [thread_sleep], [idt_waitIrq], [thread_goInactive]
    (called by a request that waits) and [thread_wakeUp]. *)
Definition run_event (e : event) : M kstate unit :=
  match e with
  | Switch c => switch c
  | Irq n (esp, ebp, eip) => idt_irqHandler n esp ebp eip
  | SleepFor ms c => b ← thread_sleep ms; when b (switch c)
  | WaitIrq n c => b ← idt_waitIrq n; when b (switch c)
  | Block (esp, ebp, eip) => thread_goInactive esp ebp eip
  | Answer t => thread_wakeUp t
  end.

(** A node of the sleeping list, or of the list of an interrupt, is for
    [t]. *)
Definition asleep (s : kstate) (t : ptr) : Prop :=
  exists x a, k_sleepers (k_st s) !! x = Some a /\ sl_thread a = t.
Definition awaits (s : kstate) (t : ptr) : Prop :=
  exists x a, k_waiters (k_st s) !! x = Some a /\ iw_thread a = t.

(** When an event can happen.  There are sixteen interrupt lines.  The idle
    thread only halts ([task_idle]).  A request answers a thread that blocked
    in a request, not one that sleeps or waits for an interrupt. *)
Definition allowed (s : kstate) (e : event) : Prop :=
  let thread := current_thread (k_g s) <> 0 /\ current_thread (k_g s) <> idle_thread (k_g s) in
  match e with
  | Switch _ => True
  | Irq n _ => 0 <= n < 16
  | SleepFor _ _ | WaitIrq _ _ | Block _ => thread
  | Answer t => is_Some (k_threads (k_st s) !! t) /\ ~ asleep s t /\ ~ awaits s t
  end.

Inductive step : kstate -> kstate -> Prop :=
| step_event s e s' : allowed s e -> run_event e s = Ok (tt, s') -> step s s'.

Inductive reachable (s0 : kstate) : kstate -> Prop :=
| reach_here : reachable s0 s0
| reach_step s s' : reachable s0 s -> step s s' -> reachable s0 s'.

(** ** The invariant *)

(** The process and the state of a thread. *)
Definition tv (s : kstate) (t : ptr) : option (ptr * Z) :=
  (fun th => (t_process th, t_state th)) <$> k_threads (k_st s) !! t.

(** The level of the threads of a process. *)
Definition prio (s : kstate) (pr : ptr) : Z :=
  match k_processes (k_st s) !! pr with Some p => privilege p | None => 0 end.

Definition sound_thread (s : kstate) (t pr : ptr) : Prop :=
  t <> 0 /\ pr <> 0 /\ exists p d, k_processes (k_st s) !! pr = Some p /\ is_priority (privilege p) /\
    p_pagedir p <> 0 /\ k_pagedirs (k_st s) !! p_pagedir p = Some d.

(** Threads and queues: a queued thread can run, is in the queue of its
    level and is not the current one; and every thread that can run is the
    current one, the idle one, or in a queue. *)
Record core (s : kstate) (qs : Z -> list Z) : Prop := {
  co_queues : queues_ok s qs;
  co_procs : processes (k_g s) <> 0;
  co_threads t pr st : tv s t = Some (pr, st) -> sound_thread s t pr;
  co_idle : exists pr, tv s (idle_thread (k_g s)) = Some (pr, TS_RUNNING);
  co_queued q t : is_priority q -> t ∈ qs q -> t <> idle_thread (k_g s) /\ t <> current_thread (k_g s) /\
    exists pr, tv s t = Some (pr, TS_RUNNING) /\ prio s pr = q;
  co_running t pr : tv s t = Some (pr, TS_RUNNING) ->
    t = current_thread (k_g s) \/ t = idle_thread (k_g s) \/ t ∈ qs (prio s pr);
  co_cur : current_thread (k_g s) = 0 \/ is_Some (tv s (current_thread (k_g s)))
}.

(** What no event changes. *)
Record fixed (s s' : kstate) : Prop := {
  fx_procs : k_processes (k_st s') = k_processes (k_st s);
  fx_dirs : k_pagedirs (k_st s') = k_pagedirs (k_st s);
  fx_idle : idle_thread (k_g s') = idle_thread (k_g s);
  fx_list : processes (k_g s') = processes (k_g s);
  fx_freq : frequency (k_g s') = frequency (k_g s)
}.

(** ** Lemmas: the queues *)

Lemma fixed_refl s : fixed s s.
Proof. by split. Qed.

Lemma fixed_trans s1 s2 s3 : fixed s1 s2 -> fixed s2 s3 -> fixed s1 s3.
Proof. intros [A1 A2 A3 A4 A5] [B1 B2 B3 B4 B5]. split; congruence. Qed.

Lemma fixed_queues s s' T a b : k_st s' = set_k_threads T (k_st s) ->
  k_g s' = set_queue a (set_last b (k_g s)) -> fixed s s'.
Proof. destruct s, s'. cbn. intros -> ->. by split. Qed.

Lemma sound_fixed s s' t pr : fixed s s' -> sound_thread s t pr -> sound_thread s' t pr.
Proof. intros [A1 A2 _ _ _]. unfold sound_thread. by rewrite A1, A2. Qed.

Lemma prio_fixed s s' pr : fixed s s' -> prio s' pr = prio s pr.
Proof. intros F. unfold prio. by rewrite (fx_procs _ _ F). Qed.

Lemma sound_prio s t pr : sound_thread s t pr -> is_priority (prio s pr).
Proof. intros (_ & _ & p & d & E & Hp & _). unfold prio. by rewrite E. Qed.

Lemma tv_same s s' : same_threads (k_threads (k_st s)) (k_threads (k_st s')) -> forall t, tv s' t = tv s t.
Proof.
  intros H t. specialize (H t). unfold tv.
  destruct (k_threads (k_st s') !! t) as [a|], (k_threads (k_st s) !! t) as [b|]; cbn in *; try done.
  destruct a, b. unfold set_queue_next in H; cbn in H. cbn. by injection H as -> -> -> -> -> -> -> -> ->.
Qed.

Lemma sound_schedulable s t pr st : tv s t = Some (pr, st) -> sound_thread s t pr -> schedulable s t.
Proof.
  intros E (Ht & Hpr & p & d & Ep & _ & Hd & Ed). unfold tv in E.
  destruct (k_threads (k_st s) !! t) as [th|] eqn:Eth; [|done]. injection E as <- <-.
  split; [done|]. by exists th, p, d.
Qed.

Lemma core_schedulable s qs : core s qs -> all_schedulable s qs.
Proof.
  intros W. split.
  - destruct (co_idle _ _ W) as (pr & E). eapply sound_schedulable; [exact E | by eapply co_threads].
  - intros i t Hi Ht. destruct (co_queued _ _ W i t Hi Ht) as (_ & _ & pr & E & _).
    eapply sound_schedulable; [exact E | by eapply co_threads].
Qed.

Lemma level_priority qs : is_priority (level qs).
Proof. unfold level, is_priority. destruct (qs 0), (qs 1), (qs 2); lia. Qed.

(** A queued thread is the one picked, or is still queued; and the other way
    round. *)
Lemma rest_in qs q t idle : is_priority q -> t ∈ qs q -> t = pick qs idle \/ t ∈ rest qs q.
Proof.
  intros Hq Ht. unfold pick, rest, upd. destruct (Z.eqb_spec q (level qs)) as [->|]; [|by right].
  destruct (qs (level qs)) as [|x l]; [by apply elem_of_nil in Ht|].
  apply elem_of_cons in Ht as [->|]; [by left | by right].
Qed.

Lemma in_rest s qs q t idle : queues_ok s qs -> is_priority q -> ~ (idle ∈ qs q) -> t ∈ rest qs q ->
  t ∈ qs q /\ t <> pick qs idle.
Proof.
  intros W Hq Hi Ht. pose proof (level_priority qs) as Hl. unfold rest, upd in Ht.
  assert (Hp : pick qs idle = idle \/ exists l, qs (level qs) = pick qs idle :: l).
  { unfold pick. destruct (qs (level qs)) as [|x l]; [by left | right; by exists l]. }
  destruct (Z.eqb_spec q (level qs)) as [->|Hne].
  - destruct Hp as [->|(l & El)].
    + destruct (qs (level qs)) as [|x l] eqn:E; [by apply elem_of_nil in Ht|]. cbn in Ht.
      split; [by right|]. intros ->. apply Hi. by right.
    + rewrite El in *. cbn in Ht. split; [by right|]. intros ->.
      pose proof (qo_linked _ _ W _ Hl) as Hk. rewrite El in Hk.
      by apply (linked_NoDup (H := queue_link)), NoDup_cons in Hk as [? _].
  - split; [done|]. intros ->. destruct Hp as [E|(l & El)]; [by rewrite E in Ht|].
    apply (qo_disjoint _ _ W q (level qs) _ Hq Hl Hne Ht). rewrite El. by left.
Qed.

(** ** Lemmas: the task switch *)

(** What a task switch leaves, besides the invariant. *)
Record switched (s s' : kstate) : Prop := {
  sw_fixed : fixed s s';
  sw_tv t : tv s' t = tv s t;
  sw_stores : k_st s' = set_k_threads (k_threads (k_st s')) (k_st s);
  sw_sleep : sleeping_threads (k_g s') = sleeping_threads (k_g s);
  sw_irq : irq_wakeup (k_g s') = irq_wakeup (k_g s);
  sw_current : current_thread (k_g s') <> 0 /\ exists pr, tv s' (current_thread (k_g s')) = Some (pr, TS_RUNNING);
  sw_runs : runs_in s'
}.

(** The first half of [tasking_switch]: the current thread [c] is saved, and
    queued if it can run. *)
Definition leave (c esp ebp eip : Z) : M kstate unit :=
  if c =? 0 then mret tt
  else
    update c (save_context esp ebp eip);;
    t ← load (A := thread) c;
    when (t_state t =? TS_RUNNING) (sched_enqueue c).

(** The queues after [leave]. *)
Definition left (s : kstate) (qs qs1 : Z -> list Z) : Prop :=
  forall q t, is_priority q -> (t ∈ qs1 q <->
    t ∈ qs q \/ (t = current_thread (k_g s) /\ t <> idle_thread (k_g s) /\
                 exists pr, tv s t = Some (pr, TS_RUNNING) /\ prio s pr = q)).

Lemma tv_write s t f th : k_threads (k_st s) !! t = Some th -> t_process (f th) = t_process th ->
  t_state (f th) = t_state th ->
  forall x, tv (set_st (set_k_threads (<[t := f th]> (k_threads (k_st s))) (k_st s)) s) x = tv s x.
Proof.
  intros E E1 E2 x. unfold tv. ksimp. destruct (decide (x = t)) as [->|].
  - rewrite lookup_insert_eq, E. cbn. by rewrite E1, E2.
  - by rewrite lookup_insert_ne.
Qed.

Lemma leave_ok s qs esp ebp eip : core s qs ->
  exists s1 qs1, leave (current_thread (k_g s)) esp ebp eip s = Ok (tt, s1) /\
    queues_ok s1 qs1 /\ left s qs qs1 /\ (forall t, tv s1 t = tv s t) /\
    k_st s1 = set_k_threads (k_threads (k_st s1)) (k_st s) /\
    k_g s1 = set_queue (queue (k_g s1)) (set_last (last (k_g s1)) (k_g s)).
Proof.
  intros W. set (c := current_thread (k_g s)). unfold leave.
  destruct (Z.eqb_spec c 0) as [Hc|Hc].
  { exists s, qs. split; [done|]. split; [apply W|]. split; [|split; [done|]; split; [by destruct s as [[] ?] | by destruct s as [? []]]].
    intros q t Hq. split; [by left|]. intros [?|(Et & _ & pr & E & _)]; [done|].
    destruct (co_threads _ _ W _ _ _ E) as [? _]. unfold c in *. congruence. }
  destruct (co_cur _ _ W) as [?|[v Ev]]; [done|]. fold c in Ev.
  unfold tv in Ev. destruct (k_threads (k_st s) !! c) as [th|] eqn:Eth; [|done]. clear Ev v.
  set (sa := set_st (set_k_threads (<[c := save_context esp ebp eip th]> (k_threads (k_st s))) (k_st s)) s).
  assert (Wa : queues_ok sa qs) by (eapply queues_ok_write; [apply W | done | done]).
  assert (Ta : forall x, tv sa x = tv s x) by by apply tv_write.
  assert (Ec : tv s c = Some (t_process th, t_state th)) by (unfold tv; by rewrite Eth).
  destruct (co_threads _ _ W _ _ _ Ec) as (_ & Hpr & p & d & Ep & Hpri & _).
  destruct (decide (t_state th = TS_RUNNING /\ c <> idle_thread (k_g s))) as [[Hst Hid]|Hno].
  - destruct (sched_enqueue_ok c (save_context esp ebp eip th) p (privilege p) qs sa) as (s1 & E & [B1 B2 B3 B4]);
      try done; [apply lookup_insert_eq | by intros i Hi Hin; destruct (co_queued _ _ W i c Hi Hin) as (_ & ? & _) |].
    exists s1, (upd qs (privilege p) (qs (privilege p) ++ [c])). split; [|split; [done|split; [|split; [|by split; [rewrite B3|]]]]].
    + apply wp_eq_Ok. ksteps. cbn [t_state save_context set_t_esp set_t_ebp set_t_eip]. rewrite Hst.
      cbn [Z.eqb TS_RUNNING when]. by eapply wp_eq.
    + intros q t Hq. unfold upd. fold c. assert (Epr : prio s (t_process th) = privilege p) by (unfold prio; by rewrite Ep).
      destruct (Z.eqb_spec q (privilege p)) as [->|Hne].
      * rewrite elem_of_app, list_elem_of_singleton. split; [|intros [?|(? & _)]; [by left | by right]].
        intros [?|Et]; [by left|]. right. split; [done|]. rewrite Et. split; [done|]. exists (t_process th).
        by rewrite Ec, Hst.
      * split; [by left|]. intros [?|(Et & _ & pr & E' & E'')]; [done|]. rewrite Et, Ec in E'.
        injection E' as <- _. congruence.
    + intros t. rewrite <- Ta. by apply tv_same.
  - exists sa, qs. split; [|split; [done|split; [|split; [done|by split; [|destruct s as [? []]]]]]].
    + apply wp_eq_Ok. ksteps. cbn [t_state save_context set_t_esp set_t_ebp set_t_eip].
      destruct (Z.eqb_spec (t_state th) TS_RUNNING) as [Hst|]; cbn [when]; [|by ksteps].
      unfold sched_enqueue. ksteps. rewrite (proj2 (Z.eqb_eq c (idle_thread (k_g s)))); [by ksteps|].
      destruct (decide (c = idle_thread (k_g s))); [done|]. by destruct Hno.
    + intros q t Hq. split; [by left|]. intros [?|(Et & Hid & pr & E' & _)]; [done|].
      fold c in Et. rewrite Et, Ec in E'. injection E' as _ Hst. rewrite Et in Hid. by destruct Hno.
Qed.

Lemma core_switch s qs esp ebp eip : core s qs ->
  exists s' qs', tasking_switch esp ebp eip s = Ok (tt, s') /\ core s' qs' /\ switched s s'.
Proof.
  intros W. destruct (leave_ok s qs esp ebp eip W) as (s1 & qs1 & E1 & W1 & L & T1 & S1 & G1).
  pose proof (fixed_queues _ _ _ _ _ S1 G1) as F1.
  assert (Hidle : idle_thread (k_g s1) = idle_thread (k_g s)) by apply F1.
  assert (Hq1 : forall q t, is_priority q -> t ∈ qs1 q ->
            t <> idle_thread (k_g s) /\ exists pr, tv s t = Some (pr, TS_RUNNING) /\ prio s pr = q).
  { intros q t Hq [Ht|(_ & ? & ?)]%L; [|done|done].
    destruct (co_queued _ _ W q t Hq Ht) as (? & _ & ?). done. }
  assert (Hall : all_schedulable s1 qs1).
  { assert (H : forall t pr st, tv s t = Some (pr, st) -> schedulable s1 t).
    { intros t pr st E. rewrite <- T1 in E. eapply sound_schedulable; [exact E|].
      apply (sound_fixed s); [done|]. rewrite T1 in E. by eapply co_threads. }
    split; [destruct (co_idle _ _ W) as (pr & E); rewrite Hidle; by eapply H|].
    intros i t Hi Ht. destruct (Hq1 i t Hi Ht) as (_ & pr & E & _). by eapply H. }
  destruct (switch_next qs1 s1 _ W1 eq_refl (pick_schedulable _ _ Hall)) as (s' & E & N1 & N2 & N3 & N4 & N5).
  rewrite Hidle in *. set (t := pick qs1 (idle_thread (k_g s))) in *.
  destruct N5 as [N5 (aq & al & pg & e & N6)].
  assert (Tv : forall x, tv s' x = tv s x) by (intros x; rewrite <- T1; unfold tv; by rewrite N1).
  assert (S' : k_st s' = set_k_threads (k_threads (k_st s')) (k_st s)) by (rewrite N1; exact S1).
  assert (F' : fixed s s') by (eapply fixed_trans; [exact F1|]; split; rewrite ?N1, ?N6; reflexivity).
  exists s', (rest qs1). split; [|split].
  - apply wp_eq_Ok. unfold tasking_switch. ksteps. rewrite (proj2 (Z.eqb_neq _ _) (co_procs _ _ W)). ksteps.
    eapply wp_eq; [exact E1|]. by eapply wp_eq.
  - split.
    + done.
    + rewrite (fx_list _ _ F'). apply W.
    + intros x pr st. rewrite Tv. intros Ex. apply (sound_fixed s); [done|]. by eapply co_threads.
    + rewrite (fx_idle _ _ F'), Tv. apply W.
    + intros q x Hq Hx. rewrite (fx_idle _ _ F'), N2, Tv.
      destruct (in_rest s1 qs1 q x (idle_thread (k_g s)) W1 Hq) as (Hx1 & Hne);
        [by intros Hi; destruct (Hq1 _ _ Hq Hi) | done |].
      destruct (Hq1 q x Hq Hx1) as (Hi & pr & Ex & Epr). split; [done|]. split; [done|].
      exists pr. by rewrite (prio_fixed _ _ _ F').
    + intros x pr. rewrite Tv, (fx_idle _ _ F'), N2, (prio_fixed _ _ _ F'). intros Ex.
      destruct (decide (x = idle_thread (k_g s))) as [|Hi]; [by right; left|].
      pose proof (sound_prio _ _ _ (co_threads _ _ W _ _ _ Ex)) as Hp.
      assert (Hx : x ∈ qs1 (prio s pr)).
      { apply L; [done|]. destruct (co_running _ _ W x pr Ex) as [Hc|[?|?]]; [|done|by left].
        right. split; [done|]. split; [done|]. by exists pr. }
      destruct (rest_in qs1 _ x (idle_thread (k_g s)) Hp Hx) as [->|]; [by left | by right; right].
    + right. rewrite N2, Tv. unfold t, pick. destruct (qs1 (level qs1)) as [|x l] eqn:El.
      * destruct (co_idle _ _ W) as (pr & Ei). cbn. by rewrite Ei.
      * destruct (Hq1 (level qs1) x (level_priority qs1)) as (_ & pr & Ex & _); [rewrite El; by left|].
        cbn. by rewrite Ex.
  - assert (Ht : exists pr, tv s t = Some (pr, TS_RUNNING)).
    { unfold t, pick. destruct (qs1 (level qs1)) as [|x l] eqn:El; [apply W|].
      destruct (Hq1 (level qs1) x (level_priority qs1)) as (_ & pr & Ex & _); [rewrite El; by left | by exists pr]. }
    destruct Ht as (pr & Ht).
    split; try done; [by rewrite N6, G1 | by rewrite N6, G1 |].
    rewrite N2. split; [apply (co_threads _ _ W _ _ _ Ht)|]. exists pr. by rewrite Tv.
Qed.

(** ** Lemmas: waking threads *)

Lemma tv_clash s t pr pr' : tv s t = Some (pr, TS_WAKEWAIT) -> tv s t = Some (pr', TS_RUNNING) -> False.
Proof. intros ->. discriminate. Qed.

Lemma core_waiting s qs t pr : core s qs -> tv s t = Some (pr, TS_WAKEWAIT) -> waiting s qs t (prio s pr).
Proof.
  intros W E. destruct (co_threads _ _ W _ _ _ E) as (Ht & Hpr & p & d & Ep & Hp & _). split.
  - done.
  - intros ->. destruct (co_idle _ _ W) as (pr' & E'). by eapply tv_clash.
  - intros i Hi Hin. destruct (co_queued _ _ W i t Hi Hin) as (_ & _ & pr' & E' & _). by eapply tv_clash.
  - unfold prio. by rewrite Ep.
  - unfold tv in E. destruct (k_threads (k_st s) !! t) as [th|] eqn:Eth; [|done]. injection E as <- Est.
    exists th, p. unfold prio. by rewrite Ep.
Qed.

(** What waking [t] leaves: everything as it was, but [t] runs. *)
Record awake (t pr : ptr) (s s' : kstate) : Prop := {
  aw_fixed : fixed s s';
  aw_tv x : tv s' x = if decide (x = t) then Some (pr, TS_RUNNING) else tv s x;
  aw_current : current_thread (k_g s') = current_thread (k_g s)
}.

Lemma core_woken s qs t pr s' : core s qs -> tv s t = Some (pr, TS_WAKEWAIT) -> t <> current_thread (k_g s) ->
  woken t (prio s pr) qs s s' -> core s' (upd qs (prio s pr) (qs (prio s pr) ++ [t])) /\ awake t pr s s'.
Proof.
  intros W E Hc K. destruct (wk_view _ _ _ _ _ K) as (th & Eth & Hsame).
  pose proof (fixed_queues _ _ _ _ _ (wk_stores _ _ _ _ _ K) (wk_globals _ _ _ _ _ K)) as F.
  pose proof (core_waiting s qs t pr W E) as Wt.
  assert (Tv : forall x, tv s' x = if decide (x = t) then Some (pr, TS_RUNNING) else tv s x).
  { intros x. set (sa := set_st (set_k_threads (<[t := set_t_state TS_RUNNING th]> (k_threads (k_st s))) (k_st s)) s).
    rewrite (tv_same sa s' Hsame). unfold tv, sa; ksimp. unfold tv in E. rewrite Eth in E. injection E as <- _.
    destruct (decide (x = t)) as [->|]; [by rewrite lookup_insert_eq | by rewrite lookup_insert_ne]. }
  assert (Ec : current_thread (k_g s') = current_thread (k_g s)) by (by rewrite (wk_globals _ _ _ _ _ K)).
  assert (Hp : is_priority (prio s pr)) by apply Wt.
  split; [|by split]. split.
  - apply K.
  - rewrite (fx_list _ _ F). apply W.
  - intros x pr' st. rewrite Tv. intros Ex. apply (sound_fixed s); [done|].
    destruct (decide (x = t)) as [->|]; [injection Ex as <- <-; by eapply (co_threads _ _ W) | by eapply co_threads].
  - rewrite (fx_idle _ _ F), Tv. rewrite decide_False by (intros Ei; by apply (wt_idle _ _ _ _ Wt)). apply W.
  - intros q x Hq Hx. rewrite (fx_idle _ _ F), Ec, Tv. unfold upd in Hx.
    assert (Hx' : x ∈ qs q \/ (q = prio s pr /\ x = t)).
    { destruct (Z.eqb_spec q (prio s pr)) as [->|]; [|by left].
      apply elem_of_app in Hx as [?| ->%list_elem_of_singleton]; [by left | by right]. }
    destruct Hx' as [Hx'|(-> & ->)].
    + destruct (co_queued _ _ W q x Hq Hx') as (? & ? & pr' & Ex & Epr). split; [done|]. split; [done|].
      rewrite decide_False by (intros ->; by eapply tv_clash). exists pr'. by rewrite (prio_fixed _ _ _ F).
    + split; [apply Wt|]. split; [done|]. rewrite decide_True by done. exists pr. by rewrite (prio_fixed _ _ _ F).
  - intros x pr'. rewrite Tv, (fx_idle _ _ F), Ec, (prio_fixed _ _ _ F). unfold upd.
    destruct (decide (x = t)) as [->|]; intros Ex.
    + injection Ex as <-. right; right. rewrite Z.eqb_refl. apply elem_of_app. right. by left.
    + destruct (co_running _ _ W x pr' Ex) as [?|[?|?]]; [by left | by right; left|]. right; right.
      destruct (Z.eqb_spec (prio s pr') (prio s pr)) as [Eq|]; [|done]. apply elem_of_app. left. by rewrite <- Eq.
  - rewrite Ec, Tv. destruct (co_cur _ _ W) as [?|?]; [by left|]. right. by destruct (decide _).
Qed.

(** [core] looks at threads, queues and a few globals only. *)
Lemma core_frame s s' qs : core s qs -> fixed s s' -> k_threads (k_st s') = k_threads (k_st s) ->
  queue (k_g s') = queue (k_g s) -> last (k_g s') = last (k_g s) ->
  current_thread (k_g s') = current_thread (k_g s) -> core s' qs.
Proof.
  intros W F Et Eq El Ec. assert (Tv : forall x, tv s' x = tv s x) by (intros x; unfold tv; by rewrite Et).
  split.
  - by apply (queues_ok_frame s); [apply W|..].
  - rewrite (fx_list _ _ F). apply W.
  - intros x pr st. rewrite Tv. intros Ex. apply (sound_fixed s); [done|]. by eapply co_threads.
  - rewrite (fx_idle _ _ F), Tv. apply W.
  - intros q x Hq Hx. rewrite (fx_idle _ _ F), Ec, Tv.
    destruct (co_queued _ _ W q x Hq Hx) as (? & ? & pr' & Ex & Epr). split; [done|]. split; [done|].
    exists pr'. by rewrite (prio_fixed _ _ _ F).
  - intros x pr. rewrite Tv, (fx_idle _ _ F), Ec, (prio_fixed _ _ _ F). apply W.
  - rewrite Ec, Tv. apply W.
Qed.

(** ** Lemmas: the sleepers and the waiters of an interrupt *)

Definition waits (s : kstate) (t : ptr) : Prop := exists pr, tv s t = Some (pr, TS_WAKEWAIT).

Lemma awake_other t pr s s' x : awake t pr s s' -> x <> t -> tv s' x = tv s x.
Proof. intros A Hx. by rewrite (aw_tv _ _ _ _ A), decide_False. Qed.

Lemma waits_tv s s' t : tv s' t = tv s t -> waits s t -> waits s' t.
Proof. intros E (pr & Et). exists pr. by rewrite E. Qed.

Lemma tv_frame s s' : k_threads (k_st s') = k_threads (k_st s) -> forall x, tv s' x = tv s x.
Proof. intros E x. unfold tv. by rewrite E. Qed.

Lemma sleepers_loop time n : forall s es qs, core s qs -> sleepers_ok s es -> NoDup (due time es).*2 ->
  (forall t, t ∈ (due time es).*2 -> waits s t /\ t <> current_thread (k_g s)) ->
  (length (due time es) < n)%nat ->
  exists s' qs', loop n (fun _ => wake_step time) tt s = Ok (tt, s') /\ core s' qs' /\
    sleepers_ok s' (not_due time es) /\ fixed s s' /\ current_thread (k_g s') = current_thread (k_g s) /\
    k_waiters (k_st s') = k_waiters (k_st s) /\ irq_wakeup (k_g s') = irq_wakeup (k_g s) /\
    forall x, x ∉ (due time es).*2 -> tv s' x = tv s x.
Proof.
  induction n as [|n IH]; intros s es qs W Ws Hnd Hw Hn; [lia|]. rewrite loop_S.
  destruct (due time es) as [|[w t] d] eqn:Ed.
  - rewrite (bind_Ok _ _ _ _ _ (wake_step_stop _ _ _ Ws Ed)). exists s, qs. split; [done|]. split; [done|].
    split; [|split; [apply fixed_refl | done]].
    destruct es as [|e es]; [done|]. simpl in Ed |- *. destruct (fst e <=? time); done.
  - destruct es as [|e es]; [done|]. simpl in Ed. destruct (Z.leb_spec (fst e) time) as [Hle|]; [|done].
    injection Ed as -> Ed. cbn [fst] in Hle. destruct (Hw t) as ((pr & Et) & Hc); [by left|].
    destruct (wake_step_go time s w t es (prio s pr) qs Ws Hle (co_queues _ _ W) (core_waiting _ _ _ _ W Et))
      as (s' & s1 & E & Wk & Ws' & Eg & Est).
    rewrite (bind_Ok _ _ _ _ _ E). cbn [fmap list_fmap snd] in Hnd. apply NoDup_cons in Hnd as [Hnt Hnd].
    destruct (core_woken s qs t pr s1 W Et Hc Wk) as (W1 & A).
    assert (F1 : fixed s1 s') by (split; first [by rewrite Est | by rewrite Eg]).
    assert (W' : core s' (upd qs (prio s pr) (qs (prio s pr) ++ [t]))).
    { eapply core_frame; [exact W1 | exact F1 | by rewrite Est | by rewrite Eg | by rewrite Eg | by rewrite Eg]. }
    assert (Tv : forall x, x <> t -> tv s' x = tv s x).
    { intros x Hx. rewrite (tv_frame s1) by (by rewrite Est). by apply (awake_other t pr). }
    assert (Ec : current_thread (k_g s') = current_thread (k_g s)) by (rewrite Eg; apply A).
    destruct (IH s' es _ W' Ws') as (s2 & qs2 & E2 & W2 & X1 & X2 & X3 & X4 & X5 & X6).
    + by rewrite Ed.
    + rewrite Ed. intros x Hx. destruct (Hw x) as (Hwx & Hcx); [by right|]. rewrite Ec. split; [|done].
      eapply waits_tv; [apply Tv | done]. by intros ->.
    + rewrite Ed. simpl in Hn. lia.
    + exists s2, qs2. rewrite Ed in *. split; [done|]. split; [done|].
      split; [cbn [not_due fst]; by rewrite (proj2 (Z.leb_le _ _) Hle)|].
      split; [eapply fixed_trans; [apply A|]; by eapply fixed_trans|]. split; [congruence|].
      split; [rewrite X4, Est; by rewrite (wk_stores _ _ _ _ _ Wk)|].
      split; [rewrite X5, Eg; by rewrite (wk_globals _ _ _ _ _ Wk)|].
      intros x Hx. cbn [fmap list_fmap snd] in Hx. apply not_elem_of_cons in Hx as [? ?]. rewrite X6 by done. by apply Tv.
Qed.

Lemma irq_loop irq n : forall l s qs b, core s qs ->
  linked (k_waiters (k_st s)) (default 0 (irq_wakeup (k_g s) !! irq)) l ->
  NoDup (waiter_thread (k_waiters (k_st s)) <$> l) ->
  (forall x, x ∈ l -> let t := waiter_thread (k_waiters (k_st s)) x in waits s t /\ t <> current_thread (k_g s)) ->
  (length l < n)%nat ->
  exists s' qs' b', loop n (waiter_step irq) b s = Ok (b', s') /\ core s' qs' /\
    default 0 (irq_wakeup (k_g s') !! irq) = 0 /\ fixed s s' /\
    current_thread (k_g s') = current_thread (k_g s) /\
    k_sleepers (k_st s') = k_sleepers (k_st s) /\ sleeping_threads (k_g s') = sleeping_threads (k_g s) /\
    (forall i, i <> irq -> irq_wakeup (k_g s') !! i = irq_wakeup (k_g s) !! i) /\
    (forall x, x ∉ l -> k_waiters (k_st s') !! x = k_waiters (k_st s) !! x) /\
    (forall x, x ∉ waiter_thread (k_waiters (k_st s)) <$> l -> tv s' x = tv s x) /\
    uptime (k_g s') = uptime (k_g s).
Proof.
  induction n as [|n IH]; intros l s qs b W Hl Hnd Hw Hn; [lia|]. rewrite loop_S.
  destruct l as [|x l].
  - apply linked_nil in Hl. exists s, qs, b.
    assert (E : waiter_step irq b s = Ok (inr b, s)).
    { apply wp_eq_Ok. unfold waiter_step. ksteps. rewrite Hl. by ksteps. }
    rewrite (bind_Ok _ _ _ _ _ E). split; [done|]. split; [done|]. split; [done|].
    split; [apply fixed_refl|]. done.
  - set (m := k_waiters (k_st s)) in *. set (t := waiter_thread m x) in *.
    destruct (Hw x) as ((pr & Et) & Hc); [by left|]. fold t in Et, Hc.
    destruct (waiter_step_go irq b s x l t (waiter_thread m <$> l) (prio s pr) qs)
      as (s' & s1 & E & Wk & [Hl' Ets] & Eg & Est & v & Ev); [by split | apply W | by apply core_waiting |].
    rewrite (bind_Ok _ _ _ _ _ E). cbn [fmap list_fmap] in Hnd. fold t in Hnd. apply NoDup_cons in Hnd as [Hnt Hnd].
    destruct (core_woken s qs t pr s1 W Et Hc Wk) as (W1 & A).
    assert (F1 : fixed s1 s') by (split; first [by rewrite Est | by rewrite Eg]).
    assert (W' : core s' (upd qs (prio s pr) (qs (prio s pr) ++ [t]))).
    { eapply core_frame; [exact W1 | exact F1 | by rewrite Est | by rewrite Eg | by rewrite Eg | by rewrite Eg]. }
    assert (Tv : forall y, y <> t -> tv s' y = tv s y).
    { intros y Hy. rewrite (tv_frame s1) by (by rewrite Est). by apply (awake_other t pr). }
    assert (Ec : current_thread (k_g s') = current_thread (k_g s)) by (rewrite Eg; apply A).
    assert (Hwt : forall y, y ∈ l -> waiter_thread (k_waiters (k_st s')) y = waiter_thread m y).
    { intros y Hy. unfold waiter_thread. rewrite Est; ksimp. fold m. rewrite lookup_delete_ne; [done|].
      intros ->. apply linked_NoDup, NoDup_cons in Hl as [? _]. done. }
    destruct (IH l s' _ true W' Hl') as (s2 & qs2 & b2 & E2 & W2 & X1 & X2 & X3 & X4 & X5 & X6 & X7 & X8 & X9).
    + by rewrite <- Ets.
    + intros y Hy. cbv zeta. rewrite Hwt by done. destruct (Hw y) as (Hwx & Hcx); [by right|]. rewrite Ec.
      split; [|done]. eapply waits_tv; [apply Tv | done]. intros Eyt. apply Hnt. rewrite <- Eyt. by apply list_elem_of_fmap_2.
    + simpl in Hn. lia.
    + exists s2, qs2, b2. split; [done|]. split; [done|]. split; [done|].
      split; [eapply fixed_trans; [apply A|]; by eapply fixed_trans|]. split; [congruence|].
      split; [rewrite X4, Est; by rewrite (wk_stores _ _ _ _ _ Wk)|].
      split; [rewrite X5, Eg; by rewrite (wk_globals _ _ _ _ _ Wk)|].
      split; [intros i Hi; rewrite X6, Ev by done; by rewrite lookup_insert_ne|].
      split; [|split].
      * intros y Hy. apply not_elem_of_cons in Hy as [Hyx Hy]. rewrite X7 by done. rewrite Est; ksimp. fold m.
        by rewrite lookup_delete_ne.
      * intros y Hy. cbn [fmap list_fmap] in Hy. fold t in Hy. apply not_elem_of_cons in Hy as [Hyt Hy].
        rewrite X8; [by apply Tv|]. by rewrite <- Ets.
      * rewrite X9, Eg. by rewrite (wk_globals _ _ _ _ _ Wk).
Qed.

(** ** The whole invariant *)

(** The threads that sleep or wait for an interrupt: [es] are the entries of
    the sleeping list, [wl n] the nodes of the list of interrupt [n].  Each
    of these threads waits, and has one entry or node. *)
Record parked (s : kstate) (es : list (Z * ptr)) (wl : Z -> list Z) : Prop := {
  pk_sleep : sleepers_ok s es;
  pk_irq n : 0 <= n < 16 -> linked (k_waiters (k_st s)) (default 0 (irq_wakeup (k_g s) !! n)) (wl n);
  pk_nodes n n' x : 0 <= n < 16 -> 0 <= n' < 16 -> x ∈ wl n -> x ∈ wl n' -> n = n';
  pk_slept t : t ∈ es.*2 -> waits s t;
  pk_waits n x : 0 <= n < 16 -> x ∈ wl n -> waits s (waiter_thread (k_waiters (k_st s)) x);
  pk_once : NoDup es.*2;
  pk_once_irq n n' x y : 0 <= n < 16 -> 0 <= n' < 16 -> x ∈ wl n -> y ∈ wl n' ->
    waiter_thread (k_waiters (k_st s)) x = waiter_thread (k_waiters (k_st s)) y -> x = y;
  pk_apart n x : 0 <= n < 16 -> x ∈ wl n -> waiter_thread (k_waiters (k_st s)) x ∉ es.*2
}.

(** Between two events the current thread can run. *)
Definition current_runs (s : kstate) : Prop :=
  current_thread (k_g s) = 0 \/ exists pr, tv s (current_thread (k_g s)) = Some (pr, TS_RUNNING).

Definition sys (s : kstate) : Prop :=
  frequency (k_g s) <> 0 /\ current_runs s /\ exists qs es wl, core s qs /\ parked s es wl.

(** ** Lemmas: one event *)

Lemma parked_frame s s' es wl : parked s es wl -> k_sleepers (k_st s') = k_sleepers (k_st s) ->
  sleeping_threads (k_g s') = sleeping_threads (k_g s) -> k_waiters (k_st s') = k_waiters (k_st s) ->
  irq_wakeup (k_g s') = irq_wakeup (k_g s) ->
  (forall t, t ∈ es.*2 \/ (exists n x, 0 <= n < 16 /\ x ∈ wl n /\ t = waiter_thread (k_waiters (k_st s)) x) ->
     waits s t -> waits s' t) -> parked s' es wl.
Proof.
  intros [P1 P2 P3 P4 P5 P6 P7 P8] E1 E2 E3 E4 Hw. split; rewrite ?E3; try done.
  - destruct P1 as (l & Hl & Ees & Hs). exists l. by rewrite E1, E2.
  - intros n Hn. rewrite E4. by apply P2.
  - intros t Ht. apply Hw; [by left | by apply P4].
  - intros n x Hn Hx. apply Hw; [right; eauto | by eapply P5].
Qed.

(** The end of every event: a task switch. *)
Lemma sys_switch s qs es wl c : frequency (k_g s) <> 0 -> core s qs -> parked s es wl ->
  exists s', switch c s = Ok (tt, s') /\ sys s'.
Proof.
  intros Hf W P. destruct c as [[esp ebp] eip].
  destruct (core_switch s qs esp ebp eip W) as (s' & qs' & E & W' & K). exists s'. split; [done|].
  split; [by rewrite (fx_freq _ _ (sw_fixed _ _ K))|]. split; [right; apply K|]. exists qs', es, wl. split; [done|].
  apply (parked_frame s); [done | | apply K | | apply K |].
  - by rewrite (sw_stores _ _ K).
  - by rewrite (sw_stores _ _ K).
  - intros t _. apply waits_tv, K.
Qed.

(** Marking the current thread: [thread_goInactive] before the switch. *)
Definition marked (s : kstate) : kstate :=
  let c := current_thread (k_g s) in
  match k_threads (k_st s) !! c with
  | Some th => set_st (set_k_threads (<[c := set_t_state TS_WAKEWAIT th]> (k_threads (k_st s))) (k_st s)) s
  | None => s
  end.

Lemma marked_tv s x pr st : tv s (current_thread (k_g s)) = Some (pr, st) ->
  tv (marked s) x = if decide (x = current_thread (k_g s)) then Some (pr, TS_WAKEWAIT) else tv s x.
Proof.
  unfold marked, tv. destruct (k_threads (k_st s) !! current_thread (k_g s)) as [th|] eqn:E; [|done].
  intros [= <- _]. ksimp. destruct (decide _) as [->|]; [by rewrite lookup_insert_eq | by rewrite lookup_insert_ne].
Qed.

Lemma goInactive_mark_ok s : current_thread (k_g s) <> 0 -> is_Some (tv s (current_thread (k_g s))) ->
  goInactive_mark s = Ok (tt, marked s).
Proof.
  intros Hc [v Ev]. unfold tv in Ev. unfold marked.
  destruct (k_threads (k_st s) !! current_thread (k_g s)) as [th|] eqn:Eth; [|done].
  apply wp_eq_Ok. unfold goInactive_mark. by ksteps.
Qed.

Lemma marked_globals s : k_g (marked s) = k_g s.
Proof. unfold marked. by destruct (k_threads (k_st s) !! _). Qed.

Lemma marked_stores s : exists T, k_st (marked s) = set_k_threads T (k_st s).
Proof.
  unfold marked. destruct (k_threads (k_st s) !! _); [by eexists|].
  exists (k_threads (k_st s)). by destruct s as [[] ?].
Qed.

Lemma core_marked s qs pr : core s qs -> current_thread (k_g s) <> idle_thread (k_g s) ->
  tv s (current_thread (k_g s)) = Some (pr, TS_RUNNING) -> core (marked s) qs.
Proof.
  intros W Hi Ec. destruct (marked_stores s) as (T & ES). pose proof (marked_globals s) as EG.
  assert (Tv := fun x => marked_tv s x pr _ Ec).
  assert (F : fixed s (marked s)) by (split; rewrite ?ES, ?EG; done).
  split; rewrite ?EG.
  - assert (Eth := Ec). unfold tv in Eth. unfold marked.
    destruct (k_threads (k_st s) !! current_thread (k_g s)) as [th|] eqn:E; [|done].
    eapply queues_ok_write; [apply W | done | done].
  - apply W.
  - intros x pr' st. rewrite Tv. intros Ex. apply (sound_fixed s); [done|].
    destruct (decide _) as [->|]; [injection Ex as <- _; by eapply (co_threads _ _ W) | by eapply co_threads].
  - rewrite Tv, decide_False by done. apply W.
  - intros q x Hq Hx. destruct (co_queued _ _ W q x Hq Hx) as (? & Hc & pr' & Ex & Epr). split; [done|]. split; [done|].
    rewrite Tv, decide_False by done. exists pr'. by rewrite (prio_fixed _ _ _ F).
  - intros x pr'. rewrite Tv, (prio_fixed _ _ _ F). destruct (decide _) as [->|]; [by left | apply W].
  - right. rewrite Tv, decide_True by done. done.
Qed.

(** The current thread is in no list of waiting threads. *)
Lemma current_not_waiting s pr t : tv s (current_thread (k_g s)) = Some (pr, TS_RUNNING) ->
  waits s t -> t <> current_thread (k_g s).
Proof. intros Ec (pr' & Et) ->. by eapply tv_clash. Qed.

Lemma marked_waits s t pr : tv s (current_thread (k_g s)) = Some (pr, TS_RUNNING) -> waits s t -> waits (marked s) t.
Proof.
  intros Ec (pr' & Et). exists pr'. rewrite (marked_tv s t pr _ Ec).
  destruct (decide _) as [->|]; [exfalso; by eapply tv_clash | done].
Qed.

Lemma parked_marked s es wl pr : tv s (current_thread (k_g s)) = Some (pr, TS_RUNNING) -> parked s es wl ->
  parked (marked s) es wl.
Proof.
  intros Ec P. destruct (marked_stores s) as (T & ES). pose proof (marked_globals s) as EG.
  apply (parked_frame s); rewrite ?ES, ?EG; try done. intros t _. by apply marked_waits with pr.
Qed.

Lemma block_ok s c qs es wl pr : frequency (k_g s) <> 0 -> core s qs -> parked s es wl ->
  current_thread (k_g s) <> 0 -> current_thread (k_g s) <> idle_thread (k_g s) ->
  tv s (current_thread (k_g s)) = Some (pr, TS_RUNNING) ->
  exists s', run_event (Block c) s = Ok (tt, s') /\ sys s'.
Proof.
  intros Hf W P Hc Hi Ec. destruct c as [[esp ebp] eip].
  destruct (sys_switch (marked s) qs es wl (esp, ebp, eip)) as (s' & E & Y).
  - by rewrite marked_globals.
  - by eapply core_marked.
  - by eapply parked_marked.
  - exists s'. split; [|done]. cbn [run_event]. unfold thread_goInactive.
    rewrite (bind_Ok _ _ _ _ _ (goInactive_mark_ok s Hc (ex_intro _ _ Ec))). exact E.
Qed.

(** A thread goes to sleep: its entry is new. *)
Lemma parked_sleep s s1 es wl w pr : let c := current_thread (k_g s) in
  tv s c = Some (pr, TS_RUNNING) -> parked s es wl -> slept (sleep_ins (w, c) es) s s1 ->
  parked (marked s1) (sleep_ins (w, c) es) wl.
Proof.
  intros c Ec P [X1 X2 X3]. destruct (marked_stores s1) as (T & ES). pose proof (marked_globals s1) as EG.
  assert (Ecur : current_thread (k_g s1) = c) by (by rewrite X3).
  assert (Tv : forall x, tv s1 x = tv s x) by (apply tv_frame; by rewrite X2).
  assert (Ec1 : tv s1 (current_thread (k_g s1)) = Some (pr, TS_RUNNING)) by (by rewrite Ecur, Tv).
  assert (Hw : forall t, waits s t -> waits (marked s1) t).
  { intros t Ht. apply marked_waits with pr; [done|]. eapply waits_tv; [apply Tv | done]. }
  assert (Hnew : forall t, waits s t -> t <> c) by (intros t; apply (current_not_waiting s pr t Ec)).
  assert (Hsn : (sleep_ins (w, c) es).*2 ≡ₚ c :: es.*2) by (by rewrite sleep_ins_perm).
  destruct P as [P1 P2 P3 P4 P5 P6 P7 P8].
  assert (EW : k_waiters (k_st (marked s1)) = k_waiters (k_st s)) by (by rewrite ES, X2).
  split; rewrite ?EW; try done.
  - destruct X1 as (l & Hl & Ees & Hs). exists l. by rewrite ES, EG.
  - intros n Hn. rewrite EG, X3. by apply P2.
  - intros t Ht. rewrite Hsn in Ht. apply elem_of_cons in Ht as [->|Ht]; [|by apply Hw, P4].
    exists pr. rewrite (marked_tv s1 c pr _ Ec1), decide_True; done.
  - intros n x Hn Hx. by eapply Hw, P5.
  - rewrite Hsn. apply NoDup_cons. split; [|done]. intros Hin. by apply (Hnew c (P4 c Hin)).
  - intros n x Hn Hx Hin. rewrite Hsn in Hin. apply elem_of_cons in Hin as [E|Hin]; [|by eapply P8].
    by apply (Hnew _ (P5 n x Hn Hx)).
Qed.

Lemma sleep_ok s ms c qs es wl pr : frequency (k_g s) <> 0 -> core s qs -> parked s es wl ->
  current_thread (k_g s) <> 0 -> current_thread (k_g s) <> idle_thread (k_g s) ->
  tv s (current_thread (k_g s)) = Some (pr, TS_RUNNING) ->
  exists s', run_event (SleepFor ms c) s = Ok (tt, s') /\ sys s'.
Proof.
  intros Hf W P Hc Hi Ec. set (cur := current_thread (k_g s)) in *. set (w := w32 (time_of (k_g s) + ms)).
  set (sf := fresh_ptr (k_sleepers (k_st s))).
  destruct (sleep_insert_ok s es sf (SleepingThread w cur (k_junk (k_g s))) (pk_sleep _ _ _ P)) as (s1 & E & K).
  { pose proof (fresh_ptr_pos (k_sleepers (k_st s))). unfold sf. lia. } { apply fresh_ptr_None. }
  cbn [wakeup_time sl_thread] in E, K. destruct K as [X1 X2 X3].
  assert (Ecur : current_thread (k_g s1) = cur) by (by rewrite X3).
  assert (Tv : forall x, tv s1 x = tv s x) by (apply tv_frame; by rewrite X2).
  assert (F1 : fixed s s1) by (split; first [by rewrite X2 | by rewrite X3]).
  assert (W1 : core s1 qs) by (eapply core_frame; [exact W | exact F1 | by rewrite X2 | by rewrite X3..]).
  assert (Ec1 : tv s1 (current_thread (k_g s1)) = Some (pr, TS_RUNNING)) by (by rewrite Ecur, Tv).
  assert (E1 : thread_sleep ms s = Ok (true, marked s1)).
  { apply wp_eq_Ok. unfold thread_sleep. ksteps. fold cur. rewrite (proj2 (Z.eqb_neq _ _) Hc). ksteps.
    apply wp_timer_time; [done|]. ksteps. fold w sf. eapply wp_eq; [exact E|].
    apply wp_bind. eapply wp_eq; [apply goInactive_mark_ok; [by rewrite Ecur | by eexists]|]. by ksteps. }
  destruct (sys_switch (marked s1) qs (sleep_ins (w, cur) es) wl c) as (s' & E' & Y).
  - rewrite marked_globals. by rewrite X3.
  - eapply core_marked; [done | | done]. by rewrite Ecur, (fx_idle _ _ F1).
  - by apply (parked_sleep s s1 es wl w pr).
  - exists s'. split; [|done]. cbn [run_event]. rewrite (bind_Ok _ _ _ _ _ E1). exact E'.
Qed.

Lemma proc_priv_ok s qs pr : core s qs -> current_thread (k_g s) <> 0 ->
  tv s (current_thread (k_g s)) = Some (pr, TS_RUNNING) -> proc_priv s = Ok (prio s pr, s).
Proof.
  intros W Hc Ec. destruct (co_threads _ _ W _ _ _ Ec) as (_ & Hpr & p & d & Ep & _). unfold tv in Ec.
  destruct (k_threads (k_st s) !! current_thread (k_g s)) as [th|] eqn:Eth; [|done]. injection Ec as Epr _.
  apply wp_eq_Ok. unfold proc_priv. ksteps. rewrite (proj2 (Z.eqb_neq _ _) Hc). ksteps.
  rewrite Epr, (proj2 (Z.eqb_neq _ _) Hpr). ksteps. unfold prio. by rewrite Ep.
Qed.

(** The state of [idt_waitIrq] before the current thread is marked. *)
Definition with_waiter (n : Z) (s : kstate) : kstate :=
  let x := fresh_ptr (k_waiters (k_st s)) in
  KState (set_k_waiters (<[x := IrqWaiter (current_thread (k_g s)) (default 0 (irq_wakeup (k_g s) !! n))]>
                           (k_waiters (k_st s))) (k_st s))
    (set_irq_wakeup (<[n := x]> (irq_wakeup (k_g s))) (k_g s)).

Lemma parked_waiter s es wl n pr : tv s (current_thread (k_g s)) = Some (pr, TS_RUNNING) -> 0 <= n < 16 ->
  parked s es wl ->
  parked (marked (with_waiter n s)) es (upd wl n (fresh_ptr (k_waiters (k_st s)) :: wl n)).
Proof.
  intros Ec Hn P. set (x := fresh_ptr (k_waiters (k_st s))). set (s1 := with_waiter n s).
  set (c := current_thread (k_g s)) in *.
  destruct (marked_stores s1) as (T & ES). pose proof (marked_globals s1) as EG.
  assert (Hx : k_waiters (k_st s) !! x = None) by apply fresh_ptr_None.
  assert (Hx0 : x <> 0) by (pose proof (fresh_ptr_pos (k_waiters (k_st s))); unfold x; lia).
  assert (Ec1 : tv s1 (current_thread (k_g s1)) = Some (pr, TS_RUNNING)) by exact Ec.
  assert (Hw : forall t, waits s t -> waits (marked s1) t) by (intros t Ht; by apply marked_waits with pr).
  assert (Hnew : forall t, waits s t -> t <> c) by (intros t; apply (current_not_waiting s pr t Ec)).
  destruct P as [P1 P2 P3 P4 P5 P6 P7 P8].
  assert (Hfr : forall i, 0 <= i < 16 -> x ∉ wl i) by (intros i Hi; by apply (linked_fresh _ _ _ _ (P2 i Hi))).
  assert (EW : k_waiters (k_st (marked s1)) = <[x := IrqWaiter c (default 0 (irq_wakeup (k_g s) !! n))]> (k_waiters (k_st s)))
    by by rewrite ES.
  assert (Hwx : waiter_thread (k_waiters (k_st (marked s1))) x = c)
    by (unfold waiter_thread; rewrite EW; by rewrite lookup_insert_eq).
  assert (Hwy : forall y i, 0 <= i < 16 -> y ∈ wl i ->
            waiter_thread (k_waiters (k_st (marked s1))) y = waiter_thread (k_waiters (k_st s)) y).
  { intros y i Hi Hy. unfold waiter_thread. rewrite EW, lookup_insert_ne; [done|]. intros <-. by apply (Hfr i). }
  assert (Hin : forall i y, y ∈ upd wl n (x :: wl n) i -> (i = n /\ y = x) \/ y ∈ wl i).
  { intros i y. unfold upd. destruct (Z.eqb_spec i n) as [->|]; [|by right].
    intros [->|?]%elem_of_cons; [by left | by right]. }
  split; try done.
  - destruct P1 as (l & Hl & Ees & Hs). exists l. by rewrite ES, EG.
  - intros i Hi. rewrite EG, EW. cbn. unfold upd. destruct (Z.eqb_spec i n) as [->|Hne].
    + rewrite lookup_insert_eq. split; [done|]. split; [done|]. eexists. rewrite lookup_insert_eq.
      split; [done|]. apply lseg_frame; [by apply Hfr | by apply P2].
    + rewrite lookup_insert_ne by done. apply lseg_frame; [by apply Hfr | by apply P2].
  - intros i j y Hi Hj [[Ei Ey]|Hy]%Hin [[Ej Ey']|Hy']%Hin; [congruence | | | by eapply P3].
    + rewrite Ey in Hy'. by destruct (Hfr j Hj).
    + rewrite Ey' in Hy. by destruct (Hfr i Hi).
  - intros t Ht. by apply Hw, P4.
  - intros i y Hi [[-> ->]|Hy]%Hin.
    + rewrite Hwx. exists pr. rewrite (marked_tv s1 c pr _ Ec1), decide_True; done.
    + rewrite (Hwy y i) by done. by eapply Hw, P5.
  - intros i j y z Hi Hj [[-> ->]|Hy]%Hin [[-> ->]|Hz]%Hin; rewrite ?Hwx.
    + done.
    + rewrite (Hwy z j) by done. intros E. by destruct (Hnew _ (P5 j z Hj Hz)).
    + rewrite (Hwy y i) by done. intros E. by destruct (Hnew _ (P5 i y Hi Hy)).
    + rewrite (Hwy z j), (Hwy y i) by done. by apply (P7 i j).
  - intros i y Hi [[-> ->]|Hy]%Hin.
    + rewrite Hwx. intros Ht. by destruct (Hnew _ (P4 _ Ht)).
    + rewrite (Hwy y i) by done. by eapply P8.
Qed.

Lemma waitIrq_ok s n c qs es wl pr : frequency (k_g s) <> 0 -> core s qs -> parked s es wl ->
  current_thread (k_g s) <> 0 -> current_thread (k_g s) <> idle_thread (k_g s) ->
  tv s (current_thread (k_g s)) = Some (pr, TS_RUNNING) -> sys s ->
  exists s', run_event (WaitIrq n c) s = Ok (tt, s') /\ sys s'.
Proof.
  intros Hf W P Hc Hi Ec Y. cbn [run_event].
  destruct (decide (0 <= n < 16 /\ prio s pr <= PL_DRIVER)) as [[Hn Hp]|Hno].
  - assert (E1 : idt_waitIrq n s = Ok (true, marked (with_waiter n s))).
    { apply wp_eq_Ok. unfold idt_waitIrq. rewrite (proj2 (Z.ltb_lt _ _)), (proj2 (Z.leb_le _ _)) by lia. cbn [andb].
      apply wp_bind. eapply wp_eq; [by eapply proc_priv_ok|]. rewrite (proj2 (Z.leb_le _ _) Hp). ksteps.
      fold (with_waiter n s).
      eapply wp_eq; [apply (goInactive_mark_ok (with_waiter n s)); [done | by eexists]|]. by ksteps. }
    rewrite (bind_Ok _ _ _ _ _ E1). cbn [when].
    eapply sys_switch with (qs := qs); [by rewrite marked_globals | | by eapply parked_waiter].
    apply core_marked with pr; [|done|exact Ec].
    eapply core_frame; [exact W | by split | done..].
  - assert (E1 : idt_waitIrq n s = Ok (false, s)).
    { apply wp_eq_Ok. unfold idt_waitIrq. destruct (Z.ltb_spec n 16), (Z.leb_spec 0 n); cbn [andb]; try by ksteps.
      apply wp_bind. eapply wp_eq; [by eapply proc_priv_ok|]. rewrite (proj2 (Z.leb_gt _ _)) by lia. by ksteps. }
    rewrite (bind_Ok _ _ _ _ _ E1). by exists s.
Qed.

(** A blocked thread is answered. *)
Lemma answer_event_ok s t : sys s -> allowed s (Answer t) -> exists s', run_event (Answer t) s = Ok (tt, s') /\ sys s'.
Proof.
  intros (Hf & Hcur & qs & es & wl & W & P) ((th & Eth) & Hs & Ha). cbn [run_event].
  assert (Et : tv s t = Some (t_process th, t_state th)) by (unfold tv; by rewrite Eth).
  destruct (co_threads _ _ W _ _ _ Et) as (Ht & _).
  destruct (decide (t_state th = TS_WAKEWAIT)) as [Hst|Hst].
  2: { exists s. split; [by eapply thread_wakeUp_running|]. split; [done|]. split; [done|]. by exists qs, es, wl. }
  rewrite Hst in Et.
  assert (Hc : t <> current_thread (k_g s)).
  { destruct Hcur as [->|(pr & Ec)]; [done|]. eapply current_not_waiting; [exact Ec | by eexists]. }
  destruct (wake_ok t (prio s (t_process th)) qs s (co_queues _ _ W) (core_waiting _ _ _ _ W Et)) as (s' & E & K).
  destruct (core_woken s qs t _ s' W Et Hc K) as (W' & A).
  assert (Hother : forall x, x <> t -> tv s' x = tv s x) by (intros x; by eapply awake_other).
  exists s'. split; [done|]. split; [by rewrite (fx_freq _ _ (aw_fixed _ _ _ _ A))|]. split.
  - unfold current_runs. rewrite (aw_current _ _ _ _ A). destruct Hcur as [?|(pr & Ec)]; [by left|]. right.
    exists pr. by rewrite Hother.
  - eexists _, es, wl. split; [exact W'|].
    apply (parked_frame s); [done | by rewrite (wk_stores _ _ _ _ _ K) | by rewrite (wk_globals _ _ _ _ _ K)
      | by rewrite (wk_stores _ _ _ _ _ K) | by rewrite (wk_globals _ _ _ _ _ K) |].
    intros x Hx. apply waits_tv, Hother. intros ->. destruct Hx as [Hx|(n & y & Hn & Hy & Ey)].
    + destruct (pk_sleep _ _ _ P) as (l & Hl & Ees & _). rewrite Ees in Hx.
      apply list_elem_of_fmap in Hx as ([w t'] & Et' & Hx). apply list_elem_of_fmap in Hx as (z & Ez & Hz).
      destruct (lseg_in_dom _ _ _ _ z Hl Hz) as (_ & a & Ea). apply Hs. exists z, a. split; [done|].
      unfold entry in Ez. rewrite Ea in Ez. injection Ez as _ Et''. cbn in Et'. congruence.
    + destruct (lseg_in_dom _ _ _ _ y (pk_irq _ _ _ P n Hn) Hy) as (_ & a & Ea). apply Ha. exists y, a.
      split; [done|]. unfold waiter_thread in Ey. by rewrite Ea in Ey.
Qed.

(** An interrupt: first the threads that wait for it. *)
Lemma waiters_ok s qs es wl n : 0 <= n < 16 -> current_runs s -> core s qs -> parked s es wl ->
  exists s' qs' b, wake_waiters n s = Ok (b, s') /\ core s' qs' /\ parked s' es (upd wl n []) /\
    fixed s s' /\ current_runs s'.
Proof.
  intros Hn Hcur W P. set (m := k_waiters (k_st s)).
  assert (Hnc : forall t, waits s t -> t <> 0 -> t <> current_thread (k_g s)).
  { intros t Ht H0. destruct Hcur as [->|(pr & Ec)]; [done|]. by eapply current_not_waiting. }
  assert (Hw0 : forall t, waits s t -> t <> 0) by (intros t (pr & Et); apply (co_threads _ _ W _ _ _ Et)).
  pose proof (pk_irq _ _ _ P n Hn) as Hl.
  destruct (irq_loop n (1 + size m) (wl n) s qs false W Hl) as
    (s' & qs' & b & E & W' & X1 & F & X2 & X3 & X4 & X5 & X6 & X7 & _).
  - apply NoDup_fmap_2_strong; [|by apply linked_NoDup in Hl].
    intros x y Hx Hy. by apply (pk_once_irq _ _ _ P n n).
  - intros x Hx. cbv zeta. assert (Hwt := pk_waits _ _ _ P n x Hn Hx). split; [done|]. by auto.
  - pose proof (linked_length _ _ _ Hl). unfold m. lia.
  - exists s', qs', b. split; [|split; [done|split; [|split; [done|]]]].
    + apply wp_eq_Ok. unfold wake_waiters. ksteps. fold m. by eapply wp_eq.
    + assert (Hin : forall i x, x ∈ upd wl n [] i -> i <> n /\ x ∈ wl i).
      { intros i x. unfold upd. destruct (Z.eqb_spec i n); [intros Hx; by apply elem_of_nil in Hx | done]. }
      assert (Hout : forall i x, 0 <= i < 16 -> i <> n -> x ∈ wl i -> x ∉ wl n).
      { intros i x Hi Hne Hx Hx'. by apply Hne, (pk_nodes _ _ _ P i n x). }
      assert (Hwy : forall i x, 0 <= i < 16 -> i <> n -> x ∈ wl i ->
                waiter_thread (k_waiters (k_st s')) x = waiter_thread m x).
      { intros i x Hi Hne Hx. unfold waiter_thread. by rewrite X6 by by apply (Hout i). }
      assert (Hkeep : forall i x, 0 <= i < 16 -> i <> n -> x ∈ wl i -> waiter_thread m x ∉ waiter_thread m <$> wl n).
      { intros i x Hi Hne Hx Hx'. apply list_elem_of_fmap in Hx' as (y & Ey & Hy).
        apply (Hout i x Hi Hne Hx). by rewrite (pk_once_irq _ _ _ P i n x y Hi Hn Hx Hy Ey). }
      assert (Hks : forall t, t ∈ es.*2 -> t ∉ waiter_thread m <$> wl n).
      { intros t Ht Hx'. apply list_elem_of_fmap in Hx' as (y & -> & Hy). by apply (pk_apart _ _ _ P n y Hn Hy). }
      split.
      * destruct (pk_sleep _ _ _ P) as (l & Hl' & Ees & Hs). exists l. by rewrite X3, X4.
      * intros i Hi. unfold upd. destruct (Z.eqb_spec i n) as [->|Hne]; [by rewrite X1|].
        rewrite X5 by done. eapply lseg_agree; [|by apply (pk_irq _ _ _ P)]. intros x Hx. apply X6. by apply (Hout i).
      * intros i j x Hi Hj [_ Hx]%Hin [_ Hy]%Hin. by apply (pk_nodes _ _ _ P i j x).
      * intros t Ht. eapply waits_tv; [apply X7; by apply Hks | by apply (pk_slept _ _ _ P)].
      * intros i x Hi [Hne Hx]%Hin. rewrite (Hwy i) by done.
        eapply waits_tv; [apply X7; by apply (Hkeep i) | by apply (pk_waits _ _ _ P i)].
      * apply P.
      * intros i j x y Hi Hj [Hni Hx]%Hin [Hnj Hy]%Hin. rewrite (Hwy i x), (Hwy j y) by done.
        by apply (pk_once_irq _ _ _ P i j).
      * intros i x Hi [Hne Hx]%Hin. rewrite (Hwy i) by done. by apply (pk_apart _ _ _ P i).
    + unfold current_runs. rewrite X2. destruct Hcur as [?|(pr & Ec)]; [by left|]. right. exists pr.
      rewrite X7; [done|]. intros Hx. apply list_elem_of_fmap in Hx as (y & Ey & Hy).
      apply (Hnc (waiter_thread m y)); [by apply (pk_waits _ _ _ P n) | apply Hw0; by apply (pk_waits _ _ _ P n) | done].
Qed.

(** Then, for the timer, the threads whose time has come. *)
Lemma timer_ok s qs es wl : frequency (k_g s) <> 0 -> current_runs s -> core s qs -> parked s es wl ->
  exists s' qs' es', timer_callback s = Ok (tt, s') /\ core s' qs' /\ parked s' es' wl /\ fixed s s'.
Proof.
  intros Hf Hcur W P.
  assert (Ht : exists s1, (forall Q : unit -> kstate -> Prop, wp timer_wakeUpSleepingThreads s1 Q -> wp timer_callback s Q) /\
            k_st s1 = k_st s /\ exists a b, k_g s1 = set_uptime a (set_tick b (k_g s))).
  { unfold timer_callback. destruct (decide (w32 (tick (k_g s) + 1) = frequency (k_g s))) as [Eq|Hne].
    - eexists. split; [intros Q HQ; ksteps; cbn; rewrite (proj2 (Z.eqb_eq _ _) Eq); cbn [when]; ksteps; exact HQ|].
      split; [done|]. by eexists _, _.
    - eexists. split; [intros Q HQ; ksteps; cbn; rewrite (proj2 (Z.eqb_neq _ _) Hne); cbn [when]; ksteps; exact HQ|].
      split; [done|]. by eexists (uptime (k_g s)), _. }
  destruct Ht as (s1 & Hrun & ES & a & b & EG).
  assert (F1 : fixed s s1) by (split; first [by rewrite ES | by rewrite EG]).
  assert (Tv1 : forall x, tv s1 x = tv s x) by (apply tv_frame; by rewrite ES).
  assert (W1 : core s1 qs) by (eapply core_frame; [exact W | exact F1 | by rewrite ES | by rewrite EG..]).
  set (now := time_of (k_g s1)). pose proof (due_split now es) as Esp.
  assert (Hnd : NoDup ((due now es).*2 ++ (not_due now es).*2)).
  { rewrite <- fmap_app, Esp. apply P. }
  apply NoDup_app in Hnd as (Hnd & Hdis & Hnd').
  assert (Hin : forall t, t ∈ es.*2 <-> t ∈ (due now es).*2 \/ t ∈ (not_due now es).*2).
  { intros t. by rewrite <- Esp, fmap_app, elem_of_app, Esp. }
  assert (Ws : sleepers_ok s1 es) by (destruct (pk_sleep _ _ _ P) as (l & ?); exists l; by rewrite ES, EG).
  destruct (sleepers_loop now (1 + size (k_sleepers (k_st s1))) s1 es qs W1 Ws Hnd)
    as (s2 & qs2 & E & W2 & X1 & F2 & X2 & X3 & X4 & X5).
  - intros t Ht. assert (Hw : waits s t) by (apply (pk_slept _ _ _ P); rewrite Hin; by left).
    split; [eapply waits_tv; [apply Tv1 | done]|].
    assert (current_thread (k_g s1) = current_thread (k_g s)) as -> by (by rewrite EG).
    destruct Hcur as [->|(pr & Ec)]; [|by eapply current_not_waiting].
    destruct Hw as (pr & Et). apply (co_threads _ _ W _ _ _ Et).
  - destruct Ws as (l & Hl & Ees & _). pose proof (linked_length _ _ _ Hl).
    assert (Hlen := f_equal length Esp). rewrite length_app, Ees, length_fmap in Hlen. rewrite Ees. lia.
  - exists s2, qs2, (not_due now es). split; [|split; [done|split; [|by eapply fixed_trans]]].
    + apply wp_eq_Ok, Hrun. unfold timer_wakeUpSleepingThreads. apply wp_bind, wp_timer_time; [by rewrite (fx_freq _ _ F1)|].
      fold now. ksteps. by eapply wp_eq.
    + assert (EW : k_waiters (k_st s2) = k_waiters (k_st s)) by (by rewrite X3, ES).
      assert (Hkeep : forall t, t ∉ (due now es).*2 -> waits s t -> waits s2 t).
      { intros t Ht Hw. eapply waits_tv; [rewrite X5 by done; apply Tv1 | done]. }
      split; rewrite ?EW; try by apply P.
      * done.
      * intros n Hn. rewrite X4, EG. by apply (pk_irq _ _ _ P).
      * intros t Ht. apply Hkeep; [intros Hd; by apply (Hdis t) | apply (pk_slept _ _ _ P); rewrite Hin; by right].
      * intros n x Hn Hx. apply Hkeep; [|by apply (pk_waits _ _ _ P n)].
        intros Hd. apply (pk_apart _ _ _ P n x Hn Hx). rewrite Hin. by left.
      * done.
      * intros n x Hn Hx Hd. apply (pk_apart _ _ _ P n x Hn Hx). rewrite Hin. by right.
Qed.

Lemma irq_ok s n c : sys s -> 0 <= n < 16 -> exists s', run_event (Irq n c) s = Ok (tt, s') /\ sys s'.
Proof.
  intros (Hf & Hcur & qs & es & wl & W & P) Hn. destruct c as [[esp ebp] eip].
  destruct (waiters_ok s qs es wl n Hn Hcur W P) as (s1 & qs1 & b & E1 & W1 & P1 & F1 & C1).
  assert (Hf1 : frequency (k_g s1) <> 0) by (by rewrite (fx_freq _ _ F1)).
  cbn [run_event]. unfold idt_irqHandler. rewrite (bind_Ok _ _ _ _ _ E1).
  destruct (Z.eqb_spec n 0) as [->|Hne].
  - destruct (timer_ok s1 qs1 es _ Hf1 C1 W1 P1) as (s2 & qs2 & es2 & E2 & W2 & P2 & F2).
    cbn [when orb]. rewrite (bind_Ok _ _ _ _ _ E2).
    by apply (sys_switch s2 qs2 es2 (upd wl 0 []) (esp, ebp, eip)); [rewrite (fx_freq _ _ F2)|..].
  - cbn [when orb]. rewrite (bind_Ok _ _ _ tt s1) by reflexivity. destruct b; cbn [when].
    + by apply (sys_switch s1 qs1 es (upd wl n []) (esp, ebp, eip)).
    + exists s1. split; [done|]. split; [done|]. split; [done|]. by exists qs1, es, (upd wl n []).
Qed.

(** Every event the kernel allows runs to its end and keeps the
    invariant. *)
Lemma event_ok s e : sys s -> allowed s e -> exists s', run_event e s = Ok (tt, s') /\ sys s'.
Proof.
  intros Y Ha. pose proof Y as (Hf & Hcur & qs & es & wl & W & P).
  assert (Hrun : current_thread (k_g s) <> 0 -> exists pr, tv s (current_thread (k_g s)) = Some (pr, TS_RUNNING))
    by (intros H0; by destruct Hcur).
  destruct e as [c|n c|ms c|n c|c|t].
  - by eapply sys_switch.
  - by apply irq_ok.
  - destruct Ha as [Hc Hi]. destruct (Hrun Hc) as (pr & Ec). by eapply sleep_ok.
  - destruct Ha as [Hc Hi]. destruct (Hrun Hc) as (pr & Ec). by eapply waitIrq_ok.
  - destruct Ha as [Hc Hi]. destruct (Hrun Hc) as (pr & Ec). by eapply block_ok.
  - by apply answer_event_ok.
Qed.

Lemma reachable_sys s0 s : sys s0 -> reachable s0 s -> sys s.
Proof.
  intros Y. induction 1 as [|s s' _ IH Hst]; [done|]. inversion Hst as [s2 e s3 Ha E]; subst.
  destruct (event_ok s e IH Ha) as (s4 & E4 & Y4). congruence.
Qed.

(** A thread can run exactly if it is current, idle or queued. *)
Lemma sys_scheduled s : sys s -> exists qs, queues_ok s qs /\
  forall t th p, k_threads (k_st s) !! t = Some th -> k_processes (k_st s) !! t_process th = Some p ->
    (t_state th = TS_RUNNING <->
     t = current_thread (k_g s) \/ t = idle_thread (k_g s) \/ t ∈ qs (privilege p)) /\
    forall q, is_priority q -> t ∈ qs q -> q = privilege p /\ t <> current_thread (k_g s).
Proof.
  intros (_ & Hcur & qs & es & wl & W & _).
  exists qs. split; [apply W|]. intros t th p Et Ep.
  assert (E : tv s t = Some (t_process th, t_state th)) by (unfold tv; by rewrite Et).
  assert (Epr : prio s (t_process th) = privilege p) by (unfold prio; by rewrite Ep).
  destruct (co_threads _ _ W _ _ _ E) as (Ht & Hs).
  assert (Hq : forall q, is_priority q -> t ∈ qs q -> q = privilege p /\ t <> current_thread (k_g s) /\ t_state th = TS_RUNNING).
  { intros q Hq Hin. destruct (co_queued _ _ W q t Hq Hin) as (_ & ? & pr & E' & Eq). rewrite E in E'.
    injection E' as <- ->. split; [congruence | done]. }
  split; [|intros q H1 H2; by destruct (Hq q H1 H2) as (? & ? & _)]. split.
  - intros Hst. rewrite Hst in E. rewrite <- Epr. by apply (co_running _ _ W).
  - intros [->|[->|Hin]].
    + destruct Hcur as [?|(pr & Ec)]; [done|]. rewrite Ec in E. by injection E.
    + destruct (co_idle _ _ W) as (pr & Ei). rewrite Ei in E. by injection E.
    + apply (Hq (privilege p)); [|done]. rewrite <- Epr. by apply (sound_prio s t).
Qed.

(** ** A sample: the threads 10 (current), 20 (queued) and 30 (asleep) of
    process 1, each with a user stack, the idle thread 90, and a clock *)

Definition sample_stack (seg start next : Z) : segment_map := SegmentMap seg 50 start 0x8000 next.
Definition sample_stack_seg (start : Z) : segment := Segment (simple_kind (SimpleSeg 1 start 0x8000)) 1.

Definition sample_system : kstate :=
  KState
    (set_k_threads {[ 10 := Thread 1 0 0 0 0 1000 0x8000 80 20 0; 20 := Thread 1 0 0 0 0 2000 0x8000 81 30 0;
                      30 := Thread 1 0 0 0 2 4000 0x8000 82 0 0; 90 := Thread 3 0 0 0 0 3000 0x8000 0 0 0 ]}
      (set_k_processes {[ 1 := Process 1 0 2 3 0 50 0xDEFE8000 0 0 0 0 10; 3 := Process 0 0 0 1 0 51 0 0 0 0 0 90 ]}
        (set_k_pagedirs {[ 50 := PageDirectory ∅ ∅ 0 82; 51 := PageDirectory ∅ ∅ 0 0 ]}
          (set_k_maps {[ 80 := sample_stack 85 0xDEFF8000 0; 81 := sample_stack 86 0xDEFF0000 80;
                         82 := sample_stack 87 0xDEFE8000 81 ]}
            (set_k_segments {[ 85 := sample_stack_seg 0xDEFF8000; 86 := sample_stack_seg 0xDEFF0000;
                               87 := sample_stack_seg 0xDEFE8000 ]}
              (set_k_stacks {[ 1000 := KStack []; 2000 := KStack []; 3000 := KStack []; 4000 := KStack [] ]}
                (set_k_sleepers {[ 70 := SleepingThread 1 30 0 ]} (k_st sample_tasks))))))))
    (set_frames (Bitset [1] 32) (set_current_pagedir 50 (set_esp0 33768
      (set_sleeping_threads 70 (set_frequency 100 (k_g sample_tasks)))))).

Lemma sample_lookup t th : k_threads (k_st sample_system) !! t = Some th ->
  (t = 10 /\ th = Thread 1 0 0 0 0 1000 0x8000 80 20 0) \/ (t = 20 /\ th = Thread 1 0 0 0 0 2000 0x8000 81 30 0) \/
  (t = 30 /\ th = Thread 1 0 0 0 2 4000 0x8000 82 0 0) \/ (t = 90 /\ th = Thread 3 0 0 0 0 3000 0x8000 0 0 0).
Proof.
  unfold sample_system; ksimp.
  destruct (decide (t = 10)) as [->|]; [rewrite lookup_insert_eq; intros [= <-]; tauto | rewrite lookup_insert_ne by done].
  destruct (decide (t = 20)) as [->|]; [rewrite lookup_insert_eq; intros [= <-]; tauto | rewrite lookup_insert_ne by done].
  destruct (decide (t = 30)) as [->|]; [rewrite lookup_insert_eq; intros [= <-]; tauto | rewrite lookup_insert_ne by done].
  destruct (decide (t = 90)) as [->|]; [rewrite lookup_singleton_eq; intros [= <-]; tauto|].
  by rewrite lookup_singleton_ne by done.
Qed.

Lemma sample_thread_cases t pr st : tv sample_system t = Some (pr, st) ->
  (t = 10 /\ pr = 1 /\ st = 0) \/ (t = 20 /\ pr = 1 /\ st = 0) \/ (t = 30 /\ pr = 1 /\ st = 2) \/ (t = 90 /\ pr = 3 /\ st = 0).
Proof.
  unfold tv. destruct (k_threads (k_st sample_system) !! t) as [th|] eqn:E; [|done]. intros [= <- <-].
  by apply sample_lookup in E as [(-> & ->)|[(-> & ->)|[(-> & ->)|(-> & ->)]]]; tauto.
Qed.

Lemma sample_core : core sample_system sample_tasks_queues.
Proof.
  assert (Hq : forall q t, t ∈ sample_tasks_queues q -> q = 2 /\ t = 20).
  { intros q t. unfold sample_tasks_queues. destruct (Z.eqb_spec q 2) as [->|]; [|intros Ht; by apply elem_of_nil in Ht].
    by intros ->%list_elem_of_singleton. }
  split.
  - destruct sample_tasks_ok as [W1 W2 W3]. split; [|done..].
    intros q Hq'. eapply (lseg_nexts (H := queue_link)); [|by apply W1]. by intros x [_ ->]%Hq.
  - done.
  - intros t pr st Ht. apply sample_thread_cases in Ht as [(-> & -> & _)|[(-> & -> & _)|[(-> & -> & _)|(-> & -> & _)]]];
      (split; [done|]; split; [done|]; by do 2 eexists).
  - by eexists.
  - intros q t _ [-> ->]%Hq. split; [done|]. split; [done|]. by exists 1.
  - intros t pr Ht. apply sample_thread_cases in Ht as [(-> & -> & _)|[(-> & -> & _)|[(_ & _ & ?)|(-> & -> & _)]]];
      [by left | right; right; by left | done | by right; left].
  - right. by eexists.
Qed.

Lemma sample_sys : sys sample_system.
Proof.
  assert (H30 : forall t, t ∈ ([(1, 30)] : list (Z * ptr)).*2 -> t = 30) by (by intros t ->%list_elem_of_singleton).
  assert (Hnil : forall x : Z, x ∈ ([] : list Z) -> False) by (intros x Hx; by apply elem_of_nil in Hx).
  split; [done|]. split; [right; by exists 1|]. exists sample_tasks_queues, [(1, 30)], (fun _ => []).
  split; [exact sample_core|]. split.
  - exists [70]. split; [by repeat (eexists || split)|]. split; [done|]. by repeat constructor.
  - done.
  - intros n n' x _ _ Hx. by apply Hnil in Hx.
  - intros t ->%H30. by exists 1.
  - intros n x _ Hx. by apply Hnil in Hx.
  - apply NoDup_singleton.
  - intros n n' x y _ _ Hx. by apply Hnil in Hx.
  - intros n x _ Hx. by apply Hnil in Hx.
Qed.

(** Thread 10 sleeps and 20 runs; a tick wakes 30 and 10, and the thread
    that had waited longer runs; the next tick lets 10 run. *)
Fixpoint run_events (es : list event) : M kstate unit :=
  match es with [] => mret tt | e :: es' => run_event e;; run_events es' end.

Example sample_events :
  (fun r => match r with Ok (_, s) => Some (current_thread (k_g s), sleeping_threads (k_g s)) | Fault _ => None end)
    <$> [ run_events [SleepFor 5 (1, 2, 3)] sample_system;
          run_events [SleepFor 5 (1, 2, 3); Irq 0 (4, 5, 6)] sample_system;
          run_events [SleepFor 5 (1, 2, 3); Irq 0 (4, 5, 6); Irq 0 (7, 8, 9)] sample_system ]
  = [ Some (20, 70); Some (30, 0); Some (10, 0) ].
Proof. vm_compute. reflexivity. Qed.

(** ** Theorems *)

(** Whatever happened since a well-formed state -- any sequence of task
    switches, interrupts, sleeps, waits, blocked requests and answers --
    the next event that the kernel allows runs to its end: no list is
    broken, no pointer dangles, there is always a thread to run. *)
Theorem system_progress s0 s e : sys s0 -> reachable s0 s -> allowed s e ->
  exists s', run_event e s = Ok (tt, s') /\ reachable s0 s'.
Proof.
  intros Y R Ha. destruct (event_ok s e (reachable_sys _ _ Y R) Ha) as (s' & E & _).
  exists s'. split; [done|]. eapply reach_step; [exact R|]. by eapply step_event.
Qed.

Lemma system_progress_witness :
  exists s', run_event (Irq 0 (4, 5, 6)) sample_system = Ok (tt, s') /\ reachable sample_system s'.
Proof.
  apply (system_progress sample_system sample_system (Irq 0 (4, 5, 6))); [apply sample_sys | apply reach_here | cbn; lia].
Defined.

(** No thread is lost or run twice: in every state the kernel reaches, a
    thread can run exactly if it is the current thread, the idle thread, or
    in the queue of its process' level; and a queued thread is in no other
    queue and is not the current one. *)
Theorem runnable_scheduled s0 s : sys s0 -> reachable s0 s ->
  exists qs, queues_ok s qs /\
    forall t th p, k_threads (k_st s) !! t = Some th -> k_processes (k_st s) !! t_process th = Some p ->
      (t_state th = TS_RUNNING <->
       t = current_thread (k_g s) \/ t = idle_thread (k_g s) \/ t ∈ qs (privilege p)) /\
      forall q, is_priority q -> t ∈ qs q -> q = privilege p /\ t <> current_thread (k_g s).
Proof.
  intros Y R. apply sys_scheduled. by eapply reachable_sys.
Qed.

Lemma runnable_scheduled_witness :
  exists qs, queues_ok sample_system qs /\
    forall t th p, k_threads (k_st sample_system) !! t = Some th ->
      k_processes (k_st sample_system) !! t_process th = Some p ->
      (t_state th = TS_RUNNING <-> t = 10 \/ t = 90 \/ t ∈ qs (privilege p)) /\
      forall q, is_priority q -> t ∈ qs q -> q = privilege p /\ t <> 10.
Proof. apply (runnable_scheduled sample_system sample_system); [apply sample_sys | apply reach_here]. Defined.
