(* ===== verification/Keeps.v ===== *)
(** * What the events of the scheduler leave alone

    The events of [System] move threads between the queues, the sleeping
    list and the lists of the interrupts.  Whatever else the kernel keeps --
    processes and their threads, stacks, address spaces, frames -- they do
    not touch, and of a thread only its registers, its state and its place
    in a queue.  This holds of every run of the functions, so it is shown by
    going through their code. *)

From S2P Require Import Prelude Memory Bitset Kernel Paging Sched Timer Objects Tasking System.

(** ** Specification *)

(** What stays the same of a thread. *)
Definition thread_core (t : thread) : ptr * ptr * Z * ptr * ptr :=
  (t_process t, kernelStack_addr t, kernelStack_size t, userStack_seg t, t_next t).

Record kept (s s' : kstate) : Prop := {
  ke_threads x : thread_core <$> k_threads (k_st s') !! x = thread_core <$> k_threads (k_st s) !! x;
  ke_stores : k_st s' = set_k_threads (k_threads (k_st s'))
    (set_k_sleepers (k_sleepers (k_st s')) (set_k_waiters (k_waiters (k_st s')) (k_st s)));
  ke_frames : frames (k_g s') = frames (k_g s);
  ke_junk : k_junk (k_g s') = k_junk (k_g s);
  ke_locks : if_locks (k_g s') = if_locks (k_g s);
  ke_runs : (current_thread (k_g s') = current_thread (k_g s) /\ current_pagedir (k_g s') = current_pagedir (k_g s) /\
    esp0 (k_g s') = esp0 (k_g s)) \/ runs_in s'
}.

(** Every run of [m] that ends keeps these. *)
Definition keeps {A} (m : M kstate A) : Prop := forall s a s', m s = Ok (a, s') -> kept s s'.

(** ** Lemmas: the operations *)

Lemma kept_refl s : kept s s.
Proof. split; try done; [by destruct s as [[] ?] | by left]. Qed.

(** A thread that runs in its own space still does if that space, its
    stack and the pointers to them are the same. *)
Lemma runs_in_kept s s' : (forall x, thread_core <$> k_threads (k_st s') !! x = thread_core <$> k_threads (k_st s) !! x) ->
  k_processes (k_st s') = k_processes (k_st s) -> current_thread (k_g s') = current_thread (k_g s) ->
  current_pagedir (k_g s') = current_pagedir (k_g s) -> esp0 (k_g s') = esp0 (k_g s) -> runs_in s -> runs_in s'.
Proof.
  intros Ht Ep Ec Ed Ee (th & p & E1 & E2 & E3 & E4). specialize (Ht (current_thread (k_g s))). rewrite E1 in Ht.
  unfold runs_in. rewrite Ep, Ec, Ed, Ee. destruct (k_threads (k_st s') !! _) as [th'|]; [|done].
  exists th', p. injection Ht as -> -> -> _ _. done.
Qed.

Lemma kept_trans s1 s2 s3 : kept s1 s2 -> kept s2 s3 -> kept s1 s3.
Proof.
  intros [A1 A2 A3 A4 A5 A6] [B1 B2 B3 B4 B5 B6]. split; [intros x; by rewrite B1 | | congruence.. |].
  - rewrite B2, A2. by destruct (k_st s1).
  - destruct B6 as [(H1 & H2 & H3)|?]; [|by right]. destruct A6 as [(? & ? & ?)|R]; [left; split_and!; congruence | right].
    apply (runs_in_kept s2); [exact B1 | by rewrite B2 | done..].
Qed.

Lemma keeps_ret {A} (a : A) : keeps (mret a).
Proof. intros s b s' [= _ <-]. apply kept_refl. Qed.

Lemma keeps_fail {A} f : keeps (A := A) (fail f).
Proof. intros s b s' E. discriminate E. Qed.

Lemma keeps_bind {A B} (m : M kstate A) (k : A -> M kstate B) : keeps m -> (forall a, keeps (k a)) -> keeps (m ≫= k).
Proof. intros Hm Hk s b s' (a & s1 & E1 & E2)%bind_inv. eapply kept_trans; [by eapply Hm | by eapply Hk]. Qed.

Lemma keeps_when c (m : M kstate unit) : keeps m -> keeps (when c m).
Proof. destruct c; [done|]. intros _. apply keeps_ret. Qed.

Lemma keeps_gets {A} (f : kstate -> A) : keeps (gets f).
Proof. intros s b s' [= _ <-]. apply kept_refl. Qed.

Lemma keeps_load {A} `{Store kstate A} p : keeps (load (A := A) p).
Proof.
  intros s b s'. unfold load. destruct (p =? 0); [done|]. destruct (st_get s !! p); [|done]. intros [= _ <-]. apply kept_refl.
Qed.

Lemma keeps_setg f : (forall g, frames (f g) = frames g /\ k_junk (f g) = k_junk g /\ if_locks (f g) = if_locks g /\
  current_thread (f g) = current_thread g /\ current_pagedir (f g) = current_pagedir g /\ esp0 (f g) = esp0 g) -> keeps (setg f).
Proof.
  intros Hf s b s' [= _ <-]. destruct (Hf (k_g s)) as (? & ? & ? & ? & ? & ?). split; try done; [by destruct s as [[] ?] | by left].
Qed.

Lemma keeps_thread p f : (forall t, thread_core (f t) = thread_core t) -> keeps (update (A := thread) p f).
Proof.
  intros Hf s b s'. unfold update. destruct (p =? 0); [done|]. ksimp.
  destruct (k_threads (k_st s) !! p) as [t|] eqn:Et; [|done]. intros [= _ <-]. split; try done; [|by left].
  intros x. ksimp. destruct (decide (x = p)) as [->|]; [by rewrite lookup_insert_eq, Et; cbn; rewrite Hf | by rewrite lookup_insert_ne].
Qed.

(** A store that is not kept: nodes of the lists of sleepers and waiters. *)
Class SideStore (A : Type) `{Store kstate A} := side_put m s : kept s (st_put m s).

#[export] Instance side_sleeper : SideStore sleeping_thread.
Proof. intros m s. split; try done. by left. Qed.
#[export] Instance side_waiter : SideStore irq_waiter.
Proof. intros m s. split; try done. by left. Qed.

Lemma keeps_side_update {A} `{SideStore A} p f : keeps (update (A := A) p f).
Proof.
  intros s b s'. unfold update. destruct (p =? 0); [done|]. destruct (st_get s !! p); [|done]. intros [= _ <-]. apply side_put.
Qed.

Lemma keeps_side_new {A} `{SideStore A} a : keeps (new (A := A) a).
Proof. intros s b s' [= _ <-]. apply side_put. Qed.

Lemma keeps_side_free {A} `{SideStore A} p : keeps (free (A := A) p).
Proof. intros s b s' [= _ <-]. apply side_put. Qed.

Lemma keeps_loop {X R} n (body : X -> M kstate (X + R)) : (forall x, keeps (body x)) -> forall x, keeps (loop n body x).
Proof.
  intros Hb. induction n as [|n IH]; intros x; [apply keeps_fail|]. rewrite loop_S.
  apply keeps_bind; [apply Hb|]. intros [y|y]; [apply IH | apply keeps_ret].
Qed.

Lemma keeps_walk {A} `{Store kstate A} `{Linked A} P h : keeps (walk (A := A) P h).
Proof.
  intros s b s' E. unfold walk in E. revert E. generalize (size (st_get s)). intros n E.
  eapply keeps_loop; [|exact E]. intros x. cbn beta. destruct (x =? 0); [apply keeps_ret|].
  apply keeps_bind; [apply keeps_load|]. intros a. destruct (P x a); apply keeps_ret.
Qed.

(** Going through a function. *)
Ltac keeps_step :=
  lazymatch goal with
  | |- keeps (mret _) => apply keeps_ret
  | |- keeps (fail _) => apply keeps_fail
  | |- keeps (_ ≫= _) => apply keeps_bind; [|intros ?]
  | |- keeps (when _ _) => apply keeps_when
  | |- keeps (gets _) => apply keeps_gets
  | |- keeps (getg _) => apply keeps_gets
  | |- keeps (setg _) => apply keeps_setg; intros []; done
  | |- keeps (load _) => apply keeps_load
  | |- keeps (update (A := thread) _ _) => apply keeps_thread; intros []; done
  | |- keeps (update _ _) => apply keeps_side_update
  | |- keeps (new _) => apply keeps_side_new
  | |- keeps (free _) => apply keeps_side_free
  | |- keeps (loop _ _ _) => apply keeps_loop; intros ?
  | |- keeps (walk _ _) => apply keeps_walk
  | |- keeps (if ?b then _ else _) => destruct b
  | |- keeps (match ?b with _ => _ end) => destruct b
  end.
Ltac keeps_go := repeat first [ solve [auto with keeps] | keeps_step ].

Create HintDb keeps.

Lemma keeps_in_queues q : keeps (in_queues q).
Proof. unfold in_queues. keeps_go. Qed.
#[export] Hint Resolve keeps_in_queues : keeps.

Lemma keeps_sched_enqueue t : keeps (sched_enqueue t).
Proof. unfold sched_enqueue, priority, sched_enqueueIn. keeps_go. Qed.
#[export] Hint Resolve keeps_sched_enqueue : keeps.

Lemma keeps_dequeue_from n : forall i, keeps (dequeue_from i n).
Proof. induction n as [|n IH]; intros i; cbn [dequeue_from]; unfold sched_dequeueFrom; keeps_go. Qed.

Lemma keeps_sched_dequeue : keeps sched_dequeue.
Proof. unfold sched_dequeue. apply keeps_bind; [apply keeps_dequeue_from|]. intros it. keeps_go. Qed.
#[export] Hint Resolve keeps_sched_dequeue : keeps.

(** The end of a task switch: the next thread runs in its own space. *)
Lemma keeps_run_next c : keeps (setg (set_current_thread c);;
  if c =? 0 then fail Panic
  else
    t ← load (A := thread) c;
    p ← load (A := process) (t_process t);
    pagedir_switch (p_pagedir p);;
    setg (set_esp0 (w32 (kernelStack_addr t + kernelStack_size t)))).
Proof.
  intros s a s' ([] & s1 & [= <-] & E)%bind_inv. destruct (c =? 0); [done|].
  apply bind_inv in E as (t & s1 & (Et & ->)%load_inv & E). apply bind_inv in E as (p & s1 & (Ep & ->)%load_inv & E).
  apply bind_inv in E as ([] & s2 & E2 & [= _ <-]). unfold pagedir_switch in E2.
  apply bind_inv in E2 as ([] & s3 & [= <-] & E2). apply bind_inv in E2 as (d & s3 & (Ed & ->)%load_inv & [= <-]).
  split; try done; [by destruct s as [[] ?]|]. right. by exists t, p.
Qed.
#[export] Hint Resolve keeps_run_next : keeps.

Lemma keeps_tasking_switch esp ebp eip : keeps (tasking_switch esp ebp eip).
Proof. unfold tasking_switch. keeps_go. Qed.
#[export] Hint Resolve keeps_tasking_switch : keeps.

Lemma keeps_switch c : keeps (switch c).
Proof. destruct c as [[esp ebp] eip]. apply keeps_tasking_switch. Qed.
#[export] Hint Resolve keeps_switch : keeps.

Lemma keeps_thread_wakeUp t : keeps (thread_wakeUp t).
Proof. unfold thread_wakeUp. keeps_go. Qed.
#[export] Hint Resolve keeps_thread_wakeUp : keeps.

Lemma keeps_goInactive : keeps goInactive_mark.
Proof. unfold goInactive_mark. keeps_go. Qed.
#[export] Hint Resolve keeps_goInactive : keeps.

Lemma keeps_timer_time : keeps timer_time.
Proof. unfold timer_time. keeps_go. Qed.
#[export] Hint Resolve keeps_timer_time : keeps.

Lemma keeps_timer_callback : keeps timer_callback.
Proof. unfold timer_callback, timer_wakeUpSleepingThreads, wake_step. keeps_go. Qed.
#[export] Hint Resolve keeps_timer_callback : keeps.

Lemma keeps_wake_waiters n : keeps (wake_waiters n).
Proof. unfold wake_waiters, waiter_step. keeps_go. Qed.
#[export] Hint Resolve keeps_wake_waiters : keeps.

Lemma keeps_thread_sleep ms : keeps (thread_sleep ms).
Proof. unfold thread_sleep, sleep_insert, sleep_place, sleep_place_step. keeps_go. Qed.
#[export] Hint Resolve keeps_thread_sleep : keeps.

Lemma keeps_idt_waitIrq n : keeps (idt_waitIrq n).
Proof. unfold idt_waitIrq, proc_priv. keeps_go. Qed.
#[export] Hint Resolve keeps_idt_waitIrq : keeps.

Lemma keeps_event e : keeps (run_event e).
Proof. destruct e as [c|n [[esp ebp] eip]|ms c|n c|[[esp ebp] eip]|t]; cbn [run_event]; unfold idt_irqHandler, thread_goInactive; keeps_go. Qed.
