(* ===== verification/Creation.v ===== *)
(** * New threads and processes

    What [thread_new] and [process_new] of [src/kernel/task/task.c] leave:
    lemmas on the definitions of [Tasking], in terms of the queues of
    [Sched] and of the view of threads of [System].

    Neither function initialises every field: the list of threads of a new
    process and the user stack of a kernel thread are [k_junk], whatever the
    heap's memory held. *)

From S2P Require Import Prelude Memory Bitset Kernel Paging Segments Sched Timer Objects Tasking System.

(** ** Specification *)

(** The context a thread starts with: four words on its kernel stack, [esp]
    at the lowest, [eip] in [thread_run]. *)
Definition starts_at (s : kstate) (t pr k entry data : Z) (th : thread) : Prop :=
  k_threads (k_st s) !! t = Some th /\ t_process th = pr /\ t_state th = TS_RUNNING /\
  kernelStack_addr th = k /\ kernelStack_size th = KSTACKSIZE /\
  t_esp th = w32 (k + KSTACKSIZE - 16) /\ t_ebp th = w32 (t_esp th + 8) /\ t_eip th = thread_run_addr (k_g s) /\
  k_stacks (k_st s) !! k = Some (KStack [data; entry; t; 0]) /\ k <> 0.

(** The stack of a thread of a user process is a new segment, the
    [USER_STACK_SIZE] bytes below the last one; for other threads none is
    made, and [userStack_seg] is not written. *)
Definition stack_made (s s' : kstate) (p : process) (pd : ptr) (d : page_directory) (u : ptr) : Prop :=
  let sb := w32 (stacksBottom p - USER_STACK_SIZE) in
  let g := fresh_ptr (k_segments (k_st s)) in
  if PL_SERVICE <=? privilege p then
    u = fresh_ptr (k_maps (k_st s)) /\
    k_maps (k_st s') = <[u := SegmentMap g pd sb USER_STACK_SIZE (mappedSegs d)]> (k_maps (k_st s)) /\
    k_segments (k_st s') = <[g := Segment (simple_kind (SimpleSeg 1 sb USER_STACK_SIZE)) 1]> (k_segments (k_st s)) /\
    k_pagedirs (k_st s') = <[pd := set_mappedSegs u d]> (k_pagedirs (k_st s))
  else
    u = k_junk (k_g s) /\ k_maps (k_st s') = k_maps (k_st s) /\ k_segments (k_st s') = k_segments (k_st s) /\
    k_pagedirs (k_st s') = k_pagedirs (k_st s).

(** The threads are the same but for the lists they are in. *)
Definition unlinked (t : thread) : thread := set_queue_next 0 (set_t_next 0 t).
Definition kept_threads (ts ts' : gmap Z thread) (t : ptr) : Prop :=
  forall x, x <> t -> unlinked <$> ts' !! x = unlinked <$> ts !! x.

(** The state after [thread_new] for the process [proc], which had the
    threads [l]. *)
Record thread_made (s s' : kstate) (proc t entry data : Z) (p : process) (d : page_directory)
    (l : list Z) (qs : Z -> list Z) : Prop := {
  tm_fresh : t = fresh_ptr (k_threads (k_st s));
  tm_stacks : k_stacks (k_st s')
    = <[fresh_ptr (k_stacks (k_st s)) := KStack [data; entry; t; 0]]> (k_stacks (k_st s));
  tm_thread : exists th, starts_at s' t proc (fresh_ptr (k_stacks (k_st s))) entry data th /\
    stack_made s s' p (p_pagedir p) d (userStack_seg th);
  tm_others : kept_threads (k_threads (k_st s)) (k_threads (k_st s')) t;
  tm_nexts x : x <> t -> x ∉ l -> t_next <$> k_threads (k_st s') !! x = t_next <$> k_threads (k_st s) !! x;
  tm_queues : queues_ok s' (upd qs (privilege p) (qs (privilege p) ++ [t]));
  tm_process : exists p', k_processes (k_st s') !! proc = Some p' /\ pid p' = pid p /\
    privilege p' = privilege p /\ p_pagedir p' = p_pagedir p /\ p_next p' = p_next p /\
    thread_count p' = w32 (thread_count p + 1) /\ linked (k_threads (k_st s')) (threads p') (l ++ [t]);
  tm_bottom : stacksBottom <$> k_processes (k_st s') !! proc
    = Some (if PL_SERVICE <=? privilege p then w32 (stacksBottom p - USER_STACK_SIZE) else stacksBottom p);
  tm_processes q : q <> proc -> k_processes (k_st s') !! q = k_processes (k_st s) !! q;
  tm_objects : k_objects (k_st s') = k_objects (k_st s);
  tm_waiters : k_waiters (k_st s') = k_waiters (k_st s);
  tm_sleepers : k_sleepers (k_st s') = k_sleepers (k_st s);
  tm_tables : k_tables (k_st s') = k_tables (k_st s);
  tm_globals : k_g s' = set_queue (queue (k_g s')) (set_last (last (k_g s')) (k_g s))
}.

(** ** Lemmas: the user stack *)

Definition with_stack (proc : ptr) (p : process) (d : page_directory) (s : kstate) : kstate :=
  let sb := w32 (stacksBottom p - USER_STACK_SIZE) in
  let g := fresh_ptr (k_segments (k_st s)) in
  let u := fresh_ptr (k_maps (k_st s)) in
  KState
    (set_k_pagedirs (<[p_pagedir p := set_mappedSegs u d]> (k_pagedirs (k_st s)))
      (set_k_maps (<[u := SegmentMap g (p_pagedir p) sb USER_STACK_SIZE (mappedSegs d)]> (k_maps (k_st s)))
        (set_k_segments (<[g := Segment (simple_kind (SimpleSeg 1 sb USER_STACK_SIZE)) 1]> (k_segments (k_st s)))
          (set_k_processes (<[proc := set_stacksBottom sb p]> (k_processes (k_st s))) (k_st s))))) (k_g s).

Lemma user_stack_ok proc p d s : proc <> 0 -> k_processes (k_st s) !! proc = Some p -> p_pagedir p <> 0 ->
  k_pagedirs (k_st s) !! p_pagedir p = Some d ->
  user_stack proc s = Ok (fresh_ptr (k_maps (k_st s)), with_stack proc p d s).
Proof.
  intros Hp Ep Hd Ed. pose proof (fresh_ptr_pos (k_segments (k_st s))). pose proof (fresh_ptr_pos (k_maps (k_st s))).
  apply wp_eq_Ok. unfold user_stack, simpleseg_make, seg_map. ksteps.
  cbn [p_pagedir set_stacksBottom stacksBottom]. unfold seg_op_map; cbn [seg_data].
  unfold simpleseg_map, new_map; cbn [ss_start ss_len]. ksteps.
  rewrite (proj2 (Z.eqb_neq (fresh_ptr (k_maps (k_st s))) 0)) by lia. ksteps.
  unfold with_stack, set_mappings; cbn [mappings seg_data]. by rewrite !insert_insert_eq.
Qed.

(** The optional stack of [thread_new], for the new thread [t]. *)
Lemma stack_step proc p d t th s : proc <> 0 -> t <> 0 -> k_processes (k_st s) !! proc = Some p ->
  p_pagedir p <> 0 -> k_pagedirs (k_st s) !! p_pagedir p = Some d ->
  k_threads (k_st s) !! t = Some th -> userStack_seg th = k_junk (k_g s) ->
  exists s' u sb, when (PL_SERVICE <=? privilege p) (u ← user_stack proc; update t (set_userStack_seg u)) s = Ok (tt, s') /\
    k_threads (k_st s') = <[t := set_userStack_seg u th]> (k_threads (k_st s)) /\
    k_processes (k_st s') = <[proc := set_stacksBottom sb p]> (k_processes (k_st s)) /\
    sb = (if PL_SERVICE <=? privilege p then w32 (stacksBottom p - USER_STACK_SIZE) else stacksBottom p) /\
    stack_made s s' p (p_pagedir p) d u /\ k_stacks (k_st s') = k_stacks (k_st s) /\
    k_objects (k_st s') = k_objects (k_st s) /\ k_waiters (k_st s') = k_waiters (k_st s) /\
    k_sleepers (k_st s') = k_sleepers (k_st s) /\ k_tables (k_st s') = k_tables (k_st s) /\ k_g s' = k_g s.
Proof.
  intros Hp Ht Ep Hd Ed Et Hu. unfold stack_made. destruct (PL_SERVICE <=? privilege p); cbn [when].
  - set (u := fresh_ptr (k_maps (k_st s))).
    exists (set_st (set_k_threads (<[t := set_userStack_seg u th]> (k_threads (k_st s)))
             (k_st (with_stack proc p d s))) (with_stack proc p d s)), u, (w32 (stacksBottom p - USER_STACK_SIZE)).
    split; [|done]. apply wp_eq_Ok. apply wp_bind. eapply wp_eq; [by apply user_stack_ok|].
    eapply wp_update; [done | exact Et | done].
  - exists s, (k_junk (k_g s)), (stacksBottom p). split; [done|]. destruct th as [? ? ? ? ? ? ? us ? ?], p. cbn in Hu. subst us.
    cbn. split; [by rewrite insert_id|]. split; [by rewrite insert_id | done].
Qed.

(** A list of threads goes through [t_next]: it does not see the queues. *)
Lemma linked_same ts ts' h l : same_threads ts ts' -> linked ts h l -> linked ts' h l.
Proof.
  intros Hs. unfold linked. revert h. induction l as [|x l IH]; intros h; simpl; [done|].
  intros (-> & Hx & th & Eth & Hl). split; [done|]. split; [done|].
  destruct (same_threads_some _ _ _ _ Hs Eth) as (v & Ev). exists (set_queue_next v th).
  split; [done|]. by apply IH.
Qed.

Lemma unlinked_same ts ts' : same_threads ts ts' -> forall x, unlinked <$> ts' !! x = unlinked <$> ts !! x.
Proof.
  intros Hs x. specialize (Hs x). destruct (ts' !! x) as [a|], (ts !! x) as [b|]; cbn in *; try done.
  destruct a, b. unfold set_queue_next in Hs; cbn in Hs. by injection Hs as -> -> -> -> -> -> -> -> ->.
Qed.

Lemma nexts_same ts ts' : same_threads ts ts' -> forall x, t_next <$> ts' !! x = t_next <$> ts !! x.
Proof.
  intros Hs x. specialize (Hs x). destruct (ts' !! x) as [a|], (ts !! x) as [b|]; cbn in *; try done.
  destruct a, b. unfold set_queue_next in Hs; cbn in Hs. by injection Hs as -> -> -> -> -> -> -> -> ->.
Qed.

(** The end of the list of a process: [append_thread]. *)
Lemma append_thread_ok proc p t th l s : proc <> 0 -> t <> 0 -> k_processes (k_st s) !! proc = Some p ->
  k_threads (k_st s) !! t = Some th -> t_next th = 0 -> t ∉ l ->
  linked (k_threads (k_st s)) (threads p) l ->
  exists s' h, append_thread proc t s = Ok (tt, s') /\ k_g s' = k_g s /\
    k_processes (k_st s') = <[proc := set_threads h p]> (k_processes (k_st s)) /\
    k_st s' = set_k_threads (k_threads (k_st s')) (set_k_processes (k_processes (k_st s')) (k_st s)) /\
    linked (k_threads (k_st s')) h (l ++ [t]) /\ k_threads (k_st s') !! t = Some th /\
    (forall x, unlinked <$> k_threads (k_st s') !! x = unlinked <$> k_threads (k_st s) !! x) /\
    (forall x, x ∉ l -> k_threads (k_st s') !! x = k_threads (k_st s) !! x) /\
    (forall qs, queues_ok s qs -> queues_ok s' qs).
Proof.
  intros Hp Ht Ep Et Hn Hnt Hl. destruct l as [|z l _] using rev_ind.
  - apply linked_nil in Hl.
    exists (set_st (set_k_processes (<[proc := set_threads t p]> (k_processes (k_st s))) (k_st s)) s), t.
    split; [|do 3 (split; [done|])].
    + apply wp_eq_Ok. unfold append_thread. ksteps. rewrite Hl. cbn [Z.eqb]. by ksteps.
    + split; [by repeat (eexists || split)|]. do 3 (split; [done|]). by intros qs [W1 W2 W3]; split.
  - destruct (linked_at _ _ _ _ _ Hl) as (Hz & zh & Ez & H1 & H2). apply linked_nil in H2. cbn in H2.
    assert (Hh : threads p <> 0) by (destruct l; destruct Hl as (-> & ? & _); done).
    assert (Hzt : z <> t) by set_solver.
    exists (set_st (set_k_threads (<[z := set_t_next t zh]> (k_threads (k_st s))) (k_st s)) s), (threads p).
    split; [|split; [done|split; [|split; [|split; [|split; [|split; [|split]]]]]]].
    + apply wp_eq_Ok. unfold append_thread. ksteps. rewrite (proj2 (Z.eqb_neq _ _) Hh). ksteps.
      eapply wp_eq; [by apply walk_spec|]. ksimp.
      assert (first_ptr (fun _ a => t_next a =? 0) (k_threads (k_st s)) (l ++ [z]) = z) as ->; [|by ksteps].
      { exact (find_last _ _ _ _ Hl). }
    + cbn. rewrite (insert_id (k_processes (k_st s)) proc); [done|]. rewrite Ep. by destruct p.
    + cbn. by destruct s as [[] ?].
    + rewrite <- app_assoc. by eapply lseg_snoc.
    + cbn. by rewrite lookup_insert_ne.
    + intros x. cbn. destruct (decide (x = z)) as [->|]; [by rewrite lookup_insert_eq, Ez | by rewrite lookup_insert_ne].
    + intros x Hx. cbn. rewrite lookup_insert_ne; [done|]. intros ->. apply Hx, elem_of_app. right. by left.
    + intros qs W. by eapply queues_ok_write.
Qed.

(** ** Lemmas: [thread_new] *)

(** A thread outside the store is in no queue. *)
Lemma not_queued s qs t : queues_ok s qs -> k_threads (k_st s) !! t = None -> forall i, is_priority i -> t ∉ qs i.
Proof.
  intros W Hn i Hi Ht. destruct (lseg_in_dom (H := queue_link) _ _ _ _ t (qo_linked _ _ W i Hi) Ht) as (_ & ? & E).
  congruence.
Qed.

Lemma queues_ok_new s s' qs t th : queues_ok s qs -> k_threads (k_st s) !! t = None ->
  k_threads (k_st s') = <[t := th]> (k_threads (k_st s)) -> k_g s' = k_g s -> queues_ok s' qs.
Proof.
  intros W Hn Et Eg. pose proof (not_queued _ _ _ W Hn) as Hnq. destruct W as [W1 W2 W3].
  split; rewrite ?Et, ?Eg; try done. intros q Hq. apply (lseg_frame (H := queue_link)); [by apply Hnq | by apply W1].
Qed.

Lemma thread_new_ok proc entry data p d l qs s : proc <> 0 ->
  k_processes (k_st s) !! proc = Some p -> is_priority (privilege p) -> p_pagedir p <> 0 ->
  k_pagedirs (k_st s) !! p_pagedir p = Some d -> linked (k_threads (k_st s)) (threads p) l ->
  queues_ok s qs -> idle_thread (k_g s) = 0 \/ is_Some (k_threads (k_st s) !! idle_thread (k_g s)) ->
  exists t s', thread_new proc entry data s = Ok (t, s') /\ thread_made s s' proc t entry data p d l qs.
Proof.
  intros Hp Ep Hpri Hd Ed Hl W Hidle. set (j := k_junk (k_g s)).
  set (t := fresh_ptr (k_threads (k_st s))). set (k := fresh_ptr (k_stacks (k_st s))).
  pose proof (fresh_ptr_pos (k_threads (k_st s))) as Ht. fold t in Ht.
  pose proof (fresh_ptr_pos (k_stacks (k_st s))) as Hk. fold k in Hk.
  pose proof (fresh_ptr_None (k_threads (k_st s))) as Hfresh. fold t in Hfresh.
  set (p1 := set_thread_count (w32 (thread_count p + 1)) p).
  set (s1 := KState (set_k_processes (<[proc := p1]> (k_processes (k_st s)))
               (set_k_threads (<[t := Thread proc j j j j j j j 0 j]> (k_threads (k_st s))) (k_st s))) (k_g s)).
  destruct (stack_step proc p1 d t (Thread proc j j j j j j j 0 j) s1)
    as (s2 & u & sb & E2 & T2 & P2 & B2' & M2 & K2 & O2 & W2 & L2 & B2 & G2); try done; [lia | apply lookup_insert_eq.. |].
  set (th := Thread proc (w32 (k + KSTACKSIZE - 16)) (w32 (w32 (k + KSTACKSIZE - 16) + 8)) (thread_run_addr (k_g s2)) TS_RUNNING
               k KSTACKSIZE u 0 j).
  set (s3 := set_st (set_k_stacks (<[k := KStack [data; entry; t; 0]]> (k_stacks (k_st s)))
               (set_k_threads (<[t := th]> (k_threads (k_st s))) (k_st s2))) s2).
  assert (W3 : queues_ok s3 qs) by by apply (queues_ok_new s _ _ t th).
  destruct (sched_enqueue_ok t th (set_stacksBottom sb p1) (privilege p) qs s3) as (s4 & E4 & [X1 X2 X3 X4]);
    try done; [by apply lookup_insert_eq | lia | by apply not_queued with s | | |].
  { cbn. rewrite P2. apply lookup_insert_eq. }
  { cbn. rewrite G2. intros Ei. destruct Hidle as [?|(a & Ea)]; cbn in *; [lia|]. by rewrite <- Ei, Hfresh in Ea. }
  destruct (same_threads_some _ _ t th X2) as (v & Et4); [apply lookup_insert_eq|].
  assert (Hnl : t ∉ l).
  { intros Hin. destruct (lseg_in_dom _ _ _ _ t Hl Hin) as (_ & a & Ea). congruence. }
  destruct (append_thread_ok proc (set_stacksBottom sb p1) t (set_queue_next v th) l s4)
    as (s5 & h & E5 & G5 & P5 & S5 & L5 & Et5 & V5 & N5 & Q5); try done; [lia | | |].
  { rewrite X3. cbn. rewrite P2. apply lookup_insert_eq. }
  { apply (linked_same (k_threads (k_st s3))); [done|]. by apply lseg_frame. }
  assert (Eg : k_g s5 = set_queue (queue (k_g s5)) (set_last (last (k_g s5)) (k_g s))).
  { rewrite G5, X4. cbn. by rewrite G2. }
  exists t, s5. split.
  - apply wp_eq_Ok. unfold thread_new. ksteps. fold t j. ksteps. fold t p1 s1.
    eapply wp_eq; [exact E2|]. ksteps.
    eapply wp_update; [lia | ksimp; rewrite T2; apply lookup_insert_eq|]. ksimp. rewrite K2, T2. fold k. ksteps.
    rewrite !insert_insert_eq.
    change (k_threads (k_st s1)) with (<[t := Thread proc j j j j j j j 0 j]> (k_threads (k_st s))).
    rewrite insert_insert_eq. eapply wp_eq; [exact E4|]. ksteps. eapply wp_eq; [exact E5|]. by ksteps.
  - assert (St5 : kept_threads (k_threads (k_st s)) (k_threads (k_st s5)) t).
    { intros x Hx. rewrite V5, (unlinked_same _ _ X2). unfold s3; ksimp. by rewrite lookup_insert_ne. }
    assert (Hst : k_stacks (k_st s5) = <[k := KStack [data; entry; t; 0]]> (k_stacks (k_st s)))
      by by rewrite S5, X3.
    split.
    + done.
    + exact Hst.
    + exists (set_queue_next v th). split.
      * unfold starts_at. rewrite Hst, Eg. cbn. rewrite G2. do 8 (split; [done|]). split; [apply lookup_insert_eq | lia].
      * unfold stack_made in *. rewrite S5, X3. exact M2.
    + done.
    + intros x Hx Hxl. rewrite N5, (nexts_same _ _ X2) by done. unfold s3; ksimp. by rewrite lookup_insert_ne.
    + apply Q5, X1.
    + exists (set_threads h (set_stacksBottom sb p1)). rewrite P5, lookup_insert_eq. done.
    + rewrite P5, lookup_insert_eq. cbn. by rewrite B2'.
    + intros q Hq. rewrite P5, X3. cbn. rewrite P2. cbn. by rewrite !lookup_insert_ne.
    + by rewrite S5, X3.
    + by rewrite S5, X3.
    + by rewrite S5, X3.
    + by rewrite S5, X3.
    + exact Eg.
Qed.

Lemma kept_tv s s' t x : kept_threads (k_threads (k_st s)) (k_threads (k_st s')) t -> x <> t -> tv s' x = tv s x.
Proof.
  intros Hk Hx. specialize (Hk x Hx). unfold tv.
  destruct (k_threads (k_st s') !! x) as [a|], (k_threads (k_st s) !! x) as [b|]; cbn in *; try done.
  destruct a, b. unfold unlinked, set_queue_next, set_t_next in Hk; cbn in Hk. by injection Hk as -> -> -> -> -> -> -> ->.
Qed.

(** A thread that has not run yet still starts the same way. *)
Lemma starts_kept s s' t0 t pr k entry data th : kept_threads (k_threads (k_st s)) (k_threads (k_st s')) t0 -> t <> t0 ->
  k_stacks (k_st s) ⊆ k_stacks (k_st s') -> thread_run_addr (k_g s') = thread_run_addr (k_g s) ->
  starts_at s t pr k entry data th -> exists th', starts_at s' t pr k entry data th' /\ userStack_seg th' = userStack_seg th.
Proof.
  intros Hk Hx Hs Hrun (E1 & E2 & E3 & E4 & E5 & E6 & E7 & E8 & E9 & E10). specialize (Hk t Hx). rewrite E1 in Hk.
  unfold starts_at. destruct (k_threads (k_st s') !! t) as [a|]; [|done].
  destruct a, th. unfold unlinked, set_queue_next, set_t_next in Hk; cbn in *.
  injection Hk as -> -> -> -> -> -> -> ->. eexists. rewrite Hrun.
  split; [split; [reflexivity|] | done]. do 7 (split; [done|]). split; [by eapply lookup_weaken | done].
Qed.

(** Processes and directories are only added, and keep their level and
    their directory; the globals of the scheduler are as they were. *)
Record extends (s s' : kstate) : Prop := {
  ex_processes pr p : k_processes (k_st s) !! pr = Some p -> exists p', k_processes (k_st s') !! pr = Some p' /\
    privilege p' = privilege p /\ p_pagedir p' = p_pagedir p;
  ex_dirs x : is_Some (k_pagedirs (k_st s) !! x) -> is_Some (k_pagedirs (k_st s') !! x);
  ex_idle : idle_thread (k_g s') = idle_thread (k_g s);
  ex_current : current_thread (k_g s') = current_thread (k_g s);
  ex_sleeping : sleeping_threads (k_g s') = sleeping_threads (k_g s);
  ex_irq : irq_wakeup (k_g s') = irq_wakeup (k_g s);
  ex_freq : frequency (k_g s') = frequency (k_g s)
}.

Lemma sound_extends s s' t pr : extends s s' -> sound_thread s t pr -> sound_thread s' t pr.
Proof.
  intros X (Ht & Hpr & p & d & Ep & Hp & Hd & Ed). split; [done|]. split; [done|].
  destruct (ex_processes _ _ X _ _ Ep) as (p' & Ep' & E1 & E2).
  destruct (ex_dirs _ _ X (p_pagedir p)) as (d' & Ed'); [by eexists|]. exists p', d'. by rewrite E1, E2.
Qed.

Lemma prio_extends s s' t pr : extends s s' -> sound_thread s t pr -> prio s' pr = prio s pr.
Proof.
  intros X (_ & _ & p & d & Ep & _). destruct (ex_processes _ _ X _ _ Ep) as (p' & Ep' & E1 & _).
  unfold prio. by rewrite Ep, Ep'.
Qed.

(** [thread_new]. *)
Lemma thread_made_extends s s' proc t entry data p d l qs : k_processes (k_st s) !! proc = Some p ->
  thread_made s s' proc t entry data p d l qs -> extends s s'.
Proof.
  intros Ep W. pose proof (tm_globals _ _ _ _ _ _ _ _ _ _ W) as X12. split; try (by rewrite X12).
  - intros q pq Eq. destruct (decide (q = proc)) as [->|Hne].
    + destruct (tm_process _ _ _ _ _ _ _ _ _ _ W) as (p' & P1 & _ & P2 & P3 & _). exists p'. by replace pq with p by congruence.
    + exists pq. by rewrite (tm_processes _ _ _ _ _ _ _ _ _ _ W).
  - intros x Hx. destruct (tm_thread _ _ _ _ _ _ _ _ _ _ W) as (th & _ & S4). unfold stack_made in S4.
    destruct (PL_SERVICE <=? privilege p); destruct S4 as (_ & _ & _ & ->); [|done]. apply lookup_insert_is_Some'. by right.
Qed.

(** ** Theorems *)

(** C14. A new thread: it is the last of its process' list and of the queue of
    its process' level, ready to run [thread_run] on a kernel stack of its
    own that holds [thread_run]'s arguments; a thread of a user process gets
    a user stack below those of the other threads, mapped as a writable
    segment; another thread gets none, and its [userStack_seg] is what the
    heap's memory held.  The other threads, processes and queues are as they
    were. *)
Theorem thread_new_starts proc entry data p d l qs s : proc <> 0 ->
  k_processes (k_st s) !! proc = Some p -> is_priority (privilege p) -> p_pagedir p <> 0 ->
  k_pagedirs (k_st s) !! p_pagedir p = Some d -> linked (k_threads (k_st s)) (threads p) l ->
  queues_ok s qs -> idle_thread (k_g s) = 0 \/ is_Some (k_threads (k_st s) !! idle_thread (k_g s)) ->
  exists t s', thread_new proc entry data s = Ok (t, s') /\ thread_made s s' proc t entry data p d l qs.
Proof. apply thread_new_ok. Qed.

Lemma thread_new_starts_witness :
  exists t s', thread_new 1 0x400000 7 sample_tasks = Ok (t, s') /\
    thread_made sample_tasks s' 1 t 0x400000 7 (Process 1 0 2 2 0 50 0 0 0 0 0 10) (PageDirectory ∅ ∅ 0 0)
      [10; 20] sample_tasks_queues.
Proof.
  apply (thread_new_starts 1 0x400000 7 (Process 1 0 2 2 0 50 0 0 0 0 0 10) (PageDirectory ∅ ∅ 0 0)
    [10; 20] sample_tasks_queues sample_tasks); try reflexivity; try done.
  - by repeat (eexists || split).
  - apply sample_tasks_ok.
  - right. by eexists.
Defined.
