(* ===== verification/Exit.v ===== *)
(** * Threads that end

    What [thread_delete] and [thread_exit] of [src/kernel/task/task.c] leave
    of a thread that has a user stack: lemmas on the definitions of
    [Tasking], in terms of what [Unmap] says of [seg_unmap]. *)

From S2P Require Import Prelude Memory Bitset Kernel Paging Segments Unmap Sched Timer Objects Tasking.

(** ** Specification *)

(** The mapping [u], [m], was taken out of the directory [pd], [d], and
    freed with its segment; its pages are unmapped and their frames free. *)
Record stack_removed (s s' : kstate) (pd : ptr) (d : page_directory) (l1 : list Z) (u : ptr) (l2 : list Z)
    (m : segment_map) : Prop := {
  sr_dirs : exists h, k_pagedirs (k_st s') = <[pd := set_mappedSegs h d]> (k_pagedirs (k_st s)) /\
    linked (k_maps (k_st s')) h (l1 ++ l2);
  sr_gone : k_maps (k_st s') !! u = None;
  sr_maps y : y <> u -> set_sm_next 0 <$> k_maps (k_st s') !! y = set_sm_next 0 <$> k_maps (k_st s) !! y /\
    (y ∉ l1 -> k_maps (k_st s') !! y = k_maps (k_st s) !! y);
  sr_segs : k_segments (k_st s') = delete (sm_seg m) (k_segments (k_st s));
  sr_pages : unmapped true (map_page m) d (k_tables (k_st s)) (frames (k_g s)) (k_tables (k_st s')) (frames (k_g s'))
}.

(** Nothing of the address spaces changed. *)
Record same_spaces (s s' : kstate) : Prop := {
  ss_dirs : k_pagedirs (k_st s') = k_pagedirs (k_st s);
  ss_maps : k_maps (k_st s') = k_maps (k_st s);
  ss_segs : k_segments (k_st s') = k_segments (k_st s);
  ss_tables : k_tables (k_st s') = k_tables (k_st s);
  ss_frames : frames (k_g s') = frames (k_g s)
}.

(** The user stack [u] is the only mapping of a simple segment. *)
Definition own_stack (s : kstate) (pd : ptr) (d : page_directory) (l1 : list Z) (u : ptr) (l2 : list Z)
    (m : segment_map) : Prop := exists ss, mapped_at s pd d l1 u l2 m (Segment (simple_kind ss) 1).

Definition stack_gone (s s' : kstate) (pd u : ptr) : Prop :=
  (u = 0 /\ same_spaces s s') \/
  exists d l1 l2 m, own_stack s pd d l1 u l2 m /\ stack_removed s s' pd d l1 u l2 m.

(** The thread [th], [t], of the process [pr], [p], which has the threads
    [l1], [th], [l2], is gone. *)
Record thread_deleted (s s' : kstate) (th : ptr) (t : thread) (pr : ptr) (p : process) (l1 l2 : list Z) : Prop := {
  td_gone : k_threads (k_st s') !! th = None;
  td_others x : x <> th -> set_t_next 0 <$> k_threads (k_st s') !! x = set_t_next 0 <$> k_threads (k_st s) !! x /\
    (x ∉ l1 -> k_threads (k_st s') !! x = k_threads (k_st s) !! x);
  td_process : exists h, linked (k_threads (k_st s')) h (l1 ++ l2) /\
    k_processes (k_st s') = <[pr := set_thread_count (w32 (thread_count p - 1)) (set_threads h p)]> (k_processes (k_st s));
  td_stacks : k_stacks (k_st s') = delete (kernelStack_addr t) (k_stacks (k_st s));
  td_space : stack_gone s s' (p_pagedir p) (userStack_seg t);
  td_stores : k_objects (k_st s') = k_objects (k_st s) /\ k_waiters (k_st s') = k_waiters (k_st s) /\
    k_sleepers (k_st s') = k_sleepers (k_st s) /\ k_descs (k_st s') = k_descs (k_st s);
  td_globals : k_g s' = set_current_thread (if current_thread (k_g s) =? th then 0 else current_thread (k_g s))
    (set_frames (frames (k_g s')) (k_g s))
}.

(** ** Lemmas *)

(** What [seg_unmap] of a stack leaves, as one state. *)
Lemma own_stack_unmap s pd d l1 u l2 m : own_stack s pd d l1 u l2 m ->
  exists s', seg_unmap u s = Ok (tt, s') /\ stack_removed s s' pd d l1 u l2 m /\
    k_st s' = set_k_pagedirs (k_pagedirs (k_st s')) (set_k_tables (k_tables (k_st s'))
      (set_k_maps (k_maps (k_st s')) (set_k_segments (k_segments (k_st s')) (k_st s)))) /\
    k_g s' = set_frames (frames (k_g s')) (k_g s).
Proof.
  intros (ss & W). destruct (seg_unmap_simple_ok s pd d l1 u l2 m _ ss W eq_refl) as (T & b & M & h & E & Hl & HR & U).
  exists (without_map pd d m (Segment (simple_kind ss) 1) T b (delete u M) h s). split; [exact E|].
  unfold without_map; ksimp. split; [|done]. split; try done.
  - by exists h.
  - apply lookup_delete_eq.
  - intros y Hy. ksimp. rewrite lookup_delete_ne by done. apply HR.
Qed.

(** A stack is where it was if directories, mappings, segments, tables and
    frames are. *)
Lemma own_stack_frame s s' pd d l1 u l2 m : k_pagedirs (k_st s') = k_pagedirs (k_st s) -> k_maps (k_st s') = k_maps (k_st s) ->
  k_segments (k_st s') = k_segments (k_st s) -> k_tables (k_st s') = k_tables (k_st s) -> frames (k_g s') = frames (k_g s) ->
  own_stack s pd d l1 u l2 m -> own_stack s' pd d l1 u l2 m.
Proof. intros E1 E2 E3 E4 E5 (ss & []). exists ss. split; by rewrite ?E1, ?E2, ?E3, ?E4, ?E5. Qed.

(** The end of [thread_delete], for a thread out of its process' list. *)
Lemma free_thread_ok th t pd s : th <> 0 ->
  (userStack_seg t = 0 \/ exists d u1 u2 m, own_stack s pd d u1 (userStack_seg t) u2 m) ->
  exists s', ((if userStack_seg t =? 0 then mret tt else seg_unmap (userStack_seg t));; free (A := thread) th) s = Ok (tt, s') /\
    stack_gone s s' pd (userStack_seg t) /\
    k_st s' = set_k_threads (delete th (k_threads (k_st s))) (set_k_pagedirs (k_pagedirs (k_st s'))
      (set_k_tables (k_tables (k_st s')) (set_k_maps (k_maps (k_st s')) (set_k_segments (k_segments (k_st s')) (k_st s))))) /\
    k_g s' = set_frames (frames (k_g s')) (k_g s).
Proof.
  intros Hth [Hu|(d & u1 & u2 & m & W)].
  - rewrite (proj2 (Z.eqb_eq _ _) Hu). exists (set_st (set_k_threads (delete th (k_threads (k_st s))) (k_st s)) s).
    split; [done|]. split; [by left|]. split; [done | by destruct s as [? []]].
  - destruct (own_stack_unmap s pd d u1 _ u2 m W) as (sa & Ea & Ra & Sa & Ga).
    assert (Hu : userStack_seg t <> 0).
    { destruct W as (ss & [_ Hl _ _ _ _]). by destruct (linked_at _ _ _ _ _ Hl). }
    rewrite (proj2 (Z.eqb_neq _ _) Hu). exists (set_st (set_k_threads (delete th (k_threads (k_st s))) (k_st sa)) sa).
    split; [|split; [right; exists d, u1, u2, m; split; [done|]; by destruct Ra; split|]].
    + rewrite (bind_Ok _ _ _ _ _ Ea). unfold free. do 3 f_equal. ksimp. by rewrite Sa.
    + split; [ksimp; by rewrite Sa | done].
Qed.

Lemma thread_delete_ok s th t pr p l1 l2 : th <> 0 -> k_threads (k_st s) !! th = Some t -> t_process t = pr -> pr <> 0 ->
  k_processes (k_st s) !! pr = Some p -> linked (k_threads (k_st s)) (threads p) (l1 ++ th :: l2) ->
  (userStack_seg t = 0 \/ exists d u1 u2 m, own_stack s (p_pagedir p) d u1 (userStack_seg t) u2 m) ->
  exists s', thread_delete th s = Ok (tt, s') /\ thread_deleted s s' th t pr p l1 l2.
Proof.
  intros Hth Et Epr Hpr Ep Hl Hu.
  destruct (unlink_thread_ok s th t pr p l1 l2) as (sa & h & Ea & Ag & Ast & At & Al & Ao & An); try done.
  set (c := if current_thread (k_g s) =? th then 0 else current_thread (k_g s)).
  set (sb := KState (set_k_stacks (delete (kernelStack_addr t) (k_stacks (k_st s))) (set_k_processes
    (<[pr := set_thread_count (w32 (thread_count p - 1)) (set_threads h p)]> (k_processes (k_st s)))
    (set_k_threads (k_threads (k_st sa)) (k_st s)))) (set_current_thread c (k_g s))).
  destruct (free_thread_ok th t (p_pagedir p) sb Hth) as (s' & E & G & St & Gl).
  { destruct Hu as [?|(d & u1 & u2 & m & W)]; [by left|]. right. exists d, u1, u2, m. by apply (own_stack_frame s). }
  assert (Hc : forall st, (if current_thread (k_g s) =? th then setg (set_current_thread 0) else mret tt) (KState st (k_g s))
                = Ok (tt, KState st (set_current_thread c (k_g s))))
    by (intros st; unfold c; destruct (_ =? th); [done | by destruct (k_g s)]).
  destruct sa as [Ka Ga]. ksimp. cbn in Ag. subst Ga. cbn [k_st k_g] in *. set (Ta := k_threads Ka) in *. clearbody Ta. subst Ka. ksimp.
  exists s'. split.
  - apply wp_eq_Ok. unfold thread_delete. apply wp_bind. eapply wp_eq; [exact Ea|]. ksteps. eapply wp_eq; [apply Hc|].
    ksteps. rewrite Epr. ksteps.
    rewrite insert_insert_eq. apply bind_inv in E as (a & sc & E1 & E2). eapply wp_eq; [exact E1 | by eapply wp_eq].
  - split.
    + rewrite St. ksimp. apply lookup_delete_eq.
    + intros x Hx. rewrite St. ksimp. rewrite lookup_delete_ne by done. split; [apply Ao | apply An].
    + exists h. rewrite St. ksimp. done.
    + by rewrite St.
    + destruct G as [(G1 & G2)|(d & u1 & u2 & m & W & R)]; [left | right].
      * split; [done|]. by destruct G2; split.
      * exists d, u1, u2, m. split; [by apply (own_stack_frame sb) | by destruct R; split].
    + by rewrite St.
    + exact Gl.
Qed.

(** [cli] and [sti] around it. *)
Lemma deleted_locked st g n s' th t pr p l1 l2 : thread_deleted (KState st (set_if_locks n g)) s' th t pr p l1 l2 ->
  thread_deleted (KState st g) (KState (k_st s') (set_if_locks (if_locks g) (k_g s'))) th t pr p l1 l2.
Proof.
  intros [D1 D2 D3 D4 D5 D6 D7]. split; try done.
  - destruct D5 as [(G1 & G2)|(d & u1 & u2 & m & W & R)]; [left | right].
    + split; [done|]. by destruct G2; split.
    + exists d, u1, u2, m. split; [by apply (own_stack_frame (KState st (set_if_locks n g))) | by destruct R; split].
  - cbn [k_g]. rewrite D7. by destruct g.
Qed.

Lemma thread_exit_stackJmp_ok s reason th t pr p l1 l2 : reason = EX_TH_NORMAL \/ reason = EX_TH_EXCEPTION ->
  current_thread (k_g s) = th -> th <> 0 -> k_threads (k_st s) !! th = Some t -> t_process t = pr -> pr <> 0 ->
  k_processes (k_st s) !! pr = Some p -> linked (k_threads (k_st s)) (threads p) (l1 ++ th :: l2) ->
  1 < thread_count p -> 0 <= if_locks (k_g s) < 0xFFFFFFFF ->
  (userStack_seg t = 0 \/ exists d u1 u2 m, own_stack s (p_pagedir p) d u1 (userStack_seg t) u2 m) ->
  exists s', thread_exit_stackJmp reason s = Ok (tt, s') /\ thread_deleted s s' th t pr p l1 l2.
Proof.
  intros Hr Ec Hth Et Epr Hpr Ep Hl Hn Hif Hu. destruct s as [st g]. ksimp. cbn [k_st k_g] in *.
  set (sa := KState st (set_if_locks (if_locks g + 1) g)).
  destruct (thread_delete_ok sa th t pr p l1 l2) as (sb & E & D); try done.
  { destruct Hu as [?|(d & u1 & u2 & m & W)]; [by left|]. right. exists d, u1, u2, m. by apply (own_stack_frame (KState st g)). }
  exists (KState (k_st sb) (set_if_locks (if_locks g) (k_g sb))). split; [|by eapply deleted_locked].
  apply wp_eq_Ok. unfold thread_exit_stackJmp, cli, thread_exit2. ksteps. rewrite w32_small by (unfold u32; lia).
  cbn [current_thread set_if_locks]. rewrite Ec, (proj2 (Z.eqb_neq _ _) Hth). ksteps. rewrite Epr, (proj2 (Z.eqb_neq _ _) Hpr). ksteps.
  assert ((reason =? EX_TH_NORMAL) || (reason =? EX_TH_EXCEPTION) = true) as ->
    by (destruct Hr as [-> | ->]; [by rewrite Z.eqb_refl | by rewrite Z.eqb_refl, orb_true_r]).
  rewrite (proj2 (Z.ltb_lt _ _)) by lia. cbn [andb]. eapply wp_eq; [exact E|]. unfold sti. ksteps.
  assert (if_locks (k_g sb) = if_locks g + 1) as -> by (by rewrite (td_globals _ _ _ _ _ _ _ _ D)).
  rewrite (proj2 (Z.ltb_lt _ _)) by lia. do 3 f_equal. lia.
Qed.
