(* ===== verification/Requests.v ===== *)
(** * Requests between processes

    [src/kernel/ipc/request.c].  A system call that blocks leaves the
    processor in [thread_goInactive] (or [thread_sleep], inside
    [mutex_lock]) and goes on when its thread runs again.  Each such point
    is a constructor of [kcont]; an operation answers [Done] with its
    result, or [Sleep] with the point where it stopped, and [resume] goes
    on from there. *)

From S2P Require Import Prelude Memory Bitset Kernel Segments Sched Timer Objects.

(** ** User memory of the current address space

    The kernel dereferences the pointers it is passed.  A page fault there
    is served where a segment is mapped (the walk of [paging_fault]); an
    address in no segment stops the kernel, and one in the kernel's own half
    is not memory of the program: both are faults here. *)

(** Is [a] in one of the mappings from [h] on?  [n] of them at most. *)
Fixpoint in_mapping (maps : gmap Z segment_map) (a h : Z) (n : nat) : bool :=
  match n with
  | O => false
  | Datatypes.S n' =>
      match maps !! h with
      | Some m => covers a m || in_mapping maps a (sm_next m) n'
      | None => false
      end
  end.

Definition user_byte (s : kstate) (a : Z) : bool :=
  (a <? 0xE0000000) &&
  match k_pagedirs (k_st s) !! current_pagedir (k_g s) with
  | Some d => in_mapping (k_maps (k_st s)) a (mappedSegs d) (size (k_maps (k_st s)))
  | None => false
  end.
Definition user_word (s : kstate) (a : Z) : bool :=
  user_byte s a && user_byte s (a + 1) && user_byte s (a + 2) && user_byte s (a + 3).

(** What the current address space shows. *)
Definition umem_of (s : kstate) : mem := default (fun _ => 0) (umem (k_g s) !! current_pagedir (k_g s)).
Definition with_umem (m : mem) (s : kstate) : kstate :=
  KState (k_st s) (set_umem (<[current_pagedir (k_g s) := m]> (umem (k_g s))) (k_g s)).

Definition uread (a : Z) : M kstate Z := fun s =>
  let a := w32 a in
  if user_word s a then Ok (rd32 (umem_of s) a, s) else Fault (BadAccess a).
Definition uwrite (a v : Z) : M kstate unit := fun s =>
  let a := w32 a in
  if user_word s a then Ok (tt, with_umem (wr32 (umem_of s) a v) s) else Fault (BadAccess a).

(** Offsets in [struct user_request] and [struct user_sendrequest]. *)
Definition ur_func : Z := 0.
Definition ur_params (i : Z) : Z := 4 + 4 * i.
Definition ur_shmsize (i : Z) : Z := 16 + 4 * i.
Definition ur_isBlocking : Z := 28.
Definition ur_pid : Z := 32.

Definition us_func : Z := 0.
Definition us_arg (i : Z) : Z := 4 + 4 * i.
Definition us_answeri : Z := 16.
Definition us_answerll : Z := 20.
Definition us_errcode : Z := 28.

(** ** Where a call can stop *)

Inductive kcont :=
| KGet (obj ptr : Z)
| KLock (obj requester func a b c urq : Z)
| KRequest (rq urq : Z).

Inductive outcome :=
| Done (r : Z)
| Sleep (k : kcont).

(** ** Mutexes ([src/kernel/lib/mutex.c]) on an object's [busyMutex] *)

Definition mutex_lockE (obj : ptr) : M kstate Z :=
  o ← load (A := object) obj;
  update obj (set_busyMutex MUTEX_LOCKED);;
  mret (if busyMutex o =? MUTEX_LOCKED then 0 else 1).

Definition mutex_unlock (obj : ptr) : M kstate unit := update obj (set_busyMutex MUTEX_UNLOCKED).

(** ** Receiving *)

(** Writing the request to the caller's [struct user_request]. *)
Definition write_user_request (p : Z) (rq : request) : M kstate unit :=
  uwrite (p + ur_func) (rq_func rq);;
  uwrite (p + ur_params 0) (nthz (rq_params rq) 0);; uwrite (p + ur_shmsize 0) (nthz (rq_shmsize rq) 0);;
  uwrite (p + ur_params 1) (nthz (rq_params rq) 1);; uwrite (p + ur_shmsize 1) (nthz (rq_shmsize rq) 1);;
  uwrite (p + ur_params 2) (nthz (rq_params rq) 2);; uwrite (p + ur_shmsize 2) (nthz (rq_shmsize rq) 2);;
  uwrite (p + ur_isBlocking) (if requester rq =? 0 then 0 else 1);;
  uwrite (p + ur_pid) (rq_pid rq).

(** [kfree(obj->request); obj->request = 0; mutex_unlock(&obj->busyMutex);] *)
Definition drop_request (obj : ptr) : M kstate unit :=
  o ← load (A := object) obj;
  free (A := request) (o_request o);;
  update obj (set_o_request 0);;
  mutex_unlock obj.

(** [request_get] once a request is there. *)
Definition request_take (obj p : Z) : M kstate unit :=
  o ← load (A := object) obj;
  update (o_request o) (set_acknowledged RS_PROCESSED);;
  rq ← load (A := request) (o_request o);
  write_user_request p rq;;
  if negb (requester rq =? 0) then mret tt
  else if existsb (fun x => negb (x =? 0)) (shm_sndr rq) then mret tt
  else drop_request obj.

(** The condition of the waiting loop. *)
Definition must_wait (o : object) : M kstate bool :=
  if negb (busyMutex o =? MUTEX_LOCKED) then
    if o_request o =? 0 then mret true
    else rq ← load (A := request) (o_request o); mret (negb (acknowledged rq =? RS_PENDING))
  else mret false.

Definition request_get_loop (obj p : Z) : M kstate outcome :=
  o ← load (A := object) obj;
  w ← must_wait o;
  if (w : bool) then
    c ← getg current_thread;
    update obj (set_wakeupOnRq c);;
    goInactive_mark;;
    mret (Sleep (KGet obj p))
  else request_take obj p;; mret (Done 0).

Definition request_get (id p wait : Z) : M kstate outcome :=
  cp ← current_process;
  obj ← objdesc_read cp id;
  if obj =? 0 then mret (Done (-10))
  else
    o ← load (A := object) obj;
    if negb (owner o =? cp) then mret (Done (-2))
    else
      busy ← (if o_request o =? 0 then mret false
              else rq ← load (A := request) (o_request o); mret (negb (acknowledged rq =? RS_PENDING)));
      if (busy : bool) then mret (Done (-3))
      else if (wait =? 0) && (o_request o =? 0) then mret (Done (-1))
      else request_get_loop obj p.

Definition request_has (id : Z) : M kstate Z :=
  cp ← current_process;
  obj ← objdesc_read cp id;
  if obj =? 0 then mret (-10)
  else
    o ← load (A := object) obj;
    if negb (owner o =? cp) then mret (-2)
    else if (o_request o =? 0) || (busyMutex o =? MUTEX_UNLOCKED) then mret 0
    else rq ← load (A := request) (o_request o); mret (if acknowledged rq =? RS_PENDING then 1 else 2).

(** ** Answering *)

(** The first loop of [request_answer], parameters [i] on. *)
Fixpoint release_params (rq own : ptr) (i n : nat) : M kstate unit :=
  match n with
  | O => mret tt
  | Datatypes.S n' =>
      r ← load (A := request) rq;
      (if nthz (shm_rcv r) i =? 0 then mret tt else seg_unmap (nthz (shm_rcv r) i));;
      (if nthz (obj_close r) i =? 0 then mret tt else obj_closeP own (s32 (nthz (obj_close r) i)));;
      release_params rq own (Datatypes.S i) n'
  end.

(** Storing to member [n] of the answer union. *)
Definition set_answer_n (n : Z) (r : request) : request :=
  set_rq_answer (Z.shiftl (Z.shiftr (rq_answer r) 32) 32 + w32 n) r.

(** [PT_OBJDESC]: the answer as a descriptor of the requester. *)
Definition answer_desc (own : ptr) (rproc : ptr) (answer : Z) : M kstate Z :=
  if (s32 answer <? 0) || (own =? rproc) then mret answer
  else
    o ← objdesc_read own (s32 answer);
    if o =? 0 then mret (-1)
    else
      n ← objdesc_get rproc o;
      if n =? -1 then objdesc_add rproc o else mret n.

(** The type of the answer is in the two highest bits. *)
Definition answer_type (func : Z) : Z := Z.shiftr func 30.

Definition set_answer (rq : ptr) (own : ptr) (answer answer2 : Z) : M kstate unit :=
  r ← load (A := request) rq;
  let t := answer_type (rq_func r) in
  if t =? PT_OBJDESC then
    rt ← load (A := thread) (requester r);
    n ← answer_desc own (t_process rt) answer;
    update rq (set_answer_n n)
  else if t =? PT_LONG then update rq (set_answer_n answer)
  else if t =? PT_LONGLONG then update rq (set_rq_answer (Z.lor (Z.shiftl answer2 32) answer))
  else mret tt.

Definition request_answer (id answer answer2 errcode : Z) : M kstate unit :=
  cp ← current_process;
  obj ← objdesc_read cp id;
  if obj =? 0 then mret tt
  else
    o ← load (A := object) obj;
    if negb (owner o =? cp) then mret tt
    else if o_request o =? 0 then mret tt
    else
      let rq := o_request o in
      r ← load (A := request) rq;
      if (acknowledged r =? RS_PENDING) || (requester r =? 0) then mret tt
      else
        release_params rq (owner o) 0 3;;
        update rq (set_acknowledged RS_FINISHED);;
        set_answer rq (owner o) answer answer2;;
        update rq (set_rq_errcode errcode);;
        thread_wakeUp (requester r);;
        update obj (set_o_request 0);;
        mutex_unlock obj.

(** ** Shared memory parameters *)

Definition func_type (func : Z) (i : Z) : Z := Z.land (Z.shiftr func (28 - 2 * i)) 3.

Definition request_mapShm (id pos number : Z) : M kstate Z :=
  if (2 <? number) || (number <? 0) then mret (-9)
  else
    let i := Z.to_nat number in
    cp ← current_process;
    obj ← objdesc_read cp id;
    if obj =? 0 then mret (-10)
    else
      o ← load (A := object) obj;
      if negb (owner o =? cp) then mret (-2)
      else if o_request o =? 0 then mret (-3)
      else
        let rq := o_request o in
        r ← load (A := request) rq;
        if acknowledged r =? RS_PENDING then mret (-3)
        else if negb (func_type (rq_func r) number =? PT_SHM) then mret (-4)
        else
          same ← (if requester r =? 0 then mret false
                  else t ← load (A := thread) (requester r); mret (owner o =? t_process t));
          if (same : bool) then mret (-7)
          else if nthz (shm_sndr r) i =? 0 then mret (-5)
          else
            m ← load (A := segment_map) (nthz (shm_sndr r) i);
            p ← load (A := process) (owner o);
            sm ← seg_map (sm_seg m) (p_pagedir p) pos;
            update rq (fun r => set_shm_rcv (<[i := sm]> (shm_rcv r)) r);;
            update (sm_seg m) (fun g => set_mappings (mappings g - 1) g);;
            if negb (requester r =? 0) then mret 0
            else
              r ← load (A := request) rq;
              if existsb (fun i => negb (nthz (shm_sndr r) i =? 0) && (nthz (shm_rcv r) i =? 0)) [0%nat; 1%nat; 2%nat]
              then mret 0
              else drop_request obj;; mret 0.

(** ** Sending *)

Definition set_param (i : nat) (v : Z) (r : request) : request :=
  set_rq_params (<[i := w32 v]> (rq_params r)) r.

(** One round of the loop that fills the parameters in. *)
Definition mk_param (obj rq cp : ptr) (i : nat) (v : Z) : M kstate unit :=
  o ← load (A := object) obj;
  r ← load (A := request) rq;
  let n := func_type (rq_func r) (Z.of_nat i) in
  if n =? PT_OBJDESC then
    if (s32 v <? 0) || (owner o =? cp) then update rq (set_param i v)
    else
      x ← objdesc_read cp (s32 v);
      d ← objdesc_get (owner o) x;
      d ← (if d =? -1 then
             x ← objdesc_read cp (s32 v);
             d ← objdesc_add (owner o) x;
             update rq (fun r => set_obj_close (<[i := w32 d]> (obj_close r)) r);;
             mret d
           else mret d);
      update rq (set_param i d)
  else if n =? PT_LONG then update rq (set_param i v)
  else if n =? PT_SHM then
    update rq (fun r => set_rq_shmsize (<[i := 0]> (rq_shmsize r)) r);;
    t ← shmseg_getByOff cp v;
    if owner o =? cp then
      update rq (set_param i v);;
      (if t =? 0 then mret tt
       else m ← load (A := segment_map) t;
            update rq (fun r => set_rq_shmsize (<[i := sm_len m]> (rq_shmsize r)) r))
    else
      update rq (fun r => set_shm_sndr (<[i := t]> (shm_sndr r)) r);;
      m ← load (A := segment_map) t;
      update (sm_seg m) (fun g => set_mappings (mappings g + 1) g);;
      update rq (fun r => set_rq_shmsize (<[i := sm_len m]> (rq_shmsize r)) r)
  else mret tt.

(** [mkrequest] once the object's mutex is held: the request, or an error. *)
Definition mkrequest_locked (obj req func a b c : Z) : M kstate (ptr + Z) :=
  o ← load (A := object) obj;
  if owner o =? 0 then mutex_unlock obj;; mret (inr (-11))
  else
    cp ← current_process;
    p ← load (A := process) cp;
    j ← getg k_junk;
    rq ← new (Request obj req func [0; 0; 0] [0; 0; 0] [j; j; j] [0; 0; 0] [0; 0; 0]
                RS_PENDING j j (pid p));
    mk_param obj rq cp 0 a;; mk_param obj rq cp 1 b;; mk_param obj rq cp 2 c;;
    update obj (set_o_request rq);;
    o ← load (A := object) obj;
    (if wakeupOnRq o =? 0 then mret tt
     else thread_wakeUp (wakeupOnRq o);; update obj (set_wakeupOnRq 0));;
    mret (inl rq).

(** What [request] and [send_msg] do with the result of [mkrequest]; a
    message has no requester. *)
Definition after_mkrequest (req urq : Z) (r : ptr + Z) : M kstate outcome :=
  match r with
  | inr e => mret (Done e)
  | inl rq =>
      if rq =? 0 then mret (Done (-1))
      else if req =? 0 then uwrite (urq + us_errcode) 0;; mret (Done 0)
      else goInactive_mark;; mret (Sleep (KRequest rq urq))
  end.

(** [mutex_lock(&obj->busyMutex)], then the rest. *)
Definition lock_and_send (obj req func a b c urq : Z) : M kstate outcome :=
  ok ← mutex_lockE obj;
  if ok =? 0 then
    _ ← thread_sleep 1;
    mret (Sleep (KLock obj req func a b c urq))
  else r ← mkrequest_locked obj req func a b c; after_mkrequest req urq r.

Definition send_start (id req urq : Z) : M kstate outcome :=
  func ← uread (urq + us_func);
  a ← uread (urq + us_arg 0); b ← uread (urq + us_arg 1); c ← uread (urq + us_arg 2);
  cp ← current_process;
  obj ← objdesc_read cp id;
  if obj =? 0 then mret (Done (-10)) else lock_and_send obj req func a b c urq.

(** The system calls [request] and [send_msg]. *)
Definition sys_request (id urq : Z) : M kstate outcome :=
  c ← getg current_thread; send_start id c urq.
Definition send_msg (id urq : Z) : M kstate outcome := send_start id 0 urq.

(** [request] after it was woken up. *)
Definition request_finish (rq urq : Z) : M kstate outcome :=
  r ← load (A := request) rq;
  if acknowledged r =? RS_INTERRUPTED then mret (Done (-2))
  else
    func ← uread (urq + us_func);
    let t := answer_type func in
    (if (t =? PT_OBJDESC) || (t =? PT_LONG) then uwrite (urq + us_answeri) (w32 (rq_answer r))
     else if t =? PT_LONGLONG then
       uwrite (urq + us_answerll) (w32 (rq_answer r));;
       uwrite (urq + us_answerll + 4) (w32 (Z.shiftr (rq_answer r) 32))
     else mret tt);;
    uwrite (urq + us_errcode) (rq_errcode r);;
    free (A := request) rq;;
    mret (Done 0).

(** Going on after [tasking_switch] comes back to the thread. *)
Definition resume (k : kcont) : M kstate outcome :=
  match k with
  | KGet obj p => request_get_loop obj p
  | KLock obj req func a b c urq => lock_and_send obj req func a b c urq
  | KRequest rq urq => request_finish rq urq
  end.

(** ** Lemmas *)

(** The [n] bytes from [p] on can be accessed. *)
Definition user_area (s : kstate) (p n : Z) : Prop :=
  0 <= p /\ p + n <= W32 /\ forall x, p <= x < p + n -> user_byte s x = true.

(** It is a matter of the space and its mappings. *)
Lemma user_area_frame s s' p n : current_pagedir (k_g s') = current_pagedir (k_g s) ->
  k_pagedirs (k_st s') = k_pagedirs (k_st s) -> k_maps (k_st s') = k_maps (k_st s) -> user_area s p n -> user_area s' p n.
Proof. intros Ec Ed Em (H1 & H2 & H3). split; [done|]. split; [done|]. intros x Hx. unfold user_byte. rewrite Ec, Ed, Em. by apply H3. Qed.

Lemma user_area_word s p n o : user_area s p n -> 0 <= o -> o + 4 <= n -> user_word s (w32 (p + o)) = true /\ w32 (p + o) = p + o.
Proof.
  intros (H1 & H2 & H3) Ho Hn. rewrite w32_small by (unfold u32; lia). split; [|done].
  unfold user_word. rewrite !H3 by lia. done.
Qed.

(** A byte of a mapping in the list can be accessed. *)
Lemma in_mapping_list maps a : forall l h n x m, linked maps h l -> (length l <= n)%nat -> x ∈ l ->
  maps !! x = Some m -> covers a m = true -> in_mapping maps a h n = true.
Proof.
  induction l as [|y l IH]; intros h n x m Hl Hn Hx Ex Hc; [by apply elem_of_nil in Hx|].
  destruct n as [|n]; [cbn in Hn; lia|]. destruct Hl as (-> & _ & b & Eb & Hl). cbn. rewrite Eb.
  apply elem_of_cons in Hx as [->|Hx]; [replace b with m by congruence; by rewrite Hc|].
  change (nxt b) with (sm_next b) in Hl. rewrite (IH _ n x m Hl ltac:(cbn in Hn; lia) Hx Ex Hc). apply orb_true_r.
Qed.

Lemma wp_uread s p n o (Q : Z -> kstate -> Prop) : user_area s p n -> 0 <= o -> o + 4 <= n ->
  Q (rd32 (umem_of s) (p + o)) s -> wp (uread (p + o)) s Q.
Proof. intros W Ho Hn HQ. destruct (user_area_word s p n o W Ho Hn) as [H1 H2]. unfold wp, uread. by rewrite H1, H2. Qed.

Lemma wp_uwrite s p n o v (Q : unit -> kstate -> Prop) : user_area s p n -> 0 <= o -> o + 4 <= n ->
  Q tt (with_umem (wr32 (umem_of s) (p + o) v) s) -> wp (uwrite (p + o) v) s Q.
Proof. intros W Ho Hn HQ. destruct (user_area_word s p n o W Ho Hn) as [H1 H2]. unfold wp, uwrite. by rewrite H1, H2. Qed.

Lemma user_area_with m s p n : user_area s p n -> user_area (with_umem m s) p n.
Proof. by apply user_area_frame. Qed.

Lemma umem_of_with m s : umem_of (with_umem m s) = m.
Proof. unfold umem_of, with_umem; cbn. by rewrite lookup_insert_eq. Qed.

Lemma with_umem_twice m m' s : with_umem m (with_umem m' s) = with_umem m s.
Proof. unfold with_umem; cbn. by rewrite insert_insert_eq. Qed.

Lemma k_st_with_umem m s : k_st (with_umem m s) = k_st s.
Proof. reflexivity. Qed.

Lemma wp_current_process t th s Q : current_thread (k_g s) = t -> t <> 0 ->
  k_threads (k_st s) !! t = Some th -> Q (t_process th) s -> wp current_process s Q.
Proof. intros <- Ht Eth HQ. unfold current_process. by ksteps. Qed.

Lemma wp_objdesc_read s p pr l es id Q : desc_list s p pr l es -> Q (obj_of es id) s ->
  wp (objdesc_read p id) s Q.
Proof. intros W HQ. eapply wp_eq; [by eapply objdesc_read_ok | done]. Qed.

(** The words of the [struct user_request] written for [rq]. *)
Definition user_words (rq : request) : list (Z * Z) :=
  [ (ur_func, rq_func rq);
    (ur_params 0, nthz (rq_params rq) 0); (ur_shmsize 0, nthz (rq_shmsize rq) 0);
    (ur_params 1, nthz (rq_params rq) 1); (ur_shmsize 1, nthz (rq_shmsize rq) 1);
    (ur_params 2, nthz (rq_params rq) 2); (ur_shmsize 2, nthz (rq_shmsize rq) 2);
    (ur_isBlocking, if requester rq =? 0 then 0 else 1); (ur_pid, rq_pid rq) ].

Definition write_words (p : Z) (ws : list (Z * Z)) (m : mem) : mem :=
  foldl (fun m '(o, v) => wr32 m (p + o) v) m ws.

Lemma write_user_request_ok p rq s : user_area s p 36 ->
  write_user_request p rq s = Ok (tt, with_umem (write_words p (user_words rq) (umem_of s)) s).
Proof.
  intros W. apply wp_eq_Ok. unfold write_user_request.
  do 8 (eapply wp_bind, (wp_uwrite _ p 36); [by repeat apply user_area_with | by vm_compute | by vm_compute |];
        rewrite ?umem_of_with, ?with_umem_twice).
  eapply (wp_uwrite _ p 36); [by apply user_area_with | by vm_compute | by vm_compute |]. by rewrite umem_of_with, with_umem_twice.
Qed.

(** Reading back one of the words that were written, when the offsets do
    not overlap. *)
Lemma write_words_read p ws o v : forall m,
  (o, v) ∈ ws -> NoDup ws.*1 -> u32 v -> 0 <= p -> p + 36 <= W32 ->
  (forall o' v', (o', v') ∈ ws -> 0 <= o' <= 32 /\ o' mod 4 = 0) ->
  rd32 (write_words p ws m) (p + o) = v.
Proof.
  induction ws as [|[o1 v1] ws IH] using rev_ind; intros m Hin Hnd Hv Hp Hpm Hoff; [set_solver|].
  unfold write_words. rewrite foldl_app. cbn [foldl].
  destruct (Hoff o v Hin) as [Ho Ha]. destruct (Hoff o1 v1) as [Ho1 Ha1]; [set_solver|].
  rewrite fmap_app in Hnd. apply NoDup_app in Hnd as (Hnd & Hd & _).
  apply elem_of_app in Hin as [Hin|[= -> ->]%list_elem_of_singleton].
  - rewrite rd32_wr32_ne.
    + apply IH; try done. intros o' v' ?. apply (Hoff o' v'). set_solver.
    + assert (o <> o1). { intros ->. apply (Hd o1); [by apply (list_elem_of_fmap_2 fst) in Hin | set_solver]. }
      Z.div_mod_to_equations. lia.
  - by apply rd32_wr32_eq.
Qed.

(** A pending request of plain integers. *)
Definition long_request (obj req func a b c pd j : Z) : request :=
  Request obj req func [a; b; c] [0; 0; 0] [j; j; j] [0; 0; 0] [0; 0; 0] RS_PENDING j j pd.

Definition all_long (func : Z) : Prop :=
  func_type func 0 = PT_LONG /\ func_type func 1 = PT_LONG /\ func_type func 2 = PT_LONG.

Lemma mk_param_long obj rq cp i v o r s : obj <> 0 -> rq <> 0 ->
  k_objects (k_st s) !! obj = Some o -> k_requests (k_st s) !! rq = Some r ->
  func_type (rq_func r) (Z.of_nat i) = PT_LONG ->
  mk_param obj rq cp i v s
  = Ok (tt, set_st (set_k_requests (<[rq := set_param i v r]> (k_requests (k_st s))) (k_st s)) s).
Proof.
  intros Ho Hr Eo Er Ef. apply wp_eq_Ok. unfold mk_param. ksteps. rewrite Ef. cbn [Z.eqb PT_OBJDESC PT_LONG Pos.eqb].
  by ksteps.
Qed.

Lemma mkrequest_long s obj req func a b c o cp t th pr : obj <> 0 ->
  k_objects (k_st s) !! obj = Some o -> owner o <> 0 -> wakeupOnRq o = 0 -> all_long func ->
  u32 a -> u32 b -> u32 c -> current_thread (k_g s) = t -> t <> 0 ->
  k_threads (k_st s) !! t = Some th -> t_process th = cp -> cp <> 0 ->
  k_processes (k_st s) !! cp = Some pr ->
  let rq := fresh_ptr (k_requests (k_st s)) in
  mkrequest_locked obj req func a b c s
  = Ok (inl rq, KState
      (set_k_requests (<[rq := long_request obj req func a b c (pid pr) (k_junk (k_g s))]> (k_requests (k_st s)))
        (set_k_objects (<[obj := set_o_request rq o]> (k_objects (k_st s))) (k_st s))) (k_g s)).
Proof.
  intros Ho Eo Hown Hw (F1 & F2 & F3) Ha Hb Hc Ec Ht Eth Ecp Hcp Ep rq.
  assert (Hrq : rq <> 0) by (pose proof (fresh_ptr_pos (k_requests (k_st s))); unfold rq; lia).
  apply wp_eq_Ok. unfold mkrequest_locked. ksteps. rewrite (proj2 (Z.eqb_neq _ _) Hown). apply wp_bind.
  eapply wp_current_process; try done. rewrite Ecp. ksteps. fold rq.
  do 3 (eapply wp_eq; [eapply mk_param_long; [done | done | klookup | klookup | first [exact F1 | exact F2 | exact F3]]|];
        ksteps).
  cbn [wakeupOnRq set_o_request]. rewrite Hw. cbn [Z.eqb]. ksteps.
  unfold set_param; cbn [rq_params set_rq_params insert list_insert].
  rewrite !(w32_small _ Ha), !(w32_small _ Hb), !(w32_small _ Hc), !insert_insert_eq. reflexivity.
Qed.

Lemma lock_free s obj o : obj <> 0 -> k_objects (k_st s) !! obj = Some o -> busyMutex o = MUTEX_UNLOCKED ->
  mutex_lockE obj s
  = Ok (1, set_st (set_k_objects (<[obj := set_busyMutex MUTEX_LOCKED o]> (k_objects (k_st s))) (k_st s)) s).
Proof.
  intros Ho Eo Em. apply wp_eq_Ok. unfold mutex_lockE. ksteps. by rewrite Em.
Qed.

Lemma release_params_none s rq own r i n : rq <> 0 -> k_requests (k_st s) !! rq = Some r ->
  (forall i, nthz (shm_rcv r) i = 0) -> (forall i, nthz (obj_close r) i = 0) ->
  release_params rq own i n s = Ok (tt, s).
Proof.
  intros Hr Er Hs Hc. revert i. induction n as [|n IH]; intros i; cbn [release_params]; [done|].
  krun. rewrite Hs, Hc. cbn [Z.eqb]. krun. apply IH.
Qed.

Lemma answer_n_low v r : u32 v -> w32 (rq_answer (set_answer_n v r)) = v.
Proof.
  intros Hv. cbn. unfold w32. rewrite (Z.mod_small v) by done.
  rewrite Z.shiftl_mul_pow2 by lia. change (2 ^ 32) with W32.
  rewrite Z.add_comm, Z_mod_plus_full. by apply Z.mod_small.
Qed.

(** The scheduler gives the processor to the thread [t] of the address space
    [pd]. *)
Definition run_as (t pd : ptr) (s : kstate) : kstate :=
  KState (k_st s) (set_current_pagedir pd (set_current_thread t (k_g s))).
Definition switch_to (t pd : ptr) : M kstate unit := fun s => Ok (tt, run_as t pd s).

(** One call: the current thread asks; the thread [t2] takes the request
    and answers; the first thread goes on. *)
Definition served (id urq t2 pd2 id2 p2 v err : Z) : M kstate outcome :=
  t ← getg current_thread; pd ← getg current_pagedir;
  x ← sys_request id urq;
  match x with
  | Done r => mret (Done r)
  | Sleep k =>
      switch_to t2 pd2;;
      (_ ← request_get id2 p2 1; request_answer id2 v 0 err);;
      switch_to t pd;;
      resume k
  end.

(** What [request_take] leaves for a request of a thread: it is marked
    PROCESSED, and the caller's memory describes it. *)
Lemma request_take_blocking s obj p o rq r : obj <> 0 -> rq <> 0 ->
  k_objects (k_st s) !! obj = Some o -> o_request o = rq ->
  k_requests (k_st s) !! rq = Some r -> requester r <> 0 -> user_area s p 36 ->
  request_take obj p s
  = Ok (tt, with_umem (write_words p (user_words r) (umem_of s))
              (set_st (set_k_requests (<[rq := set_acknowledged RS_PROCESSED r]> (k_requests (k_st s)))
                         (k_st s)) s)).
Proof.
  intros Ho Hr Eo <- Er Hq Ha. apply wp_eq_Ok. unfold request_take. ksteps.
  eapply wp_eq; [by apply write_user_request_ok, (user_area_frame s)|]. cbn [requester set_acknowledged].
  rewrite (proj2 (Z.eqb_neq _ _) Hq). cbn [negb]. ksteps. reflexivity.
Qed.

(** A message is dropped at once: the object is free again. *)
Lemma request_take_message s obj p o rq r : obj <> 0 -> rq <> 0 ->
  k_objects (k_st s) !! obj = Some o -> o_request o = rq ->
  k_requests (k_st s) !! rq = Some r -> requester r = 0 -> shm_sndr r = [0; 0; 0] -> user_area s p 36 ->
  request_take obj p s
  = Ok (tt, with_umem (write_words p (user_words r) (umem_of s))
              (set_st (set_k_objects (<[obj := set_busyMutex MUTEX_UNLOCKED (set_o_request 0 o)]> (k_objects (k_st s)))
                        (set_k_requests (delete rq (k_requests (k_st s))) (k_st s))) s)).
Proof.
  intros Ho Hr Eo <- Er Hq Hs Ha. apply wp_eq_Ok. unfold request_take. ksteps.
  eapply wp_eq; [by apply write_user_request_ok, (user_area_frame s)|]. cbn [requester set_acknowledged shm_sndr].
  rewrite Hq, Hs. cbn [Z.eqb negb existsb orb]. unfold drop_request, mutex_unlock, with_umem. ksteps.
  rewrite insert_insert_eq, delete_insert_eq. reflexivity.
Qed.

Lemma user_words_read p r m : 0 <= p -> p + 36 <= W32 ->
  Forall (fun w => u32 w.2) (user_words r) ->
  forall o v, (o, v) ∈ user_words r -> rd32 (write_words p (user_words r) m) (p + o) = v.
Proof.
  intros Hp Hpm Hall o v Hin. apply write_words_read; try done.
  - apply (bool_decide_unpack _). reflexivity.
  - rewrite Forall_forall in Hall. by apply (Hall (o, v)).
  - intros o' v' Hin'. apply (list_elem_of_fmap_2 fst) in Hin'. revert Hin'. cbn [fst]. revert o'.
    apply Forall_forall. cbn. repeat (constructor; [by vm_compute|]). constructor.
Qed.

Lemma long_words_u32 obj t func a b c pd j : u32 func -> u32 a -> u32 b -> u32 c -> u32 pd -> u32 j ->
  Forall (fun w => u32 w.2) (user_words (long_request obj t func a b c pd j)).
Proof.
  intros ? ? ? ? ? ?. assert (u32 0) by (unfold u32; lia). assert (u32 1) by (unfold u32; lia).
  unfold user_words. repeat (apply Forall_cons_2; [cbn [snd]; first [assumption | by destruct (t =? 0) eqn:E; cbn; rewrite E]|]).
  apply Forall_nil_2.
Qed.

(** [request_answer] for an answer that is a plain integer, when no
    parameter has to be released. *)
Lemma set_answer_long s rq own v v2 r : rq <> 0 -> k_requests (k_st s) !! rq = Some r ->
  answer_type (rq_func r) = PT_LONG ->
  set_answer rq own v v2 s
  = Ok (tt, set_st (set_k_requests (<[rq := set_answer_n v r]> (k_requests (k_st s))) (k_st s)) s).
Proof.
  intros Hr Er Hf. apply wp_eq_Ok. unfold set_answer. ksteps. rewrite Hf.
  cbn [Z.eqb PT_OBJDESC PT_LONG Pos.eqb]. ksteps. reflexivity.
Qed.

Definition answered (err v : Z) (r : request) : request :=
  set_rq_errcode err (set_answer_n v (set_acknowledged RS_FINISHED r)).

(** The current thread [t] belongs to the process [cp]. *)
Record runs (s : kstate) (t cp : ptr) : Prop := {
  rn_nonzero : current_thread (k_g s) <> 0;
  rn_current : current_thread (k_g s) = t;
  rn_thread : exists th, k_threads (k_st s) !! t = Some th /\ t_process th = cp
}.

Lemma wp_current_runs s t cp Q : runs s t cp -> Q cp s -> wp current_process s Q.
Proof.
  intros [R1 R2 (th & R3 & R4)] HQ. eapply wp_current_process; [exact R2 | congruence | exact R3 | by rewrite R4].
Qed.

(** The process [cp] holds descriptor [id] on the object [o] it owns. *)
Record serves (s : kstate) (cp : ptr) (id : Z) (obj : ptr) (o : object) : Prop := {
  sv_desc : exists pr l es, desc_list s cp pr l es /\ obj_of es id = obj;
  sv_nonzero : obj <> 0;
  sv_object : k_objects (k_st s) !! obj = Some o;
  sv_owner : owner o = cp
}.

Lemma serves_frame s s' cp id obj o o' : serves s cp id obj o -> k_objects (k_st s') !! obj = Some o' ->
  owner o' = owner o -> k_processes (k_st s') = k_processes (k_st s) -> k_descs (k_st s') = k_descs (k_st s) ->
  serves s' cp id obj o'.
Proof.
  intros [(pr & l & es & [D1 D2 D3 D4 D5 D6 D7 D8] & V1) V2 V3 V4] Eo Eow Ep Ed. split; try done; [|congruence].
  exists pr, l, es. split; [|done]. split; try done; by rewrite ?Ep, ?Ed.
Qed.

Lemma wp_serves s cp id obj o Q : serves s cp id obj o -> Q obj s -> wp (objdesc_read cp id) s Q.
Proof. intros [(pr & l & es & Wd & Eo) _ _ _] HQ. eapply wp_objdesc_read; [exact Wd | by rewrite Eo]. Qed.

(** [request_get] on a pending request goes straight to [request_take]. *)
Lemma request_get_pending s t cp id obj o r p wait s' : runs s t cp -> serves s cp id obj o ->
  busyMutex o = MUTEX_LOCKED -> o_request o <> 0 ->
  k_requests (k_st s) !! o_request o = Some r -> acknowledged r = RS_PENDING ->
  request_take obj p s = Ok (tt, s') -> request_get id p wait s = Ok (Done 0, s').
Proof.
  intros R V Hb Hr Er Ha Et. pose proof V as [_ Ho Eo Eow]. apply wp_eq_Ok. unfold request_get. ksteps.
  eapply wp_current_runs; [done|]. ksteps. eapply wp_serves; [done|].
  rewrite (proj2 (Z.eqb_neq _ _) Ho). ksteps. rewrite Eow, Z.eqb_refl. cbn [negb].
  rewrite (proj2 (Z.eqb_neq _ _) Hr). ksteps. rewrite Ha. cbn [Z.eqb negb RS_PENDING]. ksteps.
  rewrite andb_false_r. unfold request_get_loop. ksteps. unfold must_wait. rewrite Hb. cbn [Z.eqb negb MUTEX_LOCKED Pos.eqb].
  ksteps. eapply wp_eq; [exact Et|]. by ksteps.
Qed.

Lemma answer_low err v r : u32 v -> w32 (rq_answer (answered err v r)) = v.
Proof. intros Hv. by apply answer_n_low. Qed.

Lemma request_answer_long s t cp id obj o r v v2 err qs q : runs s t cp -> serves s cp id obj o ->
  o_request o <> 0 -> k_requests (k_st s) !! o_request o = Some r -> acknowledged r <> RS_PENDING ->
  requester r <> 0 -> (forall i, nthz (shm_rcv r) i = 0) -> (forall i, nthz (obj_close r) i = 0) ->
  answer_type (rq_func r) = PT_LONG -> queues_ok s qs -> waiting s qs (requester r) q ->
  exists s', request_answer id v v2 err s = Ok (tt, s') /\
    k_st s' = set_k_objects (<[obj := set_busyMutex MUTEX_UNLOCKED (set_o_request 0 o)]> (k_objects (k_st s)))
               (set_k_requests (<[o_request o := answered err v r]> (k_requests (k_st s)))
                 (set_k_threads (k_threads (k_st s')) (k_st s))) /\
    k_g s' = set_queue (queue (k_g s')) (set_last (last (k_g s')) (k_g s)) /\
    queues_ok s' (upd qs q (qs q ++ [requester r])) /\
    (exists th, k_threads (k_st s') !! requester r = Some th /\ t_state th = TS_RUNNING).
Proof.
  intros R V Hr Er Ha Hq Hs Hc Hf Wq Wt. pose proof V as [_ Ho Eo Eow].
  set (s1 := set_st (set_k_requests (<[o_request o := answered err v r]> (k_requests (k_st s))) (k_st s)) s).
  destruct (wake_ok (requester r) q qs s1) as (s2 & Ew & Wk);
    [by eapply queues_ok_frame | by eapply waiting_frame |].
  destruct Wk as [K1 K2 _ _ K5 K6].
  exists (set_st (set_k_objects (<[obj := set_busyMutex MUTEX_UNLOCKED (set_o_request 0 o)]> (k_objects (k_st s2)))
            (k_st s2)) s2).
  split.
  - apply wp_eq_Ok. unfold request_answer. ksteps. eapply wp_current_runs; [done|]. ksteps.
    eapply wp_serves; [done|]. rewrite (proj2 (Z.eqb_neq _ _) Ho). ksteps.
    rewrite Eow, Z.eqb_refl, (proj2 (Z.eqb_neq _ _) Hr). cbn [negb]. ksteps.
    rewrite (proj2 (Z.eqb_neq _ _) Ha), (proj2 (Z.eqb_neq _ _) Hq). cbn [orb]. ksteps.
    eapply wp_eq; [by eapply release_params_none|]. ksteps.
    eapply wp_eq; [eapply set_answer_long; [exact Hr | ksimp; apply lookup_insert_eq | exact Hf]|]. ksteps.
    eapply wp_eq. { rewrite !insert_insert_eq. exact Ew. }
    assert (Eo2 : k_objects (k_st s2) !! obj = Some o) by (rewrite K5; exact Eo).
    unfold mutex_unlock. ksteps. by rewrite insert_insert_eq.
  - cbn [k_st k_g set_st]. split; [by rewrite K5|]. split; [exact K6|].
    split; [by eapply queues_ok_frame | exact K2].
Qed.

(** [sys_request] on a free object, integer parameters. *)
Lemma sys_request_long s id urq t th cp pr l es obj o :
  current_thread (k_g s) = t -> t <> 0 -> k_threads (k_st s) !! t = Some th -> t_process th = cp ->
  desc_list s cp pr l es -> obj_of es id = obj -> obj <> 0 ->
  k_objects (k_st s) !! obj = Some o -> busyMutex o = MUTEX_UNLOCKED -> owner o <> 0 -> wakeupOnRq o = 0 ->
  user_area s urq 32 ->
  let arg n := rd32 (umem_of s) (urq + n) in
  all_long (arg us_func) ->
  let rq := fresh_ptr (k_requests (k_st s)) in
  sys_request id urq s
  = Ok (Sleep (KRequest rq urq), KState
      (set_k_threads (<[t := set_t_state TS_WAKEWAIT th]> (k_threads (k_st s)))
        (set_k_requests (<[rq := long_request obj t (arg us_func) (arg (us_arg 0)) (arg (us_arg 1))
                                   (arg (us_arg 2)) (pid pr) (k_junk (k_g s))]> (k_requests (k_st s)))
          (set_k_objects (<[obj := set_o_request rq (set_busyMutex MUTEX_LOCKED o)]> (k_objects (k_st s)))
            (k_st s)))) (k_g s)).
Proof.
  intros Et Ht Eth Ecp Wd Eobj Hobj Eo Em Hown Hw Hua arg Hl rq.
  assert (Hrq : rq <> 0) by (pose proof (fresh_ptr_pos (k_requests (k_st s))); unfold rq; lia).
  apply wp_eq_Ok. unfold sys_request. ksteps. unfold send_start.
  do 4 (eapply wp_bind, (wp_uread _ urq 32); [done | by vm_compute | by vm_compute |]). fold (arg us_func) (arg (us_arg 0)) (arg (us_arg 1)) (arg (us_arg 2)).
  ksteps. eapply wp_current_process; try done. rewrite Ecp. ksteps. eapply wp_objdesc_read; [exact Wd|].
  rewrite Eobj, (proj2 (Z.eqb_neq _ _) Hobj). unfold lock_and_send. ksteps.
  eapply wp_eq; [by eapply lock_free|]. cbn [Z.eqb]. ksteps.
  eapply wp_eq.
  { rewrite Et; eapply (mkrequest_long _ obj t _ _ _ _ (set_busyMutex MUTEX_LOCKED o) cp t th pr).
    - exact Hobj.
    - apply lookup_insert_eq.
    - exact Hown.
    - exact Hw.
    - exact Hl.
    - apply rd32_range.
    - apply rd32_range.
    - apply rd32_range.
    - exact Et.
    - exact Ht.
    - exact Eth.
    - exact Ecp.
    - exact (dl_nonzero _ _ _ _ _ Wd).
    - exact (dl_process _ _ _ _ _ Wd). }
  unfold after_mkrequest. ksimp. fold rq. rewrite (proj2 (Z.eqb_neq _ _) Hrq), Et, (proj2 (Z.eqb_neq _ _) Ht).
  unfold goInactive_mark. ksteps. rewrite Et. ksteps.
  rewrite insert_insert_eq. reflexivity.
Qed.

(** The server's turn on a pending request. *)
Lemma server_turn s t cp id obj o r p v err qs q : runs s t cp -> serves s cp id obj o ->
  busyMutex o = MUTEX_LOCKED -> o_request o <> 0 ->
  k_requests (k_st s) !! o_request o = Some r -> acknowledged r = RS_PENDING -> requester r <> 0 ->
  (forall i, nthz (shm_rcv r) i = 0) -> (forall i, nthz (obj_close r) i = 0) ->
  answer_type (rq_func r) = PT_LONG -> queues_ok s qs -> waiting s qs (requester r) q -> user_area s p 36 ->
  exists s', (_ ← request_get id p 1; request_answer id v 0 err) s = Ok (tt, s') /\
    k_requests (k_st s')
    = <[o_request o := answered err v (set_acknowledged RS_PROCESSED r)]> (k_requests (k_st s)) /\
    k_objects (k_st s')
    = <[obj := set_busyMutex MUTEX_UNLOCKED (set_o_request 0 o)]> (k_objects (k_st s)) /\
    umem (k_g s') = <[current_pagedir (k_g s) := write_words p (user_words r) (umem_of s)]> (umem (k_g s)) /\
    queues_ok s' (upd qs q (qs q ++ [requester r])) /\
    k_pagedirs (k_st s') = k_pagedirs (k_st s) /\ k_maps (k_st s') = k_maps (k_st s).
Proof.
  intros R V Hb Hr Er Ha Hq Hs Hc Hf Wq Wt Hua. pose proof V as [_ Ho Eo _].
  set (s2 := with_umem (write_words p (user_words r) (umem_of s))
              (set_st (set_k_requests (<[o_request o := set_acknowledged RS_PROCESSED r]> (k_requests (k_st s)))
                         (k_st s)) s)).
  destruct (request_answer_long s2 t cp id obj o (set_acknowledged RS_PROCESSED r) v 0 err qs q)
    as (s' & E & Est & Eg & Wq' & _); try done.
  - destruct R. by split.
  - by apply (serves_frame s _ _ _ _ o).
  - apply lookup_insert_eq.
  - destruct Wq as [W1 W2 W3]. by split.
  - destruct Wt as [W1 W2 W3 W4 W5]. by split.
  - exists s'. rewrite Est, Eg. split; [|split; [cbn; by rewrite insert_insert_eq|by split]].
    rewrite (bind_Ok _ _ _ (Done 0) s2); [exact E|].
    by eapply request_get_pending, request_take_blocking.
Qed.

(** [request_finish] for an integer answer. *)
Lemma request_finish_long s rq urq r : rq <> 0 -> k_requests (k_st s) !! rq = Some r ->
  acknowledged r <> RS_INTERRUPTED -> user_area s urq 32 ->
  answer_type (rd32 (umem_of s) (urq + us_func)) = PT_LONG ->
  request_finish rq urq s
  = Ok (Done 0, with_umem (wr32 (wr32 (umem_of s) (urq + us_answeri) (w32 (rq_answer r)))
                             (urq + us_errcode) (rq_errcode r))
                  (set_st (set_k_requests (delete rq (k_requests (k_st s))) (k_st s)) s)).
Proof.
  intros Hr Er Ha Hua Hf. apply wp_eq_Ok. unfold request_finish. ksteps.
  rewrite (proj2 (Z.eqb_neq _ _) Ha). eapply wp_bind, (wp_uread _ urq 32); [done | by vm_compute | by vm_compute |]. rewrite Hf.
  cbn [Z.eqb PT_OBJDESC PT_LONG Pos.eqb orb].
  eapply wp_bind, (wp_uwrite _ urq 32); [done | by vm_compute | by vm_compute |].
  eapply wp_bind, (wp_uwrite _ urq 32); [by apply user_area_with | by vm_compute | by vm_compute |].
  rewrite umem_of_with, with_umem_twice. unfold with_umem. ksteps. reflexivity.
Qed.

(** ** A sample: thread 3 of process 1 (client) and thread 4 of process 2
    (server); object 6 belongs to process 2, descriptor 1 of process 1 and
    0 of process 2 *)

Definition client_mem : mem := write_words 0x1000
  [(us_func, 0xAA000000); (us_arg 0, 10); (us_arg 1, 20); (us_arg 2, 30)] (fun _ => 0).

Definition sample_ipc : kstate :=
  let s := boot_state 1 0 in
  KState
    (set_k_processes {[ 1 := Process 77 0 3 1 0 11 0 20 2 0 0 0; 2 := Process 78 0 3 1 0 12 0 30 1 0 0 0 ]}
      (set_k_objects {[ 5 := Object 1 1 0 0 0; 6 := Object 2 2 0 0 0 ]}
        (set_k_descs {[ 10 := ObjDescriptor 5 0 0; 20 := ObjDescriptor 6 1 10; 30 := ObjDescriptor 6 0 0 ]}
          (set_k_pagedirs {[ 11 := PageDirectory ∅ ∅ 0 40; 12 := PageDirectory ∅ ∅ 0 41 ]}
            (set_k_maps {[ 40 := SegmentMap 50 11 0x1000 0x1000 0; 41 := SegmentMap 51 12 0x2000 0x1000 0 ]}
              (set_k_threads {[ 3 := Thread 1 0 0 0 0 0 0 0 0 0; 4 := Thread 2 0 0 0 0 0 0 0 0 0 ]} (k_st s)))))))
    (set_umem {[ 11 := client_mem ]} (set_current_pagedir 11 (set_current_thread 3 (k_g s)))).

(** Each of the two has a page for its [struct]. *)
Lemma sample_user_page s u m x : k_pagedirs (k_st s) !! current_pagedir (k_g s) = Some (PageDirectory ∅ ∅ 0 u) -> u <> 0 ->
  k_maps (k_st s) = k_maps (k_st sample_ipc) -> k_maps (k_st s) !! u = Some m -> sm_next m = 0 ->
  sm_start m <= x < sm_start m + 0x1000 -> w32 (sm_start m + sm_len m) = sm_start m + 0x1000 -> x < 0xE0000000 ->
  user_byte s x = true.
Proof.
  intros Ed Hu Em Eu Hn Hx Hw Hl. unfold user_byte. rewrite (proj2 (Z.ltb_lt _ _)), Ed by done. cbn [andb].
  apply (in_mapping_list _ x [u] _ _ u m); [| by rewrite Em; vm_compute; lia | by left | done |].
  - split; [done|]. split; [done|]. exists m. by split.
  - unfold covers. rewrite Hw. lia.
Qed.

Lemma sample_areas : user_area sample_ipc 0x1000 32 /\ user_area (run_as 4 12 sample_ipc) 0x2000 36.
Proof.
  split; (split; [done|]; split; [by vm_compute|]); intros x Hx.
  - apply (sample_user_page _ 40 (SegmentMap 50 11 0x1000 0x1000 0)); try done; cbn; lia.
  - apply (sample_user_page _ 41 (SegmentMap 51 12 0x2000 0x1000 0)); try done; cbn; lia.
Qed.

Lemma sample_client : desc_list sample_ipc 1 (Process 77 0 3 1 0 11 0 20 2 0 0 0) [20; 10] [(1, 6); (0, 5)].
Proof.
  split; try done.
  - repeat (eexists || split || done).
  - by apply (bool_decide_unpack _).
  - by apply (bool_decide_unpack _).
  - cbn. intros i o Hi. rewrite !elem_of_cons, elem_of_nil in Hi.
    destruct Hi as [[= -> ->]|[[= -> ->]|[]]]; lia.
Qed.

Lemma sample_server : serves sample_ipc 2 0 6 (Object 2 2 0 0 0).
Proof.
  split; try done. exists (Process 78 0 3 1 0 12 0 30 1 0 0 0), [30], [(0, 6)]. split; [|done]. split; try done.
  - repeat (eexists || split || done).
  - by apply (bool_decide_unpack _).
  - by apply (bool_decide_unpack _).
  - cbn. intros i o Hi. apply list_elem_of_singleton in Hi as [= -> ->]. lia.
Qed.

Lemma sample_ipc_queues : queues_ok sample_ipc (fun _ => []).
Proof. split; [by intros | by intros | intros; set_solver]. Qed.

(** The whole exchange on the sample: the client asks f(10, 20, 30), the
    server takes the request and answers 42 with error code 7, the client
    reads the answer; the object is free again. *)
Example exchange :
  match served 1 0x1000 4 12 0 0x2000 42 7 sample_ipc with
  | Ok (Done r, s2) =>
      (r, rd32 (umem_of s2) (0x1000 + us_answeri), rd32 (umem_of s2) (0x1000 + us_errcode),
       busyMutex <$> k_objects (k_st s2) !! 6, o_request <$> k_objects (k_st s2) !! 6,
       size (k_requests (k_st s2)))
  | _ => (1, 0, 0, None, None, 0%nat)
  end = (0, 42, 7, Some 0, Some 0, 0%nat).
Proof. vm_compute. reflexivity. Qed.

(** ** Theorems *)

(** A pointer outside the mapped segments. *)
Theorem uread_unmapped s a : u32 a -> user_byte s a = false -> uread a s = Fault (BadAccess a) /\
  forall v, uwrite a v s = Fault (BadAccess a).
Proof. intros Ha Hb. unfold uread, uwrite, user_word. by rewrite w32_small, Hb by done. Qed.

(** A request on a free object: the object is locked, a pending request
    with the function, the arguments, the caller and its pid is attached,
    and the caller stops until it is answered. *)
Theorem request_sends s id urq t th cp pr l es obj o :
  current_thread (k_g s) = t -> t <> 0 -> k_threads (k_st s) !! t = Some th -> t_process th = cp ->
  desc_list s cp pr l es -> obj_of es id = obj -> obj <> 0 ->
  k_objects (k_st s) !! obj = Some o -> busyMutex o = MUTEX_UNLOCKED -> owner o <> 0 -> wakeupOnRq o = 0 ->
  user_area s urq 32 ->
  let arg n := rd32 (umem_of s) (urq + n) in
  all_long (arg us_func) ->
  let rq := fresh_ptr (k_requests (k_st s)) in
  exists s', sys_request id urq s = Ok (Sleep (KRequest rq urq), s') /\
    k_requests (k_st s')
    = <[rq := long_request obj t (arg us_func) (arg (us_arg 0)) (arg (us_arg 1)) (arg (us_arg 2))
                (pid pr) (k_junk (k_g s))]> (k_requests (k_st s)) /\
    k_objects (k_st s') = <[obj := set_o_request rq (set_busyMutex MUTEX_LOCKED o)]> (k_objects (k_st s)) /\
    k_threads (k_st s') = <[t := set_t_state TS_WAKEWAIT th]> (k_threads (k_st s)) /\ k_g s' = k_g s.
Proof.
  intros. eexists. split; [by eapply sys_request_long|]. done.
Qed.

Lemma request_sends_witness :
  exists s', sys_request 1 0x1000 sample_ipc = Ok (Sleep (KRequest 1 0x1000), s') /\
    k_requests (k_st s') = <[1 := long_request 6 3 0xAA000000 10 20 30 77 0]> (k_requests (k_st sample_ipc)) /\
    k_objects (k_st s') = <[6 := Object 2 2 1 1 0]> (k_objects (k_st sample_ipc)) /\
    k_threads (k_st s') = <[3 := Thread 1 0 0 0 2 0 0 0 0 0]> (k_threads (k_st sample_ipc)) /\
    k_g s' = k_g sample_ipc.
Proof.
  apply (request_sends sample_ipc 1 0x1000 3 (Thread 1 0 0 0 0 0 0 0 0 0) 1
    (Process 77 0 3 1 0 11 0 20 2 0 0 0) [20; 10] [(1, 6); (0, 5)] 6 (Object 2 2 0 0 0)); try done.
  - apply sample_client.
  - apply sample_areas.
Defined.

(** C6. A whole call between two processes, of a function with three integer
    parameters and an integer answer.  When the server takes the request and
    answers [v] with error code [err], the caller gets 0, [v] and [err]; the
    server has read the function, the arguments and the pid of the caller;
    the request is freed and every object is as before.  The [struct]s that
    the two point to are in segments mapped in their spaces (elsewhere the
    kernel faults: [uread_unmapped]). *)
Theorem request_roundtrip s id urq t th cp pr l es obj o t2 th2 pd2 id2 p2 v err qs :
  current_thread (k_g s) = t -> t <> 0 -> k_threads (k_st s) !! t = Some th -> t_process th = cp ->
  desc_list s cp pr l es -> obj_of es id = obj ->
  k_objects (k_st s) !! obj = Some o -> busyMutex o = MUTEX_UNLOCKED -> o_request o = 0 -> wakeupOnRq o = 0 ->
  let arg n := rd32 (umem_of s) (urq + n) in
  all_long (arg us_func) -> answer_type (arg us_func) = PT_LONG -> u32 (pid pr) -> u32 (k_junk (k_g s)) ->
  t2 <> 0 -> t2 <> t -> k_threads (k_st s) !! t2 = Some th2 -> owner o <> 0 ->
  serves s (t_process th2) id2 obj o -> current_pagedir (k_g s) <> pd2 ->
  user_area (run_as t2 pd2 s) p2 36 -> user_area s urq 32 -> u32 v -> u32 err ->
  queues_ok s qs -> waiting (set_st (set_k_threads (<[t := set_t_state TS_WAKEWAIT th]> (k_threads (k_st s)))
                                       (k_st s)) s) qs t (privilege pr) ->
  exists s', served id urq t2 pd2 id2 p2 v err s = Ok (Done 0, s') /\
    rd32 (umem_of s') (urq + us_answeri) = v /\ rd32 (umem_of s') (urq + us_errcode) = err /\
    (let m2 := default (fun _ => 0) (umem (k_g s') !! pd2) in
     rd32 m2 (p2 + ur_func) = arg us_func /\ rd32 m2 (p2 + ur_params 0) = arg (us_arg 0) /\
     rd32 m2 (p2 + ur_params 1) = arg (us_arg 1) /\ rd32 m2 (p2 + ur_params 2) = arg (us_arg 2) /\
     rd32 m2 (p2 + ur_pid) = pid pr) /\
    k_requests (k_st s') = k_requests (k_st s) /\ k_objects (k_st s') = k_objects (k_st s).
Proof.
  intros Et Ht Eth Ecp Wd Eobj Eo Em Erq Hw arg Hl Hf Hpid Hj Ht2 Hne Eth2 Hown V Hpd Hp2 Hu Hv Herr Wq Wt.
  pose proof V as [_ Hobj _ Eown].
  assert (Hrq : fresh_ptr (k_requests (k_st s)) <> 0) by (pose proof (fresh_ptr_pos (k_requests (k_st s))); lia).
  assert (Hfr : k_requests (k_st s) !! fresh_ptr (k_requests (k_st s)) = None) by apply fresh_ptr_None.
  apply wp_val. unfold served. ksteps. eapply wp_eq; [by eapply (sys_request_long s id urq t th cp pr l es obj o)|].
  fold (arg us_func) (arg (us_arg 0)) (arg (us_arg 1)) (arg (us_arg 2)).
  set (rq := fresh_ptr (k_requests (k_st s))) in *.
  set (r := long_request obj t (arg us_func) (arg (us_arg 0)) (arg (us_arg 1)) (arg (us_arg 2)) (pid pr) (k_junk (k_g s))).
  set (s1 := KState _ (k_g s)).
  apply wp_bind, (wp_eq (switch_to t2 pd2) s1 tt (run_as t2 pd2 s1)); [done|].
  destruct (server_turn (run_as t2 pd2 s1) t2 (t_process th2) id2 obj
    (set_o_request rq (set_busyMutex MUTEX_LOCKED o)) r p2 v err qs (privilege pr))
    as (s2 & E2 & Erqs & Eobjs & Eum & _ & Edirs & Emaps); try done.
  { split; [done | done|]. exists th2. split; [|done]. cbn. by rewrite lookup_insert_ne. }
  { apply (serves_frame s _ _ _ _ o); try done. apply lookup_insert_eq. }
  { apply lookup_insert_eq. }
  { by intros [|[|[|i]]]. } { by intros [|[|[|i]]]. }
  { by destruct (queues_ok_write t th (set_t_state TS_WAKEWAIT th) qs s Wq Eth eq_refl) as [X1 X2 X3]; split. }
  { by destruct Wt as [W1 W2 W3 W4 W5]; split. }
  apply wp_bind. eapply wp_eq; [exact E2|]. rewrite Et.
  apply wp_bind. eapply wp_eq; [reflexivity|].
  set (pd := current_pagedir (k_g s)) in *. cbn [current_pagedir run_as k_g set_current_pagedir] in Eum.
  assert (Em2 : umem_of (run_as t pd s2) = umem_of s).
  { unfold umem_of. cbn. by rewrite Eum, lookup_insert_ne. }
  eapply wp_eq.
  { apply (request_finish_long _ rq urq (answered err v (set_acknowledged RS_PROCESSED r))); try done.
    - cbn [k_st run_as]. rewrite Erqs. apply lookup_insert_eq.
    - by apply (user_area_frame s).
    - rewrite Em2. exact Hf. }
  rewrite umem_of_with, Em2. rewrite (answer_low err v _ Hv).
  change (rq_errcode (answered err v (set_acknowledged RS_PROCESSED r))) with err.
  split; [done|]. split.
  { rewrite rd32_wr32_ne by (unfold us_answeri, us_errcode; lia). by apply rd32_wr32_eq. }
  split; [by apply rd32_wr32_eq|]. cbn [k_st k_g with_umem set_st umem set_umem run_as current_pagedir set_current_pagedir
     k_requests set_k_requests k_objects]. rewrite lookup_insert_ne by done.
  change (umem (set_current_thread t (k_g s2))) with (umem (k_g s2)). rewrite Eum, lookup_insert_eq. cbn [default].
  split; [|split].
  - assert (Hall : Forall (fun w => u32 w.2) (user_words r)) by
      (apply long_words_u32; first [apply rd32_range | assumption]).
    destruct Hp2 as (Hp & Hp' & _). pose proof (user_words_read p2 r (umem_of (run_as t2 pd2 s1)) Hp Hp' Hall) as Hrd.
    repeat split; apply Hrd, list_elem_of_In; cbn; tauto.
  - rewrite Erqs. cbn. by rewrite insert_insert_eq, delete_insert_id.
  - rewrite Eobjs. cbn. rewrite insert_insert_eq. apply insert_id. rewrite Eo. f_equal.
    destruct o; cbn in *; unfold MUTEX_UNLOCKED in *; by subst.
Qed.

Lemma request_roundtrip_witness :
  exists s', served 1 0x1000 4 12 0 0x2000 42 7 sample_ipc = Ok (Done 0, s') /\
    rd32 (umem_of s') (0x1000 + us_answeri) = 42 /\ rd32 (umem_of s') (0x1000 + us_errcode) = 7 /\
    (let m2 := default (fun _ => 0) (umem (k_g s') !! 12) in
     rd32 m2 (0x2000 + ur_func) = 0xAA000000 /\ rd32 m2 (0x2000 + ur_params 0) = 10 /\
     rd32 m2 (0x2000 + ur_params 1) = 20 /\ rd32 m2 (0x2000 + ur_params 2) = 30 /\
     rd32 m2 (0x2000 + ur_pid) = 77) /\
    k_requests (k_st s') = k_requests (k_st sample_ipc) /\ k_objects (k_st s') = k_objects (k_st sample_ipc).
Proof.
  apply (request_roundtrip sample_ipc 1 0x1000 3 (Thread 1 0 0 0 0 0 0 0 0 0) 1
    (Process 77 0 3 1 0 11 0 20 2 0 0 0) [20; 10] [(1, 6); (0, 5)] 6 (Object 2 2 0 0 0)
    4 (Thread 2 0 0 0 0 0 0 0 0 0) 12 0 0x2000 42 7 (fun _ => [])); try done.
  - apply sample_client.
  - apply sample_server.
  - apply sample_areas.
  - apply sample_areas.
  - apply sample_ipc_queues.
  - split; try done; [set_solver|]. by do 2 eexists.
Defined.

(** Taking a message: [request_get] answers 0, writes the message for the
    caller, frees it and unlocks the object; nobody waits for an answer. *)
Theorem request_get_message s t cp id obj o r p wait :
  runs s t cp -> serves s cp id obj o -> busyMutex o = MUTEX_LOCKED -> o_request o <> 0 ->
  k_requests (k_st s) !! o_request o = Some r -> acknowledged r = RS_PENDING ->
  requester r = 0 -> shm_sndr r = [0; 0; 0] -> user_area s p 36 ->
  Forall (fun w => u32 w.2) (user_words r) ->
  exists s', request_get id p wait s = Ok (Done 0, s') /\
    (forall off v, (off, v) ∈ user_words r -> rd32 (umem_of s') (p + off) = v) /\
    k_requests (k_st s') = delete (o_request o) (k_requests (k_st s)) /\
    k_objects (k_st s') = <[obj := set_busyMutex MUTEX_UNLOCKED (set_o_request 0 o)]> (k_objects (k_st s)) /\
    k_threads (k_st s') = k_threads (k_st s).
Proof.
  intros R V Hb Hr Er Ha Hq Hs Hp Hall. pose proof V as [_ Ho Eo _]. eexists. split.
  { eapply request_get_pending; try done. by eapply (request_take_message s obj p o (o_request o) r). }
  rewrite umem_of_with. destruct Hp as (Hp0 & Hp1 & _). split; [by apply user_words_read | done].
Qed.

(** The sample with a message of process 1 waiting on object 6, taken by
    thread 4. *)
Definition sample_message : kstate :=
  KState
    (set_k_requests {[ 9 := Request 6 0 0xAA000000 [1; 2; 3] [0; 0; 0] [0; 0; 0] [0; 0; 0] [0; 0; 0] RS_PENDING 0 0 77 ]}
      (set_k_objects {[ 5 := Object 1 1 0 0 0; 6 := Object 2 2 1 9 0 ]} (k_st sample_ipc)))
    (k_g (run_as 4 12 sample_ipc)).

Lemma request_get_message_witness :
  exists s', request_get 0 0x2000 0 sample_message = Ok (Done 0, s') /\
    (forall off v, (off, v) ∈ [(0, 0xAA000000); (4, 1); (16, 0); (8, 2); (20, 0); (12, 3); (24, 0); (28, 0); (32, 77)] ->
       rd32 (umem_of s') (0x2000 + off) = v) /\
    k_requests (k_st s') = delete 9 (k_requests (k_st sample_message)) /\
    k_objects (k_st s') = <[6 := Object 2 2 0 0 0]> (k_objects (k_st sample_message)) /\
    k_threads (k_st s') = k_threads (k_st sample_message).
Proof.
  apply (request_get_message sample_message 4 2 0 6 (Object 2 2 1 9 0)
    (Request 6 0 0xAA000000 [1; 2; 3] [0; 0; 0] [0; 0; 0] [0; 0; 0] [0; 0; 0] RS_PENDING 0 0 77) 0x2000 0); try done.
  - split; try done. by eexists.
  - by apply (serves_frame sample_ipc _ _ _ _ (Object 2 2 0 0 0) _ sample_server).
  - apply (user_area_frame (run_as 4 12 sample_ipc)); [done..|]. apply sample_areas.
  - repeat (apply Forall_cons_2; [by vm_compute|]). apply Forall_nil_2.
Defined.
