(* ===== verification/Syscalls.v ===== *)
(** * System calls

    The kernel's table ([src/kernel/task/syscall.c]), its handler
    ([idt_syscallHandler] in [src/kernel/task/idt.c]) and the stubs of the
    user library ([src/library/gc/syscall.c]).  A stub loads the number and
    the arguments in registers; the theorem says that every stub reaches
    the kernel function it is named after, with its arguments in order. *)

From S2P Require Import Prelude Memory Bitset Kernel Segments Sched Timer Objects Tasking Requests.

(** The registers a call is made with. *)
Record regs := Regs { eax : Z; ebx : Z; ecx : Z; edx : Z; esi : Z; edi : Z }.

(** What a call gives: a value for eax, nothing, text to print (at an
    address), a context switch asked for, a blocked thread, or a thread
    that is gone. *)
Inductive sysout :=
| Eax (v : Z)
| NoEax
| Printed (str : Z)
| Schedule
| Blocked (k : option kcont)
| Gone.

Definition of_outcome (m : M kstate outcome) : M kstate sysout :=
  o ← m; match o with Done r => mret (Eax (w32 r)) | Sleep k => mret (Blocked (Some k)) end.
Definition eax_of (m : M kstate Z) : M kstate sysout := v ← m; mret (Eax (w32 v)).
Definition void (m : M kstate unit) : M kstate sysout := m;; mret NoEax.
Definition gone (m : M kstate unit) : M kstate sysout := m;; mret Gone.
Definition sleeps (m : M kstate bool) : M kstate sysout :=
  b ← m; mret (if (b : bool) then Blocked None else NoEax).

Definition NUMBER_OF_SYSCALLS : Z := 32.

Definition thread_new_sc (entry data : Z) : M kstate unit :=
  p ← current_process; _ ← thread_new p entry data; mret tt.

(** The table [syscalls], with the argument registers each entry reads. *)
Definition syscalls (r : regs) : list (M kstate sysout) :=
  [ gone thread_exit;
    mret Schedule;
    sleeps (thread_sleep (ebx r));
    gone (process_exit (ebx r));
    mret (Printed (ebx r));
    void (thread_new_sc (ebx r) (ecx r));
    sleeps (idt_waitIrq (s32 (ebx r)));
    eax_of proc_priv;
    eax_of (shm_create (ebx r) (ecx r));
    eax_of (shm_delete (ebx r));
    eax_of object_create;
    eax_of (object_owned (s32 (ebx r)));
    void (object_close (s32 (ebx r)));
    of_outcome (request_get (s32 (ebx r)) (ecx r) (edx r));
    eax_of (request_has (s32 (ebx r)));
    void (request_answer (s32 (ebx r)) (ecx r) (edx r) (esi r));
    eax_of (request_mapShm (s32 (ebx r)) (ecx r) (s32 (edx r)));
    of_outcome (sys_request (s32 (ebx r)) (ecx r));
    of_outcome (send_msg (s32 (ebx r)) (ecx r));
    eax_of (process_setheapseg (ebx r) (ecx r)) ].

(** [idt_syscallHandler]: numbers with no function do nothing. *)
Definition idt_syscallHandler (r : regs) : M kstate sysout :=
  if eax r <? NUMBER_OF_SYSCALLS then
    match syscalls r !! Z.to_nat (eax r) with
    | Some f => f
    | None => mret NoEax
    end
  else mret NoEax.

(** ** The stubs of the library *)

Inductive ucall :=
| u_thread_exit
| u_schedule
| u_thread_sleep (time : Z)
| u_process_exit (retval : Z)
| u_printk (str : Z)
| u_thread_new (entry data : Z)
| u_irq_wait (number : Z)
| u_proc_priv
| u_shm_create (offset length : Z)
| u_shm_delete (offset : Z)
| u_object_create
| u_object_owned (descriptor : Z)
| u_object_close (descriptor : Z)
| u_request_get (descriptor rq wait : Z)
| u_request_has (descriptor : Z)
| u_request_answer (descriptor answer1 answer2 errcode : Z)
| u_request_mapShm (descriptor offset number : Z)
| u_request (descriptor rq : Z)
| u_send_msg (descriptor rq : Z)
| u_proc_setheap (start e : Z).

(** [call(a, b, c, d, e, f)]: the six registers. *)
Definition call (a b c d e f : Z) : regs := Regs a (w32 b) (w32 c) (w32 d) (w32 e) (w32 f).

Definition stub (u : ucall) : regs :=
  match u with
  | u_thread_exit => call 0 0 0 0 0 0
  | u_schedule => call 1 0 0 0 0 0
  | u_thread_sleep time => call 2 time 0 0 0 0
  | u_process_exit retval => call 3 retval 0 0 0 0
  | u_printk str => call 4 str 0 0 0 0
  | u_thread_new entry data => call 5 entry data 0 0 0
  | u_irq_wait number => call 6 number 0 0 0 0
  | u_proc_priv => call 7 0 0 0 0 0
  | u_shm_create offset length => call 8 offset length 0 0 0
  | u_shm_delete offset => call 9 offset 0 0 0 0
  | u_object_create => call 10 0 0 0 0 0
  | u_object_owned d => call 11 d 0 0 0 0
  | u_object_close d => call 12 d 0 0 0 0
  | u_request_get d rq wait => call 13 d rq wait 0 0
  | u_request_has d => call 14 d 0 0 0 0
  | u_request_answer d a1 a2 err => call 15 d a1 a2 err 0
  | u_request_mapShm d offset number => call 16 d offset number 0 0
  | u_request d rq => call 17 d rq 0 0 0
  | u_send_msg d rq => call 18 d rq 0 0 0
  | u_proc_setheap start e => call 19 start e 0 0 0
  end.

(** ** Specification *)

(** The kernel function each stub stands for; words for the unsigned
    arguments, signed values for the descriptors and numbers. *)
Definition meant (u : ucall) : M kstate sysout :=
  match u with
  | u_thread_exit => gone thread_exit
  | u_schedule => mret Schedule
  | u_thread_sleep time => sleeps (thread_sleep (w32 time))
  | u_process_exit retval => gone (process_exit (w32 retval))
  | u_printk str => mret (Printed (w32 str))
  | u_thread_new entry data => void (thread_new_sc (w32 entry) (w32 data))
  | u_irq_wait number => sleeps (idt_waitIrq number)
  | u_proc_priv => eax_of proc_priv
  | u_shm_create offset length => eax_of (shm_create (w32 offset) (w32 length))
  | u_shm_delete offset => eax_of (shm_delete (w32 offset))
  | u_object_create => eax_of object_create
  | u_object_owned d => eax_of (object_owned d)
  | u_object_close d => void (object_close d)
  | u_request_get d rq wait => of_outcome (request_get d (w32 rq) (w32 wait))
  | u_request_has d => eax_of (request_has d)
  | u_request_answer d a1 a2 err => void (request_answer d (w32 a1) (w32 a2) (w32 err))
  | u_request_mapShm d offset number => eax_of (request_mapShm d (w32 offset) number)
  | u_request d rq => of_outcome (sys_request d (w32 rq))
  | u_send_msg d rq => of_outcome (send_msg d (w32 rq))
  | u_proc_setheap start e => eax_of (process_setheapseg (w32 start) (w32 e))
  end.

(** The signed arguments of the call fit an [int]. *)
Definition fits_int (z : Z) : Prop := -2147483648 <= z < 2147483648.
Definition int_args (u : ucall) : Prop :=
  match u with
  | u_irq_wait n => fits_int n
  | u_object_owned d | u_object_close d | u_request_has d => fits_int d
  | u_request_get d _ _ | u_request_answer d _ _ _ | u_request d _ | u_send_msg d _ => fits_int d
  | u_request_mapShm d _ n => fits_int d /\ fits_int n
  | _ => True
  end.

Lemma s32_w32 z : fits_int z -> s32 (w32 z) = z.
Proof.
  unfold fits_int, s32, w32. intros Hz. destruct (Z.ltb_spec (z mod W32) 2147483648);
    Z.div_mod_to_equations; lia.
Qed.

Lemma dispatch r f :
  (eax r <? NUMBER_OF_SYSCALLS) = true -> syscalls r !! Z.to_nat (eax r) = Some f ->
  idt_syscallHandler r = f.
Proof. unfold idt_syscallHandler. by intros -> ->. Qed.

(** C35. Every stub of the user library reaches the kernel function it is
    named after, with its arguments in the right registers. *)
Theorem stub_reaches_kernel u : int_args u -> idt_syscallHandler (stub u) = meant u.
Proof.
  destruct u; cbn [int_args]; intros Hi;
    (etransitivity; [by eapply dispatch|]);
    cbn [stub call eax ebx ecx edx esi meant]; rewrite ?s32_w32 by tauto; reflexivity.
Qed.

Lemma stub_reaches_kernel_witness :
  idt_syscallHandler (stub (u_request_get (-3) 0x20010000 1))
  = of_outcome (request_get (-3) 0x20010000 1).
Proof. apply (stub_reaches_kernel (u_request_get (-3) 0x20010000 1)). cbn. unfold fits_int. lia. Defined.

(** A number outside the table leaves the state alone. *)
Theorem unknown_syscall_ignored r s :
  20 <= eax r -> idt_syscallHandler r s = Ok (NoEax, s).
Proof.
  intros Hr. unfold idt_syscallHandler. destruct (eax r <? NUMBER_OF_SYSCALLS); [|done].
  rewrite lookup_ge_None_2; [done|]. cbn [syscalls length]. lia.
Qed.

Lemma unknown_syscall_ignored_witness :
  idt_syscallHandler (Regs 25 0 0 0 0 0) (boot_state 1 0) = Ok (NoEax, boot_state 1 0).
Proof. apply unknown_syscall_ignored. cbn. lia. Defined.
