(* ===== verification/Life.v ===== *)
(** * Threads that come and go

    [System] with more kinds of event: a thread makes another one in its
    process (the call [thread_new]), a thread ends, by the call
    [thread_exit] or by an exception ([idt_isrHandler]), and a thread
    touches a page that it does not have yet.  These change the lists of the
    processes, the kernel stacks and the address spaces, so the invariant
    speaks of them too: whatever happens, each process has just its threads,
    each thread has stacks of its own, in frames of their own, and the next
    action runs to its end. *)

From S2P Require Import Prelude Memory Bitset Kernel Paging Segments Unmap Spaces Sched Timer Objects Tasking System Keeps.
From S2P Require Import Creation Exit Requests Syscalls.

(** ** Actions *)

(** Each action is what the current thread makes the kernel run: an event
    of [System], the call [thread_new], the call [thread_exit] with the task
    switch that ends it, an exception with the task switch that ends its
    thread, or a page fault. *)
Inductive action :=
| Event (e : event)
| Spawn (entry data : Z)
| Exit (c : context)
| Except (int_no err_code eip cr2 : Z) (c : context)
| Touch (err_code eip cr2 : Z).

Definition run_action (a : action) : M kstate unit :=
  match a with
  | Event e => run_event e
  | Spawn entry data => thread_new_sc entry data
  | Exit c => thread_exit;; switch c
  | Except n err eip cr2 c => idt_isrHandler n err eip cr2;; switch c
  | Touch err eip cr2 => idt_isrHandler 14 err eip cr2
  end.

(** The process of the current thread. *)
Definition running_in (s : kstate) (pr : ptr) (p : process) : Prop :=
  exists th, k_threads (k_st s) !! current_thread (k_g s) = Some th /\ t_process th = pr /\
    k_processes (k_st s) !! pr = Some p.

(** Where the stack of the next thread of [p] goes. *)
Definition next_stack (p : process) (a : Z) : Prop := stacksBottom p - USER_STACK_SIZE <= a < stacksBottom p.

(** When an action can happen.  A new thread needs room for its stack.  The
    last thread of a process takes the process with it
    ([process_delete]), which is another function; a kernel or driver thread
    can only end if the memory it was made from was clear, because
    [thread_delete] takes what is in [userStack_seg] for the mapping of a
    stack.  An exception other than a page fault comes from the code of the
    thread, and has a name: the report of the others reads beyond the table
    of names.  A page fault is one that is served, in a simple segment:
    another one is the end of the process. *)
Definition ends (s : kstate) : Prop :=
  current_thread (k_g s) <> 0 /\ current_thread (k_g s) <> idle_thread (k_g s) /\
  forall pr p, running_in s pr p -> 1 < thread_count p /\ (PL_SERVICE <= privilege p \/ k_junk (k_g s) = 0).

Definition possible (s : kstate) (a : action) : Prop :=
  let c := current_thread (k_g s) in
  match a with
  | Event e => allowed s e
  | Spawn _ _ => c <> 0 /\ forall pr p, running_in s pr p ->
      thread_count p + 1 < W32 /\ (PL_SERVICE <= privilege p -> USER_STACK_SIZE <= stacksBottom p /\
        forall q, user_page q -> next_stack p (0x1000 * q) -> pg_frame (entry_of s (p_pagedir p) q) = 0)
  | Exit _ => ends s
  | Except n _ eip _ _ => 0 <= n < EXCEPTIONS /\ n <> 14 /\ eip < 0xE0000000 /\ ends s
  | Touch err eip cr2 => c <> 0 /\ exists ss, faulting s (current_pagedir (k_g s)) cr2 err eip ss
  end.

Inductive lives (s0 : kstate) : kstate -> Prop :=
| lives_here : lives s0 s0
| lives_step s a s' : lives s0 s -> possible s a -> run_action a s = Ok (tt, s') -> lives s0 s'.

(** ** The invariant *)

(** The list and the count of a process are of its threads. *)
Definition process_threads (s : kstate) (pr : ptr) (p : process) (l : list Z) : Prop :=
  linked (k_threads (k_st s)) (threads p) l /\ thread_count p = Z.of_nat (length l) /\ thread_count p < W32 /\
  forall t, t ∈ l <-> t_process <$> k_threads (k_st s) !! t = Some pr.

(** Each thread has a kernel stack of its own. *)
Record kstacks_ok (s : kstate) : Prop := {
  ks_at t th : k_threads (k_st s) !! t = Some th -> is_Some (k_stacks (k_st s) !! kernelStack_addr th);
  ks_own t t' th th' : k_threads (k_st s) !! t = Some th -> k_threads (k_st s) !! t' = Some th' ->
    kernelStack_addr th = kernelStack_addr th' -> t = t'
}.

(** The user stack [u] of a thread of the process [p]: a page-aligned
    mapping above the process' next stack, of a segment of its own. *)
Record stack_at (s : kstate) (p : process) (u : ptr) (m : segment_map) : Prop := {
  st_map : k_maps (k_st s) !! u = Some m;
  st_list : exists d l, k_pagedirs (k_st s) !! p_pagedir p = Some d /\ linked (k_maps (k_st s)) (mappedSegs d) l /\ u ∈ l;
  st_seg : exists ss, sm_seg m <> 0 /\ k_segments (k_st s) !! sm_seg m = Some (Segment (simple_kind ss) 1);
  st_range : stacksBottom p <= sm_start m /\ sm_start m + sm_len m <= 0xE0000000;
  st_size : sm_start m mod 0x1000 = 0 /\ sm_len m = USER_STACK_SIZE
}.

Definition map_range (m : segment_map) (a : Z) : Prop := sm_start m <= a < sm_start m + sm_len m.

(** A thread with a user stack: one of a user process.  For other threads
    [userStack_seg] is what the memory held when they were made. *)
Definition user_process (s : kstate) (pr : ptr) : Prop :=
  exists p, k_processes (k_st s) !! pr = Some p /\ PL_SERVICE <= privilege p.
Definition has_stack (s : kstate) (t pr u : ptr) : Prop :=
  u <> 0 /\ exists th, k_threads (k_st s) !! t = Some th /\ t_process th = pr /\ userStack_seg th = u /\ user_process s pr.

Record ustacks_ok (s : kstate) : Prop := {
  us_bottom pr p : k_processes (k_st s) !! pr = Some p -> PL_SERVICE <= privilege p ->
    0 <= stacksBottom p <= 0xE0000000 /\ stacksBottom p mod 0x1000 = 0;
  us_none t th p : k_threads (k_st s) !! t = Some th -> k_processes (k_st s) !! t_process th = Some p ->
    privilege p < PL_SERVICE -> userStack_seg th = k_junk (k_g s);
  us_at t pr u p : has_stack s t pr u -> k_processes (k_st s) !! pr = Some p -> exists m, stack_at s p u m;
  us_apart t t' pr pr' u u' m m' : has_stack s t pr u -> has_stack s t' pr' u' -> t <> t' ->
    k_maps (k_st s) !! u = Some m -> k_maps (k_st s) !! u' = Some m' ->
    u <> u' /\ sm_seg m <> sm_seg m' /\ (pr = pr' -> forall a, ~ (map_range m a /\ map_range m' a))
}.

(** The frame of a page of a user stack is not the frame of another page, of
    this space or another. *)
Definition owned (s : kstate) (pd p : Z) : Prop :=
  pg_frame (entry_of s pd p) <> 0 -> forall pd' p', user_page p' ->
    pg_frame (entry_of s pd' p') = pg_frame (entry_of s pd p) -> pd' = pd /\ p' = p.

Definition stacks_owned (s : kstate) : Prop :=
  forall t pr u p m q, has_stack s t pr u -> k_processes (k_st s) !! pr = Some p -> k_maps (k_st s) !! u = Some m ->
    user_page q -> map_page m q -> owned s (p_pagedir p) q.

Record life (s : kstate) : Prop := {
  li_sys : sys s;
  li_runs : current_thread (k_g s) <> 0 -> runs_in s;
  li_frames : frames_ok s;
  li_owned : stacks_owned s;
  li_lists pr p : k_processes (k_st s) !! pr = Some p -> exists l, process_threads s pr p l;
  li_kstacks : kstacks_ok s;
  li_spaces : spaces_ok s;
  li_ustacks : ustacks_ok s;
  li_locks : 0 <= if_locks (k_g s) < 0xFFFFFFFF
}.

(** ** Lemmas: events *)

Lemma has_stack_user s t pr u p : has_stack s t pr u -> k_processes (k_st s) !! pr = Some p -> PL_SERVICE <= privilege p.
Proof. intros (_ & th & _ & _ & _ & p' & E & Hp) E'. by replace p with p' by congruence. Qed.

Lemma kept_has_stack s s' t pr u : kept s s' -> has_stack s' t pr u <-> has_stack s t pr u.
Proof.
  intros K. pose proof (ke_threads _ _ K t) as E. unfold has_stack, user_process, thread_core in *.
  assert (k_processes (k_st s') = k_processes (k_st s)) as -> by (by rewrite (ke_stores _ _ K)).
  destruct (k_threads (k_st s') !! t) as [a|], (k_threads (k_st s) !! t) as [b|]; cbn in *; try done.
  injection E as E1 E2 E3 E4 E5. split; intros (Hu & ? & [= <-] & X & Y); split; try done; eexists; (split; [done|]); split; congruence.
Qed.

Lemma kept_lists s s' pr p l : kept s s' -> process_threads s pr p l -> process_threads s' pr p l.
Proof.
  intros K (Hl & Hc & Hw & Ht). pose proof (ke_threads _ _ K) as Ec.
  assert (E : forall {B} (f : thread -> B) g, (forall t, f t = g (thread_core t)) -> forall x,
    f <$> k_threads (k_st s') !! x = f <$> k_threads (k_st s) !! x).
  { intros B f g Hfg x. specialize (Ec x).
    destruct (k_threads (k_st s') !! x), (k_threads (k_st s) !! x); cbn in *; try done. rewrite !Hfg. congruence. }
  split; [|split; [done|split; [done|]]].
  - eapply lseg_nexts; [|exact Hl]. intros x _. by apply (E _ _ (fun c => snd c)).
  - intros t. by rewrite (E _ t_process (fun c => fst (fst (fst (fst c))))).
Qed.

(** All but [sys] follows from what the events leave alone. *)
Lemma life_kept s s' : life s -> kept s s' -> sys s' -> life s'.
Proof.
  intros [L1 LR LF LO L2 [L3 L4] [L5 L6 L7] [L8 L9 L10 L11] L12] K Y. pose proof (ke_stores _ _ K) as S.
  assert (Ep : k_processes (k_st s') = k_processes (k_st s)) by (by rewrite S).
  assert (Em : k_maps (k_st s') = k_maps (k_st s)) by (by rewrite S).
  assert (Ek : k_stacks (k_st s') = k_stacks (k_st s)) by (by rewrite S).
  assert (Ed : k_pagedirs (k_st s') = k_pagedirs (k_st s)) by (by rewrite S).
  assert (Eg : k_segments (k_st s') = k_segments (k_st s)) by (by rewrite S).
  assert (Eb : k_tables (k_st s') = k_tables (k_st s)) by (by rewrite S).
  assert (Ht : forall t th', k_threads (k_st s') !! t = Some th' -> exists th, k_threads (k_st s) !! t = Some th /\
            thread_core th' = thread_core th).
  { intros t th' E. pose proof (ke_threads _ _ K t) as Et. rewrite E in Et.
    destruct (k_threads (k_st s) !! t) as [th|]; [|done]. exists th. split; [done|]. cbn in Et. congruence. }
  assert (He : forall pd q, entry_of s' pd q = entry_of s pd q) by (intros pd q; unfold entry_of; by rewrite Ed, Eb).
  split; rewrite ?(ke_locks _ _ K), ?(ke_junk _ _ K); try done.
  - intros Hc. destruct (ke_runs _ _ K) as [(E1 & E2 & E3)|?]; [|done]. rewrite E1 in Hc.
    apply (runs_in_kept s); [apply K | done..| by apply LR].
  - destruct LF as [F1 F2 F3 F4]. split; rewrite ?(ke_frames _ _ K); try done; intros pd q; rewrite He; by auto.
  - intros t pr u p m q Hs. rewrite Ep, Em. apply (kept_has_stack s) in Hs; [|done]. intros Epr Eu Hq Hm.
    unfold owned. rewrite He. intros Hn pd' q' Hq'. rewrite He. by apply (LO t pr u p m q).
  - intros pr p. rewrite Ep. intros E. destruct (L2 _ _ E) as (l & Hl). exists l. by eapply kept_lists.
  - split.
    + intros t th' E. destruct (Ht _ _ E) as (th & E' & [= _ -> _ _ _]). rewrite Ek. by eapply L3.
    + intros t t' th th' E E' EE. destruct (Ht _ _ E) as (a & Ea & [= _ X _ _ _]), (Ht _ _ E') as (b & Eb' & [= _ X' _ _ _]).
      eapply L4; [exact Ea | exact Eb' | congruence].
  - split; rewrite ?Ed, ?Em, ?Eb, ?(ke_frames _ _ K); done.
  - split; rewrite ?Ep, ?Em; try done.
    + intros t th' p E Epr Hp. destruct (Ht _ _ E) as (th & E' & [= X _ _ Y' _]). rewrite X in Epr.
      rewrite (ke_junk _ _ K), Y'. by eapply L9.
    + intros t pr u p Hs E. apply (kept_has_stack s) in Hs; [|done]. destruct (L10 _ _ _ _ Hs E) as (m & [M1 M2 M3 M4 M5]).
      exists m. split; rewrite ?Em, ?Ed, ?Eg; done.
    + intros t t' pr pr' u u' m m' H1 H2. apply (kept_has_stack s) in H1; [|done]. apply (kept_has_stack s) in H2; [|done]. by apply L11.
Qed.

(** The current thread and its process. *)
Lemma life_thread s t th : life s -> k_threads (k_st s) !! t = Some th -> sound_thread s t (t_process th).
Proof.
  intros L E. destruct (li_sys _ L) as (_ & _ & qs & es & wl & W & _).
  apply (co_threads _ _ W t (t_process th) (t_state th)). unfold tv. by rewrite E.
Qed.

Lemma life_owner s t pr : life s -> t_process <$> k_threads (k_st s) !! t = Some pr -> is_Some (k_processes (k_st s) !! pr).
Proof.
  intros L E. destruct (k_threads (k_st s) !! t) as [th|] eqn:Et; [|done]. injection E as <-.
  destruct (life_thread _ _ _ L Et) as (_ & _ & p & _ & Ep & _). by exists p.
Qed.

Lemma life_current s : life s -> current_thread (k_g s) <> 0 -> exists th p d,
  k_threads (k_st s) !! current_thread (k_g s) = Some th /\ sound_thread s (current_thread (k_g s)) (t_process th) /\
  k_processes (k_st s) !! t_process th = Some p /\ k_pagedirs (k_st s) !! p_pagedir p = Some d /\
  running_in s (t_process th) p /\ t_state th = TS_RUNNING.
Proof.
  intros L Hc. destruct (li_sys _ L) as (_ & [?|(pr & E)] & _); [done|]. unfold tv in E.
  destruct (k_threads (k_st s) !! current_thread (k_g s)) as [th|] eqn:Et; [|done]. injection E as <- Es.
  pose proof (life_thread _ _ _ L Et) as S. pose proof S as (_ & _ & p & d & Ep & _ & _ & Ed).
  exists th, p, d. do 4 (split; [done|]). split; [by exists th | done].
Qed.
