(* ===== verification/LifeSpawn.v ===== *)
(** * Threads that come and go: a new thread

    [thread_new], called by a thread ([thread_new_sc]), keeps the invariant
    of [Life]. *)

From S2P Require Import Prelude Memory Bitset Kernel Paging Segments Unmap Spaces Sched Timer Objects Tasking System Keeps.
From S2P Require Import Creation Exit Requests Syscalls Life.

(** ** Lemmas: a new thread *)

Section spawn.
Context (s s' : kstate) (proc t entry data : Z) (p : process) (d : page_directory) (l : list Z) (qs : Z -> list Z).
Context (Hproc : proc <> 0) (Ep : k_processes (k_st s) !! proc = Some p) (Hpri : is_priority (privilege p)).
Context (Hpd : p_pagedir p <> 0) (Ed : k_pagedirs (k_st s) !! p_pagedir p = Some d).
Context (Y : thread_made s s' proc t entry data p d l qs).

Lemma spawn_fresh : k_threads (k_st s) !! t = None /\ t <> 0.
Proof.
  rewrite (tm_fresh _ _ _ _ _ _ _ _ _ _ Y). split; [apply fresh_ptr_None|].
  pose proof (fresh_ptr_pos (k_threads (k_st s))). lia.
Qed.

Lemma spawn_tv x : x <> t -> tv s' x = tv s x.
Proof. by apply kept_tv, Y. Qed.

Lemma spawn_tv_some x v : tv s x = Some v -> tv s' x = Some v /\ x <> t.
Proof.
  intros E. assert (Hx : x <> t) by (intros ->; unfold tv in E; by rewrite (proj1 spawn_fresh) in E).
  by rewrite spawn_tv.
Qed.

Lemma spawn_new : tv s' t = Some (proc, TS_RUNNING).
Proof. destruct (tm_thread _ _ _ _ _ _ _ _ _ _ Y) as (th & (E1 & E2 & E3 & _) & _). unfold tv. rewrite E1. cbn. by rewrite E2, E3. Qed.

Lemma core_spawn : core s qs -> core s' (upd qs (privilege p) (qs (privilege p) ++ [t])).
Proof.
  intros W. pose proof (thread_made_extends _ _ _ _ _ _ _ _ _ _ Ep Y) as X. destruct spawn_fresh as [Hf Ht].
  pose proof (ex_idle _ _ X) as Ei. pose proof (ex_current _ _ X) as Ec.
  assert (Epr : prio s proc = privilege p) by (unfold prio; by rewrite Ep).
  assert (St : sound_thread s t proc) by (split; [done|]; split; [done|]; by exists p, d).
  assert (Hin : forall q x, x ∈ upd qs (privilege p) (qs (privilege p) ++ [t]) q <-> x ∈ qs q \/ (q = privilege p /\ x = t)).
  { intros q x. unfold upd. destruct (Z.eqb_spec q (privilege p)) as [->|]; [rewrite elem_of_app, list_elem_of_singleton|]; tauto. }
  split.
  - apply Y.
  - rewrite (tm_globals _ _ _ _ _ _ _ _ _ _ Y). apply W.
  - intros x pr st Ex. apply (sound_extends s); [done|]. destruct (decide (x = t)) as [->|Hne].
    + by rewrite spawn_new in Ex; injection Ex as <- _.
    + rewrite spawn_tv in Ex by done. by eapply co_threads.
  - rewrite Ei. destruct (co_idle _ _ W) as (pr & E). exists pr. by apply spawn_tv_some.
  - intros q x Hq [Hx|(-> & ->)]%Hin; rewrite Ei, Ec.
    + destruct (co_queued _ _ W q x Hq Hx) as (H1 & H2 & pr & E & E'). split; [done|]. split; [done|]. exists pr.
      split; [by apply spawn_tv_some|]. rewrite <- E'. apply (prio_extends s s' x); [done | by eapply co_threads].
    + split; [|split].
      * intros Et. destruct (co_idle _ _ W) as (pr & E). rewrite <- Et in E. by destruct (spawn_tv_some _ _ E).
      * intros Et. destruct (co_cur _ _ W) as [?|[v E]]; [congruence|]. rewrite <- Et in E. by destruct (spawn_tv_some _ _ E).
      * exists proc. split; [apply spawn_new|]. rewrite <- Epr. by apply (prio_extends s s' t).
  - intros x pr Ex. rewrite Ei, Ec. setoid_rewrite Hin. destruct (decide (x = t)) as [->|Hne].
    + rewrite spawn_new in Ex. injection Ex as <-. right; right; right. split; [|done]. rewrite <- Epr. by apply (prio_extends s s' t).
    + rewrite spawn_tv in Ex by done. rewrite (prio_extends s s' x) by first [done | by eapply co_threads].
      destruct (co_running _ _ W x pr Ex) as [?|[?|?]]; tauto.
  - rewrite Ec. destruct (co_cur _ _ W) as [?|[v E]]; [by left|]. right. destruct (spawn_tv_some _ _ E) as [-> _]. by eexists.
Qed.

Lemma parked_spawn es wl : parked s es wl -> parked s' es wl.
Proof.
  intros P. pose proof (tm_globals _ _ _ _ _ _ _ _ _ _ Y) as Eg.
  apply (parked_frame s); [done | by eapply tm_sleepers | by rewrite Eg | by eapply tm_waiters | by rewrite Eg |].
  intros x _ (pr & E). exists pr. by apply spawn_tv_some.
Qed.

Lemma sys_spawn : frequency (k_g s) <> 0 -> current_runs s -> (exists es wl, core s qs /\ parked s es wl) -> sys s'.
Proof.
  intros Hf Hc (es & wl & W & P). pose proof (tm_globals _ _ _ _ _ _ _ _ _ _ Y) as Eg. split; [by rewrite Eg|]. split.
  - unfold current_runs. rewrite Eg. cbn. destruct Hc as [?|(pr & E)]; [by left|]. right. exists pr. by apply spawn_tv_some.
  - eexists _, es, wl. split; [by apply core_spawn | by apply parked_spawn].
Qed.

(** The lists of threads. *)
Lemma spawn_thread x th : x <> t -> k_threads (k_st s') !! x = Some th -> exists th0, k_threads (k_st s) !! x = Some th0 /\
  t_process th = t_process th0 /\ kernelStack_addr th = kernelStack_addr th0 /\ userStack_seg th = userStack_seg th0.
Proof.
  intros Hx E. pose proof (tm_others _ _ _ _ _ _ _ _ _ _ Y x Hx) as U. rewrite E in U.
  destruct (k_threads (k_st s) !! x) as [th0|]; [|done]. exists th0. split; [done|]. destruct th, th0.
  unfold unlinked, set_queue_next, set_t_next in U; cbn in U. by injection U as -> -> -> -> -> -> -> ->.
Qed.

Lemma spawn_process x pr : x <> t -> t_process <$> k_threads (k_st s') !! x = Some pr <-> t_process <$> k_threads (k_st s) !! x = Some pr.
Proof.
  intros Hx. pose proof (spawn_tv x Hx) as E. unfold tv in E.
  destruct (k_threads (k_st s') !! x), (k_threads (k_st s) !! x); cbn in *; try done. injection E as -> _. done.
Qed.

Lemma spawn_lists pr p' : (forall q pq, k_processes (k_st s) !! q = Some pq -> exists l, process_threads s q pq l) ->
  process_threads s proc p l -> thread_count p + 1 < W32 -> k_processes (k_st s') !! pr = Some p' ->
  exists l', process_threads s' pr p' l'.
Proof.
  intros HL (Hl & Hc & Hw & Hin) Hn E. destruct spawn_fresh as [Hf Ht].
  destruct (tm_thread _ _ _ _ _ _ _ _ _ _ Y) as (th & (Et & Etp & _) & _).
  destruct (decide (pr = proc)) as [->|Hne].
  - destruct (tm_process _ _ _ _ _ _ _ _ _ _ Y) as (p2 & E2 & _ & _ & _ & _ & C2 & L2).
    replace p' with p2 by congruence. exists (l ++ [t]). split; [done|]. rewrite C2, w32_small by (unfold u32; lia).
    split; [rewrite length_app; cbn; lia|]. split; [lia|]. intros x. rewrite elem_of_app, list_elem_of_singleton.
    destruct (decide (x = t)) as [->|Hx]; [rewrite Et; cbn; split; [by rewrite Etp | by right]|].
    rewrite spawn_process, Hin by done. tauto.
  - rewrite (tm_processes _ _ _ _ _ _ _ _ _ _ Y pr Hne) in E. destruct (HL _ _ E) as (l2 & H2 & C2 & W2 & In2).
    exists l2. split; [|split; [done|split; [done|]]].
    + eapply lseg_nexts; [|exact H2]. intros x Hx. apply (tm_nexts _ _ _ _ _ _ _ _ _ _ Y).
      * intros ->. apply In2 in Hx. by rewrite Hf in Hx.
      * intros Hx'. apply Hin in Hx'. apply In2 in Hx. congruence.
    + intros x. destruct (decide (x = t)) as [->|Hx]; [|by rewrite spawn_process, In2].
      rewrite Et, In2, Hf. cbn. split; [done|]. intros [= <-]. congruence.
Qed.

Lemma spawn_kstacks : kstacks_ok s -> kstacks_ok s'.
Proof.
  intros [K1 K2]. pose proof (tm_stacks _ _ _ _ _ _ _ _ _ _ Y) as Es. set (k := fresh_ptr (k_stacks (k_st s))) in *.
  assert (Hk : k_stacks (k_st s) !! k = None) by apply fresh_ptr_None.
  destruct (tm_thread _ _ _ _ _ _ _ _ _ _ Y) as (th0 & (Et & _ & _ & Ek & _) & _). fold k in Ek.
  assert (Hold : forall x th, x <> t -> k_threads (k_st s') !! x = Some th -> is_Some (k_stacks (k_st s) !! kernelStack_addr th)).
  { intros x th Hx E. destruct (spawn_thread x th Hx E) as (th1 & E1 & _ & -> & _). by eapply K1. }
  split.
  - intros x th E. rewrite Es. apply lookup_insert_is_Some'. destruct (decide (x = t)) as [->|Hx]; [left; congruence|].
    right. by eapply Hold.
  - intros x x' th th' E E' EE. destruct (decide (x = t)) as [->|Hx], (decide (x' = t)) as [->|Hx']; [done|..].
    + destruct (Hold _ _ Hx' E') as [v Ev]. congruence.
    + destruct (Hold _ _ Hx E) as [v Ev]. congruence.
    + destruct (spawn_thread x th Hx E) as (a & Ea & _ & Xa & _), (spawn_thread x' th' Hx' E') as (b & Eb & _ & Xb & _).
      eapply K2; [exact Ea | exact Eb | congruence].
Qed.

(** The address spaces: at most one mapping more. *)
Lemma spawn_user : exists th, k_threads (k_st s') !! t = Some th /\ t_process th = proc /\
  stack_made s s' p (p_pagedir p) d (userStack_seg th).
Proof. destruct (tm_thread _ _ _ _ _ _ _ _ _ _ Y) as (th & (E1 & E2 & _) & S). by exists th. Qed.

Lemma spawn_dirs pd0 d1 : k_pagedirs (k_st s') !! pd0 = Some d1 -> exists d0, k_pagedirs (k_st s) !! pd0 = Some d0 /\
  forall i, dir_table d1 i = dir_table d0 i.
Proof.
  destruct spawn_user as (th & _ & _ & S). unfold stack_made in S. destruct (PL_SERVICE <=? privilege p); cbv zeta in S.
  - destruct S as (_ & _ & _ & ->). destruct (decide (pd0 = p_pagedir p)) as [->|Hne].
    + rewrite lookup_insert_eq. intros [= <-]. by exists d.
    + rewrite lookup_insert_ne by done. intros E. by exists d1.
  - destruct S as (_ & _ & _ & ->). intros E. by exists d1.
Qed.

Lemma spawn_entry x q : entry_of s' x q = entry_of s x q.
Proof.
  unfold entry_of. rewrite (tm_tables _ _ _ _ _ _ _ _ _ _ Y). destruct (k_pagedirs (k_st s') !! x) as [d1|] eqn:E1.
  - destruct (spawn_dirs _ _ E1) as (d0 & -> & Hd). unfold page_entry. by rewrite Hd.
  - destruct (k_pagedirs (k_st s) !! x) as [d0|] eqn:E0; [|done].
    destruct (ex_dirs _ _ (thread_made_extends _ _ _ _ _ _ _ _ _ _ Ep Y) x) as (d1 & E); [by exists d0 | congruence].
Qed.

Lemma spawn_frames : frames_ok s -> frames_ok s'.
Proof.
  assert (Ef : frames (k_g s') = frames (k_g s)) by (by rewrite (tm_globals _ _ _ _ _ _ _ _ _ _ Y)).
  intros [F1 F2 F3 F4]. split; rewrite ?Ef; try done; intros x q; rewrite spawn_entry; by auto.
Qed.

Lemma spawn_runs : current_thread (k_g s) <> 0 -> runs_in s -> runs_in s'.
Proof.
  intros Hc (th & pc & E1 & E2 & E3 & E4). pose proof (tm_globals _ _ _ _ _ _ _ _ _ _ Y) as Eg.
  assert (Hx : current_thread (k_g s) <> t) by (intros Hx; rewrite Hx, (proj1 spawn_fresh) in E1; done).
  pose proof (tm_others _ _ _ _ _ _ _ _ _ _ Y _ Hx) as V. rewrite E1 in V. unfold runs_in.
  destruct (ex_processes _ _ (thread_made_extends _ _ _ _ _ _ _ _ _ _ Ep Y) _ _ E2) as (pc' & E2' & _ & Epd).
  rewrite Eg. cbn. destruct (k_threads (k_st s') !! current_thread (k_g s)) as [th'|]; [|done]. apply (inj Some) in V.
  pose proof (f_equal t_process V). pose proof (f_equal kernelStack_addr V). pose proof (f_equal kernelStack_size V). cbn in *.
  exists th', pc'. split_and!; congruence.
Qed.

Lemma spawn_spaces : spaces_ok s -> spaces_ok s'.
Proof.
  intros [A1 A2 A3]. pose proof (tm_tables _ _ _ _ _ _ _ _ _ _ Y) as Et.
  assert (Ef : frames (k_g s') = frames (k_g s)) by (by rewrite (tm_globals _ _ _ _ _ _ _ _ _ _ Y)). split.
  - intros pd0 d1 E1. destruct spawn_user as (th & _ & _ & S). unfold stack_made in S.
    destruct (PL_SERVICE <=? privilege p); cbv zeta in S; destruct S as (Eu & Em & _ & Edirs); rewrite Edirs in E1; rewrite Em;
      [|by apply A1]. set (u := userStack_seg th) in *.
    assert (Hu : k_maps (k_st s) !! u = None) by (rewrite Eu; apply fresh_ptr_None).
    destruct (decide (pd0 = p_pagedir p)) as [->|Hne].
    + rewrite lookup_insert_eq in E1. injection E1 as <-. destruct (A1 _ _ Ed) as (lm & Hl & Hm).
      pose proof (linked_fresh _ _ _ _ Hl Hu) as Hn. exists (u :: lm). split.
      * apply (linked_push _ (mappedSegs d)); [done | rewrite Eu; pose proof (fresh_ptr_pos (k_maps (k_st s))); lia | done | done].
      * intros x m. destruct (decide (x = u)) as [->|Hx]; [rewrite lookup_insert_eq; by intros _ [= <-]|].
        rewrite lookup_insert_ne, elem_of_cons by done. intros [?|Hx']; [done|]. by apply Hm.
    + rewrite lookup_insert_ne in E1 by done. destruct (A1 _ _ E1) as (lm & Hl & Hm).
      pose proof (linked_fresh _ _ _ _ Hl Hu) as Hn. exists lm. split; [by apply lseg_frame|].
      intros x m Hx. rewrite lookup_insert_ne; [by apply Hm | intros ->; done].
  - intros pd0 d1 E1. destruct (spawn_dirs _ _ E1) as (d0 & E0 & Hd). rewrite Et, Ef. apply (pages_ok_tables d0); [done | by eapply A2].
  - intros pd0 pd1 d0 d1 i j E0 E1. destruct (spawn_dirs _ _ E0) as (d0' & E0' & ->), (spawn_dirs _ _ E1) as (d1' & E1' & ->).
    by apply (A3 pd0 pd1).
Qed.

Lemma spawn_process_now pr p1 : k_processes (k_st s') !! pr = Some p1 -> exists p0, k_processes (k_st s) !! pr = Some p0 /\
  privilege p1 = privilege p0 /\ p_pagedir p1 = p_pagedir p0 /\
  stacksBottom p1 = (if decide (pr = proc) then
    if PL_SERVICE <=? privilege p then w32 (stacksBottom p - USER_STACK_SIZE) else stacksBottom p else stacksBottom p0).
Proof.
  intros E. destruct (decide (pr = proc)) as [->|Hne].
  - destruct (tm_process _ _ _ _ _ _ _ _ _ _ Y) as (p2 & E2 & _ & X1 & X2 & _). pose proof (tm_bottom _ _ _ _ _ _ _ _ _ _ Y) as B.
    rewrite E in B. exists p. injection B as B. replace p2 with p1 in * by congruence. done.
  - rewrite (tm_processes _ _ _ _ _ _ _ _ _ _ Y pr Hne) in E. by exists p1.
Qed.

Lemma spawn_has_stack x pr u : has_stack s' x pr u -> (x <> t /\ has_stack s x pr u) \/
  (x = t /\ pr = proc /\ u <> 0 /\ stack_made s s' p (p_pagedir p) d u /\ PL_SERVICE <= privilege p).
Proof.
  intros (Hu & th & E & Epr & Eu & q & Eq & Hq). destruct (spawn_process_now _ _ Eq) as (q0 & E0 & Ev & _). rewrite Ev in Hq.
  destruct (decide (x = t)) as [->|Hx].
  - right. destruct spawn_user as (th' & E' & Epr' & S). split; [done|]. replace th' with th in * by congruence.
    assert (pr = proc) as -> by congruence. rewrite Eu in S. split; [done|]. split; [done|]. split; [done|].
    by replace p with q0 by congruence.
  - left. split; [done|]. destruct (spawn_thread x th Hx E) as (th0 & Et0 & X1 & _ & X2). split; [done|]. exists th0.
    split; [done|]. split; [congruence|]. split; [congruence | by exists q0].
Qed.

(** The user stacks: the new one is below the others of its process. *)
Context (Us : ustacks_ok s) (Sp : spaces_ok s).
Context (Room : PL_SERVICE <= privilege p -> USER_STACK_SIZE <= stacksBottom p /\
  forall q, user_page q -> next_stack p (0x1000 * q) -> pg_frame (entry_of s (p_pagedir p) q) = 0).

Lemma spawn_bottom : PL_SERVICE <= privilege p ->
  w32 (stacksBottom p - USER_STACK_SIZE) = stacksBottom p - USER_STACK_SIZE /\
  0 <= stacksBottom p - USER_STACK_SIZE /\ stacksBottom p <= 0xE0000000 /\ (stacksBottom p - USER_STACK_SIZE) mod 0x1000 = 0.
Proof.
  intros Hs. destruct (us_bottom _ Us _ _ Ep Hs) as ((H0 & H1) & H2). destruct (Room Hs) as [HR _]. unfold USER_STACK_SIZE in *.
  rewrite w32_small by (unfold u32; lia). do 3 (split; [lia|]). Z.div_mod_to_equations. lia.
Qed.

Lemma spawn_bottom_le pr p0 p1 : k_processes (k_st s) !! pr = Some p0 -> k_processes (k_st s') !! pr = Some p1 ->
  stacksBottom p1 <= stacksBottom p0.
Proof.
  intros E0 E1. destruct (spawn_process_now _ _ E1) as (p0' & E0' & _ & _ & ->). replace p0' with p0 by congruence.
  destruct (decide (pr = proc)) as [->|]; [|done]. replace p0 with p by congruence.
  destruct (Z.leb_spec PL_SERVICE (privilege p)) as [Hs|]; [|done]. destruct (spawn_bottom Hs) as (-> & _). unfold USER_STACK_SIZE. lia.
Qed.

Lemma spawn_map_old u m : k_maps (k_st s) !! u = Some m -> k_maps (k_st s') !! u = Some m.
Proof.
  intros E. destruct spawn_user as (th & _ & _ & S). unfold stack_made in S.
  destruct (PL_SERVICE <=? privilege p); cbv zeta in S; destruct S as (Eu & -> & _); [|done].
  rewrite lookup_insert_ne; [done|]. rewrite Eu. intros X. symmetry in X. by eapply (fresh_ptr_ne (k_maps (k_st s))).
Qed.

Lemma spawn_seg_old x g : k_segments (k_st s) !! x = Some g -> k_segments (k_st s') !! x = Some g.
Proof.
  intros E. destruct spawn_user as (th & _ & _ & S). unfold stack_made in S.
  destruct (PL_SERVICE <=? privilege p); cbv zeta in S; destruct S as (_ & _ & -> & _); [|done].
  rewrite lookup_insert_ne; [done|]. intros X. symmetry in X. by eapply (fresh_ptr_ne (k_segments (k_st s))).
Qed.

Lemma spawn_list pd0 d0 lm : k_pagedirs (k_st s) !! pd0 = Some d0 -> linked (k_maps (k_st s)) (mappedSegs d0) lm ->
  exists d1 lm', k_pagedirs (k_st s') !! pd0 = Some d1 /\ linked (k_maps (k_st s')) (mappedSegs d1) lm' /\
    (forall x, x ∈ lm -> x ∈ lm') /\ (pd0 = p_pagedir p -> forall th, k_threads (k_st s') !! t = Some th -> PL_SERVICE <= privilege p -> userStack_seg th ∈ lm').
Proof.
  intros E Hl. destruct spawn_user as (th & Eth & _ & S). unfold stack_made in S.
  destruct (Z.leb_spec PL_SERVICE (privilege p)); cbv zeta in S; destruct S as (Eu & -> & _ & ->).
  - set (u := userStack_seg th) in *. assert (Hu : k_maps (k_st s) !! u = None) by (rewrite Eu; apply fresh_ptr_None).
    pose proof (linked_fresh _ _ _ _ Hl Hu) as Hn. destruct (decide (pd0 = p_pagedir p)) as [->|Hne].
    + exists (set_mappedSegs u d), (u :: lm). rewrite lookup_insert_eq. split; [done|]. split.
      * replace d0 with d in * by congruence. apply (linked_push _ (mappedSegs d)); try done.
        rewrite Eu; pose proof (fresh_ptr_pos (k_maps (k_st s))); lia.
      * split; [intros x ?; by right|]. intros _ th' E' _. replace th' with th by congruence. by left.
    + exists d0, lm. rewrite lookup_insert_ne by done. split; [done|]. split; [by apply lseg_frame | done].
  - exists d0, lm. split; [done|]. split; [done|]. split; [done|]. intros _ th' E' Hn. lia.
Qed.

Lemma spawn_stack_old pr p0 p1 u m : k_processes (k_st s) !! pr = Some p0 -> k_processes (k_st s') !! pr = Some p1 ->
  stack_at s p0 u m -> stack_at s' p1 u m.
Proof.
  intros E0 E1 [M1 (d0 & lm & M2 & M3 & M4) (ss & M5 & M6) (M7 & M8) M9]. pose proof (spawn_bottom_le _ _ _ E0 E1) as Hb.
  destruct (spawn_process_now _ _ E1) as (p0' & E0' & _ & Epd & _). replace p0' with p0 in * by congruence.
  split; try done.
  - by apply spawn_map_old.
  - destruct (spawn_list _ _ _ M2 M3) as (d1 & lm' & X1 & X2 & X3 & _). exists d1, lm'. rewrite Epd. auto.
  - exists ss. split; [done|]. by apply spawn_seg_old.
  - split; [lia | done].
Qed.

(** The new stack. *)
Lemma spawn_stack_new u p1 : u <> 0 -> stack_made s s' p (p_pagedir p) d u -> k_processes (k_st s') !! proc = Some p1 ->
  has_stack s' t proc u -> exists m, stack_at s' p1 u m /\ sm_start m = stacksBottom p - USER_STACK_SIZE /\
    k_maps (k_st s) !! u = None /\ k_segments (k_st s) !! sm_seg m = None /\ PL_SERVICE <= privilege p.
Proof.
  intros Hu S E1 (_ & th & Eth & _ & Eu & q & Eq & Hq). destruct (spawn_process_now _ _ Eq) as (q0 & E0 & Ev & _).
  replace q0 with p in * by congruence. rewrite Ev in Hq. clear q q0 Eq Ev E0. unfold stack_made in S.
  destruct (Z.leb_spec PL_SERVICE (privilege p)) as [Hs|]; cbv zeta in S; destruct S as (Eu' & Em & Eg & Edirs); [|lia].
  destruct (spawn_bottom Hs) as (Ew & B0 & B1 & B2). destruct (spawn_process_now _ _ E1) as (p0' & E0' & _ & Epd & Eb).
  rewrite decide_True, (proj2 (Z.leb_le _ _)) in Eb by done. replace p0' with p in * by congruence.
  destruct (so_maps _ Sp _ _ Ed) as (lm & Hl & _). destruct (spawn_list _ _ _ Ed Hl) as (d1 & lm' & X1 & X2 & _ & X4).
  eexists. split; [split|].
  - rewrite Em. apply lookup_insert_eq.
  - exists d1, lm'. rewrite Epd. split; [done|]. split; [done|]. rewrite <- Eu. apply X4; congruence.
  - rewrite Eg. cbn [sm_seg]. eexists. split; [pose proof (fresh_ptr_pos (k_segments (k_st s))); lia | apply lookup_insert_eq].
  - cbn [sm_start sm_len]. rewrite Eb, Ew. unfold USER_STACK_SIZE in *. lia.
  - cbn [sm_start sm_len]. by rewrite Ew.
  - cbn [sm_start sm_seg]. rewrite Ew. split; [done|]. split; [rewrite Eu'; apply fresh_ptr_None|]. split; [apply fresh_ptr_None | done].
Qed.

(** Any old stack and the new one do not meet. *)
Lemma spawn_apart x pr u u' m m' p1 : has_stack s x pr u -> k_processes (k_st s) !! pr = Some p1 -> u' <> 0 ->
  stack_made s s' p (p_pagedir p) d u' -> has_stack s' t proc u' ->
  k_maps (k_st s') !! u = Some m -> k_maps (k_st s') !! u' = Some m' ->
  u <> u' /\ sm_seg m <> sm_seg m' /\ (pr = proc -> forall a, ~ (map_range m a /\ map_range m' a)).
Proof.
  intros Hx Epr Hu' S Ht Em Em'. destruct (tm_process _ _ _ _ _ _ _ _ _ _ Y) as (p2 & E2 & _).
  destruct (spawn_stack_new u' p2 Hu' S E2 Ht) as (n & [N1 _ _ _ [_ N5]] & Hst & Hn & Hg & Hs).
  replace n with m' in * by congruence.
  destruct (us_at _ Us _ _ _ _ Hx Epr) as (m0 & [M1 _ (ss & _ & M3) (M4 & _) _]).
  pose proof (spawn_map_old _ _ M1). replace m0 with m in * by congruence.
  split; [intros ->; congruence|]. split; [intros E; rewrite E in M3; congruence|].
  intros -> a [Ha Ha']. unfold map_range in *. replace p1 with p in * by congruence. rewrite Hst, N5 in Ha'. lia.
Qed.

Lemma spawn_ustacks : (forall x pr, t_process <$> k_threads (k_st s) !! x = Some pr -> is_Some (k_processes (k_st s) !! pr)) ->
  ustacks_ok s'.
Proof.
  intros Hown. assert (Hp : forall x pr u, has_stack s x pr u -> is_Some (k_processes (k_st s) !! pr)).
  { intros x pr u (_ & th & E & E' & _). apply (Hown x). rewrite E. cbn. by rewrite E'. }
  split.
  - intros pr p1 E1 Hs. destruct (spawn_process_now _ _ E1) as (p0 & E0 & Ev & _ & Eb). rewrite Ev in Hs.
    destruct (us_bottom _ Us _ _ E0 Hs) as (B1 & B2). rewrite Eb. destruct (decide (pr = proc)) as [->|]; [|done].
    replace p0 with p in * by congruence. rewrite (proj2 (Z.leb_le _ _)) by done.
    destruct (spawn_bottom Hs) as (-> & ? & ? & ?). unfold USER_STACK_SIZE in *. lia.
  - intros x th p1 E E1 Hp1. destruct (spawn_process_now _ _ E1) as (p0 & E0 & Ev & _). rewrite Ev in Hp1.
    replace (k_junk (k_g s')) with (k_junk (k_g s)) by (by rewrite (tm_globals _ _ _ _ _ _ _ _ _ _ Y)).
    destruct (decide (x = t)) as [->|Hx].
    + destruct spawn_user as (th' & E' & Epr' & S). replace th' with th in * by congruence. unfold stack_made in S.
      replace p0 with p in * by congruence. rewrite (proj2 (Z.leb_gt _ _)) in S by done. apply S.
    + destruct (spawn_thread x th Hx E) as (th0 & Et0 & X1 & _ & ->). rewrite X1 in E0. by eapply (us_none _ Us).
  - intros x pr u p1 H E1. destruct (spawn_process_now _ _ E1) as (p0 & E0 & _).
    destruct (spawn_has_stack _ _ _ H) as [(_ & H')|(-> & -> & Hu & S & _)].
    + destruct (us_at _ Us _ _ _ _ H' E0) as (m & M). exists m. by eapply spawn_stack_old.
    + destruct (spawn_stack_new u p1 Hu S E1 H) as (m & M & _). by exists m.
  - intros x x' pr pr' u u' m m' H H' Hne Em Em'.
    destruct (spawn_has_stack _ _ _ H) as [(_ & K)|(-> & -> & Hu & S & _)], (spawn_has_stack _ _ _ H') as [(_ & K')|(-> & -> & Hu' & S' & _)]; [..|done].
    + destruct (Hp _ _ _ K) as (q & Eq), (Hp _ _ _ K') as (q' & Eq').
      destruct (us_at _ Us _ _ _ _ K Eq) as (m0 & [M1 _ _ _ _]), (us_at _ Us _ _ _ _ K' Eq') as (m0' & [M1' _ _ _ _]).
      pose proof (spawn_map_old _ _ M1). pose proof (spawn_map_old _ _ M1').
      replace m with m0 by congruence. replace m' with m0' by congruence. by apply (us_apart _ Us x x').
    + destruct (Hp _ _ _ K) as (q & Eq). by eapply spawn_apart.
    + destruct (Hp _ _ _ K') as (q & Eq). destruct (spawn_apart _ _ _ _ _ _ _ K' Eq Hu S H Em' Em) as (X1 & X2 & X3).
      split; [congruence|]. split; [congruence|]. intros <- a [Ha Ha']. by apply (X3 eq_refl a).
Qed.

(** The pages of the new stack have no frames yet. *)
Lemma spawn_owned : (forall x pr, t_process <$> k_threads (k_st s) !! x = Some pr -> is_Some (k_processes (k_st s) !! pr)) ->
  stacks_owned s -> stacks_owned s'.
Proof.
  intros Hown O x pr u p1 m q H E1 Em Hq Hm. destruct (spawn_process_now _ _ E1) as (p0 & E0 & _ & Epd & _).
  rewrite Epd. unfold owned. rewrite spawn_entry. intros Hn pd' q' Hq'. rewrite spawn_entry.
  destruct (spawn_has_stack _ _ _ H) as [(_ & H')|(-> & -> & Hu & S & _)].
  - destruct (us_at _ Us _ _ _ _ H' E0) as (m0 & [M1 _ _ _ _]). pose proof (spawn_map_old _ _ M1). replace m with m0 in * by congruence.
    by apply (O x pr u p0 m0 q).
  - replace p0 with p in * by congruence. destruct (spawn_stack_new u p1 Hu S E1 H) as (n & [N1 _ _ _ [_ N5]] & Hst & _ & _ & Hs).
    replace n with m in * by congruence. destruct Hn. apply Room; [done | done |]. unfold map_page, next_stack in *. rewrite Hst, N5 in Hm. lia.
Qed.

End spawn.

Lemma spawn_ok s entry data : life s -> possible s (Spawn entry data) ->
  exists s', run_action (Spawn entry data) s = Ok (tt, s') /\ life s' /\ k_junk (k_g s') = k_junk (k_g s).
Proof.
  intros L [Hc Hroom]. destruct (life_current s L Hc) as (th & p & d & Et & (_ & Hpr & p' & d' & Ep & Hpri & Hpd & _) & Ep' & Ed & R & _).
  replace p' with p in * by congruence. clear p' d' Ep'. destruct (Hroom _ _ R) as [Hn Hb].
  pose proof L as [(Hf & Hrun & qs & es & wl & W & P) LR LF LO LL LK LS LU LG]. destruct (LL _ _ Ep) as (l & Hl).
  destruct (thread_new_ok (t_process th) entry data p d l qs s Hpr Ep Hpri Hpd Ed) as (t & s' & E & Y);
    [apply Hl | apply W | |].
  { right. destruct (co_idle _ _ W) as (pr & Ei). unfold tv in Ei. destruct (k_threads (k_st s) !! idle_thread (k_g s)); [by eexists | done]. }
  exists s'. split.
  - apply wp_eq_Ok. cbn [run_action]. unfold thread_new_sc, current_process. ksteps. eapply wp_eq; [exact E|]. by ksteps.
  - split; [|by rewrite (tm_globals _ _ _ _ _ _ _ _ _ _ Y)]. split.
    + apply (sys_spawn s s' (t_process th) t entry data p d l qs); try done. by exists es, wl.
    + intros _. eapply spawn_runs; [exact Ep | exact Y | done | by apply LR].
    + by eapply spawn_frames.
    + eapply (spawn_owned s s'); try done. intros x pr. by apply life_owner.
    + intros pr p1. by eapply spawn_lists.
    + by eapply spawn_kstacks.
    + by eapply spawn_spaces.
    + apply (spawn_ustacks s s' (t_process th) t entry data p d l qs); try done. intros x pr. by apply life_owner.
    + rewrite (tm_globals _ _ _ _ _ _ _ _ _ _ Y). exact LG.
Qed.
