(* ===== verification/LifeExit.v ===== *)
(** * Threads that come and go: a thread that ends

    [thread_delete], called for the current thread, keeps the invariant of
    [Life]: its stacks and their frames are free again, and nothing else
    is lost. *)

From S2P Require Import Prelude Memory Bitset Kernel Paging Segments Unmap Spaces Sched Timer Objects Tasking System Keeps.
From S2P Require Import Creation Exit Requests Syscalls Life.

(** ** Lemmas: a thread that ends *)

Lemma map_same m m' : set_sm_next 0 m = set_sm_next 0 m' ->
  sm_seg m = sm_seg m' /\ sm_pagedir m = sm_pagedir m' /\ sm_start m = sm_start m' /\ sm_len m = sm_len m'.
Proof.
  intros V. split_and!; [exact (f_equal sm_seg V) | exact (f_equal sm_pagedir V) | exact (f_equal sm_start V) | exact (f_equal sm_len V)].
Qed.

Section ending.
Context (s s' : kstate) (th : ptr) (t : thread) (pr : ptr) (p : process) (l1 l2 : list Z).
Context (L : life s) (Et : k_threads (k_st s) !! th = Some t) (Epr : t_process t = pr).
Context (Ep : k_processes (k_st s) !! pr = Some p) (D : thread_deleted s s' th t pr p l1 l2).
Context (Hseg : PL_SERVICE <= privilege p \/ k_junk (k_g s) = 0).

(** A thread with something in [userStack_seg] is of a user process. *)
Lemma end_stack : userStack_seg t <> 0 -> has_stack s th pr (userStack_seg t).
Proof.
  intros Hu. split; [done|]. exists t. split; [done|]. split; [done|]. split; [done|]. exists p. split; [done|].
  destruct (Z.le_gt_cases PL_SERVICE (privilege p)) as [|Hlt]; [done|]. destruct Hseg as [?|H0]; [lia|].
  rewrite <- Epr in Ep. by rewrite (us_none _ (li_ustacks _ L) _ _ _ Et Ep Hlt) in Hu.
Qed.

Lemma end_thread x a : k_threads (k_st s') !! x = Some a -> x <> th /\ exists b, k_threads (k_st s) !! x = Some b /\
  set_t_next 0 a = set_t_next 0 b.
Proof.
  intros E. assert (Hx : x <> th) by (intros ->; pose proof (td_gone _ _ _ _ _ _ _ _ D); congruence). split; [done|].
  destruct (td_others _ _ _ _ _ _ _ _ D x Hx) as [V _]. rewrite E in V.
  destruct (k_threads (k_st s) !! x) as [b|]; [|done]. exists b. split; [done|]. by apply (inj Some) in V.
Qed.

Lemma end_same {B} (f : thread -> B) x : (forall a, f a = f (set_t_next 0 a)) -> x <> th ->
  f <$> k_threads (k_st s') !! x = f <$> k_threads (k_st s) !! x.
Proof.
  intros Hf Hx. destruct (td_others _ _ _ _ _ _ _ _ D x Hx) as [V _].
  destruct (k_threads (k_st s') !! x) as [a|], (k_threads (k_st s) !! x) as [b|]; cbn in *; try done.
  apply (inj Some) in V. f_equal. by rewrite (Hf a), V, <- Hf.
Qed.

Lemma end_tv x : tv s' x = if decide (x = th) then None else tv s x.
Proof.
  unfold tv. destruct (decide (x = th)) as [->|Hx]; [by rewrite (td_gone _ _ _ _ _ _ _ _ D) |].
  apply (end_same (fun a => (t_process a, t_state a))); [by intros [] | done].
Qed.

Lemma end_process q p1 : k_processes (k_st s') !! q = Some p1 -> exists p0, k_processes (k_st s) !! q = Some p0 /\
  privilege p1 = privilege p0 /\ p_pagedir p1 = p_pagedir p0 /\ stacksBottom p1 = stacksBottom p0 /\ (q <> pr -> p1 = p0).
Proof.
  destruct (td_process _ _ _ _ _ _ _ _ D) as (h & _ & Eq). rewrite Eq. destruct (decide (q = pr)) as [->|Hq].
  - rewrite lookup_insert_eq. intros [= <-]. by exists p.
  - rewrite lookup_insert_ne by done. intros E. by exists p1.
Qed.

Lemma end_globals : current_thread (k_g s') = (if current_thread (k_g s) =? th then 0 else current_thread (k_g s)) /\
  idle_thread (k_g s') = idle_thread (k_g s) /\ processes (k_g s') = processes (k_g s) /\
  sleeping_threads (k_g s') = sleeping_threads (k_g s) /\ irq_wakeup (k_g s') = irq_wakeup (k_g s) /\
  frequency (k_g s') = frequency (k_g s) /\ if_locks (k_g s') = if_locks (k_g s) /\ k_junk (k_g s') = k_junk (k_g s).
Proof. by rewrite (td_globals _ _ _ _ _ _ _ _ D). Qed.

Lemma end_extends : extends (KState (k_st s) (k_g s')) s'.
Proof.
  destruct (td_process _ _ _ _ _ _ _ _ D) as (h & _ & Eq). split; try done.
  - intros q pq E. rewrite Eq. cbn in E. destruct (decide (q = pr)) as [->|Hq].
    + rewrite lookup_insert_eq. eexists. split; [done|]. by replace pq with p by congruence.
    + rewrite lookup_insert_ne by done. by exists pq.
  - intros x Hx. cbn in Hx. destruct (td_space _ _ _ _ _ _ _ _ D) as [(_ & [-> _ _ _ _])|(d & u1 & u2 & m & _ & [(h' & -> & _) _ _ _ _])];
      [done|]. apply lookup_insert_is_Some'. by right.
Qed.

Lemma end_queues qs : (forall q, is_priority q -> th ∉ qs q) -> queues_ok s qs -> queues_ok s' qs.
Proof.
  intros Hn [W1 W2 W3].
  assert (Hh : forall q, q_head (k_g s') q = q_head (k_g s) q) by (intros q; unfold q_head; by rewrite (td_globals _ _ _ _ _ _ _ _ D)).
  assert (Ht : forall q, q_last (k_g s') q = q_last (k_g s) q) by (intros q; unfold q_last; by rewrite (td_globals _ _ _ _ _ _ _ _ D)).
  split; [| intros q; rewrite Ht; apply W2 | done].
  intros q Hq. rewrite Hh. eapply (lseg_nexts (H := queue_link)); [|by apply W1]. intros x Hx.
  apply (end_same queue_next); [by intros [] | intros ->; by apply (Hn q)].
Qed.

Lemma end_core qs : th = current_thread (k_g s) -> th <> idle_thread (k_g s) -> core s qs -> core s' qs.
Proof.
  intros Ec Hi W. pose proof end_extends as X. destruct end_globals as (Eg1 & Eg2 & Eg3 & _). rewrite <- Ec, Z.eqb_refl in Eg1.
  assert (Hq : forall q x, is_priority q -> x ∈ qs q -> x <> th).
  { intros q x Hq Hx ->. by destruct (co_queued _ _ W q th Hq Hx) as (_ & ? & _). }
  assert (Hpr : forall x q st, tv s x = Some (q, st) -> prio s' q = prio s q).
  { intros x q st E. apply (prio_extends (KState (k_st s) (k_g s')) s' x q X), (co_threads _ _ W _ _ _ E). }
  split; rewrite ?Eg1, ?Eg2, ?Eg3.
  - apply end_queues; [|apply W]. intros q Hq' Hx. by apply (Hq q th).
  - apply W.
  - intros x q st. rewrite end_tv. case_decide; [done|]. intros E.
    apply (sound_extends (KState (k_st s) (k_g s')) s' x q X), (co_threads _ _ W _ _ _ E).
  - rewrite end_tv, decide_False by done. apply W.
  - intros q x Hq' Hx. destruct (co_queued _ _ W q x Hq' Hx) as (H1 & H2 & q' & E & E'). split; [done|].
    split; [apply (co_threads _ _ W _ _ _ E)|]. exists q'. rewrite end_tv, decide_False by congruence. split; [done|].
    rewrite <- E'. by eapply Hpr.
  - intros x q. rewrite end_tv. case_decide; [done|]. intros E. rewrite (Hpr _ _ _ E).
    destruct (co_running _ _ W x q E) as [?|[?|?]]; [congruence | by right; left | by right; right].
  - by left.
Qed.

Lemma end_parked es wl : tv s th = Some (pr, TS_RUNNING) -> parked s es wl -> parked s' es wl.
Proof.
  intros E P. destruct (td_stores _ _ _ _ _ _ _ _ D) as (_ & Ew & Es & _).
  destruct end_globals as (_ & _ & _ & Es' & Ew' & _). apply (parked_frame s); try done.
  intros x _ (q & Ex). exists q. rewrite end_tv, decide_False; [done|]. intros ->. by eapply tv_clash.
Qed.

Lemma end_lists q p1 : linked (k_threads (k_st s)) (threads p) (l1 ++ th :: l2) -> 1 < thread_count p ->
  k_processes (k_st s') !! q = Some p1 -> exists l, process_threads s' q p1 l.
Proof.
  intros Hl Hn E. destruct (li_lists _ L _ _ Ep) as (l & Hl' & Hc & Hw & Hin).
  assert (l = l1 ++ th :: l2) as -> by exact (linked_det _ _ _ _ Hl' Hl). pose proof (linked_NoDup _ _ _ Hl) as Hnd.
  assert (Hpx : forall x, x <> th -> t_process <$> k_threads (k_st s') !! x = t_process <$> k_threads (k_st s) !! x)
    by (intros x Hx; apply (end_same t_process); [by intros [] | done]).
  destruct (decide (q = pr)) as [->|Hq].
  - destruct (td_process _ _ _ _ _ _ _ _ D) as (h & Hh & Eq). rewrite Eq, lookup_insert_eq in E. injection E as <-.
    exists (l1 ++ l2). split; [done|]. cbn [thread_count set_thread_count set_threads].
    rewrite w32_small by (unfold u32; lia). rewrite length_app in *. cbn [length] in Hc.
    split; [lia|]. split; [lia|]. intros x. destruct (decide (x = th)) as [->|Hx].
    + rewrite (td_gone _ _ _ _ _ _ _ _ D). cbn. split; [|done]. apply NoDup_app in Hnd as (_ & Hd & [Hd' _]%NoDup_cons).
      intros [H|H]%elem_of_app; [|done]. destruct (Hd th H). by left.
    + rewrite Hpx, <- Hin, !elem_of_app, elem_of_cons by done. tauto.
  - destruct (end_process _ _ E) as (p0 & E0 & _ & _ & _ & ->); [|done].
    destruct (li_lists _ L _ _ E0) as (l & Hl0 & Hc0 & Hw0 & Hin0). exists l.
    assert (Hout : forall x, x ∈ l -> x <> th /\ x ∉ l1).
    { intros x Hx. apply Hin0 in Hx. assert (Hx' : x ∉ l1 ++ th :: l2) by (intros H; apply Hin in H; congruence). set_solver. }
    split; [|split; [done|split; [done|]]].
    + eapply lseg_agree; [|exact Hl0]. intros x Hx. destruct (Hout x Hx) as [H1 H2]. by apply (td_others _ _ _ _ _ _ _ _ D x H1).
    + intros x. destruct (decide (x = th)) as [->|Hx]; [|by rewrite Hpx].
      rewrite (td_gone _ _ _ _ _ _ _ _ D). cbn. split; [|done]. by intros [? _]%Hout.
Qed.

Lemma end_kstacks : kstacks_ok s'.
Proof.
  destruct (li_kstacks _ L) as [K1 K2].
  assert (H : forall x a, k_threads (k_st s') !! x = Some a -> exists b, x <> th /\ k_threads (k_st s) !! x = Some b /\
            kernelStack_addr a = kernelStack_addr b).
  { intros x a E. destruct (end_thread _ _ E) as (Hx & b & Eb & V). exists b. split; [done|]. split; [done|].
    destruct a, b. unfold set_t_next in V; cbn in V. by injection V as -> -> -> -> -> -> -> -> ->. }
  split.
  - intros x a E. destruct (H _ _ E) as (b & Hx & Eb & ->). rewrite (td_stacks _ _ _ _ _ _ _ _ D).
    rewrite lookup_delete_ne; [by eapply K1|]. intros E'. apply Hx. by apply (K2 x th b t).
  - intros x y a a' E E' EE. destruct (H _ _ E) as (b & _ & Eb & X), (H _ _ E') as (b' & _ & Eb' & X').
    eapply K2; [exact Eb | exact Eb' | congruence].
Qed.

(** The mapping of its stack goes; the others stay. *)
Lemma end_map y m1 : k_maps (k_st s') !! y = Some m1 -> exists m0, k_maps (k_st s) !! y = Some m0 /\
  set_sm_next 0 m1 = set_sm_next 0 m0 /\ (userStack_seg t <> 0 -> y <> userStack_seg t).
Proof.
  intros E. destruct (td_space _ _ _ _ _ _ _ _ D) as [(Hu & [_ Em _ _ _])|(d & u1 & u2 & m & _ & [_ R2 R3 _ _])].
  - rewrite Em in E. by exists m1.
  - assert (Hy : y <> userStack_seg t) by (intros ->; congruence). destruct (R3 y Hy) as [V _]. rewrite E in V.
    destruct (k_maps (k_st s) !! y) as [m0|]; [|done]. exists m0. split; [done|]. split; [by apply (inj Some) in V | done].
Qed.

Lemma end_spaces : spaces_ok s'.
Proof.
  destruct (li_spaces _ L) as [A1 A2 A3]. destruct (td_space _ _ _ _ _ _ _ _ D) as [(_ & [E1 E2 E3 E4 E5])|(d & u1 & u2 & m & O & R)].
  { split; rewrite ?E1, ?E2, ?E4, ?E5; done. }
  destruct O as (ss & [[Hpd Ed] Hl _ _ _ _]), R as [(h & Edirs & Hl') R2 R3 R4 R5]. set (u := userStack_seg t) in *.
  destruct (A1 _ _ Ed) as (lm & Hlm & Hm). assert (lm = u1 ++ u :: u2) as -> by exact (linked_det _ _ _ _ Hlm Hl).
  pose proof (linked_NoDup _ _ _ Hl) as Hnd.
  assert (Hdirs : forall x d1, k_pagedirs (k_st s') !! x = Some d1 -> exists d0, k_pagedirs (k_st s) !! x = Some d0 /\
            forall i, dir_table d1 i = dir_table d0 i).
  { intros x d1. rewrite Edirs. destruct (decide (x = p_pagedir p)) as [->|Hx].
    - rewrite lookup_insert_eq. intros [= <-]. by exists d.
    - rewrite lookup_insert_ne by done. intros E. by exists d1. }
  split.
  - intros x d1 E. rewrite Edirs in E. destruct (decide (x = p_pagedir p)) as [->|Hx].
    + rewrite lookup_insert_eq in E. injection E as <-. exists (u1 ++ u2). split; [done|]. intros y m1 Hy E1.
      destruct (end_map _ _ E1) as (m0 & E0 & (_ & -> & _)%map_same & _).
      apply (Hm y m0); [set_solver | done].
    + rewrite lookup_insert_ne in E by done. destruct (A1 _ _ E) as (l & Hl0 & Hm0). exists l.
      assert (Hout : forall y, y ∈ l -> k_maps (k_st s') !! y = k_maps (k_st s) !! y).
      { intros y Hy. destruct (lseg_in_dom _ _ _ _ y Hl0 Hy) as (_ & m0 & E0).
        assert (Hn : y ∉ u1 ++ u :: u2) by (intros H; pose proof (Hm y m0 H E0); pose proof (Hm0 y m0 Hy E0); congruence).
        apply R3; set_solver. }
      split; [by eapply lseg_agree|]. intros y m1 Hy. rewrite Hout by done. by apply Hm0.
  - intros x d1 E. destruct (Hdirs _ _ E) as (d0 & E0 & Hd). apply (pages_ok_tables d0); [done|].
    pose proof (A2 _ _ E0) as W. destruct (decide (x = p_pagedir p)) as [->|Hx].
    + replace d0 with d by congruence. replace d0 with d in W by congruence. eapply pages_ok_unmapped; [exact W | apply map_page_dec | exact R5].
    + eapply (pages_ok_other d); [exact R5 | exact W |]. intros i j Hi Hj. by apply (A3 x (p_pagedir p)).
  - intros x x' d0 d1 i j E0 E1. destruct (Hdirs _ _ E0) as (d0' & E0' & ->), (Hdirs _ _ E1) as (d1' & E1' & ->).
    by apply (A3 x x').
Qed.

Lemma end_has_stack x q u : has_stack s' x q u -> x <> th /\ has_stack s x q u.
Proof.
  intros (Hu & a & E & Ea & Eu & p1 & E1 & Hp1). destruct (end_thread _ _ E) as (Hx & b & Eb & V). split; [done|]. split; [done|].
  destruct (end_process _ _ E1) as (p0 & E0 & Ev & _). rewrite Ev in Hp1.
  exists b. split; [done|]. pose proof (f_equal t_process V). pose proof (f_equal userStack_seg V). cbn in *.
  split; [congruence|]. split; [congruence | by exists p0].
Qed.

(** The stack of another thread is still there. *)
Lemma end_stack_at x q u p0 p1 m : has_stack s x q u -> x <> th -> k_processes (k_st s) !! q = Some p0 ->
  p_pagedir p1 = p_pagedir p0 -> stacksBottom p1 = stacksBottom p0 ->
  stack_at s p0 u m -> exists m', stack_at s' p1 u m' /\ set_sm_next 0 m' = set_sm_next 0 m.
Proof.
  intros Hs Hx E0 Epd Eb [M1 (d0 & lm & M2 & M3 & M4) (ss & M5 & M6) M7 M8].
  destruct (td_space _ _ _ _ _ _ _ _ D) as [(_ & [E1 E2 E3 E4 E5])|(d & u1 & u2 & n & O & R)].
  { exists m. split; [|done]. split; rewrite ?E1, ?E2, ?E3, ?Epd, ?Eb; try done; [by exists d0, lm | by exists ss]. }
  destruct O as (ss' & [[Hpd Ed] Hl [En _] [Hsn Eg] _ _]), R as [(h & Edirs & Hl') R2 R3 R4 R5].
  assert (Ht : has_stack s th pr (userStack_seg t)) by (apply end_stack; by destruct (linked_at _ _ _ _ _ Hl)).
  destruct (us_apart _ (li_ustacks _ L) _ _ _ _ _ _ _ _ Hs Ht Hx M1 En) as (Hu & Hg & _).
  destruct (R3 u Hu) as [V V']. rewrite M1 in V. destruct (k_maps (k_st s') !! u) as [m'|] eqn:Em'; [|done]. apply (inj Some) in V.
  destruct (map_same _ _ V) as (Y1 & _ & Y2 & Y3).
  exists m'. split; [|done]. split; rewrite ?Y1, ?Y2, ?Y3, ?Epd, ?Eb; try done.
  - rewrite Edirs. destruct (decide (p_pagedir p0 = p_pagedir p)) as [Ee|Hne].
    + rewrite Ee in *. replace d0 with d in * by congruence. assert (lm = u1 ++ userStack_seg t :: u2) as -> by exact (linked_det _ _ _ _ M3 Hl).
      exists (set_mappedSegs h d), (u1 ++ u2). rewrite lookup_insert_eq. split; [done|]. split; [done|]. set_solver.
    + destruct (so_maps _ end_spaces (p_pagedir p0) d0) as (l & Hl0 & _); [by rewrite Edirs, lookup_insert_ne|].
      destruct (so_maps _ (li_spaces _ L) (p_pagedir p0) d0 M2) as (l0 & Hl0' & Hm0). replace l0 with lm in * by exact (linked_det _ _ _ _ M3 Hl0').
      exists d0, lm. rewrite lookup_insert_ne by done. split; [done|]. split; [|done].
      destruct (so_maps _ (li_spaces _ L) _ _ Ed) as (l2' & Hl2 & Hm2). replace l2' with (u1 ++ userStack_seg t :: u2) in * by exact (linked_det _ _ _ _ Hl Hl2).
      eapply lseg_agree; [|exact M3]. intros y Hy. destruct (lseg_in_dom _ _ _ _ y M3 Hy) as (_ & b & Eb').
      assert (Hn : y ∉ u1 ++ userStack_seg t :: u2) by (intros H; pose proof (Hm2 y b H Eb'); pose proof (Hm0 y b Hy Eb'); congruence).
      apply R3; set_solver.
  - exists ss. split; [done|]. rewrite R4. by rewrite lookup_delete_ne.
Qed.

Lemma end_ustacks : ustacks_ok s'.
Proof.
  destruct (li_ustacks _ L) as [U1 U2 U3 U4]. split.
  - intros q p1 E. destruct (end_process _ _ E) as (p0 & E0 & -> & _ & -> & _). by eapply U1.
  - intros x a p1 E E1 Hp1. destruct (end_process _ _ E1) as (p0 & E0 & Ev & _). rewrite Ev in Hp1.
    destruct (end_thread _ _ E) as (_ & b & Eb & V). destruct end_globals as (_ & _ & _ & _ & _ & _ & _ & ->).
    assert (Ea : t_process a = t_process b) by exact (f_equal t_process V). rewrite Ea in E0.
    transitivity (userStack_seg b); [exact (f_equal userStack_seg V) | by eapply U2].
  - intros x q u p1 [Hx H]%end_has_stack E. destruct (end_process _ _ E) as (p0 & E0 & _ & X2 & X3 & _).
    destruct (U3 _ _ _ _ H E0) as (m & M). destruct (end_stack_at x q u p0 p1 m) as (m' & M' & _); try done. by exists m'.
  - intros x x' q q' u u' m m' [Hx H]%end_has_stack [Hx' H']%end_has_stack Hne E E'.
    destruct (end_map _ _ E) as (n & En & V & _), (end_map _ _ E') as (n' & En' & V' & _).
    destruct (U4 x x' q q' u u' n n' H H' Hne En En') as (H1 & H2 & H3).
    destruct (map_same _ _ V) as (Y1 & _ & Y2 & Y3), (map_same _ _ V') as (Y1' & _ & Y2' & Y3').
    unfold map_range in *. rewrite Y1, Y2, Y3, Y1', Y2', Y3'. done.
Qed.

(** The frames of its pages, and only these, are free again. *)
Lemma end_entry_stack x q : user_page q -> entry_of s' x q = entry_of s x q \/
  ((pg_frame (entry_of s' x q) = 0 /\ pg_present (entry_of s' x q) = 0) /\ x = p_pagedir p /\ userStack_seg t <> 0 /\
   exists m, k_maps (k_st s) !! userStack_seg t = Some m /\ map_page m q).
Proof.
  intros Hq. destruct (td_space _ _ _ _ _ _ _ _ D) as [(_ & [E1 E2 E3 E4 E5])|(d & u1 & u2 & m & (ss & [[_ Ed] Hl [Em _] _ _ _]) & [(h & Edirs & _) _ _ _ U])].
  { left. unfold entry_of. by rewrite E1, E4. }
  unfold entry_of. rewrite Edirs. destruct (decide (x = p_pagedir p)) as [->|Hx].
  - rewrite lookup_insert_eq, Ed. destruct (map_page_dec m q) as [Hm|Hm].
    + right. split; [by apply (um_page _ _ _ _ _ _ _ U q Hq)|]. split; [done|].
      split; [by destruct (linked_at _ _ _ _ _ Hl) | by exists m].
    + left. by apply (um_other _ _ _ _ _ _ _ U q Hq).
  - left. rewrite lookup_insert_ne by done. destruct (k_pagedirs (k_st s) !! x) as [d0|] eqn:E0; [|done].
    eapply entry_other; [exact U | by eapply (so_pages _ (li_spaces _ L)) | | done].
    intros i j Hi Hj. by apply (so_apart _ (li_spaces _ L) x (p_pagedir p)).
Qed.

Lemma end_entry x q : user_page q -> entry_of s' x q = entry_of s x q \/
  (pg_frame (entry_of s' x q) = 0 /\ pg_present (entry_of s' x q) = 0).
Proof. intros Hq. destruct (end_entry_stack x q Hq) as [?|[? _]]; [by left | by right]. Qed.

Lemma end_frames : frames_ok s'.
Proof.
  destruct (li_frames _ L) as [F1 F2 F3 F4]. destruct (td_space _ _ _ _ _ _ _ _ D) as [(_ & [E1 E2 E3 E4 E5])|(d & u1 & u2 & m & O & R)].
  { assert (He : forall x q, entry_of s' x q = entry_of s x q) by (intros x q; unfold entry_of; by rewrite E1, E4).
    split; rewrite ?E5; try done; intros x q; rewrite He; by auto. }
  destruct O as (ss & [[Hpd Ed] Hl [Em _] _ _ _]), R as [(h & Edirs & _) _ _ _ U].
  assert (Hs : has_stack s th pr (userStack_seg t)) by (apply end_stack; by destruct (linked_at _ _ _ _ _ Hl)).
  split.
  - by rewrite (proj2 (um_size _ _ _ _ _ _ _ U)).
  - apply (um_bits _ _ _ _ _ _ _ U); [done|]. split; [done|]. by intros (_ & ? & _).
  - intros x q Hq Hz. destruct (end_entry x q Hq) as [E|[_ ?]]; [rewrite E in *; by apply F3 | done].
  - intros x q Hq Hn. destruct (end_entry x q Hq) as [E|[E _]]; [|by rewrite E in Hn]. rewrite E in *.
    specialize (F4 x q Hq Hn). apply (um_bits _ _ _ _ _ _ _ U).
    { unfold entry_of in *. destruct (k_pagedirs (k_st s) !! x) as [dx|] eqn:Ex; [|done].
      pose proof (po_frames _ _ _ (so_pages _ (li_spaces _ L) _ _ Ex) q Hq Hn) as Hi. unfold in_array in Hi. lia. }
    split; [done|]. intros (_ & _ & q0 & Hq0 & Hm0 & Ef).
    assert (E0 : entry_of s (p_pagedir p) q0 = page_entry d (k_tables (k_st s)) q0) by (unfold entry_of; by rewrite Ed).
    rewrite <- E0 in Ef. destruct (li_owned _ L th pr _ p m q0 Hs Ep Em Hq0 Hm0) with (pd' := x) (p' := q) as [-> ->]; [congruence | done | done |].
    pose proof (proj1 (um_page _ _ _ _ _ _ _ U q0 Hq0 Hm0)) as Hz. unfold entry_of in E at 1. rewrite Edirs, lookup_insert_eq in E.
    rewrite <- E in Hn. apply Hn, Hz.
Qed.

Lemma end_owned : stacks_owned s'.
Proof.
  intros x q u p1 m1 a [Hx H]%end_has_stack E1 Em Ha Hm. destruct (end_process _ _ E1) as (p0 & E0 & _ & Epd & _).
  destruct (end_map _ _ Em) as (m0 & Em0 & V & _).
  assert (Hm0 : map_page m0 a) by (destruct (map_same _ _ V) as (_ & _ & Y2 & Y3); unfold map_page in *; by rewrite <- Y2, <- Y3).
  rewrite Epd. intros Hn pd' p' Hp' Ef. destruct (end_entry (p_pagedir p0) a Ha) as [E|[E _]]; [|by rewrite E in Hn].
  destruct (end_entry pd' p' Hp') as [E'|[E' _]]; [|rewrite E' in Ef; congruence].
  rewrite E, E' in *. by apply (li_owned _ L x q u p0 m0 a).
Qed.

End ending.
