(* ===== verification/LifeSpec.v ===== *)
(** * Threads that come and go: every action

    A served page fault keeps the invariant of [Life] as well; so every
    action runs to its end and keeps it, and the theorems follow. *)

From S2P Require Import Prelude Memory Bitset Kernel Paging Segments Unmap Spaces Sched Timer Objects Tasking System Keeps.
From S2P Require Import Creation Exit Requests Syscalls Life LifeSpawn LifeExit.

(** ** Lemmas: a page more *)

Lemma core_extends s s' qs : extends s s' -> k_threads (k_st s') = k_threads (k_st s) -> queue (k_g s') = queue (k_g s) ->
  last (k_g s') = last (k_g s) -> processes (k_g s') = processes (k_g s) -> core s qs -> core s' qs.
Proof.
  intros X Et Eq El Ep W. pose proof (tv_frame s s' Et) as Tv. pose proof (ex_idle _ _ X) as Ei. pose proof (ex_current _ _ X) as Ec.
  assert (Hpr : forall x q st, tv s x = Some (q, st) -> prio s' q = prio s q).
  { intros x q st E. eapply prio_extends; [done | by eapply co_threads]. }
  split; rewrite ?Ei, ?Ec, ?Ep; try apply W.
  - by apply (queues_ok_frame s); [apply W|..].
  - intros x q st. rewrite Tv. intros E. eapply sound_extends; [done | by eapply co_threads].
  - destruct (co_idle _ _ W) as (q & E). exists q. by rewrite Tv.
  - intros q x Hq Hx. destruct (co_queued _ _ W q x Hq Hx) as (? & ? & q' & E & E'). split; [done|]. split; [done|].
    exists q'. rewrite Tv, (Hpr _ _ _ E). done.
  - intros x q. rewrite Tv. intros E. rewrite (Hpr _ _ _ E). by apply (co_running _ _ W).
  - rewrite Tv. apply W.
Qed.

Lemma sys_extends s s' : extends s s' -> k_threads (k_st s') = k_threads (k_st s) -> queue (k_g s') = queue (k_g s) ->
  last (k_g s') = last (k_g s) -> processes (k_g s') = processes (k_g s) ->
  k_sleepers (k_st s') = k_sleepers (k_st s) -> k_waiters (k_st s') = k_waiters (k_st s) -> sys s -> sys s'.
Proof.
  intros X Et Eq El Ep Es Ew (Hf & Hc & qs & es & wl & W & P). pose proof (tv_frame s s' Et) as Tv.
  split; [by rewrite (ex_freq _ _ X)|]. split.
  - unfold current_runs. rewrite (ex_current _ _ X). setoid_rewrite Tv. exact Hc.
  - exists qs, es, wl. split; [by eapply core_extends|].
    apply (parked_frame s); [done | done | apply X | done | apply X |]. intros x _ (q & E). exists q. by rewrite Tv.
Qed.

Section touching.
Context (s s' : kstate) (pd a w f : Z) (L : life s) (R : respaced s s') (G : page_given s s' pd a w f).

Lemma touch_same : k_threads (k_st s') = k_threads (k_st s) /\ k_processes (k_st s') = k_processes (k_st s) /\
  k_stacks (k_st s') = k_stacks (k_st s) /\ k_maps (k_st s') = k_maps (k_st s) /\ k_segments (k_st s') = k_segments (k_st s) /\
  k_sleepers (k_st s') = k_sleepers (k_st s) /\ k_waiters (k_st s') = k_waiters (k_st s).
Proof. by rewrite (rs_stores _ _ R). Qed.

Lemma touch_dir x d : k_pagedirs (k_st s) !! x = Some d -> exists d', k_pagedirs (k_st s') !! x = Some d' /\ mappedSegs d' = mappedSegs d.
Proof.
  intros E. pose proof (rs_dirs _ _ R x) as V. rewrite E in V. destruct (k_pagedirs (k_st s') !! x) as [d'|]; [|done].
  exists d'. split; [done|]. by apply (inj Some) in V.
Qed.

Lemma touch_extends : extends s s'.
Proof.
  destruct touch_same as (_ & Ep & _). pose proof (rs_globals _ _ R) as Eg. split; try (by rewrite Eg).
  - intros q p E. exists p. by rewrite Ep.
  - intros x [d E]. destruct (touch_dir x d E) as (d' & E' & _). by exists d'.
Qed.

Lemma touch_owned : stacks_owned s'.
Proof.
  destruct touch_same as (Et & Ep & _ & Em & _). destruct G as [G1 [G2 G3] G4]. pose proof (fo_used _ (li_frames _ L)) as Hused.
  intros x q u p m b H E1 E2 Hb Hm. rewrite Ep in E1. rewrite Em in E2.
  assert (H' : has_stack s x q u) by (unfold has_stack, user_process in *; by rewrite Et, Ep in H).
  pose proof (li_owned _ L x q u p m b H' E1 E2 Hb Hm) as O. intros Hn pd' p' Hp' Ef.
  destruct (decide ((p_pagedir p, b) = (pd, a))) as [[= E3 E4]|N1], (decide ((pd', p') = (pd, a))) as [[= E5 E6]|N2].
  - split; congruence.
  - rewrite E3, E4, G1, (G4 pd' p' Hp' N2) in Ef. cbn in Ef. rewrite <- Ef, (Hused pd' p' Hp') in G3; [done | congruence].
  - rewrite E5, E6, G1, (G4 _ b Hb N1) in *. cbn in Ef. rewrite Ef, (Hused _ b Hb) in G3; [done | congruence].
  - rewrite (G4 _ b Hb N1) in *. rewrite (G4 _ p' Hp' N2) in Ef. by apply O.
Qed.

Lemma touch_life : life s'.
Proof.
  destruct touch_same as (Et & Ep & Ek & Em & Eg & Es & Ew). pose proof (rs_globals _ _ R) as Egl. pose proof touch_extends as X.
  assert (Hs : forall t pr u, has_stack s' t pr u -> has_stack s t pr u)
    by (intros t pr u; unfold has_stack, user_process; by rewrite Et, Ep).
  destruct L as [L1 LR LF LO L2 [L3 L4] LS [L8 L9 L10 L11] L12]. split.
  - eapply sys_extends; try done; by rewrite Egl.
  - rewrite (ex_current _ _ X). intros Hc. destruct (LR Hc) as (th & p & E1 & E2 & E3 & E4). exists th, p. by rewrite Et, Ep, Egl.
  - apply R.
  - apply touch_owned.
  - intros pr p. rewrite Ep. intros E. destruct (L2 _ _ E) as (l & Hl). exists l. unfold process_threads in *. by rewrite Et.
  - split; rewrite Et, ?Ek; done.
  - apply R.
  - split; rewrite ?Ep, ?Em; try done.
    + intros t th p. rewrite Et, Egl. apply L9.
    + intros t pr u p H%Hs E. destruct (L10 _ _ _ _ H E) as (m & [M1 (d & l & M2 & M3 & M4) M5 M6 M7]). exists m.
      destruct (touch_dir _ _ M2) as (d' & E' & Ed'). split; rewrite ?Em, ?Eg; try done. exists d', l. by rewrite Ed'.
    + intros t t' pr pr' u u' m m' H%Hs H'%Hs. by apply L11.
  - by rewrite Egl.
Qed.

End touching.

Lemma switch_life s c : life s -> exists s', switch c s = Ok (tt, s') /\ life s' /\ k_junk (k_g s') = k_junk (k_g s).
Proof.
  intros L. destruct (li_sys _ L) as (Hf & _ & qs & es & wl & W & P).
  destruct (sys_switch s qs es wl c Hf W P) as (s' & E & Y). assert (K : kept s s') by by eapply keeps_switch.
  exists s'. split; [done|]. split; [by eapply life_kept | apply K].
Qed.

(** A thread with something in [userStack_seg] has a stack, if it is of a
    user process or the memory was clear. *)
Lemma life_has_stack s t th p : life s -> k_threads (k_st s) !! t = Some th -> k_processes (k_st s) !! t_process th = Some p ->
  PL_SERVICE <= privilege p \/ k_junk (k_g s) = 0 -> userStack_seg th <> 0 -> has_stack s t (t_process th) (userStack_seg th).
Proof.
  intros L Et Ep Hj Hu. split; [done|]. exists th. do 3 (split; [done|]). exists p. split; [done|].
  destruct (Z.le_gt_cases PL_SERVICE (privilege p)) as [|Hlt]; [done|]. destruct Hj as [?|H0]; [lia|].
  by rewrite (us_none _ (li_ustacks _ L) _ _ _ Et Ep Hlt) in Hu.
Qed.

(** The stacks of the current thread, as [thread_delete] wants them. *)
Lemma life_own_stack s t th p : life s -> k_threads (k_st s) !! t = Some th -> k_processes (k_st s) !! t_process th = Some p ->
  p_pagedir p <> 0 -> PL_SERVICE <= privilege p \/ k_junk (k_g s) = 0 ->
  userStack_seg th = 0 \/ exists d u1 u2 m, own_stack s (p_pagedir p) d u1 (userStack_seg th) u2 m.
Proof.
  intros L Et Ep Hpd Hj. destruct (decide (userStack_seg th = 0)) as [|Hu]; [by left | right].
  assert (Hs : has_stack s t (t_process th) (userStack_seg th)) by by eapply life_has_stack.
  destruct (us_at _ (li_ustacks _ L) _ _ _ _ Hs Ep) as (m & [M1 (d & l & M2 & M3 & M4) (ss & M5 & M6) (M7 & M8) (M9 & M10)]).
  pose proof (has_stack_user _ _ _ _ _ Hs Ep) as Hpl. destruct (us_bottom _ (li_ustacks _ L) _ _ Ep Hpl) as ((B1 & _) & _).
  destruct (so_maps _ (li_spaces _ L) _ _ M2) as (l' & Hl' & Hm). replace l' with l in * by exact (linked_det _ _ _ _ M3 Hl').
  destruct (list_elem_of_split _ _ M4) as (u1 & u2 & ->). exists d, u1, u2, m, ss. split; try done.
  - split; [done|]. by apply (Hm (userStack_seg th)).
  - rewrite M10 in *. unfold USER_STACK_SIZE in *. lia.
  - by apply (so_pages _ (li_spaces _ L) (p_pagedir p)).
Qed.

(** A thread that ends, before the task switch. *)
Lemma end_life s reason : life s -> reason = EX_TH_NORMAL \/ reason = EX_TH_EXCEPTION ->
  ends s -> exists s' t p l1 l2, thread_exit_stackJmp reason s = Ok (tt, s') /\ life s' /\
    k_threads (k_st s) !! current_thread (k_g s) = Some t /\ k_processes (k_st s) !! t_process t = Some p /\
    (PL_SERVICE <= privilege p \/ k_junk (k_g s) = 0) /\
    thread_deleted s s' (current_thread (k_g s)) t (t_process t) p l1 l2.
Proof.
  intros L Hr (Hc & Hi & Hn).
  destruct (life_current s L Hc) as (t & p & d & Et & (_ & Hpr & p' & _ & Ep & _ & Hpd & _) & Ep' & Ed & R & Hrun).
  replace p' with p in * by congruence. destruct (Hn _ _ R) as [Hn1 Hj]. clear Hn. rename Hn1 into Hn.
  set (th := current_thread (k_g s)) in *.
  destruct (li_lists _ L _ _ Ep) as (l & Hl). assert (Hin : th ∈ l) by (apply Hl; by rewrite Et).
  destruct (list_elem_of_split _ _ Hin) as (l1 & l2 & ->). destruct Hl as (Hl & Hcount).
  destruct (thread_exit_stackJmp_ok s reason th t (t_process t) p l1 l2) as (s' & E & D); try done; [apply L | by eapply life_own_stack |].
  exists s', t, p, l1, l2. split; [done|]. split; [|done].
  assert (Etv : tv s th = Some (t_process t, TS_RUNNING)) by (unfold tv; rewrite Et; cbn; by rewrite Hrun).
  destruct (li_sys _ L) as (Hf & Hcur & qs & es & wl & W & P).
  destruct (end_globals _ _ _ _ _ _ _ _ D) as (G1 & _ & _ & _ & _ & G6 & G7 & G8).
  split; rewrite ?G7; [|rewrite G1; fold th; by rewrite Z.eqb_refl | by eapply end_frames | by eapply end_owned | intros q p1; by eapply end_lists | by eapply end_kstacks | by eapply end_spaces | by eapply end_ustacks | apply L].
  split; [by rewrite G6|]. split; [left; rewrite G1; fold th; by rewrite Z.eqb_refl|].
  exists qs, es, wl. split; [by eapply end_core | by eapply end_parked].
Qed.

(** A page fault that is served. *)
Lemma touch_served s err eip cr2 ss : life s -> faulting s (current_pagedir (k_g s)) cr2 err eip ss ->
  exists s' f, idt_isrHandler 14 err eip cr2 s = Ok (tt, s') /\ respaced s s' /\
    page_given s s' (current_pagedir (k_g s)) (cr2 / 0x1000) (if ss_writable ss =? 0 then 0 else 1) f /\
    forall d, k_pagedirs (k_st s) !! current_pagedir (k_g s) = Some d -> dir_table d (table_of cr2) <> 0 ->
      page_only s s' (dir_table d (table_of cr2)) (index_of cr2) (Page 1 (if ss_writable ss =? 0 then 0 else 1) 1 f) f.
Proof.
  intros L F. destruct (user_fault_ok s _ cr2 err eip ss (li_spaces _ L) (li_frames _ L) F) as (s' & f & E & R & G).
  exists s', f. split; [|done]. apply wp_eq_Ok. unfold idt_isrHandler. cbn [Z.eqb Pos.eqb]. ksteps. eapply wp_eq; [exact E|]. by ksteps.
Qed.

Lemma action_ok s a : life s -> possible s a ->
  exists s', run_action a s = Ok (tt, s') /\ life s' /\ k_junk (k_g s') = k_junk (k_g s).
Proof.
  intros L Ha. destruct a as [e|entry data|c|n err eip cr2 c|err eip cr2].
  - destruct (event_ok s e (li_sys _ L) Ha) as (s' & E & Y). assert (K : kept s s') by by eapply keeps_event.
    exists s'. split; [done|]. split; [by eapply life_kept | apply K].
  - by apply spawn_ok.
  - destruct (end_life s EX_TH_NORMAL L) as (s1 & t & p & l1 & l2 & E1 & L1 & _ & _ & _ & D); [by left | done |].
    destruct (switch_life s1 c L1) as (s' & E & L' & K). exists s'. split; [|split; [done|]].
    + cbn [run_action]. unfold thread_exit. by rewrite (bind_Ok _ _ _ _ _ E1).
    + rewrite K. by rewrite (td_globals _ _ _ _ _ _ _ _ D).
  - destruct Ha as (Hn & Hn14 & He & Hend). pose proof Hend as (Hc & _).
    destruct (end_life s EX_TH_EXCEPTION L) as (s1 & t & p & l1 & l2 & E1 & L1 & _ & _ & _ & D); [by right | done |].
    destruct (switch_life s1 c L1) as (s' & E & L' & K). exists s'. split; [|split; [done|]].
    + cbn [run_action]. rewrite (bind_Ok _ _ _ tt s1); [done|]. apply wp_eq_Ok. unfold idt_isrHandler, tasking_handleException, read_message.
      rewrite (proj2 (Z.eqb_neq n 14)) by done. ksteps. rewrite (proj2 (Z.eqb_neq _ _) Hc).
      rewrite (proj2 (Z.leb_le 0 n)), (proj2 (Z.ltb_lt n _)), (proj2 (Z.leb_gt _ _)) by lia.
      cbn [andb]. ksteps. eapply wp_eq; [exact E1|]. by ksteps.
    + rewrite K. by rewrite (td_globals _ _ _ _ _ _ _ _ D).
  - destruct Ha as (Hc & ss & F). destruct (touch_served s err eip cr2 ss L F) as (s' & f & E & R & G & _).
    exists s'. split; [done|]. split; [by eapply touch_life|]. by rewrite (rs_globals _ _ R).
Qed.

Lemma lives_life s0 s : life s0 -> lives s0 s -> life s /\ k_junk (k_g s) = k_junk (k_g s0).
Proof.
  intros L. induction 1 as [|s a s' _ [IH J] Ha E]; [done|]. destruct (action_ok s a IH Ha) as (s2 & E2 & L2 & J2).
  split; congruence.
Qed.

(** ** The sample of [System] *)

Lemma sample_entry_zero pd p : entry_of sample_system pd p = zero_page.
Proof.
  unfold entry_of. destruct (k_pagedirs (k_st sample_system) !! pd) as [d|]; [|done]. unfold page_entry.
  change (k_tables (k_st sample_system)) with (∅ : gmap Z page_table). by rewrite lookup_empty.
Qed.

Lemma sample_process pr p : k_processes (k_st sample_system) !! pr = Some p ->
  (pr = 1 /\ p = Process 1 0 2 3 0 50 0xDEFE8000 0 0 0 0 10) \/ (pr = 3 /\ p = Process 0 0 0 1 0 51 0 0 0 0 0 90).
Proof.
  unfold sample_system; ksimp.
  destruct (decide (pr = 1)) as [->|]; [rewrite lookup_insert_eq; intros [= <-]; by left | rewrite lookup_insert_ne by done].
  destruct (decide (pr = 3)) as [->|]; [rewrite lookup_singleton_eq; intros [= <-]; by right | by rewrite lookup_singleton_ne].
Qed.

Lemma sample_pagedir pd d : k_pagedirs (k_st sample_system) !! pd = Some d ->
  (pd = 50 /\ d = PageDirectory ∅ ∅ 0 82) \/ (pd = 51 /\ d = PageDirectory ∅ ∅ 0 0).
Proof.
  unfold sample_system; ksimp.
  destruct (decide (pd = 50)) as [->|]; [rewrite lookup_insert_eq; intros [= <-]; by left | rewrite lookup_insert_ne by done].
  destruct (decide (pd = 51)) as [->|]; [rewrite lookup_singleton_eq; intros [= <-]; by right | by rewrite lookup_singleton_ne].
Qed.

(** Thread, stack, mapping. *)
Lemma sample_stacks t pr u : has_stack sample_system t pr u -> pr = 1 /\
  exists i, 0 <= i < 3 /\ t = 10 * (i + 1) /\ u = 80 + i /\ exists n,
    k_maps (k_st sample_system) !! u = Some (sample_stack (85 + i) (0xDEFF8000 - 0x8000 * i) n).
Proof.
  intros (Hu & th & E & <- & <- & _). apply sample_lookup in E as [(-> & ->)|[(-> & ->)|[(-> & ->)|(-> & ->)]]]; try done;
    (split; [done|]); [exists 0 | exists 1 | exists 2]; do 3 (split; [done|]); by eexists.
Qed.

Lemma sample_list : linked (k_maps (k_st sample_system)) 82 [82; 81; 80].
Proof. by repeat (eexists || split). Qed.

Lemma sample_spaces : spaces_ok sample_system.
Proof.
  assert (H0 : forall pd d i, k_pagedirs (k_st sample_system) !! pd = Some d -> dir_table d i = 0).
  { intros pd d i E. by apply sample_pagedir in E as [(_ & ->)|(_ & ->)]. }
  split.
  - intros pd d E. apply sample_pagedir in E as [(-> & ->)|(-> & ->)]; [exists [82; 81; 80] | exists []; split; [done|]].
    + split; [apply sample_list|]. intros x m Hx. rewrite !elem_of_cons, elem_of_nil in Hx. by destruct Hx as [->|[->|[->|[]]]]; intros [= <-].
    + intros x m Hx. by apply elem_of_nil in Hx.
  - intros pd d E. split.
    + intros i _. by rewrite (H0 pd).
    + intros i j _ _ _. by rewrite (H0 pd).
    + done.
    + intros p _. pose proof (sample_entry_zero pd p) as Ee. unfold entry_of in Ee. rewrite E in Ee. by rewrite Ee.
    + split; cbn; try done. repeat constructor; done.
  - intros pd pd' d d' i j E _ _ _ _ _. by apply (H0 pd).
Qed.

Lemma sample_lists pr p : k_processes (k_st sample_system) !! pr = Some p -> exists l, process_threads sample_system pr p l.
Proof.
  assert (Hl : forall pr (l : list Z), (forall t th, k_threads (k_st sample_system) !! t = Some th -> (t_process th = pr <-> t ∈ l)) ->
      (forall t, t ∈ l -> is_Some (k_threads (k_st sample_system) !! t)) ->
      forall t, t ∈ l <-> t_process <$> k_threads (k_st sample_system) !! t = Some pr).
  { intros q l H H' t. split.
    - intros Ht. destruct (H' t Ht) as (th & E). rewrite E. cbn. f_equal. by apply (H t).
    - destruct (k_threads _ !! t) as [th|] eqn:E; [|done]. intros [= Ep]. by apply (H t th). }
  intros E. apply sample_process in E as [(-> & ->)|(-> & ->)]; [exists [10; 20; 30] | exists [90]];
    (split; [by repeat (eexists || split)|]; split; [done|]; split; [done|]; apply Hl).
  - intros t th E. apply sample_lookup in E as [(-> & ->)|[(-> & ->)|[(-> & ->)|(-> & ->)]]]; cbn; split; try done; set_solver.
  - intros t Ht. rewrite !elem_of_cons, elem_of_nil in Ht. destruct Ht as [->|[->|[->|[]]]]; by eexists.
  - intros t th E. apply sample_lookup in E as [(-> & ->)|[(-> & ->)|[(-> & ->)|(-> & ->)]]]; cbn; split; try done; set_solver.
  - intros t ->%list_elem_of_singleton. by eexists.
Qed.

Lemma sample_kstacks : kstacks_ok sample_system.
Proof.
  split.
  - intros t th E. apply sample_lookup in E as [(-> & ->)|[(-> & ->)|[(-> & ->)|(-> & ->)]]]; by eexists.
  - intros t t' th th' E E'. apply sample_lookup in E as [(-> & ->)|[(-> & ->)|[(-> & ->)|(-> & ->)]]];
      apply sample_lookup in E' as [(-> & ->)|[(-> & ->)|[(-> & ->)|(-> & ->)]]]; done.
Qed.

Lemma sample_ustacks : ustacks_ok sample_system.
Proof.
  split.
  - intros pr p E. by apply sample_process in E as [(-> & ->)|(-> & ->)].
  - intros t th p E. apply sample_lookup in E as [(-> & ->)|[(-> & ->)|[(-> & ->)|(-> & ->)]]]; [intros [= <-]; by cbn..|done].
  - intros t pr u p (-> & i & Hi & -> & -> & n & Em)%sample_stacks E. apply sample_process in E as [(_ & ->)|(? & _)]; [|done].
    exists (sample_stack (85 + i) (0xDEFF8000 - 0x8000 * i) n). split; [done | | | |]; cbn [p_pagedir stacksBottom sm_start sm_len sm_seg sample_stack].
    + exists (PageDirectory ∅ ∅ 0 82), [82; 81; 80]. split; [done|]. split; [apply sample_list|].
      assert (i = 0 \/ i = 1 \/ i = 2) as [->|[->| ->]] by lia; cbn; set_solver.
    + assert (i = 0 \/ i = 1 \/ i = 2) as [->|[->| ->]] by lia; eexists; split; done.
    + lia.
    + split; [|done]. Z.div_mod_to_equations. lia.
  - intros t t' pr pr' u u' m m' (-> & i & Hi & -> & -> & n & En)%sample_stacks (-> & j & Hj & -> & -> & n' & En')%sample_stacks Hne Em Em'.
    rewrite En in Em. rewrite En' in Em'. injection Em as <-. injection Em' as <-. cbn. unfold map_range; cbn. split_and!; lia.
Qed.

Lemma sample_life : life sample_system.
Proof.
  assert (Hz : forall pd p, pg_frame (entry_of sample_system pd p) = 0) by (intros pd p; by rewrite sample_entry_zero). split.
  - apply sample_sys.
  - intros _. by do 2 eexists.
  - split; [cbn; lia | done | intros pd p _ _; by rewrite sample_entry_zero | intros pd p _; by rewrite Hz].
  - intros t pr u p m q _ _ _ _ _. unfold owned. by rewrite Hz.
  - apply sample_lists.
  - apply sample_kstacks.
  - apply sample_spaces.
  - apply sample_ustacks.
  - done.
Qed.



(** Thread 10 makes a thread (the next free pointer is 91), is put behind it
    by a tick, 20 runs and ends by a division by zero; its stack page, which
    it had touched, is free again. *)
Fixpoint run_actions (l : list action) : M kstate unit :=
  match l with [] => mret tt | a :: l' => run_action a;; run_actions l' end.

Example sample_actions :
  (fun r => match r with
            | Ok (_, s) => Some (current_thread (k_g s), bits (frames (k_g s)), thread_count <$> k_processes (k_st s) !! 1)
            | Fault _ => None
            end)
    <$> [ run_actions [Spawn 0x400000 7; Event (Switch (1, 2, 3))] sample_system;
          run_actions [Spawn 0x400000 7; Event (Switch (1, 2, 3)); Touch 2 0x400000 0xDEFF7FFC] sample_system;
          run_actions [Spawn 0x400000 7; Event (Switch (1, 2, 3)); Touch 2 0x400000 0xDEFF7FFC; Except 0 0 0x400000 0 (4, 5, 6)] sample_system ]
  = [ Some (20, [1], Some 4); Some (20, [7], Some 4); Some (91, [3], Some 3) ].
Proof. vm_compute. reflexivity. Qed.

(** The frames of the pages of the user stack of [t]. *)
Definition stack_frame (s : kstate) (t : ptr) (f : Z) : Prop :=
  f <> 0 /\ exists pr u p m q, has_stack s t pr u /\ k_processes (k_st s) !! pr = Some p /\ k_maps (k_st s) !! u = Some m /\
    user_page q /\ map_page m q /\ pg_frame (entry_of s (p_pagedir p) q) = f.

(** The frames of its pages are the frames that become free. *)
Lemma end_freed s s' th t p l1 l2 : life s -> k_threads (k_st s) !! th = Some t -> k_processes (k_st s) !! t_process t = Some p ->
  thread_deleted s s' th t (t_process t) p l1 l2 -> PL_SERVICE <= privilege p \/ k_junk (k_g s) = 0 ->
  forall k, 0 <= k -> bit_at (frames (k_g s')) k = true <-> bit_at (frames (k_g s)) k = true /\ ~ stack_frame s th k.
Proof.
  intros L Et Ep D Hj k Hk.
  destruct (td_space _ _ _ _ _ _ _ _ D) as [(Hu & [_ _ _ _ ->])|(d & u1 & u2 & m & (ss & [[Hpd Ed] Hl [Em _] _ _ _]) & [_ _ _ _ U])].
  - split; [|by intros [? _]]. intros Hb. split; [done|].
    intros (_ & pr & u & p' & m & q & (Hu' & t' & Et' & _ & <- & _) & _). congruence.
  - assert (Hu : userStack_seg t <> 0) by (by destruct (linked_at _ _ _ _ _ Hl)).
    rewrite (um_bits _ _ _ _ _ _ _ U k Hk). apply and_iff_compat_l, not_iff_compat.
    assert (He : forall q, page_entry d (k_tables (k_st s)) q = entry_of s (p_pagedir p) q) by (intros q; unfold entry_of; by rewrite Ed).
    setoid_rewrite He. split.
    + intros (_ & Hk0 & q & Hq & Hm & Ef). split; [done|]. exists (t_process t), (userStack_seg t), p, m, q. split; [|done].
      by eapply life_has_stack.
    + intros (Hk0 & pr & u & p' & m' & q & (Hu' & t' & Et' & <- & <- & _) & Ep' & Em' & Hq & Hm & Ef). split; [done|]. split; [done|].
      exists q. replace t' with t in * by congruence. replace p' with p in * by congruence. by replace m' with m in * by congruence.
Qed.

(** A thread with a stack of its own: of a user process, or of any process
    if the kernel started on clear memory. *)
Definition own_ustack (s0 s : kstate) (th : thread) : Prop :=
  userStack_seg th <> 0 /\ (k_junk (k_g s0) = 0 \/ user_process s (t_process th)).

Lemma own_ustack_has s0 s t th : life s0 -> lives s0 s -> k_threads (k_st s) !! t = Some th -> own_ustack s0 s th ->
  has_stack s t (t_process th) (userStack_seg th).
Proof.
  intros L R E [Hu Ho]. destruct (lives_life _ _ L R) as [Y J].
  destruct (life_thread _ _ _ Y E) as (_ & _ & p & _ & Ep & _). eapply life_has_stack; [done | done | exact Ep | | done].
  destruct Ho as [H0|(p' & E' & Hp)]; [right; congruence | left; by replace p with p' by congruence].
Qed.

(** ** Theorems *)


(** The exceptions beyond the table of names do not get that far: the report
    of [tasking_handleException] reads outside it. *)
Theorem exception_unnamed s n err eip cr2 : current_thread (k_g s) <> 0 -> EXCEPTIONS <= n -> n <> 14 ->
  idt_isrHandler n err eip cr2 s = Fault (BadAccess n).
Proof.
  intros Hc Hn Hn14. unfold idt_isrHandler. rewrite (proj2 (Z.eqb_neq n 14)) by done.
  rewrite (bind_Ok _ _ s true s) by done. apply bind_Fault. unfold tasking_handleException.
  rewrite (bind_Ok _ _ s (current_thread (k_g s)) s) by done. rewrite (proj2 (Z.eqb_neq _ _) Hc). apply bind_Fault.
  unfold read_message. by rewrite (proj2 (Z.ltb_ge n _)), andb_false_r by lia.
Qed.

(** C4. Threads are neither lost nor left over: in every state reached, the list
    of a process is of its threads, each once, and its count is their
    number; and a thread can run exactly if it is the current thread, the
    idle thread, or in the queue of its process' level. *)
Theorem threads_accounted s0 s : life s0 -> lives s0 s ->
  (forall pr p, k_processes (k_st s) !! pr = Some p -> exists l, linked (k_threads (k_st s)) (threads p) l /\ NoDup l /\
     thread_count p = Z.of_nat (length l) /\
     forall t, t ∈ l <-> exists th, k_threads (k_st s) !! t = Some th /\ t_process th = pr) /\
  exists qs, queues_ok s qs /\
    forall t th p, k_threads (k_st s) !! t = Some th -> k_processes (k_st s) !! t_process th = Some p ->
      (t_state th = TS_RUNNING <->
       t = current_thread (k_g s) \/ t = idle_thread (k_g s) \/ t ∈ qs (privilege p)) /\
      forall q, is_priority q -> t ∈ qs q -> q = privilege p /\ t <> current_thread (k_g s).
Proof.
  intros L R. destruct (lives_life _ _ L R) as [Y _]. split; [|apply sys_scheduled, Y].
  intros pr p E. destruct (li_lists _ Y _ _ E) as (l & Hl & Hc & _ & Ht). exists l. split; [done|].
  split; [exact (linked_NoDup _ _ _ Hl)|]. split; [done|]. intros t. rewrite Ht, fmap_Some. naive_solver.
Qed.

(** C5. Stacks are private: in every state reached the current thread runs in
    the space and on the kernel stack that are its own; two threads have
    different kernel stacks, and if they are of the same process their user
    stacks do not meet; and a frame that holds a page of a user stack is in
    use and holds no other page, in this space or in another.  If the kernel
    started on clear memory, every thread with something in [userStack_seg]
    has a user stack; if not, this is said of the threads of user
    processes, the only ones that are given one. *)
Theorem stacks_private s0 s : life s0 -> lives s0 s ->
  (current_thread (k_g s) <> 0 -> runs_in s) /\
  (forall t t' th th', t <> t' -> k_threads (k_st s) !! t = Some th -> k_threads (k_st s) !! t' = Some th' ->
     kernelStack_addr th <> kernelStack_addr th' /\
     (t_process th = t_process th' -> forall m m' a, own_ustack s0 s th -> own_ustack s0 s th' ->
        k_maps (k_st s) !! userStack_seg th = Some m -> k_maps (k_st s) !! userStack_seg th' = Some m' ->
        ~ (map_range m a /\ map_range m' a))) /\
  (forall t th p m q, k_threads (k_st s) !! t = Some th -> own_ustack s0 s th ->
     k_processes (k_st s) !! t_process th = Some p -> k_maps (k_st s) !! userStack_seg th = Some m -> user_page q -> map_page m q ->
     let f := pg_frame (entry_of s (p_pagedir p) q) in
     f <> 0 -> bit_at (frames (k_g s)) f = true /\
     forall pd q', user_page q' -> pg_frame (entry_of s pd q') = f -> pd = p_pagedir p /\ q' = q).
Proof.
  intros L R. destruct (lives_life _ _ L R) as [Y _]. split; [apply Y|]. split.
  - intros t t' th th' Hne E E'. split; [intros Ek; by apply Hne, (ks_own _ (li_kstacks _ Y) t t' th th')|].
    intros Ep m m' a H H' Em Em'. apply (own_ustack_has s0 s t) in H; try done. apply (own_ustack_has s0 s t') in H'; try done.
    by apply (us_apart _ (li_ustacks _ Y) _ _ _ _ _ _ _ _ H H' Hne Em Em').
  - intros t th p m q E H Ep Em Hq Hm f Hf. apply (own_ustack_has s0 s t) in H; try done. split; [by apply (li_frames _ Y)|].
    by apply (li_owned _ Y t (t_process th) (userStack_seg th) p m q).
Qed.

(** C33. A thread that ends ([thread_exit]; it is not the last of its process,
    and is of a user process or was made on clear memory) gives its stacks
    back: it is gone from the threads and its kernel stack from the kernel's
    memory; the frames of its user stack are free and mapped nowhere, and
    every other page of a user half, of this space and of the others, keeps
    its frame, which stays in use. *)
Theorem thread_exit_frees s0 s c : life s0 -> lives s0 s -> possible s (Exit c) ->
  exists th s', k_threads (k_st s) !! current_thread (k_g s) = Some th /\ thread_exit s = Ok (tt, s') /\
    k_threads (k_st s') !! current_thread (k_g s) = None /\
    k_stacks (k_st s') = delete (kernelStack_addr th) (k_stacks (k_st s)) /\
    forall pd q, user_page q -> let f := pg_frame (entry_of s pd q) in f <> 0 ->
      (stack_frame s (current_thread (k_g s)) f ->
         bit_at (frames (k_g s')) f = false /\ forall pd' q', user_page q' -> pg_frame (entry_of s' pd' q') <> f) /\
      (~ stack_frame s (current_thread (k_g s)) f ->
         bit_at (frames (k_g s')) f = true /\ entry_of s' pd q = entry_of s pd q).
Proof.
  intros L R He. destruct (lives_life _ _ L R) as [Y _].
  destruct (end_life s EX_TH_NORMAL Y) as (s' & t & p & l1 & l2 & E & Y' & Et & Ep & Hj & D); [by left | done |].
  exists t, s'. split; [done|]. split; [done|]. split; [apply D|]. split; [apply D|]. intros pd q Hq f Hf.
  set (th := current_thread (k_g s)) in *. assert (Hb : bit_at (frames (k_g s)) f = true) by by apply (li_frames _ Y).
  assert (Hk : 0 <= f).
  { unfold f, entry_of in *. destruct (k_pagedirs (k_st s) !! pd) as [d|] eqn:Ed; [|done].
    pose proof (po_frames _ _ _ (so_pages _ (li_spaces _ Y) _ _ Ed) q Hq Hf) as Hi. unfold in_array in Hi. lia. }
  pose proof (end_freed s s' th t p l1 l2 Y Et Ep D Hj f Hk) as Hfr. split.
  - intros Hs. assert (Hz : bit_at (frames (k_g s')) f = false).
    { destruct (bit_at (frames (k_g s')) f); [|done]. by destruct (proj1 Hfr eq_refl) as [_ []]. }
    split; [done|]. intros pd' q' Hq' Ef. pose proof (fo_used _ (li_frames _ Y') pd' q' Hq') as Hu. rewrite Ef in Hu.
    specialize (Hu Hf). congruence.
  - intros Hs. split; [by apply Hfr|].
    destruct (end_entry_stack s s' th t (t_process t) p l1 l2 Y D pd q Hq) as [?|(_ & -> & Hu & m & Em & Hm)]; [done|].
    destruct Hs. split; [done|]. exists (t_process t), (userStack_seg t), p, m, q. split; [by eapply life_has_stack | done].
Qed.

(** C13. A page fault that is served, for a page whose table is there: the page
    gets a frame that was free, with the rights of its segment, and this is
    all -- one entry of one table and the bit of the frame; no other page of
    the user half of any space changed.  (Where there is no table yet,
    [life_progress] says that the fault is served all the same.) *)
Theorem page_fault_served s0 s err eip cr2 ss d : life s0 -> lives s0 s ->
  faulting s (current_pagedir (k_g s)) cr2 err eip ss ->
  k_pagedirs (k_st s) !! current_pagedir (k_g s) = Some d -> dir_table d (table_of cr2) <> 0 ->
  exists s' f, idt_isrHandler 14 err eip cr2 s = Ok (tt, s') /\
    let w := if ss_writable ss =? 0 then 0 else 1 in
    page_only s s' (dir_table d (table_of cr2)) (index_of cr2) (Page 1 w 1 f) f /\
    page_given s s' (current_pagedir (k_g s)) (cr2 / 0x1000) w f.
Proof.
  intros L R F Ed Ht. destruct (lives_life _ _ L R) as [Y _].
  destruct (touch_served s err eip cr2 ss Y F) as (s' & f & E & _ & G & Ho). exists s', f. by auto.
Qed.


Lemma threads_accounted_witness :
  exists l, linked (k_threads (k_st sample_system)) 10 l /\ NoDup l /\ 3 = Z.of_nat (length l) /\
    forall t, t ∈ l <-> exists th, k_threads (k_st sample_system) !! t = Some th /\ t_process th = 1.
Proof.
  destruct (threads_accounted sample_system sample_system) as [H _]; [apply sample_life | apply lives_here |].
  apply (H 1 (Process 1 0 2 3 0 50 0xDEFE8000 0 0 0 0 10)). reflexivity.
Defined.

Lemma stacks_private_witness : runs_in sample_system /\
  ~ (map_range (sample_stack 85 0xDEFF8000 0) 0xDEFF8000 /\ map_range (sample_stack 86 0xDEFF0000 80) 0xDEFF8000).
Proof.
  destruct (stacks_private sample_system sample_system) as (H1 & H2 & _); [apply sample_life | apply lives_here |].
  split; [by apply H1|].
  destruct (H2 10 20 (Thread 1 0 0 0 0 1000 0x8000 80 20 0) (Thread 1 0 0 0 0 2000 0x8000 81 30 0)) as [_ H]; [done..|].
  apply (H eq_refl); [split; [done | by left].. | done | done].
Defined.

(** The first page of the stack of thread 10 was touched: the table is there. *)
Definition sample_touched : kstate :=
  match run_action (Touch 2 0x400000 0xDEFFFFFC) sample_system with Ok (_, s) => s | Fault _ => sample_system end.

(** A touch of another page of that stack. *)
Lemma sample_faulting s T F a : k_pagedirs (k_st s) !! 50 = Some (PageDirectory T F 0 82) -> current_pagedir (k_g s) = 50 ->
  k_maps (k_st s) = k_maps (k_st sample_system) -> k_segments (k_st s) = k_segments (k_st sample_system) ->
  0xDEFF8000 <= a < 0xDF000000 -> pg_frame (entry_of s 50 (a / 0x1000)) = 0 -> free_count (frames (k_g s)) 2 ->
  faulting s 50 a 2 0x400000 (SimpleSeg 1 0xDEFF8000 0x8000).
Proof.
  intros Ed Ep Em Eg Ha Hp Hf. split; try done.
  - lia.
  - exists (PageDirectory T F 0 82), [82; 81], 80, [], (sample_stack 85 0xDEFF8000 0), (sample_stack_seg 0xDEFF8000).
    rewrite Em, Eg. split; [done|]. split; [apply sample_list|]. split; [done|].
    split; [apply andb_true_intro; cbn [sm_start sm_len sample_stack]; change (w32 (0xDEFF8000 + 0x8000)) with 0xDF000000; lia|]. do 3 (split; [done|]).
    intros y n Hy. rewrite !elem_of_cons, elem_of_nil in Hy.
    destruct Hy as [->|[->|[]]]; intros [= <-]; apply andb_false_iff; right; apply Z.ltb_ge; cbn [sm_start sm_len sample_stack]; [change (w32 _) with 0xDEFF0000 | change (w32 _) with 0xDEFF8000]; lia.
Qed.

Lemma sample_free_frames s l : bits (frames (k_g s)) = [l] -> bsize (frames (k_g s)) = 32 ->
  Z.testbit l 3 = false -> Z.testbit l 4 = false -> free_count (frames (k_g s)) 2.
Proof.
  intros Hb Hz H3 H4. exists [3; 4]. split; [repeat constructor; set_solver|]. split; [done|].
  intros k Hk. rewrite !elem_of_cons, elem_of_nil in Hk. unfold managed, capacity, bit_at. rewrite Hb, Hz.
  by destruct Hk as [->|[->|[]]].
Qed.

Lemma sample_touched_lives : lives sample_system sample_touched.
Proof.
  apply (lives_step _ sample_system (Touch 2 0x400000 0xDEFFFFFC) sample_touched); [apply lives_here | | vm_compute; reflexivity].
  split; [done|]. eexists. apply (sample_faulting _ ∅ ∅ 0xDEFFFFFC); try done. by apply (sample_free_frames _ 1).
Qed.

Definition sample_touched_dir : page_directory :=
  default (PageDirectory ∅ ∅ 0 0) (k_pagedirs (k_st sample_touched) !! 50).

Lemma page_fault_served_witness :
  exists s' f, idt_isrHandler 14 2 0x400000 0xDEFFEFFC sample_touched = Ok (tt, s') /\
    page_only sample_touched s' 1 0x3FE (Page 1 1 1 f) f /\ page_given sample_touched s' 50 0xDEFFE 1 f.
Proof.
  assert (Et : dir_table sample_touched_dir (table_of 0xDEFFEFFC) = 1) by (vm_compute; reflexivity).
  assert (Ep : current_pagedir (k_g sample_touched) = 50) by (vm_compute; reflexivity).
  destruct (page_fault_served sample_system sample_touched 2 0x400000 0xDEFFEFFC (SimpleSeg 1 0xDEFF8000 0x8000) sample_touched_dir)
    as (s' & f & E & Ho & G).
  - apply sample_life.
  - apply sample_touched_lives.
  - rewrite Ep. eapply sample_faulting; try (vm_compute; reflexivity); [lia|]. eapply sample_free_frames; vm_compute; reflexivity.
  - vm_compute. reflexivity.
  - by rewrite Et.
  - rewrite Et in Ho. rewrite Ep in G. by exists s', f.
Defined.

(** Thread 10 ends: the page that it touched is gone, and its frame is free. *)
Lemma thread_exit_frees_witness :
  exists th s', k_threads (k_st sample_touched) !! 10 = Some th /\ thread_exit sample_touched = Ok (tt, s') /\
    k_threads (k_st s') !! 10 = None /\
    k_stacks (k_st s') = delete (kernelStack_addr th) (k_stacks (k_st sample_touched)) /\
    bit_at (frames (k_g sample_touched)) 2 = true /\ bit_at (frames (k_g s')) 2 = false /\
    forall pd q, user_page q -> pg_frame (entry_of s' pd q) <> 2.
Proof.
  destruct (thread_exit_frees sample_system sample_touched (4, 5, 6)) as (th & s' & E1 & E2 & E3 & E4 & H).
  - apply sample_life.
  - apply sample_touched_lives.
  - do 2 (split; [vm_compute; done|]). intros pr p (x & E & <- & E'). vm_compute in E. injection E as <-. vm_compute in E'.
    injection E' as <-. split; [done | by right].
  - exists th, s'. do 4 (split; [done|]). split; [vm_compute; reflexivity|].
    assert (Ef : pg_frame (entry_of sample_touched 50 0xDEFFF) = 2) by (vm_compute; reflexivity).
    assert (Ec : current_thread (k_g sample_touched) = 10) by (vm_compute; reflexivity).
    assert (Hu : user_page 0xDEFFF) by (unfold user_page; lia). specialize (H 50 0xDEFFF Hu). cbv zeta in H.
    rewrite Ef, Ec in H. apply H; [lia|]. split; [lia|].
    exists 1, 80, (Process 1 0 2 3 0 50 0xDEFE8000 0 0 0 0 10), (sample_stack 85 0xDEFF8000 0), 0xDEFFF.
    split; [split; [done|]; eexists; split; [vm_compute; reflexivity|]; do 2 (split; [done|]); eexists; split; [vm_compute; reflexivity | done]|].
    split; [vm_compute; reflexivity|]. split; [vm_compute; reflexivity|]. split; [done|]. split; [|vm_compute; reflexivity].
    unfold map_page; cbn. lia.
Defined.
