(* ===== verification/Strings.v ===== *)
(** * Strings and memory blocks

    [src/library/std/string.c]; [src/kernel/lib/stdlib.c] has the same
    [memcpy], [memset], [memsetw] and [strlen].  Strings live in byte
    memory; a loop over a string takes a number of rounds as fuel, and any
    number above the string's length is enough. *)

From S2P Require Import Prelude Memory.

Definition rdb (a : Z) : M mem Z := gets (fun m => rd8 m (w32 a)).
Definition wrb (a v : Z) : M mem unit := modify (fun m => wr8 m (w32 a) v).

(** [while (str[i++]); return i;] *)
Definition strlen (n : nat) (str : Z) : M mem Z :=
  loop n (fun i => c ← rdb (str + i);
                   if c =? 0 then mret (inr (i + 1)) else mret (inl (i + 1))) 0.

Definition strchr (n : nat) (str c : Z) : M mem Z :=
  loop n (fun p => d ← rdb p;
                   if d =? 0 then mret (inr 0)
                   else if d =? w8 c then mret (inr (w32 p)) else mret (inl (p + 1))) str.

(** [for (i = 0; i < n; i++) d[i] = s[i];] on words. *)
Fixpoint copy_words (n : nat) (d s : Z) (m : mem) : mem :=
  match n with
  | O => m
  | Datatypes.S n' => copy_words n' (d + 4) (s + 4) (wr32 m d (rd32 m s))
  end.

Fixpoint copy_bytes (n : nat) (d s : Z) (m : mem) : mem :=
  match n with
  | O => m
  | Datatypes.S n' => copy_bytes n' (d + 1) (s + 1) (wr8 m d (rd8 m s))
  end.

(** [count] is not negative. *)
Definition memcpy (dest src count : Z) : M mem Z :=
  let f := count mod 4 in
  let n := count / 4 in
  modify (copy_words (Z.to_nat n) dest src);;
  (if f =? 0 then mret tt
   else modify (copy_bytes (Z.to_nat f) (dest + (count - f)) (src + (count - f))));;
  mret dest.

Fixpoint set_bytes (n : nat) (d v : Z) (m : mem) : mem :=
  match n with
  | O => m
  | Datatypes.S n' => set_bytes n' (d + 1) v (wr8 m d v)
  end.
Definition memset (dest val count : Z) : M mem Z :=
  modify (set_bytes (Z.to_nat count) dest val);; mret dest.

Definition wr16 (m : mem) (a v : Z) : mem := wr8 (wr8 m a v) (a + 1) (v / 256).
Fixpoint set_halves (n : nat) (d v : Z) (m : mem) : mem :=
  match n with
  | O => m
  | Datatypes.S n' => set_halves n' (d + 2) v (wr16 m d v)
  end.
Definition memsetw (dest val count : Z) : M mem Z :=
  modify (set_halves (Z.to_nat count) dest val);; mret dest.

(** [strcpy] answers its source. *)
Definition strcpy (n : nat) (dest src : Z) : M mem Z :=
  l ← strlen n src; _ ← memcpy dest src (l + 1); mret src.

Definition strcat (n : nat) (dest src : Z) : M mem Z :=
  l ← strlen n dest;
  d ← loop n (fun '(s, d) =>
        c ← rdb s;
        if c =? 0 then mret (inr d) else wrb d c;; mret (inl (s + 1, d + 1)))
      (src, dest + (l - 1));
  wrb d 0;;
  mret dest.

(** The bytes of a string, as a function that is passed [str] reads them. *)
Definition read_string (n : nat) (str : Z) : M mem (list Z) :=
  loop n (fun '(p, acc) => c ← rdb p;
                           if c =? 0 then mret (inr acc) else mret (inl (p + 1, acc ++ [c]))) (str, []).

Definition strcmp (n : nat) (s1 s2 : Z) : M mem Z :=
  loop n (fun '(p, q) =>
    c ← rdb p; d ← rdb q;
    if negb (c =? 0) && (c =? d) then mret (inl (p + 1, q + 1)) else mret (inr (c - d))) (s1, s2).

(** ** Specification *)

(** The bytes [bs] at [a]; they do not wrap around the address space. *)
Definition bytes_at (m : mem) (a : Z) (bs : list Z) : Prop :=
  0 <= a /\ a + Z.of_nat (length bs) <= W32 /\
  forall i b, bs !! i = Some b -> rd8 m (a + Z.of_nat i) = b.

(** A nul-terminated string. *)
Definition cstr (m : mem) (a : Z) (s : list Z) : Prop :=
  bytes_at m a (s ++ [0]) /\ Forall (fun c => 0 < c < 256) s.

(** The reference copy: byte [x] of the destination is byte [x] of the
    source. *)
Definition block_copied (m m' : mem) (d s n : Z) : Prop :=
  forall x, rd8 m' x = if (d <=? x) && (x <? d + n) then rd8 m (s + (x - d)) else rd8 m x.

(** The order of strings as unsigned bytes. *)
Fixpoint str_compare (s1 s2 : list Z) : comparison :=
  match s1, s2 with
  | [], [] => Eq
  | [], _ => Lt
  | _, [] => Gt
  | c :: s1', d :: s2' => match Z.compare c d with Eq => str_compare s1' s2' | r => r end
  end.

(** Where a character is in a string. *)
Fixpoint str_index (c : Z) (s : list Z) : option Z :=
  match s with
  | [] => None
  | d :: s' => if d =? c then Some 0 else (fun i => i + 1) <$> str_index c s'
  end.

(** ** Lemmas *)

Lemma bytes_at_cons m a b bs : bytes_at m a (b :: bs) <->
  0 <= a /\ a < W32 /\ rd8 m a = b /\ bytes_at m (a + 1) bs.
Proof.
  unfold bytes_at. cbn [length]. split.
  - intros (H0 & H1 & H2). split; [done|]. split; [lia|].
    split; [specialize (H2 0%nat b eq_refl); by rewrite Z.add_0_r in H2|].
    split; [lia|]. split; [lia|]. intros i c Hi. specialize (H2 (Datatypes.S i) c Hi).
    by replace (a + 1 + Z.of_nat i) with (a + Z.of_nat (Datatypes.S i)) by lia.
  - intros (H0 & H1 & H2 & H3 & H4 & H5). split; [done|]. split; [lia|]. intros [|i] c Hi.
    + injection Hi as <-. by rewrite Z.add_0_r.
    + specialize (H5 i c Hi). by replace (a + Z.of_nat (Datatypes.S i)) with (a + 1 + Z.of_nat i) by lia.
Qed.

Lemma cstr_cons m a c s : cstr m a (c :: s) <->
  0 <= a /\ a < W32 /\ rd8 m a = c /\ 0 < c < 256 /\ cstr m (a + 1) s.
Proof. unfold cstr. cbn [app]. rewrite bytes_at_cons, Forall_cons. naive_solver. Qed.

Lemma cstr_nil m a : cstr m a [] <-> 0 <= a /\ a < W32 /\ rd8 m a = 0.
Proof.
  unfold cstr. cbn [app]. rewrite bytes_at_cons. unfold bytes_at. cbn. rewrite Forall_nil.
  split; [naive_solver|]. intros (? & ? & ?). split; [|done]. split; [done|]. split; [done|]. split; [done|].
  split; [lia|]. split; [lia|]. done.
Qed.

(** A string of a concrete memory. *)
Ltac concrete_cstr :=
  lazymatch goal with
  | |- cstr ?m ?a ?s => let s' := eval vm_compute in s in
      change (cstr m a s'); rewrite ?cstr_cons, cstr_nil; split_and!; by vm_compute
  end.

Lemma wp_rdb m a Q : 0 <= a < W32 -> Q (rd8 m a) m -> wp (rdb a) m Q.
Proof. intros Ha HQ. unfold rdb, wp, gets. by rewrite w32_small. Qed.

Lemma wp_wrb m a v Q : 0 <= a < W32 -> Q tt (wr8 m a v) -> wp (wrb a v) m Q.
Proof. intros Ha HQ. unfold wrb, wp, modify. by rewrite w32_small. Qed.

(** The scan of [strlen], from index [i]. *)
Lemma strlen_scan m a s : forall i n, cstr m (a + i) s -> (length s < n)%nat ->
  loop n (fun i => c ← rdb (a + i);
                   if c =? 0 then mret (inr (i + 1)) else mret (inl (i + 1))) i m
  = Ok (i + Z.of_nat (length s) + 1, m).
Proof.
  induction s as [|c s IH]; intros i n Hs Hn; (destruct n as [|n]; [simpl in Hn; lia|]); rewrite loop_S.
  - apply cstr_nil in Hs as (H0 & H1 & E). apply wp_eq_Ok. do 2 wp_step. apply wp_rdb; [done|]. rewrite E. cbn [Z.eqb].
    wp_steps. cbn [length]. do 2 f_equal. lia.
  - apply cstr_cons in Hs as (H0 & H1 & E & Hc & Hs).
    apply run_bind, wp_bind, wp_rdb; [done|]. rewrite E, (proj2 (Z.eqb_neq c 0)) by lia. apply wp_ret.
    rewrite IH; [cbn [length]; do 2 f_equal; lia | by rewrite Z.add_assoc | simpl in Hn; lia].
Qed.

Lemma strlen_ok m a s n : cstr m a s -> (length s < n)%nat -> strlen n a m = Ok (Z.of_nat (length s) + 1, m).
Proof. intros Hs Hn. unfold strlen. rewrite (strlen_scan m a s 0 n); [done | by rewrite Z.add_0_r | done]. Qed.

Lemma strchr_ok m c s : forall a n, cstr m a s -> 0 < c < 256 -> (length s < n)%nat ->
  strchr n a c m = Ok (match str_index c s with Some i => a + i | None => 0 end, m).
Proof.
  unfold strchr. induction s as [|d s IH]; intros a n Hs Hc Hn; (destruct n as [|n]; [simpl in Hn; lia|]); rewrite loop_S; cbn [str_index].
  - apply cstr_nil in Hs as (H0 & H1 & E). apply wp_eq_Ok. do 2 wp_step. apply wp_rdb; [done|]. rewrite E. cbn [Z.eqb]. by wp_steps.
  - apply cstr_cons in Hs as (H0 & H1 & E & Hd & Hs). apply run_bind, wp_bind, wp_rdb; [done|].
    rewrite E, (proj2 (Z.eqb_neq d 0)) by lia.
    replace (d =? w8 c) with (d =? c) by (unfold w8; by rewrite (Z.mod_small c) by lia). destruct (d =? c).
    + apply wp_ret. rewrite w32_small, Z.add_0_r by done. done.
    + apply wp_ret. rewrite IH by (done || simpl in Hn; lia). do 2 f_equal. destruct (str_index c s); cbn; lia.
Qed.

Lemma read_scan m s : forall a n acc, cstr m a s -> (length s < n)%nat ->
  loop n (fun '(p, acc) => c ← rdb p;
                           if c =? 0 then mret (inr acc) else mret (inl (p + 1, acc ++ [c]))) (a, acc) m = Ok (acc ++ s, m).
Proof.
  induction s as [|d s IH]; intros a n acc Hs Hn; (destruct n as [|n]; [simpl in Hn; lia|]); rewrite loop_S.
  - apply cstr_nil in Hs as (H0 & H1 & E). apply wp_eq_Ok. do 2 wp_step. apply wp_rdb; [done|]. rewrite E. cbn [Z.eqb].
    wp_steps. by rewrite app_nil_r.
  - apply cstr_cons in Hs as (H0 & H1 & E & Hd & Hs). apply run_bind, wp_bind, wp_rdb; [done|].
    rewrite E, (proj2 (Z.eqb_neq d 0)) by lia. apply wp_ret. rewrite IH by (done || simpl in Hn; lia).
    by rewrite <- app_assoc.
Qed.

Lemma read_string_ok m a s n : cstr m a s -> (length s < n)%nat -> read_string n a m = Ok (s, m).
Proof. intros Hs Hn. unfold read_string. by rewrite (read_scan m s). Qed.

(** ** Copies *)

Lemma rd8_wr32 m m' a b x : rd8 (wr32 m a (rd32 m' b)) x
  = if (a <=? x) && (x <? a + 4) then rd8 m' (b + (x - a)) else rd8 m x.
Proof.
  destruct (Z.leb_spec a x); cbn [andb]; [|unfold rd8; by rewrite wr32_ne by lia].
  destruct (Z.ltb_spec x (a + 4)); [|unfold rd8; by rewrite wr32_ne by lia].
  assert (Hb : forall y, 0 <= rd8 m' y < 256) by (intros y; apply Z.mod_pos_bound; lia).
  pose proof (Hb b). pose proof (Hb (b + 1)). pose proof (Hb (b + 2)). pose proof (Hb (b + 3)).
  assert (Hx : x = a \/ x = a + 1 \/ x = a + 2 \/ x = a + 3) by lia.
  unfold wr32. destruct Hx as [->|[->|[->| ->]]].
  - rewrite !rd8_ne, wr8_eq by lia. rewrite Z.sub_diag, Z.add_0_r. unfold rd32. Z.div_mod_to_equations. lia.
  - rewrite !rd8_ne, wr8_eq by lia. replace (b + (a + 1 - a)) with (b + 1) by lia. unfold rd32.
    Z.div_mod_to_equations. lia.
  - rewrite rd8_ne, wr8_eq by lia. replace (b + (a + 2 - a)) with (b + 2) by lia. unfold rd32.
    Z.div_mod_to_equations. lia.
  - rewrite wr8_eq. replace (b + (a + 3 - a)) with (b + 3) by lia. unfold rd32. Z.div_mod_to_equations. lia.
Qed.

Lemma rd8_wr8 m a v x : rd8 (wr8 m a v) x = if x =? a then v mod 256 else rd8 m x.
Proof. destruct (Z.eqb_spec x a) as [->|]; [apply wr8_eq | by apply rd8_ne]. Qed.

Lemma rd8_mod m a : rd8 m a mod 256 = rd8 m a.
Proof. apply Z.mod_mod. lia. Qed.

(** The two loops of [memcpy], the one on words covering [4 * n] bytes. *)
Lemma copy_step (k : Z) m m1 m' d s n : 0 < k -> 0 <= n -> d + k + n <= s \/ s + k + n <= d ->
  block_copied m m1 d s k -> block_copied m1 m' (d + k) (s + k) n -> block_copied m m' d s (k + n).
Proof.
  intros Hk Hn Hd H1 H2 x. rewrite H2.
  destruct (Z.leb_spec (d + k) x), (Z.ltb_spec x (d + k + n)), (Z.leb_spec d x), (Z.ltb_spec x (d + (k + n)));
    cbn [andb]; try lia; rewrite H1;
    repeat match goal with |- context [?a <=? ?b] => destruct (Z.leb_spec a b) | |- context [?a <? ?b] => destruct (Z.ltb_spec a b) end;
    cbn [andb]; try lia; try done; f_equal; lia.
Qed.

Lemma block_copied_nil m d s : block_copied m m d s 0.
Proof.
  intros x. destruct (Z.leb_spec d x), (Z.ltb_spec x (d + 0)); cbn [andb]; try lia; done.
Qed.

Lemma copy_words_ok n : forall d s m, d + 4 * Z.of_nat n <= s \/ s + 4 * Z.of_nat n <= d ->
  block_copied m (copy_words n d s m) d s (4 * Z.of_nat n).
Proof.
  induction n as [|n IH]; intros d s m Hd; [apply block_copied_nil|]. cbn [copy_words].
  replace (4 * Z.of_nat (Datatypes.S n)) with (4 + 4 * Z.of_nat n) in * by lia.
  eapply copy_step; [lia | lia | lia | intros x; apply rd8_wr32 | apply IH; lia].
Qed.

Lemma copy_bytes_ok n : forall d s m, d + Z.of_nat n <= s \/ s + Z.of_nat n <= d ->
  block_copied m (copy_bytes n d s m) d s (Z.of_nat n).
Proof.
  induction n as [|n IH]; intros d s m Hd; [apply block_copied_nil|]. cbn [copy_bytes].
  replace (Z.of_nat (Datatypes.S n)) with (1 + Z.of_nat n) in * by lia.
  eapply copy_step; [lia | lia | lia | | apply IH; lia].
  intros x. rewrite rd8_wr8, rd8_mod.
  destruct (Z.eqb_spec x d), (Z.leb_spec d x), (Z.ltb_spec x (d + 1)); cbn [andb]; try lia; try done.
  f_equal. lia.
Qed.

Lemma memcpy_ok m d s n : 0 <= n -> d + n <= s \/ s + n <= d ->
  exists m', memcpy d s n m = Ok (d, m') /\ block_copied m m' d s n.
Proof.
  intros Hn Hd. unfold memcpy. pose proof (Z.div_mod n 4 ltac:(lia)) as Edm.
  pose proof (Z.mod_pos_bound n 4 ltac:(lia)) as Hr. pose proof (Z.div_pos n 4 Hn ltac:(lia)) as Hq.
  set (m1 := copy_words (Z.to_nat (n / 4)) d s m).
  assert (H1 : block_copied m m1 d s (4 * (n / 4))).
  { pose proof (copy_words_ok (Z.to_nat (n / 4)) d s m) as H. rewrite Z2Nat.id in H by done. apply H. lia. }
  destruct (Z.eqb_spec (n mod 4) 0) as [E|Hne].
  - exists m1. split; [reflexivity|]. by replace n with (4 * (n / 4)) at 1 by lia.
  - set (k := 4 * (n / 4)) in *. replace (n - n mod 4) with k by lia.
    set (m2 := copy_bytes (Z.to_nat (n mod 4)) (d + k) (s + k) m1).
    assert (H2 : block_copied m1 m2 (d + k) (s + k) (n mod 4)).
    { pose proof (copy_bytes_ok (Z.to_nat (n mod 4)) (d + k) (s + k) m1) as H. rewrite Z2Nat.id in H by lia. apply H. lia. }
    exists m2. split; [reflexivity|]. destruct (Z.eq_dec k 0) as [E0|Hk].
    + rewrite E0, !Z.add_0_r in H2.
      assert (Hm : forall x, rd8 m1 x = rd8 m x).
      { intros x. rewrite H1, E0. by destruct (Z.leb_spec d x), (Z.ltb_spec x (d + 0)); cbn [andb]; try lia. }
      intros x. rewrite H2, !Hm. by replace (n mod 4) with n by lia.
    + replace n with (k + n mod 4) at 1 by lia. eapply copy_step; [lia | lia | lia | exact H1 | exact H2].
Qed.

(** A copied block holds the bytes of the source. *)
Lemma bytes_at_copied m m' d s n bs : block_copied m m' d s n -> bytes_at m s bs -> Z.of_nat (length bs) <= n ->
  0 <= d -> d + n <= W32 -> bytes_at m' d bs.
Proof.
  intros Hc (H0 & H1 & H2) Hlen Hd Hd'. split; [done|]. split; [lia|]. intros i b Hi.
  pose proof (lookup_lt_Some _ _ _ Hi). rewrite Hc.
  rewrite (proj2 (Z.leb_le _ _)), (proj2 (Z.ltb_lt _ _)) by lia. cbn [andb].
  replace (s + (d + Z.of_nat i - d)) with (s + Z.of_nat i) by lia. by apply H2.
Qed.

(** ** Strings *)

Lemma cstr_length m a s : cstr m a s -> 0 <= a /\ a + Z.of_nat (length s) < W32.
Proof. intros [(H0 & H1 & _) _]. rewrite length_app in H1. cbn in H1. lia. Qed.

Lemma strcpy_ok m dest src s n : cstr m src s -> (length s < n)%nat -> let len := Z.of_nat (length s) in
  0 <= dest -> dest + len + 2 <= W32 -> dest + len + 2 <= src \/ src + len + 2 <= dest ->
  exists m', strcpy n dest src m = Ok (src, m') /\ block_copied m m' dest src (len + 2) /\ cstr m' dest s.
Proof.
  intros Hs Hn len H0 H1 Hd. destruct (memcpy_ok m dest src (len + 2)) as (m' & E & Hc); [lia | lia|].
  exists m'. split; [|split; [done|]].
  - unfold strcpy. rewrite (bind_Ok _ _ _ _ _ (strlen_ok m src s n Hs Hn)). fold len.
    replace (len + 1 + 1) with (len + 2) by lia. by rewrite (bind_Ok _ _ _ _ _ E).
  - destruct Hs as [Hb Hf]. split; [|done].
    eapply bytes_at_copied; [exact Hc | exact Hb | | done | lia]. rewrite length_app. cbn. lia.
Qed.

(** A string survives writes outside it. *)
Lemma cstr_agree m m' a s : (forall x, a <= x <= a + Z.of_nat (length s) -> rd8 m' x = rd8 m x) ->
  cstr m a s -> cstr m' a s.
Proof.
  intros Hag [(H0 & H1 & H2) Hf]. split; [|done]. split; [done|]. split; [done|]. intros i b Hi.
  rewrite Hag; [by apply H2|]. apply lookup_lt_Some in Hi. rewrite length_app in Hi. cbn in Hi. lia.
Qed.

(** The copying loop of [strcat]. *)
Lemma strcat_loop s : forall m p d n, cstr m p s -> (length s < n)%nat ->
  0 <= d -> d + Z.of_nat (length s) <= W32 ->
  d + Z.of_nat (length s) <= p \/ p + Z.of_nat (length s) < d ->
  loop n (fun '(p, d) =>
    c ← rdb p; if c =? 0 then mret (inr d) else wrb d c;; mret (inl (p + 1, d + 1))) (p, d) m
  = Ok (d + Z.of_nat (length s), copy_bytes (length s) d p m).
Proof.
  induction s as [|c s IH]; intros m p d n Hs Hn Hd Hd' Hdis; (destruct n as [|n]; [simpl in Hn; lia|]); rewrite loop_S.
  - apply cstr_nil in Hs as (H0 & H1 & E). apply wp_eq_Ok. do 2 wp_step. apply wp_rdb; [done|]. rewrite E. cbn [Z.eqb].
    wp_steps. cbn [length copy_bytes]. do 2 f_equal. lia.
  - apply cstr_cons in Hs as (H0 & H1 & E & Hc & Hs). cbn [length] in *.
    apply run_bind, wp_bind, wp_rdb; [done|]. rewrite E, (proj2 (Z.eqb_neq c 0)) by lia.
    apply wp_bind, wp_wrb; [lia|]. apply wp_ret. cbn [copy_bytes]. rewrite E.
    rewrite IH; [do 2 f_equal; lia | | lia | lia | lia | lia].
    apply (cstr_agree m); [|done]. intros x Hx. rewrite rd8_ne; [done | lia].
Qed.

Lemma strcat_ok m dest src s1 s2 n : cstr m dest s1 -> cstr m src s2 ->
  (length s1 < n)%nat -> (length s2 < n)%nat ->
  let len := Z.of_nat (length s1) + Z.of_nat (length s2) in
  dest + len < W32 -> dest + len < src \/ src + Z.of_nat (length s2) < dest ->
  exists m', strcat n dest src m = Ok (dest, m') /\ cstr m' dest (s1 ++ s2) /\
    (forall x, x < dest + Z.of_nat (length s1) \/ dest + len < x -> rd8 m' x = rd8 m x).
Proof.
  intros H1 H2 Hn1 Hn2 len Hlen Hd. set (l1 := Z.of_nat (length s1)) in *. set (l2 := Z.of_nat (length s2)) in *.
  destruct (cstr_length _ _ _ H1) as [Hp1 _]. destruct (cstr_length _ _ _ H2) as [Hp2 Hp2']. fold l2 in Hp2'.
  set (m1 := copy_bytes (length s2) (dest + l1) src m). set (m2 := wr8 m1 (dest + l1 + l2) 0).
  assert (Hc : block_copied m m1 (dest + l1) src l2) by (apply copy_bytes_ok; lia).
  assert (Hr : forall x, rd8 m2 x = if x =? dest + l1 + l2 then 0 else rd8 m1 x) by (intros x; apply rd8_wr8).
  exists m2. split; [|split].
  - unfold strcat. rewrite (bind_Ok _ _ _ _ _ (strlen_ok m dest s1 n H1 Hn1)). fold l1.
    replace (dest + (l1 + 1 - 1)) with (dest + l1) by lia.
    rewrite (bind_Ok _ _ _ _ _ (strcat_loop s2 m src (dest + l1) n H2 Hn2 ltac:(lia) ltac:(lia) ltac:(lia))).
    fold l2 m1. apply run_bind, wp_wrb; [lia|]. reflexivity.
  - destruct H1 as [(_ & B1 & B2) F1], H2 as [(_ & _ & C2) F2]. split; [|by apply Forall_app].
    split; [done|]. rewrite !length_app. cbn [length]. split; [lia|]. intros i b. rewrite <- app_assoc.
    intros [Hi|[Hi1 Hi]]%lookup_app_Some.
    + pose proof (lookup_lt_Some _ _ _ Hi). rewrite Hr, (proj2 (Z.eqb_neq _ _)) by lia. rewrite Hc.
      rewrite (proj2 (Z.leb_gt _ _)) by lia. cbn [andb]. apply B2. by rewrite lookup_app_l.
    + rewrite Hr. apply lookup_app_Some in Hi as [Hi|[Hi2 Hi]].
      * pose proof (lookup_lt_Some _ _ _ Hi) as Hlt. rewrite (proj2 (Z.eqb_neq _ _)) by lia. rewrite Hc.
        rewrite (proj2 (Z.leb_le _ _)), (proj2 (Z.ltb_lt _ _)) by lia. cbn [andb].
        replace (src + (dest + Z.of_nat i - (dest + l1))) with (src + Z.of_nat (i - length s1)) by lia.
        apply C2. by rewrite lookup_app_l.
      * destruct (i - length s1 - length s2)%nat as [|k] eqn:Ek; [|done]. injection Hi as <-.
        by rewrite (proj2 (Z.eqb_eq _ _)) by lia.
  - intros x Hx. rewrite Hr, (proj2 (Z.eqb_neq _ _)) by lia. rewrite Hc.
    destruct (Z.leb_spec (dest + l1) x), (Z.ltb_spec x (dest + l1 + l2)); cbn [andb]; lia || done.
Qed.

Lemma strcmp_ok s1 : forall s2 m p q n, cstr m p s1 -> cstr m q s2 -> (length s1 < n)%nat ->
  exists r, strcmp n p q m = Ok (r, m) /\ (r ?= 0) = str_compare s1 s2.
Proof.
  unfold strcmp.
  induction s1 as [|c s1 IH]; intros s2 m p q n H1 H2 Hn; (destruct n as [|n]; [simpl in Hn; lia|]); rewrite loop_S.
  - apply cstr_nil in H1 as (P0 & P1 & E1). exists (rd8 m p - rd8 m q). split.
    + assert (0 <= q < W32) by (destruct s2; [apply cstr_nil in H2 | apply cstr_cons in H2]; lia).
      apply wp_eq_Ok. do 2 wp_step. apply wp_rdb; [done|]. wp_step. apply wp_rdb; [done|]. rewrite E1. cbn [Z.eqb negb andb].
      by wp_steps.
    + rewrite E1. destruct s2 as [|d s2]; [apply cstr_nil in H2 as (_ & _ & E2) | apply cstr_cons in H2 as (_ & _ & E2 & ? & _)];
        rewrite E2; cbn [str_compare]; [done|]. apply Z.compare_lt_iff. lia.
  - apply cstr_cons in H1 as (P0 & P1 & E1 & Hc & H1).
    destruct s2 as [|d s2].
    + apply cstr_nil in H2 as (Q0 & Q1 & E2). exists (c - 0). split.
      * apply wp_eq_Ok. do 2 wp_step. apply wp_rdb; [done|]. wp_step. apply wp_rdb; [done|]. rewrite E1, E2.
        rewrite (proj2 (Z.eqb_neq c 0)) by lia. cbn [negb andb]. by wp_steps.
      * cbn. apply Z.compare_gt_iff. lia.
    + apply cstr_cons in H2 as (Q0 & Q1 & E2 & Hd & H2). cbn [str_compare].
      destruct (Z.compare_spec c d) as [->|Hlt|Hgt].
      * destruct (IH s2 m (p + 1) (q + 1) n H1 H2) as (r & Er & Hr); [simpl in Hn; lia|]. exists r. split; [|done].
        apply run_bind. do 1 wp_step. apply wp_rdb; [done|]. wp_step. apply wp_rdb; [done|]. rewrite E1, E2, Z.eqb_refl.
        rewrite (proj2 (Z.eqb_neq d 0)) by lia. cbn [negb andb]. apply wp_ret. exact Er.
      * exists (c - d). split; [|apply Z.compare_lt_iff; lia].
        apply wp_eq_Ok. do 2 wp_step. apply wp_rdb; [done|]. wp_step. apply wp_rdb; [done|]. rewrite E1, E2.
        rewrite (proj2 (Z.eqb_neq c d)) by lia. rewrite andb_false_r. by wp_steps.
      * exists (c - d). split; [|apply Z.compare_gt_iff; lia].
        apply wp_eq_Ok. do 2 wp_step. apply wp_rdb; [done|]. wp_step. apply wp_rdb; [done|]. rewrite E1, E2.
        rewrite (proj2 (Z.eqb_neq c d)) by lia. rewrite andb_false_r. by wp_steps.
Qed.

Lemma str_compare_eq s1 : forall s2, str_compare s1 s2 = Eq <-> s1 = s2.
Proof.
  induction s1 as [|c s1 IH]; intros [|d s2]; cbn; try done.
  destruct (Z.compare_spec c d) as [->|Hlt|Hgt]; [rewrite IH; naive_solver | split; [done | intros [= -> _]; lia] ..].
Qed.

(** ** A sample: "ab" at 16, "abc" at 32 *)

Definition sample_strings : mem :=
  fun x => match x with 16 => 97 | 17 => 98 | 32 => 97 | 33 => 98 | 34 => 99 | _ => 0 end.

Lemma sample_ab : cstr sample_strings 16 [97; 98].
Proof. by rewrite !cstr_cons, cstr_nil. Qed.
Lemma sample_abc : cstr sample_strings 32 [97; 98; 99].
Proof. by rewrite !cstr_cons, cstr_nil. Qed.

(** ** Theorems *)

(** [memcpy], which copies words and then the bytes that remain, is the
    bytewise copy for blocks that do not overlap. *)
Theorem memcpy_is_bytewise m d s n : 0 <= n -> d + n <= s \/ s + n <= d ->
  exists m', memcpy d s n m = Ok (d, m') /\ block_copied m m' d s n /\
    forall x, rd8 m' x = rd8 (copy_bytes (Z.to_nat n) d s m) x.
Proof.
  intros Hn Hd. destruct (memcpy_ok m d s n Hn Hd) as (m' & E & Hc). exists m'. split; [done|]. split; [done|].
  intros x. rewrite Hc. pose proof (copy_bytes_ok (Z.to_nat n) d s m) as Hb. rewrite Z2Nat.id in Hb by done.
  by rewrite (Hb Hd).
Qed.

Lemma memcpy_is_bytewise_witness :
  exists m', memcpy 64 32 3 sample_strings = Ok (64, m') /\ block_copied sample_strings m' 64 32 3 /\
    forall x, rd8 m' x = rd8 (copy_bytes 3 64 32 sample_strings) x.
Proof. apply (memcpy_is_bytewise sample_strings 64 32 3); lia. Defined.

(** [strcpy] copies the string but, since [strlen] counts the terminator,
    one byte more than the string has; it answers its source. *)
Theorem strcpy_copies_one_more m dest src s n : cstr m src s -> (length s < n)%nat ->
  let len := Z.of_nat (length s) in
  0 <= dest -> dest + len + 2 <= W32 -> dest + len + 2 <= src \/ src + len + 2 <= dest ->
  strlen n src m = Ok (len + 1, m) /\
  exists m', strcpy n dest src m = Ok (src, m') /\ cstr m' dest s /\
    rd8 m' (dest + len + 1) = rd8 m (src + len + 1) /\
    forall x, x < dest \/ dest + len + 2 <= x -> rd8 m' x = rd8 m x.
Proof.
  intros Hs Hn len H0 H1 Hd. split; [by apply strlen_ok|].
  destruct (strcpy_ok m dest src s n Hs Hn H0 H1 Hd) as (m' & E & Hc & Hs'). fold len in Hc.
  exists m'. split; [done|]. split; [done|]. split.
  - rewrite Hc, (proj2 (Z.leb_le _ _)), (proj2 (Z.ltb_lt _ _)) by lia. cbn [andb]. f_equal. lia.
  - intros x Hx. rewrite Hc. destruct (Z.leb_spec dest x), (Z.ltb_spec x (dest + (len + 2))); cbn [andb]; lia || done.
Qed.

Lemma strcpy_copies_one_more_witness :
  strlen 10 32 sample_strings = Ok (4, sample_strings) /\
  exists m', strcpy 10 64 32 sample_strings = Ok (32, m') /\ cstr m' 64 [97; 98; 99] /\
    rd8 m' 68 = rd8 sample_strings 36 /\ forall x, x < 64 \/ 69 <= x -> rd8 m' x = rd8 sample_strings x.
Proof. apply (strcpy_copies_one_more sample_strings 64 32 [97; 98; 99] 10); [apply sample_abc | cbn; lia ..]. Defined.

(** [strcat] appends the second string to the first in place and writes
    nothing else. *)
Theorem strcat_appends m dest src s1 s2 n : cstr m dest s1 -> cstr m src s2 ->
  (length s1 < n)%nat -> (length s2 < n)%nat ->
  let len := Z.of_nat (length s1) + Z.of_nat (length s2) in
  dest + len < W32 -> dest + len < src \/ src + Z.of_nat (length s2) < dest ->
  exists m', strcat n dest src m = Ok (dest, m') /\ cstr m' dest (s1 ++ s2) /\
    (forall x, x < dest + Z.of_nat (length s1) \/ dest + len < x -> rd8 m' x = rd8 m x).
Proof. apply strcat_ok. Qed.

Lemma strcat_appends_witness :
  exists m', strcat 10 16 32 sample_strings = Ok (16, m') /\ cstr m' 16 [97; 98; 97; 98; 99] /\
    (forall x, x < 18 \/ 21 < x -> rd8 m' x = rd8 sample_strings x).
Proof.
  apply (strcat_appends sample_strings 16 32 [97; 98] [97; 98; 99] 10); [apply sample_ab | apply sample_abc | cbn; lia ..].
Defined.

(** [strcmp] orders strings as unsigned bytes: its sign is the order, and
    it is 0 on equal strings only. *)
Theorem strcmp_orders m p q s1 s2 n : cstr m p s1 -> cstr m q s2 -> (length s1 < n)%nat ->
  exists r, strcmp n p q m = Ok (r, m) /\ (r ?= 0) = str_compare s1 s2 /\ (r = 0 <-> s1 = s2).
Proof.
  intros H1 H2 Hn. destruct (strcmp_ok s1 s2 m p q n H1 H2 Hn) as (r & E & Hr). exists r. split; [done|].
  split; [done|]. by rewrite <- Z.compare_eq_iff, Hr, str_compare_eq.
Qed.

Lemma strcmp_orders_witness :
  exists r, strcmp 10 16 32 sample_strings = Ok (r, sample_strings) /\ (r ?= 0) = Lt /\ (r = 0 <-> [97; 98] = [97; 98; 99]).
Proof. apply (strcmp_orders sample_strings 16 32 [97; 98] [97; 98; 99] 10); [apply sample_ab | apply sample_abc | cbn; lia]. Defined.
