(* ===== verification/Elf.v ===== *)
(** * Loading programs

    [src/kernel/linker/elf.c].  The loader maps a segment of the new
    process for each loadable part of the file and copies the bytes to user
    addresses of that process: the pages are not there yet, so the copy
    itself raises page faults, which [idt_isrHandler] answers.  The
    functions of [src/kernel/lib/stdlib.c] that make the copy are written
    here store by store.

    [kmem] is what kernel addresses show (the file is in kernel memory,
    which every directory maps), and [text] the address of the storing
    instruction. *)

From S2P Require Import Prelude Memory Bitset Strings Kernel Paging Segments Sched Timer Objects Tasking Requests.

(** ** The file *)

Definition rd16 (m : mem) (a : Z) : Z := rd8 m a + 256 * rd8 m (a + 1).

(** The fields of [struct elf_ehdr] that the loader reads; [e_ident] by its
    first four bytes. *)
Record elf_ehdr := Ehdr { e_ident : list Z; e_entry : Z; e_phoff : Z; e_phnum : Z }.
Definition rd_ehdr (m : mem) (a : Z) : elf_ehdr :=
  Ehdr [rd8 m a; rd8 m (a + 1); rd8 m (a + 2); rd8 m (a + 3)]
    (rd32 m (a + 24)) (rd32 m (a + 28)) (rd16 m (a + 44)).

Record elf_phdr := Phdr {
  p_type : Z; p_offset : Z; p_vaddr : Z; p_paddr : Z;
  p_filesz : Z; p_memsz : Z; p_flags : Z; p_align : Z
}.
Definition rd_phdr (m : mem) (a : Z) : elf_phdr :=
  Phdr (rd32 m a) (rd32 m (a + 4)) (rd32 m (a + 8)) (rd32 m (a + 12))
    (rd32 m (a + 16)) (rd32 m (a + 20)) (rd32 m (a + 24)) (rd32 m (a + 28)).

Definition PT_LOAD : Z := 1.
Definition PF_W : Z := 2.

Section elf.
Context (kmem : mem) (text : Z).

(** 0 if the file is an ELF file. *)
Definition elf_check (data : Z) : Z :=
  if decide (e_ident (rd_ehdr kmem data) = [0x7F; 69; 76; 70]) then 0 else 1.

(** ** Stores to user addresses *)

(** What the processor looks at: the present bits of the directory's entry
    and of the page. *)
Definition page_present (a : Z) : M kstate bool :=
  pd ← getg current_pagedir;
  d ← load (A := page_directory) pd;
  let i := a / 0x1000 / 1024 in
  if Z.odd (dir_phys d i) then
    g ← get_page (dir_table d i, a / 0x1000 mod 1024); mret (negb (pg_present g =? 0))
  else mret false.

(** A store of the kernel at [a]: a page that is not present is a fault
    (error code 2), after which the store is tried again.  Stores above
    0xE0000000 would change the kernel's own memory and are not modelled. *)
Definition touch (a : Z) : M kstate unit :=
  if 0xE0000000 <=? a then fail (BadAccess a)
  else
    loop 2 (fun _ =>
      p ← page_present a;
      if (p : bool) then mret (inr tt) else idt_isrHandler 14 2 text a;; mret (inl tt)) tt.

Definition ustore8 (a v : Z) : M kstate unit :=
  touch a;; modify (fun s => with_umem (wr8 (umem_of s) a v) s).
Definition ustore32 (a v : Z) : M kstate unit :=
  touch a;; touch (w32 (a + 3));; modify (fun s => with_umem (wr32 (umem_of s) a v) s).

Fixpoint ucopy_words (n : nat) (d s : Z) : M kstate unit :=
  match n with
  | O => mret tt
  | Datatypes.S n' => ustore32 (w32 d) (rd32 kmem (w32 s));; ucopy_words n' (d + 4) (s + 4)
  end.
Fixpoint ucopy_bytes (n : nat) (d s : Z) : M kstate unit :=
  match n with
  | O => mret tt
  | Datatypes.S n' => ustore8 (w32 d) (rd8 kmem (w32 s));; ucopy_bytes n' (d + 1) (s + 1)
  end.

(** [count] is below 2^31. *)
Definition umemcpy (dest src count : Z) : M kstate unit :=
  let f := count mod 4 in
  ucopy_words (Z.to_nat (count / 4)) dest src;;
  ucopy_bytes (Z.to_nat f) (dest + (count - f)) (src + (count - f)).

Fixpoint umemset (n : nat) (d v : Z) : M kstate unit :=
  match n with
  | O => mret tt
  | Datatypes.S n' => ustore8 (w32 d) v;; umemset n' (d + 1) v
  end.

(** ** The loader *)

(** One program header. *)
Definition load_phdr (pd data : Z) (ph : elf_phdr) : M kstate unit :=
  when (p_type ph =? PT_LOAD)
    (seg ← simpleseg_make (p_vaddr ph) (p_memsz ph) (if Z.land (p_flags ph) PF_W =? 0 then 0 else 1);
     _ ← seg_map seg pd 0;
     umemcpy (p_vaddr ph) (w32 (data + p_offset ph)) (p_filesz ph);;
     when (p_filesz ph <? p_memsz ph)
       (umemset (Z.to_nat (p_memsz ph - p_filesz ph)) (p_vaddr ph + p_memsz ph) 0)).

Fixpoint load_phdrs (pd data : Z) (n : nat) (a : Z) : M kstate unit :=
  match n with
  | O => mret tt
  | Datatypes.S n' => load_phdr pd data (rd_phdr kmem (w32 a));; load_phdrs pd data n' (a + 32)
  end.

Definition elf_load (data : Z) (proc : ptr) : M kstate Z :=
  let ehdr := rd_ehdr kmem data in
  if negb (elf_check data =? 0) then mret 0
  else
    r ← getg current_pagedir;
    cli;;
    p ← load (A := process) proc;
    pagedir_switch (p_pagedir p);;
    load_phdrs (p_pagedir p) data (Z.to_nat (e_phnum ehdr)) (data + e_phoff ehdr);;
    pagedir_switch r;;
    sti;;
    mret (e_entry ehdr).

Definition elf_exec (data priv : Z) : M kstate ptr :=
  if negb (elf_check data =? 0) then mret 0
  else
    p ← process_new 0 0 priv;
    e ← elf_load data p;
    _ ← thread_new p e 0;
    mret p.

(** ** Specification *)

(** The program headers, in order, and what they leave in memory. *)
Fixpoint rd_phdrs (n : nat) (a : Z) : list elf_phdr :=
  match n with
  | O => []
  | Datatypes.S n' => rd_phdr kmem (w32 a) :: rd_phdrs n' (a + 32)
  end.

Definition within (x d n : Z) : bool := (d <=? x) && (x <? d + n).

(** [n] bytes of [kmem] from [s], at [d]. *)
Definition pasted (m m' : mem) (d s n : Z) : Prop :=
  forall x, rd8 m' x = if within x d n then rd8 kmem (s + (x - d)) else rd8 m x.

Definition image_byte (data : Z) (x old : Z) (ph : elf_phdr) : Z :=
  if (p_type ph =? PT_LOAD) && within x (p_vaddr ph) (p_filesz ph)
  then rd8 kmem (w32 (data + p_offset ph) + (x - p_vaddr ph)) else old.

(** A header the loader handles without going outside its segment. *)
Definition loadable (data : Z) (ph : elf_phdr) : Prop :=
  p_type ph = PT_LOAD ->
  0 <= p_vaddr ph /\ 0 <= p_filesz ph < 2147483648 /\ p_memsz ph = p_filesz ph /\
  p_vaddr ph + p_memsz ph < 0xE0000000 /\ w32 (data + p_offset ph) + p_filesz ph <= W32.

End elf.

(** Page number [p] is present in the user half of a directory. *)
Definition mapped (d : page_directory) (T : gmap Z page_table) (p : Z) : bool :=
  Z.odd (dir_phys d (p / 1024)) &&
  match T !! dir_table d (p / 1024) with
  | Some tb => negb (pg_present (table_page tb (p mod 1024)) =? 0)
  | None => false
  end.

(** The frames it takes to make the pages of [U] present. *)
Definition need (d : page_directory) (T : gmap Z page_table) (U : gset Z) : nat :=
  size (filter (fun p => mapped d T p = false) U)
  + size (filter (fun i => dir_table d i = 0) (set_map (fun p => p / 1024) U : gset Z)).

(** Entry [i] of the directory: no table, or one that is present and whose
    absent pages hold no frame. *)
Definition table_ok (d : page_directory) (T : gmap Z page_table) (i : Z) : Prop :=
  (dir_table d i = 0 /\ Z.odd (dir_phys d i) = false) \/
  (dir_table d i <> 0 /\ Z.odd (dir_phys d i) = true /\
   exists tb, T !! dir_table d i = Some tb /\
     forall k, pg_present (table_page tb k) = 0 -> pg_frame (table_page tb k) = 0).

(** The mapping at [x] is one of a simple segment in directory [pd]. *)
Definition simple_map (s : kstate) (pd x : ptr) (m : segment_map) : Prop :=
  k_maps (k_st s) !! x = Some m /\ sm_pagedir m = pd /\ sm_seg m <> 0 /\
  exists g ss, k_segments (k_st s) !! sm_seg m = Some g /\ seg_data g = simple_kind ss.

(** The user half of address space [pd]; [l] are its mappings. *)
Record space (s : kstate) (pd : ptr) (l : list Z) (d : page_directory) (T : gmap Z page_table)
    (b : bitset) : Prop := {
  sp_tab : forall i, 0 <= i < 896 -> table_ok d T i;
  sp_inj : forall i j, 0 <= i < 896 -> 0 <= j < 896 -> dir_table d i = dir_table d j ->
             dir_table d i <> 0 -> i = j;
  sp_list : linked (k_maps (k_st s)) (mappedSegs d) l;
  sp_maps : forall x, x ∈ l -> exists m, simple_map s pd x m;
  sp_frames : wf_bitset b
}.

(** Pages are only added, and only in tables of this directory. *)
Record grows (d : page_directory) (T : gmap Z page_table) (d' : page_directory)
    (T' : gmap Z page_table) : Prop := {
  gr_mapped : forall p, 0 <= p < 0xE0000 -> mapped d T p = true -> mapped d' T' p = true;
  gr_other : forall t, is_Some (T !! t) -> (forall i, 0 <= i < 896 -> dir_table d i <> t) ->
               T' !! t = T !! t /\ forall i, 0 <= i < 896 -> dir_table d' i <> t
}.

(** Only the pages [P] may have become present. *)
Definition only (d : page_directory) (T : gmap Z page_table) (d' : page_directory)
    (T' : gmap Z page_table) (P : Z -> Prop) : Prop :=
  forall p, 0 <= p < 0xE0000 -> ~ P p -> mapped d' T' p = mapped d T p.

(** [s] with directory [pd], the tables, the frames and the user memories
    replaced. *)
Definition view (s : kstate) (pd : ptr) (d : page_directory) (T : gmap Z page_table) (b : bitset)
    (mm : gmap Z mem) : kstate :=
  KState (set_k_pagedirs (<[pd := d]> (k_pagedirs (k_st s))) (set_k_tables T (k_st s)))
    (set_umem mm (set_frames b (k_g s))).

(** [s] with its segments and their mappings replaced. *)
Definition with_segs (M : gmap Z segment_map) (S : gmap Z segment) (s : kstate) : kstate :=
  KState (set_k_maps M (set_k_segments S (k_st s))) (k_g s).

(** What user memory [mm] shows through directory [pd]. *)
Definition shown (pd : ptr) (mm : gmap Z mem) : mem := default (fun _ => 0) (mm !! pd).

(** The mapping [x] is that of a segment made for the header [ph]. *)
Definition mapped_as (s : kstate) (pd x : ptr) (ph : elf_phdr) : Prop :=
  exists m, k_maps (k_st s) !! x = Some m /\ sm_pagedir m = pd /\ sm_start m = p_vaddr ph /\
    sm_len m = p_memsz ph /\
    k_segments (k_st s) !! sm_seg m
    = Some (Segment (simple_kind (SimpleSeg (if Z.land (p_flags ph) PF_W =? 0 then 0 else 1)
                                    (p_vaddr ph) (p_memsz ph))) 1).

Definition loads (phs : list elf_phdr) : list elf_phdr := filter (fun ph => p_type ph = PT_LOAD) phs.

(** The headers [phs] were loaded, from one state to another: [xs] are the
    new mappings, the last one first. *)
Record loaded (kmem : mem) (data : Z) (pd : ptr) (s : kstate) (d : page_directory)
    (T : gmap Z page_table) (mm : gmap Z mem) (phs : list elf_phdr) (s' : kstate) (xs : list Z)
    (d' : page_directory) (T' : gmap Z page_table) (mm' : gmap Z mem) : Prop := {
  ld_grows : grows d T d' T';
  ld_bytes : forall x, rd8 (shown pd mm') x = foldl (image_byte kmem data x) (rd8 (shown pd mm) x) phs;
  ld_other : forall q, q <> pd -> mm' !! q = mm !! q;
  ld_pages : forall ph y, ph ∈ loads phs -> p_vaddr ph <= y < p_vaddr ph + p_filesz ph ->
               mapped d' T' (y / 0x1000) = true;
  ld_only : only d T d' T' (fun p => exists ph y, ph ∈ loads phs /\
              p_vaddr ph <= y < p_vaddr ph + p_filesz ph /\ p = y / 0x1000);
  ld_maps : k_maps (k_st s) ⊆ k_maps (k_st s');
  ld_segs : k_segments (k_st s) ⊆ k_segments (k_st s');
  ld_new : Forall2 (mapped_as s' pd) xs (rev (loads phs))
}.

(** ** Lemmas: page tables and frames *)

Lemma grows_refl d T : grows d T d T.
Proof. by split. Qed.

Lemma grows_trans d T d1 T1 d2 T2 : grows d T d1 T1 -> grows d1 T1 d2 T2 -> grows d T d2 T2.
Proof.
  intros [A1 C1] [A2 C2]. split; [auto|].
  intros t Ht Hno. destruct (C1 t Ht Hno) as (E1 & H1).
  destruct (C2 t) as (E2 & H2); [by rewrite E1 | done |]. split; [congruence | done].
Qed.

(** A new empty table: the same pages are present. *)
Lemma mapped_with_table d T i t phys f p : T !! t = None -> dir_table d i = 0 -> Z.odd (dir_phys d i) = false ->
  (dir_table d (p / 1024) <> t) ->
  mapped (with_table i t phys d) (<[t := PageTable ∅ f]> T) p = mapped d T p.
Proof.
  intros Ht Hi Ho Hp. unfold mapped. rewrite with_table_tab, with_table_phys.
  destruct (decide (p / 1024 = i)) as [->|Hne].
  - rewrite lookup_insert_eq, Ho. unfold table_page; cbn. by rewrite lookup_empty.
  - by rewrite lookup_insert_ne by congruence.
Qed.

Lemma mapped_put d T i t tb k g p : (forall j, 0 <= j < 896 -> dir_table d j = t -> j = i) ->
  dir_table d i = t -> T !! t = Some tb -> 0 <= p < 0xE0000 -> 0 <= i < 896 -> 0 <= k < 1024 ->
  Z.odd (dir_phys d i) = true ->
  mapped d (<[t := PageTable (<[k := g]> (pages tb)) (pt_frame tb)]> T) p
  = if decide (p = i * 1024 + k) then negb (pg_present g =? 0) else mapped d T p.
Proof.
  intros Hinj Ht Etb Hp Hi Hk Ho. unfold mapped. destruct (decide (dir_table d (p / 1024) = t)) as [Et|Hne].
  - assert (Ep : p / 1024 = i) by (apply Hinj; [Z.div_mod_to_equations; lia | done]).
    rewrite Ep, Ht, Ho, lookup_insert_eq, Etb. cbn [andb]. unfold table_page; cbn [pages].
    destruct (decide (p = i * 1024 + k)) as [->|Hpk].
    + replace ((i * 1024 + k) mod 1024) with k by (Z.div_mod_to_equations; lia). by rewrite lookup_insert_eq.
    + rewrite lookup_insert_ne; [done|]. Z.div_mod_to_equations. lia.
  - rewrite lookup_insert_ne by done. destruct (decide (p = i * 1024 + k)) as [->|]; [|done].
    exfalso. apply Hne. replace ((i * 1024 + k) / 1024) with i by (Z.div_mod_to_equations; lia). done.
Qed.

(** What [need] loses with a new table and with a new page. *)
Lemma need_table d T U i d' T' : i ∈ (set_map (fun p => p / 1024) U : gset Z) -> dir_table d i = 0 ->
  dir_table d' i <> 0 -> (forall j, j <> i -> dir_table d' j = dir_table d j) ->
  (forall p, p ∈ U -> mapped d' T' p = mapped d T p) -> (need d' T' U < need d T U)%nat.
Proof.
  intros Hi H0 H1 Hj Hm. unfold need. apply Nat.add_le_lt_mono.
  - apply subseteq_size. intros p. rewrite !elem_of_filter. intros [E Hp]. by rewrite Hm in E.
  - apply subset_size. split.
    + intros j. rewrite !elem_of_filter. intros [E Hu]. split; [|done].
      destruct (decide (j = i)) as [->|Hne]; [done | by rewrite <- Hj].
    + intros Hs. destruct (proj1 (elem_of_filter _ _ _) (Hs i (proj2 (elem_of_filter _ _ _) (conj H0 Hi)))). done.
Qed.

Lemma need_page d T T' U p : p ∈ U -> mapped d T p = false -> mapped d T' p = true ->
  (forall q, q ∈ U -> mapped d T q = true -> mapped d T' q = true) -> (need d T' U < need d T U)%nat.
Proof.
  intros Hp H0 H1 Hm. unfold need. apply Nat.add_lt_le_mono; [|done]. apply subset_size. split.
  - intros q. rewrite !elem_of_filter. intros [E Hq]. split; [|done].
    destruct (mapped d T q) eqn:Eq; [|done]. by rewrite Hm in E.
  - intros Hs. destruct (proj1 (elem_of_filter _ _ _) (Hs p (proj2 (elem_of_filter _ _ _) (conj H0 Hp)))) as [E _].
    congruence.
Qed.

Lemma alloc_counted b n : wf_bitset b -> free_count b (Datatypes.S n) ->
  exists f b', frame_alloc b = Ok (f, b') /\ wf_bitset b' /\ free_count b' n.
Proof.
  intros Hwf Hf. destruct (frame_alloc_ok b Hwf) as (f & b' & E & _ & _ & _ & Hwf' & Hsz & Hln & Hb).
  { destruct Hf as ([|f fs] & _ & Hlen & Hfs); [done|]. exists f. apply Hfs. set_solver. }
  exists f, b'. split; [done|]. split; [done|].
  eapply free_count_step; [exact Hf | by apply capacity_same | exact Hb].
Qed.

(** ** Lemmas: a page fault in an address space *)

Section faults.
Context (s : kstate) (pd : ptr) (l : list Z) (text : Z) (r : nat).
Context (Hpd : pd <> 0) (Hcur : current_pagedir (k_g s) = pd) (Htext : 0xE0000000 <= text).

Lemma view_dir d T b mm : k_pagedirs (k_st (view s pd d T b mm)) !! pd = Some d.
Proof. apply lookup_insert_eq. Qed.

Lemma getPage_makes a d T b mm f b' : 0 <= table_of a < 896 -> dir_table d (table_of a) = 0 ->
  frame_alloc b = Ok (f, b') ->
  pagedir_getPage pd a true (view s pd d T b mm)
  = Ok (Some (fresh_ptr T, index_of a),
        view s pd (with_table (table_of a) (fresh_ptr T) (w32 (f * 0x1000)) d)
          (<[fresh_ptr T := PageTable ∅ f]> T) b' mm).
Proof.
  intros Hi H0 Ef. apply wp_eq_Ok. eapply wp_getPage_makes; [done | apply view_dir | done | lia | exact Ef |].
  unfold with_new_table, view; ksimp. by rewrite insert_insert_eq.
Qed.

Lemma space_table d T b i j : space s pd l d T b -> 0 <= j < 896 -> T !! i = None -> i <> 0 -> dir_table d j <> i.
Proof.
  intros W Hj Hi Hn. destruct (sp_tab _ _ _ _ _ _ W j Hj) as [(-> & _)|(_ & _ & tb & E & _)]; congruence.
Qed.

Lemma space_with_table d T b i phys f b' : space s pd l d T b -> 0 <= i < 896 -> dir_table d i = 0 ->
  wf_bitset b' ->
  space s pd l (with_table i (fresh_ptr T) phys d) (<[fresh_ptr T := PageTable ∅ f]> T) b'.
Proof.
  intros W Hi H0 Hb. set (t := fresh_ptr T). pose proof (fresh_ptr_pos T). pose proof (fresh_ptr_None T) as Hnone.
  assert (Hfr : forall j, 0 <= j < 896 -> dir_table d j <> t) by (intros; eapply space_table; eauto; lia).
  pose proof (sp_list _ _ _ _ _ _ W). pose proof (sp_maps _ _ _ _ _ _ W). split; try done.
  - intros j Hj. unfold table_ok. rewrite with_table_tab, with_table_phys. destruct (decide (j = i)) as [->|Hne].
    + right. split; [lia|]. split; [done|]. eexists. rewrite lookup_insert_eq. split; [done|].
      intros k _. unfold table_page; cbn. by rewrite lookup_empty.
    + destruct (sp_tab _ _ _ _ _ _ W j Hj) as [?|(? & ? & tb & E & ?)]; [by left|]. right.
      split; [done|]. split; [done|]. exists tb. rewrite lookup_insert_ne; [done|]. intros ->. by apply (Hfr j).
  - intros j k Hj Hk. rewrite !with_table_tab.
    destruct (decide (j = i)) as [->|], (decide (k = i)) as [->|]; try done.
    + intros E. destruct (Hfr k Hk). done.
    + intros E. destruct (Hfr j Hj). done.
    + by apply (sp_inj _ _ _ _ _ _ W).
Qed.

Lemma table_of_page a : table_of a = a / 0x1000 / 1024.
Proof. reflexivity. Qed.

(** The state of a load: a well-formed space that grew from [(d, T)], with
    frames for the pages of [U] that are still missing, and [r] more. *)
Definition ready (U : gset Z) d T d' T' b' : Prop :=
  space s pd l d' T' b' /\ free_count b' (need d' T' U + r) /\ grows d T d' T'.

Definition user_pages (U : gset Z) : Prop := forall p, p ∈ U -> 0 <= p < 0xE0000.

Lemma ready_trans U d T d1 T1 b1 d2 T2 b2 :
  ready U d T d1 T1 b1 -> ready U d1 T1 d2 T2 b2 -> ready U d T d2 T2 b2.
Proof. intros (_ & _ & G1) (W & F & G2). split; [done|]. split; [done | by eapply grows_trans]. Qed.

(** The page entry of a fault: its table is there or is made. *)
Lemma fault_page a d T b mm U : space s pd l d T b -> u32 a -> a < 0xE0000000 ->
  mapped d T (a / 0x1000) = false -> a / 0x1000 ∈ U -> user_pages U -> free_count b (need d T U + r) ->
  exists d' T' b' tb, pagedir_getPage pd a true (view s pd d T b mm)
      = Ok (Some (dir_table d' (table_of a), index_of a), view s pd d' T' b' mm) /\
    ready U d T d' T' b' /\ mapped d' T' (a / 0x1000) = false /\ only d T d' T' (fun _ => False) /\
    dir_table d' (table_of a) <> 0 /\ Z.odd (dir_phys d' (table_of a)) = true /\
    T' !! dir_table d' (table_of a) = Some tb /\
    pg_frame (table_page tb (index_of a)) = 0 /\ pg_present (table_page tb (index_of a)) = 0.
Proof.
  intros W Ha Hlt Hm HU HUb Hf.
  assert (Hi : 0 <= table_of a < 896) by (unfold table_of, u32 in *; Z.div_mod_to_equations; lia).
  pose proof (fresh_ptr_pos T). pose proof (fresh_ptr_None T) as Hnone.
  destruct (sp_tab _ _ _ _ _ _ W _ Hi) as [(H0 & Hodd)|(Hn & Hodd & tb & Etb & Hok)].
  - assert (Hneed : forall phys f, (need (with_table (table_of a) (fresh_ptr T) phys d)
                      (<[fresh_ptr T := PageTable ∅ f]> T) U < need d T U)%nat).
    { intros phys f. apply need_table with (table_of a).
      - apply elem_of_map. by exists (a / 0x1000).
      - done.
      - rewrite with_table_tab, decide_True by done. lia.
      - intros j Hj. by rewrite with_table_tab, decide_False.
      - intros p Hp. apply mapped_with_table; [done..|]. apply (space_table d T b); [done | | done | lia].
        apply HUb in Hp. Z.div_mod_to_equations. lia. }
    destruct (need d T U + r)%nat as [|n] eqn:En; [specialize (Hneed 0 0); lia|].
    destruct (alloc_counted b n) as (f & b' & Ef & Hb' & Hf'); [apply W | done |].
    set (phys := w32 (f * 0x1000)).
    exists (with_table (table_of a) (fresh_ptr T) phys d), (<[fresh_ptr T := PageTable ∅ f]> T), b', (PageTable ∅ f).
    assert (Etab : dir_table (with_table (table_of a) (fresh_ptr T) phys d) (table_of a) = fresh_ptr T)
      by (by rewrite with_table_tab, decide_True).
    rewrite Etab. split; [by apply getPage_makes|].
    assert (Hsame : forall p, 0 <= p < 0xE0000 -> mapped (with_table (table_of a) (fresh_ptr T) phys d)
                      (<[fresh_ptr T := PageTable ∅ f]> T) p = mapped d T p).
    { intros p Hp. apply mapped_with_table; [done..|]. apply (space_table d T b); [done | | done | lia].
      Z.div_mod_to_equations. lia. }
    split; [split; [by apply space_with_table with b | split]|].
    + eapply free_count_le, Hf'. specialize (Hneed phys f). lia.
    + split; [intros; by rewrite Hsame|]. intros t Ht Hno.
      assert (t <> fresh_ptr T) by (intros ->; rewrite Hnone in Ht; by destruct Ht).
      split; [by apply lookup_insert_ne|]. intros i Hir. rewrite with_table_tab.
      destruct (decide _); [done | by apply Hno].
    + rewrite Hsame by by apply HUb. split; [done|]. split; [intros p Hp _; by apply Hsame|]. split; [lia|].
      split; [by rewrite with_table_phys, decide_True|]. rewrite lookup_insert_eq.
      split; [done|]. unfold table_page; cbn. by rewrite lookup_empty.
  - exists d, T, b, tb. split.
    { apply wp_eq_Ok. eapply wp_getPage_present; [done | apply view_dir | done | done |]. done. }
    split; [split; [done | split; [done | apply grows_refl]]|].
    assert (E : pg_present (table_page tb (index_of a)) = 0).
    { unfold mapped in Hm. change (a / 0x1000 / 1024) with (table_of a) in Hm. rewrite Hodd, Etb in Hm.
      change (a / 0x1000 mod 1024) with (index_of a) in Hm. cbn [andb] in Hm.
      by apply negb_false_iff, Z.eqb_eq in Hm. }
    do 5 (split; [done|]). split; [by apply Hok | done].
Qed.

Definition covered (a : Z) : Prop := exists x m, x ∈ l /\ simple_map s pd x m /\ covers a m = true.

(** The mapping that answers: the first one that covers the address. *)
Lemma first_cover a : (forall x, x ∈ l -> exists m, simple_map s pd x m) -> covered a ->
  exists l1 x l2 m, l = l1 ++ x :: l2 /\ simple_map s pd x m /\ covers a m = true /\
    forall y n, y ∈ l1 -> k_maps (k_st s) !! y = Some n -> covers a n = false.
Proof.
  clear Hpd Hcur. unfold covered. induction l as [|z l' IH]; intros Hall (x & m & Hx & Hm & Hc); [set_solver|].
  destruct (Hall z) as (mz & Hz); [set_solver|]. destruct (covers a mz) eqn:Ec.
  { exists [], z, l', mz. split; [done|]. split; [done|]. split; [done|]. set_solver. }
  destruct IH as (l1 & y & l2 & n & -> & Hn & Hcn & Hno).
  { intros; apply Hall; set_solver. }
  { exists x, m. split; [|done]. apply elem_of_cons in Hx as [->|]; [|done].
    destruct Hz as [Ez _], Hm as [Em _]. congruence. }
  exists (z :: l1), y, l2, n. split; [done|]. split; [done|]. split; [done|].
  intros q nq [->|Hq]%elem_of_cons Eq; [|by apply Hno with q]. destruct Hz as [Ez _]. congruence.
Qed.

(** Mapping the page of a fault. *)
Lemma space_with_page d T b i tb k g b' : space s pd l d T b -> 0 <= i < 896 -> dir_table d i <> 0 ->
  T !! dir_table d i = Some tb -> pg_present g = 1 -> wf_bitset b' ->
  space s pd l d (<[dir_table d i := PageTable (<[k := g]> (pages tb)) (pt_frame tb)]> T) b'.
Proof.
  intros W Hi Hn Etb Hg Hb. pose proof (sp_list _ _ _ _ _ _ W). pose proof (sp_maps _ _ _ _ _ _ W).
  pose proof (sp_inj _ _ _ _ _ _ W). split; try done.
  intros j Hj. destruct (sp_tab _ _ _ _ _ _ W j Hj) as [?|(? & ? & tbj & E & Hok)]; [by left|]. right.
  split; [done|]. split; [done|]. destruct (decide (dir_table d j = dir_table d i)) as [Eij|Hne].
  - assert (tbj = tb) as -> by congruence. eexists. rewrite Eij, lookup_insert_eq. split; [done|].
    intros q. unfold table_page; cbn [pages]. destruct (decide (q = k)) as [->|].
    + rewrite lookup_insert_eq. cbn. congruence.
    + rewrite lookup_insert_ne by done. apply (Hok q).
  - exists tbj. by rewrite lookup_insert_ne.
Qed.

Lemma fault_ok a d T b mm U : space s pd l d T b -> covered a -> u32 a -> a < 0xE0000000 ->
  mapped d T (a / 0x1000) = false -> a / 0x1000 ∈ U -> user_pages U -> free_count b (need d T U + r) ->
  exists d' T' b', paging_fault a 2 text (view s pd d T b mm) = Ok (0, view s pd d' T' b' mm) /\
    ready U d T d' T' b' /\ mapped d' T' (a / 0x1000) = true /\ only d T d' T' (fun p => p = a / 0x1000).
Proof.
  intros W Hc Ha Hlt Hm HU HUb Hf. pose proof (page_mask_sub a Ha) as Emask.
  assert (Hua : u32 (page_mask a)) by (unfold u32 in *; Z.div_mod_to_equations; lia).
  assert (Ediv : page_mask a / 0x1000 = a / 0x1000) by (unfold u32 in *; Z.div_mod_to_equations; lia).
  destruct (first_cover a (sp_maps _ _ _ _ _ _ W) Hc) as (l1 & x & l2 & m & El & Hsm & Hcov & Hno).
  destruct Hsm as (Em & Emp & Hsg & g & ss & Eg & Ek).
  destruct (fault_page (page_mask a) d T b mm U W Hua) as
    (d1 & T1 & b1 & tb & E1 & (W1 & F1 & G1) & Hm1 & Hon & Ht1 & Ho1 & Etb & Efr & Epr);
    [unfold u32 in *; Z.div_mod_to_equations; lia | by rewrite Ediv | by rewrite Ediv | done | done |].
  rewrite table_of_mask, index_of_mask in * by done. rewrite Ediv in Hm1.
  assert (Hi : 0 <= table_of a < 896) by (unfold table_of, u32 in *; Z.div_mod_to_equations; lia).
  assert (Hk : 0 <= index_of a < 1024) by (unfold index_of; Z.div_mod_to_equations; lia).
  set (t := dir_table d1 (table_of a)) in *.
  set (T2 f := <[t := PageTable (<[index_of a := Page 1 (if ss_writable ss =? 0 then 0 else 1) 1
                        (f mod 0x100000)]> (pages tb)) (pt_frame tb)]> T1).
  assert (Epage : a / 0x1000 = table_of a * 1024 + index_of a)
    by (unfold table_of, index_of; Z.div_mod_to_equations; lia).
  assert (Hput : forall f p, 0 <= p < 0xE0000 -> mapped d1 (T2 f) p
            = if decide (p = a / 0x1000) then true else mapped d1 T1 p).
  { intros f p Hp. unfold T2. rewrite Epage.
    rewrite (mapped_put d1 T1 (table_of a) t tb (index_of a)); try done.
    intros j Hj Ej. apply (sp_inj _ _ _ _ _ _ W1); [done | done | done | by rewrite Ej]. }
  assert (Hneed : forall f, (need d1 (T2 f) U < need d1 T1 U)%nat).
  { intros f. apply need_page with (a / 0x1000); [done | done | |].
    - by rewrite Hput, decide_True by (done || by apply HUb).
    - intros q Hq Eq. rewrite Hput by by apply HUb. by destruct (decide _). }
  destruct (need d1 T1 U + r)%nat as [|n] eqn:En; [specialize (Hneed 0); lia|].
  destruct (alloc_counted b1 n) as (f & b2 & Ef & Hb2 & Hf2); [apply W1 | done |].
  exists d1, (T2 f), b2. split; [|split; [split; [|split]|]].
  - rewrite (paging_fault_found a 2 text pd d l1 x l2 m g) by
      (done || apply view_dir || (rewrite <- El; apply W)).
    rewrite (proj2 (Z.ltb_ge _ _) Htext), andb_false_r. unfold seg_op_fault. rewrite Ek.
    erewrite bind_Ok; [|apply wp_eq_Ok; unfold simpleseg_handleFault; cbn [andb]; rewrite Emp;
      apply wp_bind; eapply wp_eq; [exact E1|]; unfold get_page; cbn [fst snd]; ksteps; rewrite Efr; cbn [Z.eqb negb];
      ksteps; eapply wp_lift_frames; [exact Ef|]; ksteps; eapply wp_page_map; [done | klookup | done | done |]; ksteps; reflexivity].
    cbn [Z.eqb]. reflexivity.
  - apply space_with_page with b1; done.
  - eapply free_count_le, Hf2. specialize (Hneed f). lia.
  - eapply grows_trans; [exact G1|]. split.
    + intros p Hp Ep. rewrite Hput by done. by destruct (decide _).
    + intros q Hq Hno'. split; [|done]. apply lookup_insert_ne. intros <-. by apply (Hno' (table_of a)).
  - assert (0 <= a / 0x1000 < 0xE0000) by (by apply HUb). rewrite Hput, decide_True by done. split; [done|].
    intros p Hp Hne. rewrite Hput, decide_False by done. apply Hon; [done | tauto].
Qed.

Lemma page_present_ok a d T b mm : space s pd l d T b -> 0 <= a < 0xE0000000 ->
  page_present a (view s pd d T b mm) = Ok (mapped d T (a / 0x1000), view s pd d T b mm).
Proof.
  intros W Ha. assert (Hi : 0 <= table_of a < 896) by (unfold table_of; Z.div_mod_to_equations; lia).
  apply wp_eq_Ok. unfold page_present, mapped. apply wp_bind, wp_getg.
  change (current_pagedir (k_g (view s pd d T b mm))) with (current_pagedir (k_g s)).
  rewrite Hcur. eapply wp_bind, wp_load; [done | apply view_dir |].
  destruct (sp_tab _ _ _ _ _ _ W _ Hi) as [(H0 & Hodd)|(Hn & Hodd & tb & Etb & Hok)];
    unfold table_of in *; rewrite Hodd; [done|]. unfold get_page; cbn [fst snd]. ksteps. by rewrite Etb.
Qed.

Lemma touch_ok a d T b mm U : space s pd l d T b -> covered a -> 0 <= a < 0xE0000000 ->
  a / 0x1000 ∈ U -> user_pages U -> free_count b (need d T U + r) ->
  exists d' T' b', touch text a (view s pd d T b mm) = Ok (tt, view s pd d' T' b' mm) /\
    ready U d T d' T' b' /\ mapped d' T' (a / 0x1000) = true /\ only d T d' T' (fun p => p = a / 0x1000).
Proof.
  intros W Hc Ha HU HUb Hf. unfold touch. rewrite (proj2 (Z.leb_gt _ _)) by lia. rewrite loop_S.
  pose proof (page_present_ok a d T b mm W Ha) as E. destruct (mapped d T (a / 0x1000)) eqn:Em.
  - exists d, T, b. split; [|split; [split; [done|]; split; [done | apply grows_refl] | by split]].
    apply wp_eq_Ok. apply wp_bind, wp_bind. eapply wp_eq; [exact E|]. by wp_steps.
  - destruct (fault_ok a d T b mm U W Hc) as (d1 & T1 & b1 & E1 & R1 & M1 & N1); try done;
      [unfold u32; lia | lia |]. exists d1, T1, b1. split; [|done].
    pose proof (page_present_ok a d1 T1 b1 mm (proj1 R1) Ha) as E'. rewrite M1 in E'.
    apply wp_eq_Ok. apply wp_bind, wp_bind. eapply wp_eq; [exact E|]. cbn beta.
    apply wp_bind. unfold idt_isrHandler. cbn [Z.eqb]. apply wp_bind, wp_bind. eapply wp_eq; [exact E1|].
    wp_steps. cbn [Z.eqb negb]. wp_steps. rewrite loop_S. apply wp_bind, wp_bind. eapply wp_eq; [exact E'|]. by wp_steps.
Qed.

(** [prog] runs to its end in every well-formed space that has the frames
    for the pages of [U]; it changes the memory as [R] says, makes the pages
    of [V] present and leaves the other address spaces alone. *)
Definition performs (U : gset Z) (prog : M kstate unit) (R : mem -> mem -> Prop) (V : Z -> Prop) : Prop :=
  forall d T b mm, space s pd l d T b -> free_count b (need d T U + r) ->
  exists d' T' b' mm', prog (view s pd d T b mm) = Ok (tt, view s pd d' T' b' mm') /\
    ready U d T d' T' b' /\ R (shown pd mm) (shown pd mm') /\
    (forall q, q <> pd -> mm' !! q = mm !! q) /\
    (forall x, V x -> mapped d' T' (x / 0x1000) = true) /\ only d T d' T' (fun p => exists x, V x /\ p = x / 0x1000).

Lemma performs_ret U (R : mem -> mem -> Prop) : (forall m, R m m) -> performs U (mret tt) R (fun _ => False).
Proof.
  intros HR d T b mm W Hf. exists d, T, b, mm. split; [done|].
  split; [split; [done|]; split; [done | apply grows_refl]|]. done.
Qed.

Lemma performs_bind U p1 p2 (R1 R2 R : mem -> mem -> Prop) (V1 V2 V : Z -> Prop) : performs U p1 R1 V1 -> performs U p2 R2 V2 ->
  (forall m m1 m2, R1 m m1 -> R2 m1 m2 -> R m m2) -> (forall x, V x <-> V1 x \/ V2 x) ->
  (forall x, V1 x -> 0 <= x < 0xE0000000) -> performs U (p1;; p2) R V.
Proof.
  intros H1 H2 HR HV Hb d T b mm W Hf.
  destruct (H1 d T b mm W Hf) as (d1 & T1 & b1 & mm1 & E1 & Y1 & M1 & O1 & P1 & N1).
  destruct (H2 d1 T1 b1 mm1) as (d2 & T2 & b2 & mm2 & E2 & Y2 & M2 & O2 & P2 & N2); [apply Y1 | apply Y1 |].
  exists d2, T2, b2, mm2. split; [by rewrite (bind_Ok _ _ _ _ _ E1)|].
  split; [by eapply ready_trans|]. split; [by eapply HR|].
  split; [intros q Hq; by rewrite O2, O1 by done|].
  split.
  - intros x [Hx|Hx]%HV; [|by apply P2]. apply (gr_mapped _ _ _ _ (proj2 (proj2 Y2))); [|by apply P1].
    apply Hb in Hx. Z.div_mod_to_equations. lia.
  - intros p Hp Hno. rewrite N2, N1; [done | done | | done |];
      intros (x & Hx & ->); apply Hno; exists x; rewrite HV; tauto.
Qed.

Definition storable (U : gset Z) (a : Z) : Prop := covered a /\ 0 <= a < 0xE0000000 /\ a / 0x1000 ∈ U.

Lemma performs_touch U a : user_pages U -> storable U a -> performs U (touch text a) eq (fun x => x = a).
Proof.
  intros HU (Hc & Ha & Hp) d T b mm W Hf.
  destruct (touch_ok a d T b mm U) as (d1 & T1 & b1 & E & Y & Hm & N); try done.
  exists d1, T1, b1, mm. do 4 (split; [done|]). split; [by intros x ->|].
  intros p Hq Hno. apply N; [done|]. intros ->. apply Hno. by exists a.
Qed.

Lemma performs_write U (f : mem -> mem) :
  performs U (modify (fun s => with_umem (f (umem_of s)) s)) (fun m m' => m' = f m) (fun _ => False).
Proof.
  intros d T b mm W Hf. exists d, T, b, (<[pd := f (shown pd mm)]> mm).
  split; [|split; [split; [done|]; split; [done | apply grows_refl]|]].
  - unfold modify, with_umem, umem_of, view; cbn. by rewrite Hcur.
  - unfold shown. rewrite lookup_insert_eq. split; [done|]. split; [|done].
    by intros q Hq; rewrite lookup_insert_ne.
Qed.

Lemma performs_store8 U a v : user_pages U -> storable U a ->
  performs U (ustore8 text a v) (fun m m' => m' = wr8 m a v) (fun x => x = a).
Proof.
  intros HU Ha. eapply performs_bind; [by apply performs_touch | apply (performs_write U (fun m => wr8 m a v)) |..].
  - by intros ? ? ? -> ->.
  - tauto.
  - intros x ->. apply Ha.
Qed.

Lemma performs_store32 U a v : user_pages U -> storable U a -> storable U (a + 3) ->
  performs U (ustore32 text a v) (fun m m' => m' = wr32 m a v) (fun x => a <= x < a + 4).
Proof.
  intros HU Ha Ha3. unfold ustore32. rewrite w32_small by (destruct Ha3 as (_ & ? & _); unfold u32; lia).
  assert (H : performs U (touch text (a + 3);; modify (fun s => with_umem (wr32 (umem_of s) a v) s))
                (fun m m' => m' = wr32 m a v) (fun x => x = a + 3)).
  { eapply performs_bind; [by apply performs_touch | apply (performs_write U (fun m => wr32 m a v)) |..].
    - by intros ? ? ? -> ->.
    - tauto.
    - intros x ->. apply Ha3. }
  intros d T b mm W Hf.
  destruct (performs_bind U _ _ eq _ (fun m m' => m' = wr32 m a v) _ _ (fun x => x = a \/ x = a + 3)
    (performs_touch U a HU Ha) H) with d T b mm as (d1 & T1 & b1 & mm1 & E & Y & Hm & O & P & N);
    [by intros ? ? ? -> -> | tauto | intros x ->; apply Ha | done | done |].
  exists d1, T1, b1, mm1. do 4 (split; [done|]). split.
  - intros x Hx. assert (x / 0x1000 = a / 0x1000 \/ x / 0x1000 = (a + 3) / 0x1000) as [-> | ->]
      by (Z.div_mod_to_equations; lia); apply P; tauto.
  - intros p Hp Hno. apply N; [done|]. intros (x & [->| ->] & ->); apply Hno; eexists; (split; [|reflexivity]); lia.
Qed.

(** ** Lemmas: the copy *)

Lemma pasted_nil kmem m d x : pasted kmem m m d x 0.
Proof. intros y. unfold within. destruct (Z.leb_spec d y), (Z.ltb_spec y (d + 0)); done || lia. Qed.

Lemma pasted_app kmem m m1 m2 d x k n : 0 <= k -> 0 <= n -> pasted kmem m m1 d x k ->
  pasted kmem m1 m2 (d + k) (x + k) n -> pasted kmem m m2 d x (k + n).
Proof.
  intros Hk Hn H1 H2 y. rewrite H2, H1. unfold within.
  destruct (Z.leb_spec (d + k) y), (Z.ltb_spec y (d + k + n)), (Z.leb_spec d y), (Z.ltb_spec y (d + k)),
    (Z.ltb_spec y (d + (k + n))); cbn [andb]; try lia; try done; f_equal; lia.
Qed.

(** A copy step of [k] bytes, then the rest. *)
Lemma performs_paste kmem U p1 p2 d x k n : 0 <= k -> 0 <= n -> (forall y, d <= y < d + (k + n) -> storable U y) ->
  performs U p1 (fun m m' => pasted kmem m m' d x k) (fun y => d <= y < d + k) ->
  performs U p2 (fun m m' => pasted kmem m m' (d + k) (x + k) n) (fun y => d + k <= y < d + k + n) ->
  performs U (p1;; p2) (fun m m' => pasted kmem m m' d x (k + n)) (fun y => d <= y < d + (k + n)).
Proof.
  intros Hk Hn Hst H1 H2. eapply performs_bind; [exact H1 | exact H2 | | |].
  - intros m m1 m2. by apply pasted_app.
  - cbn beta. intros y. lia.
  - cbn beta. intros y Hy. apply Hst. lia.
Qed.

Lemma performs_weaken U p (R R' : mem -> mem -> Prop) (V V' : Z -> Prop) : performs U p R V ->
  (forall m m', R m m' -> R' m m') -> (forall x, V' x <-> V x) -> performs U p R' V'.
Proof.
  intros H HR HV d T b mm W Hf. destruct (H d T b mm W Hf) as (d1 & T1 & b1 & mm1 & E & Y & Hm & O & P & N).
  exists d1, T1, b1, mm1. do 2 (split; [done|]). split; [by apply HR|]. split; [done|].
  split; [intros x Hx; by apply P, HV|]. intros q Hq Hno. apply N; [done|].
  intros (x & Hx & ->). apply Hno. exists x. by rewrite HV.
Qed.

Lemma performs_words kmem U n : user_pages U -> forall d x, 0 <= x -> x + 4 * Z.of_nat n <= W32 ->
  (forall y, d <= y < d + 4 * Z.of_nat n -> storable U y) ->
  performs U (ucopy_words kmem text n d x) (fun m m' => pasted kmem m m' d x (4 * Z.of_nat n))
    (fun y => d <= y < d + 4 * Z.of_nat n).
Proof.
  intros HU. induction n as [|n IH]; intros d x Hx Hxn Hst.
  - eapply performs_weaken; [apply (performs_ret U eq); done | intros m ? <-; apply pasted_nil | cbn beta; lia].
  - cbn [ucopy_words]. replace (4 * Z.of_nat (Datatypes.S n)) with (4 + 4 * Z.of_nat n) in * by lia.
    assert (Hd : storable U d) by (apply Hst; lia).
    rewrite !w32_small by (unfold u32, storable in *; lia).
    apply performs_paste; [lia | lia | done | | apply IH; [lia | lia | intros y Hy; apply Hst; lia]].
    eapply performs_weaken; [apply performs_store32; [done | done | apply Hst; lia] | | done].
    intros m m' -> y. apply rd8_wr32.
Qed.

Lemma performs_bytes kmem U n : user_pages U -> forall d x, 0 <= x -> x + Z.of_nat n <= W32 ->
  (forall y, d <= y < d + Z.of_nat n -> storable U y) ->
  performs U (ucopy_bytes kmem text n d x) (fun m m' => pasted kmem m m' d x (Z.of_nat n))
    (fun y => d <= y < d + Z.of_nat n).
Proof.
  intros HU. induction n as [|n IH]; intros d x Hx Hxn Hst.
  - eapply performs_weaken; [apply (performs_ret U eq); done | intros m ? <-; apply pasted_nil | cbn beta; lia].
  - cbn [ucopy_bytes]. replace (Z.of_nat (Datatypes.S n)) with (1 + Z.of_nat n) in * by lia.
    assert (Hd : storable U d) by (apply Hst; lia).
    rewrite !w32_small by (unfold u32, storable in *; lia).
    apply performs_paste; [lia | lia | done | | apply IH; [lia | lia | intros y Hy; apply Hst; lia]].
    eapply performs_weaken; [by apply performs_store8 | | cbn beta; intros y; lia].
    intros m m' -> y. rewrite rd8_wr8, rd8_mod. unfold within.
    destruct (Z.eqb_spec y d), (Z.leb_spec d y), (Z.ltb_spec y (d + 1)); cbn [andb]; try lia; try done.
    f_equal. lia.
Qed.

Lemma performs_memcpy kmem U d x n : user_pages U -> 0 <= n -> 0 <= x -> x + n <= W32 ->
  (forall y, d <= y < d + n -> storable U y) ->
  performs U (umemcpy kmem text d x n) (fun m m' => pasted kmem m m' d x n) (fun y => d <= y < d + n).
Proof.
  intros HU Hn Hx Hxn Hst. unfold umemcpy.
  assert (En : n = 4 * Z.of_nat (Z.to_nat (n / 4)) + Z.of_nat (Z.to_nat (n mod 4)))
    by (Z.div_mod_to_equations; lia).
  assert (Ek : n - n mod 4 = 4 * Z.of_nat (Z.to_nat (n / 4))) by (Z.div_mod_to_equations; lia).
  rewrite Ek. eapply performs_weaken; [apply (performs_paste kmem U _ _ d x) |
    intros m m'; by rewrite <- En | intros y; by rewrite <- En]; [lia | lia | by rewrite <- En | |].
  - apply performs_words; [done | lia | lia | intros y Hy; apply Hst; lia].
  - apply performs_bytes; [done | lia | lia | intros y Hy; apply Hst; lia].
Qed.

End faults.

(** ** Lemmas: the loader *)

Section loader.
Context (kmem : mem) (text data : Z) (pd : ptr) (r : nat).
Context (Hpd : pd <> 0) (Htext : 0xE0000000 <= text).

Definition phdr_pages (U : gset Z) (ph : elf_phdr) : Prop :=
  p_type ph = PT_LOAD -> forall y, p_vaddr ph <= y < p_vaddr ph + p_filesz ph -> y / 0x1000 ∈ U.

Definition new_maps (s : kstate) (d : page_directory) (v n : Z) : gmap Z segment_map :=
  <[fresh_ptr (k_maps (k_st s)) := SegmentMap (fresh_ptr (k_segments (k_st s))) pd v n (mappedSegs d)]> (k_maps (k_st s)).
Definition new_segs (s : kstate) (w v n : Z) : gmap Z segment :=
  <[fresh_ptr (k_segments (k_st s)) := Segment (simple_kind (SimpleSeg w v n)) 1]> (k_segments (k_st s)).

Lemma run_map_simple s d T b mm v n w (k : ptr -> M kstate unit) :
  let x := fresh_ptr (k_maps (k_st s)) in
  (g ← simpleseg_make v n w; y ← seg_map g pd 0; k y) (view s pd d T b mm)
  = k x (view (with_segs (new_maps s d v n) (new_segs s w v n) s) pd (set_mappedSegs x d) T b mm).
Proof.
  intros x. assert (Hg : fresh_ptr (k_segments (k_st s)) <> 0) by (pose proof (fresh_ptr_pos (k_segments (k_st s))); lia).
  assert (Hx : x <> 0) by (pose proof (fresh_ptr_pos (k_maps (k_st s))); unfold x; lia).
  assert (E : (g ← simpleseg_make v n w; seg_map g pd 0) (view s pd d T b mm)
    = Ok (x, view (with_segs (new_maps s d v n) (new_segs s w v n) s) pd (set_mappedSegs x d) T b mm)).
  { apply wp_eq_Ok. unfold simpleseg_make, view, seg_map. ksteps. unfold seg_op_map; cbn [seg_data].
    unfold simpleseg_map, new_map. ksteps. fold x. rewrite (proj2 (Z.eqb_neq _ _) Hx). ksteps.
    unfold set_mappings; cbn [mappings seg_data]. by rewrite !insert_insert_eq. }
  unfold mbind, M_bind in *. destruct (simpleseg_make v n w _) as [[g s1]|f]; [by rewrite E | done].
Qed.

Lemma space_with_map s l d T b v n w : space s pd l d T b ->
  space (with_segs (new_maps s d v n) (new_segs s w v n) s) pd (fresh_ptr (k_maps (k_st s)) :: l)
    (set_mappedSegs (fresh_ptr (k_maps (k_st s))) d) T b.
Proof.
  intros W. destruct W as [W1 W2 W3 W4 W5]. set (x := fresh_ptr (k_maps (k_st s))).
  pose proof (fresh_ptr_pos (k_segments (k_st s))). pose proof (fresh_ptr_pos (k_maps (k_st s))).
  pose proof (fresh_ptr_None (k_segments (k_st s))) as Hnone.
  assert (Hx : x ∉ l) by apply (linked_fresh _ _ _ _ W3 (fresh_ptr_None _)).
  split; [exact W1 | exact W2 | | | done].
  - split; [done|]. split; [unfold x; lia|]. eexists. split; [apply lookup_insert_eq|].
    by apply lseg_frame.
  - intros y [->|Hy]%elem_of_cons.
    + eexists. split; [apply lookup_insert_eq|]. split; [done|]. split; [cbn; lia|].
      eexists _, _. split; [apply lookup_insert_eq | done].
    + destruct (W4 y Hy) as (m & Em & Ep & Hs & g & ss & Eg & Ek). exists m.
      split; [cbn; unfold new_maps; rewrite lookup_insert_ne; [done | set_solver]|].
      split; [done|]. split; [done|]. exists g, ss. split; [|done].
      cbn. unfold new_segs. rewrite lookup_insert_ne; [done | congruence].
Qed.

Lemma loaded_nil s d T mm : loaded kmem data pd s d T mm [] s [] d T mm.
Proof.
  split; [apply grows_refl | done | done | | done | done | done | constructor].
  intros ph y Hph. by apply elem_of_nil in Hph.
Qed.

Lemma mapped_as_mono s s' x ph : k_maps (k_st s) ⊆ k_maps (k_st s') ->
  k_segments (k_st s) ⊆ k_segments (k_st s') -> mapped_as s pd x ph -> mapped_as s' pd x ph.
Proof.
  intros HM HS (m & Em & Ep & Ev & El & Es). exists m. split; [by eapply lookup_weaken|].
  do 3 (split; [done|]). by eapply lookup_weaken.
Qed.

Lemma loaded_app s s1 s2 d T mm d1 T1 mm1 d2 T2 mm2 ps1 ps2 xs1 xs2 : Forall (loadable data) ps1 ->
  loaded kmem data pd s d T mm ps1 s1 xs1 d1 T1 mm1 -> loaded kmem data pd s1 d1 T1 mm1 ps2 s2 xs2 d2 T2 mm2 ->
  loaded kmem data pd s d T mm (ps1 ++ ps2) s2 (xs2 ++ xs1) d2 T2 mm2.
Proof.
  intros HF [G1 B1 O1 P1 U1 M1 S1 N1] [G2 B2 O2 P2 U2 M2 S2 N2]. split.
  - by eapply grows_trans.
  - intros x. by rewrite foldl_app, B2, B1.
  - intros q Hq. by rewrite O2, O1.
  - unfold loads in *. intros ph y. rewrite filter_app. intros [Hp|Hp]%elem_of_app Hy; [|by apply P2 with ph].
    apply (gr_mapped _ _ _ _ G2); [|by apply P1 with ph].
    apply list_elem_of_filter in Hp as [Ht Hp]. rewrite Forall_forall in HF.
    destruct (HF ph Hp Ht) as (? & ? & ? & ? & ?). Z.div_mod_to_equations. lia.
  - intros p Hp Hno. rewrite U2, U1; [done | done | | done |];
      intros (ph & y & Hph & Hy & ->); apply Hno; exists ph, y; unfold loads in *; rewrite filter_app; set_solver.
  - by etrans.
  - by etrans.
  - unfold loads in *. rewrite filter_app, rev_app_distr. apply Forall2_app; [done|].
    eapply Forall2_impl; [exact N1|]. intros. by eapply mapped_as_mono.
Qed.

(** The new segment of a header, and the copy into it. *)
Definition part_w (ph : elf_phdr) : Z := if Z.land (p_flags ph) PF_W =? 0 then 0 else 1.
Definition mapped_part (s : kstate) (d : page_directory) (ph : elf_phdr) : kstate :=
  with_segs (new_maps s d (p_vaddr ph) (p_memsz ph)) (new_segs s (part_w ph) (p_vaddr ph) (p_memsz ph)) s.

Lemma copy_part ph U s l d T b : current_pagedir (k_g s) = pd -> user_pages U -> space s pd l d T b ->
  0 <= p_vaddr ph -> 0 <= p_filesz ph <= p_memsz ph -> p_vaddr ph + p_memsz ph < 0xE0000000 ->
  w32 (data + p_offset ph) + p_filesz ph <= W32 ->
  (forall y, p_vaddr ph <= y < p_vaddr ph + p_filesz ph -> y / 0x1000 ∈ U) ->
  let x := fresh_ptr (k_maps (k_st s)) in
  space (mapped_part s d ph) pd (x :: l) (set_mappedSegs x d) T b /\
  performs (mapped_part s d ph) pd (x :: l) r U
    (umemcpy kmem text (p_vaddr ph) (w32 (data + p_offset ph)) (p_filesz ph))
    (fun m m' => pasted kmem m m' (p_vaddr ph) (w32 (data + p_offset ph)) (p_filesz ph))
    (fun y => p_vaddr ph <= y < p_vaddr ph + p_filesz ph).
Proof.
  intros Hcur HU W Hv Hms Hlim Hsrc HP x. set (s' := mapped_part s d ph).
  assert (W' : space s' pd (x :: l) (set_mappedSegs x d) T b) by by apply space_with_map.
  split; [done|]. apply performs_memcpy; try done; [lia | apply w32_range |].
  intros y Hy. split; [|split; [lia | by apply HP]].
  destruct (sp_maps _ _ _ _ _ _ W' x) as (m & Hsm); [by left|]. exists x, m. split; [by left|].
  split; [done|]. destruct Hsm as (Em & _).
  assert (Hm : k_maps (k_st s') !! x = Some (SegmentMap (fresh_ptr (k_segments (k_st s))) pd
             (p_vaddr ph) (p_memsz ph) (mappedSegs d))) by apply lookup_insert_eq.
  rewrite Hm in Em. injection Em as <-. unfold covers; cbn. rewrite w32_small by (unfold u32; lia).
  apply andb_true_iff. rewrite Z.leb_le, Z.ltb_lt. lia.
Qed.

(** One header. *)
Lemma load_phdr_ok ph U s l d T b mm : current_pagedir (k_g s) = pd -> user_pages U -> space s pd l d T b ->
  free_count b (need d T U + r) -> loadable data ph -> phdr_pages U ph ->
  exists M S xs d' T' b' mm', let s' := with_segs M S s in
    load_phdr kmem text pd data ph (view s pd d T b mm) = Ok (tt, view s' pd d' T' b' mm') /\
    space s' pd (xs ++ l) d' T' b' /\ free_count b' (need d' T' U + r) /\
    loaded kmem data pd s d T mm [ph] s' xs d' T' mm'.
Proof.
  intros Hcur HU W Hf Hld HP. unfold load_phdr. destruct (Z.eqb_spec (p_type ph) PT_LOAD) as [Ht|Ht].
  - destruct (Hld Ht) as (Hv & Hfs & Hms & Hlim & Hsrc). cbn [when].
    destruct (copy_part ph U s l d T b) as (W' & Hcopy); try done; [lia | by apply HP |].
    destruct (Hcopy _ _ _ mm W' Hf) as (d1 & T1 & b1 & mm1 & E & (W1 & F1 & G1) & HR & O & P & N).
    set (x := fresh_ptr (k_maps (k_st s))) in *. set (s' := mapped_part s d ph) in *.
    exists (new_maps s d (p_vaddr ph) (p_memsz ph)), (new_segs s (part_w ph) (p_vaddr ph) (p_memsz ph)), [x], d1, T1, b1, mm1.
    cbv zeta. fold (mapped_part s d ph) s'. split; [|split; [done | split; [done|]]].
    + rewrite run_map_simple. fold x (part_w ph) (mapped_part s d ph) s'. rewrite (bind_Ok _ _ _ _ _ E).
      by rewrite Hms, Z.ltb_irrefl.
    + split.
      * destruct G1 as [G1 G2]. split; [exact G1 | exact G2].
      * intros y. cbn [foldl]. unfold image_byte. rewrite Ht. cbn [Z.eqb Pos.eqb PT_LOAD andb]. apply HR.
      * exact O.
      * unfold loads. intros ph' y. rewrite filter_cons_True by done. rewrite filter_nil.
        intros ->%list_elem_of_singleton. apply P.
      * intros p Hp Hno. apply (N p Hp). intros (y & Hy & ->). apply Hno. exists ph, y.
        unfold loads. rewrite filter_cons_True by done. split; [by left | done].
      * apply insert_subseteq, fresh_ptr_None.
      * apply insert_subseteq, fresh_ptr_None.
      * unfold loads. rewrite filter_cons_True by done. rewrite filter_nil. cbn [rev app].
        constructor; [|constructor]. eexists. split; [apply lookup_insert_eq|]. do 3 (split; [done|]). apply lookup_insert_eq.
  - exists (k_maps (k_st s)), (k_segments (k_st s)), [], d, T, b, mm. cbv zeta.
    assert (with_segs (k_maps (k_st s)) (k_segments (k_st s)) s = s) as -> by (by destruct s as [[] ?]).
    split; [done|]. split; [done|]. split; [done|]. split.
    + apply grows_refl.
    + intros y. cbn [foldl]. unfold image_byte. by rewrite (proj2 (Z.eqb_neq _ _) Ht).
    + done.
    + unfold loads. intros ph' y. rewrite filter_cons_False by done. intros Hp. by apply elem_of_nil in Hp.
    + done.
    + done.
    + done.
    + unfold loads. rewrite filter_cons_False by done. constructor.
Qed.

Lemma load_phdrs_ok U n : user_pages U -> forall a s l d T b mm, current_pagedir (k_g s) = pd ->
  space s pd l d T b -> free_count b (need d T U + r) ->
  Forall (loadable data) (rd_phdrs kmem n a) -> Forall (phdr_pages U) (rd_phdrs kmem n a) ->
  exists M S xs d' T' b' mm', let s' := with_segs M S s in
    load_phdrs kmem text pd data n a (view s pd d T b mm) = Ok (tt, view s' pd d' T' b' mm') /\
    space s' pd (xs ++ l) d' T' b' /\ free_count b' (need d' T' U + r) /\
    loaded kmem data pd s d T mm (rd_phdrs kmem n a) s' xs d' T' mm'.
Proof.
  intros HU. induction n as [|n IH]; intros a s l d T b mm Hcur W Hf HL HP.
  - exists (k_maps (k_st s)), (k_segments (k_st s)), [], d, T, b, mm. cbv zeta.
    assert (with_segs (k_maps (k_st s)) (k_segments (k_st s)) s = s) as -> by (by destruct s as [[] ?]).
    split; [done|]. split; [done|]. split; [done | apply loaded_nil].
  - cbn [rd_phdrs] in HL, HP. apply Forall_cons in HL as [HL1 HL], HP as [HP1 HP].
    destruct (load_phdr_ok _ U s l d T b mm Hcur HU W Hf HL1 HP1)
      as (M1 & S1 & xs1 & d1 & T1 & b1 & mm1 & E1 & W1 & F1 & L1).
    destruct (IH (a + 32) (with_segs M1 S1 s) (xs1 ++ l) d1 T1 b1 mm1)
      as (M2 & S2 & xs2 & d2 & T2 & b2 & mm2 & E2 & W2 & F2 & L2); try done.
    exists M2, S2, (xs2 ++ xs1), d2, T2, b2, mm2. cbv zeta.
    split; [|split; [by rewrite <- app_assoc | split; [done|]]].
    + cbn [load_phdrs]. rewrite (bind_Ok _ _ _ _ _ E1). exact E2.
    + cbn [rd_phdrs]. apply (loaded_app _ _ _ _ _ _ _ _ _ _ _ _ [_] _ xs1 xs2) with (2 := L1); [by constructor | exact L2].
Qed.

End loader.

Lemma space_same s s' pd l d T b : k_maps (k_st s') = k_maps (k_st s) ->
  k_segments (k_st s') = k_segments (k_st s) -> space s pd l d T b -> space s' pd l d T b.
Proof.
  intros E1 E2 [W1 W2 W3 W4 W5]. split; rewrite ?E1; try done.
  intros x Hx. destruct (W4 x Hx) as (m & Hm). exists m. unfold simple_map. by rewrite E1, E2.
Qed.

(** [elf_load], with [r] frames left over; the state it ends in. *)
Lemma elf_load_ok kmem text data proc p pd d l U r s :
  let phs := rd_phdrs kmem (Z.to_nat (e_phnum (rd_ehdr kmem data))) (data + e_phoff (rd_ehdr kmem data)) in
  elf_check kmem data = 0 -> 0xE0000000 <= text ->
  proc <> 0 -> k_processes (k_st s) !! proc = Some p -> p_pagedir p = pd -> pd <> 0 ->
  k_pagedirs (k_st s) !! pd = Some d ->
  current_pagedir (k_g s) <> 0 -> is_Some (k_pagedirs (k_st s) !! current_pagedir (k_g s)) ->
  0 <= if_locks (k_g s) < 0xFFFFFFFF ->
  space s pd l d (k_tables (k_st s)) (frames (k_g s)) ->
  Forall (loadable data) phs -> Forall (phdr_pages U) phs -> user_pages U ->
  free_count (frames (k_g s)) (need d (k_tables (k_st s)) U + r) ->
  exists M S xs d' T' b' mm', let s1 := with_segs M S s in let s' := view s1 pd d' T' b' mm' in
    elf_load kmem text data proc s = Ok (e_entry (rd_ehdr kmem data), s') /\
    space s1 pd (xs ++ l) d' T' b' /\ free_count b' r /\
    loaded kmem data pd s d (k_tables (k_st s)) (umem (k_g s)) phs s1 xs d' T' mm'.
Proof.
  intros phs Hck Htext Hproc Ep Epd Hpd Ed Hr (dr & Er) Hlk W HL HP HU Hf.
  set (s1 := KState (k_st s) (set_current_pagedir pd (set_if_locks (if_locks (k_g s) + 1) (k_g s)))).
  assert (W1 : space s1 pd l d (k_tables (k_st s)) (frames (k_g s))) by by apply (space_same s).
  destruct (load_phdrs_ok kmem text data pd r Hpd Htext U _ HU _ s1 l d _ _ (umem (k_g s)) eq_refl W1 Hf HL HP)
    as (M & S & xs & d' & T' & b' & mm' & E & W' & F' & L).
  assert (Ev : view s1 pd d (k_tables (k_st s)) (frames (k_g s)) (umem (k_g s)) = s1).
  { unfold view, s1; cbn. rewrite insert_id by done. by destruct s as [[] []]. }
  rewrite Ev in E. exists M, S, xs, d', T', b', mm'. cbv zeta.
  split; [|split; [by apply (space_same (with_segs M S s1))|split; [eapply free_count_le, F'; lia|]]].
  - apply wp_eq_Ok. unfold elf_load. rewrite Hck. cbn [Z.eqb negb]. unfold cli, sti, pagedir_switch. ksteps.
    rewrite w32_small by (unfold u32; lia). rewrite Epd. eapply wp_load; [done | exact Ed|]. ksteps.
    eapply wp_eq; [exact E|]. ksteps. set (s2 := view (with_segs M S s1) pd d' T' b' mm').
    assert (exists dr', k_pagedirs (k_st s2) !! current_pagedir (k_g s) = Some dr') as (dr' & Er').
    { cbn. destruct (decide (current_pagedir (k_g s) = pd)) as [->|];
        [rewrite lookup_insert_eq | rewrite lookup_insert_ne by done]; eauto. }
    eapply wp_load; [done | exact Er' |]. ksteps. unfold s2, view, s1; cbn.
    rewrite (proj2 (Z.ltb_lt _ _)) by lia. cbn. rewrite Z.add_simpl_r. by destruct (k_g s).
  - destruct L as [L1 L2 L3 L4 L5 L6 L7 L8]. by split.
Qed.

(** A store where nothing is mapped, before there are threads: the fault
    is not handled and the kernel stops. *)
Lemma touch_panics s pd l text a d T b mm : pd <> 0 -> current_pagedir (k_g s) = pd ->
  current_thread (k_g s) = 0 -> space s pd l d T b -> 0 <= a < 0xE0000000 ->
  (forall x m, x ∈ l -> k_maps (k_st s) !! x = Some m -> covers a m = false) ->
  mapped d T (a / 0x1000) = false -> touch text a (view s pd d T b mm) = Fault Panic.
Proof.
  intros Hpd Hcur Hth W Ha Hno Hm. unfold touch. rewrite (proj2 (Z.leb_gt _ _)) by lia. rewrite loop_S.
  apply bind_Fault. pose proof (page_present_ok s pd l Hpd Hcur a d T b mm W Ha) as E. rewrite Hm in E.
  rewrite (bind_Ok _ _ _ _ _ E). apply bind_Fault. unfold idt_isrHandler. cbn [Z.eqb Pos.eqb].
  apply run_bind. apply wp_bind. unfold paging_fault.
  apply wp_bind, wp_getg. change (current_pagedir (k_g (view s pd d T b mm))) with (current_pagedir (k_g s)).
  rewrite Hcur. eapply wp_bind, wp_load; [done | apply view_dir |].
  eapply wp_bind, wp_eq; [eapply walk_spec; apply W|].
  change (st_get (view s pd d T b mm)) with (k_maps (k_st s)). rewrite (first_ptr_none _ _ l Hno). cbn [Z.eqb].
  wp_steps. cbn [Z.eqb negb]. apply run_bind. unfold tasking_handleException.
  apply wp_bind, wp_getg. change (current_thread (k_g (view s pd d T b mm))) with (current_thread (k_g s)).
  rewrite Hth. cbn [Z.eqb]. by wp_steps.
Qed.

(** ** A sample: a file with one loadable part of six bytes, for 0x400000 *)

Definition sample_file (memsz : Z) : mem := fun a =>
  default 0
    (([0x7F; 69; 76; 70] ++ replicate 20 0 ++ [2; 0; 0x40; 0; 52; 0; 0; 0] ++ replicate 12 0 ++ [1; 0] ++ replicate 6 0 ++
      [1; 0; 0; 0; 84; 0; 0; 0; 0; 0; 0x40; 0; 0; 0; 0; 0; 6; 0; 0; 0; memsz mod 256; memsz / 256; 0; 0; 5; 0; 0; 0; 0; 0x10; 0; 0] ++
      [11; 22; 33; 44; 55; 66]) !! Z.to_nat (a - 0xE0100000)).

Definition sample_load : kstate :=
  let s := boot_state 2 0 in
  KState
    (set_k_pagedirs {[ 10 := PageDirectory ∅ ∅ 0 0; 11 := PageDirectory ∅ ∅ 0 0 ]}
      (set_k_processes {[ 1 := Process 1 0 1 0 0 11 0xDF000000 0 0 0 0 0 ]} (k_st s)))
    (set_kernel_pagedir 10 (set_current_pagedir 10 (set_processes 1 (k_g s)))).

Definition sample_loading : kstate :=
  KState (k_st sample_load) (set_current_pagedir 11 (k_g sample_load)).

Example elf_load_sample :
  match elf_load (sample_file 6) 0xE0000000 0xE0100000 1 sample_load with
  | Ok (e, s) => (e, map (fun x => rd8 (shown 11 (umem (k_g s))) (0x400000 + Z.of_nat x)) (seq 0 7)) = (0x400002, [11; 22; 33; 44; 55; 66; 0])
  | Fault _ => False
  end.
Proof. vm_compute. reflexivity. Qed.

Example elf_exec_sample :
  match elf_exec (sample_file 6) 0xE0000000 0xE0100000 PL_DRIVER sample_load with
  | Ok (p, s) =>
      (p, current_pagedir (k_g s), rd8 (shown 12 (umem (k_g s))) 0x400005,
       (fun t => (t_process t, t_state t)) <$> k_threads (k_st s) !! 1)
      = (2, 10, 66, Some (2, TS_RUNNING))
  | Fault _ => False
  end.
Proof. vm_compute. reflexivity. Qed.

Lemma sample_load_space :
  space sample_load 11 [] (PageDirectory ∅ ∅ 0 0) (k_tables (k_st sample_load)) (frames (k_g sample_load)).
Proof.
  split; [intros i _; left; unfold dir_table, dir_phys; cbn; by rewrite !lookup_empty | | done | |].
  - intros i j _ _ _. unfold dir_table; cbn. by rewrite lookup_empty.
  - intros x Hx. by apply elem_of_nil in Hx.
  - split; cbn; [unfold u32; lia | done | repeat constructor; done].
Qed.

Lemma sample_load_frames :
  free_count (frames (k_g sample_load)) (need (PageDirectory ∅ ∅ 0 0) (k_tables (k_st sample_load)) {[0x400]}).
Proof.
  exists [5; 6]. split; [apply (bool_decide_unpack _); vm_compute; exact I|].
  split; [vm_compute; reflexivity|]. intros k Hk.
  repeat (apply elem_of_cons in Hk as [->|Hk];
    [split; [vm_compute; split; [discriminate | reflexivity] | reflexivity]|]).
  by apply elem_of_nil in Hk.
Qed.

Lemma sample_pages : user_pages {[0x400]}.
Proof. intros p ->%elem_of_singleton. lia. Qed.


Lemma sample_phdrs :
  rd_phdrs (sample_file 6) (Z.to_nat (e_phnum (rd_ehdr (sample_file 6) 0xE0100000)))
    (0xE0100000 + e_phoff (rd_ehdr (sample_file 6) 0xE0100000)) = [Phdr 1 84 0x400000 0 6 6 5 0x1000].
Proof. vm_compute. reflexivity. Qed.

(** ** Theorems *)

(** C7. Loading a program.  The file is an ELF file whose loadable parts lie
    in the user half and have as many bytes in the file as in memory; there
    are frames for the pages they touch that are not there yet.  Then
    [elf_load] ends with the entry point: each byte of the process' memory
    is the byte of the last part that covers it, or what it was; the parts
    are mapped as segments with their rights, and their pages are present;
    other pages, other directories and other processes' memory are as
    before, and so are the current directory and the interrupt lock. *)
Theorem elf_load_loads kmem text data proc p pd d l U s :
  let phs := rd_phdrs kmem (Z.to_nat (e_phnum (rd_ehdr kmem data))) (data + e_phoff (rd_ehdr kmem data)) in
  elf_check kmem data = 0 -> 0xE0000000 <= text ->
  proc <> 0 -> k_processes (k_st s) !! proc = Some p -> p_pagedir p = pd -> pd <> 0 ->
  k_pagedirs (k_st s) !! pd = Some d ->
  current_pagedir (k_g s) <> 0 -> is_Some (k_pagedirs (k_st s) !! current_pagedir (k_g s)) ->
  0 <= if_locks (k_g s) < 0xFFFFFFFF ->
  space s pd l d (k_tables (k_st s)) (frames (k_g s)) ->
  Forall (loadable data) phs -> Forall (phdr_pages U) phs -> user_pages U ->
  free_count (frames (k_g s)) (need d (k_tables (k_st s)) U) ->
  exists s' xs d', elf_load kmem text data proc s = Ok (e_entry (rd_ehdr kmem data), s') /\
    current_pagedir (k_g s') = current_pagedir (k_g s) /\ if_locks (k_g s') = if_locks (k_g s) /\
    k_pagedirs (k_st s') = <[pd := d']> (k_pagedirs (k_st s)) /\
    space s' pd (xs ++ l) d' (k_tables (k_st s')) (frames (k_g s')) /\
    loaded kmem data pd s d (k_tables (k_st s)) (umem (k_g s)) phs s' xs d' (k_tables (k_st s')) (umem (k_g s')).
Proof.
  intros phs Hck Htext Hproc Ep Epd Hpd Ed Hr Hr' Hlk W HL HP HU Hf. rewrite <- (Nat.add_0_r (need _ _ _)) in Hf.
  destruct (elf_load_ok kmem text data proc p pd d l U 0 s) as (M & S & xs & d' & T' & b' & mm' & E & W' & _ & L); try done.
  exists (view (with_segs M S s) pd d' T' b' mm'), xs, d'. split; [exact E|]. do 3 (split; [done|]).
  split; [by apply (space_same (with_segs M S s))|]. destruct L as [L1 L2 L3 L4 L5 L6 L7 L8]. by split.
Qed.

Lemma elf_load_loads_witness :
  exists s' xs d', elf_load (sample_file 6) 0xE0000000 0xE0100000 1 sample_load = Ok (0x400002, s') /\
    current_pagedir (k_g s') = 10 /\ if_locks (k_g s') = 1 /\
    k_pagedirs (k_st s') = <[11 := d']> (k_pagedirs (k_st sample_load)) /\
    space s' 11 (xs ++ []) d' (k_tables (k_st s')) (frames (k_g s')) /\
    loaded (sample_file 6) 0xE0100000 11 sample_load (PageDirectory ∅ ∅ 0 0) ∅ ∅
      [Phdr 1 84 0x400000 0 6 6 5 0x1000] s' xs d' (k_tables (k_st s')) (umem (k_g s')).
Proof.
  apply (elf_load_loads (sample_file 6) 0xE0000000 0xE0100000 1 (Process 1 0 1 0 0 11 0xDF000000 0 0 0 0 0)
    11 (PageDirectory ∅ ∅ 0 0) [] {[0x400]} sample_load); try reflexivity; try done.
  - apply sample_load_space.
  - rewrite sample_phdrs. constructor; [|constructor]. intros _. cbn. repeat split; (done || lia).
  - rewrite sample_phdrs. constructor; [|constructor]. intros _ y Hy. cbn in Hy. apply elem_of_singleton.
    Z.div_mod_to_equations. lia.
  - apply sample_pages.
  - apply sample_load_frames.
Defined.

(** C39. A part with uninitialised data, p_memsz above p_filesz: the loader
    clears memory from the end of the part instead of from the end of its
    bytes.  When that end is in a page that is not there and no segment
    covers it, the kernel stops. *)
Theorem elf_bss_panics kmem text data pd d l T b mm U s ph :
  0xE0000000 <= text -> pd <> 0 -> current_pagedir (k_g s) = pd -> current_thread (k_g s) = 0 ->
  space s pd l d T b -> user_pages U -> free_count b (need d T U) ->
  p_type ph = PT_LOAD -> 0 <= p_vaddr ph -> 0 <= p_filesz ph < p_memsz ph ->
  p_vaddr ph + p_memsz ph < 0xE0000000 -> w32 (data + p_offset ph) + p_filesz ph <= W32 ->
  (forall y, p_vaddr ph <= y < p_vaddr ph + p_filesz ph -> y / 0x1000 ∈ U) ->
  (forall x m, x ∈ l -> k_maps (k_st s) !! x = Some m -> covers (p_vaddr ph + p_memsz ph) m = false) ->
  mapped d T ((p_vaddr ph + p_memsz ph) / 0x1000) = false ->
  (forall y, p_vaddr ph <= y < p_vaddr ph + p_filesz ph -> y / 0x1000 <> (p_vaddr ph + p_memsz ph) / 0x1000) ->
  load_phdr kmem text pd data ph (view s pd d T b mm) = Fault Panic.
Proof.
  intros Htext Hpd Hcur Hth W HU Hf Ht Hv Hms Hlim Hsrc HP Hno Hm Hpg. set (a := p_vaddr ph + p_memsz ph) in *.
  rewrite <- (Nat.add_0_r (need _ _ _)) in Hf.
  destruct (copy_part kmem text data pd 0 Hpd Htext ph U s l d T b) as (W' & Hcopy); try done; [lia|].
  destruct (Hcopy _ _ _ mm W' Hf) as (d1 & T1 & b1 & mm1 & E & (W1 & F1 & G1) & HR & O & P & N).
  assert (Hend : touch text a (view (mapped_part pd s d ph) pd d1 T1 b1 mm1) = Fault Panic).
  { apply (touch_panics (mapped_part pd s d ph) pd (fresh_ptr (k_maps (k_st s)) :: l)); try done; [lia | |].
    - intros x m [->|Hx]%elem_of_cons Em.
      + assert (m = SegmentMap (fresh_ptr (k_segments (k_st s))) pd (p_vaddr ph) (p_memsz ph) (mappedSegs d)) as ->.
        { cbn in Em. unfold new_maps in Em. rewrite lookup_insert_eq in Em. congruence. }
        unfold covers; cbn. rewrite w32_small by (unfold u32; lia). fold a. by rewrite Z.ltb_irrefl, andb_false_r.
      + apply (Hno x m Hx). cbn in Em. unfold new_maps in Em.
        assert (x <> fresh_ptr (k_maps (k_st s))); [|by rewrite lookup_insert_ne in Em].
        intros ->. destruct (sp_maps _ _ _ _ _ _ W _ Hx) as (m' & Em' & _).
        by rewrite fresh_ptr_None in Em'.
    - rewrite N; [exact Hm | Z.div_mod_to_equations; lia |]. intros (y & Hy & Ey). by apply (Hpg y Hy). }
  unfold load_phdr. rewrite Ht. cbn [Z.eqb Pos.eqb PT_LOAD when].
  rewrite run_map_simple by done. fold (part_w ph) (mapped_part pd s d ph). rewrite (bind_Ok _ _ _ _ _ E).
  rewrite (proj2 (Z.ltb_lt _ _)) by lia. cbn [when].
  destruct (Z.to_nat (p_memsz ph - p_filesz ph)) as [|n] eqn:En; [lia|]. cbn [umemset].
  apply bind_Fault. fold a. rewrite w32_small by (unfold u32; lia). by apply bind_Fault.
Qed.

Lemma elf_bss_panics_witness :
  load_phdr (sample_file 0) 0xE0000000 11 0xE0100000 (Phdr 1 84 0x400000 0 6 0x2000 6 0x1000)
    (view sample_loading 11 (PageDirectory ∅ ∅ 0 0) ∅ (frames (k_g sample_load)) ∅) = Fault Panic.
Proof.
  apply (elf_bss_panics (sample_file 0) 0xE0000000 0xE0100000 11 (PageDirectory ∅ ∅ 0 0) [] ∅ (frames (k_g sample_load)) ∅
    {[0x400]}); try reflexivity; try done; try lia.
  - apply (space_same sample_load); [done | done | apply sample_load_space].
  - apply sample_pages.
  - apply sample_load_frames.
  - intros y Hy. apply elem_of_singleton. change (0x400000 <= y < 0x400000 + 6) in Hy. Z.div_mod_to_equations. lia.
  - intros y Hy E. change (0x400000 <= y < 0x400000 + 6) in Hy. change (y / 0x1000 = 0x402) in E.
    Z.div_mod_to_equations. lia.
Defined.
