(* ===== verification/Entry.v ===== *)
(** * The first run of a thread

    [thread_run] of [src/kernel/task/task.c], where a new thread starts: it
    switches to the address space of its process, and for a user process
    lays out the user stack and leaves the kernel through a made-up
    interrupt frame.  The page of that stack is not there yet: the stores
    raise page faults ([Elf.ustore32]).

    [first_run] is the end of [tasking_switch] for a new thread: the saved
    [esp] is where [thread_new] pushed the arguments. *)

From S2P Require Import Prelude Memory Bitset Kernel Paging Segments Sched Timer Objects.
From S2P Require Import Tasking Requests System Creation Elf.

(** How [thread_run] leaves: by a call in the kernel, interrupts on, or by
    [iret] to a frame of five words, with [ds] in the data segment
    registers. *)
Inductive entry :=
| ToKernel (entry_point data : Z)
| ToUser (eip cs eflags esp ss ds : Z).

Section entry.
Context (text eflags : Z).

(** [text] is the address of the storing instructions, [eflags] what
    [pushf] reads. *)
Definition thread_run (thread entry_point data : Z) : M kstate entry :=
  t ← load (A := Kernel.thread) thread;
  p ← load (A := process) (t_process t);
  pagedir_switch (p_pagedir p);;
  if PL_SERVICE <=? privilege p then
    m ← load (A := segment_map) (userStack_seg t);
    let stack := w32 (sm_start m + sm_len m) in
    ustore32 text (w32 (stack - 4)) data;;
    ustore32 text (w32 (stack - 8)) 0;;
    mret (ToUser entry_point 0x1B (Z.lor eflags 0x200) (w32 (stack - 8)) 0x23 0x23)
  else mret (ToKernel entry_point data).

(** The jump to the saved [eip] of a thread that has not run: its stack
    holds a return address and the arguments of [thread_run]. *)
Definition first_run (t : ptr) : M kstate entry :=
  th ← load (A := Kernel.thread) t;
  k ← load (A := kstack) (kernelStack_addr th);
  run ← getg thread_run_addr;
  if (t_eip th =? run) && (t_esp th =? w32 (kernelStack_addr th + kernelStack_size th - 4 * Z.of_nat (length (ks_words k))))
  then match ks_words k with
       | [data; entry_point; thread; _] => thread_run thread entry_point data
       | _ => fail (BadAccess (t_esp th))
       end
  else fail (BadAccess (t_eip th)).

End entry.

(** ** Lemmas *)

(** Two words pushed from [a + 8] down. *)
Lemma performs_push s pd l text r U a v w : pd <> 0 -> current_pagedir (k_g s) = pd -> 0xE0000000 <= text ->
  user_pages U -> (forall x, a <= x < a + 8 -> storable s pd l U x) ->
  performs s pd l r U (ustore32 text (a + 4) v;; ustore32 text a w)
    (fun m m' => m' = wr32 (wr32 m (a + 4) v) a w) (fun x => a <= x < a + 8).
Proof.
  intros Hpd Hcur Htext HU Hs.
  eapply performs_bind with (V1 := fun x => a + 4 <= x < a + 4 + 4) (V2 := fun x => a <= x < a + 4).
  - apply performs_store32; try done; apply Hs; lia.
  - apply performs_store32; try done; apply Hs; lia.
  - by intros m m1 m2 -> ->.
  - intros x. lia.
  - intros x Hx. apply (Hs x). lia.
Qed.

Section user_entry.
Context (text eflags : Z) (Htext : 0xE0000000 <= text).

(** The pages of the two words that [thread_run] pushes below [top]. *)
Definition entry_pages (top : Z) : gset Z := {[ (top - 8) / 0x1000; (top - 1) / 0x1000 ]}.

Lemma entry_user_pages top : 8 <= top <= 0xE0000000 -> user_pages (entry_pages top).
Proof. intros Htop p Hp. unfold entry_pages in Hp. set_unfold in Hp. destruct Hp as [-> | ->]; Z.div_mod_to_equations; lia. Qed.

(** [thread_run] for a user process whose thread has the stack [m]. *)
Lemma thread_run_user t th p pd d l m entry_point data r s : t <> 0 -> k_threads (k_st s) !! t = Some th ->
  t_process th <> 0 -> k_processes (k_st s) !! t_process th = Some p -> PL_SERVICE <= privilege p ->
  p_pagedir p = pd -> pd <> 0 -> k_pagedirs (k_st s) !! pd = Some d ->
  space s pd l d (k_tables (k_st s)) (frames (k_g s)) ->
  userStack_seg th ∈ l -> k_maps (k_st s) !! userStack_seg th = Some m ->
  let top := sm_start m + sm_len m in
  0 <= sm_start m -> 8 <= sm_len m -> top <= 0xE0000000 -> u32 data ->
  free_count (frames (k_g s)) (need d (k_tables (k_st s)) (entry_pages top) + r) ->
  exists d' T' b' mm', let s1 := KState (k_st s) (set_current_pagedir pd (k_g s)) in let s' := view s1 pd d' T' b' mm' in
    thread_run text eflags t entry_point data s
      = Ok (ToUser entry_point 0x1B (Z.lor eflags 0x200) (top - 8) 0x23 0x23, s') /\
    rd32 (shown pd mm') (top - 8) = 0 /\ rd32 (shown pd mm') (top - 4) = data /\
    (forall x, x < top - 8 \/ top <= x -> rd8 (shown pd mm') x = rd8 (shown pd (umem (k_g s))) x) /\
    (forall q, q <> pd -> mm' !! q = umem (k_g s) !! q) /\
    space s' pd l d' T' b' /\ free_count b' r.
Proof.
  intros Ht Et Hpr Ep Hpl Epd Hpd Ed W Hu Em top Hsb Hlen Htop Hdata Hf.
  set (s1 := KState (k_st s) (set_current_pagedir pd (k_g s))).
  assert (W1 : space s1 pd l d (k_tables (k_st s)) (frames (k_g s))) by by apply (space_same s).
  assert (HU : user_pages (entry_pages top)) by (apply entry_user_pages; lia).
  assert (Hs : forall x, top - 8 <= x < top - 8 + 8 -> storable s1 pd l (entry_pages top) x).
  { intros x Hx. split; [|split; [lia | unfold entry_pages; set_unfold; Z.div_mod_to_equations; lia]].
    exists (userStack_seg th), m. split; [done|]. split; [|unfold covers; rewrite andb_true_iff, Z.leb_le, Z.ltb_lt].
    - destruct (sp_maps _ _ _ _ _ _ W1 _ Hu) as (m' & Hm'). pose proof Hm' as (Em' & _). cbn in Em'. by replace m with m' by congruence.
    - rewrite w32_small by (unfold u32; lia). lia. }
  destruct (performs_push s1 pd l text r (entry_pages top) (top - 8) data 0 Hpd eq_refl Htext HU Hs
    d (k_tables (k_st s)) (frames (k_g s)) (umem (k_g s)) W1 Hf)
    as (d' & T' & b' & mm' & E & (W' & F' & _) & Hm & Ho & _).
  assert (Ev : view s1 pd d (k_tables (k_st s)) (frames (k_g s)) (umem (k_g s)) = s1).
  { unfold view, s1; cbn. rewrite insert_id by done. by destruct s as [[] []]. }
  rewrite Ev in E. exists d', T', b', mm'. cbv zeta. replace (top - 8 + 4) with (top - 4) in * by lia.
  split; [|rewrite Hm; split; [|split; [|split; [|split; [done|split; [by apply (space_same s1) | eapply free_count_le, F'; lia]]]]]].
  - apply wp_eq_Ok. unfold thread_run, pagedir_switch. ksteps. rewrite Epd. ksteps. fold s1.
    rewrite (proj2 (Z.leb_le _ _) Hpl). ksteps. 
    destruct (lseg_in_dom _ _ _ _ _ (sp_list _ _ _ _ _ _ W) Hu) as (Hu0 & _).
    eapply wp_load; [done | exact Em|]. fold top. rewrite (w32_small top) by (unfold u32; lia).
    rewrite (w32_small (top - 4)), (w32_small (top - 8)) by (unfold u32; lia).
    apply bind_inv in E as ([] & s2 & Ea & Eb). apply wp_bind. eapply wp_eq; [exact Ea|]. apply wp_bind.
    by eapply wp_eq.
  - by apply rd32_wr32_eq.
  - rewrite rd32_wr32_ne by lia. by apply rd32_wr32_eq.
  - intros x Hx. unfold rd8. by rewrite !wr32_ne by lia.
Qed.

(** [first_run] of a thread as [thread_new] leaves it. *)
Lemma first_run_starts s t pr k entry_point data th : t <> 0 -> starts_at s t pr k entry_point data th ->
  first_run text eflags t s = thread_run text eflags t entry_point data s.
Proof.
  intros Ht (E1 & E2 & E3 & E4 & E5 & E6 & E7 & E8 & E9 & Hk).
  unfold first_run. rewrite (bind_Ok _ _ _ th s) by (by apply load_Ok).
  rewrite E4, (bind_Ok _ _ _ (KStack [data; entry_point; t; 0]) s) by (by apply load_Ok).
  rewrite (bind_Ok _ _ _ (thread_run_addr (k_g s)) s) by done.
  cbn [ks_words length]. rewrite E8, Z.eqb_refl, E6, E5. replace (k + KSTACKSIZE - 4 * Z.of_nat 4) with (k + KSTACKSIZE - 16) by lia.
  by rewrite Z.eqb_refl.
Qed.

Lemma enters_ok proc entry_point data p pd d l ls qs r s : k_junk (k_g s) = 0 -> proc <> 0 ->
  k_processes (k_st s) !! proc = Some p -> PL_SERVICE <= privilege p <= PL_USER -> p_pagedir p = pd -> pd <> 0 ->
  k_pagedirs (k_st s) !! pd = Some d -> linked (k_threads (k_st s)) (threads p) ls -> queues_ok s qs ->
  idle_thread (k_g s) = 0 \/ is_Some (k_threads (k_st s) !! idle_thread (k_g s)) ->
  space s pd l d (k_tables (k_st s)) (frames (k_g s)) ->
  let top := stacksBottom p in USER_STACK_SIZE <= top <= 0xE0000000 -> u32 data ->
  free_count (frames (k_g s)) (need d (k_tables (k_st s)) (entry_pages top) + r) ->
  exists t s1 s2, thread_new proc entry_point data s = Ok (t, s1) /\
    first_run text eflags t s1 = Ok (ToUser entry_point 0x1B (Z.lor eflags 0x200) (top - 8) 0x23 0x23, s2) /\
    current_pagedir (k_g s2) = pd /\
    rd32 (shown pd (umem (k_g s2))) (top - 8) = 0 /\ rd32 (shown pd (umem (k_g s2))) (top - 4) = data /\
    (forall x, x < top - 8 \/ top <= x -> rd8 (shown pd (umem (k_g s2))) x = rd8 (shown pd (umem (k_g s))) x) /\
    (forall q, q <> pd -> umem (k_g s2) !! q = umem (k_g s) !! q) /\ free_count (frames (k_g s2)) r.
Proof.
  intros Hj Hp Ep Hpl Epd Hpd Ed Hl Wq Hi W top Htop Hdata Hf. subst pd.
  destruct (thread_new_ok proc entry_point data p d ls qs s) as (t & s1 & E & Y); try done;
    [unfold is_priority, PL_SERVICE, PL_USER in *; lia|].
  destruct Y as [Z1 Z2 (th & Zt & Zs) Z4 _ _ (p' & Zp & _ & Zpri & Zpd & _) _ _ _ _ _ Z11 Z12].
  unfold stack_made in Zs. rewrite (proj2 (Z.leb_le _ _)) in Zs by lia. destruct Zs as (Eu & Em & Eg & Ed1).
  assert (exists a b, k_g s1 = set_queue a (set_last b (k_g s))) as (qa & la & G1) by (by do 2 eexists). clear Z12.
  set (u := userStack_seg th) in *.
  rewrite w32_small in Em, Eg by (unfold u32, USER_STACK_SIZE in *; fold top; lia).
  assert (W1 : space s1 (p_pagedir p) (u :: l) (set_mappedSegs u d) (k_tables (k_st s1)) (frames (k_g s1))).
  { rewrite Z11, G1. cbn. rewrite Eu. apply (space_same (with_segs (new_maps (p_pagedir p) s d (top - USER_STACK_SIZE) USER_STACK_SIZE)
      (new_segs s 1 (top - USER_STACK_SIZE) USER_STACK_SIZE) s)); [by rewrite Em, Eu | by rewrite Eg |].
    by apply (space_with_map text). }
  pose proof (fresh_ptr_pos (k_threads (k_st s))). pose proof (fresh_ptr_pos (k_stacks (k_st s))).
  assert (Htn : t <> 0) by (rewrite Z1; lia).
  destruct Zt as (T1 & T2 & T3). assert (Zt : starts_at s1 t proc (fresh_ptr (k_stacks (k_st s))) entry_point data th) by by split.
  destruct (thread_run_user t th p' (p_pagedir p) (set_mappedSegs u d) (u :: l)
    (SegmentMap (fresh_ptr (k_segments (k_st s))) (p_pagedir p) (top - USER_STACK_SIZE) USER_STACK_SIZE (mappedSegs d))
    entry_point data r s1 Htn T1) as (d' & T' & b' & mm' & E2 & R1 & R2 & R3 & R4 & _ & R6);
    rewrite ?T2, ?Zpri, ?Zpd; try done.
  { lia. } { rewrite Ed1. apply lookup_insert_eq. } { by left. } { fold u. rewrite Em. apply lookup_insert_eq. }
  { cbn. lia. } { cbn. lia. }
  { cbn [sm_start sm_len]. replace (top - USER_STACK_SIZE + USER_STACK_SIZE) with top by lia.
    rewrite Z11, G1. exact Hf. }
  cbn [sm_start sm_len] in *. replace (top - USER_STACK_SIZE + USER_STACK_SIZE) with top in * by lia.
  exists t, s1, (view (KState (k_st s1) (set_current_pagedir (p_pagedir p) (k_g s1))) (p_pagedir p) d' T' b' mm').
  split; [done|]. split.
  { erewrite first_run_starts; [exact E2 | done | exact Zt]. }
  split; [done|]. split; [done|]. split; [done|]. split; [|split; [|done]].
  - intros x Hx. by rewrite R3, G1.
  - intros q Hq. rewrite G1 in R4. by apply R4.
Qed.
End user_entry.

(** ** A sample: a process of level 3 with no thread *)

Definition sample_user : kstate :=
  KState (set_k_processes {[ 1 := Process 1 0 3 0 0 11 0xDF000000 0 0 0 0 0 ]} (k_st sample_load)) (k_g sample_load).

Example first_run_sample :
  match (t ← thread_new 1 0x400000 7; first_run 0xE0000000 2 t) sample_user with
  | Ok (e, s) => (e, rd32 (shown 11 (umem (k_g s))) 0xDEFFFFFC, current_pagedir (k_g s))
                 = (ToUser 0x400000 0x1B 0x202 0xDEFFFFF8 0x23 0x23, 7, 11)
  | Fault _ => False
  end.
Proof. vm_compute. reflexivity. Qed.

Lemma sample_user_frames :
  free_count (frames (k_g sample_user)) (need (PageDirectory ∅ ∅ 0 0) ∅ (entry_pages 0xDF000000) + 0).
Proof.
  exists [5; 6]. split; [apply (bool_decide_unpack _); vm_compute; exact I|].
  split; [vm_compute; reflexivity|]. intros k Hk.
  repeat (apply elem_of_cons in Hk as [->|Hk];
    [split; [vm_compute; split; [discriminate | reflexivity] | reflexivity]|]).
  by apply elem_of_nil in Hk.
Qed.

(** ** Theorems *)

(** C12. A new thread of a user process enters its function: the first run
    of what [thread_new] left ends in user mode at the entry point, with
    interrupts on, in the process' address space, the stack pointer eight
    bytes below the top of the thread's stack, where it finds a return
    address of 0 and the argument; no other byte of any process changed,
    although the page of the stack had to be made by a page fault. *)
Theorem new_thread_enters text eflags proc entry_point data p pd d l ls qs r s :
  0xE0000000 <= text -> k_junk (k_g s) = 0 -> proc <> 0 ->
  k_processes (k_st s) !! proc = Some p -> PL_SERVICE <= privilege p <= PL_USER -> p_pagedir p = pd -> pd <> 0 ->
  k_pagedirs (k_st s) !! pd = Some d -> linked (k_threads (k_st s)) (threads p) ls -> queues_ok s qs ->
  idle_thread (k_g s) = 0 \/ is_Some (k_threads (k_st s) !! idle_thread (k_g s)) ->
  space s pd l d (k_tables (k_st s)) (frames (k_g s)) ->
  let top := stacksBottom p in USER_STACK_SIZE <= top <= 0xE0000000 -> u32 data ->
  free_count (frames (k_g s)) (need d (k_tables (k_st s)) (entry_pages top) + r) ->
  exists t s1 s2, thread_new proc entry_point data s = Ok (t, s1) /\
    first_run text eflags t s1 = Ok (ToUser entry_point 0x1B (Z.lor eflags 0x200) (top - 8) 0x23 0x23, s2) /\
    current_pagedir (k_g s2) = pd /\
    rd32 (shown pd (umem (k_g s2))) (top - 8) = 0 /\ rd32 (shown pd (umem (k_g s2))) (top - 4) = data /\
    (forall x, x < top - 8 \/ top <= x -> rd8 (shown pd (umem (k_g s2))) x = rd8 (shown pd (umem (k_g s))) x) /\
    (forall q, q <> pd -> umem (k_g s2) !! q = umem (k_g s) !! q) /\ free_count (frames (k_g s2)) r.
Proof. intros Htext. by apply enters_ok. Qed.

Lemma new_thread_enters_witness :
  exists t s1 s2, thread_new 1 0x400000 7 sample_user = Ok (t, s1) /\
    first_run 0xE0000000 2 t s1 = Ok (ToUser 0x400000 0x1B (Z.lor 2 0x200) (0xDF000000 - 8) 0x23 0x23, s2) /\
    current_pagedir (k_g s2) = 11 /\
    rd32 (shown 11 (umem (k_g s2))) (0xDF000000 - 8) = 0 /\ rd32 (shown 11 (umem (k_g s2))) (0xDF000000 - 4) = 7 /\
    (forall x, x < 0xDF000000 - 8 \/ 0xDF000000 <= x ->
       rd8 (shown 11 (umem (k_g s2))) x = rd8 (shown 11 (umem (k_g sample_user))) x) /\
    (forall q, q <> 11 -> umem (k_g s2) !! q = umem (k_g sample_user) !! q) /\ free_count (frames (k_g s2)) 0.
Proof.
  apply (new_thread_enters 0xE0000000 2 1 0x400000 7 (Process 1 0 3 0 0 11 0xDF000000 0 0 0 0 0) 11 (PageDirectory ∅ ∅ 0 0) []
    [] (fun _ => []) 0 sample_user); try reflexivity; try done.
  - by apply queues_ok_empty.
  - by left.
  - apply (space_same sample_load); [done | done | apply sample_load_space].
  - apply sample_user_frames.
Defined.
