(* ===== verification/Start.v ===== *)
(** * The start of tasking

    The end of [kmain] ([src/kernel/core/kmain.c]): from the state that the
    set-up of memory leaves, [timer_init] and [tasking_init], the loading of
    the boot modules, and the first task switch.  [System] then takes over:
    the state after that switch satisfies its invariant.

    Nothing runs before the first switch, so [starting] differs from the
    invariant of [System]: there is no current thread, and the idle thread
    is in a queue -- [thread_new] queued it before [tasking_init] could say
    that it is the idle thread. *)

From S2P Require Import Prelude Memory Bitset Strings Kernel Paging Segments Sched Timer Objects.
From S2P Require Import Tasking System Creation Elf Entry.

(** What [kmain] prints after the name of a module. *)
Inductive mod_status :=
| InvalidElf
| LoadError
| LoadedPid (n : Z).

(** [timer_init]: the rest of it programs the timer ([timer_divisor]) and
    installs [timer_callback], which [idt_irqHandler] calls for IRQ 0. *)
Definition timer_init (freq : Z) : M kstate unit := setg (set_frequency freq).

Section kmain.
Context (kmem : mem) (text : Z).

(** One round of the loop of [kmain] over the modules. *)
Definition load_module (mod_start : Z) : M kstate mod_status :=
  if negb (elf_check kmem mod_start =? 0) then mret InvalidElf
  else
    pr ← elf_exec kmem text mod_start PL_DRIVER;
    if pr =? 0 then mret LoadError
    else p ← load (A := process) pr; mret (LoadedPid (pid p)).

Fixpoint load_modules (mods : list Z) : M kstate (list mod_status) :=
  match mods with
  | [] => mret []
  | m :: mods' => r ← load_module m; rs ← load_modules mods'; mret (r :: rs)
  end.

(** [kmain] from [timer_init] on; [c] is the context of its
    [tasking_switch], which nobody saves. *)
Definition kmain_tasks (task_idle : Z) (mods : list Z) (c : context) : M kstate (list mod_status) :=
  timer_init 30;;
  tasking_init task_idle;;
  rs ← load_modules mods;
  sti;;
  switch c;;
  mret rs.

(** ** Specification *)

Definition module_phdrs (data : Z) : list elf_phdr :=
  rd_phdrs kmem (Z.to_nat (e_phnum (rd_ehdr kmem data))) (data + e_phoff (rd_ehdr kmem data)).

(** A module that can be loaded: its parts lie in the pages [U]. *)
Record module_ok (data : Z) (U : gset Z) : Prop := {
  mo_elf : elf_check kmem data = 0;
  mo_loadable : Forall (loadable data) (module_phdrs data);
  mo_pages : Forall (phdr_pages U) (module_phdrs data);
  mo_user : user_pages U
}.

(** The frames it takes: its directory, its pages and their tables. *)
Definition module_frames (U : gset Z) : nat :=
  1 + (size U + size (set_map (fun p => p / 1024) U : gset Z)).

(** Module [data] is a driver process whose one thread [t] is about to run
    the file's entry point, with the file's bytes in its memory. *)
Definition launched (s : kstate) (data t : Z) : Prop :=
  exists pr p k th, starts_at s t pr k (e_entry (rd_ehdr kmem data)) 0 th /\
    k_processes (k_st s) !! pr = Some p /\ privilege p = PL_DRIVER /\
    forall x ph, ph ∈ loads (module_phdrs data) -> within x (p_vaddr ph) (p_filesz ph) = true ->
      rd8 (shown (p_pagedir p) (umem (k_g s))) x = foldl (image_byte kmem data x) 0 (module_phdrs data).

End kmain.

(** What the loader needs of memory; [r] frames are free. *)
Record memory_up (s : kstate) (r : nat) : Prop := {
  mu_kernel : kernel_pagedir (k_g s) <> 0 /\ is_Some (k_pagedirs (k_st s) !! kernel_pagedir (k_g s));
  mu_current : current_pagedir (k_g s) <> 0 /\ is_Some (k_pagedirs (k_st s) !! current_pagedir (k_g s));
  mu_frames : wf_bitset (frames (k_g s));
  mu_free : free_count (frames (k_g s)) r;
  mu_locks : 0 <= if_locks (k_g s) < 0xFFFFFFFE;
  mu_manager : manager_object (k_g s) = 0 \/ is_Some (k_objects (k_st s) !! manager_object (k_g s));
  mu_junk : k_junk (k_g s) = 0
}.

(** Before the first switch: every thread is ready and in the queue of its
    level, the idle thread first of the most urgent one. *)
Record starting (s : kstate) (qs : Z -> list Z) : Prop := {
  sg_queues : queues_ok s qs;
  sg_threads t pr st : tv s t = Some (pr, st) -> sound_thread s t pr;
  sg_queued q t : is_priority q -> t ∈ qs q -> exists pr, tv s t = Some (pr, TS_RUNNING) /\ prio s pr = q;
  sg_running t pr : tv s t = Some (pr, TS_RUNNING) -> t ∈ qs (prio s pr);
  sg_idle : exists l, qs 0 = idle_thread (k_g s) :: l;
  sg_current : current_thread (k_g s) = 0;
  sg_sleeping : sleeping_threads (k_g s) = 0;
  sg_irq n : 0 <= n < 16 -> default 0 (irq_wakeup (k_g s) !! n) = 0;
  sg_freq : frequency (k_g s) <> 0
}.

(** ** Lemmas: the first switch *)

Lemma starting_switch s qs esp ebp eip : starting s qs -> processes (k_g s) <> 0 ->
  exists s', tasking_switch esp ebp eip s = Ok (tt, s') /\ sys s' /\
    current_thread (k_g s') = idle_thread (k_g s) /\ k_st s' = k_st s /\ core s' (upd qs 0 (tail (qs 0))) /\
    exists q l pg e, k_g s' = set_esp0 e (set_current_pagedir pg (set_current_thread (idle_thread (k_g s))
      (set_queue q (set_last l (k_g s))))).
Proof.
  intros W Hps. destruct (sg_idle _ _ W) as (l & El). set (i := idle_thread (k_g s)) in *.
  assert (Hl : level qs = 0) by (unfold level; by rewrite El).
  assert (Hp : pick qs i = i) by (unfold pick; by rewrite Hl, El).
  assert (Hi : i ∈ qs 0) by (rewrite El; by left).
  destruct (sg_queued _ _ W 0 i) as (ip & Ei & Hip); [unfold is_priority; lia | done |].
  assert (Hsch : schedulable s i) by (eapply sound_schedulable; [exact Ei | by eapply sg_threads]).
  destruct (switch_next qs s i (sg_queues _ _ W) (eq_sym Hp) Hsch) as (s' & E & S' & C' & R' & W' & I' & aq & al & pg & e & G').
  assert (Tv : forall x, tv s' x = tv s x) by (apply tv_frame; by rewrite S').
  assert (F : fixed s s') by (split; rewrite ?S', ?G'; done).
  unfold rest in W'. rewrite Hl in W'. fold (upd qs 0 (tail (qs 0))) in W'.
  assert (C : core s' (upd qs 0 (tail (qs 0)))).
  { assert (Hq : forall q t, is_priority q -> t ∈ upd qs 0 (tail (qs 0)) q ->
        t ∈ qs q /\ t <> i).
    { pose proof (qo_linked _ _ (sg_queues _ _ W) 0 ltac:(unfold is_priority; lia)) as Hk. rewrite El in Hk.
      apply (linked_NoDup (H := queue_link)), NoDup_cons in Hk as [Hni _].
      intros q t Hq. unfold upd. destruct (Z.eqb_spec q 0) as [->|Hne]; rewrite ?El; cbn [tail]; intros Ht.
      - split; [by right|]. intros ->. done.
      - split; [done|]. intros ->. by apply (qo_disjoint _ _ (sg_queues _ _ W) q 0 i). }
    split.
    - done.
    - by rewrite (fx_list _ _ F).
    - intros t pr st. rewrite Tv. intros Et. apply (sound_fixed s); [done|]. by eapply sg_threads.
    - rewrite I', Tv. by exists ip.
    - intros q t Hq' [Ht Hne]%Hq; [|done]. rewrite I', C', Tv. do 2 (split; [done|]).
      destruct (sg_queued _ _ W q t Hq' Ht) as (pr & Et & Epr). exists pr. by rewrite (prio_fixed _ _ _ F).
    - intros t pr. rewrite Tv, C', I', (prio_fixed _ _ _ F). intros Et. pose proof (sg_running _ _ W _ _ Et) as Ht.
      unfold upd. destruct (Z.eqb_spec (prio s pr) 0) as [E0|]; [|by right; right].
      rewrite E0, El in Ht. rewrite El. apply elem_of_cons in Ht as [->|]; [by left | by right; right].
    - right. rewrite C', Tv, Ei. by eexists. }
  exists s'. split; [|split; [|do 3 (split; [done|]); by do 4 eexists]].
  - apply wp_eq_Ok. unfold tasking_switch. ksteps. rewrite (proj2 (Z.eqb_neq _ _) Hps). ksteps.
    rewrite (sg_current _ _ W). cbn [Z.eqb]. apply wp_ret. eapply wp_eq; [exact E | done].
  - split; [by rewrite (fx_freq _ _ F); apply W|]. split; [right; exists ip; rewrite C', Tv; exact Ei|].
    exists (upd qs 0 (tail (qs 0))), [], (fun _ => []). split; [done|].
    assert (Hnil : forall x : Z, x ∈ ([] : list Z) -> False) by (intros x Hx; by apply elem_of_nil in Hx).
    split.
    + exists []. split; [|split; [done | constructor]]. rewrite G'. cbn. apply W.
    + intros n Hn. rewrite G'. cbn. by apply W.
    + intros n n' x _ _ []%Hnil.
    + intros t []%Hnil.
    + intros n x _ []%Hnil.
    + constructor.
    + intros n n' x y _ _ []%Hnil.
    + intros n x _ []%Hnil.
Qed.

Lemma core_ext s qs qs' : (forall q, qs' q = qs q) -> core s qs -> core s qs'.
Proof.
  intros E [[Q1 Q2 Q3] W2 W3 W4 W5 W6 W7]. split; try done.
  - split; [intros q; rewrite E; apply Q1 | intros q; rewrite E; apply Q2 | intros q q' x; rewrite !E; apply Q3].
  - intros q t. rewrite E. apply W5.
  - intros t pr. rewrite E. apply W6.
Qed.

(** ** Lemmas: new processes and threads before the first switch *)

Lemma starting_extends s s' qs : starting s qs -> extends s s' -> (forall x, tv s' x = tv s x) ->
  queues_ok s' qs -> starting s' qs.
Proof.
  intros W X Tv Q. split.
  - done.
  - intros t pr st. rewrite Tv. intros E. apply (sound_extends s); [done|]. by eapply sg_threads.
  - intros q t Hq Ht. destruct (sg_queued _ _ W q t Hq Ht) as (pr & E & Epr). exists pr. rewrite Tv. split; [done|].
    rewrite <- Epr. apply (prio_extends s s' t); [done|]. by eapply sg_threads.
  - intros t pr. rewrite Tv. intros E. rewrite (prio_extends s s' t pr); [by apply W | done | by eapply sg_threads].
  - rewrite (ex_idle _ _ X). apply W.
  - rewrite (ex_current _ _ X). apply W.
  - rewrite (ex_sleeping _ _ X). apply W.
  - rewrite (ex_irq _ _ X). apply W.
  - rewrite (ex_freq _ _ X). apply W.
Qed.

Lemma starting_new s s' qs q t pr : starting s qs -> extends s s' -> tv s t = None ->
  (forall x, x <> t -> tv s' x = tv s x) -> tv s' t = Some (pr, TS_RUNNING) -> sound_thread s' t pr -> prio s' pr = q ->
  queues_ok s' (upd qs q (qs q ++ [t])) -> starting s' (upd qs q (qs q ++ [t])).
Proof.
  intros W X Hn Tv Et Hs Epr Q.
  assert (Tv' : forall x v, tv s x = Some v -> tv s' x = Some v)
    by (intros x v E; rewrite Tv; [done | intros ->; congruence]).
  split.
  - done.
  - intros x pr' st Ex. destruct (decide (x = t)) as [->|Hne]; [by rewrite Et in Ex; injection Ex as <- _|].
    rewrite Tv in Ex by done. apply (sound_extends s); [done|]. by eapply sg_threads.
  - intros i x Hi Hx.
    assert (H : x ∈ qs i \/ (i = q /\ x = t)).
    { unfold upd in Hx. destruct (Z.eqb_spec i q) as [->|]; [|by left].
      apply elem_of_app in Hx as [?| ->%list_elem_of_singleton]; [by left | by right]. }
    destruct H as [H|(-> & ->)]; [|by exists pr].
    destruct (sg_queued _ _ W i x Hi H) as (pr' & E & E'). exists pr'. split; [by apply Tv'|]. rewrite <- E'.
    apply (prio_extends s s' x); [done|]. by eapply sg_threads.
  - intros x pr' Ex. unfold upd. destruct (decide (x = t)) as [->|Hne].
    + rewrite Et in Ex. injection Ex as <-. rewrite Epr, Z.eqb_refl. apply elem_of_app. right. by left.
    + rewrite Tv in Ex by done. rewrite (prio_extends s s' x pr'); [|done | by eapply sg_threads].
      pose proof (sg_running _ _ W x pr' Ex). destruct (Z.eqb_spec (prio s pr') q) as [<-|]; [|done].
      apply elem_of_app. by left.
  - destruct (sg_idle _ _ W) as (l & El). rewrite (ex_idle _ _ X). unfold upd.
    destruct (Z.eqb_spec 0 q) as [<-|]; [|by exists l]. exists (l ++ [t]). by rewrite El.
  - rewrite (ex_current _ _ X). apply W.
  - rewrite (ex_sleeping _ _ X). apply W.
  - rewrite (ex_irq _ _ X). apply W.
  - rewrite (ex_freq _ _ X). apply W.
Qed.

Lemma starting_idle s qs : starting s qs -> idle_thread (k_g s) = 0 \/ is_Some (k_threads (k_st s) !! idle_thread (k_g s)).
Proof.
  intros W. right. destruct (sg_idle _ _ W) as (l & El).
  destruct (sg_queued _ _ W 0 (idle_thread (k_g s))) as (pr & E & _); [unfold is_priority; lia | rewrite El; by left |].
  unfold tv in E. destruct (k_threads (k_st s) !! _); [by eexists | done].
Qed.

(** [process_new]. *)
Lemma process_made_extends s s' p par uid priv f b m o d pr : p = fresh_ptr (k_processes (k_st s)) ->
  process_made s s' p par uid priv f b m o d pr -> extends s s' /\ (forall x, tv s' x = tv s x) /\
  (forall qs, queues_ok s qs -> queues_ok s' qs).
Proof.
  intros Hp Y.
  assert (Et : k_threads (k_st s') = k_threads (k_st s)) by (by rewrite (pm_stores _ _ _ _ _ _ _ _ _ _ _ _ Y)).
  pose proof (pm_globals _ _ _ _ _ _ _ _ _ _ _ _ Y) as Eg. split; [split; try (by rewrite Eg)|split].
  - intros q pq Eq. exists pq. split; [|done]. rewrite (pm_processes _ _ _ _ _ _ _ _ _ _ _ _ Y); [done|].
    rewrite Hp. by eapply fresh_ptr_ne.
  - intros x. rewrite (pm_dirs _ _ _ _ _ _ _ _ _ _ _ _ Y). intros [a Ea].
    apply lookup_insert_is_Some'. right. by eexists.
  - by apply tv_frame.
  - intros qs W. apply (queues_ok_frame s); [done|..]; [by rewrite Eg | by rewrite Eg | done].
Qed.

(** [thread_new]. *)
Lemma thread_made_starting s s' proc t entry data p d l qs : starting s qs -> proc <> 0 ->
  k_processes (k_st s) !! proc = Some p -> is_priority (privilege p) -> p_pagedir p <> 0 ->
  k_pagedirs (k_st s) !! p_pagedir p = Some d ->
  thread_made s s' proc t entry data p d l qs ->
  extends s s' /\ starting s' (upd qs (privilege p) (qs (privilege p) ++ [t])).
Proof.
  intros W Hp Ep Hpri Hd Ed Y. pose proof (thread_made_extends _ _ _ _ _ _ _ _ _ _ Ep Y) as X.
  destruct Y as [X1 X2 (th & (S1 & S2 & S3 & _) & S4) X4 _ X5 (p' & P1 & _ & P2 & P3 & _) X6 X7 X8 X9 X10 X11 X12].
  assert (Et : tv s' t = Some (proc, TS_RUNNING)) by (unfold tv; by rewrite S1; cbn; rewrite S2, S3).
  split; [done|]. apply (starting_new s) with proc; try done.
  - unfold tv. by rewrite X1, fresh_ptr_None.
  - intros x. by apply kept_tv.
  - split; [rewrite X1; pose proof (fresh_ptr_pos (k_threads (k_st s))); lia|]. split; [done|].
    destruct (ex_dirs _ _ X (p_pagedir p)) as (d' & Ed'); [by eexists|]. exists p', d'. by rewrite P2, P3.
  - unfold prio. by rewrite P1.
Qed.

(** ** Lemmas: the loading of one module *)

(** A new directory: nothing is mapped in its user half. *)
Lemma fresh_space s pd T b (dt : gmap Z ptr) (dp : gmap Z Z) ph : wf_bitset b ->
  space s pd [] (PageDirectory (kernel_half dt) (kernel_half dp) ph 0) T b.
Proof.
  intros Hb. assert (Hd : forall {A} (m : gmap Z A) i, 0 <= i < 896 -> kernel_half m !! i = None).
  { intros A m i Hi. unfold kernel_half. apply map_lookup_filter_None. right. intros x _ ?. lia. }
  assert (Ht : forall i, 0 <= i < 896 -> dir_table (PageDirectory (kernel_half dt) (kernel_half dp) ph 0) i = 0)
    by (intros i Hi; unfold dir_table; cbn; by rewrite Hd).
  split; [| | done | | done].
  - intros i Hi. left. split; [by apply Ht|]. unfold dir_phys. cbn. by rewrite Hd.
  - intros i j Hi Hj _. by rewrite Ht.
  - intros x Hx. by apply elem_of_nil in Hx.
Qed.

Lemma need_module d T U : (1 + need d T U <= module_frames U)%nat.
Proof.
  unfold need, module_frames. apply le_n_S, Nat.add_le_mono; apply subseteq_size; intros x Hx;
    by apply elem_of_filter in Hx as [_ Hx].
Qed.

(** A byte that a part covers does not depend on what was there. *)
Lemma image_covered kmem data x phs : (exists ph, ph ∈ loads phs /\ within x (p_vaddr ph) (p_filesz ph) = true) ->
  forall old old', foldl (image_byte kmem data x) old phs = foldl (image_byte kmem data x) old' phs.
Proof.
  induction phs as [|ph phs IH]; intros (ph' & Hin & Hw) old old'; [by apply elem_of_nil in Hin|].
  cbn [foldl]. unfold loads in Hin. rewrite filter_cons in Hin.
  destruct (decide (p_type ph = PT_LOAD)) as [Ht|]; [|apply IH; by exists ph'].
  apply elem_of_cons in Hin as [->|Hin]; [|apply IH; by exists ph']. unfold image_byte at 2 4. by rewrite Ht, Hw.
Qed.

Section modules.
Context (kmem : mem) (text : Z) (Htext : 0xE0000000 <= text).

(** Threads that have not run yet start the same way in [s'] as in [s]. *)
Definition still_starts (s s' : kstate) : Prop := forall t pr k entry a th, starts_at s t pr k entry a th ->
  exists th', starts_at s' t pr k entry a th'.

(** What a launched module needs is not undone. *)
Lemma launched_mono s s' qs data t : starting s qs -> still_starts s s' ->
  (forall q, is_Some (k_processes (k_st s) !! q) -> k_processes (k_st s') !! q = k_processes (k_st s) !! q) ->
  (forall pd, is_Some (k_pagedirs (k_st s) !! pd) -> umem (k_g s') !! pd = umem (k_g s) !! pd) ->
  launched kmem s data t -> launched kmem s' data t.
Proof.
  intros W Hs HP HM (pr & p & k & th & S & Ep & Hpri & Hb). destruct (Hs _ _ _ _ _ _ S) as (th' & S').
  assert (Et : tv s t = Some (pr, TS_RUNNING)).
  { destruct S as (E1 & E2 & E3 & _). unfold tv. rewrite E1. cbn. by rewrite E2, E3. }
  destruct (sg_threads _ _ W _ _ _ Et) as (_ & _ & p0 & d & Ep0 & _ & _ & Ed). replace p0 with p in Ed by congruence.
  exists pr, p, k, th'. split; [done|]. split; [by rewrite HP|]. split; [done|].
  intros x ph Hph Hw. unfold shown. rewrite HM by by eexists. by eapply Hb.
Qed.

Lemma load_module_ok s qs data U r : starting s qs -> memory_up s (module_frames U + r) -> module_ok kmem data U ->
  exists s' t, load_module kmem text data s = Ok (LoadedPid (nextpid (k_g s)), s') /\
    starting s' (upd qs PL_DRIVER (qs PL_DRIVER ++ [t])) /\ memory_up s' r /\ processes (k_g s') <> 0 /\
    nextpid (k_g s') = w32 (nextpid (k_g s) + 1) /\ idle_thread (k_g s') = idle_thread (k_g s) /\
    launched kmem s' data t /\ still_starts s s' /\
    forall data' t', launched kmem s data' t' -> launched kmem s' data' t'.
Proof.
  intros W [[Hkd [dk Edk]] [Hcd Hcd'] Hb Hf Hlk Hm Hj] [Hck HL HP HU]. pose proof (need_module) as Hneed.
  destruct (alloc_counted (frames (k_g s)) (size U + size (set_map (fun p => p / 1024) U : gset Z) + r) Hb) as
    (f & b & Ef & Hb1 & Hf1); [eapply free_count_le, Hf; unfold module_frames; lia|].
  destruct (process_new_ok 0 0 PL_DRIVER s f b _ dk _ Ef eq_refl Hkd Edk eq_refl Hm) as (s1 & pr & E1 & Y1).
  set (p := fresh_ptr (k_processes (k_st s))) in *. set (pd := fresh_ptr (k_pagedirs (k_st s))).
  destruct (process_made_extends _ _ _ _ _ _ _ _ _ _ _ _ eq_refl Y1) as (X1 & Tv1 & Q1).
  assert (W1 : starting s1 qs) by (by apply (starting_extends s); [..|apply Q1, W]).
  destruct Y1 as [P1 (ld & D1) O1 R1 B1 S1 G1]. pose proof (dl_nonzero _ _ _ _ _ D1) as Hp.
  pose proof (dl_process _ _ _ _ _ D1) as Ep. clear D1.
  assert (Epd : p_pagedir pr = pd) by (by rewrite P1). assert (Epri : privilege pr = PL_DRIVER) by (by rewrite P1).
  assert (Eth : threads pr = 0) by (rewrite P1; exact Hj). assert (Epid : pid pr = nextpid (k_g s)) by (by rewrite P1).
  clear P1. pose proof (fresh_ptr_pos (k_pagedirs (k_st s))) as Hpd. rewrite Epd in B1.
  set (d0 := PageDirectory _ _ _ _) in B1.
  destruct (elf_load_ok kmem text data p pr pd d0 [] U r s1) as (M & S & xs & d' & T' & b' & mm' & E2 & W2 & F2 & L2);
    try done.
  { unfold pd; lia. } { rewrite B1. apply lookup_insert_eq. }
  { by rewrite G1. } { rewrite G1, B1. apply lookup_insert_is_Some'. right. exact Hcd'. } { rewrite G1; cbn; lia. }
  { apply fresh_space. by rewrite G1. }
  { rewrite G1. cbn. eapply free_count_le, Hf1. specialize (Hneed d0 (k_tables (k_st s1)) U). unfold module_frames in *. lia. }
  set (s2 := view (with_segs M S s1) pd d' T' b' mm') in *.
  assert (X2 : extends s1 s2).
  { split; try done; [intros q pq Eq; by exists pq|]. intros x [a Ea]. cbn. apply lookup_insert_is_Some'. right. by eexists. }
  assert (W3 : starting s2 qs) by (by apply (starting_extends s1); [..|apply (queues_ok_frame s1); [apply W1|..]]).
  assert (Ed2 : k_pagedirs (k_st s2) !! pd = Some d') by apply lookup_insert_eq.
  destruct (thread_new_ok p (e_entry (rd_ehdr kmem data)) 0 pr d' [] qs s2) as (t & s3 & E3 & Y3);
    rewrite ?Epd, ?Epri; try done.
  { unfold pd; lia. } { apply W3. } { by eapply starting_idle. }
  destruct (thread_made_starting s2 s3 p t (e_entry (rd_ehdr kmem data)) 0 pr d' [] qs W3 Hp Ep) as (X3 & W4); try done;
    [by rewrite Epri | rewrite Epd; unfold pd; lia | by rewrite Epd |]. rewrite Epri in W4.
  destruct Y3 as [Z1 Z2 (th & Zt & Zs) Z4 _ _ (p' & Zp & Zpid & Zpri & Zpd & _) _ Z7 Z8 _ _ _ Z12].
  unfold stack_made in Zs. rewrite Epri in Zs. destruct Zs as (_ & _ & _ & Zd). cbn in Zd.
  assert (exists a b0, k_g s3 = set_queue a (set_last b0 (set_umem mm' (set_frames b' (k_g s1))))) as (qa & la & G3) by (by do 2 eexists). clear Z12.
  assert (Hstill : still_starts s s3).
  { intros t' pr' k e a th' Hs. assert (Hx : t' <> t).
    { destruct Hs as (Et' & _). rewrite Z1. cbn. rewrite S1. cbn. by eapply fresh_ptr_ne. }
    destruct (starts_kept s s3 t t' pr' k e a th') as (th2 & ? & _); try done; [| | by rewrite G3, G1 | by exists th2].
    - intros x Hne. rewrite Z4 by done. cbn. by rewrite S1.
    - rewrite Z2. cbn. rewrite S1. cbn. apply insert_subseteq, fresh_ptr_None. }
  exists s3, t. split; [|split; [done|split; [|split; [|split; [|split; [|split; [|split]]]]]]].
  - apply wp_eq_Ok. unfold load_module. rewrite Hck. cbn [Z.eqb negb]. apply wp_bind. unfold elf_exec.
    rewrite Hck. cbn [Z.eqb negb]. apply wp_bind. eapply wp_eq; [exact E1|]. apply wp_bind. eapply wp_eq; [exact E2|].
    apply wp_bind. eapply wp_eq; [exact E3|]. wp_steps. rewrite (proj2 (Z.eqb_neq _ _) Hp). ksteps.
    by rewrite Zpid, Epid.
  - assert (Hdirs : forall x, is_Some (k_pagedirs (k_st s) !! x) -> is_Some (k_pagedirs (k_st s3) !! x)).
    { intros x Hx. by apply (ex_dirs _ _ X3), (ex_dirs _ _ X2), (ex_dirs _ _ X1). }
    split; rewrite ?G3, ?Z8; cbn; rewrite ?G1; cbn; try done.
    + split; [done|]. apply Hdirs. by eexists.
    + split; [done | by apply Hdirs].
    + apply W2.
    + right. rewrite O1. destruct (Z.eqb_spec (manager_object (k_g s)) 0) as [|Hne]; [by apply lookup_insert_is_Some'; left|].
      destruct Hm as [?|Hm]; [done|]. rewrite lookup_alter_is_Some. apply lookup_insert_is_Some'. by right.
  - by rewrite G3, G1.
  - by rewrite G3, G1.
  - by rewrite G3, G1.
  - exists p, p', (fresh_ptr (k_stacks (k_st s2))), th. split; [done|]. split; [done|].
    split; [congruence|]. intros x ph Hph Hw. rewrite Zpd, Epd, G3. cbn.
    rewrite (ld_bytes _ _ _ _ _ _ _ _ _ _ _ _ _ L2). apply image_covered. by exists ph.
  - exact Hstill.
  - intros data' t'. apply (launched_mono s s3 qs); try done.
    + intros q [pq Eq]. rewrite Z7 by (unfold p; by eapply fresh_ptr_ne). cbn. apply R1. by eapply fresh_ptr_ne.
    + intros q [dq Eq]. rewrite G3. cbn. rewrite (ld_other _ _ _ _ _ _ _ _ _ _ _ _ _ L2); [by rewrite G1|].
      by eapply fresh_ptr_ne.
Qed.

Lemma starting_ext s qs qs' : (forall q, qs' q = qs q) -> starting s qs -> starting s qs'.
Proof.
  intros E [[Q1 Q2 Q3] W2 W3 W4 W5 W6 W7 W8 W9]. split; try done.
  - split; [intros q; rewrite E; apply Q1 | intros q; rewrite E; apply Q2 | intros q q' x; rewrite !E; apply Q3].
  - intros q t. rewrite E. apply W3.
  - intros t pr. rewrite E. apply W4.
  - by rewrite E.
Qed.

(** All the modules. *)
Lemma load_modules_ok r mods Us : Forall2 (module_ok kmem) mods Us -> forall s qs, starting s qs ->
  memory_up s (sum_list (module_frames <$> Us) + r) ->
  0 <= nextpid (k_g s) -> nextpid (k_g s) + Z.of_nat (length mods) < W32 ->
  exists s' ts, load_modules kmem text mods s = Ok (LoadedPid <$> seqZ (nextpid (k_g s)) (Z.of_nat (length mods)), s') /\
    starting s' (upd qs PL_DRIVER (qs PL_DRIVER ++ ts)) /\ memory_up s' r /\
    (mods <> [] -> processes (k_g s') <> 0) /\ idle_thread (k_g s') = idle_thread (k_g s) /\
    Forall2 (launched kmem s') mods ts /\
    still_starts s s' /\ (forall data t, launched kmem s data t -> launched kmem s' data t) /\
    (mods = [] -> s' = s).
Proof.
  induction 1 as [|data U mods Us Hm HF IH]; intros s qs W Y Hn0 Hn.
  - exists s, []. split; [done|]. split; [|do 4 (split; [done|]); split; [intros t pr k e a th ?; by exists th | done]]. eapply starting_ext, W. intros q. unfold upd.
    destruct (Z.eqb_spec q PL_DRIVER) as [->|]; [by rewrite app_nil_r | done].
  - cbn [fmap list_fmap sum_list length] in *. rewrite <- Nat.add_assoc in Y.
    destruct (load_module_ok s qs data U _ W Y Hm) as (s1 & t & E1 & W1 & Y1 & P1 & N1 & I1 & L1 & S1 & K1).
    rewrite w32_small in N1 by (unfold u32; lia).
    destruct (IH s1 _ W1 Y1) as (s2 & ts & E2 & W2 & Y2 & P2 & I2 & L2 & S2 & K2 & Z2); [lia | lia |].
    exists s2, (t :: ts). split; [|split; [|split; [done|split; [|split; [congruence|split; [|split; [|split; [by auto|done]]]]]]]].
    + cbn [load_modules]. rewrite (bind_Ok _ _ _ _ _ E1). rewrite (bind_Ok _ _ _ _ _ E2). rewrite N1.
      rewrite Nat2Z.inj_succ, (seqZ_cons (nextpid (k_g s))) by lia. by rewrite Z.pred_succ.
    + eapply starting_ext, W2. intros q. unfold upd. rewrite Z.eqb_refl.
      destruct (q =? PL_DRIVER); [by rewrite <- app_assoc | done].
    + intros _. destruct mods; [by rewrite Z2 | by apply P2].
    + constructor; [by apply K2 | done].
    + intros t' pr k e a th Hs. destruct (S1 _ _ _ _ _ _ Hs) as (th' & Hs'). by eapply S2.
Qed.

End modules.

(** ** Lemmas: [tasking_init] *)

(** Before [tasking_init]: memory is set up and there is nothing to run. *)
Record no_tasks (s : kstate) (r : nat) : Prop := {
  nt_memory : memory_up s r;
  nt_threads : k_threads (k_st s) = ∅;
  nt_queues q : is_priority q -> q_head (k_g s) q = 0;
  nt_idle : idle_thread (k_g s) = 0;
  nt_sleeping : sleeping_threads (k_g s) = 0;
  nt_irq n : 0 <= n < 16 -> default 0 (irq_wakeup (k_g s) !! n) = 0
}.

Lemma tasking_init_ok task_idle s r : no_tasks s r -> frequency (k_g s) <> 0 ->
  exists s' i kp k th, tasking_init task_idle s = Ok (tt, s') /\ idle_thread (k_g s') = i /\
    starting s' (upd (fun _ => []) PL_KERNEL [i]) /\ memory_up s' r /\ starts_at s' i kp k task_idle 0 th /\
    nextpid (k_g s') = nextpid (k_g s) /\ processes (k_g s') = processes (k_g s).
Proof.
  intros [[[Hkd [dk Edk]] Hcd Hb Hf Hlk Hm Hj] Ht Hq Hi Hs Hirq] Hfr.
  set (kp := fresh_ptr (k_processes (k_st s))). pose proof (fresh_ptr_pos (k_processes (k_st s))) as Hkp. fold kp in Hkp.
  set (p0 := Process 0 0 PL_KERNEL 0 kp (kernel_pagedir (k_g s)) 0 0 0 0 0 0).
  set (s1 := KState (set_k_processes (<[kp := p0]> (k_processes (k_st s))) (k_st s))
    (set_current_thread 0 (set_kernel_process kp (set_if_locks (if_locks (k_g s) + 1) (k_g s))))).
  assert (Ep : k_processes (k_st s1) !! kp = Some p0) by apply lookup_insert_eq.
  assert (W1 : queues_ok s1 (fun _ => [])).
  { by apply queues_ok_empty. }
  destruct (thread_new_ok kp task_idle 0 p0 dk [] (fun _ => []) s1) as (t & s2 & E2 & Y2); try done; [lia | by left |].
  destruct Y2 as [Z1 Z2 (th & Zt & Zs) Z4 _ Z5 (p' & Zp & Zpid & Zpri & Zpd & _) _ Z7 Z8 _ _ _ Z12].
  cbn in Zs. destruct Zs as (_ & _ & _ & Zd).
  assert (exists a b, k_g s2 = set_queue a (set_last b (k_g s1))) as (qa & la & G2) by (by do 2 eexists). clear Z12.
  set (s3 := KState (set_k_processes (<[kp := set_threads t p']> (k_processes (k_st s2))) (k_st s2))
    (set_if_locks (if_locks (k_g s)) (set_idle_thread t (k_g s2)))).
  assert (Tv : forall x pr st, tv s3 x = Some (pr, st) -> x = t /\ pr = kp /\ st = TS_RUNNING).
  { intros x pr st E. change (tv s3 x) with (tv s2 x) in E. destruct (decide (x = t)) as [->|Hne].
    - destruct Zt as (T1 & T2 & T3 & _). unfold tv in E. rewrite T1 in E. cbn in E. rewrite T2, T3 in E.
      by injection E as <- <-.
    - rewrite (kept_tv s1 s2 t x Z4 Hne) in E. unfold tv in E. cbn in E. by rewrite Ht, lookup_empty in E. }
  assert (Et : tv s3 t = Some (kp, TS_RUNNING)).
  { destruct Zt as (T1 & T2 & T3 & _). change (tv s3 t) with (tv s2 t). unfold tv. rewrite T1. cbn. by rewrite T2, T3. }
  exists s3, t, kp, (fresh_ptr (k_stacks (k_st s1))), th.
  split; [|split; [done|split; [|split; [|split; [exact Zt|by cbn; rewrite G2]]]]].
  - apply wp_eq_Ok. unfold tasking_init, cli, sti. ksteps. fold kp. ksteps. fold p0.
    assert (Elk : w32 (if_locks (k_g s) + 1) = if_locks (k_g s) + 1) by (apply w32_small; unfold u32; lia).
    match goal with |- wp _ ?x _ => replace x with s1 by (unfold s1, p0; cbn; by rewrite Hj, Elk, insert_insert_eq) end.
    eapply wp_eq; [exact E2|]. ksteps. unfold s3. f_equal. rewrite G2. cbn.
    rewrite (proj2 (Z.ltb_lt _ _)) by lia. cbn. by rewrite Z.add_simpl_r.
  - assert (Hmem : forall q x, x ∈ upd (fun _ => []) PL_KERNEL [t] q -> q = PL_KERNEL /\ x = t).
    { intros q x. unfold upd. destruct (Z.eqb_spec q PL_KERNEL); intros Hx; [|by apply elem_of_nil in Hx].
      by apply list_elem_of_singleton in Hx. }
    assert (Hprio : prio s3 kp = PL_KERNEL).
    { unfold prio. cbn. by rewrite lookup_insert_eq. }
    split; cbn; rewrite ?G2; cbn; try done.
    + apply (queues_ok_frame s2); [|done..]. exact Z5.
    + intros x pr st (-> & -> & _)%Tv. split; [rewrite Z1; pose proof (fresh_ptr_pos (k_threads (k_st s1))); lia|].
      split; [lia|]. exists (set_threads t p'), dk.
      split; [apply lookup_insert_eq|]. cbn. by rewrite Zpri, Zpd, Zd.
    + intros q x Hpq (-> & ->)%Hmem. by exists kp.
    + intros x pr (-> & -> & _)%Tv. rewrite Hprio. unfold upd. cbn. by left.
    + by exists [].
  - split; cbn; rewrite ?G2; cbn; rewrite ?Zd, ?Z8; try done.
Qed.

(** A state that differs in the scheduler's globals only. *)
Lemma launched_same kmem s s' data t : k_st s' = k_st s -> umem (k_g s') = umem (k_g s) ->
  thread_run_addr (k_g s') = thread_run_addr (k_g s) -> launched kmem s data t -> launched kmem s' data t.
Proof. intros E1 E2 E3. unfold launched, starts_at. by rewrite E1, E2, E3. Qed.

(** [kmain] from the timer on. *)
Lemma kmain_ok kmem text task_idle mods Us c s r : 0xE0000000 <= text -> Forall2 (module_ok kmem) mods Us -> mods <> [] ->
  no_tasks s (sum_list (module_frames <$> Us) + r) -> nextpid (k_g s) = 1 -> 1 + Z.of_nat (length mods) < W32 ->
  exists s' ts, kmain_tasks kmem text task_idle mods c s = Ok (LoadedPid <$> seqZ 1 (Z.of_nat (length mods)), s') /\
    sys s' /\ current_thread (k_g s') = idle_thread (k_g s') /\
    (exists i kp k th, idle_thread (k_g s') = i /\ starts_at s' i kp k task_idle 0 th) /\
    core s' (upd (fun _ => []) PL_DRIVER ts) /\ Forall2 (launched kmem s') mods ts /\ free_count (frames (k_g s')) r.
Proof.
  intros Htext HF Hne [Y N1 N2 N3 N4 N5] Hpid Hlen. destruct c as [[esp ebp] eip].
  set (s0 := KState (k_st s) (set_frequency 30 (k_g s))).
  assert (N : no_tasks s0 (sum_list (module_frames <$> Us) + r)) by (split; try done; destruct Y; by split).
  destruct (tasking_init_ok task_idle s0 _ N) as (s1 & i & kp & k & th & E1 & I1 & W1 & Y1 & T1 & P1 & _); [done|].
  destruct (load_modules_ok kmem text Htext r mods Us HF s1 _ W1 Y1) as (s2 & ts & E2 & W2 & Y2 & P2 & I2 & L2 & S2 & _ & _);
    [rewrite P1; cbn; lia | rewrite P1; cbn; lia |].
  rewrite P1 in E2. change (nextpid (k_g s0)) with (nextpid (k_g s)) in E2. rewrite Hpid in E2.
  set (s3 := KState (k_st s2) (if 0 <? if_locks (k_g s2) then set_if_locks (if_locks (k_g s2) - 1) (k_g s2) else k_g s2)).
  assert (W3 : starting s3 (upd (upd (fun _ => []) PL_KERNEL [i]) PL_DRIVER ts)).
  { apply (starting_ext s3 (upd (upd (fun _ => []) PL_KERNEL [i]) PL_DRIVER (upd (fun _ => []) PL_KERNEL [i] PL_DRIVER ++ ts)));
      [done|].
    apply (starting_extends s2); [done | | done |]; unfold s3.
    - destruct (0 <? if_locks (k_g s2)); split; try done; intros q pq Eq; by exists pq.
    - destruct (0 <? if_locks (k_g s2)); apply (queues_ok_frame s2); try done; apply W2. }
  destruct (starting_switch s3 _ esp ebp eip W3) as (s4 & E4 & Y4 & C4 & S4 & Q4 & aq & al & pg & e & G4).
  { unfold s3. destruct (0 <? if_locks (k_g s2)); by apply P2. }
  assert (I3 : idle_thread (k_g s3) = idle_thread (k_g s2)) by (unfold s3; by destruct (0 <? if_locks (k_g s2))).
  assert (Hsame : k_st s4 = k_st s2 /\ umem (k_g s4) = umem (k_g s2) /\ thread_run_addr (k_g s4) = thread_run_addr (k_g s2) /\
            frames (k_g s4) = frames (k_g s2) /\ idle_thread (k_g s4) = idle_thread (k_g s2)).
  { rewrite S4, G4. unfold s3. by destruct (0 <? if_locks (k_g s2)). }
  destruct Hsame as (H1 & H2 & H3 & H4 & H5).
  exists s4, ts. split; [|split; [done|split; [congruence|split; [|split; [|split]]]]].
  - apply wp_eq_Ok. unfold kmain_tasks, timer_init. ksteps. fold s0. eapply wp_eq; [exact E1|]. apply wp_bind.
    eapply wp_eq; [exact E2|]. unfold sti. ksteps. eapply wp_eq; [exact E4|]. by ksteps.
  - destruct (S2 _ _ _ _ _ _ T1) as (th' & T2). exists i, kp, k, th'. split; [congruence|].
    unfold starts_at in *. by rewrite H1, H3.
  - eapply core_ext, Q4. intros q. unfold upd. destruct (Z.eqb_spec q 0) as [->|]; [done|].
    destruct (q =? PL_DRIVER); [done|]. unfold PL_KERNEL. by rewrite (proj2 (Z.eqb_neq q 0)).
  - eapply Forall2_impl; [exact L2|]. intros data t. by apply launched_same.
  - rewrite H4. apply Y2.
Qed.

(** ** A sample: the file of [Elf] as the only module *)

Definition sample_boot_tasks : kstate :=
  let s := boot_state 2 0 in
  KState (set_k_pagedirs {[ 10 := PageDirectory ∅ ∅ 0 0 ]} (k_st s))
    (set_kernel_pagedir 10 (set_current_pagedir 10 (k_g s))).

Example kmain_sample :
  match kmain_tasks (sample_file 6) 0xE0000000 0xE0001000 [0xE0100000] (0, 0, 0) sample_boot_tasks with
  | Ok (rs, s) => (rs, current_thread (k_g s) =? idle_thread (k_g s), rd8 (shown 11 (umem (k_g s))) 0x400005)
                  = ([LoadedPid 1], true, 66)
  | Fault _ => False
  end.
Proof. vm_compute. reflexivity. Qed.

(** Then a tick of the timer lets the module run. *)
Example kmain_sample_tick :
  match (kmain_tasks (sample_file 6) 0xE0000000 0xE0001000 [0xE0100000] (0, 0, 0);; run_event (Irq 0 (1, 2, 3)))
          sample_boot_tasks with
  | Ok (_, s) => current_thread (k_g s) <> idle_thread (k_g s) /\ current_pagedir (k_g s) = 11
  | Fault _ => False
  end.
Proof. vm_compute. split; [discriminate | reflexivity]. Qed.

Lemma sample_no_tasks : no_tasks sample_boot_tasks (sum_list (module_frames <$> [{[0x400]} : gset Z]) + 0).
Proof.
  assert (Hf : free_count (frames (k_g sample_boot_tasks)) 3).
  { exists [5; 6; 7]. split; [apply (bool_decide_unpack _); vm_compute; exact I|]. split; [reflexivity|]. intros k Hk.
    repeat (apply elem_of_cons in Hk as [->|Hk];
      [split; [vm_compute; split; [discriminate | reflexivity] | reflexivity]|]). by apply elem_of_nil in Hk. }
  split; try done. split.
  - split; [done | by eexists].
  - split; [done | by eexists].
  - split; cbn; [unfold u32; lia | done | repeat constructor; done].
  - exact Hf.
  - cbn. lia.
  - by left.
  - done.
Qed.

Lemma sample_module : module_ok (sample_file 6) 0xE0100000 {[0x400]}.
Proof.
  split; [reflexivity | | | apply sample_pages]; unfold module_phdrs; rewrite sample_phdrs; (constructor; [|constructor]).
  - intros _. cbn. repeat split; (done || lia).
  - intros _ y Hy. cbn in Hy. apply elem_of_singleton. Z.div_mod_to_equations. lia.
Qed.

(** ** Theorems *)

(** The kernel starts.  From the state memory set-up leaves, with boot
    modules that are ELF files of the user half and frames for their
    directories, tables and pages: [kmain] loads every module, in order,
    and switches to the idle thread; the queue of the drivers holds one
    thread for each module, about to run the entry point of the file in an
    address space with the file's bytes; and the state satisfies the
    invariant of the running system. *)
Theorem kmain_starts kmem text task_idle mods Us c s r : 0xE0000000 <= text -> Forall2 (module_ok kmem) mods Us ->
  mods <> [] -> no_tasks s (sum_list (module_frames <$> Us) + r) -> nextpid (k_g s) = 1 ->
  1 + Z.of_nat (length mods) < W32 ->
  exists s' ts, kmain_tasks kmem text task_idle mods c s = Ok (LoadedPid <$> seqZ 1 (Z.of_nat (length mods)), s') /\
    sys s' /\ current_thread (k_g s') = idle_thread (k_g s') /\
    (exists i kp k th, idle_thread (k_g s') = i /\ starts_at s' i kp k task_idle 0 th) /\
    core s' (upd (fun _ => []) PL_DRIVER ts) /\ Forall2 (launched kmem s') mods ts /\ free_count (frames (k_g s')) r.
Proof. apply kmain_ok. Qed.

Lemma kmain_starts_witness :
  exists s' ts, kmain_tasks (sample_file 6) 0xE0000000 0xE0001000 [0xE0100000] (0, 0, 0) sample_boot_tasks
      = Ok ([LoadedPid 1], s') /\
    sys s' /\ current_thread (k_g s') = idle_thread (k_g s') /\
    (exists i kp k th, idle_thread (k_g s') = i /\ starts_at s' i kp k 0xE0001000 0 th) /\
    core s' (upd (fun _ => []) PL_DRIVER ts) /\ Forall2 (launched (sample_file 6) s') [0xE0100000] ts /\
    free_count (frames (k_g s')) 0.
Proof.
  apply (kmain_starts (sample_file 6) 0xE0000000 0xE0001000 [0xE0100000] [{[0x400]}] (0, 0, 0) sample_boot_tasks 0);
    try reflexivity; try done.
  - constructor; [apply sample_module | constructor].
  - apply sample_no_tasks.
Defined.

(** A module's thread enters the file's entry point, in the kernel and in the
    address space of its process: boot modules are drivers. *)
Theorem launched_enters kmem text eflags s qs data t : core s qs -> launched kmem s data t ->
  exists pr p, k_processes (k_st s) !! pr = Some p /\
    first_run text eflags t s
      = Ok (ToKernel (e_entry (rd_ehdr kmem data)) 0, KState (k_st s) (set_current_pagedir (p_pagedir p) (k_g s))).
Proof.
  intros W (pr & p & k & th & S & Ep & Hpri & _). exists pr, p. split; [done|].
  assert (Et : tv s t = Some (pr, TS_RUNNING)).
  { destruct S as (E1 & E2 & E3 & _). unfold tv. rewrite E1. cbn. by rewrite E2, E3. }
  destruct (co_threads _ _ W _ _ _ Et) as (Ht & Hpr & p0 & d & Ep0 & _ & Hd & Ed). replace p0 with p in * by congruence.
  rewrite (first_run_starts _ _ _ _ _ _ _ _ _ Ht S). destruct S as (E1 & E2 & _).
  apply wp_eq_Ok. unfold thread_run, pagedir_switch. ksteps. rewrite E2. ksteps. by rewrite Hpri.
Qed.

(** From there on the system keeps running: after any sequence of events the
    next one that is allowed runs to its end. *)
Theorem kmain_progress kmem text task_idle mods Us c s r s1 rs s2 e : 0xE0000000 <= text ->
  Forall2 (module_ok kmem) mods Us -> mods <> [] -> no_tasks s (sum_list (module_frames <$> Us) + r) ->
  nextpid (k_g s) = 1 -> 1 + Z.of_nat (length mods) < W32 ->
  kmain_tasks kmem text task_idle mods c s = Ok (rs, s1) -> reachable s1 s2 -> allowed s2 e ->
  exists s3, run_event e s2 = Ok (tt, s3) /\ sys s3.
Proof.
  intros Htext HF Hne N Hp Hl E R Ha.
  destruct (kmain_ok kmem text task_idle mods Us c s r) as (s' & ts & E' & Y & _); try done.
  rewrite E in E'. injection E' as _ ->. by apply event_ok; [apply (reachable_sys s')|].
Qed.

(** With no module there is no process: the first switch stops the kernel. *)
Theorem kmain_no_modules kmem text task_idle c s r : no_tasks s r -> processes (k_g s) = 0 ->
  kmain_tasks kmem text task_idle [] c s = Fault Panic.
Proof.
  intros [Y N1 N2 N3 N4 N5] Hp. destruct c as [[esp ebp] eip].
  set (s0 := KState (k_st s) (set_frequency 30 (k_g s))).
  assert (N : no_tasks s0 r) by (split; try done; destruct Y; by split).
  destruct (tasking_init_ok task_idle s0 _ N) as (s1 & i & kp & k & th & E1 & _ & _ & _ & _ & _ & P1); [done|].
  unfold kmain_tasks, timer_init. krun. fold s0. rewrite (bind_Ok _ _ _ _ _ E1). cbn [load_modules]. unfold sti. krun.
  apply bind_Fault. unfold switch, tasking_switch. krun.
  replace (processes _) with 0; [done|]. destruct (0 <? if_locks (k_g s1)); symmetry; cbn; rewrite P1; exact Hp.
Qed.
