(* ===== verification/Kmem.v ===== *)
(** * Kernel memory

    [src/kernel/mem/mem.c]: the pages kept in advance for page tables and
    directories, and [kmalloc] before the kernel heap exists; with the heap
    it is in [KHeap].  [pagedir_getPage] appears here with the allocator of
    this file below it: making a page table takes a page of the cache, and
    filling the cache can make a page table.  The flag [locked] cuts that
    recursion; [kmalloc_page] runs with the two levels it has.

    Page tables are stored at the virtual addresses of their pages.  In the
    invariant [cache_inv] a page is in use when it is in the cache, is a
    page table, or was given to somebody. *)

From S2P Require Import Prelude Memory Bitset Heap HeapIndex HeapBlocks HeapOps HeapAlloc HeapSpec Kernel Paging Tasking.

Definition FREEPAGESTOKEEP : Z := 5.
Definition KHEAP_IDXSIZE : Z := 0x1000.
Definition KHEAP_INITSIZE : Z := 0x8000.
Definition KHEAP_MAXSIZE : Z := 0x08000000.

Record freepage := FreePage { fp_virt : Z; fp_phys : Z }.

(** The variables of [mem.c], [locked] being the static one of
    [get_free_pages]. *)
Record pcache := PCache {
  mem_placementAddr : Z;
  kheap_working : Z;
  freepages : list freepage;
  freepagecount : Z;
  locked : Z
}.

Record mstate := MState { m_k : kstate; m_c : pcache }.

Definition set_mk (k : kstate) (s : mstate) : mstate := MState k (m_c s).
Definition set_mc (c : pcache) (s : mstate) : mstate := MState (m_k s) c.

Definition set_placement (x : Z) (c : pcache) : pcache :=
  PCache x (kheap_working c) (freepages c) (freepagecount c) (locked c).
Definition set_working (x : Z) (c : pcache) : pcache :=
  PCache (mem_placementAddr c) x (freepages c) (freepagecount c) (locked c).
Definition set_freepages (x : list freepage) (c : pcache) : pcache :=
  PCache (mem_placementAddr c) (kheap_working c) x (freepagecount c) (locked c).
Definition set_count (x : Z) (c : pcache) : pcache :=
  PCache (mem_placementAddr c) (kheap_working c) (freepages c) x (locked c).
Definition set_locked (x : Z) (c : pcache) : pcache :=
  PCache (mem_placementAddr c) (kheap_working c) (freepages c) (freepagecount c) x.

Definition lift_k {A} (m : M kstate A) : M mstate A := zoom m_k set_mk m.
Definition getc {A} (f : pcache -> A) : M mstate A := gets (fun s => f (m_c s)).
Definition setc (f : pcache -> pcache) : M mstate unit := modify (fun s => set_mc (f (m_c s)) s).

(** [kmalloc] while [kheap_working] is 0. *)
Definition early_kmalloc (size : Z) : M mstate Z :=
  tmp ← getc mem_placementAddr;
  setc (set_placement (w32 (tmp + size)));;
  mret tmp.

(** ** The cache *)

(** [freepages[i]], as a value and as a place. *)
Definition get_slot (i : Z) : M mstate freepage := fun s =>
  match freepages (m_c s) !! Z.to_nat i with
  | Some e => Ok (e, s)
  | None => Fault (BadAccess i)
  end.
Definition put_slot (i : Z) (f : freepage -> freepage) : M mstate unit :=
  e ← get_slot i; setc (fun c => set_freepages (<[Z.to_nat i := f e]> (freepages c)) c).
Definition set_virt (v : Z) (e : freepage) : freepage := FreePage v (fp_phys e).
Definition set_phys (p : Z) (e : freepage) : freepage := FreePage (fp_virt e) p.

(** [memset(table, 0, 0x1000)] of the page at [t], backed by the frame at
    [phys]. *)
Definition clear_table (t phys : Z) : M kstate unit :=
  modify (fun s => set_st (set_k_tables (<[t := PageTable ∅ (phys / 0x1000)]> (k_tables (k_st s))) (k_st s)) s).

(** A new page table enters the directory (and, in the kernel half, those of
    the processes). *)
Definition enter_table (pd idx t phys : Z) : M kstate unit :=
  update pd (set_table idx t phys);;
  when (896 <=? idx) (tasking_updateKernelPagetable idx t phys);;
  clear_table t phys;;
  update pd (fun d => set_tablesPhysical (<[idx := Z.lor (dir_phys d idx) 0x07]> (tablesPhysical d)) d).

Section below.
(** [kmalloc_page], called from below. *)
Context (kmalloc_page : M mstate (ptr * Z)).

Definition pagedir_getPage (pd address : ptr) (make : bool) : M mstate page_ptr :=
  let address := address / 0x1000 in
  let table_idx := address / 1024 in
  d ← lift_k (load (A := page_directory) pd);
  if negb (dir_table d table_idx =? 0) then mret (Some (dir_table d table_idx, address mod 1024))
  else if make then
    tp ← kmalloc_page;
    let '(t, phys) := tp in
    lift_k (enter_table pd table_idx t phys);;
    mret (Some (t, address mod 1024))
  else mret None.

(** One round of the search for a free virtual page. *)
Definition find_page (i : Z) : M mstate (Z + Z) :=
  if i <? 0xF0000000 then mret (inr i)
  else
    kd ← lift_k (getg kernel_pagedir);
    p ← pagedir_getPage kd i true;
    match p with
    | None => fail NullDeref
    | Some p =>
        g ← lift_k (get_page p);
        if pg_frame g =? 0 then mret (inr i) else mret (inl (w32 (i - 0x1000)))
    end.

(** One page for the cache, when the heap works. *)
Definition fill_one : M mstate unit :=
  i ← loop 65538 find_page 0xFFFFF000;
  n ← getc freepagecount;
  put_slot n (set_virt i);;
  f ← lift_k (lift_frames frame_alloc);
  n ← getc freepagecount;
  put_slot n (set_phys (w32 (f * 0x1000)));;
  kd ← lift_k (getg kernel_pagedir);
  p ← pagedir_getPage kd i false;
  n ← getc freepagecount;
  e ← get_slot n;
  lift_k (page_map p (fp_phys e / 0x1000) 0 0);;
  setc (fun c => set_count (w32 (freepagecount c + 1)) c).

(** And before: this branch is taken when [kheap_working] is 0. *)
Definition fill_early : M mstate unit :=
  a ← getc mem_placementAddr;
  when (negb (page_mask a =? 0))
    (setc (set_placement (page_mask a));;
     setc (fun c => set_placement (w32 (mem_placementAddr c + 0x1000)) c));;
  n ← getc freepagecount;
  v ← early_kmalloc 0x1000;
  put_slot n (set_virt v);;
  e ← get_slot n;
  put_slot n (set_phys (w32 (fp_virt e - 0xE0000000)));;
  setc (fun c => set_count (w32 (freepagecount c + 1)) c).

Definition fill_round (_ : unit) : M mstate (unit + unit) :=
  n ← getc freepagecount;
  if n <? FREEPAGESTOKEEP then
    w ← getc kheap_working;
    (if negb (w =? 0) then fill_one else fill_early);; mret (inl tt)
  else mret (inr tt).

Definition get_free_pages : M mstate unit :=
  l ← getc locked;
  if negb (l =? 0) then mret tt
  else
    setc (set_locked 1);;
    loop 8 fill_round tt;;
    setc (set_locked 0).

End below.

Fixpoint kmalloc_page_fuel (fuel : nat) : M mstate (ptr * Z) :=
  match fuel with
  | O => fail NoFuel
  | Datatypes.S fuel' =>
      lift_k cli;;
      get_free_pages (kmalloc_page_fuel fuel');;
      setc (fun c => set_count (w32 (freepagecount c - 1)) c);;
      n ← getc freepagecount;
      e ← get_slot n;
      let phys := fp_phys e in
      n ← getc freepagecount;
      e ← get_slot n;
      let tmp := fp_virt e in
      lift_k sti;;
      mret (tmp, phys)
  end.

Definition kmalloc_page : M mstate (ptr * Z) := kmalloc_page_fuel 2.

Definition getPage : ptr -> ptr -> bool -> M mstate page_ptr := pagedir_getPage kmalloc_page.

Definition kfree_page (p : ptr) : M mstate unit :=
  w ← getc kheap_working;
  when (negb (w =? 0))
    (kd ← lift_k (getg kernel_pagedir);
     g ← getPage kd p false;
     lift_k (page_unmapFree g)).

(** ** Specification *)

(** The kernel directory and what it shows at [v]. *)
Definition kdir (k : kstate) : option page_directory :=
  k_pagedirs (k_st k) !! kernel_pagedir (k_g k).
Definition ktable (k : kstate) (i : Z) : ptr :=
  match kdir k with Some d => dir_table d i | None => 0 end.
Definition kpage (k : kstate) (v : Z) : option page :=
  if ktable k (table_of v) =? 0 then None
  else tb ← k_tables (k_st k) !! ktable k (table_of v); Some (table_page tb (index_of v)).
Definition kframe (k : kstate) (v : Z) : Z :=
  match kpage k v with Some g => pg_frame g | None => 0 end.

(** The pages of the kernel; the one at 0xE0000000 shows frame 0, which the
    code takes for "not mapped". *)
Definition kspace (v : Z) : Prop := 0xE0001000 <= v < W32 /\ v mod 4096 = 0.

(** Those the cache takes its virtual addresses from. *)
Definition window (v : Z) : Prop := 0xF0000000 <= v < W32 /\ v mod 4096 = 0.

(** The mapping the kernel gives its own pages. *)
Definition kmapped (f : Z) : page := Page 1 0 0 f.

(** A page address and its frame, as the cache stores them. *)
Definition entry_ok (k : kstate) (e : freepage) : Prop :=
  0xE0000000 <= fp_virt e < W32 /\ fp_virt e mod 4096 = 0 /\
  0 < fp_phys e < W32 /\ fp_phys e mod 4096 = 0 /\
  (kspace (fp_virt e) -> kpage k (fp_virt e) = Some (kmapped (fp_phys e / 4096))).

(** Every process has a directory of its own. *)
Definition procs_ok (k : kstate) : Prop :=
  exists l, linked (k_processes (k_st k)) (processes (k_g k)) l /\
    forall x pr, x ∈ l -> k_processes (k_st k) !! x = Some pr ->
      p_pagedir pr <> 0 /\ p_pagedir pr <> kernel_pagedir (k_g k) /\
      is_Some (k_pagedirs (k_st k) !! p_pagedir pr).

(** [l] is in the cache and [C] was given out; page tables are the third
    use of a page.  A page in use is mapped, to a frame of its own. *)
Record cache_inv (k : kstate) (l : list freepage) (C : gset Z) : Prop := {
  ci_dir : kernel_pagedir (k_g k) <> 0 /\ is_Some (kdir k);
  ci_procs : procs_ok k;
  ci_frames : wf_bitset (frames (k_g k)) /\ 32 * capacity (frames (k_g k)) <= 0x100000 /\
              bit_at (frames (k_g k)) 0 = true;
  ci_tables i : 896 <= i < 1024 -> ktable k i <> 0 -> is_Some (k_tables (k_st k) !! ktable k i);
  ci_inj i j : 896 <= i < 1024 -> 896 <= j < 1024 -> ktable k i <> 0 ->
               ktable k i = ktable k j -> i = j;
  ci_zero v g : kspace v -> kpage k v = Some g -> pg_frame g = 0 -> pg_present g = 0;
  ci_used v : kspace v -> kframe k v <> 0 ->
              managed (frames (k_g k)) (kframe k v) /\ bit_at (frames (k_g k)) (kframe k v) = true;
  ci_own v w : kspace v -> kspace w -> kframe k v <> 0 -> kframe k v = kframe k w -> v = w;
  ci_nodup : NoDup (fp_virt <$> l);
  ci_entries e : e ∈ l -> entry_ok k e;
  ci_apart v : v ∈ fp_virt <$> l -> v ∉ C /\ k_tables (k_st k) !! v = None;
  ci_clients v : v ∈ C -> k_tables (k_st k) !! v = None;
  ci_held v : v ∈ C \/ is_Some (k_tables (k_st k) !! v) -> kspace v -> kframe k v <> 0
}.

(** The cache of [s] between two calls: four pages or five. *)
Definition cached (s : mstate) : list freepage :=
  take (Z.to_nat (freepagecount (m_c s))) (freepages (m_c s)).
Definition cache_ok (s : mstate) (C : gset Z) : Prop :=
  cache_inv (m_k s) (cached s) C /\ length (freepages (m_c s)) = 5%nat /\
  4 <= freepagecount (m_c s) <= 5 /\ kheap_working (m_c s) <> 0 /\ locked (m_c s) = 0.

(** [k'] differs from [k] in page tables, page directories, frames and the
    count of [cli]s at most. *)
Record beside (k k' : kstate) : Prop := {
  bs_stores : k_st k' = set_k_pagedirs (k_pagedirs (k_st k')) (set_k_tables (k_tables (k_st k')) (k_st k));
  bs_globals : k_g k' = set_if_locks (if_locks (k_g k')) (set_frames (frames (k_g k')) (k_g k))
}.

(** Some page of the window is not mapped; [n] pages are not. *)
Definition has_room (k : kstate) : Prop := exists v, window v /\ kframe k v = 0.

Definition room (k : kstate) (n : nat) : Prop :=
  exists l, NoDup l /\ length l = n /\ forall v, v ∈ l -> window v /\ kframe k v = 0.

(** ** What stays beside the page tables *)

#[export] Instance beside_preorder : PreOrder beside.
Proof.
  split.
  - intros [st g]. split; [by destruct st | by destruct g].
  - intros k1 k2 k3 [S1 G1] [S2 G2]. split; [rewrite S2, S1 | rewrite G2, G1]; reflexivity.
Qed.

Lemma beside_frames k b : beside k (KState (k_st k) (set_frames b (k_g k))).
Proof. destruct k as [st g]. split; [by destruct st | by destruct g]. Qed.

Lemma beside_locks k x : beside k (KState (k_st k) (set_if_locks x (k_g k))).
Proof. destruct k as [st g]. split; [by destruct st | by destruct g]. Qed.

(** ** Pages and tables *)

Lemma kspace_table v : kspace v -> 896 <= table_of v < 1024.
Proof. intros [? ?]. unfold table_of. Z.div_mod_to_equations. lia. Qed.

Lemma window_table v : window v -> 960 <= table_of v < 1024.
Proof. intros [? ?]. unfold table_of. Z.div_mod_to_equations. lia. Qed.

(** The window has page tables of its own. *)
Lemma table_apart v x : window v -> kspace x -> ~ window x -> table_of x <> table_of v.
Proof.
  intros Hv [Hx Ha] Hn. assert (x < 0xF0000000) by (destruct (Z.lt_ge_cases x 0xF0000000); [done|]; by destruct Hn; split; [lia|]).
  apply window_table in Hv. unfold table_of in *. Z.div_mod_to_equations. lia.
Qed.

Lemma window_kspace v : window v -> kspace v.
Proof. intros [? ?]. split; [lia | done]. Qed.

Lemma page_coords v w : v mod 4096 = 0 -> w mod 4096 = 0 ->
  table_of v = table_of w -> index_of v = index_of w -> v = w.
Proof. unfold table_of, index_of. intros. Z.div_mod_to_equations. lia. Qed.

Lemma table_page_insert tb i g j f :
  table_page (PageTable (<[i := g]> (pages tb)) f) j = if decide (j = i) then g else table_page tb j.
Proof.
  unfold table_page. cbn [pages]. destruct (decide (j = i)) as [->|]; [by rewrite lookup_insert_eq|].
  by rewrite lookup_insert_ne.
Qed.

Lemma kpage_Some k v tb : ktable k (table_of v) <> 0 ->
  k_tables (k_st k) !! ktable k (table_of v) = Some tb -> kpage k v = Some (table_page tb (index_of v)).
Proof. intros Ht E. unfold kpage. rewrite (proj2 (Z.eqb_neq _ _) Ht). by rewrite E. Qed.

Lemma kpage_inv k v g : kpage k v = Some g -> exists tb, ktable k (table_of v) <> 0 /\
  k_tables (k_st k) !! ktable k (table_of v) = Some tb /\ g = table_page tb (index_of v).
Proof.
  unfold kpage. destruct (Z.eqb_spec (ktable k (table_of v)) 0); [done|].
  destruct (k_tables (k_st k) !! _) as [tb|] eqn:E; cbn; [|done]. intros [= <-]. by exists tb.
Qed.

(** Writing one page of the kspace. *)
Definition put_kpage (v : Z) (tb : page_table) (g : page) (b : bitset) (k : kstate) : kstate :=
  with_page (ktable k (table_of v)) (index_of v) tb g (KState (k_st k) (set_frames b (k_g k))).

Lemma kpage_put_apart k v tb g b x : v mod 4096 = 0 -> x mod 4096 = 0 ->
  (ktable k (table_of x) = ktable k (table_of v) -> table_of x = table_of v) ->
  ktable k (table_of v) <> 0 -> k_tables (k_st k) !! ktable k (table_of v) = Some tb ->
  kpage (put_kpage v tb g b k) x = if decide (x = v) then Some g else kpage k x.
Proof.
  intros Hv Hx Hi Ht E. set (k' := put_kpage v tb g b k).
  assert (Ek : forall i, ktable k' i = ktable k i) by reflexivity.
  assert (Et : k_tables (k_st k') =
    <[ktable k (table_of v) := PageTable (<[index_of v := g]> (pages tb)) (pt_frame tb)]> (k_tables (k_st k)))
    by reflexivity.
  unfold kpage. rewrite Ek, Et. destruct (decide (x = v)) as [->|Hne].
  - rewrite (proj2 (Z.eqb_neq _ _) Ht), lookup_insert_eq. cbn. rewrite table_page_insert.
    by rewrite decide_True.
  - destruct (Z.eqb_spec (ktable k (table_of x)) 0) as [|Hx0]; [done|].
    destruct (decide (ktable k (table_of x) = ktable k (table_of v))) as [Eq|Hq].
    + rewrite Eq, lookup_insert_eq, E. cbn. rewrite table_page_insert, decide_False; [done|].
      intros Ei. apply Hne. by apply page_coords; auto.
    + by rewrite lookup_insert_ne by done.
Qed.

Lemma kpage_put k l C v tb g b x : cache_inv k l C -> kspace v -> kspace x ->
  ktable k (table_of v) <> 0 -> k_tables (k_st k) !! ktable k (table_of v) = Some tb ->
  kpage (put_kpage v tb g b k) x = if decide (x = v) then Some g else kpage k x.
Proof.
  intros HI Hv Hx Ht E. apply kpage_put_apart; [apply Hv | apply Hx | | done | done].
  intros Eq. symmetry. eapply ci_inj; [done | by apply kspace_table | by apply kspace_table | done | done].
Qed.

Lemma beside_put v tb g b k : beside k (put_kpage v tb g b k).
Proof. destruct k as [st gl]. split; [by destruct st | by destruct gl]. Qed.

(** The frame of a page, after it. *)
Lemma kframe_put k l C v tb g b x : cache_inv k l C -> kspace v -> kspace x ->
  ktable k (table_of v) <> 0 -> k_tables (k_st k) !! ktable k (table_of v) = Some tb ->
  kframe (put_kpage v tb g b k) x = if decide (x = v) then pg_frame g else kframe k x.
Proof.
  intros. unfold kframe. erewrite kpage_put by done. by destruct (decide (x = v)).
Qed.

Lemma put_tables k v tb g b x : k_tables (k_st k) !! ktable k (table_of v) = Some tb ->
  is_Some (k_tables (k_st (put_kpage v tb g b k)) !! x) <-> is_Some (k_tables (k_st k) !! x).
Proof.
  intros E. cbn. destruct (decide (x = ktable k (table_of v))) as [->|];
    [rewrite lookup_insert_eq | rewrite lookup_insert_ne by done]; [|done].
  rewrite E. split; eauto.
Qed.

Lemma put_tables_None k v tb g b x : k_tables (k_st k) !! ktable k (table_of v) = Some tb ->
  k_tables (k_st (put_kpage v tb g b k)) !! x = None <-> k_tables (k_st k) !! x = None.
Proof. intros E. by rewrite !eq_None_not_Some, put_tables. Qed.

(** Changing the mapping of one page keeps what the invariant says of the
    others. *)
Lemma put_inv k l C v tb g b l' C' :
  let k' := put_kpage v tb g b k in
  cache_inv k l C -> kspace v -> ktable k (table_of v) <> 0 ->
  k_tables (k_st k) !! ktable k (table_of v) = Some tb ->
  wf_bitset b -> capacity b = capacity (frames (k_g k)) -> bit_at b 0 = true ->
  (forall n, 0 <= n -> n <> kframe k v -> bit_at (frames (k_g k)) n = true -> bit_at b n = true) ->
  (pg_frame g = 0 -> pg_present g = 0) ->
  (pg_frame g <> 0 -> managed b (pg_frame g) /\ bit_at b (pg_frame g) = true /\
     forall x, kspace x -> kframe k x <> pg_frame g) ->
  NoDup (fp_virt <$> l') -> (forall e, e ∈ l' -> entry_ok k' e) ->
  (forall x, x ∈ fp_virt <$> l' -> x ∉ C' /\ k_tables (k_st k) !! x = None) ->
  (forall x, x ∈ C' -> k_tables (k_st k) !! x = None) ->
  (forall x, x ∈ C' \/ is_Some (k_tables (k_st k) !! x) -> kspace x -> x <> v -> kframe k x <> 0) ->
  (v ∈ C' \/ is_Some (k_tables (k_st k) !! v) -> pg_frame g <> 0) ->
  cache_inv k' l' C'.
Proof.
  intros k' HI Hv Ht E Hwf Hsz H0 Hkeep Hz Hf Hnd He Ha Hc Hh Hhv.
  assert (Fr : forall x, kspace x -> kframe k' x = if decide (x = v) then pg_frame g else kframe k x)
    by (intros; by eapply kframe_put).
  split; try (exact Hnd || exact He).
  - exact (ci_dir _ _ _ HI).
  - exact (ci_procs _ _ _ HI).
  - destruct (ci_frames _ _ _ HI) as (_ & Hs & _). cbn. by rewrite Hsz.
  - intros i Hi Hti. apply put_tables; [done|]. by apply (ci_tables _ _ _ HI).
  - exact (ci_inj _ _ _ HI).
  - intros x g' Hx Eg. unfold k' in Eg. erewrite kpage_put in Eg by done.
    destruct (decide (x = v)); [by simplify_eq | by apply (ci_zero _ _ _ HI x)].
  - intros x Hx. rewrite Fr by done. cbn. destruct (decide (x = v)) as [->|Hne].
    + intros Hg. destruct (Hf Hg) as (? & ? & _). done.
    + intros Hnz. destruct (ci_used _ _ _ HI x Hx Hnz) as [Hm Hb]. unfold managed in *.
      rewrite Hsz. split; [done|]. apply Hkeep; [lia | | done].
      intros Eq. apply Hne. by eapply ci_own.
  - intros x y Hx Hy. rewrite !Fr by done.
    destruct (decide (x = v)) as [->|], (decide (y = v)) as [->|]; intros Hnz Eq; try done.
    + apply Hf in Hnz as (_ & _ & Hn). by destruct (Hn y Hy).
    + rewrite Eq in Hnz. apply Hf in Hnz as (_ & _ & Hn). by destruct (Hn x Hx).
    + by eapply ci_own.
  - intros x Hx. destruct (Ha x Hx). split; [done|]. by apply put_tables_None.
  - intros x Hx. apply put_tables_None; auto.
  - intros x Hx Hw. unfold k' in Hx; rewrite put_tables in Hx by done. rewrite Fr by done.
    destruct (decide (x = v)) as [->|]; auto.
Qed.

Lemma entry_frame k e : entry_ok k e -> kspace (fp_virt e) -> kframe k (fp_virt e) = fp_phys e / 4096 /\ fp_phys e / 4096 <> 0.
Proof.
  intros (_ & _ & Hp & Hm & Hk) Hw. unfold kframe. rewrite Hk by done. cbn. split; [done|].
  Z.div_mod_to_equations. lia.
Qed.

(** A cached page is mapped, so it is not found again. *)
Lemma free_not_cached k l C v : cache_inv k l C -> kspace v -> kframe k v = 0 ->
  v ∉ fp_virt <$> l /\ v ∉ C /\ k_tables (k_st k) !! v = None.
Proof.
  intros HI Hv H0. split; [|split].
  - intros (e & -> & He)%list_elem_of_fmap. apply (ci_entries _ _ _ HI) in He.
    destruct (entry_frame _ _ He Hv). congruence.
  - intros Hc. by apply (ci_held _ _ _ HI v); [left|..].
  - apply eq_None_not_Some. intros Hc. by apply (ci_held _ _ _ HI v); [right|..].
Qed.

(** Entries survive a change of another page. *)
Lemma entry_put k l C v tb g b e : cache_inv k l C -> kspace v -> ktable k (table_of v) <> 0 ->
  k_tables (k_st k) !! ktable k (table_of v) = Some tb ->
  fp_virt e <> v -> entry_ok k e -> entry_ok (put_kpage v tb g b k) e.
Proof.
  intros HI Hv Ht E Hne (H1 & H2 & H3 & H4 & H5). repeat (split; [done|]). intros Hw.
  erewrite kpage_put by done. rewrite decide_False; auto.
Qed.

(** A new page for the cache. *)
Lemma map_inv k l C v tb f b : cache_inv k l C -> kspace v -> ktable k (table_of v) <> 0 ->
  k_tables (k_st k) !! ktable k (table_of v) = Some tb -> kframe k v = 0 ->
  managed (frames (k_g k)) f -> bit_at (frames (k_g k)) f = false ->
  wf_bitset b -> capacity b = capacity (frames (k_g k)) ->
  (forall n, 0 <= n -> bit_at b n = if n =? f then true else bit_at (frames (k_g k)) n) ->
  cache_inv (put_kpage v tb (kmapped f) b k) (l ++ [FreePage v (f * 0x1000)]) C /\ 0 < f < 0x100000.
Proof.
  intros HI Hv Ht E Hz Hm Hbf Hwf Hsz Hb.
  destruct (ci_frames _ _ _ HI) as (Hwf0 & Hs & H0). destruct (free_not_cached _ _ _ _ HI Hv Hz) as (N1 & N2 & N3).
  assert (Hf : 0 < f < 0x100000).
  { unfold managed in Hm. destruct (Z.eq_dec f 0) as [->|]; [congruence | lia]. }
  split; [|done]. eapply put_inv; try done; cbn [kmapped pg_frame].
  - rewrite Hb by lia. by destruct (0 =? f).
  - intros n Hn _ Hn1. rewrite Hb by lia. by destruct (n =? f).
  - lia.
  - intros _. unfold managed in *. rewrite Hsz, Hb, Z.eqb_refl by lia. split; [done|]. split; [done|].
    intros x Hx Ex. destruct (ci_used _ _ _ HI x Hx ltac:(lia)) as [_ Hu]. congruence.
  - rewrite fmap_app. apply NoDup_app. split; [apply HI|]. split; [set_solver|]. apply NoDup_singleton.
  - intros e [He| ->%list_elem_of_singleton]%elem_of_app.
    + eapply entry_put; try done; [|by apply (ci_entries _ _ _ HI)].
      intros <-. apply N1. by apply list_elem_of_fmap_2.
    + destruct Hv as [Hv1 Hv2]. unfold entry_ok. cbn [fp_virt fp_phys].
      rewrite Z.mod_mul, Z.div_mul by lia. split; [lia|]. split; [done|]. split; [lia|]. split; [done|].
      intros Hw. erewrite kpage_put by done. by rewrite decide_True.
  - rewrite fmap_app. intros x [Hx| ->%list_elem_of_singleton]%elem_of_app; [|done].
    by apply (ci_apart _ _ _ HI).
  - apply HI.
  - intros x Hx Hw _. by apply (ci_held _ _ _ HI).
  - lia.
Qed.

(** A page leaves the cache for a client. *)
Lemma give_inv k l e C : cache_inv k (l ++ [e]) C -> cache_inv k l ({[ fp_virt e ]} ∪ C) /\ fp_virt e ∉ C.
Proof.
  intros HI. pose proof (ci_nodup _ _ _ HI) as Hnd. rewrite fmap_app in Hnd.
  apply NoDup_app in Hnd as (Hnd & Hd & _).
  assert (He : e ∈ l ++ [e]) by set_solver.
  assert (Hev : fp_virt e ∈ fp_virt <$> l ++ [e]) by by apply list_elem_of_fmap_2.
  destruct (ci_apart _ _ _ HI _ Hev) as [Hc Hn]. split; [|done]. destruct HI. split; try done.
  - intros e' He'. apply ci_entries0. set_solver.
  - intros v Hv. assert (Hne : v <> fp_virt e) by (intros ->; apply (Hd _ Hv); set_solver).
    destruct (ci_apart0 v); [rewrite fmap_app; set_solver|]. set_solver.
  - intros v [->%elem_of_singleton|Hv]%elem_of_union; auto.
  - intros v [[->%elem_of_singleton|Hv]%elem_of_union|Hv] Hw; auto.
    destruct (entry_frame k e) as [-> ?]; auto.
Qed.

(** [k'] is [k] with a table at [t], empty, as entry [idx] of the kernel
    directory. *)
Record with_table (k : kstate) (idx t phys : Z) (k' : kstate) : Prop := {
  wt_globals : k_g k' = k_g k;
  wt_tables : k_tables (k_st k') = <[t := PageTable ∅ (phys / 0x1000)]> (k_tables (k_st k));
  wt_dir : is_Some (kdir k');
  wt_entry i : ktable k' i = if decide (i = idx) then t else ktable k i;
  wt_procs : procs_ok k';
  wt_beside : beside k k'
}.

Lemma enter_table_ok k idx t phys : procs_ok k -> kernel_pagedir (k_g k) <> 0 -> is_Some (kdir k) ->
  896 <= idx -> t <> 0 ->
  exists k', enter_table (kernel_pagedir (k_g k)) idx t phys k = Ok (tt, k') /\ with_table k idx t phys k'.
Proof.
  intros (l & Hl & Hps) Hkd (d & Ed) Hi Ht. unfold kdir in Ed. set (kd := kernel_pagedir (k_g k)) in *.
  set (d1 := set_table idx t phys d).
  set (k1 := set_st (set_k_pagedirs (<[kd := d1]> (k_pagedirs (k_st k))) (k_st k)) k).
  destruct (update_loop_ok idx t phys l (processes (k_g k)) (2 + size (k_processes (k_st k1))) k1)
    as (ds & E & H1 & _ & H3); [done | | |].
  { pose proof (linked_length _ _ _ Hl). cbn. lia. }
  { intros x pr Hx Ex. destruct (Hps x pr Hx Ex) as (? & Hne & Hs). split; [done|]. cbn.
    by rewrite lookup_insert_ne. }
  assert (Ed1 : ds !! kd = Some d1).
  { rewrite H3; [apply lookup_insert_eq|]. intros x pr Hx Ex. by apply (Hps x pr). }
  set (d2 := set_tablesPhysical (<[idx := Z.lor (dir_phys d1 idx) 0x07]> (tablesPhysical d1)) d1).
  set (k' := KState (set_k_pagedirs (<[kd := d2]> ds) (set_k_tables (<[t := PageTable ∅ (phys / 0x1000)]>
               (k_tables (k_st k))) (k_st k))) (k_g k)).
  assert (Ek : kdir k' = Some d2) by (unfold kdir; cbn; apply lookup_insert_eq).
  exists k'. split.
  - apply wp_eq_Ok. unfold enter_table. ksteps. rewrite (proj2 (Z.leb_le _ _) Hi).
    unfold when, tasking_updateKernelPagetable. rewrite (proj2 (Z.ltb_ge _ _) Hi). ksteps.
    eapply wp_eq; [exact E|]. unfold clear_table, k1. ksteps. reflexivity.
  - split; [done | done | by rewrite Ek | | | by destruct k as [? []]; split].
    + intros i. unfold ktable at 1. rewrite Ek. unfold dir_table, d2, d1; cbn.
      destruct (decide (i = idx)) as [->|]; [by rewrite lookup_insert_eq|].
      rewrite lookup_insert_ne by done. unfold ktable, kdir. fold kd. by rewrite Ed.
    + exists l. split; [done|]. cbn. intros x pr Hx Ex. destruct (Hps x pr Hx Ex) as (? & Hne & _).
      split; [done|]. split; [done|]. rewrite lookup_insert_ne by done.
      destruct (H1 x pr Hx Ex) as (d' & -> & _). by eexists.
Qed.

(** With a new table, more pages can be mapped and the mapped ones stay. *)
Lemma with_table_page_apart k idx t phys k' x : with_table k idx t phys k' -> t <> 0 ->
  ktable k (table_of x) <> t ->
  kpage k' x = if decide (table_of x = idx) then Some zero_page else kpage k x.
Proof.
  intros W Ht Hn. unfold kpage. rewrite (wt_entry _ _ _ _ _ W), (wt_tables _ _ _ _ _ W).
  destruct (decide (table_of x = idx)) as [E|Hne].
  - rewrite (proj2 (Z.eqb_neq _ _) Ht), lookup_insert_eq. reflexivity.
  - by rewrite lookup_insert_ne by done.
Qed.

Lemma with_table_page k l C idx t phys k' x : cache_inv k l C -> with_table k idx t phys k' ->
  ktable k idx = 0 -> t <> 0 -> k_tables (k_st k) !! t = None -> kspace x ->
  kpage k' x = if decide (table_of x = idx) then Some zero_page else kpage k x.
Proof.
  intros HI W H0 Ht Hn Hx. eapply with_table_page_apart; [done | done |]. intros E.
  destruct (ci_tables _ _ _ HI (table_of x)) as [tb Etb]; [by apply kspace_table | congruence | congruence].
Qed.

Lemma with_table_frame k l C idx t phys k' x : cache_inv k l C -> with_table k idx t phys k' ->
  ktable k idx = 0 -> t <> 0 -> k_tables (k_st k) !! t = None -> kspace x ->
  kframe k' x = kframe k x.
Proof.
  intros HI W H0 Ht Hn Hx. unfold kframe. erewrite with_table_page by done.
  destruct (decide (table_of x = idx)) as [E|]; [|done]. unfold kpage. by rewrite E, H0.
Qed.

(** A page of the cache becomes a table. *)
Lemma table_inv k l e C idx k' : cache_inv k (l ++ [e]) C -> 896 <= idx < 1024 -> ktable k idx = 0 ->
  with_table k idx (fp_virt e) (fp_phys e) k' -> cache_inv k' l C.
Proof.
  intros HI Hi H0 W. pose proof (ci_nodup _ _ _ HI) as Hnd. rewrite fmap_app in Hnd.
  apply NoDup_app in Hnd as (Hnd & Hd & _).
  assert (Hin : e ∈ l ++ [e]) by set_solver. pose proof (ci_entries _ _ _ HI _ Hin) as He.
  assert (Ht : fp_virt e <> 0) by (destruct He; lia).
  destruct (ci_apart _ _ _ HI (fp_virt e)) as [Hec Hn]; [by apply list_elem_of_fmap_2|].
  assert (Fr : forall x, kspace x -> kframe k' x = kframe k x) by (intros; by eapply with_table_frame).
  assert (Pg : forall x g, kspace x -> kpage k x = Some g -> kpage k' x = Some g).
  { intros x g Hx Eg. erewrite with_table_page by done. destruct (decide (table_of x = idx)) as [E|]; [|done].
    unfold kpage in Eg. by rewrite E, H0 in Eg. }
  pose proof (wt_entry _ _ _ _ _ W) as En. pose proof (wt_tables _ _ _ _ _ W) as Tb.
  pose proof (wt_globals _ _ _ _ _ W) as Gl.
  split; rewrite ?Gl; try done.
  - split; [apply HI | apply W].
  - apply W.
  - apply HI.
  - intros i Hri. rewrite En, Tb. destruct (decide (i = idx)); [by rewrite lookup_insert_eq|].
    intros Hnz%(ci_tables _ _ _ HI); [|done]. apply lookup_insert_is_Some. by right; split; [intros E; rewrite <- E, Hn in Hnz; destruct Hnz|].
  - intros i j Hri Hrj. rewrite !En. destruct (decide (i = idx)) as [->|], (decide (j = idx)) as [->|]; try done.
    + intros _ E. destruct (ci_tables _ _ _ HI j Hrj) as [tb Etb]; congruence.
    + intros Hnz E. destruct (ci_tables _ _ _ HI i Hri Hnz) as [tb Etb]. congruence.
    + by apply (ci_inj _ _ _ HI).
  - intros x g Hx Eg. erewrite with_table_page in Eg by done.
    destruct (decide (table_of x = idx)); [by simplify_eq/= | by apply (ci_zero _ _ _ HI x)].
  - intros x Hx. rewrite Fr by done. by apply (ci_used _ _ _ HI).
  - intros x y Hx Hy. rewrite !Fr by done. by apply (ci_own _ _ _ HI).
  - intros e' He'. destruct (ci_entries _ _ _ HI e') as (G1 & G2 & G3 & G4 & G5); [set_solver|].
    repeat (split; [done|]). intros Hw. by apply Pg, G5.
  - intros x Hx. destruct (ci_apart _ _ _ HI x) as [Hc Hnx]; [rewrite fmap_app; set_solver|].
    split; [done|]. rewrite Tb, lookup_insert_ne; [done|]. intros <-. apply (Hd _ Hx). set_solver.
  - intros x Hx. rewrite Tb, lookup_insert_ne; [by apply (ci_clients _ _ _ HI)|]. congruence.
  - intros x Hx Hw. rewrite Fr by done. rewrite Tb in Hx.
    destruct (decide (x = fp_virt e)) as [->|]; [destruct (entry_frame _ _ He Hw); congruence|].
    rewrite lookup_insert_ne in Hx by done. by apply (ci_held _ _ _ HI).
Qed.

(** ** Running the cache *)

Lemma lift_k_eq {A} (m : M kstate A) s a k : m (m_k s) = Ok (a, k) -> lift_k m s = Ok (a, set_mk k s).
Proof. intros E. unfold lift_k, zoom. by rewrite E. Qed.

(** Between the two statements that set and clear [locked]. *)
Record filling (s : mstate) (C : gset Z) : Prop := {
  fl_inv : cache_inv (m_k s) (cached s) C;
  fl_len : length (freepages (m_c s)) = 5%nat;
  fl_count : 1 <= freepagecount (m_c s) <= 5;
  fl_working : kheap_working (m_c s) <> 0;
  fl_locked : locked (m_c s) <> 0
}.

#[export] Instance window_dec v : Decision (window v).
Proof. unfold window. apply _. Defined.

(** The highest free page. *)
Definition top (k : kstate) (v : Z) : Prop :=
  window v /\ kframe k v = 0 /\ forall x, window x -> v < x -> kframe k x <> 0.

Lemma window_down v : window v -> 0xF0000000 < v -> window (v - 4096).
Proof. intros [? ?] ?. split; Z.div_mod_to_equations; lia. Qed.

Lemma has_room_top k : has_room k -> exists v, top k v.
Proof.
  intros (v & Hv & H0).
  assert (Hn : forall n v, window v -> kframe k v = 0 -> (W32 - v) / 4096 <= Z.of_nat n -> exists v, top k v).
  { clear. induction n as [|n IH]; intros v Hv H0 Hn.
    - destruct Hv as [? ?]. exfalso. Z.div_mod_to_equations. lia.
    - destruct (decide (Exists (fun x => window x /\ kframe k x = 0)
                          ((fun i => v + 4096 * Z.of_nat i) <$> seq 1 (Z.to_nat (W32 / 4096))))) as [Hex|Hno].
      + apply Exists_exists in Hex as (x & Hx & Hwx & Ex). apply list_elem_of_fmap in Hx as (i & -> & [Hi _]%elem_of_seq).
        eapply IH; [exact Hwx | done |]. Z.div_mod_to_equations. lia.
      + exists v. split; [done|]. split; [done|]. intros x Hx Hlt Ex. apply Hno, Exists_exists. exists x.
        split; [|done]. apply list_elem_of_fmap. exists (Z.to_nat ((x - v) / 4096)).
        destruct Hv as [? ?], Hx as [? ?]. rewrite elem_of_seq. split; Z.div_mod_to_equations; lia. }
  eapply (Hn (Z.to_nat ((W32 - v) / 4096)) v); [done | done |].
  destruct Hv. rewrite Z2Nat.id; [done|]. apply Z.div_pos; lia.
Qed.

Lemma scan_to kp s v s' : top (m_k s) v -> find_page kp v s = Ok (inr v, s') ->
  (forall i, window i -> v < i -> find_page kp i s = Ok (inl (w32 (i - 0x1000)), s)) ->
  forall n i, window i -> v <= i -> (i - v) / 4096 < Z.of_nat n ->
  loop n (find_page kp) i s = Ok (v, s').
Proof.
  intros [Hv _] Ev Hs n; induction n as [|n IH]; intros i Hi Hle Hn.
  - exfalso. Z.div_mod_to_equations. lia.
  - rewrite loop_S. destruct (Z.eq_dec i v) as [->|Hne]; [by rewrite (bind_Ok _ _ _ _ _ Ev)|].
    rewrite (bind_Ok _ _ _ _ _ (Hs i Hi ltac:(lia))). destruct Hv as [? ?], Hi as [? ?].
    rewrite w32_small by (unfold u32; lia). apply IH.
    + apply window_down; [done | lia].
    + Z.div_mod_to_equations. lia.
    + Z.div_mod_to_equations. lia.
Qed.

(** [pagedir_getPage] on an existing table. *)
Lemma getPage_present kp v mk s l C : cache_inv (m_k s) l C -> ktable (m_k s) (table_of v) <> 0 ->
  pagedir_getPage kp (kernel_pagedir (k_g (m_k s))) v mk s
  = Ok (Some (ktable (m_k s) (table_of v), index_of v), s).
Proof.
  intros HI Ht. destruct (ci_dir _ _ _ HI) as [Hkd [d Ed]]. unfold ktable in *. rewrite Ed in *.
  unfold pagedir_getPage. rewrite (bind_Ok _ _ s d s).
  - fold (table_of v). rewrite (proj2 (Z.eqb_neq _ _) Ht). reflexivity.
  - unfold lift_k, zoom. rewrite (load_Ok _ d) by done. by destruct s.
Qed.

(** The recursive call: the cache is locked, so it only takes a page. *)
Definition relock (l : Z) : Z := if 0 <? w32 (l + 1) then w32 (l + 1) - 1 else w32 (l + 1).
Definition unlocked (k : kstate) : kstate := KState (k_st k) (set_if_locks (relock (if_locks (k_g k))) (k_g k)).

Lemma relock_id l : 0 <= l < 0xFFFFFFFF -> relock l = l.
Proof. intros Hl. unfold relock. rewrite w32_small by (unfold u32; lia). by rewrite (proj2 (Z.ltb_lt _ _)), Z.add_simpl_r by lia. Qed.

Lemma locks_inv k l C x : cache_inv k l C -> cache_inv (KState (k_st k) (set_if_locks x (k_g k))) l C.
Proof. intros []. by split. Qed.

Lemma run_cli s : lift_k cli s = Ok (tt, set_mk (KState (k_st (m_k s)) (set_if_locks (w32 (if_locks (k_g (m_k s)) + 1)) (k_g (m_k s)))) s).
Proof. reflexivity. Qed.

Lemma cached_snoc s C : filling s C \/ cache_ok s C -> 1 <= freepagecount (m_c s) ->
  exists e, freepages (m_c s) !! Z.to_nat (freepagecount (m_c s) - 1) = Some e /\
    cached s = take (Z.to_nat (freepagecount (m_c s) - 1)) (freepages (m_c s)) ++ [e].
Proof.
  intros H Hc. assert (Hl : length (freepages (m_c s)) = 5%nat /\ freepagecount (m_c s) <= 5).
  { destruct H as [[]|(_ & ? & ? & _)]; lia. }
  destruct (lookup_lt_is_Some_2 (freepages (m_c s)) (Z.to_nat (freepagecount (m_c s) - 1))) as [e E]; [lia|].
  exists e. split; [done|]. unfold cached.
  replace (Z.to_nat (freepagecount (m_c s))) with (Datatypes.S (Z.to_nat (freepagecount (m_c s) - 1))) by lia.
  by apply take_S_r.
Qed.

(** Popping an entry. *)
Definition pop (s : mstate) : mstate :=
  MState (unlocked (m_k s)) (set_count (freepagecount (m_c s) - 1) (m_c s)).

Lemma unlocked_sti k : sti (KState (k_st k) (set_if_locks (w32 (if_locks (k_g k) + 1)) (k_g k))) = Ok (tt, unlocked k).
Proof.
  unfold sti, setg, modify, unlocked, relock. cbn. by destruct (0 <? w32 (if_locks (k_g k) + 1)).
Qed.

Lemma nested_ok s C e : filling s C -> 1 <= freepagecount (m_c s) ->
  freepages (m_c s) !! Z.to_nat (freepagecount (m_c s) - 1) = Some e ->
  kmalloc_page_fuel 1 s = Ok ((fp_virt e, fp_phys e), pop s).
Proof.
  intros [_ _ Hc _ Hl] Hc1 E. cbn [kmalloc_page_fuel].
  rewrite (bind_Ok _ _ _ _ _ (run_cli s)). unfold get_free_pages at 1, getc, setc, gets, modify, mbind, M_bind.
  cbn [m_c set_mk]. rewrite (proj2 (Z.eqb_neq _ _) Hl). cbn [negb mret M_ret].
  unfold set_mc. cbn [m_c m_k set_mk freepagecount set_count].
  rewrite w32_small by (unfold u32; lia). unfold get_slot.
  cbn [m_c freepages freepagecount set_count]. rewrite !E. unfold lift_k, zoom. cbn [m_k m_c set_mk freepages freepagecount set_count].
  rewrite !E. cbn [m_k m_c set_mk]. rewrite (unlocked_sti (m_k s)). reflexivity.
Qed.

Lemma pop_cached s C e : filling s C -> 1 <= freepagecount (m_c s) ->
  freepages (m_c s) !! Z.to_nat (freepagecount (m_c s) - 1) = Some e ->
  cached s = cached (pop s) ++ [e].
Proof.
  intros HF Hc E. destruct (cached_snoc s C (or_introl HF) Hc) as (e' & E' & ->).
  rewrite E in E'. injection E' as <-. reflexivity.
Qed.

(** What a call below the cache may change: nothing that is in use, and
    nothing below the window. *)
Record keeps (C : gset Z) (k k' : kstate) : Prop := {
  kp_dir : kernel_pagedir (k_g k') = kernel_pagedir (k_g k);
  kp_clients x : x ∈ C -> kspace x -> kpage k' x = kpage k x;
  kp_below x : kspace x -> ~ window x -> kpage k' x = kpage k x;
  kp_tables i : i < 960 -> ktable k' i = ktable k i;
  kp_beside : beside k k'
}.

Lemma keeps_refl C k : keeps C k k.
Proof. by split. Qed.

Lemma keeps_trans C k1 k2 k3 : keeps C k1 k2 -> keeps C k2 k3 -> keeps C k1 k3.
Proof.
  intros [E1 H1 B1 T1 S1] [E2 H2 B2 T2 S2]. split; [congruence|..|by etransitivity]; intros.
  - by rewrite H2, H1.
  - by rewrite B2, B1.
  - by rewrite T2, T1.
Qed.

Lemma keeps_locks C k k' x y : keeps C (KState (k_st k) (set_if_locks x (k_g k))) k' ->
  keeps C k (KState (k_st k') (set_if_locks y (k_g k'))).
Proof.
  intros [E H B T S]. split; try done. etransitivity; [apply (beside_locks k x)|].
  etransitivity; [exact S | apply beside_locks].
Qed.

Lemma table_page_kept k l C v x : cache_inv k l C -> ktable k (table_of v) = 0 -> x ∈ C -> kspace x ->
  table_of x <> table_of v.
Proof.
  intros HI H0 Hx Hw E. apply (ci_held _ _ _ HI x); [by left | done|].
  unfold kframe, kpage. by rewrite E, H0.
Qed.

(** Making a table takes one page of the cache. *)
Lemma make_table_ok s C v : filling s C -> 2 <= freepagecount (m_c s) -> window v ->
  ktable (m_k s) (table_of v) = 0 ->
  exists s', pagedir_getPage (kmalloc_page_fuel 1) (kernel_pagedir (k_g (m_k s))) v true s
             = Ok (Some (ktable (m_k s') (table_of v), index_of v), s') /\
    filling s' C /\ freepagecount (m_c s') = freepagecount (m_c s) - 1 /\
    frames (k_g (m_k s')) = frames (k_g (m_k s)) /\ keeps C (m_k s) (m_k s') /\
    ktable (m_k s') (table_of v) <> 0 /\
    forall x, kspace x -> kpage (m_k s') x =
      if decide (table_of x = table_of v) then Some zero_page else kpage (m_k s) x.
Proof.
  intros HF Hc Hv H0. pose proof (window_table _ Hv) as Hi.
  destruct (cached_snoc s C (or_introl HF) ltac:(lia)) as (e & E & _).
  pose proof (pop_cached _ _ _ HF ltac:(lia) E) as Ec.
  pose proof (fl_inv _ _ HF) as HI. rewrite Ec in HI.
  assert (HI' : cache_inv (m_k (pop s)) (cached (pop s) ++ [e]) C) by exact (locks_inv _ _ _ _ HI).
  assert (He : e ∈ cached (pop s) ++ [e]) by set_solver.
  assert (Ht : fp_virt e <> 0) by (destruct (ci_entries _ _ _ HI _ He); lia).
  destruct (ci_apart _ _ _ HI (fp_virt e)) as [_ Hn]; [by apply list_elem_of_fmap_2|].
  destruct (ci_dir _ _ _ HI) as [Hkd [d Ed]].
  destruct (enter_table_ok (m_k (pop s)) (table_of v) (fp_virt e) (fp_phys e)) as (k' & Ee & W);
    [apply (ci_procs _ _ _ HI') | done | by exists d | lia | done |].
  assert (Kt : ktable k' (table_of v) = fp_virt e)
    by (rewrite (wt_entry _ _ _ _ _ W); by rewrite decide_True).
  assert (Pg : forall x, kspace x -> kpage k' x =
    if decide (table_of x = table_of v) then Some zero_page else kpage (m_k s) x).
  { intros x Hx. exact (with_table_page _ _ _ _ _ _ _ _ HI' W H0 Ht Hn Hx). }
  exists (set_mk k' (pop s)). split; [|split; [|split; [|split; [|split; [|split]]]]].
  - unfold pagedir_getPage. rewrite (bind_Ok _ _ s d s).
    2:{ unfold lift_k, zoom. rewrite (load_Ok _ d) by done. by destruct s. }
    fold (table_of v). unfold ktable in H0. rewrite Ed in H0. rewrite H0. cbn [Z.eqb negb].
    rewrite (bind_Ok _ _ _ _ _ (nested_ok _ _ _ HF ltac:(lia) E)).
    rewrite (bind_Ok _ _ _ _ _ (lift_k_eq _ _ _ _ Ee)). cbn [set_mk m_k]. rewrite Kt. reflexivity.
  - destruct HF as [_ Hlen Hcnt Hw Hl]. split; cbn; try done; [|lia].
    eapply (table_inv _ _ _ _ (table_of v)); [exact HI' | lia | done | exact W].
  - reflexivity.
  - cbn [set_mk m_k]. by rewrite (wt_globals _ _ _ _ _ W).
  - cbn [set_mk m_k]. split; [by rewrite (wt_globals _ _ _ _ _ W)|..].
    + intros x Hx Hw. rewrite Pg by done. rewrite decide_False; [done|]. by eapply table_page_kept.
    + intros x Hx Hw. rewrite Pg by done. rewrite decide_False; [done|]. by apply table_apart.
    + intros i Hlt. rewrite (wt_entry _ _ _ _ _ W), decide_False by lia. done.
    + etransitivity; [apply beside_locks | exact (wt_beside _ _ _ _ _ W)].
  - cbn [set_mk m_k]. by rewrite Kt.
  - exact Pg.
Qed.

(** One round of the search. *)
Lemma find_present kp s l C v : cache_inv (m_k s) l C -> window v -> ktable (m_k s) (table_of v) <> 0 ->
  find_page kp v s = Ok (if kframe (m_k s) v =? 0 then inr v else inl (w32 (v - 0x1000)), s).
Proof.
  intros HI Hv Ht. destruct (ci_tables _ _ _ HI _ (kspace_table _ (window_kspace _ Hv)) Ht) as [tb E].
  unfold find_page. rewrite (proj2 (Z.ltb_ge _ _)) by apply Hv.
  rewrite (bind_Ok _ _ s (kernel_pagedir (k_g (m_k s))) s) by (by destruct s).
  rewrite (bind_Ok _ _ _ _ _ (getPage_present _ _ _ _ _ _ HI Ht)). cbn iota.
  rewrite (bind_Ok _ _ s (table_page tb (index_of v)) s).
  - unfold kframe. rewrite (kpage_Some _ _ _ Ht E). by destruct (pg_frame _ =? 0).
  - unfold lift_k, zoom, get_page. cbn [fst snd]. rewrite (bind_Ok _ _ (m_k s) tb (m_k s)); [by destruct s|].
    by apply load_Ok.
Qed.

Lemma find_absent s C v : filling s C -> 2 <= freepagecount (m_c s) -> window v ->
  ktable (m_k s) (table_of v) = 0 ->
  exists s', find_page (kmalloc_page_fuel 1) v s = Ok (inr v, s') /\
    filling s' C /\ freepagecount (m_c s') = freepagecount (m_c s) - 1 /\
    frames (k_g (m_k s')) = frames (k_g (m_k s)) /\ keeps C (m_k s) (m_k s') /\
    ktable (m_k s') (table_of v) <> 0 /\
    forall x, kspace x -> kpage (m_k s') x =
      if decide (table_of x = table_of v) then Some zero_page else kpage (m_k s) x.
Proof.
  intros HF Hc Hv H0. destruct (make_table_ok _ _ _ HF Hc Hv H0) as (s' & E & HF' & Hc' & Hf & Hk & Ht & Pg).
  exists s'. split; [|done]. unfold find_page. rewrite (proj2 (Z.ltb_ge _ _)) by apply Hv.
  rewrite (bind_Ok _ _ s (kernel_pagedir (k_g (m_k s))) s) by (by destruct s).
  rewrite (bind_Ok _ _ _ _ _ E). cbn iota.
  pose proof (Pg v (window_kspace _ Hv)) as Ev. rewrite decide_True in Ev by done.
  destruct (kpage_inv _ _ _ Ev) as (tb & _ & Etb & Eg).
  rewrite (bind_Ok _ _ s' (table_page tb (index_of v)) s').
  - by rewrite <- Eg.
  - unfold lift_k, zoom, get_page. cbn [fst snd].
    rewrite (bind_Ok _ _ (m_k s') tb (m_k s')); [by destruct s'|]. by apply load_Ok.
Qed.

(** Filling one slot of the cache, when the page is found. *)
Definition stored (s : mstate) (v : Z) (tb : page_table) (f : Z) (b : bitset) : mstate :=
  let n := Z.to_nat (freepagecount (m_c s)) in
  MState (put_kpage v tb (kmapped f) b (m_k s))
    (set_count (freepagecount (m_c s) + 1)
      (set_freepages (<[n := FreePage v (f * 0x1000)]> (freepages (m_c s))) (m_c s))).

Lemma get_slot_Ok i e s : freepages (m_c s) !! Z.to_nat i = Some e -> get_slot i s = Ok (e, s).
Proof. intros E. unfold get_slot. by rewrite E. Qed.

Lemma put_slot_Ok i g e s : freepages (m_c s) !! Z.to_nat i = Some e ->
  put_slot i g s = Ok (tt, set_mc (set_freepages (<[Z.to_nat i := g e]> (freepages (m_c s))) (m_c s)) s).
Proof. intros E. unfold put_slot. by rewrite (bind_Ok _ _ _ _ _ (get_slot_Ok _ _ _ E)). Qed.

Lemma fill_store kp s C v tb f b s0 : filling s C -> freepagecount (m_c s) < 5 -> kspace v ->
  ktable (m_k s) (table_of v) <> 0 -> k_tables (k_st (m_k s)) !! ktable (m_k s) (table_of v) = Some tb ->
  kframe (m_k s) v = 0 -> frame_alloc (frames (k_g (m_k s))) = Ok (f, b) -> 0 < f < 0x100000 ->
  loop 65538 (find_page kp) 0xFFFFF000 s0 = Ok (v, s) ->
  fill_one kp s0 = Ok (tt, stored s v tb f b).
Proof.
  intros [HI Hlen Hc Hw Hl] Hc5 Hv Ht E H0 Ef Hf Es0. unfold fill_one.
  rewrite (bind_Ok _ _ _ _ _ Es0). set (n := Z.to_nat (freepagecount (m_c s))).
  destruct (lookup_lt_is_Some_2 (freepages (m_c s)) n) as [e0 E0]; [unfold n; lia|].
  rewrite (bind_Ok _ _ s (freepagecount (m_c s)) s) by (by destruct s).
  rewrite (bind_Ok _ _ _ _ _ (put_slot_Ok _ _ _ _ E0)). fold n.
  set (s1 := set_mc _ s).
  assert (E1 : freepages (m_c s1) !! n = Some (set_virt v e0))
    by (cbn; apply list_lookup_insert_eq; unfold n; lia).
  rewrite (bind_Ok _ _ s1 f (set_mk (KState (k_st (m_k s)) (set_frames b (k_g (m_k s)))) s1)).
  2:{ unfold lift_k, lift_frames, zoom. cbn [s1 set_mc m_k]. rewrite Ef. done. }
  set (s2 := set_mk _ s1).
  rewrite (bind_Ok _ _ s2 (freepagecount (m_c s)) s2) by done.
  rewrite (bind_Ok _ _ _ _ _ (put_slot_Ok _ _ _ s2 E1)). fold n.
  rewrite (w32_small (f * 0x1000)) by (unfold u32; lia).
  set (s3 := set_mc _ s2).
  assert (E3 : freepages (m_c s3) !! n = Some (FreePage v (f * 0x1000))).
  { cbn. apply list_lookup_insert_eq. rewrite length_insert. unfold n; lia. }
  rewrite (bind_Ok _ _ s3 (kernel_pagedir (k_g (m_k s))) s3) by done.
  rewrite (bind_Ok _ _ s3 (Some (ktable (m_k s) (table_of v), index_of v)) s3).
  2:{ destruct (ci_dir _ _ _ HI) as [Hkd [d Ed]]. unfold ktable in *. rewrite Ed in *.
      unfold pagedir_getPage. rewrite (bind_Ok _ _ s3 d s3).
      - fold (table_of v). rewrite (proj2 (Z.eqb_neq _ _) Ht). reflexivity.
      - unfold lift_k, zoom. rewrite (load_Ok _ d) by done. done. }
  rewrite (bind_Ok _ _ s3 (freepagecount (m_c s)) s3) by done.
  rewrite (bind_Ok _ _ _ _ _ (get_slot_Ok _ _ s3 E3)). cbn [fp_phys].
  change 0x1000 with 4096. rewrite Z.div_mul by lia.
  assert (Eg : kpage (m_k s) v = Some (table_page tb (index_of v))) by by apply kpage_Some.
  unfold kframe in H0. rewrite Eg in H0.
  rewrite (bind_Ok _ _ s3 tt (set_mk (put_kpage v tb (kmapped f) b (m_k s)) s3)).
  - unfold stored, setc, modify, set_mc, set_mk. cbn. fold n.
    rewrite (w32_small (freepagecount (m_c s) + 1)) by (unfold u32; lia).
    by rewrite list_insert_insert_eq.
  - apply lift_k_eq. apply wp_eq_Ok. eapply wp_page_map; [exact Ht | exact E | exact H0 | |].
    + by apply (ci_zero _ _ _ HI v).
    + cbn [Z.eqb]. rewrite Z.mod_small by lia. reflexivity.
Qed.

(** The state after it. *)
Lemma stored_ok s C v tb f b : filling s C -> freepagecount (m_c s) < 5 -> window v ->
  ktable (m_k s) (table_of v) <> 0 -> k_tables (k_st (m_k s)) !! ktable (m_k s) (table_of v) = Some tb ->
  kframe (m_k s) v = 0 ->
  managed (frames (k_g (m_k s))) f -> bit_at (frames (k_g (m_k s))) f = false ->
  wf_bitset b -> capacity b = capacity (frames (k_g (m_k s))) ->
  (forall n, 0 <= n -> bit_at b n = if n =? f then true else bit_at (frames (k_g (m_k s))) n) ->
  let s' := stored s v tb f b in
  filling s' C /\ keeps C (m_k s) (m_k s') /\ kframe (m_k s') v <> 0 /\
  forall x, kspace x -> x <> v -> kframe (m_k s') x = kframe (m_k s) x.
Proof.
  intros [HI Hlen Hc Hw Hl] Hc5 Hvw Ht E H0 Hm Hb Hwf Hsz Hbits s'.
  pose proof (window_kspace _ Hvw) as Hv.
  destruct (map_inv _ _ _ _ _ _ _ HI Hv Ht E H0 Hm Hb Hwf Hsz Hbits) as [HI' Hf].
  assert (Fr : forall x, kspace x -> kframe (m_k s') x = if decide (x = v) then f else kframe (m_k s) x)
    by (intros; by eapply (kframe_put _ _ _ _ _ (kmapped f))).
  split; [|split; [|split]].
  - split; cbn; rewrite ?length_insert; try done; [|lia].
    replace (cached s') with (cached s ++ [FreePage v (f * 0x1000)]); [done|].
    unfold cached, s', stored. cbn. set (n := Z.to_nat (freepagecount (m_c s))).
    replace (Z.to_nat (freepagecount (m_c s) + 1)) with (Datatypes.S n) by (unfold n; lia).
    rewrite (take_S_r _ _ (FreePage v (f * 0x1000))) by (apply list_lookup_insert_eq; unfold n; lia).
    by rewrite take_insert_ge.
  - split; [done|..]; [intros x Hx Hwx | intros x Hwx Hx | done | apply beside_put]; cbn [s' stored m_k]; erewrite kpage_put by done;
      rewrite decide_False; try done; intros ->; [|done]. apply (ci_held _ _ _ HI v); [by left | done | done].
  - rewrite Fr, decide_True by done. lia.
  - intros x Hx Hne. by rewrite Fr, decide_False.
Qed.

(** One round of [get_free_pages]: a page more, or the same number and the
    next free page in a new table. *)
Lemma fill_one_ok s C v m : filling s C -> 2 <= freepagecount (m_c s) < 5 -> top (m_k s) v ->
  free_count (frames (k_g (m_k s))) (Datatypes.S m) ->
  exists s', fill_one (kmalloc_page_fuel 1) s = Ok (tt, s') /\ filling s' C /\ keeps C (m_k s) (m_k s') /\
    (forall m, free_count (frames (k_g (m_k s))) (Datatypes.S m) -> free_count (frames (k_g (m_k s'))) m) /\
    (forall x, kspace x -> x <> v -> kframe (m_k s') x = kframe (m_k s) x) /\
    (freepagecount (m_c s') = freepagecount (m_c s) + 1 \/
     ktable (m_k s) (table_of v) = 0 /\ freepagecount (m_c s') = freepagecount (m_c s) /\
     exists v', top (m_k s') v' /\ ktable (m_k s') (table_of v') <> 0).
Proof.
  intros HF Hc Htop Hfree. pose proof Htop as (Hv & H0 & Hup). pose proof (window_kspace _ Hv) as Hvk. pose proof (fl_inv _ _ HF) as HI.
  assert (Hhi : window 0xFFFFF000) by (split; [lia | reflexivity]).
  assert (Hle : v <= 0xFFFFF000) by (destruct Hv; Z.div_mod_to_equations; lia).
  assert (Hscan : forall i, window i -> v < i ->
    find_page (kmalloc_page_fuel 1) i s = Ok (inl (w32 (i - 0x1000)), s)).
  { intros i Hi Hlt. pose proof (Hup i Hi Hlt) as Hnz.
    rewrite (find_present _ _ _ _ _ HI Hi).
    - by rewrite (proj2 (Z.eqb_neq _ _) Hnz).
    - intros E. apply Hnz. unfold kframe, kpage. by rewrite E. }
  assert (Hfuel : (0xFFFFF000 - v) / 4096 < Z.of_nat 65538).
  { destruct Hv. change (Z.of_nat 65538) with 65538. Z.div_mod_to_equations. lia. }
  destruct (frame_alloc_ok (frames (k_g (m_k s)))) as (f & b & Ef & Hm & Hb & _ & Hwf & Hsz0 & Hln & Hbits).
  { by apply (ci_frames _ _ _ HI). }
  { destruct Hfree as ([|n fs] & _ & Hlen & Hfs); [done|]. exists n. apply Hfs. set_solver. }
  pose proof (capacity_same _ _ Hsz0 Hln) as Hsz.
  assert (Hfree' : forall m, free_count (frames (k_g (m_k s))) (Datatypes.S m) -> free_count b m)
    by (intros m' Hm'; by eapply free_count_step).
  destruct (decide (ktable (m_k s) (table_of v) = 0)) as [Ht|Ht].
  - destruct (find_absent _ _ _ HF ltac:(lia) Hv Ht) as (s1 & E1 & HF1 & Hc1 & Hf1 & Hk1 & Ht1 & Pg1).
    pose proof (scan_to _ _ _ _ Htop E1 Hscan 65538 _ Hhi Hle Hfuel) as EL.
    pose proof (Pg1 v Hvk) as Ev. rewrite decide_True in Ev by done.
    destruct (kpage_inv _ _ _ Ev) as (tb & _ & Etb & _).
    assert (Ev0 : kframe (m_k s1) v = 0) by (unfold kframe; by rewrite Ev).
    assert (Kf : forall x, kspace x -> kframe (m_k s1) x = kframe (m_k s) x).
    { intros x Hx. unfold kframe. rewrite Pg1 by done. case_decide as Eq; [|done].
      unfold kpage. by rewrite Eq, Ht. }
    rewrite <- Hf1 in *.
    destruct (map_inv _ _ _ _ _ _ _ (fl_inv _ _ HF1) Hvk Ht1 Etb Ev0 Hm Hb Hwf Hsz Hbits) as [_ Hfr].
    destruct (stored_ok _ _ _ _ _ _ HF1 ltac:(lia) Hv Ht1 Etb Ev0 Hm Hb Hwf Hsz Hbits) as (HF2 & Hk2 & Hn2 & Ho2).
    exists (stored s1 v tb f b). split; [eapply fill_store; try done; lia|]. split; [done|].
    split; [by eapply keeps_trans|]. split; [done|].
    split; [intros x Hx Hne; rewrite Ho2 by done; by apply Kf|]. right. split; [done|]. split; [cbn; lia|].
    (* the page below, in the same table *)
    assert (Hidx : index_of v = 1023).
    { destruct (Z.eq_dec (index_of v) 1023) as [|Hne]; [done|]. exfalso.
      assert (Hw : window (v + 4096) /\ table_of (v + 4096) = table_of v).
      { destruct Hv. unfold window, index_of, table_of in *. Z.div_mod_to_equations. lia. }
      destruct Hw as [Hw Et]. apply (Hup (v + 4096)); [done | lia |]. unfold kframe, kpage.
      by rewrite Et, Ht. }
    assert (Hd : window (v - 4096) /\ table_of (v - 4096) = table_of v).
    { destruct Hv. unfold window, index_of, table_of in *. Z.div_mod_to_equations. lia. }
    destruct Hd as [Hd Et]. exists (v - 4096). split; [|by rewrite Et]. split; [done|]. split.
    + rewrite Ho2 by (lia || by apply window_kspace). unfold kframe.
      rewrite Pg1, decide_True by (done || by apply window_kspace). done.
    + intros x Hx Hlt. destruct (Z.eq_dec x v) as [->|Hne]; [done|].
      assert (v < x) by (destruct Hx, Hv; Z.div_mod_to_equations; lia).
      rewrite Ho2, Kf by (done || by apply window_kspace). by apply Hup.
  - destruct (ci_tables _ _ _ HI _ (kspace_table _ Hvk) Ht) as [tb Etb].
    assert (E1 : find_page (kmalloc_page_fuel 1) v s = Ok (inr v, s))
      by (by rewrite (find_present _ _ _ _ _ HI Hv Ht), H0).
    pose proof (scan_to _ _ _ _ Htop E1 Hscan 65538 _ Hhi Hle Hfuel) as EL.
    destruct (map_inv _ _ _ _ _ _ _ HI Hvk Ht Etb H0 Hm Hb Hwf Hsz Hbits) as [_ Hfr].
    destruct (stored_ok _ _ _ _ _ _ HF ltac:(lia) Hv Ht Etb H0 Hm Hb Hwf Hsz Hbits) as (HF2 & Hk2 & _ & Ho2).
    exists (stored s v tb f b). split; [eapply fill_store; try done; lia|]. split; [done|].
    split; [done|]. split; [done|]. split; [done|]. by left.
Qed.

Lemma fill_round_step s C : filling s C -> freepagecount (m_c s) < 5 ->
  fill_round (kmalloc_page_fuel 1) tt s = (fill_one (kmalloc_page_fuel 1);; mret (inl tt)) s.
Proof.
  intros HF Hc. unfold fill_round.
  rewrite (bind_Ok _ _ s (freepagecount (m_c s)) s) by (by destruct s).
  rewrite (proj2 (Z.ltb_lt _ _)) by (unfold FREEPAGESTOKEEP; lia).
  rewrite (bind_Ok _ _ s (kheap_working (m_c s)) s) by (by destruct s).
  by rewrite (proj2 (Z.eqb_neq _ _) (fl_working _ _ HF)).
Qed.

Lemma fill_loop_done s n : freepagecount (m_c s) = 5 ->
  loop (Datatypes.S n) (fill_round (kmalloc_page_fuel 1)) tt s = Ok (tt, s).
Proof.
  intros Hc. rewrite loop_S, (bind_Ok _ _ s (inr tt) s); [done|]. unfold fill_round.
  rewrite (bind_Ok _ _ s (freepagecount (m_c s)) s) by (by destruct s). by rewrite Hc.
Qed.

Lemma room_step k k' v n : room k (Datatypes.S n) -> (forall x, kspace x -> x <> v -> kframe k' x = kframe k x) -> room k' n.
Proof.
  intros (l & Hnd & Hlen & Hl) Hk.
  destruct (decide (v ∈ l)) as [(l1 & l2 & ->)%list_elem_of_split|Hv].
  - rewrite length_app in Hlen. cbn in Hlen. apply NoDup_app in Hnd as (H1 & H2 & [Hv2 H3]%NoDup_cons).
    exists (l1 ++ l2). split; [apply NoDup_app; split; [done|]; split; [|done]; intros x Hx Hx2; apply (H2 x Hx); by right|].
    split; [rewrite length_app; lia|]. intros x Hx. destruct (Hl x) as [Hw E]; [set_solver|]. split; [done|].
    rewrite Hk; [done | by apply window_kspace |]. intros ->. apply elem_of_app in Hx as [Hx|Hx]; [|done].
    apply (H2 v Hx). by left.
  - destruct l as [|y l]; [done|]. apply NoDup_cons in Hnd as [_ Hnd]. exists l. split; [done|]. split; [by injection Hlen|].
    intros x Hx. destruct (Hl x) as [Hw E]; [by right|]. split; [done|].
    rewrite Hk; [done | by apply window_kspace |]. intros ->. apply Hv. by right.
Qed.

Lemma room_has_room k n : room k (Datatypes.S n) -> has_room k.
Proof. intros ([|v l] & _ & Hlen & Hl); [done|]. exists v. apply Hl. by left. Qed.

Lemma room_le k n m : (m <= n)%nat -> room k n -> room k m.
Proof.
  intros Hle (l & Hnd & Hlen & Hl). exists (take m l). split; [|split].
  - rewrite <- (take_drop m l) in Hnd. by apply NoDup_app in Hnd as [? _].
  - rewrite length_take. lia.
  - intros v Hv. apply Hl. rewrite <- (take_drop m l). apply elem_of_app. by left.
Qed.

(** What two rounds take at most. *)
Definition spends (k k' : kstate) : Prop :=
  (forall m, free_count (frames (k_g k)) (2 + m) -> free_count (frames (k_g k')) m) /\
  (forall n, room k (2 + n) -> room k' n).

(** Two rounds are enough. *)
Lemma fill_loop_ok s C : filling s C -> 4 <= freepagecount (m_c s) ->
  has_room (m_k s) -> free_count (frames (k_g (m_k s))) 2 ->
  exists s', loop 8 (fill_round (kmalloc_page_fuel 1)) tt s = Ok (tt, s') /\ filling s' C /\
    keeps C (m_k s) (m_k s') /\ spends (m_k s) (m_k s') /\ freepagecount (m_c s') = 5.
Proof.
  intros HF Hc Hroom Hfree. pose proof (fl_count _ _ HF).
  destruct (Z.eq_dec (freepagecount (m_c s)) 5) as [E5|].
  { exists s. rewrite fill_loop_done by done. do 2 (split; [done|]). split; [apply keeps_refl|]. split; [|done].
    split; [intros m Hm; eapply free_count_le, Hm; lia | intros n; apply room_le; lia]. }
  destruct (has_room_top _ Hroom) as [v Hv].
  destruct (fill_one_ok _ _ _ _ HF ltac:(lia) Hv Hfree) as (s1 & E1 & HF1 & Hk1 & Hm1 & Ho1 & Hcase).
  pose proof (Hm1 _ Hfree) as Hfr1.
  rewrite loop_S, (bind_Ok _ _ s (inl tt) s1)
    by (rewrite (fill_round_step _ _ HF) by lia; by rewrite (bind_Ok _ _ _ _ _ E1)).
  destruct Hcase as [Hc1|(_ & Hc1 & v' & Hv' & Ht')].
  { exists s1. rewrite fill_loop_done by lia. do 2 (split; [done|]). split; [done|]. split; [|lia]. split.
    - intros m Hm. eapply free_count_le, (Hm1 (Datatypes.S m)); [lia | exact Hm].
    - intros r Hr. eapply room_le, (room_step _ _ v (Datatypes.S r)); [lia | exact Hr | exact Ho1]. }
  destruct (fill_one_ok _ _ _ _ HF1 ltac:(lia) Hv' Hfr1) as (s2 & E2 & HF2 & Hk2 & Hm2 & Ho2 & Hcase).
  rewrite loop_S, (bind_Ok _ _ s1 (inl tt) s2)
    by (rewrite (fill_round_step _ _ HF1) by lia; by rewrite (bind_Ok _ _ _ _ _ E2)).
  destruct Hcase as [Hc2|(H0 & _)]; [|done].
  exists s2. rewrite fill_loop_done by lia. do 2 (split; [done|]).
  split; [by eapply keeps_trans|]. split; [|lia]. split.
  - intros m Hm. by apply Hm2, (Hm1 (Datatypes.S m)).
  - intros r Hr. eapply (room_step _ _ v'), Ho2. by eapply (room_step _ _ v).
Qed.

(** Unmapping a page that is in use. *)
Lemma release_ok s l C v : cache_inv (m_k s) l C -> v ∈ C -> kspace v ->
  exists k', (g ← getPage (kernel_pagedir (k_g (m_k s))) v false; lift_k (page_unmapFree g)) s = Ok (tt, set_mk k' s) /\
    cache_inv k' l (C ∖ {[ v ]}) /\ kframe k' v = 0 /\
    kernel_pagedir (k_g k') = kernel_pagedir (k_g (m_k s)) /\ (forall i, ktable k' i = ktable (m_k s) i) /\
    capacity (frames (k_g k')) = capacity (frames (k_g (m_k s))) /\
    managed (frames (k_g (m_k s))) (kframe (m_k s) v) /\ bit_at (frames (k_g (m_k s))) (kframe (m_k s) v) = true /\
    (forall n, 0 <= n -> bit_at (frames (k_g k')) n =
       if n =? kframe (m_k s) v then false else bit_at (frames (k_g (m_k s))) n) /\
    (forall x, kspace x -> x <> v -> kpage k' x = kpage (m_k s) x) /\
    beside (m_k s) k' /\ if_locks (k_g k') = if_locks (k_g (m_k s)) /\ k_pagedirs (k_st k') = k_pagedirs (k_st (m_k s)).
Proof.
  intros HI Hv Hwv.
  pose proof (ci_held _ _ _ HI v (or_introl Hv) Hwv) as Hnz.
  destruct (kpage (m_k s) v) as [g|] eqn:Eg; [|unfold kframe in Hnz; by rewrite Eg in Hnz].
  destruct (kpage_inv _ _ _ Eg) as (tb & Ht & Etb & Egt).
  assert (Ef : kframe (m_k s) v = pg_frame g) by (unfold kframe; by rewrite Eg). rewrite Ef in *.
  destruct (ci_used _ _ _ HI v Hwv ltac:(by rewrite Ef)) as [Hm Hb]. rewrite Ef in *.
  destruct (ci_frames _ _ _ HI) as (Hwf & Hs & H0).
  destruct (bitset_clear_spec (frames (k_g (m_k s))) (pg_frame g) Hwf) as (b & Eb & Hwfb & Hsz0 & Hln & Hbits);
    [by apply managed_in_array|].
  pose proof (capacity_same _ _ Hsz0 Hln) as Hsz.
  set (g' := Page 0 (pg_rw g) (pg_user g) 0).
  set (k' := put_kpage v tb g' b (m_k s)).
  assert (HI' : cache_inv k' l (C ∖ {[ v ]})).
  { assert (Hap : forall x, x ∈ fp_virt <$> l -> x <> v)
      by (intros x Hx ->; by destruct (ci_apart _ _ _ HI v Hx)).
    eapply put_inv; try done; cbn [g' pg_frame].
    - rewrite Hbits by lia. by rewrite (proj2 (Z.eqb_neq 0 (pg_frame g))) by lia.
    - intros n Hn Hne E. rewrite Hbits by done. rewrite Ef in Hne. by rewrite (proj2 (Z.eqb_neq _ _) Hne).
    - apply HI.
    - intros e He. eapply entry_put; try done; [|by apply (ci_entries _ _ _ HI)].
      apply Hap. by apply list_elem_of_fmap_2.
    - intros x Hx. destruct (ci_apart _ _ _ HI x Hx). set_solver.
    - intros x Hx. apply (ci_clients _ _ _ HI). set_solver.
    - intros x Hx Hwx _. apply (ci_held _ _ _ HI x); [set_solver | done].
    - intros [Hx|Hx]; [set_solver|]. rewrite (ci_clients _ _ _ HI v Hv) in Hx. by destruct Hx. }
  exists k'. split; [|split; [done|split; [|split; [done|split; [done|split; [done|split; [done|split; [done|split; [|split; [|split; [apply beside_put | done]]]]]]]]]]].
  - unfold getPage. rewrite (bind_Ok _ _ _ _ _ (getPage_present _ _ _ _ _ _ HI Ht)).
    apply lift_k_eq, wp_eq_Ok. unfold page_unmapFree, get_page, put_page. cbn [fst snd]. ksteps.
    rewrite <- Egt, (proj2 (Z.eqb_neq _ _) Hnz). cbn [negb when].
    eapply wp_lift_frames; [exact Eb|]. ksteps. reflexivity.
  - unfold k'. erewrite kframe_put by done. by rewrite decide_True.
  - intros n Hn. cbn. by apply Hbits.
  - intros x Hx Hne. unfold k'. erewrite kpage_put by done. by rewrite decide_False.
Qed.

(** ** Before the heap *)

(** The page that [fill_early] takes, and what is left of the space. *)
Definition early_page (a : Z) : freepage :=
  let b := page_mask a + 0x1000 in FreePage b (w32 (b - 0xE0000000)).

Lemma fill_early_ok s : kheap_working (m_c s) = 0 -> 0x1000 <= mem_placementAddr (m_c s) ->
  mem_placementAddr (m_c s) + 0x2000 < W32 ->
  length (freepages (m_c s)) = 5%nat -> 0 <= freepagecount (m_c s) < 5 ->
  fill_early s = Ok (tt, set_mc (PCache (page_mask (mem_placementAddr (m_c s)) + 0x2000) 0
    (<[Z.to_nat (freepagecount (m_c s)) := early_page (mem_placementAddr (m_c s))]> (freepages (m_c s)))
    (freepagecount (m_c s) + 1) (locked (m_c s))) s).
Proof.
  destruct s as [k [a w fps n l]]. cbn [m_c kheap_working mem_placementAddr freepages freepagecount locked].
  intros -> Ha Hm Hlen Hn.
  assert (Hpm : 0x1000 <= page_mask a <= a).
  { rewrite page_mask_sub by (unfold u32; lia). Z.div_mod_to_equations. lia. }
  destruct (lookup_lt_is_Some_2 fps (Z.to_nat n)) as [e E]; [lia|].
  unfold fill_early, early_kmalloc, put_slot, get_slot, getc, setc, gets, modify, when, set_mc, mbind, M_bind, mret, M_ret.
  cbn [m_c mem_placementAddr]. rewrite (proj2 (Z.eqb_neq (page_mask a) 0)) by lia. cbn.
  rewrite E. cbn. rewrite list_lookup_insert_eq by lia. cbn. rewrite list_lookup_insert_eq by lia. cbn.
  rewrite !list_insert_insert_eq. unfold early_page, set_phys. cbn.
  repeat match goal with |- context [w32 ?x] => rewrite (w32_small x) by (unfold u32; lia) end.
  replace (page_mask a + 8192) with (page_mask a + 4096 + 4096) by lia. reflexivity.
Qed.

Lemma page_mask_add a d : u32 a -> u32 (page_mask a + d) -> d mod 4096 = 0 ->
  page_mask (page_mask a + d) = page_mask a + d.
Proof.
  intros Ha Hd Hm. rewrite page_mask_sub by done. pose proof (page_mask_align a Ha).
  Z.div_mod_to_equations. lia.
Qed.

Lemma early_round kp k a fps n l : 0x1000 <= a -> a + 0x2000 < W32 -> length fps = 5%nat -> 0 <= n < 5 ->
  fill_round kp tt (MState k (PCache a 0 fps n l))
  = Ok (inl tt, MState k (PCache (page_mask a + 0x2000) 0 (<[Z.to_nat n := early_page a]> fps) (n + 1) l)).
Proof.
  intros Ha Hm Hlen Hn. unfold fill_round.
  rewrite (bind_Ok _ _ (MState k (PCache a 0 fps n l)) n (MState k (PCache a 0 fps n l))) by done.
  rewrite (proj2 (Z.ltb_lt _ _)) by (unfold FREEPAGESTOKEEP; lia).
  rewrite (bind_Ok _ _ _ 0 (MState k (PCache a 0 fps n l))) by done. cbn [Z.eqb negb].
  by rewrite (bind_Ok _ _ _ _ _ (fill_early_ok (MState k (PCache a 0 fps n l)) eq_refl Ha Hm Hlen Hn)).
Qed.

Lemma early_done kp k a fps l n :
  loop (Datatypes.S n) (fill_round kp) tt (MState k (PCache a 0 fps 5 l)) = Ok (tt, MState k (PCache a 0 fps 5 l)).
Proof. reflexivity. Qed.

Lemma early_step kp s s1 r n : fill_round kp tt s = Ok (inl tt, s1) ->
  loop n (fill_round kp) tt s1 = r -> loop (Datatypes.S n) (fill_round kp) tt s = r.
Proof. intros E <-. by rewrite loop_S, (bind_Ok _ _ _ _ _ E). Qed.

(** [kmalloc_page] around what [get_free_pages] does. *)
Lemma kmalloc_page_around f s s' e : locked (m_c s) = 0 ->
  loop 8 (fill_round (kmalloc_page_fuel f)) tt
    (MState (KState (k_st (m_k s)) (set_if_locks (w32 (if_locks (k_g (m_k s)) + 1)) (k_g (m_k s))))
      (set_locked 1 (m_c s))) = Ok (tt, s') ->
  1 <= freepagecount (m_c s') <= 5 ->
  freepages (m_c s') !! Z.to_nat (freepagecount (m_c s') - 1) = Some e ->
  kmalloc_page_fuel (Datatypes.S f) s = Ok ((fp_virt e, fp_phys e),
    MState (KState (k_st (m_k s')) (set_if_locks (if 0 <? if_locks (k_g (m_k s')) then if_locks (k_g (m_k s')) - 1
                                                  else if_locks (k_g (m_k s'))) (k_g (m_k s'))))
      (set_count (freepagecount (m_c s') - 1) (set_locked 0 (m_c s')))).
Proof.
  intros Hl EL Hc Ee.
  set (s1 := set_mk (KState (k_st (m_k s)) (set_if_locks (w32 (if_locks (k_g (m_k s)) + 1)) (k_g (m_k s)))) s).
  set (s4 := set_mc (set_locked 0 (m_c s')) s').
  assert (E4 : get_free_pages (kmalloc_page_fuel f) s1 = Ok (tt, s4)).
  { unfold get_free_pages. rewrite (bind_Ok _ _ s1 (locked (m_c s)) s1) by done. rewrite Hl. cbn [Z.eqb negb].
    rewrite (bind_Ok _ _ s1 tt (set_mc (set_locked 1 (m_c s1)) s1)) by done.
    by rewrite (bind_Ok _ _ _ _ _ EL). }
  cbn [kmalloc_page_fuel]. rewrite (bind_Ok _ _ _ _ _ (run_cli s)). fold s1. rewrite (bind_Ok _ _ _ _ _ E4).
  set (n := freepagecount (m_c s') - 1). set (s5 := set_mc (set_count n (m_c s4)) s4).
  rewrite (bind_Ok _ _ s4 tt s5)
    by (unfold setc, modify, s5; cbn; fold n; by rewrite w32_small by (unfold u32, n; lia)).
  rewrite (bind_Ok _ _ s5 n s5) by done.
  rewrite (bind_Ok _ _ _ _ _ (get_slot_Ok n e s5 Ee)), (bind_Ok _ _ s5 n s5) by done.
  rewrite (bind_Ok _ _ _ _ _ (get_slot_Ok n e s5 Ee)).
  set (g := set_if_locks (if 0 <? if_locks (k_g (m_k s')) then if_locks (k_g (m_k s')) - 1
                          else if_locks (k_g (m_k s'))) (k_g (m_k s'))).
  rewrite (bind_Ok _ _ s5 tt (set_mk (KState (k_st (m_k s')) g) s5)); [done|].
  apply lift_k_eq. unfold sti, setg, modify, g. cbn.
  by destruct (0 <? if_locks (k_g (m_k s'))); destruct (k_g (m_k s')).
Qed.

(** [kmalloc_page] takes the last page of the cache, once that is full. *)
Lemma kmalloc_page_takes s C :
  cache_ok s C -> has_room (m_k s) -> free_count (frames (k_g (m_k s))) 2 ->
  exists e s', kmalloc_page s = Ok ((fp_virt e, fp_phys e), s') /\ cache_inv (m_k s') (cached s' ++ [e]) C /\
    length (freepages (m_c s')) = 5%nat /\ freepagecount (m_c s') = 4 /\ kheap_working (m_c s') <> 0 /\
    locked (m_c s') = 0 /\ keeps C (m_k s) (m_k s') /\ spends (m_k s) (m_k s').
Proof.
  intros (HI & Hlen & Hc & Hw & Hl) Hroom Hfree.
  set (s1 := set_mk (KState (k_st (m_k s)) (set_if_locks (w32 (if_locks (k_g (m_k s)) + 1)) (k_g (m_k s)))) s).
  set (s2 := set_mc (set_locked 1 (m_c s1)) s1).
  assert (HF : filling s2 C) by (split; cbn; try done; [by apply locks_inv | lia]).
  destruct (fill_loop_ok s2 C) as (s3 & E3 & HF3 & Hk & Hsp & Hc3); [done | cbn; lia | done | done |].
  destruct (cached_snoc s3 C (or_introl HF3) ltac:(lia)) as (e & Ee & Ecs).
  pose proof (fl_inv _ _ HF3) as HI3. rewrite Ecs in HI3. destruct HF3 as [_ Hlen3 _ Hw3 _].
  set (sti_k := fun k => set_if_locks (if 0 <? if_locks (k_g k) then if_locks (k_g k) - 1 else if_locks (k_g k)) (k_g k)).
  exists e, (MState (KState (k_st (m_k s3)) (sti_k (m_k s3))) (set_count 4 (set_locked 0 (m_c s3)))).
  split; [|split; [|do 4 (split; [done|]); split; [exact (keeps_locks _ _ _ _ _ Hk) | exact Hsp]]].
  - unfold kmalloc_page. rewrite (kmalloc_page_around 1 s s3 e); [by rewrite Hc3 | done | done | lia | done].
  - rewrite Hc3 in HI3. apply locks_inv. exact HI3.
Qed.

Lemma kmalloc_page_ok s C :
  cache_ok s C -> has_room (m_k s) -> free_count (frames (k_g (m_k s))) 2 ->
  exists v p s', kmalloc_page s = Ok ((v, p), s') /\ cache_ok s' ({[ v ]} ∪ C) /\
    v ∉ C /\ k_tables (k_st (m_k s')) !! v = None /\ v mod 4096 = 0 /\ p mod 4096 = 0 /\
    (kspace v -> kpage (m_k s') v = Some (kmapped (p / 4096))) /\
    keeps C (m_k s) (m_k s').
Proof.
  intros H1 H2 H3. destruct (kmalloc_page_takes _ _ H1 H2 H3) as (e & s' & E & HI & Hlen & Hc & Hw & Hl & Hk & _).
  assert (Hin : e ∈ cached s' ++ [e]) by set_solver.
  destruct (ci_entries _ _ _ HI _ Hin) as (_ & Hv & _ & Hp & Hm).
  destruct (ci_apart _ _ _ HI (fp_virt e)) as [Hec Hn]; [by apply list_elem_of_fmap_2|].
  destruct (give_inv _ _ _ _ HI) as [HI5 _]. exists (fp_virt e), (fp_phys e), s'.
  split; [done|]. split; [|done]. split; [done|]. split; [done|]. split; [lia | done].
Qed.

(** The first call, and a later one. *)
Definition early_pages (b : Z) : list freepage :=
  (fun d => FreePage (b + d) (b + d - 0xE0000000)) <$> [0; 0x2000; 0x4000; 0x6000; 0x8000].

Lemma early_first s :
  kheap_working (m_c s) = 0 -> locked (m_c s) = 0 -> freepagecount (m_c s) = 0 ->
  length (freepages (m_c s)) = 5%nat ->
  0xE0000000 <= mem_placementAddr (m_c s) -> mem_placementAddr (m_c s) + 0xA000 < W32 ->
  let b := page_mask (mem_placementAddr (m_c s)) + 0x1000 in
  kmalloc_page s = Ok ((b + 0x8000, b + 0x8000 - 0xE0000000),
    MState (unlocked (m_k s))
      (PCache (b + 0x9000) 0 (early_pages b) 4 0)).
Proof.
  destruct s as [k [a w fps n l]]. cbn [m_c m_k kheap_working mem_placementAddr freepages freepagecount locked].
  intros -> -> -> Hlen Ha Hm. set (b := page_mask a + 0x1000).
  destruct fps as [|e0 [|e1 [|e2 [|e3 [|e4 [|]]]]]]; try done.
  assert (Hb : 0xE0000000 < b <= a + 0x1000).
  { unfold b. rewrite page_mask_sub by (unfold u32; lia). Z.div_mod_to_equations. lia. }
  assert (Hpm : forall d, 0 <= d <= 0x9000 -> d mod 4096 = 0 -> page_mask (b + d) = b + d).
  { intros d Hd Hd0. unfold b. rewrite <- Z.add_assoc. apply page_mask_add; [unfold u32; lia | unfold u32; lia |].
    rewrite Z.add_mod by lia. by rewrite Hd0. }
  assert (Eb : early_page a = FreePage (b + 0) (b + 0 - 0xE0000000)).
  { unfold early_page. fold b. rewrite Z.add_0_r. by rewrite w32_small by (unfold u32; lia). }
  assert (Hpb : page_mask a + 0x2000 = b + 0x1000) by (unfold b; lia).
  assert (Hrd : forall kp k d fps n, 0 <= d <= 0x7000 -> d mod 4096 = 0 -> length fps = 5%nat -> 0 <= n < 5 ->
    fill_round kp tt (MState k (PCache (b + d) 0 fps n 1))
    = Ok (inl tt, MState k (PCache (b + (d + 0x2000)) 0
        (<[Z.to_nat n := FreePage (b + (d + 0x1000)) (b + (d + 0x1000) - 0xE0000000)]> fps) (n + 1) 1))).
  { intros kp k0 d fps n Hd Hd0 Hl Hn. rewrite early_round by (done || lia). unfold early_page.
    rewrite Hpm by (done || lia). rewrite <- !Z.add_assoc, w32_small by (unfold u32; lia). done. }
  unfold kmalloc_page. etransitivity; [apply (kmalloc_page_around 1); [done | | |]|].
  - cbn [m_k m_c set_locked mem_placementAddr kheap_working freepages freepagecount].
    eapply early_step; [apply (early_round _ _ a _ 0); (done || lia)|]. rewrite Hpb, Eb.
    eapply early_step; [apply (Hrd _ _ 0x1000 _ 1); (done || lia)|].
    eapply early_step; [apply (Hrd _ _ 0x3000 _ 2); (done || lia)|].
    eapply early_step; [apply (Hrd _ _ 0x5000 _ 3); (done || lia)|].
    eapply early_step; [apply (Hrd _ _ 0x7000 _ 4); (done || lia)|].
    apply early_done.
  - cbn. lia.
  - cbn. reflexivity.
  - reflexivity.
Qed.

Lemma early_next k a fps : 0x1000 <= a -> a + 0x2000 < W32 -> length fps = 5%nat ->
  kmalloc_page (MState k (PCache a 0 fps 4 0))
    = Ok ((fp_virt (early_page a), fp_phys (early_page a)),
        MState (unlocked k) (PCache (page_mask a + 0x2000) 0 (<[4%nat := early_page a]> fps) 4 0)).
Proof.
  intros Ha Hm Hlen. unfold kmalloc_page. etransitivity; [apply (kmalloc_page_around 1); [done | | |]|].
  - cbn [m_k m_c set_locked mem_placementAddr kheap_working freepages freepagecount].
    eapply early_step; [apply (early_round _ _ a _ 4); (done || lia)|]. apply early_done.
  - cbn. lia.
  - cbn. apply list_lookup_insert_eq. lia.
  - reflexivity.
Qed.

(** ** A sample: four pages kept from before the heap, the table that shows
    them and itself, no table yet for the window, one process *)

Definition sample_used : list Z := [0x110; 0x112; 0x114; 0x116; 0x118].
Definition sample_table : page_table := PageTable (list_to_map ((fun i => (i, kmapped i)) <$> sample_used)) 0x110.

Definition sample_kernel : kstate :=
  let s := boot_state 1 0 in
  KState
    (set_k_pagedirs {[ 10 := PageDirectory {[ 896 := 0xE0110000 ]} ∅ 0 0; 11 := PageDirectory ∅ ∅ 0 0 ]}
      (set_k_tables {[ 0xE0110000 := sample_table ]}
        (set_k_processes {[ 1 := Process 1 0 3 0 0 11 0 0 0 0 0 0 ]} (k_st s))))
    (set_processes 1 (set_kernel_pagedir 10
      (set_frames (Bitset [1; 0; 0; 0; 0; 0; 0; 0; 0x01550000] 288) (k_g s)))).

Definition sample_pages : list freepage :=
  [FreePage 0xE0112000 0x112000; FreePage 0xE0114000 0x114000; FreePage 0xE0116000 0x116000;
   FreePage 0xE0118000 0x118000; FreePage 0xE011A000 0x11A000].

Definition sample_kmem : mstate :=
  MState sample_kernel (PCache 0xE011B000 1 sample_pages 4 0).

(** The kept page 0xE0118000 became the table of both new pages. *)
Example sample_kmalloc_page :
  match kmalloc_page sample_kmem with
  | Ok ((v, p), s') => v = 0xFFFFE000 /\ p = 0x2000 /\ kpage (m_k s') v = Some (kmapped 2) /\
      ktable (m_k s') 1023 = 0xE0118000 /\ if_locks (k_g (m_k s')) = 1 /\
      fp_virt <$> cached s' = [0xE0112000; 0xE0114000; 0xE0116000; 0xFFFFF000]
  | Fault _ => False
  end.
Proof. vm_compute. repeat split. Qed.

Lemma sample_ktable i : ktable sample_kernel i = if decide (i = 896) then 0xE0110000 else 0.
Proof.
  change (ktable sample_kernel i) with (default 0 (({[ 896 := 0xE0110000 ]} : gmap Z Z) !! i)).
  destruct (decide (i = 896)) as [->|]; [done | by rewrite lookup_singleton_ne].
Qed.

Lemma sample_page v : kpage sample_kernel v =
  if decide (table_of v = 896) then Some (table_page sample_table (index_of v)) else None.
Proof.
  unfold kpage. rewrite sample_ktable. destruct (decide (table_of v = 896)) as [E|]; done.
Qed.

Lemma sample_shows v g : kpage sample_kernel v = Some g ->
  table_of v = 896 /\ (g = zero_page \/ index_of v ∈ sample_used /\ g = kmapped (index_of v)).
Proof.
  rewrite sample_page. destruct (decide (table_of v = 896)) as [->|]; [|done]. intros [= <-]. split; [done|].
  unfold table_page. destruct (pages sample_table !! index_of v) as [g|] eqn:E; [right | by left].
  apply elem_of_list_to_map_2 in E. by apply list_elem_of_fmap in E as (i & [= <- ->] & Hi).
Qed.

Lemma sample_frame v : kframe sample_kernel v <> 0 ->
  table_of v = 896 /\ index_of v ∈ sample_used /\ kframe sample_kernel v = index_of v.
Proof.
  unfold kframe. destruct (kpage sample_kernel v) as [g|] eqn:E; [|done].
  by destruct (sample_shows v g E) as (? & [->|(? & ->)]).
Qed.

Lemma sample_managed f : f ∈ sample_used ->
  managed (frames (k_g sample_kernel)) f /\ bit_at (frames (k_g sample_kernel)) f = true.
Proof.
  intros Hf. repeat (apply elem_of_cons in Hf as [->|Hf];
    [split; [vm_compute; split; [discriminate | reflexivity] | reflexivity]|]). by apply elem_of_nil in Hf.
Qed.

Lemma sample_tables x : is_Some (k_tables (k_st sample_kernel) !! x) -> x = 0xE0110000.
Proof. intros [tb E]. cbn in E. by apply lookup_singleton_Some in E as [<- _]. Qed.

Lemma sample_cache_inv l C : NoDup (fp_virt <$> l) ->
  (forall e, e ∈ l -> entry_ok sample_kernel e /\ fp_virt e <> 0xE0110000 /\ fp_virt e ∉ C) ->
  (forall v, v ∈ C -> ~ kspace v) -> cache_inv sample_kernel l C.
Proof.
  intros Hnd Hl HC. split.
  - split; [done|]. by eexists.
  - exists [1]. split; [repeat (eexists || split || done)|].
    intros x pr ->%list_elem_of_singleton [= <-]. cbn. split; [done|]. split; [done|]. by eexists.
  - split; [|done]. split; cbn; [unfold u32; lia | vm_compute; discriminate |].
    repeat constructor; vm_compute; discriminate.
  - intros i _. rewrite sample_ktable. destruct (decide (i = 896)); [by eexists | done].
  - intros i j _ _. rewrite !sample_ktable. by destruct (decide (i = 896)) as [->|], (decide (j = 896)) as [->|].
  - intros v g Hv Eg Hz. destruct (sample_shows v g Eg) as (_ & [->|(Hi & ->)]); [done|]. cbn in Hz. rewrite Hz in Hi.
    by repeat (apply elem_of_cons in Hi as [?|Hi]; [done|]); apply elem_of_nil in Hi.
  - intros v Hv Hn. destruct (sample_frame v Hn) as (_ & Hi & ->). by apply sample_managed.
  - intros v w [_ Hv] [_ Hw] Hn E. destruct (sample_frame v Hn) as (Et & _ & Ev). rewrite E in Hn.
    destruct (sample_frame w Hn) as (Et' & _ & Ew). apply page_coords; congruence.
  - done.
  - intros e He. by apply Hl.
  - intros v (e & -> & He)%list_elem_of_fmap. destruct (Hl e He) as (_ & Hne & Hc). split; [done|].
    apply eq_None_not_Some. by intros ?%sample_tables.
  - intros v Hv. apply eq_None_not_Some. intros ->%sample_tables. by apply HC in Hv as [].
  - intros v [Hv|Hv] Hw; [by destruct (HC v Hv) | by rewrite (sample_tables v Hv)].
Qed.

Lemma sample_entry e : e ∈ take 4 sample_pages -> entry_ok sample_kernel e /\ fp_virt e <> 0xE0110000.
Proof.
  intros He. cbn in He.
  repeat (apply elem_of_cons in He as [->|He]; [by repeat split|]).
  by apply not_elem_of_nil in He.
Qed.

Lemma sample_cache_ok : cache_ok sample_kmem ∅.
Proof.
  split; [|done]. apply sample_cache_inv; [| | set_solver].
  - apply (bool_decide_unpack _). vm_compute. exact I.
  - intros e He. destruct (sample_entry e He). split; [done|]. split; [done | set_solver].
Qed.

Lemma sample_free_count : free_count (frames (k_g sample_kernel)) 2.
Proof.
  exists [5; 6]. split; [apply (bool_decide_unpack _); vm_compute; exact I|].
  split; [reflexivity|]. intros k Hk.
  repeat (apply elem_of_cons in Hk as [->|Hk];
    [split; [vm_compute; split; [discriminate | reflexivity] | reflexivity]|]).
  apply not_elem_of_nil in Hk. destruct Hk.
Qed.

(** ** Theorems *)

(** C22. [kmalloc_page] gives out a page that nobody has: not another client, not
    a page table, not the cache.  It ends although filling the cache can
    need a page table, which needs a page of the cache: four pages are
    always kept and a new table needs one.  The page is mapped for the
    kernel to a frame of its own, the pages given out before keep their
    mappings, and the cache is again as it was found. *)
Theorem kmalloc_page_fresh s C :
  cache_ok s C -> has_room (m_k s) -> free_count (frames (k_g (m_k s))) 2 ->
  exists v p s', kmalloc_page s = Ok ((v, p), s') /\ cache_ok s' ({[ v ]} ∪ C) /\
    v ∉ C /\ k_tables (k_st (m_k s')) !! v = None /\ v mod 4096 = 0 /\ p mod 4096 = 0 /\
    (kspace v -> kpage (m_k s') v = Some (kmapped (p / 4096))) /\
    keeps C (m_k s) (m_k s').
Proof. apply kmalloc_page_ok. Qed.

(** [kfree_page] takes a page back: it is unmapped, its frame is free again,
    and nobody else's page changes. *)
Theorem kfree_page_releases s C v : cache_ok s C -> v ∈ C -> kspace v ->
  exists s', kfree_page v s = Ok (tt, s') /\ cache_ok s' (C ∖ {[ v ]}) /\
    kframe (m_k s') v = 0 /\ bit_at (frames (k_g (m_k s'))) (kframe (m_k s) v) = false /\
    (forall n, 0 <= n -> n <> kframe (m_k s) v ->
       bit_at (frames (k_g (m_k s'))) n = bit_at (frames (k_g (m_k s))) n) /\
    forall x, kspace x -> x <> v -> kpage (m_k s') x = kpage (m_k s) x.
Proof.
  intros (HI & Hlen & Hc & Hw & Hl) Hv Hwv.
  destruct (release_ok s _ C v HI Hv Hwv) as (k' & E & HI' & H0 & _ & _ & _ & Hm & _ & Hb & Hk & _).
  exists (set_mk k' s). split; [|split; [by split; [|split; [|split; [|split]]]|split; [done|split; [|split; [|done]]]]].
  - unfold kfree_page. rewrite (bind_Ok _ _ s (kheap_working (m_c s)) s) by (by destruct s).
    rewrite (proj2 (Z.eqb_neq _ _) Hw). cbn [negb when].
    rewrite (bind_Ok _ _ s (kernel_pagedir (k_g (m_k s))) s) by (by destruct s). exact E.
  - cbn [set_mk m_k]. by rewrite Hb, Z.eqb_refl by (unfold managed in Hm; lia).
  - intros n Hn Hne. cbn [set_mk m_k]. by rewrite Hb, (proj2 (Z.eqb_neq _ _) Hne) by done.
Qed.

Lemma kmalloc_page_fresh_witness :
  exists v p s', kmalloc_page sample_kmem = Ok ((v, p), s') /\ cache_ok s' ({[ v ]} ∪ ∅) /\
    v ∉ (∅ : gset Z) /\ k_tables (k_st (m_k s')) !! v = None /\ v mod 4096 = 0 /\ p mod 4096 = 0 /\
    (kspace v -> kpage (m_k s') v = Some (kmapped (p / 4096))) /\
    keeps ∅ (m_k sample_kmem) (m_k s').
Proof.
  apply (kmalloc_page_fresh sample_kmem ∅ sample_cache_ok).
  - exists 0xFFFFF000. split; [split; [lia | reflexivity] | reflexivity].
  - apply sample_free_count.
Defined.

Lemma kfree_page_releases_witness :
  exists s s', snd <$> (match kmalloc_page sample_kmem with Ok r => Some r | Fault _ => None end) = Some s /\
    kfree_page 0xFFFFE000 s = Ok (tt, s') /\ cache_ok s' (({[ 0xFFFFE000 ]} ∪ ∅) ∖ {[ 0xFFFFE000 ]}) /\
    kframe (m_k s') 0xFFFFE000 = 0.
Proof.
  destruct (kmalloc_page_ok sample_kmem ∅ sample_cache_ok) as (v & p & s & E & Hok & _).
  { exists 0xFFFFF000. split; [split; [lia | reflexivity] | reflexivity]. }
  { apply sample_free_count. }
  pose proof sample_kmalloc_page as Ev. rewrite E in Ev |- *. destruct Ev as (-> & _).
  destruct (kfree_page_releases s ({[ 0xFFFFE000 ]} ∪ ∅) 0xFFFFE000 Hok) as (s' & Es & Hok' & H0 & _).
  - set_solver.
  - split; [lia | reflexivity].
  - exists s, s'. split; [reflexivity|]. split; [exact Es|]. split; [exact Hok' | exact H0].
Defined.

(** Before the heap works the pages come from the end of the kernel, but not
    from the whole of it: the address is rounded up even when it is aligned,
    so only every second page is used.  The first call takes five, at the
    distance of two pages, and gives out the last; physical addresses are
    the virtual ones without 0xE0000000. *)
Theorem early_pages_spaced s :
  kheap_working (m_c s) = 0 -> locked (m_c s) = 0 -> freepagecount (m_c s) = 0 ->
  length (freepages (m_c s)) = 5%nat ->
  0xE0000000 <= mem_placementAddr (m_c s) -> mem_placementAddr (m_c s) + 0xA000 < W32 ->
  let b := page_mask (mem_placementAddr (m_c s)) + 0x1000 in
  exists s', kmalloc_page s = Ok ((b + 0x8000, b + 0x8000 - 0xE0000000), s') /\
    cached s' = [FreePage b (b - 0xE0000000); FreePage (b + 0x2000) (b + 0x2000 - 0xE0000000);
                 FreePage (b + 0x4000) (b + 0x4000 - 0xE0000000);
                 FreePage (b + 0x6000) (b + 0x6000 - 0xE0000000)] /\
    mem_placementAddr (m_c s') = b + 0x9000 /\ k_st (m_k s') = k_st (m_k s).
Proof.
  intros H1 H2 H3 H4 H5 H6 b. pose proof (early_first s H1 H2 H3 H4 H5 H6) as E.
  eexists. split; [exact E|]. split; [|done]. cbn. by rewrite Z.add_0_r.
Qed.

Lemma early_pages_spaced_witness :
  let s := MState sample_kernel (PCache 0xE0110234 0 sample_pages 0 0) in
  exists s', kmalloc_page s = Ok ((0xE0119000, 0x119000), s') /\
    cached s' = [FreePage 0xE0111000 0x111000; FreePage 0xE0113000 0x113000;
                 FreePage 0xE0115000 0x115000; FreePage 0xE0117000 0x117000] /\
    mem_placementAddr (m_c s') = 0xE011A000 /\ k_st (m_k s') = k_st (m_k s).
Proof.
  intros s. apply (early_pages_spaced s); try reflexivity; cbn; lia.
Defined.

