(* ===== verification/KHeap.v ===== *)
(** * The kernel heap on the kernel's pages

    [Heap] over the page tables and frames of [Kmem]: the pages of the heap
    are mapped with [pagedir_getPage], [frame_alloc] and [page_map], which
    can need a page table, hence a page of the cache, hence more frames and
    tables.  [kmalloc], [kfree] and [kheap_init] of [src/kernel/mem/mem.c]
    run on that state.

    The laws of [HeapAlloc] are proved for it, so what [HeapSpec] says of
    allocation and freeing holds in the kernel, and at the same time the
    invariant of the page cache: the heap takes no page that somebody else
    holds and leaves their mappings alone. *)

From S2P Require Import Prelude Memory Bitset Heap HeapIndex HeapBlocks HeapOps HeapAlloc HeapFree HeapSpec Kernel Paging Tasking Kmem.

(** The memory below the heap.  [kb_fill] is what the frames that are handed
    out contain, whatever that is. *)
Record kback := KBack { kb_m : mstate; kb_fill : nat -> mem; kb_count : nat }.

Definition set_kb_m (m : mstate) (b : kback) : kback := KBack m (kb_fill b) (kb_count b).

(** [page_map(pagedir_getPage(kernel_pagedir, i, 1), frame_alloc(), 0, 0)],
    with the arguments evaluated from the left. *)
Definition map_fresh (i : Z) : M mstate unit :=
  kd ← lift_k (getg kernel_pagedir);
  p ← getPage kd i true;
  f ← lift_k (lift_frames frame_alloc);
  lift_k (page_map p f 0 0).

(** [for (i = old; i < new; i += 0x1000)] of [heap_create] and
    [heap_expand]. *)
Definition map_step (new i : Z) : M mstate (Z + unit) :=
  if i <? new then map_fresh i;; mret (inl (w32 (i + 0x1000))) else mret (inr tt).
Definition map_range (old new : Z) : M mstate unit :=
  loop (Z.to_nat (2 + (new - old) / 0x1000)) (map_step new) old.

(** [for (end -= 0x1000; end >= newEnd; end -= 0x1000)] of
    [heap_contract]. *)
Definition unmap_step (newEnd e : Z) : M mstate (Z + Z) :=
  if newEnd <=? e then
    kd ← lift_k (getg kernel_pagedir);
    (p ← getPage kd e false; lift_k (page_unmapFree p));;
    mret (inl (w32 (e - 0x1000)))
  else mret (inr e).
Definition unmap_range (old newEnd : Z) : M mstate Z :=
  loop (Z.to_nat (2 + (old - newEnd) / 0x1000)) (unmap_step newEnd) (w32 (old - 0x1000)).

Definition is_mapped (k : kstate) (a : Z) : bool :=
  match kpage k a with Some g => negb (pg_present g =? 0) | None => false end.

#[export] Instance PagedBacking : HeapBacking kback := {
  accessible b a := is_mapped (m_k (kb_m b)) a;
  filled b := kb_fill b (kb_count b);
  grow i old new := zoom kb_m set_kb_m (map_range old new);;
                    modify (fun b => KBack (kb_m b) (kb_fill b) (Datatypes.S (kb_count b)));; mret 0;
  shrink_pre _ _ _ := mret 0;
  shrink_post newEnd old := zoom kb_m set_kb_m (unmap_range old newEnd)
}.

(** The kernel's memory as a whole: [struct heap kheap], the bytes of the
    heap, and what is below. *)
Definition kmem : Type := hstate kback.

Definition lift_m {A} (m : M mstate A) : M kmem A := zoom bk set_bk (zoom kb_m set_kb_m m).
Definition mm (s : kmem) : mstate := kb_m (bk s).
Definition set_mm (m : mstate) (s : kmem) : kmem := set_bk (set_kb_m m (bk s)) s.

Definition kmalloc (size : Z) : M kmem Z :=
  w ← lift_m (getc kheap_working);
  if negb (w =? 0) then heap_alloc size else lift_m (early_kmalloc size).

Definition kfree (p : Z) : M kmem unit :=
  w ← lift_m (getc kheap_working);
  when (negb (w =? 0)) (heap_free p).

Definition kheap_init : M kmem unit :=
  a ← lift_m (getc mem_placementAddr);
  _ ← heap_create (w32 (page_mask a + 0x1000)) KHEAP_IDXSIZE KHEAP_INITSIZE KHEAP_MAXSIZE;
  lift_m (setc (set_working 1)).

(** ** Specification *)

(** The page tables that [[e, lim)] needs and the kernel does not have. *)
Definition tabs (e lim : Z) : list Z := seqZ (e / 0x400000) ((lim + 0x3FFFFF) / 0x400000 - e / 0x400000).
Definition missing (k : kstate) (e lim : Z) : nat := length (filter (fun i => ktable k i = 0) (tabs e lim)).

(** Frames for the pages of [[e, lim)]; a table takes two at most. *)
Definition cost (k : kstate) (e lim : Z) : nat := Z.to_nat ((lim - e) / 4096) + 2 * missing k e lim.

Section others.
(** The pages others hold, and the kernel they were seen in; [r] frames and
    [w] pages of the window are kept for other uses.  [kw]: [kheap_working]
    is set. *)
Context (C0 : gset Z) (k0 : kstate) (r w : nat) (kw : bool).

(** The heap has the pages [H], all of [[i, e)] among them, and can grow up
    to [lim]. *)
Record heap_pages (m : mstate) (H : gset Z) (i e lim : Z) : Prop := {
  hg_range : 0xE0001000 <= i <= e /\ e <= lim <= 0xF0000000;
  hg_align : i mod 4096 = 0 /\ e mod 4096 = 0 /\ lim mod 4096 = 0;
  hg_inv : cache_inv (m_k m) (cached m) (H ∪ C0);
  hg_cache : length (freepages (m_c m)) = 5%nat /\ 4 <= freepagecount (m_c m) <= 5 /\ locked (m_c m) = 0;
  hg_apart v : v ∈ C0 -> v ∉ H /\ ~ (i <= v < lim);
  hg_view v : v ∈ C0 -> kspace v -> kpage (m_k m) v = kpage k0 v;
  hg_beside : beside k0 (m_k m);
  hg_used v : i <= v < e -> v mod 4096 = 0 -> v ∈ H;
  hg_zone v : v ∈ H -> i <= v < lim /\ v mod 4096 = 0;
  hg_shown v : v ∈ H -> exists f, kpage (m_k m) v = Some (kmapped f);
  hg_free v : i <= v < lim -> v mod 4096 = 0 -> v ∉ H -> kframe (m_k m) v = 0;
  hg_frames : free_count (frames (k_g (m_k m))) (r + cost (m_k m) e lim);
  hg_room : room (m_k m) (w + 2 * missing (m_k m) e lim);
  hg_working : if kw then kheap_working (m_c m) <> 0
    else missing (m_k m) e lim = 0%nat /\ if_locks (k_g (m_k m)) = if_locks (k_g k0) /\
         k_pagedirs (k_st (m_k m)) = k_pagedirs (k_st k0)
}.

End others.

(** ** Lemmas: steps below the heap *)

Lemma lift_m_eq {A} (m : M mstate A) s a t : m (mm s) = Ok (a, t) -> lift_m m s = Ok (a, set_mm t s).
Proof. intros E. unfold lift_m, zoom. unfold mm in E. by rewrite E. Qed.

Lemma set_mm_id s : set_mm (mm s) s = s.
Proof. by destruct s as [? ? []]. Qed.

Lemma lift_m_get {A} (f : pcache -> A) s : lift_m (getc f) s = Ok (f (m_c (mm s)), s).
Proof. erewrite lift_m_eq by reflexivity. by rewrite set_mm_id. Qed.

(** [kmalloc] before the heap. *)
Lemma kmalloc_early size s : kheap_working (m_c (mm s)) = 0 -> u32 (mem_placementAddr (m_c (mm s)) + size) ->
  kmalloc size s = Ok (mem_placementAddr (m_c (mm s)),
    set_mm (set_mc (set_placement (mem_placementAddr (m_c (mm s)) + size) (m_c (mm s))) (mm s)) s).
Proof.
  intros Hw Hp. unfold kmalloc. rewrite (bind_Ok _ _ _ _ _ (lift_m_get _ _)), Hw. cbn [Z.eqb negb].
  apply lift_m_eq. unfold early_kmalloc, getc, setc, gets, modify, mbind, M_bind, mret, M_ret, set_mc. cbn.
  by rewrite w32_small.
Qed.

(** ** Lemmas: pages and tables *)

Lemma kpage_page k x : kpage k (4096 * (x / 4096)) = kpage k x.
Proof.
  unfold kpage, table_of, index_of. change 0x1000 with 4096. rewrite (Z.mul_comm 4096), Z.div_mul by lia. done.
Qed.

Lemma table_4m v : table_of v = v / 0x400000.
Proof. unfold table_of. rewrite Z.div_div by lia. done. Qed.

Lemma tabs_in e lim v : e <= v < lim -> v / 0x400000 ∈ tabs e lim.
Proof.
  intros Hv. unfold tabs. apply elem_of_seqZ.
  pose proof (Z.div_le_mono e v 0x400000 ltac:(lia) ltac:(lia)). split; [lia|].
  rewrite Zplus_minus. Z.div_mod_to_equations. lia.
Qed.

Lemma tabs_lt e lim i : 0xE0000000 <= e -> lim <= 0xF0000000 -> i ∈ tabs e lim -> 896 <= i < 960.
Proof. intros He Hl Hi%elem_of_seqZ. Z.div_mod_to_equations. lia. Qed.

Lemma tabs_sub e e' lim : e <= e' -> tabs e' lim `sublist_of` tabs e lim.
Proof.
  intros He. unfold tabs. pose proof (Z.div_le_mono e e' 0x400000 ltac:(lia) He).
  set (a := e / 0x400000) in *. set (a' := e' / 0x400000) in *. set (n := (lim + 0x3FFFFF) / 0x400000).
  destruct (Z.le_gt_cases (n - a') 0) as [Hn|Hn]; [rewrite seqZ_nil by lia; apply sublist_nil_l|].
  replace (n - a) with ((a' - a) + (n - a')) by lia. rewrite seqZ_app by lia.
  replace (a + (a' - a)) with a' by lia. by apply sublist_inserts_l.
Qed.

Lemma filter_length_sub {A} (P : A -> Prop) `{!forall x, Decision (P x)} l1 l2 : l1 `sublist_of` l2 ->
  (length (filter P l1) <= length (filter P l2))%nat.
Proof.
  induction 1 as [|x l1 l2 Hs IH|x l1 l2 Hs IH]; [done|..]; rewrite !filter_cons; destruct (decide (P x)); cbn; lia.
Qed.

Lemma missing_le k e e' lim : e <= e' -> (missing k e' lim <= missing k e lim)%nat.
Proof. intros He. by apply filter_length_sub, tabs_sub. Qed.

Lemma filter_length_ext {A} (P Q : A -> Prop) `{!forall x, Decision (P x), !forall x, Decision (Q x)} l :
  (forall x, x ∈ l -> P x <-> Q x) -> length (filter P l) = length (filter Q l).
Proof.
  induction l as [|x l IH]; intros Hl; [done|]. rewrite !filter_cons.
  pose proof (Hl x ltac:(by left)). pose proof (IH (fun y Hy => Hl y ltac:(by right))).
  destruct (decide (P x)), (decide (Q x)); cbn; tauto || lia.
Qed.

Lemma filter_length_drop {A} (P Q : A -> Prop) `{!forall x, Decision (P x), !forall x, Decision (Q x)} l x :
  NoDup l -> x ∈ l -> P x -> ~ Q x -> (forall y, y ∈ l -> y <> x -> P y <-> Q y) ->
  length (filter P l) = Datatypes.S (length (filter Q l)).
Proof.
  induction l as [|y l IH]; intros Hnd Hx Hp Hq Hl; [by apply elem_of_nil in Hx|].
  apply NoDup_cons in Hnd as [Hy Hnd]. rewrite !filter_cons. apply elem_of_cons in Hx as [->|Hx].
  - rewrite decide_True, decide_False by done. cbn. f_equal. apply filter_length_ext.
    intros z Hz. apply Hl; [by right|]. by intros ->.
  - assert (Hne : y <> x) by (by intros ->). pose proof (Hl y ltac:(by left) Hne).
    pose proof (IH Hnd Hx Hp Hq (fun z Hz => Hl z ltac:(by right))). destruct (decide (P y)), (decide (Q y)); cbn; tauto || lia.
Qed.

Lemma missing_same k k' e lim : (forall i, i ∈ tabs e lim -> ktable k' i = ktable k i) -> missing k' e lim = missing k e lim.
Proof. intros Hk. apply filter_length_ext. intros i Hi. by rewrite Hk. Qed.

Lemma missing_made k k' e lim j : j ∈ tabs e lim -> ktable k j = 0 -> ktable k' j <> 0 ->
  (forall i, i ∈ tabs e lim -> i <> j -> ktable k' i = ktable k i) -> missing k e lim = Datatypes.S (missing k' e lim).
Proof.
  intros Hj H0 H1 Hk. apply (filter_length_drop _ _ _ j); [apply NoDup_seqZ | done | done | done |].
  intros i Hi Hne. by rewrite Hk.
Qed.

Lemma missing_down k e lim : 4096 <= e <= lim -> e mod 4096 = 0 -> ktable k (table_of (e - 4096)) <> 0 ->
  missing k (e - 4096) lim = missing k e lim.
Proof.
  intros He Ha Ht. rewrite table_4m in Ht. unfold missing, tabs.
  assert (Hn : e / 0x400000 <= (lim + 0x3FFFFF) / 0x400000) by (Z.div_mod_to_equations; lia).
  assert (Hc : (e - 4096) / 0x400000 = e / 0x400000 \/ e / 0x400000 = (e - 4096) / 0x400000 + 1) by (Z.div_mod_to_equations; lia).
  destruct Hc as [->|Hc]; [done|]. set (a := (e - 4096) / 0x400000) in *. rewrite Hc in Hn |- *.
  rewrite (seqZ_cons a) by lia. rewrite filter_cons, decide_False by done.
  by replace (Z.pred ((lim + 0x3FFFFF) / 0x400000 - a)) with ((lim + 0x3FFFFF) / 0x400000 - (a + 1)) by lia.
Qed.

(** A frame that is marked used and given to nobody. *)
Lemma frames_inv k l C b : cache_inv k l C -> wf_bitset b -> capacity b = capacity (frames (k_g k)) ->
  (forall n, 0 <= n -> bit_at (frames (k_g k)) n = true -> bit_at b n = true) ->
  cache_inv (KState (k_st k) (set_frames b (k_g k))) l C.
Proof.
  intros HI Hwf Hsz Hb. pose proof HI as [D P F T J Z U O N E A K L]. destruct F as (_ & F2 & F3).
  split; try done.
  - cbn. rewrite Hsz. split; [done|]. split; [done|]. by apply Hb.
  - intros v Hv Hn. destruct (U v Hv Hn) as [Hm Hu]. unfold managed in *. cbn. rewrite Hsz. split; [done|].
    apply Hb; [exact (proj1 Hm) | done].
Qed.

(** A page for a client, in a table that exists. *)
Lemma client_inv k l C v tb f b : cache_inv k l C -> kspace v -> ktable k (table_of v) <> 0 ->
  k_tables (k_st k) !! ktable k (table_of v) = Some tb -> kframe k v = 0 ->
  managed (frames (k_g k)) f -> bit_at (frames (k_g k)) f = false ->
  wf_bitset b -> capacity b = capacity (frames (k_g k)) ->
  (forall n, 0 <= n -> bit_at b n = if n =? f then true else bit_at (frames (k_g k)) n) ->
  cache_inv (put_kpage v tb (kmapped f) b k) l ({[ v ]} ∪ C) /\ 0 < f < 0x100000.
Proof.
  intros. destruct (map_inv k l C v tb f b) as [HI Hf]; try done. split; [|done].
  by destruct (give_inv _ _ _ _ HI).
Qed.

(** [pagedir_getPage] below the window, when the table has to be made. *)
Lemma getPage_made s C v : cache_ok s C -> has_room (m_k s) -> free_count (frames (k_g (m_k s))) 2 ->
  kspace v -> ~ window v -> ktable (m_k s) (table_of v) = 0 ->
  exists s', getPage (kernel_pagedir (k_g (m_k s))) v true s = Ok (Some (ktable (m_k s') (table_of v), index_of v), s') /\
    cache_inv (m_k s') (cached s') C /\ length (freepages (m_c s')) = 5%nat /\ freepagecount (m_c s') = 4 /\
    kheap_working (m_c s') <> 0 /\ locked (m_c s') = 0 /\ spends (m_k s) (m_k s') /\
    kernel_pagedir (k_g (m_k s')) = kernel_pagedir (k_g (m_k s)) /\
    beside (m_k s) (m_k s') /\
    (forall x, x ∈ C -> kspace x -> kpage (m_k s') x = kpage (m_k s) x) /\
    (forall x, kspace x -> ~ window x -> kpage (m_k s') x =
       if decide (table_of x = table_of v) then Some zero_page else kpage (m_k s) x) /\
    ktable (m_k s') (table_of v) <> 0 /\
    forall i, i < 960 -> i <> table_of v -> ktable (m_k s') i = ktable (m_k s) i.
Proof.
  intros Hok Hroom Hfree Hv Hnw H0.
  assert (Hlow : 896 <= table_of v < 960).
  { destruct Hv as [Hv Ha]. assert (v < 0xF0000000) by (destruct (Z.lt_ge_cases v 0xF0000000); [done|]; by destruct Hnw; split; [lia|]).
    rewrite table_4m. Z.div_mod_to_equations. lia. }
  destruct (kmalloc_page_takes _ _ Hok Hroom Hfree) as (e & s1 & E & HI & Hlen & Hc & Hw & Hl & [K1 K2 K3 K4 K5] & [Sp1 Sp2]).
  assert (Hin : e ∈ cached s1 ++ [e]) by set_solver.
  assert (Ht : fp_virt e <> 0) by (destruct (ci_entries _ _ _ HI _ Hin); lia).
  destruct (ci_apart _ _ _ HI (fp_virt e)) as [_ Hn]; [by apply list_elem_of_fmap_2|].
  assert (H1 : ktable (m_k s1) (table_of v) = 0) by (rewrite K4; [done | lia]).
  destruct (ci_dir _ _ _ HI) as [Hkd Hd].
  destruct (enter_table_ok (m_k s1) (table_of v) (fp_virt e) (fp_phys e)) as (k' & Ee & W);
    [apply (ci_procs _ _ _ HI) | done | done | lia | done |].
  assert (Pg : forall x, kspace x -> kpage k' x =
    if decide (table_of x = table_of v) then Some zero_page else kpage (m_k s1) x)
    by (intros x Hx; exact (with_table_page _ _ _ _ _ _ _ _ HI W H1 Ht Hn Hx)).
  pose proof (wt_entry _ _ _ _ _ W) as En. pose proof (wt_globals _ _ _ _ _ W) as Gl.
  assert (HI' : cache_inv k' (cached s1) C).
  { eapply (table_inv _ _ _ _ (table_of v)); [exact HI | lia | done | exact W]. }
  exists (set_mk k' s1). cbn [set_mk m_k m_c].
  split; [|do 5 (split; [done|]); split; [split|split; [|split; [|split; [|split; [|split]]]]]].
  - destruct Hok as (HI0 & _). destruct (ci_dir _ _ _ HI0) as [Hkd0 [d Ed]].
    unfold getPage, pagedir_getPage. rewrite (bind_Ok _ _ s d s).
    2:{ unfold lift_k, zoom. rewrite (load_Ok _ d) by done. by destruct s. }
    fold (table_of v). unfold ktable in H0. rewrite Ed in H0. rewrite H0. cbn [Z.eqb negb].
    rewrite (bind_Ok _ _ _ _ _ E). cbn iota beta. rewrite <- K1.
    rewrite (bind_Ok _ _ _ _ _ (lift_k_eq _ _ _ _ Ee)). rewrite En, decide_True by done. reflexivity.
  - intros m Hm. rewrite Gl. by apply Sp1.
  - intros n (l & Hnd & Hlen' & Hx)%Sp2. exists l. split; [done|]. split; [done|]. intros x Hxl.
    destruct (Hx x Hxl) as [Hxw Hx0]. split; [done|]. unfold kframe. rewrite Pg by (by apply window_kspace).
    by case_decide.
  - by rewrite Gl.
  - etransitivity; [exact K5 | exact (wt_beside _ _ _ _ _ W)].
  - intros x Hx Hk. rewrite Pg by done. rewrite decide_False; [by apply K2|].
    by eapply (table_page_kept (m_k s1)).
  - intros x Hx Hxw. rewrite Pg by done. case_decide; [done | by apply K3].
  - by rewrite En, decide_True.
  - intros i Hi Hne. rewrite En, decide_False by done. by apply K4.
Qed.

Lemma room_ext k k' n n' : room k n -> (n' <= n)%nat -> (forall x, window x -> kframe k' x = kframe k x) -> room k' n'.
Proof.
  intros Hr Hle Hk. apply (room_le _ _ _ Hle) in Hr as (l & Hnd & Hlen & Hl). exists l. split; [done|]. split; [done|].
  intros v Hv. destruct (Hl v Hv). by rewrite Hk.
Qed.

Lemma release_count t t' f n : free_count t n -> capacity t' = capacity t -> managed t f -> bit_at t f = true ->
  (forall k, 0 <= k -> bit_at t' k = if k =? f then false else bit_at t k) -> free_count t' (Datatypes.S n).
Proof.
  intros (fs & Hnd & Hlen & Hfs) Hsz Hm Hf Hb. exists (f :: fs). split; [|split; [by cbn; rewrite Hlen|]].
  - constructor; [|done]. intros [_ Hx]%Hfs. congruence.
  - unfold managed in *. intros k [->|Hk]%elem_of_cons; rewrite Hsz.
    + split; [done|]. by rewrite Hb, Z.eqb_refl by lia.
    + destruct (Hfs k Hk) as [Hkm Hk0]. split; [done|]. rewrite Hb by lia. by destruct (k =? f).
Qed.

Section run.
Context (C0 : gset Z) (k0 : kstate) (r w : nat) (kw : bool).
Notation heap_pages := (heap_pages C0 k0 r w kw).

Lemma zone_page m H i e lim v : heap_pages m H i e lim -> i <= v < lim -> v mod 4096 = 0 -> kspace v /\ ~ window v.
Proof.
  intros W Hv Ha. pose proof (hg_range _ _ _ _ _ _ _ _ _ _ W). split; [split; [lia | done]|]. intros [? _]. lia.
Qed.

(** The page table for the next page, made if need be. *)
Lemma ensure_table m H i e lim : heap_pages m H i e lim -> e < lim ->
  exists m', getPage (kernel_pagedir (k_g (m_k m))) e true m = Ok (Some (ktable (m_k m') (table_of e), index_of e), m') /\
    heap_pages m' H i e lim /\ ktable (m_k m') (table_of e) <> 0.
Proof.
  intros W Hlt. pose proof W as [R1 R2 HI HC HA HV HB HU HZ HS HF HFr HRo HE].
  destruct (zone_page _ _ _ _ _ e W) as [Hk Hw]; [lia | apply R2 |].
  destruct (decide (ktable (m_k m) (table_of e) = 0)) as [H0|H0].
  2:{ exists m. split; [by eapply getPage_present | done]. }
  assert (Hin : table_of e ∈ tabs e lim) by (rewrite table_4m; apply tabs_in; lia).
  assert (Hmz : missing (m_k m) e lim <> 0%nat).
  { unfold missing. intros Hz%nil_length_inv. assert (Hx : table_of e ∈ filter (fun i => ktable (m_k m) i = 0) (tabs e lim))
      by (by apply list_elem_of_filter). rewrite Hz in Hx. by apply elem_of_nil in Hx. }
  assert (Hkw : kw = true) by (clear - HE Hmz; destruct kw; [done | by destruct HE]). rewrite Hkw in HE. destruct HC as (C1 & C2 & C3).
  destruct (missing (m_k m) e lim) as [|n] eqn:En; [done|].
  destruct (getPage_made m (H ∪ C0) e) as (m' & E & I1 & I2 & I3 & I4 & I5 & [Sp1 Sp2] & Kd & Ks & Kc & Kb & Kt & Ko); try done.
  { eapply room_has_room, (room_le _ _ 1); [|exact HRo]. lia. }
  { eapply free_count_le, HFr. unfold cost. rewrite En. lia. }
  assert (Hm : missing (m_k m) e lim = Datatypes.S (missing (m_k m') e lim)).
  { apply (missing_made _ _ _ _ (table_of e)); try done. intros j Hj Hne. apply Ko; [|done].
    apply tabs_lt in Hj; lia. }
  rewrite En in Hm. injection Hm as Hm.
  assert (Pg : forall x, kspace x -> ~ window x -> kframe (m_k m') x = kframe (m_k m) x).
  { intros x Hx Hxw. unfold kframe. rewrite Kb by done. case_decide as Et; [|done]. unfold kpage. by rewrite Et, H0. }
  exists m'. split; [done|]. split; [|done]. split; try done.
  - split; [done|]. split; [lia | done].
  - intros v Hv Hvk. rewrite Kc; [by apply HV | set_solver | done].
  - by etransitivity.
  - intros v Hv. destruct (HS v Hv) as [f Hf]. exists f. destruct (HZ v Hv) as [Hvz Hva].
    destruct (zone_page _ _ _ _ _ v W Hvz Hva). rewrite Kc; [done | set_solver | done].
  - intros v Hv Ha Hn. destruct (zone_page _ _ _ _ _ v W Hv Ha). rewrite Pg by done. by apply HF.
  - apply Sp1. unfold cost in *. rewrite En in HFr. rewrite <- Hm. eapply free_count_le, HFr. lia.
  - apply Sp2. rewrite <- Hm. eapply room_le, HRo. lia.
  - by rewrite Hkw.
Qed.

(** Mapping it. *)
Lemma map_here m H i e lim : heap_pages m H i e lim -> e < lim -> ktable (m_k m) (table_of e) <> 0 ->
  exists m', (f ← lift_k (lift_frames frame_alloc); lift_k (page_map (Some (ktable (m_k m) (table_of e), index_of e)) f 0 0)) m
             = Ok (tt, m') /\ m_c m' = m_c m /\ heap_pages m' ({[ e ]} ∪ H) i (e + 4096) lim.
Proof.
  intros W Hlt Ht. pose proof W as [R1 R2 HI HC HA HV HB HU HZ HS HF HFr HRo HE].
  destruct (zone_page _ _ _ _ _ e W) as [Hk Hw]; [lia | apply R2 |].
  assert (Hpg : (lim - e) / 4096 = 1 + (lim - (e + 4096)) / 4096) by (Z.div_mod_to_equations; lia).
  assert (He4 : e + 4096 <= lim) by (destruct R2 as (_ & ? & ?); Z.div_mod_to_equations; lia).
  assert (Hpn : 0 <= (lim - (e + 4096)) / 4096) by (apply Z.div_pos; lia).
  pose proof (missing_le (m_k m) e (e + 4096) lim ltac:(lia)) as Hml.
  destruct (frame_alloc_ok (frames (k_g (m_k m)))) as (f & b & Ef & Hm & Hb & _ & Hwf & Hsz0 & Hln & Hbits).
  { by apply (ci_frames _ _ _ HI). }
  { assert (H1 : free_count (frames (k_g (m_k m))) 1) by (eapply free_count_le, HFr; unfold cost; lia).
    destruct H1 as ([|n fs] & _ & Hlen & Hfs); [done|]. exists n. apply Hfs. by left. }
  pose proof (capacity_same _ _ Hsz0 Hln) as Hsz.
  assert (Hfr' : free_count b (r + cost (m_k m) (e + 4096) lim)).
  { eapply free_count_step; [|exact Hsz | exact Hbits]. eapply free_count_le, HFr. unfold cost. lia. }
  set (k1 := KState (k_st (m_k m)) (set_frames b (k_g (m_k m)))).
  destruct (ci_tables _ _ _ HI _ (kspace_table _ Hk) Ht) as [tb Etb].
  assert (Ef' : forall A (q : Z -> M mstate A), (f ← lift_k (lift_frames frame_alloc); q f) m = q f (set_mk k1 m)).
  { intros A q. apply bind_Ok. unfold lift_k, lift_frames, zoom. by rewrite Ef. }
  assert (Eg : kpage (m_k m) e = Some (table_page tb (index_of e))) by by apply kpage_Some.
  destruct (decide (e ∈ H)) as [He|He].
  - (* mapped before: the frame is lost *)
    destruct (HS e He) as [f0 Ef0]. rewrite Eg in Ef0. injection Ef0 as Ef0.
    pose proof (ci_held _ _ _ HI e ltac:(left; set_solver) Hk) as Hn. unfold kframe in Hn. rewrite Eg, Ef0 in Hn. cbn in Hn.
    exists (set_mk k1 m). split; [|split; [done|]].
    + rewrite Ef'. rewrite (lift_k_eq _ _ tt k1); [done|]. apply wp_eq_Ok. unfold page_map, get_page. cbn [fst snd set_mk m_k]. ksteps. rewrite Ef0.
      cbn [kmapped pg_frame pg_present]. rewrite (proj2 (Z.eqb_neq _ _) Hn). cbn [andb when]. by ksteps.
    + replace ({[ e ]} ∪ H) with H by set_solver. split; try done.
      * lia.
      * destruct R2 as (? & ? & ?). split; [done|]. split; [Z.div_mod_to_equations; lia | done].
      * apply frames_inv; try done. intros n Hn0 Hn1. rewrite Hbits by done. by destruct (n =? f).
      * etransitivity; [exact HB | apply beside_frames].
      * intros v Hv Ha. destruct (Z.eq_dec v e) as [->|]; [done|]. apply HU; [|done].
        destruct R2 as (_ & ? & _). Z.div_mod_to_equations. lia.
      * eapply room_le, HRo. cbn [set_mk m_k]. unfold k1. change (missing (KState _ _)) with (missing (m_k m)). lia.
      * destruct kw; [done|]. cbn [set_mk m_k]. change (missing k1) with (missing (m_k m)). destruct HE. split; [lia | done].
  - pose proof (HF e ltac:(lia) (proj1 (proj2 R2)) He) as H0.
    destruct (client_inv (m_k m) _ _ e tb f b HI) as [HI' Hfr]; try done.
    set (k' := put_kpage e tb (kmapped f) b (m_k m)) in *.
    assert (Pg : forall x, kspace x -> kpage k' x = if decide (x = e) then Some (kmapped f) else kpage (m_k m) x)
      by (intros; by eapply kpage_put).
    assert (Fr : forall x, kspace x -> x <> e -> kframe k' x = kframe (m_k m) x)
      by (intros x Hx Hne; unfold kframe; by rewrite Pg, decide_False).
    exists (set_mk k' m). split; [|split; [done|]].
    + rewrite Ef'. rewrite (lift_k_eq _ _ tt k'); [done|]. apply wp_eq_Ok. unfold kframe in H0. rewrite Eg in H0.
      eapply wp_page_map; [exact Ht | exact Etb | exact H0 | by apply (ci_zero _ _ _ HI e) |].
      cbn [Z.eqb]. rewrite Z.mod_small by lia. reflexivity.
    + split; cbn [set_mk m_k m_c]; try done.
      * lia.
      * destruct R2 as (? & ? & ?). split; [done|]. split; [Z.div_mod_to_equations; lia | done].
      * by rewrite <- (assoc_L (∪)).
      * intros v Hv. destruct (HA v Hv). split; [|done]. intros [->%elem_of_singleton|?]%elem_of_union; [lia | done].
      * intros v Hv Hvk. rewrite Pg, decide_False by (done || intros ->; destruct (HA e Hv); lia). by apply HV.
      * etransitivity; [exact HB | apply beside_put].
      * intros v Hv Ha. destruct (Z.eq_dec v e) as [->|]; [set_solver|]. apply elem_of_union_r, HU; [|done].
        destruct R2 as (_ & ? & _). Z.div_mod_to_equations. lia.
      * intros v [->%elem_of_singleton|Hv]%elem_of_union; [split; [lia | apply R2] | by apply HZ].
      * intros v Hv. destruct (decide (v = e)) as [->|Hne].
        -- exists f. by rewrite Pg, decide_True.
        -- assert (Hv' : v ∈ H) by set_solver. destruct (HS v Hv') as [g Hg]. exists g. destruct (HZ v Hv').
           destruct (zone_page _ _ _ _ _ v W); try done. by rewrite Pg, decide_False.
      * intros v Hv Ha Hn. destruct (zone_page _ _ _ _ _ v W Hv Ha). rewrite Fr by (done || intros ->; set_solver).
        apply HF; [done | done | set_solver].
      * eapply room_ext; [exact HRo | |].
        -- change (missing k') with (missing (m_k m)). lia.
        -- intros x Hx. apply Fr; [by apply window_kspace|]. intros ->. done.
      * destruct kw; [done|]. change (missing k') with (missing (m_k m)). destruct HE. split; [lia | done].
Qed.

Lemma map_fresh_ok m H i e lim : heap_pages m H i e lim -> e < lim ->
  exists m', map_fresh e m = Ok (tt, m') /\ heap_pages m' ({[ e ]} ∪ H) i (e + 4096) lim.
Proof.
  intros W Hlt. destruct (ensure_table _ _ _ _ _ W Hlt) as (m1 & E1 & W1 & Ht).
  destruct (map_here _ _ _ _ _ W1 Hlt Ht) as (m2 & E2 & _ & W2). exists m2. split; [|done].
  unfold map_fresh. rewrite (bind_Ok _ _ m (kernel_pagedir (k_g (m_k m))) m) by (by destruct m).
  by rewrite (bind_Ok _ _ _ _ _ E1).
Qed.

Lemma map_range_ok n new : forall m H i old lim, heap_pages m H i old lim -> old <= new <= lim -> new mod 4096 = 0 ->
  (new - old) / 4096 < Z.of_nat n ->
  exists m' H', loop n (map_step new) old m = Ok (tt, m') /\ heap_pages m' H' i new lim.
Proof.
  induction n as [|n IH]; intros m H i old lim W Hle Ha Hn; [exfalso; Z.div_mod_to_equations; lia|].
  rewrite loop_S. unfold map_step. destruct (Z.ltb_spec old new) as [Hlt|Hge].
  - destruct (map_fresh_ok _ _ _ _ _ W ltac:(lia)) as (m1 & E1 & W1).
    pose proof (hg_range _ _ _ _ _ _ _ _ _ _ W1). pose proof (hg_align _ _ _ _ _ _ _ _ _ _ W) as (_ & Hao & _).
    assert (old + 4096 <= new) by (Z.div_mod_to_equations; lia).
    rewrite (bind_Ok _ _ m (inl (old + 0x1000)) m1).
    + change 0x1000 with 4096. apply IH with ({[ old ]} ∪ H); [done | lia | done | Z.div_mod_to_equations; lia].
    + rewrite (bind_Ok _ _ _ _ _ E1), w32_small by (unfold u32; lia). done.
  - replace new with old in * by lia. by exists m, H.
Qed.

Lemma unmap_here m H i e lim : heap_pages m H i e lim -> i <= e - 4096 ->
  exists m', (p ← getPage (kernel_pagedir (k_g (m_k m))) (e - 4096) false; lift_k (page_unmapFree p)) m = Ok (tt, m') /\
    m_c m' = m_c m /\ heap_pages m' (H ∖ {[ e - 4096 ]}) i (e - 4096) lim.
Proof.
  intros W Hle. pose proof W as [R1 R2 HI HC HA HV HB HU HZ HS HF HFr HRo HE]. set (v := e - 4096) in *.
  destruct R2 as (R2 & R3 & R4). assert (Hva : v mod 4096 = 0) by (unfold v; Z.div_mod_to_equations; lia).
  assert (Hv : v ∈ H) by (apply HU; [lia | done]).
  destruct (zone_page _ _ _ _ _ v W) as [Hk Hw]; [lia | done |].
  destruct (release_ok m _ _ v HI ltac:(set_solver) Hk) as (k' & E & HI' & H0 & Kd & Kt & Ksz & Km & Kb & Kbits & Kp & Ks & Kl & Kpd).
  assert (Hv0 : v ∉ C0) by (intros Hx; by destruct (HA v Hx)).
  assert (Fr : forall x, kspace x -> x <> v -> kframe k' x = kframe (m_k m) x)
    by (intros x Hx Hne; unfold kframe; by rewrite Kp).
  assert (Hmk : forall a, missing k' a lim = missing (m_k m) a lim) by (intros a; by apply missing_same).
  assert (Hmd : missing (m_k m) v lim = missing (m_k m) e lim).
  { apply missing_down; [lia | done |]. intros Ht. destruct (HS v Hv) as [f Hf].
    fold v in Ht. unfold kpage in Hf. by rewrite Ht in Hf. }
  assert (Hpg : (lim - v) / 4096 = 1 + (lim - e) / 4096) by (unfold v; Z.div_mod_to_equations; lia).
  assert (Hpn : 0 <= (lim - e) / 4096) by (apply Z.div_pos; lia).
  exists (set_mk k' m). split; [done|]. split; [done|]. split; cbn [set_mk m_k m_c]; try done.
  - lia.
  - replace (H ∖ {[ v ]} ∪ C0) with ((H ∪ C0) ∖ {[ v ]}) by set_solver. done.
  - intros x Hx. destruct (HA x Hx). split; [set_solver | done].
  - intros x Hx Hxk. rewrite Kp; [by apply HV | done | congruence].
  - by etransitivity.
  - intros x Hx Hxa. apply elem_of_difference. split; [apply HU; [lia | done]|]. apply not_elem_of_singleton. lia.
  - intros x Hx. apply HZ. set_solver.
  - intros x [Hx Hne%not_elem_of_singleton]%elem_of_difference. destruct (HS x Hx) as [f Hf]. exists f.
    destruct (HZ x Hx). destruct (zone_page _ _ _ _ _ x W); try done. by rewrite Kp.
  - intros x Hx Hxa Hn. destruct (Z.eq_dec x v) as [->|Hne]; [done|].
    destruct (zone_page _ _ _ _ _ x W Hx Hxa). rewrite Fr by done. apply HF; [done | done | set_solver].
  - unfold cost. rewrite Hmk, Hmd, Hpg. eapply free_count_le, (release_count (frames (k_g (m_k m)))); [|exact HFr | done | exact Km | exact Kb | exact Kbits].
    unfold cost. lia.
  - rewrite Hmk, Hmd. eapply room_ext; [exact HRo | lia |]. intros x Hx. apply Fr; [by apply window_kspace|]. intros ->. done.
  - rewrite Hmk, Hmd. destruct kw; [done|]. by rewrite Kl, Kpd.
Qed.

Lemma unmap_range_ok n new : forall m H i old lim, heap_pages m H i old lim -> i <= new <= old -> new mod 4096 = 0 ->
  (old - new) / 4096 < Z.of_nat n ->
  exists m' H', loop n (unmap_step new) (old - 4096) m = Ok (new - 4096, m') /\ heap_pages m' H' i new lim /\
    forall v, v ∈ H' <-> v ∈ H /\ ~ (new <= v < old).
Proof.
  induction n as [|n IH]; intros m H i old lim W Hle Ha Hn; [exfalso; Z.div_mod_to_equations; lia|].
  pose proof (hg_range _ _ _ _ _ _ _ _ _ _ W). pose proof (hg_align _ _ _ _ _ _ _ _ _ _ W) as (_ & Hao & _).
  rewrite loop_S. unfold unmap_step. destruct (Z.leb_spec new (old - 4096)) as [Hlt|Hge].
  - destruct (unmap_here _ _ _ _ _ W ltac:(lia)) as (m1 & E1 & _ & W1).
    rewrite (bind_Ok _ _ m (inl (old - 4096 - 4096)) m1).
    + destruct (IH _ _ _ _ _ W1 ltac:(lia) Ha ltac:(Z.div_mod_to_equations; lia)) as (m' & H' & E & W' & Hm).
      exists m', H'. split; [exact E|]. split; [exact W'|]. intros v. rewrite Hm, elem_of_difference, elem_of_singleton.
      split; [|intuition lia]. intros [[Hv Hne] Hr]. split; [done|].
      destruct (hg_zone _ _ _ _ _ _ _ _ _ _ W v Hv) as [_ Hva]. Z.div_mod_to_equations. lia.
    + rewrite (bind_Ok _ _ m (kernel_pagedir (k_g (m_k m))) m) by (by destruct m).
      rewrite (bind_Ok _ _ _ _ _ E1), w32_small by (unfold u32; lia). done.
  - assert (new = old) as -> by (Z.div_mod_to_equations; lia). exists m, H. split; [done|]. split; [done|].
    intros v. split; [|tauto]. intros Hv. split; [done | lia].
Qed.

(** The kernel's pages obey the laws of [HeapAlloc]. *)
Definition paged (b : kback) (i e lim : Z) : Prop := exists H, heap_pages (kb_m b) H i e lim.

Lemma paged_acc b i e lim : paged b i e lim -> acc b i e.
Proof.
  intros [H W] x Hx. cbn. unfold is_mapped. rewrite <- kpage_page.
  pose proof (hg_align _ _ _ _ _ _ _ _ _ _ W) as (Hai & Hae & _).
  destruct (hg_shown _ _ _ _ _ _ _ _ _ _ W (4096 * (x / 4096))) as [f Hf].
  - apply (hg_used _ _ _ _ _ _ _ _ _ _ W); Z.div_mod_to_equations; lia.
  - by rewrite Hf.
Qed.

(** What [heap_contract] gives back, and the end it records. *)
Lemma shrink_pages b H i old new lim : heap_pages (kb_m b) H i old lim -> i <= new < old -> new mod 4096 = 0 ->
  exists m' H', shrink_post new old b = Ok (new - 4096, set_kb_m m' b) /\ heap_pages m' H' i new lim /\
    forall v, v ∈ H' <-> v ∈ H /\ ~ (new <= v < old).
Proof.
  intros W Hle Han. pose proof (hg_range _ _ _ _ _ _ _ _ _ _ W).
  destruct (unmap_range_ok (Z.to_nat (2 + (old - new) / 0x1000)) new _ _ _ _ _ W) as (m' & H' & E & W'); [lia | done | |].
  { rewrite Z2Nat.id; [lia|]. pose proof (Z.div_pos (old - new) 0x1000). lia. }
  exists m', H'. split; [|exact W']. cbn. unfold zoom, unmap_range. change 0x1000 with 4096 in *.
  rewrite (w32_small (old - 4096)) by (unfold u32; lia). by rewrite E.
Qed.

Definition PagedLaws : BackingLaws kback.
Proof.
  refine {| backed := paged |}.
  - apply paged_acc.
  - intros i old new lim b Hi Hai Hle Hlim Hn Hao Han [H W].
    destruct (map_range_ok (Z.to_nat (2 + (new - old) / 0x1000)) new _ _ _ _ _ W) as (m' & H' & E & W'); [lia | done | |].
    { rewrite Z2Nat.id; [lia|]. pose proof (Z.div_pos (new - old) 0x1000). lia. }
    exists 0, (KBack m' (kb_fill b) (Datatypes.S (kb_count b))). split; [|split; [done|]; intros _; by exists H'].
    cbn. rewrite (bind_Ok _ _ b tt (set_kb_m m' b)); [done|]. unfold zoom, map_range. by rewrite E.
  - intros i new old lim b Hi Hle Ho W. exists 0, b. split; [done|]. split; [|done].
    eapply acc_sub; [by eapply paged_acc | lia | lia].
  - intros i new old lim b b1 Hi Hle Hlt Ho Hao Han [H W] [= <-]. pose proof (hg_range _ _ _ _ _ _ _ _ _ _ W).
    destruct (shrink_pages b H i old new lim W) as (m' & H' & E & W' & _); [lia | done|].
    exists (new - 4096), (set_kb_m m' b). split; [exact E | by exists H'].
Defined.

End run.

(** The pages can be counted up to a higher address when more is free. *)
Lemma heap_pages_extend C0 k0 r w r' w' m H i e lim lim' : heap_pages C0 k0 r w true m H i e lim ->
  lim <= lim' <= 0xF0000000 -> lim' mod 4096 = 0 ->
  (forall v, lim <= v < lim' -> v mod 4096 = 0 -> kframe (m_k m) v = 0) ->
  free_count (frames (k_g (m_k m))) (r' + cost (m_k m) e lim') -> room (m_k m) (w' + 2 * missing (m_k m) e lim') ->
  (forall v, v ∈ C0 -> kspace v) ->
  heap_pages C0 k0 r' w' true m H i e lim'.
Proof.
  intros [R1 (R2 & R3 & R4) HI HC HA HV HB HU HZ HS HF HFr HRo HE] Hl Ha H0 Hfr Hro Hk. split; try done.
  - lia.
  - intros v Hv. destruct (HA v Hv) as [Hn Hz]. split; [done|]. intros Hx. destruct (Hk v Hv) as [Hkv Hkm].
    apply (ci_held _ _ _ HI v); [left; set_solver | done |]. apply H0; [lia | done].
  - intros v Hv. destruct (HZ v Hv). split; [lia | done].
  - intros v Hv Hva Hn. destruct (Z.lt_ge_cases v lim); [apply HF; (done || lia) | apply H0; (done || lia)].
Qed.

Lemma heap_pages_cache C0 k0 r w m H i e lim : heap_pages C0 k0 r w true m H i e lim -> cache_ok m (H ∪ C0).
Proof. intros [R1 R2 HI (C1 & C2 & C3) HA HV HB HU HZ HS HF HFr HRo HE]. by split; [|split; [|split; [|split]]]. Qed.

(** ** Theorems *)

(** The state [kmain] calls [kheap_init] in: the cache works, and the page
    tables for the first pages of the heap, nine at least, are there. *)
Record before_heap (s : kmem) (C0 : gset Z) (r w : nat) (lim : Z) : Prop := {
  bh_early : kheap_working (m_c (kb_m (bk s))) = 0;
  bh_cache : length (freepages (m_c (kb_m (bk s)))) = 5%nat /\ 4 <= freepagecount (m_c (kb_m (bk s))) <= 5 /\
             locked (m_c (kb_m (bk s))) = 0;
  bh_place : 0xE0001000 <= mem_placementAddr (m_c (kb_m (bk s))) <= 0xE7FFE000;
  bh_inv : cache_inv (m_k (kb_m (bk s))) (cached (kb_m (bk s))) C0;
  bh_clients v : v ∈ C0 -> kspace v;
  bh_empty v : let b := page_mask (mem_placementAddr (m_c (kb_m (bk s)))) + 0x1000 in
    b <= v < lim -> v mod 4096 = 0 -> kframe (m_k (kb_m (bk s))) v = 0;
  bh_tables v : let b := page_mask (mem_placementAddr (m_c (kb_m (bk s)))) + 0x1000 in
    b <= v < lim -> ktable (m_k (kb_m (bk s))) (table_of v) <> 0;
  bh_lim : page_mask (mem_placementAddr (m_c (kb_m (bk s)))) + 0xA000 <= lim <= 0xF0000000 /\ lim mod 4096 = 0;
  bh_frames : free_count (frames (k_g (m_k (kb_m (bk s)))))
    (r + Z.to_nat ((lim - (page_mask (mem_placementAddr (m_c (kb_m (bk s)))) + 0x1000)) / 4096));
  bh_room : room (m_k (kb_m (bk s))) w;
  bh_fill n : rd32 (kb_fill (bk s) n) (page_mask (mem_placementAddr (m_c (kb_m (bk s)))) + 0x2000 - 8) <> HEAP_MAGIC
}.

Lemma before_heap_pages s C0 r w lim : before_heap s C0 r w lim ->
  let b := page_mask (mem_placementAddr (m_c (kb_m (bk s)))) + 0x1000 in
  b mod 4096 = 0 /\ 0xE0001000 <= b <= 0xE7FFF000 /\ mem_placementAddr (m_c (kb_m (bk s))) < b /\
  heap_pages C0 (m_k (kb_m (bk s))) r w false (kb_m (bk s)) ∅ b b lim.
Proof.
  intros [H1 H2 H3 H4 H5 H6 H7 [HL1 HL2] H8 H9 _] b. set (a := mem_placementAddr (m_c (kb_m (bk s)))) in *. fold b in H6, H7.
  assert (Hb : a < b <= a + 0x1000 /\ b mod 4096 = 0).
  { unfold b. rewrite page_mask_sub by (unfold u32; lia). Z.div_mod_to_equations. lia. }
  assert (Hbm : b <= 0xE7FFF000) by (Z.div_mod_to_equations; lia).
  assert (Hm : missing (m_k (kb_m (bk s))) b lim = 0%nat).
  { unfold missing. destruct (filter (fun i => ktable (m_k (kb_m (bk s))) i = 0) (tabs b lim)) as [|i l] eqn:Ef; [done|].
    exfalso. assert (Hi : i ∈ i :: l) by (by left). rewrite <- Ef in Hi. apply list_elem_of_filter in Hi as [H0 Hi].
    unfold tabs in Hi. apply elem_of_seqZ in Hi. apply (H7 (Z.max b (i * 0x400000))); [Z.div_mod_to_equations; lia|].
    rewrite table_4m. replace (Z.max b (i * 0x400000) / 0x400000) with i; [done|]. Z.div_mod_to_equations. lia. }
  split; [apply Hb|]. split; [lia|]. split; [lia|]. split; try done.
  - lia.
  - destruct Hb as [_ Hb]. by repeat split.
  - by rewrite (left_id_L ∅ (∪)).
  - intros v Hv. split; [set_solver|]. intros Hx. destruct (H5 v Hv) as [Hk Ha].
    apply (ci_held _ _ _ H4 v); [by left | done | by apply H6].
  - intros v Hv. lia.
  - intros v Hv Ha _. by apply H6.
  - unfold cost. rewrite Hm, Nat.mul_0_r, Nat.add_0_r. exact H8.
  - by rewrite Hm, Nat.add_0_r.
Qed.

Lemma kheap_init_ok s C0 r w lim : before_heap s C0 r w lim ->
  let b := page_mask (mem_placementAddr (m_c (kb_m (bk s)))) + 0x1000 in
  exists s' H, kheap_init s = Ok (tt, s') /\ heap_live s' [] /\ index_room (hp s') /\
    idx (hp s') = b /\ mem_placementAddr (m_c (kb_m (bk s))) < b /\
    end_addr (hp s') = b + 0x9000 /\ max_end (hp s') <= 0xF0000000 /\
    kheap_working (m_c (kb_m (bk s'))) = 1 /\
    heap_pages C0 (m_k (kb_m (bk s))) r w true (kb_m (bk s')) H b (b + 0x9000) lim /\
    cache_ok (kb_m (bk s')) (H ∪ C0) /\ if_locks (k_g (m_k (kb_m (bk s')))) = if_locks (k_g (m_k (kb_m (bk s)))) /\
    k_pagedirs (k_st (m_k (kb_m (bk s')))) = k_pagedirs (k_st (m_k (kb_m (bk s)))).
Proof.
  intros HB b. destruct (before_heap_pages s C0 r w lim HB) as (Hal & Hb & Hlt & W). fold b in Hal, Hb, Hlt, W.
  destruct (@heap_create_ok kback _ (PagedLaws C0 (m_k (kb_m (bk s))) r w false) s b
    KHEAP_IDXSIZE KHEAP_INITSIZE KHEAP_MAXSIZE lim) as (e & s1 & E & Hr & Hwf);
    unfold KHEAP_IDXSIZE, KHEAP_INITSIZE, KHEAP_MAXSIZE in *; try lia; try done.
  { rewrite <- !Z.add_assoc, Z.add_mod by lia. by rewrite Hal. }
  { by exists ∅. }
  { pose proof (bh_lim _ _ _ _ _ HB). unfold b. lia. }
  { intros b' Eg. cbn in Eg. apply bind_inv in Eg as ([] & b1 & E1 & [= <-]). cbn.
    unfold zoom in E1. destruct (map_range _ _ _) as [[[] m1]|]; [injection E1 as <-|done]. cbn.
    replace (b + 0x1000 - 8) with (page_mask (mem_placementAddr (m_c (kb_m (bk s)))) + 0x2000 - 8) by (unfold b; lia).
    apply (bh_fill _ _ _ _ _ HB). }
  assert (e = 0) as ->.
  { destruct Hr as [|(-> & e' & b' & He & Eg)]; [done|]. cbn in Eg. apply bind_inv in Eg as (? & ? & _ & [= <- _]). done. }
  destruct (Hwf eq_refl) as (Ei & Es & Em & [H W1] & Wf). clear Hwf Hr.
  replace (b + 0x1000 + 0x8000) with (b + 0x9000) in W1 by lia.
  set (m1 := set_mc (set_working 1 (m_c (kb_m (bk s1)))) (kb_m (bk s1))).
  assert (W2 : heap_pages C0 (m_k (kb_m (bk s))) r w true m1 H b (b + 0x9000) lim).
  { destruct W1 as [X1 X2 X3 X4 X5 X6 X7 X8 X9 X10 X11 X12 X13]. by split. }
  exists (set_bk (set_kb_m m1 (bk s1)) s1), H. split.
  - unfold kheap_init. rewrite (bind_Ok _ _ _ _ _ (lift_m_get _ _)). unfold mm.
    fold b. rewrite w32_small by (unfold u32; lia). rewrite (bind_Ok _ _ _ _ _ E). reflexivity.
  - pose proof (wf_end _ _ _ _ _ Wf) as Hend. pose proof (wf_frame _ _ _ _ _ Wf) as []. cbn [tot bsz length] in *.
    split.
    { exists [Blk 0x8000 true], [(b + 0x1000, 0x8000)]. cbn. split; [|done]. destruct Wf as [F ? ? ? ? ?]. by split. }
    cbn. unfold index_room. rewrite Ei, Es, Em. split; [cbn in *; lia|]. split; [done|]. split; [lia|]. split; [lia|].
    split; [lia|]. split; [done|]. split; [done|]. split; [by eapply heap_pages_cache|].
    exact (proj2 (hg_working _ _ _ _ _ _ _ _ _ _ W1)).
Qed.

(** C21. [kheap_init] puts the heap between the pages taken before and the window
    of the pages taken later, on nine fresh frames: what [kmalloc] gave out
    before lies below the new heap, which can never grow into the window.
    The page cache is as it was, with the pages of the heap as further
    pages in use, and the pages others hold show what they showed. *)
Theorem kheap_init_maps s C0 r w lim : before_heap s C0 r w lim ->
  let b := page_mask (mem_placementAddr (m_c (kb_m (bk s)))) + 0x1000 in
  exists s' H, kheap_init s = Ok (tt, s') /\ heap_live s' [] /\ index_room (hp s') /\
    idx (hp s') = b /\ mem_placementAddr (m_c (kb_m (bk s))) < b /\
    end_addr (hp s') = b + 0x9000 /\ max_end (hp s') <= 0xF0000000 /\
    kheap_working (m_c (kb_m (bk s'))) = 1 /\
    heap_pages C0 (m_k (kb_m (bk s))) r w true (kb_m (bk s')) H b (b + 0x9000) lim /\
    cache_ok (kb_m (bk s')) (H ∪ C0) /\ if_locks (k_g (m_k (kb_m (bk s')))) = if_locks (k_g (m_k (kb_m (bk s)))) /\
    k_pagedirs (k_st (m_k (kb_m (bk s')))) = k_pagedirs (k_st (m_k (kb_m (bk s)))).
Proof. apply kheap_init_ok. Qed.

(** C19. [kmalloc] once the heap works, on the kernel's own page tables and
    frames: as long as the frames for two expansions are free, it ends and
    answers 0 or a fresh block whose bytes are mapped; live blocks keep
    their bytes, the pages others hold keep their mappings, and the cache of
    pages is in order whatever page tables the growth of the heap took. *)
Theorem kmalloc_grows C0 k0 r w (s : kmem) u sz lim :
  heap_live s u -> idx (hp s) mod 4096 = 0 -> 0 <= sz -> max_end (hp s) + sz + 4096 < W32 -> index_room (hp s) ->
  kheap_working (m_c (kb_m (bk s))) <> 0 ->
  (exists H, heap_pages C0 k0 r w true (kb_m (bk s)) H (idx (hp s)) (end_addr (hp s)) lim) ->
  (max_end (hp s) <= lim \/ end_addr (hp s) + 2 * quantum sz <= lim) ->
  exists p s' H, kmalloc sz s = Ok (p, s') /\ same_limits (hp s) (hp s') /\ same_used u (hm s) (hm s') /\
    heap_pages C0 k0 r w true (kb_m (bk s')) H (idx (hp s')) (end_addr (hp s')) lim /\
    cache_ok (kb_m (bk s')) (H ∪ C0) /\
    ((p = 0 /\ heap_live s' u) \/
     (p <> 0 /\ fresh_block s' u p sz /\
      exists sz' u', sz + 20 <= sz' <= sz + 40 /\ heap_live s' u' /\ u' ≡ₚ (p - 12, sz') :: u)).
Proof.
  intros Hl Ha Hsz Hmax Hroom Hw HP Hlim. destruct Hl as (bs & ix & Wf & <-).
  destruct (@alloc_live kback _ (PagedLaws C0 k0 r w true) s bs ix sz lim) as (p & s' & E & L & S & [H W] & R); try done; [by right|].
  exists p, s', H. split; [|do 3 (split; [done|]); split; [by eapply heap_pages_cache | done]].
  unfold kmalloc. rewrite (bind_Ok _ _ _ _ _ (lift_m_get _ _)). unfold mm.
  by rewrite (proj2 (Z.eqb_neq _ _) Hw).
Qed.

(** ** A sample: the kernel of [Kmem], with the heap to be made *)

Definition sample_before (a : Z) : kmem :=
  HState (Heap 0 0 0 0 0) (fun _ => 0) (KBack (MState sample_kernel (PCache a 0 sample_pages 4 0)) (fun _ _ => 0) 0).

(** The heap starts at 0xE011C000, on the frames that are free, and its
    first block is 32 bytes after the array of holes. *)
Example sample_kheap_init :
  match (kheap_init;; kmalloc 100) (sample_before 0xE011B000) with
  | Ok (p, s') => p = 0xE011D00C /\ idx (hp s') = 0xE011C000 /\
      kframe (m_k (kb_m (bk s'))) 0xE011C000 = 1 /\ kframe (m_k (kb_m (bk s'))) 0xE0124000 = 9
  | Fault _ => False
  end.
Proof. vm_compute. repeat split. Qed.

Lemma sample_before_start :
  page_mask (mem_placementAddr (m_c (kb_m (bk (sample_before 0xE011B000))))) + 0x1000 = 0xE011C000.
Proof. reflexivity. Qed.

Lemma sample_before_ok : before_heap (sample_before 0xE011B000) ∅ 0 1 0xE0127000.
Proof.
  pose proof sample_before_start as Hb.
  split; rewrite ?Hb; cbn [sample_before bk kb_m m_c m_k kheap_working freepages freepagecount locked mem_placementAddr length sample_pages]; try done.
  - destruct (sample_cache_ok) as [H _]. exact H.
  - intros v Hv Ha. destruct (Z.eq_dec (kframe sample_kernel v) 0) as [|Hn]; [done|].
    destruct (sample_frame v Hn) as (_ & Hi & _). exfalso. unfold index_of in Hi.
    repeat (apply elem_of_cons in Hi as [Hi|Hi]; [Z.div_mod_to_equations; lia|]). by apply elem_of_nil in Hi.
  - intros v Hv. rewrite sample_ktable, decide_True; [done|]. rewrite table_4m. Z.div_mod_to_equations. lia.
  - exists [5; 6; 7; 8; 9; 10; 11; 12; 13; 14; 15]. split; [apply (bool_decide_unpack _); vm_compute; exact I|].
    split; [reflexivity|]. intros k Hk.
    repeat (apply elem_of_cons in Hk as [->|Hk];
      [split; [vm_compute; split; [discriminate | reflexivity] | reflexivity]|]). by apply elem_of_nil in Hk.
  - exists [0xFFFFF000]. split; [apply NoDup_singleton|]. split; [done|].
    intros v ->%list_elem_of_singleton. split; [split; [lia | reflexivity] | reflexivity].
Qed.

Lemma kheap_init_maps_witness :
  exists s' H, kheap_init (sample_before 0xE011B000) = Ok (tt, s') /\ heap_live s' [] /\ index_room (hp s') /\
    idx (hp s') = 0xE011C000 /\ 0xE011B000 < 0xE011C000 /\
    end_addr (hp s') = 0xE011C000 + 0x9000 /\ max_end (hp s') <= 0xF0000000 /\
    kheap_working (m_c (kb_m (bk s'))) = 1 /\
    heap_pages ∅ sample_kernel 0 1 true (kb_m (bk s')) H 0xE011C000 (0xE011C000 + 0x9000) 0xE0127000 /\
    cache_ok (kb_m (bk s')) (H ∪ ∅) /\ if_locks (k_g (m_k (kb_m (bk s')))) = if_locks (k_g sample_kernel) /\
    k_pagedirs (k_st (m_k (kb_m (bk s')))) = k_pagedirs (k_st sample_kernel).
Proof.
  pose proof (kheap_init_maps (sample_before 0xE011B000) ∅ 0 1 0xE0127000 sample_before_ok) as P.
  cbv zeta in P. rewrite sample_before_start in P. exact P.
Defined.

Lemma kmalloc_grows_witness : exists s, kheap_init (sample_before 0xE011B000) = Ok (tt, s) /\
  exists p s' H, kmalloc 64 s = Ok (p, s') /\ same_limits (hp s) (hp s') /\ same_used [] (hm s) (hm s') /\
    heap_pages ∅ sample_kernel 0 1 true (kb_m (bk s')) H (idx (hp s')) (end_addr (hp s')) 0xE0127000 /\
    cache_ok (kb_m (bk s')) (H ∪ ∅) /\
    ((p = 0 /\ heap_live s' []) \/
     (p <> 0 /\ fresh_block s' [] p 64 /\
      exists sz' u', 64 + 20 <= sz' <= 64 + 40 /\ heap_live s' u' /\ u' ≡ₚ (p - 12, sz') :: [])).
Proof.
  destruct (kheap_init_ok (sample_before 0xE011B000) ∅ 0 1 0xE0127000 sample_before_ok)
    as (s & H & E & L & R & Ei & _ & Ee & Em & Ew & W & _).
  rewrite sample_before_start in *. exists s. split; [exact E|]. clear E. apply (kmalloc_grows ∅ sample_kernel 0 1 s [] 64 0xE0127000);
    [done | by rewrite Ei | lia | lia | done | by rewrite Ew | |].
  - exists H. rewrite Ei, Ee. exact W.
  - right. rewrite Ee. apply Z.leb_le. reflexivity.
Defined.

(** When the first nine pages of the heap reach into a part of the address
    space whose page table does not exist, making the table takes a page for
    the cache while [kheap_working] is still 0: [get_free_pages] takes it
    from [mem_placementAddr], which is where the heap was just put.  Here the
    table of 0xE0400000 is placed on the array of holes, and the directory
    has a physical address for it that is not the frame mapped there. *)
Theorem kheap_init_overlap :
  match kheap_init (sample_before 0xE03F7000) with
  | Ok (_, s') => idx (hp s') = 0xE03F8000 /\ ktable (m_k (kb_m (bk s'))) (table_of 0xE0400000) = idx (hp s') /\
      (exists d, kdir (m_k (kb_m (bk s'))) = Some d /\ dir_phys d (table_of 0xE0400000) = 0x3F8007) /\
      kframe (m_k (kb_m (bk s'))) (idx (hp s')) = 1
  | Fault _ => False
  end.
Proof.
  vm_compute. split; [reflexivity|]. split; [reflexivity|]. split; [eexists; split; reflexivity | reflexivity].
Qed.
