(* ===== verification/KFree.v ===== *)
(** * Freeing in the kernel's heap

    [kfree] of [src/kernel/mem/mem.c] over the pages of [KHeap]: the block is
    merged with the holes around it, and what [heap_contract] gives back are
    pages and frames of the kernel.  Two places where the code falls short
    are here as well: the end of the heap that is recorded after the pages
    were given back, which makes the next growth fault, and the block that
    ends where the heap ends. *)

From S2P Require Import Prelude Memory Bitset Heap HeapIndex HeapBlocks HeapOps HeapAlloc HeapFree HeapSpec Kernel Paging Tasking Kmem KHeap.

(** ** Specification *)

(** The bytes that leave the heap when the block between [bs1] and [bs2] is
    freed. *)
Definition returned (h : heap) (bs1 : list blk) (sz : Z) (bs2 : list blk) : Z :=
  if contracts h bs1 sz bs2 then giveback h (merged bs1 sz bs2) else 0.

(** The heap is [bs] up to [e], and others see what they saw; [H'] are its
    pages. *)
Record released C0 k0 r w (s s' : kmem) (bs : list blk) (u : list (Z * Z)) (e lim : Z) (H H' : gset Z) : Prop := {
  rl_wf : exists ix, heap_wf (set_end_addr e (hp s')) (hm s') (bk s') bs ix;
  rl_limits : idx (hp s') = idx (hp s) /\ start_addr (hp s') = start_addr (hp s) /\ max_end (hp s') = max_end (hp s);
  rl_live : used (start_addr (hp s)) bs = u;
  rl_same : same_used u (hm s) (hm s');
  rl_pages : heap_pages C0 k0 r w true (mm s') H' (idx (hp s)) e lim;
  rl_given v : v ∈ H' <-> v ∈ H /\ ~ (e <= v < end_addr (hp s))
}.

(** ** Lemmas *)

Section kfree.
Context (C0 : gset Z) (k0 : kstate) (r w : nat).
Implicit Types (s : kmem) (bs : list blk) (ix : list (Z * Z)) (H : gset Z) (lim : Z).

Lemma used_end h bs1 sz bs2 a : contracts h bs1 sz bs2 = true -> used a bs2 = [].
Proof. intros Er%contracts_right. rewrite <- right_rest_used. by rewrite Er. Qed.

(** Nothing goes back: the hole is not at the end, or it is too small. *)
Lemma free_keeps s bs1 sz bs2 ix H lim :
  heap_wf (hp s) (hm s) (bk s) (bs1 ++ Blk sz false :: bs2) ix -> bs2 <> [] -> index_room (hp s) ->
  heap_pages C0 k0 r w true (mm s) H (idx (hp s)) (end_addr (hp s)) lim -> contracts (hp s) bs1 sz bs2 = false ->
  exists s', heap_free (start_addr (hp s) + tot bs1 + 12) s = Ok (tt, s') /\
    released C0 k0 r w s s' (left_rest bs1 ++ Blk (merged bs1 sz bs2) true :: right_rest bs2)
      (used (start_addr (hp s)) bs1 ++ used (start_addr (hp s) + tot bs1 + sz) bs2) (end_addr (hp s)) lim H H /\
    end_addr (hp s') = end_addr (hp s).
Proof.
  intros W Hne Hroom HP Hc. destruct s as [h m b]. cbn [hp hm bk] in *.
  destruct (@heap_free_merges kback _ _ _ _ _ _ _ _ W (or_introl Hne) Hroom) as (n & m' & ix' & HE & [X1 X2 X3 X4]).
  rewrite Hc in HE. rewrite merge_used in X3, X4.
  destruct (proj1 (wp_Ok _ _ _) (HE (fun _ s => s = HState (set_idxused n h) m' b) eq_refl)) as ([] & s' & E & ->).
  eexists. split; [exact E|]. split; [|done]. split; cbn [hp hm bk start_addr end_addr set_idxused]; try done.
  - exists ix'. by destruct h.
  - apply merge_used.
  - intros v. split; [|tauto]. intros Hv. split; [done | lia].
Qed.

(** The end of the heap goes back. *)
Lemma free_shrinks s bs1 sz bs2 ix H lim :
  heap_wf (hp s) (hm s) (bk s) (bs1 ++ Blk sz false :: bs2) ix -> bs2 <> [] -> index_room (hp s) ->
  heap_pages C0 k0 r w true (mm s) H (idx (hp s)) (end_addr (hp s)) lim -> contracts (hp s) bs1 sz bs2 = true ->
  let l := merged bs1 sz bs2 in
  let q := giveback (hp s) l in
  q = 0 \/ 20 <= l - q ->
  let e := end_addr (hp s) - q in
  exists s' H', heap_free (start_addr (hp s) + tot bs1 + 12) s = Ok (tt, s') /\
    released C0 k0 r w s s' (left_rest bs1 ++ [Blk (l - q) true]) (used (start_addr (hp s)) bs1) e lim H H' /\
    end_addr (hp s') = if q =? 0 then e else e - 4096.
Proof.
  intros W Hne Hroom HP Hc l q Hq e. destruct s as [h m b]. unfold mm in HP. cbn [hp hm bk] in *.
  destruct (@free_contracts kback _ (PagedLaws C0 k0 r w true) _ _ _ _ _ _ _ lim W (or_introl Hne) Hroom
    (ex_intro _ H HP) Hc Hq) as (s' & k & E & Hk & (ix' & W') & Hlim & Hs & He & _).
  assert (Hu : used (start_addr h) (left_rest bs1 ++ [Blk (l - q) true]) = used (start_addr h) bs1).
  { rewrite sel_app. cbn. rewrite app_nil_r. apply left_rest_used. }
  fold l q in He, W', Hk. destruct He as [(-> & Ee & [[Eq Eb]|(x & [= <- _] & ?)])|(Hk0 & b1 & [= <-] & E1)]; [|done|].
  - exists s', H. split; [exact E|]. subst e. rewrite Eq, !Z.sub_0_r in *. split; [|exact Ee].
    split; cbn [hp hm bk]; try done.
    + by exists ix'.
    + unfold mm. by rewrite Eb.
    + intros v. split; [|tauto]. intros Hv. split; [done | lia].
  - destruct Hk as [->| ->]; [lia|]. fold e in E1, W'. pose proof (wf_frame _ _ _ _ _ W') as F'.
    destruct Hlim as (L1 & L2 & L3).
    assert (Hal : e mod 4096 = 0 /\ idx h <= e).
    { destruct F'. cbn [idx start_addr end_addr set_end_addr] in *. rewrite L1 in *. split; [done|].
      destruct (wf_frame _ _ _ _ _ W). lia. }
    destruct (shrink_pages C0 k0 r w true b H (idx h) (end_addr h) e lim HP) as (m' & H' & E2 & W2 & Hg);
      [unfold e; lia | apply Hal |].
    rewrite E2 in E1. injection E1 as E3 E4. exists s', H'. split; [exact E|].
    rewrite (proj2 (Z.eqb_neq q 0)) by lia. split; [|done].
    split; cbn [hp hm bk]; try done.
    + by exists ix'.
    + unfold mm. by rewrite <- E4.
Qed.

(** [kfree] of a live block that is not the last one. *)
Lemma kfree_ok s bs1 sz bs2 ix H lim :
  heap_wf (hp s) (hm s) (bk s) (bs1 ++ Blk sz false :: bs2) ix -> bs2 <> [] -> index_room (hp s) ->
  kheap_working (m_c (mm s)) <> 0 ->
  heap_pages C0 k0 r w true (mm s) H (idx (hp s)) (end_addr (hp s)) lim ->
  let l := merged bs1 sz bs2 in
  let q := returned (hp s) bs1 sz bs2 in
  q = 0 \/ 20 <= l - q ->
  let e := end_addr (hp s) - q in
  exists s' H', kfree (start_addr (hp s) + tot bs1 + 12) s = Ok (tt, s') /\
    released C0 k0 r w s s' (left_rest bs1 ++ Blk (l - q) true :: right_rest bs2)
      (used (start_addr (hp s)) bs1 ++ used (start_addr (hp s) + tot bs1 + sz) bs2) e lim H H' /\
    end_addr (hp s') = if q =? 0 then e else e - 4096.
Proof.
  intros W Hne Hroom Hw HP l q Hq e.
  assert (Hf : forall p, kfree p s = heap_free p s).
  { intros p. unfold kfree. rewrite (bind_Ok _ _ _ _ _ (lift_m_get _ _)). by rewrite (proj2 (Z.eqb_neq _ _) Hw). }
  rewrite Hf. unfold returned in q. destruct (contracts (hp s) bs1 sz bs2) eqn:Hc.
  - rewrite (contracts_right _ _ _ _ Hc), (used_end _ _ _ _ _ Hc), app_nil_r. by apply free_shrinks with ix.
  - destruct (free_keeps s bs1 sz bs2 ix H lim) as (s' & E & R & Ee); try done.
    exists s', H. split; [exact E|]. subst e q. rewrite !Z.sub_0_r. split; [exact R | exact Ee].
Qed.

End kfree.

(** ** Theorems *)

(** C20. [kfree] of a live block with another block behind it, on the kernel's own
    page tables and frames: the block becomes one hole with the holes around
    it, the other live blocks keep their bytes, and when the hole ends the
    heap the pages of its end are unmapped and their frames free; the
    pages others hold and the page cache are as they were.  The heap is
    well formed up to [e]; when pages went back, the code records an end one
    page below. *)
Theorem kfree_releases C0 k0 r w (s : kmem) bs1 sz bs2 ix H lim :
  heap_wf (hp s) (hm s) (bk s) (bs1 ++ Blk sz false :: bs2) ix -> bs2 <> [] -> index_room (hp s) ->
  kheap_working (m_c (mm s)) <> 0 ->
  heap_pages C0 k0 r w true (mm s) H (idx (hp s)) (end_addr (hp s)) lim ->
  let l := merged bs1 sz bs2 in
  let q := returned (hp s) bs1 sz bs2 in
  q = 0 \/ 20 <= l - q ->
  let e := end_addr (hp s) - q in
  exists s' H', kfree (start_addr (hp s) + tot bs1 + 12) s = Ok (tt, s') /\
    released C0 k0 r w s s' (left_rest bs1 ++ Blk (l - q) true :: right_rest bs2)
      (used (start_addr (hp s)) bs1 ++ used (start_addr (hp s) + tot bs1 + sz) bs2) e lim H H' /\
    end_addr (hp s') = (if q =? 0 then e else e - 4096) /\
    cache_ok (mm s') (H' ∪ C0) /\
    (forall v, e <= v < end_addr (hp s) -> v mod 4096 = 0 -> kframe (m_k (mm s')) v = 0).
Proof.
  intros W Hne Hroom Hw HP l q Hq e.
  destruct (kfree_ok C0 k0 r w s bs1 sz bs2 ix H lim) as (s' & H' & E & R & Ee); try done.
  exists s', H'. split; [exact E|]. split; [exact R|]. split; [exact Ee|].
  pose proof (rl_pages _ _ _ _ _ _ _ _ _ _ _ _ R) as P. split; [by eapply heap_pages_cache|].
  intros v Hv Ha. pose proof (hg_range _ _ _ _ _ _ _ _ _ _ P). pose proof (hg_range _ _ _ _ _ _ _ _ _ _ HP).
  apply (hg_free _ _ _ _ _ _ _ _ _ _ P); [unfold e, q in *; lia | done |].
  rewrite (rl_given _ _ _ _ _ _ _ _ _ _ _ _ R v). intros [_ Hn]. by apply Hn.
Qed.

(** [kfree] of the block that ends where the heap ends looks for the header
    of a next block, on a page the heap does not have: with nothing mapped
    there the kernel faults. *)
Theorem kfree_last_faults C0 k0 r w (s : kmem) bs1 sz ix H lim :
  heap_wf (hp s) (hm s) (bk s) (bs1 ++ [Blk sz false]) ix -> kheap_working (m_c (mm s)) <> 0 ->
  heap_pages C0 k0 r w true (mm s) H (idx (hp s)) (end_addr (hp s)) lim ->
  kframe (m_k (mm s)) (end_addr (hp s)) = 0 ->
  kfree (start_addr (hp s) + tot bs1 + 12) s = Fault (BadAccess (end_addr (hp s))).
Proof.
  intros W Hw HP H0. unfold kfree. rewrite (bind_Ok _ _ _ _ _ (lift_m_get _ _)), (proj2 (Z.eqb_neq _ _) Hw).
  destruct s as [h m b]. unfold mm in *. cbn [hp hm bk negb when] in *. eapply heap_free_last_faults; [exact W|].
  unfold usable4. replace (accessible b (end_addr h)) with false; [done|]. symmetry. cbn. unfold is_mapped.
  pose proof (hg_range _ _ _ _ _ _ _ _ _ _ HP). pose proof (hg_align _ _ _ _ _ _ _ _ _ _ HP) as (_ & Ha & _).
  destruct (kpage (m_k (kb_m b)) (end_addr h)) as [g|] eqn:Eg; [|done].
  rewrite (ci_zero _ _ _ (hg_inv _ _ _ _ _ _ _ _ _ _ HP) (end_addr h) g); [done | | done | by unfold kframe in H0; rewrite Eg in H0].
  unfold kspace. lia.
Qed.

(** ** A sample: the kernel's heap with one block in use *)

(** The state after [kheap_init] and, with [Some sz], [kmalloc(sz)]. *)
Definition sample_run (sz : option Z) : kmem :=
  match (kheap_init;; match sz with Some n => kmalloc n | None => mret 0 end) (sample_before 0xE011B000) with
  | Ok (_, s) => s
  | Fault _ => sample_before 0xE011B000
  end.

(** Half of the heap is taken, then all of it. *)
Definition sample_half : kmem := sample_run (Some 0x3FEC).
Definition sample_full : kmem := sample_run (Some 0x7FEC).

(** The first half is freed: the heap gives four pages back, and ends one
    page too low. *)
Example sample_kfree :
  match kfree 0xE011D00C sample_half with
  | Ok (_, s) => end_addr (hp s) = 0xE0121000 - 0x1000 /\
      map (kframe (m_k (mm s))) [0xE011C000; 0xE0120000; 0xE0121000; 0xE0122000; 0xE0123000; 0xE0124000]
      = [1; 5; 0; 0; 0; 0]
  | Fault _ => False
  end.
Proof. vm_compute. by split. Qed.

(** After that the next growth of the heap reads [last_footer->header] one
    page below the last footer, from the bytes of a block: here they are 0,
    and the header at 0 is looked at. *)
Theorem contracted_heap_faults :
  (a ← kmalloc 0x3F00; kmalloc 0x2000)
    match kfree 0xE011D00C sample_half with Ok (_, s) => s | Fault _ => sample_half end = Fault (BadAccess 4).
Proof. vm_compute. reflexivity. Qed.

Lemma sample_run_bk : bk sample_half = bk (sample_run None) /\ bk sample_full = bk (sample_run None).
Proof. split; vm_compute; reflexivity. Qed.

Lemma sample_run_pages : exists H, heap_pages ∅ sample_kernel 0 1 true (mm (sample_run None)) H 0xE011C000 0xE0125000 0xE0127000.
Proof.
  destruct (kheap_init_ok (sample_before 0xE011B000) ∅ 0 1 0xE0127000 sample_before_ok)
    as (s & H & E & _ & _ & _ & _ & _ & _ & _ & W & _).
  rewrite sample_before_start in W. exists H. unfold sample_run. rewrite (bind_Ok _ _ _ _ _ E). exact W.
Qed.

Lemma sample_acc : acc (bk (sample_run None)) 0xE011C000 0xE0125000.
Proof. destruct sample_run_pages as [H W]. by eapply paged_acc; exists H. Qed.

Lemma sample_half_wf :
  heap_wf (hp sample_half) (hm sample_half) (bk sample_half) [Blk 0x4000 false; Blk 0x4000 true] [(0xE0121000, 0x4000)].
Proof.
  assert (Ha : acc (bk sample_half) 0xE011C000 0xE0125000) by (rewrite (proj1 sample_run_bk); exact sample_acc).
  assert (Eh : hp sample_half = Heap 0xE011C000 1 0xE011D000 0xE0125000 0xE811D000) by (vm_compute; reflexivity).
  rewrite Eh. concrete_heap Ha.
Qed.

Lemma sample_full_wf :
  heap_wf (hp sample_full) (hm sample_full) (bk sample_full) ([] ++ [Blk 0x8000 false]) [].
Proof.
  assert (Ha : acc (bk sample_full) 0xE011C000 0xE0125000) by (rewrite (proj2 sample_run_bk); exact sample_acc).
  assert (Eh : hp sample_full = Heap 0xE011C000 0 0xE011D000 0xE0125000 0xE811D000) by (vm_compute; reflexivity).
  rewrite Eh. split; [split; [by vm_compute | by vm_compute | reflexivity | by vm_compute | by split; vm_compute
           | reflexivity | exact Ha | done | by repeat constructor | by vm_compute] | reflexivity
  | repeat split; by vm_compute
  | reflexivity
  | repeat split; discriminate
  | discriminate].
Qed.

Lemma kfree_releases_witness : exists H s' H', kfree 0xE011D00C sample_half = Ok (tt, s') /\
    released ∅ sample_kernel 0 1 sample_half s' [Blk 0x4000 true] [] 0xE0121000 0xE0127000 H H' /\
    end_addr (hp s') = 0xE0121000 - 4096 /\
    cache_ok (mm s') (H' ∪ ∅) /\
    (forall v, 0xE0121000 <= v < 0xE0125000 -> v mod 4096 = 0 -> kframe (m_k (mm s')) v = 0).
Proof.
  destruct sample_run_pages as [H W].
  assert (Eh : hp sample_half = Heap 0xE011C000 1 0xE011D000 0xE0125000 0xE811D000) by (vm_compute; reflexivity).
  exists H. pose proof (kfree_releases ∅ sample_kernel 0 1 sample_half [] 0x4000 [Blk 0x4000 true] [(0xE0121000, 0x4000)] H 0xE0127000) as P.
  unfold returned, mm in P. rewrite (proj1 sample_run_bk), Eh in P. apply P; clear P.
  - pose proof sample_half_wf as Wf. by rewrite Eh, (proj1 sample_run_bk) in Wf.
  - done.
  - by vm_compute.
  - vm_compute. discriminate.
  - exact W.
  - right. by vm_compute.
Defined.

Lemma kfree_last_faults_witness : kfree 0xE011D00C sample_full = Fault (BadAccess 0xE0125000).
Proof.
  destruct sample_run_pages as [H W].
  assert (Eh : hp sample_full = Heap 0xE011C000 0 0xE011D000 0xE0125000 0xE811D000) by (vm_compute; reflexivity).
  pose proof (kfree_last_faults ∅ sample_kernel 0 1 sample_full [] 0x8000 [] H 0xE0127000 sample_full_wf) as P.
  unfold mm in P. rewrite (proj2 sample_run_bk), Eh in P. apply P; clear P.
  - vm_compute. discriminate.
  - exact W.
  - by vm_compute.
Defined.
