(* ===== verification/Boot.v ===== *)
(** * Setting up memory

    The part of [kmain] ([src/kernel/core/kmain.c]) that finds the end of
    the kernel and its modules, and [paging_init] and [paging_cleanup] of
    [src/kernel/mem/paging.c].  They run on the state the boot loader
    leaves: paging is off, the heap does not exist, and the pages come from
    the space after the modules.

    The bitset of frames is given a quarter of the room its words need, and
    the kernel's directory comes right behind it.  Here the array of words
    has the words that there is room for: to look at the bit of a frame
    beyond the first quarter of memory, which in the program is a byte of
    the directory, is a fault. *)

From S2P Require Import Prelude Memory Bitset Heap HeapSpec Kernel Paging Tasking Kmem KHeap.

Record module_t := Module_t { mod_start : Z; mod_end : Z; mod_string : Z }.

(** One round of the loop of [kmain] over the modules. *)
Definition place_module (placement : Z) (m : module_t) : Z * module_t :=
  let m := Module_t (w32 (mod_start m + 0xE0000000)) (w32 (mod_end m + 0xE0000000))
             (w32 (mod_string m + 0xE0000000)) in
  (if placement <? mod_end m then w32 (page_mask (mod_end m) + 0x1000) else placement, m).

Fixpoint place_modules (placement : Z) (l : list module_t) : Z * list module_t :=
  match l with
  | [] => (placement, [])
  | m :: l' =>
      let '(p, m) := place_module placement m in
      let '(p, l') := place_modules p l' in (p, m :: l')
  end.

(** The words that fit in the [size / 32] bytes allocated for the bitset,
    and the frames whose bits they hold. *)
Definition bitset_words (size : Z) : Z := INDEX_FROM_BIT size / 4.
Definition counted (size : Z) : Z := 32 * bitset_words size.

Section boot.
(** What memory holds before anything is written. *)
Context (ram : mem).

(** The words of an array in [ram]. *)
Definition ram_words (a n : Z) : list Z := (fun i => rd32 ram (a + 4 * Z.of_nat i)) <$> seq 0 (Z.to_nat n).

Definition sizeof_page_directory : Z := 4108.

(** The first part of [paging_init]: the bitset and an empty directory. *)
Definition paging_alloc (totalRam : Z) : M kmem unit :=
  let size := totalRam / 0x1000 in
  b ← kmalloc (INDEX_FROM_BIT size);
  lift_m (lift_k (setg (set_frames (Bitset (ram_words b (bitset_words size)) size))));;
  kd ← kmalloc sizeof_page_directory;
  lift_m (lift_k (setg (set_kernel_pagedir kd)));;
  tp ← lift_m kmalloc_page;
  lift_m (lift_k (modify (fun k => set_st (set_k_pagedirs
    (<[kd := PageDirectory ∅ ∅ tp.2 0]> (k_pagedirs (k_st k))) (k_st k)) k))).

(** One page of the loop that maps the kernel.  [mem_placementAddr] moves
    while the loop runs. *)
Definition map_kernel (i : Z) : M mstate (Z + unit) :=
  a ← getc mem_placementAddr;
  if i <? a then map_fresh i;; mret (inl (w32 (i + 0x1000))) else mret (inr tt).

(** [for (i = 0; i < n; i++)] over the low entries of the directory. *)
Fixpoint low_entries (f : Z -> page_directory -> page_directory) (i : Z) (n : nat) (d : page_directory) :
    page_directory :=
  match n with
  | O => d
  | Datatypes.S n' => low_entries f (i + 1) n' (f i d)
  end.

Definition copy_entry (i : Z) (d : page_directory) : page_directory :=
  set_table i (dir_table d (i + 896)) (dir_phys d (i + 896)) d.
Definition clear_entry (i : Z) (d : page_directory) : page_directory := set_table i 0 0 d.

Definition low_count (a : Z) : nat := Z.to_nat (w32 (a - 0xE0000000) / 0x100000).

Definition update_kernel_pagedir (f : page_directory -> page_directory) : M mstate unit :=
  lift_k (kd ← getg kernel_pagedir; update kd f).

(** The second part: the mappings. *)
Definition paging_fill : M mstate unit :=
  loop 131073 map_kernel 0xE0000000;;
  a ← getc mem_placementAddr;
  update_kernel_pagedir (low_entries copy_entry 0 (low_count a)).

(** The third, after the address of the directory is printed. *)
Definition paging_on : M mstate unit := lift_k (kd ← getg kernel_pagedir; pagedir_switch kd).

Definition paging_init (totalRam : Z) : M kmem unit :=
  paging_alloc totalRam;; lift_m paging_fill;; lift_m paging_on.

Definition paging_cleanup : M mstate unit :=
  a ← getc mem_placementAddr;
  update_kernel_pagedir (low_entries clear_entry 0 (low_count a)).

End boot.

(** ** Specification *)

(** The [m]-th page of the kernel. *)
Definition kaddr (m : Z) : Z := 0xE0000000 + 4096 * m.

(** While the kernel is being mapped: [j] pages are, to the frames of the
    same numbers, and the directory has [T] tables.  [a] is the end of the
    first pages that were taken; the directory is that of [k0]. *)
Record booting (k0 : kstate) (a size j T : Z) (s : mstate) : Prop := {
  bt_early : kheap_working (m_c s) = 0 /\ locked (m_c s) = 0 /\ freepagecount (m_c s) = 4 /\
             length (freepages (m_c s)) = 5%nat;
  bt_cached : cached s = take 4 (early_pages (a - 0x9000));
  bt_dir : kernel_pagedir (k_g (m_k s)) = kernel_pagedir (k_g k0) /\ kernel_pagedir (k_g k0) <> 0 /\ is_Some (kdir (m_k s));
  bt_procs : processes (k_g (m_k s)) = 0;
  bt_beside : beside k0 (m_k s);
  bt_locks : 0 <= if_locks (k_g k0) < 0xFFFFFFFF /\ if_locks (k_g (m_k s)) = if_locks (k_g k0);
  bt_frames : wf_bitset (frames (k_g (m_k s))) /\ 32 * capacity (frames (k_g (m_k s))) = counted size /\
              forall n, 0 <= n -> bit_at (frames (k_g (m_k s))) n = (n <? j);
  bt_place : a mod 4096 = 0 /\ mem_placementAddr (m_c s) = a + 0x2000 * T;
  bt_top : kaddr j < mem_placementAddr (m_c s) + 0x1000;
  bt_tables i : 896 <= i < 1024 ->
    if i <? 896 + T then ktable (m_k s) i <> 0 /\ is_Some (k_tables (k_st (m_k s)) !! ktable (m_k s) i)
    else ktable (m_k s) i = 0;
  bt_range t : is_Some (k_tables (k_st (m_k s)) !! t) -> a <= t < mem_placementAddr (m_c s);
  bt_inj i i' : 896 <= i < 1024 -> 896 <= i' < 1024 -> ktable (m_k s) i <> 0 ->
    ktable (m_k s) i = ktable (m_k s) i' -> i = i';
  bt_pages m : 0 <= m < 1024 * T ->
    kpage (m_k s) (kaddr m) = Some (if m <? j then kmapped m else zero_page)
}.

(** Tables for [j] pages. *)
Definition table_count (j : Z) : Z := (j + 1023) / 1024.

(** ** Lemmas *)

Lemma kaddr_table m : table_of (kaddr m) = 896 + m / 1024.
Proof. unfold table_of, kaddr. Z.div_mod_to_equations. lia. Qed.

Lemma kaddr_index m : index_of (kaddr m) = m mod 1024.
Proof. unfold index_of, kaddr. Z.div_mod_to_equations. lia. Qed.

Lemma kaddr_align m : kaddr m mod 4096 = 0.
Proof. unfold kaddr. Z.div_mod_to_equations. lia. Qed.

Lemma booting_procs k0 a size j T s : booting k0 a size j T s -> procs_ok (m_k s).
Proof.
  intros HB. exists []. split; [apply (bt_procs _ _ _ _ _ _ HB)|]. intros x pr Hx. by apply not_elem_of_nil in Hx.
Qed.

Lemma beside_table k t pt ds x : beside k (KState (set_k_pagedirs ds (set_k_tables (<[t := pt]> (k_tables (k_st k))) (k_st k)))
  (set_if_locks x (k_g k))).
Proof. destruct k as [st g]. split; [by destruct st | by destruct g]. Qed.

(** A table for the next page. *)
Lemma boot_table k0 a size j T s : booting k0 a size j T s -> j = 1024 * T -> 0 <= T < 128 ->
  0xE0000000 <= a -> a + 0x100000 + 0x2000 < W32 ->
  exists s', getPage (kernel_pagedir (k_g (m_k s))) (kaddr j) true s
             = Ok (Some (ktable (m_k s') (table_of (kaddr j)), index_of (kaddr j)), s') /\
    booting k0 a size j (T + 1) s'.
Proof.
  intros HB Hj HT Ha Hm. pose proof (bt_place _ _ _ _ _ _ HB) as [Hal Hp]. pose proof (bt_top _ _ _ _ _ _ HB) as Htop.
  pose proof (bt_locks _ _ _ _ _ _ HB) as [HL1 HL2]. pose proof (bt_cached _ _ _ _ _ _ HB) as Hca.
  pose proof (booting_procs _ _ _ _ _ _ HB) as Hps.
  destruct (bt_dir _ _ _ _ _ _ HB) as (Ekd & Hkd & d & Ed). destruct (bt_early _ _ _ _ _ _ HB) as (E1 & E2 & E3 & E4).
  assert (Hidx : table_of (kaddr j) = 896 + T) by (rewrite kaddr_table, Hj; f_equal; Z.div_mod_to_equations; lia).
  pose proof (bt_tables _ _ _ _ _ _ HB (896 + T) ltac:(lia)) as H0. rewrite Z.ltb_irrefl in H0.
  destruct s as [k [p w fps n l]]. cbn [m_k m_c mem_placementAddr kheap_working freepages freepagecount locked] in *.
  subst w l n. pose proof (early_next k p fps ltac:(lia) ltac:(lia) E4) as Ek.
  set (e := early_page p) in *. set (k1 := unlocked k) in *.
  assert (Hpm : page_mask p = p).
  { rewrite page_mask_sub by (unfold u32; lia). Z.div_mod_to_equations. lia. }
  assert (Hv : fp_virt e = p + 0x1000) by (unfold e; cbn; by rewrite Hpm). rewrite Hpm in Ek.
  assert (Hn : k_tables (k_st k) !! fp_virt e = None).
  { apply eq_None_not_Some. intros Hs%(bt_range _ _ _ _ _ _ HB). cbn in Hs. lia. }
  assert (Hk1 : kernel_pagedir (k_g k1) <> 0) by (change (kernel_pagedir (k_g k) <> 0); congruence).
  destruct (enter_table_ok k1 (896 + T) (fp_virt e) (fp_phys e)) as (k' & Ee & W);
    [exact Hps | done | by exists d | lia | lia |].
  pose proof (wt_entry _ _ _ _ _ W) as En. pose proof (wt_tables _ _ _ _ _ W) as Tb.
  pose proof (wt_globals _ _ _ _ _ W) as Gl.
  assert (Pg : forall m, 0 <= m < 1024 * (T + 1) -> kpage k' (kaddr m) =
    if decide (m / 1024 = T) then Some zero_page else kpage k (kaddr m)).
  { intros m Hmr. rewrite (with_table_page_apart _ _ _ _ _ (kaddr m) W) by
      (rewrite ?kaddr_table; first [lia | intros Eq;
        pose proof (bt_tables _ _ _ _ _ _ HB (896 + m / 1024) ltac:(Z.div_mod_to_equations; lia)) as Ht;
        cbn [m_k] in Ht; change (ktable k1) with (ktable k) in Eq; rewrite Eq in Ht;
        destruct (896 + m / 1024 <? 896 + T); [destruct Ht as [_ [tb Ht]]; congruence | lia]]).
    rewrite kaddr_table. destruct (decide (896 + m / 1024 = 896 + T)), (decide (m / 1024 = T)); try lia; done. }
  set (s0 := MState k (PCache p 0 fps 4 0)) in *.
  exists (MState k' (PCache (p + 0x2000) 0 (<[4%nat := e]> fps) 4 0)). split.
  - unfold getPage, pagedir_getPage. rewrite (bind_Ok _ _ s0 d s0).
    2:{ unfold lift_k, zoom. cbn [m_k]. rewrite (load_Ok _ d) by done. done. }
    fold (table_of (kaddr j)). rewrite Hidx. unfold ktable in H0. rewrite Ed in H0. rewrite H0. cbn [Z.eqb negb].
    rewrite (bind_Ok _ _ _ _ _ Ek).
    change (kernel_pagedir (k_g k1)) with (kernel_pagedir (k_g k)) in Ee. cbn iota beta. rewrite (bind_Ok _ _ _ _ _ (lift_k_eq _ (MState k1 (PCache (p + 0x2000) 0 (<[4%nat := e]> fps) 4 0)) _ _ Ee)).
    cbn [set_mk m_k m_c]. rewrite (En (896 + T)), decide_True by done. reflexivity.
  - split; cbn [m_k m_c kheap_working locked freepagecount freepages mem_placementAddr].
    + by rewrite length_insert.
    + rewrite <- Hca. unfold cached. cbn. by rewrite take_insert_ge by lia.
    + rewrite Gl. split; [exact Ekd|]. split; [done | apply W].
    + rewrite Gl. apply HB.
    + etransitivity; [apply (bt_beside _ _ _ _ _ _ HB)|]. etransitivity; [apply (beside_locks k) | exact (wt_beside _ _ _ _ _ W)].
    + rewrite Gl. cbn. rewrite HL2. split; [done | by apply relock_id].
    + rewrite Gl. apply (bt_frames _ _ _ _ _ _ HB).
    + split; [done | lia].
    + lia.
    + intros i Hi. rewrite En, Tb. pose proof (bt_tables _ _ _ _ _ _ HB i Hi) as Ht. change (m_k s0) with k in Ht.
      destruct (decide (i = 896 + T)) as [->|Hne].
      * rewrite (proj2 (Z.ltb_lt _ _)) by lia. rewrite lookup_insert_eq. split; [lia | done].
      * destruct (Z.ltb_spec i (896 + T)); [rewrite (proj2 (Z.ltb_lt _ _)) by lia|
          rewrite (proj2 (Z.ltb_ge _ _)) by lia; done].
        destruct Ht as [Ht1 [tb Ht2]]. split; [done|]. change (ktable k1 i) with (ktable k i). rewrite lookup_insert_ne by congruence. by exists tb.
    + intros t. rewrite Tb. destruct (decide (t = fp_virt e)) as [->|]; [intros _; lia|].
      rewrite lookup_insert_ne by done. intros Ht%(bt_range _ _ _ _ _ _ HB). cbn in Ht. lia.
    + assert (Hnt : forall i, 896 <= i < 1024 -> ktable k i <> 0 -> ktable k i <> fp_virt e).
      { intros i Hi Hnz Eq. pose proof (bt_tables _ _ _ _ _ _ HB i Hi) as Ht. change (m_k s0) with k in Ht.
        destruct (i <? 896 + T); [|done]. destruct Ht as [_ [tb Ht]]. congruence. }
      intros i i' Hi Hi'. rewrite !En. change (ktable k1) with (ktable k).
      destruct (decide (i = 896 + T)) as [->|], (decide (i' = 896 + T)) as [->|]; try done.
      * intros Hnz Eq. symmetry in Eq. apply Hnt in Eq; [done | done | lia].
      * intros Hnz Eq. by apply Hnt in Eq.
      * apply (bt_inj _ _ _ _ _ _ HB i i' Hi Hi').
    + intros m Hmr. rewrite Pg by done. destruct (decide (m / 1024 = T)).
      * rewrite (proj2 (Z.ltb_ge _ _)) by (Z.div_mod_to_equations; lia). done.
      * apply (bt_pages _ _ _ _ _ _ HB). Z.div_mod_to_equations. lia.
Qed.

Lemma counted_bounds size : counted size <= Z.max 0 size.
Proof.
  unfold counted, bitset_words, INDEX_FROM_BIT. change (8 * 4) with 32. Z.div_mod_to_equations. lia.
Qed.

(** The next frame is the next number. *)
Lemma boot_frame k0 a size j T s : booting k0 a size j T s -> 0 <= j < counted size ->
  exists b, frame_alloc (frames (k_g (m_k s))) = Ok (j, b) /\ wf_bitset b /\ 32 * capacity b = counted size /\
    forall n, 0 <= n -> bit_at b n = (n <? j + 1).
Proof.
  intros HB Hj. destruct (bt_frames _ _ _ _ _ _ HB) as (Hwf & Hs & Hb).
  destruct (frame_alloc_ok _ Hwf) as (r & b & E & Hm & Hr & Hlow & Hwf' & Hsz & Hln & Hbits).
  { exists j. split; [unfold managed; lia|]. rewrite Hb by lia. lia. }
  assert (r = j) as ->.
  { destruct Hm as [Hr0 _]. rewrite Hb in Hr by done. destruct (Z.eq_dec r j) as [|Hne]; [done|].
    specialize (Hlow j ltac:(lia)). rewrite Hb in Hlow by lia. lia. }
  exists b. split; [done|]. split; [done|]. split; [by rewrite (capacity_same _ _ Hsz Hln)|].
  intros n Hn. rewrite Hbits, Hb by done. destruct (Z.eqb_spec n j); lia.
Qed.

(** Mapping the next page. *)
Lemma boot_page k0 a size j T s : booting k0 a size j T s -> 0 <= j < 1024 * T -> T <= 128 ->
  size <= 0x100000 -> j < counted size -> kaddr j < mem_placementAddr (m_c s) ->
  exists s', (f ← lift_k (lift_frames frame_alloc);
              lift_k (page_map (Some (ktable (m_k s) (table_of (kaddr j)), index_of (kaddr j))) f 0 0)) s
             = Ok (tt, s') /\
    booting k0 a size (j + 1) T s' /\ m_c s' = m_c s.
Proof.
  intros HB Hj HT Hsz Hjm Hpl. destruct (boot_frame _ _ _ _ _ _ HB ltac:(lia)) as (b & Ef & Hwf & Hs & Hb).
  pose proof (bt_pages _ _ _ _ _ _ HB j Hj) as Eg. rewrite Z.ltb_irrefl in Eg.
  destruct (kpage_inv _ _ _ Eg) as (tb & Ht & Etb & Ez).
  assert (H20 : 0 <= j < 0x100000).
  { pose proof (counted_bounds size). lia. }
  set (k' := put_kpage (kaddr j) tb (kmapped j) b (m_k s)).
  exists (set_mk k' s). split; [|split; [|done]].
  - rewrite (bind_Ok _ _ s j (set_mk (KState (k_st (m_k s)) (set_frames b (k_g (m_k s)))) s)).
    2:{ unfold lift_k, lift_frames, zoom. rewrite Ef. done. }
    rewrite (lift_k_eq _ (set_mk (KState (k_st (m_k s)) (set_frames b (k_g (m_k s)))) s) tt k'); [done|].
    apply wp_eq_Ok. eapply wp_page_map; [exact Ht | exact Etb | by rewrite <- Ez | by rewrite <- Ez |].
    cbn [Z.eqb]. rewrite Z.mod_small by lia. reflexivity.
  - assert (Pg : forall m, 0 <= m < 1024 * T -> kpage k' (kaddr m) =
      if decide (m = j) then Some (kmapped j) else kpage (m_k s) (kaddr m)).
    { intros m Hm. unfold k'. rewrite kpage_put_apart; [| apply kaddr_align | apply kaddr_align | | done | done].
      - destruct (decide (kaddr m = kaddr j)), (decide (m = j)); unfold kaddr in *; try done; lia.
      - rewrite !kaddr_table in *. intros Eq. symmetry.
        apply (bt_inj _ _ _ _ _ _ HB); [Z.div_mod_to_equations; lia.. | done | done]. }
    split; try apply HB.
    + etransitivity; [apply (bt_beside _ _ _ _ _ _ HB) | apply beside_put].
    + split; [done|]. split; [done|]. intros n Hn. cbn. by rewrite Hb.
    + cbn [set_mk m_c]. unfold kaddr in *. lia.
    + intros i Hi. pose proof (bt_tables _ _ _ _ _ _ HB i Hi) as Hti. cbn [set_mk m_k].
      change (ktable k' i) with (ktable (m_k s) i). destruct (i <? 896 + T); [|done].
      destruct Hti. split; [done|]. by apply put_tables.
    + intros t Hti. apply (bt_range _ _ _ _ _ _ HB). by apply (put_tables _ _ _ _ _ _ Etb) in Hti.
    + intros m Hm. cbn [set_mk m_k]. rewrite Pg by done. destruct (decide (m = j)) as [->|].
      * by rewrite (proj2 (Z.ltb_lt _ _)) by lia.
      * rewrite (bt_pages _ _ _ _ _ _ HB) by done. destruct (Z.ltb_spec m j), (Z.ltb_spec m (j + 1)); first [done | lia].
Qed.

Lemma table_count_step j : 0 <= j ->
  table_count (j + 1) = if decide (j = 1024 * table_count j) then table_count j + 1 else table_count j.
Proof. intros Hj. unfold table_count. case_decide; Z.div_mod_to_equations; lia. Qed.

Lemma table_count_bound j : 0 <= j -> j <= 1024 * table_count j < j + 1024.
Proof. intros Hj. unfold table_count. Z.div_mod_to_equations. lia. Qed.

(** One round of the loop. *)
Lemma map_kernel_step k0 a size j s : booting k0 a size j (table_count j) s -> 0 <= j ->
  kaddr j < mem_placementAddr (m_c s) -> 0xE0000000 <= a -> a + 0x110000 < W32 -> size <= 0x100000 ->
  a + 0x100000 <= kaddr (counted size) ->
  exists s', map_kernel (kaddr j) s = Ok (inl (kaddr (j + 1)), s') /\
    booting k0 a size (j + 1) (table_count (j + 1)) s'.
Proof.
  intros HB Hj Hlt Ha Hm Hsz Hmem. pose proof (table_count_bound j Hj) as HTj.
  pose proof (bt_place _ _ _ _ _ _ HB) as [_ Hp].
  assert (HT : table_count j <= 128).
  { destruct (Z.le_gt_cases (table_count j) 128) as [|Hgt]; [done|]. exfalso.
    unfold table_count, kaddr in *. Z.div_mod_to_equations. lia. }
  assert (Hlast : w32 (kaddr j + 0x1000) = kaddr (j + 1)) by (rewrite w32_small; unfold u32, kaddr in *; lia).
  assert (Hjm : j < counted size) by (unfold kaddr in *; lia).
  assert (Hget : exists s1, getPage (kernel_pagedir (k_g (m_k s))) (kaddr j) true s
      = Ok (Some (ktable (m_k s1) (table_of (kaddr j)), index_of (kaddr j)), s1) /\
    booting k0 a size j (table_count (j + 1)) s1).
  { rewrite table_count_step by done. case_decide as HjT.
    - assert (table_count j <> 128).
      { intros E128. rewrite E128 in HjT. unfold kaddr in Hlt. lia. }
      apply boot_table; [done | done | lia | lia | lia].
    - exists s. split; [|done]. pose proof (bt_tables _ _ _ _ _ _ HB (table_of (kaddr j))) as Hti.
      rewrite kaddr_table in *. specialize (Hti ltac:(Z.div_mod_to_equations; lia)).
      rewrite (proj2 (Z.ltb_lt _ _)) in Hti by (Z.div_mod_to_equations; lia). destruct Hti as [Hti _].
      destruct (bt_dir _ _ _ _ _ _ HB) as (Ekd & Hkd & d & Ed). rewrite <- Ekd in Hkd. unfold ktable in *. rewrite Ed in *.
      unfold getPage, pagedir_getPage. rewrite (bind_Ok _ _ s d s).
      + fold (table_of (kaddr j)). rewrite kaddr_table, (proj2 (Z.eqb_neq _ _) Hti). reflexivity.
      + unfold lift_k, zoom. rewrite (load_Ok _ d) by done. by destruct s. }
  destruct Hget as (s1 & Eg & HB1).
  pose proof (table_count_bound (j + 1) ltac:(lia)). pose proof (bt_place _ _ _ _ _ _ HB1) as [_ Hp1].
  assert (Hmono : table_count j <= table_count (j + 1)) by (unfold table_count; Z.div_mod_to_equations; lia).
  destruct (boot_page _ _ _ _ _ _ HB1) as (s2 & E2 & HB2 & _); [lia | | done | done | lia |].
  { rewrite table_count_step by done. case_decide; [|done]. unfold table_count, kaddr in *. Z.div_mod_to_equations. lia. }
  exists s2. split; [|done]. unfold map_kernel.
  rewrite (bind_Ok _ _ s (mem_placementAddr (m_c s)) s) by (by destruct s).
  rewrite (proj2 (Z.ltb_lt _ _) Hlt), Hlast. rewrite (bind_Ok _ _ s tt s2); [done|]. unfold map_fresh.
  rewrite (bind_Ok _ _ s (kernel_pagedir (k_g (m_k s))) s) by (by destruct s).
  by rewrite (bind_Ok _ _ _ _ _ Eg).
Qed.

Lemma map_kernel_loop k0 a size n : forall j s, booting k0 a size j (table_count j) s -> 0 <= j <= 131072 ->
  131073 <= Z.of_nat n + j -> 0xE0000000 <= a -> a + 0x110000 < W32 -> size <= 0x100000 ->
  a + 0x100000 <= kaddr (counted size) ->
  exists J s', loop n map_kernel (kaddr j) s = Ok (tt, s') /\ booting k0 a size J (table_count J) s' /\
    0 <= J <= 131072 /\ mem_placementAddr (m_c s') <= kaddr J.
Proof.
  induction n as [|n IH]; intros j s HB Hj Hn Ha Hm Hsz Hmem; [lia|]. rewrite loop_S.
  destruct (Z.lt_ge_cases (kaddr j) (mem_placementAddr (m_c s))) as [Hlt|Hge].
  - destruct (map_kernel_step _ _ _ _ _ HB ltac:(lia) Hlt Ha Hm Hsz Hmem) as (s1 & E1 & HB1).
    rewrite (bind_Ok _ _ _ _ _ E1). apply IH; try done; [|lia].
    destruct (decide (j = 131072)) as [->|]; [|lia]. exfalso.
    pose proof (proj2 (bt_place _ _ _ _ _ _ HB)). change (table_count 131072) with 128 in *. unfold kaddr in Hlt. lia.
  - exists j, s. rewrite (bind_Ok _ _ s (inr tt) s); [done|]. unfold map_kernel.
    rewrite (bind_Ok _ _ s (mem_placementAddr (m_c s)) s) by (by destruct s).
    by rewrite (proj2 (Z.ltb_ge _ _)) by lia.
Qed.

Lemma ram_words_zero ram a n : (forall x, a <= x < a + 4 * n -> ram x = 0) -> 0 <= n ->
  ram_words ram a n = replicate (Z.to_nat n) 0.
Proof.
  intros Hz Hn. unfold ram_words. apply list_eq. intros i. rewrite list_lookup_fmap.
  destruct (decide (i < Z.to_nat n)%nat) as [Hi|Hi].
  - rewrite lookup_seq_lt, lookup_replicate_2 by done. cbn. f_equal.
    unfold rd32, rd8. rewrite !Hz by lia. done.
  - rewrite lookup_seq_ge by lia. cbn. symmetry. apply lookup_replicate_None. lia.
Qed.

Lemma zero_bits n size : 0 <= size <= 0x100000 -> n = bitset_words size ->
  let b := Bitset (replicate (Z.to_nat n) 0) size in
  wf_bitset b /\ 32 * capacity b = counted size /\ forall k, bit_at b k = false.
Proof.
  intros Hs -> b. assert (0 <= bitset_words size <= INDEX_FROM_BIT size /\ INDEX_FROM_BIT size <= 0x8000).
  { unfold bitset_words, INDEX_FROM_BIT. change (8 * 4) with 32. Z.div_mod_to_equations. lia. }
  split; [|split].
  - split; cbn; [unfold u32; lia | rewrite length_replicate; lia |]. apply Forall_replicate. unfold u32. lia.
  - unfold counted, capacity, b. cbn [bsize bits]. rewrite length_replicate. lia.
  - intros k. unfold bit_at, b. cbn. destruct (replicate _ _ !! _) as [w|] eqn:E; [|done].
    apply lookup_replicate in E as [-> _]. apply Z.bits_0.
Qed.

(** The state [kmain] calls [paging_init] in. *)
Record boot_ok (ram : mem) (size : Z) (s : mstate) : Prop := {
  bo_early : kheap_working (m_c s) = 0 /\ locked (m_c s) = 0 /\ freepagecount (m_c s) = 0 /\
             length (freepages (m_c s)) = 5%nat;
  bo_empty : processes (k_g (m_k s)) = 0 /\ k_tables (k_st (m_k s)) = ∅;
  bo_locks : 0 <= if_locks (k_g (m_k s)) < 0xFFFFFFFF;
  bo_place : 0xE0100000 <= mem_placementAddr (m_c s);
  bo_size : 0 <= size <= 0x100000;
  bo_zero x : mem_placementAddr (m_c s) <= x < mem_placementAddr (m_c s) + 4 * bitset_words size -> ram x = 0;
  bo_room : mem_placementAddr (m_c s) + INDEX_FROM_BIT size + 0x120000 < W32;
  bo_frames : mem_placementAddr (m_c s) + INDEX_FROM_BIT size + 0x110000 <= kaddr (counted size)
}.

(** The kernel that [paging_alloc] leaves, page tables and frames aside. *)
Definition with_dir (kd : Z) (k : kstate) : kstate := KState (k_st k) (set_kernel_pagedir kd (k_g k)).

Lemma paging_alloc_ok ram totalRam s : boot_ok ram (totalRam / 0x1000) (mm s) ->
  let size := totalRam / 0x1000 in
  let p := mem_placementAddr (m_c (mm s)) in
  exists a s', paging_alloc ram totalRam s = Ok (tt, set_mm s' s) /\
    booting (with_dir (p + INDEX_FROM_BIT size) (m_k (mm s))) a size 0 0 s' /\
    p + INDEX_FROM_BIT size + 0x9000 < a <= p + INDEX_FROM_BIT size + 0xC000.
Proof.
  destruct s as [hh hmem [[k [p w fps c l]] fill cnt]]. intros HB size p'. change p' with p. clear p'.
  unfold mm in HB |- *. cbn [bk kb_m] in HB |- *.
  destruct HB as [(E1 & E2 & E3 & E4) [Ep Et] Elk Hp Hs Hz Hr Hf]. fold size in Hs, Hz, Hr, Hf.
  set (n := INDEX_FROM_BIT size) in *.
  assert (Hn : 0 <= n <= 0x8000).
  { unfold n, INDEX_FROM_BIT. change (8 * 4) with 32. Z.div_mod_to_equations. lia. }
  destruct (zero_bits (bitset_words size) size Hs eq_refl) as (Hwf & Hcap & Hb).
  rewrite <- (ram_words_zero ram _ _ Hz ltac:(unfold bitset_words; fold n; Z.div_mod_to_equations; lia)) in Hwf, Hcap, Hb.
  cbn [m_k m_c mem_placementAddr kheap_working freepages freepagecount locked] in *.
  subst w l c. set (b := Bitset (ram_words ram p (bitset_words size)) size) in *.
  set (k1 := KState (k_st k) (set_kernel_pagedir (p + n) (set_frames b (k_g k)))).
  set (s1 := MState k1 (PCache (p + n + 4108) 0 fps 0 0)).
  pose proof (early_first s1 eq_refl eq_refl eq_refl E4 ltac:(cbn; lia) ltac:(cbn; lia)) as Ek.
  cbn [m_c m_k s1 mem_placementAddr] in Ek. set (b0 := page_mask (p + n + 4108) + 0x1000) in *.
  assert (Hb0 : p + n + 4108 < b0 <= p + n + 4108 + 0x1000 /\ b0 mod 4096 = 0).
  { unfold b0. rewrite page_mask_sub by (unfold u32; lia). Z.div_mod_to_equations. lia. }
  set (d := PageDirectory ∅ ∅ (b0 + 0x8000 - 0xE0000000) 0).
  set (k2 := KState (set_k_pagedirs (<[p + n := d]> (k_pagedirs (k_st k))) (k_st k)) (k_g (unlocked k1))).
  exists (b0 + 0x9000), (MState k2 (PCache (b0 + 0x9000) 0 (early_pages b0) 4 0)).
  assert (Ed : kdir k2 = Some d) by (unfold kdir; cbn; apply lookup_insert_eq).
  assert (Kt : forall i, ktable k2 i = 0) by (intros i; unfold ktable; rewrite Ed; done).
  split; [|split; [|cbn; lia]].
  - unfold paging_alloc. fold size. fold n.
    set (K := fun m => HState hh hmem (KBack m fill cnt)).
    change (HState hh hmem (KBack (MState k (PCache p 0 fps 0 0)) fill cnt)) with (K (MState k (PCache p 0 fps 0 0))).
    rewrite (bind_Ok _ _ (K (MState k (PCache p 0 fps 0 0))) p (K (MState k (PCache (p + n) 0 fps 0 0))))
      by (apply kmalloc_early; [done | unfold u32; cbn; lia]).
    rewrite (bind_Ok _ _ _ tt (K (MState (KState (k_st k) (set_frames b (k_g k))) (PCache (p + n) 0 fps 0 0)))) by done.
    rewrite (bind_Ok _ _ _ (p + n) (K (MState (KState (k_st k) (set_frames b (k_g k))) (PCache (p + n + 4108) 0 fps 0 0))))
      by (apply kmalloc_early; [done | unfold u32, sizeof_page_directory; cbn; lia]).
    rewrite (bind_Ok _ _ _ tt (K s1)) by done. rewrite (bind_Ok _ _ _ _ _ (lift_m_eq _ (K s1) _ _ Ek)). reflexivity.
  - split; cbn [m_k m_c kheap_working locked freepagecount freepages mem_placementAddr].
    + done.
    + unfold cached. cbn [m_c freepages freepagecount]. by replace (b0 + 0x9000 - 0x9000) with b0 by lia.
    + split; [done|]. split; [cbn; lia | by rewrite Ed].
    + done.
    + unfold k2, k1, with_dir. cbn. destruct k as [st g]. split; [by destruct st | by destruct g].
    + split; [exact Elk|]. by apply relock_id.
    + split; [exact Hwf|]. split; [exact Hcap|]. intros m Hm. cbn. rewrite Hb. lia.
    + split; [Z.div_mod_to_equations; lia | lia].
    + unfold kaddr. lia.
    + intros i Hi. rewrite (proj2 (Z.ltb_ge _ _)) by lia. apply Kt.
    + intros t. cbn. rewrite Et, lookup_empty. by intros [].
    + intros i i' _ _ Hnz. by rewrite Kt in Hnz.
    + intros m Hm. lia.
Qed.

Lemma dir_table_set i t p d x : dir_table (set_table i t p d) x = if decide (x = i) then t else dir_table d x.
Proof.
  unfold dir_table, set_table; cbn. destruct (decide (x = i)) as [->|];
    [by rewrite lookup_insert_eq | by rewrite lookup_insert_ne].
Qed.

(** What the two loops over the low entries leave. *)
Lemma copy_entries n : forall i d x, 0 <= i -> i + Z.of_nat n <= 896 ->
  dir_table (low_entries copy_entry i n d) x =
    if decide (i <= x < i + Z.of_nat n) then dir_table d (x + 896) else dir_table d x.
Proof.
  induction n as [|n IH]; intros i d x Hi Hn; cbn [low_entries].
  - by rewrite decide_False by lia.
  - rewrite IH by lia. unfold copy_entry. rewrite !dir_table_set.
    repeat case_decide; try lia; try done. by subst.
Qed.

Lemma clear_entries n : forall i d x,
  dir_table (low_entries clear_entry i n d) x =
    if decide (i <= x < i + Z.of_nat n) then 0 else dir_table d x.
Proof.
  induction n as [|n IH]; intros i d x; cbn [low_entries].
  - by rewrite decide_False by lia.
  - rewrite IH. unfold clear_entry. rewrite dir_table_set. repeat case_decide; try lia; done.
Qed.

(** Changing the kernel directory alone. *)
Definition with_kdir (d : page_directory) (s : mstate) : mstate :=
  set_mk (KState (set_k_pagedirs (<[kernel_pagedir (k_g (m_k s)) := d]> (k_pagedirs (k_st (m_k s)))) (k_st (m_k s)))
            (k_g (m_k s))) s.

Lemma run_update_kdir f d s : kernel_pagedir (k_g (m_k s)) <> 0 -> kdir (m_k s) = Some d ->
  update_kernel_pagedir f s = Ok (tt, with_kdir (f d) s).
Proof.
  intros Hkd Ed. unfold kdir in Ed. unfold update_kernel_pagedir. apply lift_k_eq, wp_eq_Ok. by ksteps.
Qed.

Lemma with_kdir_page d s v : kpage (m_k (with_kdir d s)) v =
  if dir_table d (table_of v) =? 0 then None
  else tb ← k_tables (k_st (m_k s)) !! dir_table d (table_of v); Some (table_page tb (index_of v)).
Proof.
  assert (E : kdir (m_k (with_kdir d s)) = Some d) by (unfold kdir; cbn; apply lookup_insert_eq).
  unfold kpage, ktable. by rewrite E.
Qed.

Lemma low_table v : 0 <= v < 0x20000000 -> v mod 4096 = 0 ->
  table_of (v + 0xE0000000) = table_of v + 896 /\ index_of (v + 0xE0000000) = index_of v /\ 0 <= table_of v < 128.
Proof. intros Hv Ha. unfold table_of, index_of. split; [|split]; Z.div_mod_to_equations; lia. Qed.

(** Every page below the placement address has its entry copied. *)
Lemma low_count_covers a v : 0xE0100000 <= a < W32 -> 0 <= v < a - 0xE0000000 ->
  table_of v < Z.of_nat (low_count a) /\ Z.of_nat (low_count a) <= 896.
Proof.
  intros Ha Hv. unfold low_count, table_of. rewrite w32_small by (unfold u32; lia).
  rewrite Z2Nat.id by (apply Z.div_pos; lia). split; Z.div_mod_to_equations; lia.
Qed.

Lemma with_kdir_table d s i : ktable (m_k (with_kdir d s)) i = dir_table d i.
Proof. unfold ktable. by replace (kdir (m_k (with_kdir d s))) with (Some d) by (unfold kdir; cbn; by rewrite lookup_insert_eq). Qed.

(** The user half of the kernel's directory does not matter. *)
Lemma booting_kdir k0 a size j T d s : booting k0 a size j T s -> 0 <= T <= 128 ->
  (forall i, 896 <= i < 1024 -> dir_table d i = ktable (m_k s) i) -> booting k0 a size j T (with_kdir d s).
Proof.
  intros HB HT Hd. assert (Et : forall i, 896 <= i < 1024 -> ktable (m_k (with_kdir d s)) i = ktable (m_k s) i)
    by (intros i Hi; rewrite with_kdir_table; by apply Hd).
  destruct HB. split; try done.
  - destruct bt_dir0 as (? & ? & _). split; [done|]. split; [done|]. unfold kdir. cbn. by rewrite lookup_insert_eq.
  - etransitivity; [exact bt_beside0|]. destruct s as [[st g] c]. cbn. split; [by destruct st | by destruct g].
  - intros i Hi. rewrite Et by done. by apply bt_tables0.
  - intros i i' Hi Hi'. rewrite !Et by done. by apply bt_inj0.
  - intros m Hm. rewrite <- bt_pages0 by done. unfold kpage. by rewrite Et by (rewrite kaddr_table; Z.div_mod_to_equations; lia).
Qed.

Definition with_current (x : Z) (k : kstate) : kstate := KState (k_st k) (set_current_pagedir x (k_g k)).

Lemma booting_current x k0 a size j T s : booting k0 a size j T s ->
  booting (with_current x k0) a size j T (set_mk (with_current x (m_k s)) s).
Proof.
  intros []. split; try done. destruct bt_beside0 as [B1 B2]. split; [done|]. cbn. rewrite B2. by destruct (k_g k0).
Qed.

Lemma table_count_max J : 0 <= J <= 131072 -> 0 <= table_count J <= 128.
Proof. intros HJ. unfold table_count. Z.div_mod_to_equations. lia. Qed.

(** The page that shows a kernel address. *)
Lemma booting_page k0 a size J s v : booting k0 a size J (table_count J) s -> 0 <= J -> v mod 4096 = 0 ->
  0 <= v < kaddr J - 0xE0000000 -> kpage (m_k s) (v + 0xE0000000) = Some (kmapped (v / 4096)).
Proof.
  intros HB HJ Hv Hr. pose proof (table_count_bound J HJ). unfold kaddr in Hr.
  replace (v + 0xE0000000) with (kaddr (v / 4096)) by (unfold kaddr; Z.div_mod_to_equations; lia).
  rewrite (bt_pages _ _ _ _ _ _ HB) by (Z.div_mod_to_equations; lia).
  by rewrite (proj2 (Z.ltb_lt _ _)) by (Z.div_mod_to_equations; lia).
Qed.

Lemma paging_fill_ok k0 a size s : booting k0 a size 0 0 s -> 0xE0100000 <= a -> a + 0x110000 < W32 -> size <= 0x100000 ->
  a + 0x100000 <= kaddr (counted size) ->
  exists J s', paging_fill s = Ok (tt, s') /\ booting k0 a size J (table_count J) s' /\ 0 <= J <= 131072 /\
    mem_placementAddr (m_c s') <= kaddr J /\ a <= mem_placementAddr (m_c s') <= a + 0x100000 /\
    forall v, v mod 4096 = 0 -> 0 <= v < mem_placementAddr (m_c s') - 0xE0000000 ->
      kpage (m_k s') v = kpage (m_k s') (v + 0xE0000000).
Proof.
  intros HB1 Ha Hm Hsz Hmem.
  destruct (map_kernel_loop _ a size 131073 0 s HB1) as (J & s2 & E2 & HB2 & HJ & Hend); [lia | by vm_compute | lia | lia | lia | lia |].
  pose proof (bt_place _ _ _ _ _ _ HB2) as [_ Hpl]. destruct (bt_dir _ _ _ _ _ _ HB2) as (Ekd & Hkd & d & Ed).
  rewrite <- Ekd in Hkd. set (m := mem_placementAddr (m_c s2)) in *. pose proof (table_count_max J HJ) as HT.
  assert (Hmr : 0xE0100000 <= m < W32) by lia.
  set (d' := low_entries copy_entry 0 (low_count m) d).
  destruct (low_count_covers m 0 Hmr ltac:(lia)) as [_ Hmax].
  assert (Hhi : forall i, 896 <= i < 1024 -> dir_table d' i = ktable (m_k s2) i).
  { intros i Hi. unfold d'. rewrite copy_entries, decide_False by lia. unfold ktable. by rewrite Ed. }
  exists J, (with_kdir d' s2). split; [|split; [by apply booting_kdir|split; [done|split; [done|split; [cbn; lia|]]]]].
  - unfold paging_fill. rewrite (bind_Ok _ _ _ _ _ E2), (bind_Ok _ _ s2 m s2) by (by destruct s2).
    by apply run_update_kdir.
  - intros v Hv Hvr. destruct (low_table v ltac:(cbn in Hvr; lia) Hv) as (Ht & Hi & Htr).
    destruct (low_count_covers m v Hmr Hvr) as [Hlc _].
    rewrite !with_kdir_page, Ht, Hi. unfold d'. rewrite !copy_entries by lia. by rewrite decide_True, decide_False by lia.
Qed.

Lemma paging_on_ok k0 a size J T s : booting k0 a size J T s ->
  paging_on s = Ok (tt, set_mk (with_current (kernel_pagedir (k_g k0)) (m_k s)) s).
Proof.
  intros HB. destruct (bt_dir _ _ _ _ _ _ HB) as (Ekd & Hkd & d & Ed). apply lift_k_eq, wp_eq_Ok.
  unfold pagedir_switch. ksteps. by rewrite Ekd.
Qed.

(** [paging_init]. *)
Lemma paging_init_ok ram totalRam s : boot_ok ram (totalRam / 0x1000) (mm s) ->
  let p := mem_placementAddr (m_c (mm s)) + INDEX_FROM_BIT (totalRam / 0x1000) in
  exists a J s', paging_init ram totalRam s = Ok (tt, set_mm s' s) /\
    booting (with_current p (with_dir p (m_k (mm s)))) a (totalRam / 0x1000) J (table_count J) s' /\ 0 <= J <= 131072 /\
    mem_placementAddr (m_c s') <= kaddr J /\ p + 0x9000 < a <= p + 0xC000 /\ a <= mem_placementAddr (m_c s') <= a + 0x100000 /\
    forall v, v mod 4096 = 0 -> 0 <= v < mem_placementAddr (m_c s') - 0xE0000000 ->
      kpage (m_k s') v = kpage (m_k s') (v + 0xE0000000).
Proof.
  intros Hboot p. destruct (paging_alloc_ok _ _ _ Hboot) as (a & s1 & E1 & HB1 & Ha).
  destruct Hboot as [_ _ _ Hp Hs _ Hr Hf]. fold p in Ha, HB1.
  assert (Hpos : mem_placementAddr (m_c (mm s)) <= p) by (unfold p, INDEX_FROM_BIT; change (8 * 4) with 32; Z.div_mod_to_equations; lia).
  destruct (paging_fill_ok _ a _ s1 HB1) as (J & s2 & E2 & HB2 & HJ & H1 & H2 & H3); [lia | lia | lia | lia |].
  exists a, J, (set_mk (with_current p (m_k s2)) s2). split; [|split; [by apply booting_current|done]].
  unfold paging_init. rewrite (bind_Ok _ _ _ _ _ E1). rewrite (bind_Ok _ _ _ tt (set_mm s2 s)) by (by apply (lift_m_eq _ (set_mm s1 s))).
  apply (lift_m_eq paging_on (set_mm s2 s)). exact (paging_on_ok _ _ _ _ _ _ HB2).
Qed.

(** [paging_cleanup]. *)
Lemma paging_cleanup_ok k0 a size J s : booting k0 a size J (table_count J) s -> 0 <= J <= 131072 ->
  0xE0100000 <= mem_placementAddr (m_c s) < W32 ->
  exists s', paging_cleanup s = Ok (tt, s') /\ booting k0 a size J (table_count J) s' /\ m_c s' = m_c s /\
    forall v, v mod 4096 = 0 -> 0 <= v < mem_placementAddr (m_c s) - 0xE0000000 -> ktable (m_k s') (table_of v) = 0.
Proof.
  intros HB HJ Hm. destruct (bt_dir _ _ _ _ _ _ HB) as (Ekd & Hkd & d & Ed). rewrite <- Ekd in Hkd.
  set (m := mem_placementAddr (m_c s)) in *. set (d' := low_entries clear_entry 0 (low_count m) d).
  destruct (low_count_covers m 0 Hm ltac:(lia)) as [_ Hmax].
  exists (with_kdir d' s). split; [|split; [|split; [done|]]].
  - unfold paging_cleanup. rewrite (bind_Ok _ _ s m s) by (by destruct s). by apply run_update_kdir.
  - apply booting_kdir; [done | by apply table_count_max |]. intros i Hi. unfold d'.
    rewrite clear_entries, decide_False by lia. unfold ktable. by rewrite Ed.
  - intros v Hv Hvr. rewrite with_kdir_table. unfold d'. rewrite clear_entries.
    destruct (low_table v ltac:(lia) Hv) as (_ & _ & Htr). destruct (low_count_covers m v Hm Hvr) as [Hlc _].
    by rewrite decide_True by lia.
Qed.

(** What the kernel's half of the address space shows. *)
Lemma booting_view k0 a size J s v : booting k0 a size J (table_count J) s -> 0 <= J <= 131072 ->
  0xE0000000 <= v < W32 -> v mod 4096 = 0 ->
  kpage (m_k s) v = if (v - 0xE0000000) / 4096 <? J then Some (kmapped ((v - 0xE0000000) / 4096))
                    else if (v - 0xE0000000) / 4096 <? 1024 * table_count J then Some zero_page else None.
Proof.
  intros HB HJ Hv Ha. pose proof (table_count_bound J ltac:(lia)). set (m := (v - 0xE0000000) / 4096).
  assert (Hm : v = kaddr m /\ 0 <= m < 131072) by (unfold kaddr, m; Z.div_mod_to_equations; lia). destruct Hm as [Hm Hmr].
  destruct (Z.ltb_spec m (1024 * table_count J)) as [Hlt|Hge].
  - rewrite Hm, (bt_pages _ _ _ _ _ _ HB) by lia. by destruct (m <? J).
  - rewrite (proj2 (Z.ltb_ge m J)) by lia.
    pose proof (bt_tables _ _ _ _ _ _ HB (table_of v)) as Ht. rewrite Hm, kaddr_table in *.
    specialize (Ht ltac:(Z.div_mod_to_equations; lia)). rewrite (proj2 (Z.ltb_ge _ _)) in Ht by (Z.div_mod_to_equations; lia).
    unfold kpage. by rewrite kaddr_table, Ht.
Qed.

Lemma booting_frame k0 a size J s v : booting k0 a size J (table_count J) s -> 0 <= J <= 131072 ->
  0xE0000000 <= v < W32 -> v mod 4096 = 0 ->
  kframe (m_k s) v = if (v - 0xE0000000) / 4096 <? J then (v - 0xE0000000) / 4096 else 0.
Proof.
  intros. unfold kframe. erewrite booting_view by done. destruct (_ <? J); [done|]. by destruct (_ <? _).
Qed.

(** The invariant of the page cache holds when paging is on, with the page
    for the directory and any pages of the kernel as those in use. *)
Definition boot_clients (a : Z) (C : gset Z) : Prop :=
  forall v, v ∈ C -> kspace v /\ (v = a - 0x1000 \/ v < a - 0x9000).

Lemma booting_cache_inv k0 a size J s C : boot_clients a C -> booting k0 a size J (table_count J) s -> 1 <= J <= 131072 ->
  0xE0100000 <= a -> size <= 0x100000 -> J <= counted size -> mem_placementAddr (m_c s) <= kaddr J ->
  cache_inv (m_k s) (cached s) C.
Proof.
  intros HC HB HJ Ha Hsz Hjm Hend. pose proof (table_count_bound J ltac:(lia)).
  pose proof (bt_place _ _ _ _ _ _ HB) as [Hal Hpl].
  assert (HT : 0 <= table_count J <= 128) by (apply table_count_max; lia).
  assert (Fr : forall v, kspace v -> kframe (m_k s) v = if (v - 0xE0000000) / 4096 <? J then (v - 0xE0000000) / 4096 else 0).
  { intros v [Hv Hva]. apply (booting_frame _ _ _ _ _ _ HB); [lia | lia | done]. }
  assert (Hkj : kaddr J = 0xE0000000 + 4096 * J) by done.
  assert (Hce : forall e, e ∈ cached s -> exists d, 0 <= d < 0x8000 /\ d mod 4096 = 0 /\
    fp_virt e = a - 0x9000 + d /\ fp_phys e = a - 0x9000 + d - 0xE0000000).
  { intros e. rewrite (bt_cached _ _ _ _ _ _ HB). cbn. intros He.
    repeat (apply elem_of_cons in He as [->|He]; [eexists; split; [|split; [|split; reflexivity]]; [lia | reflexivity]|]).
    by apply elem_of_nil in He. }
  split.
  - destruct (bt_dir _ _ _ _ _ _ HB) as (-> & Hkd & Hd). done.
  - by eapply booting_procs.
  - destruct (bt_frames _ _ _ _ _ _ HB) as (Hwf & Hbs & Hb). pose proof (counted_bounds size).
    split; [done|]. split; [lia|]. rewrite Hb by lia. lia.
  - intros i Hi Hn. pose proof (bt_tables _ _ _ _ _ _ HB i Hi) as Ht. destruct (i <? _); [apply Ht | done].
  - apply HB.
  - intros v g [Hv Hva] Eg Hg. rewrite (booting_view _ _ _ _ _ _ HB) in Eg by (done || lia).
    destruct (Z.ltb_spec ((v - 0xE0000000) / 4096) J).
    + injection Eg as <-. cbn in Hg. exfalso. Z.div_mod_to_equations. lia.
    + destruct (_ <? _); [|done]. by injection Eg as <-.
  - intros v Hv. rewrite Fr by done. destruct (Z.ltb_spec ((v - 0xE0000000) / 4096) J) as [Hlt|]; [|done]. intros _.
    destruct (bt_frames _ _ _ _ _ _ HB) as (Hwf & Hbs & Hb). destruct Hv as [Hv Hva].
    assert (0 <= (v - 0xE0000000) / 4096) by (apply Z.div_pos; lia).
    unfold managed. rewrite Hbs, Hb by done. split; [lia | by apply Z.ltb_lt].
  - intros v v' Hv Hv'. rewrite !Fr by done. destruct Hv as [Hv Hva], Hv' as [Hv' Hva'].
    destruct (Z.ltb_spec ((v - 0xE0000000) / 4096) J), (Z.ltb_spec ((v' - 0xE0000000) / 4096) J); Z.div_mod_to_equations; lia.
  - rewrite (bt_cached _ _ _ _ _ _ HB). cbn. repeat (apply NoDup_cons; split; [|]); [..|apply NoDup_nil_2];
      rewrite ?not_elem_of_cons, ?not_elem_of_nil; repeat split; try lia; try (by intros []%elem_of_nil).
  - intros e He. destruct (Hce e He) as (d & Hd & Hda & Ev & Ep). unfold entry_ok. rewrite Ev, Ep.
    split; [unfold kaddr in *; lia|]. split; [Z.div_mod_to_equations; lia|]. split; [unfold kaddr in *; lia|]. split; [Z.div_mod_to_equations; lia|].
    intros _. rewrite (booting_view _ _ _ _ _ _ HB) by first [lia | Z.div_mod_to_equations; lia].
    rewrite (proj2 (Z.ltb_lt _ _)); [done|]. Z.div_mod_to_equations. lia.
  - intros v (e & -> & He)%list_elem_of_fmap. destruct (Hce e He) as (d & Hd & Hda & Ev & Ep). split.
    + rewrite Ev. intros Hx%HC. lia.
    + apply eq_None_not_Some. intros Ht%(bt_range _ _ _ _ _ _ HB). lia.
  - intros v Hv%HC. apply eq_None_not_Some. intros Ht%(bt_range _ _ _ _ _ _ HB). lia.
  - intros v Hc Hv. rewrite Fr by done.
    assert (Hr : 0xE0001000 <= v < mem_placementAddr (m_c s)).
    { destruct Hv. destruct Hc as [Hx%HC|Ht%(bt_range _ _ _ _ _ _ HB)]; lia. }
    rewrite (proj2 (Z.ltb_lt _ _)); [|rewrite Hkj in Hend]; Z.div_mod_to_equations; lia.
Qed.

(** And the heap can be made: its first nine pages are after the kernel, in
    the part of the address space of the last page table. *)
Lemma booting_before_heap k0 a size J s C r w : boot_clients a C -> booting k0 a size J (table_count J) (mm s) -> 1 <= J <= 131072 ->
  0xE0100000 <= a -> size <= 0x100000 -> J + 9 + Z.of_nat r <= counted size ->
  mem_placementAddr (m_c (mm s)) <= kaddr J -> mem_placementAddr (m_c (mm s)) <= 0xE7FFE000 ->
  (mem_placementAddr (m_c (mm s)) - 1) / 0x400000 = (mem_placementAddr (m_c (mm s)) + 0x9FFF) / 0x400000 ->
  Z.of_nat w <= 0x10000 ->
  (forall n, rd32 (kb_fill (bk s) n) (mem_placementAddr (m_c (mm s)) + 0x2000 - 8) <> HEAP_MAGIC) ->
  before_heap s C r w (mem_placementAddr (m_c (mm s)) + 0xA000).
Proof.
  intros HC HB HJ Ha Hsz Hjm Hend Hhi Hnear Hw Hfill. pose proof (bt_place _ _ _ _ _ _ HB) as [Hal Hpl].
  pose proof (table_count_max J ltac:(lia)) as HT. pose proof (bt_top _ _ _ _ _ _ HB) as Htop.
  set (P := mem_placementAddr (m_c (mm s))) in *.
  assert (HP : P mod 4096 = 0 /\ 0xE0100000 <= P) by (split; [Z.div_mod_to_equations; lia | lia]). destruct HP as [HPa HPl].
  assert (Hpm : page_mask P = P) by (rewrite page_mask_sub by (unfold u32; lia); Z.div_mod_to_equations; lia).
  unfold kaddr in Hend, Htop.
  split; change (kb_m (bk s)) with (mm s); fold P; rewrite ?Hpm.
  - apply HB.
  - destruct (bt_early _ _ _ _ _ _ HB) as (_ & ? & -> & ?). done.
  - lia.
  - eapply booting_cache_inv; (done || unfold kaddr; lia).
  - intros v Hv. apply (HC v Hv).
  - intros v b Hv Hva. unfold b in Hv. rewrite (booting_frame _ _ _ _ _ _ HB) by (done || lia).
    by rewrite (proj2 (Z.ltb_ge _ _)) by (Z.div_mod_to_equations; lia).
  - intros v b Hv. unfold b in Hv. pose proof (bt_tables _ _ _ _ _ _ HB (table_of v)) as Ht. rewrite table_4m in *.
    unfold table_count in *. specialize (Ht ltac:(Z.div_mod_to_equations; lia)).
    rewrite (proj2 (Z.ltb_lt _ _)) in Ht; [apply Ht|]. Z.div_mod_to_equations. lia.
  - split; [lia | Z.div_mod_to_equations; lia].
  - replace (P + 0xA000 - (P + 0x1000)) with (9 * 4096) by lia. rewrite Z.div_mul by lia.
    destruct (bt_frames _ _ _ _ _ _ HB) as (_ & Hs & Hb). exists (seqZ J (Z.of_nat (r + 9))).
    split; [apply NoDup_seqZ|]. split; [rewrite length_seqZ; lia|]. intros k Hk%elem_of_seqZ.
    unfold managed. rewrite Hs, Hb by lia. lia.
  - exists ((fun i => 0xF0000000 + 4096 * i) <$> seqZ 0 (Z.of_nat w)). split; [|split; [rewrite length_fmap, length_seqZ; lia|]].
    + apply NoDup_fmap_2_strong; [intros x y _ _; lia | apply NoDup_seqZ].
    + intros v (i & -> & Hi%elem_of_seqZ)%list_elem_of_fmap.
      assert (Hwn : window (0xF0000000 + 4096 * i)) by (split; [lia | Z.div_mod_to_equations; lia]). split; [done|].
      rewrite (booting_frame _ _ _ _ _ _ HB) by (first [lia | apply Hwn]).
      by rewrite (proj2 (Z.ltb_ge _ _)) by (Z.div_mod_to_equations; lia).
  - done.
Qed.

(** ** Theorems *)

(** C23. [paging_init] maps the kernel: it ends, and then every page from
    0xE0000000 to the end of the space taken so far (which moves while it
    runs, since page tables are taken from that space) shows the physical
    page with its number, and so does the copy at address 0 that is needed
    until [gdt_init].  The directory is put [size / 32] bytes after the
    start of the bitset, whose words need four times as much. *)
Theorem paging_init_maps_kernel ram totalRam s : boot_ok ram (totalRam / 0x1000) (mm s) ->
  exists s', paging_init ram totalRam s = Ok (tt, set_mm s' s) /\
    kernel_pagedir (k_g (m_k s')) = mem_placementAddr (m_c (mm s)) + INDEX_FROM_BIT (totalRam / 0x1000) /\
    current_pagedir (k_g (m_k s')) = kernel_pagedir (k_g (m_k s')) /\
    mem_placementAddr (m_c (mm s)) < mem_placementAddr (m_c s') /\
    forall v, v mod 4096 = 0 -> 0 <= v < mem_placementAddr (m_c s') - 0xE0000000 ->
      kpage (m_k s') (v + 0xE0000000) = Some (kmapped (v / 4096)) /\
      kpage (m_k s') v = Some (kmapped (v / 4096)).
Proof.
  intros Hboot. destruct (paging_init_ok _ _ _ Hboot) as (a & J & s' & E & HB & HJ & Hend & Ha & Hm & Hlow).
  destruct (bt_dir _ _ _ _ _ _ HB) as (Ekd & _). pose proof (bt_beside _ _ _ _ _ _ HB) as [_ HG].
  exists s'. split; [done|]. split; [exact Ekd|]. split; [rewrite Ekd, HG; done|]. split.
  { destruct Hboot as [_ _ _ Hp Hs _ _ _]. unfold INDEX_FROM_BIT in Ha. change (8 * 4) with 32 in Ha. Z.div_mod_to_equations. lia. }
  intros v Hv Hvr. rewrite (Hlow v Hv Hvr). split; apply (booting_page _ _ _ _ _ _ HB); (done || lia).
Qed.

(** [paging_cleanup] takes the copy at address 0 away and leaves the kernel
    where it is. *)
Theorem paging_cleanup_unmaps s d :
  kernel_pagedir (k_g (m_k s)) <> 0 -> kdir (m_k s) = Some d ->
  0xE0100000 <= mem_placementAddr (m_c s) < W32 ->
  exists s', paging_cleanup s = Ok (tt, s') /\
    (forall v, v mod 4096 = 0 -> 0 <= v < mem_placementAddr (m_c s) - 0xE0000000 -> kpage (m_k s') v = None) /\
    forall v, 0xE0000000 <= v -> kpage (m_k s') v = kpage (m_k s) v.
Proof.
  intros Hkd Ed Hm. set (m := mem_placementAddr (m_c s)) in *.
  set (d' := low_entries clear_entry 0 (low_count m) d). exists (with_kdir d' s). split; [|split].
  - unfold paging_cleanup. rewrite (bind_Ok _ _ s m s) by (by destruct s). by apply run_update_kdir.
  - intros v Hv Hvr. rewrite with_kdir_page. unfold d'. rewrite clear_entries.
    destruct (low_table v ltac:(lia) Hv) as (_ & _ & Htr). destruct (low_count_covers m v Hm Hvr) as [Hlc _].
    by rewrite decide_True by lia.
  - intros v Hv. rewrite with_kdir_page. unfold d'. rewrite clear_entries.
    destruct (low_count_covers m 0 Hm ltac:(lia)) as [_ Hmax].
    rewrite decide_False by (unfold table_of; Z.div_mod_to_equations; lia).
    unfold kpage, ktable. by rewrite Ed.
Qed.

(** The space for pages begins after the kernel and after every module. *)
Theorem place_modules_above p l : (forall m, m ∈ l -> mod_end m + 0xE0001000 < W32 /\ 0 <= mod_end m) ->
  let r := place_modules p l in
  p <= r.1 /\ length r.2 = length l /\ forall m, m ∈ r.2 -> mod_end m <= r.1.
Proof.
  revert p; induction l as [|m l IH]; intros p Hl; cbn [place_modules].
  { split; [done|]. split; [done|]. intros m Hm. by apply not_elem_of_nil in Hm. }
  destruct (Hl m) as [Hm H0]; [set_solver|]. destruct (place_module p m) as [p1 m1] eqn:E1.
  assert (Hp1 : p <= p1 /\ mod_end m1 <= p1).
  { unfold place_module in E1. injection E1 as <- <-. cbn [mod_end].
    rewrite (w32_small (mod_end m + 0xE0000000)) by (unfold u32; lia).
    destruct (Z.ltb_spec p (mod_end m + 0xE0000000)); [|lia].
    rewrite page_mask_sub by (unfold u32; lia).
    rewrite w32_small by (unfold u32; Z.div_mod_to_equations; lia). Z.div_mod_to_equations. lia. }
  destruct (IH p1) as (I1 & I2 & I3); [intros x Hx; apply Hl; set_solver|].
  destruct (place_modules p1 l) as [p2 l2]. cbn in *. split; [lia|]. split; [by rewrite I2|].
  intros x [->|Hx]%elem_of_cons; [lia | by apply I3].
Qed.

(** ** Witnesses *)

(** 64 MB of memory, a kernel and its modules that end at 0xE0123456. *)
Definition sample_boot : kmem :=
  HState (Heap 0 0 0 0 0) (fun _ => 0)
    (KBack (MState (boot_state 0 0) (PCache 0xE0123456 0 sample_pages 0 0)) (fun _ _ => 0) 0).

Lemma sample_boot_ok : boot_ok (fun _ => 0) (0x4000000 / 0x1000) (mm sample_boot).
Proof. split; try done; cbn; unfold kaddr; try lia. Qed.

Lemma paging_init_maps_kernel_witness :
  exists s', paging_init (fun _ => 0) 0x4000000 sample_boot = Ok (tt, set_mm s' sample_boot) /\
    kernel_pagedir (k_g (m_k s')) = 0xE0123456 + 512 /\
    current_pagedir (k_g (m_k s')) = kernel_pagedir (k_g (m_k s')) /\
    0xE0123456 < mem_placementAddr (m_c s') /\
    forall v, v mod 4096 = 0 -> 0 <= v < mem_placementAddr (m_c s') - 0xE0000000 ->
      kpage (m_k s') (v + 0xE0000000) = Some (kmapped (v / 4096)) /\
      kpage (m_k s') v = Some (kmapped (v / 4096)).
Proof. apply (paging_init_maps_kernel (fun _ => 0) 0x4000000 sample_boot sample_boot_ok). Defined.

Lemma paging_cleanup_unmaps_witness :
  let s := MState sample_kernel (PCache 0xE0123456 0 sample_pages 4 0) in
  exists s', paging_cleanup s = Ok (tt, s') /\
    (forall v, v mod 4096 = 0 -> 0 <= v < 0xE0123456 - 0xE0000000 -> kpage (m_k s') v = None) /\
    forall v, 0xE0000000 <= v -> kpage (m_k s') v = kpage (m_k s) v.
Proof.
  intros s. apply (paging_cleanup_unmaps s (PageDirectory {[ 896 := 0xE0110000 ]} ∅ 0 0)); [done | reflexivity | cbn; lia].
Defined.

Lemma place_modules_above_witness :
  let r := place_modules 0xE0110000 [Module_t 0x111000 0x115678 0; Module_t 0x116000 0x120001 0] in
  0xE0110000 <= r.1 /\ length r.2 = 2%nat /\ forall m, m ∈ r.2 -> mod_end m <= r.1.
Proof.
  apply (place_modules_above 0xE0110000 [Module_t 0x111000 0x115678 0; Module_t 0x116000 0x120001 0]).
  intros m Hm. repeat (apply elem_of_cons in Hm as [->|Hm]; [cbn; lia|]). by apply not_elem_of_nil in Hm.
Defined.
