(* ===== verification/Console.v ===== *)
(** * Text output

    [src/kernel/core/monitor.c]: the text screen, 80 columns by 25 lines,
    one 16-bit cell per character, with the cursor; and the number printing
    of [src/library/std/stdio.c]. *)

From stdpp Require Import strings.
From S2P Require Import Prelude.

(** The bytes of a C string literal, without its terminator. *)
Definition text (s : string) : list Z :=
  map (fun c => Z.of_N (Ascii.N_of_ascii c)) (String.list_ascii_of_string s).

Record monitor := Monitor {
  cursor_x : Z; cursor_y : Z;
  video_memory : list Z;
  attribute : Z;
  vga_cursor : Z  (* the position last sent to the hardware *)
}.

Definition set_cursor (x y : Z) (s : monitor) : monitor :=
  Monitor x y (video_memory s) (attribute s) (vga_cursor s).
Definition set_video (v : list Z) (s : monitor) : monitor :=
  Monitor (cursor_x s) (cursor_y s) v (attribute s) (vga_cursor s).

(** [video_memory[i] = c], for a cell of the screen. *)
Definition put_cell (i c : Z) : M monitor unit := fun s =>
  if (0 <=? i) && (i <? Z.of_nat (length (video_memory s)))
  then Ok (tt, set_video (<[Z.to_nat i := c]> (video_memory s)) s)
  else Fault (BadAccess i).

Definition move_cursor : M monitor unit :=
  modify (fun s => Monitor (cursor_x s) (cursor_y s) (video_memory s) (attribute s)
                     (w16 (cursor_y s * 80 + cursor_x s))).

Definition blank (s : monitor) : Z := Z.lor (Z.shiftl (attribute s) 8) 0x20.

Definition scroll : M monitor unit :=
  y ← gets cursor_y;
  if 25 <=? y then
    modify (fun s => set_video (drop 80 (video_memory s) ++ replicate 80 (blank s)) s);;
    modify (fun s => set_cursor (cursor_x s) 24 s)
  else mret tt.

(** [c] is a [char]: bytes above 127 are negative. *)
Definition schar (c : Z) : Z := if c <? 128 then c else c - 256.

Definition put_char (c : Z) : M monitor unit :=
  x ← gets cursor_x; y ← gets cursor_y; a ← gets attribute;
  if (c =? 8) && negb (x =? 0) then modify (set_cursor (x - 1) y)
  else if c =? 9 then modify (set_cursor (Z.land (x + 8) (Z.lnot 7)) y)
  else if c =? 13 then modify (set_cursor 0 y)
  else if c =? 10 then modify (set_cursor 0 (y + 1))
  else if 32 <=? schar c then
    put_cell (y * 80 + x) (Z.lor c (Z.shiftl a 8));; modify (set_cursor (x + 1) y)
  else mret tt.

Definition put_end : M monitor unit :=
  x ← gets cursor_x; y ← gets cursor_y;
  when (80 <=? x) (modify (set_cursor 0 (y + 1)));;
  scroll;;
  move_cursor.

Definition monitor_put (c : Z) : M monitor unit := put_char c;; put_end.

Definition monitor_clear : M monitor unit :=
  modify (fun s => set_cursor 0 0 (set_video (replicate (80 * 25) (blank s)) s));;
  move_cursor.

(** The characters up to the terminator. *)
Fixpoint monitor_write (cs : list Z) : M monitor unit :=
  match cs with
  | [] => mret tt
  | c :: cs' => monitor_put c;; monitor_write cs'
  end.

(** "0123456789abcdef"[d] *)
Definition hexdigit (d : Z) : Z := if d <? 10 then 48 + d else 87 + d.

Fixpoint hex_loop (n : nat) (v : Z) : M monitor unit :=
  match n with
  | O => mret tt
  | S n' => monitor_put (hexdigit (Z.shiftr v 28));; hex_loop n' (w32 (Z.shiftl v 4))
  end.
Definition monitor_writeHex (v : Z) : M monitor unit :=
  monitor_put 48;; monitor_put 120;; hex_loop 8 v.

(** [while (v / x > 0) x *= 10;] on an [int] [x] and an unsigned [v]; an
    overflow wraps, and a division by zero is an exception. *)
Definition scale_step {S} (v x : Z) : M S (Z + Z) :=
  if w32 x =? 0 then fail Panic
  else if 0 <? v / w32 x then mret (inl (s32 (w32 (x * 10)))) else mret (inr x).
Definition scale {S} (v : Z) : M S Z := loop 40 (scale_step v) 1.

(** [while (no < order) { monitor_put('0'); no *= 10; }] *)
Definition zeros_step (order no : Z) : M monitor (Z + unit) :=
  if no <? order then monitor_put 48;; mret (inl (s32 (w32 (no * 10)))) else mret (inr tt).

(** "0123456789"[d], terminator included. *)
Definition digit_at (d : Z) : M monitor Z :=
  if d <? 10 then mret (48 + d) else if d =? 10 then mret 0 else fail (BadAccess d).

Definition dec_step (v : Z) : M monitor (Z + unit) :=
  if 0 <? v then
    order ← scale v;
    let order := Z.quot order 10 in
    if w32 order =? 0 then fail Panic
    else
      d ← digit_at (v / w32 order);
      monitor_put d;;
      let v := w32 (v - w32 (v / w32 order * w32 order)) in
      no ← scale v;
      loop 40 (zeros_step order) no;;
      mret (inl v)
  else mret (inr tt).

Definition monitor_writeDec (v : Z) : M monitor unit :=
  if v =? 0 then monitor_put 48 else loop 40 dec_step v.

(** ** [src/library/std/stdio.c]: the text given to [printk] *)

(** The digits of a positive number, [order] of them, as [printk_int]
    stores them from the right. *)
Fixpoint int_digits (n : nat) (number : Z) (acc : list Z) : list Z :=
  match n with
  | O => acc
  | S n' => int_digits n' (Z.quot number 10) (48 + Z.rem number 10 :: acc)
  end.

(** [while (temp > 0) { order++; temp /= 10; }], 10 rounds at most. *)
Fixpoint int_order (fuel : nat) (temp : Z) : nat :=
  match fuel with
  | O => O
  | S f => if 0 <? temp then S (int_order f (Z.quot temp 10)) else O
  end.

Definition printk_int (number : Z) : list Z :=
  if number =? 0 then [48]
  else
    let negative := number <? 0 in
    let number := if negative then s32 (w32 (0 - number)) else number in
    let digits := int_digits (int_order 11 number) number [] in
    if negative then 45 :: digits else digits.

(** Writing [s[i]] in a buffer of the given length. *)
Definition buf_set (i : Z) (c : Z) (s : list Z) : res (list Z) :=
  if (0 <=? i) && (i <? Z.of_nat (length s)) then Ok (<[Z.to_nat i := c]> s) else Fault (BadAccess i).

Definition Hexdigit (d : Z) : Z := if d <? 10 then 48 + d else 55 + d.

Fixpoint hex_buf (n : nat) (i v : Z) (s : list Z) : res (list Z) :=
  match n with
  | O => Ok s
  | S n' =>
      match buf_set (i + 2) (Hexdigit (Z.shiftr v 28)) s with
      | Ok s' => hex_buf n' (i + 1) (w32 (Z.shiftl v 4)) s'
      | Fault f => Fault f
      end
  end.

(** [char s[11] = {'0', 'x', 0}], eight digits, [s[11] = 0]. *)
Definition printk_hex (v : Z) : res (list Z) :=
  match hex_buf 8 0 v (48 :: 120 :: replicate 9 0) with
  | Ok s => buf_set 11 0 s
  | Fault f => Fault f
  end.

(** ** Specification *)

(** The cursor is on the screen. *)
Record screen_ok (s : monitor) : Prop := {
  sc_x : 0 <= cursor_x s < 80;
  sc_y : 0 <= cursor_y s < 25;
  sc_video : length (video_memory s) = 2000%nat
}.

Definition pos (s : monitor) : Z := cursor_y s * 80 + cursor_x s.
Definition cell (c : Z) (s : monitor) : Z := Z.lor c (Z.shiftl (attribute s) 8).

(** The value of a list of digits in base [b], most significant first. *)
Definition value (b : Z) (ds : list Z) : Z := foldl (fun acc d => acc * b + d) 0 ds.

(** The [n] lowest decimal digits of [v], as characters. *)
Fixpoint padded (n : nat) (v : Z) : list Z :=
  match n with
  | O => []
  | S n' => 48 + v / 10 ^ Z.of_nat n' :: padded n' (v mod 10 ^ Z.of_nat n')
  end.

(** The [n] highest of the eight hexadecimal digits of [v]. *)
Fixpoint hexs (n : nat) (v : Z) : list Z :=
  match n with
  | O => []
  | S n' => hexdigit (Z.shiftr v 28) :: hexs n' (w32 (Z.shiftl v 4))
  end.

Definition unhex (c : Z) : Z := if c <? 58 then c - 48 else c - 87.
Definition undec (c : Z) : Z := c - 48.

(** A decimal numeral: digits, no leading zero. *)
Definition numeral (cs : list Z) : Prop :=
  Forall (fun c => 48 <= c <= 57) cs /\ (length cs = 1%nat \/ head cs <> Some 48) /\ cs <> [].

(** [cs] is the decimal numeral of [v]. *)
Definition spells (cs : list Z) (v : Z) : Prop := numeral cs /\ value 10 (map undec cs) = v.

(** How many zeros the loop of [zeros_step] writes, if it ends. *)
Fixpoint zeros_count (n : nat) (order no : Z) : option nat :=
  match n with
  | O => None
  | S n' => if no <? order then S <$> zeros_count n' order (s32 (w32 (no * 10))) else Some O
  end.

(** The last cell of the screen, about to scroll. *)
Definition sample_screen : monitor := Monitor 79 24 (replicate 2000 0x720) 7 1999.

(** ** Lemmas *)

Lemma monitor_write_app cs1 cs2 s : monitor_write (cs1 ++ cs2) s = (monitor_write cs1;; monitor_write cs2) s.
Proof.
  revert s. induction cs1 as [|c cs1 IH]; intros s; cbn [app monitor_write]; [done|].
  unfold mbind, M_bind in *. destruct (monitor_put c s) as [[[] s']|]; [apply IH | done].
Qed.

(** What [put_char] does, up to the wrapping at the end of the line. *)
Lemma put_char_ok c s : screen_ok s -> exists x y v, put_char c s = Ok (tt, set_cursor x y (set_video v s)) /\
  0 <= x <= 80 /\ 0 <= y <= 25 /\ (y = 25 -> x < 80) /\ length v = 2000%nat.
Proof.
  intros [Hx Hy Hv]. destruct s as [x y v a k]. cbn [cursor_x cursor_y video_memory] in *.
  unfold put_char. destruct ((c =? 8) && negb (x =? 0)) eqn:E8.
  { pose proof (proj1 (andb_true_iff _ _) E8) as [_ Hne%negb_true_iff%Z.eqb_neq]. exists (x - 1), y, v.
    split; [|lia]. apply wp_eq_Ok. wp_steps; cbn [cursor_x cursor_y attribute]; rewrite E8. by wp_steps. }
  destruct (c =? 9) eqn:E9.
  { exists (Z.land (x + 8) (Z.lnot 7)), y, v. split; [apply wp_eq_Ok; wp_steps; cbn [cursor_x cursor_y attribute]; rewrite E8; by wp_steps|].
    assert (Hl : Z.land (x + 8) (Z.lnot 7) = (x + 8) / 8 * 8).
    { rewrite <- Z.ldiff_land. change 7 with (Z.ones 3). rewrite Z.ldiff_ones_r by lia.
      rewrite Z.shiftr_div_pow2, Z.shiftl_mul_pow2 by lia. reflexivity. }
    rewrite Hl. pose proof (Z.div_mod (x + 8) 8). pose proof (Z.mod_pos_bound (x + 8) 8). lia. }
  destruct (c =? 13) eqn:E13.
  { exists 0, y, v. split; [apply wp_eq_Ok; wp_steps; cbn [cursor_x cursor_y attribute]; rewrite E8; by wp_steps | lia]. }
  destruct (c =? 10) eqn:E10.
  { exists 0, (y + 1), v. split; [apply wp_eq_Ok; wp_steps; cbn [cursor_x cursor_y attribute]; rewrite E8; by wp_steps | lia]. }
  destruct (32 <=? schar c) eqn:E32.
  - exists (x + 1), y, (<[Z.to_nat (y * 80 + x) := Z.lor c (Z.shiftl a 8)]> v).
    split; [|rewrite length_insert; lia]. apply wp_eq_Ok. wp_steps; cbn [cursor_x cursor_y attribute]; rewrite E8; wp_step.
    unfold wp at 1, put_cell. cbn [video_memory]. rewrite Hv.
    rewrite (proj2 (Z.leb_le _ _)), (proj2 (Z.ltb_lt _ _)) by lia. reflexivity.
  - exists x, y, v. split; [|lia]. apply wp_eq_Ok. wp_steps; cbn [cursor_x cursor_y attribute]; rewrite E8. by wp_steps.
Qed.

(** The end of [monitor_put]. *)
Definition wrap (x y : Z) : Z * Z := if 80 <=? x then (0, y + 1) else (x, y).
Definition finish (x y : Z) (s : monitor) : monitor :=
  let (x, y) := wrap x y in
  let v := if 25 <=? y then drop 80 (video_memory s) ++ replicate 80 (blank s) else video_memory s in
  let y := if 25 <=? y then 24 else y in
  Monitor x y v (attribute s) (w16 (y * 80 + x)).

Lemma put_end_ok x y s : put_end (set_cursor x y s) = Ok (tt, finish x y s).
Proof.
  apply wp_eq_Ok. unfold put_end, finish, wrap, scroll, move_cursor, when. wp_steps. cbn [cursor_x cursor_y set_cursor].
  destruct (80 <=? x); wp_steps; cbn; destruct (25 <=? _); wp_steps; done.
Qed.

Lemma monitor_put_ok c s : screen_ok s -> exists s', monitor_put c s = Ok (tt, s') /\ screen_ok s' /\
  attribute s' = attribute s /\ vga_cursor s' = pos s'.
Proof.
  intros W. destruct (put_char_ok c s W) as (x & y & v & E & Hx & Hy & Hxy & Hv).
  exists (finish x y (set_video v s)). split; [|].
  { unfold monitor_put. rewrite (bind_Ok _ _ _ _ _ E). apply put_end_ok. }
  assert (Hs : length (drop 80 v ++ replicate 80 (blank (set_video v s))) = 2000%nat)
    by (rewrite length_app, length_drop, length_replicate; lia).
  unfold finish, wrap, pos. destruct (Z.leb_spec 80 x);
    match goal with |- context [25 <=? ?y] => destruct (Z.leb_spec 25 y) end;
    (split; [split; cbn [cursor_x cursor_y video_memory set_video]; solve [lia | assumption]
           | split; [reflexivity | unfold w16; cbn [vga_cursor cursor_x cursor_y]; rewrite Z.mod_small; lia]]).
Qed.

Lemma monitor_write_ok cs s : screen_ok s -> exists s', monitor_write cs s = Ok (tt, s') /\ screen_ok s'.
Proof.
  revert s. induction cs as [|c cs IH]; intros s W; cbn [monitor_write]; [by exists s|].
  destruct (monitor_put_ok c s W) as (s1 & E1 & W1 & _). rewrite (bind_Ok _ _ _ _ _ E1). by apply IH.
Qed.

Lemma hex_loop_write n v s : hex_loop n v s = monitor_write (hexs n v) s.
Proof.
  revert v s. induction n as [|n IH]; intros v s; cbn [hex_loop hexs monitor_write]; [done|].
  unfold mbind, M_bind. destruct (monitor_put _ s) as [[[] s']|]; [apply IH | done].
Qed.

(** [value] reads a list of digits from the left. *)
Lemma value_app b ds1 ds2 : value b (ds1 ++ ds2) = value b ds1 * b ^ Z.of_nat (length ds2) + value b ds2.
Proof.
  unfold value. rewrite foldl_app. generalize (foldl (fun acc d => acc * b + d) 0 ds1) as a.
  induction ds2 as [|d ds2 IH] using rev_ind; intros a; [cbn; lia|].
  rewrite !foldl_app, length_app. cbn [foldl length]. rewrite IH.
  replace (Z.of_nat (length ds2 + 1)) with (Z.of_nat (length ds2) + 1) by lia. rewrite Z.pow_add_r by lia. lia.
Qed.

Lemma value_cons b d ds : value b (d :: ds) = d * b ^ Z.of_nat (length ds) + value b ds.
Proof. change (d :: ds) with ([d] ++ ds). rewrite value_app. cbn. lia. Qed.

Lemma unhex_hexdigit d : 0 <= d < 16 -> unhex (hexdigit d) = d.
Proof. intros H. unfold unhex, hexdigit. destruct (Z.ltb_spec d 10); case_match eqn:E; lia. Qed.

Lemma length_hexs n v : length (hexs n v) = n.
Proof. revert v. induction n; intros v; cbn; [done | by rewrite IHn]. Qed.

Lemma hexs_value n v : (n <= 8)%nat -> u32 v -> value 16 (map unhex (hexs n v)) = v / 2 ^ (32 - 4 * Z.of_nat n).
Proof.
  revert v. induction n as [|n IH]; intros v Hn Hv.
  { change (value 16 _) with 0. symmetry. apply Z.div_small. exact Hv. }
  cbn [hexs map]. rewrite value_cons, length_map, length_hexs. unfold u32 in Hv.
  assert (Hd : Z.shiftr v 28 = v / 2 ^ 28) by (apply Z.shiftr_div_pow2; lia).
  assert (H28 : 0 <= v / 2 ^ 28 < 16).
  { pose proof (Z.div_mod v (2 ^ 28)). pose proof (Z.mod_pos_bound v (2 ^ 28)). lia. }
  rewrite Hd, unhex_hexdigit by done. rewrite IH by (auto using w32_range; lia).
  assert (Hw : w32 (Z.shiftl v 4) = v mod 2 ^ 28 * 16).
  { unfold w32. rewrite Z.shiftl_mul_pow2 by lia.
    pose proof (Z.div_mod v (2 ^ 28)). pose proof (Z.mod_pos_bound v (2 ^ 28)).
    symmetry. apply (Z.mod_unique _ _ (v / 2 ^ 28)); lia. }
  rewrite Hw. set (k := 32 - 4 * Z.of_nat (S n)).
  replace (32 - 4 * Z.of_nat n) with (k + 4) by lia.
  assert (H16 : 2 ^ (k + 4) = 2 ^ k * 16) by (rewrite Z.pow_add_r by lia; reflexivity).
  assert (Hk : 0 < 2 ^ k) by (apply Z.pow_pos_nonneg; lia).
  rewrite H16, Z.div_mul_cancel_r by lia.
  assert (H2 : 2 ^ 28 = 2 ^ k * 16 ^ Z.of_nat n).
  { change 16 with (2 ^ 4). rewrite <- Z.pow_mul_r, <- Z.pow_add_r by lia. f_equal. lia. }
  rewrite (Z.div_mod v (2 ^ 28)) at 3 by lia. rewrite H2 at 3.
  replace (2 ^ k * 16 ^ Z.of_nat n * (v / 2 ^ 28) + v mod 2 ^ 28)
    with (v mod 2 ^ 28 + v / 2 ^ 28 * 16 ^ Z.of_nat n * 2 ^ k) by lia.
  rewrite Z.div_add by lia. lia.
Qed.

(** *** Decimal digits *)

Lemma length_padded n v : length (padded n v) = n.
Proof. revert v. induction n; intros v; cbn; [done | by rewrite IHn]. Qed.

Lemma pow10_S n : 10 ^ Z.of_nat (S n) = 10 ^ Z.of_nat n * 10 /\ 0 < 10 ^ Z.of_nat n.
Proof. rewrite Nat2Z.inj_succ, Z.pow_succ_r by lia. pose proof (Z.pow_pos_nonneg 10 (Z.of_nat n)). lia. Qed.

Lemma pow10_digit n v : 0 <= v < 10 ^ Z.of_nat (S n) ->
  0 <= v / 10 ^ Z.of_nat n < 10 /\ 0 <= v mod 10 ^ Z.of_nat n < 10 ^ Z.of_nat n.
Proof.
  intros H. destruct (pow10_S n) as [E P]. rewrite E in H.
  split; [split; [apply Z.div_pos | apply Z.div_lt_upper_bound]; lia | apply Z.mod_pos_bound; lia].
Qed.

Lemma padded_value n v : 0 <= v < 10 ^ Z.of_nat n -> value 10 (map undec (padded n v)) = v.
Proof.
  revert v. induction n as [|n IH]; intros v H; [change (10 ^ Z.of_nat 0) with 1 in H; cbn; lia|].
  cbn [padded map]. rewrite value_cons, length_map, length_padded. unfold undec at 1.
  destruct (pow10_digit n v H) as [Hd Hm]. rewrite IH by done.
  destruct (pow10_S n). pose proof (Z.div_mod v (10 ^ Z.of_nat n)). lia.
Qed.

Lemma padded_digits n v : 0 <= v < 10 ^ Z.of_nat n -> Forall (fun c => 48 <= c <= 57) (padded n v).
Proof.
  revert v. induction n as [|n IH]; intros v H; cbn [padded]; constructor;
    destruct (pow10_digit n v H) as [Hd Hm]; [lia | by apply IH].
Qed.

Lemma padded_spells n v : 10 ^ Z.of_nat n <= v < 10 ^ Z.of_nat (S n) -> spells (padded (S n) v) v.
Proof.
  intros H. destruct (pow10_S n) as [E P]. split; [split; [|split]|].
  - apply padded_digits. lia.
  - right. cbn. intros [= Hc]. assert (1 <= v / 10 ^ Z.of_nat n) by (apply Z.div_le_lower_bound; lia). lia.
  - done.
  - apply padded_value. lia.
Qed.

Lemma mod_mul_10 v p : 0 <= v -> 0 < p -> v mod (p * 10) / 10 = v / 10 mod p /\ (v mod (p * 10)) mod 10 = v mod 10.
Proof.
  intros Hv Hp. rewrite (Z.mul_comm p 10), Z.rem_mul_r by lia.
  pose proof (Z.mod_pos_bound v 10).
  replace (v mod 10 + 10 * (v / 10 mod p)) with (v mod 10 + v / 10 mod p * 10) by lia.
  rewrite Z.div_add, Z.mod_add, Z.mod_mod, Z.div_small by lia. lia.
Qed.

Lemma padded_snoc n v : 0 <= v < 10 ^ Z.of_nat (S n) -> padded (S n) v = padded n (v / 10) ++ [48 + v mod 10].
Proof.
  revert v. induction n as [|n IH]; intros v Hv.
  { change (10 ^ Z.of_nat 1) with 10 in Hv. cbn. rewrite Z.div_1_r, Z.mod_small by lia. done. }
  destruct (pow10_S n) as [E P]. destruct (pow10_S (S n)) as [E' P'].
  destruct (mod_mul_10 v (10 ^ Z.of_nat n)) as [Hd Hm]; [lia | lia |]. rewrite <- E in Hd, Hm.
  change (padded (S (S n)) v) with (48 + v / 10 ^ Z.of_nat (S n) :: padded (S n) (v mod 10 ^ Z.of_nat (S n))).
  rewrite IH by (apply Z.mod_pos_bound; lia). cbn [padded app]. rewrite Hd, Hm, E.
  rewrite (Z.mul_comm _ 10), <- Z.div_div by lia. done.
Qed.

Lemma int_digits_padded n v acc : 0 <= v < 10 ^ Z.of_nat n -> int_digits n v acc = padded n v ++ acc.
Proof.
  revert v acc. induction n as [|n IH]; intros v acc Hv; [done|].
  cbn [int_digits]. rewrite Z.quot_div_nonneg, Z.rem_mod_nonneg by lia. destruct (pow10_S n).
  rewrite IH, padded_snoc, <- app_assoc by (try split; try apply Z.div_pos; try apply Z.div_lt_upper_bound; lia).
  done.
Qed.

(** The number of decimal digits. *)
Lemma int_order_spec f v n : 10 ^ Z.of_nat n <= v < 10 ^ Z.of_nat (S n) -> (S n < f)%nat -> int_order f v = S n.
Proof.
  revert v n. induction f as [|f IH]; intros v n H Hf; [lia|].
  cbn [int_order]. destruct (pow10_S n) as [E P]. rewrite (proj2 (Z.ltb_lt 0 v)), Z.quot_div_nonneg by lia. f_equal.
  destruct n as [|n].
  - change (10 ^ Z.of_nat 1) with 10 in H. rewrite Z.div_small by lia. destruct f; done.
  - destruct (pow10_S n) as [E' P']. apply IH; [|lia].
    split; [apply Z.div_le_lower_bound | apply Z.div_lt_upper_bound]; lia.
Qed.

(** Every positive number lies between two powers of ten. *)
Lemma decade v b : 0 < v < 10 ^ Z.of_nat b -> exists n, (n < b)%nat /\ 10 ^ Z.of_nat n <= v < 10 ^ Z.of_nat (S n).
Proof.
  induction b as [|b IH]; intros H; [change (10 ^ Z.of_nat 0) with 1 in H; lia|].
  destruct (Z.lt_ge_cases v (10 ^ Z.of_nat b)) as [Hlt | Hge].
  - destruct IH as (n & ? & ?); [lia|]. exists n. split; [lia | done].
  - exists b. lia.
Qed.

Lemma pow10_int n : (n <= 9)%nat -> 0 < 10 ^ Z.of_nat n <= 1000000000 /\
  w32 (10 ^ Z.of_nat n) = 10 ^ Z.of_nat n /\ s32 (w32 (10 ^ Z.of_nat n)) = 10 ^ Z.of_nat n.
Proof. intros H. do 10 (destruct n as [|n]; [done|]). lia. Qed.

Lemma scale_loop {S} (s : S) v k : forall n j, 0 <= v < 10 ^ Z.of_nat k ->
  (forall i, (i < k)%nat -> 10 ^ Z.of_nat i <= v) -> (j <= k)%nat -> (k <= 9)%nat -> (k - j < n)%nat ->
  loop n (scale_step v) (10 ^ Z.of_nat j) s = Ok (10 ^ Z.of_nat k, s).
Proof.
  induction n as [|n IH]; intros j Hv Hk Hj H9 Hn; [lia|].
  destruct (pow10_int j) as (Hp & Hw & _); [lia|].
  rewrite loop_S. apply wp_eq_Ok, wp_bind. unfold scale_step at 1. rewrite Hw, (proj2 (Z.eqb_neq _ 0)) by lia.
  destruct (decide (j = k)) as [->|].
  - rewrite Z.div_small by lia. by wp_steps.
  - assert (Hd : 0 < v / 10 ^ Z.of_nat j).
    { apply Z.div_str_pos. specialize (Hk j). lia. }
    rewrite (proj2 (Z.ltb_lt 0 _)) by done. wp_steps.
    destruct (pow10_S j) as [E _]. destruct (pow10_int (Datatypes.S j)) as (_ & _ & Hs); [lia|].
    rewrite <- E, Hs. apply wp_Ok. eexists _, _. split; [apply IH; lia || done | done].
Qed.

(** The order of magnitude of a number below 10^9: the least [k] with
    [v < 10^k]. *)
Lemma magnitude v b : 0 <= v < 10 ^ Z.of_nat b ->
  exists k, (k <= b)%nat /\ v < 10 ^ Z.of_nat k /\ (forall i, (i < k)%nat -> 10 ^ Z.of_nat i <= v).
Proof.
  intros H. destruct (decide (v = 0)) as [->|].
  { exists O. split_and!; [lia | done | intros; lia]. }
  destruct (decade v b) as (k & Hk & Hv); [lia|]. exists (Datatypes.S k). split_and!; [lia | lia |].
  intros i Hi. transitivity (10 ^ Z.of_nat k); [apply Z.pow_le_mono_r; lia | lia].
Qed.

Lemma scale_spec {S} (s : S) v k : (k <= 9)%nat -> 0 <= v < 10 ^ Z.of_nat k ->
  (forall i, (i < k)%nat -> 10 ^ Z.of_nat i <= v) -> scale v s = Ok (10 ^ Z.of_nat k, s).
Proof. intros H9 Hv Hk. unfold scale. change 1 with (10 ^ Z.of_nat 0). apply scale_loop; lia || done. Qed.

Lemma zeros_loop k : forall n j s, screen_ok s -> (j <= k)%nat -> (k <= 8)%nat -> (k - j < n)%nat ->
  loop n (zeros_step (10 ^ Z.of_nat k)) (10 ^ Z.of_nat j) s = monitor_write (replicate (k - j) 48) s.
Proof.
  induction n as [|n IH]; intros j s W Hj H8 Hn; [lia|].
  rewrite loop_S. destruct (decide (j = k)) as [->|].
  - rewrite Nat.sub_diag. apply run_bind. unfold zeros_step. rewrite Z.ltb_irrefl. by wp_steps.
  - assert (Hlt : 10 ^ Z.of_nat j < 10 ^ Z.of_nat k) by (apply Z.pow_lt_mono_r; lia).
    replace (k - j)%nat with (Datatypes.S (k - Datatypes.S j)) by lia. cbn [replicate monitor_write].
    destruct (monitor_put_ok 48 s W) as (s1 & E1 & W1 & _). rewrite (bind_Ok _ _ _ _ _ E1).
    apply run_bind. unfold zeros_step. rewrite (proj2 (Z.ltb_lt _ _) Hlt).
    apply wp_bind, (wp_eq _ _ _ _ _ E1), wp_ret.
    destruct (pow10_S j) as [E _]. destruct (pow10_int (Datatypes.S j)) as (_ & _ & Hs); [lia|].
    rewrite <- E, Hs. apply IH; lia || done.
Qed.

(** Leading zeros. *)
Lemma padded_zeros k j v : (j <= k)%nat -> 0 <= v < 10 ^ Z.of_nat j ->
  padded k v = replicate (k - j) 48 ++ padded j v.
Proof.
  induction k as [|k IH]; intros Hj Hv; [by replace j with 0%nat by lia|].
  destruct (decide (j = Datatypes.S k)) as [->|]; [by rewrite Nat.sub_diag|].
  assert (10 ^ Z.of_nat j <= 10 ^ Z.of_nat k) by (apply Z.pow_le_mono_r; lia).
  replace (Datatypes.S k - j)%nat with (Datatypes.S (k - j)) by lia. cbn [padded replicate app].
  rewrite Z.div_small, Z.mod_small, IH by lia. done.
Qed.

(** One round of [monitor_writeDec]: the leading digit and the zeros that
    follow it. *)
Lemma dec_step_write k v j s : screen_ok s -> (k <= 8)%nat -> 10 ^ Z.of_nat k <= v < 10 ^ Z.of_nat (S k) ->
  (j <= k)%nat -> v mod 10 ^ Z.of_nat k < 10 ^ Z.of_nat j ->
  (forall i, (i < j)%nat -> 10 ^ Z.of_nat i <= v mod 10 ^ Z.of_nat k) ->
  dec_step v s = (monitor_write (48 + v / 10 ^ Z.of_nat k :: replicate (k - j) 48);; mret (inl (v mod 10 ^ Z.of_nat k))) s.
Proof.
  intros W H8 Hv Hj Hlt Hmin. destruct (pow10_int k) as (Hp & Hw & _); [lia|].
  destruct (pow10_digit k v) as [Hd Hm]; [lia|]. destruct (pow10_S k) as [E10 _].
  assert (Hq : Z.quot (10 ^ Z.of_nat (S k)) 10 = 10 ^ Z.of_nat k)
    by (rewrite E10, Z.quot_div_nonneg, Z.div_mul by lia; done).
  assert (Hv' : w32 (v - w32 (v / 10 ^ Z.of_nat k * 10 ^ Z.of_nat k)) = v mod 10 ^ Z.of_nat k).
  { pose proof (pow10_int (S k)). pose proof (Z.div_mod v (10 ^ Z.of_nat k)).
    rewrite (w32_small (v / _ * _)) by (unfold u32; lia). rewrite w32_small by (unfold u32; lia). lia. }
  assert (HS : scale v s = Ok (10 ^ Z.of_nat (S k), s)).
  { apply scale_spec; [lia | lia |]. intros i Hi. transitivity (10 ^ Z.of_nat k); [apply Z.pow_le_mono_r; lia | lia]. }
  destruct (monitor_put_ok (48 + v / 10 ^ Z.of_nat k) s W) as (s1 & E1 & W1 & _).
  destruct (monitor_write_ok (replicate (k - j) 48) s1 W1) as (s2 & E2 & W2).
  symmetry. apply run_bind. cbn [monitor_write]. apply wp_bind, (wp_eq _ _ _ _ _ E1), (wp_eq _ _ _ _ _ E2).
  symmetry. apply wp_eq_Ok. unfold dec_step. rewrite (proj2 (Z.ltb_lt 0 v)) by lia.
  apply wp_bind, (wp_eq _ _ _ _ _ HS). rewrite Hq, Hw, (proj2 (Z.eqb_neq _ 0)) by lia.
  apply wp_bind. unfold digit_at. rewrite (proj2 (Z.ltb_lt _ 10)) by lia. apply wp_ret.
  apply wp_bind, (wp_eq _ _ _ _ _ E1). rewrite Hv'.
  apply wp_bind. eapply wp_eq; [apply (scale_spec s1 _ j); [lia | lia | done]|].
  apply wp_bind. eapply wp_eq; [rewrite zeros_loop by (done || lia); exact E2|]. by apply wp_ret.
Qed.

Lemma dec_loop_write : forall n j v s, screen_ok s -> 0 <= v < 10 ^ Z.of_nat j -> (j <= 9)%nat -> (j < n)%nat ->
  (forall i, (i < j)%nat -> 10 ^ Z.of_nat i <= v) -> loop n dec_step v s = monitor_write (padded j v) s.
Proof.
  induction n as [|n IH]; intros j v s W Hv H9 Hn Hmin; [lia|].
  rewrite loop_S. destruct j as [|k].
  { change (10 ^ Z.of_nat 0) with 1 in Hv. replace v with 0 by lia. done. }
  assert (Hk : 10 ^ Z.of_nat k <= v) by (apply Hmin; lia).
  destruct (pow10_digit k v) as [_ Hm]; [lia|].
  destruct (magnitude _ _ Hm) as (j & Hj & Hlt & Hj').
  cbn [padded]. rewrite (padded_zeros k j) by lia. rewrite app_comm_cons, monitor_write_app.
  destruct (monitor_write_ok (48 + v / 10 ^ Z.of_nat k :: replicate (k - j) 48) s W) as (s1 & E1 & W1).
  assert (Ed : dec_step v s = Ok (inl (v mod 10 ^ Z.of_nat k), s1))
    by (rewrite (dec_step_write k v j) by (done || lia); by rewrite (bind_Ok _ _ _ _ _ E1)).
  rewrite (bind_Ok _ _ _ _ _ E1), (bind_Ok _ _ _ _ _ Ed). apply (IH j); done || lia.
Qed.

(** The zeros a run of [zeros_step] writes, when it ends. *)
Lemma zeros_run n order no m s : screen_ok s -> zeros_count n order no = Some m ->
  loop n (zeros_step order) no s = monitor_write (replicate m 48) s.
Proof.
  revert no m s. induction n as [|n IH]; intros no m s W; [done|]. cbn [zeros_count]. rewrite loop_S.
  destruct (no <? order) eqn:E; intros Hm.
  - destruct (zeros_count n order _) as [m'|] eqn:Ec; [|done]. injection Hm as <-. cbn [replicate monitor_write].
    destruct (monitor_put_ok 48 s W) as (s1 & E1 & W1 & _). rewrite (bind_Ok _ _ _ _ _ E1).
    apply run_bind. unfold zeros_step. rewrite E. apply wp_bind, (wp_eq _ _ _ _ _ E1), wp_ret. by apply IH.
  - injection Hm as <-. apply run_bind. unfold zeros_step. rewrite E. by apply wp_ret.
Qed.

(** A round for a number beyond the range of [int] scaling: nothing is
    taken off it. *)
Lemma dec_step_stuck s : screen_ok s -> exists s', dec_step 1500000000 s = Ok (inl 1500000000, s') /\ screen_ok s'.
Proof.
  intros W. assert (HS : forall s : monitor, scale 1500000000 s = Ok (-727379968, s)) by reflexivity.
  destruct (monitor_put_ok 48 s W) as (s1 & E1 & W1 & _).
  destruct (zeros_count 40 (-72737996) (-727379968)) as [m|] eqn:Em; [|discriminate Em].
  destruct (monitor_write_ok (replicate m 48) s1 W1) as (s2 & E2 & W2). exists s2. split; [|done].
  unfold dec_step. change (0 <? 1500000000) with true. apply wp_eq_Ok, wp_bind, (wp_eq _ _ _ _ _ (HS s)).
  change (w32 (Z.quot (-727379968) 10) =? 0) with false.
  change (digit_at (1500000000 / _)) with (mret 48 : M monitor Z). apply wp_bind, wp_ret, wp_bind, (wp_eq _ _ _ _ _ E1).
  match goal with |- context [scale ?x] => change x with 1500000000 end.
  apply wp_bind, (wp_eq _ _ _ _ _ (HS s1)), wp_bind.
  eapply wp_eq; [change (Z.quot (-727379968) 10) with (-72737996); rewrite (zeros_run _ _ _ _ _ W1 Em); exact E2|].
  by apply wp_ret.
Qed.

Lemma hex_buf_length n i v s : 0 <= i -> (Z.to_nat i + n + 2 <= length s)%nat ->
  exists s', hex_buf n i v s = Ok s' /\ length s' = length s.
Proof.
  revert i v s. induction n as [|n IH]; intros i v s Hi Hl; cbn [hex_buf]; [by exists s|].
  unfold buf_set. rewrite (proj2 (Z.leb_le _ _)), (proj2 (Z.ltb_lt _ _)) by lia. cbn [andb].
  match goal with |- context [hex_buf n (i + 1) ?v' ?s'] => destruct (IH (i + 1) v' s') as (s2 & E & E2) end;
    [lia | rewrite length_insert; lia |].
  exists s2. rewrite length_insert in E2. done.
Qed.

(** A printable character. *)
Lemma put_printable c s : screen_ok s -> 32 <= c < 128 -> exists s', monitor_put c s = Ok (tt, s') /\
  video_memory s' !! Z.to_nat (pos s - (if pos s =? 1999 then 80 else 0)) = Some (cell c s) /\
  pos s' = (if pos s =? 1999 then 1920 else pos s + 1).
Proof.
  intros [Hx Hy Hv] Hc. set (v := <[Z.to_nat (pos s) := cell c s]> (video_memory s)).
  assert (Hlv : length v = 2000%nat) by (unfold v; by rewrite length_insert).
  assert (Hcell : v !! Z.to_nat (pos s) = Some (cell c s)) by (apply list_lookup_insert_eq; unfold pos; lia).
  exists (finish (cursor_x s + 1) (cursor_y s) (set_video v s)). split.
  { unfold monitor_put. rewrite <- put_end_ok.
    apply (bind_Ok _ (fun _ => put_end) _ tt), wp_eq_Ok. unfold put_char. wp_steps.
    rewrite (proj2 (Z.eqb_neq c 8)), (proj2 (Z.eqb_neq c 9)), (proj2 (Z.eqb_neq c 13)), (proj2 (Z.eqb_neq c 10)) by lia.
    unfold schar. rewrite (proj2 (Z.ltb_lt c 128)), (proj2 (Z.leb_le 32 c)) by lia. cbn [andb]. wp_step.
    unfold wp at 1, put_cell. rewrite (proj2 (Z.leb_le _ _)), (proj2 (Z.ltb_lt _ _)) by lia. cbn [andb].
    wp_steps. reflexivity. }
  unfold finish, wrap. unfold pos in *. destruct (Z.leb_spec 80 (cursor_x s + 1));
    match goal with |- context [25 <=? ?y] => destruct (Z.leb_spec 25 y) end; cbn [cursor_x cursor_y video_memory set_video].
  - rewrite (proj2 (Z.eqb_eq _ 1999)) by lia. split; [|lia].
    rewrite lookup_app_l, lookup_drop by (rewrite length_drop; lia). rewrite <- Hcell. f_equal. lia.
  - rewrite (proj2 (Z.eqb_neq _ 1999)) by lia. rewrite Z.sub_0_r. split; [done | lia].
  - lia.
  - rewrite (proj2 (Z.eqb_neq _ 1999)) by lia. rewrite Z.sub_0_r. split; [done | lia].
Qed.

Lemma sample_screen_ok : screen_ok sample_screen.
Proof. split; [cbn; lia | cbn; lia | apply length_replicate]. Qed.

(** The text of a number below 10^9. *)
Lemma monitor_writeDec_padded v s k : (k < 9)%nat -> 10 ^ Z.of_nat k <= v < 10 ^ Z.of_nat (S k) -> screen_ok s ->
  monitor_writeDec v s = monitor_write (padded (S k) v) s.
Proof.
  intros Hk Hb W. pose proof (pow10_S k) as [Hp _]. assert (0 < 10 ^ Z.of_nat k) by lia.
  unfold monitor_writeDec. rewrite (proj2 (Z.eqb_neq v 0)) by lia.
  apply dec_loop_write; [done | lia | lia | lia |].
  intros i Hi. transitivity (10 ^ Z.of_nat k); [apply Z.pow_le_mono_r; lia | lia].
Qed.

(** ** Theorems *)

(** C29. [monitor_put] never writes outside the screen and keeps the cursor
    on it, whatever the character: on a screen of 80 by 25 it succeeds,
    keeps the invariant [screen_ok], and the position it sends to the
    hardware is the cursor's.  A printable character is stored, with the
    colour, where the cursor was -- one line higher when it was put in the
    last cell and the screen scrolled. *)
Theorem monitor_put_safe c s : screen_ok s -> exists s', monitor_put c s = Ok (tt, s') /\ screen_ok s' /\
  vga_cursor s' = pos s' /\ attribute s' = attribute s /\
  (32 <= c < 128 -> video_memory s' !! Z.to_nat (pos s - (if pos s =? 1999 then 80 else 0)) = Some (cell c s) /\
     pos s' = (if pos s =? 1999 then 1920 else pos s + 1)).
Proof.
  intros W. destruct (monitor_put_ok c s W) as (s' & E & W' & Ea & Ev).
  exists s'. split_and!; [done | done | done | done |]. intros Hc.
  destruct (put_printable c s W Hc) as (s2 & E2 & ?). rewrite E2 in E. by injection E as <-.
Qed.

Lemma monitor_put_safe_witness : screen_ok sample_screen /\
  exists s', monitor_put 65 sample_screen = Ok (tt, s') /\ video_memory s' !! 1919%nat = Some 0x741 /\ pos s' = 1920.
Proof.
  split; [exact sample_screen_ok|].
  destruct (monitor_put_safe 65 sample_screen sample_screen_ok) as (s' & E & _ & _ & _ & H).
  exists s'. split; [exact E|]. apply H. lia.
Defined.

(** [monitor_writeHex] writes ["0x"] and the eight hexadecimal digits of
    its argument: what it does is to write one string, and that string read
    back in base 16 is the number. *)
Theorem monitor_writeHex_roundtrip v s : u32 v -> exists ds, length ds = 8%nat /\
  monitor_writeHex v s = monitor_write (48 :: 120 :: ds) s /\ value 16 (map unhex ds) = v.
Proof.
  intros Hv. exists (hexs 8 v). split_and!; [done | | rewrite hexs_value by (done || lia); apply Z.div_1_r].
  unfold monitor_writeHex. cbn [monitor_write]. unfold mbind, M_bind.
  destruct (monitor_put 48 s) as [[[] s1]|]; [|done]. destruct (monitor_put 120 s1) as [[[] s2]|]; [|done].
  apply hex_loop_write.
Qed.

Lemma monitor_writeHex_roundtrip_witness : u32 0xBEEF /\ exists ds, length ds = 8%nat /\
  monitor_writeHex 0xBEEF sample_screen = monitor_write (48 :: 120 :: ds) sample_screen /\
  value 16 (map unhex ds) = 0xBEEF.
Proof.
  split; [unfold u32; lia|]. exact (monitor_writeHex_roundtrip 0xBEEF sample_screen ltac:(unfold u32; lia)).
Defined.

(** [monitor_writeDec], which finds the digits by scaling an [int] by
    ten until it passes the number, writes the decimal numeral of every
    number below 10^9: the loops end, the zeros inside the number are
    written, and no zero is written in front of it. *)
Theorem monitor_writeDec_equiv v s : 0 <= v < 1000000000 -> screen_ok s ->
  exists ds, spells ds v /\ monitor_writeDec v s = monitor_write ds s.
Proof.
  intros Hv W. destruct (Z.eqb_spec v 0) as [->|Hne].
  { exists [48]. split; [|cbn; unfold mbind, M_bind; by destruct (monitor_put 48 s) as [[[] s']|]].
    split; [|done]. split; [repeat constructor; lia | auto]. }
  destruct (decade v 9) as (k & Hk & Hb); [change (10 ^ Z.of_nat 9) with 1000000000; lia|].
  exists (padded (S k) v). split; [by apply padded_spells | by apply monitor_writeDec_padded].
Qed.

Lemma monitor_writeDec_equiv_witness : 0 <= 10203 < 1000000000 /\ screen_ok sample_screen /\
  exists ds, spells ds 10203 /\ monitor_writeDec 10203 sample_screen = monitor_write ds sample_screen.
Proof.
  split; [lia|]. split; [exact sample_screen_ok|].
  exact (monitor_writeDec_equiv 10203 sample_screen ltac:(lia) sample_screen_ok).
Defined.

(** From 10^9 on the scale overflows a 32-bit [int] and the numeral is
    wrong, or the loop never ends: 10^9 is written "7012954220", and for
    1500000000 every round writes zeros and takes nothing off the number,
    whatever the number of rounds. *)
Theorem monitor_writeDec_overflow :
  monitor_writeDec 1000000000 sample_screen = monitor_write [55; 48; 49; 50; 57; 53; 52; 50; 50; 48] sample_screen /\
  (forall n s, screen_ok s -> loop n dec_step 1500000000 s = Fault NoFuel).
Proof.
  split; [by vm_compute|]. induction n as [|n IH]; intros s W; [done|].
  destruct (dec_step_stuck s W) as (s' & E & W'). rewrite loop_S, (bind_Ok _ _ _ _ _ E). by apply IH.
Qed.

(** [printk_int] gives the decimal numeral of every [int], with a minus
    sign in front of a negative one -- except the least, whose opposite is
    not an [int] and which comes out as the sign alone. *)
Theorem printk_int_spells number : -2147483648 <= number < 2147483648 ->
  (0 <= number -> spells (printk_int number) number) /\
  (-2147483648 < number < 0 -> exists ds, printk_int number = 45 :: ds /\ spells ds (- number)) /\
  printk_int (-2147483648) = [45].
Proof.
  intros Hn. assert (Hpos : forall v, 0 < v < 2147483648 -> spells (int_digits (int_order 11 v) v []) v).
  { intros v Hv. destruct (decade v 10) as (k & Hk & Hb); [change (10 ^ Z.of_nat 10) with 10000000000; lia|].
    rewrite (int_order_spec 11 v k), int_digits_padded, app_nil_r by lia. by apply padded_spells. }
  split_and!; [| | done].
  - intros H. unfold printk_int. destruct (Z.eqb_spec number 0) as [->|].
    + split; [|done]. split; [repeat constructor; lia | auto].
    + rewrite (proj2 (Z.ltb_ge number 0)) by lia. apply Hpos. lia.
  - intros H. unfold printk_int. rewrite (proj2 (Z.eqb_neq number 0)), (proj2 (Z.ltb_lt number 0)) by lia.
    assert (E : s32 (w32 (0 - number)) = - number).
    { rewrite w32_small by (unfold u32; lia). unfold s32. rewrite (proj2 (Z.ltb_lt _ _)) by lia. lia. }
    rewrite E. eexists. split; [done|]. apply Hpos. lia.
Qed.

Lemma printk_int_spells_witness : -2147483648 <= -70 < 2147483648 /\
  exists ds, printk_int (-70) = 45 :: ds /\ spells ds 70.
Proof. split; [lia|]. destruct (printk_int_spells (-70) ltac:(lia)) as (_ & H & _). apply H. lia. Defined.

(** [printk_hex] always writes past the end of its buffer: the eight
    digits fit [char s[11]], the terminator is stored at [s[11]]. *)
Theorem printk_hex_overruns v : printk_hex v = Fault (BadAccess 11).
Proof.
  unfold printk_hex. destruct (hex_buf_length 8 0 v (48 :: 120 :: replicate 9 0)) as (s & E & Hl); [lia | cbn; lia |].
  rewrite E. unfold buf_set. by rewrite Hl.
Qed.
