(* ===== verification/Panic.v ===== *)
(** * Panics and stack traces

    [src/kernel/core/sys.c] -- [stack_trace], [panic], [panic_assert]; its
    [cli] and [sti] are in [Tasking] -- and what
    [tasking_handleException] ([src/kernel/task/task.c]) and
    [idt_isrHandler] ([src/kernel/task/idt.c]) print about an exception.

    [kmem] is the kernel's memory and [readable] says which addresses of it
    are mapped; [__FILE__] and [__LINE__] are arguments.  [cli; hlt] is the
    end of the run: a function that halts answers the screen it leaves. *)

From stdpp Require Import strings.
From S2P Require Import Prelude Memory Console.
From S2P Require Tasking.

(** The characters of the literals: [\n] and [\t]. *)
Definition LF : Z := 10.
Definition TAB : Z := 9.

(** [struct registers], the fields that are printed or tested. *)
Record exn_regs := ExnRegs { x_int_no : Z; x_eip : Z; x_ebp : Z }.

Section panic.
Context (kmem : mem) (readable : Z -> bool).

(** [*(uint32_t* )a] *)
Definition kread (a : Z) : M monitor Z :=
  if forallb readable [a; w32 (a + 1); w32 (a + 2); w32 (a + 3)] then mret (rd32 kmem a) else fail (BadAccess a).

(** The test of the loop of [stack_trace]: the frame is in the kernel and
    less than [0x8000] above the first. *)
Definition in_stack (bp stack : Z) : bool := (0xE0000000 <? stack) && (stack <? w32 (bp + 0x8000)).

Fixpoint trace_loop (n : nat) (bp stack : Z) : M monitor unit :=
  match n with
  | O => mret tt
  | S n' =>
      if in_stack bp stack then
        monitor_write (text " ");; monitor_writeHex stack;;
        monitor_write (TAB :: text "next:");; next ← kread stack; monitor_writeHex next;;
        monitor_write (TAB :: TAB :: text "ret:");; ret ← kread (w32 (stack + 4)); monitor_writeHex ret;;
        monitor_write [LF];;
        trace_loop n' bp next
      else mret tt
  end.
Definition stack_trace (bp : Z) : M monitor unit := trace_loop 5 bp bp.

Definition panic_do (file : list Z) (line bp : Z) : M monitor unit :=
  monitor_write (LF :: text " File:" ++ [TAB; TAB]);; monitor_write file;; monitor_put 58;; monitor_writeDec line;;
  monitor_write (LF :: text "Trace:" ++ [LF]);;
  stack_trace bp;;
  monitor_write (LF :: TAB :: TAB :: text "System halted -_-'" ++ [LF]).

Definition panic (message file : list Z) (line bp : Z) : M monitor unit :=
  monitor_write (LF :: LF :: text "PANIC:" ++ [TAB; TAB]);; monitor_write message;;
  panic_do file line bp.

Definition panic_assert (assertion file : list Z) (line bp : Z) : M monitor unit :=
  monitor_write (LF :: LF :: text "ASSERT FAILED:" ++ [TAB]);; monitor_write assertion;;
  panic_do file line bp.

(** The table of [tasking_handleException]; [exception_messages[i]] beyond
    it is a wild pointer. *)
Definition exception_messages : list (list Z) :=
  text <$> ["Division By Zero"; "Debug"; "Non Maskable Interrupt"; "Breakpoint";
    "Into Detected Overflow"; "Out of Bounds"; "Invalid Opcode"; "No Coprocessor"; "Double Fault";
    "Coprocessor Segment Overrun"; "Bad TSS"; "Segment Not Present"; "Stack Fault"; "General Protection Fault";
    "Page Fault"; "Unknown Interrupt"; "Coprocessor Fault"; "Alignment Check"; "Machine Check"]%string.

(** [Tasking] has their number. *)
Lemma exception_messages_count : Z.of_nat (length exception_messages) = Tasking.EXCEPTIONS.
Proof. reflexivity. Qed.

Definition exception_message (int_no : Z) : M monitor (list Z) :=
  match exception_messages !! Z.to_nat int_no with Some m => mret m | None => fail (BadAccess int_no) end.

(** The macro [WHERE]. *)
Definition where_ (file : list Z) (line : Z) : M monitor unit :=
  monitor_write (text "(kernel:");; monitor_write file;; monitor_write (text ":");; monitor_writeDec line;;
  monitor_write (text ") ").

(** What [tasking_handleException] prints, when there is a current thread:
    [halts] is whether the exception is the kernel's own. *)
Definition exception_report (r : exn_regs) (file : list Z) (line line' bp : Z) : M monitor bool :=
  monitor_put LF;; where_ file line;; monitor_write (text "Unhandled exception : ");;
  m ← exception_message (x_int_no r); monitor_write m;;
  monitor_write (text " eip:");; monitor_writeHex (x_eip r);;
  if 0xE0000000 <=? x_eip r then
    monitor_write (LF :: text "  Exception stack trace :");;
    stack_trace (x_ebp r);;
    panic (text "Kernel error'd.") file line' bp;;
    mret true
  else
    monitor_write (if x_int_no r =? 14 then LF :: text ">>> Process exiting." ++ [LF]
                   else LF :: text ">>> Thread exiting." ++ [LF]);;
    mret false.

(** What [idt_isrHandler] prints of an exception nobody handled. *)
Definition unhandled_report (r : exn_regs) (file : list Z) (line bp : Z) : M monitor unit :=
  monitor_write (LF :: text "  >>  >> SOMETHING BAD HAPPENNED << <<" ++ [LF]);;
  monitor_write (text "Unhandled exception ");; monitor_writeHex (x_int_no r);;
  monitor_write (text " @");; monitor_writeHex (x_eip r);; monitor_put LF;;
  panic (text "Unhandled Exception") file line bp.

(** ** Specification *)

(** The frames that are traced, and the line of one. *)
Fixpoint trace_frames (n : nat) (bp stack : Z) : list Z :=
  match n with
  | O => []
  | S n' => if in_stack bp stack then stack :: trace_frames n' bp (rd32 kmem stack) else []
  end.

Definition hex_text (v : Z) : list Z := 48 :: 120 :: hexs 8 v.
Definition dec_text (v : Z) : list Z := if v =? 0 then [48] else padded (int_order 11 v) v.

Definition frame_text (stack : Z) : list Z :=
  text " " ++ hex_text stack ++ (TAB :: text "next:") ++ hex_text (rd32 kmem stack)
  ++ (TAB :: TAB :: text "ret:") ++ hex_text (rd32 kmem (w32 (stack + 4))) ++ [LF].

Definition trace_text (bp : Z) : list Z := mjoin (frame_text <$> trace_frames 5 bp bp).

Definition halt_text (file : list Z) (line bp : Z) : list Z :=
  (LF :: text " File:" ++ [TAB; TAB]) ++ file ++ [58] ++ dec_text line ++ (LF :: text "Trace:" ++ [LF])
  ++ trace_text bp ++ (LF :: TAB :: TAB :: text "System halted -_-'" ++ [LF]).

(** The stack frames [l], each with the address of the next one, the last
    with 0. *)
Fixpoint frame_chain (p : Z) (l : list Z) : Prop :=
  match l with
  | [] => p = 0
  | x :: l' => p = x /\ frame_chain (rd32 kmem x) l'
  end.

(** The two words of the frame can be read. *)
Definition frame_readable (x : Z) : Prop := forall a, x <= a < x + 8 -> readable (w32 a) = true.

End panic.

(** ** Lemmas *)

(** On every screen, [m] does what writing the text [cs] does. *)
Definition prints (m : M monitor unit) (cs : list Z) : Prop := forall s, screen_ok s -> m s = monitor_write cs s.

Lemma prints_write cs : prints (monitor_write cs) cs.
Proof. done. Qed.

Lemma prints_bind m1 m2 c1 c2 : prints m1 c1 -> prints m2 c2 -> prints (m1;; m2) (c1 ++ c2).
Proof.
  intros H1 H2 s W. rewrite monitor_write_app. destruct (monitor_write_ok c1 s W) as (s1 & E & W1).
  rewrite (bind_Ok _ _ _ _ _ E), (bind_Ok _ _ s tt s1) by (by rewrite H1). by apply H2.
Qed.

Lemma prints_put c : prints (monitor_put c) [c].
Proof. intros s W. cbn. unfold mbind, M_bind. by destruct (monitor_put c s) as [[[] s']|]. Qed.

Lemma prints_ret : prints (mret tt) [].
Proof. done. Qed.

Lemma prints_hex v : prints (monitor_writeHex v) (hex_text v).
Proof.
  apply (prints_bind _ _ [48]); [apply prints_put|]. apply (prints_bind _ _ [120]); [apply prints_put|].
  intros s _. apply hex_loop_write.
Qed.

Lemma prints_dec v : 0 <= v < 1000000000 -> prints (monitor_writeDec v) (dec_text v).
Proof.
  intros Hv s W. unfold dec_text. destruct (Z.eqb_spec v 0) as [->|Hne]; [by apply prints_put|].
  destruct (decade v 9) as (k & Hk & Hb); [change (10 ^ Z.of_nat 9) with 1000000000; lia|].
  rewrite (int_order_spec 11 v k) by (done || lia). by apply monitor_writeDec_padded.
Qed.

#[export] Hint Resolve prints_write prints_put prints_hex prints_ret : grapes.

Section traces.
Context (kmem : mem) (readable : Z -> bool).

Lemma kread_ok a (k : Z -> M monitor unit) cs : (forall i, 0 <= i < 4 -> readable (w32 (a + i)) = true) -> u32 a ->
  prints (k (rd32 kmem a)) cs -> prints (v ← kread kmem readable a; k v) cs.
Proof.
  intros Hr Ha Hk s W. rewrite <- (Hk s W). unfold kread. pose proof (Hr 0) as H0. rewrite Z.add_0_r, w32_small in H0 by done.
  cbn [forallb]. by rewrite H0, !Hr by lia.
Qed.

Lemma trace_prints n bp : u32 bp -> forall stack, (forall x, x ∈ trace_frames kmem n bp stack -> frame_readable readable x) ->
  prints (trace_loop kmem readable n bp stack) (mjoin (frame_text kmem <$> trace_frames kmem n bp stack)).
Proof.
  intros Hbp. induction n as [|n IH]; intros stack Hr; [apply prints_ret|]. cbn [trace_loop trace_frames] in *.
  destruct (in_stack bp stack) eqn:Hin; [|apply prints_ret]. cbn [fmap list_fmap mjoin list_join].
  assert (Hs : u32 stack).
  { unfold in_stack in Hin. apply andb_true_iff in Hin as [H1%Z.ltb_lt H2%Z.ltb_lt]. pose proof (w32_range (bp + 0x8000)).
    unfold u32 in *. lia. }
  assert (Hx : frame_readable readable stack) by (apply Hr; by left).
  unfold frame_text at 1. rewrite <- !app_assoc.
  repeat (apply prints_bind; [by auto with grapes|]).
  apply kread_ok; [intros i Hi; apply Hx; lia | done |].
  repeat (apply prints_bind; [by auto with grapes|]).
  apply kread_ok; [intros i Hi; unfold w32 | apply w32_range |].
  { rewrite Zplus_mod_idemp_l. apply Hx. lia. }
  repeat (apply prints_bind; [by auto with grapes|]). apply IH. intros x Hin'. apply Hr. by right.
Qed.

Lemma trace_chain n bp l : forall stack, frame_chain kmem stack l -> Forall (fun x => in_stack bp x = true) l ->
  trace_frames kmem n bp stack = take n l.
Proof.
  revert l. induction n as [|n IH]; intros l stack Hc Hl; [done|].
  destruct l as [|x l]; cbn [frame_chain trace_frames] in *; [by rewrite Hc|]. destruct Hc as [-> Hc].
  apply Forall_cons in Hl as [Hx Hl]. rewrite Hx. cbn [take]. f_equal. by apply IH.
Qed.

Lemma panic_do_prints file line bp : 0 <= line < 1000000000 -> u32 bp ->
  (forall x, x ∈ trace_frames kmem 5 bp bp -> frame_readable readable x) ->
  prints (panic_do kmem readable file line bp) (halt_text kmem file line bp).
Proof.
  intros Hl Hbp Hr. unfold panic_do, halt_text.
  repeat (apply prints_bind; [first [by apply prints_dec | by apply trace_prints | by auto with grapes]|]). apply prints_write.
Qed.

Lemma prints_run m cs s : prints m cs -> screen_ok s -> exists s', m s = Ok (tt, s') /\ monitor_write cs s = Ok (tt, s') /\ screen_ok s'.
Proof. intros H W. destruct (monitor_write_ok cs s W) as (s' & E & W'). exists s'. by rewrite H. Qed.

(** The first line of a report: up to the choice of the message. *)
Lemma report_start file line (k : M monitor bool) s : 0 <= line < 1000000000 -> screen_ok s ->
  exists s1, screen_ok s1 /\
    (monitor_put LF;; where_ file line;; monitor_write (text "Unhandled exception : ");; k) s = k s1 /\
    monitor_write ([LF] ++ (text "(kernel:" ++ file ++ text ":" ++ dec_text line ++ text ") ") ++ text "Unhandled exception : ") s
      = Ok (tt, s1).
Proof.
  intros Hl W. set (m := monitor_put LF;; where_ file line;; monitor_write (text "Unhandled exception : ")).
  assert (H : prints m ([LF] ++ (text "(kernel:" ++ file ++ text ":" ++ dec_text line ++ text ") ") ++ text "Unhandled exception : ")).
  { apply prints_bind; [by auto with grapes|]. apply prints_bind; [|by auto with grapes]. unfold where_.
    repeat (apply prints_bind; [first [by apply prints_dec | by auto with grapes]|]). apply prints_write. }
  destruct (prints_run m _ s H W) as (s1 & E & Ew & W1). exists s1. split; [done|]. split; [|done].
  apply bind_inv in E as ([] & sa & Ea & E). apply bind_inv in E as ([] & sb & Eb & E).
  by rewrite (bind_Ok _ _ _ _ _ Ea), (bind_Ok _ _ _ _ _ Eb), (bind_Ok _ _ _ _ _ E).
Qed.
End traces.

(** ** A sample: two frames on a stack at 0xE0010000 *)

Definition sample_stack : mem := wr32 (wr32 (wr32 (fun _ => 0) 0xE0010000 0xE0010040) 0xE0010004 0xE0001234) 0xE0010044 0xE0005678.

Example stack_trace_sample : trace_frames sample_stack 5 0xE0010000 0xE0010000 = [0xE0010000; 0xE0010040].
Proof. vm_compute. reflexivity. Qed.

(** ** Theorems *)

(** [stack_trace] follows the saved frame pointers: it prints one line for
    each of the first five frames, with the address of the next frame and
    the return address, and nothing else. *)
Theorem stack_trace_prints kmem readable bp l s : u32 bp -> screen_ok s -> frame_chain kmem bp l ->
  Forall (fun x => in_stack bp x = true) l -> (forall x, x ∈ l -> frame_readable readable x) ->
  exists s', stack_trace kmem readable bp s = Ok (tt, s') /\
    monitor_write (mjoin (frame_text kmem <$> take 5 l)) s = Ok (tt, s') /\ screen_ok s'.
Proof.
  intros Hbp W Hc Hin Hr. apply prints_run; [|done]. rewrite <- (trace_chain kmem 5 bp l bp Hc Hin).
  apply trace_prints; [done|]. intros x. rewrite (trace_chain kmem 5 bp l bp Hc Hin). intros (i & Hi & _)%elem_of_take.
  apply Hr. by eapply list_elem_of_lookup_2.
Qed.

(** A panic prints its message, the place and the trace, then stops: on
    every screen, whatever the message. *)
Theorem panic_halts kmem readable message file line bp s : 0 <= line < 1000000000 -> u32 bp -> screen_ok s ->
  (forall x, x ∈ trace_frames kmem 5 bp bp -> frame_readable readable x) ->
  exists s', panic kmem readable message file line bp s = Ok (tt, s') /\ screen_ok s' /\
    monitor_write ((LF :: LF :: text "PANIC:" ++ [TAB; TAB]) ++ message ++ halt_text kmem file line bp) s = Ok (tt, s').
Proof.
  intros Hl Hbp W Hr.
  destruct (prints_run (panic kmem readable message file line bp)
    ((LF :: LF :: text "PANIC:" ++ [TAB; TAB]) ++ message ++ halt_text kmem file line bp) s) as (s' & E & Ew & W'); [|done|by exists s'].
  unfold panic. do 2 (apply prints_bind; [by auto with grapes|]). by apply panic_do_prints.
Qed.

(** There are 32 exceptions and 19 messages: reporting one of the others
    reads outside the table. *)
Theorem exception_report_wild kmem readable r file line line' bp s : 19 <= x_int_no r < 32 ->
  0 <= line < 1000000000 -> screen_ok s ->
  exception_report kmem readable r file line line' bp s = Fault (BadAccess (x_int_no r)).
Proof.
  intros Hn Hl W. unfold exception_report.
  destruct (report_start file line (m ← exception_message (x_int_no r); monitor_write m;;
    monitor_write (text " eip:");; monitor_writeHex (x_eip r);;
    if 0xE0000000 <=? x_eip r then
      monitor_write (LF :: text "  Exception stack trace :");; stack_trace kmem readable (x_ebp r);;
      panic kmem readable (text "Kernel error'd.") file line' bp;; mret true
    else
      monitor_write (if x_int_no r =? 14 then LF :: text ">>> Process exiting." ++ [LF]
                     else LF :: text ">>> Thread exiting." ++ [LF]);; mret false) s Hl W) as (s1 & _ & -> & _).
  apply bind_Fault. unfold exception_message. by rewrite lookup_ge_None_2 by (cbn; lia).
Qed.
