(* ===== verification/Desc.v ===== *)
(** * Descriptor tables

    [src/kernel/mem/gdt.c] (the segment table and the task segment), the
    interrupt table of [src/kernel/task/idt.c] with the handlers of the
    interrupt lines, and what [timer_init] sends to the timer.  The addresses the linker
    and the assembly files give ([tss_entry], [gdt_entries], [isr0], ...)
    are arguments.  What the processor reads in an entry is defined from
    the x86 layout, apart from the code that writes it. *)

From stdpp Require Import strings.
From S2P Require Timer.
From S2P Require Import Prelude Console.

(** ** Segments ([gdt.h]) *)

Record gdt_entry := GdtEntry {
  limit_low : Z; base_low : Z; base_middle : Z; access : Z; granularity : Z; base_high : Z
}.

Record tss_entry := TssEntry {
  prev_tss : Z; tss_esp0 : Z; tss_ss0 : Z; tss_esp1 : Z; tss_ss1 : Z; tss_esp2 : Z; tss_ss2 : Z; tss_cr3 : Z;
  tss_eip : Z; tss_eflags : Z; tss_eax : Z; tss_ecx : Z; tss_edx : Z; tss_ebx : Z; tss_esp : Z; tss_ebp : Z;
  tss_esi : Z; tss_edi : Z; tss_es : Z; tss_cs : Z; tss_ss : Z; tss_ds : Z; tss_fs : Z; tss_gs : Z; tss_ldt : Z;
  tss_trap : Z; iomap_base : Z
}.
Definition sizeof_tss : Z := 104.
Definition sizeof_gdt_entry : Z := 8.

(** [memset(&tss_entry, 0, ...)] and the assignments of [gdt_writeTss]. *)
Definition new_tss (ss0 esp0 : Z) : tss_entry :=
  TssEntry 0 esp0 ss0 0 0 0 0 0  0 0 0 0 0 0 0 0  0 0 0x13 0x0b 0x13 0x13 0x13 0x13 0  0 0.

Definition GDT_ENTRIES : Z := 6.

(** ** Interrupt gates ([idt.h]) *)

Record idt_entry := IdtEntry { idt_base_lo : Z; idt_sel : Z; idt_always0 : Z; idt_flags : Z; idt_base_hi : Z }.
Definition sizeof_idt_entry : Z := 8.

(** Limit and base of a table. *)
Record table_ptr := TablePtr { tp_limit : Z; tp_base : Z }.

Record desc := Desc {
  gdt_entries : list gdt_entry;
  gdt_ptr : table_ptr;
  tss : tss_entry;
  idt_entries : list idt_entry;
  idt_ptr : table_ptr;
  ports : list (Z * Z);  (* [outb], in order *)
  loaded : list table_ptr;  (* [gdt_flush], [idt_flush], in order *)
  screen : monitor
}.

Definition set_gdt (g : list gdt_entry) (s : desc) : desc :=
  Desc g (gdt_ptr s) (tss s) (idt_entries s) (idt_ptr s) (ports s) (loaded s) (screen s).
Definition set_gdt_ptr (p : table_ptr) (s : desc) : desc :=
  Desc (gdt_entries s) p (tss s) (idt_entries s) (idt_ptr s) (ports s) (loaded s) (screen s).
Definition set_tss (t : tss_entry) (s : desc) : desc :=
  Desc (gdt_entries s) (gdt_ptr s) t (idt_entries s) (idt_ptr s) (ports s) (loaded s) (screen s).
Definition set_idt (g : list idt_entry) (s : desc) : desc :=
  Desc (gdt_entries s) (gdt_ptr s) (tss s) g (idt_ptr s) (ports s) (loaded s) (screen s).
Definition set_idt_ptr (p : table_ptr) (s : desc) : desc :=
  Desc (gdt_entries s) (gdt_ptr s) (tss s) (idt_entries s) p (ports s) (loaded s) (screen s).
Definition set_screen (m : monitor) (s : desc) : desc :=
  Desc (gdt_entries s) (gdt_ptr s) (tss s) (idt_entries s) (idt_ptr s) (ports s) (loaded s) m.

Definition outb (port value : Z) : M desc unit := modify (fun s =>
  Desc (gdt_entries s) (gdt_ptr s) (tss s) (idt_entries s) (idt_ptr s) (ports s ++ [(port, value)]) (loaded s) (screen s)).
Definition flush (p : table_ptr) : M desc unit := modify (fun s =>
  Desc (gdt_entries s) (gdt_ptr s) (tss s) (idt_entries s) (idt_ptr s) (ports s) (loaded s ++ [p]) (screen s)).
Definition say (s : string) : M desc unit := zoom screen set_screen (monitor_write (text s)).

(** [gdt_entries[num]] and [idt_entries[num]], with the bounds of the arrays. *)
Definition put_gdt (num : Z) (e : gdt_entry) : M desc unit := fun s =>
  if (0 <=? num) && (num <? Z.of_nat (length (gdt_entries s)))
  then Ok (tt, set_gdt (<[Z.to_nat num := e]> (gdt_entries s)) s) else Fault (BadAccess num).
Definition put_idt (num : Z) (e : idt_entry) : M desc unit := fun s =>
  if (0 <=? num) && (num <? Z.of_nat (length (idt_entries s)))
  then Ok (tt, set_idt (<[Z.to_nat num := e]> (idt_entries s)) s) else Fault (BadAccess num).

Definition gdt_setKernelStack (esp0 : Z) : M desc unit :=
  modify (fun s =>
    let t := tss s in
    set_tss (TssEntry (prev_tss t) esp0 (tss_ss0 t) (tss_esp1 t) (tss_ss1 t) (tss_esp2 t) (tss_ss2 t) (tss_cr3 t)
      (tss_eip t) (tss_eflags t) (tss_eax t) (tss_ecx t) (tss_edx t) (tss_ebx t) (tss_esp t) (tss_ebp t)
      (tss_esi t) (tss_edi t) (tss_es t) (tss_cs t) (tss_ss t) (tss_ds t) (tss_fs t) (tss_gs t) (tss_ldt t)
      (tss_trap t) (iomap_base t)) s).

(** The entry that [gdt_setGate] writes. *)
Definition gate (base limit access gran : Z) : gdt_entry :=
  GdtEntry (Z.land limit 0xFFFF) (Z.land base 0xFFFF) (Z.land (Z.shiftr base 16) 0xFF) access
    (Z.lor (Z.land (Z.shiftr limit 16) 0x0F) (Z.land gran 0xF0)) (Z.land (Z.shiftr base 24) 0xFF).

Definition gdt_setGate (num base limit access gran : Z) : M desc unit := put_gdt num (gate base limit access gran).

Definition gdt_writeTss (tss_addr num ss0 esp0 : Z) : M desc unit :=
  let base := tss_addr in
  let limit := w32 (base + sizeof_tss) in
  gdt_setGate num base limit 0xE9 0;;
  modify (set_tss (new_tss ss0 esp0)).

Definition gdt_init (gdt_addr tss_addr : Z) : M desc unit :=
  let p := TablePtr (sizeof_gdt_entry * GDT_ENTRIES - 1) gdt_addr in
  modify (set_gdt_ptr p);;
  gdt_setGate 0 0 0 0 0;;
  gdt_setGate 1 0 0xFFFFFFFF 0x9A 0xCF;;
  gdt_setGate 2 0 0xFFFFFFFF 0x92 0xCF;;
  gdt_setGate 3 0 0xFFFFFFFF 0xFA 0xCF;;
  gdt_setGate 4 0 0xFFFFFFFF 0xF2 0xCF;;
  gdt_writeTss tss_addr 5 0x10 0;;
  flush p;;
  say "[GDT] ".

(** The entry that [idt_setGate] writes. *)
Definition igate (base sel flags : Z) : idt_entry :=
  IdtEntry (Z.land base 0xFFFF) sel 0 (Z.lor flags 0x60) (Z.land (Z.shiftr base 16) 0xFFFF).

Definition idt_setGate (num base sel flags : Z) : M desc unit := put_idt num (igate base sel flags).

(** [n] gates from [num] on, at the addresses [h 0], [h 1], ... *)
Fixpoint set_gates (n : nat) (num : Z) (h : nat -> Z) : M desc unit :=
  match n with
  | O => mret tt
  | S n' => idt_setGate num (h O) 0x08 0x8E;; set_gates n' (num + 1) (fun i => h (S i))
  end.

Definition remap_irqs : list (Z * Z) :=
  [(0x20, 0x11); (0xA0, 0x11); (0x21, 0x20); (0xA1, 0x28); (0x21, 0x04); (0xA1, 0x02);
   (0x21, 0x01); (0xA1, 0x01); (0x21, 0x0); (0xA1, 0x0)].

Fixpoint outbs (l : list (Z * Z)) : M desc unit :=
  match l with [] => mret tt | (p, v) :: l' => outb p v;; outbs l' end.

(** [idt_init], for the 32 exception stubs [isr], the 16 interrupt stubs
    [irq] and the system call stub. *)
Definition idt_init (idt_addr : Z) (isr irq : nat -> Z) (syscall64 : Z) : M desc unit :=
  let p := TablePtr (sizeof_idt_entry * 256 - 1) idt_addr in
  modify (set_idt_ptr p);;
  modify (set_idt (replicate 256 (IdtEntry 0 0 0 0 0)));;
  outbs remap_irqs;;
  set_gates 32 0 isr;;
  set_gates 16 32 irq;;
  idt_setGate 64 syscall64 0x08 0x8E;;
  flush p;;
  say "[IDT] ".

(** [idt_handleIrq] on the table [irq_handlers]: [func] is the handler's
    address, 0 for none. *)
Definition idt_handleIrq (number func : Z) (irq_handlers : gmap Z Z) : gmap Z Z :=
  if (number <? 16) && (0 <=? number) then <[number := func]> irq_handlers else irq_handlers.

(** What [timer_init] of [src/kernel/task/timer.c] sends to the timer, and
    prints. *)
Definition timer_ports (freq : Z) : M desc unit :=
  let '(l, h) := Timer.timer_divisor freq in
  outb 0x43 0x36;; outb 0x40 l;; outb 0x40 h;; say "[PIT] ".

(** ** What the processor reads *)

Definition gate_base (e : gdt_entry) : Z := base_low e + base_middle e * 2 ^ 16 + base_high e * 2 ^ 24.
Definition gate_limit (e : gdt_entry) : Z := limit_low e + Z.land (granularity e) 0x0F * 2 ^ 16.
(** In pages when the granularity bit is set. *)
Definition gate_bytes (e : gdt_entry) : Z :=
  if Z.testbit (granularity e) 7 then (gate_limit e + 1) * 4096 else gate_limit e + 1.
Definition gate_dpl (e : gdt_entry) : Z := Z.land (Z.shiftr (access e) 5) 3.
Definition gate_present (e : gdt_entry) : bool := Z.testbit (access e) 7.

Definition handler (e : idt_entry) : Z := idt_base_lo e + idt_base_hi e * 2 ^ 16.
Definition igate_dpl (e : idt_entry) : Z := Z.land (Z.shiftr (idt_flags e) 5) 3.
Definition igate_present (e : idt_entry) : bool := Z.testbit (idt_flags e) 7.
(** A 32-bit interrupt gate. *)
Definition igate_type (e : idt_entry) : Z := Z.land (idt_flags e) 0x1F.

Definition sample_desc : desc :=
  Desc (replicate 6 (GdtEntry 0 0 0 0 0 0)) (TablePtr 0 0) (new_tss 0 0) [] (TablePtr 0 0) [] [] sample_screen.

(** ** Lemmas *)

Lemma split_word x a b : 0 <= a -> 0 <= b -> 0 <= x ->
  Z.land x (Z.ones a) + Z.land (Z.shiftr x a) (Z.ones b) * 2 ^ a = x mod 2 ^ (a + b).
Proof.
  intros Ha Hb Hx. rewrite !Z.land_ones, Z.shiftr_div_pow2 by lia.
  rewrite Z.pow_add_r by lia. rewrite Z.rem_mul_r; [lia | | apply Z.pow_pos_nonneg; lia].
  pose proof (Z.pow_pos_nonneg 2 a). lia.
Qed.

Lemma land_top x m : 0 <= m < 2 ^ 8 -> Z.testbit m 7 = true -> Z.testbit (Z.land x m) 7 = Z.testbit x 7.
Proof. intros _ Hm. rewrite Z.land_spec, Hm. apply andb_true_r. Qed.

Lemma gate_fields base limit acc gran : u32 base -> u32 limit ->
  gate_base (gate base limit acc gran) = base /\ gate_limit (gate base limit acc gran) = limit mod 2 ^ 20.
Proof.
  intros Hb Hl. unfold gate_base, gate_limit, gate, u32 in *. cbn [base_low base_middle base_high limit_low granularity].
  split.
  - change 0xFFFF with (Z.ones 16). change 0xFF with (Z.ones 8).
    pose proof (split_word base 16 8) as H1. pose proof (split_word base 24 8) as H2.
    rewrite H1 by lia. change (16 + 8) with 24. rewrite Z.land_ones in H2 by lia. rewrite H2 by lia.
    apply Z.mod_small. change (2 ^ (24 + 8)) with W32. lia.
  - rewrite Z.land_lor_distr_l. replace (Z.land (Z.land gran 0xF0) 0x0F) with 0
      by (rewrite <- Z.land_assoc; change (Z.land 0xF0 0x0F) with 0; by rewrite Z.land_0_r).
    rewrite Z.lor_0_r, <- Z.land_assoc, Z.land_diag. change 0xFFFF with (Z.ones 16). change 0x0F with (Z.ones 4).
    rewrite split_word by lia. done.
Qed.

Lemma igate_fields base sel flags : u32 base ->
  handler (igate base sel flags) = base /\ igate_dpl (igate base sel flags) = 3 /\
  igate_present (igate base sel flags) = Z.testbit flags 7.
Proof.
  intros Hb. unfold handler, igate_dpl, igate_present, igate, u32 in *. cbn [idt_base_lo idt_base_hi idt_flags].
  split; [|split].
  - change 0xFFFF with (Z.ones 16). rewrite split_word by lia. apply Z.mod_small. change (2 ^ (16 + 16)) with W32. lia.
  - apply Z.bits_inj'. intros i Hi. change 3 with (Z.ones 2).
    rewrite Z.land_spec, Z.testbit_ones_nonneg, Z.shiftr_spec, Z.lor_spec by lia.
    destruct (Z.ltb_spec i 2); [|apply andb_false_r].
    assert (i = 0 \/ i = 1) as [-> | ->] by lia; cbn; rewrite orb_true_r; done.
  - rewrite Z.lor_spec. apply orb_false_r.
Qed.

(** The lists of entries after a run of writes. *)
Lemma put_idt_ok num e s : 0 <= num < Z.of_nat (length (idt_entries s)) ->
  put_idt num e s = Ok (tt, set_idt (<[Z.to_nat num := e]> (idt_entries s)) s).
Proof. intros H. unfold put_idt. by rewrite (proj2 (Z.leb_le _ _)), (proj2 (Z.ltb_lt _ _)) by lia. Qed.

Lemma set_gates_ok n : forall num h s, 0 <= num -> num + Z.of_nat n <= Z.of_nat (length (idt_entries s)) ->
  exists g, set_gates n num h s = Ok (tt, set_idt g s) /\ length g = length (idt_entries s) /\
    (forall i, (i < n)%nat -> g !! (Z.to_nat num + i)%nat = Some (igate (h i) 0x08 0x8E)) /\
    (forall j, (j < Z.to_nat num \/ Z.to_nat num + n <= j)%nat -> g !! j = idt_entries s !! j).
Proof.
  induction n as [|n IH]; intros num h s H0 Hlen.
  { exists (idt_entries s). split; [by destruct s|]. split; [done|]. split; [lia | done]. }
  set (g0 := <[Z.to_nat num := igate (h O) 0x08 0x8E]> (idt_entries s)).
  destruct (IH (num + 1) (fun i => h (S i)) (set_idt g0 s)) as (g & E & Hl & Hin & Hout); [lia | cbn; unfold g0; rewrite length_insert; lia |].
  exists g. split; [|split; [|split]].
  - cbn [set_gates]. unfold idt_setGate. rewrite (bind_Ok _ _ _ _ _ (put_idt_ok num _ s ltac:(lia))). exact E.
  - rewrite Hl. apply length_insert.
  - intros i Hi. destruct i as [|i].
    + rewrite Hout by lia. cbn. rewrite Nat.add_0_r. apply list_lookup_insert_eq. lia.
    + rewrite <- (Hin i) by lia. f_equal. lia.
  - intros j Hj. rewrite Hout by lia. apply list_lookup_insert_ne. lia.
Qed.

Lemma outbs_ok l : forall s, exists s', outbs l s = Ok (tt, s') /\ ports s' = ports s ++ l /\
  s' = Desc (gdt_entries s) (gdt_ptr s) (tss s) (idt_entries s) (idt_ptr s) (ports s') (loaded s) (screen s).
Proof.
  induction l as [|[p v] l IH]; intros s; cbn [outbs].
  { exists s. split; [done|]. rewrite app_nil_r. by destruct s. }
  destruct (IH (Desc (gdt_entries s) (gdt_ptr s) (tss s) (idt_entries s) (idt_ptr s) (ports s ++ [(p, v)]) (loaded s) (screen s)))
    as (s' & E & Ep & Es). exists s'. split; [exact E|]. cbn in Ep. rewrite Ep. split; [by rewrite <- app_assoc|].
  rewrite Es at 1. cbn. by rewrite Ep.
Qed.

Lemma say_ok t s : screen_ok (screen s) -> exists m, say t s = Ok (tt, set_screen m s) /\
  monitor_write (text t) (screen s) = Ok (tt, m).
Proof.
  intros W. destruct (monitor_write_ok (text t) (screen s) W) as (m & E & Wm). exists m.
  split; [unfold say, zoom; by rewrite E | done].
Qed.

(** ** Theorems *)

(** A segment entry keeps its base and the low 20 bits of its limit:
    what [gdt_setGate] scatters over the fields is what the processor puts
    together again. *)
Theorem gdt_gate_roundtrip base limit acc gran s num : u32 base -> u32 limit ->
  0 <= num < Z.of_nat (length (gdt_entries s)) ->
  exists s' e, gdt_setGate num base limit acc gran s = Ok (tt, s') /\ gdt_entries s' !! Z.to_nat num = Some e /\
    gate_base e = base /\ gate_limit e = limit mod 2 ^ 20 /\ access e = acc /\
    (forall j, j <> Z.to_nat num -> gdt_entries s' !! j = gdt_entries s !! j).
Proof.
  intros Hb Hl Hn. destruct (gate_fields base limit acc gran Hb Hl) as [E1 E2].
  exists (set_gdt (<[Z.to_nat num := gate base limit acc gran]> (gdt_entries s)) s), (gate base limit acc gran).
  unfold gdt_setGate, put_gdt. rewrite (proj2 (Z.leb_le _ _)), (proj2 (Z.ltb_lt _ _)) by lia.
  split; [done|]. split; [apply list_lookup_insert_eq; lia|]. split_and!; [done | done | done |].
  intros j Hj. by apply list_lookup_insert_ne.
Qed.

Lemma gdt_gate_roundtrip_witness :
  exists s' e, gdt_setGate 3 0xC0123456 0xFFFFFFFF 0xFA 0xCF sample_desc = Ok (tt, s') /\ gdt_entries s' !! 3%nat = Some e /\
    gate_base e = 0xC0123456 /\ gate_limit e = 0xFFFFF.
Proof.
  destruct (gdt_gate_roundtrip 0xC0123456 0xFFFFFFFF 0xFA 0xCF sample_desc 3) as (s' & e & E & Hg & Hb & Hl & _);
    [unfold u32; lia | unfold u32; lia | cbn; lia |]. by exists s', e.
Defined.

(** [gdt_init] gives the processor four flat segments -- code and data,
    for the kernel at privilege 0 and for processes at privilege 3, each of
    the whole 4 gigabytes -- after a null one, and loads the table.  The
    task segment is at the right base, but its limit is the address of its
    end instead of its size. *)
Theorem gdt_init_segments gdt_addr tss_addr s : length (gdt_entries s) = 6%nat -> screen_ok (screen s) -> u32 tss_addr ->
  exists s' n kc kd uc ud t, gdt_init gdt_addr tss_addr s = Ok (tt, s') /\ gdt_entries s' = [n; kc; kd; uc; ud; t] /\
    gate_present n = false /\
    Forall (fun e => gate_present e = true /\ gate_base e = 0 /\ gate_bytes e = W32) [kc; kd; uc; ud] /\
    map gate_dpl [kc; kd; uc; ud] = [0; 0; 3; 3] /\
    gate_base t = tss_addr /\ gate_limit t = w32 (tss_addr + 104) mod 2 ^ 20 /\
    tss s' = new_tss 0x10 0 /\ loaded s' = loaded s ++ [TablePtr 47 gdt_addr] /\
    idt_entries s' = idt_entries s /\ monitor_write (text "[GDT] ") (screen s) = Ok (tt, screen s').
Proof.
  intros Hlen W Ht. destruct (gdt_entries s) as [|e0 [|e1 [|e2 [|e3 [|e4 [|e5 [|]]]]]]] eqn:Eg; try discriminate Hlen.
  destruct s as [g p t i ip po lo sc]. cbn in Eg, W. subst g.
  destruct (say_ok "[GDT] " (Desc [gate 0 0 0 0; gate 0 0xFFFFFFFF 0x9A 0xCF; gate 0 0xFFFFFFFF 0x92 0xCF;
    gate 0 0xFFFFFFFF 0xFA 0xCF; gate 0 0xFFFFFFFF 0xF2 0xCF; gate tss_addr (w32 (tss_addr + sizeof_tss)) 0xE9 0]
    (TablePtr 47 gdt_addr) (new_tss 0x10 0) i ip po (lo ++ [TablePtr 47 gdt_addr]) sc) W) as (m & E & Wm).
  destruct (gate_fields tss_addr (w32 (tss_addr + sizeof_tss)) 0xE9 0 Ht (w32_range _)) as [E1 E2].
  eexists _, _, _, _, _, _, _. split; [exact E|]. split; [reflexivity|]. split; [done|].
  split; [repeat constructor; done|]. by split_and!.
Qed.

Lemma gdt_init_segments_witness : exists s' t, gdt_init 0xE0010000 0xE0010100 sample_desc = Ok (tt, s') /\
  gdt_entries s' !! 5%nat = Some t /\ gate_base t = 0xE0010100 /\ gate_limit t = 0x10168.
Proof.
  destruct (gdt_init_segments 0xE0010000 0xE0010100 sample_desc) as (s' & n & kc & kd & uc & ud & t & E & Eg & _ & _ & _ & Hb & Hl & _);
    [reflexivity | exact sample_screen_ok | unfold u32; lia |].
  exists s', t. split; [exact E|]. split; [by rewrite Eg|]. by split.
Defined.

(** [idt_init] installs the 32 exception stubs, the 16 interrupt stubs at
    32 and the system call stub at 64, leaves every other entry absent, and
    remaps the interrupt controllers.  Every gate is open to privilege 3:
    a process can raise any of them itself with [int]. *)
Theorem idt_init_gates idt_addr isr irq sc s : screen_ok (screen s) ->
  (forall i, (i < 32)%nat -> u32 (isr i)) -> (forall i, (i < 16)%nat -> u32 (irq i)) -> u32 sc ->
  let stub j := if (j <? 32)%nat then Some (isr j) else if (j <? 48)%nat then Some (irq (j - 32)%nat)
                else if (j =? 64)%nat then Some sc else None in
  exists s', idt_init idt_addr isr irq sc s = Ok (tt, s') /\ ports s' = ports s ++ remap_irqs /\
    loaded s' = loaded s ++ [TablePtr 2047 idt_addr] /\
    gdt_entries s' = gdt_entries s /\ monitor_write (text "[IDT] ") (screen s) = Ok (tt, screen s') /\
    forall j, (j < 256)%nat -> exists e, idt_entries s' !! j = Some e /\
      match stub j with
      | Some h => handler e = h /\ igate_present e = true /\ igate_type e = 0x0E /\ idt_sel e = 8 /\ igate_dpl e = 3
      | None => igate_present e = false
      end.
Proof.
  intros W Hisr Hirq Hsc stub.
  set (s0 := set_idt (replicate 256 (IdtEntry 0 0 0 0 0)) (set_idt_ptr (TablePtr 2047 idt_addr) s)).
  destruct (outbs_ok remap_irqs s0) as (s1 & E1 & P1 & S1).
  assert (Hi1 : idt_entries s1 = replicate 256 (IdtEntry 0 0 0 0 0)) by (by rewrite S1).
  destruct (set_gates_ok 32 0 isr s1) as (g2 & E2 & L2 & I2 & O2); [lia | rewrite Hi1, length_replicate; lia |].
  destruct (set_gates_ok 16 32 irq (set_idt g2 s1)) as (g3 & E3 & L3 & I3 & O3);
    [lia | cbn [idt_entries set_idt]; rewrite L2, Hi1, length_replicate; lia |].
  cbn [idt_entries set_idt] in L3, O3. rewrite L2, Hi1, length_replicate in L3.
  set (g4 := <[64%nat := igate sc 0x08 0x8E]> g3). set (p := TablePtr 2047 idt_addr).
  destruct (say_ok "[IDT] " (Desc (gdt_entries s) (gdt_ptr s) (tss s) g4 p (ports s ++ remap_irqs) (loaded s ++ [p]) (screen s)) W)
    as (m & E5 & Wm). eexists. split; [|split; [|split; [|split; [|split]]]].
  - unfold idt_init. apply wp_eq_Ok. wp_steps. fold p s0. apply (wp_eq _ _ _ _ _ E1). wp_steps. apply (wp_eq _ _ _ _ _ E2).
    wp_steps. apply (wp_eq _ _ _ _ _ E3). wp_steps. eapply wp_eq; [apply put_idt_ok; cbn [idt_entries set_idt]; lia|].
    unfold flush. wp_steps. cbn [idt_entries set_idt Z.to_nat]. eapply wp_eq; [|reflexivity]. rewrite <- E5. f_equal.
    rewrite S1. unfold s0, set_idt, set_idt_ptr. cbn. by rewrite P1.
  - done.
  - done.
  - done.
  - exact Wm.
  - intros j Hj. exists (default (IdtEntry 0 0 0 0 0) (g4 !! j)). cbn [idt_entries set_screen].
    assert (H4 : g4 !! j = Some (match stub j with Some h => igate h 0x08 0x8E | None => IdtEntry 0 0 0 0 0 end)).
    { unfold stub. destruct (Nat.ltb_spec j 32) as [H32|H32]; [|destruct (Nat.ltb_spec j 48) as [H48|H48]].
      - unfold g4. rewrite list_lookup_insert_ne, O3 by lia. apply (I2 j H32).
      - unfold g4. rewrite list_lookup_insert_ne by lia. rewrite <- (I3 (j - 32)%nat) by lia. f_equal. lia.
      - destruct (Nat.eqb_spec j 64) as [->|H64]; [apply list_lookup_insert_eq; lia|].
        unfold g4. rewrite list_lookup_insert_ne, O3, O2, Hi1 by lia. by apply lookup_replicate_2. }
    rewrite H4. split; [done|]. cbn [from_option id]. destruct (stub j) as [h|] eqn:Es; [|done].
    assert (Hh : u32 h).
    { revert Es. unfold stub. repeat case_match; intros [= <-]; [apply Hisr | apply Hirq | exact Hsc].
      - by apply Nat.ltb_lt. - match goal with H : (j <? 48)%nat = true |- _ => apply Nat.ltb_lt in H end. lia. }
    destruct (igate_fields h 0x08 0x8E Hh) as (-> & -> & ->). done.
Qed.

Lemma idt_init_gates_witness : exists s' e, idt_init 0xE0020000 (fun i => 0xE0001000 + Z.of_nat i) (fun i => 0xE0002000 + Z.of_nat i) 0xE0003000
    sample_desc = Ok (tt, s') /\ idt_entries s' !! 33%nat = Some e /\ handler e = 0xE0002001 /\ igate_dpl e = 3.
Proof.
  destruct (idt_init_gates 0xE0020000 (fun i => 0xE0001000 + Z.of_nat i) (fun i => 0xE0002000 + Z.of_nat i) 0xE0003000 sample_desc)
    as (s' & E & _ & _ & _ & _ & H); [exact sample_screen_ok | intros i Hi; cbv beta; unfold u32; lia | intros i Hi; cbv beta; unfold u32; lia | unfold u32; lia |].
  destruct (H 33%nat) as (e & He & Hh & _ & _ & _ & Hd); [lia|].
  exists s', e. exact (conj E (conj He (conj Hh Hd))).
Defined.

(** Handlers are found where they were put, and a number that is not an
    interrupt line changes nothing. *)
Theorem idt_handleIrq_table number func h n : 0 <= n < 16 ->
  default 0 (idt_handleIrq number func h !! n) = if decide (n = number) then func else default 0 (h !! n).
Proof.
  intros Hn. unfold idt_handleIrq. destruct (decide (n = number)) as [->|Hne].
  - rewrite (proj2 (Z.ltb_lt _ _)), (proj2 (Z.leb_le _ _)) by lia. cbn [andb]. by rewrite lookup_insert_eq.
  - destruct ((number <? 16) && (0 <=? number)); [by rewrite lookup_insert_ne|done].
Qed.

(** For the 30 ticks a second of [kmain] the divisor is 39772. *)
Example timer_ports_30 s : screen_ok (screen s) ->
  exists s', timer_ports 30 s = Ok (tt, s') /\ ports s' = ports s ++ [(0x43, 0x36); (0x40, 0x5C); (0x40, 0x9B)].
Proof.
  intros W. destruct s as [g gp t i ip po lo sc]. cbn [screen] in W.
  set (po' := po ++ [(0x43, 0x36); (0x40, 0x5C); (0x40, 0x9B)]).
  destruct (say_ok "[PIT] " (Desc g gp t i ip po' lo sc) W) as (m & E & _).
  exists (set_screen m (Desc g gp t i ip po' lo sc)). split; [|done].
  rewrite <- E. unfold po'. replace (po ++ _) with (((po ++ [(0x43, 0x36)]) ++ [(0x40, 0x5C)]) ++ [(0x40, 0x9B)])
    by (by rewrite <- !app_assoc). reflexivity.
Qed.
