(* ===== verification/Kmain.v ===== *)
(** * The whole of kmain

    [kmain] of [src/kernel/core/kmain.c] from its first line to the switch
    it does not come back from: the screen, the placing of the modules, the
    interrupt table, paging, the segment table, the heap, the timer, tasking
    and the loading of the modules.  The operations are those of [Desc],
    [Boot], [KHeap] and [Start]; their states are put together here, so the
    state that each leaves is shown to be one that the next can start from.

    [ram] is what memory holds when the boot loader jumps to the kernel: the
    list of modules, their names and files, and the space that the bitset of
    frames is put in.  Nothing of it below the placement address is written
    before the modules are loaded.  The addresses that the linker gives are
    the fields of [image]. *)

From stdpp Require Import strings.
From S2P Require Import Prelude Memory Bitset Strings Heap HeapSpec Kernel Paging Segments Sched Tasking System Creation Elf Entry Start Kmem KHeap Boot Console Panic Desc.

Definition MULTIBOOT_BOOTLOADER_MAGIC : Z := 0x2BADB002.

(** The members of [struct multiboot_info_t] that [kmain] reads. *)
Record multiboot_info := MultibootInfo { mem_lower : Z; mem_upper : Z; mods_count : Z; mods_addr : Z }.
Definition sizeof_module : Z := 16.

(** Addresses in the kernel's image. *)
Record image := Image {
  im_end : Z; im_gdt : Z; im_tss : Z; im_idt : Z; im_isr : nat -> Z; im_irq : nat -> Z; im_syscall64 : Z;
  im_timer_callback : Z; im_task_idle : Z; im_text : Z
}.

(** The tables and the screen, memory and the kernel's data, and
    [irq_handlers] of [idt.c]. *)
Record kmain_state := KMain { km_desc : desc; km_mem : kmem; km_handlers : gmap Z Z }.

Definition set_km_desc (d : desc) (s : kmain_state) : kmain_state := KMain d (km_mem s) (km_handlers s).
Definition set_km_mem (k : kmem) (s : kmain_state) : kmain_state := KMain (km_desc s) k (km_handlers s).
Definition set_km_handlers (h : gmap Z Z) (s : kmain_state) : kmain_state := KMain (km_desc s) (km_mem s) h.

Definition on_desc {A} (m : M desc A) : M kmain_state A := zoom km_desc set_km_desc m.
Definition on_screen {A} (m : M monitor A) : M kmain_state A := on_desc (zoom screen set_screen m).
Definition on_heap {A} (m : M kmem A) : M kmain_state A := zoom km_mem set_km_mem m.
Definition on_pages {A} (m : M mstate A) : M kmain_state A := on_heap (lift_m m).
Definition on_kernel {A} (m : M kstate A) : M kmain_state A := on_pages (lift_k m).

Definition write (cs : list Z) : M kmain_state unit := on_screen (monitor_write cs).

(** Where [kmain] ends: in the [hlt] of an assertion, or in the first
    switch, with what became of the modules. *)
Inductive boot_end :=
| Halted
| Running (mods : list mod_status).

Section kmain.
Context (ram : mem) (im : image) (mbd : multiboot_info) (file : list Z).

(** The array of modules. *)
Definition rd_mods (n : nat) (a : Z) : list module_t :=
  (fun i => let x := a + sizeof_module * Z.of_nat i in Module_t (rd32 ram x) (rd32 ram (x + 4)) (rd32 ram (x + 8))) <$> seq 0 n.

(** [monitor_write] of a string in memory, 64 kilobytes long at most. *)
Definition write_char (a : Z) : M kmain_state (Z + unit) :=
  let c := rd8 ram a in
  if c =? 0 then mret (inr tt) else on_screen (monitor_put c);; mret (inl (w32 (a + 1))).
Definition write_at (a : Z) : M kmain_state unit := loop 65536 write_char a.

Definition total_ram : Z := w32 (w32 (mem_upper mbd + mem_lower mbd) * 1024).

(** Up to [kheap_init]; answers the modules, with their virtual
    addresses. *)
Definition kmain_setup : M kmain_state (list module_t) :=
  on_pages (setc (set_placement (im_end im)));;
  a ← on_pages (getc mem_placementAddr);
  let '(a, mods) := place_modules a (rd_mods (Z.to_nat (mods_count mbd)) (w32 (mods_addr mbd + 0xE0000000))) in
  on_pages (setc (set_placement a));;
  write (text "Grapes 0.0.4 'Cat in my heart' starting up :" ++ [LF]);;
  on_desc (idt_init (im_idt im) (im_isr im) (im_irq im) (im_syscall64 im));;
  on_heap (paging_alloc ram total_ram);;
  on_pages paging_fill;;
  write (text "{PD: ");;
  d ← on_kernel (kd ← getg kernel_pagedir; load (A := page_directory) kd);
  on_screen (monitor_writeHex (physicalAddr d));;
  on_pages paging_on;;
  write (text "} [Paging] ");;
  on_desc (gdt_init (im_gdt im) (im_tss im));;
  on_pages paging_cleanup;;
  write (text "[PD Cleanup] ");;
  on_heap kheap_init;;
  write (text "[KHeap] ");;
  mret mods.

Definition write_status (r : mod_status) : M kmain_state unit :=
  match r with
  | InvalidElf => write (text " : Invalid ELF file" ++ [LF])
  | LoadError => write (text " : Error loading" ++ [LF])
  | LoadedPid n => write (text " : OK pid:");; on_screen (monitor_writeDec n);; write [LF]
  end.

(** The loop over the modules. *)
Fixpoint start_modules (mods : list module_t) : M kmain_state (list mod_status) :=
  match mods with
  | [] => mret []
  | m :: mods' =>
      write (text " * ");;
      write_at (mod_string m);;
      r ← on_kernel (load_module ram (im_text im) (mod_start m));
      write_status r;;
      rs ← start_modules mods';
      mret (r :: rs)
  end.

(** From [timer_init] on; [c] is the context of the [tasking_switch] at the
    end, which nobody saves. *)
Definition kmain_start (mods : list module_t) (c : context) : M kmain_state (list mod_status) :=
  on_kernel (Start.timer_init 30);;
  modify (fun s => set_km_handlers (idt_handleIrq 0 (im_timer_callback im) (km_handlers s)) s);;
  on_desc (timer_ports 30);;
  on_kernel (tasking_init (im_task_idle im));;
  write (text "[Tasking] ");;
  write (LF :: text "Loading modules :" ++ [LF]);;
  rs ← start_modules mods;
  write (text "Modules now RULE THE WORLD !" ++ [LF]);;
  on_kernel sti;;
  on_kernel (switch c);;
  mret rs.

(** [magic] is what the boot loader leaves in [eax]; [bp] the frame pointer
    of a failed assertion. *)
Definition kmain (magic bp : Z) (c : context) : M kmain_state boot_end :=
  on_screen monitor_clear;;
  if negb (magic =? MULTIBOOT_BOOTLOADER_MAGIC) then
    on_screen (panic_assert ram (fun _ => true) (text "magic == MULTIBOOT_BOOTLOADER_MAGIC") file 21 bp);;
    mret Halted
  else
    mods ← kmain_setup;
    rs ← kmain_start mods c;
    mret (Running rs).

End kmain.

(** ** Specification *)

(** The screen [m'] is [m] after the text [cs]. *)
Definition wrote (cs : list Z) (m m' : monitor) : Prop := monitor_write cs m = Ok (tt, m') /\ screen_ok m'.

(** The kernel's data in the state. *)
Definition kern (s : kmain_state) : kstate := m_k (mm (km_mem s)).

(** The text about a module that is loaded. *)
Definition module_line (name : list Z) (pid : Z) : list Z :=
  text " * " ++ name ++ text " : OK pid:" ++ dec_text pid ++ [LF].
Definition module_lines (names : list (list Z)) (pids : list Z) : list Z := mjoin (zip_with module_line names pids).

(** What the start prints, but for the address of the directory. *)
Definition setup_text (phys : Z) : list Z :=
  (text "Grapes 0.0.4 'Cat in my heart' starting up :" ++ [LF]) ++ text "[IDT] " ++ text "{PD: " ++ hex_text phys ++
  text "} [Paging] " ++ text "[GDT] " ++ text "[PD Cleanup] " ++ text "[KHeap] ".
Definition start_text (names : list (list Z)) : list Z :=
  text "[PIT] " ++ text "[Tasking] " ++ (LF :: text "Loading modules :" ++ [LF]) ++
  module_lines names (seqZ 1 (Z.of_nat (length names))) ++ (text "Modules now RULE THE WORLD !" ++ [LF]).

(** The name of a module. *)
Definition has_name (ram : mem) (m : module_t) (name : list Z) : Prop :=
  cstr ram (mod_string m) name /\ Z.of_nat (length name) < 65536.

(** What the kernel is started with: [mods] are its modules, [p] the address
    after the last of them; the module with the pages [U] needs
    [module_frames U] frames. *)
Section bootable.
Context (ram : mem) (im : image) (mbd : multiboot_info).

(** The end of the two tables that [paging_init] allocates first. *)
Definition boot_end_addr (p : Z) : Z := p + INDEX_FROM_BIT (total_ram mbd / 0x1000).

(** The state of memory: nothing was allocated, the bitset is put on zeros,
    the kernel and what it takes until the heap exists lie in the part of
    the address space of one page table, and there are enough frames. *)
Record bootable (s : kmain_state) (p : Z) (mods : list module_t) (frames_needed : nat) : Prop := {
  bb_modules : place_modules (im_end im) (rd_mods ram (Z.to_nat (mods_count mbd)) (w32 (mods_addr mbd + 0xE0000000))) = (p, mods);
  bb_memory : boot_ok ram (total_ram mbd / 0x1000) (set_mc (set_placement p (m_c (mm (km_mem s)))) (mm (km_mem s)));
  bb_locks : if_locks (k_g (kern s)) < 0xFFFFFFFE;
  bb_near : boot_end_addr p mod 0x400000 + 0x120000 <= 0x400000;
  bb_high : boot_end_addr p + 0x120000 <= 0xE7FFE000;
  bb_frames : (boot_end_addr p + 0x120000 - 0xE0000000) / 4096 + 9 + Z.of_nat frames_needed
              <= counted (total_ram mbd / 0x1000);
  bb_fill n x : rd32 (kb_fill (bk (km_mem s)) n) x <> HEAP_MAGIC;
  bb_tables : length (gdt_entries (km_desc s)) = 6%nat;
  bb_linked : u32 (im_tss im) /\ (forall i, (i < 32)%nat -> u32 (im_isr im i)) /\
              (forall i, (i < 16)%nat -> u32 (im_irq im i)) /\ u32 (im_syscall64 im);
  bb_threads : k_threads (k_st (kern s)) = ∅;
  bb_queues q : is_priority q -> q_head (k_g (kern s)) q = 0;
  bb_idle : idle_thread (k_g (kern s)) = 0 /\ sleeping_threads (k_g (kern s)) = 0;
  bb_irq n : 0 <= n < 16 -> default 0 (irq_wakeup (k_g (kern s)) !! n) = 0;
  bb_manager : manager_object (k_g (kern s)) = 0 /\ k_junk (k_g (kern s)) = 0 /\ nextpid (k_g (kern s)) = 1
}.
End bootable.

(** The stub that entry [j] of the interrupt table leads to. *)
Definition stub_of (im : image) (j : nat) : option Z :=
  if (j <? 32)%nat then Some (im_isr im j) else if (j <? 48)%nat then Some (im_irq im (j - 32)%nat)
  else if (j =? 64)%nat then Some (im_syscall64 im) else None.

(** The tables of the processor: the four flat segments with their
    privileges and the task segment, and a gate for each stub. *)
Record processor_ready (im : image) (d : desc) : Prop := {
  pr_segments : exists n kc kd uc ud t, gdt_entries d = [n; kc; kd; uc; ud; t] /\
    Forall (fun e => gate_present e = true /\ gate_base e = 0 /\ gate_bytes e = W32) [kc; kd; uc; ud] /\
    map gate_dpl [kc; kd; uc; ud] = [0; 0; 3; 3] /\ gate_base t = im_tss im;
  pr_gates j : (j < 256)%nat -> exists e, idt_entries d !! j = Some e /\
    match stub_of im j with
    | Some h => handler e = h /\ igate_present e = true
    | None => igate_present e = false
    end
}.

(** The pages of the kernel below [q], the first one aside: it shows frame
    0, which the code takes for "not mapped". *)
Definition kernel_pages (q : Z) : gset Z :=
  list_to_set ((fun i => 0xE0001000 + 4096 * i) <$> seqZ 0 ((q - 0xE0001000 + 4095) / 4096)).

(** What the set-up leaves: the tables of the processor, the kernel with its
    modules, the bitset and the directory (up to [q]) mapped at 0xE0000000
    and no longer at 0, an empty heap on pages of its own, a page cache that
    counts these pages and the one given out for the directory as in use,
    and a kernel that can start tasks with [r] frames. *)
Record set_up (im : image) (s s' : kmain_state) (q : Z) (r : nat) : Prop := {
  su_mapped v : v ∈ kernel_pages q -> kpage (kern s') v = Some (kmapped ((v - 0xE0000000) / 4096));
  su_low v : v mod 4096 = 0 -> 0 <= v < q - 0xE0000000 -> kpage (kern s') v = None;
  su_heap : heap_live (km_mem s') [] /\ index_room (hp (km_mem s')) /\ kheap_working (m_c (mm (km_mem s'))) = 1;
  su_range : q < idx (hp (km_mem s')) /\ max_end (hp (km_mem s')) <= 0xF0000000;
  su_cache : exists dirpage H, q < dirpage < idx (hp (km_mem s')) /\
    cache_ok (mm (km_mem s')) (H ∪ ({[ dirpage ]} ∪ kernel_pages q)) /\
    forall v, v ∈ H -> idx (hp (km_mem s')) <= v < end_addr (hp (km_mem s'));
  su_tasks : no_tasks (kern s') r;
  su_nextpid : nextpid (k_g (kern s')) = nextpid (k_g (kern s));
  su_processor : processor_ready im (km_desc s');
  su_handlers : km_handlers s' = km_handlers s;
  su_screen : exists phys, wrote (setup_text phys) (screen (km_desc s)) (screen (km_desc s'))
}.

(** ** Lemmas: steps on the parts *)

Lemma on_desc_eq {A} (m : M desc A) d k h a d' : m d = Ok (a, d') -> on_desc m (KMain d k h) = Ok (a, KMain d' k h).
Proof. intros E. unfold on_desc, zoom. cbn. by rewrite E. Qed.

Lemma on_screen_eq {A} (m : M monitor A) d k h a v : m (screen d) = Ok (a, v) ->
  on_screen m (KMain d k h) = Ok (a, KMain (set_screen v d) k h).
Proof. intros E. apply on_desc_eq. unfold zoom. by rewrite E. Qed.

Lemma on_heap_eq {A} (m : M kmem A) d k h a k' : m k = Ok (a, k') -> on_heap m (KMain d k h) = Ok (a, KMain d k' h).
Proof. intros E. unfold on_heap, zoom. cbn. by rewrite E. Qed.

Lemma on_pages_eq {A} (m : M mstate A) d k h a t : m (mm k) = Ok (a, t) ->
  on_pages m (KMain d k h) = Ok (a, KMain d (set_mm t k) h).
Proof. intros E. by apply on_heap_eq, lift_m_eq. Qed.

Lemma on_kernel_eq {A} (m : M kstate A) d k h a t : m (m_k (mm k)) = Ok (a, t) ->
  on_kernel m (KMain d k h) = Ok (a, KMain d (set_mm (set_mk t (mm k)) k) h).
Proof. intros E. by apply on_pages_eq, lift_k_eq. Qed.

Lemma wrote_app c1 c2 m m1 m2 : wrote c1 m m1 -> wrote c2 m1 m2 -> wrote (c1 ++ c2) m m2.
Proof. intros [E1 _] [E2 W]. split; [|done]. by rewrite monitor_write_app, (bind_Ok _ _ _ _ _ E1). Qed.

Lemma wrote_nil m : screen_ok m -> wrote [] m m.
Proof. by split. Qed.

Lemma wrote_ok cs m m' : screen_ok m -> monitor_write cs m = Ok (tt, m') -> wrote cs m m'.
Proof. intros W E. split; [done|]. destruct (monitor_write_ok cs m W) as (x & Ex & Wx). congruence. Qed.

(** A part that prints. *)
Lemma prints_on p cs d k h : prints p cs -> screen_ok (screen d) ->
  exists m, on_screen p (KMain d k h) = Ok (tt, KMain (set_screen m d) k h) /\ wrote cs (screen d) m.
Proof.
  intros Hp W. destruct (prints_run p cs _ Hp W) as (m & E & Ew & Wm). exists m. split; [by apply on_screen_eq | done].
Qed.

Lemma write_on cs d k h : screen_ok (screen d) ->
  exists m, write cs (KMain d k h) = Ok (tt, KMain (set_screen m d) k h) /\ wrote cs (screen d) m.
Proof. apply prints_on, prints_write. Qed.

Lemma set_screen_twice m m' d : set_screen m' (set_screen m d) = set_screen m' d.
Proof. done. Qed.

Lemma bind_ext {S A B} (m : M S A) (k k' : A -> M S B) s : (forall a s', k a s' = k' a s') -> (m ≫= k) s = (m ≫= k') s.
Proof. intros H. unfold mbind, M_bind. by destruct (m s) as [[a s']|]. Qed.

Lemma on_screen_bind (p q : M monitor unit) s : on_screen (p;; q) s = (on_screen p;; on_screen q) s.
Proof.
  unfold on_screen, on_desc, zoom, mbind, M_bind. destruct (p (screen (km_desc s))) as [[[] m]|]; [|done]. cbn.
  by destruct (q m) as [[[] m']|].
Qed.

(** Writing a string in memory. *)
Lemma write_chars ram name : forall n a d k h, cstr ram a name -> (length name < n)%nat -> screen_ok (screen d) ->
  exists m, loop n (write_char ram) a (KMain d k h) = Ok (tt, KMain (set_screen m d) k h) /\ wrote name (screen d) m.
Proof.
  induction name as [|c name IH]; intros n a d k h Hs Hn W; (destruct n as [|n]; [cbn in Hn; lia|]); rewrite loop_S.
  - apply cstr_nil in Hs as (_ & _ & E). exists (screen d). rewrite (bind_Ok _ _ _ (inr tt) (KMain d k h)).
    + split; [by destruct d | by apply wrote_nil].
    + unfold write_char. by rewrite E.
  - apply cstr_cons in Hs as (H0 & H1 & E & Hc & Hs). destruct (prints_on _ _ d k h (prints_put c) W) as (m & E1 & W1).
    destruct (IH n (a + 1) (set_screen m d) k h Hs) as (m' & E2 & W2); [cbn in Hn; lia | apply W1|].
    exists m'. rewrite (bind_Ok _ _ _ (inl (a + 1)) (KMain (set_screen m d) k h)).
    + split; [done|]. exact (wrote_app [c] name _ _ _ W1 W2).
    + unfold write_char. rewrite E, (proj2 (Z.eqb_neq c 0)) by lia. rewrite (bind_Ok _ _ _ _ _ E1).
      assert (H2 : 0 <= a + 1 < W32).
      { destruct name as [|c' name]; [apply cstr_nil in Hs | apply cstr_cons in Hs]; naive_solver lia. }
      by rewrite w32_small.
Qed.

Lemma write_at_ok ram a name d k h : cstr ram a name -> Z.of_nat (length name) < 65536 -> screen_ok (screen d) ->
  exists m, write_at ram a (KMain d k h) = Ok (tt, KMain (set_screen m d) k h) /\ wrote name (screen d) m.
Proof. intros Hs Hn. apply write_chars; [done|]. assert (Z.of_nat 65536 = 65536) by (by vm_compute). lia. Qed.

(** ** Lemmas: the loading of the modules *)

(** The loop loads the modules as [load_modules] of [Start] does, and prints
    a line for each. *)
Lemma start_modules_ok ram im mods names pids : forall k0 k1 d k h, Forall2 (has_name ram) mods names ->
  load_modules ram (im_text im) (mod_start <$> mods) k0 = Ok (LoadedPid <$> pids, k1) ->
  Forall (fun p => 0 <= p < 1000000000) pids -> m_k (mm k) = k0 -> screen_ok (screen d) ->
  exists m, start_modules ram im mods (KMain d k h)
      = Ok (LoadedPid <$> pids, KMain (set_screen m d) (set_mm (set_mk k1 (mm k)) k) h) /\
    wrote (module_lines names pids) (screen d) m.
Proof.
  revert names pids; induction mods as [|mo mods IH]; intros names pids k0 k1 d k h HN E HP <- W;
    apply Forall2_cons_inv_l in HN || apply Forall2_nil_inv_l in HN.
  - subst names. cbn in E. injection E as E <-. symmetry in E. apply fmap_nil_inv in E as ->.
    exists (screen d). split; [|by apply wrote_nil]. destruct d, k as [? ? [[? ?] ? ?]]. done.
  - destruct HN as (name & names' & [Hs Hl] & HN & ->). cbn [load_modules fmap list_fmap] in E.
    apply bind_inv in E as (r & ka & E1 & E). apply bind_inv in E as (rs & kb & E2 & [= E <-]).
    destruct pids as [|p pids]; [done|]. injection E as -> ->. apply Forall_cons in HP as [Hp HP].
    destruct (write_on (text " * ") d k h W) as (m1 & F1 & W1).
    destruct (write_at_ok ram (mod_string mo) name (set_screen m1 d) k h Hs Hl (proj2 W1)) as (m2 & F2 & W2).
    set (k' := set_mm (set_mk ka (mm k)) k).
    destruct (prints_on (monitor_write (text " : OK pid:");; monitor_writeDec p;; monitor_write [LF])
      (text " : OK pid:" ++ dec_text p ++ [LF]) (set_screen m2 d) k' h) as (m3 & F3 & W3).
    { apply prints_bind; [apply prints_write|]. apply prints_bind; [by apply prints_dec | apply prints_write]. }
    { apply W2. }
    destruct (IH names' pids ka kb (set_screen m3 d) k' h HN E2 HP eq_refl (proj2 W3)) as (m4 & F4 & W4).
    exists m4. split.
    + cbn [start_modules]. rewrite (bind_Ok _ _ _ _ _ F1), (bind_Ok _ _ _ _ _ F2).
      rewrite (bind_Ok _ _ _ _ _ (on_kernel_eq _ (set_screen m2 d) k h _ _ E1)). fold k'.
      rewrite (bind_Ok _ _ _ tt (KMain (set_screen m3 d) k' h)).
      * rewrite (bind_Ok _ _ _ _ _ F4). done.
      * etransitivity; [|exact F3]. cbn [write_status]. rewrite on_screen_bind. apply bind_ext. intros [] s'.
        symmetry. apply on_screen_bind.
    + unfold module_lines. cbn [zip_with mjoin list_join]. unfold module_line at 1. rewrite <- !app_assoc.
      eapply wrote_app; [exact W1|]. eapply wrote_app; [exact W2|]. rewrite !app_assoc. eapply wrote_app; [|exact W4].
      rewrite <- !app_assoc. exact W3.
Qed.

Lemma timer_ports_ok d : screen_ok (screen d) -> exists d', timer_ports 30 d = Ok (tt, d') /\
  wrote (text "[PIT] ") (screen d) (screen d') /\ gdt_entries d' = gdt_entries d /\ idt_entries d' = idt_entries d.
Proof.
  intros W. unfold timer_ports. destruct (Timer.timer_divisor 30) as [lo hi].
  destruct (say_ok "[PIT] " (Desc (gdt_entries d) (gdt_ptr d) (tss d) (idt_entries d) (idt_ptr d)
    (((ports d ++ [(0x43, 0x36)]) ++ [(0x40, lo)]) ++ [(0x40, hi)]) (loaded d) (screen d)) W) as (m & E & Ew).
  eexists. split; [exact E|]. split; [by apply wrote_ok | done].
Qed.

(** [kmain] from the timer on, with what it prints, is [kmain_tasks]. *)
Lemma kmain_start_ok ram im mods names c k1 d k h : Forall2 (has_name ram) mods names -> screen_ok (screen d) ->
  Z.of_nat (length mods) < 999999999 ->
  kmain_tasks ram (im_text im) (im_task_idle im) (mod_start <$> mods) c (m_k (mm k))
    = Ok (LoadedPid <$> seqZ 1 (Z.of_nat (length names)), k1) ->
  exists d', kmain_start ram im mods c (KMain d k h)
      = Ok (LoadedPid <$> seqZ 1 (Z.of_nat (length names)),
            KMain d' (set_mm (set_mk k1 (mm k)) k) (idt_handleIrq 0 (im_timer_callback im) h)) /\
    wrote (start_text names) (screen d) (screen d') /\ gdt_entries d' = gdt_entries d /\ idt_entries d' = idt_entries d.
Proof.
  intros HN W Hlen E. pose proof (Forall2_length _ _ _ HN) as Hl. unfold kmain_tasks in E.
  apply bind_inv in E as ([] & ka & E1 & E). apply bind_inv in E as ([] & kb & E2 & E).
  apply bind_inv in E as (rs & kc & E3 & E). apply bind_inv in E as ([] & kd & E4 & E).
  apply bind_inv in E as ([] & ke & E5 & [= -> ->]).
  destruct (timer_ports_ok d W) as (d1 & F1 & W1 & G1 & I1). set (h' := idt_handleIrq 0 (im_timer_callback im) h).
  set (at_ := fun x => set_mm (set_mk x (mm k)) k).
  destruct (write_on (text "[Tasking] ") d1 (at_ kb) h' (proj2 W1)) as (m2 & F2 & W2).
  destruct (write_on (LF :: text "Loading modules :" ++ [LF]) (set_screen m2 d1) (at_ kb) h' (proj2 W2)) as (m3 & F3 & W3).
  destruct (start_modules_ok ram im mods names (seqZ 1 (Z.of_nat (length names))) kb kc (set_screen m3 d1) (at_ kb) h' HN E3)
    as (m4 & F4 & W4); [|done | exact (proj2 W3) |].
  { apply Forall_forall. intros x Hx%elem_of_seqZ. lia. }
  destruct (write_on (text "Modules now RULE THE WORLD !" ++ [LF]) (set_screen m4 d1) (at_ kc) h' (proj2 W4)) as (m5 & F5 & W5).
  exists (set_screen m5 d1). split; [|split; [|done]].
  - unfold kmain_start. rewrite (bind_Ok _ _ _ _ _ (on_kernel_eq _ d k h _ _ E1)).
    rewrite (bind_Ok _ _ _ tt (KMain d (at_ ka) h')) by done. rewrite (bind_Ok _ _ _ _ _ (on_desc_eq _ d (at_ ka) h' _ _ F1)).
    rewrite (bind_Ok _ _ _ _ _ (on_kernel_eq _ d1 (at_ ka) h' _ _ E2)).
    change (set_mm _ (at_ ka)) with (at_ kb).
    rewrite (bind_Ok _ _ _ _ _ F2), (bind_Ok _ _ _ _ _ F3), (bind_Ok _ _ _ _ _ F4).
    change (set_mm _ (at_ kb)) with (at_ kc). rewrite set_screen_twice, (bind_Ok _ _ _ _ _ F5).
    rewrite (bind_Ok _ _ _ _ _ (on_kernel_eq _ _ (at_ kc) h' _ _ E4)).
    change (set_mm _ (at_ kc)) with (at_ kd). rewrite (bind_Ok _ _ _ _ _ (on_kernel_eq _ _ (at_ kd) h' _ _ E5)). done.
  - unfold start_text. eapply wrote_app; [exact W1|]. eapply wrote_app; [exact W2|]. eapply wrote_app; [exact W3|].
    eapply wrote_app; [exact W4 | exact W5].
Qed.

(** ** Lemmas: up to the heap *)

(** A kernel beside which only page tables, directories and frames changed
    has no tasks still. *)
Lemma beside_no_tasks k k' r : beside k k' -> if_locks (k_g k') = if_locks (k_g k) -> 0 <= if_locks (k_g k) < 0xFFFFFFFE ->
  k_threads (k_st k) = ∅ -> (forall q, is_priority q -> q_head (k_g k) q = 0) ->
  idle_thread (k_g k) = 0 /\ sleeping_threads (k_g k) = 0 -> (forall n, 0 <= n < 16 -> default 0 (irq_wakeup (k_g k) !! n) = 0) ->
  manager_object (k_g k) = 0 -> k_junk (k_g k) = 0 ->
  current_pagedir (k_g k) = kernel_pagedir (k_g k) -> kernel_pagedir (k_g k') <> 0 -> is_Some (kdir k') ->
  wf_bitset (frames (k_g k')) -> free_count (frames (k_g k')) r -> no_tasks k' r.
Proof.
  intros [BS BG] El Hl Ht Hq [Hi Hs] Hirq Hm Hj Hc Hkd Hd Hwf Hf.
  assert (Ekd : kernel_pagedir (k_g k') = kernel_pagedir (k_g k)) by (by rewrite BG).
  assert (Ec : current_pagedir (k_g k') = kernel_pagedir (k_g k')) by (rewrite BG; exact Hc).
  split.
  - split; [done | by rewrite Ec | done | done | by rewrite El | left; by rewrite BG | by rewrite BG].
  - by rewrite BS.
  - intros q Hp. rewrite BG. by apply Hq.
  - by rewrite BG.
  - by rewrite BG.
  - intros n Hn. rewrite BG. by apply Hirq.
Qed.

Lemma kernel_pages_in q v : v ∈ kernel_pages q <-> 0xE0001000 <= v < q /\ v mod 4096 = 0.
Proof.
  unfold kernel_pages. rewrite elem_of_list_to_set, list_elem_of_fmap. split.
  - intros (i & -> & Hi%elem_of_seqZ). Z.div_mod_to_equations. lia.
  - intros [Hv Ha]. exists ((v - 0xE0001000) / 4096). rewrite elem_of_seqZ. Z.div_mod_to_equations. lia.
Qed.

(** Memory, from [paging_init] to [kheap_init]. *)
Lemma memory_ok ram total k r : let p := mem_placementAddr (m_c (mm k)) in
  let q := p + INDEX_FROM_BIT (total / 0x1000) in
  boot_ok ram (total / 0x1000) (mm k) -> q mod 0x400000 + 0x120000 <= 0x400000 -> q + 0x120000 <= 0xE7FFE000 ->
  (q + 0x120000 - 0xE0000000) / 4096 + 9 + Z.of_nat r <= counted (total / 0x1000) ->
  (forall n x, rd32 (kb_fill (bk k) n) x <> HEAP_MAGIC) ->
  exists s1 s2 s3 s4 k5 dk a H, paging_alloc ram total k = Ok (tt, set_mm s1 k) /\ paging_fill s1 = Ok (tt, s2) /\
    (kernel_pagedir (k_g (m_k s2)) <> 0 /\ kdir (m_k s2) = Some dk) /\
    paging_on s2 = Ok (tt, s3) /\ paging_cleanup s3 = Ok (tt, s4) /\ kheap_init (set_mm s4 k) = Ok (tt, k5) /\
    (heap_live k5 [] /\ index_room (hp k5) /\ kheap_working (m_c (mm k5)) = 1) /\
    (q < a - 0x1000 < idx (hp k5) /\ end_addr (hp k5) = idx (hp k5) + 0x9000 /\ max_end (hp k5) <= 0xF0000000) /\
    heap_pages ({[ a - 0x1000 ]} ∪ kernel_pages q) (m_k s4) r 0 true (mm k5) H (idx (hp k5)) (end_addr (hp k5)) (idx (hp k5) + 0x9000) /\
    cache_ok (mm k5) (H ∪ ({[ a - 0x1000 ]} ∪ kernel_pages q)) /\
    (forall v, v ∈ kernel_pages q -> kpage (m_k (mm k5)) v = Some (kmapped ((v - 0xE0000000) / 4096))) /\
    (forall v, v mod 4096 = 0 -> 0 <= v < q - 0xE0000000 -> kpage (m_k (mm k5)) v = None) /\
    beside (with_current q (with_dir q (m_k (mm k)))) (m_k (mm k5)) /\ if_locks (k_g (m_k (mm k5))) = if_locks (k_g (m_k (mm k))).
Proof.
  intros p q Hboot Hnear Hhigh Hfr Hfill.
  destruct (paging_alloc_ok _ _ _ Hboot) as (a & s1 & E1 & HB1 & Ha). fold p q in HB1, Ha.
  assert (Hpq : 0xE0100000 <= p <= q).
  { destruct Hboot as [_ _ _ Hp Hs _ _ _]. split; [exact Hp|]. unfold q, INDEX_FROM_BIT. change (8 * 4) with 32. Z.div_mod_to_equations. lia. }
  assert (Hsz : total / 0x1000 <= 0x100000) by apply Hboot.
  assert (Hmem : a + 0x100000 <= kaddr (counted (total / 0x1000))).
  { pose proof (bo_frames _ _ _ Hboot) as Hf. fold p q in Hf. lia. }
  destruct (paging_fill_ok _ a _ s1 HB1) as (J & s2 & E2 & HB2 & HJ & H1 & H2 & _); [lia | lia | done | done |].
  pose proof (paging_on_ok _ _ _ _ _ _ HB2) as E3. apply (booting_current q) in HB2 as HB3.
  destruct (bt_dir _ _ _ _ _ _ HB2) as (Ekd & Hkd & dk & Ed).
  set (s3 := set_mk (with_current q (m_k s2)) s2) in *.
  destruct (paging_cleanup_ok _ _ _ _ s3 HB3 HJ) as (s4 & E4 & HB4 & Ec & Hlow); [cbn; lia|].
  assert (Hpl : mem_placementAddr (m_c (mm (set_mm s4 k))) = mem_placementAddr (m_c s2)) by (cbn; by rewrite Ec).
  pose proof (bt_top _ _ _ _ _ _ HB4) as Htop. rewrite Ec in Htop. cbn [m_c set_mk s3] in Htop. unfold kaddr in Htop, H1.
  set (P := mem_placementAddr (m_c s2)) in *.
  destruct (bt_place _ _ _ _ _ _ HB4) as [Hal HPe]. rewrite Ec in HPe. cbn [m_c set_mk s3] in HPe. fold P in HPe.
  set (C := {[ a - 0x1000 ]} ∪ kernel_pages q).
  assert (HC : boot_clients a C).
  { intros v [->%elem_of_singleton|[Hv Hva]%kernel_pages_in]%elem_of_union.
    - split; [split; [lia | Z.div_mod_to_equations; lia] | by left].
    - split; [split; [lia | done] | right; lia]. }
  destruct (kheap_init_ok (set_mm s4 k) C r 0 (P + 0xA000)) as
    (k5 & H & E5 & L1 & L2 & L3 & L4 & L5 & L6 & L7 & L8 & L9 & L10 & L11).
  { rewrite <- Hpl. apply (booting_before_heap _ _ _ J (set_mm s4 k) _ _ _ HC HB4); rewrite ?Hpl; try done; try lia.
    - Z.div_mod_to_equations. lia.
    - clear -Hnear H2 Ha. pose proof (Z.div_mod q 0x400000 ltac:(lia)) as Eq. pose proof (Z.mod_pos_bound q 0x400000 ltac:(lia)).
      transitivity (q / 0x400000); [symmetry|].
      + apply (Z.div_unique_pos _ _ _ (P - 1 - 0x400000 * (q / 0x400000))); lia.
      + apply (Z.div_unique_pos _ _ _ (P + 0x9FFF - 0x400000 * (q / 0x400000))); lia.
    - intros n. apply Hfill. }
  assert (HPm : page_mask P = P).
  { rewrite page_mask_sub by (unfold u32; lia). Z.div_mod_to_equations. lia. }
  change (kb_m (bk (set_mm s4 k))) with s4 in *. rewrite Ec in *. change (m_c s3) with (m_c s2) in *. fold P in L3, L5, L8. rewrite HPm in *.
  exists s1, s2, s3, s4, k5, dk, a, H. rewrite L3, L5.
  split; [done|]. split; [done|]. split; [split; [by rewrite Ekd | done]|]. split; [done|]. split; [done|]. split; [done|].
  split; [done|]. split; [split; [lia|]; split; [lia | done]|]. split; [|split; [done|split; [|split; [|split]]]].
  - replace (P + 0x1000 + 0x9000) with (P + 0xA000) in L8 |- * by lia. exact L8.
  - intros v Hv. pose proof (proj1 (kernel_pages_in _ _) Hv) as [Hr Hva].
    assert (Hk : kspace v) by (split; [lia | done]). assert (Hin : v ∈ C) by (by apply elem_of_union_r).
    change (mm k5) with (kb_m (bk k5)). rewrite (hg_view _ _ _ _ _ _ _ _ _ _ L8 v Hin Hk).
    rewrite (booting_view _ _ _ _ _ _ HB4) by (done || lia). rewrite (proj2 (Z.ltb_lt _ _)); [done|].
    Z.div_mod_to_equations. lia.
  - intros v Hva Hv. assert (Ht : ktable (m_k (mm k5)) (table_of v) = 0).
    { rewrite <- (Hlow v Hva) by (cbn; lia). unfold ktable, kdir. change (mm k5) with (kb_m (bk k5)). rewrite L11.
      destruct (hg_beside _ _ _ _ _ _ _ _ _ _ L8) as [_ ->]. done. }
    unfold kpage. by rewrite Ht.
  - etransitivity; [exact (bt_beside _ _ _ _ _ _ HB4) | exact (hg_beside _ _ _ _ _ _ _ _ _ _ L8)].
  - change (kb_m (bk k5)) with (mm k5) in L10. rewrite L10. apply (bt_locks _ _ _ _ _ _ HB4).
Qed.

Lemma processor_ok im d : screen_ok (screen d) -> length (gdt_entries d) = 6%nat -> u32 (im_tss im) ->
  (forall i, (i < 32)%nat -> u32 (im_isr im i)) -> (forall i, (i < 16)%nat -> u32 (im_irq im i)) -> u32 (im_syscall64 im) ->
  exists d1, idt_init (im_idt im) (im_isr im) (im_irq im) (im_syscall64 im) d = Ok (tt, d1) /\
    wrote (text "[IDT] ") (screen d) (screen d1) /\
    forall m, screen_ok m -> exists d2, gdt_init (im_gdt im) (im_tss im) (set_screen m d1) = Ok (tt, d2) /\
      wrote (text "[GDT] ") m (screen d2) /\ forall m', processor_ready im (set_screen m' d2).
Proof.
  intros W Hl Ht Hi Hq Hs.
  destruct (idt_init_gates (im_idt im) (im_isr im) (im_irq im) (im_syscall64 im) d W Hi Hq Hs) as (d1 & E1 & _ & _ & G1 & W1 & I1).
  exists d1. split; [done|]. split; [by apply wrote_ok|]. intros m Wm.
  destruct (gdt_init_segments (im_gdt im) (im_tss im) (set_screen m d1)) as (d2 & n & kc & kd & uc & ud & t & E2 & G2 & _ & F2 & P2 & B2 & _ & _ & _ & I2 & W2);
    [cbn; by rewrite G1 | done | done |].
  exists d2. split; [done|]. split; [by apply wrote_ok|]. intros m'. split.
  - exists n, kc, kd, uc, ud, t. exact (conj G2 (conj F2 (conj P2 B2))).
  - intros j Hj. destruct (I1 j Hj) as (e & Ee & He). exists e. cbn. rewrite I2. split; [exact Ee|].
    destruct (stub_of im j) as [x|] eqn:Es; unfold stub_of in Es; rewrite Es in He; [|exact He].
    destruct He as (H1 & H2 & _). exact (conj H1 H2).
Qed.

Lemma kmain_setup_ok ram im mbd s p mods r : bootable ram im mbd s p mods r -> screen_ok (screen (km_desc s)) ->
  exists s', kmain_setup ram im mbd s = Ok (mods, s') /\ set_up im s s' (boot_end_addr mbd p) r.
Proof.
  intros [B1 B2 B3 B4 B5 B6 B7 B8 (T1 & T2 & T3 & T4) B9 B10 B11 B12 (B13 & B14 & B15)] W. destruct s as [d k h].
  unfold kern in *. cbn [km_desc km_mem km_handlers] in *.
  set (k1 := set_mm (set_mc (set_placement p (m_c (mm k))) (mm k)) k).
  destruct (memory_ok ram (total_ram mbd) k1 r B2 B4 B5 B6 B7) as
    (s1 & s2 & s3 & s4 & k5 & dk & a & H & E1 & E2 & (Hkd & Edk) & E3 & E4 & E5 & HL & (HR1 & HR2 & HR3) & HP & HC & HM & HLo & HBe & HLk).
  destruct (write_on (text "Grapes 0.0.4 'Cat in my heart' starting up :" ++ [LF]) d k1 h W) as (m1 & F1 & W1).
  destruct (processor_ok im (set_screen m1 d) (proj2 W1) B8 T1 T2 T3 T4) as (d1 & F2 & W2 & HG).
  destruct (write_on (text "{PD: ") d1 (set_mm s2 k1) h (proj2 W2)) as (m3 & F3 & W3).
  destruct (prints_on _ _ (set_screen m3 d1) (set_mm s2 k1) h (prints_hex (physicalAddr dk)) (proj2 W3)) as (m4 & F4 & W4).
  destruct (write_on (text "} [Paging] ") (set_screen m4 d1) (set_mm s3 k1) h (proj2 W4)) as (m5 & F5 & W5).
  destruct (HG m5 (proj2 W5)) as (d6 & F6 & W6 & HPr).
  destruct (write_on (text "[PD Cleanup] ") d6 (set_mm s4 k1) h (proj2 W6)) as (m7 & F7 & W7).
  destruct (write_on (text "[KHeap] ") (set_screen m7 d6) k5 h (proj2 W7)) as (m8 & F8 & W8).
  exists (KMain (set_screen m8 d6) k5 h). split.
  - unfold kmain_setup.
    rewrite (bind_Ok _ _ _ tt (KMain d (set_mm (set_mc (set_placement (im_end im) (m_c (mm k))) (mm k)) k) h)) by done.
    rewrite (bind_Ok _ _ _ (im_end im) (KMain d (set_mm (set_mc (set_placement (im_end im) (m_c (mm k))) (mm k)) k) h)) by done.
    rewrite B1. rewrite (bind_Ok _ _ _ tt (KMain d k1 h)) by done.
    rewrite (bind_Ok _ _ _ _ _ F1), (bind_Ok _ _ _ _ _ (on_desc_eq _ _ k1 h _ _ F2)).
    rewrite (bind_Ok _ _ _ _ _ (on_heap_eq _ d1 k1 h _ _ E1)).
    rewrite (bind_Ok _ _ _ _ _ (on_pages_eq paging_fill d1 (set_mm s1 k1) h _ _ E2)). change (set_mm s2 (set_mm s1 k1)) with (set_mm s2 k1).
    rewrite (bind_Ok _ _ _ _ _ F3). rewrite (bind_Ok _ _ _ dk (KMain (set_screen m3 d1) (set_mm s2 k1) h)).
    2:{ erewrite on_kernel_eq; [|erewrite bind_Ok by reflexivity; exact (load_Ok _ dk _ Hkd Edk)]. cbn. by destruct s2. }
    rewrite (bind_Ok _ _ _ _ _ F4), set_screen_twice.
    rewrite (bind_Ok _ _ _ _ _ (on_pages_eq paging_on (set_screen m4 d1) (set_mm s2 k1) h _ _ E3)).
    change (set_mm s3 (set_mm s2 k1)) with (set_mm s3 k1). rewrite (bind_Ok _ _ _ _ _ F5), set_screen_twice.
    rewrite (bind_Ok _ _ _ _ _ (on_desc_eq _ _ (set_mm s3 k1) h _ _ F6)).
    rewrite (bind_Ok _ _ _ _ _ (on_pages_eq paging_cleanup d6 (set_mm s3 k1) h _ _ E4)).
    change (set_mm s4 (set_mm s3 k1)) with (set_mm s4 k1). rewrite (bind_Ok _ _ _ _ _ F7).
    rewrite (bind_Ok _ _ _ _ _ (on_heap_eq _ (set_screen m7 d6) _ h _ _ E5)), (bind_Ok _ _ _ _ _ F8). done.
  - pose proof (hg_inv _ _ _ _ _ _ _ _ _ _ HP) as HI.
    clear F1 F2 F3 F4 F5 F6 F7 F8 E1 E2 E3 E4 E5. change (mem_placementAddr (m_c (mm k1))) with p in *.
    fold (boot_end_addr mbd p) in *.
    split; cbn [km_desc km_mem km_handlers]; unfold kern; cbn [km_mem].
    + exact HM.
    + exact HLo.
    + exact HL.
    + lia.
    + exists (a - 0x1000), H. split; [exact HR1|]. split; [exact HC|]. intros v Hv.
      destruct (hg_zone _ _ _ _ _ _ _ _ _ _ HP v Hv) as [Hz _]. lia.
    + eapply beside_no_tasks; [exact HBe | exact HLk | | done.. | apply HI | apply HI | apply HI |].
      * cbn. pose proof (bo_locks _ _ _ B2) as Hl. cbn in Hl. lia.
      * eapply free_count_le, (hg_frames _ _ _ _ _ _ _ _ _ _ HP). lia.
    + destruct HBe as [_ HG']. by rewrite HG'.
    + apply HPr.
    + reflexivity.
    + exists (physicalAddr dk). unfold setup_text. repeat (eapply wrote_app; [eassumption|]). exact W8.
Qed.

(** ** Lemmas: from the first line *)

Lemma cleared m : exists m', monitor_clear m = Ok (tt, m') /\ screen_ok m'.
Proof. eexists. split; [reflexivity|]. split; cbn; [lia | lia | reflexivity]. Qed.

Lemma bootable_screen ram im mbd d m k h p mods r : bootable ram im mbd (KMain d k h) p mods r ->
  bootable ram im mbd (KMain (set_screen m d) k h) p mods r.
Proof. intros []. by split. Qed.

Lemma bootable_le ram im mbd s p mods r r' : (r' <= r)%nat -> bootable ram im mbd s p mods r -> bootable ram im mbd s p mods r'.
Proof. intros Hr []. split; try done. lia. Qed.

(** [kmain] with the right magic number is the set-up and the start. *)
Lemma kmain_run ram im mbd file bp c d k h m : monitor_clear (screen d) = Ok (tt, m) ->
  kmain ram im mbd file MULTIBOOT_BOOTLOADER_MAGIC bp c (KMain d k h)
  = (mods ← kmain_setup ram im mbd; rs ← kmain_start ram im mods c; mret (Running rs)) (KMain (set_screen m d) k h).
Proof. intros E. unfold kmain. by rewrite (bind_Ok _ _ _ _ _ (on_screen_eq _ d k h _ _ E)). Qed.

(** ** Theorems *)

(** C10. The set-up of the kernel, from the first line of [kmain] to
    [kheap_init]: the processor gets its segments and gates, the kernel is
    mapped, and there is an empty heap on nine frames, after everything
    taken before and below the window of the page cache, which is in order;
    no tasks yet, and [r] frames are free for them.  Everything taken must
    lie in the first quarter of memory ([counted]): the bits of the frames
    beyond it are the same bytes as the tables of the kernel's directory
    ([paging_alloc]), and with so little memory that the kernel itself lies
    there, the program spoils them.  The bitset is never cleared, so the
    memory behind the modules must be zero ([bo_zero]). *)
Theorem kmain_sets_up ram im mbd s p mods r : bootable ram im mbd s p mods r -> screen_ok (screen (km_desc s)) ->
  exists s', kmain_setup ram im mbd s = Ok (mods, s') /\ set_up im s s' (boot_end_addr mbd p) r.
Proof. apply kmain_setup_ok. Qed.

(** C9. The kernel boots.  From the state the boot loader leaves, with modules
    that are ELF files of the user half and frames enough: [kmain] sets up
    the screen, the tables, paging, the heap and the timer, loads every
    module, in order, says so, and switches to the idle thread; the drivers'
    queue holds one thread per module at its entry point, the timer's
    handler is installed, and the invariant of the running system holds.
    Under [bootable], as for the set-up: everything taken, the pages of the
    modules too, lies in the first quarter of memory, and memory that was
    never written is zero.  And no module has uninitialised data
    ([module_ok]: [p_memsz] is [p_filesz] in every part): for such a part
    the loader clears memory behind it, and may stop the kernel
    ([Elf.elf_bss_panics]). *)
Theorem kmain_boots ram im mbd file s p mods Us names c bp r :
  bootable ram im mbd s p mods (sum_list (module_frames <$> Us) + r) ->
  Forall2 (module_ok ram) (mod_start <$> mods) Us -> Forall2 (has_name ram) mods names -> mods <> [] ->
  Z.of_nat (length mods) < 999999999 -> 0xE0000000 <= im_text im ->
  exists s' ts, kmain ram im mbd file MULTIBOOT_BOOTLOADER_MAGIC bp c s
      = Ok (Running (LoadedPid <$> seqZ 1 (Z.of_nat (length mods))), s') /\
    sys (kern s') /\ current_thread (k_g (kern s')) = idle_thread (k_g (kern s')) /\
    (exists i kp k th, idle_thread (k_g (kern s')) = i /\ starts_at (kern s') i kp k (im_task_idle im) 0 th) /\
    core (kern s') (upd (fun _ => []) PL_DRIVER ts) /\ Forall2 (launched ram (kern s')) (mod_start <$> mods) ts /\
    free_count (frames (k_g (kern s'))) r /\
    processor_ready im (km_desc s') /\ km_handlers s' !! 0 = Some (im_timer_callback im) /\
    exists m0 phys, monitor_clear (screen (km_desc s)) = Ok (tt, m0) /\
      wrote (setup_text phys ++ start_text names) m0 (screen (km_desc s')).
Proof.
  intros HB HF HN Hne Hlen Htext. destruct s as [d k h]. destruct (cleared (screen d)) as (m0 & Em & Wm).
  destruct (kmain_setup_ok ram im mbd (KMain (set_screen m0 d) k h) p mods _ (bootable_screen _ _ _ _ m0 _ _ _ _ _ HB) Wm) as
    (s1 & E1 & SU). destruct s1 as [d1 k1 h1]. destruct SU as [_ _ _ _ _ HT Hpid HPr Hh (phys & Hw)].
  unfold kern in HT, Hpid. cbn [km_mem km_desc km_handlers] in *.
  pose proof (bb_manager _ _ _ _ _ _ _ HB) as (_ & _ & Hp1). unfold kern in Hp1. cbn [km_mem] in Hp1.
  destruct (kmain_ok ram (im_text im) (im_task_idle im) (mod_start <$> mods) Us c (m_k (mm k1)) r Htext HF) as
    (k2 & ts & E2 & Y1 & Y2 & Y3 & Y4 & Y5 & Y6).
  { intros ->%fmap_nil_inv. done. } { exact HT. } { by rewrite Hpid. } { rewrite length_fmap. lia. }
  rewrite length_fmap in E2. pose proof (Forall2_length _ _ _ HN) as Hl.
  destruct (kmain_start_ok ram im mods names c k2 d1 k1 h1 HN (proj2 Hw) Hlen) as (d2 & E3 & W2 & G2 & I2); [by rewrite <- Hl|].
  rewrite <- Hl in E3.
  exists (KMain d2 (set_mm (set_mk k2 (mm k1)) k1) (idt_handleIrq 0 (im_timer_callback im) h1)), ts.
  split; [|do 6 (split; [done|]); split; [|split]].
  - rewrite (kmain_run _ _ _ _ _ _ _ _ _ _ Em), (bind_Ok _ _ _ _ _ E1). by rewrite (bind_Ok _ _ _ _ _ E3).
  - destruct HPr as [S1 S2]. split; cbn [km_desc]; [by rewrite G2 | by rewrite I2].
  - apply lookup_insert_eq.
  - exists m0, phys. split; [exact Em|]. eapply wrote_app; [exact Hw | exact W2].
Qed.

(** With another magic number than the boot loader's the kernel says so,
    with the trace of the stack, and halts; memory is as it was. *)
Theorem kmain_wrong_magic ram im mbd file magic bp c s : magic <> MULTIBOOT_BOOTLOADER_MAGIC -> u32 bp ->
  exists s', kmain ram im mbd file magic bp c s = Ok (Halted, s') /\ km_mem s' = km_mem s /\
    exists m0, monitor_clear (screen (km_desc s)) = Ok (tt, m0) /\
      wrote ((LF :: LF :: text "ASSERT FAILED:" ++ [TAB]) ++ text "magic == MULTIBOOT_BOOTLOADER_MAGIC" ++ halt_text ram file 21 bp)
        m0 (screen (km_desc s')).
Proof.
  intros Hm Hbp. destruct s as [d k h]. destruct (cleared (screen d)) as (m0 & Em & Wm).
  destruct (prints_on (panic_assert ram (fun _ => true) (text "magic == MULTIBOOT_BOOTLOADER_MAGIC") file 21 bp)
    ((LF :: LF :: text "ASSERT FAILED:" ++ [TAB]) ++ text "magic == MULTIBOOT_BOOTLOADER_MAGIC" ++ halt_text ram file 21 bp)
    (set_screen m0 d) k h) as (m & E & Wr); [|exact Wm|].
  { unfold panic_assert. do 2 (apply prints_bind; [by auto with grapes|]). by apply panic_do_prints. }
  exists (KMain (set_screen m d) k h). split; [|split; [done | by exists m0]].
  unfold kmain. rewrite (bind_Ok _ _ _ _ _ (on_screen_eq _ d k h _ _ Em)), (proj2 (Z.eqb_neq _ _) Hm). cbn [negb].
  by rewrite (bind_Ok _ _ _ _ _ E).
Qed.

(** ** A sample: the file of [Elf] as the only module, 64 megabytes *)

(** The list of modules is at 0xE0090000, the name at 0xE0090100. *)
Definition sample_ram : mem := fun a =>
  if a <? 0xE0100000 then
    if (0xE0090000 <=? a) && (a <? 0xE009000C) then
      default 0 ([0; 0; 0x10; 0; 0x60; 0; 0x10; 0; 0; 1; 9; 0] !! Z.to_nat (a - 0xE0090000))
    else if a =? 0xE0090100 then 109 else 0
  else sample_file 6 a.

Definition sample_image : image :=
  Image 0xE00F0000 0xE0010000 0xE0010100 0xE0020000 (fun i => 0xE0001000 + Z.of_nat i) (fun i => 0xE0002000 + Z.of_nat i)
    0xE0003000 0xE0004000 0xE0005000 0xE0000000.
Definition sample_mbd : multiboot_info := MultibootInfo 640 64896 1 0x90000.
Definition sample_start : kmain_state :=
  KMain sample_desc (HState (Heap 0 0 0 0 0) (fun _ => 0)
    (KBack (MState (boot_state 0 0) (PCache 0 0 sample_pages 0 0)) (fun _ _ => 0) 0)) ∅.

Example kmain_sample_run :
  match kmain sample_ram sample_image sample_mbd [] MULTIBOOT_BOOTLOADER_MAGIC 0 (0, 0, 0) sample_start with
  | Ok (r, s) => r = Running [LoadedPid 1] /\ idx (hp (km_mem s)) = 0xE010F000 /\
      take 46 (map (fun c => Z.land c 0xFF) (video_memory (screen (km_desc s)))) = text "Grapes 0.0.4 'Cat in my heart' starting up :  "
  | Fault _ => False
  end.
Proof. vm_compute. repeat split. Qed.

Lemma sample_ram_phdrs :
  rd_phdrs sample_ram (Z.to_nat (e_phnum (rd_ehdr sample_ram 0xE0100000))) (0xE0100000 + e_phoff (rd_ehdr sample_ram 0xE0100000))
  = [Phdr 1 84 0x400000 0 6 6 5 0x1000].
Proof. vm_compute. reflexivity. Qed.

Lemma sample_ram_module : module_ok sample_ram 0xE0100000 {[0x400]}.
Proof.
  split; [vm_compute; reflexivity | | | apply Elf.sample_pages]; unfold module_phdrs; rewrite sample_ram_phdrs; (constructor; [|constructor]).
  - intros _. cbn. repeat split; (done || lia).
  - intros _ y Hy. cbn in Hy. apply elem_of_singleton. Z.div_mod_to_equations. lia.
Qed.

Definition sample_mods : list module_t := [Module_t 0xE0100000 0xE0100060 0xE0090100].

Lemma sample_bootable : bootable sample_ram sample_image sample_mbd sample_start 0xE0101000 sample_mods
  (sum_list (module_frames <$> [{[0x400]} : gset Z]) + 0).
Proof.
  assert (Et : total_ram sample_mbd = 0x4000000) by reflexivity.
  assert (Ei : INDEX_FROM_BIT (0x4000000 / 0x1000) = 512) by reflexivity.
  split; unfold boot_end_addr; rewrite ?Et, ?Ei; try done.
  - split; try done; rewrite ?Ei; cbn; unfold kaddr; try lia.
    intros x Hx. unfold sample_ram. rewrite (proj2 (Z.ltb_ge _ _)) by lia. unfold sample_file.
    rewrite lookup_ge_None_2; [done|]. cbn. lia.
  - split; [cbn; unfold u32; lia|]. split; [intros i Hi; cbn; unfold u32; lia|]. split; [intros i Hi; cbn; unfold u32; lia | cbn; unfold u32; lia].
Qed.

Lemma sample_names : Forall2 (has_name sample_ram) sample_mods [[109]].
Proof.
  constructor; [|constructor]. split; [|cbn; lia]. apply cstr_cons. split_and!; try done. by apply cstr_nil.
Qed.

Lemma kmain_sets_up_witness : exists s', kmain_setup sample_ram sample_image sample_mbd (KMain (set_screen sample_screen sample_desc)
    (km_mem sample_start) ∅) = Ok (sample_mods, s') /\
  set_up sample_image (KMain (set_screen sample_screen sample_desc) (km_mem sample_start) ∅) s' 0xE0101200 3.
Proof.
  apply (kmain_sets_up sample_ram sample_image sample_mbd (KMain (set_screen sample_screen sample_desc) (km_mem sample_start) ∅)
    0xE0101000 sample_mods 3).
  - apply (bootable_screen _ _ _ sample_desc sample_screen). exact sample_bootable.
  - exact sample_screen_ok.
Defined.

Lemma kmain_boots_witness :
  exists s' ts, kmain sample_ram sample_image sample_mbd [] MULTIBOOT_BOOTLOADER_MAGIC 0 (0, 0, 0) sample_start
      = Ok (Running [LoadedPid 1], s') /\
    sys (kern s') /\ current_thread (k_g (kern s')) = idle_thread (k_g (kern s')) /\
    (exists i kp k th, idle_thread (k_g (kern s')) = i /\ starts_at (kern s') i kp k 0xE0005000 0 th) /\
    core (kern s') (upd (fun _ => []) PL_DRIVER ts) /\ Forall2 (launched sample_ram (kern s')) [0xE0100000] ts /\
    free_count (frames (k_g (kern s'))) 0 /\
    processor_ready sample_image (km_desc s') /\ km_handlers s' !! 0 = Some 0xE0004000 /\
    exists m0 phys, monitor_clear (screen (km_desc sample_start)) = Ok (tt, m0) /\
      wrote (setup_text phys ++ start_text [[109]]) m0 (screen (km_desc s')).
Proof.
  apply (kmain_boots sample_ram sample_image sample_mbd [] sample_start 0xE0101000 sample_mods [{[0x400]}] [[109]] (0, 0, 0) 0 0).
  - exact sample_bootable.
  - constructor; [apply sample_ram_module | constructor].
  - exact sample_names.
  - done.
  - cbn. lia.
  - cbn. lia.
Defined.

Lemma kmain_wrong_magic_witness : exists s', kmain sample_ram sample_image sample_mbd [] 0 0xE0080000 (0, 0, 0) sample_start = Ok (Halted, s') /\
  km_mem s' = km_mem sample_start.
Proof.
  destruct (kmain_wrong_magic sample_ram sample_image sample_mbd [] 0 0xE0080000 (0, 0, 0) sample_start) as (s' & E & Em & _);
    [done | unfold u32; lia |]. exists s'. exact (conj E Em).
Defined.
