(* ===== verification/UShm.v ===== *)
(** * The shared-memory area of a process

    [src/library/gc/shm.c]: the user library hands out pieces of the
    address range from 0x80000000 to 0xD0000000, kept as a doubly linked
    list of blocks in address order.  The blocks come from [malloc], which
    here always succeeds (the code does not check). *)

From S2P Require Import Prelude.

Record shm_block := ShmBlock { b_start : Z; b_size : Z; is_hole : Z; b_prev : ptr; b_next : ptr }.

Definition set_b_size (x : Z) (b : shm_block) : shm_block :=
  ShmBlock (b_start b) x (is_hole b) (b_prev b) (b_next b).
Definition set_is_hole (x : Z) (b : shm_block) : shm_block :=
  ShmBlock (b_start b) (b_size b) x (b_prev b) (b_next b).
Definition set_b_prev (x : ptr) (b : shm_block) : shm_block :=
  ShmBlock (b_start b) (b_size b) (is_hole b) x (b_next b).
Definition set_b_next (x : ptr) (b : shm_block) : shm_block :=
  ShmBlock (b_start b) (b_size b) (is_hole b) (b_prev b) x.

Record ushm := UShm { ub : gmap Z shm_block; blocks : ptr; tMutex : Z }.

#[export] Instance Store_shm_block : Store ushm shm_block.
Proof.
  refine {| st_get := ub; st_put m s := UShm m (blocks s) (tMutex s) |}; try reflexivity.
  by intros [].
Defined.

#[export] Instance Linked_shm_block : Linked shm_block :=
  {| nxt := b_next; set_nxt := set_b_next; nxt_set _ _ := eq_refl |}.

Definition set_blocks (p : ptr) (s : ushm) : ushm := UShm (ub s) p (tMutex s).
Definition set_tMutex (v : Z) (s : ushm) : ushm := UShm (ub s) (blocks s) v.

Definition SHM_LO : Z := 0x80000000.
Definition SHM_HI : Z := 0xD0000000.

(** [mutex_lock(&tMutex)]: it waits for as long as another thread holds the
    mutex. *)
Definition lock_blocks : M ushm unit :=
  m ← gets tMutex;
  if m =? 1 then fail NoFuel else modify (set_tMutex 1).
Definition unlock_blocks : M ushm unit := modify (set_tMutex 0).

Definition shm_init : M ushm unit :=
  b ← new (ShmBlock SHM_LO (SHM_HI - SHM_LO) 1 0 0);
  modify (set_blocks b).

(** [if (size & 0xFFF) size = (size & 0xFFFFF000) + 0x1000;] *)
Definition page_up (size : Z) : Z :=
  if page_off size =? 0 then size else w32 (page_mask size + 0x1000).

(** The loop of [shm_alloc]: [block] is the smallest hole so far. *)
Definition best_step (size : Z) (st : ptr * ptr) : M ushm ((ptr * ptr) + ptr) :=
  let '(i, block) := st in
  if i =? 0 then mret (inr block)
  else
    a ← load (A := shm_block) i;
    if (size <=? b_size a) && (is_hole a =? 1) then
      if block =? 0 then mret (inl (b_next a, i))
      else
        c ← load (A := shm_block) block;
        mret (inl (b_next a, if b_size a <? b_size c then i else block))
    else mret (inl (b_next a, block)).

Definition best_block (size : Z) : M ushm ptr :=
  n ← gets (fun s => base.size (ub s));
  h ← gets blocks;
  loop (Datatypes.S n) (best_step size) (h, 0).

(** The part of [block] that is not asked for becomes a new block. *)
Definition split_block (block size : Z) : M ushm unit :=
  b ← load (A := shm_block) block;
  if size <? b_size b then
    newb ← new (ShmBlock (w32 (b_start b + size)) (b_size b - size) 1 block (b_next b));
    update block (set_b_size size);;
    (if b_next b =? 0 then mret tt else update (b_next b) (set_b_prev newb));;
    update block (set_b_next newb)
  else mret tt.

Definition shm_alloc (size : Z) : M ushm Z :=
  lock_blocks;;
  h ← gets blocks;
  when (h =? 0) shm_init;;
  let size := page_up size in
  block ← best_block size;
  if block =? 0 then unlock_blocks;; mret 0
  else
    split_block block size;;
    update block (set_is_hole 0);;
    unlock_blocks;;
    b ← load (A := shm_block) block;
    mret (b_start b).

Definition unify (b : ptr) : M ushm unit :=
  a ← load (A := shm_block) b;
  if (b_next a =? 0) || (is_hole a =? 0) then mret tt
  else
    n ← load (A := shm_block) (b_next a);
    if is_hole n =? 0 then mret tt
    else
      update b (fun a => set_b_size (w32 (b_size a + b_size n)) a);;
      (if b_next n =? 0 then mret tt else update (b_next n) (set_b_prev b));;
      update b (set_b_next (b_next n));;
      free (A := shm_block) (b_next a).

Definition unify_if_hole (p b : ptr) : M ushm unit :=
  if p =? 0 then mret tt
  else n ← load (A := shm_block) p; when (is_hole n =? 1) (unify b).

Definition shm_free (p : Z) : M ushm unit :=
  lock_blocks;;
  h ← gets blocks;
  bl ← walk (A := shm_block) (fun _ b => b_start b =? p) h;
  if bl =? 0 then unlock_blocks
  else
    update bl (set_is_hole 1);;
    b ← load (A := shm_block) bl;
    unify_if_hole (b_next b) bl;;
    b ← load (A := shm_block) bl;
    unify_if_hole (b_prev b) (b_prev b);;
    unlock_blocks.

(** ** Specification: a tiling of the area *)

(** A block as start, size and hole flag. *)
Definition ent (m : gmap Z shm_block) (x : Z) : Z * Z * Z :=
  match m !! x with Some b => (b_start b, b_size b, is_hole b) | None => (0, 0, 0) end.

(** The [prev] pointers along the list. *)
Fixpoint prevs (m : gmap Z shm_block) (q : ptr) (l : list Z) : Prop :=
  match l with
  | [] => True
  | x :: l' => b_prev <$> m !! x = Some q /\ prevs m x l'
  end.

Record view (s : ushm) (l : list Z) (es : list (Z * Z * Z)) : Prop := {
  vw_linked : linked (ub s) (blocks s) l;
  vw_prevs : prevs (ub s) 0 l;
  vw_ents : es = ent (ub s) <$> l;
  vw_mutex : tMutex s = 0
}.

(** The blocks fill [lo, hi) in order, in whole pages. *)
Fixpoint tiles (es : list (Z * Z * Z)) (lo hi : Z) : Prop :=
  match es with
  | [] => lo = hi
  | (st, z, h) :: es' =>
      st = lo /\ 0 < z /\ z mod 4096 = 0 /\ (h = 0 \/ h = 1) /\ tiles es' (lo + z) hi
  end.

(** No two holes are neighbours (1 is a hole). *)
Fixpoint apart (fs : list Z) : Prop :=
  match fs with
  | h :: ((h' :: _) as fs') => ~ (h = 1 /\ h' = 1) /\ apart fs'
  | _ => True
  end.

(** The blocks in use. *)
Fixpoint taken (es : list (Z * Z * Z)) : list (Z * Z) :=
  match es with
  | [] => []
  | (st, z, h) :: es' => if h =? 0 then (st, z) :: taken es' else taken es'
  end.

Record shm_ok (s : ushm) (es : list (Z * Z * Z)) : Prop := {
  so_view : exists l, view s l es;
  so_tiles : tiles es SHM_LO SHM_HI;
  so_apart : apart es.*2
}.

(** ** Lemmas *)

Lemma same_but_prev m m' z : set_b_prev 0 <$> m' !! z = set_b_prev 0 <$> m !! z ->
  ent m' z = ent m z /\ b_next <$> m' !! z = b_next <$> m !! z.
Proof.
  unfold ent. destruct (m' !! z) as [[]|], (m !! z) as [[]|]; cbn; try done.
  by intros [= -> -> -> ->].
Qed.

Lemma prevs_app m q l1 x l2 : prevs m q (l1 ++ x :: l2) <-> prevs m q (l1 ++ [x]) /\ prevs m x l2.
Proof. revert q. induction l1 as [|y l1 IH]; intros q; cbn; [naive_solver|]. rewrite IH. naive_solver. Qed.

Lemma prevs_agree m m' q l : (forall x, x ∈ l -> b_prev <$> m' !! x = b_prev <$> m !! x) ->
  prevs m q l -> prevs m' q l.
Proof.
  revert q. induction l as [|x l IH]; intros q Hx; cbn; [done|]. intros [E H].
  rewrite Hx by set_solver. split; [done|]. apply IH; [|done]. intros y Hy. apply Hx. set_solver.
Qed.

Lemma lseg_same_next (m m' : gmap Z shm_block) p l q :
  (forall x, x ∈ l -> b_next <$> m' !! x = b_next <$> m !! x) -> lseg m p l q -> lseg m' p l q.
Proof.
  revert p. induction l as [|x l IH]; intros p Hx; cbn; [done|]. intros (-> & Hx0 & a & Ea & Hl).
  split; [done|]. split; [done|]. assert (E : b_next <$> m' !! x = Some (b_next a)) by (rewrite Hx, Ea by set_solver; done).
  destruct (m' !! x) as [a'|]; [|done].
  exists a'. split; [done|]. injection E as E. cbn [nxt Linked_shm_block]. rewrite E.
  apply IH; [|done]. intros y Hy. apply Hx. set_solver.
Qed.

(** A map that differs from [m] at [x] and [y], and in the [prev] field of
    the block [w]. *)
Definition changed_at (m m' : gmap Z shm_block) (x y w : Z) (v : ptr) : Prop :=
  forall z, z <> x -> z <> y -> m' !! z = if negb (w =? 0) && (z =? w) then set_b_prev v <$> m !! z else m !! z.

Lemma changed_same m m' x y w v (l : list Z) : changed_at m m' x y w v -> x ∉ l -> y ∉ l ->
  forall z, z ∈ l -> ent m' z = ent m z /\ b_next <$> m' !! z = b_next <$> m !! z.
Proof.
  intros Hc Hx Hy z Hz. apply same_but_prev. rewrite Hc by set_solver.
  destruct (negb (w =? 0) && (z =? w)); [|done]. by destruct (m !! z).
Qed.

(** The [prev] fields after [x], when [v] is now the block before [w]. *)
Lemma changed_prevs m m' x y w v q l : changed_at m m' x y w v -> linked m w l -> x ∉ l -> y ∉ l ->
  prevs m q l -> prevs m' v l.
Proof.
  intros Hc Hl Hx Hy Hp. destruct l as [|z l]; [done|]. pose proof (linked_NoDup _ _ _ Hl) as Hnd.
  destruct Hl as (<- & Hw & a & Ea & _). destruct Hp as [_ Hp]. split.
  - rewrite Hc, Z.eqb_refl, (proj2 (Z.eqb_neq _ _) Hw), Ea by set_solver. done.
  - eapply prevs_agree; [|exact Hp]. intros u Hu. apply NoDup_cons in Hnd as [Hn _].
    rewrite Hc by set_solver. destruct (Z.eqb_spec u w) as [->|]; [done|by rewrite andb_false_r].
Qed.

Lemma changed_prefix m m' x y w v q l : changed_at m m' x y w v -> w ∉ l -> x ∉ l -> y ∉ l ->
  prevs m q l -> prevs m' q l.
Proof.
  intros Hc Hw Hx Hy. apply prevs_agree. intros z Hz. rewrite Hc by set_solver.
  destruct (Z.eqb_spec z w) as [->|]; [done|by rewrite andb_false_r].
Qed.

(** The successor of a node is not before it. *)
Lemma next_not_before m p l1 x l2 a : linked m p (l1 ++ x :: l2) -> m !! x = Some a ->
  b_next a ∉ l1 ++ [x].
Proof.
  intros Hl Ea Hin. pose proof (linked_NoDup _ _ _ Hl) as Hnd.
  destruct (linked_at _ _ _ _ _ Hl) as (Hx & a' & Ea' & H1 & H2). replace a' with a in * by congruence.
  destruct l2 as [|w l2].
  - apply linked_nil in H2. cbn in H2. rewrite H2 in Hin.
    apply elem_of_app in Hin as [Hin|Hin%list_elem_of_singleton]; [|done].
    by destruct (lseg_in_dom _ _ _ _ _ H1 Hin).
  - destruct H2 as (E & _). cbn in E. rewrite E in Hin.
    replace (l1 ++ x :: w :: l2) with ((l1 ++ [x]) ++ w :: l2) in Hnd by (by rewrite <- app_assoc). apply NoDup_app in Hnd as (_ & Hd & _). apply (Hd w Hin). set_solver.
Qed.

(** A block [y] put in after [x]. *)
Lemma view_insert m m' p l1 x a a' y nb l2 :
  linked m p (l1 ++ x :: l2) -> prevs m 0 (l1 ++ x :: l2) -> m !! x = Some a -> m !! y = None -> y <> 0 ->
  m' !! x = Some a' -> b_next a' = y -> b_prev a' = b_prev a ->
  m' !! y = Some nb -> b_next nb = b_next a -> b_prev nb = x -> changed_at m m' x y (b_next a) y ->
  linked m' p (l1 ++ x :: y :: l2) /\ prevs m' 0 (l1 ++ x :: y :: l2) /\
  ent m' <$> l1 = ent m <$> l1 /\ ent m' <$> l2 = ent m <$> l2.
Proof.
  intros Hl Hp Ea Ey Hy Ea' En' Ep' Enb Enn Epn Hc. pose proof (linked_NoDup _ _ _ Hl) as Hnd.
  pose proof (linked_fresh _ _ _ _ Hl Ey) as Hfy. pose proof (next_not_before _ _ _ _ _ _ Hl Ea) as Hw.
  destruct (linked_at _ _ _ _ _ Hl) as (Hx & a0 & Ea0 & H1 & H2). replace a0 with a in * by congruence.
  apply NoDup_app in Hnd as (_ & Hd & [Hx2 _]%NoDup_cons).
  assert (Hx1 : x ∉ l1) by (intros Hi; apply (Hd x Hi); set_solver).
  assert (Hy1 : y ∉ l1) by set_solver. assert (Hy2 : y ∉ l2) by set_solver.
  pose proof (changed_same _ _ _ _ _ _ l1 Hc Hx1 Hy1) as S1.
  pose proof (changed_same _ _ _ _ _ _ l2 Hc Hx2 Hy2) as S2.
  apply prevs_app in Hp as [Hp1 Hp2]. split; [|split; [|split]].
  - apply lseg_app. exists x. split; [eapply lseg_same_next; [|exact H1]; intros z Hz; by apply S1|].
    split; [done|]. split; [done|]. exists a'. split; [done|]. cbn [nxt Linked_shm_block]. rewrite En'.
    split; [done|]. split; [done|]. exists nb. split; [done|]. cbn [nxt Linked_shm_block]. rewrite Enn.
    eapply lseg_same_next; [|exact H2]. intros z Hz. by apply S2.
  - apply prevs_app. split.
    + destruct l1 as [|u l1 _] using rev_ind.
      * cbn in *. rewrite Ea in Hp1. rewrite Ea'. cbn in *. by rewrite Ep'.
      * rewrite <- app_assoc in *. cbn [app] in *. apply prevs_app in Hp1 as [Hp1 [Hpx _]]. apply prevs_app.
        split; [eapply (changed_prefix m m' x y (b_next a)); try done; set_solver|].
        split; [|done]. rewrite Ea in Hpx. rewrite Ea'. cbn in *. by rewrite Ep'.
    + cbn. rewrite Enb. cbn. rewrite Epn. split; [done|]. by apply (changed_prevs m m' x y (b_next a) y x l2).
  - apply list_fmap_ext. intros i z Hz. apply S1. by eapply list_elem_of_lookup_2.
  - apply list_fmap_ext. intros i z Hz. apply S2. by eapply list_elem_of_lookup_2.
Qed.

(** The block [y] after [x] taken out. *)
Lemma view_remove m m' p l1 x a a' y n l2 :
  linked m p (l1 ++ x :: y :: l2) -> prevs m 0 (l1 ++ x :: y :: l2) -> m !! x = Some a -> m !! y = Some n ->
  m' !! x = Some a' -> b_next a' = b_next n -> b_prev a' = b_prev a -> changed_at m m' x y (b_next n) x ->
  linked m' p (l1 ++ x :: l2) /\ prevs m' 0 (l1 ++ x :: l2) /\
  ent m' <$> l1 = ent m <$> l1 /\ ent m' <$> l2 = ent m <$> l2.
Proof.
  intros Hl Hp Ea En Ea' En' Ep' Hc. pose proof (linked_NoDup _ _ _ Hl) as Hnd.
  assert (Hw : b_next n ∉ (l1 ++ [x]) ++ [y]).
  { eapply next_not_before; [|exact En]. rewrite <- app_assoc. exact Hl. }
  destruct (linked_at _ _ _ _ _ Hl) as (Hx & a0 & Ea0 & H1 & (Exy & Hy & n0 & En0 & H2)).
  replace a0 with a in * by congruence. replace n0 with n in * by congruence.
  apply NoDup_app in Hnd as (_ & Hd & [Hxy [Hy2 _]%NoDup_cons]%NoDup_cons).
  assert (Hx1 : x ∉ l1) by (intros Hi; apply (Hd x Hi); set_solver).
  assert (Hy1 : y ∉ l1) by (intros Hi; apply (Hd y Hi); set_solver).
  assert (Hx2 : x ∉ l2) by set_solver.
  pose proof (changed_same _ _ _ _ _ _ l1 Hc Hx1 Hy1) as S1.
  pose proof (changed_same _ _ _ _ _ _ l2 Hc Hx2 Hy2) as S2.
  apply prevs_app in Hp as [Hp1 [_ Hp2]]. split; [|split; [|split]].
  - apply lseg_app. exists x. split; [eapply lseg_same_next; [|exact H1]; intros z Hz; by apply S1|].
    split; [done|]. split; [done|]. exists a'. split; [done|]. cbn [nxt Linked_shm_block]. rewrite En'.
    eapply lseg_same_next; [|exact H2]. intros z Hz. by apply S2.
  - apply prevs_app. split.
    + destruct l1 as [|u l1 _] using rev_ind.
      * cbn in *. rewrite Ea in Hp1. rewrite Ea'. cbn in *. by rewrite Ep'.
      * rewrite <- app_assoc in *. cbn [app] in *. apply prevs_app in Hp1 as [Hp1 [Hpx _]]. apply prevs_app.
        split; [eapply (changed_prefix m m' x y (b_next n)); try done; set_solver|].
        split; [|done]. rewrite Ea in Hpx. rewrite Ea'. cbn in *. by rewrite Ep'.
    + by apply (changed_prevs m m' x y (b_next n) x y l2).
  - apply list_fmap_ext. intros i z Hz. apply S1. by eapply list_elem_of_lookup_2.
  - apply list_fmap_ext. intros i z Hz. apply S2. by eapply list_elem_of_lookup_2.
Qed.

(** ** Choosing a hole *)

Definition width (m : gmap Z shm_block) (x : Z) : Z := (ent m x).1.2.
Definition fitsb (m : gmap Z shm_block) (z x : Z) : bool := (z <=? width m x) && ((ent m x).2 =? 1).

(** The better of [block] (if any) and [x]; the search is a fold of it. *)
Definition better (m : gmap Z shm_block) (z block x : Z) : Z :=
  if fitsb m z x then if block =? 0 then x else if width m x <? width m block then x else block
  else block.

Lemma best_step_ok z s x a block : x <> 0 -> ub s !! x = Some a ->
  (block <> 0 -> is_Some (ub s !! block)) ->
  best_step z (x, block) s = Ok (inl (b_next a, better (ub s) z block x), s).
Proof.
  intros Hx Ea Hb. unfold better, fitsb, width. unfold ent at 1 2 3. rewrite Ea. cbn [fst snd].
  apply wp_eq_Ok. unfold best_step. rewrite (proj2 (Z.eqb_neq _ _) Hx). wp_steps.
  destruct ((z <=? b_size a) && (is_hole a =? 1)); [|by wp_steps].
  destruct (Z.eqb_spec block 0) as [|Hbl]; [by wp_steps|].
  destruct (Hb Hbl) as [c Ec]. unfold ent. rewrite Ec. by wp_steps.
Qed.

Lemma better_some m z block x : is_Some (m !! x) -> (block <> 0 -> is_Some (m !! block)) ->
  better m z block x <> 0 -> is_Some (m !! better m z block x).
Proof.
  intros Hx Hb. unfold better. destruct (fitsb m z x); [|done].
  destruct (Z.eqb_spec block 0); [done|]. by destruct (_ <? _); auto.
Qed.

Lemma best_loop z s l : forall i block n, linked (ub s) i l -> (length l < n)%nat ->
  (block <> 0 -> is_Some (ub s !! block)) ->
  loop n (best_step z) (i, block) s = Ok (foldl (better (ub s) z) block l, s).
Proof.
  induction l as [|x l IH]; intros i block n Hl Hn Hb; (destruct n as [|n]; [simpl in Hn; lia|]); rewrite loop_S.
  - by apply linked_nil in Hl as ->.
  - destruct Hl as (-> & Hx & a & Ea & Hl). rewrite (bind_Ok _ _ _ _ _ (best_step_ok z s x a block Hx Ea Hb)).
    cbn [foldl]. apply IH; [exact Hl | simpl in Hn; lia|]. apply better_some; [by rewrite Ea | done].
Qed.

(** The fold answers a hole that fits, and the smallest of them. *)
Lemma best_none m z l : (forall x, x ∈ l -> x <> 0) -> forall block,
  foldl (better m z) block l = 0 -> block = 0 /\ forall x, x ∈ l -> fitsb m z x = false.
Proof.
  induction l as [|x l IH]; intros Hnz block; cbn [foldl]; [intros ->; split; [done | set_solver]|].
  intros (E & Hno)%IH; [|intros; apply Hnz; set_solver]. unfold better in E.
  destruct (fitsb m z x) eqn:Ef.
  - exfalso. pose proof (Hnz x ltac:(set_solver)). destruct (Z.eqb_spec block 0); [done|].
    destruct (_ <? _); done.
  - split; [done|]. intros y [->|Hy]%elem_of_cons; [done | by apply Hno].
Qed.

Lemma best_some m z l : (forall x, x ∈ l -> x <> 0) -> forall block,
  (block <> 0 -> fitsb m z block = true) -> let r := foldl (better m z) block l in r <> 0 ->
  (r = block \/ r ∈ l) /\ fitsb m z r = true /\
  (block <> 0 -> width m r <= width m block) /\
  (forall x, x ∈ l -> fitsb m z x = true -> width m r <= width m x).
Proof.
  induction l as [|x l IH]; intros Hnz block Hb; cbn [foldl].
  - intros Hr. split; [by left|]. split; [by apply Hb|]. split; [lia | set_solver].
  - intros Hr. set (b' := better m z block x) in *.
    assert (Hx0 : x <> 0) by (apply Hnz; set_solver).
    assert (Hor : (b' = block \/ b' = x) /\ (b' <> 0 -> fitsb m z b' = true) /\
      (block <> 0 -> b' <> 0 /\ width m b' <= width m block) /\
      (fitsb m z x = true -> b' <> 0 /\ width m b' <= width m x)).
    { unfold b', better. destruct (fitsb m z x) eqn:Ef; [|split; [by left|]; split; [done|]; split; [lia | done]].
      destruct (Z.eqb_spec block 0) as [->|Hbl]; [split; [by right|]; split; [done|]; split; [done|lia]|].
      destruct (Z.ltb_spec (width m x) (width m block)); (split; [by auto|]; split; [by auto|]; split; lia). }
    destruct Hor as (Hin & Hf & H1 & H2).
    destruct (IH (fun y Hy => Hnz y ltac:(set_solver)) b' Hf Hr) as (R1 & R2 & R3 & R4).
    split; [|split; [done|split]].
    + destruct R1 as [->|?]; [|right; set_solver]. destruct Hin as [->| ->]; [by left | right; set_solver].
    + intros Hbl. destruct (H1 Hbl) as [Hb0 Hle]. specialize (R3 Hb0). lia.
    + intros y [->|Hy]%elem_of_cons Hfy; [|by apply R4]. destruct (H2 Hfy) as [Hb0 Hle]. specialize (R3 Hb0). lia.
Qed.

(** ** The blocks after a split *)

Lemma tiles_app es1 e es2 lo hi : tiles (es1 ++ e :: es2) lo hi <->
  exists mid, tiles es1 lo mid /\ tiles (e :: es2) mid hi.
Proof.
  revert lo. induction es1 as [|[[st z] h] es1 IH]; intros lo; cbn [app].
  - split; [intros H; by exists lo | by intros (mid & <- & H)].
  - cbn [tiles]. rewrite IH. naive_solver.
Qed.

Lemma apart_app l1 h l2 : apart (l1 ++ h :: l2) <-> apart (l1 ++ [h]) /\ apart (h :: l2).
Proof.
  induction l1 as [|x l1 IH]; [cbn; naive_solver|].
  destruct l1 as [|y l1]; cbn [app apart] in *; naive_solver.
Qed.

Lemma apart_snoc_used l : apart l -> apart (l ++ [0]).
Proof.
  induction l as [|x l IH]; [done|]. destruct l as [|y l]; cbn [app apart] in *; [intros _; split; [lia|done]|].
  intros [H1 H2]. split; [done | by apply IH].
Qed.

Lemma apart_prefix l1 l2 : apart (l1 ++ l2) -> apart l1.
Proof.
  induction l1 as [|x l1 IH]; [done|]. destruct l1 as [|y l1]; [done|]. cbn [app apart] in *. naive_solver.
Qed.

Lemma apart_tail h l : apart (h :: l) -> apart l.
Proof. destruct l; cbn; naive_solver. Qed.

(** Replacing a hole by a used block, possibly followed by a hole. *)
Lemma apart_alloc l1 l2 : apart (l1 ++ 1 :: l2) -> apart (l1 ++ 0 :: l2) /\ apart (l1 ++ 0 :: 1 :: l2).
Proof.
  intros H. pose proof (apart_snoc_used _ (apart_prefix _ _ H)) as H0. apply apart_app in H as [_ H2].
  split; apply apart_app; (split; [done|]).
  - destruct l2 as [|y l2]; [done|]. cbn. split; [lia|]. by apply apart_tail in H2.
  - cbn. split; [lia | exact H2].
Qed.

Lemma view_split s l es x : view s l es -> x ∈ l -> exists l1 l2 es1 es2 a,
  l = l1 ++ x :: l2 /\ ub s !! x = Some a /\ x <> 0 /\
  es = es1 ++ (b_start a, b_size a, is_hole a) :: es2 /\ es1 = ent (ub s) <$> l1 /\ es2 = ent (ub s) <$> l2.
Proof.
  intros [V1 V2 -> V4] (l1 & l2 & ->)%list_elem_of_split.
  destruct (linked_at _ _ _ _ _ V1) as (Hx & a & Ea & _).
  exists l1, l2, (ent (ub s) <$> l1), (ent (ub s) <$> l2), a. split; [done|]. split; [done|]. split; [done|].
  split; [|done]. rewrite fmap_app, fmap_cons. unfold ent at 2. by rewrite Ea.
Qed.

(** Marking a block changes its entry only. *)
Lemma view_update s l1 x a l2 f : let es1 := ent (ub s) <$> l1 in let es2 := ent (ub s) <$> l2 in
  linked (ub s) (blocks s) (l1 ++ x :: l2) -> prevs (ub s) 0 (l1 ++ x :: l2) -> ub s !! x = Some a ->
  (forall b, b_next (f b) = b_next b /\ b_prev (f b) = b_prev b) ->
  view (UShm (<[x := f a]> (ub s)) (blocks s) 0) (l1 ++ x :: l2)
    (es1 ++ (b_start (f a), b_size (f a), is_hole (f a)) :: es2).
Proof.
  intros es1 es2 Hl Hp Ea Hf. destruct (Hf a) as [Hfn Hfp]. pose proof (linked_NoDup _ _ _ Hl) as Hnd.
  apply NoDup_app in Hnd as (_ & Hd & [Hx2 _]%NoDup_cons).
  assert (Hx1 : x ∉ l1) by (intros Hi; apply (Hd x Hi); set_solver).
  assert (He : forall (k : list Z), x ∉ k -> ent (<[x := f a]> (ub s)) <$> k = ent (ub s) <$> k).
  { intros k Hk. apply list_fmap_ext. intros i y Hy. unfold ent. rewrite lookup_insert_ne; [done|].
    intros ->. apply Hk. by eapply list_elem_of_lookup_2. }
  split; cbn [ub blocks tMutex]; [| | |done].
  - eapply lseg_insert_same; [exact Ea | exact Hfn | exact Hl].
  - eapply prevs_agree; [|exact Hp]. intros y _. destruct (decide (x = y)) as [->|]; [|by rewrite lookup_insert_ne].
    rewrite lookup_insert_eq, Ea. cbn. by rewrite Hfp.
  - rewrite fmap_app, fmap_cons, !He by done. unfold ent at 2. by rewrite lookup_insert_eq.
Qed.

(** Running the block operations. *)
Ltac usimp := cbn [st_get st_put Store_shm_block ub blocks tMutex set_tMutex set_blocks
                   b_start b_size is_hole b_prev b_next set_b_size set_is_hole set_b_prev set_b_next].
Ltac ulookup :=
  usimp; repeat first [ eassumption | reflexivity | rewrite lookup_insert_eq
                      | rewrite lookup_insert_ne by (done || congruence) ].
Ltac ustep :=
  lazymatch goal with
  | |- wp (load _) _ _ => eapply wp_load; [solve [done | congruence] | solve [ulookup] |]
  | |- wp (update _ _) _ _ => eapply wp_update; [solve [done | congruence] | solve [ulookup] |]
  | |- wp (new _) _ _ => apply wp_new
  | |- wp (free _) _ _ => apply wp_free
  | |- _ => wp_step
  end; cbn beta.
Ltac usteps := repeat (ustep; usimp).

(** Taking [z] bytes from the hole [x]: the rest, if any, becomes a hole of
    its own. *)
Lemma take_block s l1 x a l2 z : let es1 := ent (ub s) <$> l1 in let es2 := ent (ub s) <$> l2 in
  linked (ub s) (blocks s) (l1 ++ x :: l2) -> prevs (ub s) 0 (l1 ++ x :: l2) -> ub s !! x = Some a ->
  0 < z <= b_size a -> 0 <= b_start a -> b_start a + b_size a < W32 ->
  exists s' l', (split_block x z;; update x (set_is_hole 0);; unlock_blocks;;
                 b ← load (A := shm_block) x; mret (b_start b)) s = Ok (b_start a, s') /\
    view s' l' (es1 ++ (b_start a, z, 0) ::
                 (if z =? b_size a then es2 else (b_start a + z, b_size a - z, 1) :: es2)).
Proof.
  intros es1 es2 Hl Hp Ea Hz Hst Hend.
  destruct (linked_at _ _ _ _ _ Hl) as (Hx & a0 & Ea0 & _ & H2). replace a0 with a in * by congruence.
  cbn [nxt Linked_shm_block] in H2. destruct (Z.eqb_spec z (b_size a)) as [->|Hne].
  - exists (UShm (<[x := set_is_hole 0 a]> (ub s)) (blocks s) 0), (l1 ++ x :: l2). split.
    + apply wp_eq_Ok. unfold split_block. wp_steps. rewrite Z.ltb_irrefl. wp_steps. unfold unlock_blocks. wp_steps.
      { cbn. apply lookup_insert_eq. } done.
    + by apply (view_update s l1 x a l2 (set_is_hole 0)).
  - set (y := fresh_ptr (ub s)). pose proof (fresh_ptr_None (ub s)) as Ey. fold y in Ey.
    assert (Hy : y <> 0) by (pose proof (fresh_ptr_pos (ub s)); unfold y; lia).
    assert (Hxy : x <> y) by (intros ->; congruence).
    set (nb := ShmBlock (b_start a + z) (b_size a - z) 1 x (b_next a)).
    set (a' := set_is_hole 0 (set_b_next y (set_b_size z a))).
    assert (Hw : b_next a <> 0 -> exists c, ub s !! b_next a = Some c /\ b_next a <> x /\ b_next a <> y).
    { intros Hw. destruct (linked_cons_inv _ _ _ H2 Hw) as (c & l' & -> & Ec & _). exists c. split; [done|].
      split; [|intros E; rewrite E in Ec; congruence]. pose proof (next_not_before _ _ _ _ _ _ Hl Ea). set_solver. }
    assert (Hview : forall m', m' !! x = Some a' -> m' !! y = Some nb ->
      changed_at (ub s) m' x y (b_next a) y ->
      view (UShm m' (blocks s) 0) (l1 ++ x :: y :: l2)
        (es1 ++ (b_start a, z, 0) :: (b_start a + z, b_size a - z, 1) :: es2)).
    { intros m' Ex' Ey' Hc.
      destruct (view_insert (ub s) m' (blocks s) l1 x a a' y nb l2) as (X1 & X2 & X3 & X4); try done.
      split; try done. cbn [ub]. rewrite fmap_app, !fmap_cons, X3, X4. unfold ent at 2 3. by rewrite Ex', Ey'. }
    destruct (Z.eqb_spec (b_next a) 0) as [E0|Hne0].
    + eexists _, _. split; [|apply Hview].
      * apply wp_eq_Ok. unfold split_block, unlock_blocks. usteps. rewrite (proj2 (Z.ltb_lt _ _)) by lia. usteps.
        fold y. rewrite E0. cbn [Z.eqb]. usteps. rewrite !insert_insert_eq. reflexivity.
      * usimp. by rewrite lookup_insert_eq.
      * usimp. rewrite lookup_insert_ne, lookup_insert_eq by done. unfold nb. rewrite E0. f_equal. f_equal. unfold w32. apply Z.mod_small. lia.
      * intros u Hu1 Hu2. usimp. rewrite E0. cbn [negb Z.eqb andb]. by rewrite !lookup_insert_ne by done.
    + destruct (Hw Hne0) as (c & Ec & Hwx & Hwy). eexists _, _. split; [|apply Hview].
      * apply wp_eq_Ok. unfold split_block, unlock_blocks. usteps. rewrite (proj2 (Z.ltb_lt _ _)) by lia. usteps.
        fold y. rewrite (proj2 (Z.eqb_neq _ _) Hne0). usteps. reflexivity.
      * usimp. by rewrite lookup_insert_eq.
      * usimp. rewrite !lookup_insert_ne, lookup_insert_eq by done. unfold nb. f_equal. f_equal. unfold w32. apply Z.mod_small. lia.
      * intros u Hu1 Hu2. usimp. rewrite (proj2 (Z.eqb_neq _ _) Hne0). cbn [negb andb]. rewrite !lookup_insert_ne by done.
        destruct (Z.eqb_spec u (b_next a)) as [->|Hne1]; [by rewrite lookup_insert_eq, Ec | by rewrite !lookup_insert_ne by done].
Qed.

(** ** [shm_alloc] *)

Lemma page_up_spec size : 0 < size <= 0xFFFFF000 ->
  0 < page_up size /\ page_up size mod 4096 = 0 /\ size <= page_up size < size + 4096.
Proof.
  intros Hs. unfold page_up. rewrite page_off_mod. destruct (Z.eqb_spec (size mod 4096) 0) as [E|Hne]; [lia|].
  rewrite page_mask_sub by (unfold u32; lia). unfold w32.
  pose proof (Z.mod_pos_bound size 4096). Z.div_mod_to_equations. lia.
Qed.

Lemma tiles_in es lo hi st z h : tiles es lo hi -> (st, z, h) ∈ es -> lo <= st /\ 0 < z /\ st + z <= hi.
Proof.
  revert lo. induction es as [|[[st' z'] h'] es IH]; intros lo; cbn [tiles]; [set_solver|].
  intros (-> & Hz & _ & _ & Ht). assert (Hle : forall lo, tiles es lo hi -> lo <= hi).
  { clear. induction es as [|[[? ?] ?] es IH]; intros lo; cbn [tiles]; [lia|]. intros (-> & ? & _ & _ & Ht).
    specialize (IH _ Ht). lia. }
  specialize (Hle _ Ht). intros [[= -> -> ->]|Hin]%elem_of_cons; [lia|]. specialize (IH _ Ht Hin). lia.
Qed.

Lemma view_nonnull s l es x : view s l es -> x ∈ l -> x <> 0.
Proof. intros [V1 _ _ _] Hx. by apply (lseg_in_dom _ _ _ _ _ V1 Hx). Qed.

Lemma fitsb_entry s l es x z : view s l es -> x ∈ l -> fitsb (ub s) z x = true ->
  exists st, (st, width (ub s) x, 1) ∈ es /\ ent (ub s) x = (st, width (ub s) x, 1) /\ z <= width (ub s) x.
Proof.
  intros [_ _ -> _] Hx [H1%Z.leb_le H2%Z.eqb_eq]%andb_true_iff. unfold width in *.
  assert (E : ent (ub s) x = ((ent (ub s) x).1.1, (ent (ub s) x).1.2, 1)) by (rewrite <- H2; by destruct (ent _ _) as [[? ?] ?]).
  exists (ent (ub s) x).1.1. split; [|done]. rewrite <- E. by apply list_elem_of_fmap_2.
Qed.

Lemma entry_fitsb s l es st w z : view s l es -> (st, w, 1) ∈ es -> z <= w ->
  exists x, x ∈ l /\ width (ub s) x = w /\ fitsb (ub s) z x = true.
Proof.
  intros [_ _ -> _] (x & E & Hx)%list_elem_of_fmap Hz. exists x. unfold fitsb, width. rewrite <- E. cbn.
  rewrite (proj2 (Z.leb_le _ _) Hz). done.
Qed.

(** The search on a state that represents [es]. *)
Lemma best_block_ok s l es z : view s l es ->
  best_block z (set_tMutex 1 s) = Ok (foldl (better (ub s) z) 0 l, set_tMutex 1 s).
Proof.
  intros [V1 _ _ _]. apply wp_eq_Ok. unfold best_block. wp_steps.
  eapply wp_eq; [apply (best_loop z (set_tMutex 1 s) l); [exact V1 | | done]|done].
  pose proof (linked_length _ _ _ V1). cbn. lia.
Qed.

Lemma shm_ok_head s es : shm_ok s es -> blocks s <> 0.
Proof.
  intros [(l & [V1 _ V3 _]) T _] E. rewrite E in V1. destruct l as [|x l]; [by rewrite V3 in T|].
  by destruct V1 as (<- & ? & _).
Qed.

(** The blocks once [z] bytes are taken from the hole of [w] bytes at [st]. *)
Definition allocated (es1 : list (Z * Z * Z)) (st w z : Z) (es2 : list (Z * Z * Z)) : list (Z * Z * Z) :=
  es1 ++ (st, z, 0) :: (if z =? w then es2 else (st + z, w - z, 1) :: es2).

Lemma allocated_tiles es1 st w z es2 lo hi : tiles (es1 ++ (st, w, 1) :: es2) lo hi -> 0 < z <= w -> z mod 4096 = 0 ->
  tiles (allocated es1 st w z es2) lo hi.
Proof.
  intros (mid & H1 & (-> & Hw & Hm & _ & H2))%tiles_app Hz Hzm. apply tiles_app. exists mid. split; [done|].
  cbn [tiles]. split; [done|]. split; [lia|]. split; [done|]. split; [by left|].
  destruct (Z.eqb_spec z w) as [->|Hne]; [done|]. cbn [tiles]. split; [done|]. split; [lia|].
  split; [rewrite Zminus_mod, Hm, Hzm; done|]. split; [by right|]. by replace (mid + z + (w - z)) with (mid + w) by lia.
Qed.

Lemma allocated_apart es1 st w z es2 : apart (es1 ++ (st, w, 1) :: es2).*2 -> apart (allocated es1 st w z es2).*2.
Proof.
  unfold allocated. rewrite !fmap_app, !fmap_cons. cbn [snd]. intros [H1 H2]%apart_alloc.
  by destruct (z =? w).
Qed.

Lemma shm_alloc_ok size s es : shm_ok s es -> 0 < size <= 0xFFFFF000 -> let z := page_up size in
  (shm_alloc size s = Ok (0, s) /\ forall st w, (st, w, 1) ∈ es -> w < z) \/
  (exists s' es1 st w es2, shm_alloc size s = Ok (st, s') /\ es = es1 ++ (st, w, 1) :: es2 /\ z <= w /\
     (forall st' w', (st', w', 1) ∈ es -> z <= w' -> w <= w') /\ shm_ok s' (allocated es1 st w z es2)).
Proof.
  intros W Hs z. destruct (page_up_spec size Hs) as (Hz & Hzm & _). fold z in Hz, Hzm.
  pose proof (shm_ok_head _ _ W) as Hh. destruct W as [(l & V) T C].
  set (x := foldl (better (ub s) z) 0 l). assert (Hnz : forall y, y ∈ l -> y <> 0) by (intros y Hy; by eapply view_nonnull).
  assert (Hrun : forall r, (block ← best_block z; if block =? 0 then unlock_blocks;; mret 0
     else split_block block z;; update block (set_is_hole 0);; unlock_blocks;; b ← load (A := shm_block) block; mret (b_start b))
     (set_tMutex 1 s) = r -> shm_alloc size s = r).
  { intros r <-. unfold shm_alloc, lock_blocks. rewrite (bind_Ok _ _ _ tt (set_tMutex 1 s));
      [|apply wp_eq_Ok; wp_steps; by rewrite (vw_mutex _ _ _ V)].
    rewrite (bind_Ok _ _ _ (blocks s) (set_tMutex 1 s)) by done. rewrite (proj2 (Z.eqb_neq _ _) Hh). done. }
  destruct (Z.eq_dec x 0) as [E0|Hx].
  - left. destruct (best_none _ _ _ Hnz _ E0) as [_ Hno]. split.
    + apply Hrun. rewrite (bind_Ok _ _ _ _ _ (best_block_ok s l es z V)). fold x. rewrite E0.
      destruct V as [_ _ _ V4]. destruct s as [m h mu]. cbn in V4. by subst mu.
    + intros st w Hin. destruct (Z.lt_ge_cases w z) as [|Hge]; [done|].
      destruct (entry_fitsb s l es st w z V Hin Hge) as (y & Hy & _ & Hf). by rewrite Hno in Hf.
  - right. destruct (best_some (ub s) z l Hnz 0 ltac:(done) Hx) as ([?|Hin] & Hf & _ & Hmin); [done|]. fold x in Hin, Hf, Hmin.
    destruct (fitsb_entry s l es x z V Hin Hf) as (st & _ & Ee & Hle).
    destruct (view_split s l es x V Hin) as (l1 & l2 & es1 & es2 & a & El & Ea & _ & Ees & E1 & E2).
    assert (Ex : ent (ub s) x = (b_start a, b_size a, is_hole a)) by (unfold ent; by rewrite Ea).
    rewrite Ex in Ee. injection Ee as Est Ew Eh. rewrite <- Ew in *. rewrite Eh in Ees.
    assert (Hrange : 0 <= b_start a /\ b_start a + b_size a < W32).
    { assert (Hi : (b_start a, b_size a, 1) ∈ es) by (rewrite Ees; set_solver).
      destruct (tiles_in _ _ _ _ _ _ T Hi) as (? & ? & ?). unfold SHM_LO, SHM_HI in *. lia. }
    destruct (take_block (set_tMutex 1 s) l1 x a l2 z) as (s' & l' & Er & V'); try done; try lia.
    { rewrite <- El. apply V. } { rewrite <- El. apply V. }
    cbn [ub set_tMutex] in V'. rewrite <- E1, <- E2 in V'. fold (allocated es1 (b_start a) (b_size a) z es2) in V'.
    exists s', es1, (b_start a), (b_size a), es2. split; [|split; [done|split; [done|split]]].
    + apply Hrun. rewrite (bind_Ok _ _ _ _ _ (best_block_ok s l es z V)). fold x.
      rewrite (proj2 (Z.eqb_neq _ _) Hx). exact Er.
    + intros st' w' Hin' Hw'. destruct (entry_fitsb s l es st' w' z V Hin' Hw') as (y & Hy & <- & Hfy).
      by apply Hmin.
    + rewrite Ees in T, C. split; [by exists l' | by apply allocated_tiles; [|lia|] | by apply allocated_apart with (w := b_size a)].
Qed.

(** Regrouping a sequence. *)
Lemma wp_assoc {S A B C} (m : M S A) (f : A -> M S B) (g : B -> M S C) s Q :
  wp (m ≫= f) s (fun b s' => wp (g b) s' Q) -> wp (m ≫= fun a => f a ≫= g) s Q.
Proof. unfold wp, mbind, M_bind. destruct (m s) as [[a s']|]; [|done]. by destruct (f a s') as [[b s'']|]. Qed.

(** ** [shm_free] *)

Lemma view_at s l1 x l2 es1 e es2 : view s (l1 ++ x :: l2) (es1 ++ e :: es2) -> length es1 = length l1 ->
  exists a, ub s !! x = Some a /\ x <> 0 /\ e = (b_start a, b_size a, is_hole a) /\
    es1 = ent (ub s) <$> l1 /\ es2 = ent (ub s) <$> l2.
Proof.
  intros [V1 V2 V3 V4] Hlen. destruct (linked_at _ _ _ _ _ V1) as (Hx & a & Ea & _). exists a.
  rewrite fmap_app, fmap_cons in V3. apply app_inj_1 in V3 as [-> V3]; [|by rewrite length_fmap].
  injection V3 as -> ->. unfold ent at 1. rewrite Ea. done.
Qed.

(** Merging a hole with the hole after it. *)
Lemma unify_ok s l1 x y l2 es1 st z st' z' es2 :
  view (set_tMutex 0 s) (l1 ++ x :: y :: l2) (es1 ++ (st, z, 1) :: (st', z', 1) :: es2) ->
  length es1 = length l1 -> 0 <= z + z' < W32 ->
  exists s', unify x s = Ok (tt, s') /\ tMutex s' = tMutex s /\
    view (set_tMutex 0 s') (l1 ++ x :: l2) (es1 ++ (st, z + z', 1) :: es2).
Proof.
  intros V Hlen Hz. destruct (view_at _ _ _ _ _ _ _ V Hlen) as (a & Ea & Hx & E & E1 & E2).
  injection E as -> -> Eha. destruct V as [V1 V2 V3 _]. cbn [ub blocks set_tMutex] in *.
  rewrite fmap_cons in E2. injection E2 as En2 E2.
  destruct (linked_at _ _ _ _ _ V1) as (_ & a0 & Ea0 & _ & (Exy & Hy & n & En & Hl2)).
  replace a0 with a in * by congruence. cbn [nxt Linked_shm_block] in Exy, Hl2.
  unfold ent in En2. rewrite En in En2. injection En2 as -> -> Ehn.
  pose proof (linked_NoDup _ _ _ V1) as Hnd. apply NoDup_app in Hnd as (_ & Hd & [Hxy [Hy2 _]%NoDup_cons]%NoDup_cons).
  assert (Hxy' : x <> y) by set_solver.
  set (a' := set_b_next (b_next n) (set_b_size (b_size a + b_size n) a)).
  assert (Hw : b_next n <> 0 -> exists c, ub s !! b_next n = Some c /\ b_next n <> x /\ b_next n <> y).
  { intros Hw. destruct (linked_cons_inv _ _ _ Hl2 Hw) as (c & l' & -> & Ec & _). exists c. set_solver. }
  assert (Hview : forall m', m' !! x = Some a' -> changed_at (ub s) m' x y (b_next n) x ->
    view (UShm m' (blocks s) 0) (l1 ++ x :: l2) (es1 ++ (b_start a, b_size a + b_size n, 1) :: es2)).
  { intros m' Ex' Hc. destruct (view_remove (ub s) m' (blocks s) l1 x a a' y n l2) as (X1 & X2 & X3 & X4); try done.
    split; try done. cbn [ub]. rewrite fmap_app, fmap_cons, X3, X4, E1, E2. f_equal. f_equal.
    unfold ent. rewrite Ex'. cbn. by rewrite <- Eha. }
  assert (Hgo : exists m', unify x s = Ok (tt, UShm m' (blocks s) (tMutex s)) /\ m' !! x = Some a' /\
    changed_at (ub s) m' x y (b_next n) x).
  { destruct (Z.eqb_spec (b_next n) 0) as [E0|Hne].
    - eexists. split; [|split].
      + apply wp_eq_Ok. unfold unify. usteps. rewrite Exy, (proj2 (Z.eqb_neq _ _) Hy), <- Eha. cbn [orb Z.eqb]. usteps.
        rewrite <- Ehn, E0. cbn [Z.eqb]. usteps. rewrite insert_insert_eq, (w32_small (b_size a + b_size n)) by done. reflexivity.
      + usimp. rewrite lookup_delete_ne, lookup_insert_eq by done. unfold a'. rewrite E0. done.
      + intros u Hu1 Hu2. rewrite E0. cbn [negb Z.eqb andb]. by rewrite lookup_delete_ne, lookup_insert_ne by done.
    - destruct (Hw Hne) as (c & Ec & Hwx & Hwy). eexists. split; [|split].
      + apply wp_eq_Ok. unfold unify. usteps. rewrite Exy, (proj2 (Z.eqb_neq _ _) Hy), <- Eha. cbn [orb Z.eqb]. usteps.
        rewrite <- Ehn, (proj2 (Z.eqb_neq _ _) Hne). cbn [Z.eqb]. usteps.
        rewrite (w32_small (b_size a + b_size n)) by done. reflexivity.
      + usimp. by rewrite lookup_delete_ne, lookup_insert_eq by done.
      + intros u Hu1 Hu2. rewrite (proj2 (Z.eqb_neq _ _) Hne). cbn [negb andb]. rewrite lookup_delete_ne, lookup_insert_ne by done.
        destruct (Z.eqb_spec u (b_next n)) as [->|Hu3]; [by rewrite lookup_insert_eq, Ec | by rewrite !lookup_insert_ne by done]. }
  destruct Hgo as (m' & E & X1 & X2). exists (UShm m' (blocks s) (tMutex s)). split; [done|]. split; [done|]. by apply Hview.
Qed.

(** What freeing does to the blocks: the hole takes in the holes on either
    side. *)
Definition grow (z : Z) (es2 : list (Z * Z * Z)) : Z * list (Z * Z * Z) :=
  match es2 with
  | (_, z', h) :: r => if h =? 1 then (z + z', r) else (z, es2)
  | [] => (z, [])
  end.
Definition merge_prev (es1 : list (Z * Z * Z)) (st z : Z) (r : list (Z * Z * Z)) : list (Z * Z * Z) :=
  match rev es1 with
  | (st', z', h) :: k => if h =? 1 then rev k ++ (st', z' + z, 1) :: r else es1 ++ (st, z, 1) :: r
  | [] => (st, z, 1) :: r
  end.
Definition freed (es1 : list (Z * Z * Z)) (st z : Z) (es2 : list (Z * Z * Z)) : list (Z * Z * Z) :=
  merge_prev es1 st (grow z es2).1 (grow z es2).2.

Lemma absorb_next s l1 x l2 es1 st z es2 :
  view (set_tMutex 0 s) (l1 ++ x :: l2) (es1 ++ (st, z, 1) :: es2) -> length es1 = length l1 ->
  0 <= (grow z es2).1 < W32 ->
  exists s' l2', (b ← load (A := shm_block) x; unify_if_hole (b_next b) x) s = Ok (tt, s') /\ tMutex s' = tMutex s /\
    view (set_tMutex 0 s') (l1 ++ x :: l2') (es1 ++ (st, (grow z es2).1, 1) :: (grow z es2).2).
Proof.
  intros V Hlen Hz. destruct (view_at _ _ _ _ _ _ _ V Hlen) as (a & Ea & Hx & E & E1 & E2).
  destruct (linked_at _ _ _ _ _ (vw_linked _ _ _ V)) as (_ & a0 & Ea0 & _ & Hl2).
  replace a0 with a in * by congruence. cbn [nxt Linked_shm_block ub set_tMutex] in *.
  rewrite (bind_Ok _ _ _ a s) by (by apply load_Ok). unfold unify_if_hole.
  destruct l2 as [|y l2].
  - apply linked_nil in Hl2. cbn in E2. subst es2. rewrite Hl2. by exists s, [].
  - destruct Hl2 as (Exy & Hy & n & En & _). rewrite fmap_cons in E2. unfold ent at 1 in E2. rewrite En in E2.
    rewrite E2 in Hz, V |- *. cbn [grow] in *. rewrite Exy, (proj2 (Z.eqb_neq _ _) Hy).
    rewrite (bind_Ok _ _ _ n s) by (by apply load_Ok). destruct (Z.eqb_spec (is_hole n) 1) as [Eh|Hh].
    + rewrite Eh in V. destruct (unify_ok s l1 x y l2 es1 st z (b_start n) (b_size n) _ V Hlen Hz) as (s' & E' & Et & V').
      by exists s', l2.
    + by exists s, (y :: l2).
Qed.

Lemma absorb_prev s l1 x l2 es1 st z es2 :
  view (set_tMutex 0 s) (l1 ++ x :: l2) (es1 ++ (st, z, 1) :: es2) -> length es1 = length l1 ->
  (forall st' z', (st', z', 1) ∈ es1 -> 0 <= z' + z < W32) ->
  exists s' l', (b ← load (A := shm_block) x; unify_if_hole (b_prev b) (b_prev b)) s = Ok (tt, s') /\ tMutex s' = tMutex s /\
    view (set_tMutex 0 s') l' (merge_prev es1 st z es2).
Proof.
  intros V Hlen Hz. destruct (view_at _ _ _ _ _ _ _ V Hlen) as (a & Ea & Hx & E & E1 & E2).
  pose proof (vw_prevs _ _ _ V) as Hp. cbn [ub set_tMutex] in *.
  rewrite (bind_Ok _ _ _ a s) by (by apply load_Ok). unfold unify_if_hole, merge_prev.
  destruct l1 as [|u l1 _] using rev_ind.
  - destruct Hp as [Ep _]. rewrite Ea in Ep. injection Ep as ->. rewrite E1 in V |- *. by exists s, (x :: l2).
  - rewrite <- app_assoc in Hp, V. cbn [app] in Hp, V. apply prevs_app in Hp as [_ [Ep _]]. rewrite Ea in Ep. injection Ep as ->.
    rewrite fmap_app in E1. cbn [fmap list_fmap] in E1.
    destruct (linked_at _ _ _ _ _ (vw_linked _ _ _ V)) as (Hu & n & En & _). cbn [ub set_tMutex] in En.
    unfold ent at 2 in E1. rewrite En in E1. rewrite E1 in Hz, V |- *. rewrite rev_app_distr. cbn [rev app].
    rewrite (proj2 (Z.eqb_neq _ _) Hu), (bind_Ok _ _ _ n s) by (by apply load_Ok).
    rewrite <- app_assoc in V. cbn [app] in V. rewrite rev_involutive.
    destruct (Z.eqb_spec (is_hole n) 1) as [Eh|Hh].
    + rewrite Eh in V, Hz.
      destruct (unify_ok s l1 u x l2 (ent (ub s) <$> l1) (b_start n) (b_size n) st z es2 V) as (s' & E' & Et & V');
        [by rewrite length_fmap | apply (Hz (b_start n)); set_solver|]. by exists s', (l1 ++ u :: l2).
    + rewrite <- app_assoc. by exists s, (l1 ++ u :: x :: l2).
Qed.

Lemma grow_tiles es1 st z h es2 lo hi : tiles (es1 ++ (st, z, h) :: es2) lo hi ->
  tiles (es1 ++ (st, (grow z es2).1, 1) :: (grow z es2).2) lo hi.
Proof.
  intros (mid & H1 & (-> & Hz & Hm & _ & H2))%tiles_app. apply tiles_app. exists mid. split; [done|].
  destruct es2 as [|[[st' z'] h'] r]; [by cbn in *; auto 10|]. cbn [grow].
  destruct (Z.eqb_spec h' 1) as [->|Hh]; [|by cbn in *; auto 10].
  destruct H2 as (-> & Hz' & Hm' & _ & H2). cbn [fst snd tiles]. split; [done|]. split; [lia|].
  split; [rewrite Zplus_mod, Hm, Hm'; done|]. split; [by right|]. by rewrite Z.add_assoc.
Qed.

Lemma merge_tiles es1 st z r lo hi : tiles (es1 ++ (st, z, 1) :: r) lo hi -> tiles (merge_prev es1 st z r) lo hi.
Proof.
  intros H. unfold merge_prev. destruct es1 as [|[[st' z'] h] k _] using rev_ind; [done|].
  rewrite rev_app_distr. cbn [rev app]. destruct (Z.eqb_spec h 1) as [->|_]; [|done]. rewrite rev_involutive.
  rewrite <- app_assoc in H. apply tiles_app in H as (mid & H1 & (-> & Hz & Hm & _ & (-> & Hz' & Hm' & _ & H2))).
  apply tiles_app. exists mid. split; [done|]. cbn [tiles]. split; [done|]. split; [lia|].
  split; [rewrite Zplus_mod, Hm, Hm'; done|]. split; [by right|]. by rewrite Z.add_assoc.
Qed.

Lemma grow_apart z es2 : apart es2.*2 -> apart (1 :: (grow z es2).2.*2).
Proof.
  destruct es2 as [|[[st' z'] h'] r]; [done|]. cbn [grow]. destruct (Z.eqb_spec h' 1) as [->|Hh]; [done|].
  cbn [snd fmap list_fmap]. intros H. split; [naive_solver | exact H].
Qed.

Lemma merge_apart es1 st z r : apart es1.*2 -> apart (1 :: r.*2) -> apart (merge_prev es1 st z r).*2.
Proof.
  intros H1 H2. unfold merge_prev. destruct es1 as [|[[st' z'] h] k _] using rev_ind; [done|].
  rewrite rev_app_distr. cbn [rev app]. rewrite rev_involutive. destruct (Z.eqb_spec h 1) as [->|Hh].
  - rewrite !fmap_app, fmap_cons in *. by apply apart_app.
  - rewrite !fmap_app, fmap_cons in *. cbn [fmap list_fmap snd] in *. rewrite <- app_assoc. cbn [app].
    apply apart_app. split; [done|]. split; [naive_solver | done].
Qed.

Lemma freed_ok es1 st z es2 : tiles (es1 ++ (st, z, 0) :: es2) SHM_LO SHM_HI ->
  apart (es1 ++ (st, z, 0) :: es2).*2 ->
  tiles (freed es1 st z es2) SHM_LO SHM_HI /\ apart (freed es1 st z es2).*2.
Proof.
  intros T A. split.
  - eapply merge_tiles, grow_tiles, T.
  - rewrite fmap_app, fmap_cons in A. apply merge_apart; [by eapply apart_prefix|].
    apply grow_apart. apply apart_app in A as [_ A]. by apply apart_tail in A.
Qed.

(** Freeing a block that was handed out. *)
Lemma shm_free_ok s es1 st z es2 : shm_ok s (es1 ++ (st, z, 0) :: es2) ->
  exists s', shm_free st s = Ok (tt, s') /\ shm_ok s' (freed es1 st z es2).
Proof.
  intros [(l & V) T A]. pose proof (vw_ents _ _ _ V) as El. symmetry in El.
  apply fmap_app_inv in El as (l1 & l2' & E1 & E2 & ->).
  symmetry in E2. apply fmap_cons_inv in E2 as (x & l2 & Ex & E2 & ->).
  assert (Hlen : length es1 = length l1) by (by rewrite E1, length_fmap).
  destruct (view_at _ _ _ _ _ _ _ V Hlen) as (a & Ea & Hx & E & _ & _). injection E as Es Ez Eh.
  pose proof (vw_mutex _ _ _ V) as Hmu.
  set (s1 := UShm (<[x := set_is_hole 1 a]> (ub s)) (blocks s) 1).
  assert (V1 : view (set_tMutex 0 s1) (l1 ++ x :: l2) (es1 ++ (st, z, 1) :: es2)).
  { pose proof (view_update s l1 x a l2 (set_is_hole 1)) as Hv. cbn in Hv. rewrite Es, Ez, E1, E2. apply Hv; try done; apply V. }
  pose proof (grow_tiles _ _ _ _ _ _ _ T) as Tg.
  destruct (tiles_in _ _ _ st (grow z es2).1 1 Tg) as (G1 & G2 & G3); [set_solver|]. unfold SHM_LO, SHM_HI in G1, G3.
  destruct (absorb_next s1 l1 x l2 es1 st z es2 V1 Hlen) as (s2 & l2b & E3 & Et2 & V2); [lia|].
  destruct (absorb_prev s2 l1 x l2b es1 st (grow z es2).1 (grow z es2).2 V2 Hlen) as (s3 & l3 & E4 & Et3 & V3).
  { intros st' z' Hin. apply tiles_app in Tg as (mid & Tg1 & (-> & _)).
    destruct (tiles_in _ _ _ _ _ _ Tg1 Hin) as (? & ? & ?). unfold SHM_LO in *. lia. }
  exists (set_tMutex 0 s3). split.
  - apply wp_eq_Ok. unfold shm_free, lock_blocks. wp_steps. rewrite Hmu. cbn [Z.eqb]. wp_steps.
    eapply wp_eq; [apply (walk_spec (S := ushm) _ _ (l1 ++ x :: l2)); apply V|].
    rewrite (first_ptr_split _ _ l1 x l2 a).
    + rewrite (proj2 (Z.eqb_neq _ _) Hx). wp_step. eapply wp_update; [done | exact Ea|]. cbn beta.
      change (UShm _ _ _) with s1. apply wp_assoc. eapply wp_eq; [exact E3|].
      apply wp_assoc. eapply wp_eq; [exact E4|]. unfold unlock_blocks. wp_steps. done.
    + intros y b Hy Eb. apply Z.eqb_neq. intros Es'. apply tiles_app in T as (mid & T1 & (Emid & _)).
      assert (Hin : ent (ub s) y ∈ es1) by (rewrite E1; by apply list_elem_of_fmap_2).
      change (ub s !! y = Some b) in Eb. unfold ent in Hin. rewrite Eb in Hin.
      destruct (tiles_in _ _ _ _ _ _ T1 Hin). lia.
    + exact Ea.
    + by apply Z.eqb_eq.
  - destruct (freed_ok _ _ _ _ T A) as [T' A']. split; [by exists l3 | exact T' | exact A'].
Qed.

(** Freeing what was just allocated gives the blocks back as they were. *)
Lemma freed_allocated es1 st w z es2 : apart (es1 ++ (st, w, 1) :: es2).*2 -> z <= w ->
  freed es1 st z (if z =? w then es2 else (st + z, w - z, 1) :: es2) = es1 ++ (st, w, 1) :: es2.
Proof.
  intros A Hz. rewrite fmap_app, fmap_cons in A. cbn [snd] in A. unfold freed.
  assert (Eg : grow z (if z =? w then es2 else (st + z, w - z, 1) :: es2) = (w, es2)).
  { destruct (Z.eqb_spec z w) as [->|Hne].
    - destruct es2 as [|[[st' z'] h] r]; [done|]. cbn [grow]. apply apart_app in A as [_ [A _]].
      destruct (Z.eqb_spec h 1) as [->|]; [naive_solver | done].
    - cbn [grow]. rewrite Z.eqb_refl. f_equal. lia. }
  rewrite Eg. cbn [fst snd]. unfold merge_prev.
  destruct es1 as [|[[st' z'] h] k _] using rev_ind; [done|]. rewrite rev_app_distr. cbn [rev app].
  destruct (Z.eqb_spec h 1) as [->|]; [|done]. rewrite fmap_app, <- app_assoc in A. cbn [fmap list_fmap app snd] in A.
  apply apart_app in A as [_ [A _]]. naive_solver.
Qed.

Lemma shm_free_unknown s es p : shm_ok s es -> (forall z h, (p, z, h) ∉ es) -> shm_free p s = Ok (tt, s).
Proof.
  intros [(l & V) _ _] Hno. pose proof (vw_mutex _ _ _ V) as Hmu.
  apply wp_eq_Ok. unfold shm_free, lock_blocks. wp_steps. rewrite Hmu. cbn [Z.eqb]. wp_steps.
  eapply wp_eq; [apply (walk_spec (S := ushm) _ _ l); apply V|]. rewrite first_ptr_none.
  - unfold unlock_blocks. cbn [Z.eqb]. wp_steps. destruct s as [m h mu]. cbn in Hmu. by subst mu.
  - intros x b Hx Eb. change (ub s !! x = Some b) in Eb. apply Z.eqb_neq. intros Es.
    apply (Hno (b_size b) (is_hole b)). rewrite (vw_ents _ _ _ V), <- Es.
    replace (b_start b, b_size b, is_hole b) with (ent (ub s) x) by (unfold ent; by rewrite Eb).
    by apply list_elem_of_fmap_2.
Qed.

(** ** A sample: the area just after the first use *)

Definition sample_shm : ushm := UShm {[ 1 := ShmBlock SHM_LO (SHM_HI - SHM_LO) 1 0 0 ]} 1 0.

(** *** The blocks in use *)

Lemma taken_app es1 es2 : taken (es1 ++ es2) = taken es1 ++ taken es2.
Proof. induction es1 as [|[[st z] h] es1 IH]; [done|]. cbn. destruct (h =? 0); cbn; by rewrite IH. Qed.

Lemma taken_allocated es1 st w z es2 : taken (allocated es1 st w z es2) ≡ₚ (st, z) :: taken (es1 ++ (st, w, 1) :: es2).
Proof.
  unfold allocated. rewrite !taken_app. cbn. rewrite <- Permutation_middle.
  by destruct (z =? w); cbn.
Qed.

Lemma taken_freed es1 st z es2 : taken (freed es1 st z es2) = taken es1 ++ taken es2.
Proof.
  assert (Hg : taken (grow z es2).2 = taken es2).
  { destruct es2 as [|[[st' z'] h'] r]; [done|]. cbn. destruct (Z.eqb_spec h' 1) as [->|]; done. }
  unfold freed, merge_prev. rewrite <- Hg. destruct es1 as [|[[st' z'] h] k _] using rev_ind; [done|].
  rewrite rev_app_distr. cbn [rev app]. rewrite rev_involutive. destruct (Z.eqb_spec h 1) as [->|].
  - rewrite !taken_app. cbn. by rewrite app_nil_r.
  - rewrite !taken_app. done.
Qed.

Lemma taken_split p z es : (p, z) ∈ taken es -> exists es1 es2, es = es1 ++ (p, z, 0) :: es2.
Proof.
  induction es as [|[[st w] h] es IH]; cbn; [set_solver|]. destruct (Z.eqb_spec h 0) as [->|].
  - intros [[= <- <-]|Hin]%elem_of_cons; [by exists [], es|]. destruct (IH Hin) as (es1 & es2 & ->). by exists ((st, w, 0) :: es1), es2.
  - intros Hin. destruct (IH Hin) as (es1 & es2 & ->). by exists ((st, w, h) :: es1), es2.
Qed.

Lemma tiles_start es1 st w h es2 lo hi : tiles (es1 ++ (st, w, h) :: es2) lo hi -> lo <= st.
Proof.
  revert lo. induction es1 as [|[[a b] c] es1 IH]; intros lo; cbn [app tiles]; [lia|].
  intros (-> & ? & ? & ? & T). apply IH in T. lia.
Qed.

Lemma tiles_end es1 st w h es2 lo hi : tiles (es1 ++ (st, w, h) :: es2) lo hi -> st + w <= hi.
Proof.
  assert (Hle : forall es lo, tiles es lo hi -> lo <= hi).
  { intros es. induction es as [|[[a b] c] es IH]; intros l; cbn [tiles]; [lia|].
    intros (-> & ? & ? & ? & T). apply IH in T. lia. }
  revert lo. induction es1 as [|[[a b] c] es1 IH]; intros lo; cbn [app tiles].
  - intros (-> & ? & ? & ? & T). by apply Hle in T.
  - intros (-> & ? & ? & ? & T). by apply IH in T.
Qed.

Lemma page_up_twice size : 0 < size <= 0xFFFFF000 -> page_up (page_up size) = page_up size /\ page_up size <= 0xFFFFF000.
Proof.
  intros Hs. destruct (page_up_spec size Hs) as (H0 & Hm & Hr). split; [|Z.div_mod_to_equations; lia].
  unfold page_up at 1. by rewrite page_off_mod, Hm.
Qed.

(** What the rest of the library needs to know of the area. *)
Lemma shm_alloc_taken size s es : shm_ok s es -> 0 < size <= 0xFFFFF000 ->
  exists p s' es', shm_alloc size s = Ok (p, s') /\ shm_ok s' es' /\
    ((p = 0 /\ es' = es /\ forall st w, (st, w, 1) ∈ es -> w < page_up size) \/
     (SHM_LO <= p /\ p + page_up size <= SHM_HI /\ taken es' ≡ₚ (p, page_up size) :: taken es)).
Proof.
  intros W Hs. destruct (shm_alloc_ok size s es W Hs) as [[E Hno]|(s' & es1 & st & w & es2 & E & -> & Hz & _ & W')].
  - exists 0, s, es. split; [done|]. split; [done|]. left. split_and!; [done | done | exact Hno].
  - exists st, s', (allocated es1 st w (page_up size) es2). split; [done|]. split; [done|]. right.
    pose proof (tiles_start _ _ _ _ _ _ _ (so_tiles _ _ W)). pose proof (tiles_end _ _ _ _ _ _ _ (so_tiles _ _ W)).
    split; [done|]. split; [lia|]. apply taken_allocated.
Qed.

Lemma shm_free_taken p z s es : shm_ok s es -> (p, z) ∈ taken es ->
  exists s' es', shm_free p s = Ok (tt, s') /\ shm_ok s' es' /\ taken es ≡ₚ (p, z) :: taken es'.
Proof.
  intros W (es1 & es2 & ->)%taken_split. destruct (shm_free_ok s es1 p z es2 W) as (s' & E & W').
  exists s', (freed es1 p z es2). split; [done|]. split; [done|]. rewrite taken_freed, taken_app. cbn.
  by rewrite <- Permutation_middle.
Qed.

Lemma sample_shm_ok : shm_ok sample_shm [(SHM_LO, SHM_HI - SHM_LO, 1)].
Proof. split; [exists [1] | cbn; unfold SHM_LO, SHM_HI; auto 10 with lia | done]. split; try done. by repeat (eexists || split). Qed.

(** [shm_init] makes that sample from the empty library state. *)
Example shm_init_sample : shm_init (UShm ∅ 0 0) = Ok (tt, sample_shm).
Proof. reflexivity. Qed.

(** ** Theorems *)

(** C24. [shm_alloc] takes the smallest hole that fits the size rounded up to
    pages: the answer is its start, the rest stays a hole, and the blocks
    still tile the area without adjacent holes.  Without such a hole it
    answers 0 and changes nothing. *)
Theorem shm_alloc_best_fit size s es : shm_ok s es -> 0 < size <= 0xFFFFF000 -> let z := page_up size in
  (shm_alloc size s = Ok (0, s) /\ forall st w, (st, w, 1) ∈ es -> w < z) \/
  (exists s' es1 st w es2, shm_alloc size s = Ok (st, s') /\ es = es1 ++ (st, w, 1) :: es2 /\ z <= w /\
     (forall st' w', (st', w', 1) ∈ es -> z <= w' -> w <= w') /\ shm_ok s' (allocated es1 st w z es2)).
Proof. apply shm_alloc_ok. Qed.

Lemma shm_alloc_best_fit_witness :
  (shm_alloc 5000 sample_shm = Ok (0, sample_shm) /\
     forall st w, (st, w, 1) ∈ [(SHM_LO, SHM_HI - SHM_LO, 1)] -> w < 8192) \/
  (exists s' es1 st w es2, shm_alloc 5000 sample_shm = Ok (st, s') /\
     [(SHM_LO, SHM_HI - SHM_LO, 1)] = es1 ++ (st, w, 1) :: es2 /\ 8192 <= w /\
     (forall st' w', (st', w', 1) ∈ [(SHM_LO, SHM_HI - SHM_LO, 1)] -> 8192 <= w' -> w <= w') /\
     shm_ok s' (allocated es1 st w 8192 es2)).
Proof. apply (shm_alloc_best_fit 5000 sample_shm _ sample_shm_ok). lia. Defined.

(** Freeing a block [shm_alloc] has just handed out restores the blocks;
    a pointer that is no block's start is ignored. *)
Theorem shm_alloc_free size s es st s' : shm_ok s es -> 0 < size <= 0xFFFFF000 ->
  shm_alloc size s = Ok (st, s') -> st <> 0 ->
  (exists s'', shm_free st s' = Ok (tt, s'') /\ shm_ok s'' es) /\
  (forall p, (forall z h, (p, z, h) ∉ es) -> shm_free p s = Ok (tt, s)).
Proof.
  intros W Hs E Hst. split; [|intros p; by apply shm_free_unknown].
  destruct (shm_alloc_ok size s es W Hs) as [[E0 _]|(s1 & es1 & st1 & w & es2 & E1 & Ees & Hz & _ & W1)]; [congruence|].
  replace s1 with s' in * by congruence. replace st1 with st in * by congruence.
  destruct (shm_free_ok s' es1 st (page_up size) _ W1) as (s'' & E2 & W2). exists s''. split; [done|].
  rewrite freed_allocated in W2; [by rewrite Ees | | done]. rewrite <- Ees. apply W.
Qed.

Lemma shm_alloc_free_witness :
  exists st s', shm_alloc 5000 sample_shm = Ok (st, s') /\
    (exists s'', shm_free st s' = Ok (tt, s'') /\ shm_ok s'' [(SHM_LO, SHM_HI - SHM_LO, 1)]) /\
    (forall p, (forall z h, (p, z, h) ∉ [(SHM_LO, SHM_HI - SHM_LO, 1)]) -> shm_free p sample_shm = Ok (tt, sample_shm)).
Proof.
  eexists _, _. split; [vm_compute; reflexivity|].
  apply (shm_alloc_free 5000 sample_shm); [apply sample_shm_ok | lia | vm_compute; reflexivity | done].
Defined.

(** [shm_free] turns a block that is in use into a hole, merged with the
    holes on either side; the other blocks stay as they are and the
    invariant holds again. *)
Theorem shm_free_merges s es1 st z es2 : shm_ok s (es1 ++ (st, z, 0) :: es2) ->
  exists s', shm_free st s = Ok (tt, s') /\ shm_ok s' (freed es1 st z es2).
Proof. apply shm_free_ok. Qed.

(** The sample after two allocations. *)
Lemma shm_free_merges_witness :
  exists s s', (_ ← shm_alloc 4096; shm_alloc 4096) sample_shm = Ok (SHM_LO + 4096, s) /\
    shm_free (SHM_LO + 4096) s = Ok (tt, s') /\ shm_ok s' [(SHM_LO, 4096, 0); (SHM_LO + 4096, 0x4FFFF000, 1)].
Proof.
  eexists _. destruct (shm_free_merges
    (UShm {[ 1 := ShmBlock SHM_LO 4096 0 0 2; 2 := ShmBlock (SHM_LO + 4096) 4096 0 1 3;
             3 := ShmBlock (SHM_LO + 8192) 0x4FFFE000 1 2 0 ]} 1 0)
    [(SHM_LO, 4096, 0)] (SHM_LO + 4096) 4096 [(SHM_LO + 8192, 0x4FFFE000, 1)]) as (s' & E & W).
  - split; [exists [1; 2; 3] | cbn; unfold SHM_LO, SHM_HI; auto 20 with lia | cbn; auto with lia].
    split; try done. by repeat (eexists || split).
  - exists s'. split; [vm_compute; reflexivity|]. split; [exact E | exact W].
Defined.
