(* ===== verification/Mutex.v ===== *)
(** * Mutexes

    [src/kernel/lib/mutex.c] and [src/library/std/mutex.c], which are the
    same code: a word that is exchanged atomically.  [Requests] has the
    kernel's as a field of an object, [UShm] the library's as [tMutex]; here
    the word is on its own and any number of threads run, interleaved at
    every exchange and at every access to what the mutex protects. *)

From stdpp Require Import functions.
From S2P Require Import Prelude Memory Kernel Objects Requests UShm.

(** ** The functions *)

Definition atomic_exchange (newval : Z) : M Z Z := fun word => Ok (word, newval).

(** One evaluation of the condition of [mutex_lock]: whether to sleep. *)
Definition lock_round : M Z bool := r ← atomic_exchange MUTEX_LOCKED; mret (r =? MUTEX_LOCKED).

Definition mutex_lockE : M Z Z := r ← atomic_exchange MUTEX_LOCKED; mret (if r =? MUTEX_LOCKED then 0 else 1).

Definition mutex_unlock : M Z unit := fun _ => Ok (tt, MUTEX_UNLOCKED).

(** [mutex_lock]; [thread_sleep] is what the other threads, whose state is
    in [E], do in the meantime to the word and to themselves. *)
Definition mutex_lock {E} (thread_sleep : M (Z * E) unit) (fuel : nat) : M (Z * E) unit :=
  loop fuel (fun _ =>
    busy ← zoom fst (fun v s => (v, s.2)) lock_round;
    if (busy : bool) then thread_sleep;; mret (inl tt) else mret (inr tt)) tt.

(** ** Threads *)

Section threads.
(** [D] is the data that the mutex protects.  A critical section is a list
    of atomic accesses; [uses] are the sections of the program. *)
Context {D : Type} (uses : list (D -> D) -> Prop).

(** Where a thread is: [mutex_lock] about to exchange, or in
    [thread_sleep(1)]; inside, with what it has done and what is left. *)
Inductive place :=
| Outside
| Locking (b : list (D -> D))
| Sleeping (b : list (D -> D))
| Inside (before after : list (D -> D)).

(** [history] records the sections in the order they were left. *)
Record world := World { word : Z; data : D; places : Z -> place; history : list (list (D -> D)) }.

Definition goes (i : Z) (p : place) (w : world) : world := World (word w) (data w) (<[i := p]> (places w)) (history w).

(** A move of one thread; the others stand still. *)
Inductive moves (i : Z) : world -> world -> Prop :=
| move_lock w b : places w i = Outside -> uses b -> moves i w (goes i (Locking b) w)
| move_try w b r v : places w i = Outside -> uses b -> mutex_lockE (word w) = Ok (r, v) ->
    moves i w (goes i (if r =? 0 then Outside else Inside [] b) (World v (data w) (places w) (history w)))
| move_exchange w b busy v : places w i = Locking b -> lock_round (word w) = Ok (busy, v) ->
    moves i w (goes i (if (busy : bool) then Sleeping b else Inside [] b) (World v (data w) (places w) (history w)))
| move_wake w b : places w i = Sleeping b -> moves i w (goes i (Locking b) w)
| move_access w a before after : places w i = Inside before (a :: after) ->
    moves i w (goes i (Inside (before ++ [a]) after) (World (word w) (a (data w)) (places w) (history w)))
| move_unlock w b v : places w i = Inside b [] -> mutex_unlock (word w) = Ok (tt, v) ->
    moves i w (goes i Outside (World v (data w) (places w) (history w ++ [b]))).

Inductive runs (w : world) : world -> Prop :=
| runs_here : runs w w
| runs_move w1 w2 i : runs w w1 -> moves i w1 w2 -> runs w w2.

(** ** Specification: one section after the other *)

Definition run_section (b : list (D -> D)) (d : D) : D := foldl (fun d a => a d) d b.
Definition run_sections (bs : list (list (D -> D))) (d : D) : D := foldl (fun d b => run_section b d) d bs.

(** Before anyone locks. *)
Definition fresh_world (w : world) : Prop := word w = MUTEX_UNLOCKED /\ (forall i, places w i = Outside) /\ history w = [].

(** Nobody is inside and the word is free, or one thread is and it is not;
    the data is what the finished sections made of it, in their order, and
    then the accesses of the one inside. *)
Definition serial (d0 : D) (w : world) : Prop :=
  Forall uses (history w) /\
  (forall i b, places w i = Locking b \/ places w i = Sleeping b -> uses b) /\
  ((word w = MUTEX_UNLOCKED /\ (forall i b a, places w i <> Inside b a) /\ data w = run_sections (history w) d0) \/
   (word w = MUTEX_LOCKED /\ exists i b a, places w i = Inside b a /\ uses (b ++ a) /\
      (forall j b' a', places w j = Inside b' a' -> j = i) /\
      data w = run_section b (run_sections (history w) d0))).

End threads.

(** The word and the other threads after [k] sleeps, in each of which the
    word was found taken. *)
Fixpoint slept {E} (thread_sleep : Z * E -> Z * E) (k : nat) (s : Z * E) : Z * E :=
  match k with
  | O => s
  | Datatypes.S k' => slept thread_sleep k' (thread_sleep (MUTEX_LOCKED, s.2))
  end.

(** A sample: threads that add one to a number. *)
Definition adds_one (b : list (Z -> Z)) : Prop := b = [Z.add 1].
Definition sample_world : world := World MUTEX_UNLOCKED 0 (fun _ => Outside) [].

(** ** Lemmas *)

Section lemmas.
Context {D : Type} (uses : list (D -> D) -> Prop).

Lemma run_section_app (a b : list (D -> D)) d : run_section (a ++ b) d = run_section b (run_section a d).
Proof. apply foldl_app. Qed.

Lemma places_insert (w : world (D := D)) i p j q : <[i := p]> (places w) j = q ->
  j = i /\ q = p \/ j <> i /\ places w j = q.
Proof.
  destruct (decide (j = i)) as [->|Hne]; [rewrite fn_lookup_insert | rewrite fn_lookup_insert_ne by done]; naive_solver.
Qed.

(** A thread that is not inside and does not enter. *)
Lemma serial_outside d0 (w : world (D := D)) i p v : serial uses d0 w -> (forall b a, places w i <> Inside b a) ->
  (forall b a, p <> Inside b a) -> (forall b, p = Locking b \/ p = Sleeping b -> uses b) -> v = word w ->
  serial uses d0 (World v (data w) (<[i := p]> (places w)) (history w)).
Proof.
  intros (H1 & H2 & H3) Hi Hp Hu ->. split; [done|]. split.
  - cbn. intros j b [[[-> E]|[_ E]]%places_insert|[[-> E]|[_ E]]%places_insert]; eauto.
  - destruct H3 as [(Hw & Hn & Hd)|(Hw & k & b & a & Ek & Hb & Hk & Hd)]; [left|right]; (split; [done|]).
    + split; [|done]. cbn. intros j b a [[-> E]|[_ E]]%places_insert; [by symmetry in E; eapply Hp | by eapply Hn].
    + exists k, b, a. assert (Hne : k <> i) by (intros ->; by eapply Hi). cbn.
      split; [by rewrite fn_lookup_insert_ne|]. split; [done|]. split; [|done].
      intros j b' a' [[-> E]|[_ E]]%places_insert; [by symmetry in E; apply Hp in E | by eapply Hk].
Qed.

(** A thread that takes the word. *)
Lemma serial_enter d0 (w : world (D := D)) i b : serial uses d0 w -> word w = MUTEX_UNLOCKED -> uses b ->
  serial uses d0 (World MUTEX_LOCKED (data w) (<[i := Inside [] b]> (places w)) (history w)).
Proof.
  intros (H1 & H2 & H3) Hw Hb. split; [done|]. split.
  - cbn. intros j b' [[[-> E]|[_ E]]%places_insert|[[-> E]|[_ E]]%places_insert]; try done; eauto.
  - destruct H3 as [(_ & Hn & Hd)|(Hw' & _)]; [|by rewrite Hw in Hw']. right. split; [done|].
    exists i, [], b. cbn. rewrite fn_lookup_insert. split; [done|]. split; [done|]. split; [|done].
    intros j b' a' [[-> _]|[_ E]]%places_insert; [done | by apply Hn in E].
Qed.

Lemma serial_inside d0 (w : world (D := D)) i b a : serial uses d0 w -> places w i = Inside b a ->
  word w = MUTEX_LOCKED /\ uses (b ++ a) /\ (forall j b' a', places w j = Inside b' a' -> j = i) /\
  data w = run_section b (run_sections (history w) d0).
Proof.
  intros (_ & _ & [(_ & Hn & _)|(Hw & k & b' & a' & Ek & Hb & Hk & Hd)]) E; [by apply Hn in E|].
  assert (i = k) as -> by (by eapply Hk). rewrite Ek in E. by injection E as -> ->.
Qed.

Lemma serial_move d0 (w w' : world (D := D)) i : serial uses d0 w -> moves uses i w w' -> serial uses d0 w'.
Proof.
  intros W Hm. destruct Hm as [w b Ei Hb|w b r v Ei Hb E|w b busy v Ei E|w b Ei|w a before after Ei|w b v Ei E].
  - apply serial_outside; try done; [by rewrite Ei | naive_solver].
  - injection E as <- <-. unfold goes; cbn. destruct (Z.eqb_spec (word w) MUTEX_LOCKED) as [Ew|Hw]; cbn.
    + apply serial_outside; try done; [by rewrite Ei | naive_solver].
    + apply serial_enter; try done. destruct W as (_ & _ & [(? & _)|(? & _)]); done.
  - injection E as <- <-. assert (Hb : uses b) by (apply (proj1 (proj2 W) i); by left).
    unfold goes; cbn. destruct (Z.eqb_spec (word w) MUTEX_LOCKED) as [Ew|Hw]; cbn.
    + apply serial_outside; try done; [by rewrite Ei | naive_solver].
    + apply serial_enter; try done. destruct W as (_ & _ & [(? & _)|(? & _)]); done.
  - apply serial_outside; try done; [by rewrite Ei|]. intros b' [[= <-]|[=]]. apply (proj1 (proj2 W) i). by right.
  - destruct (serial_inside d0 w i _ _ W Ei) as (Hw & Hu & Hk & Hd). destruct W as (H1 & H2 & _).
    split; [done|]. split; [cbn; intros j b [[[-> E]|[_ E]]%places_insert|[[-> E]|[_ E]]%places_insert]; try done; eauto|].
    right. split; [done|]. exists i, (before ++ [a]), after. cbn. rewrite fn_lookup_insert. split; [done|].
    split; [by rewrite <- app_assoc|]. split; [|by rewrite run_section_app, Hd].
    intros j b' a' [[-> _]|[_ E]]%places_insert; [done | by eapply Hk].
  - injection E as <-. destruct (serial_inside d0 w i _ _ W Ei) as (Hw & Hu & Hk & Hd). destruct W as (H1 & H2 & _).
    rewrite app_nil_r in Hu.
    split; [by apply Forall_app_2; [|constructor]|].
    split; [cbn; intros j b' [[[-> E]|[_ E]]%places_insert|[[-> E]|[_ E]]%places_insert]; try done; eauto|].
    left. split; [done|]. cbn. split.
    + intros j b' a' [[-> E]|[Hne E]]%places_insert; [done|]. by apply Hk in E.
    + unfold run_sections. by rewrite foldl_app.
Qed.

Lemma serial_runs (w0 w : world (D := D)) : fresh_world w0 -> runs uses w0 w -> serial uses (data w0) w.
Proof.
  intros (Hw & Hp & Hh). induction 1 as [|w1 w2 i _ IH Hm]; [|by eapply serial_move].
  split; [by rewrite Hh|]. split; [intros i b; rewrite Hp; by intros [|]|]. left. split; [done|].
  split; [intros i b a; by rewrite Hp | by rewrite Hh].
Qed.

Lemma runs_trans (w1 w2 w3 : world (D := D)) : runs uses w1 w2 -> runs uses w2 w3 -> runs uses w1 w3.
Proof. intros H1 H2. induction H2 as [|w w' i _ IH Hm]; [done|]. by eapply runs_move. Qed.

(** The thread inside can always go on to the end of its section. *)
Lemma inside_leaves after : forall (w : world (D := D)) i before, places w i = Inside before after ->
  exists w', runs uses w w' /\ word w' = MUTEX_UNLOCKED /\ forall j, j <> i -> places w' j = places w j.
Proof.
  induction after as [|a after IH]; intros w i before Ei.
  - eexists. split; [eapply runs_move; [constructor | by apply (move_unlock _ _ _ before MUTEX_UNLOCKED)]|].
    split; [done|]. intros j Hj. cbn. by rewrite fn_lookup_insert_ne.
  - destruct (IH (goes i (Inside (before ++ [a]) after) (World (word w) (a (data w)) (places w) (history w))) i (before ++ [a]))
      as (w' & R & Ew & Ep); [by cbn; rewrite fn_lookup_insert|].
    exists w'. split; [|split; [done|]].
    + eapply runs_trans; [|exact R]. eapply runs_move; [constructor | by apply move_access].
    + intros j Hj. rewrite (Ep j Hj). cbn. by rewrite fn_lookup_insert_ne.
Qed.

(** When the word is free a thread that waits can take it. *)
Lemma waiting_enters (w : world (D := D)) i b : word w = MUTEX_UNLOCKED ->
  places w i = Locking b \/ places w i = Sleeping b -> exists w', runs uses w w' /\ places w' i = Inside [] b.
Proof.
  intros Hw Hi.
  assert (exists w1, runs uses w w1 /\ word w1 = MUTEX_UNLOCKED /\ places w1 i = Locking b) as (w1 & R & Hw1 & E1).
  { destruct Hi as [Ei|Ei]; [by exists w; split; [constructor|]|]. exists (goes i (Locking b) w).
    split; [eapply runs_move; [constructor | by apply move_wake]|]. split; [done|]. cbn. by rewrite fn_lookup_insert. }
  eexists. split; [eapply runs_move; [exact R|]|].
  - apply (move_exchange _ _ _ b false MUTEX_LOCKED E1). unfold lock_round, mbind, M_bind, atomic_exchange. by rewrite Hw1.
  - cbn. by rewrite fn_lookup_insert.
Qed.

End lemmas.

(** The two other models of the same code. *)
Lemma lock_blocks_mutex s :
  lock_blocks s = zoom (fun s => (tMutex s, tt)) (fun p => set_tMutex p.1) (mutex_lock (fail NoFuel) 1) s.
Proof.
  unfold lock_blocks, zoom, gets, mbind, M_bind, mutex_lock, lock_round, atomic_exchange. cbn.
  unfold MUTEX_LOCKED, mbind, M_bind, zoom. cbn. by destruct (tMutex s =? 1).
Qed.

Lemma busyMutex_lockE obj o (s : kstate) : obj <> 0 -> k_objects (k_st s) !! obj = Some o ->
  exists r v, mutex_lockE (busyMutex o) = Ok (r, v) /\
    Requests.mutex_lockE obj s = (update obj (set_busyMutex v);; mret r) s.
Proof.
  intros Ho Eo. eexists _, _. split; [reflexivity|]. unfold Requests.mutex_lockE.
  apply run_bind. by eapply wp_load; [exact Ho | exact Eo |].
Qed.

(** ** Theorems *)

(** C11. Whatever threads do that touch the data only between [mutex_lock] (or
    a successful [mutex_lockE]) and [mutex_unlock], and however they are
    interleaved: no two are inside at once, the word is locked exactly while
    one is, and the data is as if the sections had run one after the
    other, each in one go, in the order they were left -- followed by what
    the thread inside has done so far. *)
Theorem mutex_serialises {D} (uses : list (D -> D) -> Prop) w0 w : fresh_world w0 -> runs uses w0 w ->
  let before := run_sections (history w) (data w0) in
  (forall i j b a b' a', places w i = Inside b a -> places w j = Inside b' a' -> i = j) /\
  (word w = MUTEX_LOCKED <-> exists i b a, places w i = Inside b a) /\
  Forall uses (history w) /\
  (forall i b a, places w i = Inside b a -> uses (b ++ a) /\ data w = run_section b before) /\
  (word w <> MUTEX_LOCKED -> data w = before).
Proof.
  intros Hf R. pose proof (serial_runs uses w0 w Hf R) as W. split_and!.
  - intros i j b a b' a' Ei Ej. destruct (serial_inside uses _ _ _ _ _ W Ej) as (_ & _ & Hk & _). by eapply Hk.
  - split; [|by intros (i & b & a & Ei); destruct (serial_inside uses _ _ _ _ _ W Ei)].
    destruct W as (_ & _ & [(-> & _)|(_ & i & b & a & Ei & _)]); [done|]. by exists i, b, a.
  - apply W.
  - intros i b a Ei. by destruct (serial_inside uses _ _ _ _ _ W Ei) as (_ & ? & _ & ?).
  - destruct W as (_ & _ & [(_ & _ & Hd)|(Hw & _)]); [done|]. by rewrite Hw.
Qed.

(** C31. No thread waits for a mutex in vain: from any state that the threads
    reach, one that is in [mutex_lock] can be let in, whoever is inside. *)
Theorem mutex_no_deadlock {D} (uses : list (D -> D) -> Prop) w0 w i b : fresh_world w0 -> runs uses w0 w ->
  places w i = Locking b \/ places w i = Sleeping b -> exists w', runs uses w w' /\ places w' i = Inside [] b.
Proof.
  intros Hf R Hi. pose proof (serial_runs uses w0 w Hf R) as W.
  destruct W as (_ & _ & [(Hw & _)|(_ & k & b' & a & Ek & _)]); [by apply waiting_enters|].
  destruct (inside_leaves uses a w k b' Ek) as (w1 & R1 & Hw1 & Ep).
  assert (i <> k) by (intros ->; destruct Hi; congruence).
  destruct (waiting_enters uses w1 i b Hw1) as (w2 & R2 & E2); [by rewrite Ep|].
  exists w2. split; [by eapply runs_trans | done].
Qed.

(** [mutex_lock] returns, with the word locked, from the first time on that
    it finds the word free, and sleeps until then. *)
Theorem mutex_lock_returns {E} (thread_sleep : Z * E -> Z * E) k s fuel : (k < fuel)%nat ->
  (forall j, (j < k)%nat -> (slept thread_sleep j s).1 = MUTEX_LOCKED) ->
  (slept thread_sleep k s).1 <> MUTEX_LOCKED ->
  mutex_lock (modify thread_sleep) fuel s = Ok (tt, (MUTEX_LOCKED, (slept thread_sleep k s).2)).
Proof.
  revert k s. unfold mutex_lock, MUTEX_LOCKED. induction fuel as [|fuel IH]; intros k [v e] Hk Hb Hf; [lia|].
  rewrite loop_S. destruct k as [|k].
  - cbn in Hf |- *. unfold lock_round, zoom, atomic_exchange, mbind, M_bind, MUTEX_LOCKED. cbn.
    by rewrite (proj2 (Z.eqb_neq v 1) Hf).
  - assert (v = 1) as -> by apply (Hb O ltac:(lia)). apply (IH k (thread_sleep (1, e))); [lia | | done].
    intros j Hj. apply (Hb (S j)). lia.
Qed.

(** The second thread finds the mutex taken; the first has added one. *)
Lemma sample_run : exists w : world, runs adds_one sample_world w /\
  places w 2 = Sleeping [Z.add 1] /\ places w 1 = Inside [Z.add 1] [] /\ data w = 1.
Proof.
  eexists. split.
  - eapply runs_move; [eapply runs_move; [eapply runs_move; [eapply runs_move; [constructor|]|]|]|].
    + by apply (move_try adds_one 1 _ [Z.add 1] 1 1).
    + by apply (move_lock adds_one 2 _ [Z.add 1]).
    + by apply (move_exchange adds_one 2 _ [Z.add 1] true 1).
    + by apply (move_access adds_one 1 _ (Z.add 1) [] []).
  - cbn. done.
Qed.

Lemma mutex_serialises_witness : exists w : world, runs adds_one sample_world w /\
  places w 2 = Sleeping [Z.add 1] /\ data w = 1 /\ word w = MUTEX_LOCKED.
Proof.
  destruct sample_run as (w & R & E2 & E1 & Ed). exists w. split; [exact R|]. split; [exact E2|]. split; [exact Ed|].
  destruct (mutex_serialises adds_one sample_world w) as (_ & Hw & _); [by split_and! | exact R |].
  apply Hw. eexists _, _, _. exact E1.
Defined.

Lemma mutex_no_deadlock_witness : exists w w' : world, runs adds_one sample_world w /\ places w 2 = Sleeping [Z.add 1] /\
  runs adds_one w w' /\ places w' 2 = Inside [] [Z.add 1].
Proof.
  destruct sample_run as (w & R & E2 & _ & _).
  destruct (mutex_no_deadlock adds_one sample_world w 2 [Z.add 1]) as (w' & R' & E'); [by split_and! | exact R | by right |].
  by exists w, w'.
Defined.

(** The others free the word when they have slept three times. *)
Lemma mutex_lock_returns_witness :
  mutex_lock (modify (fun s => (if s.2 <? 2 then 1 else 0, s.2 + 1))) 5 (1, 0) = Ok (tt, (1, 3)).
Proof.
  apply (mutex_lock_returns (fun s => (if s.2 <? 2 then 1 else 0, s.2 + 1)) 3 (1, 0) 5); [lia | | done].
  intros j Hj. assert (j = 0 \/ j = 1 \/ j = 2)%nat as [->|[->| ->]] by lia; reflexivity.
Defined.
