(* ===== verification/User.v ===== *)
(** * The state of a user process

    What the user library keeps in a process -- the heap and the bytes of
    [src/library/gc/mem.c], the shared-memory area of
    [src/library/gc/shm.c], the servers and methods of
    [src/library/gc/server.c] -- and the system calls it makes
    ([src/include/gc/syscall.h]).  The calls are the class [UserSys]: the
    library is a client of the kernel, and its theorems are proved against
    the laws [UserSysLaws] of that interface, and [UserSysSent] where they
    speak of what was sent.  [script], a kernel with messages ready to be
    delivered, is an instance. *)

From S2P Require Import Prelude Memory Heap Strings UShm.

(** ** The system calls *)

(** [struct user_request]. *)
Record user_request := UserRequest {
  uq_func : Z; uq_params : list Z; uq_shmsize : list Z; uq_isBlocking : Z; uq_pid : Z
}.

(** [struct user_sendrequest]. *)
Record user_sendrequest := SendRequest {
  sr_func : Z; sr_a : Z; sr_b : Z; sr_c : Z; sr_answeri : Z; sr_answerll : Z; sr_errcode : Z
}.

(** A call that maps memory answers, besides its value, the contents of the
    pages it maps; a call that fills a structure of the caller answers it. *)
Class UserSys (K : Type) := {
  sys_request_get : Z -> bool -> M K (Z * user_request);
  sys_request_answer : Z -> Z -> Z -> Z -> M K unit;
  sys_request_mapShm : Z -> Z -> Z -> M K (Z * mem);
  sys_request : Z -> user_sendrequest -> M K (Z * user_sendrequest);
  sys_send_msg : Z -> user_sendrequest -> M K (Z * user_sendrequest);
  sys_object_create : M K Z;
  sys_object_close : Z -> M K unit;
  sys_shm_create : Z -> Z -> M K (Z * mem);
  sys_shm_delete : Z -> M K Z;
  sys_printk : list Z -> M K unit;
  sys_thread_new : Z -> Z -> M K unit;
  sys_thread_sleep : Z -> M K unit
}.

(** The calls end, and answers are sent by [request_answer] only. *)
Class UserSysLaws (K : Type) `{UserSys K} := {
  answered : K -> list (Z * Z * Z * Z);
  law_request_get d w k : wp (sys_request_get d w) k (fun _ k' => answered k' = answered k);
  law_request_answer d a b e k :
    wp (sys_request_answer d a b e) k (fun _ k' => answered k' = answered k ++ [(d, a, b, e)]);
  law_request_mapShm d p i k : wp (sys_request_mapShm d p i) k (fun _ k' => answered k' = answered k);
  law_shm_create p z k : wp (sys_shm_create p z) k (fun _ k' => answered k' = answered k);
  law_shm_delete p k : wp (sys_shm_delete p) k (fun _ k' => answered k' = answered k);
  law_request d r k : wp (sys_request d r) k (fun _ k' => answered k' = answered k);
  law_send_msg d r k : wp (sys_send_msg d r) k (fun _ k' => answered k' = answered k);
  printed : K -> list Z;
  law_printk s k : wp (sys_printk s) k (fun _ k' => answered k' = answered k /\ printed k' = printed k ++ s);
  law_thread_new e d k : wp (sys_thread_new e d) k (fun _ k' => answered k' = answered k);
  law_thread_sleep t k : wp (sys_thread_sleep t) k (fun _ k' => answered k' = answered k)
}.

(** The requests and messages that the process has sent, to which
    descriptor: the calls for requests add to them, and those for shared
    memory do not. *)
Class UserSysSent (K : Type) `{UserSys K} := {
  sent : K -> list (Z * user_sendrequest);
  sent_request d r k : wp (sys_request d r) k (fun _ k' => sent k' = sent k ++ [(d, r)]);
  sent_msg d r k : wp (sys_send_msg d r) k (fun _ k' => sent k' = sent k ++ [(d, r)]);
  sent_shm_create p z k : wp (sys_shm_create p z) k (fun _ k' => sent k' = sent k);
  sent_shm_delete p k : wp (sys_shm_delete p) k (fun _ k' => sent k' = sent k)
}.

(** ** The state *)

(** [struct object_srv]. *)
Record server := Server { sv_id : Z; sv_methods : ptr; sv_data : Z; sv_next : ptr }.

Definition set_sv_methods (p : ptr) (v : server) : server := Server (sv_id v) p (sv_data v) (sv_next v).
Definition set_sv_next (p : ptr) (v : server) : server := Server (sv_id v) (sv_methods v) (sv_data v) p.

(** [struct method_srv]; a handler is the address of a function. *)
Record method_srv := MethodSrv { ms_id : Z; ms_h : Z; ms_next : ptr }.

Definition set_ms_next (p : ptr) (v : method_srv) : method_srv := MethodSrv (ms_id v) (ms_h v) p.

(** [us_junk] is what uninitialised variables hold; [us_data] is the data
    of the module that uses the library. *)
Record ustate (K D : Type) := UState {
  us_lib : ulib;
  us_shm : ushm;
  us_servers : gmap Z server;
  us_methods : gmap Z method_srv;
  servers : ptr;
  us_junk : Z;
  us_kernel : K;
  us_data : D
}.
Arguments UState {K D}. Arguments us_lib {K D}. Arguments us_shm {K D}. Arguments us_servers {K D}.
Arguments us_methods {K D}. Arguments servers {K D}. Arguments us_junk {K D}.
Arguments us_kernel {K D}. Arguments us_data {K D}.

#[export] Instance Linked_server : Linked server :=
  {| nxt := sv_next; set_nxt := set_sv_next; nxt_set _ _ := eq_refl |}.
#[export] Instance Linked_method : Linked method_srv :=
  {| nxt := ms_next; set_nxt := set_ms_next; nxt_set _ _ := eq_refl |}.

#[export] Instance Store_server K D : Store (ustate K D) server.
Proof.
  refine {| st_get := us_servers;
            st_put m s := UState (us_lib s) (us_shm s) m (us_methods s) (servers s) (us_junk s) (us_kernel s) (us_data s) |};
    try reflexivity. by intros [].
Defined.
#[export] Instance Store_method K D : Store (ustate K D) method_srv.
Proof.
  refine {| st_get := us_methods;
            st_put m s := UState (us_lib s) (us_shm s) (us_servers s) m (servers s) (us_junk s) (us_kernel s) (us_data s) |};
    try reflexivity. by intros [].
Defined.

Section user.
Context {K D : Type}.

Definition set_us_lib (l : ulib) (s : ustate K D) : ustate K D :=
  UState l (us_shm s) (us_servers s) (us_methods s) (servers s) (us_junk s) (us_kernel s) (us_data s).
Definition set_us_shm (a : ushm) (s : ustate K D) : ustate K D :=
  UState (us_lib s) a (us_servers s) (us_methods s) (servers s) (us_junk s) (us_kernel s) (us_data s).
Definition set_servers (p : ptr) (s : ustate K D) : ustate K D :=
  UState (us_lib s) (us_shm s) (us_servers s) (us_methods s) p (us_junk s) (us_kernel s) (us_data s).
Definition set_us_kernel (k : K) (s : ustate K D) : ustate K D :=
  UState (us_lib s) (us_shm s) (us_servers s) (us_methods s) (servers s) (us_junk s) k (us_data s).
Definition set_us_data (d : D) (s : ustate K D) : ustate K D :=
  UState (us_lib s) (us_shm s) (us_servers s) (us_methods s) (servers s) (us_junk s) (us_kernel s) d.

(** The bytes of the process. *)
Definition us_mem (s : ustate K D) : mem := hm (ul_heap (us_lib s)).
Definition set_us_mem (m : mem) (s : ustate K D) : ustate K D :=
  set_us_lib (ULib (set_hm m (ul_heap (us_lib s))) (heap_ok (us_lib s))) s.

Definition in_lib {A} (m : M ulib A) : M (ustate K D) A := zoom us_lib set_us_lib m.
Definition in_mem {A} (m : M mem A) : M (ustate K D) A := zoom us_mem set_us_mem m.
Definition in_shm {A} (m : M ushm A) : M (ustate K D) A := zoom us_shm set_us_shm m.
Definition in_kernel {A} (m : M K A) : M (ustate K D) A := zoom us_kernel set_us_kernel m.

(** ** [strdup] of [src/library/std/string.c] *)

Definition strdup (n : nat) (src : Z) : M (ustate K D) Z :=
  l ← in_mem (strlen n src);
  ret ← in_lib (malloc (l + 1));
  if ret =? 0 then mret ret else _ ← in_mem (strcpy n ret src); mret ret.

(** ** [shm_allocNew] and [shm_freeDel] of [src/library/gc/shm.c] *)

Context `{UserSys K}.

(** New pages in the address space. *)
Definition map_new (lo len : Z) (f : mem) : M (ustate K D) unit :=
  modify (fun s => set_us_mem (splice (us_mem s) f lo (lo + len)) s).

Definition shm_allocNew (size : Z) : M (ustate K D) Z :=
  let size := page_up size in
  p ← in_shm (shm_alloc size);
  r ← in_kernel (sys_shm_create p size);
  if negb (r.1 =? 0) then in_shm (shm_free p);; mret 0
  else map_new p size r.2;; mret p.

Definition shm_freeDel (p : Z) : M (ustate K D) unit :=
  _ ← in_kernel (sys_shm_delete p); in_shm (shm_free p).

(** ** Text *)

Definition printk (s : list Z) : M (ustate K D) unit := in_kernel (sys_printk s).
(** The bytes a [char*] stands for. *)
Definition chars (fuel : nat) (p : Z) : M (ustate K D) (list Z) :=
  if p =? 0 then fail NullDeref else in_mem (read_string fuel p).

End user.

(** ** A kernel that delivers prepared requests *)

Inductive event :=
| EvAnswer (d a b e : Z)
| EvMap (d p i : Z)
| EvRequest (d : Z) (r : user_sendrequest)
| EvSend (d : Z) (r : user_sendrequest)
| EvClose (d : Z)
| EvShmCreate (p z : Z)
| EvShmDelete (p : Z)
| EvPrint (s : list Z)
| EvThread (entry data : Z)
| EvSleep (t : Z).

(** Requests waiting for this process, what it has done, the next
    descriptor, and the contents of the segments it will be sent. *)
Record script := Script { sc_inbox : list (Z * user_request); sc_log : list event; sc_next : Z; sc_shm : mem }.

Definition logged (e : event) (k : script) : script := Script (sc_inbox k) (sc_log k ++ [e]) (sc_next k) (sc_shm k).

Definition no_request : user_request := UserRequest 0 [0; 0; 0] [0; 0; 0] 0 0.

#[export] Instance ScriptSys : UserSys script := {|
  sys_request_get d w := fun k =>
    match sc_inbox k with
    | (d', rq) :: q => if d' =? d then Ok ((0, rq), Script q (sc_log k) (sc_next k) (sc_shm k)) else Ok ((-1, no_request), k)
    | [] => Ok ((-1, no_request), k)
    end;
  sys_request_answer d a b e := modify (logged (EvAnswer d a b e));
  sys_request_mapShm d p i := modify (logged (EvMap d p i));; gets (fun k => (0, fun x => sc_shm k (x - p)));
  sys_request d r := modify (logged (EvRequest d r));; mret (0, r);
  sys_send_msg d r := modify (logged (EvSend d r));; mret (0, r);
  sys_object_create := fun k => Ok (sc_next k, Script (sc_inbox k) (sc_log k) (sc_next k + 1) (sc_shm k));
  sys_object_close d := modify (logged (EvClose d));
  sys_shm_create p z := modify (logged (EvShmCreate p z));; mret (0, fun _ => 0);
  sys_shm_delete p := modify (logged (EvShmDelete p));; mret 0;
  sys_printk s := modify (logged (EvPrint s));
  sys_thread_new e d := modify (logged (EvThread e d));
  sys_thread_sleep t := modify (logged (EvSleep t))
|}.

Fixpoint answers_of (l : list event) : list (Z * Z * Z * Z) :=
  match l with
  | [] => []
  | EvAnswer d a b e :: l' => (d, a, b, e) :: answers_of l'
  | _ :: l' => answers_of l'
  end.

Lemma answers_of_app l1 l2 : answers_of (l1 ++ l2) = answers_of l1 ++ answers_of l2.
Proof. induction l1 as [|[] l1 IH]; cbn; rewrite ?IH; done. Qed.

(** The text of the screen. *)
Fixpoint text_of (l : list event) : list Z :=
  match l with
  | [] => []
  | EvPrint s :: l' => s ++ text_of l'
  | _ :: l' => text_of l'
  end.

Lemma text_of_app l1 l2 : text_of (l1 ++ l2) = text_of l1 ++ text_of l2.
Proof. induction l1 as [|[] l1 IH]; cbn; rewrite ?IH, ?app_assoc; done. Qed.

Lemma logged_answers e k : (forall d a b c, e <> EvAnswer d a b c) ->
  answers_of (sc_log (logged e k)) = answers_of (sc_log k).
Proof. intros He. cbn. rewrite answers_of_app. destruct e; try apply app_nil_r. by destruct (He d a b e). Qed.

#[export] Instance ScriptLaws : UserSysLaws script.
Proof.
  refine {| answered k := answers_of (sc_log k); printed k := text_of (sc_log k) |}; unfold wp; intros;
    try (by apply logged_answers).
  - cbn. destruct (sc_inbox k) as [|[d' rq] q]; [done|]. by destruct (d' =? d).
  - cbn. by rewrite answers_of_app.
  - change (sys_printk s k) with (Ok (tt, logged (EvPrint s) k) : res (unit * script)). cbn beta iota.
    split; [by apply logged_answers|]. cbn. rewrite text_of_app. cbn. by rewrite app_nil_r.
Defined.

Fixpoint sent_of (l : list event) : list (Z * user_sendrequest) :=
  match l with
  | [] => []
  | EvRequest d r :: l' | EvSend d r :: l' => (d, r) :: sent_of l'
  | _ :: l' => sent_of l'
  end.

Lemma sent_of_app l1 l2 : sent_of (l1 ++ l2) = sent_of l1 ++ sent_of l2.
Proof. induction l1 as [|[] l1 IH]; cbn; rewrite ?IH; done. Qed.

#[export] Instance ScriptSent : UserSysSent script.
Proof.
  refine {| sent k := sent_of (sc_log k) |}; unfold wp; intros.
  - exact (sent_of_app (sc_log k) [EvRequest d r]).
  - exact (sent_of_app (sc_log k) [EvSend d r]).
  - etransitivity; [exact (sent_of_app (sc_log k) [EvShmCreate p z]) | apply app_nil_r].
  - etransitivity; [exact (sent_of_app (sc_log k) [EvShmDelete p]) | apply app_nil_r].
Defined.

(** ** Lemmas *)

Section lemmas.
Context {K D : Type} {KS : UserSys K} {KL : UserSysLaws K}.

Lemma in_mem_ok {A} (m : M mem A) (s : ustate K D) a : m (us_mem s) = Ok (a, us_mem s) -> in_mem m s = Ok (a, s).
Proof. intros E. unfold in_mem, zoom. rewrite E. by destruct s as [[[] ?]]. Qed.

(** [printk] adds to the screen's text. *)
Lemma wp_printk str (s : ustate K D) (Q : unit -> ustate K D -> Prop) :
  (forall k, printed k = printed (us_kernel s) ++ str -> answered k = answered (us_kernel s) -> Q tt (set_us_kernel k s)) ->
  wp (printk str) s Q.
Proof.
  intros HQ. destruct (proj1 (wp_Ok _ _ _) (law_printk str (us_kernel s))) as ([] & k & E & Ea & Ep).
  eapply wp_eq; [unfold printk, in_kernel, zoom; rewrite E; reflexivity|]. by apply HQ.
Qed.

Lemma chars_ok fuel (s : ustate K D) p str : p <> 0 -> cstr (us_mem s) p str -> (length str < fuel)%nat -> chars fuel p s = Ok (str, s).
Proof.
  intros Hp Hc Hf. unfold chars. rewrite (proj2 (Z.eqb_neq _ _) Hp). by apply in_mem_ok, read_string_ok.
Qed.

End lemmas.
