(* ===== verification/Server.v ===== *)
(** * Servers: objects that answer requests

    [src/library/gc/server.c] with the types of [src/include/gc/server.h]
    and the method codes of [src/include/gm/method.h].  A handler is the
    address of a C function; the two that the library defines,
    [checkIfHandles] and [checkIfHandlesMany], are here, and the others are
    the argument [user_handler] of the section.  A handler gets the
    [struct method_data] by reference, so it answers it as well. *)

From S2P Require Import Prelude Memory Heap Strings UShm User.
From S2P Require Requests.

(** ** Types and codes *)

Definition PT_VOID : Z := 0.
Definition PT_OBJDESC : Z := 1.
Definition PT_LONG : Z := 2.
Definition PT_LONGLONG : Z := 3.
Definition PT_SHM : Z := 3.
Definition HA_ONCE : Z := 1.
Definition HA_WAIT : Z := 2.
Definition HA_LOOP : Z := 3.
Definition ME_UNHANDLED : Z := -32767.

(** [MP(r, a, b, c)]: the types of a method's answer and parameters, in the
    top byte of its code. *)
Definition MP (r a b c : Z) : Z :=
  Z.shiftl (Z.lor (Z.lor (Z.lor (Z.shiftl r 6) (Z.shiftl a 4)) (Z.shiftl b 2)) c) 24.

Definition M_HANDLECHECK_BIVV : Z := Z.lor 1 (MP 2 2 0 0).
Definition M_HANDLECHECK_BMIV : Z := Z.lor 1 (MP 2 3 2 0).
Definition M_NOTHING_VVVV : Z := 2.

Record mparam := MParam { mp_v : Z; mp_type : Z; mp_keepShm : Z; mp_shmsize : Z }.
Record method_data := MethodData {
  md_params : list mparam; md_func : Z; md_pid : Z; md_blocking : Z; md_obj : ptr
}.
(** [mr_v] is the 64-bit union. *)
Record method_ret := MethodRet { mr_v : Z; mr_type : Z; mr_status : Z }.

Definition no_param : mparam := MParam 0 0 0 0.
Definition md_param (d : method_data) (i : nat) : mparam := default no_param (md_params d !! i).

(** The addresses of the two handlers of this file, and of [procServer]. *)
Definition h_checkIfHandles : Z := 1.
Definition h_checkIfHandlesMany : Z := 2.
Definition procServer : ptr := 1.

Section server.
Context {K D : Type} `{UserSys K}.
Abbreviation U := (ustate K D).

(** ** Return values *)

Definition mr_int (val type : Z) : M U method_ret :=
  j ← gets us_junk; mret (MethodRet (Z.shiftl (Z.shiftr j 32) 32 + w32 val) type 0).
Definition mr_long (val : Z) : M U method_ret := mr_int val PT_LONG.
Definition mr_llong (val : Z) : M U method_ret := mret (MethodRet val PT_LONGLONG 0).
Definition mr_obj (obj : Z) : M U method_ret := mr_int obj PT_OBJDESC.
Definition mr_srv (obj : ptr) : M U method_ret := o ← load (A := server) obj; mr_int (sv_id o) PT_OBJDESC.
Definition mr_void : M U method_ret := j ← gets us_junk; mret (MethodRet j PT_VOID 0).
Definition mr_err (error : Z) : M U method_ret := mret (MethodRet 0 PT_VOID error).

(** ** Handlers *)

Definition getHandler (o : ptr) (m : Z) : M U Z :=
  v ← load (A := server) o;
  i ← walk (A := method_srv) (fun _ x => ms_id x =? m) (sv_methods v);
  if i =? 0 then mret 0 else x ← load (A := method_srv) i; mret (ms_h x).

Definition srv_addHandler (o : ptr) (method h : Z) : M U unit :=
  j ← gets us_junk;
  s ← new (MethodSrv method h j);
  v ← load (A := server) o;
  update s (set_ms_next (sv_methods v));;
  update o (set_sv_methods s).

Definition checkIfHandles (d : method_data) : M U method_ret :=
  h ← getHandler (md_obj d) (mp_v (md_param d 0));
  if h =? 0 then mr_long 0 else mr_long 1.

(** A byte in one of the blocks of the area that are in use, which are
    those where a segment is mapped. *)
Definition in_block (x : Z) (b : shm_block) : bool :=
  (is_hole b =? 0) && (b_start b <=? x) && (x <? b_start b + b_size b).
Definition shm_byte (a : ushm) (x : Z) : bool := existsb (fun e => in_block x e.2) (map_to_list (ub a)).

(** A read of a word through a pointer that came with a request.  In the
    area for shared memory a byte outside the blocks is not mapped, and to
    read it is a fault; the rest of the memory is the process's own. *)
Definition can_read (a : ushm) (x : Z) : bool :=
  forallb (fun i => let y := w32 (x + i) in negb ((SHM_LO <=? y) && (y <? SHM_HI)) || shm_byte a y) [0; 1; 2; 3].
Definition read_word (x : Z) : M U Z := fun s =>
  let x := w32 x in
  if can_read (us_shm s) x then Ok (rd32 (us_mem s) x, s) else Fault (BadAccess x).

(** The loop over the words of shared memory from [data] on. *)
Fixpoint handles_all (n : nat) (o data : Z) : M U bool :=
  match n with
  | O => mret true
  | Datatypes.S n' =>
      m ← read_word data;
      h ← getHandler o m;
      if h =? 0 then mret false else handles_all n' o (data + 4)
  end.

Definition checkIfHandlesMany (d : method_data) : M U method_ret :=
  if negb (mp_type (md_param d 0) =? PT_SHM) then mr_err (-1)
  else if negb (mp_type (md_param d 1) =? PT_LONG) then mr_err (-1)
  else
    let data := mp_v (md_param d 0) in
    if data =? 0 then mr_long 0
    else
      b ← handles_all (Z.to_nat (w32 (mp_v (md_param d 1)))) (md_obj d) data;
      if (b : bool) then mr_long 1 else mr_long 0.

(** ** Strings in shared memory *)

(** The loop of [CHKSSTR]: a zero byte among the [n] at [p]. *)
Fixpoint has_nul (n : nat) (p : Z) (m : mem) : bool :=
  match n with
  | O => false
  | Datatypes.S n' => if rd8 m (w32 p) =? 0 then true else has_nul n' (p + 1) m
  end.

(** [CHKSSTR(d, n)]: whether the handler goes on. *)
Definition chksstr (d : method_data) (n : nat) : M U bool :=
  let p := md_param d n in
  if mp_v p =? 0 then mret false
  else
    ok ← gets (fun s => has_nul (Z.to_nat (mp_shmsize p)) (mp_v p) (us_mem s));
    mret (ok || (mp_shmsize p =? 0)).

(** ** Servers *)

Definition objsrv_init : M U unit :=
  modify (fun s => st_put (<[procServer := Server 0 0 0 0]> (us_servers s)) s);;
  modify (set_servers procServer);;
  srv_addHandler procServer M_HANDLECHECK_BIVV h_checkIfHandles;;
  srv_addHandler procServer M_HANDLECHECK_BMIV h_checkIfHandlesMany.

Definition srv_create : M U ptr :=
  d ← in_kernel sys_object_create;
  h ← gets servers;
  s ← new (Server d 0 0 h);
  srv_addHandler s M_HANDLECHECK_BIVV h_checkIfHandles;;
  srv_addHandler s M_HANDLECHECK_BMIV h_checkIfHandlesMany;;
  modify (set_servers s);;
  mret s.

Definition srv_get (descriptor : Z) : M U ptr :=
  h ← gets servers; walk (A := server) (fun _ v => sv_id v =? descriptor) h.

(** The loop that unlinks a server that is not the first. *)
Definition unlink_step (s i : ptr) : M U (ptr + unit) :=
  v ← load (A := server) i;
  if sv_next v =? 0 then mret (inr tt)
  else if sv_next v =? s then
    x ← load (A := server) s;
    update i (set_sv_next (sv_next x));; mret (inr tt)
  else mret (inl (sv_next v)).

(** [while (s->methods != 0) ...] *)
Definition free_methods_step (s : ptr) (_ : unit) : M U (unit + unit) :=
  v ← load (A := server) s;
  if sv_methods v =? 0 then mret (inr tt)
  else
    m ← load (A := method_srv) (sv_methods v);
    free (A := method_srv) (sv_methods v);;
    update s (set_sv_methods (ms_next m));;
    mret (inl tt).

Definition srv_delete (s : ptr) : M U unit :=
  h ← gets servers;
  (if h =? s then v ← load (A := server) s; modify (set_servers (sv_next v))
   else n ← gets (fun s => size (us_servers s)); loop (1 + n) (unlink_step s) h);;
  v ← load (A := server) s;
  in_kernel (sys_object_close (sv_id v));;
  n ← gets (fun s => size (us_methods s));
  loop (1 + n) (free_methods_step s) tt;;
  free (A := server) s.

(** ** Handling requests *)

Variable user_handler : Z -> method_data -> M U (method_ret * method_data).

(** Calling a function by its address. *)
Definition invoke (h : Z) (d : method_data) : M U (method_ret * method_data) :=
  if h =? h_checkIfHandles then r ← checkIfHandles d; mret (r, d)
  else if h =? h_checkIfHandlesMany then r ← checkIfHandlesMany d; mret (r, d)
  else user_handler h d.

(** [request_mapShm]: the segment shows at [p]. *)
Definition map_param (id p : Z) (i : nat) (size : Z) : M U unit :=
  r ← in_kernel (sys_request_mapShm id p (Z.of_nat i));
  when (r.1 =? 0) (map_new p size r.2).

(** One round of the loop that decodes the parameters. *)
Definition get_param (o : ptr) (rq : user_request) (i : nat) : M U mparam :=
  j ← gets us_junk;
  let type := Z.land (Z.shiftr (uq_func rq) (28 - 2 * Z.of_nat i)) 3 in
  let v := nthz (uq_params rq) i in
  let size := nthz (uq_shmsize rq) i in
  if (type =? PT_LONG) || (type =? PT_OBJDESC) then mret (MParam v type j j)
  else if type =? PT_SHM then
    if v =? 0 then
      p ← in_shm (shm_alloc size);
      if p =? 0 then mret (MParam p type 1 size)
      else s ← load (A := server) o; map_param (sv_id s) p i size;; mret (MParam p type 0 size)
    else mret (MParam v type 1 size)
  else mret (MParam j type j j).

(** After the answer to a blocking request. *)
Definition free_param (p : mparam) : M U unit :=
  when ((mp_type p =? PT_SHM) && negb (mp_v p =? 0)) (in_shm (shm_free (mp_v p))).
(** After a message. *)
Definition release_param (p : mparam) : M U unit :=
  when ((mp_type p =? PT_SHM) && (mp_keepShm p =? 0)) (shm_freeDel (mp_v p)).

Fixpoint each_param (f : mparam -> M U unit) (ps : list mparam) : M U unit :=
  match ps with
  | [] => mret tt
  | p :: ps' => f p;; each_param f ps'
  end.

Definition answer_words (ret : method_ret) : Z * Z :=
  if (mr_type ret =? PT_OBJDESC) || (mr_type ret =? PT_LONG) then (w32 (mr_v ret), 0)
  else if mr_type ret =? PT_LONGLONG then (w32 (mr_v ret), w32 (Z.shiftr (mr_v ret) 32))
  else (0, 0).

Definition srv_request (o : ptr) (rq : user_request) : M U unit :=
  m ← getHandler o (uq_func rq);
  s ← load (A := server) o;
  if m =? 0 then
    when (negb (uq_isBlocking rq =? 0)) (in_kernel (sys_request_answer (sv_id s) 0 0 ME_UNHANDLED))
  else
    p0 ← get_param o rq 0; p1 ← get_param o rq 1; p2 ← get_param o rq 2;
    r ← invoke m (MethodData [p0; p1; p2] (uq_func rq) (uq_pid rq) (uq_isBlocking rq) o);
    let '(ret, md) := r in
    if negb (uq_isBlocking rq =? 0) then
      let '(a, b) := answer_words ret in
      s ← load (A := server) o;
      in_kernel (sys_request_answer (sv_id s) a b (mr_status ret));;
      each_param free_param (md_params md)
    else each_param release_param (md_params md).

(** [srv_handle(o, HA_ONCE)] and [srv_handle(o, HA_WAIT)]. *)
Definition srv_handle (o : ptr) (act : Z) : M U unit :=
  s ← load (A := server) o;
  r ← in_kernel (sys_request_get (sv_id s) (act =? HA_WAIT));
  when (r.1 =? 0) (srv_request o r.2).

(** [srv_handle(o, HA_LOOP)] never returns: its first [n] rounds. *)
Fixpoint srv_handle_loop (n : nat) (o : ptr) : M U unit :=
  match n with
  | O => mret tt
  | Datatypes.S n' => srv_handle o HA_WAIT;; srv_handle_loop n' o
  end.

(** [srv_handleAll]; a server that a handler creates comes in front of the
    list and is not visited, so the servers there are at the start bound
    the rounds. *)
Definition srv_handleAll : M U unit :=
  h ← gets servers;
  n ← gets (fun s => size (us_servers s));
  loop (1 + n) (fun i => if i =? 0 then mret (inr tt)
                         else srv_handle i HA_ONCE;; v ← load (A := server) i; mret (inl (sv_next v))) h.

End server.

(** ** Specification *)

(** The first handler of a table that is registered for a method. *)
Fixpoint handler_of (t : list (Z * Z)) (m : Z) : Z :=
  match t with
  | [] => 0
  | (i, h) :: t' => if i =? m then h else handler_of t' m
  end.

(** The server at [o] has the descriptor [id] and the table [t], most
    recent handler first, kept at the addresses [l]. *)
Definition server_at {K D} (s : ustate K D) (o : ptr) (id : Z) (t : list (Z * Z)) (l : list Z) : Prop :=
  o <> 0 /\ exists v, us_servers s !! o = Some v /\ sv_id v = id /\ linked (us_methods s) (sv_methods v) l /\
    Forall2 (fun x e => exists a, us_methods s !! x = Some a /\ (ms_id a, ms_h a) = e) l t.
Definition server_is {K D} (s : ustate K D) (o : ptr) (id : Z) (t : list (Z * Z)) : Prop :=
  exists l, server_at s o id t l.

(** The table of a server that has just been made. *)
Definition new_table : list (Z * Z) :=
  [(M_HANDLECHECK_BMIV, h_checkIfHandlesMany); (M_HANDLECHECK_BIVV, h_checkIfHandles)].

(** The type the code of a method gives to parameter [i]. *)
Definition param_type (func : Z) (i : nat) : Z := Z.land (Z.shiftr func (28 - 2 * Z.of_nat i)) 3.

(** A request from another process: shared memory comes as a segment to
    map, not as an address. *)
Definition remote (rq : user_request) : Prop := forall i, (i < 3)%nat -> param_type (uq_func rq) i = PT_SHM ->
  nthz (uq_params rq) i = 0 /\ 0 < nthz (uq_shmsize rq) i <= 0xFFFFF000.

(** What [get_param] makes of parameter [i]: the value, or an area for the
    segment; [b] is that area. *)
Definition decoded (rq : user_request) (i : nat) (p : mparam) (b : list (Z * Z)) : Prop :=
  mp_type p = param_type (uq_func rq) i /\
  if mp_type p =? PT_SHM then
    mp_shmsize p = nthz (uq_shmsize rq) i /\
    ((mp_v p = 0 /\ mp_keepShm p = 1 /\ b = []) \/
     (mp_v p <> 0 /\ mp_keepShm p = 0 /\ b = [(mp_v p, page_up (mp_shmsize p))]))
  else b = [] /\ (mp_type p = PT_LONG \/ mp_type p = PT_OBJDESC -> mp_v p = nthz (uq_params rq) i).

(** ** Lemmas *)

(** The words of a block in use can be read. *)
Lemma block_can_read a es p z x : shm_ok a es -> (p, z) ∈ taken es -> p <= x -> x + 4 <= p + z -> can_read a x = true.
Proof.
  intros W Hin H1 H2. destruct (taken_split _ _ _ Hin) as (es1 & es2 & ->).
  pose proof (tiles_start _ _ _ _ _ _ _ (so_tiles _ _ W)). pose proof (tiles_end _ _ _ _ _ _ _ (so_tiles _ _ W)).
  unfold SHM_LO, SHM_HI in *. destruct (so_view _ _ W) as (l & [_ _ Ee _]).
  assert (Hb : exists y b, ub a !! y = Some b /\ (b_start b, b_size b, is_hole b) = (p, z, 0)).
  { assert (Hm : (p, z, 0) ∈ ent (ub a) <$> l) by (rewrite <- Ee; set_solver).
    apply list_elem_of_fmap in Hm as (y & Hy & _). unfold ent in Hy. destruct (ub a !! y) as [b|] eqn:E; [by exists y, b|].
    injection Hy as Hp0 Hz0. lia. }
  destruct Hb as (y & b & Ey & [= Es Ez Eh]).
  unfold can_read. apply forallb_forall. intros i Hi.
  assert (Hi' : 0 <= i <= 3) by (cbn in Hi; lia). rewrite w32_small by (unfold u32; lia). apply orb_true_iff. right.
  unfold shm_byte. apply existsb_exists. exists (y, b). split; [by apply list_elem_of_In, elem_of_map_to_list|].
  unfold in_block. cbn [snd]. rewrite Es, Ez, Eh. lia.
Qed.

Lemma taken_bounds a es p z : shm_ok a es -> (p, z) ∈ taken es -> SHM_LO <= p /\ p + z <= SHM_HI.
Proof.
  intros W (es1 & es2 & ->)%taken_split.
  pose proof (tiles_start _ _ _ _ _ _ _ (so_tiles _ _ W)). pose proof (tiles_end _ _ _ _ _ _ _ (so_tiles _ _ W)). lia.
Qed.

Section lemmas.
Context {K D : Type} `{UserSys K}.
Abbreviation U := (ustate K D).

Lemma has_nul_spec n p m : has_nul n p m = true <-> exists i, (i < n)%nat /\ rd8 m (w32 (p + Z.of_nat i)) = 0.
Proof.
  revert p. induction n as [|n IH]; intros p; cbn [has_nul].
  - split; [done|]. intros (i & Hi & _). lia.
  - destruct (Z.eqb_spec (rd8 m (w32 p)) 0) as [E|Hne].
    + split; [|done]. intros _. exists O. rewrite Z.add_0_r. split; [lia | done].
    + rewrite IH. split; intros (i & Hi & E).
      * exists (S i). split; [lia|]. rewrite <- E. do 2 f_equal. lia.
      * destruct i as [|i]; [rewrite Z.add_0_r in E; done|]. exists i. split; [lia|]. rewrite <- E. do 2 f_equal. lia.
Qed.

Lemma cstr_has_nul m p str n : cstr m p str -> (length str < n)%nat -> has_nul n p m = true.
Proof.
  intros [(H0 & H1 & Hb) _] Hn. apply has_nul_spec. exists (length str). split; [done|].
  rewrite length_app in H1. cbn in H1. rewrite w32_small by (unfold u32; lia). apply Hb.
  by rewrite lookup_app_r, Nat.sub_diag.
Qed.

(** [CHKSSTR]. *)
Lemma chksstr_ok (s : U) d p : mp_v (md_param d 0) = p -> p <> 0 ->
  chksstr d 0 s = Ok (has_nul (Z.to_nat (mp_shmsize (md_param d 0))) p (us_mem s) || (mp_shmsize (md_param d 0) =? 0), s).
Proof.
  intros Ep Hp. apply wp_eq_Ok. unfold chksstr. rewrite Ep, (proj2 (Z.eqb_neq _ _) Hp). by wp_steps.
Qed.

Lemma chksstr_str (s : U) d p str : mp_v (md_param d 0) = p -> p <> 0 -> cstr (us_mem s) p str ->
  mp_shmsize (md_param d 0) = 0 \/ Z.of_nat (length str) < mp_shmsize (md_param d 0) -> chksstr d 0 s = Ok (true, s).
Proof.
  intros Ep Hp Hc Hsz. rewrite (chksstr_ok s d p Ep Hp). do 2 f_equal.
  destruct Hsz as [-> | Hsz]; [apply orb_true_r|]. by rewrite (cstr_has_nul _ _ str) by (done || lia).
Qed.

Lemma first_handler (m : gmap Z method_srv) l t f :
  Forall2 (fun x e => exists a, m !! x = Some a /\ (ms_id a, ms_h a) = e) l t -> (forall x, x ∈ l -> x <> 0) ->
  let i := first_ptr (fun _ x => ms_id x =? f) m l in
  (i = 0 /\ handler_of t f = 0) \/ (i <> 0 /\ exists a, m !! i = Some a /\ ms_h a = handler_of t f).
Proof.
  induction 1 as [|x e l t (a & Ea & <-) Hl IH]; intros Hx; cbn; [by left|].
  rewrite Ea. destruct (ms_id a =? f) eqn:E.
  - right. split; [apply Hx; set_solver | by exists a].
  - apply IH. intros y Hy. apply Hx. set_solver.
Qed.

Lemma getHandler_ok (s : U) o id t f : server_is s o id t -> getHandler o f s = Ok (handler_of t f, s).
Proof.
  intros (l & Ho & v & Ev & _ & Hl & Ht). apply wp_eq_Ok. unfold getHandler. wp_steps.
  eapply wp_eq; [by apply (walk_spec (S := U) _ _ l)|]. cbn [st_get Store_method].
  destruct (first_handler _ _ _ f Ht) as [[-> ->] | (Hi & a & Ea & Eh)].
  - intros x Hx. by apply (lseg_in_dom _ _ _ _ _ Hl).
  - by wp_steps.
  - rewrite (proj2 (Z.eqb_neq _ _) Hi). wp_steps. by rewrite Eh.
Qed.

(** A 32-bit value in the union of [struct method_ret]. *)
Lemma mr_int_ok val type (s : U) : exists r, mr_int val type s = Ok (r, s) /\ mr_status r = 0 /\ mr_type r = type /\
  w32 (mr_v r) = w32 val.
Proof.
  eexists. split; [reflexivity|]. split; [done|]. split; [done|]. cbn [mr_v].
  rewrite Z.shiftl_mul_pow2 by lia. unfold w32 at 1. change (2 ^ 32) with W32.
  rewrite Z.add_comm, Z.mod_add by lia. apply w32_small, w32_range.
Qed.

Lemma server_load (s : U) o id t : server_is s o id t -> exists v, load (A := server) o s = Ok (v, s) /\ sv_id v = id.
Proof. intros (l & Ho & v & Ev & Eid & _). exists v. split; [by apply (load_Ok (S := U)) | done]. Qed.

(** What [srv_addHandler] does to the stores. *)
Definition with_handler (o : ptr) (v : server) (p : ptr) (m h : Z) (s : U) : U :=
  st_put (<[o := set_sv_methods p v]> (us_servers s))
    (st_put (<[p := MethodSrv m h (sv_methods v)]> (us_methods s)) s).

Lemma srv_addHandler_eq (s : U) o v m h : o <> 0 -> us_servers s !! o = Some v ->
  exists p, p <> 0 /\ us_methods s !! p = None /\ srv_addHandler o m h s = Ok (tt, with_handler o v p m h s).
Proof.
  intros Ho Ev. exists (fresh_ptr (us_methods s)). pose proof (fresh_ptr_pos (us_methods s)).
  split; [lia|]. split; [apply fresh_ptr_None|].
  apply wp_eq_Ok. unfold srv_addHandler. wp_steps. apply wp_new.
  wp_steps; cbn [st_get Store_method Store_server st_put us_methods us_servers]; [lia | by rewrite lookup_insert_eq |].
  f_equal. unfold with_handler. cbn. by rewrite insert_insert_eq.
Qed.

Lemma Forall2_frame {A B} (P Q : A -> B -> Prop) l t :
  (forall x y, x ∈ l -> P x y -> Q x y) -> Forall2 P l t -> Forall2 Q l t.
Proof.
  intros HPQ. induction 1 as [|x y l t Hxy Hl IH]; constructor; [apply HPQ; [set_solver | done] | apply IH].
  intros x' y' Hx'. apply HPQ. set_solver.
Qed.

(** A server keeps its table when a fresh method is added. *)
Lemma server_at_methods (s : U) o id t l p a : us_methods s !! p = None -> server_at s o id t l ->
  server_at (st_put (<[p := a]> (us_methods s)) s) o id t l /\ p ∉ l.
Proof.
  intros Hp (Ho & v & Ev & Eid & Hl & Ht).
  assert (Hpl : p ∉ l) by (intros Hin; apply (lseg_in_dom _ _ _ _ _ Hl) in Hin as [_ [? ?]]; congruence).
  split; [|done]. split; [done|]. exists v. cbn.
  split_and!; [done | done | by apply lseg_frame |].
  eapply Forall2_frame; [|exact Ht]. intros x e Hx (b & Eb & Ee). exists b.
  rewrite lookup_insert_ne by set_solver. done.
Qed.

Lemma server_at_other (s : U) o id t l o' v : o <> o' -> server_at s o id t l ->
  server_at (st_put (<[o' := v]> (us_servers s)) s) o id t l.
Proof.
  intros Hne (Ho & w & Ew & Eid & Hl & Ht). split; [done|]. exists w. cbn.
  by rewrite lookup_insert_ne by done.
Qed.

Lemma with_handler_at (s : U) o id t l p m h v : us_servers s !! o = Some v -> us_methods s !! p = None -> p <> 0 ->
  server_at s o id t l -> server_at (with_handler o v p m h s) o id ((m, h) :: t) (p :: l).
Proof.
  intros Ev Hp Hp0 W. destruct (server_at_methods s o id t l p (MethodSrv m h (sv_methods v)) Hp W) as [W' Hpl].
  destruct W as (Ho & w & Ew & Eid & Hl & Ht), W' as (_ & w' & Ew' & _ & Hl' & Ht').
  cbn in Ew'. replace w' with v in * by congruence. replace w with v in * by congruence.
  split; [done|]. exists (set_sv_methods p v). unfold with_handler. cbn. rewrite lookup_insert_eq.
  split; [done|]. split; [done|]. split.
  - split; [done|]. split; [done|]. eexists. by rewrite lookup_insert_eq.
  - constructor; [eexists; by rewrite lookup_insert_eq | exact Ht'].
Qed.

(** [kfree] of every address of a list. *)
Definition delete_all {A} (m : gmap Z A) (l : list Z) : gmap Z A := foldl (fun m x => delete x m) m l.

Lemma delete_all_lookup {A} (m : gmap Z A) l x : delete_all m l !! x = if decide (x ∈ l) then None else m !! x.
Proof.
  unfold delete_all. revert m. induction l as [|y l IH]; intros m; [done|]. cbn. rewrite IH.
  destruct (decide (x ∈ l)); [by rewrite decide_True by set_solver|].
  destruct (decide (x = y)) as [->|Hne]; [rewrite decide_True by set_solver; apply lookup_delete_eq|].
  rewrite decide_False by set_solver. by rewrite lookup_delete_ne by done.
Qed.

(** The loop that frees the methods of [p]. *)
Lemma free_methods_ok p : forall l n (s : U) v, us_servers s !! p = Some v -> p <> 0 ->
  linked (us_methods s) (sv_methods v) l -> (length l < n)%nat ->
  loop n (free_methods_step p) tt s =
    Ok (tt, st_put (<[p := set_sv_methods 0 v]> (us_servers s)) (st_put (delete_all (us_methods s) l) s)).
Proof.
  induction l as [|x l IH]; intros n s v Ev Hp Hl Hn; pose proof (linked_NoDup _ _ _ Hl) as Hnd; (destruct n as [|n]; [lia|]); rewrite loop_S; apply run_bind;
    unfold free_methods_step at 1; wp_steps; cbn in Hl.
  - rewrite Hl. cbn [Z.eqb]. wp_steps. destruct s as [? ? sv sm ? ? ? ?], v. cbn in *. subst.
    unfold delete_all, set_sv_methods. cbn. by rewrite insert_id.
  - destruct Hl as (-> & Hx & a & Ea & Hl). rewrite (proj2 (Z.eqb_neq _ _) Hx). wp_steps. apply wp_free. wp_steps.
    rewrite (IH _ _ (set_sv_methods (ms_next a) v)); cbn; [ | by rewrite lookup_insert_eq | done | | cbn in Hn; lia].
    + by rewrite insert_insert_eq.
    + apply NoDup_cons in Hnd as [Hnd _]. by apply lseg_delete.
Qed.

(** The loop that unlinks [p] finds its predecessor [z]. *)
Lemma unlink_ok p z vz vp : forall l1 n (s : U) h l2, linked (us_servers s) h (l1 ++ z :: p :: l2) ->
  us_servers s !! z = Some vz -> us_servers s !! p = Some vp -> (length l1 < n)%nat ->
  loop n (unlink_step p) h s = Ok (tt, st_put (<[z := set_sv_next (sv_next vp) vz]> (us_servers s)) s).
Proof.
  induction l1 as [|x l1 IH]; intros n s h l2 Hl Ez Ep Hn; pose proof (linked_NoDup _ _ _ Hl) as Hnd;
    (destruct n as [|n]; [lia|]); rewrite loop_S; apply run_bind; unfold unlink_step at 1.
  - destruct Hl as (-> & Hz & a & Ea & Hp & Hp0 & _). replace a with vz in * by congruence. cbn in Hp.
    wp_steps. rewrite Hp, (proj2 (Z.eqb_neq _ _) Hp0), Z.eqb_refl. by wp_steps.
  - destruct Hl as (-> & Hx & a & Ea & Hl). wp_steps.
    assert (Hne : sv_next a <> p).
    { intros E. apply NoDup_cons in Hnd as [_ Hnd]. destruct l1 as [|y l1]; destruct Hl as (Hy & _); cbn in Hy.
      - apply NoDup_cons in Hnd as [Hnd _]. set_solver.
      - apply NoDup_cons in Hnd as [Hnd _]. set_solver. }
    assert (H0 : sv_next a <> 0) by (destruct l1; destruct Hl as (Hy & Hy0 & _); cbn in Hy; congruence).
    rewrite (proj2 (Z.eqb_neq _ _) H0), (proj2 (Z.eqb_neq _ _) Hne). wp_steps. apply (IH n s _ l2); cbn in Hn; done || lia.
Qed.

(** The links of the list once [p] is out. *)
Definition unlinked (l1 : list Z) (p : ptr) (vp : server) (m : gmap Z server) : gmap Z server :=
  match last l1 with
  | None => m
  | Some z => match m !! z with Some vz => <[z := set_sv_next (sv_next vp) vz]> m | None => m end
  end.

Lemma unlinked_other l1 p vp m x : x ∉ l1 -> unlinked l1 p vp m !! x = m !! x.
Proof.
  intros Hx. unfold unlinked. destruct (last l1) as [z|] eqn:E; [|done].
  destruct (m !! z); [|done]. apply lookup_insert_ne. intros ->. apply Hx. by apply last_Some_elem_of.
Qed.

(** The second half of [srv_delete], on a server that is out of the list. *)
Lemma close_and_free (s : U) p vp lm k : p <> 0 -> us_servers s !! p = Some vp ->
  linked (us_methods s) (sv_methods vp) lm -> sys_object_close (sv_id vp) (us_kernel s) = Ok (tt, k) ->
  (v ← load (A := server) p;
   in_kernel (sys_object_close (sv_id v));;
   n ← gets (fun s => size (us_methods s));
   loop (1 + n) (free_methods_step p) tt;;
   free (A := server) p) s =
  Ok (tt, UState (us_lib s) (us_shm s) (delete p (us_servers s)) (delete_all (us_methods s) lm)
            (servers s) (us_junk s) k (us_data s)).
Proof.
  intros Hp Ep Hm Hk. apply wp_eq_Ok. wp_steps. eapply wp_eq; [unfold in_kernel, zoom; rewrite Hk; reflexivity|].
  wp_steps. eapply wp_eq.
  { apply (free_methods_ok p lm _ _ vp); [exact Ep | done | exact Hm |].
    pose proof (linked_length _ _ _ Hm). cbn [us_methods set_us_kernel]. lia. }
  apply wp_free. cbn. by rewrite delete_insert_eq.
Qed.

Lemma srv_delete_ok (s : U) l1 p l2 vp lm k :
  linked (us_servers s) (servers s) (l1 ++ p :: l2) -> us_servers s !! p = Some vp ->
  linked (us_methods s) (sv_methods vp) lm -> sys_object_close (sv_id vp) (us_kernel s) = Ok (tt, k) ->
  let m := delete p (unlinked l1 p vp (us_servers s)) in
  let h := match l1 with [] => sv_next vp | _ => servers s end in
  srv_delete p s = Ok (tt, UState (us_lib s) (us_shm s) m (delete_all (us_methods s) lm) h (us_junk s) k (us_data s)) /\
  linked m h (l1 ++ l2).
Proof.
  intros Hl Ep Hm Hk m h. pose proof (linked_NoDup _ _ _ Hl) as Hnd.
  destruct (linked_at _ _ _ _ _ Hl) as (Hp & vp' & Ep' & Hl1 & Hl2). replace vp' with vp in * by congruence. clear vp' Ep'.
  assert (Hp1 : p ∉ l1) by (apply NoDup_app in Hnd as (_ & Hd & _); intros Hi; apply (Hd p Hi); set_solver).
  assert (Hp2 : p ∉ l2) by (apply NoDup_app in Hnd as (_ & _ & [Hn _]%NoDup_cons); exact Hn).
  set (s1 := UState (us_lib s) (us_shm s) (unlinked l1 p vp (us_servers s)) (us_methods s) h (us_junk s) (us_kernel s) (us_data s)).
  assert (Ep1 : us_servers s1 !! p = Some vp) by (cbn; by rewrite unlinked_other).
  assert (Hh : l1 <> [] -> h = servers s) by (unfold h; by destruct l1).
  assert (E1 : (if servers s =? p then v ← load (A := server) p; modify (set_servers (sv_next v))
            else n ← gets (fun s => size (us_servers s)); loop (1 + n) (unlink_step p) (servers s)) s = Ok (tt, s1) /\
            linked m h (l1 ++ l2)).
  { clear Ep1. destruct l1 as [|z l1 _] using rev_ind.
    - destruct Hl1. rewrite Z.eqb_refl. split; [apply wp_eq_Ok; by wp_steps | by apply lseg_delete].
    - assert (Ez : servers s <> p) by (destruct l1; destruct Hl1 as (E & _); rewrite E; set_solver).
      unfold s1, m. rewrite Hh by (by destruct l1). clear s1 m h Hh.
      rewrite (proj2 (Z.eqb_neq _ _) Ez). unfold unlinked. rewrite last_snoc.
      rewrite <- app_assoc in Hl |- *. destruct (linked_at _ _ _ _ _ Hl) as (_ & vz & Evz & _). rewrite Evz.
      pose proof (linked_length _ _ _ Hl) as Hlen. rewrite length_app in Hlen. split.
      + apply wp_eq_Ok. wp_steps. eapply wp_eq; [|reflexivity].
        eapply unlink_ok; [exact Hl | exact Evz | exact Ep | lia].
      + eapply linked_unlink; [exact Hl | exact Evz | exact Ep | done]. }
  destruct E1 as [E1 Hl']. split; [|exact Hl'].
  unfold srv_delete. apply run_bind. wp_steps.
  rewrite (bind_Ok _ _ _ _ _ E1), (close_and_free s1 p vp lm k) by done. reflexivity.
Qed.

(** Another server is not touched by [srv_delete]. *)
Lemma server_at_survives (s s' : U) l1 p vp lm o id t l :
  us_servers s' = delete p (unlinked l1 p vp (us_servers s)) -> us_methods s' = delete_all (us_methods s) lm ->
  o <> p -> l ## lm -> server_at s o id t l -> server_at s' o id t l.
Proof.
  intros Es Em Hne Hd (Ho & v & Ev & Eid & Hl & Ht). split; [done|].
  assert (Hsame : forall x, x ∈ l -> us_methods s' !! x = us_methods s !! x)
    by (intros x Hx; rewrite Em, delete_all_lookup, decide_False; [done | set_solver]).
  assert (Hv : exists v', us_servers s' !! o = Some v' /\ sv_id v' = id /\ sv_methods v' = sv_methods v).
  { rewrite Es, lookup_delete_ne by done. unfold unlinked. destruct (last l1) as [z|]; [|by exists v].
    destruct (us_servers s !! z) as [vz|] eqn:Ez; [|by exists v].
    destruct (decide (z = o)) as [->|]; [|rewrite lookup_insert_ne by done; by exists v].
    rewrite lookup_insert_eq. eexists. split; [done|]. replace vz with v by congruence. done. }
  destruct Hv as (v' & Ev' & Eid' & Em'). exists v'. split_and!; [done | done | |].
  - rewrite Em'. eapply lseg_agree; [|exact Hl]. intros x Hx. by apply Hsame.
  - eapply Forall2_frame; [|exact Ht]. intros x e Hx (a & Ea & Ee). exists a. by rewrite Hsame.
Qed.

(** What [srv_create] makes. *)
Definition created (s : U) (d : Z) (k : K) (p q1 q2 : ptr) : U :=
  UState (us_lib s) (us_shm s) (<[p := Server d q2 0 (servers s)]> (us_servers s))
    (<[q2 := MethodSrv M_HANDLECHECK_BMIV h_checkIfHandlesMany q1]>
       (<[q1 := MethodSrv M_HANDLECHECK_BIVV h_checkIfHandles 0]> (us_methods s)))
    p (us_junk s) k (us_data s).

Lemma srv_create_eq (s : U) d k : sys_object_create (us_kernel s) = Ok (d, k) ->
  exists p q1 q2, p <> 0 /\ q1 <> 0 /\ q2 <> 0 /\ q1 <> q2 /\ us_servers s !! p = None /\
    us_methods s !! q1 = None /\ us_methods s !! q2 = None /\ srv_create s = Ok (p, created s d k p q1 q2).
Proof.
  intros Hk. set (p := fresh_ptr (us_servers s)). pose proof (fresh_ptr_pos (us_servers s)) as Hp. fold p in Hp.
  set (s0 := st_put (<[p := Server d 0 0 (servers s)]> (us_servers s)) (set_us_kernel k s) : U).
  destruct (srv_addHandler_eq s0 p (Server d 0 0 (servers s)) M_HANDLECHECK_BIVV h_checkIfHandles) as (q1 & H1 & N1 & E1);
    [lia | apply lookup_insert_eq |].
  match type of E1 with _ = Ok (tt, ?x) => set (s1 := x) in E1 end.
  destruct (srv_addHandler_eq s1 p (Server d q1 0 (servers s)) M_HANDLECHECK_BMIV h_checkIfHandlesMany) as (q2 & H2 & N2 & E2);
    [lia | apply lookup_insert_eq |].
  assert (Hq : q1 <> q2) by (intros ->; cbn in N2; by rewrite lookup_insert_eq in N2).
  exists p, q1, q2. split_and!; [lia | done | done | done | apply fresh_ptr_None | exact N1 | |].
  { cbn in N2. by rewrite lookup_insert_ne in N2. }
  apply wp_eq_Ok. unfold srv_create. wp_steps. eapply wp_eq; [unfold in_kernel, zoom; rewrite Hk; reflexivity|].
  wp_steps. apply wp_new. fold p. wp_steps. eapply wp_eq; [exact E1|]. wp_steps. eapply wp_eq; [exact E2|].
  wp_steps. unfold created, s1, s0, with_handler. cbn. by rewrite !insert_insert_eq.
Qed.

Lemma delete_fresh {A} (m : gmap Z A) x a : m !! x = None -> delete x (<[x := a]> m) = m.
Proof. intros Hx. rewrite delete_insert_eq. by apply delete_id. Qed.

Definition methods_of (ts : list (Z * Z * list (Z * Z) * list Z)) : list Z := concat (map snd ts).

(** The invariant of the library: every server of the list has its own
    methods.  [ts] gives, for each, its address, descriptor, table and the
    addresses of its methods. *)
Definition servers_ok (s : U) (ts : list (Z * Z * list (Z * Z) * list Z)) : Prop :=
  linked (us_servers s) (servers s) (map (fun e => e.1.1.1) ts) /\
  Forall (fun '(o, id, t, l) => server_at s o id t l) ts /\
  NoDup (methods_of ts).

(** [srv_get] finds the first server with the descriptor. *)
Fixpoint srv_find (ts : list (Z * Z * list (Z * Z) * list Z)) (d : Z) : ptr :=
  match ts with
  | [] => 0
  | (o, id, _, _) :: ts' => if id =? d then o else srv_find ts' d
  end.

Lemma srv_get_ok (s : U) ts d : servers_ok s ts -> srv_get d s = Ok (srv_find ts d, s).
Proof.
  intros (Hl & Hat & _). apply wp_eq_Ok. unfold srv_get. wp_steps.
  eapply wp_eq; [by apply (walk_spec (S := U) _ _ (map (fun e => e.1.1.1) ts))|]. cbn [st_get Store_server]. f_equal. clear Hl.
  induction Hat as [|[[[o id] t] l] ts (Ho & v & Ev & Eid & _) _ IH]; [done|]. cbn. rewrite Ev, Eid.
  by destruct (id =? d).
Qed.

(** The list of servers when its entries change but not its addresses. *)
Lemma servers_linked_insert (s : U) l o v v' : linked (us_servers s) (servers s) l -> us_servers s !! o = Some v ->
  sv_next v' = sv_next v -> linked (<[o := v']> (us_servers s)) (servers s) l.
Proof. intros Hl Ev En. eapply (lseg_insert_same (A := server)); [exact Ev | exact En | exact Hl]. Qed.

Lemma servers_ok_at (s : U) ts1 o id t l ts2 : servers_ok s (ts1 ++ (o, id, t, l) :: ts2) -> server_at s o id t l.
Proof. intros (_ & Hat & _). apply Forall_app in Hat as [_ Hat]. by inversion Hat. Qed.

Lemma methods_mid ts1 e ts2 : methods_of (ts1 ++ e :: ts2) ≡ₚ e.2 ++ methods_of (ts1 ++ ts2).
Proof.
  unfold methods_of. rewrite !map_app, !concat_app, map_cons. cbn [concat].
  by rewrite !app_assoc, (Permutation_app_comm e.2).
Qed.

(** What holds for the server in the middle and for the others. *)
Lemma servers_ok_mid (s : U) ts1 p d t ml ts2 : servers_ok s (ts1 ++ (p, d, t, ml) :: ts2) ->
  server_at s p d t ml /\ Forall (fun '(o, id, t, l) => server_at s o id t l) (ts1 ++ ts2) /\
  Forall (fun e => e.1.1.1 <> p /\ e.2 ## ml) (ts1 ++ ts2) /\ NoDup (methods_of (ts1 ++ ts2)) /\ NoDup ml.
Proof.
  intros (Hl & Hat & Hnd). rewrite methods_mid in Hnd. cbn in Hnd. apply NoDup_app in Hnd as (Hml & Hd & Hnd).
  apply Forall_app in Hat as [H1 [Hp H2]%Forall_cons].
  split; [done|]. split; [by apply Forall_app|]. split; [|done].
  apply linked_NoDup in Hl. rewrite map_app, map_cons in Hl. cbn in Hl.
  apply NoDup_app in Hl as (_ & Hd1 & [Hd2 _]%NoDup_cons).
  apply Forall_forall. intros e He. split.
  - intros <-. apply elem_of_app in He as [He|He].
    + apply (Hd1 (e.1.1.1)); [|set_solver]. apply list_elem_of_In, (in_map (fun e => e.1.1.1)), list_elem_of_In, He.
    + apply Hd2. apply list_elem_of_In, (in_map (fun e => e.1.1.1)), list_elem_of_In, He.
  - intros x Hx Hm. apply (Hd x Hm). unfold methods_of. apply list_elem_of_In, in_concat. exists e.2.
    split; [apply in_map, list_elem_of_In, He | by apply list_elem_of_In].
Qed.

Lemma methods_fresh (s : U) ts q : Forall (fun '(o, id, t, l) => server_at s o id t l) ts -> us_methods s !! q = None ->
  q ∉ methods_of ts.
Proof.
  intros Hat Hq. unfold methods_of. induction Hat as [|[[[o id] t] l] ts W _ IH]; [set_solver|].
  cbn. destruct (server_at_methods s o id t l q (MethodSrv 0 0 0) Hq W) as [_ Hl]. set_solver.
Qed.

Lemma with_handler_other (s : U) o v q m h o' id t l : us_methods s !! q = None -> o' <> o ->
  server_at s o' id t l -> server_at (with_handler o v q m h s) o' id t l.
Proof.
  intros Hq Hne W. destruct (server_at_methods s o' id t l q (MethodSrv m h (sv_methods v)) Hq W) as [W' _].
  exact (server_at_other (st_put _ s) o' id t l o _ Hne W').
Qed.

Lemma servers_ok_add (s : U) ts1 o id t l ts2 v q m h : servers_ok s (ts1 ++ (o, id, t, l) :: ts2) ->
  us_servers s !! o = Some v -> q <> 0 -> us_methods s !! q = None ->
  servers_ok (with_handler o v q m h s) (ts1 ++ (o, id, (m, h) :: t, q :: l) :: ts2).
Proof.
  intros W Ev Hq Hnone. destruct (servers_ok_mid _ _ _ _ _ _ _ W) as (Hat & Hrest & Hapart & Hnd & Hml).
  pose proof (with_handler_at s o id t l q m h v Ev Hnone Hq Hat) as Hat'.
  destruct (server_at_methods s o id t l q (MethodSrv m h (sv_methods v)) Hnone Hat) as [_ Hql].
  pose proof (methods_fresh s _ q Hrest Hnone) as Hqm.
  assert (Hrest' : Forall (fun '(o', id', t', l') => server_at (with_handler o v q m h s) o' id' t' l') (ts1 ++ ts2)).
  { apply Forall_forall. intros [[[o' id'] t'] l'] He. rewrite Forall_forall in Hrest, Hapart.
    destruct (Hapart _ He) as [Hne _]. exact (with_handler_other s o v q m h o' id' t' l' Hnone Hne (Hrest _ He)). }
  destruct W as (Hl & _ & _). split; [|split].
  - rewrite map_app, map_cons in *. by apply (servers_linked_insert s _ o v).
  - apply Forall_app in Hrest' as [H1 H2]. apply Forall_app. split; [done|]. by constructor.
  - rewrite methods_mid. cbn. apply NoDup_cons. rewrite not_elem_of_app. split; [done|].
    apply NoDup_app. split; [done|]. split; [|done]. intros x Hx (l' & Hl' & Hin)%list_elem_of_In%in_concat.
    apply in_map_iff in Hl' as (e & <- & He). rewrite Forall_forall in Hapart.
    apply list_elem_of_In in He, Hin. destruct (Hapart e He) as [_ Hd]. by apply (Hd x).
Qed.

Lemma handlers_found (s : U) ts : Forall (fun '(o, id, t, l) => server_at s o id t l) ts ->
  Forall (fun '(o, _, t, _) => forall f, getHandler o f s = Ok (handler_of t f, s)) ts.
Proof.
  intros Hat. eapply Forall_impl; [exact Hat|]. intros [[[o id] t] l] W f.
  apply (getHandler_ok s o id t f). by exists l.
Qed.

Lemma created_ok (s : U) ts d k p q1 q2 : servers_ok s ts -> p <> 0 -> q1 <> 0 -> q2 <> 0 -> q1 <> q2 ->
  us_servers s !! p = None -> us_methods s !! q1 = None -> us_methods s !! q2 = None ->
  servers_ok (created s d k p q1 q2) ((p, d, new_table, [q2; q1]) :: ts).
Proof.
  intros (Hl & Hat & Hnd) Hp H1 H2 Hq Np N1 N2.
  set (v := Server d 0 0 (servers s)).
  set (b := set_servers p (st_put (<[p := v]> (us_servers s)) (set_us_kernel k s)) : U).
  assert (Hb : servers_ok b ((p, d, [], []) :: ts)).
  { split; [|split].
    - cbn. split; [done|]. split; [done|]. exists v. rewrite lookup_insert_eq. split; [done|].
      apply lseg_frame; [|exact Hl]. intros Hi. apply (lseg_in_dom _ _ _ _ _ Hl) in Hi as [_ [? ?]]. congruence.
    - constructor.
      + split; [done|]. exists v. cbn. by rewrite lookup_insert_eq.
      + eapply Forall_impl; [exact Hat|]. intros [[[o id] t] l] W.
        apply (server_at_other s o id t l p v); [|exact W]. intros ->. destruct W as (_ & ? & ? & _). congruence.
    - exact Hnd. }
  assert (Eb : us_servers b !! p = Some v) by apply lookup_insert_eq.
  pose proof (servers_ok_add b [] p d [] [] ts v q1 M_HANDLECHECK_BIVV h_checkIfHandles Hb Eb H1 N1) as W1.
  assert (N2' : us_methods (with_handler p v q1 M_HANDLECHECK_BIVV h_checkIfHandles b) !! q2 = None)
    by (cbn; by rewrite lookup_insert_ne).
  pose proof (servers_ok_add _ [] p d _ _ ts (set_sv_methods q1 v) q2 M_HANDLECHECK_BMIV h_checkIfHandlesMany W1
    (lookup_insert_eq _ _ _) H2 N2') as W2.
  unfold with_handler, b, v in W2. cbn in W2. rewrite !insert_insert_eq in W2. exact W2.
Qed.

End lemmas.

Section handling.
Context {K D : Type} `{UserSysLaws K}.
Abbreviation U := (ustate K D).
Context (user_handler : Z -> method_data -> M U (method_ret * method_data)).

(** Nothing that a handler of this server may rely on changes. *)
Record calm (s s' : U) : Prop := {
  cm_answered : answered (us_kernel s') = answered (us_kernel s);
  cm_servers : forall o id t, server_is s o id t -> exists t', server_is s' o id t';
  cm_shm : forall es, shm_ok (us_shm s) es -> exists es', shm_ok (us_shm s') es' /\ taken es' ≡ₚ taken es
}.

(** The library's own steps leave the servers alone. *)
Record quiet (s s' : U) : Prop := {
  qt_answered : answered (us_kernel s') = answered (us_kernel s);
  qt_servers : us_servers s' = us_servers s;
  qt_methods : us_methods s' = us_methods s;
  qt_data : us_data s' = us_data s
}.

(** Those that give areas back leave all memory alone. *)
Definition settles (s s' : U) : Prop := quiet s s' /\ us_lib s' = us_lib s.

#[local] Instance quiet_preorder : PreOrder quiet.
Proof. split; [done|]. intros x y z [] []. split; congruence. Qed.
#[local] Instance settles_preorder : PreOrder settles.
Proof. split; [done|]. intros x y z [Q1 E1] [Q2 E2]. split; [by etransitivity | congruence]. Qed.

Lemma quiet_server s s' o id t : quiet s s' -> server_is s o id t -> server_is s' o id t.
Proof. intros [_ Es Em _] (l & Hw). exists l. unfold server_at. by rewrite Es, Em. Qed.

Lemma map_param_ok id p i size (s : U) : exists s', map_param id p i size s = Ok (tt, s') /\ quiet s s' /\ us_shm s' = us_shm s.
Proof.
  destruct (proj1 (wp_Ok _ _ _) (law_request_mapShm id p (Z.of_nat i) (us_kernel s))) as ([r f] & k & E & Ek).
  unfold map_param. apply wp_run, wp_bind. eapply wp_eq; [unfold in_kernel, zoom; rewrite E; reflexivity|].
  apply wp_when; intros _; [apply wp_modify|]; done.
Qed.

Lemma get_param_ok (s : U) o id t rq i es : server_is s o id t -> shm_ok (us_shm s) es -> remote rq -> (i < 3)%nat ->
  exists p s' es' b, get_param o rq i s = Ok (p, s') /\ quiet s s' /\ shm_ok (us_shm s') es' /\
    taken es' ≡ₚ b ++ taken es /\ decoded rq i p b.
Proof.
  intros W Ws Hr Hi. specialize (Hr i Hi). unfold decoded.
  set (Q := fun (p : mparam) (s' : U) => exists es' b, quiet s s' /\ shm_ok (us_shm s') es' /\
    taken es' ≡ₚ b ++ taken es /\ decoded rq i p b).
  enough (Hw : wp (get_param o rq i) s Q).
  { apply wp_Ok in Hw as (p & s' & E & es' & b & ?). by exists p, s', es', b. }
  unfold get_param. fold (param_type (uq_func rq) i). wp_step. apply wp_gets.
  destruct (Z.eqb_spec (param_type (uq_func rq) i) PT_LONG) as [El|Hl]; cbn [orb].
  { apply wp_ret. exists es, []. split; [done|]. split; [done|]. split; [done|]. split; [done|]. cbn [mp_type]. by rewrite El. }
  destruct (Z.eqb_spec (param_type (uq_func rq) i) PT_OBJDESC) as [Eo|Ho].
  { apply wp_ret. exists es, []. split; [done|]. split; [done|]. split; [done|]. split; [done|]. cbn [mp_type]. by rewrite Eo. }
  destruct (Z.eqb_spec (param_type (uq_func rq) i) PT_SHM) as [Es|Hs].
  - destruct (Hr Es) as [Hv Hsz]. rewrite Hv. cbn [Z.eqb].
    destruct (shm_alloc_taken _ _ _ Ws Hsz) as (p & a & es' & Ea & Wa & Hp).
    apply wp_bind. eapply wp_eq; [unfold in_shm, zoom; rewrite Ea; reflexivity|].
    destruct Hp as [(-> & -> & _)|(Hlo & _ & Ht)]; [|assert (Hp : p <> 0) by (unfold SHM_LO in Hlo; lia)].
    + cbn [Z.eqb]. apply wp_ret. exists es, []. split; [done|]. split; [done|]. split; [done|]. split; [done|].
      cbn [mp_type]. rewrite Es. cbn. auto.
    + rewrite (proj2 (Z.eqb_neq _ _) Hp).
      assert (W1 : server_is (set_us_shm a s) o id t) by (by apply (quiet_server s)).
      destruct (server_load _ _ _ _ W1) as (v & Ev & Eid).
      apply wp_bind, (wp_eq _ _ _ _ _ Ev), wp_bind.
      destruct (map_param_ok (sv_id v) p i (nthz (uq_shmsize rq) i) (set_us_shm a s)) as (s' & Em & Hq & Hsh).
      eapply (wp_eq _ _ _ _ _ Em). apply wp_ret. exists es', [(p, page_up (nthz (uq_shmsize rq) i))].
      split; [etransitivity; [|exact Hq]; done|]. rewrite Hsh. split; [done|]. split; [done|]. split; [done|].
      cbn [mp_type]. rewrite Es. cbn. auto.
  - apply wp_ret. exists es, []. split; [done|]. split; [done|]. split; [done|]. split; [done|]. cbn [mp_type].
    rewrite (proj2 (Z.eqb_neq _ _) Hs). naive_solver.
Qed.

(** Giving an area back. *)
Lemma shm_free_back p z (s : U) es rest : shm_ok (us_shm s) es -> taken es ≡ₚ (p, z) :: rest ->
  exists s' es', in_shm (shm_free p) s = Ok (tt, s') /\ settles s s' /\ shm_ok (us_shm s') es' /\ taken es' ≡ₚ rest.
Proof.
  intros W Ht. destruct (shm_free_taken p z _ _ W) as (a & es' & E & W' & Ht'); [rewrite Ht; set_solver|].
  exists (set_us_shm a s), es'. split; [unfold in_shm, zoom; by rewrite E|]. split; [done|]. split; [done|].
  rewrite Ht in Ht'. by apply Permutation_cons_inv in Ht'.
Qed.

Lemma free_param_ok rq i p b (s : U) es rest : decoded rq i p b -> shm_ok (us_shm s) es -> taken es ≡ₚ b ++ rest ->
  exists s' es', free_param p s = Ok (tt, s') /\ settles s s' /\ shm_ok (us_shm s') es' /\ taken es' ≡ₚ rest.
Proof.
  intros [_ Hd] W Ht. unfold free_param. destruct (mp_type p =? PT_SHM); cbn [andb when].
  - destruct Hd as (_ & [(-> & _ & ->)|(Hv & _ & ->)]); cbn [Z.eqb negb when].
    + by exists s, es.
    + rewrite (proj2 (Z.eqb_neq _ _) Hv). cbn [negb when]. by eapply shm_free_back.
  - destruct Hd as [-> _]. by exists s, es.
Qed.

Lemma release_param_ok rq i p b (s : U) es rest : decoded rq i p b -> shm_ok (us_shm s) es -> taken es ≡ₚ b ++ rest ->
  exists s' es', release_param p s = Ok (tt, s') /\ settles s s' /\ shm_ok (us_shm s') es' /\ taken es' ≡ₚ rest.
Proof.
  intros [_ Hd] W Ht. unfold release_param. destruct (mp_type p =? PT_SHM); cbn [andb when].
  - destruct Hd as (_ & [(_ & -> & ->)|(_ & -> & ->)]); cbn [Z.eqb when].
    + by exists s, es.
    + destruct (proj1 (wp_Ok _ _ _) (law_shm_delete (mp_v p) (us_kernel s))) as (r & k & E & Ek).
      destruct (shm_free_back (mp_v p) (page_up (mp_shmsize p)) (set_us_kernel k s) es rest W Ht) as (s' & es' & E' & Hq & ?).
      exists s', es'. split; [|split; [|done]].
      * unfold shm_freeDel. rewrite (bind_Ok _ _ s r (set_us_kernel k s)); [done|]. unfold in_kernel, zoom. by rewrite E.
      * etransitivity; [|exact Hq]. by split.
  - destruct Hd as [-> _]. by exists s, es.
Qed.

(** The three parameters of a request. *)
Lemma get_params_ok (s : U) o id t rq es : server_is s o id t -> shm_ok (us_shm s) es -> remote rq ->
  exists p0 p1 p2 s0 s1 s2 es' b0 b1 b2,
    (get_param o rq 0 s = Ok (p0, s0) /\ get_param o rq 1 s0 = Ok (p1, s1) /\ get_param o rq 2 s1 = Ok (p2, s2)) /\
    quiet s s2 /\ shm_ok (us_shm s2) es' /\ taken es' ≡ₚ b0 ++ b1 ++ b2 ++ taken es /\
    decoded rq 0 p0 b0 /\ decoded rq 1 p1 b1 /\ decoded rq 2 p2 b2.
Proof.
  intros W Ws Hr.
  destruct (get_param_ok s o id t rq 0 es W Ws Hr) as (p0 & s0 & es0 & b0 & E0 & Q0 & W0 & T0 & D0); [lia|].
  destruct (get_param_ok s0 o id t rq 1 es0) as (p1 & s1 & es1 & b1 & E1 & Q1 & W1 & T1 & D1); [by eapply quiet_server | done | done | lia |].
  destruct (get_param_ok s1 o id t rq 2 es1) as (p2 & s2 & es2 & b2 & E2 & Q2 & W2 & T2 & D2);
    [eapply quiet_server; [exact Q1 | by eapply quiet_server] | done | done | lia |].
  exists p0, p1, p2, s0, s1, s2, es2, b0, b1, b2. split; [done|].
  split; [by rewrite Q0, Q1|]. split; [done|]. split; [|done].
  rewrite T2, T1, T0. by rewrite !app_assoc, (Permutation_app_comm b2 b1), (Permutation_app_comm (b1 ++ b2) b0), !app_assoc.
Qed.

Lemma each_param_back (f : mparam -> M U unit) rq p0 p1 p2 b0 b1 b2 (s : U) es rest :
  (forall i p b (s : U) es rest, decoded rq i p b -> shm_ok (us_shm s) es -> taken es ≡ₚ b ++ rest ->
     exists s' es', f p s = Ok (tt, s') /\ settles s s' /\ shm_ok (us_shm s') es' /\ taken es' ≡ₚ rest) ->
  decoded rq 0 p0 b0 -> decoded rq 1 p1 b1 -> decoded rq 2 p2 b2 ->
  shm_ok (us_shm s) es -> taken es ≡ₚ b0 ++ b1 ++ b2 ++ rest ->
  exists s' es', each_param f [p0; p1; p2] s = Ok (tt, s') /\ settles s s' /\ shm_ok (us_shm s') es' /\ taken es' ≡ₚ rest.
Proof.
  intros Hf D0 D1 D2 W T.
  destruct (Hf _ _ _ _ _ _ D0 W T) as (s0 & es0 & E0 & Q0 & W0 & T0).
  destruct (Hf _ _ _ _ _ _ D1 W0 T0) as (s1 & es1 & E1 & Q1 & W1 & T1).
  destruct (Hf _ _ _ _ _ _ D2 W1 T1) as (s2 & es2 & E2 & Q2 & W2 & T2).
  exists s2, es2. split; [|split; [by rewrite Q0, Q1|done]].
  apply wp_eq_Ok. cbn [each_param]. apply wp_bind, (wp_eq _ _ _ _ _ E0), wp_bind, (wp_eq _ _ _ _ _ E1), wp_bind, (wp_eq _ _ _ _ _ E2).
  by apply wp_ret.
Qed.

Lemma answer_ok (s : U) o id t a b e : server_is s o id t -> exists v s', load (A := server) o s = Ok (v, s) /\
  in_kernel (sys_request_answer (sv_id v) a b e) s = Ok (tt, s') /\ us_shm s' = us_shm s /\ server_is s' o id t /\
  answered (us_kernel s') = answered (us_kernel s) ++ [(id, a, b, e)] /\ us_lib s' = us_lib s /\ us_data s' = us_data s /\
  us_servers s' = us_servers s /\ us_methods s' = us_methods s.
Proof.
  intros W. destruct (server_load _ _ _ _ W) as (v & Ev & <-).
  destruct (proj1 (wp_Ok _ _ _) (law_request_answer (sv_id v) a b e (us_kernel s))) as ([] & k1 & E1 & A1).
  exists v, (set_us_kernel k1 s). split; [done|]. split; [unfold in_kernel, zoom; by rewrite E1|]. done.
Qed.

(** A handler that ends, leaves its parameters alone and answers nothing
    itself, whatever state it is called in with the parameters decoded from
    [rq] and their areas taken beside [es]. *)
Definition handler_ends (h : Z) (o : ptr) (id : Z) (t : list (Z * Z)) (es : list (Z * Z * Z)) (rq : user_request) : Prop :=
  forall (s1 : U) es1 p0 p1 p2 b0 b1 b2, server_is s1 o id t -> shm_ok (us_shm s1) es1 -> taken es1 ≡ₚ b0 ++ b1 ++ b2 ++ taken es ->
    decoded rq 0 p0 b0 -> decoded rq 1 p1 b1 -> decoded rq 2 p2 b2 ->
    let d := MethodData [p0; p1; p2] (uq_func rq) (uq_pid rq) (uq_isBlocking rq) o in
    wp (invoke user_handler h d) s1 (fun r s2 => r.2 = d /\ calm s1 s2).

(** The run of the handler [h] for the request [rq] taken in [s]: it is
    called, once, with the parameters that [get_param] makes, and answers
    [ret] in the state [se]. *)
Definition handler_runs (h : Z) (o : ptr) (rq : user_request) (s : U) (ret : method_ret) (se : U) : Prop :=
  exists p0 p1 p2 sa sb sc b0 b1 b2,
    get_param o rq 0 s = Ok (p0, sa) /\ get_param o rq 1 sa = Ok (p1, sb) /\ get_param o rq 2 sb = Ok (p2, sc) /\
    decoded rq 0 p0 b0 /\ decoded rq 1 p1 b1 /\ decoded rq 2 p2 b2 /\
    let d := MethodData [p0; p1; p2] (uq_func rq) (uq_pid rq) (uq_isBlocking rq) o in
    invoke user_handler h d sc = Ok ((ret, d), se).

(** [s'] is [se] with the areas given back and the answer sent: memory, the
    data of the module, the servers and their methods are as the handler
    left them. *)
Definition left_by (se s' : U) : Prop :=
  us_lib s' = us_lib se /\ us_data s' = us_data se /\ us_servers s' = us_servers se /\ us_methods s' = us_methods se.

Lemma settles_left se s1 s' : settles s1 s' -> us_lib s1 = us_lib se -> us_data s1 = us_data se ->
  us_servers s1 = us_servers se -> us_methods s1 = us_methods se -> left_by se s'.
Proof. intros [[_ E1 E2 E3] E4] H1 H2 H3 H4. unfold left_by. by rewrite E1, E2, E3, E4. Qed.

Lemma srv_request_ok (s : U) o id t es rq : server_is s o id t -> shm_ok (us_shm s) es -> remote rq ->
  let h := handler_of t (uq_func rq) in
  (h <> 0 -> handler_ends h o id t es rq) ->
  exists s' es', srv_request user_handler o rq s = Ok (tt, s') /\
    shm_ok (us_shm s') es' /\ taken es' ≡ₚ taken es /\ (exists t', server_is s' o id t') /\
    (if h =? 0 then
       left_by s s' /\ answered (us_kernel s') = answered (us_kernel s) ++
         (if uq_isBlocking rq =? 0 then [] else [(id, 0, 0, ME_UNHANDLED)])
     else exists ret se, handler_runs h o rq s ret se /\ left_by se s' /\
       answered (us_kernel s') = answered (us_kernel s) ++
         (if uq_isBlocking rq =? 0 then [] else [(id, (answer_words ret).1, (answer_words ret).2, mr_status ret)])).
Proof.
  intros W Ws Hr h Hh. unfold srv_request. rewrite (bind_Ok _ _ _ _ _ (getHandler_ok _ _ _ _ _ W)). fold h.
  destruct (answer_ok s o id t 0 0 ME_UNHANDLED W) as (v & sa & Ev & Ea & Sa & Wa & Aa & La). rewrite (bind_Ok _ _ _ _ _ Ev).
  destruct (Z.eqb_spec h 0) as [Hh0|Hh0].
  { destruct (uq_isBlocking rq =? 0); cbn [negb when].
    - exists s, es. rewrite app_nil_r. split_and!; try done. by exists t.
    - exists sa, es. rewrite Sa. split_and!; try done. by exists t. }
  destruct (get_params_ok s o id t rq es W Ws Hr)
    as (p0 & p1 & p2 & s0 & s1 & s2 & es2 & b0 & b1 & b2 & (E0 & E1 & E2) & Q & W2 & T2 & D0 & D1 & D2).
  rewrite (bind_Ok _ _ _ _ _ E0), (bind_Ok _ _ _ _ _ E1), (bind_Ok _ _ _ _ _ E2).
  pose proof (quiet_server _ _ _ _ _ Q W) as Ws2.
  specialize (Hh Hh0 s2 es2 p0 p1 p2 b0 b1 b2 Ws2 W2 T2 D0 D1 D2). apply wp_Ok in Hh as ([ret d] & s3 & E3 & Ed & C). cbn in Ed. subst d.
  assert (HR : handler_runs h o rq s ret s3) by (by exists p0, p1, p2, s0, s1, s2, b0, b1, b2).
  rewrite (bind_Ok _ _ _ _ _ E3). destruct (cm_servers _ _ C _ _ _ Ws2) as (t3 & Ws3).
  destruct (cm_shm _ _ C _ W2) as (es3 & W3 & T3). rewrite T2 in T3.
  pose proof (cm_answered _ _ C) as A3. rewrite (qt_answered _ _ Q) in A3. cbn [md_params].
  destruct (uq_isBlocking rq =? 0); cbn [negb].
  - destruct (each_param_back release_param rq p0 p1 p2 b0 b1 b2 s3 es3 (taken es)) as (s4 & es4 & E4 & Q4 & W4 & T4);
      [apply release_param_ok | done..|].
    exists s4, es4. split_and!; [done | done | done | exists t3; eapply quiet_server; [apply Q4 | done] |].
    exists ret, s3. split; [done|]. split; [by apply (settles_left _ s3)|]. rewrite app_nil_r. by rewrite (qt_answered _ _ (proj1 Q4)).
  - destruct (answer_words ret) as [a b] eqn:Ew. destruct (answer_ok s3 o id t3 a b (mr_status ret) Ws3) as (v3 & s4 & Ev3 & E4 & S4 & Ws4 & A4 & L1 & L2 & L3 & L4).
    rewrite (bind_Ok _ _ _ _ _ Ev3), (bind_Ok _ _ _ _ _ E4). rewrite <- S4 in W3.
    destruct (each_param_back free_param rq p0 p1 p2 b0 b1 b2 s4 es3 (taken es)) as (s5 & es5 & E5 & Q5 & W5 & T5);
      [apply free_param_ok | done..|].
    exists s5, es5. split_and!; [done | done | done | exists t3; eapply quiet_server; [apply Q5 | done] |].
    exists ret, s3. split; [done|]. split; [by apply (settles_left _ s4)|]. by rewrite (qt_answered _ _ (proj1 Q5)), A4, A3, Ew.
Qed.

(** [checkIfHandles] and [checkIfHandlesMany] look and change nothing. *)
Definition word_at (a : Z) (i : nat) : Z := w32 (a + 4 * Z.of_nat i).
Definition words (m : mem) (a : Z) (n : nat) : list Z := (fun i => rd32 m (word_at a i)) <$> seq 0 n.

Definition handled (t : list (Z * Z)) (f : Z) : bool := negb (handler_of t f =? 0).

Lemma word_at_S a i : word_at a (S i) = word_at (a + 4) i.
Proof. unfold word_at. f_equal. lia. Qed.

Lemma words_S m a n : words m a (S n) = rd32 m (w32 a) :: words m (a + 4) n.
Proof.
  unfold words. cbn [seq fmap list_fmap]. unfold word_at at 1. rewrite Z.add_0_r, <- fmap_S_seq, <- list_fmap_compose. f_equal.
  apply list_fmap_ext. intros i x _. cbn [compose]. by rewrite word_at_S.
Qed.

(** The word [i] is looked at: those before it can be read and have
    handlers. *)
Definition reached (t : list (Z * Z)) (s : U) (data : Z) (i : nat) : Prop :=
  forall j, (j < i)%nat -> can_read (us_shm s) (word_at data j) = true /\ handled t (rd32 (us_mem s) (word_at data j)) = true.

Lemma reached_S t (s : U) data i : can_read (us_shm s) (w32 data) = true -> handled t (rd32 (us_mem s) (w32 data)) = true ->
  reached t s (data + 4) i -> reached t s data (S i).
Proof.
  intros H1 H2 Hr [|j] Hj; [unfold word_at; by rewrite Z.add_0_r|]. rewrite word_at_S. apply Hr. lia.
Qed.

Lemma handles_all_ok n o data (s : U) id t : server_is s o id t ->
  (forall i, (i < n)%nat -> reached t s data i -> can_read (us_shm s) (word_at data i) = true) ->
  handles_all n o data s = Ok (forallb (handled t) (words (us_mem s) data n), s).
Proof.
  intros W. revert data. induction n as [|n IH]; intros data Hr; [done|]. rewrite words_S. cbn [handles_all forallb].
  assert (Hc0 : can_read (us_shm s) (w32 data) = true).
  { specialize (Hr O ltac:(lia)). unfold word_at in Hr. rewrite Z.add_0_r in Hr. apply Hr. intros j Hj. lia. }
  rewrite (bind_Ok _ _ s (rd32 (us_mem s) (w32 data)) s) by (unfold read_word; by rewrite Hc0).
  rewrite (bind_Ok _ _ _ _ _ (getHandler_ok _ _ _ _ _ W)).
  destruct (handler_of t (rd32 (us_mem s) (w32 data)) =? 0) eqn:Eh; unfold handled at 1; rewrite Eh; cbn [negb andb]; [done|].
  apply IH. intros i Hi Hre. rewrite <- word_at_S. apply Hr; [lia|]. apply reached_S; [done | unfold handled; by rewrite Eh | done].
Qed.

Lemma handles_all_fault n o data i (s : U) id t : server_is s o id t -> (i < n)%nat -> reached t s data i ->
  can_read (us_shm s) (word_at data i) = false -> handles_all n o data s = Fault (BadAccess (word_at data i)).
Proof.
  intros W. revert data n. induction i as [|i IH]; intros data n Hi Hr Hc; (destruct n as [|n]; [lia|]); cbn [handles_all].
  - unfold word_at in *. rewrite Z.add_0_r in *. apply bind_Fault. unfold read_word. by rewrite Hc.
  - destruct (Hr O ltac:(lia)) as [H1 H2]. unfold word_at in H1, H2. rewrite Z.add_0_r in H1, H2.
    rewrite (bind_Ok _ _ s (rd32 (us_mem s) (w32 data)) s) by (unfold read_word; by rewrite H1).
    rewrite (bind_Ok _ _ _ _ _ (getHandler_ok _ _ _ _ _ W)). unfold handled in H2. apply negb_true_iff in H2. rewrite H2.
    rewrite word_at_S in *. apply IH; [lia | | done]. intros j Hj. rewrite <- word_at_S. apply Hr. lia.
Qed.

Lemma checkIfHandlesMany_ok d (s : U) id t : server_is s (md_obj d) id t ->
  let data := mp_v (md_param d 0) in let n := Z.to_nat (w32 (mp_v (md_param d 1))) in
  (forall i, (i < n)%nat -> reached t s data i -> can_read (us_shm s) (word_at data i) = true) ->
  exists r, checkIfHandlesMany d s = Ok (r, s) /\
    (if (mp_type (md_param d 0) =? PT_SHM) && (mp_type (md_param d 1) =? PT_LONG) then
       mr_status r = 0 /\ mr_type r = PT_LONG /\
       w32 (mr_v r) = if negb (data =? 0) && forallb (handled t) (words (us_mem s) data n) then 1 else 0
     else mr_status r = -1).
Proof.
  intros W data n Hr.
  unfold checkIfHandlesMany. destruct (mp_type (md_param d 0) =? PT_SHM); cbn [negb andb]; [|by eexists].
  destruct (mp_type (md_param d 1) =? PT_LONG); cbn [negb]; [|by eexists]. fold data n.
  destruct (data =? 0); cbn [negb andb];
    [apply (mr_int_ok 0)|].
  set (b := forallb _ _). destruct (mr_int_ok (if b then 1 else 0) PT_LONG s) as (r & Er & H1 & H2 & H3).
  exists r. split; [rewrite (bind_Ok _ _ _ _ _ (handles_all_ok _ _ _ _ _ _ W Hr)); fold b; by destruct b|].
  split_and!; [done | done | rewrite H3; by destruct b].
Qed.

Lemma checkIfHandles_ok d (s : U) id t : server_is s (md_obj d) id t ->
  exists r, checkIfHandles d s = Ok (r, s) /\ mr_status r = 0 /\ mr_type r = PT_LONG /\
    w32 (mr_v r) = if handled t (mp_v (md_param d 0)) then 1 else 0.
Proof.
  intros W. unfold checkIfHandles, handled. rewrite (bind_Ok _ _ _ _ _ (getHandler_ok _ _ _ _ _ W)).
  destruct (handler_of t _ =? 0); [apply (mr_int_ok 0) | apply (mr_int_ok 1)].
Qed.

End handling.

(** The bits of a method's code. *)
Lemma method_code r a b c id : 0 <= r < 4 -> 0 <= a < 4 -> 0 <= b < 4 -> 0 <= c < 4 -> 0 <= id < 2 ^ 24 ->
  let f := Z.lor id (MP r a b c) in
  u32 f /\ f mod 2 ^ 24 = id /\ Z.shiftr f 30 = r /\ param_type f 0 = a /\ param_type f 1 = b /\ param_type f 2 = c.
Proof.
  intros Hr Ha Hb Hc Hid f.
  assert (Hx : MP r a b c = (64 * r + 16 * a + 4 * b + c) * 2 ^ 24).
  { assert (r = 0 \/ r = 1 \/ r = 2 \/ r = 3) as [-> | [-> | [-> | ->]]] by lia;
      assert (a = 0 \/ a = 1 \/ a = 2 \/ a = 3) as [-> | [-> | [-> | ->]]] by lia;
      assert (b = 0 \/ b = 1 \/ b = 2 \/ b = 3) as [-> | [-> | [-> | ->]]] by lia;
      assert (c = 0 \/ c = 1 \/ c = 2 \/ c = 3) as [-> | [-> | [-> | ->]]] by lia; reflexivity. }
  set (x := 64 * r + 16 * a + 4 * b + c) in *.
  assert (Hf : f = id + x * 2 ^ 24) by (unfold f; rewrite <- lor_shiftl_add, Z.shiftl_mul_pow2 by lia; by rewrite Hx).
  assert (Hdiv : forall n, 24 <= n -> f / 2 ^ n = x / 2 ^ (n - 24)).
  { intros n Hn. replace n with (24 + (n - 24)) at 1 by lia. rewrite Z.pow_add_r, <- Z.div_div by lia.
    rewrite Hf, Z.div_add, (Z.div_small id) by lia. done. }
  unfold param_type. rewrite !Z.shiftr_div_pow2 by lia. change 3 with (Z.ones 2). rewrite !Z.land_ones by lia.
  rewrite !Hdiv by lia. split; [unfold u32; lia|].
  split_and!; [rewrite Hf, Z.mod_add, Z.mod_small by lia; lia|..]; unfold x; cbn; Z.div_mod_to_equations; lia.
Qed.

(** The type that [get_param] gives a parameter. *)
Lemma get_param_type {K D} `{UserSys K} o rq i p (s s' : ustate K D) : get_param o rq i s = Ok (p, s') ->
  mp_type p = param_type (uq_func rq) i.
Proof.
  unfold get_param. fold (param_type (uq_func rq) i). set (ty := param_type _ _). intros E.
  apply bind_inv in E as (j & s1 & E1 & E). destruct ((ty =? PT_LONG) || (ty =? PT_OBJDESC)); [by injection E as <- <-|].
  destruct (ty =? PT_SHM); [|by injection E as <- <-]. destruct (nthz (uq_params rq) i =? 0); [|by injection E as <- <-].
  apply bind_inv in E as (q & s2 & E2 & E). destruct (q =? 0); [by injection E as <- <-|].
  apply bind_inv in E as (v & s3 & E3 & E). apply bind_inv in E as ([] & s4 & E4 & E). by injection E as <- <-.
Qed.

(** ** Theorems *)

(** *** A sample process: [objsrv_init] on the empty library *)

Definition empty_user (k : script) : ustate script unit :=
  UState (ULib (HState (Heap 0 0 0 0 0) (fun _ => 0) (USegment None (fun _ _ => 0) 0)) false)
    sample_shm ∅ ∅ 0 0 k tt.

Definition sample_user (k : script) : ustate script unit :=
  UState (ULib (HState (Heap 0 0 0 0 0) (fun _ => 0) (USegment None (fun _ _ => 0) 0)) false)
    sample_shm {[ 1 := Server 0 2 0 0 ]}
    {[ 1 := MethodSrv M_HANDLECHECK_BIVV h_checkIfHandles 0; 2 := MethodSrv M_HANDLECHECK_BMIV h_checkIfHandlesMany 1 ]}
    1 0 k tt.

(** The check of two methods, in shared memory, from another process. *)
Definition check_request : user_request := UserRequest M_HANDLECHECK_BMIV [0; 2; 0] [8; 0; 0] 1 5.
Definition sample_script : script :=
  Script [(0, check_request)] [] 7 (wr32 (wr32 (fun _ => 0) 0 M_HANDLECHECK_BIVV) 4 M_NOTHING_VVVV).

(** No handler of its own: the two of the library. *)
Definition no_handler {K D} (_ : Z) (d : method_data) : M (ustate K D) (method_ret * method_data) :=
  mret (MethodRet 0 PT_VOID 0, d).

(** A process that has taken a page of the area and sends it to itself. *)
Definition local_user : ustate script unit :=
  UState (ULib (HState (Heap 0 0 0 0 0) (fun _ => 0) (USegment None (fun _ _ => 0) 0)) false)
    (UShm {[ 1 := ShmBlock SHM_LO 4096 0 0 2; 2 := ShmBlock (SHM_LO + 4096) (SHM_HI - SHM_LO - 4096) 1 1 0 ]} 1 0)
    {[ 1 := Server 0 1 0 0 ]} {[ 1 := MethodSrv (Z.lor 10 (MP 1 3 0 0)) 9 0 ]} 1 0 (Script [] [] 0 (fun _ => 0)) tt.

Definition local_request : user_request := UserRequest (Z.lor 10 (MP 1 3 0 0)) [SHM_LO; 0; 0] [4096; 0; 0] 1 5.

Example objsrv_init_sample k : objsrv_init (empty_user k) = Ok (tt, sample_user k).
Proof. reflexivity. Qed.

Lemma sample_at k : server_at (sample_user k) procServer 0 new_table [2; 1].
Proof.
  split; [done|]. eexists. split; [reflexivity|]. split; [done|]. split; [by repeat (eexists || split)|].
  repeat (constructor; [eexists; split; reflexivity|]). constructor.
Qed.

Lemma sample_servers k : servers_ok (sample_user k) [(procServer, 0, new_table, [2; 1])].
Proof.
  split; [by repeat (eexists || split)|]. split; [constructor; [apply sample_at | constructor]|].
  cbn. apply NoDup_cons. split; [set_solver|]. apply NoDup_singleton.
Qed.

Section theorems.
Context {K D : Type} `{UserSys K}.
Abbreviation U := (ustate K D).

(** [srv_addHandler] puts the handler in front of the server's table:
    [getHandler] finds it from then on, whatever was registered before for
    that method, and finds for every other method, and on every other
    server, what it found before. *)
Theorem srv_addHandler_registers (s : U) ts1 o id t l ts2 m h : servers_ok s (ts1 ++ (o, id, t, l) :: ts2) ->
  exists s' q, srv_addHandler o m h s = Ok (tt, s') /\
    servers_ok s' (ts1 ++ (o, id, (m, h) :: t, q :: l) :: ts2) /\
    getHandler o m s' = Ok (h, s') /\
    (forall f, f <> m -> getHandler o f s' = Ok (handler_of t f, s')) /\
    Forall (fun '(o', _, t', _) => forall f, getHandler o' f s' = Ok (handler_of t' f, s')) (ts1 ++ ts2).
Proof.
  intros W. pose proof (servers_ok_at _ _ _ _ _ _ _ W) as (Ho & v & Ev & _).
  destruct (srv_addHandler_eq s o v m h Ho Ev) as (q & Hq & Hnone & E). exists (with_handler o v q m h s), q.
  pose proof (servers_ok_add s ts1 o id t l ts2 v q m h W Ev Hq Hnone) as W'. split; [done|]. split; [done|].
  destruct W' as (_ & Hat & _). pose proof (handlers_found _ _ Hat) as Hf.
  apply Forall_app in Hf as [H1 [Ho' H2]%Forall_cons]. cbn [handler_of] in Ho'. split_and!.
  - rewrite Ho'. cbn. by rewrite Z.eqb_refl.
  - intros f Hne. rewrite Ho'. cbn. by rewrite (proj2 (Z.eqb_neq _ _)) by done.
  - by apply Forall_app.
Qed.

(** C28. [srv_create] makes a server with a fresh object, in front of the
    others, that answers the two methods of every object; [srv_get] finds
    it by its descriptor; and [srv_delete] closes the object, frees the
    server and its methods and leaves the library exactly as it was. *)
Theorem srv_create_delete (s : U) ts d k1 k2 : servers_ok s ts ->
  sys_object_create (us_kernel s) = Ok (d, k1) -> sys_object_close d k1 = Ok (tt, k2) ->
  exists p s1 ml, srv_create s = Ok (p, s1) /\ servers_ok s1 ((p, d, new_table, ml) :: ts) /\
    srv_get d s1 = Ok (p, s1) /\ srv_delete p s1 = Ok (tt, set_us_kernel k2 s).
Proof.
  intros W Hk1 Hk2. destruct (srv_create_eq s d k1 Hk1) as (p & q1 & q2 & Hp & H1 & H2 & Hq & Np & N1 & N2 & E).
  exists p, (created s d k1 p q1 q2), [q2; q1].
  assert (W1 : servers_ok (created s d k1 p q1 q2) ((p, d, new_table, [q2; q1]) :: ts)).
  { by apply created_ok. }
  split; [done|]. split; [done|].
  split; [rewrite (srv_get_ok _ _ d W1); cbn; by rewrite Z.eqb_refl|].
  destruct W1 as (Hl & Hat & _). apply Forall_cons in Hat as [(_ & v & Ev & Ed & Hm & _) _]. subst d.
  destruct (srv_delete_ok (created s (sv_id v) k1 p q1 q2) [] p _ v [q2; q1] k2 Hl Ev Hm Hk2) as [Edel _].
  rewrite Edel. cbn in Ev. rewrite lookup_insert_eq in Ev. injection Ev as <-.
  unfold created, delete_all, unlinked. cbn. rewrite delete_fresh by done.
  rewrite (delete_fresh _ q2) by (by rewrite lookup_insert_ne). by rewrite delete_fresh.
Qed.

(** [srv_delete] of any server of the list: the object is closed, the
    server and all its methods are freed, and the other servers stay, in
    order, with the tables they had. *)
Theorem srv_delete_removes (s : U) ts1 p d t ml ts2 k : servers_ok s (ts1 ++ (p, d, t, ml) :: ts2) ->
  sys_object_close d (us_kernel s) = Ok (tt, k) ->
  exists s', srv_delete p s = Ok (tt, s') /\ servers_ok s' (ts1 ++ ts2) /\ us_servers s' !! p = None /\
    (forall x, x ∈ ml -> us_methods s' !! x = None) /\ us_kernel s' = k /\
    (forall x, srv_get x s' = Ok (srv_find (ts1 ++ ts2) x, s')).
Proof.
  intros W Hk. destruct (servers_ok_mid _ _ _ _ _ _ _ W) as ((Hp & v & Ev & Ed & Hm & _) & Hrest & Hapart & Hnd & Hml).
  destruct W as (Hl & _ & _). rewrite map_app, map_cons in Hl. rewrite <- Ed in Hk.
  destruct (srv_delete_ok s _ p _ v ml k Hl Ev Hm Hk) as [E Hl'].
  match type of E with _ = Ok (tt, ?x) => exists x end.
  assert (W' : servers_ok (UState (us_lib s) (us_shm s) (delete p (unlinked (map (fun e => e.1.1.1) ts1) p v (us_servers s)))
    (delete_all (us_methods s) ml) (match map (fun e => e.1.1.1) ts1 with [] => sv_next v | _ => servers s end)
    (us_junk s) k (us_data s)) (ts1 ++ ts2)).
  { split; [by rewrite map_app|]. split; [|done]. apply Forall_forall. intros [[[o id] t'] l'] He.
    rewrite Forall_forall in Hrest, Hapart. destruct (Hapart _ He) as [Hne Hd].
    eapply (server_at_survives s _ _ p v ml); [reflexivity | reflexivity | exact Hne | exact Hd | apply (Hrest _ He)]. }
  split; [exact E|]. split; [exact W'|]. split; [apply lookup_delete_eq|].
  split; [|split; [done|]].
  - intros x Hx. cbn. by rewrite delete_all_lookup, decide_True.
  - intros x. by apply srv_get_ok.
Qed.

End theorems.

Section serving.
Context {K D : Type} `{UserSysLaws K}.
Abbreviation U := (ustate K D).
Context (user_handler : Z -> method_data -> M U (method_ret * method_data)).

(** C8. A request that [srv_handle] takes is served to the end.  The handler
    registered for it runs once, on the parameters that [get_param] makes of
    the request's (of the types that the method's code announces; a segment,
    of at least a byte, is mapped in an area of its own), and the library
    leaves memory, the module's data and the servers as the handler did.  A
    blocking request gets exactly one answer, the words and the status that
    the handler returned, or [ME_UNHANDLED] when there is none; a message
    gets no answer; and the shared-memory area is left as it was.  (The
    handler must end, leave its parameters alone and answer nothing
    itself.  The request comes from another process: what becomes of an area
    that the server's own process sends is [local_request_frees_area].) *)
Theorem srv_handle_serves (s : U) o id t es act rq k : server_is s o id t -> shm_ok (us_shm s) es -> remote rq ->
  sys_request_get id (act =? HA_WAIT) (us_kernel s) = Ok ((0, rq), k) ->
  let h := handler_of t (uq_func rq) in
  (h <> 0 -> handler_ends user_handler h o id t es rq) ->
  exists s' es', srv_handle user_handler o act s = Ok (tt, s') /\
    shm_ok (us_shm s') es' /\ taken es' ≡ₚ taken es /\ (exists t', server_is s' o id t') /\
    (if h =? 0 then
       left_by s s' /\ answered (us_kernel s') = answered (us_kernel s) ++
         (if uq_isBlocking rq =? 0 then [] else [(id, 0, 0, ME_UNHANDLED)])
     else exists ret se, handler_runs user_handler h o rq (set_us_kernel k s) ret se /\ left_by se s' /\
       answered (us_kernel s') = answered (us_kernel s) ++
         (if uq_isBlocking rq =? 0 then [] else [(id, (answer_words ret).1, (answer_words ret).2, mr_status ret)])).
Proof.
  intros W Ws Hr Hget h Hh. pose proof (law_request_get id (act =? HA_WAIT) (us_kernel s)) as Hk.
  rewrite (wp_Ok (A := Z * user_request)) in Hk. destruct Hk as (x & k' & Ek & Ha). rewrite Hget in Ek. injection Ek as <- <-.
  set (s0 := set_us_kernel k s). assert (W0 : server_is s0 o id t) by exact W.
  destruct (server_load _ _ _ _ W) as (v & Ev & Eid).
  assert (Estart : srv_handle user_handler o act s = srv_request user_handler o rq s0).
  { unfold srv_handle. rewrite (bind_Ok _ _ _ _ _ Ev), Eid. apply run_bind. unfold in_kernel, zoom, wp. by rewrite Hget. }
  rewrite Estart, <- Ha. exact (srv_request_ok user_handler s0 o id t es rq W0 Ws Hr Hh).
Qed.

(** C36. [checkIfHandlesMany] answers 1 exactly when every one of the [b]
    method codes in the shared memory [a] has a handler, 0 when one has
    none or there is no memory, an error when the parameters are of other
    types -- as long as the words it gets to can be read, and they can as
    far as they lie in the parameter's own area.  The count is not compared
    with the size of the area: if it is larger, and the codes in the area
    all have handlers, the loop goes on behind it, and the first word there
    that is not mapped is a fault of the server. *)
Theorem checkIfHandlesMany_all (s : U) d id t es : server_is s (md_obj d) id t -> shm_ok (us_shm s) es ->
  let data := mp_v (md_param d 0) in
  let n := Z.to_nat (w32 (mp_v (md_param d 1))) in
  let types := (mp_type (md_param d 0) =? PT_SHM) && (mp_type (md_param d 1) =? PT_LONG) in
  ((types = true -> data <> 0 -> forall i, (i < n)%nat -> reached t s data i ->
      can_read (us_shm s) (word_at data i) = true \/ exists z, (data, z) ∈ taken es /\ 4 * Z.of_nat i + 4 <= z) ->
   exists r, checkIfHandlesMany d s = Ok (r, s) /\
     if types then
       mr_status r = 0 /\ mr_type r = PT_LONG /\
       w32 (mr_v r) = if negb (data =? 0) && forallb (handled t) (words (us_mem s) data n) then 1 else 0
     else mr_status r = -1) /\
  (types = true -> data <> 0 -> forall i, (i < n)%nat -> reached t s data i -> can_read (us_shm s) (word_at data i) = false ->
     checkIfHandlesMany d s = Fault (BadAccess (word_at data i))).
Proof.
  intros W Ws data n types. split.
  - intros Hr. destruct types eqn:Et; [destruct (Z.eqb_spec data 0) as [E0|Hn0]|].
    + unfold checkIfHandlesMany. apply andb_true_iff in Et as [-> ->]. cbn [negb]. fold data. rewrite E0. cbn [Z.eqb negb andb].
      apply (mr_int_ok 0).
    + destruct (checkIfHandlesMany_ok d s id t W) as (r & E & Hres).
      * intros i Hi Hre. destruct (Hr eq_refl Hn0 i Hi Hre) as [?|(z & Hin & Hz)]; [done|].
        pose proof (taken_bounds _ _ _ _ Ws Hin) as Hb. unfold SHM_LO, SHM_HI in Hb. fold data.
        apply (block_can_read (us_shm s) es data z); [exact Ws | exact Hin | |]; unfold word_at; rewrite w32_small by (unfold u32; lia); lia.
      * exists r. split; [exact E|]. fold types data n in Hres. rewrite Et, (proj2 (Z.eqb_neq _ _) Hn0) in Hres. exact Hres.
    + unfold checkIfHandlesMany. unfold types in Et. destruct (mp_type (md_param d 0) =? PT_SHM); cbn [negb]; [|by eexists].
      cbn [andb] in Et. rewrite Et. by eexists.
  - intros Et Hn0 i Hi Hre Hc. apply andb_true_iff in Et as [E1 E2]. unfold checkIfHandlesMany. rewrite E1, E2. cbn [negb].
    fold data. rewrite (proj2 (Z.eqb_neq _ _) Hn0). apply bind_Fault. by eapply handles_all_fault.
Qed.

(** A request that comes from the server's own process carries the
    sender's address; after a blocking one, [srv_handle] frees that area
    although the sender still has it. *)
Theorem local_request_frees_area (s : U) o id t es rq p z : server_is s o id t -> shm_ok (us_shm s) es ->
  handler_of t (uq_func rq) <> 0 -> uq_isBlocking rq <> 0 ->
  param_type (uq_func rq) 0 = PT_SHM -> param_type (uq_func rq) 1 = PT_VOID -> param_type (uq_func rq) 2 = PT_VOID ->
  nthz (uq_params rq) 0 = p -> p <> 0 -> (p, z) ∈ taken es ->
  (forall d, md_obj d = o -> wp (invoke user_handler (handler_of t (uq_func rq)) d) s (fun r s2 => r.2 = d /\ calm s s2)) ->
  exists s' es', srv_request user_handler o rq s = Ok (tt, s') /\ shm_ok (us_shm s') es' /\ taken es ≡ₚ (p, z) :: taken es'.
Proof.
  intros W Ws Hh Hb T0 T1 T2 Ep Hp Hin Hc. unfold srv_request.
  rewrite (bind_Ok _ _ _ _ _ (getHandler_ok _ _ _ _ _ W)). destruct (server_load _ _ _ _ W) as (v & Ev & Eid).
  rewrite (bind_Ok _ _ _ _ _ Ev), (proj2 (Z.eqb_neq _ _) Hh).
  assert (E0 : get_param o rq 0 s = Ok (MParam p PT_SHM 1 (nthz (uq_shmsize rq) 0), s)).
  { unfold get_param. fold (param_type (uq_func rq) 0). rewrite T0, Ep. apply wp_eq_Ok. wp_steps.
    cbn. rewrite (proj2 (Z.eqb_neq _ _) Hp). by wp_steps. }
  assert (E12 : forall i, param_type (uq_func rq) i = PT_VOID ->
    get_param o rq i s = Ok (MParam (us_junk s) PT_VOID (us_junk s) (us_junk s), s)).
  { intros i Ti. unfold get_param. fold (param_type (uq_func rq) i). rewrite Ti. apply wp_eq_Ok. wp_steps. cbn. by wp_steps. }
  rewrite (bind_Ok _ _ _ _ _ E0), (bind_Ok _ _ _ _ _ (E12 1%nat T1)), (bind_Ok _ _ _ _ _ (E12 2%nat T2)).
  match goal with |- context [invoke _ _ ?d] => specialize (Hc d eq_refl) end.
  apply wp_Ok in Hc as ([ret d'] & s3 & E3 & Ed & C). cbn in Ed. subst d'. rewrite (bind_Ok _ _ _ _ _ E3).
  rewrite (proj2 (Z.eqb_neq _ _) Hb). cbn [negb]. destruct (answer_words ret) as [a b].
  destruct (cm_servers _ _ C _ _ _ W) as (t3 & W3). destruct (cm_shm _ _ C _ Ws) as (es3 & Ws3 & Te).
  destruct (answer_ok s3 o id t3 a b (mr_status ret) W3) as (v3 & s4 & Ev3 & E4 & S4 & _).
  rewrite (bind_Ok _ _ _ _ _ Ev3), (bind_Ok _ _ _ _ _ E4). rewrite <- S4 in Ws3. rewrite <- Te in Hin.
  destruct (shm_free_taken p z _ _ Ws3 Hin) as (a5 & es5 & E5 & W5 & T5).
  assert (E6 : in_shm (shm_free p) s4 = Ok (tt, set_us_shm a5 s4)) by (unfold in_shm, zoom; by rewrite E5).
  exists (set_us_shm a5 s4), es5. split; [|split; [done | by rewrite <- Te]].
  apply wp_eq_Ok. cbn [each_param md_params]. unfold free_param, when. cbn [mp_type mp_v]. cbn [PT_SHM PT_VOID].
  rewrite (proj2 (Z.eqb_neq _ _) Hp). cbn [negb andb Z.eqb].
  apply wp_bind, (wp_eq _ _ _ _ _ E6). by wp_steps.
Qed.

End serving.

(** C37. The code of a method carries its types: for four types of two bits
    and an identifier of 24, [MP] puts them where both sides of a call read
    them.  The kernel takes the answer's type ([answer_type], when a server
    answers) and the parameters' ([func_type], when a request is made and
    when a segment is mapped) from the code, and a server's library gives
    parameter [i] the type that it reads there ([get_param]): each of them
    finds what [MP] was given. *)
Theorem method_code_types {K D} `{UserSys K} r a b c id :
  0 <= r < 4 -> 0 <= a < 4 -> 0 <= b < 4 -> 0 <= c < 4 -> 0 <= id < 2 ^ 24 ->
  let f := Z.lor id (MP r a b c) in
  u32 f /\ f mod 2 ^ 24 = id /\
  Requests.answer_type f = r /\ Requests.func_type f 0 = a /\ Requests.func_type f 1 = b /\ Requests.func_type f 2 = c /\
  forall (o : ptr) rq i p (s s' : ustate K D), uq_func rq = f -> (i < 3)%nat -> get_param o rq i s = Ok (p, s') ->
    mp_type p = nthz [a; b; c] i.
Proof.
  intros Hr Ha Hb Hc Hid f. destruct (method_code r a b c id Hr Ha Hb Hc Hid) as (Hu & Hm & T30 & T0 & T1 & T2).
  fold f in Hu, Hm, T30, T0, T1, T2. split_and!; [done..|]. intros o rq i p s s' Ef Hi E.
  rewrite (get_param_type _ _ _ _ _ _ E), Ef. destruct i as [|[|[|i]]]; [exact T0 | exact T1 | exact T2 | lia].
Qed.

Lemma method_code_types_witness :
  let f := Z.lor 1 (MP 2 3 2 0) in
  (u32 f /\ Requests.answer_type f = 2 /\ Requests.func_type f 0 = 3) /\
  forall p s', get_param procServer check_request 0 (sample_user sample_script) = Ok (p, s') -> mp_type p = 3.
Proof.
  destruct (@method_code_types script unit _ 2 3 2 0 1) as (Hu & _ & Hr & H0 & _ & _ & Hg); try lia.
  split; [done|]. intros p s' E. apply (Hg procServer check_request 0%nat p (sample_user sample_script) s'); [reflexivity | lia | exact E].
Defined.

Lemma srv_addHandler_registers_witness :
  exists s' q, srv_addHandler procServer M_NOTHING_VVVV 9 (sample_user sample_script) = Ok (tt, s') /\
    servers_ok s' [(procServer, 0, (M_NOTHING_VVVV, 9) :: new_table, [q; 2; 1])] /\
    getHandler procServer M_NOTHING_VVVV s' = Ok (9, s').
Proof.
  destruct (srv_addHandler_registers (sample_user sample_script) [] procServer 0 new_table [2; 1] [] M_NOTHING_VVVV 9
    (sample_servers _)) as (s' & q & E & W & G & _). by exists s', q.
Defined.

Lemma srv_create_delete_witness : exists p s1 ml, srv_create (sample_user sample_script) = Ok (p, s1) /\
  servers_ok s1 [(p, 7, new_table, ml); (procServer, 0, new_table, [2; 1])] /\ srv_get 7 s1 = Ok (p, s1) /\
  srv_delete p s1 = Ok (tt, set_us_kernel (Script (sc_inbox sample_script) [EvClose 7] 8 (sc_shm sample_script))
                              (sample_user sample_script)).
Proof.
  apply (srv_create_delete (sample_user sample_script) _ 7 (Script (sc_inbox sample_script) [] 8 (sc_shm sample_script)));
    [apply sample_servers | reflexivity | reflexivity].
Defined.

Lemma srv_delete_removes_witness :
  exists s', srv_delete procServer (sample_user sample_script) = Ok (tt, s') /\ servers_ok s' [] /\
    us_servers s' !! procServer = None /\ us_methods s' !! 2 = None.
Proof.
  assert (Hc : sys_object_close 0 (us_kernel (sample_user sample_script)) =
    Ok (tt, Script (sc_inbox sample_script) [EvClose 0] 7 (sc_shm sample_script))) by reflexivity.
  destruct (srv_delete_removes (sample_user sample_script) [] procServer 0 new_table [2; 1] [] _ (sample_servers _) Hc)
    as (s' & E & W & Hn & Hm & _). exists s'. split_and!; [exact E | exact W | exact Hn | apply Hm; set_solver].
Defined.

(** The same process with a handler for the code 0. *)
Definition all_user : ustate script unit := st_put {[ 1 := MethodSrv 0 9 0 ]} local_user.

Definition local_blocks : list (Z * Z * Z) := [(SHM_LO, 4096, 0); (SHM_LO + 4096, SHM_HI - SHM_LO - 4096, 1)].

Lemma local_shm : shm_ok (us_shm local_user) local_blocks.
Proof.
  split; [exists [1; 2] | cbn; unfold SHM_LO, SHM_HI; auto 20 with lia | cbn; auto with lia].
  split; try done. by repeat (eexists || split).
Qed.

Lemma local_at : server_is local_user procServer 0 [(Z.lor 10 (MP 1 3 0 0), 9)].
Proof.
  exists [1]. split; [done|]. eexists. split; [reflexivity|]. split; [done|]. split; [by repeat (eexists || split)|].
  constructor; [eexists; split; reflexivity | constructor].
Qed.

Lemma all_at : server_is all_user procServer 0 [(0, 9)].
Proof.
  exists [1]. split; [done|]. eexists. split; [reflexivity|]. split; [done|]. split; [by repeat (eexists || split)|].
  constructor; [eexists; split; reflexivity | constructor].
Qed.

Lemma calm_refl {K D} `{UserSysLaws K} (s : ustate K D) : calm s s.
Proof. split; [done | intros o id t; by exists t | intros es; by exists es]. Qed.

(** The two words of the request's area can be read. *)
Lemma check_readable (s : ustate script unit) es p0 p1 b0 b1 b2 i : shm_ok (us_shm s) es -> taken es ≡ₚ b0 ++ b1 ++ b2 ++ [] ->
  decoded check_request 0 p0 b0 -> decoded check_request 1 p1 b1 -> (i < Z.to_nat (w32 (mp_v p1)))%nat ->
  can_read (us_shm s) (word_at (mp_v p0) i) = true.
Proof.
  intros W T [T0 D0] [T1 D1] Hi. assert (Ev : mp_v p1 = 2) by (rewrite T1 in D1; apply D1; by left).
  rewrite Ev in Hi. change (i < 2)%nat in Hi. rewrite T0 in D0. cbn in D0. destruct D0 as (Ez & [(E0 & _)|(_ & _ & Eb)]).
  - rewrite E0. by destruct i as [|[|i]]; [| |lia].
  - rewrite Ez in Eb. change (page_up 8) with 4096 in Eb.
    assert (Hin : (mp_v p0, 4096) ∈ taken es) by (rewrite T, Eb; set_solver).
    pose proof (taken_bounds _ _ _ _ W Hin) as Hb. unfold SHM_LO, SHM_HI in Hb.
    apply (block_can_read _ es (mp_v p0) 4096); [done | done | |]; unfold word_at; rewrite w32_small by (unfold u32; lia); lia.
Qed.

Lemma srv_handle_serves_witness : exists s' es',
  srv_handle no_handler procServer HA_WAIT (sample_user sample_script) = Ok (tt, s') /\
  shm_ok (us_shm s') es' /\ taken es' ≡ₚ [] /\ exists a b e, answered (us_kernel s') = [(0, a, b, e)].
Proof.
  assert (Hs : server_is (sample_user sample_script) procServer 0 new_table) by (exists [2; 1]; apply sample_at).
  assert (Hr : remote check_request).
  { intros [|[|[|i]]] Hi; [intros _; split; [done | cbn; lia] | done | done | lia]. }
  assert (Hg : sys_request_get 0 (HA_WAIT =? HA_WAIT) (us_kernel (sample_user sample_script)) =
    Ok ((0, check_request), Script [] [] 7 (sc_shm sample_script))) by reflexivity.
  destruct (srv_handle_serves no_handler (sample_user sample_script) procServer 0 new_table _ HA_WAIT check_request _
    Hs sample_shm_ok Hr Hg) as (s' & es' & E & W & T & _ & A).
  - intros _ s1 es1 p0 p1 p2 b0 b1 b2 W Ws T D0 D1 _ d.
    destruct (checkIfHandlesMany_ok d s1 0 new_table W) as (r & E & _).
    { intros i Hi _. by apply (check_readable s1 es1 p0 p1 b0 b1 b2). }
    change (invoke no_handler (handler_of new_table (uq_func check_request)) d)
      with (r ← checkIfHandlesMany d; mret (r, d) : M (ustate script unit) (method_ret * method_data)).
    apply wp_bind, (wp_eq _ _ _ _ _ E), wp_ret. split; [done | apply calm_refl].
  - exists s', es'. destruct A as (ret & se & _ & _ & A). split_and!; [exact E | exact W | exact T | do 3 eexists; exact A].
Defined.

(** What the sample process does with the request, run to the end: the
    segment is mapped, the second method has no handler, the answer is 0. *)
Example check_request_run :
  match srv_handle no_handler procServer HA_WAIT (sample_user sample_script) with
  | Ok (_, s) => sc_log (us_kernel s)
  | Fault _ => []
  end = [EvMap 0 0x80000000 0; EvAnswer 0 0 0 0].
Proof. by vm_compute. Qed.

(** The area of [local_user] is a page of zeroes, and no method has the
    code 0; the word behind the page is not mapped. *)
Lemma checkIfHandlesMany_all_witness :
  let d n := MethodData [MParam SHM_LO PT_SHM 0 4096; MParam n PT_LONG 0 0; no_param] M_HANDLECHECK_BMIV 5 1 procServer in
  (exists r, checkIfHandlesMany (d 2) local_user = Ok (r, local_user) /\ mr_status r = 0 /\ w32 (mr_v r) = 0) /\
  checkIfHandlesMany (d 1025) all_user = Fault (BadAccess (SHM_LO + 4096)).
Proof.
  set (d := fun n : Z => MethodData [MParam SHM_LO PT_SHM 0 4096; MParam n PT_LONG 0 0; no_param] M_HANDLECHECK_BMIV 5 1 procServer).
  split.
  - destruct (checkIfHandlesMany_all local_user (d 2) 0 _ _ local_at local_shm) as [(r & E & H) _].
    + intros _ _ i Hi _. right. exists 4096. split; [cbn; set_solver|]. change (i < 2)%nat in Hi. lia.
    + exists r. split; [exact E|]. destruct H as (H1 & _ & H2). split; [exact H1|]. rewrite H2. by vm_compute.
  - destruct (checkIfHandlesMany_all all_user (d 1025) 0 [(0, 9)] local_blocks all_at local_shm) as [_ Hf].
    apply (Hf eq_refl ltac:(done) 1024%nat); [apply Nat.ltb_lt; by vm_compute | | by vm_compute].
    intros j Hj. change (mp_v (md_param (d 1025) 0)) with 0x80000000. split; [|reflexivity]. apply (block_can_read _ local_blocks SHM_LO 4096);
      [exact local_shm | cbn; set_solver | |]; unfold word_at, SHM_LO; rewrite w32_small by (unfold u32; lia); lia.
Defined.

Lemma local_request_frees_area_witness : exists s' es',
  srv_request no_handler procServer local_request local_user = Ok (tt, s') /\ shm_ok (us_shm s') es' /\ taken es' = [].
Proof.
  destruct (local_request_frees_area no_handler local_user procServer 0 _ _ local_request SHM_LO 4096 local_at local_shm)
    as (s' & es' & E & W & T); try done.
  - set_solver.
  - intros d _. change (wp (mret (MethodRet 0 PT_VOID 0, d) : M (ustate script unit) _) local_user (fun r s2 => r.2 = d /\ calm local_user s2)).
    apply wp_ret. split; [done | apply calm_refl].
  - exists s', es'. split; [exact E|]. split; [exact W|]. cbn in T. symmetry in T. apply Permutation_singleton_r in T. by injection T.
Defined.
