(* ===== verification/Calls.v ===== *)
(** * Calling methods on objects

    [src/library/gm/call.c] and [src/library/gm/call/manager.c]: the
    functions that pack a request, send it and unpack the answer.  A string
    travels in a shared-memory area made for the call. *)

From S2P Require Import Prelude Memory Heap Strings UShm User Server.

Definition M_OPEN_OMVV : Z := Z.lor 10 (MP 1 3 0 0).
Definition M_REGISTERSVC_VMOV : Z := Z.lor 11 (MP 0 3 1 0).
Definition M_LOGSVC_VMIV : Z := Z.lor 12 (MP 0 3 2 0).

Section calls.
Context {K D : Type} `{UserSys K}.
Abbreviation U := (ustate K D).
(** Rounds allowed to a loop over a string. *)
Context (fuel : nat).

(** [struct user_sendrequest sr; sr.func = ...; sr.a = ...; sr.b = ...;]
    the other members hold whatever the stack held. *)
Definition sendrequest (func : Z) (a b : option Z) : M U user_sendrequest :=
  j ← gets us_junk;
  mret (SendRequest func (default j a) (default j b) j j j j).

(** [_CHC] *)
Definition call_or_send (o block : Z) (sr : user_sendrequest) : M U user_sendrequest :=
  r ← in_kernel (if block =? 0 then sys_send_msg o sr else sys_request o sr);
  mret r.2.

(** [shm_allocNew(strlen(c) + 1)] and [strcpy]. *)
Definition share_string (c : Z) : M U Z :=
  l ← in_mem (strlen fuel c);
  p ← shm_allocNew (l + 1);
  _ ← in_mem (strcpy fuel p c);
  mret p.

Definition c_handleCheck (o block method : Z) : M U Z :=
  sr ← sendrequest M_HANDLECHECK_BIVV (Some method) None;
  sr ← call_or_send o block sr;
  mret (if negb (sr_errcode sr =? 0) then 0 else sr_answeri sr).

Definition c_handleCheckA (o block methods number : Z) : M U Z :=
  p ← shm_allocNew (4 * number);
  _ ← in_mem (memcpy p methods (4 * number));
  sr ← sendrequest M_HANDLECHECK_BMIV (Some methods) (Some number);
  sr ← call_or_send o block sr;
  shm_freeDel p;;
  mret (if negb (sr_errcode sr =? 0) then 0 else sr_answeri sr).

Definition c_nothing (o block : Z) : M U Z :=
  sr ← sendrequest M_NOTHING_VVVV None None;
  sr ← call_or_send o block sr;
  mret (sr_errcode sr).

Definition c_open (o block c : Z) : M U Z :=
  p ← share_string c;
  sr ← sendrequest M_OPEN_OMVV (Some p) None;
  sr ← call_or_send o block sr;
  shm_freeDel p;;
  mret (if negb (sr_errcode sr =? 0) then -1 else s32 (w32 (sr_answeri sr))).

Definition open (c : Z) : M U Z := c_open 1 1 c.

Definition c_registerSvc (name : Z) : M U unit :=
  p ← share_string name;
  sr ← sendrequest M_REGISTERSVC_VMOV (Some p) (Some 0);
  _ ← in_kernel (sys_send_msg 1 sr);
  shm_freeDel p.

Definition c_logSvc (log level : Z) : M U unit :=
  l ← in_mem (strlen fuel log);
  p ← shm_allocNew (l + 1);
  if p =? 0 then mret tt
  else
    _ ← in_mem (strcpy fuel p log);
    sr ← sendrequest M_LOGSVC_VMIV (Some p) (Some level);
    _ ← in_kernel (sys_request 1 sr);
    shm_freeDel p.

End calls.

(** ** Lemmas *)

Section calls_ok.
Context {K D : Type} `{UserSysLaws K} {KN : UserSysSent K}.
Abbreviation U := (ustate K D).
Context (fuel : nat).

(** Putting a string in an area of its own. *)
Lemma share_string_ok (s : U) es c name : shm_ok (us_shm s) es -> cstr (us_mem s) c name ->
  (length name < fuel)%nat -> let n := Z.of_nat (length name) + 2 in
  c + n <= SHM_LO -> (exists st w, (st, w, 1) ∈ es /\ page_up n <= w) ->
  (forall p z k, wp (sys_shm_create p z) k (fun r _ => r.1 = 0)) ->
  exists p s' es', share_string fuel c s = Ok (p, s') /\ cstr (us_mem s') p name /\ shm_ok (us_shm s') es' /\
    taken es' ≡ₚ (p, page_up n) :: taken es /\ answered (us_kernel s') = answered (us_kernel s) /\
    sent (us_kernel s') = sent (us_kernel s) /\ SHM_LO <= p /\ us_junk s' = us_junk s /\
    (forall x, x < SHM_LO -> rd8 (us_mem s') x = rd8 (us_mem s) x).
Proof.
  intros W Hc Hf n Hn (st0 & w0 & Hin & Hw0) Hcr. pose proof (cstr_length _ _ _ Hc) as [Hc0 Hc1].
  assert (Hn0 : 0 < n <= 0xFFFFF000) by (unfold SHM_LO in *; lia).
  destruct (page_up_twice n Hn0) as [Htw Htop]. destruct (page_up_spec n Hn0) as (Hz & _ & Hnz).
  destruct (shm_alloc_taken (page_up n) _ _ W) as (p & a & es' & Ea & Wa & Hp); [lia|]. rewrite Htw in Hp.
  destruct Hp as [(_ & _ & Hno)|(Hlo & Hhi & Ht)]; [specialize (Hno _ _ Hin); lia|].
  set (s1 := set_us_shm a s).
  destruct (proj1 (wp_Ok _ _ _) (law_shm_create p (page_up n) (us_kernel s1))) as ([r f] & k & Ek & Ak).
  pose proof (Hcr p (page_up n) (us_kernel s1)) as Hr. unfold wp in Hr. rewrite Ek in Hr. cbn in Hr. subst r.
  pose proof (sent_shm_create p (page_up n) (us_kernel s1)) as Nk. unfold wp in Nk. rewrite Ek in Nk.
  set (s2 := set_us_kernel k s1). set (m2 := splice (us_mem s) f p (p + page_up n)).
  assert (Hm2 : forall x, x < SHM_LO -> rd8 m2 x = rd8 (us_mem s) x).
  { intros x Hx. unfold m2, rd8, splice. by rewrite (proj2 (Z.leb_gt p x)) by lia. }
  assert (Hc2 : cstr m2 c name) by (apply (cstr_agree (us_mem s)); [intros x Hx; apply Hm2; lia | done]).
  destruct (strcpy_ok m2 p c name fuel Hc2 Hf) as (m3 & E3 & Hb & Hc3); [unfold SHM_LO in *; lia | unfold SHM_HI in *; lia | lia |].
  set (s3 := set_us_mem m2 s2). exists p, (set_us_mem m3 s3), es'.
  split; [|split_and!; [exact Hc3 | exact Wa | exact Ht | exact Ak | exact Nk | exact Hlo | done |]].
  - apply wp_eq_Ok. unfold share_string. apply wp_bind.
    eapply wp_eq; [unfold in_mem, zoom; rewrite (strlen_ok _ _ _ _ Hc Hf); reflexivity|]. apply wp_bind.
    replace (set_us_mem (us_mem s) s) with s by (by destruct s as [[[] ?]]).
    replace (Z.of_nat (length name) + 1 + 1) with n by lia.
    eapply (wp_eq _ _ p s3).
    { apply wp_eq_Ok. unfold shm_allocNew. apply wp_bind. eapply wp_eq; [unfold in_shm, zoom; rewrite Ea; reflexivity|].
      apply wp_bind. eapply wp_eq; [unfold in_kernel, zoom; fold s1; rewrite Ek; reflexivity|].
      cbn [fst snd Z.eqb negb]. unfold map_new. by wp_steps. }
    apply wp_bind. eapply wp_eq; [unfold in_mem, zoom; change (us_mem s3) with m2; rewrite E3; reflexivity|]. by wp_steps.
  - intros x Hx. change (us_mem (set_us_mem m3 s3)) with m3. rewrite Hb.
    rewrite (proj2 (Z.leb_gt p x)) by lia. by apply Hm2.
Qed.

(** Giving the area back. *)
Lemma shm_freeDel_ok (s : U) es p z rest : shm_ok (us_shm s) es -> taken es ≡ₚ (p, z) :: rest ->
  exists s' es' r, shm_freeDel p s = Ok (tt, s') /\ quiet s s' /\ us_mem s' = us_mem s /\ us_data s' = us_data s /\
    shm_ok (us_shm s') es' /\ taken es' ≡ₚ rest /\ sys_shm_delete p (us_kernel s) = Ok (r, us_kernel s').
Proof.
  intros W Ht. destruct (proj1 (wp_Ok _ _ _) (law_shm_delete p (us_kernel s))) as (r & k & E & Ek).
  destruct (shm_free_taken p z _ _ W) as (a & es' & Ea & Wa & Ta); [rewrite Ht; set_solver|].
  exists (set_us_shm a (set_us_kernel k s)), es', r. split; [|split_and!; [by split | done | done | done | | done]].
  - apply wp_eq_Ok. unfold shm_freeDel. apply wp_bind. eapply wp_eq; [unfold in_kernel, zoom; rewrite E; reflexivity|].
    eapply wp_eq; [unfold in_shm, zoom; cbn [us_shm set_us_kernel]; rewrite Ea; reflexivity | done].
  - rewrite Ht in Ta. by apply Permutation_cons_inv in Ta.
Qed.

(** ** Theorems *)

(** C38. [c_open] makes a shared-memory area of its own with a copy of the
    string, sends the object one request, [M_OPEN] with the address of that
    area as its parameter, answers what the object answered to it (-1 after
    an error), and only then deletes and frees the area: nothing else is
    sent, the area map of the process is what it was, and the bytes below
    the shared-memory area have not changed. *)
Theorem c_open_sends (s : U) es o c name : shm_ok (us_shm s) es -> cstr (us_mem s) c name ->
  (length name < fuel)%nat -> let n := Z.of_nat (length name) + 2 in
  c + n <= SHM_LO -> (exists st w, (st, w, 1) ∈ es /\ page_up n <= w) ->
  (forall p z k, wp (sys_shm_create p z) k (fun r _ => r.1 = 0)) ->
  exists p (s1 : U) es1 r sr k2 d s' es',
    share_string fuel c s = Ok (p, s1) /\ shm_ok (us_shm s1) es1 /\ taken es1 ≡ₚ (p, page_up n) :: taken es /\
    cstr (us_mem s1) p name /\ sent (us_kernel s1) = sent (us_kernel s) /\
    let j := us_junk s in let q := SendRequest M_OPEN_OMVV p j j j j j in
    sys_request o q (us_kernel s1) = Ok ((r, sr), k2) /\ sys_shm_delete p k2 = Ok (d, us_kernel s') /\
    c_open fuel o 1 c s = Ok (if negb (sr_errcode sr =? 0) then -1 else s32 (w32 (sr_answeri sr)), s') /\
    sent (us_kernel s') = sent (us_kernel s) ++ [(o, q)] /\ us_mem s' = us_mem s1 /\
    shm_ok (us_shm s') es' /\ taken es' ≡ₚ taken es /\ answered (us_kernel s') = answered (us_kernel s) /\
    (forall x, x < SHM_LO -> rd8 (us_mem s') x = rd8 (us_mem s) x).
Proof.
  intros W Hc Hf n Hn Hin Hcr.
  destruct (share_string_ok s es c name W Hc Hf Hn Hin Hcr) as (p & s1 & es1 & E1 & Hp & W1 & T1 & A1 & N1 & _ & J1 & M1).
  set (sr0 := SendRequest M_OPEN_OMVV p (us_junk s) (us_junk s) (us_junk s) (us_junk s) (us_junk s)).
  destruct (proj1 (wp_Ok _ _ _) (law_request o sr0 (us_kernel s1))) as ([r sr] & k2 & E2 & A2).
  destruct (shm_freeDel_ok (set_us_kernel k2 s1) es1 p _ _ W1 T1) as (s' & es' & d & E3 & Q3 & M3 & _ & W3 & T3 & K3).
  exists p, s1, es1, r, sr, k2, d, s', es'. do 5 (split; [done|]). intros j q. change q with sr0.
  split; [exact E2|]. split; [exact K3|]. split; [|split; [|split_and!; [exact M3 | done | done | |]]].
  - apply wp_eq_Ok. unfold c_open. apply wp_bind, (wp_eq _ _ _ _ _ E1). unfold sendrequest. wp_steps.
    rewrite J1. cbn [default from_option id]. fold sr0. unfold call_or_send. cbn [Z.eqb]. apply wp_bind.
    eapply wp_eq; [unfold in_kernel, zoom; rewrite E2; reflexivity|]. wp_steps. apply (wp_eq _ _ _ _ _ E3). by wp_steps.
  - pose proof (sent_request o sr0 (us_kernel s1)) as N2. unfold wp in N2. rewrite E2 in N2.
    pose proof (sent_shm_delete p k2) as N3. unfold wp in N3. cbn [us_kernel set_us_kernel] in K3. rewrite K3 in N3. by rewrite N3, N2, N1.
  - by rewrite (qt_answered _ _ Q3), <- A1, <- A2.
  - intros x Hx. rewrite M3. by apply M1.
Qed.

End calls_ok.

(** The text "ab" at 256, on the sample process. *)
Definition calling_user : ustate script unit :=
  set_us_mem (wr8 (wr8 (fun _ => 0) 256 97) 257 98) (empty_user (Script [] [] 1 (fun _ => 0))).

Lemma calling_ab : cstr (us_mem calling_user) 256 [97; 98].
Proof. by rewrite !cstr_cons, cstr_nil. Qed.

Lemma c_open_sends_witness : exists p s', c_open 10 1 1 256 calling_user = Ok (0, s') /\
  cstr (us_mem s') p [97; 98] /\ sent (us_kernel s') = [(1, SendRequest M_OPEN_OMVV p 0 0 0 0 0)] /\
  taken (ent (ub (us_shm s')) <$> [blocks (us_shm s')]) = [].
Proof.
  destruct (c_open_sends 10 calling_user _ 1 256 [97; 98] sample_shm_ok calling_ab)
    as (p & s1 & es1 & r & sr & k2 & d & s' & es' & _ & _ & _ & Hc & _ & E2 & _ & E & N & M & _).
  - cbn. lia.
  - unfold SHM_LO. cbn. lia.
  - exists SHM_LO, (SHM_HI - SHM_LO). split; [set_solver | by vm_compute].
  - intros q z k. unfold wp. done.
  - injection E2 as <- <- _. exists p, s'. split; [exact E|]. rewrite M. split; [exact Hc|]. split; [exact N|].
    apply (f_equal (fun x => match x with Ok (_, s) => taken (ent (ub (us_shm s)) <$> [blocks (us_shm s)]) | _ => [] end)) in E.
    rewrite <- E. by vm_compute.
Defined.
