(* ===== verification/Manager.v ===== *)
(** * The manager module

    [src/modules/manager/main.c]: the process whose object 1 is every other
    process's first contact.  It keeps the list of registered services,
    opens them by name and writes the log.  Its data is the [us_data] of
    the process; its handlers are the [user_handler] of [Server]. *)

From stdpp Require Import strings.
From S2P Require Import Prelude Memory Heap Console Strings UShm User Server Calls.

Definition LL_ERROR : Z := 1.
Definition LL_NOTICE : Z := 3.
Definition LL_STATUS : Z := 4.
Definition LL_DEBUG : Z := 5.

Definition loglevels : list (list Z) :=
  [text "Critical"; text "Error"; text "Warning"; text "Notice"; text "Status"; text "Debug"].

Record service := Service { svc_name : ptr; svc_pid : Z; svc_obj : Z; svc_next : ptr }.
Record mgr := Mgr { mg_services : gmap Z service; services : ptr; loglevel : Z }.

Definition set_svc_next (p : ptr) (v : service) : service := Service (svc_name v) (svc_pid v) (svc_obj v) p.
#[export] Instance Linked_service : Linked service :=
  {| nxt := svc_next; set_nxt := set_svc_next; nxt_set _ _ := eq_refl |}.
#[export] Instance Store_service K : Store (ustate K mgr) service.
Proof.
  refine {| st_get s := mg_services (us_data s);
            st_put m s := set_us_data (Mgr m (services (us_data s)) (loglevel (us_data s))) s |};
    try reflexivity. by intros [? ? ? ? ? ? ? []].
Defined.

(** The addresses of the module's handlers. *)
Definition h_nothing : Z := 3.
Definition h_open : Z := 4.
Definition h_registersvc : Z := 5.
Definition h_logsvc : Z := 6.

Section manager.
Context {K : Type} `{UserSys K}.
Abbreviation U := (ustate K mgr).
(** Rounds allowed to a loop over a string. *)
Context (fuel : nat).

(** [log] is the message: a literal, or the bytes a pointer stands for when
    they are printed. *)
Definition logsvc (pid : Z) (log : M U (list Z)) (level : Z) : M U unit :=
  ll ← gets (fun s => loglevel (us_data s));
  if (ll <? level) || (level <? 0) then mret tt
  else
    h ← gets (fun s => services (us_data s));
    svc ← walk (A := service) (fun _ v => svc_pid v =? pid) h;
    (if svc =? 0 then printk (text "[log:??] ")
     else
       printk (text "[log:");;
       v ← load (A := service) svc;
       n ← chars fuel (svc_name v); printk n;;
       printk (text "] "));;
    printk (nth (Z.to_nat level) loglevels []);;
    printk (text ": ");;
    l ← log; printk l;;
    printk [10].

(** [char msg[100]], and [strcat] on it. *)
Definition msg_append (msg name : list Z) : M U (list Z) :=
  if 100 <=? Z.of_nat (length msg + length name) then fail (BadAccess 100) else mret (msg ++ name).

Definition registersvc (pid name descriptor : Z) : M U unit :=
  j ← gets us_junk;
  svc ← new (Service j j j j);
  n ← strdup fuel name;
  update svc (fun v => Service n pid descriptor (svc_next v));;
  h ← gets (fun s => services (us_data s));
  update svc (set_svc_next h);;
  modify (fun s => set_us_data (Mgr (mg_services (us_data s)) svc (loglevel (us_data s))) s);;
  v ← load (A := service) svc;
  nm ← chars fuel (svc_name v);
  msg ← msg_append (text "Service registered: ") nm;
  logsvc 1 (mret msg) LL_NOTICE.

(** ** The handlers *)

Definition handle_nothing (d : method_data) : M U method_ret :=
  (if negb (md_blocking d =? 0) then logsvc 1 (mret (text "Received a {nothing} request.")) LL_DEBUG
   else logsvc 1 (mret (text "Received a {nothing} message.")) LL_DEBUG);;
  mr_void.

(** The loop over the services, comparing names. *)
Definition open_step (svc s : ptr) : M U (ptr + ptr) :=
  if s =? 0 then mret (inr 0)
  else
    v ← load (A := service) s;
    c ← in_mem (strcmp fuel (svc_name v) svc);
    if c =? 0 then mret (inr s) else mret (inl (svc_next v)).

Definition find_service (svc : Z) : M U ptr :=
  h ← gets (fun s => services (us_data s));
  n ← gets (fun s => size (mg_services (us_data s)));
  loop (2 + n) (open_step svc) h.

Definition handle_open (d : method_data) : M U method_ret :=
  ok ← chksstr d 0;
  if negb ok then mr_err (-1)
  else
    let svc := mp_v (md_param d 0) in
    sep ← in_mem (strchr fuel svc 58);
    when (negb (sep =? 0)) (in_mem (wrb sep 48));;
    s ← find_service svc;
    if s =? 0 then mr_err (-2)
    else
      v ← load (A := service) s;
      if sep =? 0 then mr_obj (svc_obj v)
      else
        in_mem (wrb sep 58);;
        r ← c_open fuel (svc_obj v) 1 (sep + 1);
        if r =? -1 then mr_err (-3) else mr_obj r.

Definition handle_registersvc (d : method_data) : M U method_ret :=
  ok ← chksstr d 0;
  if negb ok then mr_err (-1)
  else if mp_v (md_param d 1) =? 0 then mr_err (-1)
  else registersvc (md_pid d) (mp_v (md_param d 0)) (mp_v (md_param d 1));; mr_void.

Definition handle_logsvc (d : method_data) : M U method_ret :=
  ok ← chksstr d 0;
  if negb ok then mr_err (-1)
  else logsvc (md_pid d) (chars fuel (mp_v (md_param d 0))) (s32 (w32 (mp_v (md_param d 1))));; mr_void.

(** The handlers by address; another address is not code. *)
Definition manager_handler (h : Z) (d : method_data) : M U (method_ret * method_data) :=
  r ← (if h =? h_nothing then handle_nothing d
       else if h =? h_open then handle_open d
       else if h =? h_registersvc then handle_registersvc d
       else if h =? h_logsvc then handle_logsvc d
       else fail (BadAccess h));
  mret (r, d).

(** [main] up to the loop; [manager_str] is the address of ["manager"]. *)
Definition main_init (manager_str : Z) : M U ptr :=
  logsvc 1 (mret (text "Manager module configuring...")) LL_NOTICE;;
  registersvc 1 manager_str 0;;
  m ← srv_get 0;
  srv_addHandler m M_NOTHING_VVVV h_nothing;;
  srv_addHandler m M_OPEN_OMVV h_open;;
  srv_addHandler m M_REGISTERSVC_VMOV h_registersvc;;
  srv_addHandler m M_LOGSVC_VMIV h_logsvc;;
  logsvc 1 (mret (text "Manager module configured : starting request handling.")) LL_STATUS;;
  mret m.

(** The first [n] requests. *)
Definition main (n : nat) (manager_str : Z) : M U unit :=
  m ← main_init manager_str; srv_handle_loop manager_handler n m.

(** [start] of [src/library/start.c]; [main] does not return. *)
Definition start (n : nat) (manager_str : Z) : M U unit := objsrv_init;; main n manager_str.

End manager.

(** ** Specification *)

(** A service as address, name, process and root object. *)
Definition entry : Type := Z * list Z * Z * Z.
Definition e_ptr (e : entry) : Z := e.1.1.1.
Definition e_name (e : entry) : list Z := e.1.1.2.
Definition e_pid (e : entry) : Z := e.1.2.
Definition e_obj (e : entry) : Z := e.2.

Definition service_at {K} (fuel : nat) (s : ustate K mgr) (e : entry) : Prop :=
  exists v, mg_services (us_data s) !! e_ptr e = Some v /\ svc_pid v = e_pid e /\ svc_obj v = e_obj e /\
    svc_name v <> 0 /\ svc_name v + Z.of_nat (length (e_name e)) < SHM_LO /\
    cstr (us_mem s) (svc_name v) (e_name e) /\ (length (e_name e) < fuel)%nat.

(** The registered services, most recent first; their names are outside the
    shared-memory area. *)
Definition services_are {K} (fuel : nat) (s : ustate K mgr) (l : list entry) : Prop :=
  linked (mg_services (us_data s)) (services (us_data s)) (e_ptr <$> l) /\ Forall (service_at fuel s) l.

Fixpoint find_named (l : list entry) (name : list Z) : option entry :=
  match l with
  | [] => None
  | e :: l' => if decide (e_name e = name) then Some e else find_named l' name
  end.

Fixpoint find_pid (l : list entry) (pid : Z) : option entry :=
  match l with
  | [] => None
  | e :: l' => if e_pid e =? pid then Some e else find_pid l' pid
  end.

(** A line of the log. *)
Definition log_line (l : list entry) (pid level : Z) (msg : list Z) : list Z :=
  (match find_pid l pid with
   | None => text "[log:??] "
   | Some e => text "[log:" ++ e_name e ++ text "] "
   end) ++ nth (Z.to_nat level) loglevels [] ++ text ": " ++ msg ++ [10].

(** A sample: the service "fs" of process 3, and the string "fs:a" in the
    shared-memory area, "db" below it. *)
Definition sample_bytes : mem :=
  foldr (fun '(a, v) m => wr8 m a v) (fun _ => 0)
    [(256, 102); (257, 115); (SHM_LO, 102); (SHM_LO + 1, 115); (SHM_LO + 2, 58); (SHM_LO + 3, 97); (512, 100); (513, 98)].
Definition sample_manager : ustate script mgr :=
  UState (ULib (HState (Heap 0 0 0 0 0) sample_bytes (USegment None (fun _ _ => 0) 0)) false)
    sample_shm ∅ ∅ 0 0 (Script [] [] 1 (fun _ => 0)) (Mgr {[ 1 := Service 256 3 9 0 ]} 1 LL_DEBUG).
Definition sample_services : list entry := [(1, text "fs", 3, 9)].
Definition open_data (p size : Z) : method_data :=
  MethodData [MParam p 3 0 size; no_param; no_param] M_OPEN_OMVV 5 1 procServer.
Definition sample_lib : ulib :=
  match malloc 4 (us_lib sample_manager) with Ok (_, l) => l | Fault _ => us_lib sample_manager end.

(** ** Lemmas *)

Section lemmas.
Context {K : Type} {KS : UserSys K} {KL : UserSysLaws K}.
Abbreviation U := (ustate K mgr).
Context (fuel : nat).

Lemma find_service_ok (s : U) l q str : services_are fuel s l -> cstr (us_mem s) q str ->
  find_service fuel q s = Ok (match find_named l str with Some e => e_ptr e | None => 0 end, s).
Proof.
  intros [Hl Hat] Hq. apply wp_eq_Ok. unfold find_service. wp_steps.
  pose proof (linked_length _ _ _ Hl) as Hlen. rewrite length_fmap in Hlen.
  eapply wp_eq; [|reflexivity]. revert Hlen Hl. generalize (services (us_data s)) as h.
  generalize (size (mg_services (us_data s))) as n.
  induction Hat as [|e l (v & Ev & _ & _ & _ & _ & Hc & Hf) Hat IH]; intros n h Hlen Hl; cbn [Nat.add]; rewrite loop_S; apply run_bind.
  - cbn in Hl. subst h. unfold open_step at 1. cbn [Z.eqb]. by wp_steps.
  - destruct Hl as (-> & Hx & v' & Ev' & Hl). replace v' with v in * by congruence.
    unfold open_step at 1. rewrite (proj2 (Z.eqb_neq _ _) Hx). wp_steps.
    destruct (strcmp_ok (e_name e) str (us_mem s) (svc_name v) q fuel Hc Hq Hf) as (r & Er & Hr).
    eapply wp_eq; [apply in_mem_ok; exact Er|]. cbn [find_named].
    assert (Heq : r = 0 <-> e_name e = str) by (by rewrite <- Z.compare_eq_iff, Hr, str_compare_eq).
    destruct (Z.eqb_spec r 0) as [E|Hne]; wp_steps.
    + rewrite decide_True by tauto. by wp_steps.
    + rewrite decide_False by tauto. cbn in Hlen. destruct n as [|n]; [lia|]. apply (IH n); [lia | exact Hl].
Qed.

Lemma find_pid_ok (s : U) l pid : Forall (service_at fuel s) l ->
  first_ptr (fun _ v => svc_pid v =? pid) (mg_services (us_data s)) (e_ptr <$> l) =
  match find_pid l pid with Some e => e_ptr e | None => 0 end.
Proof.
  intros Hat. induction Hat as [|e l (v & Ev & Ep & _) Hat IH]; [done|]. cbn. rewrite Ev, Ep. by destruct (e_pid e =? pid).
Qed.

Lemma find_pid_in l pid e : find_pid l pid = Some e -> e ∈ l.
Proof.
  induction l as [|e' l IH]; [done|]. cbn. destruct (e_pid e' =? pid); [intros [= ->]; set_solver|]. intros He%IH. set_solver.
Qed.

Lemma find_named_in l nm e : find_named l nm = Some e -> e ∈ l /\ e_name e = nm.
Proof.
  induction l as [|e' l IH]; [done|]. cbn. case_decide; [intros [= ->]; set_solver|]. intros [He E]%IH. set_solver.
Qed.

Lemma linked_e_ptr (s : U) l e : services_are fuel s l -> e ∈ l -> e_ptr e <> 0 /\ service_at fuel s e.
Proof.
  intros [Hl Hat] He. split; [|by rewrite Forall_forall in Hat; apply Hat].
  eapply lseg_in_dom; [exact Hl|]. by apply list_elem_of_fmap_2.
Qed.

Lemma logsvc_ok (s : U) l pid log level msg : services_are fuel s l -> 0 <= level <= loglevel (us_data s) ->
  (forall k, log (set_us_kernel k s) = Ok (msg, set_us_kernel k s)) ->
  exists k, logsvc fuel pid log level s = Ok (tt, set_us_kernel k s) /\
    printed k = printed (us_kernel s) ++ log_line l pid level msg /\ answered k = answered (us_kernel s).
Proof.
  intros W Hlv Hlog.
  enough (Hw : wp (logsvc fuel pid log level) s (fun _ s' => exists k, s' = set_us_kernel k s /\
    printed k = printed (us_kernel s) ++ log_line l pid level msg /\ answered k = answered (us_kernel s))).
  { apply wp_Ok in Hw as ([] & s' & E & k & -> & Hk). by exists k. }
  unfold logsvc. wp_steps. rewrite (proj2 (Z.ltb_ge _ _)), (proj2 (Z.ltb_ge _ _)) by lia. cbn [orb]. wp_steps.
  pose proof W as [Hl Hat]. eapply wp_eq; [by apply (walk_spec (S := U) _ _ (e_ptr <$> l))|]. cbn [st_get Store_service].
  rewrite find_pid_ok by done. wp_steps.
  assert (Htail : forall k0, answered k0 = answered (us_kernel s) ->
    printed k0 = printed (us_kernel s) ++ (match find_pid l pid with
      | None => text "[log:??] " | Some e => text "[log:" ++ e_name e ++ text "] " end) ->
    wp (printk (nth (Z.to_nat level) loglevels []);; printk (text ": ");; l ← log; printk l;; printk [10])
      (set_us_kernel k0 s) (fun _ s' => exists k, s' = set_us_kernel k s /\
        printed k = printed (us_kernel s) ++ log_line l pid level msg /\ answered k = answered (us_kernel s))).
  { intros k0 A0 P0. wp_step. apply wp_printk. intros k1 P1 A1. wp_step. apply wp_printk. intros k2 P2 A2.
    wp_step. eapply wp_eq; [apply Hlog|]. wp_step. apply wp_printk. intros k3 P3 A3. apply wp_printk. intros k4 P4 A4.
    exists k4. cbn [us_kernel set_us_kernel] in *. split; [done|]. split; [|congruence].
    rewrite P4, P3, P2, P1, P0. unfold log_line. by rewrite <- !app_assoc. }
  destruct (find_pid l pid) as [e|] eqn:Ef.
  - destruct (linked_e_ptr s l e W (find_pid_in _ _ _ Ef)) as [Hx (v & Ev & _ & _ & Hn & _ & Hc & Hf)].
    rewrite (proj2 (Z.eqb_neq _ _) Hx). wp_step. apply wp_printk. intros k1 P1 A1. wp_step.
    eapply wp_load; [done | exact Ev |]. wp_step. eapply wp_eq; [by apply chars_ok|]. wp_step. apply wp_printk.
    intros k2 P2 A2. apply wp_printk. intros k3 P3 A3. cbn [us_kernel set_us_kernel] in *. apply Htail; [congruence|].
    rewrite P3, P2, P1. by rewrite <- !app_assoc.
  - cbn [Z.eqb]. apply wp_printk. intros k1 P1 A1. by apply Htail.
Qed.

(** The answer once the service is looked up. *)
Lemma answer_service (s : U) l q str : services_are fuel s l -> cstr (us_mem s) q str -> exists ret,
  (x ← find_service fuel q; if x =? 0 then mr_err (-2) else v ← load (A := service) x; mr_obj (svc_obj v)) s = Ok (ret, s) /\
  match find_named l str with
  | Some e => mr_status ret = 0 /\ mr_type ret = PT_OBJDESC /\ w32 (mr_v ret) = w32 (e_obj e)
  | None => mr_status ret = -2
  end.
Proof.
  intros W Hc. rewrite (bind_Ok _ _ _ _ _ (find_service_ok s l q str W Hc)).
  destruct (find_named l str) as [e|] eqn:En; [|by eexists].
  destruct (linked_e_ptr s l e W) as [Hx (v & Ev & _ & <- & _)]; [by apply find_named_in in En as [? _]|].
  rewrite (proj2 (Z.eqb_neq _ _) Hx). pose proof (load_Ok (S := U) (e_ptr e) v s Hx Ev) as El.
  rewrite (bind_Ok _ _ _ _ _ El). apply mr_int_ok.
Qed.

(** Replacing one character of a string. *)
Lemma cstr_replace m p a c c' b : 0 < c' < 256 -> cstr m p (a ++ c :: b) ->
  cstr (wr8 m (p + Z.of_nat (length a)) c') p (a ++ c' :: b).
Proof.
  intros Hc. revert p. induction a as [|d a IH]; intros p; cbn [app length].
  - rewrite Z.add_0_r, !cstr_cons. intros (H1 & H2 & _ & _ & Hs). split_and!; [done | done | | lia | lia |].
    + rewrite wr8_eq. apply Z.mod_small. lia.
    + apply (cstr_agree m); [|done]. intros x Hx. apply rd8_ne. lia.
  - rewrite !cstr_cons. intros (H1 & H2 & E & Hd & Hs). split_and!; [done | done | | lia | lia |].
    + by rewrite rd8_ne by lia.
    + replace (p + Z.of_nat (S (length a))) with (p + 1 + Z.of_nat (length a)) by lia. by apply IH.
Qed.

Lemma str_index_app c a b : c ∉ a -> str_index c (a ++ c :: b) = Some (Z.of_nat (length a)).
Proof.
  induction a as [|d a IH]; intros Hc; cbn; [by rewrite Z.eqb_refl|].
  rewrite (proj2 (Z.eqb_neq d c)), IH by set_solver. cbn. f_equal. lia.
Qed.

Lemma str_index_none c a : c ∉ a -> str_index c a = None.
Proof. induction a as [|d a IH]; intros Hc; cbn; [done|]. by rewrite (proj2 (Z.eqb_neq d c)), IH by set_solver. Qed.

(** What [malloc] promises for the copy of a name: a block apart from the
    names in use, which keep their bytes. *)
Record fresh_for (s : U) (l : list entry) (q r : Z) (name : list Z) (lib : ulib) : Prop := {
  ff_malloc : malloc (Z.of_nat (length name) + 2) (us_lib s) = Ok (r, lib);
  ff_block : 0 < r /\ r + Z.of_nat (length name) + 2 <= SHM_LO;
  ff_apart : r + Z.of_nat (length name) + 2 <= q \/ q + Z.of_nat (length name) + 2 <= r;
  ff_source : cstr (hm (ul_heap lib)) q name;
  ff_names : forall e v, e ∈ l -> mg_services (us_data s) !! e_ptr e = Some v ->
    cstr (hm (ul_heap lib)) (svc_name v) (e_name e) /\
    (svc_name v + Z.of_nat (length (e_name e)) < r \/ r + Z.of_nat (length name) + 2 <= svc_name v)
}.

Lemma strdup_ok (s0 s : U) l q r name lib : fresh_for s0 l q r name lib -> us_lib s = us_lib s0 -> cstr (us_mem s) q name -> (length name < fuel)%nat ->
  exists m', strdup fuel q s = Ok (r, set_us_mem m' (set_us_lib lib s)) /\ cstr m' r name /\
    (forall x, x < r \/ r + Z.of_nat (length name) + 2 <= x -> rd8 m' x = rd8 (hm (ul_heap lib)) x).
Proof.
  intros [Hm Hb Ha Hs _] Hlib Hc Hf. rewrite <- Hlib in Hm.
  destruct (strcpy_ok (hm (ul_heap lib)) r q name fuel Hs Hf) as (m' & E & Hcopy & Hc'); [lia | unfold SHM_LO in *; lia | lia |].
  exists m'. split; [|split; [done|]].
  - apply wp_eq_Ok. unfold strdup. apply wp_bind. eapply wp_eq; [apply in_mem_ok, strlen_ok; done|]. apply wp_bind.
    replace (Z.of_nat (length name) + 1 + 1) with (Z.of_nat (length name) + 2) by lia.
    eapply wp_eq; [unfold in_lib, zoom; rewrite Hm; reflexivity|]. rewrite (proj2 (Z.eqb_neq r 0)) by lia. apply wp_bind.
    eapply wp_eq; [unfold in_mem, zoom; change (us_mem (set_us_lib lib s)) with (hm (ul_heap lib)); rewrite E; reflexivity|].
    by wp_steps.
  - intros x Hx. rewrite Hcopy. destruct (Z.leb_spec r x), (Z.ltb_spec x (r + (Z.of_nat (length name) + 2))); cbn [andb]; lia || done.
Qed.

Lemma msg_append_ok name (s : U) :
  msg_append (text "Service registered: ") name s =
  if (length name <? 80)%nat then Ok (text "Service registered: " ++ name, s) else Fault (BadAccess 100).
Proof.
  unfold msg_append. change (length (text "Service registered: ")) with 20%nat.
  destruct (Nat.ltb_spec (length name) 80); [rewrite (proj2 (Z.leb_gt _ _)) by lia | rewrite (proj2 (Z.leb_le _ _)) by lia]; done.
Qed.

(** The service [registersvc] links in. *)
Definition registered (s : U) (m' : mem) (lib : ulib) (p r pid obj : Z) : U :=
  set_us_data (Mgr (<[p := Service r pid obj (services (us_data s))]> (mg_services (us_data s))) p (loglevel (us_data s)))
    (set_us_mem m' (set_us_lib lib s)).

Lemma registered_ok (s : U) l q r name lib m' p pid obj : services_are fuel s l -> fresh_for s l q r name lib ->
  (length name < fuel)%nat -> p <> 0 -> mg_services (us_data s) !! p = None -> cstr m' r name ->
  (forall x, x < r \/ r + Z.of_nat (length name) + 2 <= x -> rd8 m' x = rd8 (hm (ul_heap lib)) x) ->
  services_are fuel (registered s m' lib p r pid obj) ((p, name, pid, obj) :: l).
Proof.
  intros [Hl Hat] [Hm Hb Ha Hs Hn] Hf Hp Hnone Hc Hout. split.
  - cbn. split; [done|]. split; [done|]. eexists. rewrite lookup_insert_eq. split; [done|].
    apply lseg_frame; [|exact Hl]. intros Hi. apply (lseg_in_dom _ _ _ _ _ Hl) in Hi as [_ [? ?]]. congruence.
  - constructor.
    + eexists. cbn. rewrite lookup_insert_eq. split_and!; try done; cbn; lia.
    + apply Forall_forall. intros e He. rewrite Forall_forall in Hat.
      destruct (Hat e He) as (v & Ev & E1 & E2 & E3 & E4 & E5 & E6). destruct (Hn e v He Ev) as [Hcv Hd].
      exists v. cbn. rewrite lookup_insert_ne by congruence. split_and!; try done.
      change (us_mem (registered s m' lib p r pid obj)) with m'.
      apply (cstr_agree (hm (ul_heap lib))); [|done]. intros x Hx. apply Hout. lia.
Qed.

End lemmas.

Lemma sample_services_are : services_are 10 sample_manager sample_services.
Proof.
  split; [by repeat (eexists || split)|]. constructor; [|constructor]. eexists. split; [reflexivity|].
  split_and!; try done; [concrete_cstr | cbn; lia].
Qed.

Lemma sample_malloc : malloc 4 (us_lib sample_manager) = Ok (0x2001000C, sample_lib).
Proof.
  assert (Hr : match malloc 4 (us_lib sample_manager) with Ok (r, _) => r | Fault _ => 0 end = 0x2001000C) by (by vm_compute).
  unfold sample_lib. destruct (malloc 4 (us_lib sample_manager)) as [[r l]|]; [by subst r | discriminate Hr].
Qed.

(** The module from its first instruction to its first answer: it registers
    itself, and answers an [M_NOTHING] request. *)
Example manager_boot :
  match start 20 1 256 (UState (ULib (HState (Heap 0 0 0 0 0)
      (foldr (fun '(a, v) m => wr8 m a v) (fun _ => 0) (imap (fun i c => (256 + Z.of_nat i, c)) (text "manager")))
      (USegment None (fun _ _ => 0) 0)) false) sample_shm ∅ ∅ 0 0
      (Script [(0, UserRequest M_NOTHING_VVVV [0; 0; 0] [0; 0; 0] 1 7)] [] 2 (fun _ => 0)) (Mgr ∅ 0 LL_DEBUG)) with
  | Ok (_, s) => text_of (sc_log (us_kernel s)) = text "[log:??] Notice: Manager module configuring..." ++ [10] ++
      text "[log:manager] Notice: Service registered: manager" ++ [10] ++
      text "[log:manager] Status: Manager module configured : starting request handling." ++ [10] ++
      text "[log:manager] Debug: Received a {nothing} request." ++ [10] /\
    answers_of (sc_log (us_kernel s)) = [(0, 0, 0, 0)]
  | Fault _ => False
  end.
Proof. vm_compute. split; reflexivity. Qed.

(** ** Theorems *)

Section theorems.
Context {K : Type} {KS : UserSys K} {KL : UserSysLaws K}.
Abbreviation U := (ustate K mgr).
Context (fuel : nat).

(** [logsvc] prints one line: who (the most recent service that the
    process registered, or "??"), the level's name, the message; a level
    that is negative or above the configured one prints nothing. *)
Theorem logsvc_line (s : U) l pid log level msg : services_are fuel s l ->
  (forall k, log (set_us_kernel k s) = Ok (msg, set_us_kernel k s)) ->
  if (0 <=? level) && (level <=? loglevel (us_data s)) then
    exists k, logsvc fuel pid log level s = Ok (tt, set_us_kernel k s) /\
      printed k = printed (us_kernel s) ++ log_line l pid level msg /\ answered k = answered (us_kernel s)
  else logsvc fuel pid log level s = Ok (tt, s).
Proof.
  intros W Hlog. destruct (Z.leb_spec 0 level), (Z.leb_spec level (loglevel (us_data s))); cbn [andb];
    [by apply logsvc_ok | ..]; apply wp_eq_Ok; unfold logsvc; wp_steps.
  - rewrite (proj2 (Z.ltb_lt _ _)) by lia. by wp_steps.
  - rewrite (proj2 (Z.ltb_lt level 0)), orb_true_r by lia. by wp_steps.
  - rewrite (proj2 (Z.ltb_lt level 0)), orb_true_r by lia. by wp_steps.
Qed.

(** [handle_open] of a plain name answers the root object of the service
    most recently registered under it, or the error -2; a parameter without
    a terminator in the shared memory is refused with -1 and not read.
    Nothing changes. *)
Theorem handle_open_finds (s : U) l d p : services_are fuel s l -> mp_v (md_param d 0) = p -> p <> 0 ->
  let size := mp_shmsize (md_param d 0) in
  (forall str, cstr (us_mem s) p str -> (length str < fuel)%nat -> 58 ∉ str -> size = 0 \/ Z.of_nat (length str) < size ->
     exists ret, handle_open fuel d s = Ok (ret, s) /\
       match find_named l str with
       | Some e => mr_status ret = 0 /\ mr_type ret = PT_OBJDESC /\ w32 (mr_v ret) = w32 (e_obj e)
       | None => mr_status ret = -2
       end) /\
  (0 < size -> (forall i, 0 <= i < size -> rd8 (us_mem s) (w32 (p + i)) <> 0) ->
     exists ret, handle_open fuel d s = Ok (ret, s) /\ mr_status ret = -1).
Proof.
  intros W Ep Hp size. split.
  - intros str Hc Hf Hno Hsz. destruct (answer_service fuel s l p str W Hc) as (ret & E & Hret).
    exists ret. split; [|exact Hret]. rewrite <- E.
    unfold handle_open. rewrite (bind_Ok _ _ _ _ _ (chksstr_str s d p str Ep Hp Hc Hsz)). cbn [negb]. rewrite Ep. apply run_bind.
    eapply wp_eq; [apply in_mem_ok, (strchr_ok _ _ str); [done | lia | done]|].
    rewrite (str_index_none _ _ Hno). cbn [Z.eqb negb when]. by apply run_bind, wp_ret.
  - intros Hs Hnn. exists (MethodRet 0 PT_VOID (-1)). split; [|done]. unfold handle_open.
    rewrite (bind_Ok _ _ _ _ _ (chksstr_ok s d p Ep Hp)). fold size.
    rewrite (proj2 (Z.eqb_neq size 0)), orb_false_r by lia.
    destruct (has_nul _ p _) eqn:En; [|done]. apply has_nul_spec in En as (i & Hi & E). exfalso.
    apply (Hnn (Z.of_nat i)); [lia | done].
Qed.

(** The separator of "service:resource" is overwritten by the digit '0',
    not by a terminator.  So the lookup is for a service named
    "service0resource": unless one has that name, opening any resource
    fails with -2, whatever services are registered, and the caller's
    shared memory is left with the '0' in it. *)
Theorem handle_open_separator (s : U) l d p a b (str := a ++ 58 :: b) : services_are fuel s l -> mp_v (md_param d 0) = p -> SHM_LO <= p ->
  cstr (us_mem s) p str -> (length str < fuel)%nat -> 58 ∉ a ->
  mp_shmsize (md_param d 0) = 0 \/ Z.of_nat (length str) < mp_shmsize (md_param d 0) ->
  find_named l (a ++ 48 :: b) = None ->
  exists ret s', handle_open fuel d s = Ok (ret, s') /\ mr_status ret = -2 /\
    cstr (us_mem s') p (a ++ 48 :: b) /\ services_are fuel s' l.
Proof.
  intros W Ep Hlo Hc Hf Hno Hsz Hnone. assert (Hp : p <> 0) by (unfold SHM_LO in Hlo; lia).
  set (q := p + Z.of_nat (length a)). pose proof (cstr_length _ _ _ Hc) as [Hc0 Hc1].
  unfold str in Hc1. rewrite length_app in Hc1. cbn [length] in Hc1.
  set (s1 := set_us_mem (wr8 (us_mem s) q 48) s).
  assert (Hc' : cstr (us_mem s1) p (a ++ 48 :: b)) by (by apply cstr_replace with 58).
  assert (W1 : services_are fuel s1 l).
  { destruct W as [Hl Hat]. split; [exact Hl|]. eapply Forall_impl; [exact Hat|].
    intros e (v & Ev & E1 & E2 & E3 & E4 & Hcv & E5). exists v. split_and!; try done.
    apply (cstr_agree (us_mem s)); [|done]. intros x Hx. apply rd8_ne. lia. }
  exists (MethodRet 0 PT_VOID (-2)), s1. split; [|done].
  unfold handle_open. rewrite (bind_Ok _ _ _ _ _ (chksstr_str s d p _ Ep Hp Hc Hsz)). cbn [negb]. rewrite Ep. apply run_bind.
  eapply wp_eq; [apply in_mem_ok, (strchr_ok _ _ str); [done | lia | done]|].
  unfold str. rewrite (str_index_app 58 a b Hno). fold q. rewrite (proj2 (Z.eqb_neq q 0)) by lia. cbn [negb when].
  apply run_bind. eapply wp_eq; [unfold in_mem, zoom, wrb, modify; rewrite (w32_small q) by (unfold u32; lia); reflexivity|].
  fold s1. apply run_bind. eapply wp_eq; [by apply (find_service_ok fuel s1 l)|]. by rewrite Hnone.
Qed.

(** C27. [registersvc] keeps a copy of the name and puts the service in front
    of the list, where [handle_open] finds it first, and logs it; a name of
    80 characters or more overruns the message buffer. *)
Theorem registersvc_registers (s : U) l pid q name obj r lib : services_are fuel s l -> cstr (us_mem s) q name ->
  (length name < fuel)%nat -> fresh_for s l q r name lib -> 3 <= loglevel (us_data s) ->
  if (length name <? 80)%nat then
    exists p s', registersvc fuel pid q obj s = Ok (tt, s') /\ services_are fuel s' ((p, name, pid, obj) :: l) /\
      printed (us_kernel s') = printed (us_kernel s) ++
        log_line ((p, name, pid, obj) :: l) 1 LL_NOTICE (text "Service registered: " ++ name)
  else registersvc fuel pid q obj s = Fault (BadAccess 100).
Proof.
  intros W Hc Hf Hm Hll. set (p := fresh_ptr (mg_services (us_data s))).
  set (s1 := st_put (<[p := Service (us_junk s) (us_junk s) (us_junk s) (us_junk s)]> (mg_services (us_data s))) s : U).
  destruct (strdup_ok fuel s s1 l q r name lib Hm eq_refl Hc Hf) as (m' & E & Hc' & Hout). pose proof (ff_block _ _ _ _ _ _ Hm) as Hb.
  pose proof (fresh_ptr_pos (mg_services (us_data s))) as Hp. fold p in Hp.
  pose proof (registered_ok fuel s l q r name lib m' p pid obj W Hm Hf ltac:(lia) (fresh_ptr_None _) Hc' Hout) as W'.
  set (s' := registered s m' lib p r pid obj) in *.
  assert (Er : registersvc fuel pid q obj s =
    (msg ← msg_append (text "Service registered: ") name; logsvc fuel 1 (fun x => Ok (msg, x)) LL_NOTICE) s').
  { unfold registersvc. apply run_bind. wp_step. apply run_bind, wp_new.
    change (fresh_ptr (st_get s)) with p. apply run_bind. eapply wp_eq; [exact E|].
    apply run_bind. eapply wp_update; [lia | apply lookup_insert_eq |]. cbn. rewrite insert_insert_eq. apply run_bind. wp_step.
    apply run_bind. eapply wp_update; [lia | apply lookup_insert_eq |]. cbn. rewrite insert_insert_eq. apply run_bind. wp_step.
    apply run_bind. eapply wp_load; [lia | apply lookup_insert_eq |]. cbn [svc_name].
    apply run_bind, (wp_eq _ _ name s'); [|reflexivity]. apply chars_ok; [cbn; lia | exact Hc' | exact Hf]. }
  rewrite Er. unfold mbind, M_bind. rewrite msg_append_ok. destruct (length name <? 80)%nat; [|done].
  destruct (logsvc_ok fuel s' _ 1 (fun x => Ok (text "Service registered: " ++ name, x)) LL_NOTICE
    (text "Service registered: " ++ name) W') as (k & Ek & Pk & _); [unfold LL_NOTICE; cbn; lia | done |].
  exists p, (set_us_kernel k s'). split; [exact Ek|]. split; [exact W' | exact Pk].
Qed.

End theorems.

Lemma logsvc_line_witness : exists k, logsvc 10 3 (fun s => Ok (text "up", s)) LL_NOTICE sample_manager = Ok (tt, set_us_kernel k sample_manager) /\
  printed k = text "[log:fs] Notice: up" ++ [10].
Proof.
  destruct (logsvc_line 10 sample_manager sample_services 3 (fun s => Ok (text "up", s)) LL_NOTICE (text "up") sample_services_are)
    as (k & E & P & _); [done|]. exists k. split; [exact E|]. rewrite P. reflexivity.
Defined.

Lemma handle_open_finds_witness : exists ret, handle_open 10 (open_data 256 3) sample_manager = Ok (ret, sample_manager) /\
  mr_status ret = 0 /\ w32 (mr_v ret) = 9.
Proof.
  destruct (handle_open_finds 10 sample_manager sample_services (open_data 256 3) 256 sample_services_are) as [H _]; [done | done |].
  destruct (H (text "fs")) as (ret & E & Hs & _ & Hv).
  - concrete_cstr.
  - cbn. lia.
  - cbn. set_solver.
  - right. cbn. lia.
  - exists ret. split; [exact E|]. split; [exact Hs | exact Hv].
Defined.

Lemma handle_open_separator_witness : exists ret s', handle_open 10 (open_data SHM_LO 5) sample_manager = Ok (ret, s') /\
  mr_status ret = -2 /\ cstr (us_mem s') SHM_LO (text "fs0a").
Proof.
  destruct (handle_open_separator 10 sample_manager sample_services (open_data SHM_LO 5) SHM_LO (text "fs") (text "a")
    sample_services_are) as (ret & s' & E & Hs & Hc & _); [done | done | | cbn; lia | cbn; set_solver | right; cbn; lia | done |].
  - concrete_cstr.
  - exists ret, s'. split; [exact E|]. split; [exact Hs | exact Hc].
Defined.

Lemma registersvc_registers_witness : exists p s', registersvc 10 4 512 7 sample_manager = Ok (tt, s') /\
  services_are 10 s' [(p, text "db", 4, 7); (1, text "fs", 3, 9)] /\
  printed (us_kernel s') = text "[log:??] Notice: Service registered: db" ++ [10].
Proof.
  destruct (registersvc_registers 10 sample_manager sample_services 4 512 (text "db") 7 0x2001000C sample_lib sample_services_are)
    as (p & s' & E & W & P).
  - concrete_cstr.
  - cbn. lia.
  - split.
    + exact sample_malloc.
    + cbn. unfold SHM_LO. lia.
    + cbn. lia.
    + concrete_cstr.
    + intros e v He Ev. apply list_elem_of_singleton in He as ->. injection Ev as <-. split; [|left; by vm_compute].
      concrete_cstr.
  - by vm_compute.
  - exists p, s'. split; [exact E|]. split; [exact W|]. rewrite P. reflexivity.
Defined.
