(* ===== verification/TestModule.v ===== *)
(** * The test module

    [src/modules/test/main.c]: a process with two threads on one library
    state.  The first registers the module with the manager, starts the
    second and sleeps; the second answers the requests sent to the
    process. *)

From stdpp Require Import strings.
From S2P Require Import Prelude Memory Heap Console Strings UShm User Server Calls Manager.

Definition LL_WARNING : Z := 2.

(** The addresses of the string literals that are passed on. *)
Record literals := Literals {
  s_request : Z; s_message : Z; s_waiting : Z; s_hi : Z; s_test : Z; s_creating : Z; s_sending : Z; s_sleeping : Z
}.

(** The addresses of the module's functions. *)
Definition h_nulhandle : Z := 3.
Definition h_openhandle : Z := 4.
Definition thread2_addr : Z := 5.

Section test_module.
Context {K D : Type} `{UserSys K}.
Abbreviation U := (ustate K D).
Context (fuel : nat) (lit : literals).

Definition nulhandle (d : method_data) : M U method_ret :=
  (if negb (md_blocking d =? 0) then c_logSvc fuel (s_request lit) LL_STATUS
   else c_logSvc fuel (s_message lit) LL_STATUS);;
  mr_void.

Definition openhandle (d : method_data) : M U method_ret :=
  ok ← chksstr d 0;
  if negb ok then mr_err (-1)
  else
    printk (text "test.open: ");; c ← chars fuel (mp_v (md_param d 0)); printk c;; printk [10];;
    mr_err (-1).

Definition test_handler (h : Z) (d : method_data) : M U (method_ret * method_data) :=
  r ← (if h =? h_nulhandle then nulhandle d
       else if h =? h_openhandle then openhandle d
       else fail (BadAccess h));
  mret (r, d).

(** The first [n] rounds of the loop of [thread2]. *)
Fixpoint serve (n : nat) (s : ptr) : M U unit :=
  match n with
  | O => mret tt
  | Datatypes.S n' => c_logSvc fuel (s_waiting lit) LL_STATUS;; srv_handle test_handler s HA_WAIT;; serve n' s
  end.

Definition thread2 (n : nat) : M U unit :=
  s ← srv_get 0;
  srv_addHandler s M_NOTHING_VVVV h_nulhandle;;
  srv_addHandler s M_OPEN_OMVV h_openhandle;;
  serve n s.

(** The first [n] rounds of the loop of [main]. *)
Fixpoint sleep_on (n : nat) : M U unit :=
  match n with
  | O => mret tt
  | Datatypes.S n' => in_kernel (sys_thread_sleep 1000);; sleep_on n'
  end.

Definition test_main (n : nat) : M U unit :=
  c_logSvc fuel (s_hi lit) LL_NOTICE;;
  c_registerSvc fuel (s_test lit);;
  c_logSvc fuel (s_creating lit) LL_STATUS;;
  in_kernel (sys_thread_new thread2_addr 0);;
  c_logSvc fuel (s_sending lit) LL_STATUS;;
  _ ← c_nothing 1 0;
  c_logSvc fuel (s_sleeping lit) LL_WARNING;;
  sleep_on n.

End test_module.

(** A sample: the literals are one character long, and the segments that
    requests come with hold "fs". *)
Definition sample_literals : literals := Literals 256 256 256 256 256 256 256 256.
Definition sample_test (inbox : list (Z * user_request)) : ustate script unit :=
  UState (ULib (HState (Heap 0 0 0 0 0) (foldr (fun '(a, v) m => wr8 m a v) (fun _ => 0) [(256, 46)])
    (USegment None (fun _ _ => 0) 0)) false) sample_shm ∅ ∅ 0 0 (Script inbox [] 1 (fun x => nthz [102; 115; 0] (Z.to_nat x))) tt.

(** The process from its first instruction: [main] registers it and starts
    the second thread, which refuses a request to open "fs" after printing
    the name. *)
Example test_runs :
  match (objsrv_init;; test_main 9 sample_literals 2;; thread2 9 sample_literals 1)
      (sample_test [(0, UserRequest M_OPEN_OMVV [0; 0; 0] [3; 0; 0] 1 7)]) with
  | Ok (_, s) => text_of (sc_log (us_kernel s)) = text "test.open: fs" ++ [10] /\
    answers_of (sc_log (us_kernel s)) = [(0, 0, 0, -1)] /\
    omap (fun e => match e with EvThread _ _ | EvSleep _ => Some e | _ => None end) (sc_log (us_kernel s))
      = [EvThread thread2_addr 0; EvSleep 1000; EvSleep 1000]
  | Fault _ => False
  end.
Proof. vm_compute. by split_and!. Qed.

(** ** Theorems *)

Section theorems.
Context {K D : Type} {KS : UserSys K} {KL : UserSysLaws K}.

(** [openhandle] prints the name it was sent, when it is a string, and
    answers -1 in any case; it answers no request itself. *)
Theorem openhandle_prints fuel (s : ustate K D) d p : mp_v (md_param d 0) = p -> p <> 0 ->
  let size := mp_shmsize (md_param d 0) in
  (forall str, cstr (us_mem s) p str -> (length str < fuel)%nat -> size = 0 \/ Z.of_nat (length str) < size ->
    exists r k, openhandle fuel d s = Ok (r, set_us_kernel k s) /\ mr_status r = -1 /\
      printed k = printed (us_kernel s) ++ text "test.open: " ++ str ++ [10] /\ answered k = answered (us_kernel s)) /\
  (0 < size -> (forall i, 0 <= i < size -> rd8 (us_mem s) (w32 (p + i)) <> 0) ->
    exists r, openhandle fuel d s = Ok (r, s) /\ mr_status r = -1).
Proof.
  intros Ep Hp size. split.
  - intros str Hc Hf Hsz. eexists.
    enough (Hw : wp (openhandle fuel d) s (fun r s' => r = MethodRet 0 PT_VOID (-1) /\ exists k, s' = set_us_kernel k s /\
      printed k = printed (us_kernel s) ++ text "test.open: " ++ str ++ [10] /\ answered k = answered (us_kernel s))).
    { apply wp_Ok in Hw as (r & s' & E & -> & k & -> & Hk). exists k. by split. }
    unfold openhandle. wp_step. eapply wp_eq; [by eapply chksstr_str|]. cbn [negb]. wp_step. apply wp_printk. intros k1 P1 A1.
    wp_step. eapply wp_eq; [rewrite Ep; by apply chars_ok|]. wp_step. apply wp_printk. intros k2 P2 A2.
    wp_step. apply wp_printk. intros k3 P3 A3. apply wp_ret. cbn [us_kernel set_us_kernel] in *. split; [done|].
    exists k3. split; [done|]. rewrite P3, P2, P1, <- !app_assoc. split; [done | congruence].
  - intros Hs Hnn. eexists. unfold openhandle. rewrite (bind_Ok _ _ _ _ _ (chksstr_ok s d p Ep Hp)). fold size.
    rewrite (proj2 (Z.eqb_neq size 0)), orb_false_r by lia.
    destruct (has_nul _ p _) eqn:En; [|done]. apply has_nul_spec in En as (i & Hi & E). exfalso.
    apply (Hnn (Z.of_nat i)); [lia | done].
Qed.

End theorems.

Lemma openhandle_prints_witness : exists r k, openhandle 9 (open_data 256 3) sample_manager = Ok (r, set_us_kernel k sample_manager) /\
  mr_status r = -1 /\ printed k = text "test.open: fs" ++ [10].
Proof.
  destruct (openhandle_prints 9 sample_manager (open_data 256 3) 256) as [H _]; [done | done |].
  destruct (H (text "fs")) as (r & k & E & Hs & P & _); [concrete_cstr | cbn; lia | right; cbn; lia |].
  exists r, k. split; [exact E|]. split; [exact Hs|]. rewrite P. reflexivity.
Defined.
